(* ===== verification/_CoqProject ===== *)
-Q . S2P
Prelude.v
Io.v
Program.v
GoStrings.v
GoStringsFacts.v
Utf8.v
GoSort.v
Regex.v
GoNet.v
ConfigData.v
Json.v
Zone.v
Names.v
Validation.v
RRSets.v
DnsNames.v
ZoneRules.v
Serial.v
Sha256.v
ZonePath.v
FileSystem.v
FileManager.v
FileManagerFacts.v
Ulid.v
Store.v
MemoryStore.v
SqlBackend.v
SqlReads.v
SqlWrites.v
SqlProps.v
SqlStores.v
StoreProps.v
Hashing.v
Etcd.v
EtcdFacts.v
EtcdSessions.v
BirdState.v
BirdProtocol.v
BirdRoutes.v
RateLimit.v
Auth.v
Scheduler.v
Nsec.v
Health.v
Http.v
SyncClient.v
Migrate.v
MigrateFacts.v
Sync.v
SyncFacts.v
ZoneDirectory.v
ArtifactCache.v
ArtifactCacheFacts.v
Controller.v
SigningService.v
Handlers.v
RecordHandlers.v
DnsRecords.v
BindFiles.v
Signer.v
SignerFacts.v
KeyManager.v
KeyManagerFacts.v
NameServers.v
NameServersFacts.v
RecordConversion.v
ConfigController.v
ConfigAgent.v
ConfigAgentFacts.v
BirdConfig.v
SignedHandlers.v
Router.v
ConfigFacts.v
ControllerProtocol.v
ControllerSteps.v
ControllerPrograms.v
ControllerReads.v
ControllerFacts.v
ControllerSigner.v
Artifact.v
