(* ===== verification/Prelude.v ===== *)
(** * arca-dns: a verification development

    arca-dns is an authoritative DNS system made of a controller, which stores
    zones behind an HTTP API, signs them and publishes signed zone files, and of
    agents, which fetch those files, serve them through a name server and announce
    anycast routes through BIRD while the service is healthy.  This library
    models the parts of the Go program (under [src/]) that carry its own logic
    and proves what makes them correct.  Every definition keeps the name of the
    Go function it translates where it is one; helpers that translate a loop or
    a stretch of a function have lower-case names.

    ** Layers

    - Foundations.  [Prelude]: errors and results, machine integers, time,
      tactics, hints.  [Io]: a state monad with results and its
      weakest-precondition rules.  [Program]: programs of atomic calls, their
      interleavings and rely-guarantee triples.  [GoStrings], [GoStringsFacts],
      [Utf8], [GoSort], [Regex], [GoNet], [Json], [Http]: what the code
      uses of Go's strings, utf8, sort, regexp, net, netip, strconv,
      encoding/json and net/http packages; [Sha256]: digests, HMAC, hex and
      base64, with the test vectors of the standards as examples; [FileSystem]:
      directories and system calls that may fail.  Sorting is a merge sort,
      adequate for [sort.Slice] because the theorems only use what holds of every
      sorted permutation.
    - Zones ([pkg/model]).  [Zone] (data), [Names] (normalize.go), [Validation]
      (validation.go).  [DnsNames] gives the exact language of names the
      validators accept, [RRSets] the declarative meaning of the record-set
      check, [ZoneRules] the consequences for accepted zones and the splitting of
      TXT values.
    - Identifiers ([pkg/util]).  [Ulid] (ulid.go): identifiers and their bit-level
      encoding; [ZonePath] (zonepath.go): file names of zones.
    - Storage ([pkg/backend]).  [Serial] (SOA serials, and the agent's comparison
      in internal/agent/sync/serial.go); [Store]: the store interface of
      interface.go as a type class with its contract, and the code written
      against it; [MemoryStore] (memory.go), [StoreProps]: the in-memory backend, an
      instance, and its refinement of an abstract map of zones; [SqlBackend]
      (sqlite.go, postgres.go, mysql.go, sql_batch.go, sql_record_ids.go) and its
      proofs [SqlReads], [SqlWrites], [SqlProps], [SqlStores]: the three SQL
      backends over tables whose calls may fail; [Etcd] (etcd.go), [EtcdFacts],
      [EtcdSessions]: the etcd backend in several processes that share one
      cluster; [Hashing] (version.go): the content hash.
    - Controller.  [RateLimit], [Auth] (pkg/middleware); [Controller],
      [SigningService], [ArtifactCache], [ArtifactCacheFacts]
      (internal/controller/service/signer.go); [Handlers], [RecordHandlers],
      [SignedHandlers], [Router] (internal/controller/api; the import of zone files
      is in [BindFiles]), each handler a program of atomic calls.  [ControllerProtocol], [ControllerSteps],
      [ControllerPrograms], [ControllerReads], [ControllerFacts]: the concurrent
      controller; [ControllerSigner]: with the repository's own signer in place,
      and schedules of a controller at work.  [Migrate], [MigrateFacts]
      (cmd/arca-dns-controller/cmd/migrate.go): copying, exporting and importing.
    - DNSSEC and zone files ([pkg/dnssec], [pkg/parser]).  [Nsec] (nsec3.go),
      [DnsRecords], [BindFiles] (bind.go, normalize.go, generator.go, convert.go),
      [Signer], [SignerFacts] (signer.go), [RecordConversion], [Scheduler]
      (scheduler.go).  [KeyManager], [KeyManagerFacts] (keymanager.go,
      keymanager_ops.go, masterkey.go, encryption.go): the keys of a zone on disk.
    - Configuration ([pkg/config]).  [ConfigData] (config.go), [ConfigController],
      [ConfigAgent] (loader.go) and what an accepted configuration gives the
      components built from it: [ConfigFacts], [ConfigAgentFacts].
    - Agent health and routing ([internal/agent/bird], [internal/agent/health]).
      [BirdState] (statemachine.go), [BirdProtocol] (protocol.go), [BirdRoutes]
      (routes.go, loop.go, identifiers of configgen.go), [Health] (checker.go,
      engine.go); [BirdConfig] (configgen.go, cmd/arca-dns-agent/bird_config.go):
      the generated BIRD configuration, the start of route control and the status
      pages.
    - Name servers ([internal/agent/nsd], [internal/agent/unbound],
      [internal/agent/plugin]).  [NameServers]: the controllers of NSD and Unbound,
      the plugin interfaces and the hooks of cmd/arca-dns-agent/main.go;
      [NameServersFacts]: the hooks against the laws of the interfaces
      ([ServiceLaws]), which the two controllers meet.
    - Synchronisation ([internal/agent/sync]).  [SyncClient] (client.go): listing
      and fetching with verification; [Sync] (sync.go): the syncer over an
      interface of the zone file manager, with its theorems in [SyncFacts];
      [FileManager], [FileManagerFacts] (filemanager.go) and [ZoneDirectory], which
      discharges that interface; [Artifact]: what the signed-zone endpoint serves,
      the client accepts.

    ** State and effects

    Sequential code is explicit state passing: a record per component
    ([MemoryBackend], [ulidState], [StateMachine], [RouteManager], [RateLimiter],
    [cache], [fs], [sql], [services], [env] of the syncer) and a function from the state to a
    result and a new state, written in the monad of [Io] where many calls are
    threaded.  Code that runs beside other code on shared state, the controller's
    request handlers and signing service and the operations of the etcd backend,
    is a [prog]: a tree of calls on store, cache, cluster and locks.  A schedule picks whose call is next and what the
    environment answers, so the theorems about runs quantify over all
    interleavings and all failures.  File-system calls ask a [World] whether they
    fail (a killed process is one whose calls all fail from some tick on);
    database calls ask an [Engine].  Pointers to a zone that a store method writes
    through are returned beside the result.  Clock readings and random bytes are
    inputs of each call.  Integers keep their width ([u32], [u64], [i64],
    saturating [time.Time.Sub]).  Errors are values of [error], with [errors.Is] on
    the tree of wrapped errors; message texts are kept as far as they identify
    the error, and an error reply of the API carries its code and message but not
    its details.  Logging and metrics are left out.

    ** What the theorems show

    - Zones: the validators accept exactly the names and record sets described
      by [dns_name] and [rrset_spec]; an accepted zone has only records inside the
      zone whose values have the form of their type ([value_rule]); normal forms are
      stable; derived fields and TXT pieces are
      lossless.
    - Storage: the memory backend refines an abstract map for every sequence of
      requests; so do the SQL backends, whatever calls of the database fail, and
      any number of processes on one etcd cluster, whose transactions are single
      changes of the zones and whose requests can always complete; on
      any store with the contract a lost update is refused and counting
      terminates with the right number; serials only advance, versions are never
      reused, pages tile the listing; two zones have the same canonical form, which
      is hashed, exactly when they have the same content ([zone_equiv]: any spelling
      of names, any order of records); identifiers are strictly increasing.
    - Controller, over a store that keeps its contract ([StoreLaws]: reads do not
      fail and failed writes change nothing): concurrent requests and re-signing jobs linearise; no update is
      lost; every request can complete; replies say what was done; what is
      published and served is a signing of a stored version.  Authentication and
      authorisation decide exactly as configured; the rate limiter is bounded,
      isolates clients and evicts the least recently seen.  An accepted
      configuration closes the API to requests without a configured key.
    - Migration: a copy is complete; an overwrite that fails restores the old
      zone or says that it could not, also on a store whose lookups fail and whose
      failed creations may have taken effect ([FaultyStore]), and never takes away a
      zone of another client; export followed by import gives the same zones.
    - DNSSEC: a signed zone holds exactly the zone's records, keys and denial
      chain ([denial_chain]), each RRset signed with the right key; chains are
      closed, ordered and complete; signed and exported records agree; a scheduler cycle re-signs
      exactly what is due and backs off within bounds; the key manager loses the
      active keys of a zone only when they are removed, whatever fails, in runs where
      the tags of generated keys are distinct and not zero.
    - Routing: thresholds are exact; the cached route state is never wrong under
      any failure of BIRD, whose status tables say [Disabled] of disabled protocols; routes follow health, and are withdrawn when the loop
      ends; outages reach the state machine.  An accepted configuration renders
      one protocol block per name and neighbor, and the BIRD configuration on disk is the one BIRD took or the one from before.
    - Name servers: the generated NSD file is read back as written; a zone that was
      applied is in both files and loaded, though NSD is not reconfigured when its
      file already lists the zone; a deletion that fails brings the zone back.
    - Synchronisation: fetched artifacts are verified; what the controller serves
      the agent accepts; zone files are replaced atomically and a rollback
      restores the directory, but for files named like the backups of the written
      zone; a cycle over names without [.zone.backup] never loses a zone file, nor
      regresses one that can be read, records success only when everything succeeded,
      and undoes a refused zone.

    ** Fuel and bounds

    Recursion is structural except in a few places, which take fuel.  Inside the
    definitions the fuel is fixed and enough: [split_txt] gets the length of the
    value plus one (each piece is non-empty, [ZoneRules.split_txt_total]); [drain] gets 3
    (at most 12 bits are pending, in groups of 5); [evict_loop] the number of
    clients plus one (each step removes one); [walk_up] the length of the name (each
    parent is shorter); [unquote_loop] and [ipv6_groups] the length of their input;
    the JSON reader three times the length of its text plus three; [load_batches]
    the number of zones (each batch has at least one).  [create_temp] tries 10000
    names and MySQL writes 3 times, as the code does.  Where nothing in the code
    bounds a loop the fuel is an argument and a theorem says how much suffices:
    [count_pages] ([count_zones_correct]) and [list_pages] ([list_zones_complete]).

    ** Parameters and hypotheses

    Code that is not in the repository is a parameter: Unicode tables beyond
    ASCII ([UnicodeTables], with [UnicodeLaws] where case folding must be stable),
    the DNS library's records, names, text form, lexer and signing ([RRLib] and
    [DnsLib], with [RRLaws]), the BIRD daemon behind its socket ([BirdDaemon]), the
    token bucket of the rate limiter, [rand.Int63n], the network and JSON decoding
    of the client, net/url, the check of a git branch name, the JSON form of a zone in
    the migration commands and the etcd backend, the answers of the etcd cluster
    (any call may fail, a failed transaction may have been applied), key generation
    and sealing ([KeyLib] with [KeyLaws]), what the control programs of the name
    servers answer, the SQL engine ([Engine], with [Collates] and [fits]:
    text columns are totally ordered, a duplicate key is reported as such, and an
    update counts the rows it finds or changes the timestamp).  The key store of
    the signing service is an argument ([KeyStore]); [ControllerSigner.key_store] is
    the key manager.  Requests are taken as
    decoded ([request_wf]); modification times of files increase where pruning by
    age matters; a failed COMMIT of a database is one that was not applied.  Each theorem with such hypotheses comes with a
    witness that instantiates them.

    ** Not modelled

    The git backend: every operation is a sequence of calls of the git library on
    a working tree.  The dnstap pipeline and the audit log, which only write logs.
    The socket client of BIRD, the connection and watch goroutines of etcd,
    opening of database connections and schema migrations, reading of YAML and
    environment by the viper library, signal handling and the goroutines of the
    daemons, metrics and logging: they are input/output, or drive third-party
    libraries.

    ** Further work

    The git backend over a model of commits; the syncer's theorems with the hooks
    of [BirdConfig.agent_hooks] in place. *)

From stdpp Require Export base tactics list strings gmap sorting.
From Stdlib Require Export ZArith Lia.
From Stdlib Require Strings.Ascii.
Export Strings.Ascii(ascii(..), N_of_ascii, ascii_of_N).
Export (notations) Strings.Ascii.

#[global] Open Scope Z_scope.

(** ** Errors and results

    Go functions that can fail return an [error] beside their value.  An
    [error] is a sentinel value (compared by identity through [errors.Is]), a
    formatted message, a wrapped error ([fmt.Errorf] with a [%w] verb) or the
    join of several errors ([errors.Join]).  The sentinels are those of
    pkg/model/errors.go, then the context's error, the scheduler's, the signing
    service's, the one of the os package for a missing file, the API's error for
    a store without conditional deletes and the body-size error of net/http. *)
Inductive sentinel :=
  | ErrZoneNotFound | ErrZoneAlreadyExists | ErrRecordNotFound
  | ErrInvalidZoneName | ErrInvalidRecordType | ErrInvalidRecordValue
  | ErrInvalidTTL | ErrConflict | ErrVersionNotFound | ErrBackendUnavailable
  | ErrIntegrityCheckFailed | ErrDNSSECSigningFailed | ErrKeyNotFound
  | ErrContextDone | ErrSignatureExpirationUnavailable
  | ErrSignedArtifactUnavailable | ErrSignedArtifactExpired | ErrNotExist
  | ErrConditionalDeleteUnsupported | ErrMaxBytes.

Inductive error :=
  | Sentinel (s : sentinel)
  | Errorf (msg : string)
  | Wrapf (prefix : string) (cause : error)
  | JoinErrs (errs : list error).

#[global] Instance sentinel_eq_dec : EqDecision sentinel.
Proof. solve_decision. Defined.

(** [errors.Is]: walk the tree of wrapped and joined errors. *)
Fixpoint errors_Is (e : error) (target : sentinel) : bool :=
  match e with
  | Sentinel s => bool_decide (s = target)
  | Errorf _ => false
  | Wrapf _ c => errors_Is c target
  | JoinErrs es => existsb (fun e' => errors_Is e' target) es
  end.

Inductive result (A : Type) :=
  | Ok (a : A)
  | Err (e : error).
Arguments Ok {A} a.
Arguments Err {A} e.

Definition rbind {A B} (m : result A) (f : A -> result B) : result B :=
  match m with Ok a => f a | Err e => Err e end.

(** [fmt.Errorf("prefix: %w", err)] applied to a failing result. *)
Definition wrap {A} (prefix : string) (m : result A) : result A :=
  match m with Ok a => Ok a | Err e => Err (Wrapf prefix e) end.

Definition is_ok {A} (m : result A) : bool :=
  match m with Ok _ => true | Err _ => false end.

(** [errors.Join]: nil when every error is nil. *)
Definition errors_Join (errs : list (option error)) : option error :=
  match omap id errs with [] => None | es => Some (JoinErrs es) end.

(** [os.IsNotExist]: the error itself, not one it wraps. *)
Definition os_IsNotExist (e : error) : bool :=
  match e with Sentinel s => bool_decide (s = ErrNotExist) | _ => false end.

(** Condition guarding an early [return err]. *)
Definition guard_err (bad : bool) (e : error) : result unit :=
  if bad then Err e else Ok tt.

Declare Scope go_scope.
Delimit Scope go_scope with go.
Notation "'let*' x ':=' m 'in' k" := (rbind m (fun x => k))
  (at level 10, x pattern, m at level 100, k at level 200) : go_scope.
Notation "m ';;*' k" := (rbind m (fun _ => k))
  (at level 100, right associativity) : go_scope.
#[global] Open Scope go_scope.

(** ** Machine integers

    A Go [uintN] is a [Z] kept in range by an explicit wrap. *)
Definition wrapN (w : Z) (x : Z) : Z := x mod 2 ^ w.
Definition u8 : Z -> Z := wrapN 8.
Definition u16 : Z -> Z := wrapN 16.
Definition u32 : Z -> Z := wrapN 32.
Definition u64 : Z -> Z := wrapN 64.
Definition MaxUint32 : Z := 4294967295.
Definition MaxInt64 : Z := 9223372036854775807.
Definition MinInt64 : Z := -9223372036854775808.

Definition in_range (w x : Z) : Prop := 0 <= x < 2 ^ w.

(** Signed 64-bit wrap ([int], [int64], [time.Duration] arithmetic). *)
Definition i64 (x : Z) : Z := (x + 2 ^ 63) mod 2 ^ 64 - 2 ^ 63.

(** Saturation to the [time.Duration] range, as [Time.Sub] does. *)
Definition sat64 (x : Z) : Z := Z.max MinInt64 (Z.min MaxInt64 x).

(** ** Time

    A [time.Time] is its number of nanoseconds since the Unix epoch; the zero
    [time.Time] is January 1, year 1 UTC. *)
Abbreviation Time := Z (only parsing).
Abbreviation Duration := Z (only parsing).
Definition zeroTime : Time := -62135596800 * 1000000000.
Definition IsZero (t : Time) : bool := t =? zeroTime.
Definition time_Sub (t u : Time) : Duration := sat64 (t - u).
Definition time_Add (t : Time) (d : Duration) : Time := t + d.
Definition time_Before (t u : Time) : bool := t <? u.
Definition Second : Duration := 1000000000.
Definition Minute : Duration := 60 * Second.
Definition Hour : Duration := 60 * Minute.

(** ** Tactics *)

(** Case on the scrutinee of the first [match] or [if] found, goal first. *)
Ltac go_case :=
  match goal with
  | |- context [match ?x with _ => _ end] =>
      lazymatch x with context [match _ with _ => _ end] => fail | _ => destruct x eqn:? end
  | H : context [match ?x with _ => _ end] |- _ =>
      lazymatch x with context [match _ with _ => _ end] => fail | _ => destruct x eqn:? end
  end.

(** Boolean hypotheses to propositions over [Z], [nat] and [string]. *)
Ltac bool_prop :=
  repeat match goal with
  | H : _ && _ = true |- _ => apply andb_true_iff in H; destruct H
  | H : _ || _ = false |- _ => apply orb_false_iff in H; destruct H
  | H : negb _ = true |- _ => apply negb_true_iff in H
  | H : negb _ = false |- _ => apply negb_false_iff in H
  | H : (_ =? _)%Z = true |- _ => apply Z.eqb_eq in H
  | H : (_ =? _)%Z = false |- _ => apply Z.eqb_neq in H
  | H : (_ <? _)%Z = true |- _ => apply Z.ltb_lt in H
  | H : (_ <? _)%Z = false |- _ => apply Z.ltb_ge in H
  | H : (_ <=? _)%Z = true |- _ => apply Z.leb_le in H
  | H : (_ <=? _)%Z = false |- _ => apply Z.leb_gt in H
  | H : (_ =? _)%string = true |- _ => apply String.eqb_eq in H
  | H : (_ =? _)%string = false |- _ => apply String.eqb_neq in H
  | H : bool_decide _ = true |- _ => apply bool_decide_eq_true in H
  | H : bool_decide _ = false |- _ => apply bool_decide_eq_false in H
  end.

(** Invert a successful chain of [let*] steps. *)
Ltac inv_ok :=
  repeat match goal with
  | H : rbind ?m _ = Ok _ |- _ => destruct m eqn:?; cbn [rbind wrap guard_err] in H; [|discriminate H]
  | H : wrap _ ?m = Ok _ |- _ => destruct m eqn:?; cbn [rbind wrap guard_err] in H; [|discriminate H]
  | H : guard_err ?b _ = Ok _ |- _ => destruct b eqn:?; cbn [rbind wrap guard_err] in H; [discriminate H|]
  | H : Ok _ = Ok _ |- _ => injection H as H
  | u : unit |- _ => destruct u
  end.

(** ** Generic lemmas *)

Lemma rbind_ok {A B} (m : result A) (f : A -> result B) b :
  rbind m f = Ok b <-> exists a, m = Ok a /\ f a = Ok b.
Proof.
  destruct m; simpl; split; intros H; [eauto | | discriminate |].
  - by destruct H as (? & [= <-] & ?).
  - by destruct H as (? & [=] & _).
Qed.

Lemma wrap_ok {A} p (m : result A) a : wrap p m = Ok a <-> m = Ok a.
Proof. destruct m; simpl; split; congruence. Qed.

Lemma guard_err_ok b e u : guard_err b e = Ok u <-> b = false.
Proof. destruct b, u; simpl; split; congruence. Qed.

Lemma wrapN_range w x : 0 <= w -> in_range w (wrapN w x).
Proof. intros. apply Z.mod_pos_bound. lia. Qed.

Lemma wrapN_id w x : in_range w x -> wrapN w x = x.
Proof. intros. by apply Z.mod_small. Qed.

Lemma exists_elem_snoc {A} (P : A -> Prop) (l : list A) (a : A) :
  (exists x, x ∈ l ++ [a] /\ P x) <-> (exists x, x ∈ l /\ P x) \/ P a.
Proof.
  setoid_rewrite elem_of_app. setoid_rewrite list_elem_of_singleton. split.
  - intros (x & [Hx| ->] & HP); eauto.
  - intros [(x & Hx & HP)|HP]; eauto.
Qed.

Create HintDb go discriminated.
#[export] Hint Resolve wrapN_range wrapN_id : go.
