(* ===== verification/Io.v ===== *)
(** * Stateful computations

    The monad of the components that act on a world (the zone directory, the
    store behind the API, the artifact directory of the signing service): a
    computation takes the state and returns a value with the new state.  An
    early [return err] of Go is the second bind, which stops at the first
    error.  A weakest-precondition calculus carries the proofs. *)

From S2P Require Import Prelude.

Definition io (S A : Type) : Type := S -> A * S.

Definition io_ret {S A} (a : A) : io S A := fun s => (a, s).
Definition io_bind {S A B} (m : io S A) (k : A -> io S B) : io S B := fun s => let '(a, s') := m s in k a s'.
(** [x, err := m; if err != nil { return err }]. *)
Definition io_try {S A B} (m : io S (result A)) (k : A -> io S (result B)) : io S (result B) :=
  io_bind m (fun r => match r with Ok a => k a | Err e => fun s => (Err e, s) end).
(** [if err := m; err != nil { return fmt.Errorf("prefix: %w", err) }]. *)
Definition io_wrap {S A} (prefix : string) (m : io S (result A)) : io S (result A) :=
  io_bind m (fun r s => (wrap prefix r, s)).
Definition io_fail {S A} (e : error) : io S (result A) := io_ret (Err e).
Definition io_ok {S A} (a : A) : io S (result A) := io_ret (Ok a).

Declare Scope io_scope.
Delimit Scope io_scope with io.
Notation "x <- m ; k" := (io_bind m (fun x => k))
  (at level 100, m at level 99, right associativity) : io_scope.
Notation "x <-? m ; k" := (io_try m (fun x => k))
  (at level 100, m at level 99, right associativity) : io_scope.
Notation "m ;;? k" := (io_try m (fun _ => k)) (at level 100, right associativity) : io_scope.

(** ** Weakest preconditions *)
Definition wpio {S A} (m : io S A) (s : S) (Q : A -> S -> Prop) : Prop := Q (fst (m s)) (snd (m s)).

Section rules.
Context {S : Type}.
Lemma wpio_mono {A} (m : io S A) s Q Q' : wpio m s Q -> (forall a s', Q a s' -> Q' a s') -> wpio m s Q'.
Proof. unfold wpio. auto. Qed.
Lemma wpio_ret {A} (a : A) s (Q : A -> S -> Prop) : Q a s -> wpio (io_ret a) s Q.
Proof. done. Qed.
Lemma wpio_bind {A B} (m : io S A) (k : A -> io S B) s R : wpio m s (fun a s' => wpio (k a) s' R) -> wpio (io_bind m k) s R.
Proof. unfold wpio, io_bind. by destruct (m s). Qed.
Lemma wpio_try {A B} (m : io S (result A)) (k : A -> io S (result B)) s R' :
  wpio m s (fun r s' => match r with Ok a => wpio (k a) s' R' | Err e => R' (Err e) s' end) -> wpio (io_try m k) s R'.
Proof. intros Hm. apply wpio_bind. eapply wpio_mono; [exact Hm|]. by intros [a|e] s'. Qed.
Lemma wpio_wrap {A} p (m : io S (result A)) s Q' : wpio m s (fun r s' => Q' (wrap p r) s') -> wpio (io_wrap p m) s Q'.
Proof. intros Hm. by apply wpio_bind. Qed.
Lemma wpio_run {A} (m : io S A) s a s' Q : m s = (a, s') -> wpio m s Q -> Q a s'.
Proof. unfold wpio. by intros ->. Qed.
End rules.

(** Reason about the next call with a lemma about it. *)
Ltac io_step lem := eapply wpio_mono; [apply lem|].
