(* ===== verification/Program.v ===== *)
(** * Concurrent requests as programs of atomic calls

    A request handler runs beside others: between two of its calls to the store,
    the artifact cache or a lock, another handler may act.  A handler is a
    program, a tree of calls; a pool of programs is run by a schedule that says
    whose call is next and what the environment answers.  Rely-guarantee triples
    carry the proofs: what a thread assumes of the others, what it promises, an
    invariant of the shared state, and a condition on each call. *)

From S2P Require Import Prelude.

Inductive prog (C : Type -> Type) (A : Type) : Type :=
  | Ret (a : A)
  | Call (X : Type) (c : C X) (k : X -> prog C A).
Arguments Ret {C A} a.
Arguments Call {C A X} c k.

Fixpoint bind {C A B} (p : prog C A) (f : A -> prog C B) : prog C B :=
  match p with
  | Ret a => f a
  | Call c k => Call c (fun x => bind (k x) f)
  end.
Definition call {C X} (c : C X) : prog C X := Call c Ret.
Definition try {C A B} (p : prog C (result A)) (f : A -> prog C (result B)) : prog C (result B) :=
  bind p (fun r => match r with Ok a => f a | Err e => Ret (Err e) end).

Declare Scope prog_scope.
Delimit Scope prog_scope with prog.
Notation "x <~ p ; q" := (bind p (fun x => q)) (at level 100, p at level 99, right associativity) : prog_scope.
Notation "x <~? p ; q" := (try p (fun x => q)) (at level 100, p at level 99, right associativity) : prog_scope.
Notation "p ;;~ q" := (bind p (fun _ => q)) (at level 100, right associativity) : prog_scope.

Section semantics.
(** [exec t e c s] runs the call [c] of thread [t] in state [s] with the answer
    [e] of the environment; nothing when the call has to wait. *)
Context {C : Type -> Type} {St Env A : Type}.
Context (exec : forall X, nat -> Env -> C X -> St -> option (X * St)).
Arguments exec {X}.

Definition step (t : nat) (e : Env) (p : prog C A) (s : St) : prog C A * St :=
  match p with
  | Ret _ => (p, s)
  | Call c k => match exec t e c s with Some (x, s') => (k x, s') | None => (p, s) end
  end.

Abbreviation schedule := (list (nat * Env)).
Definition pool_step (te : nat * Env) (ps : list (prog C A) * St) : list (prog C A) * St :=
  match ps.1 !! te.1 with
  | None => ps
  | Some p => let '(p', s') := step te.1 te.2 p ps.2 in (<[te.1 := p']> ps.1, s')
  end.
Definition interleave (sch : schedule) (ps : list (prog C A) * St) : list (prog C A) * St :=
  foldl (fun ps te => pool_step te ps) ps sch.

Lemma interleave_app sch sch' ps : interleave (sch ++ sch') ps = interleave sch' (interleave sch ps).
Proof. apply foldl_app. Qed.
Lemma interleave_cons te sch ps : interleave (te :: sch) ps = interleave sch (pool_step te ps).
Proof. done. Qed.
Lemma pool_step_length te ps : length (pool_step te ps).1 = length ps.1.
Proof. unfold pool_step. destruct (ps.1 !! te.1); [|done]. destruct (step _ _ _ _). apply length_insert. Qed.
Lemma interleave_length sch ps : length (interleave sch ps).1 = length ps.1.
Proof. revert ps. induction sch as [|te sch IH]; intros ps; [done|]. by rewrite interleave_cons, IH, pool_step_length. Qed.

(** ** Rely-guarantee *)
Record protocol := mkProtocol {
  (** The answers the environment may give. *)
  answers : Env -> Prop;
  inv : St -> Prop;
  rely : nat -> St -> St -> Prop;
  guar : nat -> St -> St -> Prop;
  (** What must hold when a thread makes a call. *)
  pre : forall X, nat -> C X -> St -> Prop }.
Arguments pre _ {X}.

Context (P : protocol).

Fixpoint rg {B} (t : nat) (p : prog C B) (Q : B -> St -> Prop) (s : St) : Prop :=
  match p with
  | Ret b => forall s1, rely P t s s1 -> inv P s1 -> Q b s1
  | Call c k => forall s1, rely P t s s1 -> inv P s1 ->
      pre P t c s1 /\ forall e x s2, answers P e -> exec t e c s1 = Some (x, s2) ->
        inv P s2 /\ guar P t s1 s2 /\ rg t (k x) Q s2
  end.

Context `{!forall t, PreOrder (rely P t)}.

Lemma rg_rely {B} t (p : prog C B) Q s s' : rely P t s s' -> rg t p Q s -> rg t p Q s'.
Proof. destruct p; simpl; intros Hr Hp s1 Hs1; apply Hp; by etransitivity. Qed.
Lemma rg_ret {B} t (b : B) (Q : B -> St -> Prop) s : (forall s1, rely P t s s1 -> inv P s1 -> Q b s1) -> rg t (Ret b) Q s.
Proof. done. Qed.
Lemma rg_mono {B} t (p : prog C B) (Q Q' : B -> St -> Prop) s :
  (forall b s1, Q b s1 -> Q' b s1) -> rg t p Q s -> rg t p Q' s.
Proof.
  intros HQ. revert s. induction p as [b|X c k IH]; simpl; intros s Hp s1 Hr Hi; [by apply HQ, Hp|].
  destruct (Hp s1 Hr Hi) as [Hpre Hk]. split; [done|]. intros e x s2 He Hx. destruct (Hk e x s2 He Hx) as (? & ? & ?).
  split_and!; [done..|]. by apply IH.
Qed.
(** States that need to be considered: those the others can bring about that
    keep the invariant. *)
Lemma rg_now {B} t (p : prog C B) Q s : (forall s1, rely P t s s1 -> inv P s1 -> rg t p Q s1) -> rg t p Q s.
Proof. destruct p; simpl; intros Hp s1 Hr Hi; apply (Hp s1 Hr Hi); done. Qed.
Lemma rg_bind {B D} t (p : prog C B) (f : B -> prog C D) Q s :
  rg t p (fun b s1 => rg t (f b) Q s1) s -> rg t (bind p f) Q s.
Proof.
  revert s. induction p as [b|X c k IH]; simpl; intros s Hp.
  - apply rg_now. apply Hp.
  - intros s1 Hr Hi. destruct (Hp s1 Hr Hi) as [Hpre Hk]. split; [done|]. intros e x s2 He Hx.
    destruct (Hk e x s2 He Hx) as (? & ? & ?). split_and!; [done..|]. by apply IH.
Qed.

(** *** Triples

    What a program does from the states of [F], whatever the others do. *)
Definition stable (t : nat) (F : St -> Prop) : Prop := forall s s', F s -> rely P t s s' -> inv P s' -> F s'.
Definition triple {B} (t : nat) (F : St -> Prop) (p : prog C B) (G : B -> St -> Prop) : Prop := forall s, F s -> rg t p G s.

Lemma triple_bind {B D} t F (p : prog C B) (f : B -> prog C D) G G' :
  triple t F p G -> (forall b, triple t (G b) (f b) G') -> triple t F (bind p f) G'.
Proof. intros Hp Hf s Hs. apply rg_bind. eapply rg_mono; [|by apply Hp]. intros b s1. apply Hf. Qed.
Lemma triple_ret {B} t F (b : B) G : stable t F -> (forall s, inv P s -> F s -> G b s) -> triple t F (Ret b) G.
Proof. intros Hst HG s Hs s1 Hr Hi. apply HG; [done|]. by eapply Hst. Qed.
Lemma triple_call {X} t F (c : C X) (G : X -> St -> Prop) : stable t F -> (forall x, stable t (G x)) ->
  (forall s, inv P s -> F s -> pre P t c s
     /\ forall e x s2, answers P e -> exec t e c s = Some (x, s2) -> inv P s2 /\ guar P t s s2 /\ G x s2) ->
  triple t F (call c) G.
Proof.
  intros Hst HG Hc s Hs s1 Hr Hi. destruct (Hc s1 Hi) as [Hpre Hk]; [by eapply Hst|]. split; [done|].
  intros e x s2 He Hx. destruct (Hk e x s2 He Hx) as (? & ? & ?). split_and!; [done..|]. intros s3 Hr3 Hi3. by eapply HG.
Qed.
Lemma triple_conseq {B} t (F F' : St -> Prop) (p : prog C B) (G G' : B -> St -> Prop) :
  triple t F' p G' -> (forall s, F s -> F' s) -> (forall b s, G' b s -> G b s) -> triple t F p G.
Proof. intros Hp HF HG s Hs. eapply rg_mono; [by apply HG|]. by apply Hp, HF. Qed.
Lemma triple_pure {B} t (A' : Prop) (F : St -> Prop) (p : prog C B) G : (A' -> triple t F p G) -> triple t (fun s => A' /\ F s) p G.
Proof. intros Hp s [Ha Hs]. by apply Hp. Qed.
Lemma triple_exists {B D} t (F : D -> St -> Prop) (p : prog C B) G : (forall d, triple t (F d) p G) -> triple t (fun s => exists d, F d s) p G.
Proof. intros Hp s [d Hs]. by apply (Hp d). Qed.
(** A thread knows the invariant when it looks at what it knows. *)
Lemma triple_now {B} t (F F' : St -> Prop) (p : prog C B) G : stable t F -> (forall s, inv P s -> F s -> F' s) -> triple t F' p G -> triple t F p G.
Proof. intros Hst HF Hp s Hs. apply rg_now. intros s1 Hr Hi. apply Hp, HF; [done|]. by eapply Hst. Qed.

(** *** Soundness *)
Context (Post : nat -> A -> St -> Prop).
Context (compatible : forall i j s s', i <> j -> inv P s -> guar P i s s' -> rely P j s s').

Definition pool_ok (ps : list (prog C A) * St) : Prop :=
  inv P ps.2 /\ forall i p, ps.1 !! i = Some p -> rg i p (Post i) ps.2.

Lemma pool_step_ok te ps : answers P te.2 -> pool_ok ps ->
  pool_ok (pool_step te ps) /\ ((pool_step te ps).2 = ps.2 \/ guar P te.1 ps.2 (pool_step te ps).2).
Proof.
  intros He Hok. pose proof Hok as [Hi Hp]. destruct te as [t e]. cbn in He. unfold pool_step. simpl. destruct (ps.1 !! t) as [p|] eqn:Et; [|auto].
  pose proof (Hp t p Et) as Hrg. destruct p as [a|X c k]; simpl.
  { rewrite list_insert_id by done. destruct ps. auto. }
  destruct (Hrg ps.2 ltac:(reflexivity) Hi) as [_ Hk]. destruct (exec t e c ps.2) as [[x s2]|] eqn:Ex; simpl.
  2: { rewrite list_insert_id by done. destruct ps. auto. }
  destruct (Hk e x s2 He Ex) as (Hi2 & Hg & Hk2). split; [|auto]. split; [done|]. simpl. intros i p Hl.
  destruct (decide (i = t)) as [->|Hne].
  - rewrite list_lookup_insert_eq in Hl by (eapply lookup_lt_Some; eauto). by injection Hl as <-.
  - rewrite list_lookup_insert_ne in Hl by done. eapply rg_rely; [|by apply Hp]. eauto.
Qed.
Definition answered (sch : schedule) : Prop := Forall (fun te => answers P te.2) sch.
Lemma interleave_ok sch ps : answered sch -> pool_ok ps -> pool_ok (interleave sch ps).
Proof.
  intros He. revert ps. induction He as [|te sch He _ IH]; intros ps Hok; [done|]. rewrite interleave_cons. by apply IH, pool_step_ok.
Qed.

(** Finished threads satisfy their postcondition. *)
Lemma pool_ok_finished ps i a : pool_ok ps -> ps.1 !! i = Some (Ret a) -> Post i a ps.2.
Proof. intros [Hi Hp] Ha. by apply (Hp i _ Ha ps.2). Qed.

(** *** Progress *)
Definition finished (p : prog C A) : Prop := exists a, p = Ret a.

Definition subtree (p' p : prog C A) : Prop := match p with Ret _ => False | Call _ k => exists x, p' = k x end.
Lemma subtree_wf : well_founded subtree.
Proof. intros p. induction p as [a|X c k IH]; constructor; intros q Hq; [done|]. by destruct Hq as [x ->]. Qed.

Definition pool_lt (l' l : list (prog C A)) : Prop := exists t p p', l !! t = Some p /\ subtree p' p /\ l' = <[t := p']> l.
Lemma pool_lt_cons p l : Acc pool_lt l -> Acc pool_lt (p :: l).
Proof.
  revert l. induction (subtree_wf p) as [p _ IHp]. intros l Hl. induction Hl as [l Hl IHl].
  constructor. intros l' ([|t] & q & q' & Hq & Hs & ->); simpl in *.
  - injection Hq as ->. apply IHp; [done|]. by constructor.
  - apply IHl. by exists t, q, q'.
Qed.
Lemma pool_lt_wf : well_founded pool_lt.
Proof. intros l. induction l as [|p l IH]; [|by apply pool_lt_cons]. constructor. by intros l' (t & q & q' & Hq & _). Qed.

(** When some unfinished thread can always move with answers of [Q], every pool
    can be run to the end with such answers. *)
Lemma interleave_completes (Q : Env -> Prop) (ps : list (prog C A) * St) :
  (forall ps', pool_ok ps' -> ~ Forall finished ps'.1 -> length ps'.1 = length ps.1 ->
     exists t e X (c : C X) k x s', (answers P e /\ Q e) /\ ps'.1 !! t = Some (Call c k) /\ exec t e c ps'.2 = Some (x, s')) ->
  pool_ok ps -> exists sch, Forall (fun te => answers P te.2 /\ Q te.2) sch /\ Forall finished (interleave sch ps).1.
Proof.
  destruct ps as [l0 s0]. simpl. intros Hmove. assert (length l0 = length l0) as Hn by done. revert Hn. revert Hmove.
  generalize (length l0) at 1 3 as n. intros n Hmove. revert s0. induction (pool_lt_wf l0) as [l _ IH]. intros s Hn Hok.
  assert (Forall finished l \/ ~ Forall finished l) as [Hf|Hf].
  { clear. induction l as [|p l IHl]; [by left; constructor|]. destruct IHl as [IHl|IHl].
    - destruct p as [a|X c k]; [left; constructor; [by exists a|done]|].
      right. rewrite Forall_cons. by intros [[a ?] _].
    - right. rewrite Forall_cons. tauto. }
  { exists []. split; [constructor|done]. }
  destruct (Hmove (l, s) Hok Hf Hn) as (t & e & X & c & k & x & s' & He & Ht & Hx). simpl in Ht, Hx.
  assert (pool_step (t, e) (l, s) = (<[t := k x]> l, s')) as E.
  { unfold pool_step. simpl. rewrite Ht. simpl. by rewrite Hx. }
  destruct (IH (<[t := k x]> l)) with (s0 := s') as (sch & Ha & Hsch).
  - exists t, (Call c k), (k x). split_and!; [done|by exists x|done].
  - by rewrite length_insert.
  - rewrite <- E. apply pool_step_ok; [apply He|done].
  - exists ((t, e) :: sch). split; [by constructor|]. by rewrite interleave_cons, E.
Qed.
End semantics.
