(* ===== verification/GoStrings.v ===== *)
(** * Go strings

    Byte strings with the operations of the packages [strings], [strconv],
    [unicode] and [unicode/utf8] that arca-dns uses.  A Go string is a sequence
    of bytes: it is a Rocq [string] whose [ascii] characters are the bytes.
    Functions that look at code points decode UTF-8 exactly as
    [utf8.DecodeRuneInString] does, invalid bytes included. *)

From S2P Require Import Prelude.
From stdpp Require Export pretty.

#[global] Open Scope Z_scope.
#[global] Open Scope go_scope.

(** ** Bytes and slices *)
Definition byte (c : ascii) : Z := Z.of_N (N_of_ascii c).
Definition chr (z : Z) : ascii := ascii_of_N (Z.to_N z).
Definition str1 (c : ascii) : string := String c EmptyString.
Definition dquote : ascii := chr 34.
Definition len (s : string) : Z := Z.of_nat (String.length s).

(** [s[:n]] and [s[n:]] (both only used within bounds by the code). *)
Fixpoint str_take (n : nat) (s : string) : string :=
  match n, s with
  | S n, String a s => String a (str_take n s)
  | _, _ => EmptyString
  end.
Fixpoint str_drop (n : nat) (s : string) : string :=
  match n, s with
  | S n, String _ s => str_drop n s
  | _, _ => s
  end.

Fixpoint str_forallb (f : ascii -> bool) (s : string) : bool :=
  match s with EmptyString => true | String a s => f a && str_forallb f s end.
Fixpoint str_map (f : ascii -> ascii) (s : string) : string :=
  match s with EmptyString => EmptyString | String a s => String (f a) (str_map f s) end.
Definition str_concat (l : list string) : string := foldr String.append EmptyString l.

(** ** UTF-8 *)
Definition RuneError : Z := 65533.
Definition cont (c : ascii) : bool := (128 <=? byte c) && (byte c <=? 191).
Definition within (lo hi : Z) (c : ascii) : bool := (lo <=? byte c) && (byte c <=? hi).
Definition RuneStart (c : ascii) : bool := negb (cont c).

(** [utf8.DecodeRuneInString]: the first code point and its width in bytes. *)
Definition decode_rune (s : string) : Z * nat :=
  match s with
  | EmptyString => (RuneError, 0%nat)
  | String a t =>
    let b0 := byte a in
    if b0 <? 128 then (b0, 1%nat)
    else if (b0 <? 194) || (244 <? b0) then (RuneError, 1%nat)
    else if b0 <? 224 then
      match t with
      | String b _ => if cont b then ((b0 - 192) * 64 + (byte b - 128), 2%nat) else (RuneError, 1%nat)
      | _ => (RuneError, 1%nat)
      end
    else if b0 <? 240 then
      match t with
      | String b (String c _) =>
        let lo := if b0 =? 224 then 160 else 128 in
        let hi := if b0 =? 237 then 159 else 191 in
        if within lo hi b && cont c
        then ((b0 - 224) * 4096 + (byte b - 128) * 64 + (byte c - 128), 3%nat)
        else (RuneError, 1%nat)
      | _ => (RuneError, 1%nat)
      end
    else
      match t with
      | String b (String c (String d _)) =>
        let lo := if b0 =? 240 then 144 else 128 in
        let hi := if b0 =? 244 then 143 else 191 in
        if within lo hi b && cont c && cont d
        then ((b0 - 240) * 262144 + (byte b - 128) * 4096 + (byte c - 128) * 64 + (byte d - 128), 4%nat)
        else (RuneError, 1%nat)
      | _ => (RuneError, 1%nat)
      end
  end.

(** [for _, r := range s]: the code points with the bytes each one covers. *)
Fixpoint chunks_go (skip : nat) (s : string) : list (Z * string) :=
  match s with
  | EmptyString => []
  | String _ t =>
    match skip with
    | S k => chunks_go k t
    | O => let '(r, w) := decode_rune s in (r, str_take w s) :: chunks_go (w - 1) t
    end
  end.
Definition chunks (s : string) : list (Z * string) := chunks_go 0 s.

Definition invalid_chunk (c : Z * string) : bool :=
  (fst c =? RuneError) && (len (snd c) =? 1).
Definition ValidString (s : string) : bool := forallb (fun c => negb (invalid_chunk c)) (chunks s).
Definition ContainsFunc (s : string) (f : Z -> bool) : bool := existsb (fun c => f (fst c)) (chunks s).

(** [utf8.AppendRune]. *)
Definition encode_rune (r0 : Z) : string :=
  let r := if (r0 <? 0) || (1114111 <? r0) || ((55296 <=? r0) && (r0 <=? 57343))
           then RuneError else r0 in
  let b z := chr z in
  if r <? 128 then str1 (b r)
  else if r <? 2048 then String (b (192 + r / 64)) (str1 (b (128 + r mod 64)))
  else if r <? 65536 then
    String (b (224 + r / 4096)) (String (b (128 + (r / 64) mod 64)) (str1 (b (128 + r mod 64))))
  else String (b (240 + r / 262144)) (String (b (128 + (r / 4096) mod 64))
    (String (b (128 + (r / 64) mod 64)) (str1 (b (128 + r mod 64))))).

(** ** Case mapping

    The Unicode case tables for code points outside ASCII are data of the
    standard library that the development does not copy: they are a parameter.
    Few theorems depend on their content; those that do need that no code point
    outside ASCII has an upper-case ASCII letter as its lower case. *)
Class UnicodeTables := { table_lower : Z -> Z }.
Class UnicodeLaws `{UnicodeTables} := lower_not_upper : forall r, 128 <= r -> ~ 65 <= table_lower r <= 90.

(** Tables that leave every code point outside ASCII unchanged, to run the
    definitions on concrete inputs. *)
Definition ascii_tables : UnicodeTables := {| table_lower := fun r => r |}.
Lemma ascii_tables_laws : UnicodeLaws (H := ascii_tables).
Proof. intros r Hr Hu. cbn in Hu. lia. Qed.

Definition lower_byte (c : ascii) : ascii :=
  if (65 <=? byte c) && (byte c <=? 90) then chr (byte c + 32) else c.
Definition is_ascii (s : string) : bool := str_forallb (fun c => byte c <? 128) s.

Definition unicode_ToLower `{UnicodeTables} (r : Z) : Z :=
  if r <? 128 then (if (65 <=? r) && (r <=? 90) then r + 32 else r) else table_lower r.

Definition ToLower `{UnicodeTables} (s : string) : string :=
  if is_ascii s then str_map lower_byte s
  else str_concat (map (fun c => encode_rune (unicode_ToLower (fst c))) (chunks s)).

(** ** White space *)
Definition IsSpace (r : Z) : bool :=
  ((9 <=? r) && (r <=? 13)) || (r =? 32) || (r =? 133) || (r =? 160) || (r =? 5760)
  || ((8192 <=? r) && (r <=? 8202)) || (r =? 8232) || (r =? 8233) || (r =? 8239)
  || (r =? 8287) || (r =? 12288).

Fixpoint drop_spaces (l : list (Z * string)) : list (Z * string) :=
  match l with
  | c :: l' => if IsSpace (fst c) then drop_spaces l' else l
  | [] => []
  end.
Definition TrimSpace (s : string) : string :=
  str_concat (map snd (rev (drop_spaces (rev (drop_spaces (chunks s)))))).

Fixpoint fields_go (cur : string) (l : list (Z * string)) : list string :=
  match l with
  | [] => if (cur =? "")%string then [] else [cur]
  | c :: l' =>
    if IsSpace (fst c)
    then (if (cur =? "")%string then fields_go "" l' else cur :: fields_go "" l')
    else fields_go (cur +:+ snd c) l'
  end.
Definition Fields (s : string) : list string := fields_go "" (chunks s).

(** ** Prefixes, suffixes, searching, splitting *)
Fixpoint strip_prefix (p s : string) : option string :=
  match p, s with
  | EmptyString, _ => Some s
  | String a p', String b s' => if Ascii.eqb a b then strip_prefix p' s' else None
  | _, _ => None
  end.
Definition HasPrefix (s p : string) : bool := bool_decide (is_Some (strip_prefix p s)).
Definition TrimPrefix (s p : string) : string := default s (strip_prefix p s).

Definition HasSuffix (s suf : string) : bool :=
  (String.length suf <=? String.length s)%nat &&
  (str_drop (String.length s - String.length suf) s =? suf)%string.
Definition TrimSuffix (s suf : string) : string :=
  if HasSuffix s suf then str_take (String.length s - String.length suf) s else s.

(** [strings.TrimRight(s, cutset)] for a one-byte cutset. *)
Fixpoint TrimRightByte (c : ascii) (s : string) : string :=
  match s with
  | EmptyString => EmptyString
  | String a t =>
    let r := TrimRightByte c t in
    if (r =? "")%string && Ascii.eqb a c then EmptyString else String a r
  end.
Fixpoint TrimLeftByte (c : ascii) (s : string) : string :=
  match s with
  | EmptyString => ""
  | String a t => if Ascii.eqb a c then TrimLeftByte c t else s
  end.
(** [strings.Trim(s, cutset)] for a one-byte cutset. *)
Definition TrimByte (c : ascii) (s : string) : string := TrimRightByte c (TrimLeftByte c s).

Fixpoint Contains (s sub : string) : bool :=
  HasPrefix s sub || match s with EmptyString => false | String _ t => Contains t sub end.

Fixpoint str_exists (f : ascii -> bool) (s : string) : bool :=
  match s with EmptyString => false | String a t => f a || str_exists f t end.

(** [strings.Split(s, sep)] for a one-byte separator. *)
Fixpoint Split (s : string) (sep : ascii) : list string :=
  match s with
  | EmptyString => [EmptyString]
  | String a t =>
    if Ascii.eqb a sep then EmptyString :: Split t sep
    else match Split t sep with
         | x :: l => String a x :: l
         | [] => [str1 a]
         end
  end.

Fixpoint str_join (l : list string) (sep : string) : string :=
  match l with
  | [] => EmptyString
  | [x] => x
  | x :: l' => x +:+ sep +:+ str_join l' sep
  end.

(** [strings.ReplaceAll(s, old, new)] for a non-empty [old]. *)
Fixpoint replace_go (old new : string) (skip : nat) (s : string) : string :=
  match s with
  | EmptyString => EmptyString
  | String a t =>
    match skip with
    | S k => replace_go old new k t
    | O => if HasPrefix s old then new +:+ replace_go old new (String.length old - 1) t
           else String a (replace_go old new 0 t)
    end
  end.
Definition ReplaceAll (s old new : string) : string := replace_go old new 0 s.

(** ** Decimal numbers *)
Definition is_digit (c : ascii) : bool := (48 <=? byte c) && (byte c <=? 57).
Fixpoint digits_value (acc : Z) (s : string) : option Z :=
  match s with
  | EmptyString => Some acc
  | String a t => if is_digit a then digits_value (acc * 10 + (byte a - 48)) t else None
  end.

(** [strconv.ParseInt(s, 10, 64)] and [strconv.Atoi] ([int] is 64 bits wide);
    [None] for a syntax or a range error. *)
Definition Atoi (s : string) : option Z :=
  let num t := if (t =? "")%string then None else digits_value 0 t in
  match s with
  | String a t =>
    let v := if (byte a =? 45) then option_map Z.opp (num t)
             else if (byte a =? 43) then num t else num s in
    match v with
    | Some z => if (MinInt64 <=? z) && (z <=? MaxInt64) then Some z else None
    | None => None
    end
  | EmptyString => None
  end.

(** [strconv.Itoa], [strconv.FormatUint(_, 10)] and the [%d] verb. *)
Definition Itoa (z : Z) : string := pretty z.

(** Byte-wise string order, the [<] of Go strings. *)
Definition str_ltb (s t : string) : bool := String.ltb s t.
