(* ===== verification/GoStringsFacts.v ===== *)
(** * Lemmas on Go strings

    The algebra of the operations of [GoStrings]: append, slices, prefixes and
    suffixes, byte predicates, case mapping, UTF-8 chunks, splitting and
    joining. *)

From S2P Require Import Prelude GoStrings.

Create Rewrite HintDb gostr.

(** ** Append and slices *)
Lemma str_app_cons a s t : String a s +:+ t = String a (s +:+ t).
Proof. reflexivity. Qed.
Lemma str_app_nil_l s : "" +:+ s = s.
Proof. reflexivity. Qed.
Lemma str_app_nil_r s : s +:+ "" = s.
Proof. induction s as [|a s IH]; [done|]. by rewrite str_app_cons, IH. Qed.
Lemma str_app_assoc s t u : (s +:+ t) +:+ u = s +:+ (t +:+ u).
Proof. induction s as [|a s IH]; [done|]. by rewrite !str_app_cons, IH. Qed.
Lemma str_length_app s t :
  String.length (s +:+ t) = (String.length s + String.length t)%nat.
Proof. induction s as [|a s IH]; [done|]. rewrite str_app_cons; simpl. by rewrite IH. Qed.
#[export] Hint Rewrite str_app_cons str_app_nil_l str_app_nil_r str_app_assoc str_length_app : gostr.

Lemma str_app_inj_l s t u : s +:+ t = s +:+ u -> t = u.
Proof. induction s as [|a s IH]; [done|]. rewrite !str_app_cons. intros [= ?]. auto. Qed.

Lemma str_app_inj s s' t t' :
  String.length s = String.length s' -> s +:+ t = s' +:+ t' -> s = s' /\ t = t'.
Proof.
  revert s'. induction s as [|a s IH]; intros [|b s'] Hl He; simpl in Hl; try discriminate; [done|].
  rewrite !str_app_cons in He. injection He as -> He.
  destruct (IH s') as [-> ->]; auto.
Qed.

Lemma str_app_inj_r s t u : s +:+ u = t +:+ u -> s = t.
Proof.
  intros H. apply (str_app_inj s t u u); [|done].
  apply (f_equal String.length) in H. rewrite !str_length_app in H. lia.
Qed.

Lemma str_take_app s t : str_take (String.length s) (s +:+ t) = s.
Proof. induction s as [|a s IH]; [by destruct t|]. rewrite str_app_cons; simpl. by rewrite IH. Qed.
Lemma str_drop_app s t : str_drop (String.length s) (s +:+ t) = t.
Proof. induction s as [|a s IH]; [by destruct t|]. rewrite str_app_cons; simpl. done. Qed.
Lemma str_take_drop n s : str_take n s +:+ str_drop n s = s.
Proof.
  revert n. induction s as [|a s IH]; intros [|n]; simpl; [done..|].
  by rewrite str_app_cons, IH.
Qed.
Lemma str_take_length n s : String.length (str_take n s) = Nat.min n (String.length s).
Proof. revert n. induction s as [|a s IH]; intros [|n]; simpl; [done..|]. by rewrite IH. Qed.
Lemma str_drop_length n s : String.length (str_drop n s) = (String.length s - n)%nat.
Proof. revert n. induction s as [|a s IH]; intros [|n]; simpl; done. Qed.

Lemma str_length_0 s : String.length s = 0%nat <-> s = "".
Proof. destruct s; simpl; split; congruence. Qed.
Lemma str_app_nil s t : s +:+ t = "" <-> s = "" /\ t = "".
Proof. destruct s; [|by rewrite str_app_cons; split; [|intros []]]. rewrite str_app_nil_l. naive_solver. Qed.

(** ** Prefixes and suffixes *)
Lemma strip_prefix_Some p s t : strip_prefix p s = Some t <-> s = p +:+ t.
Proof.
  revert s. induction p as [|a p IH]; intros s; simpl.
  - rewrite str_app_nil_l. naive_solver.
  - destruct s as [|b s]; [by rewrite str_app_cons|]. rewrite str_app_cons.
    destruct (Ascii.eqb_spec a b) as [->|Hne]; [rewrite IH|]; split; congruence.
Qed.
Lemma HasPrefix_true s p : HasPrefix s p = true <-> exists t, s = p +:+ t.
Proof.
  unfold HasPrefix. rewrite bool_decide_eq_true. unfold is_Some.
  by setoid_rewrite strip_prefix_Some.
Qed.
Lemma TrimPrefix_app p t : TrimPrefix (p +:+ t) p = t.
Proof. unfold TrimPrefix. by rewrite (proj2 (strip_prefix_Some p (p +:+ t) t)). Qed.

Lemma HasSuffix_true s suf : HasSuffix s suf = true <-> exists p, s = p +:+ suf.
Proof.
  unfold HasSuffix. rewrite andb_true_iff, Nat.leb_le, String.eqb_eq. split.
  - intros [Hle Hd]. exists (str_take (String.length s - String.length suf) s).
    rewrite <- Hd at 2. by rewrite str_take_drop.
  - intros [p ->]. rewrite str_length_app.
    replace (String.length p + String.length suf - String.length suf)%nat with (String.length p) by lia.
    rewrite str_drop_app. split; [lia|done].
Qed.
Lemma HasSuffix_app p suf : HasSuffix (p +:+ suf) suf = true.
Proof. apply HasSuffix_true. eauto. Qed.
Lemma TrimSuffix_app p suf : TrimSuffix (p +:+ suf) suf = p.
Proof.
  unfold TrimSuffix. rewrite HasSuffix_app, str_length_app.
  replace (String.length p + String.length suf - String.length suf)%nat with (String.length p) by lia.
  apply str_take_app.
Qed.
Lemma TrimSuffix_no s suf : HasSuffix s suf = false -> TrimSuffix s suf = s.
Proof. unfold TrimSuffix. by intros ->. Qed.
#[export] Hint Rewrite HasSuffix_app TrimSuffix_app TrimPrefix_app : gostr.

Lemma str_drop_app_ge n s t :
  str_drop (String.length s + n) (s +:+ t) = str_drop n t.
Proof. induction s as [|a s IH]; [done|]. rewrite str_app_cons. simpl. apply IH. Qed.

(** A suffix that fits in the right part is a suffix of the right part. *)
Lemma HasSuffix_app_r p t suf :
  (String.length suf <= String.length t)%nat -> HasSuffix (p +:+ t) suf = HasSuffix t suf.
Proof.
  intros Hle. unfold HasSuffix. rewrite str_length_app.
  replace (String.length p + String.length t - String.length suf)%nat
    with (String.length p + (String.length t - String.length suf))%nat by lia.
  rewrite str_drop_app_ge. f_equal. apply eq_true_iff_eq. rewrite !Nat.leb_le. lia.
Qed.

(** Either the suffix is absent or the string splits. *)
Lemma HasSuffix_cases s suf :
  (exists p, s = p +:+ suf /\ HasSuffix s suf = true /\ TrimSuffix s suf = p)
  \/ (HasSuffix s suf = false /\ TrimSuffix s suf = s).
Proof.
  destruct (HasSuffix s suf) eqn:E.
  - left. pose proof E as E'. apply HasSuffix_true in E as [p ->].
    exists p. by rewrite TrimSuffix_app.
  - right. auto using TrimSuffix_no.
Qed.

(** ** Byte predicates and maps *)
Lemma str_forallb_app f s t : str_forallb f (s +:+ t) = str_forallb f s && str_forallb f t.
Proof. induction s as [|a s IH]; [done|]. rewrite str_app_cons; simpl. by rewrite IH, andb_assoc. Qed.
Lemma str_map_app f s t : str_map f (s +:+ t) = str_map f s +:+ str_map f t.
Proof. induction s as [|a s IH]; [done|]. rewrite str_app_cons; simpl. by rewrite IH, str_app_cons. Qed.
Lemma str_map_length f s : String.length (str_map f s) = String.length s.
Proof. induction s as [|a s IH]; simpl; [done|]. by rewrite IH. Qed.
#[export] Hint Rewrite str_forallb_app str_map_app str_map_length : gostr.

Lemma str_forallb_impl (f g : ascii -> bool) s :
  (forall c, f c = true -> g c = true) -> str_forallb f s = true -> str_forallb g s = true.
Proof.
  intros Hfg. induction s as [|a s IH]; simpl; [done|].
  rewrite !andb_true_iff. naive_solver.
Qed.

Lemma str_forallb_map f g s : str_forallb f (str_map g s) = str_forallb (fun c => f (g c)) s.
Proof. induction s as [|a s IH]; simpl; [done|]. by rewrite IH. Qed.

(** Decide a property of all 256 bytes by enumeration. *)
Lemma byte_ind (P : ascii -> bool) :
  forallb P (map (fun n => ascii_of_N (N.of_nat n)) (List.seq 0 256)) = true -> forall c, P c = true.
Proof.
  intros H c. rewrite forallb_forall in H. apply H. apply in_map_iff.
  exists (N.to_nat (N_of_ascii c)). rewrite N2Nat.id, Ascii.ascii_N_embedding. split; [done|].
  apply in_seq. pose proof (Ascii.N_ascii_bounded c). lia.
Qed.

Lemma lower_byte_idem c : lower_byte (lower_byte c) = lower_byte c.
Proof.
  apply Ascii.eqb_eq. revert c.
  refine (byte_ind (fun c => Ascii.eqb (lower_byte (lower_byte c)) (lower_byte c)) _).
  vm_compute. reflexivity.
Qed.
Lemma lower_byte_ascii c : (byte c <? 128) = true -> (byte (lower_byte c) <? 128) = true.
Proof.
  intros H. generalize (byte_ind (fun c => implb (byte c <? 128) (byte (lower_byte c) <? 128))
    ltac:(vm_compute; reflexivity) c). by rewrite H.
Qed.
Lemma byte_range c : 0 <= byte c < 256.
Proof. unfold byte. pose proof (Ascii.N_ascii_bounded c). lia. Qed.
Lemma chr_byte c : chr (byte c) = c.
Proof. unfold chr, byte. rewrite N2Z.id. apply Ascii.ascii_N_embedding. Qed.
Lemma byte_chr z : 0 <= z < 256 -> byte (chr z) = z.
Proof. intros. unfold chr, byte. rewrite Ascii.N_ascii_embedding; lia. Qed.
Lemma byte_inj c d : byte c = byte d -> c = d.
Proof. intros H. by rewrite <- (chr_byte c), H, chr_byte. Qed.

(** ** Case mapping on ASCII strings *)
Section lower.
Context `{UnicodeTables}.

Lemma ToLower_ascii s : is_ascii s = true -> ToLower s = str_map lower_byte s.
Proof. unfold ToLower. by intros ->. Qed.
Lemma is_ascii_app s t : is_ascii (s +:+ t) = is_ascii s && is_ascii t.
Proof. apply str_forallb_app. Qed.
Lemma is_ascii_lower s : is_ascii s = true -> is_ascii (str_map lower_byte s) = true.
Proof.
  unfold is_ascii. rewrite str_forallb_map. apply str_forallb_impl, lower_byte_ascii.
Qed.
Lemma is_ascii_ToLower s : is_ascii s = true -> is_ascii (ToLower s) = true.
Proof. intros Hs. rewrite ToLower_ascii by done. by apply is_ascii_lower. Qed.
Lemma ToLower_app s t : is_ascii s = true -> is_ascii t = true ->
  ToLower (s +:+ t) = ToLower s +:+ ToLower t.
Proof.
  intros Hs Ht. rewrite !ToLower_ascii; [apply str_map_app|done..|].
  by rewrite is_ascii_app, Hs, Ht.
Qed.
Lemma str_map_lower_idem s : str_map lower_byte (str_map lower_byte s) = str_map lower_byte s.
Proof. induction s as [|a s IH]; simpl; [done|]. by rewrite lower_byte_idem, IH. Qed.
Lemma ToLower_idem s : is_ascii s = true -> ToLower (ToLower s) = ToLower s.
Proof.
  intros Hs. rewrite (ToLower_ascii (ToLower s)) by (by apply is_ascii_ToLower).
  rewrite ToLower_ascii by done. apply str_map_lower_idem.
Qed.
Lemma ToLower_length s : is_ascii s = true -> String.length (ToLower s) = String.length s.
Proof. intros Hs. rewrite ToLower_ascii by done. apply str_map_length. Qed.
End lower.

(** ** Splitting and joining *)
Definition lacks (c : ascii) (s : string) : Prop := str_forallb (fun d => negb (Ascii.eqb d c)) s = true.

Lemma lacks_app c s t : lacks c (s +:+ t) <-> lacks c s /\ lacks c t.
Proof. unfold lacks. by rewrite str_forallb_app, andb_true_iff. Qed.

Lemma Split_lacks c s : lacks c s -> Split s c = [s].
Proof.
  unfold lacks. induction s as [|a s IH]; simpl; [done|].
  intros [Ha%negb_true_iff Hs]%andb_true_iff. by rewrite Ha, IH.
Qed.

Lemma Split_app c s t : lacks c s -> Split (s +:+ str1 c +:+ t) c = s :: Split t c.
Proof.
  unfold lacks. induction s as [|a s IH].
  - intros _. unfold str1. rewrite str_app_nil_l, str_app_cons, str_app_nil_l; simpl. by rewrite Ascii.eqb_refl.
  - rewrite str_app_cons; simpl. intros [Ha%negb_true_iff Hs]%andb_true_iff. by rewrite Ha, IH.
Qed.

Lemma Split_nonempty s c : Split s c <> [].
Proof. destruct s; simpl; [done|]. repeat case_match; done. Qed.

Lemma str_join_cons x l sep : l <> [] -> str_join (x :: l) sep = x +:+ sep +:+ str_join l sep.
Proof. destruct l; [done|reflexivity]. Qed.

(** Splitting a joined list of pieces that lack the separator gives it back. *)
Lemma Split_join c ls : ls <> [] -> Forall (lacks c) ls -> Split (str_join ls (str1 c)) c = ls.
Proof.
  intros Hne Hls. induction Hls as [|x ls Hx Hls IH]; [done|].
  destruct (decide (ls = [])) as [->|Hl]; [by apply Split_lacks|].
  rewrite str_join_cons, Split_app by done. by rewrite IH.
Qed.

(** Joining the pieces of a split gives the string back. *)
Lemma join_Split s c : str_join (Split s c) (str1 c) = s.
Proof.
  induction s as [|a s IH]; simpl; [done|]. pose proof (Split_nonempty s c) as Hne.
  destruct (Ascii.eqb_spec a c) as [->|Hac].
  - by rewrite str_join_cons, IH by done.
  - destruct (Split s c) as [|x l]; [done|]. destruct l as [|y l]; simpl in *.
    + by rewrite IH.
    + by rewrite str_app_cons, IH.
Qed.

Lemma Split_pieces_lack s c : Forall (lacks c) (Split s c).
Proof.
  induction s as [|a s IH]; simpl; [by constructor|].
  destruct (Ascii.eqb a c) eqn:E; [by constructor|].
  destruct (Split s c) as [|x l]; [by constructor; [unfold lacks; simpl; rewrite E|]|].
  inversion IH; subst. constructor; [unfold lacks in *; simpl; by rewrite E|done].
Qed.

Lemma find_None_Forall {A} (f : A -> bool) l : find f l = None <-> Forall (fun x => f x = false) l.
Proof.
  induction l as [|x l IH]; simpl; [split; [constructor|done]|].
  rewrite Forall_cons. destruct (f x); [split; [done|intros [? _]; done]|]. rewrite IH. naive_solver.
Qed.

(** Trimming a byte the string does not have. *)
Lemma TrimLeft_lacks c s : lacks c s -> TrimLeftByte c s = s.
Proof. unfold lacks. destruct s as [|a s]; [done|]. cbn. destruct (Ascii.eqb a c); done. Qed.
Lemma TrimRight_lacks c s : lacks c s -> TrimRightByte c s = s /\ TrimRightByte c (s +:+ str1 c) = s.
Proof.
  unfold lacks. induction s as [|a s IH].
  - intros _. split; [done|]. rewrite str_app_nil_l. unfold str1. cbn [TrimRightByte]. by rewrite Ascii.eqb_refl.
  - cbn [str_forallb]. intros [Ha%negb_true_iff Hs]%andb_true_iff. destruct (IH Hs) as [IH1 IH2].
    rewrite str_app_cons. cbn [TrimRightByte]. by rewrite IH1, IH2, Ha, andb_false_r.
Qed.

(** ** The byte-wise order *)
Lemma str_ltb_cons a s b t : str_ltb (String a s) (String b t) =
  if byte a <? byte b then true else if byte b <? byte a then false else str_ltb s t.
Proof.
  unfold str_ltb, String.ltb. cbn [String.compare]. unfold Ascii.compare, byte.
  destruct (N.compare_spec (N_of_ascii a) (N_of_ascii b)) as [E|E|E];
    destruct (Z.ltb_spec (Z.of_N (N_of_ascii a)) (Z.of_N (N_of_ascii b)));
    destruct (Z.ltb_spec (Z.of_N (N_of_ascii b)) (Z.of_N (N_of_ascii a))); lia || done.
Qed.

(** ** Graphic ASCII: no white space to trim *)
Definition graphic (c : ascii) : bool := (33 <=? byte c) && (byte c <=? 126).
Abbreviation graphic_string s := (str_forallb graphic s = true).

Lemma chunks_graphic s : graphic_string s -> Forall (fun c => IsSpace (fst c) = false) (chunks s) /\ str_concat (map snd (chunks s)) = s.
Proof.
  unfold chunks. induction s as [|a s IH]; [by repeat constructor|]. cbn [str_forallb]. intros [Ha Hs]%andb_true_iff.
  destruct (IH Hs) as [IH1 IH2]. unfold graphic in Ha. bool_prop. cbn [chunks_go].
  assert (decode_rune (String a s) = (byte a, 1%nat)) as ->.
  { unfold decode_rune. by rewrite (proj2 (Z.ltb_lt (byte a) 128)) by lia. }
  cbn [Nat.sub map snd str_take]. split.
  - constructor; [|done]. cbn [fst]. unfold IsSpace.
    repeat (apply orb_false_iff; split); try (apply andb_false_iff); rewrite ?Z.leb_gt, ?Z.eqb_neq; lia.
  - cbn [str_concat foldr]. change (foldr String.append "" ?l) with (str_concat l). rewrite IH2. by rewrite str_app_cons, str_app_nil_l.
Qed.

Lemma TrimSpace_graphic s : graphic_string s -> TrimSpace s = s.
Proof.
  intros [Hc Hs]%chunks_graphic. unfold TrimSpace.
  assert (Hid : forall l, Forall (fun c : Z * string => IsSpace (fst c) = false) l -> drop_spaces l = l).
  { intros l [|c l' Hl _]; [done|]. cbn [drop_spaces]. by rewrite Hl. }
  rewrite (Hid (chunks s)) by done. rewrite (Hid (rev (chunks s))) by (by apply Forall_rev). by rewrite rev_involutive.
Qed.

(** ** Decimal numbers *)
Lemma pretty_go_suffix x s : exists p, pretty.pretty_N_go x s = p +:+ s.
Proof.
  revert s. induction (N.lt_wf_0 x) as [x _ IH]. intros s.
  destruct (decide (x = 0)%N) as [->|Hx]; [exists ""; by rewrite pretty.pretty_N_go_0|].
  rewrite pretty.pretty_N_go_step by lia.
  destruct (IH (x / 10)%N ltac:(apply N.div_lt; lia) (String (pretty.pretty_N_char (x mod 10)) s)) as [p Hp].
  exists (p +:+ str1 (pretty.pretty_N_char (x mod 10))). rewrite Hp, str_app_assoc. done.
Qed.
Lemma pretty_char_is_digit d : is_digit (pretty.pretty_N_char d) = true.
Proof. unfold pretty.pretty_N_char. repeat (case_match; try reflexivity). Qed.
Lemma Itoa_last z : exists p c, Itoa z = p +:+ str1 c /\ is_digit c = true.
Proof.
  assert (Hpos : forall n, exists p c, pretty (N.pos n) = p +:+ str1 c /\ is_digit c = true).
  { intros n. unfold pretty, pretty.pretty_N. rewrite decide_False by done. rewrite pretty.pretty_N_go_step by lia.
    destruct (pretty_go_suffix (N.pos n / 10) (str1 (pretty.pretty_N_char (N.pos n mod 10)))) as [p Hp].
    eexists p, _. split; [exact Hp|]. apply pretty_char_is_digit. }
  destruct z as [|n|n].
  - by exists "", "0"%char.
  - apply Hpos.
  - destruct (Hpos n) as (p & c & Hp & Hc). exists ("-" +:+ p), c. split; [|done].
    rewrite str_app_assoc. cbn [String.append]. by rewrite <- Hp.
Qed.

Lemma pretty_char_digit d : (d < 10)%N ->
  is_digit (pretty.pretty_N_char d) = true /\ byte (pretty.pretty_N_char d) - 48 = Z.of_N d.
Proof.
  intros Hd. assert (Hall : d ∈ [0; 1; 2; 3; 4; 5; 6; 7; 8; 9]%N) by (rewrite !elem_of_cons; lia).
  repeat (apply elem_of_cons in Hall as [->|Hall]; [done|]). by apply elem_of_nil in Hall.
Qed.
Lemma digits_pretty x s : digits_value 0 (pretty.pretty_N_go x s) = digits_value (Z.of_N x) s.
Proof.
  revert s. induction (N.lt_wf_0 x) as [x _ IH]; intros s. destruct (decide (x = 0%N)) as [->|Hx]; [done|].
  rewrite pretty.pretty_N_go_step by lia. rewrite IH by (apply N.div_lt; lia). cbn [digits_value].
  destruct (pretty_char_digit (x mod 10)%N) as [-> ->]; [apply N.mod_lt; lia|]. f_equal.
  rewrite N2Z.inj_div, N2Z.inj_mod. change (Z.of_N 10) with 10. Z.to_euclidean_division_equations. lia.
Qed.
Lemma pretty_graphic x s : graphic_string s -> graphic_string (pretty.pretty_N_go x s).
Proof.
  revert s. induction (N.lt_wf_0 x) as [x _ IH]; intros s Hs. destruct (decide (x = 0%N)) as [->|Hx]; [done|].
  rewrite pretty.pretty_N_go_step by lia. apply IH; [apply N.div_lt; lia|]. cbn [str_forallb]. rewrite Hs, andb_true_r.
  destruct (pretty_char_digit (x mod 10)%N) as [Hd _]; [apply N.mod_lt; lia|]. unfold is_digit in Hd. unfold graphic.
  bool_prop. apply andb_true_iff. rewrite !Z.leb_le. lia.
Qed.

Lemma Itoa_spec z : 0 <= z -> digits_value 0 (Itoa z) = Some z /\ graphic_string (Itoa z) /\ Itoa z <> "".
Proof.
  intros Hz. destruct z as [|p|p]; [done| |lia].
  assert (E : Itoa (Z.pos p) = pretty.pretty_N_go (N.pos p) "") by done.
  pose proof (digits_pretty (N.pos p) "") as Hd. cbn [digits_value] in Hd.
  rewrite E. split_and!; [done|by apply pretty_graphic|]. intros Hempty. rewrite Hempty in Hd. discriminate Hd.
Qed.


(** ** Occurrences *)
Lemma app_split_cases (p q c s : string) : p +:+ q = c +:+ s ->
  (exists t, c = p +:+ t /\ q = t +:+ s) \/ (exists t, p = c +:+ t /\ s = t +:+ q).
Proof.
  revert c. induction p as [|a p IH]; intros c E; [left; exists c; done|].
  destruct c as [|b c]; [right; exists (String a p); done|].
  rewrite !str_app_cons in E. injection E as -> E.
  apply IH in E as [(t & -> & ->)|(t & -> & ->)]; [left|right]; exists t; done.
Qed.
Lemma Contains_app a x b : Contains (a +:+ x +:+ b) x = true.
Proof.
  induction a as [|c a IH].
  - rewrite str_app_nil_l. assert (Hp : HasPrefix (x +:+ b) x = true) by (apply HasPrefix_true; eauto).
    destruct (x +:+ b) eqn:E; cbn [Contains]; by rewrite Hp.
  - rewrite str_app_cons. cbn [Contains]. by rewrite IH, orb_true_r.
Qed.

(** ** ASCII characters among the code points *)
Definition ascii_chunk (c : Z * string) : Prop := exists a, byte a < 128 /\ c = (byte a, str1 a).
Lemma chunks_ascii_or s : Forall (fun c => ascii_chunk c \/ 128 <= fst c /\ is_ascii (snd c) = false) (chunks s).
Proof.
  unfold chunks. generalize 0%nat. induction s as [|a s IH]; intros skip; [constructor|]. cbn [chunks_go].
  destruct skip as [|k]; [|apply IH]. destruct (decode_rune (String a s)) as [r w] eqn:E. constructor; [|apply IH].
  unfold decode_rune in E. destruct (Z.ltb_spec (byte a) 128) as [Hlt|Hge].
  - injection E as <- <-. left. exists a. done.
  - right. assert (Hw : exists w', w = S w') by (repeat case_match; injection E as <- <-; eauto). destruct Hw as [w' ->].
    cbn [fst snd str_take is_ascii str_forallb]. unfold is_ascii. cbn [str_forallb]. rewrite (proj2 (Z.ltb_ge _ _) Hge). split; [|done].
    pose proof (byte_range a) as Hr. revert E. cbv zeta. repeat (case_match; try (intros [= <- _]; unfold RuneError; lia)); intros [= <- _]; bool_prop;
      unfold cont, within in *; bool_prop; try lia.
Qed.
Lemma chunks_cons_ascii a s : byte a < 128 -> chunks (String a s) = (byte a, str1 a) :: chunks s.
Proof. intros Ha. unfold chunks. cbn [chunks_go]. unfold decode_rune. by rewrite (proj2 (Z.ltb_lt _ _) Ha). Qed.
Lemma first_rune_ascii a s r w l : chunks (String a s) = (r, w) :: l -> r < 128 -> byte a = r /\ l = chunks s.
Proof.
  intros E Hr. assert (Ha : byte a < 128).
  { pose proof (chunks_ascii_or (String a s)) as Hf. rewrite E in Hf. apply Forall_cons_1, proj1 in Hf. destruct Hf as [(b & Hb & [= -> ->])|[? _]]; [|cbn in *; lia].
    unfold chunks in E. cbn [chunks_go] in E. destruct (decode_rune (String a s)) as [r' w'] eqn:Ed. injection E as -> Ew _.
    unfold decode_rune in Ed. destruct (Z.ltb_spec (byte a) 128); [done|]. assert (exists k, w' = S k) as [k ->] by (repeat case_match; injection Ed as _ <-; eauto).
    cbn [str_take] in Ew. injection Ew as <- _. done. }
  rewrite chunks_cons_ascii in E by done. by injection E as <- _ <-.
Qed.
