(* ===== verification/Utf8.v ===== *)
(** * Valid UTF-8

    The strings [utf8.ValidString] accepts are the sequences of encoded code
    points; decoding and encoding a code point are inverse on them. *)

From S2P Require Import Prelude GoStrings GoStringsFacts.
(** ** Valid UTF-8 as a sequence of encoded code points *)
Definition utf8_piece (c : string) : Prop :=
  (exists r, (forall u, decode_rune (c +:+ u) = (r, String.length c))
             /\ ((r =? RuneError) && (len c =? 1)) = false)
  /\ exists a t, c = String a t /\ RuneStart a = true /\ str_forallb cont t = true.

Inductive utf8 : string -> Prop :=
  | utf8_nil : utf8 ""
  | utf8_cons c s : utf8_piece c -> utf8 s -> utf8 (c +:+ s).

Lemma RuneStart_low a : (byte a <? 128) = true -> RuneStart a = true.
Proof. unfold RuneStart, cont. intros H. bool_prop. destruct (Z.leb_spec 128 (byte a)); [lia|done]. Qed.
Lemma RuneStart_high a : (byte a <? 194) = false -> RuneStart a = true.
Proof.
  unfold RuneStart, cont. intros H. bool_prop. destruct (Z.leb_spec (byte a) 191); [lia|].
  by rewrite andb_false_r.
Qed.

Lemma decode_rune_width s : s <> "" ->
  (1 <= snd (decode_rune s) <= 4)%nat /\ (snd (decode_rune s) <= String.length s)%nat.
Proof.
  destruct s as [|a t]; [done|]. intros _. unfold decode_rune.
  repeat go_case; simpl; lia.
Qed.

(** A well-formed first code point is a piece, whatever follows it. *)
Ltac solve_piece :=
  match goal with
  | Hd : (RuneError, 1%nat) = _ |- _ => injection Hd as <- <-; discriminate
  | Hd : (_, _) = (_, _) |- utf8_piece _ =>
      injection Hd as <- <-; cbn [str_take]; split;
      [eexists; split;
        [intros u; rewrite !str_app_cons, str_app_nil_l; cbn [decode_rune String.length];
         repeat match goal with H : _ = _ :> bool |- _ => try rewrite H; clear H end; reflexivity
        |rewrite andb_false_r; reflexivity]
      |do 2 eexists; split; [reflexivity|split; [by apply RuneStart_high|]]]
  end.

Lemma within_cont lo hi c : 128 <= lo -> hi <= 191 -> within lo hi c = true -> cont c = true.
Proof. unfold within, cont. intros ? ? ?. bool_prop. apply andb_true_iff. split; apply Z.leb_le; lia. Qed.

Lemma decode_rune_piece s r w : s <> "" -> decode_rune s = (r, w) ->
  ((r =? RuneError) && (Z.of_nat w =? 1)) = false -> utf8_piece (str_take w s).
Proof.
  intros Hs Hd Hv. destruct s as [|a t]; [done|]. unfold decode_rune in Hd.
  destruct (byte a <? 128) eqn:E1.
  { injection Hd as <- <-. cbn [str_take]. split; [|exists a, ""; auto using RuneStart_low].
    exists (byte a). split; [|done]. intros u. rewrite str_app_cons. simpl. by rewrite E1. }
  destruct ((byte a <? 194) || (244 <? byte a)) eqn:E2; [solve_piece|].
  pose proof E2 as E2'. apply orb_false_iff in E2' as [E3 E4].
  destruct (byte a <? 224) eqn:E5; [|destruct (byte a <? 240) eqn:E6].
  - destruct t as [|b t]; [solve_piece|]. destruct (cont b) eqn:Eb; [|solve_piece].
    solve_piece. simpl. by rewrite Eb.
  - destruct t as [|b [|c t]]; [solve_piece..|]. destruct (within _ _ b && cont c) eqn:Eb; [|solve_piece].
    solve_piece. apply andb_true_iff in Eb as [Hb%within_cont Hc];
      [simpl; by rewrite Hb, Hc|destruct (byte a =? 224); lia|destruct (byte a =? 237); lia].
  - destruct t as [|b [|c [|d t]]]; [solve_piece..|].
    destruct (within _ _ b && cont c && cont d) eqn:Eb; [|solve_piece].
    solve_piece. apply andb_true_iff in Eb as [Eb Hd']. apply andb_true_iff in Eb as [Hb Hc].
    apply within_cont in Hb;
      [simpl; by rewrite Hb, Hc, Hd'|destruct (byte a =? 240); lia|destruct (byte a =? 244); lia].
Qed.

Lemma chunks_go_drop k s : chunks_go k s = chunks_go 0 (str_drop k s).
Proof. revert s. induction k as [|k IH]; intros [|a s]; [done..|]. simpl. apply IH. Qed.

Lemma chunks_unfold s : s <> "" ->
  chunks s = (fst (decode_rune s), str_take (snd (decode_rune s)) s)
             :: chunks (str_drop (snd (decode_rune s)) s).
Proof.
  intros Hs. unfold chunks. pose proof (decode_rune_width s Hs) as [Hw _].
  destruct s as [|a t]; [done|]. cbn [chunks_go]. destruct (decode_rune (String a t)) as [r w] eqn:E.
  simpl in *. f_equal. rewrite chunks_go_drop. destruct w; [lia|]. simpl. by rewrite Nat.sub_0_r.
Qed.

Lemma utf8_piece_length c : utf8_piece c -> c <> "".
Proof. intros (_ & a & t & -> & _). done. Qed.

Lemma ValidString_cons c s : utf8_piece c -> ValidString (c +:+ s) = ValidString s.
Proof.
  intros Hc. pose proof (utf8_piece_length c Hc) as H0. destruct Hc as [(r & Hd & Hv) _].
  assert (c +:+ s <> "") by (by intros [? _]%str_app_nil).
  unfold ValidString. rewrite chunks_unfold, Hd by done. simpl.
  rewrite str_take_app, str_drop_app. unfold invalid_chunk. simpl. by rewrite Hv.
Qed.

(** [utf8.ValidString] accepts exactly the sequences of encoded code points. *)
Lemma ValidString_utf8 s : ValidString s = true <-> utf8 s.
Proof.
  split; [|induction 1; [done|by rewrite ValidString_cons]].
  induction s as [s IH] using (induction_ltof1 _ String.length). unfold ltof in IH.
  destruct (decide (s = "")) as [->|Hs]; [constructor|].
  unfold ValidString. rewrite chunks_unfold by done. simpl. intros [Hv Hrest]%andb_true_iff.
  pose proof (decode_rune_width s Hs) as [Hw Hle].
  rewrite <- (str_take_drop (snd (decode_rune s)) s) at 1. constructor.
  - apply (decode_rune_piece s (fst (decode_rune s))); [done|by destruct (decode_rune s)|].
    unfold invalid_chunk, len in Hv. simpl in Hv. rewrite str_take_length, Nat.min_l in Hv by done.
    by apply negb_true_iff.
  - apply IH; [|done]. rewrite str_drop_length. lia.
Qed.

(** ** Encoding what was decoded *)
Lemma ascii_utf8 s : is_ascii s = true -> utf8 s.
Proof.
  induction s as [|a s IH]; [constructor|]. cbn. intros [Ha Hs]%andb_true_iff.
  change (String a s) with (str1 a +:+ s). constructor; [|by apply IH]. split.
  - exists (byte a). split; [|by rewrite andb_false_r || (cbn; apply andb_false_iff; left; bool_prop; apply Z.eqb_neq; unfold RuneError; lia)].
    intros u. unfold str1. rewrite str_app_cons, str_app_nil_l. cbn [decode_rune]. by rewrite Ha.
  - exists a, "". split; [done|]. split; [by apply RuneStart_low|done].
Qed.

Lemma within_range lo hi c : within lo hi c = true -> lo <= byte c <= hi.
Proof. unfold within. intros H. bool_prop. lia. Qed.
Lemma cont_range c : cont c = true -> 128 <= byte c <= 191.
Proof. unfold cont. intros H. bool_prop. lia. Qed.
Lemma chr_of z c : z = byte c -> chr z = c.
Proof. intros ->. apply chr_byte. Qed.

Lemma encode_1 r : 0 <= r < 128 -> encode_rune r = str1 (chr r).
Proof.
  intros. unfold encode_rune. rewrite (proj2 (Z.ltb_ge r 0)), (proj2 (Z.ltb_ge 1114111 r)), (proj2 (Z.leb_gt 55296 r)) by lia.
  cbn [orb andb]. by rewrite (proj2 (Z.ltb_lt r 128)) by lia.
Qed.
Lemma encode_2 r x y : r = x * 64 + y -> 2 <= x < 32 -> 0 <= y < 64 ->
  encode_rune r = String (chr (192 + x)) (str1 (chr (128 + y))).
Proof.
  intros -> Hx Hy. unfold encode_rune. set (r := x * 64 + y).
  assert (r / 64 = x /\ r mod 64 = y) as [Hd Hm] by (unfold r; split; Z.to_euclidean_division_equations; lia).
  rewrite (proj2 (Z.ltb_ge r 0)), (proj2 (Z.ltb_ge 1114111 r)), (proj2 (Z.leb_gt 55296 r)) by lia.
  cbn [orb andb]. rewrite (proj2 (Z.ltb_ge r 128)), (proj2 (Z.ltb_lt r 2048)) by lia. by rewrite Hd, Hm.
Qed.
Lemma encode_3 r x y z : r = x * 4096 + y * 64 + z -> 0 <= x < 16 -> 0 <= y < 64 -> 0 <= z < 64 -> 2048 <= r ->
  ~ (55296 <= r <= 57343) ->
  encode_rune r = String (chr (224 + x)) (String (chr (128 + y)) (str1 (chr (128 + z)))).
Proof.
  intros Hr Hx Hy Hz Hlo Hs. unfold encode_rune.
  assert (r / 4096 = x /\ (r / 64) mod 64 = y /\ r mod 64 = z) as (Hd & Hm & Hn) by (split_and!; Z.to_euclidean_division_equations; lia).
  rewrite (proj2 (Z.ltb_ge r 0)), (proj2 (Z.ltb_ge 1114111 r)) by lia.
  destruct ((55296 <=? r) && (r <=? 57343)) eqn:E; [bool_prop; lia|].
  cbn [orb]. rewrite (proj2 (Z.ltb_ge r 128)), (proj2 (Z.ltb_ge r 2048)), (proj2 (Z.ltb_lt r 65536)) by lia.
  by rewrite Hd, Hm, Hn.
Qed.
Lemma encode_4 r x y z w : r = x * 262144 + y * 4096 + z * 64 + w -> 0 <= x < 5 -> 0 <= y < 64 -> 0 <= z < 64 -> 0 <= w < 64 ->
  65536 <= r <= 1114111 ->
  encode_rune r = String (chr (240 + x)) (String (chr (128 + y)) (String (chr (128 + z)) (str1 (chr (128 + w))))).
Proof.
  intros Hr Hx Hy Hz Hw Hlo. unfold encode_rune.
  assert (r / 262144 = x /\ (r / 4096) mod 64 = y /\ (r / 64) mod 64 = z /\ r mod 64 = w) as (Hd & Hm & Hn & Ho)
    by (split_and!; Z.to_euclidean_division_equations; lia).
  rewrite (proj2 (Z.ltb_ge r 0)), (proj2 (Z.ltb_ge 1114111 r)) by lia.
  destruct ((55296 <=? r) && (r <=? 57343)) eqn:E; [bool_prop; lia|].
  cbn [orb]. rewrite (proj2 (Z.ltb_ge r 128)), (proj2 (Z.ltb_ge r 2048)), (proj2 (Z.ltb_ge r 65536)) by lia.
  by rewrite Hd, Hm, Hn, Ho.
Qed.

(** Ranges of the bytes and equality of the re-encoded ones. *)
Ltac utf8_bytes :=
  bool_prop;
  repeat match goal with
  | H : within _ _ _ = true |- _ => apply within_range in H
  | H : cont _ = true |- _ => apply cont_range in H
  end;
  repeat match goal with H : context [if ?b then _ else _] |- _ => destruct b eqn:? end; bool_prop.
Lemma encode_decode s r w : s <> "" -> decode_rune s = (r, w) ->
  ((r =? RuneError) && (Z.of_nat w =? 1)) = false -> encode_rune r = str_take w s.
Proof.
  intros Hs Hd Hv. destruct s as [|a t]; [done|]. unfold decode_rune in Hd. pose proof (byte_range a).
  repeat (go_case; simplify_eq; try discriminate); cbn [str_take]; utf8_bytes; try (exfalso; lia);
    first [rewrite encode_1 by lia
          |erewrite encode_2 by (reflexivity || lia)
          |erewrite encode_3 by (reflexivity || lia)
          |erewrite encode_4 by (reflexivity || lia)];
    unfold str1; repeat f_equal; apply chr_of; lia.
Qed.

(** A piece is the encoding of its code point. *)
Lemma utf8_piece_encode c : utf8_piece c ->
  exists r, c = encode_rune r /\ (forall u, decode_rune (c +:+ u) = (r, String.length c))
            /\ ((r =? RuneError) && (len c =? 1)) = false.
Proof.
  intros Hc. pose proof (utf8_piece_length c Hc) as Hne. destruct Hc as [(r & Hd & Hv) _]. exists r. split; [|done].
  pose proof (Hd "") as Hd0. rewrite str_app_nil_r in Hd0. rewrite (encode_decode c r _ Hne Hd0 Hv).
  symmetry. pose proof (str_take_app c "") as Ht. by rewrite str_app_nil_r in Ht.
Qed.

(** * Trimming white space twice

    [strings.TrimSpace] cuts at code point boundaries, and cutting there does not
    change how the remaining bytes decode: trimming a second time changes
    nothing. *)
Definition text (l : list (Z * string)) : string := str_concat (map snd l).

(** Bytes that start a code point, or no bytes. *)
Definition starts_rune (v : string) : bool := match v with String x _ => RuneStart x | EmptyString => true end.

Lemma start_not_within lo hi x : RuneStart x = true -> 128 <= lo -> hi <= 191 -> within lo hi x = false.
Proof.
  unfold RuneStart, cont, within. intros Hx ? ?. apply negb_true_iff in Hx. rewrite andb_false_iff, !Z.leb_gt in *. lia.
Qed.
Lemma decode_rune_cut u v : u <> "" -> starts_rune v = true -> decode_rune (u +:+ v) = decode_rune u.
Proof.
  intros Hu Hv. destruct v as [|x v]; [by rewrite str_app_nil_r|]. cbn [starts_rune] in Hv.
  assert (Hc : cont x = false) by (by apply negb_true_iff).
  assert (Hw : forall lo hi, 128 <= lo -> hi <= 191 -> within lo hi x = false) by (intros; by apply start_not_within).
  destruct u as [|a u]; [done|]. rewrite str_app_cons. cbn [decode_rune].
  destruct (byte a <? 128); [done|]. destruct (_ || _); [done|]. destruct (byte a <? 224).
  { destruct u as [|b u]; [by rewrite str_app_nil_l, Hc|by rewrite str_app_cons]. }
  destruct (byte a <? 240).
  - destruct u as [|b [|c u]]; [|rewrite str_app_cons, str_app_nil_l|by rewrite !str_app_cons].
    + rewrite str_app_nil_l. destruct v; [done|]. rewrite Hw; [done|destruct (byte a =? 224); lia|destruct (byte a =? 237); lia].
    + by rewrite Hc, andb_false_r.
  - destruct u as [|b [|c [|d u]]]; [|rewrite str_app_cons, str_app_nil_l|rewrite !str_app_cons, str_app_nil_l|by rewrite !str_app_cons].
    + rewrite str_app_nil_l. destruct v as [|? [|? v]]; [done..|]. rewrite Hw; [done|destruct (byte a =? 240); lia|destruct (byte a =? 244); lia].
    + destruct v; [done|]. by rewrite Hc, andb_false_r.
    + by rewrite Hc, andb_false_r.
Qed.

Lemma text_app l l' : text (l ++ l') = text l +:+ text l'.
Proof. unfold text. induction l as [|c l IH]; cbn; [done|]. fold (str_concat (map snd (l ++ l'))) (str_concat (map snd l)). by rewrite IH, str_app_assoc. Qed.
Lemma text_chunks s : text (chunks s) = s.
Proof.
  induction s as [s IH] using (induction_ltof1 _ String.length). unfold ltof in IH. destruct (decide (s = "")) as [->|Hs]; [done|].
  pose proof (decode_rune_width s Hs) as [Hw Hle]. rewrite chunks_unfold by done. unfold text. cbn [map snd]. cbn. fold (str_concat (map snd (chunks (str_drop (snd (decode_rune s)) s)))).
  fold (text (chunks (str_drop (snd (decode_rune s)) s))). rewrite IH by (rewrite str_drop_length; lia). apply str_take_drop.
Qed.
Lemma chunks_nil s : chunks s = [] -> s = "".
Proof. intros E. rewrite <- (text_chunks s), E. done. Qed.
Lemma chunks_first s c l : chunks s = c :: l -> s <> "" /\ c = (fst (decode_rune s), str_take (snd (decode_rune s)) s) /\ l = chunks (str_drop (snd (decode_rune s)) s).
Proof. intros E. assert (Hs : s <> "") by (by intros ->). rewrite chunks_unfold in E by done. injection E as <- <-. done. Qed.

(** A run of code points decodes to itself, wherever it is cut out. *)
Lemma chunks_suffix pre : forall s l, chunks s = pre ++ l -> chunks (text l) = l.
Proof.
  induction pre as [|c pre IH]; intros s l E; cbn [app] in E; [by rewrite <- E, text_chunks|].
  apply chunks_first in E as (_ & _ & E). by apply (IH _ _ (eq_sym E)).
Qed.
Lemma chunks_prefix l : forall s post, chunks s = l ++ post -> starts_rune (text post) = true -> chunks (text l) = l.
Proof.
  induction l as [|c l IH]; intros s post E Hp; [done|]. cbn [app] in E. pose proof E as E'. apply chunks_first in E as (Hs & Ec & El).
  pose proof (IH _ _ (eq_sym El) Hp) as Hl. assert (Es : text (c :: l) +:+ text post = s) by (rewrite <- text_app; cbn [app]; by rewrite <- E', text_chunks).
  pose proof (decode_rune_width s Hs) as [Hw Hle]. assert (Hc : snd c <> "").
  { rewrite Ec. cbn [snd]. intros E0. apply (f_equal String.length) in E0. rewrite str_take_length, Nat.min_l in E0 by done. simpl in E0. lia. }
  assert (Et : text (c :: l) = snd c +:+ text l) by done. assert (Hne : text (c :: l) <> "") by (rewrite Et; by intros [? _]%str_app_nil).
  rewrite chunks_unfold by done. rewrite <- (decode_rune_cut _ (text post)), Es by done.
  assert (Elen : String.length (snd c) = snd (decode_rune s)) by (rewrite Ec; cbn [snd]; by rewrite str_take_length, Nat.min_l by done).
  rewrite Et, <- Elen, str_take_app, str_drop_app, Hl. f_equal. destruct c as [r t]. injection Ec as Er _. cbn [snd]. by rewrite Er.
Qed.

(** ** Trimming *)
Lemma drop_spaces_split l : exists sp, l = sp ++ drop_spaces l /\ Forall (fun c => IsSpace (fst c) = true) sp.
Proof.
  induction l as [|c l (sp & E & Hsp)]; [by exists []|]. cbn [drop_spaces]. destruct (IsSpace (fst c)) eqn:Ec; [|by exists []].
  exists (c :: sp). split; [cbn; by f_equal|by constructor].
Qed.
Lemma drop_spaces_head l : match drop_spaces l with [] => True | c :: _ => IsSpace (fst c) = false end.
Proof. induction l as [|c l IH]; [done|]. cbn [drop_spaces]. by destruct (IsSpace (fst c)) eqn:E. Qed.
Lemma drop_spaces_id l : match l with [] => True | c :: _ => IsSpace (fst c) = false end -> drop_spaces l = l.
Proof. destruct l as [|c l]; [done|]. intros E. cbn [drop_spaces]. by rewrite E. Qed.

(** The first byte of a space is not a continuation byte. *)
Lemma space_starts s c l : chunks s = c :: l -> IsSpace (fst c) = true -> starts_rune s = true.
Proof.
  intros (Hs & -> & _)%chunks_first Hsp. destruct s as [|a s]; [done|]. cbn [starts_rune fst] in *. unfold RuneStart. apply negb_true_iff.
  destruct (cont a) eqn:Ea; [|done]. exfalso. unfold cont in Ea. rewrite andb_true_iff, !Z.leb_le in Ea. cbn [decode_rune] in Hsp.
  rewrite (proj2 (Z.ltb_ge _ _)) in Hsp by lia. assert (E : (byte a <? 194) = true) by (apply Z.ltb_lt; lia). rewrite E in Hsp. discriminate Hsp.
Qed.

Lemma TrimSpace_idem s : TrimSpace (TrimSpace s) = TrimSpace s.
Proof.
  unfold TrimSpace. set (l := drop_spaces (chunks s)). destruct (drop_spaces_split (chunks s)) as (pre & Epre & _). fold l in Epre.
  destruct (drop_spaces_split (rev l)) as (sp & Esp & Hsp). set (m := rev (drop_spaces (rev l))). assert (El : l = m ++ rev sp).
  { unfold m. rewrite <- rev_app_distr, <- Esp. by rewrite rev_involutive. }
  fold (text m). assert (Hl : chunks (text l) = l) by (by apply (chunks_suffix pre s)).
  assert (Hm : chunks (text m) = m).
  { apply (chunks_prefix m (text l) (rev sp)); [by rewrite Hl|]. assert (Hr : chunks (text (rev sp)) = rev sp) by (apply (chunks_suffix m (text l)); by rewrite Hl).
    destruct (rev sp) as [|c r] eqn:Er; [done|]. apply (space_starts _ c r Hr). rewrite Forall_forall in Hsp. apply Hsp. apply list_elem_of_In, in_rev. rewrite Er. by left. }
  rewrite Hm. unfold text. f_equal. f_equal. assert (Eh : drop_spaces m = m).
  { apply drop_spaces_id. destruct m as [|c r] eqn:Em; [done|]. pose proof (drop_spaces_head (chunks s)) as Hh. fold l in Hh. rewrite El in Hh. done. }
  rewrite Eh. unfold m. rewrite rev_involutive, (drop_spaces_id (drop_spaces (rev l))); [done|apply drop_spaces_head].
Qed.
