(* ===== verification/GoSort.v ===== *)
(** * Sorting and slicing

    [sort.Slice] and [sort.Strings]: the model sorts with a merge sort.  Go's
    sort is not stable, so a statement about a sorted slice is only used where
    the comparison determines the result: [sort_Slice_perm] shows that any
    rearrangement of the input gives the same output when no two distinct
    elements tie. *)

From S2P Require Import Prelude GoStrings GoStringsFacts.

(** ** The order of strings *)
Lemma str_ltb_irrefl s : str_ltb s s = false.
Proof. induction s as [|a s IH]; [done|]. by rewrite str_ltb_cons, Z.ltb_irrefl. Qed.
Lemma str_ltb_trans s t u : str_ltb s t = true -> str_ltb t u = true -> str_ltb s u = true.
Proof.
  revert t u. induction s as [|a s IH]; intros [|b t] [|c u]; try done.
  rewrite !str_ltb_cons.
  destruct (Z.ltb_spec (byte a) (byte b)), (Z.ltb_spec (byte b) (byte c)), (Z.ltb_spec (byte a) (byte c));
    try done; try lia;
  destruct (Z.ltb_spec (byte b) (byte a)), (Z.ltb_spec (byte c) (byte b)), (Z.ltb_spec (byte c) (byte a));
    try done; try lia. apply IH.
Qed.
Lemma str_ltb_total s t : str_ltb s t = true \/ s = t \/ str_ltb t s = true.
Proof.
  revert t. induction s as [|a s IH]; intros [|b t]; [tauto|by left|by right; right|].
  rewrite !str_ltb_cons.
  destruct (Z.ltb_spec (byte a) (byte b)), (Z.ltb_spec (byte b) (byte a)); try tauto.
  assert (a = b) as -> by (apply byte_inj; lia). destruct (IH t) as [?|[->|?]]; tauto.
Qed.
Lemma str_ltb_asym s t : str_ltb s t = true -> str_ltb t s = false.
Proof.
  intros H1. apply not_true_iff_false. intros H2.
  pose proof (str_ltb_trans _ _ _ H1 H2). by rewrite str_ltb_irrefl in *.
Qed.
Lemma str_leb_antisym s t : str_ltb s t = false -> str_ltb t s = false -> s = t.
Proof. intros H1 H2. destruct (str_ltb_total s t) as [?|[?|?]]; congruence. Qed.

(** ** [sort.Slice] *)
Section sort.
Context {A : Type} (less : A -> A -> bool).
Definition not_after (x y : A) : Prop := less y x = false.
#[local] Instance not_after_dec x y : Decision (not_after x y).
Proof. unfold not_after. apply _. Defined.

Definition sort_Slice (l : list A) : list A := merge_sort not_after l.

Lemma sort_Slice_Permutation l : sort_Slice l ≡ₚ l.
Proof. apply merge_sort_Permutation. Qed.

(** The comparison is a strict weak order. *)
Class WeakOrder := {
  less_asym : forall x y, less x y = true -> less y x = false;
  not_after_trans : forall x y z, less y x = false -> less z y = false -> less z x = false }.
Context `{WeakOrder}.

#[local] Instance not_after_total : Total not_after.
Proof. intros x y. unfold not_after. destruct (less y x) eqn:E; [right; by apply less_asym|by left]. Qed.
#[local] Instance not_after_transitive : Transitive not_after.
Proof. intros x y z. apply not_after_trans. Qed.

Lemma sort_Slice_sorted l : StronglySorted not_after (sort_Slice l).
Proof. apply StronglySorted_merge_sort; apply _. Qed.

Lemma sort_Slice_unique l l' :
  (forall x y, x ∈ l -> y ∈ l -> less x y = false -> less y x = false -> x = y) ->
  StronglySorted not_after l' -> l' ≡ₚ l -> sort_Slice l = l'.
Proof.
  intros Hanti Hs Hp. apply (StronglySorted_unique_strong not_after); [|apply sort_Slice_sorted|done|].
  - intros x y Hx Hy. rewrite sort_Slice_Permutation in Hx. rewrite Hp in Hy. intros H1 H2.
    apply Hanti; done.
  - by rewrite sort_Slice_Permutation.
Qed.

Lemma sort_Slice_perm l l' :
  (forall x y, x ∈ l -> y ∈ l -> less x y = false -> less y x = false -> x = y) ->
  l ≡ₚ l' -> sort_Slice l = sort_Slice l'.
Proof.
  intros Hanti Hp. apply sort_Slice_unique; [done|apply sort_Slice_sorted|].
  rewrite sort_Slice_Permutation. by symmetry.
Qed.
End sort.
Arguments WeakOrder {A} less.

(** Comparing by a string key. *)
#[global] Instance by_key_weak {A} (key : A -> string) : WeakOrder (fun x y => str_ltb (key x) (key y)).
Proof.
  split.
  - intros x y. apply str_ltb_asym.
  - intros x y z H1 H2. destruct (str_ltb_total (key x) (key y)) as [Hl|[E|Hl]]; [|congruence..].
    apply not_true_iff_false. intros Hz. pose proof (str_ltb_trans _ _ _ Hz Hl). congruence.
Qed.

Definition sort_Strings (l : list string) : list string := sort_Slice str_ltb l.
#[global] Instance str_ltb_weak : WeakOrder str_ltb := by_key_weak (fun s => s).

Lemma sort_Strings_perm l l' : l ≡ₚ l' -> sort_Strings l = sort_Strings l'.
Proof. apply (sort_Slice_perm str_ltb). intros x y _ _. apply str_leb_antisym. Qed.

(** ** Lexicographic comparisons *)
Class StrictTotal {K} (lt : K -> K -> bool) (eqb : K -> K -> bool) := {
  st_irrefl : forall a, lt a a = false;
  st_trans : forall a b c, lt a b = true -> lt b c = true -> lt a c = true;
  st_total : forall a b, lt a b = true \/ a = b \/ lt b a = true;
  st_eqb : forall a b, eqb a b = true <-> a = b }.

#[global] Instance str_strict : StrictTotal str_ltb String.eqb.
Proof. split; [apply str_ltb_irrefl|apply str_ltb_trans|apply str_ltb_total|apply String.eqb_eq]. Qed.
#[global] Instance Z_strict : StrictTotal Z.ltb Z.eqb.
Proof. split; intros; rewrite ?Z.ltb_lt, ?Z.eqb_eq in *; lia. Qed.

(** [if ka != kb { return ka < kb }; return less(a, b)]. *)
Definition lex_less {A K} (lt eqb : K -> K -> bool) (key : A -> K) (less : A -> A -> bool) (a b : A) : bool :=
  if negb (eqb (key a) (key b)) then lt (key a) (key b) else less a b.

Lemma lex_cases {A K} (lt eqb : K -> K -> bool) `{!StrictTotal lt eqb} (key : A -> K) less a b :
  (key a = key b /\ lex_less lt eqb key less a b = less a b)
  \/ (lt (key a) (key b) = true /\ lex_less lt eqb key less a b = true)
  \/ (lt (key b) (key a) = true /\ lex_less lt eqb key less a b = false).
Proof.
  assert (forall x y, lt x y = true -> x <> y /\ lt y x = false) as Hne.
  { intros x y Hl. split; [intros ->; by rewrite st_irrefl in Hl|].
    apply not_true_iff_false. intros Hl'. pose proof (st_trans _ _ _ Hl Hl'). by rewrite st_irrefl in *. }
  unfold lex_less. destruct (st_total (key a) (key b)) as [Hl|[E|Hl]].
  - right. left. destruct (Hne _ _ Hl) as [Hn _]. rewrite <- st_eqb in Hn. apply not_true_is_false in Hn.
    by rewrite Hn.
  - left. rewrite (proj2 (st_eqb _ _) E). done.
  - right. right. destruct (Hne _ _ Hl) as [Hn Hf]. assert (eqb (key a) (key b) = false) as ->; [|by split].
    apply not_true_is_false. rewrite st_eqb. congruence.
Qed.

#[global] Instance lex_weak {A K} (lt eqb : K -> K -> bool) `{!StrictTotal lt eqb} (key : A -> K) less
  `{!WeakOrder less} : WeakOrder (lex_less lt eqb key less).
Proof.
  assert (forall x y, lt x y = true -> lt y x = true -> False) as Ha.
  { intros x y Hl Hl'. pose proof (st_trans _ _ _ Hl Hl'). by rewrite st_irrefl in *. }
  assert (forall x y z, lt x y = true -> lt y z = true -> lt z x = true -> False) as Ha3.
  { intros x y z H1 H2 H3. exact (Ha _ _ (st_trans _ _ _ H1 H2) H3). }
  split.
  - intros x y. destruct (lex_cases lt eqb key less x y) as [[E ->]|[[E ->]|[E ->]]];
      destruct (lex_cases lt eqb key less y x) as [[E' ->]|[[E' ->]|[E' ->]]]; try done; try (by apply less_asym).
    all: exfalso; revert E E'; generalize (key x) (key y); intros; subst; eauto.
  - intros x y z. destruct (lex_cases lt eqb key less y x) as [[E ->]|[[E ->]|[E ->]]]; [|done|];
      (destruct (lex_cases lt eqb key less z y) as [[E' ->]|[[E' ->]|[E' ->]]]; [|done|]);
      (destruct (lex_cases lt eqb key less z x) as [[E'' ->]|[[E'' ->]|[E'' ->]]]); try done;
      try (by apply not_after_trans).
    all: intros _ _; exfalso; revert E E' E''; generalize (key x) (key y) (key z); intros; subst; eauto.
Qed.

(** Ties under a lexicographic comparison. *)
Lemma lex_tie {A K} (lt eqb : K -> K -> bool) `{!StrictTotal lt eqb} (key : A -> K) less a b :
  lex_less lt eqb key less a b = false -> lex_less lt eqb key less b a = false ->
  key a = key b /\ less a b = false /\ less b a = false.
Proof.
  assert (forall x y, lt x y = true -> lt y x = true -> False) as Ha.
  { intros x y Hl Hl'. pose proof (st_trans _ _ _ Hl Hl'). by rewrite st_irrefl in *. }
  destruct (lex_cases lt eqb key less a b) as [[E ->]|[[E ->]|[E ->]]]; [|done|];
    destruct (lex_cases lt eqb key less b a) as [[E' ->]|[[E' ->]|[E' ->]]]; try done.
  - rewrite E in E'. intros. exfalso. eauto.
  - rewrite E' in E. intros. exfalso. eauto.
  - intros. exfalso. eauto.
Qed.
