(* ===== verification/Regex.v ===== *)
(** * Regular expressions

    The fragment of Go's [regexp] syntax used by the validators: byte classes,
    concatenation, alternation, [*], [?] and bounded repetition, matched
    against the whole text ([^...$]) by Brzozowski derivatives.  The matcher is
    proved to decide the denotation of the expression. *)

From S2P Require Import Prelude GoStrings GoStringsFacts.

Inductive regex :=
  | RNone
  | REps
  | RClass (f : ascii -> bool)
  | RCat (r s : regex)
  | RAlt (r s : regex)
  | RStar (r : regex).

Definition ROpt (r : regex) : regex := RAlt REps r.

(** [r{0,n}]. *)
Fixpoint RUpTo (r : regex) (n : nat) : regex :=
  match n with
  | O => REps
  | S n' => RAlt REps (RCat r (RUpTo r n'))
  end.
Definition RPlus (r : regex) : regex := RCat r (RStar r).
Definition RByte (a : ascii) : regex := RClass (Ascii.eqb a).

(** ** Denotation *)
Inductive matches : regex -> string -> Prop :=
  | MEps : matches REps ""
  | MClass f a : f a = true -> matches (RClass f) (str1 a)
  | MCat r s x y : matches r x -> matches s y -> matches (RCat r s) (x +:+ y)
  | MAltL r s x : matches r x -> matches (RAlt r s) x
  | MAltR r s x : matches s x -> matches (RAlt r s) x
  | MStarNil r : matches (RStar r) ""
  | MStarCons r x y : matches r x -> matches (RStar r) y -> matches (RStar r) (x +:+ y).

(** ** The matcher *)
Fixpoint nullable (r : regex) : bool :=
  match r with
  | RNone | RClass _ => false
  | REps | RStar _ => true
  | RCat r s => nullable r && nullable s
  | RAlt r s => nullable r || nullable s
  end.

Definition cat_smart (r s : regex) : regex :=
  match r, s with
  | RNone, _ | _, RNone => RNone
  | REps, _ => s
  | _, _ => RCat r s
  end.
Definition alt_smart (r s : regex) : regex :=
  match r, s with
  | RNone, _ => s
  | _, RNone => r
  | _, _ => RAlt r s
  end.

Fixpoint deriv (a : ascii) (r : regex) : regex :=
  match r with
  | RNone | REps => RNone
  | RClass f => if f a then REps else RNone
  | RCat r s =>
    if nullable r then alt_smart (cat_smart (deriv a r) s) (deriv a s)
    else cat_smart (deriv a r) s
  | RAlt r s => alt_smart (deriv a r) (deriv a s)
  | RStar r => cat_smart (deriv a r) (RStar r)
  end.

(** [regexp.MustCompile("^" ++ r ++ "$").MatchString(s)]. *)
Fixpoint MatchString (r : regex) (s : string) : bool :=
  match s with
  | EmptyString => nullable r
  | String a t => MatchString (deriv a r) t
  end.

(** ** Inversion of the denotation *)
Lemma matches_none x : ~ matches RNone x.
Proof. by inversion 1. Qed.
Lemma matches_eps x : matches REps x <-> x = "".
Proof. split; [by inversion 1|intros ->; constructor]. Qed.
Lemma matches_class f x : matches (RClass f) x <-> exists a, x = str1 a /\ f a = true.
Proof. split; [inversion 1; subst; eauto|intros (a & -> & ?); by constructor]. Qed.
Lemma matches_cat r s z :
  matches (RCat r s) z <-> exists x y, z = x +:+ y /\ matches r x /\ matches s y.
Proof. split; [inversion 1; subst; eauto|intros (x & y & -> & ? & ?); by constructor]. Qed.
Lemma matches_alt r s x : matches (RAlt r s) x <-> matches r x \/ matches s x.
Proof.
  split; [inversion 1; subst; auto|intros [?|?]; [by apply MAltL|by apply MAltR]].
Qed.
Lemma matches_opt r x : matches (ROpt r) x <-> x = "" \/ matches r x.
Proof. unfold ROpt. by rewrite matches_alt, matches_eps. Qed.

(** A non-empty match of a star starts with a non-empty match of its body. *)
Lemma matches_star_cons r a x :
  matches (RStar r) (String a x) <->
  exists y z, x = y +:+ z /\ matches r (String a y) /\ matches (RStar r) z.
Proof.
  split.
  - intros H. remember (RStar r) as rs eqn:Er. remember (String a x) as w eqn:Ew.
    revert x Ew. induction H as [| | | | | |r' u v Hu _ Hv IHv]; try discriminate.
    injection Er as ->. intros x Ew. destruct u as [|b u].
    + rewrite str_app_nil_l in Ew. apply IHv; done.
    + rewrite str_app_cons in Ew. injection Ew as -> <-. eauto.
  - intros (y & z & -> & Hy & Hz). apply (MStarCons r (String a y) z); done.
Qed.

Lemma cat_smart_matches r s x : matches (cat_smart r s) x <-> matches (RCat r s) x.
Proof.
  unfold cat_smart.
  assert (forall t, ~ matches (RCat RNone t) x) as Hl
    by (intros t (y & z & _ & H & _)%matches_cat; by apply matches_none in H).
  assert (forall t, ~ matches (RCat t RNone) x) as Hr
    by (intros t (y & z & _ & _ & H)%matches_cat; by apply matches_none in H).
  assert (forall t, matches (RCat REps t) x <-> matches t x) as He.
  { intros t. rewrite matches_cat. setoid_rewrite matches_eps. split.
    - by intros (? & y & -> & -> & ?).
    - intros ?. exists "", x. done. }
  pose proof (matches_none x). destruct r, s; rewrite ?He; naive_solver.
Qed.

Lemma alt_smart_matches r s x : matches (alt_smart r s) x <-> matches (RAlt r s) x.
Proof.
  rewrite matches_alt. pose proof (matches_none x).
  unfold alt_smart; destruct r, s; rewrite ?matches_alt; naive_solver.
Qed.

Lemma nullable_spec r : nullable r = true <-> matches r "".
Proof.
  induction r as [| |f|r IHr s IHs|r IHr s IHs|r IHr]; simpl.
  - split; [done|by intros ?%matches_none].
  - by rewrite matches_eps.
  - split; [done|by intros (? & ? & _)%matches_class].
  - rewrite andb_true_iff, IHr, IHs, matches_cat. split.
    + intros []. exists "", "". done.
    + by intros (x & y & [-> ->]%eq_sym%str_app_nil & ? & ?).
  - by rewrite orb_true_iff, IHr, IHs, matches_alt.
  - split; [constructor|done].
Qed.

Lemma deriv_spec a r x : matches (deriv a r) x <-> matches r (String a x).
Proof.
  revert x. induction r as [| |f|r IHr s IHs|r IHr s IHs|r IHr]; intros x; simpl.
  - split; by intros ?%matches_none.
  - rewrite matches_eps. split; [by intros ?%matches_none|done].
  - rewrite matches_class. destruct (f a) eqn:E.
    + rewrite matches_eps. unfold str1. split; [intros ->; eauto|by intros (? & [= -> ->] & ?)].
    + split; [by intros ?%matches_none|intros (? & [= -> ->] & ?); congruence].
  - assert (matches (RCat r s) (String a x) <->
      matches (RCat (deriv a r) s) x \/ (nullable r = true /\ matches (deriv a s) x)) as Hc.
    { rewrite !matches_cat, nullable_spec, IHs. setoid_rewrite IHr. split.
      - intros ([|b u] & v & E & Hu & Hv).
        + rewrite str_app_nil_l in E. subst v. auto.
        + rewrite str_app_cons in E. injection E as -> ->. eauto 6.
      - intros [(u & v & -> & Hu & Hv)|[Hn Hs]]; [exists (String a u), v|exists "", (String a x)]; done. }
    destruct (nullable r); rewrite ?alt_smart_matches, ?matches_alt, ?cat_smart_matches, Hc; naive_solver.
  - by rewrite alt_smart_matches, !matches_alt, IHr, IHs.
  - rewrite cat_smart_matches, matches_cat, matches_star_cons. by setoid_rewrite IHr.
Qed.

(** The derivative matcher decides the denotation of every expression. *)
Lemma MatchString_matches r s : MatchString r s = true <-> matches r s.
Proof.
  revert r. induction s as [|a s IH]; intros r; simpl; [apply nullable_spec|].
  by rewrite IH, deriv_spec.
Qed.
