(* ===== verification/GoNet.v ===== *)
(** * IP addresses and quoted strings

    [net.ParseIP] (which is [netip.ParseAddr] without zones), [IP.To4],
    [IP.String] and [strconv.Unquote], as the record validators use them.  A
    parsed address is its 16 bytes, IPv4 addresses in the IPv4-in-IPv6 form. *)

From S2P Require Import Prelude GoStrings GoStringsFacts.
(** ** Parsing *)

(** [parseIPv4Fields]: the four decimal fields; [i0] tells whether the position
    is the first one, [pdot] whether the previous byte was a dot. *)
Fixpoint ipv4_fields (s : string) (i0 pdot : bool) (val digLen : Z) (fields : list Z) : option (list Z) :=
  match s with
  | EmptyString => if (Z.of_nat (length fields) <? 3) then None else Some (fields ++ [val])
  | String c t =>
    if is_digit c then
      if (digLen =? 1) && (val =? 0) then None
      else let v := val * 10 + (byte c - 48) in
           if 255 <? v then None else ipv4_fields t false false v (digLen + 1) fields
    else if Ascii.eqb c "."%char then
      if i0 || (t =? "")%string || pdot then None
      else if Z.of_nat (length fields) =? 3 then None
      else ipv4_fields t false true 0 0 (fields ++ [val])
    else None
  end.
Definition parseIPv4 (s : string) : option (list Z) := ipv4_fields s true false 0 0 [].

Definition v4InV6Prefix : list Z := replicate 10 0 ++ [255; 255].

Definition hex_digit (c : ascii) : option Z :=
  let b := byte c in
  if (48 <=? b) && (b <=? 57) then Some (b - 48)
  else if (97 <=? b) && (b <=? 102) then Some (b - 97 + 10)
  else if (65 <=? b) && (b <=? 70) then Some (b - 65 + 10)
  else None.

(** Scan one hexadecimal group: digits read, value, remaining text. *)
Fixpoint hex_group (s : string) (off : nat) (acc : Z) : option (nat * Z * string) :=
  match s with
  | EmptyString => Some (off, acc, s)
  | String c t =>
    match hex_digit c with
    | None => Some (off, acc, s)
    | Some d =>
      let acc' := acc * 16 + d in
      if (3 <? Z.of_nat off) || (65535 <? acc') then None else hex_group t (S off) acc'
    end
  end.

(** The group loop of [parseIPv6]; [ip] is the bytes read so far (its length is
    the [i] of the code), [ell] the position of the ellipsis.  Each round reads
    at least one byte, so the length of the text is enough fuel. *)
Fixpoint ipv6_groups (fuel : nat) (s : string) (ip : list Z) (ell : option nat)
  : option (string * list Z * option nat) :=
  match fuel with
  | O => None
  | S fuel =>
    if (16 <=? length ip)%nat then Some (s, ip, ell) else
    match hex_group s 0 0 with
    | None | Some (O, _, _) => None
    | Some (_, acc, rest) =>
      if HasPrefix rest "." then
        if negb (bool_decide (is_Some ell)) && negb (Nat.eqb (length ip) 12) then None
        else if (16 <? length ip + 4)%nat then None
        else match parseIPv4 s with
             | Some f => Some ("", ip ++ f, ell)
             | None => None
             end
      else
        let ip := ip ++ [acc / 256; acc mod 256] in
        match rest with
        | EmptyString => Some ("", ip, ell)
        | String c rest' =>
          if negb (Ascii.eqb c ":"%char) then None
          else match rest' with
          | EmptyString => None
          | String c' rest'' =>
            if Ascii.eqb c' ":"%char then
              if bool_decide (is_Some ell) then None
              else if (rest'' =? "")%string then Some ("", ip, Some (length ip))
              else ipv6_groups fuel rest'' ip (Some (length ip))
            else ipv6_groups fuel rest' ip ell
          end
        end
    end
  end.

Definition expand_ellipsis (ip : list Z) (ell : option nat) : option (list Z) :=
  match ell with
  | None => if (length ip <? 16)%nat then None else Some ip
  | Some e =>
    if (length ip <? 16)%nat
    then Some (take e ip ++ replicate (16 - length ip) 0 ++ drop e ip)
    else None
  end.

(** Zones ([%eth0]) are rejected by [net.ParseIP], so a [%] never parses. *)
Definition parseIPv6 (s : string) : option (list Z) :=
  if str_exists (fun c => Ascii.eqb c "%"%char) s then None else
  let '(s1, ell) := match strip_prefix "::" s with
                    | Some t => (t, Some 0%nat)
                    | None => (s, None)
                    end in
  if bool_decide (is_Some ell) && (s1 =? "")%string then Some (replicate 16 0) else
  match ipv6_groups (S (String.length s1)) s1 [] ell with
  | Some (rest, ip, ell) => if (rest =? "")%string then expand_ellipsis ip ell else None
  | None => None
  end.

(** [netip.ParseAddr] dispatches on the first dot, colon or percent sign. *)
Fixpoint parse_dispatch (t whole : string) : option (list Z) :=
  match t with
  | EmptyString => None
  | String c t' =>
    if Ascii.eqb c "."%char then option_map (app v4InV6Prefix) (parseIPv4 whole)
    else if Ascii.eqb c ":"%char then parseIPv6 whole
    else if Ascii.eqb c "%"%char then None
    else parse_dispatch t' whole
  end.
Definition ParseIP (s : string) : option (list Z) := parse_dispatch s s.

(** [IP.To4] of a 16-byte address. *)
Definition To4 (ip : list Z) : option (list Z) :=
  if bool_decide (take 12 ip = v4InV6Prefix) then Some (drop 12 ip) else None.

(** ** Printing *)
Definition hex_char (d : Z) : ascii := if d <? 10 then chr (48 + d) else chr (87 + d).
Fixpoint hex_go (fuel : nat) (z : Z) : string :=
  match fuel with
  | O => ""
  | S f => if z <? 16 then str1 (hex_char z) else hex_go f (z / 16) +:+ str1 (hex_char (z mod 16))
  end.
Definition hex16 (z : Z) : string := hex_go 4 z.

Fixpoint groups16 (ip : list Z) : list Z :=
  match ip with a :: b :: t => a * 256 + b :: groups16 t | _ => [] end.

(** Length of the run of zero groups at the head. *)
Fixpoint zero_run (l : list Z) : nat :=
  match l with 0 :: t => S (zero_run t) | _ => O end.

(** First longest run of at least two zero groups: its start and length. *)
Fixpoint best_run (l : list Z) (i : nat) (bestS bestN : nat) : nat * nat :=
  match l with
  | [] => (bestS, bestN)
  | _ :: t =>
    let n := zero_run l in
    if (2 <=? n)%nat && (bestN <? n)%nat then best_run t (S i) i n else best_run t (S i) bestS bestN
  end.

Definition join_hex (l : list Z) : string := str_join (map hex16 l) ":".

(** [IP.String]. *)
Definition IP_String (ip : list Z) : string :=
  match To4 ip with
  | Some v4 => str_join (map Itoa v4) "."
  | None =>
    let g := groups16 ip in
    let '(s, n) := best_run g 0 0 0 in
    if (n =? 0)%nat then join_hex g
    else join_hex (take s g) +:+ "::" +:+ join_hex (drop (s + n) g)
  end.

(** * Network addresses and texts of configuration files

    What the configuration validators use of the packages [net], [net/netip],
    [net/url], [path/filepath], [strconv] and [strings]. *)
(** ** Searching for a byte *)

(** [strings.Cut] at the first and at the last occurrence of a byte. *)
Fixpoint cut_byte (c : ascii) (s : string) : option (string * string) :=
  match s with
  | EmptyString => None
  | String a t => if Ascii.eqb a c then Some ("", t)
                  else match cut_byte c t with Some (x, y) => Some (String a x, y) | None => None end
  end.
Fixpoint cut_last (c : ascii) (s : string) : option (string * string) :=
  match s with
  | EmptyString => None
  | String a t => match cut_last c t with
                  | Some (x, y) => Some (String a x, y)
                  | None => if Ascii.eqb a c then Some ("", t) else None
                  end
  end.
Definition has_byte (c : ascii) (s : string) : bool := str_exists (Ascii.eqb c) s.
(** [strings.ContainsAny] for ASCII characters. *)
Definition ContainsAny (s chars : string) : bool := str_exists (fun c => has_byte c chars) s.

Definition colon : ascii := ":"%char.
Definition lbracket : ascii := "["%char.
Definition rbracket : ascii := "]"%char.

(** [net.SplitHostPort]. *)
Definition SplitHostPort (hostport : string) : option (string * string) :=
  match cut_last colon hostport with
  | None => None
  | Some (before, port) =>
    match strip_prefix "[" hostport with
    | Some inside =>
      (* the first bracket that closes stands just before the last colon *)
      match cut_byte rbracket inside with
      | None => None
      | Some (host, after) =>
        if (after =? ":" +:+ port)%string && negb (has_byte lbracket inside) && negb (has_byte rbracket after) then Some (host, port) else None
      end
    | None =>
      if has_byte colon before || has_byte lbracket hostport || has_byte rbracket hostport then None else Some (before, port)
    end
  end.

(** ** Addresses *)
Definition IsUnspecified (ip : list Z) : bool :=
  bool_decide (ip = v4InV6Prefix ++ [0; 0; 0; 0]) || bool_decide (ip = replicate 16 0).
Definition IsLoopback (ip : list Z) : bool :=
  match To4 ip with
  | Some (b :: _) => b =? 127
  | _ => bool_decide (ip = replicate 15 0 ++ [1])
  end.

(** 32 for an address written with dots first, 128 for one with colons. *)
Fixpoint addr_BitLen (s : string) : Z :=
  match s with
  | EmptyString => 128
  | String c t => if Ascii.eqb c "."%char then 32 else if Ascii.eqb c colon then 128 else addr_BitLen t
  end.
(** [dtoi]: a run of digits below 0xFFFFFF. *)
Fixpoint dtoi_go (acc : Z) (s : string) : option Z :=
  match s with
  | EmptyString => Some acc
  | String c t =>
    if is_digit c then let n := acc * 10 + (byte c - 48) in if 16777215 <=? n then None else dtoi_go n t else None
  end.
Definition dtoi (s : string) : option Z := if (s =? "")%string then None else dtoi_go 0 s.
(** [net.ParseCIDR]: the number of leading ones of the mask. *)
Definition ParseCIDR (s : string) : option Z :=
  match cut_byte "/"%char s with
  | None => None
  | Some (addr, mask) =>
    match ParseIP addr, dtoi mask with
    | Some _, Some n => if addr_BitLen addr <? n then None else Some n
    | _, _ => None
    end
  end.
(** [netip.ParsePrefix] without an error. *)
Definition ParsePrefix_ok (s : string) : bool :=
  match cut_last "/"%char s with
  | None => false
  | Some (addr, bits) =>
    match ParseIP addr with
    | None => false
    | Some _ =>
      if (1 <? len bits) && match bits with String c _ => (byte c <? 49) || (57 <? byte c) | EmptyString => false end then false
      else match Atoi bits with Some n => (0 <=? n) && (n <=? addr_BitLen addr) | None => false end
    end
  end.

(** ** Letters *)

(** [strings.EqualFold] of two texts.  Pairs of code points outside ASCII that
    fold to each other are data of the standard library. *)
Class UnicodeFold := { table_fold : Z -> Z -> bool }.
Definition ascii_fold : UnicodeFold := {| table_fold _ _ := false |}.
Definition fold_eq `{UnicodeFold} (r s : Z) : bool :=
  (r =? s)
  || (let lo := Z.min r s in
      let hi := Z.max r s in
      if hi <? 128 then (65 <=? lo) && (lo <=? 90) && (hi =? lo + 32) else table_fold lo hi).
Fixpoint fold_eq_all `{UnicodeFold} (a b : list Z) : bool :=
  match a, b with
  | [], [] => true
  | x :: a, y :: b => fold_eq x y && fold_eq_all a b
  | _, _ => false
  end.
Definition EqualFold `{UnicodeFold} (s t : string) : bool := fold_eq_all (map fst (chunks s)) (map fst (chunks t)).

(** [strings.Contains(strings.ToUpper(s), pat)] for an ASCII [pat]; the dotless i
    and the long s are the only code points outside ASCII whose upper case is in
    ASCII. *)
Definition to_upper (r : Z) : Z :=
  if (97 <=? r) && (r <=? 122) then r - 32 else if r =? 305 then 73 else if r =? 383 then 83 else r.
Fixpoint starts_with (l pat : list Z) : bool :=
  match l, pat with
  | _, [] => true
  | x :: l, y :: pat => (x =? y) && starts_with l pat
  | [], _ => false
  end.
Fixpoint contains_run (l pat : list Z) : bool :=
  starts_with l pat || match l with [] => false | _ :: l => contains_run l pat end.
Definition UpperContains (s pat : string) : bool := contains_run (map (fun c => to_upper (fst c)) (chunks s)) (map fst (chunks pat)).

(** ** Numbers and escapes *)

(** [strconv.ParseUint(s, 8, 32)]. *)
Fixpoint octal_go (acc : Z) (s : string) : option Z :=
  match s with
  | EmptyString => Some acc
  | String c t =>
    if (48 <=? byte c) && (byte c <=? 55) then let n := acc * 8 + (byte c - 48) in if MaxUint32 <? n then None else octal_go n t else None
  end.
Definition ParseOctal32 (s : string) : option Z := if (s =? "")%string then None else octal_go 0 s.

(** [url.QueryUnescape]: plus signs are spaces, percent signs start two
    hexadecimal digits. *)
Fixpoint QueryUnescape (s : string) : option string :=
  match s with
  | EmptyString => Some ""
  | String c t =>
    if Ascii.eqb c "%"%char then
      match t with
      | String a (String b t') =>
        match hex_digit a, hex_digit b, QueryUnescape t' with
        | Some x, Some y, Some rest => Some (String (chr (x * 16 + y)) rest)
        | _, _, _ => None
        end
      | _ => None
      end
    else option_map (String (if Ascii.eqb c "+"%char then " "%char else c)) (QueryUnescape t)
  end.

(** [filepath.IsAbs] on Unix. *)
Definition IsAbs (path : string) : bool := HasPrefix path "/".

(** [filepath.Clean] on Unix: the elements without dots and double slashes. *)
Fixpoint clean_elements (rooted : bool) (out : list string) (elements : list string) : list string :=
  match elements with
  | [] => rev out
  | e :: elements =>
    if (e =? "")%string || (e =? ".")%string then clean_elements rooted out elements
    else if (e =? "..")%string then
      match out with
      | last :: before => if (last =? "..")%string then clean_elements rooted (e :: out) elements else clean_elements rooted before elements
      | [] => clean_elements rooted (if rooted then [] else [e]) elements
      end
    else clean_elements rooted (e :: out) elements
  end.
Definition Clean (path : string) : string :=
  let rooted := IsAbs path in
  let text := str_join (clean_elements rooted [] (Split path "/"%char)) "/" in
  if rooted then "/" +:+ text else if (text =? "")%string then "." else text.

(** A parsed URL, as far as the validators look at it; the parser of [net/url]
    differs between Go releases and is an argument. *)
Record URL := mkURL { Scheme : string; has_User : bool; Host : string; Hostname : string; RawQuery : string; Fragment : string }.
Class NetUrl := { url_Parse : string -> option URL }.

Example split_host_port : SplitHostPort "127.0.0.1:53" = Some ("127.0.0.1", "53") /\ SplitHostPort "[::1]:53" = Some ("::1", "53")
  /\ SplitHostPort "::1:53" = None /\ SplitHostPort "[::1]" = None /\ SplitHostPort ":8080" = Some ("", "8080").
Proof. split_and!; vm_compute; reflexivity. Qed.
Example cidr_bits : ParseCIDR "10.0.0.0/8" = Some 8 /\ ParseCIDR "::/0" = Some 0 /\ ParseCIDR "10.0.0.0/33" = None /\ ParseCIDR "10.0.0.0" = None.
Proof. split_and!; vm_compute; reflexivity. Qed.
Example clean_paths : Clean "/var//lib/./keys/../x/" = "/var/lib/x" /\ Clean "/.." = "/" /\ Clean "a/../.." = ".." /\ Clean "" = ".".
Proof. split_and!; vm_compute; reflexivity. Qed.
