(* ===== verification/ConfigData.v ===== *)
(** * Configuration ([pkg/config/config.go])

    The configuration structs of the controller and the agent, their defaults,
    and the checks that config.go itself has.  A map is a [gmap]; a nil pointer
    is [None]. *)

From S2P Require Import Prelude GoStrings GoStringsFacts GoNet.

Definition DefaultDNSTapSocketModeString : string := "0660".
Definition MaxResponseBytesDefault : Z := 64 * 1024 * 1024.
Definition DefaultAgentSyncMinFreeBytes : Z := 100 * 1024 * 1024.
Definition Millisecond : Duration := 1000000.

(** ** Controller *)
Record AuthSection := mkAuthSection {
  au_Enabled : bool; au_APIKeys : gmap string string; au_APIKeyRoles : gmap string string; au_AllowImplicitAdminRoles : bool }.
Record RateLimitConfig := mkRateLimit { rl_Enabled : bool; rl_RequestsPerSecond : Z; rl_Burst : Z }.
Record APISection := mkAPISection {
  api_Listen : string; api_ArtifactSignatureKey : string; api_ArtifactSignatureKeyID : string; api_Auth : AuthSection;
  api_TrustedProxies : list string; api_RateLimit : RateLimitConfig }.
Record ObservabilityConfig := mkObservability { obs_Listen : string; obs_AuthToken : string }.
Record SQLBackendConfig := mkSQLBackend { sql_DSN : string; sql_MaxOpenConns : Z; sql_MaxIdleConns : Z; sql_ConnMaxLifetime : Duration }.
Record GitBackendConfig := mkGitBackend {
  git_RepositoryPath : string; git_RemoteURL : string; git_Branch : string; git_Author : string; git_Email : string;
  git_AutoPush : bool; git_AutoPull : option bool; git_PullInterval : Duration }.
Record EtcdBackendConfig := mkEtcdBackend {
  etcd_Endpoints : list string; etcd_Prefix : string; etcd_Username : string; etcd_Password : string;
  etcd_DialTimeout : Duration; etcd_RequestTimeout : Duration }.
Record BackendConfig := mkBackend {
  be_Type : string; be_SQLite_DSN : string; be_Postgres : SQLBackendConfig; be_MySQL : SQLBackendConfig; be_Git : GitBackendConfig; be_Etcd : EtcdBackendConfig }.
Record DNSSECSection := mkDNSSECSection {
  ds_Enabled : bool; ds_Algorithm : Z; ds_KeyDirectory : string; ds_KSKKeySize : Z; ds_ZSKKeySize : Z;
  ds_SignatureValidity : Duration; ds_SignatureInception : Duration; ds_ResignThreshold : Duration;
  ds_NSEC3 : bool; ds_NSEC3Iterations : Z; ds_NSEC3SaltLength : Z;
  ds_VaultEnabled : bool; ds_VaultAddress : string; ds_VaultToken : string; ds_VaultPath : string;
  ds_SchedulerEnabled : bool; ds_SchedulerCheckInterval : Duration; ds_MasterKeyAutoGenerate : bool }.
Record StorageConfig := mkStorage { st_ArtifactDirectory : string; st_KeyDirectory : string; st_MaxVersionsPerZone : Z }.
Record LoggingConfig := mkLogging { lg_Level : string; lg_Format : string; lg_Output : string; lg_EnableCaller : bool; lg_EnableStacktrace : bool }.
Record ControllerConfig := mkController {
  cfg_API : APISection; cfg_Observability : ObservabilityConfig; cfg_Backend : BackendConfig; cfg_DNSSEC : DNSSECSection;
  cfg_Storage : StorageConfig; cfg_Logging : LoggingConfig }.

Definition no_sql : SQLBackendConfig := mkSQLBackend "" 0 0 0.
Definition DefaultLogging : LoggingConfig := mkLogging "info" "json" "stdout" false true.
Definition DefaultControllerConfig : ControllerConfig :=
  mkController
    (mkAPISection "0.0.0.0:8080" "" "" (mkAuthSection true ∅ ∅ false) [] (mkRateLimit true 100 200))
    (mkObservability "127.0.0.1:9053" "")
    (mkBackend "sqlite" "file:arca-dns.db" no_sql no_sql (mkGitBackend "" "" "" "" "" false None 0) (mkEtcdBackend [] "" "" "" 0 0))
    (mkDNSSECSection true 13 "/var/lib/arca-dns/keys" 0 0 (30 * 24 * Hour) (1 * Hour) (7 * 24 * Hour) true 1 8 false "" "" "" true (1 * Hour) false)
    (mkStorage "/var/lib/arca-dns/artifacts" "" 10)
    DefaultLogging.

(** ** Agent *)
Record TLSConfig := mkTLS { tls_Enabled : bool; tls_CertFile : string; tls_KeyFile : string; tls_CAFile : string; tls_ClientAuth : bool }.
Record ControllerClientConfig := mkControllerClient {
  cc_URL : string; cc_APIKey : string; cc_AllowPlaintextAPIKey : bool; cc_TLS : TLSConfig; cc_Timeout : Duration;
  cc_RetryAttempts : Z; cc_RetryDelay : Duration; cc_MaxResponseBytes : Z }.
Record NSDConfig := mkNSD {
  nsd_Enabled : bool; nsd_ConfigPath : string; nsd_ZoneConfigPath : string; nsd_ControlPath : string; nsd_ZoneDirectory : string;
  nsd_CheckzonePath : string; nsd_ReloadTimeout : Duration }.
Record StubZoneConfig := mkStubZone { stub_NSDAddress : string; stub_NSDPort : Z }.
Record UnboundConfig := mkUnbound {
  ub_Enabled : bool; ub_ConfigPath : string; ub_ControlPath : string; ub_CheckconfPath : string; ub_EDNSBufferSize : Z;
  ub_StubZoneConfig : StubZoneConfig; ub_ReloadTimeout : Duration }.
Record BIRDStateMachineConfig := mkBIRDStateMachine { bsm_FailureThreshold : Z; bsm_RecoveryThreshold : Z; bsm_MinStateDuration : Duration }.
Record BIRDNeighborConfig := mkNeighbor { nb_Address : string; nb_ASN : Z }.
Record BIRDProtocolConfig := mkProtocol { bp_Name : string; bp_NeighborAddress : string; bp_NeighborASN : Z }.
Record BIRDBFDConfig := mkBFD { bfd_Enabled : bool; bfd_MinRx : Duration; bfd_MinTx : Duration; bfd_Multiplier : Z }.
Record BIRDConfigGenerationConfig := mkGeneration {
  bg_Enabled : bool; bg_Path : string; bg_RouterID : string; bg_LocalAS : Z; bg_SourceIP : string; bg_Neighbors : list BIRDNeighborConfig; bg_BFD : BIRDBFDConfig }.
Record BIRDConfig := mkBIRD {
  bird_Enabled : bool; bird_SocketPath : string; bird_AnycastPrefixes : list string; bird_Protocols : list BIRDProtocolConfig; bird_ProtocolName : string;
  bird_ProtocolNames : list string; bird_CommandTimeout : Duration; bird_ConfigureOnStart : BIRDConfigGenerationConfig; bird_StateMachine : BIRDStateMachineConfig }.
Record LogRotationConfig := mkRotation { rot_MaxSize : Z; rot_MaxAge : Z; rot_MaxBackups : Z; rot_Compress : bool }.
Record DNSTapConfig := mkDNSTap {
  tap_Enabled : bool; tap_SocketPath : string; tap_SocketMode : string; tap_SocketOwner : string; tap_SocketGroup : string; tap_LogFile : string;
  tap_LogRotation : LogRotationConfig; tap_SampleRate : Z; tap_AlwaysLogErrors : bool; tap_BufferSize : Z }.
Record MetricsConfig := mkMetrics { mt_Enabled : bool; mt_Listen : string; mt_Path : string; mt_AuthToken : string }.
Record HealthConfig := mkHealth {
  hl_CheckInterval : Duration; hl_FailureThreshold : Z; hl_RecoveryThreshold : Z; hl_MinStateDuration : Duration; hl_QueryTimeout : Duration;
  hl_LatencyThreshold : Duration; hl_NSDServer : string; hl_UnboundServer : string; hl_TestZone : string; hl_TestRecord : string }.
Record SyncSection := mkSyncSection {
  sy_SyncInterval : Duration; sy_Jitter : Duration; sy_MaxStaleness : Duration; sy_BackupVersions : Z; sy_MinFreeBytes : Z; sy_VerifyChecksums : bool;
  sy_VerifySignatures : bool; sy_ControllerSignatureKey : string; sy_ControllerSignatureKeys : gmap string string; sy_ControllerPublicKey : string }.
Record AgentConfig := mkAgent {
  ag_Controller : ControllerClientConfig; ag_Authoritative : string; ag_NSD : NSDConfig; ag_Unbound : UnboundConfig; ag_BIRD : BIRDConfig; ag_DNSTap : DNSTapConfig;
  ag_Metrics : MetricsConfig; ag_Health : HealthConfig; ag_Sync : SyncSection; ag_Logging : LoggingConfig }.

Definition DefaultAgentConfig : AgentConfig :=
  mkAgent
    (mkControllerClient "http://localhost:8080" "" false (mkTLS false "" "" "" false) (30 * Second) 3 (5 * Second) MaxResponseBytesDefault)
    "nsd"
    (mkNSD true "/etc/nsd/nsd.conf" "/etc/nsd/arca-dns-zones.conf" "/usr/sbin/nsd-control" "/var/lib/nsd/zones" "/usr/sbin/nsd-checkzone" (10 * Second))
    (mkUnbound true "/etc/unbound/unbound.conf" "/usr/sbin/unbound-control" "/usr/sbin/unbound-checkconf" 1232 (mkStubZone "127.0.0.1" 5353) (10 * Second))
    (mkBIRD false "/var/run/bird/bird.ctl" [] [] "anycast_dns" [] (5 * Second) (mkGeneration false "" "" 0 "" [] (mkBFD false 0 0 0)) (mkBIRDStateMachine 3 3 (30 * Second)))
    (mkDNSTap true "/var/run/dnstap.sock" DefaultDNSTapSocketModeString "" "" "/var/log/arca-dns/dnstap.log" (mkRotation 100 7 10 true) 1000 true 10000)
    (mkMetrics true "127.0.0.1:9090" "/metrics" "")
    (mkHealth (10 * Second) 3 5 (30 * Second) (5 * Second) (100 * Millisecond) "127.0.0.1:5353" "127.0.0.1:53" "" "")
    (mkSyncSection (30 * Second) (5 * Second) (5 * Minute) 3 DefaultAgentSyncMinFreeBytes true true "" ∅ "")
    DefaultLogging.

(** ** Checks of config.go *)
Definition invalid (field what : string) : error := Errorf ("invalid " +:+ field +:+ ": " +:+ what).

Definition DNSSECKeyDirectory (c : ControllerConfig) : string :=
  let keyDirectory := TrimSpace (ds_KeyDirectory (cfg_DNSSEC c)) in
  if negb (keyDirectory =? "")%string then keyDirectory else TrimSpace (st_KeyDirectory (cfg_Storage c)).

Definition unsafeNSDRenderedConfigPathChar (r : Z) : bool := (r =? 34) || (r =? 92) || (r <? 32) || (r =? 127).
Definition ValidateNSDRenderedConfigPath (field path : string) : result unit :=
  let trimmed := TrimSpace path in
  guard_err (trimmed =? "")%string (invalid field "empty") ;;*
  guard_err (negb (trimmed =? path)%string) (invalid field "must not contain surrounding whitespace") ;;*
  guard_err (ContainsFunc path unsafeNSDRenderedConfigPathChar) (invalid field "contains unsafe characters") ;;*
  guard_err (negb (IsAbs path)) (invalid field "must be an absolute path").

Definition unsafeStubZoneAddressChar (r : Z) : bool :=
  (r =? 34) || (r =? 39) || (r =? 96) || (r =? 92) || (r =? 35) || (r =? 59) || (r =? 64) || (r <=? 32) || (r =? 127).
Definition stub_label_rune (r : Z) : bool :=
  ((97 <=? r) && (r <=? 122)) || ((65 <=? r) && (r <=? 90)) || ((48 <=? r) && (r <=? 57)) || (r =? 45).
Definition isValidStubZoneAddressLabel (label : string) : bool :=
  if (label =? "")%string || (63 <? len label) || HasPrefix label "-" || HasSuffix label "-" then false
  else forallb (fun c => stub_label_rune (fst c)) (chunks label).
Definition isValidStubZoneAddress (address : string) : bool :=
  if bool_decide (is_Some (ParseIP address)) then true
  else if Contains address ":" || (253 <? len address) then false
  else forallb isValidStubZoneAddressLabel (Split (TrimSuffix address ".") "."%char).
Definition StubZone_Validate (c : StubZoneConfig) : result unit :=
  let field := "unbound.stub_zone.nsd_address" in
  let address := TrimSpace (stub_NSDAddress c) in
  guard_err (address =? "")%string (invalid field "empty") ;;*
  guard_err (negb (address =? stub_NSDAddress c)%string) (invalid field "must not contain surrounding whitespace") ;;*
  guard_err (ContainsFunc address unsafeStubZoneAddressChar) (invalid field "contains unsafe characters") ;;*
  guard_err (negb (isValidStubZoneAddress address)) (invalid field "must be an IP address or DNS hostname") ;;*
  guard_err ((stub_NSDPort c <=? 0) || (65535 <? stub_NSDPort c)) (invalid "unbound.stub_zone.nsd_port" "must be between 1 and 65535").

Definition unsafeDNSTapSocketPathChar (r : Z) : bool := (r <? 32) || (r =? 127).
Definition ValidateDNSTapSocketPath (path : string) : result unit :=
  let trimmed := TrimSpace path in
  guard_err (trimmed =? "")%string (Errorf "empty") ;;*
  guard_err (negb (trimmed =? path)%string) (Errorf "must not contain surrounding whitespace") ;;*
  guard_err (ContainsFunc path unsafeDNSTapSocketPathChar) (Errorf "contains control characters") ;;*
  guard_err (negb (IsAbs path)) (Errorf "must be an absolute path").
(** The mode on success; 0o777 are the permission bits. *)
Definition ParseDNSTapSocketMode (value : string) : result Z :=
  let trimmed := TrimSpace value in
  if (trimmed =? "")%string then Err (Errorf "empty")
  else
    let trimmed := TrimPrefix (TrimPrefix (TrimPrefix trimmed "0o") "0O") "0" in
    if (trimmed =? "")%string then Err (Errorf "must include permission bits")
    else
      match ParseOctal32 trimmed with
      | None => Err (Errorf "must be an octal permission string")
      | Some mode =>
        if negb (Z.land mode (Z.lnot 511) =? 0) then Err (Errorf "must contain only permission bits")
        else if negb (Z.land mode 384 =? 384) then Err (Errorf "must grant owner read and write")
        else if negb (Z.land mode 7 =? 0) then Err (Errorf "must not grant permissions to other users")
        else Ok mode
      end.
Definition SocketFileMode (c : DNSTapConfig) : result Z := ParseDNSTapSocketMode (tap_SocketMode c).
