(* ===== verification/Json.v ===== *)
(** * JSON ([encoding/json])

    What the code uses of Go's JSON package: the encoder's string escaping, the
    compact and the indented layout, and the decoder's syntax (escapes, surrogate
    pairs, invalid UTF-8, numbers, nesting limit), with the round trip of values
    through both. *)

From S2P Require Import Prelude GoStrings GoStringsFacts Utf8 GoNet.
(** ** Strings and flat values, as [json.Marshal] writes them *)
Definition hex4 (r : Z) : string :=
  String (hex_char ((r / 4096) mod 16)) (String (hex_char ((r / 256) mod 16))
    (String (hex_char ((r / 16) mod 16)) (str1 (hex_char (r mod 16))))).
Definition json_escape_u (r : Z) : string := String (chr 92) (str1 (chr 117)) +:+ hex4 r.
Definition json_escape_c (c : ascii) : string := String (chr 92) (str1 c).

(** One decoded code point with its bytes, as [appendString] with HTML escaping
    writes it. *)
Definition json_chunk (c : Z * string) : string :=
  let r := fst c in
  if invalid_chunk c then json_escape_u RuneError
  else if (r =? 34) || (r =? 92) then json_escape_c (chr r)
  else if r =? 8 then json_escape_c "b"%char
  else if r =? 12 then json_escape_c "f"%char
  else if r =? 10 then json_escape_c "n"%char
  else if r =? 13 then json_escape_c "r"%char
  else if r =? 9 then json_escape_c "t"%char
  else if (r <? 32) || (r =? 60) || (r =? 62) || (r =? 38) || (r =? 8232) || (r =? 8233) then json_escape_u r
  else snd c.
Definition quote : string := str1 (chr 34).
Definition json_string (s : string) : string := quote +:+ str_concat (map json_chunk (chunks s)) +:+ quote.
Definition json_bool (b : bool) : string := if b then "true" else "false".
Definition json_field (k v : string) : string := json_string k +:+ ":" +:+ v.
Definition json_object (fields : list string) : string := "{" +:+ str_join fields "," +:+ "}".
Definition json_array (l : list string) : string := "[" +:+ str_join l "," +:+ "]".
Definition omit_zero (k : string) (z : Z) : list string := if z =? 0 then [] else [json_field k (Itoa z)].
Definition omit_empty (k s : string) : list string := if (s =? "")%string then [] else [json_field k (json_string s)].

(** ** Values

    Numbers are kept as their literals, as [json.Number]. *)
Inductive json :=
  | JNull
  | JBool (b : bool)
  | JNumber (lit : string)
  | JString (s : string)
  | JArray (l : list json)
  | JObject (fields : list (string * json)).

(** Layout of the output: what follows a bracket or a comma at a nesting depth,
    and what separates a key from its value. *)
Record layout := mkLayout { nl : nat -> string; colon : string }.
Definition compact : layout := mkLayout (fun _ => "") ":".
(** [json.MarshalIndent(v, "", "  ")]. *)
Definition indented : layout :=
  mkLayout (fun d => str1 (chr 10) +:+ str_concat (repeat "  " d)) ": ".

Fixpoint print (ly : layout) (d : nat) (j : json) : string :=
  match j with
  | JNull => "null"
  | JBool b => json_bool b
  | JNumber lit => lit
  | JString s => json_string s
  | JArray [] => "[]"
  | JArray l => "[" +:+ nl ly (S d) +:+ str_join (map (print ly (S d)) l) ("," +:+ nl ly (S d)) +:+ nl ly d +:+ "]"
  | JObject [] => "{}"
  | JObject l => "{" +:+ nl ly (S d)
      +:+ str_join (map (fun kv => json_string (fst kv) +:+ colon ly +:+ print ly (S d) (snd kv)) l) ("," +:+ nl ly (S d))
      +:+ nl ly d +:+ "}"
  end.

(** ** Decoding strings ([unquote]) *)
Definition hex4_value (s : string) : option (Z * string) :=
  match s with
  | String a (String b (String c (String d t))) =>
    match hex_digit a, hex_digit b, hex_digit c, hex_digit d with
    | Some w, Some x, Some y, Some z => Some (((w * 16 + x) * 16 + y) * 16 + z, t)
    | _, _, _, _ => None
    end
  | _ => None
  end.
(** The code unit of a [\uXXXX] escape at the start of a string. *)
Definition getu4 (s : string) : option (Z * string) :=
  match s with
  | String a (String b t) => if (byte a =? 92) && (byte b =? 117) then hex4_value t else None
  | _ => None
  end.
Definition IsSurrogate (r : Z) : bool := (55296 <=? r) && (r <? 57344).
Definition simple_escape (c : ascii) : option ascii :=
  let b := byte c in
  if (b =? 34) || (b =? 92) || (b =? 47) then Some c
  else if b =? 98 then Some (chr 8)
  else if b =? 102 then Some (chr 12)
  else if b =? 110 then Some (chr 10)
  else if b =? 114 then Some (chr 13)
  else if b =? 116 then Some (chr 9)
  else None.
(** A code unit that was read, completed by the low half of a surrogate pair
    when one follows. *)
Definition complete_unit (r : Z) (v : string) : string * string :=
  if IsSurrogate r then
    match getu4 v with
    | Some (r2, v2) =>
      if (r <? 56320) && (56320 <=? r2) && (r2 <? 57344)
      then (encode_rune ((r - 55296) * 1024 + (r2 - 56320) + 65536), v2)
      else (encode_rune RuneError, v)
    | None => (encode_rune RuneError, v)
    end
  else (encode_rune r, v).

(** The characters up to the closing quote, and the rest; every round consumes
    a byte. *)
Fixpoint parse_chars (fuel : nat) (s : string) : option (string * string) :=
  match fuel, s with
  | S fuel, String a t =>
    let prepend c rest := option_map (fun p => (c +:+ fst p, snd p)) (parse_chars fuel rest) in
    if byte a =? 34 then Some ("", t)
    else if byte a =? 92 then
      match t with
      | String e u =>
        match simple_escape e with
        | Some c => prepend (str1 c) u
        | None =>
          match getu4 s with
          | Some (r, v) => let '(c, rest) := complete_unit r v in prepend c rest
          | None => None
          end
        end
      | EmptyString => None
      end
    else if byte a <? 32 then None
    else if byte a <? 128 then prepend (str1 a) t
    else let '(r, w) := decode_rune s in prepend (encode_rune r) (str_drop w s)
  | _, _ => None
  end.
Definition parse_string (s : string) : option (string * string) :=
  match s with
  | String a t => if byte a =? 34 then parse_chars (S (String.length t)) t else None
  | EmptyString => None
  end.

(** ** Decoding values *)
Definition is_ws (c : ascii) : bool := (byte c =? 32) || (byte c =? 9) || (byte c =? 13) || (byte c =? 10).
Fixpoint skip_ws (s : string) : string :=
  match s with String a t => if is_ws a then skip_ws t else s | EmptyString => s end.

Definition number_char (c : ascii) : bool :=
  is_digit c || (byte c =? 43) || (byte c =? 45) || (byte c =? 46) || (byte c =? 69) || (byte c =? 101).
Fixpoint span (f : ascii -> bool) (s : string) : string * string :=
  match s with
  | String a t => if f a then let '(x, y) := span f t in (String a x, y) else ("", s)
  | EmptyString => ("", "")
  end.
(** [[eE][+-]?[0-9]+] or nothing. *)
Definition exponent_ok (s : string) : bool :=
  match s with
  | EmptyString => true
  | String e t =>
    ((byte e =? 69) || (byte e =? 101))
    && let u := match t with String c u => if (byte c =? 43) || (byte c =? 45) then u else t | _ => t end in
       negb (u =? "")%string && str_forallb is_digit u
  end.
(** [(\.[0-9]+)?] and the exponent. *)
Definition fraction_ok (s : string) : bool :=
  match s with
  | String c t =>
    if byte c =? 46 then let '(ds, u) := span is_digit t in negb (ds =? "")%string && exponent_ok u else exponent_ok s
  | EmptyString => true
  end.
Definition number_ok (lit : string) : bool :=
  let t := match lit with String c t => if byte c =? 45 then t else lit | _ => lit end in
  let '(ds, u) := span is_digit t in
  match ds with
  | EmptyString => false
  | String c more => (negb (byte c =? 48) || (more =? "")%string) && fraction_ok u
  end.

Definition maxNestingDepth : nat := 10000.

(** One value, with the input left.  Every call consumes a character before the
    next one, so the length of the input is fuel enough. *)
Fixpoint parse_value (fuel depth : nat) (s0 : string) {struct fuel} : option (json * string) :=
  match fuel with
  | O => None
  | S fuel =>
    let s := skip_ws s0 in
    match s with
    | EmptyString => None
    | String a t =>
      if byte a =? 34 then option_map (fun p => (JString (fst p), snd p)) (parse_string s)
      else if byte a =? 91 then
        if (maxNestingDepth <=? depth)%nat then None
        else match strip_prefix "]" (skip_ws t) with
             | Some u => Some (JArray [], u)
             | None => option_map (fun p => (JArray (fst p), snd p)) (parse_elems fuel (S depth) t)
             end
      else if byte a =? 123 then
        if (maxNestingDepth <=? depth)%nat then None
        else match strip_prefix "}" (skip_ws t) with
             | Some u => Some (JObject [], u)
             | None => option_map (fun p => (JObject (fst p), snd p)) (parse_members fuel (S depth) t)
             end
      else match strip_prefix "true" s, strip_prefix "false" s, strip_prefix "null" s with
           | Some u, _, _ => Some (JBool true, u)
           | _, Some u, _ => Some (JBool false, u)
           | _, _, Some u => Some (JNull, u)
           | None, None, None =>
             let '(lit, u) := span number_char s in if number_ok lit then Some (JNumber lit, u) else None
           end
    end
  end
with parse_elems (fuel depth : nat) (s : string) {struct fuel} : option (list json * string) :=
  match fuel with
  | O => None
  | S fuel =>
    match parse_value fuel depth s with
    | None => None
    | Some (v, t) =>
      match skip_ws t with
      | String c u =>
        if byte c =? 44 then option_map (fun p => (v :: fst p, snd p)) (parse_elems fuel depth u)
        else if byte c =? 93 then Some ([v], u)
        else None
      | EmptyString => None
      end
    end
  end
with parse_members (fuel depth : nat) (s : string) {struct fuel} : option (list (string * json) * string) :=
  match fuel with
  | O => None
  | S fuel =>
    match parse_string (skip_ws s) with
    | None => None
    | Some (k, t) =>
      match strip_prefix ":" (skip_ws t) with
      | None => None
      | Some t1 =>
        match parse_value fuel depth t1 with
        | None => None
        | Some (v, t2) =>
          match skip_ws t2 with
          | String c u =>
            if byte c =? 44 then option_map (fun p => ((k, v) :: fst p, snd p)) (parse_members fuel depth u)
            else if byte c =? 125 then Some ([(k, v)], u)
            else None
          | EmptyString => None
          end
        end
      end
    end
  end.

(** A whole document: one value and nothing but white space after it. *)
Definition json_parse (s : string) : option json :=
  match parse_value (3 * S (String.length s)) 0 s with
  | Some (v, rest) => if (skip_ws rest =? "")%string then Some v else None
  | None => None
  end.

Definition q (s : string) : string := quote +:+ s +:+ quote.
Example json_parse_1 :
  json_parse ("{" +:+ q "a" +:+ ": [1, -2.5e3, " +:+ q (String (chr 92) "u00e9") +:+ ", null, {}], " +:+ q "b" +:+ ":true}")
  = Some (JObject [("a", JArray [JNumber "1"; JNumber "-2.5e3"; JString (String (chr 195) (str1 (chr 169))); JNull; JObject []]);
                   ("b", JBool true)]).
Proof. vm_compute. reflexivity. Qed.
Example json_parse_2 : map json_parse ["01"; "[1,]"; "{} x"; ""; "tru"; "1.e3"] = repeat None 6.
Proof. vm_compute. reflexivity. Qed.

(** ** Round trip of strings *)
Lemma chunks_piece c s r : c <> "" -> (forall u, decode_rune (c +:+ u) = (r, String.length c)) ->
  chunks (c +:+ s) = (r, c) :: chunks s.
Proof.
  intros Hc Hd. rewrite chunks_unfold by (by intros [? _]%str_app_nil). rewrite Hd. cbn [fst snd].
  by rewrite str_take_app, str_drop_app.
Qed.

Lemma nibbles4 r : 0 <= r < 65536 ->
  (((r / 4096) mod 16 * 16 + (r / 256) mod 16) * 16 + (r / 16) mod 16) * 16 + r mod 16 = r.
Proof.
  intros Hr. rewrite (Z.mod_small (r / 4096)) by (Z.to_euclidean_division_equations; lia).
  replace (r / 4096) with (r / 16 / 16 / 16) by (rewrite !Z.div_div; f_equal; lia).
  replace (r / 256) with (r / 16 / 16) by (rewrite !Z.div_div; f_equal; lia).
  pose proof (Z.div_mod r 16). pose proof (Z.div_mod (r / 16) 16). pose proof (Z.div_mod (r / 16 / 16) 16). lia.
Qed.
Lemma hex4_value_hex4 r t : 0 <= r < 65536 -> hex4_value (hex4 r +:+ t) = Some (r, t).
Proof.
  intros Hr. unfold hex4. rewrite !str_app_cons. unfold str1. rewrite str_app_cons, str_app_nil_l. cbn [hex4_value].
  assert (Hh : forall d, 0 <= d < 16 -> hex_digit (hex_char d) = Some d).
  { intros d Hd. assert (Hall : forallb (fun d => match hex_digit (hex_char d) with Some x => x =? d | None => false end)
      (map Z.of_nat (seq 0 16)) = true) by (vm_compute; reflexivity).
    rewrite forallb_forall in Hall. specialize (Hall d). destruct (hex_digit (hex_char d)).
    - f_equal. apply Z.eqb_eq, Hall. apply in_map_iff. exists (Z.to_nat d). split; [lia|apply in_seq; lia].
    - discriminate Hall. apply in_map_iff. exists (Z.to_nat d). split; [lia|apply in_seq; lia]. }
  rewrite !Hh by (apply Z.mod_pos_bound; lia). by rewrite nibbles4.
Qed.

(** One escaped or plain code point is read back as itself. *)
Lemma parse_chars_piece c r fuel rest :
  c = encode_rune r -> c <> "" -> (forall u, decode_rune (c +:+ u) = (r, String.length c)) -> invalid_chunk (r, c) = false ->
  parse_chars (S fuel) (json_chunk (r, c) +:+ rest) = option_map (fun p => (c +:+ fst p, snd p)) (parse_chars fuel rest).
Proof.
  intros Henc Hne Hd Hv. unfold json_chunk. cbv zeta. rewrite Hv. cbn [fst snd].
  assert (Hone : forall x, r = x -> 0 <= x < 128 -> c = str1 (chr x)) by (intros x <- Hx; by rewrite Henc, encode_1).
  assert (Hu : 0 <= r < 65536 -> IsSurrogate r = false ->
    parse_chars (S fuel) (json_escape_u r +:+ rest) = option_map (fun p => (c +:+ fst p, snd p)) (parse_chars fuel rest)).
  { intros Hr Hs. unfold json_escape_u, str1. rewrite str_app_assoc, !str_app_cons, str_app_nil_l. cbn [parse_chars].
    change (byte (chr 92)) with 92. cbn [Z.eqb Pos.eqb]. change (simple_escape (chr 117)) with (@None ascii).
    cbn [getu4]. change ((byte (chr 92) =? 92) && (byte (chr 117) =? 117)) with true. rewrite hex4_value_hex4 by done.
    unfold complete_unit. by rewrite Hs, <- Henc. }
  destruct ((r =? 34) || (r =? 92)) eqn:E1.
  { assert (r = 34 \/ r = 92) as [E|E] by (destruct (Z.eqb_spec r 34), (Z.eqb_spec r 92); auto; discriminate); rewrite (Hone _ E), E by lia; reflexivity. }
  apply orb_false_iff in E1 as [H34 H92].
  repeat match goal with |- context [if r =? ?k then json_escape_c _ else _] =>
    destruct (Z.eqb_spec r k) as [E|?]; [rewrite (Hone _ E) by lia; reflexivity|] end.
  destruct (_ || (r =? 8233)) eqn:E2.
  { assert (0 <= r).
    { destruct c as [|a t]; [done|]. specialize (Hd ""). pose proof (byte_range a). unfold decode_rune in Hd.
      rewrite str_app_nil_r in Hd. repeat (go_case; simplify_eq; try (unfold RuneError; lia)); utf8_bytes; lia. }
    unfold IsSurrogate in *. apply Hu; destruct (Z.ltb_spec r 32), (Z.eqb_spec r 60), (Z.eqb_spec r 62), (Z.eqb_spec r 38),
      (Z.eqb_spec r 8232), (Z.eqb_spec r 8233); try discriminate; try lia; apply andb_false_iff; left; apply Z.leb_gt; lia. }
  apply orb_false_iff in E2 as [E2 _]. do 4 apply orb_false_iff in E2 as [E2 _].
  destruct c as [|a t]; [done|]. pose proof (Hd rest) as Hdr. rewrite str_app_cons in *. cbn [parse_chars].
  destruct (byte a <? 128) eqn:Ha.
  - assert (byte a = r /\ t = "") as [<- ->].
    { unfold decode_rune in Hdr. rewrite Ha in Hdr. injection Hdr as -> Hl. split; [done|]. by apply str_length_0. }
    by rewrite H34, H92, E2.
  - bool_prop. rewrite (proj2 (Z.eqb_neq (byte a) 34)), (proj2 (Z.eqb_neq (byte a) 92)), (proj2 (Z.ltb_ge (byte a) 32)) by lia.
    rewrite Hdr. rewrite <- Henc. rewrite <- (str_app_cons a t rest). by rewrite str_drop_app.
Qed.

Lemma json_chunk_length c r : c <> "" -> (1 <= String.length (json_chunk (r, c)))%nat.
Proof.
  intros Hc. assert (1 <= String.length c)%nat by (destruct c; [done|cbn; lia]).
  unfold json_chunk, json_escape_u, json_escape_c. cbv zeta. cbn [fst snd].
  repeat match goal with |- context [if ?b then _ else _] => destruct b end; rewrite ?str_length_app; cbn [String.length str1]; lia.
Qed.

Lemma parse_chars_string s fuel rest : utf8 s -> (String.length (str_concat (map json_chunk (chunks s))) < fuel)%nat ->
  parse_chars fuel (str_concat (map json_chunk (chunks s)) +:+ quote +:+ rest) = Some (s, rest).
Proof.
  intros Hs. revert fuel. induction Hs as [|c s Hc Hs IH]; intros fuel Hf; (destruct fuel as [|fuel]; [lia|]).
  - reflexivity.
  - pose proof (utf8_piece_length c Hc) as Hne. destruct (utf8_piece_encode c Hc) as (r & Henc & Hd & Hv).
    rewrite (chunks_piece c s r) in * by done. cbn [map str_concat foldr] in *. fold (str_concat (map json_chunk (chunks s))) in *.
    rewrite str_length_app in Hf. pose proof (json_chunk_length c r Hne). rewrite str_app_assoc.
    rewrite parse_chars_piece by done. rewrite IH by lia. reflexivity.
Qed.

Lemma parse_string_json s rest : utf8 s -> parse_string (json_string s +:+ rest) = Some (s, rest).
Proof.
  intros Hs. unfold json_string. rewrite !str_app_assoc. unfold quote at 1. cbn [str1 String.append parse_string].
  change (byte (chr 34) =? 34) with true. apply parse_chars_string; [done|]. rewrite !str_length_app. lia.
Qed.

(** ** Round trip of values *)
Section json_induction.
Context (P : json -> Prop) (Hnull : P JNull) (Hbool : forall b, P (JBool b)) (Hnum : forall lit, P (JNumber lit))
  (Hstr : forall s, P (JString s)) (Harr : forall l, Forall P l -> P (JArray l))
  (Hobj : forall l, Forall (fun kv => P (snd kv)) l -> P (JObject l)).
Fixpoint json_ind' (j : json) : P j :=
  match j with
  | JNull => Hnull
  | JBool b => Hbool b
  | JNumber lit => Hnum lit
  | JString s => Hstr s
  | JArray l => Harr l ((fix go l : Forall P l :=
      match l with [] => Forall_nil_2 P | v :: l => Forall_cons_2 P v l (json_ind' v) (go l) end) l)
  | JObject l => Hobj l ((fix go l : Forall (fun kv => P (snd kv)) l :=
      match l with [] => Forall_nil_2 _ | kv :: l => Forall_cons_2 _ kv l (json_ind' (snd kv)) (go l) end) l)
  end.
End json_induction.

(** Values with valid UTF-8 strings and well-formed numbers. *)
Fixpoint json_ok (j : json) : Prop :=
  match j with
  | JNull | JBool _ => True
  | JNumber lit => number_ok lit = true /\ str_forallb number_char lit = true
  | JString s => utf8 s
  | JArray l => foldr (fun v Q => json_ok v /\ Q) True l
  | JObject l => foldr (fun kv Q => utf8 (fst kv) /\ json_ok (snd kv) /\ Q) True l
  end.
Fixpoint jdepth (j : json) : nat :=
  match j with
  | JArray l => S (foldr (fun v n => Nat.max (jdepth v) n) 0%nat l)
  | JObject l => S (foldr (fun kv n => Nat.max (jdepth (snd kv)) n) 0%nat l)
  | _ => 0
  end.
(** Fuel that parsing the printed value takes. *)
Fixpoint jsize (j : json) : nat :=
  match j with
  | JArray l => S (foldr (fun v n => S (jsize v) + n)%nat 0%nat l)
  | JObject l => S (foldr (fun kv n => S (jsize (snd kv)) + n)%nat 0%nat l)
  | _ => 1
  end.

Abbreviation blank w := (str_forallb is_ws w = true).
Definition layout_ok (ly : layout) : Prop := (forall d, blank (nl ly d)) /\ exists w, colon ly = ":" +:+ w /\ blank w.
Lemma compact_ok : layout_ok compact.
Proof. split; [done|by exists ""]. Qed.
Lemma indented_ok : layout_ok indented.
Proof. split; [|by exists " "]. intros d. cbn [nl indented]. rewrite str_forallb_app. by induction d. Qed.

(** What may follow a number. *)
Definition delim (s : string) : Prop := match s with EmptyString => True | String c _ => number_char c = false end.

Lemma skip_ws_blank w s : blank w -> skip_ws (w +:+ s) = skip_ws s.
Proof. induction w as [|a w IH]; [done|]. rewrite str_app_cons. cbn [str_forallb skip_ws]. intros [-> Hw]%andb_true_iff. auto. Qed.
Lemma delim_blank w c s : blank w -> number_char c = false -> delim (w +:+ String c s).
Proof.
  destruct w as [|a w]; [by intros _ Hc|]. intros [Ha _]%andb_true_iff Hc. change (number_char a = false). unfold is_ws, number_char, is_digit in *.
  destruct (Z.eqb_spec (byte a) 32) as [->|]; [done|]. destruct (Z.eqb_spec (byte a) 9) as [->|]; [done|].
  destruct (Z.eqb_spec (byte a) 13) as [->|]; [done|]. by destruct (Z.eqb_spec (byte a) 10) as [->|].
Qed.
Lemma span_app f x rest : str_forallb f x = true -> match rest with EmptyString => True | String c _ => f c = false end ->
  span f (x +:+ rest) = (x, rest).
Proof.
  intros Hx Hr. induction x as [|a x IH].
  - rewrite str_app_nil_l. destruct rest as [|c rest]; [done|]. cbn. by rewrite Hr.
  - cbn [str_forallb] in Hx. apply andb_true_iff in Hx as [Ha Hx]. rewrite str_app_cons. cbn [span]. by rewrite Ha, IH.
Qed.
Lemma parse_value_blank w fuel depth s : blank w -> parse_value fuel depth (w +:+ s) = parse_value fuel depth s.
Proof. intros Hw. destruct fuel as [|fuel]; [done|]. cbn [parse_value]. by rewrite skip_ws_blank. Qed.

(** A number starts with a character that starts no other value. *)
Lemma number_head lit : number_ok lit = true -> str_forallb number_char lit = true ->
  exists a t, lit = String a t /\ is_ws a = false /\ byte a <> 34 /\ byte a <> 91 /\ byte a <> 123
    /\ forall c p, c ∈ ["t"; "f"; "n"]%char -> forall u, strip_prefix (String c p) (String a u) = None.
Proof.
  destruct lit as [|a t]; [discriminate|]. intros _ Hc. cbn [str_forallb] in Hc. apply andb_true_iff in Hc as [Hc _]. exists a, t.
  pose proof (byte_ind (fun a => implb (number_char a) (negb (is_ws a) && negb (byte a =? 34) && negb (byte a =? 91)
    && negb (byte a =? 123) && forallb (fun c => negb (Ascii.eqb c a)) ["t"; "f"; "n"]%char)) ltac:(vm_compute; reflexivity) a) as Hb.
  cbv beta in Hb. rewrite Hc in Hb. cbn [implb] in Hb. bool_prop. split_and!; try done.
  intros c p Hin u. cbn [strip_prefix]. match goal with H : forallb _ _ = true |- _ => rewrite forallb_forall in H;
    specialize (H c (proj1 (list_elem_of_In _ _) Hin)) end. bool_prop. by case_match; congruence.
Qed.

Section round_trip.
Context (ly : layout) (Hly : layout_ok ly).
Abbreviation parses_as j := (forall fuel depth d rest, (jsize j <= fuel)%nat -> (depth + jdepth j <= maxNestingDepth)%nat ->
  delim rest -> parse_value fuel depth (print ly d j +:+ rest) = Some (j, rest)).

Lemma elems_round_trip l d d' : l <> [] -> Forall (fun j => parses_as j) l -> forall fuel depth rest,
  (foldr (fun v n => S (jsize v) + n)%nat 0%nat l <= fuel)%nat ->
  (depth + foldr (fun v n => Nat.max (jdepth v) n) 0%nat l <= maxNestingDepth)%nat ->
  parse_elems fuel depth (nl ly d +:+ str_join (map (print ly d) l) ("," +:+ nl ly d) +:+ nl ly d' +:+ "]" +:+ rest) = Some (l, rest).
Proof.
  destruct Hly as [Hnl _]. intros Hne Hall. induction Hall as [|v l Hv Hl IH]; [done|]. intros fuel depth rest Hf Hdp.
  destruct fuel as [|fuel]; [cbn in Hf; lia|]. cbn [foldr] in Hf, Hdp. cbn [parse_elems map]. rewrite parse_value_blank by apply Hnl.
  destruct l as [|v' l'].
  - cbn [map str_join]. rewrite Hv by (lia || by apply delim_blank). rewrite skip_ws_blank by apply Hnl. reflexivity.
  - rewrite str_join_cons by done. rewrite !str_app_assoc. rewrite Hv by (lia || done).
    change (skip_ws ("," +:+ ?s)) with (String "," s). change (byte "," =? 44) with true. cbv iota.
    rewrite IH by (done || lia). reflexivity.
Qed.

Lemma members_round_trip l d d' : l <> [] -> Forall (fun kv => utf8 (fst kv) /\ parses_as (snd kv)) l -> forall fuel depth rest,
  (foldr (fun kv n => S (jsize (snd kv)) + n)%nat 0%nat l <= fuel)%nat ->
  (depth + foldr (fun kv n => Nat.max (jdepth (snd kv)) n) 0%nat l <= maxNestingDepth)%nat ->
  parse_members fuel depth (nl ly d +:+ str_join (map (fun kv => json_string (fst kv) +:+ colon ly +:+ print ly d (snd kv)) l)
    ("," +:+ nl ly d) +:+ nl ly d' +:+ "}" +:+ rest) = Some (l, rest).
Proof.
  destruct Hly as [Hnl (w & Hw & Hb)]. intros Hne Hall. induction Hall as [|[k v] l [Hk Hv] Hl IH]; [done|]. intros fuel depth rest Hf Hdp.
  cbn [fst snd] in Hk, Hv. destruct fuel as [|fuel]; [cbn in Hf; lia|]. cbn [foldr snd] in Hf, Hdp. cbn [parse_members map].
  rewrite skip_ws_blank by apply Hnl.
  assert (Hstart : forall x t, skip_ws ((json_string k +:+ x) +:+ t) = json_string k +:+ x +:+ t).
  { intros x t. rewrite str_app_assoc. unfold json_string, quote. by rewrite !str_app_assoc. }
  assert (Hcol : forall t, skip_ws (colon ly +:+ t) = ":" +:+ w +:+ t) by (intros t; rewrite Hw, str_app_assoc; reflexivity).
  destruct l as [|kv' l'].
  - cbn [map str_join fst snd]. rewrite Hstart, parse_string_json by done. rewrite !str_app_assoc, Hcol.
    change (strip_prefix ":" (":" +:+ ?s)) with (Some s). cbv iota. rewrite parse_value_blank by done. rewrite Hv by (lia || by apply delim_blank).
    rewrite skip_ws_blank by apply Hnl. reflexivity.
  - rewrite str_join_cons by done. cbn [fst snd]. rewrite str_app_assoc, Hstart, parse_string_json by done. rewrite !str_app_assoc, Hcol.
    change (strip_prefix ":" (":" +:+ ?s)) with (Some s). cbv iota. rewrite parse_value_blank by done. rewrite Hv by (lia || done).
    change (skip_ws ("," +:+ ?s)) with (String "," s). change (byte "," =? 44) with true. cbv iota.
    rewrite IH by (done || lia). reflexivity.
Qed.

Lemma foldr_and_Forall {A} (P : A -> Prop) l : foldr (fun v Q => P v /\ Q) True l <-> Forall P l.
Proof. induction l as [|v l IH]; cbn; [by split|]. by rewrite IH, Forall_cons. Qed.

(** A printed value starts with neither white space nor a closing bracket. *)
Definition opener (s : string) : Prop := exists a t, s = String a t /\ is_ws a = false /\ a <> "]"%char /\ a <> "}"%char.
Lemma print_opener d j : json_ok j -> opener (print ly d j).
Proof.
  destruct j as [|b|lit|s|l|l]; intros Hok; cbn [print].
  - by exists "n"%char, "ull".
  - destruct b; [by exists "t"%char, "rue"|by exists "f"%char, "alse"].
  - destruct Hok as [Hn Hc]. destruct (number_head lit Hn Hc) as (a & t & -> & Hws & _). exists a, t. split_and!; [done|done|..];
      intros ->; cbn [str_forallb] in Hc; apply andb_true_iff in Hc as [Hc _]; discriminate.
  - unfold json_string, quote, str1. rewrite str_app_cons. by eexists _, _.
  - destruct l; by eexists _, _.
  - destruct l; by eexists _, _.
Qed.
Lemma opener_app s t : opener s -> opener (s +:+ t).
Proof. intros (a & u & -> & Ha). exists a, (u +:+ t). by rewrite str_app_cons. Qed.
Lemma opener_join x l sep : opener x -> opener (str_join (x :: l) sep).
Proof. intros Hx. destruct l; [done|]. rewrite str_join_cons by done. by apply opener_app. Qed.
Lemma opener_strip c s : c = "]"%char \/ c = "}"%char -> opener s -> strip_prefix (str1 c) (skip_ws s) = None.
Proof.
  intros Hc (a & t & -> & Ha & H1 & H2). cbn [skip_ws]. rewrite Ha. cbn [strip_prefix str1].
  destruct (Ascii.eqb_spec c a); [|done]. destruct Hc; congruence.
Qed.

Lemma array_round_trip l : Forall json_ok l -> Forall (fun j => parses_as j) l -> parses_as (JArray l).
Proof.
  intros Hok Hall fuel depth d rest Hf Hdp Hr. destruct fuel as [|fuel]; [cbn in Hf; lia|].
  cbn [jsize jdepth] in Hf, Hdp. assert (Hdep : (maxNestingDepth <=? depth)%nat = false) by (apply Nat.leb_gt; lia).
  assert (Hstep : forall t, parse_value (S fuel) depth ("[" +:+ t) = match strip_prefix "]" (skip_ws t) with
    | Some u => Some (JArray [], u)
    | None => option_map (fun p => (JArray (fst p), snd p)) (parse_elems fuel (S depth) t) end).
  { intros t. change ("[" +:+ t) with (String "[" t). cbn [parse_value skip_ws].
    change (byte "[" =? 34) with false. change (byte "[" =? 91) with true. change (is_ws "[") with false. cbv iota. by rewrite Hdep. }
  destruct l as [|v l]; cbn [print]; [change ("[]" +:+ rest) with ("[" +:+ "]" +:+ rest); by rewrite Hstep|].
  rewrite !str_app_assoc, Hstep, (skip_ws_blank (nl ly (S d))) by apply Hly.
  rewrite (opener_strip "]"%char); [|by left|].
  - rewrite elems_round_trip by (done || lia). reflexivity.
  - apply opener_app. cbn [map]. apply opener_join, print_opener. by apply Forall_cons in Hok as [? _].
Qed.
Lemma object_round_trip l : Forall (fun kv => utf8 (fst kv)) l -> Forall (fun kv => parses_as (snd kv)) l -> parses_as (JObject l).
Proof.
  intros Hok Hall fuel depth d rest Hf Hdp Hr. destruct fuel as [|fuel]; [cbn in Hf; lia|].
  cbn [jsize jdepth] in Hf, Hdp. assert (Hdep : (maxNestingDepth <=? depth)%nat = false) by (apply Nat.leb_gt; lia).
  assert (Hstep : forall t, parse_value (S fuel) depth ("{" +:+ t) = match strip_prefix "}" (skip_ws t) with
    | Some u => Some (JObject [], u)
    | None => option_map (fun p => (JObject (fst p), snd p)) (parse_members fuel (S depth) t) end).
  { intros t. change ("{" +:+ t) with (String "{" t). cbn [parse_value skip_ws].
    change (byte "{" =? 34) with false. change (byte "{" =? 91) with false. change (byte "{" =? 123) with true.
    change (is_ws "{") with false. cbv iota. by rewrite Hdep. }
  destruct l as [|v l]; cbn [print]; [change ("{}" +:+ rest) with ("{" +:+ "}" +:+ rest); by rewrite Hstep|].
  rewrite !str_app_assoc, Hstep, (skip_ws_blank (nl ly (S d))) by apply Hly.
  rewrite (opener_strip "}"%char); [|by right|].
  - rewrite members_round_trip; [done|done| |lia|lia]. apply Forall_and. by split.
  - apply opener_app. cbn [map]. apply opener_join. unfold json_string, quote, str1. rewrite !str_app_cons. by eexists _, _.
Qed.

Lemma value_round_trip j : json_ok j -> parses_as j.
Proof.
  induction j as [|b|lit|s|l IH|l IH] using json_ind'; intros Hok.
  1-4: intros fuel depth d rest Hf Hdp Hr; (destruct fuel as [|fuel]; [cbn in Hf; lia|]).
  - reflexivity.
  - by destruct b.
  - destruct Hok as [Hn Hc]. destruct (number_head lit Hn Hc) as (a & t & -> & Hws & H1 & H2 & H3 & Hp).
    cbn [print]. rewrite str_app_cons. cbn [parse_value skip_ws]. rewrite Hws.
    apply Z.eqb_neq in H1, H2, H3. rewrite H1, H2, H3, !Hp by set_solver.
    rewrite <- str_app_cons, span_app by done. by rewrite Hn.
  - cbn [print]. assert (Hq : json_string s +:+ rest = String (chr 34) (str_concat (map json_chunk (chunks s)) +:+ quote +:+ rest)).
    { unfold json_string, quote. by rewrite !str_app_assoc. }
    rewrite Hq. cbn [parse_value skip_ws]. change (is_ws (chr 34)) with false. change (byte (chr 34) =? 34) with true.
    cbv iota. by rewrite <- Hq, parse_string_json.
  - cbn [json_ok] in Hok. apply foldr_and_Forall in Hok. apply array_round_trip; [done|].
    rewrite Forall_forall in *. intros v Hv. by apply IH, Hok.
  - assert (Hok' : Forall (fun kv => utf8 (fst kv) /\ json_ok (snd kv)) l).
    { apply foldr_and_Forall. cbn [json_ok] in Hok. clear IH. induction l; [done|]. cbn in *. tauto. }
    rewrite Forall_forall in Hok', IH. apply object_round_trip; rewrite Forall_forall; intros kv Hkv; [by apply Hok'|by apply IH, Hok'].
Qed.
End round_trip.

(** The fuel of [json_parse] is enough for every printed value. *)
Lemma str_join_length l sep : (foldr (fun x n => String.length x + n) 0 l <= String.length (str_join l sep))%nat.
Proof.
  induction l as [|x l IH]; [done|]. destruct l as [|y l]; [cbn; lia|]. rewrite str_join_cons by done. cbn [foldr] in *.
  rewrite !str_length_app. lia.
Qed.
Lemma sizes_le {A} (f : A -> nat) (g : A -> string) l : Forall (fun x => S (f x) <= 3 * String.length (g x))%nat l ->
  (foldr (fun x n => S (f x) + n) 0 l <= 3 * foldr (fun x n => String.length x + n) 0 (map g l))%nat.
Proof. induction 1 as [|x l H _ IH]; cbn in *; lia. Qed.
Lemma jsize_print ly j : json_ok j -> forall d, (S (jsize j) <= 3 * String.length (print ly d j))%nat.
Proof.
  induction j as [|b|lit|s|l IH|l IH] using json_ind'; intros Hok d.
  1-2: try destruct b; cbn; lia.
  - destruct Hok as [Hn _]. destruct lit; [discriminate|]. cbn. lia.
  - cbn [print jsize]. unfold json_string, quote. rewrite !str_length_app. cbn. lia.
  - cbn [json_ok] in Hok. apply foldr_and_Forall in Hok. destruct l as [|v l]; [cbn; lia|].
    pose proof (sizes_le jsize (print ly (S d)) (v :: l)) as Hs. cbn [print jsize]. rewrite !str_length_app.
    pose proof (str_join_length (map (print ly (S d)) (v :: l)) ("," +:+ nl ly (S d))). cbn [String.length].
    assert (Forall (fun x => S (jsize x) <= 3 * String.length (print ly (S d) x))%nat (v :: l)).
    { rewrite Forall_forall in *. intros x Hx. by apply IH, Hok. }
    specialize (Hs ltac:(done)). lia.
  - assert (Hok' : Forall (fun kv => json_ok (snd kv)) l).
    { cbn [json_ok] in Hok. clear IH. induction l; [done|]. cbn in Hok. constructor; [tauto|apply IHl; tauto]. }
    destruct l as [|v l]; [cbn; lia|].
    set (g := fun kv : string * json => json_string (fst kv) +:+ colon ly +:+ print ly (S d) (snd kv)).
    pose proof (sizes_le (fun kv => jsize (snd kv)) g (v :: l)) as Hs. cbn [print jsize]. rewrite !str_length_app. fold g.
    pose proof (str_join_length (map g (v :: l)) ("," +:+ nl ly (S d))). cbn [String.length].
    assert (Forall (fun x => S (jsize (snd x)) <= 3 * String.length (g x))%nat (v :: l)).
    { rewrite Forall_forall in *. intros x Hx. unfold g. rewrite !str_length_app. specialize (IH x Hx (Hok' x Hx) (S d)). lia. }
    specialize (Hs ltac:(done)). lia.
Qed.

(** What is printed is parsed back, whatever white space follows. *)
Theorem json_round_trip ly j w : layout_ok ly -> json_ok j -> (jdepth j <= maxNestingDepth)%nat -> blank w ->
  json_parse (print ly 0 j +:+ w) = Some j.
Proof.
  intros Hly Hok Hd Hw. unfold json_parse. rewrite (value_round_trip ly Hly j Hok).
  - assert (skip_ws w = "") as ->; [|done]. rewrite <- (str_app_nil_r w). by rewrite skip_ws_blank.
  - pose proof (jsize_print ly j Hok 0). rewrite str_length_app. lia.
  - lia.
  - destruct w as [|c w]; [done|]. change (delim (String c "" +:+ w)). apply andb_true_iff in Hw as [Hc _].
    change (delim (String c "" +:+ w)) with (number_char c = false). revert Hc.
    pose proof (byte_ind (fun a => implb (is_ws a) (negb (number_char a))) ltac:(vm_compute; reflexivity) c) as Hb. cbv beta in Hb.
    intros Hc. rewrite Hc in Hb. by apply negb_true_iff.
Qed.

(** * [strconv.Unquote]

    Go string literals: interpreted (double-quoted) strings and single-quoted
    characters with their escapes, and raw (back-quoted) strings. *)
Definition ch_dquote : ascii := chr 34.
Definition ch_squote : ascii := chr 39.
Definition ch_backquote : ascii := chr 96.
Definition ch_backslash : ascii := chr 92.
Definition ch_newline : ascii := chr 10.
Definition ch_cr : ascii := chr 13.

(** [n] digits in base [2 ^ bits] read by [digit]; value and rest. *)
Fixpoint read_digits (digit : ascii -> option Z) (base : Z) (n : nat) (acc : Z) (s : string)
  : option (Z * string) :=
  match n with
  | O => Some (acc, s)
  | S n =>
    match s with
    | EmptyString => None
    | String c t => match digit c with
                    | Some d => read_digits digit base n (acc * base + d) t
                    | None => None
                    end
    end
  end.

Definition oct_digit (c : ascii) : option Z :=
  if (48 <=? byte c) && (byte c <=? 55) then Some (byte c - 48) else None.

Definition ValidRune (r : Z) : bool :=
  ((0 <=? r) && (r <? 55296)) || ((57343 <? r) && (r <=? 1114111)).

(** The escapes with a fixed value. *)
Definition quote_escape (c : ascii) : option Z :=
  match byte c with
  | 97 => Some 7 | 98 => Some 8 | 102 => Some 12 | 110 => Some 10
  | 114 => Some 13 | 116 => Some 9 | 118 => Some 11 | 92 => Some 92
  | _ => None
  end.

(** [strconv.UnquoteChar]: value, whether it is multibyte, rest. *)
Definition UnquoteChar (s : string) (quote : ascii) : option (Z * bool * string) :=
  match s with
  | EmptyString => None
  | String c t =>
    if Ascii.eqb c quote then None
    else if 128 <=? byte c then let '(r, w) := decode_rune s in Some (r, true, str_drop w s)
    else if negb (Ascii.eqb c ch_backslash) then Some (byte c, false, t)
    else match t with
    | EmptyString => None
    | String e u =>
      let hex n := read_digits hex_digit 16 n 0 u in
      let uni n := match hex n with
                   | Some (v, r) => if ValidRune v then Some (v, true, r) else None
                   | None => None
                   end in
      match quote_escape e with
      | Some v => Some (v, false, u)
      | None =>
        if byte e =? 120 then option_map (fun '(v, r) => (v, false, r)) (hex 2%nat)
        else if byte e =? 117 then uni 4%nat
        else if byte e =? 85 then uni 8%nat
        else match oct_digit e with
        | Some d =>
          match read_digits oct_digit 8 2 d u with
          | Some (v, r) => if 255 <? v then None else Some (v, false, r)
          | None => None
          end
        | None =>
          if (Ascii.eqb e ch_squote || Ascii.eqb e ch_dquote) && Ascii.eqb e quote
          then Some (byte e, false, u) else None
        end
      end
    end
  end.

Definition rune_bytes (v : Z) (multibyte : bool) : string :=
  if (v <? 128) || negb multibyte then str1 (chr v) else encode_rune v.

(** The character loop of [unquote]; every round consumes a byte. *)
Fixpoint unquote_loop (fuel : nat) (quote : ascii) (s buf : string) : option (string * string) :=
  match fuel with
  | O => None
  | S fuel =>
    match s with
    | EmptyString => None
    | String c t =>
      if Ascii.eqb c quote then Some (buf, t)
      else if Ascii.eqb c ch_newline then None
      else match UnquoteChar s quote with
      | None => None
      | Some (v, mb, rem) =>
        let buf := buf +:+ rune_bytes v mb in
        if Ascii.eqb quote ch_squote
        then match rem with
             | String c' t' => if Ascii.eqb c' quote then Some (buf, t') else None
             | EmptyString => None
             end
        else unquote_loop fuel quote rem buf
      end
    end
  end.

Fixpoint filter_byte (c : ascii) (s : string) : string :=
  match s with
  | EmptyString => ""
  | String a t => if Ascii.eqb a c then filter_byte c t else String a (filter_byte c t)
  end.

Definition Unquote (s : string) : option string :=
  match s with
  | EmptyString => None
  | String q t =>
    if negb (str_exists (Ascii.eqb q) t) then None
    else if Ascii.eqb q ch_backquote then
      match Split t q with
      | [body; EmptyString] => Some (filter_byte ch_cr body)
      | _ => None
      end
    else if Ascii.eqb q ch_dquote || Ascii.eqb q ch_squote then
      match unquote_loop (S (String.length t)) q t "" with
      | Some (out, EmptyString) => Some out
      | _ => None
      end
    else None
  end.
