(* ===== verification/Zone.v ===== *)
(** * The data model (pkg/model/zone.go, pkg/model/errors.go)

    Zones, records and DNSSEC settings as the Go structs have them, the
    supported record types and the structured API errors. *)

From S2P Require Import Prelude GoStrings.

Record SOARecord := mkSOA {
  MName : string;
  RName : string;
  Serial : Z;   (* uint32 *)
  Refresh : Z;  (* uint32 *)
  Retry : Z;    (* uint32 *)
  Expire : Z;   (* uint32 *)
  Minimum : Z   (* uint32 *)
}.

(** [ZRecord] is the Go [Record] ([Record] is a Rocq keyword). *)
Record ZRecord := mkRecord {
  rec_ID : string;
  rec_Name : string;
  rec_Type : string;
  rec_TTL : Z;               (* uint32 *)
  rec_Value : string;
  rec_Priority : option Z    (* *uint16 *)
}.

Record DNSSECConfig := mkDNSSEC {
  Enabled : bool;
  Algorithm : Z;             (* uint8 *)
  KSKKeyTag : Z;             (* uint16 *)
  ZSKKeyTag : Z;             (* uint16 *)
  NSEC3Enabled : bool;
  NSEC3Iterations : Z;       (* uint16 *)
  NSEC3Salt : string;
  SignatureExpiration : option Time
}.

Record Zone := mkZone {
  z_Name : string;
  z_Version : string;
  z_SOA : SOARecord;
  z_Records : list ZRecord;
  z_DNSSEC : option DNSSECConfig;
  z_CreatedAt : Time;
  z_UpdatedAt : Time
}.

#[global] Instance SOARecord_eq_dec : EqDecision SOARecord.
Proof. solve_decision. Defined.
#[global] Instance ZRecord_eq_dec : EqDecision ZRecord.
Proof. solve_decision. Defined.
#[global] Instance DNSSECConfig_eq_dec : EqDecision DNSSECConfig.
Proof. solve_decision. Defined.
#[global] Instance Zone_eq_dec : EqDecision Zone.
Proof. solve_decision. Defined.

(** ** Field updates *)
Definition set_ID (id : string) (r : ZRecord) : ZRecord :=
  mkRecord id (rec_Name r) (rec_Type r) (rec_TTL r) (rec_Value r) (rec_Priority r).
Definition set_Priority (p : option Z) (r : ZRecord) : ZRecord :=
  mkRecord (rec_ID r) (rec_Name r) (rec_Type r) (rec_TTL r) (rec_Value r) p.
Definition set_Serial (n : Z) (s : SOARecord) : SOARecord :=
  mkSOA (MName s) (RName s) n (Refresh s) (Retry s) (Expire s) (Minimum s).
Definition set_Name (n : string) (z : Zone) : Zone :=
  mkZone n (z_Version z) (z_SOA z) (z_Records z) (z_DNSSEC z) (z_CreatedAt z) (z_UpdatedAt z).
Definition set_Version (v : string) (z : Zone) : Zone :=
  mkZone (z_Name z) v (z_SOA z) (z_Records z) (z_DNSSEC z) (z_CreatedAt z) (z_UpdatedAt z).
Definition set_SOASerial (n : Z) (z : Zone) : Zone :=
  mkZone (z_Name z) (z_Version z) (set_Serial n (z_SOA z)) (z_Records z) (z_DNSSEC z)
    (z_CreatedAt z) (z_UpdatedAt z).
Definition set_Records (rs : list ZRecord) (z : Zone) : Zone :=
  mkZone (z_Name z) (z_Version z) (z_SOA z) rs (z_DNSSEC z) (z_CreatedAt z) (z_UpdatedAt z).
Definition set_DNSSEC (d : option DNSSECConfig) (z : Zone) : Zone :=
  mkZone (z_Name z) (z_Version z) (z_SOA z) (z_Records z) d (z_CreatedAt z) (z_UpdatedAt z).
Definition set_Times (created updated : Time) (z : Zone) : Zone :=
  mkZone (z_Name z) (z_Version z) (z_SOA z) (z_Records z) (z_DNSSEC z) created updated.

(** ** Record types *)
Definition RecordTypeA : string := "A".
Definition RecordTypeAAAA : string := "AAAA".
Definition RecordTypeCNAME : string := "CNAME".
Definition RecordTypeMX : string := "MX".
Definition RecordTypeNS : string := "NS".
Definition RecordTypeTXT : string := "TXT".
Definition RecordTypePTR : string := "PTR".
Definition RecordTypeSOA : string := "SOA".
Definition RecordTypeSRV : string := "SRV".
Definition RecordTypeCAA : string := "CAA".

Definition SupportedRecordTypes : list string :=
  [RecordTypeA; RecordTypeAAAA; RecordTypeCNAME; RecordTypeMX; RecordTypeNS;
   RecordTypeTXT; RecordTypePTR; RecordTypeSRV; RecordTypeCAA].

Definition IsValidRecordType (recordType : string) : bool :=
  existsb (fun t => (t =? recordType)%string) SupportedRecordTypes.

Definition DefaultSOA (mname rname : string) : SOARecord :=
  mkSOA mname rname 0 3600 1800 604800 86400.

(** ** API errors *)
Inductive ErrorCode :=
  | ErrorCodeNotFound | ErrorCodeAlreadyExists | ErrorCodeInvalidInput
  | ErrorCodeConflict | ErrorCodeInternal | ErrorCodeUnavailable
  | ErrorCodeUnauthorized | ErrorCodeForbidden | ErrorCodeRateLimitExceeded.

Definition code_string (c : ErrorCode) : string :=
  match c with
  | ErrorCodeNotFound => "NOT_FOUND"
  | ErrorCodeAlreadyExists => "ALREADY_EXISTS"
  | ErrorCodeInvalidInput => "INVALID_INPUT"
  | ErrorCodeConflict => "CONFLICT"
  | ErrorCodeInternal => "INTERNAL_ERROR"
  | ErrorCodeUnavailable => "UNAVAILABLE"
  | ErrorCodeUnauthorized => "UNAUTHORIZED"
  | ErrorCodeForbidden => "FORBIDDEN"
  | ErrorCodeRateLimitExceeded => "RATE_LIMIT_EXCEEDED"
  end.

Lemma IsValidRecordType_true t : IsValidRecordType t = true <-> t ∈ SupportedRecordTypes.
Proof.
  unfold IsValidRecordType. rewrite existsb_exists, list_elem_of_In.
  split; [intros (x & Hx & ->%String.eqb_eq); done|].
  intros Hx. exists t. by rewrite String.eqb_refl.
Qed.
