(* ===== verification/Names.v ===== *)
(** * Domain names (pkg/model/normalize.go)

    Normalisation of zone names, record owners and RDATA targets.  [in_zone] is
    the specification of "at or below the zone apex". *)

From S2P Require Import Prelude GoStrings GoStringsFacts.

Section names.
Context `{UnicodeTables}.

Definition NormalizeZoneName (name : string) : string :=
  if (name =? "")%string then ""
  else let normalized := ToLower name in
       if negb (HasSuffix normalized ".") then normalized +:+ "." else normalized.

Definition NormalizeDomainName (name : string) : string :=
  if (name =? "")%string || (name =? "@")%string then name
  else if HasPrefix name "*." then "*." +:+ NormalizeZoneName (str_drop 2 name)
  else NormalizeZoneName name.

(** Whether a name without trailing dot already ends with the zone origin. *)
Definition ends_with_zone (name trimmedZone : string) : bool :=
  let nameLower := ToLower name in
  let zoneLower := ToLower trimmedZone in
  (nameLower =? zoneLower)%string || HasSuffix nameLower ("." +:+ zoneLower).

Definition NormalizeDomainTargetName (name zoneOrigin : string) : string :=
  if (name =? "")%string || (name =? "@")%string then name
  else if HasSuffix name "." then NormalizeDomainName name
  else
    let trimmedZone := TrimSuffix (NormalizeZoneName zoneOrigin) "." in
    if ends_with_zone name trimmedZone then NormalizeDomainName name
    else NormalizeDomainName (name +:+ "." +:+ trimmedZone).

Definition NormalizeRecordOwnerName (name zoneOrigin : string) : string :=
  let zoneName := NormalizeZoneName zoneOrigin in
  if (name =? "@")%string then zoneName
  else if HasSuffix name "." then NormalizeZoneName name
  else
    let trimmedZone := TrimSuffix zoneName "." in
    if ends_with_zone name trimmedZone then NormalizeZoneName name
    else NormalizeZoneName (name +:+ "." +:+ trimmedZone).

(** [owner] is the apex of the zone [zone] or a name below it. *)
Definition in_zone (owner zone : string) : Prop :=
  owner = zone \/ exists p, owner = p +:+ "." +:+ zone.

(** A fully qualified lower-case ASCII name: what normalisation produces. *)
Definition normalized (s : string) : Prop :=
  is_ascii s = true /\ ToLower s = s /\ HasSuffix s "." = true.

(** ** Lemmas *)
Lemma ToLower_dot : ToLower "." = ".".
Proof. reflexivity. Qed.

Lemma lower_byte_dot c : lower_byte c = "."%char -> c = "."%char.
Proof.
  intros E. apply Ascii.eqb_eq.
  generalize (byte_ind (fun c => implb (Ascii.eqb (lower_byte c) "."%char) (Ascii.eqb c "."%char))
    ltac:(vm_compute; reflexivity) c). by rewrite E.
Qed.

Lemma str_map_lower_dot s p : str_map lower_byte s = p +:+ "." -> exists q, s = q +:+ ".".
Proof.
  revert p. induction s as [|a s IH]; intros p E; [by destruct p|].
  destruct p as [|b p]; simpl in E.
  - rewrite str_app_nil_l in E. injection E as E Es. apply lower_byte_dot in E as ->.
    destruct s; [|done]. by exists "".
  - rewrite str_app_cons in E. injection E as _ E. apply IH in E as [q ->].
    by exists (String a q).
Qed.

Lemma HasSuffix_lower_dot s : is_ascii s = true -> HasSuffix (ToLower s) "." = HasSuffix s ".".
Proof.
  intros Hs. rewrite ToLower_ascii by done. apply eq_true_iff_eq. rewrite !HasSuffix_true. split.
  - intros [p E]. by eapply str_map_lower_dot.
  - intros [p ->]. exists (str_map lower_byte p). by rewrite str_map_app.
Qed.

Lemma NormalizeZoneName_nonempty s : s <> "" -> NormalizeZoneName s =
  if HasSuffix (ToLower s) "." then ToLower s else ToLower s +:+ ".".
Proof.
  intros Hs. unfold NormalizeZoneName. destruct (String.eqb_spec s ""); [done|].
  by destruct (HasSuffix _ _).
Qed.

(** Normalising an ASCII name gives a fully qualified lower-case name. *)
Lemma NormalizeZoneName_normalized s :
  is_ascii s = true -> s <> "" -> normalized (NormalizeZoneName s).
Proof.
  intros Ha Hs. rewrite NormalizeZoneName_nonempty by done.
  pose proof (is_ascii_ToLower s Ha). unfold normalized. destruct (HasSuffix _ _) eqn:E.
  - auto using ToLower_idem.
  - rewrite is_ascii_app, ToLower_app, ToLower_idem, HasSuffix_app by done. by rewrite H0.
Qed.

(** A normalised name is a fixed point. *)
Lemma NormalizeZoneName_fixed s : normalized s -> NormalizeZoneName s = s.
Proof.
  intros (Ha & Hl & Hd). rewrite NormalizeZoneName_nonempty; rewrite ?Hl, ?Hd; [done|].
  intros ->. discriminate.
Qed.

(** An ASCII text in lower case stays the same. *)
Lemma encode_rune_ascii r : is_ascii (encode_rune r) = true -> 0 <= r < 128 /\ encode_rune r = str1 (chr r).
Proof.
  unfold encode_rune. set (r1 := if _ || _ then RuneError else r).
  assert (Hr1 : r1 = RuneError \/ (r1 = r /\ 0 <= r <= 1114111)).
  { unfold r1. destruct ((r <? 0) || (1114111 <? r) || ((55296 <=? r) && (r <=? 57343))) eqn:E; [by left|right]. bool_prop. lia. }
  assert (Hhigh : forall b s, 128 <= b < 256 -> is_ascii (String (chr b) s) = true -> False).
  { intros b s Hb. cbn. rewrite byte_chr by lia. rewrite (proj2 (Z.ltb_ge b 128)) by lia. done. }
  destruct (Z.ltb_spec r1 128) as [Hlt|Hge].
  - intros _. destruct Hr1 as [E|[-> ?]]; [rewrite E in Hlt; unfold RuneError in Hlt; lia|]. split; [lia|done].
  - assert (128 <= r1 <= 1114111) as Hb by (destruct Hr1 as [->|[-> ?]]; unfold RuneError in *; lia).
    pose proof (Z.div_le_upper_bound r1 262144 5 ltac:(lia)) as H1. pose proof (Z.div_pos r1 262144 ltac:(lia) ltac:(lia)) as H2.
    destruct (Z.ltb_spec r1 2048); [|destruct (Z.ltb_spec r1 65536)]; intros Ha; exfalso; (eapply Hhigh; [|exact Ha]).
    + pose proof (Z.div_lt_upper_bound r1 64 32 ltac:(lia)). pose proof (Z.div_pos r1 64 ltac:(lia) ltac:(lia)). lia.
    + pose proof (Z.div_lt_upper_bound r1 4096 16 ltac:(lia)). pose proof (Z.div_pos r1 4096 ltac:(lia) ltac:(lia)). lia.
    + lia.
Qed.
Lemma ToLower_lower `{!UnicodeLaws} s : is_ascii (ToLower s) = true -> ToLower (ToLower s) = ToLower s.
Proof.
  intros Ha. rewrite (ToLower_ascii (ToLower s)) by done. revert Ha. unfold ToLower. destruct (is_ascii s); [intros _; apply str_map_lower_idem|].
  induction (chunks s) as [|c l IH]; [done|]. cbn [map str_concat foldr]. change (foldr String.append "" ?l) with (str_concat l).
  rewrite is_ascii_app. intros [Hc Hl]%andb_true_iff. rewrite str_map_app, IH by done. f_equal.
  apply encode_rune_ascii in Hc as [Hr ->]. unfold str1. cbn [str_map]. f_equal. unfold lower_byte. rewrite byte_chr by lia.
  assert (Hno : ~ 65 <= unicode_ToLower (fst c) <= 90).
  { unfold unicode_ToLower in *. destruct (Z.ltb_spec (fst c) 128); [|by apply lower_not_upper].
    destruct ((65 <=? fst c) && (fst c <=? 90)) eqn:E; bool_prop; lia. }
  destruct ((65 <=? _) && _) eqn:E; [|done]. bool_prop. lia.
Qed.
(** Normalising twice is normalising once, for names that come out in ASCII. *)
Lemma NormalizeZoneName_idem `{!UnicodeLaws} s : is_ascii (NormalizeZoneName s) = true ->
  NormalizeZoneName (NormalizeZoneName s) = NormalizeZoneName s.
Proof.
  destruct (decide (s = "")) as [->|Hs]; [done|]. intros Ha. apply NormalizeZoneName_fixed. rewrite NormalizeZoneName_nonempty in * by done.
  destruct (HasSuffix (ToLower s) ".") eqn:E; [split_and!; [done|by apply ToLower_lower|done]|].
  pose proof Ha as Ha'. rewrite is_ascii_app in Ha'. apply andb_true_iff in Ha' as [Hl _].
  split_and!; [done| |apply HasSuffix_app]. by rewrite ToLower_app, ToLower_lower.
Qed.

Lemma normalized_nonempty s : normalized s -> s <> "".
Proof. intros (_ & _ & Hd) ->. discriminate. Qed.

Lemma NormalizeZoneName_lower s : is_ascii s = true ->
  NormalizeZoneName (ToLower s) = NormalizeZoneName s.
Proof.
  intros Ha. destruct (decide (s = "")) as [->|Hs]; [done|].
  rewrite !NormalizeZoneName_nonempty; [|done|]; [by rewrite ToLower_idem|].
  intros E%(f_equal String.length). rewrite ToLower_length in E by done. by destruct s.
Qed.

Lemma NormalizeZoneName_dot s : is_ascii s = true -> HasSuffix s "." = false -> s <> "" ->
  NormalizeZoneName (s +:+ ".") = NormalizeZoneName s.
Proof.
  intros Ha Hd Hs. assert (Hs' : s +:+ "." <> "") by (intros [??]%str_app_nil; done).
  rewrite !NormalizeZoneName_nonempty by done.
  rewrite ToLower_app, ToLower_dot, HasSuffix_app, HasSuffix_lower_dot, Hd by done. done.
Qed.

(** The trimmed origin of a normalised zone name. *)
Lemma normalized_trim z : normalized z ->
  exists t, z = t +:+ "." /\ TrimSuffix z "." = t /\ is_ascii t = true /\ ToLower t = t.
Proof.
  intros (Ha & Hl & [t ->]%HasSuffix_true). exists t. rewrite TrimSuffix_app.
  rewrite is_ascii_app in Ha. apply andb_true_iff in Ha as [Ha _].
  rewrite ToLower_app, ToLower_dot in Hl by done. apply str_app_inj_r in Hl. done.
Qed.

(** Expansion of a relative or absolute owner always yields a normalised name. *)
Lemma NormalizeRecordOwnerName_normalized n z :
  is_ascii n = true -> is_ascii z = true -> n <> "" -> z <> "" ->
  normalized (NormalizeRecordOwnerName n z).
Proof.
  intros Hn Hz Hn0 Hz0. pose proof (NormalizeZoneName_normalized z Hz Hz0) as HN.
  destruct (normalized_trim _ HN) as (t & E & Et & Ht & _).
  unfold NormalizeRecordOwnerName. rewrite Et.
  repeat case_match; try done; apply NormalizeZoneName_normalized; try done.
  - rewrite !is_ascii_app, Hn, Ht. done.
  - intros [??]%str_app_nil. done.
Qed.

(** The origin of a usable zone: normalised, not the root, one trailing dot. *)
Definition plain_zone (z : string) : Prop :=
  normalized z /\ exists t, z = t +:+ "." /\ t <> "" /\ HasSuffix t "." = false.

Lemma plain_zone_trim z : plain_zone z ->
  exists t, z = t +:+ "." /\ TrimSuffix z "." = t /\ is_ascii t = true /\ ToLower t = t
    /\ t <> "" /\ HasSuffix t "." = false.
Proof.
  intros (HN & t & -> & Ht & Hd). destruct (normalized_trim _ HN) as (t' & E & Et & Ha & Hl).
  apply str_app_inj_r in E as <-. rewrite TrimSuffix_app in *. eauto 10.
Qed.

Lemma HasSuffix_dot_ne p t : t <> "" -> HasSuffix (p +:+ t) "." = HasSuffix t ".".
Proof. intros. apply HasSuffix_app_r. destruct t; simpl; [done|lia]. Qed.

(** Normalising a name without trailing dot appends exactly one. *)
Lemma NormalizeZoneName_append s : is_ascii s = true -> s <> "" -> HasSuffix s "." = false ->
  NormalizeZoneName s = ToLower s +:+ ".".
Proof. intros. by rewrite NormalizeZoneName_nonempty, HasSuffix_lower_dot, H2. Qed.

(** A relative or [@] owner always lands inside the zone. *)
Lemma NormalizeRecordOwnerName_in_zone n z :
  is_ascii n = true -> n <> "" -> HasSuffix n "." = false -> plain_zone (NormalizeZoneName z) ->
  in_zone (NormalizeRecordOwnerName n z) (NormalizeZoneName z).
Proof.
  intros Hn Hn0 Hd Hz. destruct (plain_zone_trim _ Hz) as (t & E & Et & Ht & Hlt & Ht0 & Htd).
  unfold NormalizeRecordOwnerName, ends_with_zone. rewrite Et, Hlt, Hd.
  destruct (String.eqb_spec n "@"); [by left|].
  destruct (String.eqb_spec (ToLower n) t) as [El|_]; simpl.
  - left. by rewrite NormalizeZoneName_append, El, E.
  - destruct (HasSuffix (ToLower n) ("." +:+ t)) eqn:Es; right.
    + apply HasSuffix_true in Es as [p Es]. exists p.
      by rewrite NormalizeZoneName_append, Es, E, !str_app_assoc.
    + exists (ToLower n). rewrite E, NormalizeZoneName_append, !ToLower_app, Hlt.
      * by rewrite !str_app_assoc.
      * done.
      * done.
      * done.
      * by rewrite is_ascii_app, Ht.
      * by rewrite !is_ascii_app, Hn, Ht.
      * by intros [??]%str_app_nil.
      * by rewrite !HasSuffix_dot_ne.
Qed.

(** The code's membership test decides [in_zone]. *)
Lemma in_zone_test owner zone :
  (owner =? zone)%string || HasSuffix owner ("." +:+ zone) = true <-> in_zone owner zone.
Proof. unfold in_zone. by rewrite orb_true_iff, String.eqb_eq, HasSuffix_true. Qed.

(** Expansion is idempotent: an expanded owner is its own expansion. *)
Lemma NormalizeRecordOwnerName_fixed n z : normalized n -> NormalizeRecordOwnerName n z = n.
Proof.
  intros Hn. pose proof Hn as (_ & _ & Hd). unfold NormalizeRecordOwnerName. rewrite Hd.
  destruct (String.eqb_spec n "@"); [by subst|]. by apply NormalizeZoneName_fixed.
Qed.
End names.
