(* ===== verification/Validation.v ===== *)
(** * Zone validation (pkg/model/validation.go)

    The validators of zones, records, names and RDATA, and the normalisation of
    derived fields.  A validator returns [Ok tt] for Go's [nil] error. *)

From S2P Require Import Prelude GoStrings GoStringsFacts Regex GoNet Json Zone Names.

(** ** Patterns *)
Definition is_alnum (c : ascii) : bool :=
  ((48 <=? byte c) && (byte c <=? 57)) || ((65 <=? byte c) && (byte c <=? 90))
  || ((97 <=? byte c) && (byte c <=? 122)).
Definition is_alnum_hyphen (c : ascii) : bool := is_alnum c || Ascii.eqb c "-"%char.
Definition is_label_start (c : ascii) : bool := is_alnum c || Ascii.eqb c "_"%char.
Definition is_label_char (c : ascii) : bool := is_label_start c || Ascii.eqb c "-"%char.

(** [[a-zA-Z0-9]([a-zA-Z0-9\-]{0,61}[a-zA-Z0-9])?] *)
Definition labelRegex : regex :=
  RCat (RClass is_alnum) (ROpt (RCat (RUpTo (RClass is_alnum_hyphen) 61) (RClass is_alnum))).
Definition dnsNameRegex : regex :=
  RCat (RStar (RCat labelRegex (RByte "."%char))) (RCat labelRegex (ROpt (RByte "."%char))).
Definition recordLabelRegex : regex := RCat (RClass is_label_start) (RStar (RClass is_label_char)).
Definition caaTagRegex : regex := RPlus (RClass is_alnum).

(** [controlOrSpaceRe] is not anchored: it searches for one byte. *)
Definition control_or_space (c : ascii) : bool := (byte c <=? 32) || (byte c =? 127).

Definition MaxTXTCharacterStringLength : nat := 255.
Definition MaxTXTValueLength : Z := 65279.

Definition unsafeTXTControlCharacter (r : Z) : bool := (r <? 32) || (r =? 127).

(** ** RDATA fields *)
Record MXRData := mkMX { mx_Priority : Z; mx_Target : string }.
Record SRVRData := mkSRV { srv_Priority : Z; srv_Weight : Z; srv_Port : Z; srv_Target : string }.
Record CAARData := mkCAA { caa_Flags : Z; caa_Tag : string; caa_Value : string }.

Definition parseUint16Field (value : string) : result Z :=
  match Atoi value with
  | None => Err (Errorf ("strconv.Atoi: parsing " +:+ value))
  | Some parsed =>
    if (parsed <? 0) || (65535 <? parsed)
    then Err (Errorf ("value outside uint16 range: " +:+ value))
    else Ok (u16 parsed)
  end.

(** The field error is replaced, not wrapped: the code formats only the text. *)
Definition replace_err {A} (e : error) (m : result A) : result A :=
  match m with Ok a => Ok a | Err _ => Err e end.

Definition ParseMXValue (value : string) : result MXRData :=
  match Fields value with
  | [p0; p1] =>
    let* priority := replace_err (Errorf ("invalid MX priority: " +:+ p0)) (parseUint16Field p0) in
    Ok (mkMX priority p1)
  | _ => Err (Errorf ("MX value must be 'priority domain': " +:+ value))
  end.

Definition ParseSRVValue (value : string) : result SRVRData :=
  match Fields value with
  | [p0; p1; p2; p3] =>
    let* priority := replace_err (Errorf ("invalid SRV priority: " +:+ p0)) (parseUint16Field p0) in
    let* weight := replace_err (Errorf ("invalid SRV weight: " +:+ p1)) (parseUint16Field p1) in
    let* port := replace_err (Errorf ("invalid SRV port: " +:+ p2)) (parseUint16Field p2) in
    Ok (mkSRV priority weight port p3)
  | _ => Err (Errorf ("SRV value must be 'priority weight port target': " +:+ value))
  end.

Definition parseCAAStringValue (rawValue : string) : result string :=
  if (rawValue =? "")%string then Err (Errorf "CAA value must include a value field") else
  let* raw :=
    (if str_exists (Ascii.eqb ch_dquote) rawValue
     then match Unquote rawValue with
          | Some u => Ok u
          | None => Err (Errorf ("invalid CAA quoted value: " +:+ rawValue))
          end
     else Ok rawValue) in
  guard_err (negb (ValidString raw)) (Errorf "CAA value must be valid UTF-8") ;;*
  guard_err (ContainsFunc raw unsafeTXTControlCharacter)
    (Errorf "CAA value contains control characters") ;;*
  Ok raw.

Definition ParseCAAValue (value : string) : result CAARData :=
  let trimmed := TrimSpace value in
  if (trimmed =? "")%string then Err (Errorf ("CAA value must be 'flags tag value': " +:+ value)) else
  match Fields value with
  | p0 :: tag :: _ :: _ =>
    match Atoi p0 with
    | Some flags =>
      if (flags <? 0) || (255 <? flags) then Err (Errorf ("invalid CAA flags: " +:+ p0))
      else if negb (MatchString caaTagRegex tag) then Err (Errorf ("invalid CAA tag: " +:+ tag))
      else
        let afterFlags := TrimSpace (TrimPrefix trimmed p0) in
        let rawValue := TrimSpace (TrimPrefix afterFlags tag) in
        let* caaValue := parseCAAStringValue rawValue in
        Ok (mkCAA (u8 flags) tag caaValue)
    | None => Err (Errorf ("invalid CAA flags: " +:+ p0))
    end
  | _ => Err (Errorf ("CAA value must be 'flags tag value': " +:+ value))
  end.

(** The [(priority, hasPriority, err)] triple: [Ok None] has no priority. *)
Definition recordPriorityFromValue (recordType value : string) : result (option Z) :=
  if (recordType =? RecordTypeMX)%string then
    let* rdata := ParseMXValue value in Ok (Some (mx_Priority rdata))
  else if (recordType =? RecordTypeSRV)%string then
    let* rdata := ParseSRVValue value in Ok (Some (srv_Priority rdata))
  else Ok None.

(** ** Names *)
Definition label_too_long (label : string) : error :=
  Errorf ("label too long (max 63 characters): " +:+ label).

Definition ValidateDomainName (name : string) : result unit :=
  if (name =? "")%string then Err (Errorf "domain name is empty")
  else if (name =? "@")%string || (name =? ".")%string then Ok tt
  else if 253 <? len name then Err (Errorf "domain name too long (max 253 characters)")
  else if negb (MatchString dnsNameRegex name)
  then Err (Errorf ("invalid domain name format: " +:+ name))
  else
    match find (fun l => 63 <? len l) (Split (TrimSuffix name ".") "."%char) with
    | Some l => Err (label_too_long l)
    | None => Ok tt
    end.

Definition ValidateDomainTarget (name : string) : result unit :=
  if (name =? "@")%string then Err (Errorf "domain target must not be @")
  else ValidateDomainName name.

Definition ValidateZoneName (name : string) : result unit :=
  if (name =? "@")%string then Err (Errorf "zone name must not be @")
  else if (name =? ".")%string then Err (Errorf "zone name must not be root")
  else ValidateDomainName name.

(** One label of a record owner; [first] is [i == 0]. *)
Definition validate_label (first : bool) (label : string) : result unit :=
  if (label =? "")%string then Err (Errorf "record name contains empty label")
  else if 63 <? len label then Err (label_too_long label)
  else if (label =? "*")%string then
    guard_err (negb first) (Errorf "wildcard label must be leftmost")
  else if Contains label "*" then Err (Errorf "wildcard must occupy a full label")
  else if negb (MatchString recordLabelRegex label)
  then Err (Errorf ("invalid record label: " +:+ label))
  else if HasPrefix label "-" || HasSuffix label "-"
  then Err (Errorf ("record label must not start or end with hyphen: " +:+ label))
  else Ok tt.

Fixpoint validate_labels (first : bool) (labels : list string) : result unit :=
  match labels with
  | [] => Ok tt
  | l :: ls => validate_label first l ;;* validate_labels false ls
  end.

Definition ValidateRecordName (name : string) : result unit :=
  if (name =? "")%string then Err (Errorf "record name is empty")
  else if (name =? "@")%string then Ok tt
  else if (name =? ".")%string then Err (Errorf "record name must not be root")
  else if 253 <? len name then Err (Errorf "record name too long (max 253 characters)")
  else if str_exists control_or_space name
  then Err (Errorf "record name contains whitespace or control characters")
  else if Contains name ".." then Err (Errorf "record name contains empty label")
  else
    let trimmed := TrimSuffix name "." in
    if (trimmed =? "")%string then Err (Errorf "record name is empty")
    else validate_labels true (Split trimmed "."%char).

(** ** Values *)
Definition ValidateIPv4 (ip : string) : result unit :=
  match ParseIP ip with
  | None => Err (Errorf ("invalid IP address: " +:+ ip))
  | Some parsed => guard_err (negb (bool_decide (is_Some (To4 parsed)))) (Errorf ("not an IPv4 address: " +:+ ip))
  end.
Definition ValidateIPv6 (ip : string) : result unit :=
  match ParseIP ip with
  | None => Err (Errorf ("invalid IP address: " +:+ ip))
  | Some parsed => guard_err (bool_decide (is_Some (To4 parsed))) (Errorf ("not an IPv6 address: " +:+ ip))
  end.

Definition ValidateTXTValue (value : string) : result unit :=
  guard_err (MaxTXTValueLength <? len value)
    (Errorf ("TXT value too long (max " +:+ Itoa MaxTXTValueLength +:+ " bytes)")) ;;*
  guard_err (negb (ValidString value)) (Errorf "TXT value must be valid UTF-8") ;;*
  guard_err (ContainsFunc value unsafeTXTControlCharacter)
    (Errorf "TXT value contains control characters") ;;*
  Ok tt.

Definition ValidateMXValue (value : string) : result unit :=
  let* rdata := ParseMXValue value in ValidateDomainTarget (mx_Target rdata).
Definition ValidateSRVValue (value : string) : result unit :=
  let* rdata := ParseSRVValue value in ValidateDomainTarget (srv_Target rdata).
Definition ValidateCAAValue (value : string) : result unit :=
  let* _ := ParseCAAValue value in Ok tt.

Definition is_single_name_type (t : string) : bool :=
  (t =? RecordTypeCNAME)%string || (t =? RecordTypeNS)%string || (t =? RecordTypePTR)%string.

Definition ValidateRecordValue (recordType value : string) : result unit :=
  if (recordType =? RecordTypeTXT)%string then ValidateTXTValue value
  else if (value =? "")%string then Err (Sentinel ErrInvalidRecordValue)
  else if (recordType =? RecordTypeA)%string then ValidateIPv4 value
  else if (recordType =? RecordTypeAAAA)%string then ValidateIPv6 value
  else if is_single_name_type recordType then ValidateDomainTarget value
  else if (recordType =? RecordTypeMX)%string then ValidateMXValue value
  else if (recordType =? RecordTypeSRV)%string then ValidateSRVValue value
  else if (recordType =? RecordTypeCAA)%string then ValidateCAAValue value
  else Ok tt.

(** ** TXT character-strings *)

(** [for end > 0 && !utf8.RuneStart(value[end]) { end-- }] *)
Fixpoint back_to_rune_start (stop : nat) (value : string) : nat :=
  match stop with
  | O => O
  | S e =>
    match String.get stop value with
    | Some c => if RuneStart c then stop else back_to_rune_start e value
    | None => stop
    end
  end.

Definition txt_cut (value : string) : nat :=
  match back_to_rune_start MaxTXTCharacterStringLength value with
  | O => MaxTXTCharacterStringLength
  | stop => stop
  end.

(** The chunk loop; every round removes at least one byte, so a fuel greater
    than the length is enough ([split_txt_total]). *)
Fixpoint split_txt (fuel : nat) (value : string) : option (list string) :=
  match fuel with
  | O => None
  | S fuel =>
    if (String.length value <=? MaxTXTCharacterStringLength)%nat then Some [value]
    else let stop := txt_cut value in
         option_map (cons (str_take stop value)) (split_txt fuel (str_drop stop value))
  end.
Definition SplitTXTValue (value : string) : list string :=
  default [] (split_txt (S (String.length value)) value).

(** ** Priority and derived fields *)
Definition priority_mismatch (t : string) (got want : Z) : error :=
  Errorf (t +:+ " priority " +:+ Itoa got +:+ " does not match value priority " +:+ Itoa want).

Definition ValidateRecordPriority (record : option ZRecord) : result unit :=
  match record with
  | None => Err (Errorf "record is nil")
  | Some r =>
    let* p := recordPriorityFromValue (rec_Type r) (rec_Value r) in
    match p, rec_Priority r with
    | Some priority, Some got =>
      guard_err (negb (got =? priority)) (priority_mismatch (rec_Type r) got priority)
    | _, _ => Ok tt
    end
  end.

(** The updated record on success; on failure the record keeps its fields. *)
Definition normalizeRecordDerivedFields (record : option ZRecord) (rejectMismatch : bool) : result ZRecord :=
  match record with
  | None => Err (Errorf "record is nil")
  | Some r =>
    let* p := recordPriorityFromValue (rec_Type r) (rec_Value r) in
    match p with
    | None => Ok (set_Priority None r)
    | Some priority =>
      match rec_Priority r with
      | Some got =>
        if rejectMismatch && negb (got =? priority)
        then Err (priority_mismatch (rec_Type r) got priority)
        else Ok (set_Priority (Some priority) r)
      | None => Ok (set_Priority (Some priority) r)
      end
    end
  end.

Definition NormalizeRecordDerivedFields (record : option ZRecord) : result ZRecord :=
  normalizeRecordDerivedFields record true.
Definition RepairRecordDerivedFields (record : option ZRecord) : result ZRecord :=
  normalizeRecordDerivedFields record false.

Definition at_index (i : nat) : string := "invalid record at index " +:+ Itoa (Z.of_nat i).

(** Normalise the records from index [i] on.  The records are updated in place,
    so the records before a failing one are already updated. *)
Fixpoint normalize_records (reject : bool) (i : nat) (rs : list ZRecord) : list ZRecord * result unit :=
  match rs with
  | [] => ([], Ok tt)
  | r :: rs' =>
    match wrap (at_index i) (normalizeRecordDerivedFields (Some r) reject) with
    | Err e => (rs, Err e)
    | Ok r' => let '(rs'', res) := normalize_records reject (S i) rs' in (r' :: rs'', res)
    end
  end.

Definition zone_derived_fields (reject : bool) (zone : option Zone) : option Zone * result unit :=
  match zone with
  | None => (None, Err (Errorf "zone is nil"))
  | Some z => let '(rs, res) := normalize_records reject 0 (z_Records z) in (Some (set_Records rs z), res)
  end.
Definition NormalizeZoneDerivedFields : option Zone -> option Zone * result unit := zone_derived_fields true.
Definition RepairZoneDerivedFields : option Zone -> option Zone * result unit := zone_derived_fields false.

(** ** SOA *)
Definition ValidateSOA (soa : option SOARecord) : result unit :=
  match soa with
  | None => Err (Errorf "SOA is nil")
  | Some s =>
    wrap "invalid MName" (ValidateDomainTarget (MName s)) ;;*
    wrap "invalid RName" (ValidateDomainTarget (RName s)) ;;*
    guard_err (Refresh s =? 0) (Errorf "refresh must be non-zero") ;;*
    guard_err (Retry s =? 0) (Errorf "retry must be non-zero") ;;*
    guard_err (Expire s =? 0) (Errorf "expire must be non-zero") ;;*
    guard_err (Minimum s =? 0) (Errorf "minimum must be non-zero")
  end.

(** ** Records *)
Definition ValidateRecord (record : option ZRecord) : result unit :=
  match record with
  | None => Err (Errorf "record is nil")
  | Some r =>
    wrap "invalid record name" (ValidateRecordName (rec_Name r)) ;;*
    guard_err (negb (IsValidRecordType (rec_Type r))) (Sentinel ErrInvalidRecordType) ;;*
    guard_err (rec_TTL r =? 0) (Errorf "TTL must be non-zero") ;;*
    guard_err (2147483647 <? rec_TTL r) (Sentinel ErrInvalidTTL) ;;*
    ValidateRecordValue (rec_Type r) (rec_Value r) ;;*
    ValidateRecordPriority (Some r)
  end.

(** ** Checks relative to a zone origin *)
Section in_zone_checks.
Context `{UnicodeTables}.

Definition ValidateDomainTargetInZone (name zoneName : string) : result unit :=
  ValidateDomainTarget name ;;*
  let target := NormalizeDomainTargetName name zoneName in
  wrap ("expanded domain target " +:+ target +:+ " is invalid") (ValidateDomainTarget target).

Definition ValidateSOAInZone (soa : option SOARecord) (zoneName : string) : result unit :=
  ValidateSOA soa ;;*
  match soa with
  | None => Ok tt
  | Some s =>
    wrap "invalid MName" (ValidateDomainTargetInZone (MName s) zoneName) ;;*
    wrap "invalid RName" (ValidateDomainTargetInZone (RName s) zoneName)
  end.

Definition ValidateRecordNameInZone (recordName zoneName : string) : result unit :=
  ValidateRecordName recordName ;;*
  if (recordName =? "@")%string then Ok tt
  else
    let owner := NormalizeRecordOwnerName recordName zoneName in
    wrap ("expanded record name " +:+ owner +:+ " is invalid") (ValidateRecordName owner) ;;*
    let zone := NormalizeZoneName zoneName in
    if (owner =? zone)%string || HasSuffix owner ("." +:+ zone) then Ok tt
    else Err (Errorf ("record name " +:+ recordName +:+ " is outside zone " +:+ zoneName)).

Definition ValidateRecordValueInZone (recordType value zoneName : string) : result unit :=
  if is_single_name_type recordType then ValidateDomainTargetInZone value zoneName
  else if (recordType =? RecordTypeMX)%string then
    let* rdata := ParseMXValue value in ValidateDomainTargetInZone (mx_Target rdata) zoneName
  else if (recordType =? RecordTypeSRV)%string then
    let* rdata := ParseSRVValue value in ValidateDomainTargetInZone (srv_Target rdata) zoneName
  else Ok tt.

(** ** Canonical keys *)
Definition canonicalRecordValue (recordType value zoneName : string) : string :=
  if (recordType =? RecordTypeA)%string || (recordType =? RecordTypeAAAA)%string then
    match ParseIP value with Some ip => IP_String ip | None => value end
  else if is_single_name_type recordType then NormalizeDomainTargetName value zoneName
  else if (recordType =? RecordTypeMX)%string then
    match ParseMXValue value with
    | Ok r => Itoa (mx_Priority r) +:+ " " +:+ NormalizeDomainTargetName (mx_Target r) zoneName
    | Err _ => value
    end
  else if (recordType =? RecordTypeSRV)%string then
    match ParseSRVValue value with
    | Ok r => Itoa (srv_Priority r) +:+ " " +:+ Itoa (srv_Weight r) +:+ " " +:+ Itoa (srv_Port r)
              +:+ " " +:+ NormalizeDomainTargetName (srv_Target r) zoneName
    | Err _ => value
    end
  else value.

Definition canonicalRecordOwnerName (recordName zoneName : string) : string :=
  NormalizeRecordOwnerName recordName zoneName.

Definition canonicalRecordDuplicateKey (r : ZRecord) (owner zoneName : string) : string :=
  str_join [owner; rec_Type r; Itoa (rec_TTL r);
            canonicalRecordValue (rec_Type r) (rec_Value r) zoneName] (str1 (chr 0)).

(** ** Record-set constraints *)
Record ownerState := mkOwner {
  cnameIndex : Z;
  types : gmap string Z;
  rrsetTTLs : gmap string Z;
  rrsetIndex : gmap string Z
}.

Record constraintState := mkConstraint {
  owners : gmap string ownerState;
  seenRecords : gmap string Z;
  hasApexNS : bool
}.

Definition new_owner : ownerState := mkOwner (-1) ∅ ∅ ∅.

(** The CNAME part of the loop body: the new [cnameIndex]. *)
Definition check_cname (i : Z) (owner zoneName : string) (r : ZRecord) (st : ownerState) : result Z :=
  if (rec_Type r =? RecordTypeCNAME)%string then
    if (owner =? zoneName)%string
    then Err (Errorf (at_index (Z.to_nat i) +:+ ": CNAME is not allowed at zone apex " +:+ zoneName))
    else if 0 <=? cnameIndex st
    then Err (Errorf (at_index (Z.to_nat i) +:+ ": multiple CNAME records for owner " +:+ owner))
    else Ok i
  else Ok (cnameIndex st).

Definition inconsistent_ttl (i : Z) (owner : string) (r : ZRecord) (st : ownerState) (ttl : Z) : error :=
  Errorf (at_index (Z.to_nat i) +:+ ": RRset " +:+ owner +:+ "/" +:+ rec_Type r
    +:+ " has inconsistent TTL: first record at index "
    +:+ Itoa (default 0 (rrsetIndex st !! rec_Type r)) +:+ " has TTL " +:+ Itoa ttl
    +:+ ", got " +:+ Itoa (rec_TTL r)).

(** The TTL part and the type count. *)
Definition check_ttl (i : Z) (owner : string) (r : ZRecord) (cidx : Z) (st : ownerState) : result ownerState :=
  let ty := rec_Type r in
  let cnt := <[ty := default 0 (types st !! ty) + 1]> (types st) in
  match rrsetTTLs st !! ty with
  | Some ttl =>
    if negb (ttl =? rec_TTL r) then Err (inconsistent_ttl i owner r st ttl)
    else Ok (mkOwner cidx cnt (rrsetTTLs st) (rrsetIndex st))
  | None => Ok (mkOwner cidx cnt (<[ty := rec_TTL r]> (rrsetTTLs st)) (<[ty := i]> (rrsetIndex st)))
  end.

(** One iteration of the record loop. *)
Definition constraint_step (zoneName : string) (i : Z) (r : ZRecord) (st : constraintState)
  : result constraintState :=
  let owner := canonicalRecordOwnerName (rec_Name r) zoneName in
  let apexNS := hasApexNS st || ((owner =? zoneName)%string && (rec_Type r =? RecordTypeNS)%string) in
  let key := canonicalRecordDuplicateKey r owner zoneName in
  match seenRecords st !! key with
  | Some first => Err (Errorf (at_index (Z.to_nat i) +:+ ": duplicate record matches index " +:+ Itoa first))
  | None =>
    let state := default new_owner (owners st !! owner) in
    let* cidx := check_cname i owner zoneName r state in
    let* state' := check_ttl i owner r cidx state in
    Ok (mkConstraint (<[owner := state']> (owners st)) (<[key := i]> (seenRecords st)) apexNS)
  end.

Fixpoint constraint_loop (zoneName : string) (i : Z) (rs : list ZRecord) (st : constraintState)
  : result constraintState :=
  match rs with
  | [] => Ok st
  | r :: rs' => let* st' := constraint_step zoneName i r st in constraint_loop zoneName (i + 1) rs' st'
  end.

Definition cname_conflict (s : ownerState) : bool :=
  (0 <=? cnameIndex s) && (1 <? Z.of_nat (size (types s))).

(** The final loop ranges over a map: when several owners conflict Go reports
    an arbitrary one; the model reports the first in the map's listing. *)
Definition ValidateRecordSetConstraints (zone : option Zone) : result unit :=
  match zone with
  | None => Err (Errorf "zone is nil")
  | Some z =>
    let zoneName := NormalizeZoneName (z_Name z) in
    let* st := constraint_loop zoneName 0 (z_Records z) (mkConstraint ∅ ∅ false) in
    match find (fun p => cname_conflict (snd p)) (map_to_list (owners st)) with
    | Some (owner, s) =>
      Err (Errorf (at_index (Z.to_nat (cnameIndex s)) +:+ ": CNAME for owner " +:+ owner
                   +:+ " cannot coexist with other record types"))
    | None =>
      guard_err (negb (hasApexNS st))
        (Errorf ("zone " +:+ zoneName +:+ " must include at least one apex NS record"))
    end
  end.

(** ** Zones *)
Fixpoint validate_records (zoneName : string) (i : nat) (rs : list ZRecord) : result unit :=
  match rs with
  | [] => Ok tt
  | r :: rs' =>
    wrap (at_index i) (ValidateRecord (Some r)) ;;*
    wrap (at_index i) (ValidateRecordNameInZone (rec_Name r) zoneName) ;;*
    wrap (at_index i) (ValidateRecordValueInZone (rec_Type r) (rec_Value r) zoneName) ;;*
    validate_records zoneName (S i) rs'
  end.

Definition ValidateZone (zone : option Zone) : result unit :=
  match zone with
  | None => Err (Errorf "zone is nil")
  | Some z =>
    wrap "invalid zone name" (ValidateZoneName (z_Name z)) ;;*
    wrap "invalid SOA" (ValidateSOAInZone (Some (z_SOA z)) (z_Name z)) ;;*
    validate_records (z_Name z) 0 (z_Records z) ;;*
    ValidateRecordSetConstraints zone
  end.
End in_zone_checks.
