(* ===== verification/RRSets.v ===== *)
(** * Record-set constraints: the map-based loop against its specification

    [ValidateRecordSetConstraints] walks the records once, keeping per-owner
    maps.  Here its verdict is shown to be exactly a pairwise specification on
    the record list: no duplicates, one TTL per RRset, CNAME alone at its owner
    and never at the apex, and at least one apex NS record. *)

From S2P Require Import Prelude GoStrings GoStringsFacts Zone Names Validation.

Section rrsets.
Context `{UnicodeTables} (zn : string).

Abbreviation own r := (canonicalRecordOwnerName (rec_Name r) zn).
Abbreviation key r := (canonicalRecordDuplicateKey r (own r) zn).
Abbreviation is_cname r := (rec_Type r = RecordTypeCNAME).

(** Two records that may stand in the same zone. *)
Definition compatible (r1 r2 : ZRecord) : Prop :=
  key r1 <> key r2
  /\ (is_cname r1 -> is_cname r2 -> own r1 <> own r2)
  /\ (own r1 = own r2 -> rec_Type r1 = rec_Type r2 -> rec_TTL r1 = rec_TTL r2).

Definition cname_alone (rs : list ZRecord) : Prop :=
  forall r1 r2, r1 ∈ rs -> r2 ∈ rs -> own r1 = own r2 -> is_cname r1 -> is_cname r2.

Definition has_apex_ns (rs : list ZRecord) : Prop :=
  exists r, r ∈ rs /\ own r = zn /\ rec_Type r = RecordTypeNS.

Record rrset_spec (rs : list ZRecord) : Prop := {
  spec_apex : Forall (fun r => is_cname r -> own r <> zn) rs;
  spec_pairs : ForallOrdPairs compatible rs;
  spec_alone : cname_alone rs;
  spec_ns : has_apex_ns rs
}.

(** ** What the loop state knows about the records already read *)
Definition owner_state (st : constraintState) (o : string) : ownerState :=
  default new_owner (owners st !! o).

Record owner_inv (seen : list ZRecord) (o : string) (s : ownerState) : Prop := {
  inv_cname : 0 <= cnameIndex s <-> exists r, r ∈ seen /\ own r = o /\ is_cname r;
  inv_types ty : is_Some (types s !! ty) <-> exists r, r ∈ seen /\ own r = o /\ rec_Type r = ty;
  inv_ttl ty t : rrsetTTLs s !! ty = Some t <->
    exists r, r ∈ seen /\ own r = o /\ rec_Type r = ty /\ rec_TTL r = t
}.

Record loop_inv (seen : list ZRecord) (st : constraintState) : Prop := {
  inv_seen k : is_Some (seenRecords st !! k) <-> k ∈ map (fun r => key r) seen;
  inv_owner o : owner_inv seen o (owner_state st o);
  inv_ns : hasApexNS st = true <-> has_apex_ns seen
}.

Lemma loop_inv_init : loop_inv [] (mkConstraint ∅ ∅ false).
Proof.
  split; simpl.
  - intros k. rewrite lookup_empty, is_Some_alt. set_solver.
  - intros o. unfold owner_state; simpl. rewrite lookup_empty; simpl. split; simpl.
    + split; [lia|set_solver].
    + intros ty. rewrite lookup_empty, is_Some_alt. set_solver.
    + intros ty t. rewrite lookup_empty. set_solver.
  - split; [done|]. intros (r & ? & _). set_solver.
Qed.

(** The condition under which one more record is accepted. *)
Definition step_ok (seen : list ZRecord) (r : ZRecord) : Prop :=
  (is_cname r -> own r <> zn) /\ Forall (fun r' => compatible r' r) seen.

Lemma check_cname_ok seen i r s c : owner_inv seen (own r) s -> 0 <= i ->
  check_cname i (own r) zn r s = Ok c <->
  (is_cname r -> own r <> zn /\ forall r', r' ∈ seen -> own r' = own r -> ~ is_cname r')
  /\ c = if (rec_Type r =? RecordTypeCNAME)%string then i else cnameIndex s.
Proof.
  intros [Hc _ _] Hi. unfold check_cname.
  destruct (String.eqb_spec (rec_Type r) RecordTypeCNAME) as [E|E]; [|naive_solver].
  destruct (String.eqb_spec (own r) zn) as [Ez|Ez]; [split; [done|naive_solver]|].
  destruct (Z.leb_spec 0 (cnameIndex s)) as [Hle|Hlt].
  - split; [done|]. apply Hc in Hle. naive_solver.
  - assert (~ 0 <= cnameIndex s) as Hn by lia. rewrite Hc in Hn. split.
    + intros [= <-]. split; [|done]. intros _. split; [done|]. intros r' Hr' Ho Hcn. apply Hn. eauto.
    + by intros [_ ->].
Qed.

Lemma check_ttl_ok seen i r c s : owner_inv seen (own r) s ->
  (exists s', check_ttl i (own r) r c s = Ok s') <->
  (forall r', r' ∈ seen -> own r' = own r -> rec_Type r' = rec_Type r -> rec_TTL r' = rec_TTL r).
Proof.
  intros [_ _ Ht]. unfold check_ttl. destruct (rrsetTTLs s !! rec_Type r) as [ttl|] eqn:E.
  - apply Ht in E as (r0 & Hr0 & Ho & Hty & Httl).
    destruct (Z.eqb_spec ttl (rec_TTL r)) as [Eq|Ne]; simpl.
    + split; [|eauto]. intros _ r' Hr' Ho' Hty'.
      assert (rrsetTTLs s !! rec_Type r = Some (rec_TTL r')) as E1 by (apply Ht; eauto 6).
      assert (rrsetTTLs s !! rec_Type r = Some ttl) as E2 by (apply Ht; eauto 6). congruence.
    + split; [by intros [? [=]]|]. intros Hall. specialize (Hall r0 Hr0 Ho Hty). congruence.
  - split; [|eauto]. intros _ r' Hr' Ho' Hty'. exfalso.
    assert (rrsetTTLs s !! rec_Type r = Some (rec_TTL r')) by (apply Ht; eauto 6). congruence.
Qed.

(** The owner state after an accepted record. *)
Lemma owner_inv_step seen i r c s s' : owner_inv seen (own r) s -> 0 <= i ->
  check_cname i (own r) zn r s = Ok c -> check_ttl i (own r) r c s = Ok s' ->
  owner_inv (seen ++ [r]) (own r) s'.
Proof.
  intros Hs Hi Hc Ht. pose proof (check_cname_ok _ _ _ _ c Hs Hi) as [[_ ->] _]; [done|].
  destruct (check_ttl_ok seen i r (if (rec_Type r =? RecordTypeCNAME)%string then i else cnameIndex s) s Hs)
    as [Httl _]. specialize (Httl ltac:(eauto)). destruct Hs as [Ic It Il].
  assert (cnameIndex s' = (if (rec_Type r =? RecordTypeCNAME)%string then i else cnameIndex s)
    /\ types s' = <[rec_Type r := default 0 (types s !! rec_Type r) + 1]> (types s)
    /\ rrsetTTLs s' = <[rec_Type r := rec_TTL r]> (rrsetTTLs s)) as (E1 & E2 & E3).
  { unfold check_ttl in Ht. destruct (rrsetTTLs s !! rec_Type r) as [ttl|] eqn:El.
    - destruct (Z.eqb_spec ttl (rec_TTL r)) as [->|]; simpl in Ht; [|done].
      injection Ht as <-. simpl. by rewrite (insert_id (rrsetTTLs s)).
    - by injection Ht as <-. }
  split.
  - rewrite E1, exists_elem_snoc, <- Ic.
    destruct (String.eqb_spec (rec_Type r) RecordTypeCNAME); naive_solver lia.
  - intros ty. rewrite E2, exists_elem_snoc, <- It, lookup_insert_is_Some'. naive_solver.
  - intros ty t. rewrite E3, exists_elem_snoc, <- Il, lookup_insert_Some. split; [naive_solver|].
    intros [Hl|(_ & <- & <-)]; [|by left].
    destruct (decide (rec_Type r = ty)) as [<-|E]; [left|by right]. split; [done|].
    apply Il in Hl as (r' & Hr' & Ho & Hty & <-). symmetry. by apply Httl.
Qed.

Lemma owner_inv_other seen o r s : owner_inv seen o s -> own r <> o -> owner_inv (seen ++ [r]) o s.
Proof.
  intros [Ic It Il] Hne. split; intros; rewrite exists_elem_snoc, <- ?Ic, <- ?It, <- ?Il; naive_solver.
Qed.

Lemma compatible_split seen r : Forall (fun r' => compatible r' r) seen <->
  key r ∉ map (fun r => key r) seen
  /\ (is_cname r -> forall r', r' ∈ seen -> own r' = own r -> ~ is_cname r')
  /\ (forall r', r' ∈ seen -> own r' = own r -> rec_Type r' = rec_Type r -> rec_TTL r' = rec_TTL r).
Proof.
  rewrite Forall_forall. unfold compatible. rewrite list_elem_of_fmap. split.
  - intros Hall. split; [|split].
    + intros (r' & Hk & Hr'). destruct (Hall r' Hr') as (? & _). naive_solver.
    + intros Hc r' Hr' Ho Hc'. destruct (Hall r' Hr') as (_ & ? & _). naive_solver.
    + intros r' Hr'. by destruct (Hall r' Hr') as (_ & _ & ?).
  - intros (Hk & Hc & Ht) r' Hr'. split; [|split].
    + intros E. apply Hk. eauto.
    + intros Hc' Hcr Ho. by apply (Hc Hcr r').
    + eauto.
Qed.

(** One iteration accepts a record exactly when it is compatible with the ones
    read before, and keeps the invariant. *)
Lemma constraint_step_ok seen i r st : loop_inv seen st -> 0 <= i ->
  (exists st', constraint_step zn i r st = Ok st') <-> step_ok seen r.
Proof.
  intros [Hk Ho _] Hi. unfold step_ok. rewrite compatible_split. unfold constraint_step.
  pose proof (Ho (own r)) as Hs. unfold owner_state in Hs.
  specialize (Hk (key r)). destruct (seenRecords st !! key r) as [first|].
  { assert (key r ∈ map (fun r => key r) seen) by (apply Hk; eauto). split; [by intros [? [=]]|naive_solver]. }
  assert (key r ∉ map (fun r => key r) seen) as Hnk by (rewrite <- Hk; by intros [? [=]]).
  destruct (check_cname i (own r) zn r _) as [c|e] eqn:Ec; simpl.
  - apply (check_cname_ok _ _ _ _ _ Hs Hi) in Ec as [Hc ->].
    pose proof (check_ttl_ok seen i r
      (if (rec_Type r =? RecordTypeCNAME)%string then i else cnameIndex (default new_owner (owners st !! own r)))
      _ Hs) as Ht.
    destruct (check_ttl _ _ _ _ _) as [s'|e]; simpl.
    + split; [|eauto]. intros _. split; [naive_solver|]. split; [done|].
      split; [naive_solver|]. apply Ht. eauto.
    + split; [by intros [? [=]]|]. intros (_ & _ & _ & Httl). apply Ht in Httl as [? [=]].
  - split; [by intros [? [=]]|]. intros (Ha & _ & Hc & _). exfalso.
    enough (check_cname i (own r) zn r (default new_owner (owners st !! own r)) =
      Ok (if (rec_Type r =? RecordTypeCNAME)%string then i else cnameIndex (default new_owner (owners st !! own r))))
      by congruence.
    apply (check_cname_ok _ _ _ _ _ Hs Hi). split; [|done]. intros Hcn. split; [auto|].
    intros r' Hr' Ho'. by apply Hc.
Qed.

Lemma constraint_step_inv seen i r st st' : loop_inv seen st -> 0 <= i ->
  constraint_step zn i r st = Ok st' -> loop_inv (seen ++ [r]) st'.
Proof.
  intros [Hk Ho Hn] Hi Hst. unfold constraint_step in Hst.
  destruct (seenRecords st !! key r) as [first|] eqn:Ek; [done|].
  inv_ok. subst st'. split; simpl.
  - intros k. rewrite map_app, elem_of_app, <- Hk, lookup_insert_is_Some'. simpl.
    rewrite list_elem_of_singleton. naive_solver.
  - intros o. unfold owner_state; simpl. destruct (decide (own r = o)) as [<-|Hne].
    + rewrite lookup_insert_eq. simpl. eapply owner_inv_step; [apply (Ho (own r))|done|done|done].
    + rewrite lookup_insert_ne by done. by apply owner_inv_other.
  - unfold has_apex_ns. rewrite exists_elem_snoc, orb_true_iff, Hn, andb_true_iff, !String.eqb_eq. done.
Qed.

(** The loop accepts a list exactly when each record is compatible with all the
    earlier ones. *)
Lemma constraint_loop_ok rs : forall seen i st, loop_inv seen st -> 0 <= i ->
  (exists st', constraint_loop zn i rs st = Ok st') <->
  Forall (fun r => is_cname r -> own r <> zn) rs
  /\ Forall (fun r => Forall (fun r' => compatible r' r) seen) rs /\ ForallOrdPairs compatible rs.
Proof.
  induction rs as [|r rs IH]; intros seen i st Hinv Hi; simpl.
  { split; [|eauto]. intros _. repeat split; constructor. }
  pose proof (constraint_step_ok seen i r st Hinv Hi) as Hstep.
  rewrite !Forall_cons. destruct (constraint_step zn i r st) as [st1|e] eqn:Es; simpl.
  - assert (step_ok seen r) as [Ha Hc] by (apply Hstep; eauto).
    rewrite (IH (seen ++ [r])) by (eauto using constraint_step_inv; lia).
    assert (Forall (fun r0 => Forall (fun r' => compatible r' r0) (seen ++ [r])) rs <->
      Forall (fun r0 => Forall (fun r' => compatible r' r0) seen) rs /\ Forall (compatible r) rs) as ->.
    { rewrite <- Forall_and. apply Forall_iff. intros r0. by rewrite Forall_app, Forall_singleton. }
    split.
    + intros (? & [? ?] & ?). repeat split; try done. by constructor.
    + intros ([_ ?] & [_ ?] & Hp). inversion Hp; subst. done.
  - split; [by intros [? [=]]|]. intros ([Ha _] & [Hc _] & _).
    destruct (proj2 Hstep) as [? [=]]. done.
Qed.

Lemma constraint_loop_inv rs : forall seen i st st', loop_inv seen st -> 0 <= i ->
  constraint_loop zn i rs st = Ok st' -> loop_inv (seen ++ rs) st'.
Proof.
  induction rs as [|r rs IH]; intros seen i st st' Hinv Hi Hl; simpl in Hl.
  - injection Hl as <-. by rewrite app_nil_r.
  - inv_ok. rewrite (cons_middle r seen rs), app_assoc. eapply (IH _ (i + 1)); [|lia|done].
    by eapply constraint_step_inv.
Qed.

(** ** The final check over the owners *)
Lemma map_size_gt_1 (m : gmap string Z) k : is_Some (m !! k) ->
  (1 < Z.of_nat (size m)) <-> exists k', k' <> k /\ is_Some (m !! k').
Proof.
  intros [v Hv]. pose proof (map_size_delete_Some k m (ex_intro _ v Hv)) as Hsz.
  assert (size m <> 0%nat) as H0 by (intros E; apply map_size_empty_inv in E; set_solver).
  split.
  - intros Hgt. destruct (decide (delete k m = ∅)) as [E|E].
    + rewrite E, map_size_empty in Hsz. lia.
    + apply map_choose in E as (k' & v' & Hk'). exists k'.
      apply lookup_delete_Some in Hk' as [? ?]. eauto.
  - intros (k' & Hne & [v' Hv']). assert (size (delete k m) <> 0%nat); [|lia].
    intros E. apply map_size_empty_inv in E.
    assert (delete k m !! k' = Some v') as Hd by (by rewrite lookup_delete_ne).
    by rewrite E, lookup_empty in Hd.
Qed.

Lemma cname_conflict_spec rs o s : owner_inv rs o s ->
  cname_conflict s = true <->
  exists r1 r2, r1 ∈ rs /\ r2 ∈ rs /\ own r1 = o /\ own r2 = o /\ is_cname r1 /\ ~ is_cname r2.
Proof.
  intros [Ic It _]. unfold cname_conflict. rewrite andb_true_iff, Z.leb_le, Z.ltb_lt, Ic. split.
  - intros [(r1 & ? & ? & Hc) Hsz]. rewrite (map_size_gt_1 _ RecordTypeCNAME) in Hsz by (apply It; eauto).
    destruct Hsz as (k' & Hk & (r2 & ? & ? & <-)%It). eauto 10.
  - intros (r1 & r2 & ? & ? & ? & ? & Hc & Hn). split; [eauto|].
    rewrite (map_size_gt_1 _ RecordTypeCNAME) by (apply It; eauto). exists (rec_Type r2).
    split; [done|]. apply It. eauto.
Qed.

Lemma no_conflict rs st : loop_inv rs st ->
  find (fun p => cname_conflict (snd p)) (map_to_list (owners st)) = None <-> cname_alone rs.
Proof.
  intros [_ Ho _]. split.
  - intros Hf r1 r2 H1 H2 Heq Hc. destruct (decide (is_cname r2)) as [|Hn]; [done|exfalso].
    pose proof (proj2 (cname_conflict_spec rs _ _ (Ho (own r1)))) as Hx.
    assert (cname_conflict (owner_state st (own r1)) = true) as Hcf by (apply Hx; eauto 10).
    unfold owner_state in Hcf. destruct (owners st !! own r1) as [s|] eqn:E; [|done].
    eapply find_none with (x := (own r1, s)) in Hf; [simpl in *; congruence|].
    by apply list_elem_of_In, elem_of_map_to_list.
  - intros Ha. destruct (find _ _) as [[o s]|] eqn:Hf; [exfalso|done].
    apply find_some in Hf as [Hin%list_elem_of_In%elem_of_map_to_list Hcf]. simpl in Hcf.
    specialize (Ho o). unfold owner_state in Ho. rewrite Hin in Ho. simpl in Ho.
    apply (cname_conflict_spec _ _ _ Ho) in Hcf as (r1 & r2 & ? & ? & ? & ? & ? & Hn).
    apply Hn, (Ha r1 r2); congruence.
Qed.

End rrsets.

Lemma ValidateRecordSetConstraints_spec `{UnicodeTables} (z : Zone) :
  ValidateRecordSetConstraints (Some z) = Ok tt <->
  rrset_spec (NormalizeZoneName (z_Name z)) (z_Records z).
Proof.
  set (zn := NormalizeZoneName (z_Name z)). unfold ValidateRecordSetConstraints. fold zn.
  pose proof (constraint_loop_ok zn (z_Records z) [] 0 _ (loop_inv_init zn) ltac:(lia)) as Hok.
  rewrite rbind_ok. split.
  - intros (st & Hl & Hr). destruct (proj1 Hok (ex_intro _ st Hl)) as (Ha & _ & Hp).
    pose proof (constraint_loop_inv zn (z_Records z) [] 0 _ st (loop_inv_init zn) ltac:(lia) Hl) as Hinv. simpl in Hinv.
    destruct (find _ _) as [[]|] eqn:Hf; [done|].
    apply guard_err_ok, negb_false_iff in Hr.
    split; [done|done|by apply (no_conflict zn _ st)|by apply (inv_ns zn _ _ Hinv)].
  - intros [Ha Hp Hc Hn]. destruct (proj2 Hok) as [st Hl].
    { split; [done|]. split; [|done]. apply Forall_forall. intros. constructor. }
    exists st. split; [done|].
    pose proof (constraint_loop_inv zn (z_Records z) [] 0 _ st (loop_inv_init zn) ltac:(lia) Hl) as Hinv. simpl in Hinv.
    rewrite (proj2 (no_conflict zn _ _ Hinv) Hc).
    by rewrite (proj2 (inv_ns zn _ _ Hinv) Hn).
Qed.

(** ** Properties *)

(** C27: [ValidateRecordSetConstraints] accepts a zone exactly when its records
    satisfy the pairwise specification: no two records share a canonical key,
    every RRset has one TTL, a CNAME is the only type and the only CNAME at its
    owner, no CNAME stands at the apex, and some NS record stands there. *)
Theorem record_set_constraints_spec `{UnicodeTables} (z : Zone) :
  ValidateRecordSetConstraints (Some z) = Ok tt <->
  rrset_spec (NormalizeZoneName (z_Name z)) (z_Records z).
Proof. apply ValidateRecordSetConstraints_spec. Qed.
