(* ===== verification/DnsNames.v ===== *)
(** * Domain-name syntax

    What the [dnsNameRegex] pattern and [ValidateDomainName] accept, in terms of
    labels: a non-empty sequence of letter-digit-hyphen labels of at most 63
    bytes that neither start nor end with a hyphen, with an optional trailing
    dot. *)

From S2P Require Import Prelude GoStrings GoStringsFacts Regex GoNet Json Zone Names Validation.

(** A letter-digit-hyphen label: first and last byte alphanumeric. *)
Definition ldh_label (l : string) : Prop :=
  str_forallb is_alnum_hyphen l = true /\ 1 <= len l <= 63
  /\ (exists a t, l = String a t /\ is_alnum a = true)
  /\ (exists t a, l = t +:+ str1 a /\ is_alnum a = true).

Definition dotted (ls : list string) : string := str_join ls ".".

(** ** Labels *)
Lemma RUpTo_class f n x :
  matches (RUpTo (RClass f) n) x <-> str_forallb f x = true /\ (String.length x <= n)%nat.
Proof.
  revert x. induction n as [|n IH]; intros x; simpl.
  - rewrite matches_eps. split; [by intros ->|]. intros [_ Hl]. destruct x; simpl in Hl; [done|lia].
  - rewrite matches_alt, matches_eps, matches_cat. setoid_rewrite matches_class. setoid_rewrite IH. split.
    + intros [->|(? & y & -> & (a & -> & Ha) & Hy & Hl)]; [simpl; split; [done|lia]|].
      unfold str1. rewrite str_app_cons, str_app_nil_l. simpl. rewrite Ha, Hy. split; [done|lia].
    + intros [Hf Hl]. destruct x as [|a x]; [by left|right]. simpl in Hf, Hl.
      apply andb_true_iff in Hf as [Ha Hx]. exists (str1 a), x.
      split; [done|]. split; [eauto|]. split; [done|lia].
Qed.

Lemma is_alnum_hyphen_alnum c : is_alnum c = true -> is_alnum_hyphen c = true.
Proof. unfold is_alnum_hyphen. by intros ->. Qed.

Lemma len_app s t : len (s +:+ t) = len s + len t.
Proof. unfold len. rewrite str_length_app. lia. Qed.
Lemma len_String a s : len (String a s) = 1 + len s.
Proof. unfold len. simpl. lia. Qed.
Lemma len_str1 a : len (str1 a) = 1.
Proof. reflexivity. Qed.
Lemma len_nonneg s : 0 <= len s.
Proof. unfold len. lia. Qed.

(** Split the last byte off a non-empty string. *)
Lemma str_snoc_case s : s = "" \/ exists t a, s = t +:+ str1 a.
Proof.
  induction s as [|a s IH]; [by left|right]. destruct IH as [->|(t & b & ->)].
  - exists "", a. done.
  - exists (String a t), b. done.
Qed.

Lemma labelRegex_spec x : matches labelRegex x <-> ldh_label x.
Proof.
  unfold labelRegex, ldh_label. rewrite matches_cat. setoid_rewrite matches_class. setoid_rewrite matches_opt.
  setoid_rewrite matches_cat. setoid_rewrite RUpTo_class. setoid_rewrite matches_class. split.
  - intros (? & y & -> & (a & -> & Ha) & [->|(u & v & -> & [Hu Hl] & (b & -> & Hb))]).
    + rewrite str_app_nil_r. unfold str1; simpl. rewrite is_alnum_hyphen_alnum by done.
      repeat split; try done; [by exists a, ""|by exists "", a].
    + unfold str1 at 1 3 5. rewrite !str_app_cons, !str_app_nil_l. simpl.
      rewrite str_forallb_app, Hu, is_alnum_hyphen_alnum by done. simpl.
      rewrite is_alnum_hyphen_alnum by done. repeat split; try done.
      * rewrite len_String. pose proof (len_nonneg (u +:+ str1 b)). lia.
      * rewrite len_String, len_app, len_str1. unfold len. lia.
      * eauto.
      * exists (String a u), b. done.
  - intros (Hf & Hl & (a & t & -> & Ha) & (t' & b & E & Hb)).
    exists (str1 a), t. split; [done|]. split; [eauto|].
    destruct (str_snoc_case t) as [->|(u & c & ->)]; [by left|right].
    exists u, (str1 c). split; [done|].
    simpl in Hf. rewrite str_forallb_app in Hf. apply andb_true_iff in Hf as [_ Hf].
    apply andb_true_iff in Hf as [Hu _]. rewrite len_String, len_app, len_str1 in Hl. unfold len in Hl.
    split; [split; [done|lia]|]. exists c. split; [done|].
    enough (c = b) by congruence.
    destruct t' as [|d t'].
    { unfold str1 in E. rewrite str_app_nil_l in E. injection E as _ E. by destruct u. }
    rewrite str_app_cons in E. injection E as _ E.
    assert (String.length u = String.length t') as Hlen.
    { apply (f_equal String.length) in E. rewrite !str_length_app in E. simpl in E. lia. }
    apply str_app_inj in E as [_ E]; [|done]. by injection E.
Qed.

(** ** Names *)
Lemma dotted_cons l ls : ls <> [] -> dotted (l :: ls) = l +:+ "." +:+ dotted ls.
Proof. destruct ls; [done|reflexivity]. Qed.

Lemma star_labels_spec x :
  matches (RStar (RCat labelRegex (RByte "."%char))) x <->
  exists ls, Forall ldh_label ls /\ x = str_concat (map (fun l => l +:+ ".") ls).
Proof.
  split.
  - intros H. remember (RStar _) as r eqn:Er. induction H as [| | | | | |r' u v Hu _ Hv IHv]; try discriminate.
    + by exists [].
    + injection Er as ->. destruct (IHv eq_refl) as (ls & Hls & ->).
      apply matches_cat in Hu as (l & d & -> & Hl%labelRegex_spec & (c & -> & Hc)%matches_class).
      apply Ascii.eqb_eq in Hc as <-. exists (l :: ls). split; [by constructor|done].
  - intros (ls & Hls & ->). induction Hls as [|l ls Hl _ IH]; simpl; [constructor|].
    apply MStarCons; [|done]. apply matches_cat. exists l, ".".
    split; [done|]. split; [by apply labelRegex_spec|]. by apply (MClass _ "."%char).
Qed.

Lemma dotted_snoc ls l :
  str_concat (map (fun l => l +:+ ".") ls) +:+ l = dotted (ls ++ [l]).
Proof.
  induction ls as [|a ls IH]; [done|]. simpl map. simpl app. rewrite dotted_cons by (by destruct ls).
  unfold str_concat in *; simpl. by rewrite !str_app_assoc, IH.
Qed.

(** The pattern accepts exactly the dotted sequences of labels. *)
Lemma dnsNameRegex_spec s : MatchString dnsNameRegex s = true <->
  exists ls, ls <> [] /\ Forall ldh_label ls /\ (s = dotted ls \/ s = dotted ls +:+ ".").
Proof.
  rewrite MatchString_matches. unfold dnsNameRegex. rewrite matches_cat.
  setoid_rewrite star_labels_spec. setoid_rewrite matches_cat. setoid_rewrite labelRegex_spec.
  setoid_rewrite matches_opt. setoid_rewrite matches_class. split.
  - intros (? & ? & -> & (ls & Hls & ->) & (l & d & -> & Hl & Hd)). exists (ls ++ [l]).
    split; [by destruct ls|]. split; [by apply Forall_app; split; [|constructor]|].
    rewrite <- str_app_assoc, dotted_snoc. destruct Hd as [->|(c & -> & Hc%Ascii.eqb_eq)]; [left; apply str_app_nil_r|right; by rewrite <- Hc].
  - intros (ls & Hne & Hls & Hs). destruct (exists_last Hne) as (ls' & l & ->).
    apply Forall_app in Hls as [Hls' Hl]. rewrite Forall_singleton in Hl.
    exists (str_concat (map (fun l => l +:+ ".") ls')).
    rewrite <- dotted_snoc in Hs. destruct Hs as [->| ->].
    + exists l. split; [done|]. split; [eauto|]. exists l, "".
      rewrite str_app_nil_r. split; [done|]. split; [done|by left].
    + exists (l +:+ "."). rewrite str_app_assoc. split; [done|]. split; [eauto|]. exists l, ".".
      split; [done|]. split; [done|]. right. by exists "."%char.
Qed.

Lemma alnum_hyphen_facts c : is_alnum_hyphen c = true ->
  Ascii.eqb c "."%char = false /\ (byte c <? 128) = true /\ is_alnum_hyphen (lower_byte c) = true.
Proof.
  intros Hc.
  generalize (byte_ind (fun c => implb (is_alnum_hyphen c) (negb (Ascii.eqb c "."%char)
    && (byte c <? 128) && is_alnum_hyphen (lower_byte c))) ltac:(vm_compute; reflexivity) c).
  rewrite Hc. intros H%andb_true_iff. destruct H as [[H1%negb_true_iff H2]%andb_true_iff H3]. done.
Qed.
Lemma alnum_lower c : is_alnum c = true -> is_alnum (lower_byte c) = true.
Proof.
  intros Hc. generalize (byte_ind (fun c => implb (is_alnum c) (is_alnum (lower_byte c)))
    ltac:(vm_compute; reflexivity) c). by rewrite Hc.
Qed.

Lemma ldh_lacks_dot l : ldh_label l -> lacks "."%char l.
Proof.
  intros (Hf & _). eapply str_forallb_impl, Hf. intros c Hc. by rewrite (proj1 (alnum_hyphen_facts c Hc)).
Qed.
Lemma ldh_ascii l : ldh_label l -> is_ascii l = true.
Proof. intros (Hf & _). eapply str_forallb_impl, Hf. intros c Hc. apply (alnum_hyphen_facts c Hc). Qed.
Lemma ldh_lower l : ldh_label l -> ldh_label (str_map lower_byte l).
Proof.
  intros (Hf & Hl & (a & t & E & Ha) & (t' & b & E' & Hb)). split; [|split; [|split]].
  - rewrite str_forallb_map. eapply str_forallb_impl, Hf. intros c Hc. apply (alnum_hyphen_facts c Hc).
  - unfold len in *. by rewrite str_map_length.
  - rewrite E. simpl. eauto using alnum_lower.
  - rewrite E', str_map_app. simpl. exists (str_map lower_byte t'), (lower_byte b). auto using alnum_lower.
Qed.

Lemma dotted_ascii ls : Forall ldh_label ls -> is_ascii (dotted ls) = true.
Proof.
  intros Hls. induction Hls as [|l ls Hl Hls IH]; [done|].
  destruct (decide (ls = [])) as [->|Hne]; [by apply ldh_ascii|].
  rewrite dotted_cons, !is_ascii_app, IH, ldh_ascii by done. done.
Qed.
Lemma dotted_lower ls : str_map lower_byte (dotted ls) = dotted (map (str_map lower_byte) ls).
Proof.
  induction ls as [|l ls IH]; [done|]. destruct (decide (ls = [])) as [->|Hne]; [done|].
  rewrite dotted_cons, !str_map_app, IH by done. simpl map at 2.
  rewrite dotted_cons by (by destruct ls). done.
Qed.

(** A dotted name is not empty and does not end with a dot. *)
Lemma dotted_last ls : ls <> [] -> Forall ldh_label ls ->
  dotted ls <> "" /\ HasSuffix (dotted ls) "." = false.
Proof.
  intros Hne Hls. destruct (exists_last Hne) as (ls' & l & ->).
  apply Forall_app in Hls as [_ Hl]. rewrite Forall_singleton in Hl.
  rewrite <- dotted_snoc. destruct Hl as (Hf & _ & _ & (t & b & -> & Hb)).
  split; [by intros [_ [_ ?]%str_app_nil]%str_app_nil|].
  rewrite <- str_app_assoc, HasSuffix_app_r by done.
  apply not_true_iff_false. intros [p E]%HasSuffix_true.
  destruct p as [|? []]; [|done..]. injection E as ->. discriminate.
Qed.

Lemma dotted_trim ls s : ls <> [] -> Forall ldh_label ls -> s = dotted ls \/ s = dotted ls +:+ "." ->
  TrimSuffix s "." = dotted ls.
Proof.
  intros Hne Hls Hs. destruct (dotted_last ls Hne Hls) as [_ Hd].
  destruct Hs as [->| ->]; [by apply TrimSuffix_no|apply TrimSuffix_app].
Qed.

(** A name in letter-digit-hyphen syntax of at most 253 bytes. *)
Definition dns_name (s : string) : Prop :=
  len s <= 253 /\ exists ls, ls <> [] /\ Forall ldh_label ls /\ (s = dotted ls \/ s = dotted ls +:+ ".").

Lemma dns_name_not_special s : dns_name s -> s <> "" /\ s <> "@" /\ s <> ".".
Proof.
  intros (_ & ls & Hne & Hls & Hs). destruct (dotted_last ls Hne Hls) as [H0 Hd].
  pose proof (dotted_ascii _ Hls) as Ha. pose proof (dotted_trim ls s Hne Hls Hs) as Ht.
  repeat split; intros ->.
  - by rewrite <- Ht in H0.
  - change (TrimSuffix "@" ".") with "@" in Ht. destruct ls as [|l [|]]; [done| |].
    + change (dotted [l]) with l in Ht. subst l. inversion Hls as [|? ? (Hf & _)]; subst. discriminate.
    + rewrite dotted_cons in Ht by done. inversion Hls as [|? ? (Hf & _ & (a & t & -> & Hal) & _)]; subst.
      rewrite str_app_cons in Ht. injection Ht as <- _. discriminate.
  - by rewrite <- Ht in H0.
Qed.

(** The label-length loop after the pattern never rejects anything. *)
Lemma label_lengths_ok ls s : ls <> [] -> Forall ldh_label ls -> s = dotted ls \/ s = dotted ls +:+ "." ->
  find (fun l => 63 <? len l) (Split (TrimSuffix s ".") "."%char) = None.
Proof.
  intros Hne Hls Hs. rewrite (dotted_trim ls s Hne Hls Hs).
  unfold dotted. change "." with (str1 "."%char) at 1. rewrite Split_join; [|done|].
  - apply find_None_Forall. eapply Forall_impl; [exact Hls|]. intros l (_ & Hl & _). apply Z.ltb_ge. lia.
  - eapply Forall_impl; [exact Hls|]. apply ldh_lacks_dot.
Qed.

Lemma ValidateDomainName_spec (s : string) :
  ValidateDomainName s = Ok tt <-> s = "@" \/ s = "." \/ dns_name s.
Proof.
  unfold ValidateDomainName. split.
  - repeat go_case; intros [=]; bool_prop.
    + apply orb_true_iff in Heqb0 as [E|E]; apply String.eqb_eq in E; auto.
    + right; right. split; [done|]. by apply dnsNameRegex_spec.
  - intros [->|[->|Hs]]; [done..|]. pose proof (dns_name_not_special s Hs) as (H1 & H2 & H3).
    apply String.eqb_neq in H1, H2, H3. rewrite H1, H2, H3. simpl.
    destruct Hs as (Hl & ls & Hne & Hls & Hs). rewrite (proj2 (Z.ltb_ge _ _) Hl).
    rewrite (proj2 (dnsNameRegex_spec s)) by eauto 6. simpl. by rewrite (label_lengths_ok ls).
Qed.

Lemma zone_name_accepted s : ValidateZoneName s = Ok tt <-> dns_name s.
Proof.
  unfold ValidateZoneName. destruct (String.eqb_spec s "@") as [->|Ha].
  { split; [done|]. intros Hs. by destruct (dns_name_not_special _ Hs) as (_ & ? & _). }
  destruct (String.eqb_spec s ".") as [->|Hd].
  { split; [done|]. intros Hs. by destruct (dns_name_not_special _ Hs) as (_ & _ & ?). }
  rewrite ValidateDomainName_spec. naive_solver.
Qed.

Section normal_form.
Context `{UnicodeTables}.

(** The normal form of a syntactically valid name, label by label. *)
Lemma dns_name_normalize s : dns_name s -> exists ls, ls <> [] /\ Forall ldh_label ls
  /\ NormalizeZoneName s = dotted ls +:+ "." /\ ToLower (dotted ls) = dotted ls
  /\ len (dotted ls) <= 253.
Proof.
  intros Hd. pose proof (dns_name_not_special s Hd) as (H0 & _ & _).
  destruct Hd as (Hlen & ls & Hne & Hls & Hs). pose proof (dotted_ascii _ Hls) as Ha.
  pose proof (dotted_last ls Hne Hls) as [_ Hnd].
  exists (map (str_map lower_byte) ls). split; [by destruct ls|]. split.
  { rewrite Forall_map. eapply Forall_impl; [exact Hls|]. apply ldh_lower. }
  rewrite <- dotted_lower. split; [|split].
  - rewrite NormalizeZoneName_nonempty by done. rewrite <- (ToLower_ascii (dotted ls)) by done.
    destruct Hs as [->| ->].
    + by rewrite HasSuffix_lower_dot, Hnd.
    + by rewrite ToLower_app, ToLower_dot, HasSuffix_app.
  - rewrite ToLower_ascii by (by apply is_ascii_lower). apply str_map_lower_idem.
  - unfold len in *. rewrite str_map_length. destruct Hs as [->| ->]; [done|].
    rewrite str_length_app in Hlen. simpl in Hlen. lia.
Qed.

Lemma dns_name_plain s : dns_name s -> plain_zone (NormalizeZoneName s).
Proof.
  intros Hd. destruct (dns_name_normalize s Hd) as (ls & Hne & Hls & -> & Hlow & _).
  pose proof (dotted_ascii _ Hls) as Ha. pose proof (dotted_last ls Hne Hls) as [H0 Hnd].
  split; [|eauto]. split; [by rewrite is_ascii_app, Ha|]. split; [|apply HasSuffix_app].
  by rewrite ToLower_app, Hlow.
Qed.
End normal_form.

(** ** Properties *)

(** [ValidateDomainName] accepts exactly ["@"], ["."] and the names of at
    most 253 bytes made of one or more letter-digit-hyphen labels of 1 to 63
    bytes that start and end with a letter or digit, separated by dots, with an
    optional trailing dot. *)
Theorem domain_name_accepted (s : string) :
  ValidateDomainName s = Ok tt <-> s = "@" \/ s = "." \/ dns_name s.
Proof. apply ValidateDomainName_spec. Qed.

(** For a zone name the validator accepts, [NormalizeZoneName] gives a
    lower-case ASCII name with exactly one trailing dot, that is not the root,
    that normalises to itself, and that the validator accepts again whenever the
    appended dot leaves it within 253 bytes. *)
Theorem zone_name_normal_form `{UnicodeTables} (s : string) :
  ValidateZoneName s = Ok tt ->
  plain_zone (NormalizeZoneName s)
  /\ NormalizeZoneName (NormalizeZoneName s) = NormalizeZoneName s
  /\ (ValidateZoneName (NormalizeZoneName s) = Ok tt <-> len (NormalizeZoneName s) <= 253).
Proof.
  rewrite zone_name_accepted. intros Hd. pose proof (dns_name_plain s Hd) as Hp.
  split; [done|]. split; [apply NormalizeZoneName_fixed, Hp|].
  rewrite zone_name_accepted. split; [by intros []|]. intros Hl. split; [done|].
  destruct (dns_name_normalize s Hd) as (ls & Hne & Hls & -> & _). eauto.
Qed.

#[local] Existing Instance ascii_tables.

Lemma zone_name_normal_form_witness :
  ValidateZoneName "Example.COM" = Ok tt
  /\ plain_zone (NormalizeZoneName "Example.COM")
  /\ NormalizeZoneName (NormalizeZoneName "Example.COM") = NormalizeZoneName "Example.COM"
  /\ (ValidateZoneName (NormalizeZoneName "Example.COM") = Ok tt
      <-> len (NormalizeZoneName "Example.COM") <= 253).
Proof. split; [vm_compute; reflexivity|]. apply (zone_name_normal_form "Example.COM"). vm_compute. reflexivity. Defined.
