(* ===== verification/ZoneRules.v ===== *)
(** * What an accepted zone satisfies

    The combined guarantees of [ValidateZone], and the derived-field
    normalisation that runs before it on every write path. *)

From S2P Require Import Prelude GoStrings GoStringsFacts Utf8 Regex GoNet Json Zone Names Validation RRSets DnsNames.
Section zone_rules.
Context `{UnicodeTables}.

(** ** Values

    What the value of a record of each type looks like. *)
(** Four decimal numbers up to 255 without leading zeros. *)
Definition octet (s : string) : Prop := s <> "" /\ (exists v, digits_value 0 s = Some v /\ 0 <= v <= 255) /\ (HasPrefix s "0" = true -> s = "0").
Definition dotted_quad (s : string) : Prop := exists a b c d, s = a +:+ "." +:+ b +:+ "." +:+ c +:+ "." +:+ d /\ octet a /\ octet b /\ octet c /\ octet d.
(** An IPv6 text, which [net.ParseIP] reads as 16 bytes. *)
Definition colon_form (s : string) (ip : list Z) : Prop := str_exists (Ascii.eqb ":"%char) s = true /\ ParseIP s = Some ip.
(** A name that is a domain, as written and expanded in the zone. *)
Definition domain (n : string) : Prop := n = "." \/ dns_name n.
Definition target_rule (zn n : string) : Prop := domain n /\ domain (NormalizeDomainTargetName n zn).
Definition uint16_text (s : string) : Prop := exists n, Atoi s = Some n /\ 0 <= n <= 65535.
(** Valid UTF-8 without control characters. *)
Definition plain_text (s : string) : Prop := utf8 s /\ Forall (fun c => 32 <= fst c /\ fst c <> 127) (chunks s).
Inductive value_rule (zn : string) : string -> string -> Prop :=
  | A_rule v : dotted_quad v \/ (exists q, colon_form v (v4InV6Prefix ++ q)) -> value_rule zn RecordTypeA v
  | AAAA_rule v ip : colon_form v ip -> take 12 ip <> v4InV6Prefix -> value_rule zn RecordTypeAAAA v
  | name_rule t v : t ∈ [RecordTypeCNAME; RecordTypeNS; RecordTypePTR] -> target_rule zn v -> value_rule zn t v
  | MX_rule v priority target : Fields v = [priority; target] -> uint16_text priority -> target_rule zn target -> value_rule zn RecordTypeMX v
  | SRV_rule v priority weight port target : Fields v = [priority; weight; port; target] ->
      uint16_text priority -> uint16_text weight -> uint16_text port -> target_rule zn target -> value_rule zn RecordTypeSRV v
  | TXT_rule v : len v <= 65279 -> plain_text v -> value_rule zn RecordTypeTXT v
  | CAA_rule v number tag words flags text : Fields v = number :: tag :: words -> words <> [] ->
      Atoi number = Some flags -> 0 <= flags <= 255 -> tag <> "" -> str_forallb is_alnum tag = true ->
      ParseCAAValue v = Ok (mkCAA flags tag text) -> plain_text text -> value_rule zn RecordTypeCAA v.

Lemma digits_value_snoc s c acc v : digits_value acc s = Some v -> is_digit c = true -> digits_value acc (s +:+ str1 c) = Some (v * 10 + (byte c - 48)).
Proof.
  revert acc. induction s as [|a s IH]; intros acc; rewrite ?str_app_cons, ?str_app_nil_l; cbn [digits_value str1].
  - intros [= ->] Hc. cbn. by rewrite Hc.
  - destruct (is_digit a); [|done]. apply IH.
Qed.
(** [net.ParseIP] reads IPv4 addresses as dotted quads only. *)
Definition octet_so_far (cur : string) (val digLen : Z) : Prop :=
  cur = "" /\ val = 0 /\ digLen = 0 \/ octet cur /\ digits_value 0 cur = Some val /\ 0 <= val <= 255 /\ digLen = len cur.
Lemma octet_step cur val digLen c : octet_so_far cur val digLen -> is_digit c = true -> (digLen =? 1) && (val =? 0) = false -> val * 10 + (byte c - 48) <= 255 ->
  octet_so_far (cur +:+ str1 c) (val * 10 + (byte c - 48)) (digLen + 1).
Proof.
  intros Hc Hd Hz Hv. right. assert (Hd' : 0 <= byte c - 48) by (unfold is_digit in Hd; bool_prop; lia). rewrite len_app. change (len (str1 c)) with 1.
  assert (Hval : digits_value 0 (cur +:+ str1 c) = Some (val * 10 + (byte c - 48))).
  { destruct Hc as [(-> & -> & _)|(_ & Hc & _)]; [by apply (digits_value_snoc "" c 0 0)|by apply digits_value_snoc]. }
  assert (0 <= val) by (destruct Hc as [(_ & -> & _)|(_ & _ & ? & _)]; lia). split_and!; [|done|lia|lia|].
  - split; [by intros [_ ?]%str_app_nil|]. split; [by eexists; split; [done|lia]|]. intros Hp. destruct Hc as [(-> & _)|((Hne & _ & Hlead) & Hc & _ & ->)].
    + rewrite str_app_nil_l in *. unfold str1 in *. apply HasPrefix_true in Hp as [t Ht]. by injection Ht as -> ->.
    + exfalso. destruct cur as [|a cur]; [done|]. rewrite str_app_cons in Hp. apply HasPrefix_true in Hp as [t Ht]. rewrite str_app_cons in Ht. injection Ht as -> _.
      assert (Hz0 : String "0" cur = "0") by (apply Hlead, HasPrefix_true; by exists cur). rewrite Hz0 in Hc, Hz. cbn in Hc. injection Hc as <-. done.
  - destruct Hc as [(-> & _ & ->)|(_ & _ & _ & ->)]; [done|lia].
Qed.
Lemma ipv4_fields_quad s : forall cur i0 pdot val digLen fields r, ipv4_fields s i0 pdot val digLen fields = Some r ->
  octet_so_far cur val digLen -> (length fields <= 3)%nat -> (cur = "" -> i0 || pdot = true) -> (cur = "" -> s = "" -> (length fields < 3)%nat) ->
  exists parts, length parts = (4 - length fields)%nat /\ Forall octet parts /\ cur +:+ s = str_join parts ".".
Proof.
  induction s as [|c s IH]; intros cur i0 pdot val digLen fields r E Hcur Hl Hstart Hend; cbn [ipv4_fields] in E.
  - destruct (Z.ltb_spec (Z.of_nat (length fields)) 3); [done|]. exists [cur]. assert (cur <> "") by (intros ->; specialize (Hend eq_refl eq_refl); lia).
    split; [cbn; lia|]. rewrite str_app_nil_r. split; [|done]. apply Forall_singleton. by destruct Hcur as [(? & _)|(? & _)].
  - destruct (is_digit c) eqn:Ed.
    + destruct ((digLen =? 1) && (val =? 0)) eqn:Ez; [done|]. destruct (Z.ltb_spec 255 (val * 10 + (byte c - 48))); [done|].
      destruct (IH (cur +:+ str1 c) _ _ _ _ _ _ E) as (parts & Hp & Ho & Hj); [by apply octet_step|done|by intros [_ ?]%str_app_nil|by intros [_ ?]%str_app_nil|].
      exists parts. split_and!; [done..|]. by rewrite <- Hj, str_app_assoc.
    + destruct (Ascii.eqb_spec c "."%char) as [->|_]; [|done]. destruct (i0 || (s =? "")%string || pdot) eqn:Eg; [done|]. destruct (Z.eqb_spec (Z.of_nat (length fields)) 3); [done|].
      apply orb_false_iff in Eg as [[E0 Es]%orb_false_iff Ep]. apply String.eqb_neq in Es. assert (Hne : cur <> "") by (intros Hx; specialize (Hstart Hx); rewrite E0, Ep in Hstart; done).
      destruct (IH "" _ _ _ _ _ _ E) as (parts & Hp & Ho & Hj); [by left|rewrite length_app; cbn; lia|done|by intros _ ?|].
      rewrite length_app in Hp. cbn in Hp. exists (cur :: parts). split; [cbn; lia|]. split; [constructor; [|done]; by destruct Hcur as [(? & _)|(? & _)]|].
      rewrite str_join_cons by (destruct parts; [cbn in Hp; lia|done]). by rewrite <- Hj.
Qed.
Lemma parseIPv4_quad s r : parseIPv4 s = Some r -> dotted_quad s.
Proof.
  intros E. destruct (ipv4_fields_quad s "" _ _ _ _ _ _ E) as (parts & Hp & Ho & Hj); [by left|cbn; lia|done|cbn; lia|]. rewrite str_app_nil_l in Hj. subst s.
  destruct parts as [|a [|b [|c [|d [|]]]]]; try done. rewrite !Forall_cons in Ho. destruct Ho as (Ha & Hb & Hc & Hd & _). exists a, b, c, d. split_and!; [|done..]. by rewrite !str_join_cons by done.
Qed.
Lemma dispatch_cases t whole ip : parse_dispatch t whole = Some ip ->
  (exists q, parseIPv4 whole = Some q /\ ip = v4InV6Prefix ++ q) \/ str_exists (Ascii.eqb ":"%char) t = true.
Proof.
  induction t as [|c t IH]; [done|]. cbn [parse_dispatch str_exists]. destruct (Ascii.eqb_spec c "."%char) as [->|_].
  - destruct (parseIPv4 whole) as [q|]; [|done]. intros [= <-]. left. by exists q.
  - rewrite (Ascii.eqb_sym ":"%char c). destruct (Ascii.eqb c ":"%char); [by right|]. destruct (Ascii.eqb c "%"%char); [done|]. exact IH.
Qed.
Lemma ipv4_accepted v : ValidateIPv4 v = Ok tt -> dotted_quad v \/ exists q, colon_form v (v4InV6Prefix ++ q).
Proof.
  unfold ValidateIPv4. destruct (ParseIP v) as [ip|] eqn:Ep; [|done]. intros Hg. apply guard_err_ok, negb_false_iff, bool_decide_eq_true in Hg. unfold To4 in Hg.
  case_bool_decide as Ht; [|by destruct Hg]. destruct (dispatch_cases _ _ _ Ep) as [(q & Hq & _)|Hc]; [left; by eapply parseIPv4_quad|right].
  exists (drop 12 ip). split; [done|]. rewrite Ep. f_equal. rewrite <- Ht. symmetry. apply take_drop.
Qed.
Lemma ipv6_accepted v : ValidateIPv6 v = Ok tt -> exists ip, colon_form v ip /\ take 12 ip <> v4InV6Prefix.
Proof.
  unfold ValidateIPv6. destruct (ParseIP v) as [ip|] eqn:Ep; [|done]. intros Hg. apply guard_err_ok, bool_decide_eq_false in Hg. unfold To4 in Hg.
  assert (Ht : take 12 ip <> v4InV6Prefix) by (intros Ht; apply Hg; rewrite bool_decide_true by done; eauto).
  exists ip. split; [|done]. split; [|done]. destruct (dispatch_cases _ _ _ Ep) as [(q & _ & ->)|Hc]; [by destruct Ht|done].
Qed.

Lemma target_accepted n : ValidateDomainTarget n = Ok tt -> domain n.
Proof. unfold ValidateDomainTarget. destruct (String.eqb_spec n "@"); [done|]. intros [?|[?|?]]%ValidateDomainName_spec; [done|by left|by right]. Qed.
Lemma uint16_accepted s n : parseUint16Field s = Ok n -> uint16_text s.
Proof. unfold parseUint16Field. destruct (Atoi s) as [v|] eqn:Ea; [|done]. destruct ((v <? 0) || (65535 <? v)) eqn:Er; [done|]. intros _. exists v. split; [done|]. bool_prop. lia. Qed.
Lemma text_accepted s : ValidString s = true -> ContainsFunc s unsafeTXTControlCharacter = false -> plain_text s.
Proof.
  intros Hu%ValidString_utf8 Hc. split; [done|]. apply Forall_forall. intros c Hin. assert (unsafeTXTControlCharacter (fst c) = false) as Hs.
  { apply not_true_iff_false. intros Ht. apply not_true_iff_false in Hc. apply Hc, existsb_exists. exists c. split; [by apply list_elem_of_In|done]. }
  unfold unsafeTXTControlCharacter in Hs. bool_prop. lia.
Qed.
Lemma target_normal_origin n z : NormalizeZoneName (NormalizeZoneName z) = NormalizeZoneName z -> NormalizeDomainTargetName n (NormalizeZoneName z) = NormalizeDomainTargetName n z.
Proof. intros E. unfold NormalizeDomainTargetName. by rewrite E. Qed.
Lemma target_in_zone n z : NormalizeZoneName (NormalizeZoneName z) = NormalizeZoneName z -> ValidateDomainTargetInZone n z = Ok tt -> target_rule (NormalizeZoneName z) n.
Proof. intros E Hv. unfold ValidateDomainTargetInZone in Hv. inv_ok. split; [by apply target_accepted|]. rewrite target_normal_origin by done. by apply target_accepted. Qed.
Lemma star_class_inv f s : matches (RStar (RClass f)) s -> str_forallb f s = true.
Proof.
  induction s as [|a s IH]; [done|]. intros (y & z & -> & Hy & Hz)%matches_star_cons. apply matches_class in Hy as (b & [= <- ->] & Hb). cbn [str_forallb] in *. rewrite Hb. by apply IH.
Qed.
Lemma caa_accepted zn v : ValidateCAAValue v = Ok tt -> value_rule zn RecordTypeCAA v.
Proof.
  intros Hv. unfold ValidateCAAValue in Hv. apply rbind_ok in Hv as (data & Hp & _). pose proof Hp as Hp0. unfold ParseCAAValue in Hp. destruct (_ =? "")%string; [done|].
  destruct (Fields v) as [|p0 [|tag [|x words]]] eqn:Ef; try done. destruct (Atoi p0) as [flags|] eqn:Ea; [|done]. destruct ((flags <? 0) || (255 <? flags)) eqn:Er; [done|].
  destruct (MatchString caaTagRegex tag) eqn:Em; [|done]. cbn [negb] in Hp. apply rbind_ok in Hp as (text & Ht & [= <-]). assert (0 <= flags <= 255) as Hf by (bool_prop; lia).
  assert (Hu : u8 flags = flags) by (unfold u8, wrapN; apply Z.mod_small; lia). rewrite Hu in Hp0. apply MatchString_matches, matches_cat in Em as (a & t & -> & Ha & Hs). apply matches_class in Ha as (c & -> & Hc). apply star_class_inv in Hs.
  eapply CAA_rule; [exact Ef|done|exact Ea|exact Hf|done|rewrite str_forallb_app, Hs; unfold str1; cbn [str_forallb]; by rewrite Hc|exact Hp0|].
  unfold parseCAAStringValue in Ht. destruct (_ =? "")%string; [done|]. apply rbind_ok in Ht as (raw & _ & Ht). inv_ok. subst. apply text_accepted; [by apply negb_false_iff|done].
Qed.
Lemma value_accepted z t v : NormalizeZoneName (NormalizeZoneName z) = NormalizeZoneName z -> t ∈ SupportedRecordTypes ->
  ValidateRecordValue t v = Ok tt -> ValidateRecordValueInZone t v z = Ok tt -> value_rule (NormalizeZoneName z) t v.
Proof.
  intros E Ht Hv Hz. unfold SupportedRecordTypes in Ht. repeat (apply elem_of_cons in Ht as [->|Ht]); [..|by apply elem_of_nil in Ht];
    unfold ValidateRecordValue in Hv; unfold ValidateRecordValueInZone in Hz; cbn in Hv, Hz; try (destruct (v =? "")%string; [done|]).
  - by apply A_rule, ipv4_accepted.
  - apply ipv6_accepted in Hv as (ip & ? & ?). by eapply AAAA_rule.
  - apply name_rule; [set_solver|by apply target_in_zone].
  - unfold ParseMXValue in Hz. destruct (Fields v) as [|p [|n [|]]] eqn:Ef; try done. destruct (parseUint16Field p) as [m|] eqn:Eu; [|done]. cbn in Hz. eapply MX_rule; [exact Ef|by eapply uint16_accepted|by apply target_in_zone].
  - apply name_rule; [set_solver|by apply target_in_zone].
  - unfold ValidateTXTValue in Hv. inv_ok. apply TXT_rule; [unfold MaxTXTValueLength in *; bool_prop; lia|]. apply text_accepted; [by apply negb_false_iff|done].
  - apply name_rule; [set_solver|by apply target_in_zone].
  - unfold ParseSRVValue in Hz. destruct (Fields v) as [|p [|w [|o [|n [|]]]]] eqn:Ef; try done. destruct (parseUint16Field p) as [a|] eqn:E1; [|done]. cbn in Hz. destruct (parseUint16Field w) as [b|] eqn:E2; [|done]. cbn in Hz.
    destruct (parseUint16Field o) as [c|] eqn:E3; [|done]. cbn in Hz. eapply SRV_rule; [exact Ef|by eapply uint16_accepted..|by apply target_in_zone].
  - by apply caa_accepted.
Qed.

(** The guarantees on one record of an accepted zone with origin [zn]. *)
Record record_rules (zn : string) (r : ZRecord) : Prop := {
  rule_owner : in_zone (NormalizeRecordOwnerName (rec_Name r) zn) zn;
  rule_type : rec_Type r ∈ SupportedRecordTypes;
  rule_ttl : 0 < rec_TTL r <= 2147483647;
  rule_value : value_rule zn (rec_Type r) (rec_Value r)
}.
(** The guarantees on its SOA. *)
Record soa_rules (zn : string) (soa : SOARecord) : Prop := {
  soa_mname : target_rule zn (MName soa);
  soa_rname : target_rule zn (RName soa);
  soa_times : Refresh soa <> 0 /\ Retry soa <> 0 /\ Expire soa <> 0 /\ Minimum soa <> 0
}.

Lemma ForallOrdPairs_lookup {A} (R : A -> A -> Prop) l i j a b :
  ForallOrdPairs R l -> l !! i = Some a -> l !! j = Some b -> (i < j)%nat -> R a b.
Proof.
  intros Hp. revert i j. induction Hp as [|x l Hx _ IH]; intros i j Hi Hj Hlt; [done|].
  destruct j as [|j]; [lia|]. destruct i as [|i]; simpl in *.
  - injection Hi as ->. rewrite Forall_forall in Hx. apply Hx. by eapply list_elem_of_lookup_2.
  - eapply IH; [done|done|lia].
Qed.

(** Owner expansion only looks at the normal form of the origin. *)
Lemma owner_normal_origin n z : NormalizeZoneName (NormalizeZoneName z) = NormalizeZoneName z ->
  NormalizeRecordOwnerName n (NormalizeZoneName z) = NormalizeRecordOwnerName n z.
Proof. intros E. unfold NormalizeRecordOwnerName. by rewrite E. Qed.

Lemma name_in_zone_ok n z : NormalizeZoneName (NormalizeZoneName z) = NormalizeZoneName z ->
  ValidateRecordNameInZone n z = Ok tt ->
  in_zone (NormalizeRecordOwnerName n (NormalizeZoneName z)) (NormalizeZoneName z).
Proof.
  intros E Hv. rewrite owner_normal_origin by done. unfold ValidateRecordNameInZone in Hv. inv_ok.
  destruct (String.eqb_spec n "@") as [->|Hn].
  - left. done.
  - inv_ok. apply in_zone_test. by destruct (_ || _).
Qed.

Lemma validate_records_rules z rs : forall i,
  NormalizeZoneName (NormalizeZoneName z) = NormalizeZoneName z -> Forall (fun r => in_range 32 (rec_TTL r)) rs ->
  validate_records z i rs = Ok tt -> Forall (record_rules (NormalizeZoneName z)) rs.
Proof.
  induction rs as [|r rs IH]; intros i E Ht Hv; [by constructor|].
  cbn [validate_records] in Hv. inv_ok. inversion Ht; subst. constructor; [|by eapply IH].
  unfold ValidateRecord in *. inv_ok. split.
  - by apply name_in_zone_ok.
  - apply IsValidRecordType_true. by apply negb_false_iff.
  - unfold in_range in *. bool_prop. lia.
  - apply value_accepted; [done|apply IsValidRecordType_true; by apply negb_false_iff|done|done].
Qed.
Lemma validate_soa_rules z soa : NormalizeZoneName (NormalizeZoneName z) = NormalizeZoneName z -> ValidateSOAInZone (Some soa) z = Ok tt -> soa_rules (NormalizeZoneName z) soa.
Proof.
  intros E Hv. unfold ValidateSOAInZone, ValidateSOA in Hv. inv_ok. split; [by apply target_in_zone..|]. split_and!; by apply Z.eqb_neq.
Qed.

(** ** Derived fields *)

(** The priority a record must carry, from its type and value. *)
Definition priority_rule (r : ZRecord) : Prop :=
  recordPriorityFromValue (rec_Type r) (rec_Value r) = Ok (rec_Priority r).

Lemma normalize_record_rule reject r r' :
  normalizeRecordDerivedFields (Some r) reject = Ok r' -> priority_rule r' /\ set_Priority (rec_Priority r) r' = r.
Proof.
  unfold normalizeRecordDerivedFields, priority_rule. intros Hn. inv_ok.
  repeat go_case; try discriminate; injection Hn as <-; simpl; (split; [congruence|destruct r; unfold set_Priority in *; simpl in *; congruence]).
Qed.

Lemma normalize_record_fixed reject r : priority_rule r ->
  normalizeRecordDerivedFields (Some r) reject = Ok r.
Proof.
  unfold priority_rule, normalizeRecordDerivedFields. intros ->. simpl.
  destruct r as [? ? ? ? ? [p|]]; simpl; [|done]. by rewrite Z.eqb_refl, andb_false_r.
Qed.

Lemma normalize_records_rule reject rs : forall i rs', normalize_records reject i rs = (rs', Ok tt) ->
  Forall priority_rule rs' /\ Forall2 (fun r r' => set_Priority (rec_Priority r) r' = r) rs rs'.
Proof.
  induction rs as [|r rs IH]; intros i rs' Hn; cbn [normalize_records] in Hn; [injection Hn as <-; by repeat constructor|].
  destruct (normalizeRecordDerivedFields (Some r) reject) as [r'|e] eqn:Er; simpl in Hn; [|congruence].
  destruct (normalize_records reject (S i) rs) as [rs1 res] eqn:E. injection Hn as <- ->.
  apply IH in E as [? ?]. apply normalize_record_rule in Er as [? ?]. by split; constructor.
Qed.

Lemma normalize_records_fixed reject rs i : Forall priority_rule rs ->
  normalize_records reject i rs = (rs, Ok tt).
Proof.
  intros Hrs. revert i. induction Hrs as [|r rs Hr _ IH]; intros i; cbn [normalize_records]; [done|].
  rewrite normalize_record_fixed by done. simpl. by rewrite IH.
Qed.
End zone_rules.

(** ** Properties *)

(** C28: A zone that [ValidateZone] accepts has a syntactically valid name and
    an SOA whose names are domain names, as written and expanded, and whose times are
    not zero; each of its records expands to an owner at or below the zone apex, has
    a supported type, a TTL between 1 and 2^31-1 and a value of the form its type
    asks for: a dotted quad (or an IPv6 text of a mapped address) for A, an IPv6 text
    of another address for AAAA, a domain name, as written and expanded, for NS,
    CNAME and PTR and as the last of the fields of MX and SRV, numbers up to 65535 as
    their other fields, UTF-8 without control characters of at most 65279 bytes for
    TXT, and flags up to 255, a tag of letters and digits and such a text for CAA;
    and the record set satisfies the pairwise rules. *)
Theorem accepted_zone_rules `{UnicodeTables} (z : Zone) :
  Forall (fun r => in_range 32 (rec_TTL r)) (z_Records z) ->
  ValidateZone (Some z) = Ok tt ->
  let apex := NormalizeZoneName (z_Name z) in
  dns_name (z_Name z) /\ soa_rules apex (z_SOA z) /\ Forall (record_rules apex) (z_Records z) /\ rrset_spec apex (z_Records z).
Proof.
  intros Ht Hv. cbv zeta. unfold ValidateZone in Hv. inv_ok.
  match goal with Hz : ValidateZoneName _ = _ |- _ => apply zone_name_accepted in Hz end.
  assert (NormalizeZoneName (NormalizeZoneName (z_Name z)) = NormalizeZoneName (z_Name z)) by (by apply NormalizeZoneName_fixed, dns_name_plain).
  split; [done|]. split; [by apply validate_soa_rules|]. split; [by eapply validate_records_rules|by apply ValidateRecordSetConstraints_spec].
Qed.

(** In an accepted zone a CNAME record is the only record at its owner. *)
Lemma cname_exclusive `{UnicodeTables} (z : Zone) (i j : nat) (r1 r2 : ZRecord) :
  ValidateZone (Some z) = Ok tt ->
  z_Records z !! i = Some r1 -> z_Records z !! j = Some r2 ->
  rec_Type r1 = RecordTypeCNAME ->
  NormalizeRecordOwnerName (rec_Name r1) (NormalizeZoneName (z_Name z))
    = NormalizeRecordOwnerName (rec_Name r2) (NormalizeZoneName (z_Name z)) ->
  i = j.
Proof.
  intros Hv Hi Hj Hc Ho. unfold ValidateZone in Hv. inv_ok.
  apply ValidateRecordSetConstraints_spec in Hv as [_ Hp Ha _].
  assert (rec_Type r2 = RecordTypeCNAME) as Hc2
    by (eapply Ha; eauto using list_elem_of_lookup_2).
  destruct (Nat.lt_trichotomy i j) as [Hlt|[->|Hlt]]; [exfalso|done|exfalso].
  - destruct (ForallOrdPairs_lookup _ _ _ _ _ _ Hp Hi Hj Hlt) as (_ & Hne & _). by apply Hne.
  - destruct (ForallOrdPairs_lookup _ _ _ _ _ _ Hp Hj Hi Hlt) as (_ & Hne & _). by apply Hne.
Qed.

(** When normalising the derived fields of a zone succeeds, every record
    carries exactly the priority its value encodes, no other field changed, and
    normalising again (in either mode) changes nothing and succeeds. *)
Theorem derived_fields_normalized (reject : bool) (z z' : Zone) :
  zone_derived_fields reject (Some z) = (Some z', Ok tt) ->
  Forall priority_rule (z_Records z')
  /\ Forall2 (fun r r' => set_Priority (rec_Priority r) r' = r) (z_Records z) (z_Records z')
  /\ NormalizeZoneDerivedFields (Some z') = (Some z', Ok tt)
  /\ RepairZoneDerivedFields (Some z') = (Some z', Ok tt).
Proof.
  unfold NormalizeZoneDerivedFields, RepairZoneDerivedFields, zone_derived_fields.
  destruct (normalize_records _ _ _) as [rs res] eqn:E. intros [= <- ->].
  apply normalize_records_rule in E as [Hp H2]. simpl.
  split; [done|]. split; [done|]. by rewrite !normalize_records_fixed.
Qed.

(** ** Witnesses *)
#[local] Existing Instance ascii_tables.

(** A small zone: relative and absolute owners, every kind of value. *)
Definition example_records : list ZRecord :=
  [mkRecord "" "@" "NS" 300 "ns1" None;
   mkRecord "" "ns1" "A" 300 "192.0.2.1" None;
   mkRecord "" "www" "CNAME" 300 "ns1" None;
   mkRecord "" "@" "MX" 300 "10 mail.example.com." None;
   mkRecord "" "_sip._tcp.example.com." "SRV" 300 "1 2 5060 sip" None;
   mkRecord "" "*.dyn" "TXT" 60 "v=spf1 -all" None;
   mkRecord "" "@" "CAA" 300 "0 issue letsencrypt.org" None].
Definition example_zone : Zone :=
  mkZone "Example.com" "" (DefaultSOA "ns1.example.com." "hostmaster.example.com.")
    example_records None 0 0.

Lemma accepted_zone_rules_witness :
  dns_name "Example.com" /\ soa_rules "example.com." (z_SOA example_zone)
  /\ Forall (record_rules "example.com.") example_records
  /\ rrset_spec "example.com." example_records.
Proof.
  apply (accepted_zone_rules example_zone); [|vm_compute; reflexivity].
  repeat constructor; discriminate.
Defined.

Lemma derived_fields_normalized_witness :
  let z' := default example_zone (fst (NormalizeZoneDerivedFields (Some example_zone))) in
  Forall priority_rule (z_Records z')
  /\ Forall2 (fun r r' => set_Priority (rec_Priority r) r' = r) (z_Records example_zone) (z_Records z')
  /\ NormalizeZoneDerivedFields (Some z') = (Some z', Ok tt)
  /\ RepairZoneDerivedFields (Some z') = (Some z', Ok tt).
Proof. apply (derived_fields_normalized true). vm_compute. reflexivity. Defined.

(** * TXT character-strings

    [SplitTXTValue] cuts a TXT value into the character-strings of the wire
    format.  The pieces concatenate to the value, fit the 255-byte limit, and
    never cut a UTF-8 sequence of a valid value. *)
(** ** Cutting at the start of a code point *)
Definition starts_rune (s : string) : Prop := s = "" \/ exists a t, s = String a t /\ RuneStart a = true.

Lemma utf8_cut p q : utf8 (p +:+ q) -> starts_rune q -> utf8 p /\ utf8 q.
Proof.
  intros H. remember (p +:+ q) as s eqn:E. revert p E.
  induction H as [|c s Hc Hs IH]; intros p E Hq.
  - symmetry in E. apply str_app_nil in E as [-> ->]. split; constructor.
  - symmetry in E. apply app_split_cases in E as [(t & -> & ->)|(t & -> & ->)].
    + destruct p as [|a p]; [split; [constructor|by constructor]|].
      destruct t as [|d t].
      * rewrite str_app_nil_r in Hc. rewrite str_app_nil_l. split; [|done].
        rewrite <- (str_app_nil_r (String a p)). constructor; [done|constructor].
      * destruct Hc as (_ & b & u & Eu & _ & Hu). rewrite str_app_cons in Eu. injection Eu as -> <-.
        destruct Hq as [?|(e & v & Ee & He)]; [done|]. rewrite str_app_cons in Ee. injection Ee as -> _.
        rewrite str_forallb_app in Hu. simpl in Hu. unfold RuneStart in He.
        apply negb_true_iff in He. by rewrite He, andb_false_r in Hu.
    + destruct (IH t eq_refl Hq) as [Ht Hq']. split; [by constructor|done].
Qed.

Lemma get_drop n s c : String.get n s = Some c -> exists t, str_drop n s = String c t.
Proof. revert s. induction n as [|n IH]; intros [|a s]; simpl; try done; [intros [= ->]; eauto|apply IH]. Qed.
Lemma drop_get n s c t : str_drop n s = String c t -> String.get n s = Some c.
Proof. revert s. induction n as [|n IH]; intros [|a s]; simpl; try done; [by intros [= -> _]|apply IH]. Qed.
Lemma get_lt n s : (n < String.length s)%nat -> exists c, String.get n s = Some c.
Proof. revert s. induction n as [|n IH]; intros [|a s] Hl; simpl in *; try lia; [eauto|]. apply IH. lia. Qed.

(** The backwards scan stops at the last code-point start not after [stop]. *)
Lemma back_spec stop s : (stop < String.length s)%nat ->
  (back_to_rune_start stop s <= stop)%nat
  /\ (back_to_rune_start stop s = 0%nat \/ starts_rune (str_drop (back_to_rune_start stop s) s))
  /\ forall k c, (back_to_rune_start stop s < k <= stop)%nat -> String.get k s = Some c -> RuneStart c = false.
Proof.
  intros Hlt. induction stop as [|e IH]; [simpl; split; [lia|]; split; [by left|lia]|].
  cbn [back_to_rune_start]. destruct (get_lt (S e) s Hlt) as [c Hc]. rewrite Hc.
  destruct (RuneStart c) eqn:Er.
  - split; [lia|]. split; [|lia]. right. right. destruct (get_drop _ _ _ Hc) as [t Ht]. eauto.
  - destruct IH as (Hle & Hs & Hk); [lia|]. split; [lia|]. split; [done|].
    intros k d Hr Hd. destruct (decide (k = S e)) as [->|Hne]; [congruence|]. apply (Hk k); [lia|done].
Qed.

Lemma txt_cut_bounds s : (1 <= txt_cut s)%nat /\ ((255 < String.length s)%nat -> (txt_cut s <= 255)%nat).
Proof.
  unfold txt_cut, MaxTXTCharacterStringLength. split.
  - destruct (back_to_rune_start _ _); lia.
  - intros Hl. pose proof (back_spec 255 s Hl) as (Hle & _). destruct (back_to_rune_start _ _); lia.
Qed.

(** In a valid value the scan finds a code-point start after position 0. *)
Lemma txt_cut_starts s : utf8 s -> (255 < String.length s)%nat -> starts_rune (str_drop (txt_cut s) s).
Proof.
  intros Hu Hl. pose proof (back_spec 255 s Hl) as (_ & Hs & Hk). unfold txt_cut, MaxTXTCharacterStringLength.
  destruct (back_to_rune_start 255 s) as [|n] eqn:E; [exfalso|by destruct Hs].
  destruct Hu as [|c t Hc Ht]; [simpl in Hl; lia|].
  assert (1 <= String.length c <= 4)%nat as Hcl.
  { pose proof (utf8_piece_length c Hc). destruct Hc as [(r & Hd & _) _].
    assert (c +:+ t <> "") as Hn by (by intros [? _]%str_app_nil).
    pose proof (decode_rune_width _ Hn) as [Hw _]. by rewrite Hd in Hw. }
  rewrite str_length_app in Hl. destruct Ht as [|c' t' Hc' _]; [simpl in Hl; lia|].
  destruct Hc' as (_ & a & u & -> & Ha & _).
  rewrite str_app_cons in Hk. enough (RuneStart a = false) by congruence.
  apply (Hk (String.length c)); [lia|]. eapply drop_get, str_drop_app.
Qed.

(** The loop always ends within its fuel. *)
Lemma split_txt_total fuel s : (String.length s < fuel)%nat ->
  exists l, split_txt fuel s = Some l /\ str_concat l = s
    /\ Forall (fun c => len c <= 255) l /\ (s <> "" -> Forall (fun c => c <> "") l)
    /\ (utf8 s -> Forall utf8 l).
Proof.
  revert s. induction fuel as [|fuel IH]; intros s Hf; [lia|]. cbn [split_txt].
  destruct (Nat.leb_spec (String.length s) MaxTXTCharacterStringLength) as [Hle|Hgt].
  - exists [s]. split; [done|]. split; [apply str_app_nil_r|]. split; [|split].
    + constructor; [|done]. unfold len, MaxTXTCharacterStringLength in *. lia.
    + by constructor.
    + by constructor.
  - unfold MaxTXTCharacterStringLength in Hgt. destruct (txt_cut_bounds s) as [H1 H2]. specialize (H2 Hgt).
    destruct (IH (str_drop (txt_cut s) s)) as (l & Hl & Hc & Hlen & Hne & Hu);
      [rewrite str_drop_length; lia|].
    exists (str_take (txt_cut s) s :: l). rewrite Hl. split; [done|]. split; [|split; [|split]].
    + simpl. by rewrite Hc, str_take_drop.
    + constructor; [|done]. unfold len. rewrite str_take_length. lia.
    + intros _. constructor.
      * intros E%(f_equal String.length). rewrite str_take_length in E. simpl in E. lia.
      * apply Hne. intros E%(f_equal String.length). rewrite str_drop_length in E. simpl in E. lia.
    + intros Hs. pose proof (txt_cut_starts s Hs Hgt) as Hst.
      rewrite <- (str_take_drop (txt_cut s) s) in Hs. apply utf8_cut in Hs as [??]; [|done].
      constructor; auto.
Qed.

(** ** Properties *)

(** [SplitTXTValue] is total and lossless: the pieces concatenate to the
    value, each has at most 255 bytes, none is empty for a non-empty value, and
    when the value is valid UTF-8 so is every piece. *)
Theorem split_txt_pieces (value : string) :
  str_concat (SplitTXTValue value) = value
  /\ Forall (fun c => len c <= 255) (SplitTXTValue value)
  /\ (value <> "" -> Forall (fun c => c <> "") (SplitTXTValue value))
  /\ (ValidString value = true -> Forall (fun c => ValidString c = true) (SplitTXTValue value)).
Proof.
  unfold SplitTXTValue.
  destruct (split_txt_total (S (String.length value)) value) as (l & -> & Hc & Hl & Hn & Hu); [lia|].
  simpl. split; [done|]. split; [done|]. split; [done|]. rewrite ValidString_utf8. intros Hv.
  eapply Forall_impl; [by apply Hu|]. intros. by apply ValidString_utf8.
Qed.
