(* ===== verification/Serial.v ===== *)
(** * SOA serials (pkg/backend/memory.go, pkg/backend/serial.go,
    internal/agent/sync/serial.go)

    The YYYYMMDDnn serial generator of the stores and the RFC 1982 comparison
    the agents use to reject stale zones.  Serials are [uint32]: every
    arithmetic step wraps as Go's does. *)

From S2P Require Import Prelude.

(** The calendar date of [time.Now()]. *)
Record Date := mkDate { Year : Z; Month : Z; Day : Z }.

Definition calendar (d : Date) : Prop :=
  0 <= Year d <= 9999 /\ 1 <= Month d <= 12 /\ 1 <= Day d <= 31.

Definition date_today (now : Date) : Z := u32 (Year now * 10000 + Month now * 100 + Day now).
Definition date_first (now : Date) : Z := u32 (date_today now * 100 + 1).

Definition generateSerial (now : Date) (currentSerial : Z) : Z :=
  let today := date_today now in
  let todayFirst := date_first now in
  if currentSerial =? 0 then todayFirst
  else
    let currentDate := currentSerial / 100 in
    let currentCounter := currentSerial mod 100 in
    if (currentDate =? today) && (currentCounter <? 99) then u32 (currentSerial + 1)
    else if (currentDate <? today) && (currentSerial <? todayFirst) then todayFirst
    else if currentSerial <? MaxUint32 then u32 (currentSerial + 1)
    else currentSerial.

Definition NextSOASerial : Date -> Z -> Z := generateSerial.

Definition updateSOASerial (now : Date) (currentSerial preparedSerial : Z) : Z :=
  if currentSerial <? preparedSerial then preparedSerial else generateSerial now currentSerial.

(** [candidate != current && current-candidate < 1<<31] on [uint32]. *)
Definition zoneSerialBefore (candidate current : Z) : bool :=
  negb (candidate =? current) && (u32 (current - candidate) <? 2 ^ 31).

(** ** Lemmas *)
Lemma date_today_value d : calendar d -> date_today d = Year d * 10000 + Month d * 100 + Day d.
Proof. intros (Hy & Hm & Hd). unfold date_today, u32, wrapN. apply Z.mod_small. lia. Qed.

(** No calendar date has the digits of the largest serial. *)
Lemma date_today_not_max d : calendar d -> date_today d <> 42949672.
Proof. intros Hc. rewrite date_today_value by done. destruct Hc as (Hy & Hm & Hd). lia. Qed.

Lemma date_first_value d : calendar d -> Year d <= 4294 ->
  date_first d = (Year d * 10000 + Month d * 100 + Day d) * 100 + 1.
Proof.
  intros Hc Hy. unfold date_first. rewrite date_today_value by done. destruct Hc as (? & Hm & Hd).
  unfold u32, wrapN. apply Z.mod_small. lia.
Qed.

Lemma u32_succ x : 0 <= x < MaxUint32 -> u32 (x + 1) = x + 1.
Proof. unfold MaxUint32. intros. apply Z.mod_small. lia. Qed.

Lemma u32_range x : 0 <= u32 x <= MaxUint32.
Proof. unfold u32, wrapN, MaxUint32. pose proof (Z.mod_pos_bound x (2 ^ 32)). lia. Qed.

Lemma generateSerial_advances d cur : calendar d -> 0 < cur <= MaxUint32 ->
  cur <= generateSerial d cur <= MaxUint32 /\ (cur < MaxUint32 -> cur < generateSerial d cur).
Proof.
  intros Hc Hcur. pose proof (date_today_not_max d Hc) as Hnm.
  pose proof (u32_range (date_today d * 100 + 1)) as Hf. fold (date_first d) in Hf.
  unfold generateSerial. destruct (Z.eqb_spec cur 0); [lia|].
  assert (cur <> MaxUint32 -> u32 (cur + 1) = cur + 1) as Hs by (intros; apply u32_succ; lia).
  repeat go_case; bool_prop; try (unfold MaxUint32 in *; lia).
  assert (cur <> MaxUint32) by (intros ->; apply Hnm; done). rewrite Hs by done. lia.
Qed.

Lemma date_first_pos d : 0 < date_first d <= MaxUint32.
Proof.
  pose proof (u32_range (date_today d * 100 + 1)). unfold date_first. split; [|lia].
  assert (u32 (date_today d * 100 + 1) <> 0); [|lia]. unfold u32, wrapN. intros E.
  apply Z.mod_divide in E as [k Hk]; [|lia]. change (2 ^ 32) with (2 * 2147483648) in Hk. lia.
Qed.

Lemma updateSOASerial_advances d cur prep : calendar d -> 0 < cur <= MaxUint32 -> 0 <= prep <= MaxUint32 ->
  cur <= updateSOASerial d cur prep <= MaxUint32 /\ (cur < MaxUint32 -> cur < updateSOASerial d cur prep).
Proof.
  intros Hd Hc Hp. pose proof (generateSerial_advances d cur Hd Hc).
  unfold updateSOASerial. destruct (Z.ltb_spec cur prep); lia.
Qed.

(** ** Properties *)

(** Advancing a serial never moves it backwards and stays within [uint32]:
    the new serial is strictly greater unless the current one is already
    2^32-1, whatever the prepared serial; and a serial prepared ahead of the
    stored one is kept. *)
Theorem serial_advances (now : Date) (cur prepared : Z) :
  calendar now -> 0 < cur <= MaxUint32 -> 0 <= prepared <= MaxUint32 ->
  let next := updateSOASerial now cur prepared in
  cur <= next <= MaxUint32
  /\ (cur < MaxUint32 -> cur < next)
  /\ (cur < prepared -> next = prepared).
Proof.
  intros Hc Hcur Hp. pose proof (generateSerial_advances now cur Hc Hcur) as [Hr Hs].
  unfold updateSOASerial. destruct (Z.ltb_spec cur prepared); simpl; lia.
Qed.

Lemma serial_advances_witness :
  let next := updateSOASerial (mkDate 2026 1 31) 2026013099 0 in
  2026013099 <= next <= MaxUint32
  /\ (2026013099 < MaxUint32 -> 2026013099 < next)
  /\ (2026013099 < 0 -> next = 0).
Proof. apply (serial_advances (mkDate 2026 1 31) 2026013099 0); vm_compute; intuition discriminate. Defined.

(** A fresh zone, or a zone last changed on an earlier day, gets the serial
    YYYYMMDD01 of the current date; a change on the same day increments the
    counter. *)
Lemma serial_format (now : Date) (cur : Z) :
  calendar now -> Year now <= 4294 -> 0 <= cur <= MaxUint32 ->
  let day := Year now * 10000 + Month now * 100 + Day now in
  (cur < day * 100 -> generateSerial now cur = day * 100 + 1)
  /\ (day * 100 <= cur < day * 100 + 99 -> 0 < cur -> generateSerial now cur = cur + 1).
Proof.
  intros Hc Hy Hcur day. unfold generateSerial.
  rewrite date_first_value, date_today_value by done. fold day.
  pose proof (Z.div_mod cur 100 ltac:(lia)) as Hdm. pose proof (Z.mod_pos_bound cur 100 ltac:(lia)) as Hm.
  split; intros Hcase; repeat go_case; bool_prop; try lia.
  intros _. apply u32_succ. destruct Hc as (? & ? & ?). unfold MaxUint32. lia.
Qed.

(** The agent's staleness test is RFC 1982 comparison: no serial is before
    itself, two serials less than 2^31 apart are ordered by the wrapped
    difference, and the relation is asymmetric except for the pair at distance
    exactly 2^31, for which neither precedes the other. *)
Theorem serial_before_rfc1982 (a b : Z) :
  in_range 32 a -> in_range 32 b ->
  zoneSerialBefore a a = false
  /\ (zoneSerialBefore a b = true <-> exists d, 0 < d < 2 ^ 31 /\ b = u32 (a + d))
  /\ (zoneSerialBefore a b = true -> zoneSerialBefore b a = false)
  /\ (a <> b -> u32 (b - a) <> 2 ^ 31 -> zoneSerialBefore a b = true \/ zoneSerialBefore b a = true).
Proof.
  unfold in_range, zoneSerialBefore, u32, wrapN. intros Ha Hb. rewrite Z.eqb_refl.
  assert (Hab : (b - a) mod 2 ^ 32 = if a <=? b then b - a else b - a + 2 ^ 32).
  { destruct (Z.leb_spec a b); [apply Z.mod_small; lia|].
    rewrite <- (Z.mod_add _ 1) by lia. rewrite Z.mod_small; lia. }
  assert (Hba : (a - b) mod 2 ^ 32 = if b <=? a then a - b else a - b + 2 ^ 32).
  { destruct (Z.leb_spec b a); [apply Z.mod_small; lia|].
    rewrite <- (Z.mod_add _ 1) by lia. rewrite Z.mod_small; lia. }
  rewrite Hab, Hba. split; [done|]. split; [|split].
  - rewrite andb_true_iff, negb_true_iff, Z.eqb_neq, Z.ltb_lt. split.
    + intros [Hne Hlt]. exists (if a <=? b then b - a else b - a + 2 ^ 32).
      destruct (Z.leb_spec a b); split; try lia; [rewrite Z.mod_small; lia|].
      rewrite <- (Z.mod_add _ (-1)) by lia. rewrite Z.mod_small; lia.
    + intros (d & Hd & ->). destruct (Z.lt_ge_cases (a + d) (2 ^ 32)) as [Hl|Hl].
      * rewrite (Z.mod_small (a + d)) in * by lia. destruct (Z.leb_spec a (a + d)); lia.
      * assert ((a + d) mod 2 ^ 32 = a + d - 2 ^ 32) as E.
        { rewrite <- (Z.mod_add _ (-1)) by lia. rewrite Z.mod_small; lia. }
        rewrite E in *. destruct (Z.leb_spec a (a + d - 2 ^ 32)); lia.
  - rewrite andb_true_iff, andb_false_iff, negb_true_iff, Z.eqb_neq, Z.ltb_lt, Z.ltb_ge.
    intros [Hne Hlt]. right. destruct (Z.leb_spec a b), (Z.leb_spec b a); lia.
  - intros Hne Hh. rewrite !andb_true_iff, !negb_true_iff, !Z.eqb_neq, !Z.ltb_lt.
    destruct (Z.leb_spec a b), (Z.leb_spec b a); lia.
Qed.

Lemma serial_before_rfc1982_witness :
  zoneSerialBefore 4294967295 4294967295 = false
  /\ (zoneSerialBefore 4294967295 5 = true <-> exists d, 0 < d < 2 ^ 31 /\ 5 = u32 (4294967295 + d))
  /\ (zoneSerialBefore 4294967295 5 = true -> zoneSerialBefore 5 4294967295 = false)
  /\ (4294967295 <> 5 -> u32 (5 - 4294967295) <> 2 ^ 31 ->
       zoneSerialBefore 4294967295 5 = true \/ zoneSerialBefore 5 4294967295 = true).
Proof. apply (serial_before_rfc1982 4294967295 5); unfold in_range; lia. Defined.
