(* ===== verification/Sha256.v ===== *)
(** * SHA-256 ([crypto/sha256], [encoding/hex])

    The digest used for zone hashes, ETags, API keys and long zone file names,
    as an executable definition over 32-bit words (FIPS 180-4). *)

From S2P Require Import Prelude GoStrings GoStringsFacts GoNet.
Definition rotr (n x : Z) : Z := Z.lor (Z.shiftr x n) (u32 (Z.shiftl x (32 - n))).
Definition xor3 (a b c : Z) : Z := Z.lxor a (Z.lxor b c).
Definition big_sigma0 (x : Z) : Z := xor3 (rotr 2 x) (rotr 13 x) (rotr 22 x).
Definition big_sigma1 (x : Z) : Z := xor3 (rotr 6 x) (rotr 11 x) (rotr 25 x).
Definition small_sigma0 (x : Z) : Z := xor3 (rotr 7 x) (rotr 18 x) (Z.shiftr x 3).
Definition small_sigma1 (x : Z) : Z := xor3 (rotr 17 x) (rotr 19 x) (Z.shiftr x 10).
Definition choose (x y z : Z) : Z := Z.lxor (Z.land x y) (Z.land (Z.lxor x 4294967295) z).
Definition majority (x y z : Z) : Z := xor3 (Z.land x y) (Z.land x z) (Z.land y z).

(** The constants are defined as in the standard: the first 32 bits of the
    fractional parts of the cube roots (round constants) and square roots
    (initial state) of the first primes. *)
Definition is_prime (n : Z) : bool :=
  (1 <? n) && forallb (fun d => negb (n mod d =? 0)) (map Z.of_nat (List.seq 2 (Z.to_nat (Z.sqrt n) - 1))).
Definition primes_below (n : nat) : list Z := List.filter is_prime (map Z.of_nat (List.seq 0 n)).

(** The integer cube root, one bit at a time from bit [n - 1] down. *)
Fixpoint cbrt_bits (n : nat) (x acc : Z) : Z :=
  match n with
  | O => acc
  | S n' =>
    let next := acc + 2 ^ Z.of_nat n' in
    cbrt_bits n' x (if next * next * next <=? x then next else acc)
  end.

Definition round_constants : list Z :=
  Eval vm_compute in map (fun p => u32 (cbrt_bits 40 (p * 2 ^ 96) 0)) (primes_below 312).
Definition initial_words : list Z :=
  Eval vm_compute in map (fun p => u32 (Z.sqrt (p * 2 ^ 64))) (primes_below 20).

Record state := mkState { sa : Z; sb : Z; sc : Z; sd : Z; se : Z; sf : Z; sg : Z; sh : Z }.
Definition initial_state : state :=
  match initial_words with
  | [a; b; c; d; e; f; g; h] => mkState a b c d e f g h
  | _ => mkState 0 0 0 0 0 0 0 0
  end.

Definition round (s : state) (k w : Z) : state :=
  let t1 := u32 (sh s + big_sigma1 (se s) + choose (se s) (sf s) (sg s) + k + w) in
  let t2 := u32 (big_sigma0 (sa s) + majority (sa s) (sb s) (sc s)) in
  mkState (u32 (t1 + t2)) (sa s) (sb s) (sc s) (u32 (sd s + t1)) (se s) (sf s) (sg s).

(** [window] holds the last 16 message words, oldest first. *)
Fixpoint rounds (ks : list Z) (window : list Z) (s : state) : state :=
  match ks with
  | [] => s
  | k :: ks' =>
    let w := nth 0 window 0 in
    let next := u32 (small_sigma1 (nth 14 window 0) + nth 9 window 0
                     + small_sigma0 (nth 1 window 0) + w) in
    rounds ks' (tail window ++ [next]) (round s k w)
  end.

Definition add_state (s t : state) : state :=
  mkState (u32 (sa s + sa t)) (u32 (sb s + sb t)) (u32 (sc s + sc t)) (u32 (sd s + sd t))
    (u32 (se s + se t)) (u32 (sf s + sf t)) (u32 (sg s + sg t)) (u32 (sh s + sh t)).

Fixpoint words32 (bs : list Z) : list Z :=
  match bs with
  | a :: b :: c :: d :: t => a * 16777216 + b * 65536 + c * 256 + d :: words32 t
  | _ => []
  end.

Fixpoint blocks (n : nat) (ws : list Z) (s : state) : state :=
  match n with
  | O => s
  | S n => blocks n (drop 16 ws) (add_state s (rounds round_constants (take 16 ws) s))
  end.

Fixpoint be_bytes (n : nat) (z : Z) : list Z :=
  match n with O => [] | S n => be_bytes n (z / 256) ++ [z mod 256] end.

Fixpoint string_bytes (s : string) : list Z :=
  match s with EmptyString => [] | String a t => byte a :: string_bytes t end.

Definition pad (bs : list Z) : list Z :=
  let n := Z.of_nat (length bs) in
  bs ++ [128] ++ replicate (Z.to_nat ((55 - n) mod 64)) 0 ++ be_bytes 8 (n * 8).

Definition digest_words (s : state) : list Z :=
  [sa s; sb s; sc s; sd s; se s; sf s; sg s; sh s].

(** [sha256.Sum256]: the 32 bytes of the digest. *)
Definition Sum256 (s : string) : list Z :=
  let ws := words32 (pad (string_bytes s)) in
  flat_map (be_bytes 4) (digest_words (blocks (length ws / 16)%nat ws initial_state)).

(** [hex.EncodeToString]. *)
Fixpoint hex_EncodeToString (bs : list Z) : string :=
  match bs with
  | [] => ""
  | b :: t => String (hex_char (b / 16)) (String (hex_char (b mod 16)) (hex_EncodeToString t))
  end.

(** [hex.DecodeString]: an even number of hexadecimal digits. *)
Fixpoint hex_DecodeString (s : string) : option (list Z) :=
  match s with
  | EmptyString => Some []
  | String a (String b t) =>
    match hex_digit a, hex_digit b, hex_DecodeString t with
    | Some x, Some y, Some l => Some (x * 16 + y :: l)
    | _, _, _ => None
    end
  | _ => None
  end.

Definition sha256_hex (s : string) : string := hex_EncodeToString (Sum256 s).

Example sha256_abc : sha256_hex "abc" = "ba7816bf8f01cfea414140de5dae2223b00361a396177a9cb410ff61f20015ad".
Proof. vm_compute. reflexivity. Qed.
Example sha256_empty : sha256_hex "" = "e3b0c44298fc1c149afbf4c8996fb92427ae41e4649b934ca495991b7852b855".
Proof. vm_compute. reflexivity. Qed.
Example sha256_two_blocks : sha256_hex "abcdbcdecdefdefgefghfghighijhijkijkljklmklmnlmnomnopnopq"
  = "248d6a61d20638b8e5c026930c3e6039a33ce45964ff2167f6ecedd419db06c1".
Proof. vm_compute. reflexivity. Qed.

(** ** Shape of digests *)
Lemma be_bytes_length n z : length (be_bytes n z) = n.
Proof. revert z. induction n as [|n IH]; intros z; simpl; [done|]. rewrite length_app, IH. simpl. lia. Qed.
Lemma be_bytes_range n z : Forall (fun b => 0 <= b < 256) (be_bytes n z).
Proof.
  revert z. induction n as [|n IH]; intros z; simpl; [constructor|].
  apply Forall_app. split; [done|]. constructor; [apply Z.mod_pos_bound; lia|done].
Qed.
Lemma Sum256_length s : length (Sum256 s) = 32%nat.
Proof.
  unfold Sum256, digest_words. cbn [flat_map]. by rewrite !length_app, !be_bytes_length.
Qed.
Lemma Sum256_range s : Forall (fun b => 0 <= b < 256) (Sum256 s).
Proof.
  unfold Sum256. rewrite Forall_flat_map. apply Forall_forall. intros w _. apply be_bytes_range.
Qed.
Lemma hex_length bs : String.length (hex_EncodeToString bs) = (2 * length bs)%nat.
Proof. induction bs as [|b bs IH]; simpl; [done|]. rewrite IH. lia. Qed.
Lemma sha256_hex_length s : String.length (sha256_hex s) = 64%nat.
Proof. unfold sha256_hex. by rewrite hex_length, Sum256_length. Qed.

(** The hexadecimal digits used by the encoder. *)
Definition is_lower_hex (c : ascii) : bool :=
  ((48 <=? byte c) && (byte c <=? 57)) || ((97 <=? byte c) && (byte c <=? 102)).

Lemma hex_char_facts d : 0 <= d < 16 -> is_lower_hex (hex_char d) = true /\ hex_digit (hex_char d) = Some d.
Proof.
  intros Hd.
  assert (d = 0 \/ d = 1 \/ d = 2 \/ d = 3 \/ d = 4 \/ d = 5 \/ d = 6 \/ d = 7 \/ d = 8 \/ d = 9 \/ d = 10
    \/ d = 11 \/ d = 12 \/ d = 13 \/ d = 14 \/ d = 15) as Hc by lia.
  repeat destruct Hc as [->|Hc]; try (subst d); vm_compute; done.
Qed.

Lemma nibbles b : 0 <= b < 256 -> 0 <= b / 16 < 16 /\ 0 <= b mod 16 < 16.
Proof.
  intros Hb. split; [|apply Z.mod_pos_bound; lia].
  split; [apply Z.div_pos; lia|apply Z.div_lt_upper_bound; lia].
Qed.

Lemma hex_encode_lower bs : Forall (fun b => 0 <= b < 256) bs ->
  str_forallb is_lower_hex (hex_EncodeToString bs) = true.
Proof.
  induction 1 as [|b bs Hb _ IH]; simpl; [done|]. destruct (nibbles b Hb) as [H1 H2].
  by rewrite IH, (proj1 (hex_char_facts _ H1)), (proj1 (hex_char_facts _ H2)).
Qed.

(** Decoding an encoded byte sequence gives it back. *)
Lemma hex_round_trip bs : Forall (fun b => 0 <= b < 256) bs ->
  hex_DecodeString (hex_EncodeToString bs) = Some bs.
Proof.
  induction 1 as [|b bs Hb _ IH]; [done|]. cbn [hex_EncodeToString hex_DecodeString].
  destruct (nibbles b Hb) as [H1 H2].
  rewrite IH, (proj2 (hex_char_facts _ H1)), (proj2 (hex_char_facts _ H2)).
  do 2 f_equal. pose proof (Z.div_mod b 16). lia.
Qed.

(** * HMAC-SHA256 and base64 ([crypto/hmac], [encoding/base64])

    The message authentication code the controller puts on zone artifacts and
    its transport encoding ([base64.StdEncoding], with padding). *)
Definition bytes_string (bs : list Z) : string := str_concat (map (fun b => str1 (chr b)) bs).

(** ** [hmac.New(sha256.New, key)], [Write(body)], [Sum(nil)] *)
Definition hmac_block : nat := 64.
Definition hmac_key (key : string) : list Z :=
  let k := if (hmac_block <? String.length key)%nat then Sum256 key else string_bytes key in
  k ++ replicate (hmac_block - length k) 0.
Definition xor_pad (c : Z) (k : list Z) : string := bytes_string (map (Z.lxor c) k).
Definition hmac_sha256 (key body : string) : list Z :=
  let k := hmac_key key in
  let inner := Sum256 (xor_pad 54 k +:+ body) in
  Sum256 (xor_pad 92 k +:+ bytes_string inner).

(** Test cases 2 and 6 of RFC 4231. *)
Example hmac_jefe : hex_EncodeToString (hmac_sha256 "Jefe" "what do ya want for nothing?")
  = "5bdcc146bf60754e6a042426089575c75a003f089d2739839dec58b964ec3843".
Proof. vm_compute. reflexivity. Qed.
Example hmac_long_key :
  hex_EncodeToString (hmac_sha256 (bytes_string (replicate 131 170)) "Test Using Larger Than Block-Size Key - Hash Key First")
  = "60e431591ee0b67f0d8a26aacbf5b77f8e0bc6213728c5140546040f0ee37f54".
Proof. vm_compute. reflexivity. Qed.

(** ** [base64.StdEncoding] *)
Definition base64_char (d : Z) : ascii :=
  if d <? 26 then chr (65 + d)
  else if d <? 52 then chr (97 + (d - 26))
  else if d <? 62 then chr (48 + (d - 52))
  else if d =? 62 then "+"%char else "/"%char.
Definition base64_digit (c : ascii) : option Z :=
  let b := byte c in
  if (65 <=? b) && (b <=? 90) then Some (b - 65)
  else if (97 <=? b) && (b <=? 122) then Some (b - 97 + 26)
  else if (48 <=? b) && (b <=? 57) then Some (b - 48 + 52)
  else if b =? 43 then Some 62
  else if b =? 47 then Some 63 else None.

Fixpoint base64_EncodeToString (bs : list Z) : string :=
  let c d := str1 (base64_char d) in
  match bs with
  | [] => ""
  | [a] => c (a / 4) +:+ c (a mod 4 * 16) +:+ "=="
  | [a; b] => c (a / 4) +:+ c (a mod 4 * 16 + b / 16) +:+ c (b mod 16 * 4) +:+ "="
  | a :: b :: d :: t =>
    c (a / 4) +:+ c (a mod 4 * 16 + b / 16) +:+ c (b mod 16 * 4 + d / 64) +:+ c (d mod 64) +:+ base64_EncodeToString t
  end.

(** The decoder skips line breaks; padding is required and ends the input, and
    the unused low bits before it are ignored (the encoding is not strict). *)
Fixpoint skip_newlines (s : string) : string :=
  match s with
  | EmptyString => ""
  | String a t => if (byte a =? 10) || (byte a =? 13) then skip_newlines t else String a (skip_newlines t)
  end.
Definition is_pad (c : ascii) : bool := Ascii.eqb c "="%char.
Fixpoint base64_quanta (s : string) : option (list Z) :=
  match s with
  | EmptyString => Some []
  | String a (String b (String c (String d t))) =>
    match base64_digit a, base64_digit b with
    | Some x, Some y =>
      let first := x * 4 + y / 16 in
      match base64_digit c with
      | Some z =>
        let second := y mod 16 * 16 + z / 4 in
        match base64_digit d with
        | Some w => option_map (fun l => first :: second :: z mod 4 * 64 + w :: l) (base64_quanta t)
        | None => if is_pad d && (t =? "")%string then Some [first; second] else None
        end
      | None => if is_pad c && is_pad d && (t =? "")%string then Some [first] else None
      end
    | _, _ => None
    end
  | _ => None
  end.
Definition base64_DecodeString (s : string) : option (list Z) := base64_quanta (skip_newlines s).

Example base64_vectors :
  map (fun s => base64_EncodeToString (string_bytes s)) ["f"; "fo"; "foo"; "foobar"] = ["Zg=="; "Zm8="; "Zm9v"; "Zm9vYmFy"]
  /\ base64_DecodeString "Zm9vYmE=" = Some (string_bytes "fooba") /\ base64_DecodeString "Zm9vYg" = None.
Proof. vm_compute. done. Qed.

(** ** Round trip *)
Lemma base64_digit_char d : 0 <= d < 64 ->
  base64_digit (base64_char d) = Some d /\ (byte (base64_char d) =? 10) || (byte (base64_char d) =? 13) = false.
Proof.
  intros Hd.
  assert (Hall : forallb (fun d => bool_decide (base64_digit (base64_char d) = Some d)
      && negb ((byte (base64_char d) =? 10) || (byte (base64_char d) =? 13)))
      (map Z.of_nat (List.seq 0 64)) = true) by (vm_compute; done).
  rewrite forallb_forall in Hall. pose proof (Hall d) as Hd'. lapply Hd'.
  - cbv beta. intros [Hb Hn]%andb_true_iff. split; [by bool_prop|by apply negb_true_iff].
  - apply in_map_iff. exists (Z.to_nat d). rewrite in_seq. lia.
Qed.

Lemma list_three_ind {A} (P : list A -> Prop) :
  P [] -> (forall a, P [a]) -> (forall a b, P [a; b]) -> (forall a b c l, P l -> P (a :: b :: c :: l)) -> forall l, P l.
Proof.
  intros H0 H1 H2 H3. fix IH 1. intros [|a [|b [|c l]]]; [apply H0|apply H1|apply H2|apply H3, IH].
Qed.

Lemma skip_newlines_char d s : 0 <= d < 64 ->
  skip_newlines (str1 (base64_char d) +:+ s) = str1 (base64_char d) +:+ skip_newlines s.
Proof.
  intros Hd. change (str1 (base64_char d) +:+ s) with (String (base64_char d) s). cbn [skip_newlines].
  by rewrite (proj2 (base64_digit_char d Hd)).
Qed.

Lemma encode_one a : base64_EncodeToString [a]
  = str1 (base64_char (a / 4)) +:+ str1 (base64_char (a mod 4 * 16)) +:+ "==".
Proof. done. Qed.
Lemma encode_two a b : base64_EncodeToString [a; b]
  = str1 (base64_char (a / 4)) +:+ str1 (base64_char (a mod 4 * 16 + b / 16)) +:+ str1 (base64_char (b mod 16 * 4)) +:+ "=".
Proof. done. Qed.
Lemma encode_three a b d t : base64_EncodeToString (a :: b :: d :: t)
  = str1 (base64_char (a / 4)) +:+ str1 (base64_char (a mod 4 * 16 + b / 16))
    +:+ str1 (base64_char (b mod 16 * 4 + d / 64)) +:+ str1 (base64_char (d mod 64)) +:+ base64_EncodeToString t.
Proof. done. Qed.

Ltac byte_arith := Z.to_euclidean_division_equations; lia.

Lemma base64_clean bs : Forall (fun b => 0 <= b < 256) bs ->
  skip_newlines (base64_EncodeToString bs) = base64_EncodeToString bs.
Proof.
  induction bs as [|a|a b|a b d l IH] using list_three_ind; intros Hb; [done|..]; rewrite !Forall_cons in Hb; destruct_and?;
    rewrite ?encode_three, ?encode_two, ?encode_one, !skip_newlines_char by byte_arith; [done|done|by rewrite IH].
Qed.

Lemma quanta_full x y z w t : 0 <= x < 64 -> 0 <= y < 64 -> 0 <= z < 64 -> 0 <= w < 64 ->
  base64_quanta (str1 (base64_char x) +:+ str1 (base64_char y) +:+ str1 (base64_char z) +:+ str1 (base64_char w) +:+ t)
  = option_map (fun l => x * 4 + y / 16 :: y mod 16 * 16 + z / 4 :: z mod 4 * 64 + w :: l) (base64_quanta t).
Proof.
  intros Hx Hy Hz Hw. unfold str1, String.append. cbn [base64_quanta].
  by rewrite (proj1 (base64_digit_char x Hx)), (proj1 (base64_digit_char y Hy)),
    (proj1 (base64_digit_char z Hz)), (proj1 (base64_digit_char w Hw)).
Qed.
Lemma quanta_two x y z : 0 <= x < 64 -> 0 <= y < 64 -> 0 <= z < 64 ->
  base64_quanta (str1 (base64_char x) +:+ str1 (base64_char y) +:+ str1 (base64_char z) +:+ "=")
  = Some [x * 4 + y / 16; y mod 16 * 16 + z / 4].
Proof.
  intros Hx Hy Hz. unfold str1, String.append. cbn [base64_quanta].
  by rewrite (proj1 (base64_digit_char x Hx)), (proj1 (base64_digit_char y Hy)), (proj1 (base64_digit_char z Hz)).
Qed.
Lemma quanta_one x y : 0 <= x < 64 -> 0 <= y < 64 ->
  base64_quanta (str1 (base64_char x) +:+ str1 (base64_char y) +:+ "==") = Some [x * 4 + y / 16].
Proof.
  intros Hx Hy. unfold str1, String.append. cbn [base64_quanta].
  by rewrite (proj1 (base64_digit_char x Hx)), (proj1 (base64_digit_char y Hy)).
Qed.

Lemma base64_round_trip bs : Forall (fun b => 0 <= b < 256) bs ->
  base64_DecodeString (base64_EncodeToString bs) = Some bs.
Proof.
  intros Hb. unfold base64_DecodeString. rewrite base64_clean by done.
  induction bs as [|a|a b|a b d l IH] using list_three_ind; [done|..]; rewrite !Forall_cons in Hb; destruct_and?.
  - rewrite encode_one, quanta_one by byte_arith. repeat f_equal; byte_arith.
  - rewrite encode_two, quanta_two by byte_arith. repeat f_equal; byte_arith.
  - rewrite encode_three, quanta_full by byte_arith. rewrite IH by done. simpl. repeat f_equal; byte_arith.
Qed.

Lemma hmac_sha256_bytes key body : Forall (fun b => 0 <= b < 256) (hmac_sha256 key body).
Proof. apply Sum256_range. Qed.
