(* ===== verification/ZonePath.v ===== *)
(** * File names of zones (pkg/util/zonepath.go)

    [SafeZoneFilename] turns an arbitrary zone name, possibly hostile, into the
    name of one file of the zone directory; the git backend and the agent's
    file manager both build their paths with it. *)

From S2P Require Import Prelude GoStrings GoStringsFacts GoNet Zone Names Validation DnsNames Sha256.
Definition maxSafeZoneFilenameLength : Z := 200.
Definition safeZoneFilenameHashChars : nat := 12.

(** The class [[a-z0-9._-]] whose complement the sanitizer replaces. *)
Definition safe_rune (r : Z) : bool :=
  ((97 <=? r) && (r <=? 122)) || ((48 <=? r) && (r <=? 57)) || (r =? 46) || (r =? 95) || (r =? 45).

(** [validChars.ReplaceAllString(zoneName, "_")]: one replacement per code
    point outside the class, an invalid byte counting as one code point. *)
Definition replace_invalid (s : string) : string :=
  str_concat (map (fun c => if safe_rune (fst c) then snd c else "_") (chunks s)).

Definition safeZoneFilenameHash (name : string) : string :=
  str_take safeZoneFilenameHashChars (hex_EncodeToString (Sum256 name)).

Definition SafeZoneFilename `{UnicodeTables} (zoneName : string) : string :=
  let z1 := TrimRightByte "."%char zoneName in
  let z2 := ToLower z1 in
  let z3 := replace_invalid z2 in
  let z4 := ReplaceAll z3 ".." "_" in
  let z5 :=
    if maxSafeZoneFilenameLength <? len z4 then
      let suffix := "-" +:+ safeZoneFilenameHash z4 in
      let prefixLength := maxSafeZoneFilenameLength - len suffix in
      str_take (Z.to_nat prefixLength) z4 +:+ suffix
    else z4 in
  if (z5 =? "")%string then "unnamed" else z5.

(** ** Lemmas *)
Definition safe_char (c : ascii) : bool := safe_rune (byte c).
Abbreviation safe_name s := (str_forallb safe_char s = true).
Abbreviation no_dotdot s := (Contains s ".." = false).
Abbreviation no_final_dot s := (HasSuffix s "." = false).

Definition starts_dot (s : string) : bool :=
  match s with EmptyString => false | String a _ => Ascii.eqb "."%char a end.

Lemma HasPrefix_dotdot a t : HasPrefix (String a t) ".." = Ascii.eqb "."%char a && starts_dot t.
Proof.
  assert (forall p s, HasPrefix s p = if strip_prefix p s then true else false) as ->.
  { intros p s. unfold HasPrefix. by destruct (strip_prefix p s). }
  cbn [strip_prefix]. destruct (Ascii.eqb "." a); [|done].
  destruct t as [|b t]; [done|]. cbn [strip_prefix starts_dot]. by destruct (Ascii.eqb "." b).
Qed.
Lemma Contains_dotdot a t :
  Contains (String a t) ".." = (Ascii.eqb "."%char a && starts_dot t) || Contains t "..".
Proof. cbn [Contains]. by rewrite HasPrefix_dotdot. Qed.
Lemma HasSuffix_dot_cons a t :
  HasSuffix (String a t) "." = if (t =? "")%string then Ascii.eqb a "."%char else HasSuffix t ".".
Proof.
  destruct t as [|b t]; simpl.
  - unfold HasSuffix. simpl. by destruct (Ascii.eqb a ".").
  - rewrite <- (str_app_nil_l (String b t)). rewrite <- (str_app_cons a).
    rewrite HasSuffix_app_r; [done|simpl; lia].
Qed.

Lemma no_dotdot_tail a t : no_dotdot (String a t) -> no_dotdot t.
Proof. rewrite Contains_dotdot. by intros [_ ?]%orb_false_iff. Qed.

Lemma no_dotdot_take n s : no_dotdot s -> no_dotdot (str_take n s).
Proof.
  revert n. induction s as [|a s IH]; intros [|n]; [done..|]. cbn [str_take].
  rewrite !Contains_dotdot. intros [Ha Hs]%orb_false_iff. rewrite (IH n Hs), orb_false_r.
  destruct (Ascii.eqb "." a); [|done]. simpl in *. destruct s, n; simpl in *; done.
Qed.

Lemma no_dotdot_app s t : no_dotdot s -> lacks "."%char t -> no_dotdot (s +:+ t).
Proof.
  intros Hs Ht. induction s as [|a s IH]; [rewrite str_app_nil_l|].
  - unfold lacks in Ht. induction t as [|a t IH]; [done|]. cbn [str_forallb] in Ht.
    apply andb_true_iff in Ht as [Ha Ht]. rewrite Contains_dotdot, (IH Ht), orb_false_r.
    apply negb_true_iff in Ha. rewrite Ascii.eqb_sym in Ha. by rewrite Ha.
  - rewrite str_app_cons. rewrite Contains_dotdot in *. apply orb_false_iff in Hs as [Ha Hs].
    rewrite (IH Hs), orb_false_r. destruct (Ascii.eqb "." a); [|done]. simpl in *.
    destruct s as [|b s]; [rewrite str_app_nil_l; clear -Ht|done].
    destruct t as [|b t]; [done|]. unfold lacks in Ht. cbn [str_forallb] in Ht.
    apply andb_true_iff in Ht as [Ht%negb_true_iff _]. by rewrite Ascii.eqb_sym in Ht.
Qed.

(** *** The replacement of ".." *)
Lemma ReplaceAll_cons a t :
  ReplaceAll (String a t) ".." "_" =
  if HasPrefix (String a t) ".."
  then String "_" (ReplaceAll (str_drop 1 t) ".." "_")
  else String a (ReplaceAll t ".." "_").
Proof.
  unfold ReplaceAll. cbn [replace_go]. destruct (HasPrefix (String a t) "..") eqn:E; [|done].
  simpl. rewrite str_app_cons, str_app_nil_l. f_equal. by destruct t.
Qed.

(** Induction along the replacement, which consumes one or two bytes. *)
Lemma dotdot_ind (P : string -> Prop) :
  P "" ->
  (forall t, P t -> P (String "." (String "." t))) ->
  (forall a t, Ascii.eqb "."%char a && starts_dot t = false -> P t -> P (String a t)) ->
  forall s, P s.
Proof.
  intros H0 H2 H1 s.
  enough (P s /\ forall a, P (String a s)) by naive_solver.
  induction s as [|b s [IH1 IH2]].
  - split; [done|]. intros a. apply H1; [apply andb_false_r|done].
  - split; [apply IH2|]. intros a. destruct (Ascii.eqb "." a && starts_dot (String b s)) eqn:E.
    + apply andb_true_iff in E as [Ea Eb]. cbn [starts_dot] in Eb.
      apply Ascii.eqb_eq in Ea, Eb. subst. by apply H2.
    + apply H1; [done|apply IH2].
Qed.

Ltac dotdot_step :=
  rewrite ReplaceAll_cons, HasPrefix_dotdot;
  try match goal with H : _ && starts_dot _ = false |- _ => rewrite H end.

Lemma ReplaceAll_starts_dot s : starts_dot (ReplaceAll s ".." "_") = true -> starts_dot s = true.
Proof. destruct s as [|a t]; [done|]. dotdot_step. by destruct (Ascii.eqb "." a && starts_dot t). Qed.

Lemma ReplaceAll_no_dotdot s : no_dotdot (ReplaceAll s ".." "_").
Proof.
  induction s as [|t IH|a t Ha IH] using dotdot_ind; [done| |]; dotdot_step.
  - simpl. rewrite IH. done.
  - rewrite Contains_dotdot, IH, orb_false_r. apply andb_false_iff in Ha as [->|Ha]; [done|].
    apply andb_false_iff. right. apply not_true_iff_false. intros Hr%ReplaceAll_starts_dot. congruence.
Qed.

Lemma ReplaceAll_safe s : safe_name s -> safe_name (ReplaceAll s ".." "_").
Proof.
  induction s as [|t IH|a t Ha IH] using dotdot_ind; [done| |]; dotdot_step; cbn [str_forallb].
  - simpl. intros Hs. apply IH. exact Hs.
  - intros [H1 H2]%andb_true_iff. cbn [str_forallb]. by rewrite H1, IH.
Qed.

Lemma ReplaceAll_id s : no_dotdot s -> ReplaceAll s ".." "_" = s.
Proof.
  induction s as [|a t IH]; [done|]. intros Hs. rewrite ReplaceAll_cons, HasPrefix_dotdot.
  rewrite Contains_dotdot in Hs. apply orb_false_iff in Hs as [-> Ht]. by rewrite IH.
Qed.

(** *** The replacement of code points outside the class *)
Lemma decode_rune_ascii a t : fst (decode_rune (String a t)) < 128 ->
  decode_rune (String a t) = (byte a, 1%nat).
Proof.
  pose proof (byte_range a). unfold decode_rune, within, cont, RuneError.
  repeat go_case; bool_prop; simpl; try done; try lia.
  all: repeat match goal with H : _ || _ = _ |- _ => apply orb_true_iff in H as [?|?] end; bool_prop; try lia.
Qed.

Lemma safe_rune_ascii r : safe_rune r = true -> r < 128.
Proof. unfold safe_rune. lia. Qed.

Lemma replace_invalid_safe s : safe_name (replace_invalid s).
Proof.
  unfold replace_invalid, chunks. generalize 0%nat.
  induction s as [|a s IH]; intros k; [done|]. cbn [chunks_go]. destruct k as [|k]; [|apply IH].
  destruct (decode_rune (String a s)) as [r w] eqn:E. cbn [map str_concat foldr fst snd].
  change (foldr String.append "" ?l) with (str_concat l).
  rewrite str_forallb_app, IH, andb_true_r. destruct (safe_rune r) eqn:Hr; [|done].
  rewrite decode_rune_ascii in E by (rewrite E; by apply safe_rune_ascii).
  injection E as <- <-. simpl. unfold safe_char. by rewrite Hr.
Qed.

Lemma replace_invalid_id s : safe_name s -> replace_invalid s = s.
Proof.
  unfold replace_invalid, chunks.
  induction s as [|a s IH]; [done|]. cbn [str_forallb chunks_go]. intros [Ha Hs]%andb_true_iff.
  pose proof (safe_rune_ascii _ Ha) as Hlt.
  assert (decode_rune (String a s) = (byte a, 1%nat)) as ->.
  { unfold decode_rune. by rewrite (proj2 (Z.ltb_lt _ _) Hlt). }
  cbn [map str_concat foldr fst snd Nat.sub]. change (foldr String.append "" ?l) with (str_concat l).
  unfold safe_char in Ha. rewrite Ha, IH by done. simpl. by rewrite str_app_cons, str_app_nil_l.
Qed.

(** *** The other steps on safe names *)
Lemma TrimRight_dot_id s : no_final_dot s -> TrimRightByte "."%char s = s.
Proof.
  induction s as [|a s IH]; [done|]. rewrite HasSuffix_dot_cons. cbn [TrimRightByte].
  destruct (String.eqb_spec s "") as [->|Hs].
  - simpl. by intros ->.
  - intros H. rewrite IH by done. rewrite (proj2 (String.eqb_neq s "") Hs). done.
Qed.
Lemma TrimRight_dot_app s : no_final_dot s -> TrimRightByte "."%char (s +:+ ".") = s.
Proof.
  intros Hs. assert (forall u, TrimRightByte "."%char (u +:+ ".") = TrimRightByte "."%char u) as Hu.
  { induction u as [|a u IHu]; [done|]. rewrite str_app_cons. cbn [TrimRightByte]. by rewrite IHu. }
  rewrite Hu. by apply TrimRight_dot_id.
Qed.

Lemma ToLower_safe `{UnicodeTables} s : safe_name s -> ToLower s = s.
Proof.
  intros Hs. rewrite ToLower_ascii.
  - induction s as [|a s IH]; [done|]. cbn [str_forallb str_map] in *.
    apply andb_true_iff in Hs as [Ha Hs]. rewrite IH by done. f_equal.
    unfold lower_byte. unfold safe_char, safe_rune in Ha.
    destruct ((65 <=? byte a) && (byte a <=? 90)) eqn:E; [|done]. bool_prop. exfalso. lia.
  - revert Hs. apply str_forallb_impl. intros c Hc%safe_rune_ascii. by apply Z.ltb_lt.
Qed.

Lemma safe_take n s : safe_name s -> safe_name (str_take n s).
Proof.
  intros Hs. rewrite <- (str_take_drop n s), str_forallb_app in Hs. by apply andb_true_iff in Hs as [? _].
Qed.

Lemma hash_lower_hex n : str_forallb is_lower_hex (safeZoneFilenameHash n) = true.
Proof.
  pose proof (hex_encode_lower _ (Sum256_range n)) as H.
  rewrite <- (str_take_drop safeZoneFilenameHashChars (hex_EncodeToString _)), str_forallb_app in H.
  by apply andb_true_iff in H as [? _].
Qed.
Lemma hash_length n : String.length (safeZoneFilenameHash n) = 12%nat.
Proof. unfold safeZoneFilenameHash. rewrite str_take_length, hex_length, Sum256_length. reflexivity. Qed.

Lemma lower_hex_safe c : is_lower_hex c = true -> safe_char c && negb (Ascii.eqb c "."%char) = true.
Proof.
  intros H. generalize (byte_ind (fun c => implb (is_lower_hex c) (safe_char c && negb (Ascii.eqb c "."%char)))
    ltac:(vm_compute; reflexivity) c). by rewrite H.
Qed.
Lemma hash_suffix_safe n : safe_name ("-" +:+ safeZoneFilenameHash n) /\ lacks "."%char ("-" +:+ safeZoneFilenameHash n).
Proof.
  unfold lacks. rewrite !str_forallb_app. pose proof (hash_lower_hex n) as Hh.
  split; (apply andb_true_iff; split; [done|]); revert Hh; apply str_forallb_impl;
    intros c [??]%lower_hex_safe%andb_true_iff; done.
Qed.

Section properties.
Context `{UnicodeTables}.

Lemma SafeZoneFilename_shape (zoneName : string) :
  let f := SafeZoneFilename zoneName in
  str_forallb safe_char f = true /\ Contains f ".." = false /\ 0 < len f <= maxSafeZoneFilenameLength.
Proof.
  unfold SafeZoneFilename. set (z3 := replace_invalid _). set (z4 := ReplaceAll z3 _ _).
  assert (safe_name z4) as Hsafe by apply ReplaceAll_safe, replace_invalid_safe.
  assert (no_dotdot z4) as Hdots by apply ReplaceAll_no_dotdot.
  destruct (hash_suffix_safe z4) as [Hs Hl]. cbv zeta.
  assert (len ("-" +:+ safeZoneFilenameHash z4) = 13) as Hlen.
  { unfold len. rewrite str_length_app, hash_length. done. }
  destruct (Z.ltb_spec maxSafeZoneFilenameLength (len z4)) as [Hlong|Hshort].
  - rewrite Hlen. unfold maxSafeZoneFilenameLength in *.
    set (f := str_take _ z4 +:+ _).
    assert (len f = 200) as Hf.
    { unfold f, len in *. rewrite str_length_app, str_take_length. lia. }
    rewrite (proj2 (String.eqb_neq f "")) by (intros E; rewrite E in Hf; done).
    repeat split; [| |lia..].
    + unfold f. by rewrite str_forallb_app, safe_take, Hs.
    + unfold f. apply no_dotdot_app; [by apply no_dotdot_take|done].
  - destruct (String.eqb_spec z4 "") as [E|E]; [done|].
    repeat split; [done..| |done]. unfold len. rewrite <- str_length_0 in E. lia.
Qed.

(** Whatever the zone name (any bytes, path traversal attempts included),
    the file name consists only of the characters a-z, 0-9, dot, underscore and
    hyphen, never contains "..", is not empty and is at most 200 bytes long. *)
Theorem safe_zone_filename_safe (zoneName : string) :
  let f := SafeZoneFilename zoneName in
  str_forallb safe_char f = true /\ Contains f ".." = false /\ 0 < len f <= maxSafeZoneFilenameLength.
Proof. apply SafeZoneFilename_shape. Qed.
End properties.

#[local] Existing Instance ascii_tables.

Example traversal : SafeZoneFilename "../etc/passwd" = "__etc_passwd".
Proof. vm_compute. reflexivity. Qed.

(** * Zone files of valid zones

    The file names of zones whose names pass validation: the zone name without
    its final dot, hence distinct for distinct zones. *)
Section files.
Context `{UnicodeTables}.

Lemma safe_identity n : safe_name n -> no_dotdot n -> no_final_dot n -> 0 < len n <= maxSafeZoneFilenameLength ->
  SafeZoneFilename (n +:+ ".") = n.
Proof.
  intros Hs Hd Hf Hl. unfold SafeZoneFilename.
  rewrite TrimRight_dot_app by done. rewrite ToLower_safe, replace_invalid_id, ReplaceAll_id by done.
  rewrite (proj2 (Z.ltb_ge _ _)) by lia. cbv zeta.
  rewrite (proj2 (String.eqb_neq n "")) by (intros ->; unfold len in Hl; simpl in Hl; lia). done.
Qed.

Lemma lower_label_safe c : is_alnum_hyphen c = true -> lower_byte c = c ->
  safe_char c && negb (Ascii.eqb c "."%char) = true.
Proof.
  intros Hc Hl. generalize (byte_ind (fun c => implb (is_alnum_hyphen c && Ascii.eqb (lower_byte c) c)
    (safe_char c && negb (Ascii.eqb c "."%char))) ltac:(vm_compute; reflexivity) c).
  by rewrite Hc, Hl, Ascii.eqb_refl.
Qed.
Lemma lower_label_chars l : str_forallb is_alnum_hyphen l = true -> str_map lower_byte l = l ->
  safe_name l /\ lacks "."%char l.
Proof.
  induction l as [|c l IH]; [done|]. cbn [str_forallb str_map]. intros [Hc Hl]%andb_true_iff [= Hlc Hll].
  destruct (IH Hl Hll) as [Hs Hd]. pose proof (lower_label_safe c Hc Hlc) as [H1 H2]%andb_true_iff.
  unfold lacks in *. cbn [str_forallb]. by rewrite H1, H2.
Qed.

Lemma no_dotdot_label l rest : lacks "."%char l -> starts_dot rest = false -> no_dotdot rest -> no_dotdot (l +:+ "." +:+ rest).
Proof.
  intros Hl Hr Hd. unfold lacks in Hl. induction l as [|a l IH].
  - rewrite str_app_nil_l. change ("." +:+ rest) with (String "." rest). by rewrite Contains_dotdot, Hr, Hd.
  - cbn [str_forallb] in Hl. apply andb_true_iff in Hl as [Ha%negb_true_iff Hl].
    rewrite str_app_cons, Contains_dotdot, IH by done. rewrite Ascii.eqb_sym in Ha. by rewrite Ha.
Qed.

Lemma lower_app_inv s t : str_map lower_byte (s +:+ t) = s +:+ t -> str_map lower_byte s = s /\ str_map lower_byte t = t.
Proof. rewrite str_map_app. intros Heq. apply str_app_inj in Heq as [??]; [done|by rewrite str_map_length]. Qed.

(** A dotted lower-case name is a safe file name. *)
Lemma dotted_safe ls : ls <> [] -> Forall ldh_label ls -> str_map lower_byte (dotted ls) = dotted ls ->
  safe_name (dotted ls) /\ no_dotdot (dotted ls) /\ starts_dot (dotted ls) = false.
Proof.
  induction ls as [|l ls IH]; [done|]. intros _ [Hl Hls]%Forall_cons Hlow. destruct Hl as (Hch & _ & (a & t & Hat & Ha) & _).
  assert (Hfirst : forall s, starts_dot (l +:+ s) = false).
  { intros s. rewrite Hat, str_app_cons. cbn [starts_dot]. apply not_true_iff_false. intros Hd%Ascii.eqb_eq. by subst a. }
  unfold dotted in *. destruct ls as [|l' ls'].
  - cbn [str_join] in *. destruct (lower_label_chars l Hch Hlow) as [Hs Hd]. split_and!; [done| |].
    + rewrite <- (str_app_nil_l l). by apply no_dotdot_app.
    + rewrite <- (str_app_nil_r l). apply Hfirst.
  - rewrite str_join_cons in * by done. apply lower_app_inv in Hlow as [Hl1 Hl2]. apply lower_app_inv in Hl2 as [_ Hl2].
    destruct (lower_label_chars l Hch Hl1) as [Hs Hd]. destruct (IH ltac:(done) Hls Hl2) as (Hs' & Hd' & Hst).
    split_and!; [by rewrite !str_forallb_app, Hs, Hs'|by apply no_dotdot_label|apply Hfirst].
Qed.

Lemma valid_zone_file z : ValidateZoneName z = Ok tt -> len (NormalizeZoneName z) <= 201 ->
  NormalizeZoneName z = SafeZoneFilename (NormalizeZoneName z) +:+ ".".
Proof.
  intros Hv%zone_name_accepted Hlen. destruct (dns_name_normalize z Hv) as (ls & Hne & Hls & Heq & Hlow & _).
  pose proof (dotted_ascii _ Hls) as Ha. rewrite ToLower_ascii in Hlow by done.
  destruct (dotted_safe ls Hne Hls Hlow) as (Hs & Hd & _). destruct (dotted_last ls Hne Hls) as [H0 Hnd].
  rewrite Heq in *. rewrite len_app in Hlen. change (len ".") with 1 in Hlen.
  rewrite safe_identity; [done..|]. unfold maxSafeZoneFilenameLength. split; [|lia].
  unfold len in *. rewrite <- str_length_0 in H0. lia.
Qed.

(** A safe name without a final dot is its own safe file name. *)
Lemma safe_fixed n : safe_name n -> no_dotdot n -> no_final_dot n -> 0 < len n <= maxSafeZoneFilenameLength -> SafeZoneFilename n = n.
Proof.
  intros Hs Hd Hf Hl. unfold SafeZoneFilename.
  rewrite TrimRight_dot_id by done. rewrite ToLower_safe, replace_invalid_id, ReplaceAll_id by done.
  rewrite (proj2 (Z.ltb_ge _ _)) by lia. cbv zeta.
  rewrite (proj2 (String.eqb_neq n "")) by (intros ->; unfold len in Hl; simpl in Hl; lia). done.
Qed.
(** So is the file name of a valid zone of any length. *)
Lemma zone_file_fixed z : ValidateZoneName z = Ok tt -> NormalizeZoneName z = z ->
  SafeZoneFilename (SafeZoneFilename z) = SafeZoneFilename z.
Proof.
  intros Hv%zone_name_accepted Hz. destruct (dns_name_normalize z Hv) as (ls & Hne & Hls & Heq & Hlow & _). rewrite Hz in Heq. subst z.
  pose proof (dotted_ascii _ Hls) as Ha. rewrite ToLower_ascii in Hlow by done.
  destruct (dotted_safe ls Hne Hls Hlow) as (Hs & Hd & _). destruct (dotted_last ls Hne Hls) as [H0 Hnd].
  destruct (SafeZoneFilename_shape (dotted ls +:+ ".")) as (G1 & G2 & G3). apply safe_fixed; [done|done| |done].
  unfold SafeZoneFilename. rewrite TrimRight_dot_app by done. rewrite ToLower_safe, replace_invalid_id, ReplaceAll_id by done. cbv zeta.
  destruct (Z.ltb_spec maxSafeZoneFilenameLength (len (dotted ls))) as [Hlong|Hshort].
  - set (p := str_take _ _). destruct (hash_suffix_safe (dotted ls)) as [_ Hl]. set (h := "-" +:+ safeZoneFilenameHash (dotted ls)) in *.
    assert (Hh : h <> "") by (unfold h; rewrite str_app_cons; done).
    rewrite (proj2 (String.eqb_neq (p +:+ h) "")) by (intros E%str_app_nil; tauto).
    rewrite HasSuffix_app_r by (destruct h; [done|cbn; lia]).
    destruct (HasSuffix h ".") eqn:E; [|done]. apply HasSuffix_true in E as [q E]. rewrite E in Hl. apply lacks_app in Hl as [_ Hl]. done.
  - by rewrite (proj2 (String.eqb_neq _ _) H0).
Qed.

(** ** The zone directory

    An index entry the agent wrote: a valid zone in normal form, under its file
    name. *)
Definition entry_ok (s z : string) : Prop :=
  ValidateZoneName z = Ok tt /\ NormalizeZoneName z = z /\ SafeZoneFilename z = s.
Definition index_ok (m : gmap string string) : Prop := map_Forall entry_ok m.
(** The file of a zone with such a name looks like a backup of another zone's
    file: [a.zone.backup.b.zone] matches the pattern [a.zone.backup.] plus anything of zone [a]. *)
Definition reserved (s : string) : bool := Contains s ".zone.backup".
(** Directories in which every index entry was written by the agent and no zone
    file looks like a backup. *)
Definition dir_ok (files index : gmap string string) : Prop :=
  index_ok index /\ forall s, is_Some (files !! s) -> reserved s = false.

(** Valid zones have files of their own: the file name of a valid zone of at
    most 200 bytes is the zone name without its final dot, and two such zones
    share a file exactly when they are the same zone. *)
Theorem zone_files_distinct (z z' : string) :
  ValidateZoneName z = Ok tt -> ValidateZoneName z' = Ok tt ->
  len (NormalizeZoneName z) <= 201 -> len (NormalizeZoneName z') <= 201 ->
  NormalizeZoneName z = SafeZoneFilename (NormalizeZoneName z) +:+ "."
  /\ (SafeZoneFilename (NormalizeZoneName z) = SafeZoneFilename (NormalizeZoneName z') <-> NormalizeZoneName z = NormalizeZoneName z').
Proof.
  intros Hv Hv' Hl Hl'. pose proof (valid_zone_file z Hv Hl) as E. pose proof (valid_zone_file z' Hv' Hl') as E'.
  split; [done|]. split; [|by intros ->]. intros Heq. by rewrite E, E', Heq.
Qed.
End files.

#[local] Existing Instance ascii_tables.
Lemma zone_files_distinct_witness :
  NormalizeZoneName "Example.COM" = SafeZoneFilename (NormalizeZoneName "Example.COM") +:+ "."
  /\ (SafeZoneFilename (NormalizeZoneName "Example.COM") = SafeZoneFilename (NormalizeZoneName "a.example")
      <-> NormalizeZoneName "Example.COM" = NormalizeZoneName "a.example").
Proof. apply (zone_files_distinct "Example.COM" "a.example"); vm_compute; done. Defined.
