(* ===== verification/FileSystem.v ===== *)
(** * The file system under the zone directory

    What the file manager uses of Go's [os], [io] and [path/filepath] packages,
    on one directory: the zone directory, which may be missing, a symbolic link,
    something else than a directory, or a directory with named entries.  All
    paths the code builds are entries of it, so an entry's name stands for its
    path.

    Every system call consumes one tick and asks the world at that tick whether
    it fails; a call that fails has no effect, except that a failed write may
    have written a part.  A process that is killed is one whose system calls
    all fail from some tick on, so what holds under every world holds after a
    crash, and for a reader that looks at the directory between two calls.
    Nothing else writes to the directory. *)

From S2P Require Import Prelude GoStrings GoStringsFacts GoSort Io.
#[local] Open Scope io_scope.

Inductive errno := EINVAL | ENOTSUP | EOther (msg : string).
Definition sys_error (e : errno) : error :=
  match e with
  | EINVAL => Errorf "invalid argument"
  | ENOTSUP => Errorf "operation not supported"
  | EOther msg => Errorf msg
  end.

(** Directory entries.  [followed] is what [os.Stat] finds behind a symbolic
    link: the modification time, or nothing when it dangles. *)
Inductive node :=
  | Regular (ino perm : Z) (mtime : Time) (data : string)
  | Symlink (followed : option Time)
  | Subdirectory (empty : bool)
  | Special.
Inductive directory :=
  | Missing
  | LinkDir
  | NotDir
  | Dir (entries : gmap string node).

Record World := mkWorld {
  fault : nat -> option errno;
  (** How many bytes a failing write leaves. *)
  torn : nat -> nat;
  (** Random part of temporary file names (a 32-bit number). *)
  random : nat -> Z;
  mtime_now : nat -> Time;
  (** [Bavail] and [Bsize] of [statfs]. *)
  statfs_at : nat -> Z * Z;
  (** Whether [filepath.Match] rejects a pattern's syntax. *)
  bad_pattern : string -> bool }.

Record fs := mkFs { zone_dir : directory; tick : nat }.

Section calls.
Context (w : World).

(** One system call: [op] sees the tick and the directory. *)
Definition syscall {A} (op : nat -> directory -> result A * directory) : io fs (result A) :=
  fun s =>
    match fault w (tick s) with
    | Some e => (Err (sys_error e), mkFs (zone_dir s) (S (tick s)))
    | None => let '(r, d) := op (tick s) (zone_dir s) in (r, mkFs d (S (tick s)))
    end.

Definition lookup_entry (d : directory) (name : string) : result node :=
  match d with
  | Dir es => match es !! name with Some n => Ok n | None => Err (Sentinel ErrNotExist) end
  | Missing | LinkDir => Err (Sentinel ErrNotExist)
  | NotDir => Err (Errorf "not a directory")
  end.
Definition update_entries (f : gmap string node -> gmap string node) (d : directory) : directory :=
  match d with Dir es => Dir (f es) | _ => d end.

Definition is_regular (n : node) : bool := match n with Regular _ _ _ _ => true | _ => false end.
Definition is_symlink (n : node) : bool := match n with Symlink _ => true | _ => false end.
Definition node_size (n : node) : Z := match n with Regular _ _ _ data => len data | _ => 0 end.
Definition node_perm (n : node) : Z := match n with Regular _ perm _ _ => perm | _ => 0 end.
Definition node_data (n : node) : string := match n with Regular _ _ _ data => data | _ => "" end.
(** [os.SameFile]. *)
Definition SameFile (a b : node) : bool :=
  match a, b with Regular i _ _ _, Regular j _ _ _ => i =? j | _, _ => false end.

Definition os_Lstat (name : string) : io fs (result node) := syscall (fun _ d => (lookup_entry d name, d)).
(** Follows links; gives the modification time. *)
Definition stat_entry (d : directory) (name : string) : result Time :=
  match lookup_entry d name with
  | Err e => Err e
  | Ok (Regular _ _ t _) => Ok t
  | Ok (Symlink (Some t)) => Ok t
  | Ok (Symlink None) => Err (Sentinel ErrNotExist)
  | Ok (Subdirectory _) | Ok Special => Ok zeroTime
  end.
Definition os_Stat (name : string) : io fs (result Time) := syscall (fun _ d => (stat_entry d name, d)).
Definition os_Open (name : string) : io fs (result node) := syscall (fun _ d => (lookup_entry d name, d)).
(** [Stat], [ReadAll] of a limited reader, on an open file. *)
Definition file_Stat (file : node) : io fs (result node) := syscall (fun _ d => (Ok file, d)).
Definition ReadAll_limited (file : node) (limit : Z) : io fs (result string) :=
  syscall (fun _ d => (Ok (if len (node_data file) <=? limit then node_data file else str_take (Z.to_nat limit) (node_data file)), d)).

Definition os_Remove (name : string) : io fs (result unit) :=
  syscall (fun _ d =>
    match lookup_entry d name with
    | Err e => (Err e, d)
    | Ok (Subdirectory false) => (Err (Errorf "directory not empty"), d)
    | Ok _ => (Ok tt, update_entries (delete name) d)
    end).
Definition os_Rename (old new : string) : io fs (result unit) :=
  syscall (fun _ d =>
    match lookup_entry d old with
    | Err e => (Err e, d)
    | Ok n =>
      match lookup_entry d new with
      | Ok (Subdirectory _) => (Err (Errorf "file exists"), d)
      | _ => (Ok tt, update_entries (fun es => <[new := n]> (delete old es)) d)
      end
    end).
Definition os_MkdirAll : io fs (result unit) :=
  syscall (fun _ d =>
    match d with
    | Missing => (Ok tt, Dir ∅)
    | Dir _ | LinkDir => (Ok tt, d)
    | NotDir => (Err (Errorf "not a directory"), d)
    end).
(** [os.CreateTemp(dir, prefix*suffix)]: up to [tries] random names, the first
    one not in use. *)
Fixpoint create_temp (tries : nat) (prefix suffix : string) : io fs (result string) :=
  match tries with
  | O => io_fail (Errorf "file exists")
  | S tries =>
    made <- syscall (fun t d =>
      let name := prefix +:+ Itoa (random w t) +:+ suffix in
      match d with
      | Dir es =>
        match es !! name with
        | Some _ => (Ok None, d)
        | None => (Ok (Some name), Dir (<[name := Regular (Z.of_nat t) 384 (mtime_now w t) ""]> es))
        end
      | _ => (Err (Sentinel ErrNotExist), d)
      end) ;
    match made with
    | Err e => io_fail e
    | Ok (Some name) => io_ok name
    | Ok None => create_temp tries prefix suffix
    end
  end.
Definition os_CreateTemp (prefix suffix : string) : io fs (result string) := create_temp (100 * 100) prefix suffix.

(** Operations on the temporary file just created, by its name. *)
Definition set_perm (perm : Z) (n : node) : node :=
  match n with Regular i _ t data => Regular i perm t data | _ => n end.
Definition set_data (t : Time) (data : string) (n : node) : node :=
  match n with Regular i perm _ _ => Regular i perm t data | _ => n end.
Definition tmp_Chmod (name : string) (perm : Z) : io fs (result unit) :=
  syscall (fun _ d => (Ok tt, update_entries (alter (set_perm perm) name) d)).
(** A failing write leaves a part of the data. *)
Definition tmp_Write (name data : string) : io fs (result unit) :=
  fun s =>
    let put content := update_entries (alter (set_data (mtime_now w (tick s)) content) name) (zone_dir s) in
    match fault w (tick s) with
    | Some e => (Err (sys_error e), mkFs (put (str_take (torn w (tick s)) data)) (S (tick s)))
    | None => (Ok tt, mkFs (put data) (S (tick s)))
    end.
Definition tmp_Sync : io fs (result unit) := syscall (fun _ d => (Ok tt, d)).
Definition tmp_Close : io fs (result unit) := syscall (fun _ d => (Ok tt, d)).

(** [filepath.Glob] of a prefix and a star: the matching names in order; an error while
    reading the directory gives no match. *)
Definition filepath_Glob (prefix : string) : io fs (result (list string)) :=
  fun s =>
    if bad_pattern w prefix then (Err (Errorf "syntax error in pattern"), s)
    else
      (Ok match fault w (tick s), zone_dir s with
          | None, Dir es => sort_Strings (List.filter (fun n => HasPrefix n prefix) ((map_to_list es).*1))
          | _, _ => []
          end, mkFs (zone_dir s) (S (tick s))).

(** Open a directory and flush it; file systems that cannot flush a directory
    are tolerated. *)
Definition syncDir : io fs (result unit) :=
  syscall (fun _ d => (Ok tt, d)) ;;?
  fun s =>
    (match fault w (tick s) with
     | Some (EOther msg) => Err (Errorf msg)
     | _ => Ok tt
     end, mkFs (zone_dir s) (S (tick s))).

(** [syscall.Statfs]. *)
Definition Statfs : io fs (result (Z * Z)) := syscall (fun t d => (Ok (statfs_at w t), d)).
End calls.
