(* ===== verification/FileManager.v ===== *)
(** * The zone file manager ([internal/agent/sync/filemanager.go])

    Zone files are written to a temporary file, checked, and renamed over the
    target after a backup; an index file records which zones the agent manages;
    a write returns the means to undo it.  This file holds the operations; their
    effects are in [FileManagerFacts]. *)

From S2P Require Import Prelude Io GoStrings GoStringsFacts GoSort Utf8 Json Names ZonePath FileSystem.
#[local] Open Scope io_scope.

Definition managedZonesIndexFile : string := ".arca-dns-managed-zones.json".
Definition maxSyncFileSize : Z := 64 * 1024 * 1024.

Record FileManager := mkFileManager { backupVersions : Z; minFreeBytes : Z }.
Definition NewFileManagerWithMinFreeBytes (backups minFree : Z) : FileManager :=
  let backups := if backups <? 0 then 0 else backups in
  let minFree := if minFree <? 0 then 0 else minFree in
  mkFileManager backups (u64 minFree).
Definition NewFileManager (backups : Z) : FileManager :=
  NewFileManagerWithMinFreeBytes backups (100 * 1024 * 1024).

(** ** The index file *)
Record managedZoneEntry := mkEntry { me_Name : string; me_File : string }.
Record managedZonesIndex := mkIndex { mi_Zones : list string; mi_Entries : list managedZoneEntry }.

(** Keys match a field exactly or up to simple case folding; the two letters
    beyond ASCII that fold to ASCII ones are the long s and the Kelvin sign. *)
Definition fold_rune (r : Z) : Z :=
  if (65 <=? r) && (r <=? 90) then r + 32 else if r =? 383 then 115 else if r =? 8490 then 107 else r.
Definition key_matches (field key : string) : bool :=
  (key =? field)%string || bool_decide (map (fun c => fold_rune (fst c)) (chunks key) = map (fun c => fold_rune (fst c)) (chunks field)).

(** Decoding into a field keeps its value on null and fails on another type. *)
Definition decode_string (old : string) (j : json) : result string :=
  match j with
  | JNull => Ok old
  | JString s => Ok s
  | _ => Err (Errorf "json: cannot unmarshal value into Go value of type string")
  end.
Fixpoint decode_list {A} (zero : A) (dec : A -> json -> result A) (old : list A) (l : list json) : result (list A) :=
  match l with
  | [] => Ok []
  | j :: l =>
    let* x := dec (default zero (head old)) j in
    let* rest := decode_list zero dec (tail old) l in Ok (x :: rest)
  end.
Definition decode_slice {A} (zero : A) (dec : A -> json -> result A) (old : list A) (j : json) : result (list A) :=
  match j with
  | JNull => Ok []
  | JArray l => decode_list zero dec old l
  | _ => Err (Errorf "json: cannot unmarshal value into Go struct field")
  end.
Fixpoint decode_fields {A} (field : string -> option (A -> json -> result A)) (old : A) (l : list (string * json)) : result A :=
  match l with
  | [] => Ok old
  | (k, v) :: l =>
    match field k with
    | None => decode_fields field old l
    | Some set => let* x := set old v in decode_fields field x l
    end
  end.
Definition decode_struct {A} (field : string -> option (A -> json -> result A)) (old : A) (j : json) : result A :=
  match j with
  | JNull => Ok old
  | JObject l => decode_fields field old l
  | _ => Err (Errorf "json: cannot unmarshal value into Go struct")
  end.

Definition entry_field (k : string) : option (managedZoneEntry -> json -> result managedZoneEntry) :=
  if key_matches "name" k then Some (fun e j => let* s := decode_string (me_Name e) j in Ok (mkEntry s (me_File e)))
  else if key_matches "file" k then Some (fun e j => let* s := decode_string (me_File e) j in Ok (mkEntry (me_Name e) s))
  else None.
Definition index_field (k : string) : option (managedZonesIndex -> json -> result managedZonesIndex) :=
  if key_matches "zones" k
  then Some (fun i j => let* l := decode_slice "" decode_string (mi_Zones i) j in Ok (mkIndex l (mi_Entries i)))
  else if key_matches "entries" k
  then Some (fun i j => let* l := decode_slice (mkEntry "" "") (decode_struct entry_field) (mi_Entries i) j in Ok (mkIndex (mi_Zones i) l))
  else None.
Definition unmarshal_index (data : string) : result managedZonesIndex :=
  match json_parse data with
  | None => Err (Errorf "invalid JSON")
  | Some j => decode_struct index_field (mkIndex [] []) j
  end.

Section names.
Context `{UnicodeTables}.

(** *** The map of managed zones, from safe file names to zone names *)
Definition add_entry (zones : gmap string string) (entry : managedZoneEntry) : gmap string string :=
  let fileName := if (TrimSpace (me_File entry) =? "")%string then me_Name entry else me_File entry in
  let safeName := SafeZoneFilename fileName in
  if (safeName =? "")%string then zones
  else
    let trimmed := TrimSpace (me_Name entry) in
    let zoneName := if (trimmed =? "")%string then safeName else NormalizeZoneName trimmed in
    <[safeName := zoneName]> zones.
(** Entries of the previous index format, which only has safe file names. *)
Definition add_legacy (zones : gmap string string) (zone : string) : gmap string string :=
  let safeName := SafeZoneFilename zone in
  if (safeName =? "")%string then zones
  else match zones !! safeName with Some _ => zones | None => <[safeName := safeName]> zones end.
Definition index_zones (index : managedZonesIndex) : gmap string string :=
  foldl add_legacy (foldl add_entry ∅ (mi_Entries index)) (mi_Zones index).

Definition sorted_entries (zones : gmap string string) : list managedZoneEntry :=
  sort_Slice (fun a b => str_ltb (me_File a) (me_File b)) (map (fun kv => mkEntry (snd kv) (fst kv)) (map_to_list zones)).
Definition entry_json (e : managedZoneEntry) : json := JObject [("name", JString (me_Name e)); ("file", JString (me_File e))].
(** [managedZonesIndex{Entries: entries}]; both fields are [omitempty]. *)
Definition index_json (entries : list managedZoneEntry) : json :=
  JObject (match entries with [] => [] | _ => [("entries", JArray (map entry_json entries))] end).
Definition marshal_index (zones : gmap string string) : string :=
  print indented 0 (index_json (sorted_entries zones)) +:+ str1 (chr 10).

(** *** File names *)
Definition ZoneFilePath (zoneName : string) : string := SafeZoneFilename zoneName +:+ ".zone".
Definition ZoneBackupPattern (zoneName : string) : string := SafeZoneFilename zoneName +:+ ".zone.backup.".
End names.

Section manager.
Context `{UnicodeTables} (w : World) (fm : FileManager).

(** ** The zone directory *)
Definition os_Lstat_dir : io fs (result directory) :=
  syscall w (fun _ d => (match d with Missing => Err (Sentinel ErrNotExist) | _ => Ok d end, d)).
Definition validateExistingZoneDirectory : io fs (result unit) :=
  info <-? os_Lstat_dir ;
  match info with
  | LinkDir => io_fail (Errorf "zone directory must not be a symlink")
  | Dir _ => io_ok tt
  | _ => io_fail (Errorf "zone path must be a directory")
  end.
Definition validateZoneDirectoryIfExists : io fs (result unit) :=
  r <- validateExistingZoneDirectory ;
  match r with
  | Err e => if os_IsNotExist e then io_ok tt else io_fail (Wrapf "stat zone directory" e)
  | Ok _ => io_ok tt
  end.
Definition ensureZoneDirectory : io fs (result unit) :=
  first <- validateExistingZoneDirectory ;
  existed <-? match first with
              | Ok _ => io_ok true
              | Err e => if os_IsNotExist e then io_ok false else io_fail (Wrapf "stat zone directory" e)
              end ;
  io_wrap "failed to create zone directory" (os_MkdirAll w) ;;?
  io_wrap "stat zone directory" validateExistingZoneDirectory ;;?
  if negb existed then io_wrap "fsync zone directory parent" (syncDir w) else io_ok tt.

(** ** Reading and writing single files *)
Definition readRegularSyncFile (name label : string) : io fs (result (string * Z)) :=
  info <-? os_Lstat w name ;
  if is_symlink info then io_fail (Errorf (label +:+ " must not be a symlink"))
  else if negb (is_regular info) then io_fail (Errorf (label +:+ " must be a regular file"))
  else if maxSyncFileSize <? node_size info then io_fail (Errorf (label +:+ " exceeds maximum size"))
  else
    file <-? os_Open w name ;
    openedInfo <-? file_Stat w file ;
    if negb (SameFile info openedInfo) then io_fail (Errorf (label +:+ " changed while opening"))
    else if negb (is_regular openedInfo) then io_fail (Errorf (label +:+ " must be a regular file"))
    else if maxSyncFileSize <? node_size openedInfo then io_fail (Errorf (label +:+ " exceeds maximum size"))
    else
      data <-? ReadAll_limited w file (maxSyncFileSize + 1) ;
      if maxSyncFileSize <? len data then io_fail (Errorf (label +:+ " exceeds maximum size"))
      else io_ok (data, node_perm openedInfo).

(** Run the steps on a new temporary file; remove it when one fails. *)
Definition fill_temp (tmpPath data : string) (perm : Z) : io fs (result unit) :=
  tmp_Chmod w tmpPath perm ;;? tmp_Write w tmpPath data ;;? tmp_Sync w ;;? tmp_Close w.
Definition writeTempFileSync (prefix suffix data : string) (perm : Z) : io fs (result string) :=
  tmpPath <-? os_CreateTemp w prefix suffix ;
  filled <- fill_temp tmpPath data perm ;
  match filled with
  | Err e => _ <- os_Remove w tmpPath ; io_fail e
  | Ok _ => io_ok tmpPath
  end.

(** ** Snapshots and backups *)
Record zoneFileSnapshot := mkSnapshot { snap_exists : bool; snap_mode : Z; snap_data : string }.
Definition snapshotZoneFile (name : string) : io fs (result zoneFileSnapshot) :=
  r <- readRegularSyncFile name "active zone file" ;
  match r with
  | Err e => if os_IsNotExist e then io_ok (mkSnapshot false 0 "") else io_fail (Wrapf "read active zone file" e)
  | Ok (data, mode) => io_ok (mkSnapshot true mode data)
  end.

Definition restoreZoneFileSnapshot (name : string) (snapshot : zoneFileSnapshot) : io fs (result unit) :=
  if negb (snap_exists snapshot) then
    removed <- os_Remove w name ;
    match removed with
    | Ok _ => io_wrap "fsync rolled back zone directory" (syncDir w)
    | Err e => if os_IsNotExist e then io_ok tt else io_fail (Wrapf "remove rolled back zone file" e)
    end
  else
    io_wrap "create zone directory for rollback" (os_MkdirAll w) ;;?
    tmpPath <-? io_wrap "write rollback zone file"
                  (writeTempFileSync ("." +:+ name +:+ ".") ".rollback" (snap_data snapshot) (snap_mode snapshot)) ;
    renamed <- os_Rename w tmpPath name ;
    match renamed with
    | Err e => _ <- os_Remove w tmpPath ; io_fail (Wrapf "rename rollback zone file" e)
    | Ok _ => io_wrap "fsync rollback zone directory" (syncDir w)
    end.

Definition backupFile (name : string) : io fs (result string) :=
  content <-? io_wrap "failed to read file for backup" (readRegularSyncFile name "zone file") ;
  backupPath <-? io_wrap "failed to write backup file" (writeTempFileSync (name +:+ ".backup.") "" (fst content) 420) ;
  synced <- syncDir w ;
  match synced with
  | Err e => _ <- os_Remove w backupPath ; io_fail (Wrapf "failed to fsync backup directory" e)
  | Ok _ => io_ok backupPath
  end.

Definition removeRollbackBackup (backupPath : string) : io fs (result unit) :=
  removed <- os_Remove w backupPath ;
  match removed with
  | Err e => if os_IsNotExist e then io_ok tt else io_fail (Wrapf "remove rollback backup" e)
  | Ok _ => io_wrap "fsync rollback backup directory" (syncDir w)
  end.

Definition err_of {A} (r : result A) : option error := match r with Ok _ => None | Err e => Some e end.
Definition rollbackZoneFileCommit (name : string) (snapshot : zoneFileSnapshot) (backupPath : string) : io fs (option error) :=
  restored <- restoreZoneFileSnapshot name snapshot ;
  removed <- (if (backupPath =? "")%string then io_ok tt else removeRollbackBackup backupPath) ;
  io_ret (errors_Join [err_of restored; err_of removed]).

Definition listBackups (zoneName : string) : io fs (result (list string)) :=
  io_wrap "failed to list backups" (filepath_Glob w (ZoneBackupPattern zoneName)).

(** Oldest first; a file that cannot be examined comes first.  The comparisons
    look at the directory as the listing left it. *)
Definition older (d : directory) (a b : string) : bool :=
  match stat_entry d a, stat_entry d b with
  | Err _, _ => true
  | _, Err _ => false
  | Ok ta, Ok tb => time_Before ta tb
  end.
Fixpoint remove_each (names : list string) (deleted : bool) : io fs bool :=
  match names with
  | [] => io_ret deleted
  | n :: names =>
    removed <- os_Remove w n ;
    remove_each names (match removed with Ok _ => true | Err _ => deleted end)
  end.
Definition cleanupBackups (zoneName : string) : io fs (result unit) :=
  backups <-? listBackups zoneName ;
  if backupVersions fm <? Z.of_nat (length backups) then
    fun s =>
      let sorted := sort_Slice (older (zone_dir s)) backups in
      let toDelete := Z.of_nat (length sorted) - backupVersions fm in
      (deleted <- remove_each (take (Z.to_nat toDelete) sorted) false ;
       if (deleted : bool) then io_wrap "fsync zone directory after backup cleanup" (syncDir w) else io_ok tt) s
  else io_ok tt.

(** ** The managed-zone index *)
Definition readManagedZones : io fs (result (gmap string string)) :=
  validateZoneDirectoryIfExists ;;?
  r <- readRegularSyncFile managedZonesIndexFile "managed zone index" ;
  match r with
  | Err e => if os_IsNotExist e then io_ok ∅ else io_fail (Wrapf "read managed zone index" e)
  | Ok (data, _) =>
    match unmarshal_index data with
    | Err e => io_fail (Wrapf "parse managed zone index" e)
    | Ok index => io_ok (index_zones index)
    end
  end.
Definition writeManagedZones (zones : gmap string string) : io fs (result unit) :=
  let data := marshal_index zones in
  ensureZoneDirectory ;;?
  tmpPath <-? io_wrap "write managed zone index tmp"
                (writeTempFileSync ("." +:+ managedZonesIndexFile +:+ ".") ".tmp" data 420) ;
  renamed <- os_Rename w tmpPath managedZonesIndexFile ;
  match renamed with
  | Err e => _ <- os_Remove w tmpPath ; io_fail (Wrapf "rename managed zone index" e)
  | Ok _ => io_wrap "fsync managed zone index directory" (syncDir w)
  end.

(** The undo of [recordManagedZone]. *)
Definition restore_zone (safeName : string) (previous : option string) : io fs (result unit) :=
  zones <-? readManagedZones ;
  writeManagedZones (match previous with Some n => <[safeName := n]> zones | None => delete safeName zones end).
(** Returns what its undo needs: the previous entry. *)
Definition recordManagedZoneWithRollback (zoneName : string) : io fs (result (option string)) :=
  zones <-? readManagedZones ;
  let safeName := SafeZoneFilename zoneName in
  let previous := zones !! safeName in
  writeManagedZones (<[safeName := NormalizeZoneName zoneName]> zones) ;;?
  io_ok previous.
Definition recordManagedZone (zoneName : string) : io fs (result unit) :=
  recordManagedZoneWithRollback zoneName ;;? io_ok tt.
Definition removeManagedZone (zoneName : string) : io fs (result unit) :=
  zones <-? readManagedZones ;
  writeManagedZones (delete (SafeZoneFilename zoneName) zones).
Definition managed_refs (zones : gmap string string) : list (string * string) :=
  sort_Slice (fun a b => str_ltb (snd a) (snd b)) (map (fun kv => (snd kv, fst kv)) (map_to_list zones)).
(** Pairs of zone name and safe file name. *)
Definition listManagedZones : io fs (result (list (string * string))) :=
  zones <-? readManagedZones ; io_ok (managed_refs zones).
Definition listManagedZoneFiles : io fs (result (list string)) :=
  zones <-? listManagedZones ; io_ok (sort_Strings (map snd zones)).

(** ** Operations *)
Definition checkDiskSpace (requiredBytes : Z) : io fs (result unit) :=
  stat <-? io_wrap "failed to check disk space" (Statfs w) ;
  let availableBytes := u64 (fst stat * u64 (snd stat)) in
  if availableBytes <? requiredBytes then io_fail (Errorf "insufficient disk space") else io_ok tt.

Definition EnsureDirectory : io fs (result unit) :=
  ensureZoneDirectory ;;?
  testFile <-? io_wrap "zone directory is not writable" (writeTempFileSync ".write_test-" "" "test" 420) ;
  io_wrap "failed to remove zone directory write test file" (os_Remove w testFile) ;;?
  io_wrap "fsync zone directory after write test cleanup" (syncDir w).

Definition ZoneExists (zoneName : string) : io fs bool :=
  valid <- validateZoneDirectoryIfExists ;
  match valid with
  | Err _ => io_ret false
  | Ok _ =>
    info <- os_Lstat w (ZoneFilePath zoneName) ;
    io_ret match info with Ok n => is_regular n | Err _ => false end
  end.
Definition ReadZoneFile (zoneName : string) : io fs (result string) :=
  validateZoneDirectoryIfExists ;;?
  content <-? io_wrap "failed to read zone file" (readRegularSyncFile (ZoneFilePath zoneName) "zone file") ;
  io_ok (fst content).

(** What the rollback closure of a write captures: the zone (which gives the
    target path and the index key), the snapshot, the previous index entry and
    the backup's path. *)
Record writeRollback := mkRollback {
  rb_zone : string; rb_snapshot : zoneFileSnapshot; rb_previous : option string; rb_backup : string }.
Definition run_rollback (rb : writeRollback) : io fs (option error) :=
  restored <- restoreZoneFileSnapshot (ZoneFilePath (rb_zone rb)) (rb_snapshot rb) ;
  unrecorded <- io_wrap "roll back managed zone index" (restore_zone (SafeZoneFilename (rb_zone rb)) (rb_previous rb)) ;
  removed <- (if (rb_backup rb =? "")%string then io_ok tt else removeRollbackBackup (rb_backup rb)) ;
  io_ret (errors_Join [err_of restored; err_of unrecorded; err_of removed]).

(** Back up the current file, if there is one. *)
Definition backup_current (target : string) : io fs (result string) :=
  present <- os_Stat w target ;
  match present with
  | Ok _ => io_wrap "failed to backup old version" (backupFile target)
  | Err _ => io_ok ""
  end.

(** An error after the rename: undo it and report both errors. *)
Definition undo_commit {A} (prefix : string) (e : error) (target : string) (snapshot : zoneFileSnapshot) (backupPath : string)
  : io fs (result A) :=
  undo <- rollbackZoneFileCommit target snapshot backupPath ;
  io_fail (match errors_Join [Some (Wrapf prefix e); undo] with Some j => j | None => Wrapf prefix e end).

(** From the temporary file on: validate, back up, rename, record. *)
Definition publish_temp (zoneName target tmpPath : string) (snapshot : zoneFileSnapshot) (validate : option (string -> result unit))
  : io fs (result writeRollback) :=
  prepared <- (match validate with
               | None => io_ok tt
               | Some check =>
                 io_wrap "zone validation failed"
                   (fun s => (let* n := lookup_entry (zone_dir s) tmpPath in check (node_data n), s))
               end ;;?
               backupPath <-? backup_current target ;
               io_wrap "failed to rename temporary file" (os_Rename w tmpPath target) ;;?
               io_ok backupPath) ;
  match prepared with
  | Err e => _ <- os_Remove w tmpPath ; io_fail e
  | Ok backupPath =>
    synced <- syncDir w ;
    match synced with
    | Err e => undo_commit "fsync zone directory" e target snapshot backupPath
    | Ok _ =>
      recorded <- recordManagedZoneWithRollback zoneName ;
      match recorded with
      | Err e => undo_commit "failed to record managed zone" e target snapshot backupPath
      | Ok previous =>
        _ <- cleanupBackups zoneName ;
        io_ok (mkRollback zoneName snapshot previous backupPath)
      end
    end
  end.

Definition WriteZoneFileValidatedWithRollback (zoneName content : string) (validate : option (string -> result unit))
  : io fs (result writeRollback) :=
  ensureZoneDirectory ;;?
  let target := ZoneFilePath zoneName in
  (if 0 <? minFreeBytes fm then io_wrap "insufficient disk space" (checkDiskSpace (minFreeBytes fm)) else io_ok tt) ;;?
  snapshot <-? snapshotZoneFile target ;
  tmpPath <-? io_wrap "failed to write temporary file" (writeTempFileSync ("." +:+ target +:+ ".") ".tmp" content 420) ;
  publish_temp zoneName target tmpPath snapshot validate.
Definition WriteZoneFileValidated (zoneName content : string) (validate : option (string -> result unit)) : io fs (result unit) :=
  WriteZoneFileValidatedWithRollback zoneName content validate ;;? io_ok tt.
Definition WriteZoneFile (zoneName content : string) : io fs (result unit) := WriteZoneFileValidated zoneName content None.

Definition deleteZoneFiles (zoneName : string) : io fs (result unit) :=
  removed <- os_Remove w (ZoneFilePath zoneName) ;
  changed <-? match removed with
              | Ok _ => io_ok true
              | Err e => if os_IsNotExist e then io_ok false else io_fail (Wrapf "failed to delete zone file" e)
              end ;
  backups <- listBackups zoneName ;
  match backups with
  | Err _ => if changed then io_wrap "fsync zone directory after delete" (syncDir w) else io_ok tt
  | Ok names =>
    changed <- remove_each names changed ;
    if (changed : bool) then io_wrap "fsync zone directory after delete" (syncDir w) else io_ok tt
  end.
Definition DeleteZoneFile (zoneName : string) : io fs (result unit) :=
  validateZoneDirectoryIfExists ;;?
  deleteZoneFiles zoneName ;;?
  io_wrap "failed to update managed zone index" (removeManagedZone zoneName).
End manager.
