(* ===== verification/FileManagerFacts.v ===== *)
(** * Effects of the zone file manager

    The index file is read back as it was written; every operation changes only
    the entries it should, whatever system calls fail; together they satisfy the
    interface the syncer is proved against. *)

From S2P Require Import Prelude Io GoStrings GoStringsFacts GoSort Utf8 Json Names Validation DnsNames ZonePath FileSystem FileManager.

(** ** Names of managed zones *)
Lemma graphic_ascii s : graphic_string s -> is_ascii s = true.
Proof. apply str_forallb_impl. intros c Hc. unfold graphic in Hc. bool_prop. apply Z.ltb_lt. lia. Qed.
Lemma safe_graphic s : safe_name s -> graphic_string s.
Proof.
  apply str_forallb_impl. intros c. unfold safe_char, safe_rune, graphic. intros Hc. apply andb_true_iff. rewrite !Z.leb_le.
  repeat (apply orb_true_iff in Hc as [Hc|Hc]); bool_prop; lia.
Qed.

Section index.
Context `{UnicodeTables}.

Lemma entry_ok_facts s z : entry_ok s z ->
  graphic_string z /\ z <> "" /\ graphic_string s /\ s <> "" /\ SafeZoneFilename s = s.
Proof.
  intros (Hv & Hn & <-). destruct (SafeZoneFilename_shape z) as (Hs & _ & Hl).
  assert (Hne : SafeZoneFilename z <> "") by (intros E; rewrite E in Hl; by destruct Hl).
  pose proof Hv as Hd%zone_name_accepted. destruct (dns_name_normalize z Hd) as (ls & Hls0 & Hls & Heq & Hlow & _).
  rewrite Hn in Heq. rewrite ToLower_ascii in Hlow by by apply dotted_ascii.
  destruct (dotted_safe ls Hls0 Hls Hlow) as (Hsd & _ & _).
  split_and!; [|by apply dns_name_not_special in Hd as (? & _)|by apply safe_graphic|done|by apply zone_file_fixed].
  rewrite Heq, str_forallb_app. apply andb_true_iff. split; [by apply safe_graphic|done].
Qed.

Definition written (e : managedZoneEntry) : Prop := entry_ok (me_File e) (me_Name e).

Lemma decode_entries l : decode_list (mkEntry "" "") (decode_struct entry_field) [] (map entry_json l) = Ok l.
Proof.
  induction l as [|[n f] l IH]; [done|]. cbn [map decode_list]. cbn [entry_json decode_struct decode_fields].
  change (entry_field "name") with (Some (fun e j => let* s := decode_string (me_Name e) j in Ok (mkEntry s (me_File e)))).
  change (entry_field "file") with (Some (fun e j => let* s := decode_string (me_File e) j in Ok (mkEntry (me_Name e) s))).
  cbn [rbind decode_string me_Name me_File head default tail]. by rewrite IH.
Qed.

Lemma unmarshal_entries l : Forall written l ->
  unmarshal_index (print indented 0 (index_json l) +:+ str1 (chr 10)) = Ok (mkIndex [] l).
Proof.
  intros Hl. unfold unmarshal_index. rewrite json_round_trip; [|apply indented_ok| | |done].
  - destruct l as [|e l]; [done|]. unfold index_json. cbn [decode_struct decode_fields].
    change (index_field "entries") with (Some (fun i j =>
      let* l := decode_slice (mkEntry "" "") (decode_struct entry_field) (mi_Entries i) j in Ok (mkIndex (mi_Zones i) l))).
    cbn [decode_slice mi_Entries mi_Zones]. by rewrite decode_entries.
  - destruct l as [|e l]; [done|]. cbn [index_json json_ok foldr fst snd]. split_and!; [by apply ascii_utf8| |done].
    apply foldr_and_Forall. rewrite Forall_map. eapply Forall_impl; [exact Hl|]. intros x Hx%entry_ok_facts.
    cbn. split_and!; [by apply ascii_utf8|apply ascii_utf8, graphic_ascii; tauto|by apply ascii_utf8|apply ascii_utf8, graphic_ascii; tauto|done].
  - assert (Hbound : (4 <= maxNestingDepth)%nat) by (apply Nat.leb_le; vm_compute; reflexivity).
    destruct l as [|e l]; [cbn [index_json jdepth foldr]; lia|]. cbn [index_json jdepth foldr snd].
    assert (Hd : (foldr (fun v n => Nat.max (jdepth v) n) 0 (map entry_json (e :: l)) <= 1)%nat).
    { generalize (e :: l). intros es. induction es as [|x es IH]; cbn [map foldr]; [lia|]. cbn. cbn in IH. lia. }
    lia.
Qed.

Lemma add_entry_written m e : written e -> add_entry m e = <[me_File e := me_Name e]> m.
Proof.
  intros Hw. destruct (entry_ok_facts _ _ Hw) as (Hz & Hz0 & Hs & Hs0 & Hfix). destruct Hw as (_ & Hn & _).
  unfold add_entry. rewrite !TrimSpace_graphic by done. rewrite (proj2 (String.eqb_neq _ _) Hs0). cbv zeta.
  by rewrite Hfix, (proj2 (String.eqb_neq _ _) Hs0), (proj2 (String.eqb_neq _ _) Hz0), Hn.
Qed.

Lemma foldl_entries l m : Forall written l ->
  foldl add_entry m l = foldl (fun m e => <[me_File e := me_Name e]> m) m l.
Proof. revert m. induction l as [|e l IH]; intros m Hl; [done|]. apply Forall_cons in Hl as [He Hl]. cbn. by rewrite add_entry_written, IH. Qed.

Lemma foldl_insert_map (l : list managedZoneEntry) (m : gmap string string) : NoDup (map me_File l) ->
  (forall k, (foldl (fun m e => <[me_File e := me_Name e]> m) m l : gmap string string) !! k
    = match list_find (fun e => me_File e = k) l with Some (_, e) => Some (me_Name e) | None => m !! k end).
Proof.
  revert m. induction l as [|e l IH]; intros m Hnd k; [done|]. cbn [map] in Hnd. apply NoDup_cons in Hnd as [Hnew Hnd].
  cbn [foldl list_find]. rewrite IH by done. destruct (decide (me_File e = k)) as [Hk|Hk].
  - assert (list_find (fun e => me_File e = k) l = None) as ->.
    { apply list_find_None, Forall_forall. intros x Hx Hxk. apply Hnew. rewrite Hk, <- Hxk. apply list_elem_of_In, in_map, list_elem_of_In, Hx. }
    by rewrite Hk, lookup_insert_eq.
  - destruct (list_find (fun e => me_File e = k) l) as [[j e']|]; cbn; [done|]. by rewrite lookup_insert_ne.
Qed.

Lemma sorted_entries_perm m : sorted_entries m ≡ₚ map (fun kv => mkEntry (snd kv) (fst kv)) (map_to_list m).
Proof. apply sort_Slice_Permutation. Qed.
Lemma sorted_entries_elem m e : e ∈ sorted_entries m <-> m !! me_File e = Some (me_Name e).
Proof.
  rewrite sorted_entries_perm, list_elem_of_In, in_map_iff. split.
  - intros ([k z] & <- & Hin%list_elem_of_In%elem_of_map_to_list). done.
  - intros He. exists (me_File e, me_Name e). split; [by destruct e|]. by apply list_elem_of_In, elem_of_map_to_list.
Qed.
Lemma sorted_entries_nodup m : NoDup (map me_File (sorted_entries m)).
Proof.
  assert (Hp : map me_File (sorted_entries m) ≡ₚ (map_to_list m).*1).
  { rewrite sorted_entries_perm, map_map. done. }
  rewrite Hp. apply NoDup_fst_map_to_list.
Qed.

(** The index is read back as it was written. *)
Lemma index_round_trip m : index_ok m -> exists i, unmarshal_index (marshal_index m) = Ok i /\ index_zones i = m.
Proof.
  intros Hm. assert (Hw : Forall written (sorted_entries m)).
  { apply Forall_forall. intros e He%sorted_entries_elem. by apply (Hm _ _ He). }
  exists (mkIndex [] (sorted_entries m)). split; [by apply unmarshal_entries|]. unfold index_zones. cbn [mi_Entries mi_Zones foldl].
  rewrite foldl_entries by done. apply map_eq. intros k. rewrite foldl_insert_map by apply sorted_entries_nodup.
  destruct (list_find _ _) as [[j e]|] eqn:Hf.
  - apply list_find_Some in Hf as (Hj & <- & _). by apply list_elem_of_lookup_2, sorted_entries_elem in Hj.
  - rewrite lookup_empty. apply list_find_None in Hf. destruct (m !! k) as [z|] eqn:Hk; [|done]. exfalso.
    rewrite Forall_forall in Hf. by apply (Hf (mkEntry z k)); [apply sorted_entries_elem|].
Qed.
End index.

(** ** What a directory holds *)
Definition ents (d : directory) : gmap string node := match d with Dir es => es | _ => ∅ end.
Abbreviation entries s := (ents (zone_dir s)).
Definition content (n : option node) : option string :=
  match n with Some (Regular _ _ _ data) => Some data | _ => None end.

(** Contents of the zone files by safe name. *)
Definition zone_pair (kv : string * node) : option (string * string) :=
  match snd kv with
  | Regular _ _ _ data => if HasSuffix (fst kv) ".zone" then Some (TrimSuffix (fst kv) ".zone", data) else None
  | _ => None
  end.
Definition zone_files (es : gmap string node) : gmap string string := list_to_map (omap zone_pair (map_to_list es)).

Lemma zone_pair_Some kv s data : zone_pair kv = Some (s, data) <->
  fst kv = s +:+ ".zone" /\ exists i p t, snd kv = Regular i p t data.
Proof.
  destruct kv as [n [i p t data'|o|b|]]; unfold zone_pair; cbn [fst snd]; try (split; [discriminate|by intros (_ & ? & ? & ? & [=])]).
  split.
  - destruct (HasSuffix n ".zone") eqn:Hn; [|discriminate]. intros [= <- <-]. apply HasSuffix_true in Hn as [q ->].
    rewrite TrimSuffix_app. eauto 6.
  - intros (-> & i' & p' & t' & [= -> -> -> ->]). by rewrite HasSuffix_app, TrimSuffix_app.
Qed.
Lemma zone_files_lookup es s : zone_files es !! s = content (es !! (s +:+ ".zone")).
Proof.
  assert (Hin : forall data, (s, data) ∈ omap zone_pair (map_to_list es) <-> content (es !! (s +:+ ".zone")) = Some data).
  { intros data. rewrite list_elem_of_omap. split.
    - intros ([n nd] & Hin%elem_of_map_to_list & (Hn & i & p & t & Hnd)%zone_pair_Some). cbn [fst snd] in *. subst n nd. by rewrite Hin.
    - intros Hc. destruct (es !! (s +:+ ".zone")) as [[i p t d'|o|b|]|] eqn:He; try discriminate. cbn in Hc. injection Hc as ->.
      exists (s +:+ ".zone", Regular i p t data). split; [by apply elem_of_map_to_list|]. apply zone_pair_Some. eauto 6. }
  unfold zone_files. assert (Hnd : NoDup (omap zone_pair (map_to_list es)).*1).
  { clear Hin. pose proof (NoDup_fst_map_to_list es) as Hk. induction (map_to_list es) as [|kv l IH]; [constructor|]. cbn in Hk.
    apply NoDup_cons in Hk as [Hnew Hk]. cbn. destruct (zone_pair kv) as [[k d]|] eqn:E; [|by apply IH]. cbn. constructor; [|by apply IH].
    intros Hin'. apply Hnew. apply list_elem_of_fmap in Hin' as ([k' d'] & Hk' & Ho). cbn in Hk'. subst k'.
    apply list_elem_of_omap in Ho as (kv' & Hkv' & E'). apply zone_pair_Some in E as [E _], E' as [E' _].
    apply list_elem_of_fmap. exists kv'. split; [by rewrite E, E'|done]. }
  destruct (content _) as [data|] eqn:Hc.
  - apply elem_of_list_to_map_1; [done|]. by apply Hin.
  - apply not_elem_of_list_to_map_1. intros Hk. apply list_elem_of_fmap in Hk as ([k d] & -> & Hk). cbn in *.
    apply Hin in Hk. congruence.
Qed.

Section views.
Context `{UnicodeTables}.
(** The managed zones the index file records. *)
Definition index_of (es : gmap string node) : gmap string string :=
  match content (es !! managedZonesIndexFile) with
  | Some data => match unmarshal_index data with Ok i => index_zones i | Err _ => ∅ end
  | None => ∅
  end.
End views.

(** Only entries with a name in [P] may differ. *)
Definition only (P : string -> Prop) (s s' : fs) : Prop := forall n, ~ P n -> entries s' !! n = entries s !! n.
Definition still (s s' : fs) : Prop := zone_dir s' = zone_dir s.

Lemma still_refl s : still s s.
Proof. done. Qed.
Lemma still_trans s1 s2 s3 : still s1 s2 -> still s2 s3 -> still s1 s3.
Proof. unfold still. congruence. Qed.
Lemma still_only P s s' : still s s' -> only P s s'.
Proof. intros Hs n _. by rewrite Hs. Qed.
Lemma only_trans P s1 s2 s3 : only P s1 s2 -> only P s2 s3 -> only P s1 s3.
Proof. intros H1 H2 n Hn. by rewrite H2, H1. Qed.
Lemma only_weaken (P P' : string -> Prop) s s' : (forall n, P n -> P' n) -> only P s s' -> only P' s s'.
Proof. intros HP Ho n Hn. apply Ho. auto. Qed.

(** ** System calls *)
Section calls.
Context (w : World).

(** Calls that leave the directory as it is. *)
Definition quiet {A} (m : io fs A) : Prop := forall s, still s (snd (m s)).
Lemma quiet_ret {A} (a : A) : quiet (io_ret a).
Proof. done. Qed.
Lemma quiet_bind {A B} (m : io fs A) (k : A -> io fs B) : quiet m -> (forall a, quiet (k a)) -> quiet (io_bind m k).
Proof.
  intros Hm Hk s. unfold io_bind. specialize (Hm s). destruct (m s) as [a s1]. cbn in Hm. eapply still_trans; [exact Hm|apply Hk].
Qed.
Lemma quiet_try {A B} (m : io fs (result A)) (k : A -> io fs (result B)) : quiet m -> (forall a, quiet (k a)) -> quiet (io_try m k).
Proof. intros Hm Hk. apply quiet_bind; [done|]. intros [a|e]; [apply Hk|done]. Qed.
Lemma quiet_wrap {A} p (m : io fs (result A)) : quiet m -> quiet (io_wrap p m).
Proof. intros Hm. by apply quiet_bind. Qed.
Lemma quiet_syscall {A} (op : nat -> directory -> result A * directory) : (forall t d, snd (op t d) = d) -> quiet (syscall w op).
Proof. intros Hop s. unfold syscall. destruct (fault w _); [done|]. specialize (Hop (tick s) (zone_dir s)). by destruct (op _ _). Qed.
Lemma quiet_if {A} (b : bool) (m k : io fs A) : quiet m -> quiet k -> quiet (if b then m else k).
Proof. by destruct b. Qed.
Lemma quiet_syncDir : quiet (syncDir w).
Proof. apply quiet_try; [by apply quiet_syscall|]. intros _ s. by destruct (fault w _) as [[]|]. Qed.
Lemma quiet_Glob p : quiet (filepath_Glob w p).
Proof. intros s. unfold filepath_Glob. by destruct (bad_pattern w p). Qed.
Lemma wp_quiet {A} (m : io fs A) s : quiet m -> wpio m s (fun _ s' => still s s').
Proof. intros Hm. apply Hm. Qed.
End calls.
Create HintDb quiet discriminated.
#[export] Hint Resolve quiet_ret quiet_bind quiet_try quiet_wrap quiet_syscall quiet_if quiet_syncDir quiet_Glob : quiet.

(** ** Names of files that are neither zone files nor the index *)
Definition hidden (n : string) : Prop := HasSuffix n ".zone" = false /\ n <> managedZonesIndexFile.
Lemma str_snoc_inj s t a b : s +:+ str1 a = t +:+ str1 b -> a = b.
Proof.
  revert t. induction s as [|c s IH]; intros [|d t] E.
  - by injection E.
  - injection E as _ E. destruct t; discriminate.
  - injection E as _ E. destruct s; discriminate.
  - rewrite !str_app_cons in E. injection E as _ E. by apply (IH t).
Qed.
Lemma hidden_last p c : c <> "e"%char -> c <> "n"%char -> hidden (p +:+ str1 c).
Proof.
  intros He Hn. split.
  - destruct (HasSuffix _ _) eqn:E; [|done]. apply HasSuffix_true in E as [q E].
    change ".zone" with (".zon" +:+ str1 "e") in E. rewrite <- str_app_assoc in E. by apply str_snoc_inj in E.
  - change managedZonesIndexFile with (".arca-dns-managed-zones.jso" +:+ str1 "n"). by intros E%str_snoc_inj.
Qed.
Lemma zone_file_not_hidden s : ~ hidden (s +:+ ".zone").
Proof. intros [E _]. by rewrite HasSuffix_app in E. Qed.
Lemma zone_file_not_index s : s +:+ ".zone" <> managedZonesIndexFile.
Proof.
  change ".zone" with (".zon" +:+ str1 "e"). change managedZonesIndexFile with (".arca-dns-managed-zones.jso" +:+ str1 "n").
  rewrite <- str_app_assoc. by intros E%str_snoc_inj.
Qed.
Definition temp_name (pre suf n : string) : Prop := exists r, n = pre +:+ Itoa r +:+ suf.
Lemma temp_hidden pre suf n : temp_name pre suf n -> suf ∈ [""; ".tmp"; ".rollback"] -> hidden n.
Proof.
  intros [r ->]. rewrite !elem_of_cons. intros [->|[->|[->|Hs]]].
  - destruct (Itoa_last r) as (q & c & -> & Hc). rewrite str_app_nil_r, <- str_app_assoc. apply hidden_last; intros ->; discriminate.
  - change ".tmp" with (".tm" +:+ str1 "p"). rewrite <- !str_app_assoc. by apply hidden_last.
  - change ".rollback" with (".rollbac" +:+ str1 "k"). rewrite <- !str_app_assoc. by apply hidden_last.
  - by apply elem_of_nil in Hs.
Qed.
Lemma temp_longer pre suf n : (String.length n < String.length pre)%nat -> ~ temp_name pre suf n.
Proof. intros Hl [r ->]. rewrite !str_length_app in Hl. lia. Qed.
Lemma dotted_longer n : (String.length n < String.length ("." +:+ n +:+ "."))%nat.
Proof. rewrite !str_length_app. cbn. lia. Qed.

Section effects.
Context `{UnicodeTables} (w : World) (fm : FileManager).
#[local] Set Default Proof Using "Type".

Lemma sys_error_exists e : os_IsNotExist (sys_error e) = false.
Proof. by destruct e. Qed.
Lemma lookup_entry_ok d n nd : lookup_entry d n = Ok nd -> ents d !! n = Some nd.
Proof. destruct d; cbn; try discriminate. destruct (entries !! n); naive_solver. Qed.
Lemma lookup_entry_missing d n e : lookup_entry d n = Err e -> os_IsNotExist e = true -> ents d !! n = None.
Proof. destruct d; cbn; try (intros; apply lookup_empty). destruct (entries !! n); [discriminate|done]. Qed.

(** A call that only looks an entry up. *)
Lemma wp_lookup n s (Q : result node -> fs -> Prop) :
  (forall e s', still s s' -> (os_IsNotExist e = true -> entries s !! n = None) -> Q (Err e) s') ->
  (forall nd s', still s s' -> entries s !! n = Some nd -> Q (Ok nd) s') ->
  wpio (syscall w (fun _ d => (lookup_entry d n, d))) s Q.
Proof.
  intros HE HO. unfold wpio, syscall. destruct (fault w (tick s)) as [er|]; cbn [fst snd].
  - apply HE; [done|]. by rewrite sys_error_exists.
  - destruct (lookup_entry (zone_dir s) n) as [nd|e] eqn:Hl; cbn.
    + apply HO; [done|by apply lookup_entry_ok].
    + apply HE; [done|by apply lookup_entry_missing].
Qed.
(** A call that returns a value and changes nothing. *)
Lemma wp_value {A} (v : nat -> A) s (Q : result A -> fs -> Prop) :
  (forall e s', still s s' -> os_IsNotExist e = false -> Q (Err e) s') -> (forall t s', still s s' -> Q (Ok (v t)) s') ->
  wpio (syscall w (fun t d => (Ok (v t), d))) s Q.
Proof.
  intros HE HO. unfold wpio, syscall. destruct (fault w (tick s)) as [er|]; cbn [fst snd]; [apply HE; [done|apply sys_error_exists]|by apply HO].
Qed.

Lemma wp_remove n s : wpio (os_Remove w n) s (fun r s' =>
  match r with
  | Ok _ => entries s' = delete n (entries s)
  | Err e => still s s' /\ (os_IsNotExist e = true -> entries s !! n = None)
  end).
Proof.
  unfold wpio, os_Remove, syscall. destruct (fault w (tick s)) as [er|]; cbn [fst snd]; [split; [done|by rewrite sys_error_exists]|].
  destruct (lookup_entry (zone_dir s) n) as [nd|e] eqn:Hl; cbn [fst snd].
  - destruct (zone_dir s) eqn:Hd; try discriminate. destruct nd as [| |[]|]; cbn [fst snd zone_dir update_entries ents]; done.
  - split; [done|by apply lookup_entry_missing].
Qed.
Lemma wp_rename old new s : wpio (os_Rename w old new) s (fun r s' =>
  match r with
  | Ok _ => exists nd, entries s !! old = Some nd /\ entries s' = <[new := nd]> (delete old (entries s))
  | Err _ => still s s'
  end).
Proof.
  unfold wpio, os_Rename, syscall. destruct (fault w (tick s)) as [er|]; cbn [fst snd]; [done|].
  destruct (lookup_entry (zone_dir s) old) as [nd|e] eqn:Hl; cbn [fst snd]; [|done].
  pose proof (lookup_entry_ok _ _ _ Hl) as Ho. destruct (zone_dir s) eqn:Hd; try discriminate.
  destruct (lookup_entry (Dir entries) new) as [[| |b|]|e'] eqn:Hn; cbn [fst snd zone_dir update_entries ents] in *; eauto; done.
Qed.
Lemma wp_mkdir s : wpio (os_MkdirAll w) s (fun _ s' => entries s' = entries s).
Proof. unfold wpio, os_MkdirAll, syscall. destruct (fault w (tick s)) as [er|]; cbn [fst snd]; [done|]. by destruct (zone_dir s) eqn:Hd; cbn; rewrite ?Hd. Qed.

(** *** Reading *)
Lemma quiet_validateExisting : quiet (validateExistingZoneDirectory w).
Proof. apply quiet_try; [by apply quiet_syscall|]. intros []; done. Qed.
Lemma quiet_validateIfExists : quiet (validateZoneDirectoryIfExists w).
Proof. apply quiet_bind; [apply quiet_validateExisting|]. intros [|e]; [done|]. by apply quiet_if. Qed.

Lemma ensure_entries s : wpio (ensureZoneDirectory w) s (fun _ s' => entries s' = entries s).
Proof.
  apply wpio_bind. eapply wpio_mono; [apply wp_quiet, quiet_validateExisting|]. intros first s1 H1.
  apply wpio_try. eapply wpio_mono with (Q := fun _ s' => still s1 s').
  { destruct first; [done|]. by destruct (os_IsNotExist e). }
  intros [existed|e] s2 H2; [|by rewrite H2, H1].
  apply wpio_try, wpio_wrap. eapply wpio_mono; [apply wp_mkdir|]. intros [[]|e] s3 H3; cbn; [|by rewrite H3, H2, H1].
  apply wpio_try, wpio_wrap. eapply wpio_mono; [apply wp_quiet, quiet_validateExisting|]. intros [[]|e] s4 H4; cbn; [|by rewrite H4, H3, H2, H1].
  destruct existed; cbn [negb]; [apply wpio_ret; by rewrite H4, H3, H2, H1|].
  eapply wpio_mono; [apply wp_quiet, quiet_wrap, quiet_syncDir|]. intros r s5 H5. by rewrite H5, H4, H3, H2, H1.
Qed.

Definition read_as (n : string) (s : fs) (r : result (string * Z)) : Prop :=
  match r with
  | Ok (data, perm) => exists i t, entries s !! n = Some (Regular i perm t data)
  | Err e => os_IsNotExist e = true -> entries s !! n = None
  end.
Lemma wp_readRegular n label s : wpio (readRegularSyncFile w n label) s (fun r s' => still s s' /\ read_as n s r).
Proof.
  apply wpio_try, wp_lookup; [done|]. intros info s1 H1 Hinfo.
  destruct (is_symlink info) eqn:Hsym; [by apply wpio_ret|]. destruct (is_regular info) eqn:Hreg; cbn [negb]; [|by apply wpio_ret].
  destruct (_ <? node_size info); [by apply wpio_ret|].
  apply wpio_try, wp_lookup; rewrite H1; [intros e s2 H2 He; split; [by eapply still_trans|done]|]. intros file s2 H2 Hfile. rewrite Hinfo in Hfile. injection Hfile as <-.
  apply wpio_try, (wp_value (fun _ => info)); [intros e s3 H3 He; split; [by repeat (eapply still_trans; [eassumption|])|cbn; by rewrite He]|].
  intros _ s3 H3. pose proof (still_trans _ _ _ H2 H3) as H13. pose proof (still_trans _ _ _ H1 H13) as H03.
  destruct (SameFile info info); cbn [negb]; [|by apply wpio_ret]. rewrite Hreg. cbn [negb].
  destruct (Z.ltb_spec maxSyncFileSize (node_size info)) as [|Hsize]; [by apply wpio_ret|].
  apply wpio_try, (wp_value (fun _ => _)); [intros e s4 H4 He; split; [by eapply still_trans|cbn; by rewrite He]|].
  intros _ s4 H4. assert (H04 : still s s4) by (by eapply still_trans).
  destruct info as [i perm t data| | |]; try discriminate. cbn [node_data node_size] in *.
  rewrite (proj2 (Z.leb_le (len data) (maxSyncFileSize + 1))) by lia.
  rewrite (proj2 (Z.ltb_ge maxSyncFileSize (len data))) by lia. apply wpio_ret. split; [done|]. cbn. eauto.
Qed.

(** *** Temporary files *)
Definition fresh_temp (pre suf : string) (s : fs) (n : string) : Prop := temp_name pre suf n /\ entries s !! n = None.

Lemma wp_create tries pre suf s : wpio (create_temp w tries pre suf) s (fun r s' =>
  match r with
  | Ok n => fresh_temp pre suf s n /\ exists i p t data, entries s' = <[n := Regular i p t data]> (entries s)
  | Err _ => entries s' = entries s
  end).
Proof.
  unfold fresh_temp. revert s. induction tries as [|tries IH]; intros s; [done|]. cbn [create_temp]. apply wpio_bind.
  unfold wpio at 1, syscall. destruct (fault w (tick s)) as [er|]; cbn [fst snd]; [done|].
  destruct (zone_dir s) as [| | |es] eqn:Hd; cbn [fst snd]; [by apply wpio_ret..|].
  set (n := pre +:+ _). destruct (es !! n) as [nd|] eqn:Hn; cbn [fst snd].
  - eapply wpio_mono; [apply IH|]. done.
  - apply wpio_ret. cbn [zone_dir ents]. split; [|eauto]. split; [by exists (random w (tick s))|done].
Qed.

Lemma ents_alter f n d : ents (update_entries (alter f n) d) = alter f n (ents d).
Proof. destruct d; cbn; try done; by rewrite alter_empty. Qed.
Lemma wp_fill n data perm s es i p t x : entries s = <[n := Regular i p t x]> es ->
  wpio (fill_temp w n data perm) s (fun r s' => exists i p t x, entries s' = <[n := Regular i p t x]> es
    /\ (r = Ok tt -> x = data /\ p = perm)).
Proof.
  intros He. unfold fill_temp. apply wpio_try. unfold wpio at 1, tmp_Chmod, syscall.
  destruct (fault w (tick s)) as [er|]; cbn [fst snd]; [do 4 eexists; split; [exact He|discriminate]|]. apply wpio_try. unfold wpio at 1, tmp_Write.
  cbn [tick zone_dir]. set (t1 := S (tick s)).
  assert (Hput : forall c, ents (update_entries (alter (set_data (mtime_now w t1) c) n) (update_entries (alter (set_perm perm) n) (zone_dir s)))
    = <[n := Regular i perm (mtime_now w t1) c]> es).
  { intros c. rewrite !ents_alter, He, !alter_insert_eq. done. }
  destruct (fault w t1) as [er|]; cbn [fst snd zone_dir]; [do 4 eexists; split; [apply Hput|discriminate]|].
  set (s2 := mkFs _ (S t1)). assert (He2 : entries s2 = <[n := Regular i perm (mtime_now w t1) data]> es) by apply Hput.
  apply wpio_try, (wp_value (fun _ => tt)); [intros e s3 H3 _; rewrite H3; do 4 eexists; split; [exact He2|discriminate]|]. intros _ s3 H3.
  apply (wp_value (fun _ => tt)); [intros e s4 H4 _|intros _ s4 H4]; rewrite H4, H3; do 4 eexists; (split; [exact He2|done]).
Qed.

Lemma wp_writeTemp pre suf data perm s : wpio (writeTempFileSync w pre suf data perm) s (fun r s' =>
  match r with
  | Ok n => fresh_temp pre suf s n /\ exists i t, entries s' = <[n := Regular i perm t data]> (entries s)
  | Err _ => only (fresh_temp pre suf s) s s'
  end).
Proof.
  apply wpio_try. eapply wpio_mono; [apply wp_create|]. intros [n|e] s1; [|intros H1 m _; by rewrite H1].
  intros (Hfresh & i & p & t & x & H1). apply wpio_bind. eapply wpio_mono; [by eapply wp_fill|].
  intros r s2 (i' & p' & t' & x' & H2 & Hok). destruct r as [[]|e].
  - apply wpio_ret. split; [done|]. destruct (Hok eq_refl) as [-> ->]. eauto.
  - apply wpio_bind. eapply wpio_mono; [apply wp_remove|]. intros r3 s3 H3. apply wpio_ret. intros m Hm.
    assert (m <> n) by (by intros ->). destruct r3 as [[]|e3]; [|destruct H3 as [H3 _]]; rewrite H3.
    + rewrite lookup_delete_ne by done. by rewrite H2, lookup_insert_ne.
    + by rewrite H2, lookup_insert_ne.
Qed.

Lemma fresh_kept pre suf s s' n nd : only (fresh_temp pre suf s) s s' -> entries s !! n = Some nd -> entries s' !! n = Some nd.
Proof. intros Ho Hn. rewrite Ho; [done|]. intros [_ ?]. congruence. Qed.
Lemma writeTemp_only pre suf data perm s : wpio (writeTempFileSync w pre suf data perm) s (fun r s' => only (fresh_temp pre suf s) s s').
Proof.
  eapply wpio_mono; [apply wp_writeTemp|]. intros [n|e] s'; [|done]. intros (Hf & i & t & He) m Hm. rewrite He.
  rewrite lookup_insert_ne; [done|]. by intros ->.
Qed.

(** *** Replacing a file through a temporary one *)
Lemma rename_temp n pre suf tmp nd (s s1 s2 : fs) : fresh_temp pre suf s tmp -> entries s1 = <[tmp := nd]> (entries s) ->
  entries s2 = <[n := nd]> (delete tmp (entries s1)) ->
  only (fun m => m = n \/ fresh_temp pre suf s m) s s2 /\ entries s2 !! n = Some nd.
Proof.
  intros Hf H1 H2. split; [|by rewrite H2, lookup_insert_eq]. intros m Hm.
  assert (m <> n /\ m <> tmp) as [Hn Ht] by (split; intros ->; tauto).
  by rewrite H2, lookup_insert_ne, H1, lookup_delete_ne, lookup_insert_ne.
Qed.
(** The file [n] is as before or has the data [new]; other entries are kept, up
    to new temporary files. *)
Definition replaced (n pre suf : string) (new : option string) (s s' : fs) : Prop :=
  only (fun m => m = n \/ fresh_temp pre suf s m) s s'
  /\ (content (entries s' !! n) = content (entries s !! n) \/ content (entries s' !! n) = new).
Lemma replaced_temp n pre suf new s s' : ~ temp_name pre suf n -> only (fresh_temp pre suf s) s s' -> replaced n pre suf new s s'.
Proof.
  intros Hn Ho. split; [eapply only_weaken; [|exact Ho]; by right|]. left. rewrite Ho; [done|]. by intros [? _].
Qed.
Lemma replaced_still n pre suf new s s' s'' : replaced n pre suf new s s' -> still s' s'' -> replaced n pre suf new s s''.
Proof. unfold replaced, only. intros Hr Hs. by rewrite Hs. Qed.
(** Removing the temporary file again after a failed rename. *)
Lemma replaced_cleanup n pre suf new tmp nd s s1 s' : ~ temp_name pre suf n -> fresh_temp pre suf s tmp ->
  entries s1 = <[tmp := nd]> (entries s) -> (entries s' = entries s1 \/ entries s' = delete tmp (entries s1)) -> replaced n pre suf new s s'.
Proof.
  intros Hn Hf H1 H'. apply replaced_temp; [done|]. intros m Hm. assert (m <> tmp) by (by intros ->).
  destruct H' as [-> | ->]; rewrite ?lookup_delete_ne, H1, lookup_insert_ne by done; done.
Qed.
Lemma wp_remove_any n s : wpio (os_Remove w n) s (fun _ s' => entries s' = entries s \/ entries s' = delete n (entries s)).
Proof. eapply wpio_mono; [apply wp_remove|]. intros [[]|e] s'; [by right|]. intros [Hs _]. left. by rewrite Hs. Qed.

(** Write a temporary file, rename it to [n], flush the directory. *)
Lemma wp_replace n pre suf data perm p1 p2 p3 s : ~ temp_name pre suf n ->
  wpio (io_try (io_wrap p1 (writeTempFileSync w pre suf data perm)) (fun tmpPath =>
        io_bind (os_Rename w tmpPath n) (fun renamed =>
        match renamed with
        | Err e => io_bind (os_Remove w tmpPath) (fun _ => io_fail (Wrapf p2 e))
        | Ok _ => io_wrap p3 (syncDir w)
        end))) s
    (fun r s' => replaced n pre suf (Some data) s s' /\ (r = Ok tt -> content (entries s' !! n) = Some data)).
Proof.
  intros Hn. apply wpio_try, wpio_wrap. eapply wpio_mono; [apply wp_writeTemp|].
  intros [tmp|e] s1; cbn [wrap]; [|intros Ho; split; [by apply replaced_temp|done]].
  intros (Hf & i & t & H1). apply wpio_bind. eapply wpio_mono; [apply wp_rename|]. intros [[]|e] s2.
  - intros (nd & Hnd & H2). rewrite H1, lookup_insert_eq in Hnd. injection Hnd as <-.
    destruct (rename_temp n pre suf tmp _ s s1 s2 Hf H1 H2) as [Ho Hnew].
    eapply wpio_mono; [apply wp_quiet, quiet_wrap, quiet_syncDir|]. intros r s3 H3.
    assert (Hc : content (entries s3 !! n) = Some data) by (by rewrite H3, Hnew).
    split; [|done]. split; [|by right]. intros m Hm. by rewrite H3, Ho.
  - intros H2. apply wpio_bind. eapply wpio_mono; [apply wp_remove_any|]. intros r3 s3 H3. apply wpio_ret. split; [|done].
    rewrite H2 in H3. by apply (replaced_cleanup n pre suf _ tmp _ s s1 s3 Hn Hf H1).
Qed.

(** *** Snapshots *)
Definition snap_content (snap : zoneFileSnapshot) : option string := if snap_exists snap then Some (snap_data snap) else None.
Lemma wp_snapshot n s : wpio (snapshotZoneFile w n) s (fun r s' => still s s'
  /\ forall snap, r = Ok snap -> content (entries s !! n) = snap_content snap /\ (snap_exists snap = false -> entries s !! n = None)).
Proof.
  apply wpio_bind. eapply wpio_mono; [apply wp_readRegular|]. intros [[data mode]|e] s1 [H1 Hr]; cbn in Hr.
  - destruct Hr as (i & t & Hr). apply wpio_ret. split; [done|]. intros snap [= <-]. by rewrite Hr.
  - destruct (os_IsNotExist e); apply wpio_ret; (split; [done|]); [|done]. intros snap [= <-]. by rewrite Hr.
Qed.

Definition rollback_pre (n : string) : string := "." +:+ n +:+ ".".
Lemma wp_restore n snap s : wpio (restoreZoneFileSnapshot w n snap) s (fun r s' =>
  replaced n (rollback_pre n) ".rollback" (snap_content snap) s s'
  /\ (r = Ok tt -> content (entries s' !! n) = snap_content snap)).
Proof.
  assert (Hn : ~ temp_name (rollback_pre n) ".rollback" n) by apply temp_longer, dotted_longer.
  unfold restoreZoneFileSnapshot, snap_content. destruct (snap_exists snap); cbn [negb].
  - apply wpio_try, wpio_wrap. eapply wpio_mono; [apply wp_mkdir|]. intros [[]|e] s1 H1; cbn [wrap].
    + eapply wpio_mono; [by apply wp_replace|]. cbv beta. unfold replaced, only, fresh_temp. rewrite H1. done.
    + split; [|done]. apply replaced_temp; [done|]. intros m _. by rewrite H1.
  - apply wpio_bind. eapply wpio_mono; [apply wp_remove|]. intros [[]|e] s1 H1.
    + eapply wpio_mono; [apply wp_quiet, quiet_wrap, quiet_syncDir|]. intros r s2 H2.
      assert (Hc : content (entries s2 !! n) = None) by (by rewrite H2, H1, lookup_delete_eq).
      split; [|done]. split; [|by right]. intros m Hm. rewrite H2, H1, lookup_delete_ne; [done|]. intros ->. tauto.
    + destruct H1 as [H1 Hex]. destruct (os_IsNotExist e); apply wpio_ret; (split; [by apply replaced_temp, still_only|]); [|done].
      intros _. rewrite H1, Hex by done. done.
Qed.

(** *** Backups *)
Definition backup_pre (n : string) : string := n +:+ ".backup.".
Lemma wp_backup n s : wpio (backupFile w n) s (fun r s' =>
  only (fresh_temp (backup_pre n) "" s) s s' /\ (forall b, r = Ok b -> fresh_temp (backup_pre n) "" s b)).
Proof.
  apply wpio_try, wpio_wrap. eapply wpio_mono; [apply wp_readRegular|]. intros [[data mode]|e] s1 [H1 _]; cbn [wrap fst];
    [|split; [by apply still_only|done]].
  assert (Heq : fresh_temp (backup_pre n) "" s1 = fresh_temp (backup_pre n) "" s) by (unfold fresh_temp; by rewrite H1).
  apply wpio_try, wpio_wrap. eapply wpio_mono; [apply (wp_writeTemp (backup_pre n))|]. intros [b|e] s2; cbn [wrap].
  - intros (Hf & i & t & H2). rewrite Heq in Hf. rewrite H1 in H2.
    assert (Ho : only (fresh_temp (backup_pre n) "" s) s s2).
    { intros m Hm. rewrite H2, lookup_insert_ne; [done|by intros ->]. }
    apply wpio_bind. eapply wpio_mono; [apply wp_quiet, quiet_syncDir|]. intros [[]|e] s3 H3.
    + apply wpio_ret. split; [|by intros b' [= <-]]. eapply only_trans; [exact Ho|by apply still_only].
    + apply wpio_bind. eapply wpio_mono; [apply wp_remove_any|]. intros r4 s4 H4. apply wpio_ret. split; [|done].
      intros m Hm. rewrite <- (Ho m Hm), <- H3. destruct H4 as [-> | ->]; [done|]. apply lookup_delete_ne. by intros ->.
  - intros Ho. rewrite Heq in Ho. split; [|done]. eapply only_trans; [by apply still_only|done].
Qed.
Lemma wp_backup_current n s : wpio (backup_current w n) s (fun r s' => only (fresh_temp (backup_pre n) "" s) s s'
  /\ (forall b, r = Ok b -> b <> "" -> fresh_temp (backup_pre n) "" s b)).
Proof.
  apply wpio_bind. eapply wpio_mono; [by apply wp_quiet, quiet_syscall|]. intros [t|e] s1 H1.
  - apply wpio_wrap. eapply wpio_mono; [apply wp_backup|]. unfold fresh_temp, only. rewrite H1. intros [b|er] s2 [Ho Hb]; cbn [wrap].
    + split; [done|]. intros b' [= <-] _. by apply Hb.
    + done.
  - apply wpio_ret. split; [by apply still_only|]. by intros b [= <-].
Qed.
Lemma wp_removeBackup b s : wpio (removeRollbackBackup w b) s (fun _ s' => only (fun m => m = b) s s').
Proof.
  apply wpio_bind. eapply wpio_mono; [apply wp_remove|]. intros [[]|e] s1 H1.
  - eapply wpio_mono; [apply wp_quiet, quiet_wrap, quiet_syncDir|]. intros r s2 H2 m Hm. rewrite H2, H1. by apply lookup_delete_ne.
  - destruct H1 as [H1 _]. destruct (os_IsNotExist e); apply wpio_ret; by apply still_only.
Qed.

(** Entries may only disappear, and only those with a name in [P]. *)
Definition pruned (P : string -> Prop) (s s' : fs) : Prop :=
  forall n, entries s' !! n = entries s !! n \/ (P n /\ entries s' !! n = None).
Lemma pruned_still (P : string -> Prop) s s' : still s s' -> pruned P s s'.
Proof. intros Hs n. left. by rewrite Hs. Qed.
Lemma pruned_trans P s1 s2 s3 : pruned P s1 s2 -> pruned P s2 s3 -> pruned P s1 s3.
Proof. intros H1 H2 n. destruct (H2 n) as [->|?]; [apply H1|by right]. Qed.
Lemma pruned_weaken (P P' : string -> Prop) s s' : (forall n, P n -> P' n) -> pruned P s s' -> pruned P' s s'.
Proof. intros HP Hs n. destruct (Hs n) as [|[? ?]]; [by left|right; auto]. Qed.
Lemma wp_remove_each names b s : wpio (remove_each w names b) s (fun _ s' => pruned (fun m => m ∈ names) s s').
Proof.
  revert b s. induction names as [|n names IH]; intros b s; [by left|]. cbn [remove_each]. apply wpio_bind.
  eapply wpio_mono; [apply wp_remove_any|]. intros r s1 H1. eapply wpio_mono; [apply IH|]. intros b' s2 H2.
  eapply pruned_trans; [|eapply pruned_weaken; [|exact H2]; set_solver]. intros m.
  destruct H1 as [-> | ->]; [by left|]. destruct (decide (m = n)) as [->|]; [right|left].
  - rewrite lookup_delete_eq. set_solver.
  - by rewrite lookup_delete_ne.
Qed.
Lemma wp_listBackups z s : wpio (listBackups w z) s (fun r s' => still s s'
  /\ forall names, r = Ok names -> forall n, n ∈ names -> HasPrefix n (ZoneBackupPattern z) = true).
Proof.
  apply wpio_wrap. unfold wpio, filepath_Glob. destruct (bad_pattern w _); cbn [fst snd wrap]; [done|]. split; [done|].
  intros names [= <-] n Hn. destruct (fault w (tick s)); [by apply elem_of_nil in Hn|]. destruct (zone_dir s); [by apply elem_of_nil in Hn..|].
  unfold sort_Strings in Hn. rewrite sort_Slice_Permutation, list_elem_of_In, filter_In in Hn. tauto.
Qed.
Definition backup_of (z n : string) : Prop := HasPrefix n (ZoneBackupPattern z) = true.
Lemma wp_cleanup z s : wpio (cleanupBackups w fm z) s (fun _ s' => pruned (backup_of z) s s').
Proof.
  apply wpio_try. eapply wpio_mono; [apply wp_listBackups|]. intros [names|e] s1 [H1 Hp]; [|by apply pruned_still].
  destruct (_ <? _); [|by apply wpio_ret, pruned_still]. unfold wpio. set (l := take _ _).
  match goal with |- pruned _ _ (snd (?m s1)) => change (wpio m s1 (fun _ s' => pruned (backup_of z) s s')) end.
  apply wpio_bind. eapply wpio_mono; [apply wp_remove_each|]. intros b s2 H2.
  assert (Ho : pruned (backup_of z) s s2).
  { eapply pruned_trans; [by apply pruned_still|]. eapply pruned_weaken; [|exact H2]. intros n Hn. apply (Hp names eq_refl).
    unfold l in Hn. apply elem_of_take in Hn as (i & Hi & _). apply list_elem_of_lookup_2 in Hi. by rewrite sort_Slice_Permutation in Hi. }
  destruct b; [|done]. eapply wpio_mono; [apply wp_quiet, quiet_wrap, quiet_syncDir|]. intros r s3 H3.
  eapply pruned_trans; [exact Ho|by apply pruned_still].
Qed.
End effects.
