(* ===== verification/Ulid.v ===== *)
(** * Monotonic ULIDs (pkg/util/ulid.go)

    Version identifiers of zones.  The package variables [ulidLastMS] and
    [ulidLastRnd], guarded by a mutex, are the state threaded through
    [NewULID]; the bytes delivered by [crypto/rand] are an input. *)

From S2P Require Import Prelude GoStrings GoStringsFacts.

Definition crockfordBase32 : string := "0123456789ABCDEFGHJKMNPQRSTVWXYZ".
Definition crockford (idx : Z) : ascii := default "0"%char (String.get (Z.to_nat idx) crockfordBase32).

Record ulidState := mkUlid { ulidLastMS : Z; ulidLastRnd : list Z }.
Definition ulidInit : ulidState := mkUlid 0 (replicate 10 0).

(** [increment80] on the bytes from the last one backwards: the incremented
    array and whether the carry left it. *)
Fixpoint increment_bytes (v : list Z) : list Z * bool :=
  match v with
  | [] => ([], true)
  | b :: t =>
    let '(t', carry) := increment_bytes t in
    if carry then (u8 (b + 1) :: t', u8 (b + 1) =? 0) else (b :: t', false)
  end.
Definition increment80 (v : list Z) : result (list Z) :=
  let '(v', overflow) := increment_bytes v in
  if overflow then Err (Errorf "ulid: randomness overflow") else Ok v'.

Definition ulid_data (ms : Z) (rnd : list Z) : list Z :=
  [u8 (Z.shiftr ms 40); u8 (Z.shiftr ms 32); u8 (Z.shiftr ms 24);
   u8 (Z.shiftr ms 16); u8 (Z.shiftr ms 8); u8 ms] ++ rnd.

(** The inner loop: emit digits while five bits are available; [inl] is the
    early return once 26 digits are out. *)
Fixpoint drain (fuel : nat) (buf nbits : Z) (out : string) : string + (Z * Z * string) :=
  match fuel with
  | O => inr (buf, nbits, out)
  | S fuel =>
    if 5 <=? nbits then
      let shift := nbits - 5 in
      let idx := Z.land (Z.shiftr buf shift) 31 in
      let out := out +:+ str1 (crockford idx) in
      let buf := if shift =? 0 then 0 else Z.land buf (u32 (Z.shiftl 1 shift) - 1) in
      let nbits := nbits - 5 in
      if len out =? 26 then inl out else drain fuel buf nbits out
    else inr (buf, nbits, out)
  end.

(** The outer loop over the 16 bytes.  At most 12 bits are pending after a
    byte is shifted in, so three inner iterations are enough. *)
Fixpoint encode_bytes (data : list Z) (buf nbits : Z) (out : string) : string :=
  match data with
  | [] => out
  | b :: data =>
    match drain 3 (u32 (Z.lor (u32 (Z.shiftl buf 8)) b)) (u8 (nbits + 8)) out with
    | inl out => out
    | inr (buf, nbits, out) => encode_bytes data buf nbits out
    end
  end.

Definition encodeULID (ms : Z) (rnd : list Z) : string :=
  encode_bytes (ulid_data ms rnd) 0 2 "".

Definition UnixMilli (t : Time) : Z := t / 1000000.

(** [NewULID(now)]; [rand] is what [rand.Read] delivers when it is called. *)
Definition NewULID (now : Time) (rand : result (list Z)) (st : ulidState) : result string * ulidState :=
  let ms := u64 (UnixMilli now) in
  if ulidLastMS st <? ms then
    match rand with
    | Err e => (Err (Wrapf "read random" e), st)
    | Ok rnd => (Ok (encodeULID ms rnd), mkUlid ms rnd)
    end
  else
    match increment80 (ulidLastRnd st) with
    | Err e => (Err e, st)
    | Ok rnd => (Ok (encodeULID (ulidLastMS st) rnd), mkUlid (ulidLastMS st) rnd)
    end.

Example ulid_sample : encodeULID 1469918176385 [0;0;0;0;0;0;0;0;0;1] = "01ARYZ6S410000000000000001".
Proof. vm_compute. reflexivity. Qed.

(** ** Numbers and digits *)
Definition bytes_ok (l : list Z) : Prop := Forall (fun b => 0 <= b < 256) l.
Definition digits_ok (l : list Z) : Prop := Forall (fun d => 0 <= d < 32) l.
Definition value (base : Z) (l : list Z) : Z := foldl (fun acc b => acc * base + b) 0 l.
Definition digits_string (ds : list Z) : string := str_concat (map (fun d => str1 (crockford d)) ds).

Lemma value_snoc base l d : value base (l ++ [d]) = value base l * base + d.
Proof. unfold value. by rewrite foldl_app. Qed.
Lemma value_go base l acc :
  foldl (fun acc b => acc * base + b) acc l = acc * base ^ Z.of_nat (length l) + value base l.
Proof.
  revert acc. induction l as [|d l IH]; intros acc; simpl; [unfold value; simpl; lia|].
  unfold value. simpl. rewrite !IH. rewrite Nat2Z.inj_succ, Z.pow_succ_r by lia. unfold value. lia.
Qed.
Lemma value_cons base d l : value base (d :: l) = d * base ^ Z.of_nat (length l) + value base l.
Proof. unfold value at 1. simpl. rewrite value_go. lia. Qed.
Lemma value_app base l1 l2 :
  value base (l1 ++ l2) = value base l1 * base ^ Z.of_nat (length l2) + value base l2.
Proof. unfold value at 1. rewrite foldl_app. apply value_go. Qed.
Lemma value_range base l : 0 < base -> Forall (fun d => 0 <= d < base) l ->
  0 <= value base l < base ^ Z.of_nat (length l).
Proof.
  intros Hb. induction 1 as [|d l Hd _ IH]; [unfold value; simpl; lia|].
  rewrite value_cons. simpl length. rewrite Nat2Z.inj_succ, Z.pow_succ_r by lia. nia.
Qed.

Lemma digits_string_snoc ds d : digits_string ds +:+ str1 (crockford d) = digits_string (ds ++ [d]).
Proof.
  unfold digits_string. rewrite map_app. induction ds as [|x ds IH]; simpl.
  - unfold str1. by rewrite str_app_nil_r.
  - by rewrite str_app_assoc, IH.
Qed.
Lemma digits_string_length ds : String.length (digits_string ds) = length ds.
Proof. unfold digits_string. induction ds as [|d ds IH]; simpl; [done|]. rewrite str_length_app, IH. done. Qed.

(** ** The encoder

    After the bytes of value [V] ([n] bits, the two leading zeros included) are
    consumed, the emitted digits and the pending bits together spell [V]. *)
Definition enc_inv (V n buf nbits : Z) (out : string) : Prop :=
  exists ds, out = digits_string ds /\ digits_ok ds /\ 0 <= buf < 2 ^ nbits
    /\ value 32 ds * 2 ^ nbits + buf = V /\ 5 * Z.of_nat (length ds) + nbits = n /\ 0 <= nbits <= 12.

Lemma land_ones_mod x n : 0 <= n -> Z.land x (2 ^ n - 1) = x mod 2 ^ n.
Proof. intros. rewrite <- Z.land_ones by done. by rewrite Z.ones_equiv, Z.sub_1_r. Qed.

Lemma enc_inv_step V n buf nbits out : enc_inv V n buf nbits out -> 5 <= nbits ->
  let shift := nbits - 5 in
  enc_inv V n (if shift =? 0 then 0 else Z.land buf (u32 (Z.shiftl 1 shift) - 1)) shift
    (out +:+ str1 (crockford (Z.land (Z.shiftr buf shift) 31))).
Proof.
  intros (ds & -> & Hds & Hbuf & HV & Hn & Hb) H5 shift.
  assert (0 <= shift <= 7) as Hs by (unfold shift; lia).
  assert (0 < 2 ^ shift <= 2 ^ 7) as Hp by (split; [lia|apply Z.pow_le_mono_r; lia]).
  assert (2 ^ nbits = 32 * 2 ^ shift) as E.
  { replace nbits with (5 + shift) by (unfold shift; lia). rewrite Z.pow_add_r by lia. done. }
  assert (u32 (Z.shiftl 1 shift) = 2 ^ shift) as E1.
  { rewrite Z.shiftl_1_l. apply wrapN_id. unfold in_range. lia. }
  assert ((if shift =? 0 then 0 else Z.land buf (u32 (Z.shiftl 1 shift) - 1)) = buf mod 2 ^ shift) as ->.
  { destruct (Z.eqb_spec shift 0) as [->|]; [by rewrite Z.mod_1_r|].
    rewrite E1, land_ones_mod by lia. done. }
  assert (Z.land (Z.shiftr buf shift) 31 = buf / 2 ^ shift) as ->.
  { rewrite Z.shiftr_div_pow2 by lia. change 31 with (2 ^ 5 - 1). rewrite land_ones_mod by lia.
    apply Z.mod_small. split; [apply Z.div_pos; lia|apply Z.div_lt_upper_bound; lia]. }
  rewrite digits_string_snoc. eexists. split; [done|].
  assert (0 <= buf / 2 ^ shift < 32).
  { split; [apply Z.div_pos; lia|apply Z.div_lt_upper_bound; lia]. }
  pose proof (Z.div_mod buf (2 ^ shift) ltac:(lia)). pose proof (Z.mod_pos_bound buf (2 ^ shift) ltac:(lia)).
  repeat split; try lia.
  - apply Forall_app. split; [done|]. by constructor.
  - rewrite value_snoc, <- HV, E. nia.
  - rewrite length_app. simpl. lia.
Qed.

Lemma drain_inv fuel V n buf nbits out :
  enc_inv V n buf nbits out -> nbits < 5 * Z.of_nat fuel -> len out < 26 ->
  match drain fuel buf nbits out with
  | inl out' => len out' = 26 /\ exists buf' nbits', enc_inv V n buf' nbits' out'
  | inr (buf', nbits', out') => enc_inv V n buf' nbits' out' /\ nbits' < 5 /\ len out' < 26
  end.
Proof.
  revert buf nbits out. induction fuel as [|fuel IH]; intros buf nbits out Hi Hf Hl.
  { exfalso. destruct Hi as (ds & _ & _ & _ & _ & _ & ?). lia. }
  cbn [drain]. destruct (Z.leb_spec 5 nbits) as [H5|H5]; [|split; [done|lia]].
  pose proof (enc_inv_step V n buf nbits out Hi H5) as Hstep. cbv zeta in *.
  destruct (Z.eqb_spec (len (out +:+ str1 (crockford (Z.land (Z.shiftr buf (nbits - 5)) 31)))) 26) as [E|E].
  - split; [done|]. eauto.
  - apply IH; [done|lia|]. unfold len in *. rewrite str_length_app in *. simpl in *. lia.
Qed.

Lemma enc_inv_push V n buf nbits out b :
  enc_inv V n buf nbits out -> nbits < 5 -> 0 <= b < 256 ->
  enc_inv (V * 256 + b) (n + 8) (u32 (Z.lor (u32 (Z.shiftl buf 8)) b)) (u8 (nbits + 8)) out.
Proof.
  intros (ds & -> & Hds & Hbuf & HV & Hn & Hnb) H5 Hb.
  assert (2 ^ nbits <= 2 ^ 4) by (apply Z.pow_le_mono_r; lia).
  assert (2 ^ (nbits + 8) = 2 ^ nbits * 256) as E by (rewrite Z.pow_add_r by lia; done).
  unfold u8, u32.
  rewrite (wrapN_id 8) by (unfold in_range; lia).
  rewrite Z.shiftl_mul_pow2, (wrapN_id 32 (buf * 2 ^ 8)) by (unfold in_range; lia).
  assert (Z.lor (buf * 2 ^ 8) b = buf * 256 + b) as ->.
  { assert (Z.land (buf * 2 ^ 8) b = 0) as E0; [|by rewrite <- Z.lxor_lor, <- Z.add_nocarry_lxor].
    apply Z.bits_inj'. intros k Hk. rewrite <- Z.shiftl_mul_pow2, Z.land_spec, Z.bits_0 by lia.
    destruct (Z.lt_ge_cases k 8); [by rewrite Z.shiftl_spec_low by lia|].
    rewrite (Z.bits_above_log2 b k), andb_false_r; [done|lia|].
    destruct (decide (b = 0)) as [->|]; [simpl; lia|]. apply Z.log2_lt_pow2; [lia|].
    apply Z.lt_le_trans with (2 ^ 8); [lia|apply Z.pow_le_mono_r; lia]. }
  rewrite (wrapN_id 32) by (unfold in_range; lia).
  exists ds. repeat split; try done; try lia; nia.
Qed.

(** The 16 bytes come out as the 26 base-32 digits of the number they spell. *)
Lemma encode_bytes_value data V n buf nbits out :
  enc_inv V n buf nbits out -> nbits < 5 -> len out < 26 -> bytes_ok data ->
  n + 8 * Z.of_nat (length data) = 130 ->
  exists ds, encode_bytes data buf nbits out = digits_string ds /\ digits_ok ds /\ length ds = 26%nat
    /\ value 32 ds = V * 256 ^ Z.of_nat (length data) + value 256 data.
Proof.
  revert V n buf nbits out. induction data as [|b data IH]; intros V n buf nbits out Hi H5 Hl Hd Hn.
  - exfalso. destruct Hi as (ds & -> & _ & _ & _ & Hn' & Hb). simpl in Hn.
    unfold len in Hl. rewrite digits_string_length in Hl. lia.
  - apply Forall_cons_1 in Hd as [Hb Hd]. cbn [encode_bytes length] in *.
    assert (nbits <= 4) by lia. pose proof (enc_inv_push _ _ _ _ _ b Hi H5 Hb) as Hp.
    assert (u8 (nbits + 8) < 5 * Z.of_nat 3).
    { destruct Hi as (? & _ & _ & _ & _ & _ & ?). rewrite (wrapN_id 8) by (unfold in_range; lia). lia. }
    pose proof (drain_inv 3 _ _ _ _ _ Hp ltac:(done) Hl) as Hdr. rewrite value_cons.
    rewrite Nat2Z.inj_succ, Z.pow_succ_r by lia.
    destruct (drain 3 _ _ out) as [out'|[[buf' nbits'] out']].
    + destruct Hdr as (H26 & buf' & nbits' & ds & -> & Hds & Hbuf' & HV & Hn' & Hnb').
      unfold len in H26. rewrite digits_string_length in H26.
      assert (nbits' = 0 /\ length data = 0%nat) as [-> Hz] by lia.
      exists ds. repeat split; [done|lia|]. destruct data; [|done]. unfold value at 2. simpl. lia.
    + destruct Hdr as (Hi' & H5' & Hl').
      destruct (IH _ _ _ _ _ Hi' H5' Hl' Hd ltac:(lia)) as (ds & -> & Hds & H26 & HV).
      exists ds. repeat split; try done. rewrite HV. lia.
Qed.

(** ** Order of encodings *)
Lemma crockford_mono d e : 0 <= d < 32 -> 0 <= e < 32 -> d < e -> byte (crockford d) < byte (crockford e).
Proof.
  intros Hd He Hlt.
  assert (forallb (fun i => forallb (fun j => implb (Nat.ltb i j)
      (byte (crockford (Z.of_nat i)) <? byte (crockford (Z.of_nat j)))) (List.seq 0 32)) (List.seq 0 32) = true) as H
    by (vm_compute; reflexivity).
  rewrite forallb_forall in H. specialize (H (Z.to_nat d)). rewrite forallb_forall in H.
  specialize (H ltac:(apply in_seq; lia) (Z.to_nat e) ltac:(apply in_seq; lia)).
  rewrite !Z2Nat.id in H by lia. rewrite (proj2 (Nat.ltb_lt _ _)) in H by lia. by apply Z.ltb_lt.
Qed.

Lemma digits_string_order ds es : digits_ok ds -> digits_ok es -> length ds = length es ->
  value 32 ds < value 32 es -> str_ltb (digits_string ds) (digits_string es) = true.
Proof.
  intros Hds. revert es. induction Hds as [|d ds Hd Hds IH]; intros [|e es] Hes Hl Hv; try done.
  apply Forall_cons_1 in Hes as [He Hes]. injection Hl as Hl. rewrite !value_cons in Hv.
  pose proof (value_range 32 ds ltac:(lia) Hds). pose proof (value_range 32 es ltac:(lia) Hes).
  rewrite <- Hl in *. unfold digits_string, str1. cbn [map str_concat foldr].
  rewrite !str_app_cons, !str_app_nil_l, str_ltb_cons.
  destruct (Z.lt_trichotomy d e) as [Hlt|[->|Hgt]].
  - by rewrite (proj2 (Z.ltb_lt _ _) (crockford_mono d e Hd He Hlt)).
  - rewrite Z.ltb_irrefl. apply IH; [done..|lia].
  - exfalso. nia.
Qed.

(** ** Keys: the 128-bit number a ULID spells *)
Definition rnd_ok (rnd : list Z) : Prop := bytes_ok rnd /\ length rnd = 10%nat.
Definition key (st : ulidState) : Z := ulidLastMS st * 2 ^ 80 + value 256 (ulidLastRnd st).
Definition ulid_wf (st : ulidState) : Prop := 0 <= ulidLastMS st < 2 ^ 48 /\ rnd_ok (ulidLastRnd st).

Lemma u8_range x : 0 <= u8 x < 256.
Proof. apply (wrapN_range 8). lia. Qed.

Lemma shiftr_u8 x n : 0 <= n -> Z.shiftr x n = Z.shiftr x (n + 8) * 256 + u8 (Z.shiftr x n).
Proof.
  intros Hn. rewrite <- Z.shiftr_shiftr by lia. rewrite (Z.shiftr_div_pow2 _ 8) by lia.
  unfold u8, wrapN. change (2 ^ 8) with 256. rewrite (Z.div_mod (Z.shiftr x n) 256) at 1 by lia. ring.
Qed.

Lemma ulid_data_value ms rnd : 0 <= ms < 2 ^ 48 -> rnd_ok rnd ->
  bytes_ok (ulid_data ms rnd) /\ length (ulid_data ms rnd) = 16%nat
  /\ value 256 (ulid_data ms rnd) = ms * 2 ^ 80 + value 256 rnd.
Proof.
  intros Hms [Hb Hl]. unfold ulid_data. repeat split.
  - apply Forall_app. split; [|done]. repeat (constructor; [apply u8_range|]). constructor.
  - rewrite length_app, Hl. done.
  - rewrite value_app, Hl. change (256 ^ Z.of_nat 10) with (2 ^ 80). do 2 f_equal.
    unfold value. cbn [foldl]. assert (Z.shiftr ms 48 = 0) as H48.
    { rewrite Z.shiftr_div_pow2 by lia. by apply Z.div_small. }
    pose proof (shiftr_u8 ms 40 ltac:(lia)) as E40. pose proof (shiftr_u8 ms 32 ltac:(lia)) as E32.
    pose proof (shiftr_u8 ms 24 ltac:(lia)) as E24. pose proof (shiftr_u8 ms 16 ltac:(lia)) as E16.
    pose proof (shiftr_u8 ms 8 ltac:(lia)) as E8. pose proof (shiftr_u8 ms 0 ltac:(lia)) as E0.
    change (40 + 8) with 48 in E40. change (32 + 8) with 40 in E32. change (24 + 8) with 32 in E24.
    change (16 + 8) with 24 in E16. change (8 + 8) with 16 in E8. change (0 + 8) with 8 in E0. rewrite H48 in E40. rewrite Z.shiftr_0_r in E0.
    rewrite <- E40, <- E32, <- E24, <- E16, <- E8, <- E0. done.
Qed.

Lemma encodeULID_digits ms rnd : 0 <= ms < 2 ^ 48 -> rnd_ok rnd ->
  exists ds, encodeULID ms rnd = digits_string ds /\ digits_ok ds /\ length ds = 26%nat
    /\ value 32 ds = key (mkUlid ms rnd).
Proof.
  intros Hms Hr. destruct (ulid_data_value ms rnd Hms Hr) as (Hb & Hl & HV).
  assert (enc_inv 0 2 0 2 "") as Hi.
  { exists []. repeat split; try done; try lia. constructor. }
  destruct (encode_bytes_value (ulid_data ms rnd) 0 2 0 2 "" Hi ltac:(lia) ltac:(done) Hb ltac:(lia))
    as (ds & E & Hds & H26 & Hv).
  exists ds. repeat split; try done. rewrite Hv, HV. unfold key. simpl ulidLastMS. simpl ulidLastRnd. lia.
Qed.

Lemma increment_bytes_value v : bytes_ok v ->
  let '(v', c) := increment_bytes v in
  bytes_ok v' /\ length v' = length v
  /\ value 256 v' + (if c then 256 ^ Z.of_nat (length v) else 0) = value 256 v + 1.
Proof.
  induction 1 as [|b v Hb Hv IH]; [by repeat split; constructor|]. cbn [increment_bytes].
  destruct (increment_bytes v) as [v' c]. destruct IH as (Hv' & Hl & HV).
  destruct c; cbn [length].
  - rewrite Nat2Z.inj_succ, Z.pow_succ_r by lia. split; [by constructor; [apply u8_range|]|]. rewrite !value_cons, Hl. split; [done|].
    unfold u8, wrapN. change (2 ^ 8) with 256. destruct (Z.eqb_spec ((b + 1) mod 256) 0) as [E|E].
    + assert (b = 255) as ->; [|rewrite E; lia]. apply Z.mod_divide in E as [k Hk]; lia.
    + assert (b <> 255) by (intros ->; done). rewrite Z.mod_small by lia. lia.
  - split; [by constructor|]. rewrite !value_cons, Hl. lia.
Qed.

(** ** [NewULID] *)
Definition valid_input (i : Time * result (list Z)) : Prop :=
  0 <= UnixMilli (fst i) < 2 ^ 48 /\ match snd i with Ok rnd => rnd_ok rnd | Err _ => True end.

(** A sequence of calls, in the order the mutex serializes them. *)
Fixpoint runULID (calls : list (Time * result (list Z))) (st : ulidState) : list (result string) :=
  match calls with
  | [] => []
  | (now, rand) :: calls =>
    let '(r, st') := NewULID now rand st in r :: runULID calls st'
  end.
Definition issued (rs : list (result string)) : list string :=
  omap (fun r => match r with Ok s => Some s | Err _ => None end) rs.

Lemma NewULID_step now rand st : ulid_wf st -> valid_input (now, rand) ->
  match NewULID now rand st with
  | (Ok s, st') => ulid_wf st' /\ key st < key st' /\ s = encodeULID (ulidLastMS st') (ulidLastRnd st')
  | (Err _, st') => st' = st
  end.
Proof.
  intros [Hms Hr] [Hn Hrand]. unfold NewULID. cbn [fst snd] in *.
  unfold u64. rewrite wrapN_id by (unfold in_range; lia).
  pose proof (value_range 256 _ ltac:(lia) (proj1 Hr)) as Hv. rewrite (proj2 Hr) in Hv.
  destruct (Z.ltb_spec (ulidLastMS st) (UnixMilli now)) as [Hlt|Hle].
  - destruct rand as [rnd|e]; [|done]. unfold key, ulid_wf. simpl ulidLastMS. simpl ulidLastRnd.
    pose proof (value_range 256 _ ltac:(lia) (proj1 Hrand)). split_and!; try done; lia.
  - unfold increment80. pose proof (increment_bytes_value _ (proj1 Hr)) as Hi.
    destruct (increment_bytes (ulidLastRnd st)) as [v' []]; [done|]. destruct Hi as (Hb & Hl & HV).
    unfold key, ulid_wf, rnd_ok. simpl ulidLastMS. simpl ulidLastRnd. rewrite Hl, (proj2 Hr).
    split_and!; try done; lia.
Qed.

Lemma encodeULID_order st st' : ulid_wf st -> ulid_wf st' -> key st < key st' ->
  str_ltb (encodeULID (ulidLastMS st) (ulidLastRnd st)) (encodeULID (ulidLastMS st') (ulidLastRnd st')) = true.
Proof.
  destruct st, st'. intros [Hm Hr] [Hm' Hr'] Hk. simpl in *.
  destruct (encodeULID_digits _ _ Hm Hr) as (ds & -> & Hd & Hl & Hv).
  destruct (encodeULID_digits _ _ Hm' Hr') as (ds' & -> & Hd' & Hl' & Hv').
  apply digits_string_order; [done..|lia|lia].
Qed.

Lemma runULID_states calls st : ulid_wf st -> Forall valid_input calls ->
  exists sts, issued (runULID calls st) = map (fun s => encodeULID (ulidLastMS s) (ulidLastRnd s)) sts
    /\ Forall ulid_wf sts /\ Forall (fun s => key st < key s) sts
    /\ StronglySorted (fun s s' => key s < key s') sts.
Proof.
  intros Hwf Hc. revert st Hwf. induction Hc as [|[now rand] calls Hi Hc IH]; intros st Hwf.
  { exists []. repeat split; constructor. }
  pose proof (NewULID_step now rand st Hwf Hi) as Hs. cbn [runULID].
  destruct (NewULID now rand st) as [[s|e] st'].
  - destruct Hs as (Hwf' & Hk & ->). destruct (IH st' Hwf') as (sts & E & Hw & Hgt & Hso).
    exists (st' :: sts). split; [unfold issued; simpl; f_equal; exact E|]. repeat split; [by constructor| |by constructor].
    constructor; [done|]. eapply Forall_impl; [exact Hgt|]. simpl. intros x Hx. lia.
  - subst st'. exact (IH st Hwf).
Qed.

(** C26: ULIDs are unique and sort in the order they are issued: for any sequence
    of calls, whatever the clock does within the 48 bits of milliseconds an
    identifier holds (it may stand still or go back) and whatever the random source
    delivers, the identifiers returned are strictly increasing as strings, and each
    has 26 characters. *)
Theorem ulid_monotonic (calls : list (Time * result (list Z))) (st : ulidState) :
  ulid_wf st -> Forall valid_input calls ->
  StronglySorted (fun a b => str_ltb a b = true) (issued (runULID calls st))
  /\ Forall (fun s => len s = 26) (issued (runULID calls st)).
Proof.
  intros Hwf Hc. destruct (runULID_states calls st Hwf Hc) as (sts & -> & Hw & _ & Hs). split.
  - induction Hs as [|s sts Hs IH Hall]; simpl; constructor.
    + apply IH. by apply Forall_cons_1 in Hw as [_ ?].
    + apply Forall_cons_1 in Hw as [Hws Hw]. apply Forall_map.
      rewrite Forall_forall in *. intros s' Hs'. apply encodeULID_order; auto.
  - apply Forall_map. eapply Forall_impl; [exact Hw|]. intros [ms rnd] [Hm Hr]. simpl in *.
    destruct (encodeULID_digits ms rnd Hm Hr) as (ds & -> & _ & Hl & _).
    unfold len. rewrite digits_string_length, Hl. done.
Qed.

Lemma ulid_monotonic_witness :
  let calls := [(1000000000, Ok (replicate 10 7)); (1000000000, Err (Errorf "unused")); (5, Ok (replicate 10 0))] in
  StronglySorted (fun a b => str_ltb a b = true) (issued (runULID calls ulidInit))
  /\ Forall (fun s => len s = 26) (issued (runULID calls ulidInit)).
Proof.
  apply ulid_monotonic.
  - unfold ulid_wf, rnd_ok, bytes_ok; simpl; split_and!; [lia..| |done]; repeat (constructor; [lia|]); constructor.
  - repeat (constructor; [unfold valid_input, rnd_ok, bytes_ok; simpl; split_and!;
      first [done | vm_compute; done | repeat (constructor; [lia|]); constructor]|]). constructor.
Defined.
