(* ===== verification/Store.v ===== *)
(** * The storage interface (pkg/backend/interface.go and the shared write-path
    helpers of pkg/backend)

    [ZoneStore] is the Go interface with its optional capabilities, [StoreLaws]
    the contract its comments promise, stated over the abstract content of a
    store: a finite map from normalised names to zones.  The functions that use
    a store through the interface ([CountZones], [ListZoneSummaries],
    [CheckHealth]) are verified against the contract alone. *)

From S2P Require Import Prelude GoStrings GoStringsFacts GoSort Zone Names Validation Serial Ulid.

Record ListOptions := mkList { Limit : Z; Offset : Z; Filter : string }.
Record ZoneSummary := mkSummary { sum_Name : string; sum_Version : string }.
Definition summary_of (z : Zone) : ZoneSummary := mkSummary (z_Name z) (z_Version z).

(** What the environment supplies to a write: the date and the time read by
    [time.Now], the time read by the version generator and its random bytes. *)
Record Inputs := mkInputs { in_date : Date; in_now : Time; in_vtime : Time; in_rand : result (list Z) }.

(** ** Helpers shared by the backends *)
Definition normalizeListOffset (offset : Z) : Z := if offset <? 0 then 0 else offset.

Definition cloneDNSSECConfig (config : option DNSSECConfig) : option DNSSECConfig :=
  match config with
  | None => None
  | Some c =>
    Some (mkDNSSEC (Enabled c) (Algorithm c) (KSKKeyTag c) (ZSKKeyTag c) (NSEC3Enabled c)
            (NSEC3Iterations c) (NSEC3Salt c)
            (match SignatureExpiration c with Some t => Some t | None => None end))
  end.

(** The copies are deep, so a copy is a value: nothing is shared with the
    caller's zone. *)
Definition copyZone (zone : option Zone) : option Zone :=
  match zone with
  | None => None
  | Some z =>
    Some (mkZone (z_Name z) (z_Version z) (z_SOA z)
            (map (fun r => mkRecord (rec_ID r) (rec_Name r) (rec_Type r) (rec_TTL r) (rec_Value r)
                             (match rec_Priority r with Some p => Some p | None => None end)) (z_Records z))
            (match z_DNSSEC z with Some c => cloneDNSSECConfig (Some c) | None => None end)
            (z_CreatedAt z) (z_UpdatedAt z))
  end.

Lemma cloneDNSSECConfig_id c : cloneDNSSECConfig c = c.
Proof. by destruct c as [[? ? ? ? ? ? ? []]|]. Qed.
Lemma copyZone_id z : copyZone z = z.
Proof.
  destruct z as [z|]; [|done]. unfold copyZone. destruct z as [n v s rs d c u]; simpl. do 2 f_equal.
  - induction rs as [|r rs IH]; simpl; [done|]. rewrite IH. by destruct r as [? ? ? ? ? []].
  - destruct d as [d|]; [|done]. exact (cloneDNSSECConfig_id (Some d)).
Qed.

(** [copyZoneInto(dst, src)]: the caller's zone is overwritten. *)
Definition copyZoneInto (dst src : option Zone) : option Zone :=
  match dst, src with
  | Some _, Some s => copyZone (Some s)
  | _, _ => dst
  end.

Definition NewZoneVersion (e : Inputs) (u : ulidState) : result string * ulidState :=
  match NewULID (in_vtime e) (in_rand e) u with
  | (Ok id, u') => (Ok ("v" +:+ id), u')
  | (Err err, u') => (Err err, u')
  end.

(** Version identifiers the generator has already issued when its state is [u]. *)
Definition issued_by (u : ulidState) (v : string) : Prop :=
  exists st, ulid_wf st /\ key st <= key u /\ v = "v" +:+ encodeULID (ulidLastMS st) (ulidLastRnd st).

Lemma NewZoneVersion_fresh e u u' v old : ulid_wf u -> valid_input (in_vtime e, in_rand e) ->
  NewZoneVersion e u = (Ok v, u') -> issued_by u old -> v <> old /\ issued_by u' v /\ issued_by u' old.
Proof.
  intros Hwf Hin Hv (st & Hst & Hk & ->). unfold NewZoneVersion in Hv.
  pose proof (NewULID_step (in_vtime e) (in_rand e) u Hwf Hin) as Hs.
  destruct (NewULID (in_vtime e) (in_rand e) u) as [[id|err] u1]; [|discriminate].
  injection Hv as <- <-. destruct Hs as (Hwf' & Hlt & ->). split_and!.
  - intros Heq. apply str_app_inj_l in Heq.
    pose proof (encodeULID_order st u1 Hst Hwf' ltac:(lia)) as Ho. rewrite Heq in Ho.
    by rewrite str_ltb_irrefl in Ho.
  - by exists u1.
  - exists st. split_and!; [done|lia|done].
Qed.

Section write_path.
Context `{UnicodeTables}.

(** The zone is normalised in place before it is validated. *)
Definition validateZoneForWrite (zone : option Zone) : option Zone * result unit :=
  match NormalizeZoneDerivedFields zone with
  | (zone', Err e) => (zone', Err (Wrapf "normalize zone" e))
  | (zone', Ok _) => (zone', wrap "validate zone" (ValidateZone zone'))
  end.

Definition ensureZoneUpdateVersion (e : Inputs) (zone : Zone) (currentVersion : string) (u : ulidState)
  : result Zone * ulidState :=
  if negb (z_Version zone =? "")%string && negb (z_Version zone =? currentVersion)%string
  then (Ok zone, u)
  else match NewZoneVersion e u with
       | (Ok v, u') => (Ok (set_Version v zone), u')
       | (Err err, u') => (Err (Wrapf "generate zone version" err), u')
       end.

Definition version_for_create (e : Inputs) (zone : Zone) (u : ulidState) : result Zone * ulidState :=
  if (z_Version zone =? "")%string then
    match NewZoneVersion e u with
    | (Ok v, u') => (Ok (set_Version v zone), u')
    | (Err err, u') => (Err (Wrapf "generate zone version" err), u')
    end
  else (Ok zone, u).

(** The zone to write; [Ok None] stands for a nil zone with a nil error. *)
Definition prepareZoneForCreate (e : Inputs) (zone : option Zone) (normalize : string -> string) (u : ulidState)
  : result (option Zone) * ulidState :=
  match copyZone zone with
  | None =>
    (match validateZoneForWrite None with (_, Err err) => Err err | (_, Ok _) => Ok None end, u)
  | Some w0 =>
    let w1 := set_Name (normalize (z_Name w0)) w0 in
    let w2 := if Serial (z_SOA w1) =? 0 then set_SOASerial (generateSerial (in_date e) 0) w1 else w1 in
    match version_for_create e w2 u with
    | (Err err, u') => (Err err, u')
    | (Ok w3, u') =>
      let w4 := set_Times (in_now e) (in_now e) w3 in
      match validateZoneForWrite (Some w4) with
      | (_, Err err) => (Err err, u')
      | (w5, Ok _) => (Ok w5, u')
      end
    end
  end.

(** ** The interface *)
Record ZoneVersion := mkZoneVersion {
  zv_Version : string; zv_Serial : Z; zv_Timestamp : Time; zv_Hash : string; zv_Hash8 : string }.
Record RevisionStore (S : Type) := mkRevisionStore {
  GetRevision : S -> string -> string -> result Zone;
  ListRevisions : S -> string -> ListOptions -> result (list ZoneVersion) }.
Class ZoneStore (S : Type) := {
  store_GetZone : S -> string -> result Zone;
  store_ListZones : S -> ListOptions -> result (list Zone);
  (* the caller's zone is passed by reference: its new value is returned *)
  store_CreateZone : Inputs -> option Zone -> S -> ulidState -> result unit * option Zone * S * ulidState;
  store_UpdateZone : Inputs -> Zone -> string -> S -> ulidState -> result unit * Zone * S * ulidState;
  store_DeleteZone : string -> S -> result unit * S;
  (* optional capabilities; the flag says whether the context is done *)
  zoneSummaryStore : option (S -> ListOptions -> result (list ZoneSummary));
  zoneCountStore : option (bool -> S -> result Z);
  healthStore : option (bool -> S -> result unit);
  dnssecMetadataStore : option (Time -> string -> option DNSSECConfig -> S -> result unit * S);
  conditionalDeleteStore : option (string -> string -> S -> result unit * S);
  revisionStore : option (RevisionStore S)
}.

Definition ListZoneSummaries {S} `{ZoneStore S} (s : S) (opts : ListOptions) : result (list ZoneSummary) :=
  match zoneSummaryStore with
  | Some list => list s opts
  | None => let* zones := store_ListZones s opts in Ok (map summary_of zones)
  end.

Definition pageSize : Z := 1000.

(** The paging loop; [None] when the fuel runs out. *)
Fixpoint count_pages {S} `{ZoneStore S} (fuel : nat) (s : S) (offset total : Z) : option (result Z) :=
  match fuel with
  | O => None
  | Datatypes.S fuel =>
    match ListZoneSummaries s (mkList pageSize offset "") with
    | Err e => Some (Err e)
    | Ok zones =>
      let total := total + Z.of_nat (length zones) in
      if Z.of_nat (length zones) <? pageSize then Some (Ok total)
      else count_pages fuel s (offset + pageSize) total
    end
  end.

Definition CountZones {S} `{ZoneStore S} (fuel : nat) (ctxDone : bool) (s : S) : option (result Z) :=
  match zoneCountStore with
  | Some count => Some (count ctxDone s)
  | None => count_pages fuel s 0 0
  end.

Definition CheckHealth {S} `{ZoneStore S} (ctxDone : bool) (s : S) : result unit :=
  match healthStore with
  | Some check => check ctxDone s
  | None => ListZoneSummaries s (mkList 1 0 "") ;;* Ok tt
  end.

(** ** The contract *)

(** [zones[offset:]] then [zones[:limit]], as the backends paginate. *)
Definition page {A} (opts : ListOptions) (l : list A) : list A :=
  if (0 <? Offset opts) && (Z.of_nat (length l) <=? Offset opts) then []
  else
    let l1 := if 0 <? Offset opts then drop (Z.to_nat (Offset opts)) l else l in
    if (0 <? Limit opts) && (Limit opts <? Z.of_nat (length l1)) then take (Z.to_nat (Limit opts)) l1 else l1.

Definition by_name (z z' : Zone) : bool := str_ltb (ToLower (z_Name z)) (ToLower (z_Name z')).

(** What a stored zone keeps of the zone a caller submitted: everything but the
    name (normalised), the version, the serial, the timestamps and the derived
    record fields. *)
Definition same_record (r r' : ZRecord) : Prop :=
  rec_Name r = rec_Name r' /\ rec_Type r = rec_Type r' /\ rec_TTL r = rec_TTL r' /\ rec_Value r = rec_Value r'.
Definition same_content (z z' : Zone) : Prop :=
  z_Name z' = NormalizeZoneName (z_Name z)
  /\ set_Serial 0 (z_SOA z) = set_Serial 0 (z_SOA z')
  /\ Forall2 same_record (z_Records z) (z_Records z')
  /\ z_DNSSEC z' = z_DNSSEC z.

(** The effect a successful creation or update may have on the content. *)
Record created (e : Inputs) (z z' : Zone) : Prop := {
  created_content : same_content z z';
  created_valid : ValidateZone (Some z') = Ok tt;
  created_serial : Serial (z_SOA z') =
    if Serial (z_SOA z) =? 0 then generateSerial (in_date e) 0 else Serial (z_SOA z);
  created_version : z_Version z <> "" -> z_Version z' = z_Version z;
  created_versioned : z_Version z' <> "";
  created_times : z_CreatedAt z' = in_now e /\ z_UpdatedAt z' = in_now e
}.
Record updated (e : Inputs) (old z z' : Zone) : Prop := {
  updated_content : same_content z z';
  updated_valid : ValidateZone (Some z') = Ok tt;
  updated_serial : Serial (z_SOA z') = updateSOASerial (in_date e) (Serial (z_SOA old)) (Serial (z_SOA z));
  updated_version : z_Version z <> "" -> z_Version z <> z_Version old -> z_Version z' = z_Version z;
  updated_versioned : z_Version z' <> "";
  updated_times : z_CreatedAt z' = z_CreatedAt old /\ z_UpdatedAt z' = in_now e
}.

Class StoreLaws (S : Type) `{ZoneStore S} := {
  (* the stores reachable through the interface, and their content *)
  store_ok : S -> Prop;
  zones_of : S -> gmap string Zone;
  law_stored : forall s n z, store_ok s -> zones_of s !! n = Some z ->
    z_Name z = n /\ ValidateZone (Some z) = Ok tt /\ z_Version z <> "";
  law_get : forall s n, store_GetZone s n =
    match zones_of s !! NormalizeZoneName n with Some z => Ok z | None => Err (Sentinel ErrZoneNotFound) end;
  law_list : forall s, exists l, l ≡ₚ (map_to_list (zones_of s)).*2 /\ StronglySorted (not_after by_name) l
    /\ forall opts, store_ListZones s opts = Ok (page opts l);
  law_summaries : forall f s, zoneSummaryStore = Some f -> exists l, l ≡ₚ (map_to_list (zones_of s)).*2
    /\ forall opts, f s opts = Ok (page opts (map summary_of l));
  law_count : forall f s, zoneCountStore = Some f -> f false s = Ok (Z.of_nat (size (zones_of s)));
  law_create : forall e z s u, store_ok s ->
    match store_CreateZone e z s u with
    | (Ok _, z', s', _) => exists z0 w, z = Some z0 /\ z' = Some w /\ created e z0 w /\ store_ok s'
        /\ zones_of s !! z_Name w = None /\ zones_of s' = <[z_Name w := w]> (zones_of s)
    | (Err err, z', s', _) => z' = z /\ s' = s
        /\ (err = Sentinel ErrZoneAlreadyExists -> exists z0, z = Some z0 /\ is_Some (zones_of s !! NormalizeZoneName (z_Name z0)))
    end;
  law_update : forall e z expected s u, store_ok s ->
    match store_UpdateZone e z expected s u with
    | (Ok _, w, s', _) => exists old, zones_of s !! NormalizeZoneName (z_Name z) = Some old
        /\ (expected = "" \/ expected = z_Version old) /\ updated e old z w /\ store_ok s'
        /\ zones_of s' = <[NormalizeZoneName (z_Name z) := w]> (zones_of s)
    | (Err err, _, s', _) => s' = s
        /\ (err = Sentinel ErrZoneNotFound <-> zones_of s !! NormalizeZoneName (z_Name z) = None)
        /\ (err = Sentinel ErrConflict <-> exists old, zones_of s !! NormalizeZoneName (z_Name z) = Some old
              /\ expected <> "" /\ expected <> z_Version old)
    end;
  law_delete : forall n s,
    match store_DeleteZone n s with
    | (Ok _, s') => is_Some (zones_of s !! NormalizeZoneName n)
        /\ zones_of s' = delete (NormalizeZoneName n) (zones_of s) /\ (store_ok s -> store_ok s')
    | (Err err, s') => s' = s /\ err = Sentinel ErrZoneNotFound /\ zones_of s !! NormalizeZoneName n = None
    end;
  law_conditional_delete : forall f n expected s, conditionalDeleteStore = Some f ->
    match f n expected s with
    | (Ok _, s') => exists z, zones_of s !! NormalizeZoneName n = Some z /\ (expected = "" \/ expected = z_Version z)
        /\ zones_of s' = delete (NormalizeZoneName n) (zones_of s) /\ (store_ok s -> store_ok s')
    | (Err err, s') => s' = s
        /\ (err = Sentinel ErrZoneNotFound <-> zones_of s !! NormalizeZoneName n = None)
        /\ (err = Sentinel ErrConflict <-> exists z, zones_of s !! NormalizeZoneName n = Some z
              /\ expected <> "" /\ expected <> z_Version z)
    end;
  law_metadata : forall f now n cfg s, dnssecMetadataStore = Some f ->
    match f now n cfg s with
    | (Ok _, s') => exists z, zones_of s !! NormalizeZoneName n = Some z
        /\ zones_of s' = <[NormalizeZoneName n := set_Times (z_CreatedAt z) now (set_DNSSEC cfg z)]> (zones_of s)
        /\ (store_ok s -> store_ok s')
    | (Err err, s') => s' = s /\ err = Sentinel ErrZoneNotFound /\ zones_of s !! NormalizeZoneName n = None
    end;
  (* a zone that brings a version of its own needs none from the generator *)
  law_create_generator : forall e z s u, z_Version z <> "" -> snd (store_CreateZone e (Some z) s u) = u;
  law_update_generator : forall e z expected s u, z_Version z <> "" ->
    (forall old, zones_of s !! NormalizeZoneName (z_Name z) = Some old -> z_Version old <> z_Version z) ->
    snd (store_UpdateZone e z expected s u) = u
}.

(** ** Pagination *)
Lemma page_map {A B} (f : A -> B) opts l : map f (page opts l) = page opts (map f l).
Proof.
  unfold page. rewrite !length_map. destruct ((0 <? Offset opts) && _); [done|].
  destruct (0 <? Offset opts); cbv zeta; rewrite ?length_drop, ?length_map;
    (destruct ((0 <? Limit opts) && _); [rewrite ?fmap_take, ?fmap_drop|rewrite ?fmap_drop]; done).
Qed.

(** A page of [n > 0] items from [k >= 0] on is the slice [[k, k + n)]. *)
Lemma page_slice {A} n k f (l : list A) : 0 < n -> 0 <= k ->
  page (mkList n k f) l = take (Z.to_nat n) (drop (Z.to_nat k) l).
Proof.
  intros Hn Hk. unfold page. simpl. rewrite (proj2 (Z.ltb_lt 0 n) Hn). simpl.
  destruct (Z.ltb_spec 0 k) as [Hk0|Hk0]; simpl.
  - destruct (Z.leb_spec (Z.of_nat (length l)) k).
    + rewrite drop_ge by lia. by rewrite take_nil.
    + destruct (Z.ltb_spec n (Z.of_nat (length (drop (Z.to_nat k) l)))); [done|]. by rewrite take_ge by lia.
  - assert (k = 0) as -> by lia. change (Z.to_nat 0) with 0%nat. rewrite drop_0.
    destruct (Z.ltb_spec n (Z.of_nat (length l))); [done|]. by rewrite take_ge by lia.
Qed.

Section clients.
Context {S : Type} `{ZoneStore S, !StoreLaws S}.

(** Both ways of listing summaries paginate one listing of the content. *)
Lemma ListZoneSummaries_page (s : S) : exists l, l ≡ₚ (map_to_list (zones_of s)).*2
  /\ forall opts, ListZoneSummaries s opts = Ok (page opts (map summary_of l)).
Proof.
  unfold ListZoneSummaries. destruct zoneSummaryStore as [f|] eqn:E.
  - by apply law_summaries.
  - destruct (law_list s) as (l & Hp & _ & Hl). exists l. split; [done|]. intros opts.
    rewrite Hl. simpl. by rewrite page_map.
Qed.

Lemma count_pages_total (s : S) l fuel k :
  (forall opts, ListZoneSummaries s opts = Ok (page opts l)) ->
  0 <= k <= Z.of_nat (length l) -> Z.of_nat (length l) - k < pageSize * Z.of_nat fuel ->
  count_pages fuel s k k = Some (Ok (Z.of_nat (length l))).
Proof.
  intros Hl. revert k. induction fuel as [|fuel IH]; intros k Hk Hf; [lia|].
  cbn [count_pages]. rewrite Hl, page_slice by (unfold pageSize; lia).
  rewrite length_take, length_drop. unfold pageSize in *.
  destruct (Z.ltb_spec (Z.of_nat (Nat.min (Z.to_nat 1000) (length l - Z.to_nat k))) 1000).
  - do 2 f_equal. lia.
  - assert (Z.of_nat (Nat.min (Z.to_nat 1000) (length l - Z.to_nat k)) = 1000) as -> by lia.
    apply IH; lia.
Qed.

(** Counting the zones of any store that keeps the contract terminates and
    gives the number of zones, whether the store counts itself or the fallback
    pages through summaries 1000 at a time (one more page than full pages is
    enough). *)
Theorem count_zones_correct (s : S) (fuel : nat) :
  Z.of_nat (size (zones_of s)) < pageSize * Z.of_nat fuel ->
  CountZones fuel false s = Some (Ok (Z.of_nat (size (zones_of s)))).
Proof.
  intros Hf. unfold CountZones. destruct zoneCountStore as [f|] eqn:E; [by rewrite law_count|].
  destruct (ListZoneSummaries_page s) as (l & Hp & Hl).
  assert (length (map summary_of l) = size (zones_of s)) as Hlen.
  { rewrite length_map, Hp, length_fmap. apply length_map_to_list. }
  rewrite <- Hlen in *. apply count_pages_total; [done|lia|lia].
Qed.

(** Optimistic locking on any store that keeps the contract: when two
    writers update the same zone against the same version and the first one
    succeeds, changing the version, the second fails with a conflict and
    changes nothing. *)
Theorem lost_update_refused (e1 e2 : Inputs) (z1 z2 : Zone) (v : string) (s s1 : S) (u u1 u2 : ulidState) (w1 : Zone) :
  store_ok s -> v <> "" -> NormalizeZoneName (z_Name z1) = NormalizeZoneName (z_Name z2) ->
  store_UpdateZone e1 z1 v s u = (Ok tt, w1, s1, u1) -> z_Version w1 <> v ->
  fst (fst (fst (store_UpdateZone e2 z2 v s1 u2))) = Err (Sentinel ErrConflict)
  /\ snd (fst (store_UpdateZone e2 z2 v s1 u2)) = s1.
Proof.
  intros Hok Hv Hn H1 Hw. pose proof (law_update e1 z1 v s u Hok) as L1. rewrite H1 in L1.
  destruct L1 as (old & Hold & _ & _ & Hok1 & Hz1).
  pose proof (law_update e2 z2 v s1 u2 Hok1) as L2.
  assert (zones_of s1 !! NormalizeZoneName (z_Name z2) = Some w1) as Hl by (by rewrite Hz1, Hn, lookup_insert_eq).
  destruct (store_UpdateZone e2 z2 v s1 u2) as [[[r w2] s2] u3]. simpl. destruct r as [[]|err].
  - destruct L2 as (old2 & Hold2 & Hexp & _). rewrite Hl in Hold2. injection Hold2 as <-.
    destruct Hexp; congruence.
  - destruct L2 as (-> & _ & Hc). split; [|done]. f_equal. apply Hc. eauto.
Qed.
End clients.
End write_path.
