(* ===== verification/MemoryStore.v ===== *)
(** * The in-memory store (pkg/backend/memory.go)

    The Go struct holds a map of zone pointers and a counter for record
    identifiers, under a read-write mutex: every method is one atomic step on
    the state.  Zones are deep-copied on the way in and out. *)

From S2P Require Import Prelude GoStrings GoStringsFacts GoSort Zone Names Validation RRSets DnsNames ZoneRules Serial Ulid Store.
Record MemoryBackend := mkMemory { zones : gmap string Zone; nextID : Z }.
Definition NewMemoryBackend : MemoryBackend := mkMemory ∅ 0.

Section memory.
Context `{UnicodeTables}.

Definition HealthCheck (ctxDone : bool) (m : MemoryBackend) : result unit :=
  if ctxDone then Err (Sentinel ErrContextDone) else Ok tt.

Definition mem_CountZones (ctxDone : bool) (m : MemoryBackend) : result Z :=
  if ctxDone then Err (Sentinel ErrContextDone) else Ok (Z.of_nat (size (zones m))).

Definition GetZone (m : MemoryBackend) (name : string) : result Zone :=
  match copyZone (zones m !! NormalizeZoneName name) with
  | Some zone => Ok zone
  | None => Err (Sentinel ErrZoneNotFound)
  end.

(** The copies of the stored zones in the order the map iteration visits them;
    [list_in_order] is the rest of the method for one such order. *)
Definition stored (m : MemoryBackend) : list Zone := omap (fun kz => copyZone (Some (snd kz))) (map_to_list (zones m)).

Definition list_in_order (order : list Zone) (opts : ListOptions) : list Zone :=
  let zones := sort_Slice by_name order in
  if (0 <? Offset opts) && (Z.of_nat (length zones) <=? Offset opts) then []
  else
    let zones := if 0 <? Offset opts then drop (Z.to_nat (Offset opts)) zones else zones in
    if (0 <? Limit opts) && (Limit opts <? Z.of_nat (length zones)) then take (Z.to_nat (Limit opts)) zones else zones.

Definition ListZones (m : MemoryBackend) (opts : ListOptions) : result (list Zone) :=
  Ok (list_in_order (stored m) opts).

Definition summary_less (a b : ZoneSummary) : bool := str_ltb (ToLower (sum_Name a)) (ToLower (sum_Name b)).
Definition mem_ListZoneSummaries (m : MemoryBackend) (opts : ListOptions) : result (list ZoneSummary) :=
  let summaries := map (fun kz => summary_of (snd kz)) (map_to_list (zones m)) in
  let summaries := sort_Slice summary_less summaries in
  Ok (if (0 <? Offset opts) && (Z.of_nat (length summaries) <=? Offset opts) then []
      else
        let summaries := if 0 <? Offset opts then drop (Z.to_nat (Offset opts)) summaries else summaries in
        if (0 <? Limit opts) && (Limit opts <? Z.of_nat (length summaries))
        then take (Z.to_nat (Limit opts)) summaries else summaries).

(** Identifiers for the records that need one, from the counter on. *)
Fixpoint assign_ids (onlyEmpty : bool) (next : Z) (rs : list ZRecord) : list ZRecord * Z :=
  match rs with
  | [] => ([], next)
  | r :: rs =>
    let '(r', next') :=
      if onlyEmpty && negb (rec_ID r =? "")%string then (r, next) else (set_ID (Itoa (next + 1)) r, next + 1) in
    let '(rs', next'') := assign_ids onlyEmpty next' rs in
    (r' :: rs', next'')
  end.

Definition nil_dereference : error := Errorf "invalid memory address or nil pointer dereference".

(** The result, the caller's zone, the store and the version generator. *)
Definition CreateZone (e : Inputs) (zone : option Zone) (m : MemoryBackend) (u : ulidState)
  : result unit * option Zone * MemoryBackend * ulidState :=
  match prepareZoneForCreate e zone NormalizeZoneName u with
  | (Err err, u') => (Err err, zone, m, u')
  | (Ok None, u') => (Err nil_dereference, zone, m, u')
  | (Ok (Some writeZone), u') =>
    let normalized := z_Name writeZone in
    match zones m !! normalized with
    | Some _ => (Err (Sentinel ErrZoneAlreadyExists), zone, m, u')
    | None =>
      let '(rs, next) := assign_ids false (nextID m) (z_Records writeZone) in
      let writeZone := set_Records rs writeZone in
      let m' := match copyZone (Some writeZone) with
                | Some c => mkMemory (<[normalized := c]> (zones m)) next
                | None => mkMemory (zones m) next
                end in
      (Ok tt, copyZoneInto zone (Some writeZone), m', u')
    end
  end.

Definition UpdateZone (e : Inputs) (zone : Zone) (expectedVersion : string) (m : MemoryBackend) (u : ulidState)
  : result unit * Zone * MemoryBackend * ulidState :=
  let normalized := NormalizeZoneName (z_Name zone) in
  match zones m !! normalized with
  | None => (Err (Sentinel ErrZoneNotFound), zone, m, u)
  | Some existing =>
    if negb (expectedVersion =? "")%string && negb (z_Version existing =? expectedVersion)%string
    then (Err (Sentinel ErrConflict), zone, m, u)
    else
      let z1 := set_Name normalized zone in
      let z2 := set_SOASerial
                  (updateSOASerial (in_date e) (Serial (z_SOA existing)) (Serial (z_SOA z1))) z1 in
      let z3 := set_Times (z_CreatedAt existing) (in_now e) z2 in
      let versioned :=
        if (z_Version z3 =? "")%string || (z_Version z3 =? z_Version existing)%string then
          match NewZoneVersion e u with
          | (Ok v, u') => (Ok (set_Version v z3), u')
          | (Err err, u') => (Err (Wrapf "generate zone version" err), u')
          end
        else (Ok z3, u) in
      match versioned with
      | (Err err, u') => (Err err, z3, m, u')
      | (Ok z4, u') =>
        match validateZoneForWrite (Some z4) with
        | (z5, Err err) => (Err err, default z4 z5, m, u')
        | (z5, Ok _) =>
          let z5 := default z4 z5 in
          let '(rs, next) := assign_ids true (nextID m) (z_Records z5) in
          let z6 := set_Records rs z5 in
          let m' := match copyZone (Some z6) with
                    | Some c => mkMemory (<[normalized := c]> (zones m)) next
                    | None => mkMemory (zones m) next
                    end in
          (Ok tt, z6, m', u')
        end
      end
  end.

Definition UpdateDNSSECMetadata (now : Time) (zoneName : string) (dnssec : option DNSSECConfig) (m : MemoryBackend)
  : result unit * MemoryBackend :=
  let normalized := NormalizeZoneName zoneName in
  match zones m !! normalized with
  | None => (Err (Sentinel ErrZoneNotFound), m)
  | Some zone =>
    let zone' := set_Times (z_CreatedAt zone) now (set_DNSSEC (cloneDNSSECConfig dnssec) zone) in
    (Ok tt, mkMemory (<[normalized := zone']> (zones m)) (nextID m))
  end.

Definition DeleteZone (name : string) (m : MemoryBackend) : result unit * MemoryBackend :=
  let normalized := NormalizeZoneName name in
  match zones m !! normalized with
  | None => (Err (Sentinel ErrZoneNotFound), m)
  | Some _ => (Ok tt, mkMemory (delete normalized (zones m)) (nextID m))
  end.

Definition DeleteZoneWithVersion (name expectedVersion : string) (m : MemoryBackend) : result unit * MemoryBackend :=
  let normalized := NormalizeZoneName name in
  match zones m !! normalized with
  | None => (Err (Sentinel ErrZoneNotFound), m)
  | Some zone =>
    if negb (expectedVersion =? "")%string && negb (z_Version zone =? expectedVersion)%string
    then (Err (Sentinel ErrConflict), m)
    else (Ok tt, mkMemory (delete normalized (zones m)) (nextID m))
  end.

#[global] Instance memory_store : ZoneStore MemoryBackend := {|
  store_GetZone := GetZone;
  store_ListZones := ListZones;
  store_CreateZone := CreateZone;
  store_UpdateZone := UpdateZone;
  store_DeleteZone := DeleteZone;
  zoneSummaryStore := Some mem_ListZoneSummaries;
  zoneCountStore := Some mem_CountZones;
  healthStore := Some HealthCheck;
  dnssecMetadataStore := Some UpdateDNSSECMetadata;
  conditionalDeleteStore := Some DeleteZoneWithVersion;
  revisionStore := None
|}.

(** ** Validation does not look at identifiers, versions or timestamps *)
Definition only_id (r r' : ZRecord) : Prop := set_ID (rec_ID r) r' = r.

Lemma validate_records_ids zn rs rs' : Forall2 only_id rs rs' ->
  forall i, validate_records zn i rs' = validate_records zn i rs.
Proof.
  induction 1 as [|r r' rs rs' Hr _ IH]; intros i; [done|]. cbn [validate_records].
  rewrite IH, <- Hr. reflexivity.
Qed.
Lemma constraint_loop_ids zn rs rs' : Forall2 only_id rs rs' ->
  forall i st, constraint_loop zn i rs' st = constraint_loop zn i rs st.
Proof.
  induction 1 as [|r r' rs rs' Hr _ IH]; intros i st; [done|]. cbn [constraint_loop].
  rewrite <- Hr. change (constraint_step zn i (set_ID (rec_ID r) r') st) with (constraint_step zn i r' st).
  destruct (constraint_step zn i r' st); simpl; [apply IH|done].
Qed.

Lemma ValidateZone_ids z z' : z_Name z' = z_Name z -> z_SOA z' = z_SOA z ->
  Forall2 only_id (z_Records z) (z_Records z') -> ValidateZone (Some z') = ValidateZone (Some z).
Proof.
  intros Hn Hs Hr. unfold ValidateZone, ValidateRecordSetConstraints.
  by rewrite Hn, Hs, (validate_records_ids _ _ _ Hr), (constraint_loop_ids _ _ _ Hr).
Qed.

Lemma assign_ids_only oe rs : forall n, Forall2 only_id rs (fst (assign_ids oe n rs)).
Proof.
  induction rs as [|r rs IH]; intros n; [constructor|]. cbn [assign_ids].
  destruct (oe && _); [specialize (IH n)|specialize (IH (n + 1))];
    destruct (assign_ids oe _ rs) as [rs' n']; constructor; try done; by destruct r.
Qed.

(** ** The write path *)
Lemma same_record_trans_id r1 r2 r3 :
  set_Priority (rec_Priority r1) r2 = r1 -> only_id r2 r3 -> same_record r1 r3.
Proof. unfold only_id, same_record. intros <- E. rewrite <- E. done. Qed.

Lemma same_record_compose rs1 rs2 rs3 :
  Forall2 (fun r r' => set_Priority (rec_Priority r) r' = r) rs1 rs2 -> Forall2 only_id rs2 rs3 ->
  Forall2 same_record rs1 rs3.
Proof.
  intros H1. revert rs3. induction H1 as [|r1 r2 rs1 rs2 Hr _ IH]; intros rs3 H2; inversion H2; subst; constructor; auto.
  by eapply same_record_trans_id.
Qed.

(** A write-path check that succeeds only touches the derived fields; one that
    fails reports a wrapped error. *)
Lemma validateZoneForWrite_cases z :
  match validateZoneForWrite (Some z) with
  | (z', Ok _) => exists rs, z' = Some (set_Records rs z) /\ ValidateZone z' = Ok tt
      /\ Forall2 (fun r r' => set_Priority (rec_Priority r) r' = r) (z_Records z) rs
  | (_, Err err) => exists p c, err = Wrapf p c
  end.
Proof.
  unfold validateZoneForWrite, NormalizeZoneDerivedFields, zone_derived_fields.
  destruct (normalize_records true 0 (z_Records z)) as [rs [[]|e]] eqn:E; [|eauto].
  destruct (ValidateZone (Some (set_Records rs z))) as [[]|e] eqn:Ev; simpl; [|eauto].
  exists rs. split_and!; [done..|]. by apply normalize_records_rule in E as [_ ?].
Qed.

Definition only_version (z z' : Zone) : Prop := exists v, z' = set_Version v z.

Lemma NewZoneVersion_unfold e u : exists r u', NewZoneVersion e u = (r, u').
Proof. destruct (NewZoneVersion e u); eauto. Qed.

Lemma NewZoneVersion_nonempty e u v u' : NewZoneVersion e u = (Ok v, u') -> v <> "".
Proof. unfold NewZoneVersion. destruct (NewULID _ _ _) as [[id|err] u1]; [|done]. by intros [= <- _]. Qed.

Lemma version_for_create_cases e z u :
  match fst (version_for_create e z u) with
  | Ok z' => only_version z z' /\ (z_Version z <> "" -> z' = z) /\ z_Version z' <> ""
  | Err err => exists p c, err = Wrapf p c
  end.
Proof.
  unfold version_for_create. destruct (String.eqb_spec (z_Version z) "") as [E|E].
  - destruct (NewZoneVersion e u) as [[v|err] u'] eqn:Ev; simpl; [|eauto]. apply NewZoneVersion_nonempty in Ev.
    split_and!; [by exists v|congruence|done].
  - simpl. split_and!; [|done|done]. exists (z_Version z). by destruct z.
Qed.

Lemma prepareZoneForCreate_cases e z normalize u :
  match fst (prepareZoneForCreate e z normalize u) with
  | Ok None => False
  | Ok (Some w) => exists z0 rs v, z = Some z0 /\ ValidateZone (Some w) = Ok tt
      /\ w = mkZone (normalize (z_Name z0)) v
               (if Serial (z_SOA z0) =? 0 then set_Serial (generateSerial (in_date e) 0) (z_SOA z0) else z_SOA z0)
               rs (z_DNSSEC z0) (in_now e) (in_now e)
      /\ (z_Version z0 <> "" -> v = z_Version z0) /\ v <> ""
      /\ Forall2 (fun r r' => set_Priority (rec_Priority r) r' = r) (z_Records z0) rs
  | Err err => (exists p c, err = Wrapf p c)
  end.
Proof.
  unfold prepareZoneForCreate. rewrite copyZone_id. destruct z as [z|].
  2: { cbn. eauto. }
  set (w2 := if Serial _ =? 0 then _ else _).
  pose proof (version_for_create_cases e w2 u) as Hv.
  destruct (version_for_create e w2 u) as [[w3|err] u']; simpl in Hv |- *; [|done].
  destruct Hv as ([v ->] & Hkeep & Hne).
  pose proof (validateZoneForWrite_cases (set_Times (in_now e) (in_now e) (set_Version v w2))) as Hw.
  destruct (validateZoneForWrite _) as [w5 [[]|err]]; simpl; [|done].
  destruct Hw as (rs & -> & Hval & Hrs). exists z, rs, v. repeat split; try done.
  - unfold w2. simpl. destruct (Serial (z_SOA z) =? 0); done.
  - intros Hz. assert (z_Version w2 = z_Version z) as Ew by (unfold w2; by destruct (_ =? 0)).
    assert (set_Version v w2 = w2) as E by (apply Hkeep; by rewrite Ew).
    apply (f_equal z_Version) in E. simpl in E. congruence.
  - unfold w2 in Hrs. by destruct (Serial _ =? 0).
Qed.

(** ** The contract *)
Definition memory_ok (m : MemoryBackend) : Prop :=
  map_Forall (fun n z => z_Name z = n /\ ValidateZone (Some z) = Ok tt /\ z_Version z <> "") (zones m).

Lemma stored_map m : stored m = (map_to_list (zones m)).*2.
Proof.
  unfold stored. induction (map_to_list (zones m)) as [|[n z] l IH]; [done|].
  rewrite fmap_cons, <- IH. unfold omap at 1. cbn [list_omap snd]. by rewrite copyZone_id.
Qed.

Lemma list_in_order_page order opts : list_in_order order opts = page opts (sort_Slice by_name order).
Proof. done. Qed.

#[local] Instance by_name_weak : WeakOrder by_name := by_key_weak (fun z => ToLower (z_Name z)).
#[local] Instance summary_weak : WeakOrder summary_less := by_key_weak (fun s => ToLower (sum_Name s)).

Lemma memory_create e z m u : memory_ok m ->
  match CreateZone e z m u with
  | (Ok _, z', m', _) => exists z0 w, z = Some z0 /\ z' = Some w /\ created e z0 w /\ memory_ok m'
      /\ zones m !! z_Name w = None /\ zones m' = <[z_Name w := w]> (zones m)
  | (Err err, z', m', _) => z' = z /\ m' = m
      /\ (err = Sentinel ErrZoneAlreadyExists ->
          exists z0, z = Some z0 /\ is_Some (zones m !! NormalizeZoneName (z_Name z0)))
  end.
Proof.
  intros Hok. unfold CreateZone. pose proof (prepareZoneForCreate_cases e z NormalizeZoneName u) as Hp.
  destruct (prepareZoneForCreate e z NormalizeZoneName u) as [[[w|]|err] u']; simpl in Hp; [|done|].
  2: { destruct Hp as (p & c & ->). by repeat split. }
  destruct Hp as (z0 & rs & v & -> & Hval & -> & Hv & Hne & Hrs). cbn [z_Name z_Records].
  destruct (zones m !! NormalizeZoneName (z_Name z0)) as [old|] eqn:Hl.
  { repeat split. intros _. exists z0. rewrite Hl. eauto. }
  pose proof (assign_ids_only false rs (nextID m)) as Hids.
  destruct (assign_ids false (nextID m) rs) as [rs' next]. cbn [fst] in Hids.
  unfold copyZoneInto. rewrite !copyZone_id.
  set (w := mkZone _ v _ rs _ _ _) in *. set (w' := set_Records rs' w).
  assert (ValidateZone (Some w') = Ok tt) as Hval'.
  { rewrite <- Hval. by apply ValidateZone_ids. }
  exists z0, w'. split_and!; try done; [|by apply map_Forall_insert_2].
  repeat split; try done.
  - unfold w', w. simpl. by destruct (Serial (z_SOA z0) =? 0).
  - by eapply same_record_compose.
  - unfold w', w. simpl. by destruct (Serial (z_SOA z0) =? 0).
Qed.

Lemma memory_update e z expected m u : memory_ok m ->
  match UpdateZone e z expected m u with
  | (Ok _, w, m', _) => exists old, zones m !! NormalizeZoneName (z_Name z) = Some old
      /\ (expected = "" \/ expected = z_Version old) /\ updated e old z w /\ memory_ok m'
      /\ zones m' = <[NormalizeZoneName (z_Name z) := w]> (zones m)
  | (Err err, _, m', _) => m' = m
      /\ (err = Sentinel ErrZoneNotFound <-> zones m !! NormalizeZoneName (z_Name z) = None)
      /\ (err = Sentinel ErrConflict <-> exists old, zones m !! NormalizeZoneName (z_Name z) = Some old
            /\ expected <> "" /\ expected <> z_Version old)
  end.
Proof.
  intros Hok. unfold UpdateZone.
  destruct (zones m !! NormalizeZoneName (z_Name z)) as [old|] eqn:Hl.
  2: { split_and!; [done..|]. split; [done|]. by intros (? & ? & _). }
  destruct (negb (expected =? "")%string && negb (z_Version old =? expected)%string) eqn:Hexp.
  { bool_prop. split_and!; [done..|]. split; [|done]. eauto. }
  assert (expected = "" \/ expected = z_Version old) as Hexp'.
  { apply andb_false_iff in Hexp as [?|?]; bool_prop; auto. }
  set (z3 := set_Times _ _ _). set (versioned := if _ || _ then _ else _).
  assert (match fst versioned with
          | Ok z4 => exists v, z4 = set_Version v z3 /\ v <> ""
              /\ (z_Version z <> "" -> z_Version z <> z_Version old -> v = z_Version z)
          | Err err => exists p c, err = Wrapf p c end) as Hv.
  { unfold versioned. destruct (_ || _) eqn:Eo.
    - destruct (NewZoneVersion e u) as [[v|err] u'] eqn:Ev; simpl; [|eauto]. apply NewZoneVersion_nonempty in Ev.
      exists v. split_and!; [done..|]. intros H1 H2. apply orb_true_iff in Eo as [E|E]; bool_prop; by destruct z.
    - simpl. exists (z_Version z). bool_prop. by destruct z. }
  assert (forall p c, (Wrapf p c = Sentinel ErrZoneNotFound <-> Some old = None)
    /\ (Wrapf p c = Sentinel ErrConflict <-> exists old', Some old = Some old'
            /\ expected <> "" /\ expected <> z_Version old')) as Herr.
  { intros p c. split; [done|]. split; [done|]. intros (? & [= <-] & ? & ?). tauto. }
  destruct versioned as [[z4|err] u']; cbn [fst] in Hv.
  2: { destruct Hv as (p & c & ->). split; [done|]. apply Herr. }
  destruct Hv as (v & -> & Hne & Hv). pose proof (validateZoneForWrite_cases (set_Version v z3)) as Hw.
  destruct (validateZoneForWrite _) as [w5 [[]|err]].
  2: { destruct Hw as (p & c & ->). split; [done|]. apply Herr. }
  destruct Hw as (rs & -> & Hval & Hrs). cbn [default from_option id z_Records set_Records].
  pose proof (assign_ids_only true rs (nextID m)) as Hids.
  destruct (assign_ids true (nextID m) rs) as [rs' next]. cbn [fst] in Hids. rewrite copyZone_id.
  exists old. cbn [zones]. match goal with |- context [set_Records rs' ?w0] => set (w := set_Records rs' w0) end.
  assert (ValidateZone (Some w) = Ok tt) as Hval'.
  { rewrite <- Hval. by apply ValidateZone_ids. }
  split_and!; try done; [|by apply map_Forall_insert_2].
  repeat split; try done. by eapply same_record_compose.
Qed.

Lemma memory_delete n m :
  match DeleteZone n m with
  | (Ok _, m') => is_Some (zones m !! NormalizeZoneName n)
      /\ zones m' = delete (NormalizeZoneName n) (zones m) /\ (memory_ok m -> memory_ok m')
  | (Err err, m') => m' = m /\ err = Sentinel ErrZoneNotFound /\ zones m !! NormalizeZoneName n = None
  end.
Proof.
  unfold DeleteZone. destruct (zones m !! NormalizeZoneName n) as [z|] eqn:E; [|done].
  split_and!; [eauto|done|]. intros Hok. by apply map_Forall_delete.
Qed.

Lemma memory_list m : exists l, l ≡ₚ (map_to_list (zones m)).*2 /\ StronglySorted (not_after by_name) l
  /\ forall opts, ListZones m opts = Ok (page opts l).
Proof.
  exists (sort_Slice by_name (stored m)). split_and!.
  - by rewrite sort_Slice_Permutation, stored_map.
  - apply sort_Slice_sorted. apply _.
  - done.
Qed.

Lemma memory_summaries m : exists l, l ≡ₚ (map_to_list (zones m)).*2
  /\ forall opts, mem_ListZoneSummaries m opts = Ok (page opts (map summary_of l)).
Proof.
  unfold mem_ListZoneSummaries. set (ss := sort_Slice summary_less _).
  assert (ss ≡ₚ map summary_of ((map_to_list (zones m)).*2)) as Hp.
  { unfold ss. rewrite sort_Slice_Permutation. by rewrite list_fmap_alt, map_map. }
  apply Permutation_map_inv in Hp as (l & E & Hl). exists l. split; [by symmetry|].
  intros opts. rewrite <- E. done.
Qed.

Lemma memory_get m n : GetZone m n =
  match zones m !! NormalizeZoneName n with Some z => Ok z | None => Err (Sentinel ErrZoneNotFound) end.
Proof. unfold GetZone. rewrite copyZone_id. by destruct (zones m !! _). Qed.

Lemma memory_summaries_law (f : MemoryBackend -> ListOptions -> result (list ZoneSummary)) m :
  zoneSummaryStore = Some f -> exists l, l ≡ₚ (map_to_list (zones m)).*2
    /\ forall opts, f m opts = Ok (page opts (map summary_of l)).
Proof. intros [= <-]. apply memory_summaries. Qed.
Lemma memory_count_law (f : bool -> MemoryBackend -> result Z) m :
  zoneCountStore = Some f -> f false m = Ok (Z.of_nat (size (zones m))).
Proof. by intros [= <-]. Qed.

Lemma memory_conditional_delete (f : string -> string -> MemoryBackend -> result unit * MemoryBackend) n expected m :
  conditionalDeleteStore = Some f ->
  match f n expected m with
  | (Ok _, m') => exists z, zones m !! NormalizeZoneName n = Some z /\ (expected = "" \/ expected = z_Version z)
      /\ zones m' = delete (NormalizeZoneName n) (zones m) /\ (memory_ok m -> memory_ok m')
  | (Err err, m') => m' = m
      /\ (err = Sentinel ErrZoneNotFound <-> zones m !! NormalizeZoneName n = None)
      /\ (err = Sentinel ErrConflict <-> exists z, zones m !! NormalizeZoneName n = Some z
            /\ expected <> "" /\ expected <> z_Version z)
  end.
Proof.
  intros [= <-]. unfold DeleteZoneWithVersion. destruct (zones m !! NormalizeZoneName n) as [z|] eqn:E.
  2: { split_and!; [done..|]. split; [done|]. by intros (? & ? & _). }
  destruct (negb (expected =? "")%string && negb (z_Version z =? expected)%string) eqn:Hexp.
  { bool_prop. split_and!; [done..|]. split; [|done]. eauto. }
  exists z. split_and!; [done| |done|intros Hok; by apply map_Forall_delete].
  apply andb_false_iff in Hexp as [?|?]; bool_prop; auto.
Qed.

Lemma memory_metadata (f : Time -> string -> option DNSSECConfig -> MemoryBackend -> result unit * MemoryBackend) now n cfg m :
  dnssecMetadataStore = Some f ->
  match f now n cfg m with
  | (Ok _, m') => exists z, zones m !! NormalizeZoneName n = Some z
      /\ zones m' = <[NormalizeZoneName n := set_Times (z_CreatedAt z) now (set_DNSSEC cfg z)]> (zones m)
      /\ (memory_ok m -> memory_ok m')
  | (Err err, m') => m' = m /\ err = Sentinel ErrZoneNotFound /\ zones m !! NormalizeZoneName n = None
  end.
Proof.
  intros [= <-]. unfold UpdateDNSSECMetadata. rewrite cloneDNSSECConfig_id.
  destruct (zones m !! NormalizeZoneName n) as [z|] eqn:E; [|done]. exists z. split_and!; [done..|].
  intros Hok. apply map_Forall_insert_2; [|done]. destruct (Hok _ _ E) as (? & Hval & ?). split_and!; [done| |done].
  rewrite <- Hval. apply ValidateZone_ids; [done..|]. simpl. apply Forall_Forall2_diag, Forall_forall.
  intros r _. by destruct r.
Qed.

Lemma memory_create_generator e z (m : MemoryBackend) u : z_Version z <> "" -> snd (CreateZone e (Some z) m u) = u.
Proof.
  intros Hv. assert (Hu : snd (prepareZoneForCreate e (Some z) NormalizeZoneName u) = u).
  { unfold prepareZoneForCreate, copyZone. cbv zeta. unfold version_for_create. set (w := if _ =? 0 then _ else _).
    assert (z_Version w = z_Version z) as -> by (unfold w; destruct (_ =? 0); done).
    rewrite (proj2 (String.eqb_neq _ _) Hv). by destruct (validateZoneForWrite _) as [w5 [[]|err]]. }
  unfold CreateZone. destruct (prepareZoneForCreate _ _ _ _) as [[[w|]|err] u']; cbn [snd] in Hu; subst; [|done..].
  destruct (zones m !! z_Name w); [done|]. by destruct (assign_ids _ _ _).
Qed.
Lemma memory_update_generator e z expected (m : MemoryBackend) u : z_Version z <> "" ->
  (forall old, zones m !! NormalizeZoneName (z_Name z) = Some old -> z_Version old <> z_Version z) ->
  snd (UpdateZone e z expected m u) = u.
Proof.
  intros Hv Hold. unfold UpdateZone. destruct (zones m !! _) as [old|]; [|done]. specialize (Hold old eq_refl). destruct (_ && _); [done|].
  cbv zeta. set (z3 := set_Times _ _ _). assert (z_Version z3 = z_Version z) as -> by done.
  rewrite (proj2 (String.eqb_neq _ _) Hv), (proj2 (String.eqb_neq (z_Version z) (z_Version old))) by done. cbn [orb].
  destruct (validateZoneForWrite _) as [z5 [[]|err]]; [|done]. by destruct (assign_ids _ _ _).
Qed.

#[global] Instance memory_laws : StoreLaws MemoryBackend := {|
  store_ok := memory_ok;
  zones_of := zones;
  law_stored m n z Hok := Hok n z;
  law_conditional_delete := memory_conditional_delete;
  law_metadata := memory_metadata;
  law_get := memory_get;
  law_list := memory_list;
  law_summaries := memory_summaries_law;
  law_count := memory_count_law;
  law_create := memory_create;
  law_update := memory_update;
  law_delete := memory_delete;
  law_create_generator := memory_create_generator;
  law_update_generator := memory_update_generator
|}.

(** ** Runs of requests

    Requests as a client issues them one after the other; the mutex serializes
    concurrent ones. *)
Inductive request :=
  | ReqGet (name : string)
  | ReqList (opts : ListOptions)
  | ReqCreate (e : Inputs) (zone : option Zone)
  | ReqUpdate (e : Inputs) (zone : Zone) (expected : string)
  | ReqMetadata (now : Time) (name : string) (dnssec : option DNSSECConfig)
  | ReqDelete (name : string)
  | ReqDeleteVersion (name expected : string).

Inductive response :=
  | RespZone (r : result Zone)
  | RespZones (r : result (list Zone))
  | RespDone (r : result unit).

Definition exec (q : request) (m : MemoryBackend) (u : ulidState) : response * MemoryBackend * ulidState :=
  match q with
  | ReqGet n => (RespZone (GetZone m n), m, u)
  | ReqList opts => (RespZones (ListZones m opts), m, u)
  | ReqCreate e z => let '(r, _, m', u') := CreateZone e z m u in (RespDone r, m', u')
  | ReqUpdate e z v => let '(r, _, m', u') := UpdateZone e z v m u in (RespDone r, m', u')
  | ReqMetadata t n d => let '(r, m') := UpdateDNSSECMetadata t n d m in (RespDone r, m', u)
  | ReqDelete n => let '(r, m') := DeleteZone n m in (RespDone r, m', u)
  | ReqDeleteVersion n v => let '(r, m') := DeleteZoneWithVersion n v m in (RespDone r, m', u)
  end.

Fixpoint run (qs : list request) (m : MemoryBackend) (u : ulidState) : list response * MemoryBackend :=
  match qs with
  | [] => ([], m)
  | q :: qs =>
    let '(r, m', u') := exec q m u in
    let '(rs, m'') := run qs m' u' in (r :: rs, m'')
  end.

(** The abstract store: a map of valid zones keyed by normalised name. *)
Inductive spec_step (c : gmap string Zone) : request -> response -> gmap string Zone -> Prop :=
  | spec_get n z : c !! NormalizeZoneName n = Some z -> spec_step c (ReqGet n) (RespZone (Ok z)) c
  | spec_get_missing n : c !! NormalizeZoneName n = None ->
      spec_step c (ReqGet n) (RespZone (Err (Sentinel ErrZoneNotFound))) c
  | spec_list opts l : l ≡ₚ (map_to_list c).*2 -> StronglySorted (not_after by_name) l ->
      spec_step c (ReqList opts) (RespZones (Ok (page opts l))) c
  | spec_create e z w : c !! z_Name w = None -> created e z w ->
      spec_step c (ReqCreate e (Some z)) (RespDone (Ok tt)) (<[z_Name w := w]> c)
  | spec_create_fails e z err :
      (err = Sentinel ErrZoneAlreadyExists -> exists z0, z = Some z0 /\ is_Some (c !! NormalizeZoneName (z_Name z0))) ->
      spec_step c (ReqCreate e z) (RespDone (Err err)) c
  | spec_update e z v old w : c !! NormalizeZoneName (z_Name z) = Some old -> v = "" \/ v = z_Version old ->
      updated e old z w ->
      spec_step c (ReqUpdate e z v) (RespDone (Ok tt)) (<[NormalizeZoneName (z_Name z) := w]> c)
  | spec_update_fails e z v err :
      (err = Sentinel ErrZoneNotFound <-> c !! NormalizeZoneName (z_Name z) = None) ->
      (err = Sentinel ErrConflict <-> exists old, c !! NormalizeZoneName (z_Name z) = Some old
          /\ v <> "" /\ v <> z_Version old) ->
      spec_step c (ReqUpdate e z v) (RespDone (Err err)) c
  | spec_metadata t n d z : c !! NormalizeZoneName n = Some z ->
      spec_step c (ReqMetadata t n d) (RespDone (Ok tt))
        (<[NormalizeZoneName n := set_Times (z_CreatedAt z) t (set_DNSSEC d z)]> c)
  | spec_delete n q z : c !! NormalizeZoneName n = Some z ->
      (q = ReqDelete n \/ exists v, q = ReqDeleteVersion n v /\ (v = "" \/ v = z_Version z)) ->
      spec_step c q (RespDone (Ok tt)) (delete (NormalizeZoneName n) c)
  | spec_missing n q : c !! NormalizeZoneName n = None ->
      (exists t d, q = ReqMetadata t n d) \/ q = ReqDelete n \/ (exists v, q = ReqDeleteVersion n v) ->
      spec_step c q (RespDone (Err (Sentinel ErrZoneNotFound))) c
  | spec_delete_conflict n v z : c !! NormalizeZoneName n = Some z -> v <> "" -> v <> z_Version z ->
      spec_step c (ReqDeleteVersion n v) (RespDone (Err (Sentinel ErrConflict))) c.

Inductive spec_run : gmap string Zone -> list request -> list response -> gmap string Zone -> Prop :=
  | spec_run_nil c : spec_run c [] [] c
  | spec_run_cons c c' c'' q qs r rs :
      spec_step c q r c' -> spec_run c' qs rs c'' -> spec_run c (q :: qs) (r :: rs) c''.

Lemma exec_refines q m u : memory_ok m ->
  let '(r, m', _) := exec q m u in spec_step (zones m) q r (zones m') /\ memory_ok m'.
Proof.
  intros Hok. destruct q; cbn [exec].
  - split; [|done]. rewrite memory_get. destruct (zones m !! _) eqn:E; by constructor.
  - split; [|done]. destruct (memory_list m) as (l & Hp & Hs & ->). by constructor.
  - pose proof (memory_create e zone m u Hok) as Hc.
    destruct (CreateZone e zone m u) as [[[[[]|err] z'] m'] u'].
    + destruct Hc as (z0 & w & -> & _ & Hcr & Hok' & Hn & ->). split; [by constructor|done].
    + destruct Hc as (_ & -> & Hex). split; [by constructor|done].
  - pose proof (memory_update e zone expected m u Hok) as Hc.
    destruct (UpdateZone e zone expected m u) as [[[[[]|err] z'] m'] u'].
    + destruct Hc as (old & Hl & Hv & Hup & Hok' & ->). split; [by econstructor|done].
    + destruct Hc as (-> & Hnf & Hcf). split; [by constructor|done].
  - pose proof (memory_metadata _ now name dnssec m eq_refl) as Hd.
    destruct (UpdateDNSSECMetadata now name dnssec m) as [[[]|err] m'].
    + destruct Hd as (z & E & -> & Hok'). split; [by apply spec_metadata|auto].
    + destruct Hd as (-> & -> & E). split; [|done]. eapply spec_missing; [done|]. eauto.
  - pose proof (memory_delete name m) as Hd. destruct (DeleteZone name m) as [[[]|err] m'].
    + destruct Hd as ([z Hz] & -> & Hok'). split; [|auto]. eapply spec_delete; [done|]. auto.
    + destruct Hd as (-> & -> & Hn). split; [|done]. eapply spec_missing; [done|]. auto.
  - unfold DeleteZoneWithVersion. destruct (zones m !! NormalizeZoneName name) as [z|] eqn:E.
    + destruct (negb _ && _) eqn:Ev; bool_prop.
      * split; [|done]. by eapply spec_delete_conflict.
      * split; [|by apply map_Forall_delete]. eapply spec_delete; [done|]. right. eexists. split; [done|].
        apply andb_false_iff in Ev as [?|?]; bool_prop; auto.
    + split; [|done]. eapply spec_missing; [done|]. eauto.
Qed.

(** C14: The in-memory store refines the abstract store: any sequence of requests
    sent to a fresh backend gets responses the abstract map of zones allows (the
    errors of the interface's contract exactly when they apply, failed writes
    changing nothing), and at the end every stored zone is valid, has a version
    and is filed under its own name. *)
Theorem memory_refines_spec (qs : list request) (u : ulidState) :
  let '(rs, m) := run qs NewMemoryBackend u in
  spec_run ∅ qs rs (zones m)
  /\ map_Forall (fun n z => z_Name z = n /\ ValidateZone (Some z) = Ok tt /\ z_Version z <> "") (zones m).
Proof.
  assert (forall m u, memory_ok m ->
    let '(rs, m') := run qs m u in spec_run (zones m) qs rs (zones m') /\ memory_ok m') as Hrun.
  { clear u. induction qs as [|q qs IH]; intros m u Hok; [split; [constructor|done]|].
    cbn [run]. pose proof (exec_refines q m u Hok) as Hq. destruct (exec q m u) as [[r m'] u'].
    destruct Hq as [Hst Hok']. specialize (IH m' u' Hok'). destruct (run qs m' u') as [rs m''].
    destruct IH as [Hr Hok'']. split; [by econstructor|done]. }
  apply (Hrun NewMemoryBackend u). apply map_Forall_empty.
Qed.
End memory.

(** * What a failed creation means

    [errors.Is(err, ErrZoneAlreadyExists)] looks through wrapped errors; callers
    of [CreateZone] read it as "a zone of that name is stored".  [CreateErrors]
    states that promise, and the memory backend keeps it: no validator's error
    is that sentinel. *)
Class CreateErrors (S : Type) `{StoreLaws S} :=
  exists_truthful : forall e z s u err z' s' u', (forall r, in_rand e = Err r -> errors_Is r ErrZoneAlreadyExists = false) ->
    store_CreateZone e (Some z) s u = (Err err, z', s', u') -> errors_Is err ErrZoneAlreadyExists = true ->
    is_Some (zones_of s !! NormalizeZoneName (z_Name z)).

(** ** Errors of the validators *)
Definition never {A} (r : result A) : Prop := match r with Err e => errors_Is e ErrZoneAlreadyExists = false | Ok _ => True end.
Lemma never_bind {A B} (m : result A) (f : A -> result B) : never m -> (forall a, never (f a)) -> never (rbind m f).
Proof. destruct m; cbn; auto. Qed.
Lemma never_wrap {A} p (m : result A) : never m -> never (wrap p m).
Proof. by destruct m. Qed.
Lemma never_guard b e : errors_Is e ErrZoneAlreadyExists = false -> never (guard_err b e).
Proof. by destruct b. Qed.
Lemma never_replace {A} e (m : result A) : errors_Is e ErrZoneAlreadyExists = false -> never (replace_err e m).
Proof. by destruct m. Qed.
Create HintDb never discriminated.
#[local] Hint Resolve never_replace : never.
Ltac solve_never := repeat first
  [ done | progress eauto 2 with never | apply never_bind; [|intros ?] | apply never_wrap | apply never_guard | progress (case_match; cbn [never]) ].

Section validators.
Context `{UnicodeTables}.
Lemma never_MX v : never (ParseMXValue v).
Proof. unfold ParseMXValue. solve_never. Qed.
Lemma never_SRV v : never (ParseSRVValue v).
Proof. unfold ParseSRVValue. solve_never. Qed.
Lemma never_CAA v : never (ParseCAAValue v).
Proof. unfold ParseCAAValue, parseCAAStringValue. cbv zeta. solve_never. Qed.
#[local] Hint Resolve never_MX never_SRV never_CAA : never.
Lemma never_priority t v : never (recordPriorityFromValue t v).
Proof. unfold recordPriorityFromValue. solve_never. Qed.
Lemma never_domain n : never (ValidateDomainName n).
Proof. unfold ValidateDomainName. solve_never. Qed.
#[local] Hint Resolve never_priority never_domain : never.
Lemma never_target n : never (ValidateDomainTarget n).
Proof. unfold ValidateDomainTarget. solve_never. Qed.
Lemma never_zone_name n : never (ValidateZoneName n).
Proof. unfold ValidateZoneName. solve_never. Qed.
Lemma never_labels ls : forall first, never (validate_labels first ls).
Proof. induction ls as [|l ls IH]; intros first; cbn [validate_labels]; [done|]. apply never_bind; [unfold validate_label; solve_never|intros _; apply IH]. Qed.
#[local] Hint Resolve never_target never_zone_name never_labels : never.
Lemma never_record_name n : never (ValidateRecordName n).
Proof. unfold ValidateRecordName. solve_never. Qed.
Lemma never_value t v : never (ValidateRecordValue t v).
Proof. unfold ValidateRecordValue, ValidateIPv4, ValidateIPv6, ValidateTXTValue, ValidateMXValue, ValidateSRVValue, ValidateCAAValue. solve_never. Qed.
#[local] Hint Resolve never_record_name never_value : never.
Lemma never_record_priority r : never (ValidateRecordPriority r).
Proof. unfold ValidateRecordPriority. solve_never. Qed.
Lemma never_SOA s : never (ValidateSOA s).
Proof. unfold ValidateSOA. solve_never. Qed.
#[local] Hint Resolve never_record_priority never_SOA : never.
Lemma never_record r : never (ValidateRecord r).
Proof. unfold ValidateRecord. solve_never. Qed.
Lemma never_SOA_in s z : never (ValidateSOAInZone s z).
Proof. unfold ValidateSOAInZone, ValidateDomainTargetInZone. solve_never. Qed.
Lemma never_name_in n z : never (ValidateRecordNameInZone n z).
Proof. unfold ValidateRecordNameInZone. cbv zeta. solve_never. Qed.
Lemma never_value_in t v z : never (ValidateRecordValueInZone t v z).
Proof. unfold ValidateRecordValueInZone, ValidateDomainTargetInZone. solve_never. Qed.
#[local] Hint Resolve never_record never_SOA_in never_name_in never_value_in : never.
Lemma never_records z rs : forall i, never (validate_records z i rs).
Proof. induction rs as [|r rs IH]; intros i; cbn [validate_records]; [done|]. solve_never. Qed.
Lemma never_normalize reject rs : forall i, never (snd (normalize_records reject i rs)).
Proof.
  induction rs as [|r rs IH]; intros i; cbn [normalize_records]; [done|]. assert (Hr : never (normalizeRecordDerivedFields (Some r) reject)) by (unfold normalizeRecordDerivedFields; solve_never).
  destruct (normalizeRecordDerivedFields (Some r) reject) as [r'|e]; [|by cbn in *]. specialize (IH (S i)). destruct (normalize_records reject (S i) rs) as [rs' x]. exact IH.
Qed.
Lemma never_constraints z : never (ValidateRecordSetConstraints z).
Proof.
  destruct z as [z|]; [|done]. cbn [ValidateRecordSetConstraints]. cbv zeta. apply never_bind; [|intros st; solve_never].
  generalize 0, (mkConstraint ∅ ∅ false). induction (z_Records z) as [|r rs IH]; intros i st; cbn [constraint_loop]; [done|].
  apply never_bind; [|intros st'; apply IH]. unfold constraint_step, check_cname, check_ttl. cbv zeta. solve_never.
Qed.
#[local] Hint Resolve never_records never_constraints : never.
Lemma never_zone z : never (ValidateZone z).
Proof. unfold ValidateZone. solve_never. Qed.
Lemma never_write z : never (snd (validateZoneForWrite z)).
Proof.
  unfold validateZoneForWrite, NormalizeZoneDerivedFields, zone_derived_fields. destruct z as [z|]; [|done].
  pose proof (never_normalize true (z_Records z) 0) as Hn. destruct (normalize_records true 0 (z_Records z)) as [rs res]. cbn [snd] in Hn.
  destruct res as [[]|e]; cbn [snd]; [apply never_wrap, never_zone|exact Hn].
Qed.

(** A new version fails only when the random source does. *)
Lemma never_version e u : (forall r, in_rand e = Err r -> errors_Is r ErrZoneAlreadyExists = false) -> never (fst (NewZoneVersion e u)).
Proof.
  intros Hr. unfold NewZoneVersion, NewULID. destruct (_ <? _).
  - destruct (in_rand e) as [rnd|r] eqn:E; cbn; [done|by apply Hr].
  - unfold increment80. destruct (increment_bytes _) as [v' []]; done.
Qed.
End validators.

#[export] Instance memory_create_errors `{UnicodeTables, !UnicodeLaws} : CreateErrors MemoryBackend.
Proof.
  intros e z s u err z' s' u' Hr Hc Hex. cbn in Hc. unfold CreateZone in Hc.
  assert (Hprep : never (fst (prepareZoneForCreate e (Some z) NormalizeZoneName u))).
  { unfold prepareZoneForCreate. rewrite copyZone_id. cbv zeta. set (w2 := if Serial _ =? 0 then _ else _). unfold version_for_create.
    pose proof (never_version e u Hr) as Hv. destruct (z_Version w2 =? "")%string; [destruct (NewZoneVersion e u) as [[v|e'] u1]; [|exact Hv]|];
      match goal with |- context [validateZoneForWrite ?x] => pose proof (never_write x) as Hw; destruct (validateZoneForWrite x) as [w5 [[]|e5]] end; cbn; done. }
  destruct (prepareZoneForCreate e (Some z) NormalizeZoneName u) as [[[w|]|err'] u1] eqn:Ep.
  - destruct (zones s !! z_Name w) as [old|] eqn:Ez; [|destruct (assign_ids _ _ _); discriminate]. pose proof (prepareZoneForCreate_cases e (Some z) NormalizeZoneName u) as Hcases. rewrite Ep in Hcases. cbn [fst] in Hcases.
    destruct Hcases as (z0 & rs & v & [= <-] & _ & -> & _). cbn [z_Name] in Ez. change (zones_of s) with (zones s). eauto.
  - injection Hc as <- _ _ _. discriminate.
  - injection Hc as <- _ _ _. cbn in Hprep. congruence.
Qed.
