(* ===== verification/SqlBackend.v ===== *)
(** * The relational database behind the SQL backends

    The two tables of the schema ([sqliteSchemaSQL], [postgresSchemaSQL] and
    migrations/) and the meaning of the statements the backends send.  The engine
    is not in the repository: what differs between engines is the record
    [Engine], and any call may fail with any text, changing nothing.  A time
    column holds an instant, or in SQLite a text that [time.Parse] rejects. *)

From S2P Require Import Prelude Io GoStrings GoStringsFacts Utf8 GoSort Zone Names Validation Serial Sha256 Ulid Store.
#[local] Open Scope io_scope.

Inductive stamp := At (t : Time) | Malformed (reason : string).
Record dnssec_columns := mkCols {
  c_enabled : bool; c_algorithm : option Z; c_ksk_key_tag : option Z; c_zsk_key_tag : option Z;
  c_nsec3_enabled : bool; c_nsec3_iterations : option Z; c_nsec3_salt : option string; c_signature_expiration : option stamp }.
Record zone_row := mkZoneRow {
  zr_name : string; zr_version : string; zr_soa : SOARecord; zr_dnssec : dnssec_columns; zr_created_at : stamp; zr_updated_at : stamp }.
Record record_row := mkRecordRow {
  rr_zone_id : Z; rr_name : string; rr_type : string; rr_ttl : Z; rr_value : string; rr_value_hash : string; rr_priority : option Z }.
(** Rows by primary key; the sequences that number them. *)
Record tables := mkTables { t_zones : gmap Z zone_row; t_records : gmap Z record_row; t_zone_seq : Z; t_record_seq : Z }.

#[global] Instance stamp_eq_dec : EqDecision stamp.
Proof. solve_decision. Defined.
#[global] Instance dnssec_columns_eq_dec : EqDecision dnssec_columns.
Proof. solve_decision. Defined.
#[global] Instance zone_row_eq_dec : EqDecision zone_row.
Proof. solve_decision. Defined.

Record Engine := mkEngine {
  (** The error text of the n-th call, if it fails. *)
  fault : nat -> option string;
  (** What a time column keeps of an instant. *)
  column_time : Time -> Time;
  (** What [updated_at] holds after an update that sets it, at the n-th call: a trigger may set it. *)
  touched : nat -> Time -> Time;
  (** The order of text columns. *)
  collation : string -> string -> bool;
  (** The error text for a duplicate key. *)
  duplicate_text : string;
  (** Whether an update counts the rows it matched or those it changed. *)
  found_rows : bool;
  (** Whether a rolled back transaction gives its numbers back. *)
  sequences_roll_back : bool }.

(** The connection: the tables, the number of calls so far and the process-wide
    generator of versions. *)
Record sql := mkSql { tb : tables; calls : nat; generator : ulidState }.

Section statements.
Context (E : Engine).

Definition statement {A} (run : nat -> tables -> result A * tables) : io sql (result A) := fun s =>
  match fault E (calls s) with
  | Some text => (Err (Errorf text), mkSql (tb s) (S (calls s)) (generator s))
  | None => let '(r, t) := run (calls s) (tb s) in (r, mkSql t (S (calls s)) (generator s))
  end.
Definition query {A} (read : tables -> A) : io sql (result A) := statement (fun _ t => (Ok (read t), t)).
(** A call that neither reads nor writes the tables: [Ping], [Prepare],
    [RowsAffected], [BEGIN]. *)
Definition roundtrip_call : io sql (result unit) := query (fun _ => tt).

(** ** zones *)
Definition named (name : string) (kr : Z * zone_row) : bool := (zr_name (snd kr) =? name)%string.
(** [WHERE name = ?]; a row query reads the first row. *)
Definition select_zone (name : string) (t : tables) : option (Z * zone_row) := head (List.filter (named name) (map_to_list (t_zones t))).
Definition zone_exists (name : string) (t : tables) : bool := existsb (named name) (map_to_list (t_zones t)).
Definition row_less (a b : Z * zone_row) : bool := collation E (zr_name (snd a)) (zr_name (snd b)).
(** [ORDER BY name], with [LIMIT] (none if absent) and [OFFSET]. *)
Definition select_zones (limit : option Z) (offset : Z) (t : tables) : list (Z * zone_row) :=
  let rows := drop (Z.to_nat offset) (sort_Slice row_less (map_to_list (t_zones t))) in
  match limit with Some n => take (Z.to_nat n) rows | None => rows end.
Definition column (c : stamp) : stamp := match c with At t => At (column_time E t) | Malformed _ => c end.
Definition dnssec_cells (c : dnssec_columns) : dnssec_columns :=
  mkCols (c_enabled c) (c_algorithm c) (c_ksk_key_tag c) (c_zsk_key_tag c) (c_nsec3_enabled c) (c_nsec3_iterations c) (c_nsec3_salt c)
    (option_map column (c_signature_expiration c)).
(** [INSERT INTO zones]: the new primary key. *)
Definition insert_zone (row : zone_row) : io sql (result Z) := statement (fun _ t =>
  if zone_exists (zr_name row) t then (Err (Errorf (duplicate_text E)), t)
  else
    let id := t_zone_seq t + 1 in
    let row := mkZoneRow (zr_name row) (zr_version row) (zr_soa row) (dnssec_cells (zr_dnssec row)) (column (zr_created_at row)) (column (zr_updated_at row)) in
    (Ok id, mkTables (<[id := row]> (t_zones t)) (t_records t) id (t_record_seq t))).
(** [UPDATE zones SET ... WHERE ...]: the number of rows affected. *)
Definition after_update (set : zone_row -> zone_row) (n : nat) (row : zone_row) : zone_row :=
  let row := set row in
  mkZoneRow (zr_name row) (zr_version row) (zr_soa row) (dnssec_cells (zr_dnssec row)) (zr_created_at row)
    (match column (zr_updated_at row) with At t => At (touched E n t) | c => c end).
Definition update_zones (where_ : zone_row -> bool) (set : zone_row -> zone_row) : io sql (result Z) := statement (fun n t =>
  let changes row := found_rows E || negb (bool_decide (after_update set n row = row)) in
  (Ok (Z.of_nat (length (List.filter (fun kr => where_ (snd kr) && changes (snd kr)) (map_to_list (t_zones t))))),
   mkTables ((fun row => if where_ row then after_update set n row else row) <$> t_zones t) (t_records t) (t_zone_seq t) (t_record_seq t))).
(** [DELETE FROM zones WHERE name = ?]; records go with their zone. *)
Definition delete_zones (name : string) : io sql (result Z) := statement (fun _ t =>
  let gone := List.filter (named name) (map_to_list (t_zones t)) in
  (Ok (Z.of_nat (length gone)),
   mkTables (filter (fun kr => named name kr = false) (t_zones t))
     (filter (fun kr => rr_zone_id (snd kr) ∉ gone.*1) (t_records t)) (t_zone_seq t) (t_record_seq t))).

(** ** records *)
Definition record_less : Z * record_row -> Z * record_row -> bool :=
  lex_less (collation E) String.eqb (fun kr => rr_name (snd kr))
    (lex_less (collation E) String.eqb (fun kr => rr_type (snd kr)) (lex_less Z.ltb Z.eqb fst (fun _ _ => false))).
Definition of_zone (id : Z) (kr : Z * record_row) : bool := rr_zone_id (snd kr) =? id.
(** [FROM records r JOIN zones z ... WHERE z.name = ? ORDER BY r.name, r.type, r.id]. *)
Definition select_records (name : string) (t : tables) : list (Z * record_row) :=
  sort_Slice record_less (List.filter (fun kr => existsb (fun z => of_zone (fst z) kr) (List.filter (named name) (map_to_list (t_zones t)))) (map_to_list (t_records t))).
(** [WHERE z.name IN (...) ORDER BY z.name, ...], with the zone's name. *)
Definition select_records_in (names : list string) (t : tables) : list (string * (Z * record_row)) :=
  sort_Slice (lex_less (collation E) String.eqb fst (fun a b => record_less (snd a) (snd b)))
    (flat_map (fun kr => omap (fun z => if of_zone (fst z) kr && existsb (String.eqb (zr_name (snd z))) names then Some (zr_name (snd z), kr) else None)
                           (map_to_list (t_zones t)))
       (map_to_list (t_records t))).
Definition select_record_ids (zone_id : Z) (t : tables) : list Z := (List.filter (of_zone zone_id) (map_to_list (t_records t))).*1.
Definition delete_records (zone_id : Z) : io sql (result unit) := statement (fun _ t =>
  (Ok tt, mkTables (t_zones t) (filter (fun kr => of_zone zone_id kr = false) (t_records t)) (t_zone_seq t) (t_record_seq t))).
Definition same_key (r : record_row) (kr : Z * record_row) : bool :=
  (rr_zone_id r =? rr_zone_id (snd kr)) && (rr_name r =? rr_name (snd kr))%string && (rr_type r =? rr_type (snd kr))%string
  && (rr_ttl r =? rr_ttl (snd kr)) && (rr_value_hash r =? rr_value_hash (snd kr))%string.
(** [INSERT INTO records], with its primary key or with the next number:
    foreign key, primary key and [idx_records_unique]. *)
Definition insert_record (explicit : option Z) (row : record_row) : io sql (result unit) := statement (fun _ t =>
  let id := default (t_record_seq t + 1) explicit in
  if negb (bool_decide (is_Some (t_zones t !! rr_zone_id row))) then (Err (Errorf "foreign key constraint failed"), t)
  else if bool_decide (is_Some (t_records t !! id)) || existsb (same_key row) (map_to_list (t_records t)) then (Err (Errorf (duplicate_text E)), t)
  else (Ok tt, mkTables (t_zones t) (<[id := row]> (t_records t)) (t_zone_seq t) (Z.max (t_record_seq t) id))).

(** ** Transactions

    [BeginTx], the body, then [Commit]; on an error of the body, or of the
    commit, [Rollback].  Transactions do not interleave: SQLite has one
    connection, the others lock the rows they will write. *)
Definition rollback (before now : tables) : tables :=
  if sequences_roll_back E then before else mkTables (t_zones before) (t_records before) (t_zone_seq now) (t_record_seq now).
Definition transaction {A B} (begin_failed commit_failed : error -> error) (other : B) (body : io sql (result A * B)) : io sql (result A * B) := fun s0 =>
  match roundtrip_call s0 with
  | (Err e, s) => ((Err (begin_failed e), other), s)
  | (Ok _, s) =>
    let roll s' := mkSql (rollback (tb s) (tb s')) (calls s') (generator s') in
    match body s with
    | ((Err e, b), s') => ((Err e, b), roll s')
    | ((Ok a, b), s') =>
      match roundtrip_call s' with
      | (Err e, s') => ((Err (commit_failed e), b), roll s')
      | (Ok _, s') => ((Ok a, b), s')
      end
    end
  end.
End statements.

(** * The SQL backends (pkg/backend/sqlite.go, postgres.go, mysql.go, sql_batch.go,
    sql_record_ids.go, sql_pool.go)

    The three backends send the same statements; what differs (texts of errors,
    precision of times, how a duplicate is recognised, retries) is a [Dialect].
    A transaction's operations are the bodies that the backend's own operations
    wrap in a transaction. *)
#[local] Open Scope io_scope.

(** ** Record identifiers (sql_record_ids.go) *)
Definition formatSQLRecordID (id : Z) : string := Itoa id.
Definition parseSQLRecordID (id : string) : option Z :=
  let id := TrimSpace id in
  if (id =? "")%string then None
  else match Atoi id with Some parsed => if parsed <=? 0 then None else Some parsed | None => None end.
(** [None] is the nil map. *)
Definition allows (ids : option (gset Z)) (id : Z) : bool := match ids with Some ids => bool_decide (id ∈ ids) | None => false end.

(** ** Batches (sql_batch.go) *)
Definition sqlBatchLoadZoneLimit : nat := 500.
Definition sqlBatchEnd (start total : nat) : nat := Nat.min (start + sqlBatchLoadZoneLimit) total.
Definition sqlZoneNameArgs (zones : list Zone) (start end_ : nat) : list string := map z_Name (take (end_ - start) (drop start zones)).
Definition assignZoneRecords (zones : list Zone) (recordsByZone : gmap string (list ZRecord)) : list Zone :=
  map (fun zone => set_Records (default [] (recordsByZone !! z_Name zone)) zone) zones.

(** ** Dialects *)
Inductive place := OnDb | InTx.
Inductive step :=
  | CountZonesStep | HealthStep | Begin | BeginDelete | CommitDelete | QueryZone | QueryCurrent | QueryZones | IterateZones
  | QuerySummaries | IterateSummaries | QueryRecords | QueryRecordsFor | IterateRecordsFor | InsertZone | GetZoneID | UpdateStep
  | RowsAffected | LoadIDs | DeleteRecords | PrepareRecord | PrepareRecordID | InsertRecord | UpdateMetadata | CheckExists | DeleteStep | CheckVersion.
Record Dialect := mkDialect {
  text : place -> step -> string;
  (** Texts that some dialects leave out: iterating records, [LastInsertId]
      ([None] when there is no such call). *)
  iterate_records : option string;
  last_insert_id : option (option string);
  isDuplicate : string -> bool;
  (** Times of a new zone; [UpdatedAt] set before the transaction; times set from
      now and the stored [created_at] and [updated_at]. *)
  normalizeTimestamps : Zone -> Zone;
  stamp_early : Time -> Zone -> Zone;
  stamp_late : Time -> Time -> Time -> Zone -> Zone;
  metadata_time : Time -> Time;
  (** Whether [UpdateZone] asks again for the zone when no row was updated. *)
  asks_again : bool }.

(** ** Columns *)
Definition dnssecColumnValues (config : option DNSSECConfig) : dnssec_columns :=
  match config with
  | Some c =>
    if Enabled c then
      mkCols true (Some (Algorithm c)) (Some (KSKKeyTag c)) (Some (ZSKKeyTag c)) (NSEC3Enabled c) (Some (NSEC3Iterations c)) (Some (NSEC3Salt c))
        (match SignatureExpiration c with Some t => if IsZero t then None else Some (At t) | None => None end)
    else mkCols false None None None false None None None
  | None => mkCols false None None None false None None None
  end.
Definition parseSQLiteTimeField (field : string) (value : stamp) : result Time :=
  match value with At t => Ok t | Malformed reason => Err (Wrapf ("parse " +:+ field) (Errorf reason)) end.
Definition applySQLiteSignatureExpiration (value : option stamp) : result (option Time) :=
  match value with None => Ok None | Some v => let* t := parseSQLiteTimeField "dnssec_signature_expiration" v in Ok (Some t) end.
(** A row as a zone without records; a null number scans as 0, a null text as empty. *)
Definition scanZoneRow (row : zone_row) : result Zone :=
  let* created := parseSQLiteTimeField "created_at" (zr_created_at row) in
  let* updated := parseSQLiteTimeField "updated_at" (zr_updated_at row) in
  let c := zr_dnssec row in
  let* dnssec :=
    if c_enabled c then
      let* expiration := applySQLiteSignatureExpiration (c_signature_expiration c) in
      Ok (Some (mkDNSSEC true (u8 (default 0 (c_algorithm c))) (u16 (default 0 (c_ksk_key_tag c))) (u16 (default 0 (c_zsk_key_tag c)))
                  (c_nsec3_enabled c) (u16 (default 0 (c_nsec3_iterations c))) (default "" (c_nsec3_salt c)) expiration))
    else Ok None in
  Ok (mkZone (zr_name row) (zr_version row) (zr_soa row) [] dnssec created updated).
Definition scan_record (kr : Z * record_row) : ZRecord :=
  let '(id, r) := kr in
  mkRecord (formatSQLRecordID id) (rr_name r) (rr_type r) (rr_ttl r) (rr_value r) (option_map u16 (rr_priority r)).
Definition computeValueHash (value : string) : string := sha256_hex value.
Definition record_columns (zoneID : Z) (rec : ZRecord) : record_row :=
  mkRecordRow zoneID (rec_Name rec) (rec_Type rec) (rec_TTL rec) (rec_Value rec) (computeValueHash (rec_Value rec)) (rec_Priority rec).
(** The identifier a record is inserted with, if it brings one that is allowed. *)
Definition explicit_id (allowedRecordIDs : option (gset Z)) (rec : ZRecord) : option Z :=
  match parseSQLRecordID (rec_ID rec) with
  | Some recordID => if allows allowedRecordIDs recordID then Some recordID else None
  | None => None
  end.
Definition zone_columns (zone : Zone) : zone_row :=
  mkZoneRow (z_Name zone) (z_Version zone) (z_SOA zone) (dnssecColumnValues (z_DNSSEC zone)) (At (z_CreatedAt zone)) (At (z_UpdatedAt zone)).

Section backend.
Context `{UnicodeTables} (E : Engine) (D : Dialect).

Definition normalizeZoneName (name : string) : string :=
  let name := ToLower (TrimSpace name) in
  if negb (HasSuffix name ".") then name +:+ "." else name.

(** The loop over [rows.Next] that scans each row, then [rows.Err]. *)
Definition rows {A B} (p : place) (q : step) (iterate : option string) (read : tables -> A) (scan : A -> result B) : io sql (result B) :=
  l <-? io_wrap (text D p q) (query E read) ;
  match scan l with
  | Err e => io_fail e
  | Ok b => (match iterate with Some text => io_wrap text (roundtrip_call E) | None => roundtrip_call E end) ;;? io_ok b
  end.

(** ** Reading *)
Definition HealthCheck : io sql (result unit) := io_wrap (text D OnDb HealthStep) (roundtrip_call E).
Definition CountZones : io sql (result Z) := io_wrap (text D OnDb CountZonesStep) (query E (fun t => Z.of_nat (size (t_zones t)))).
Definition scanZone (p : place) (name : string) : io sql (result Zone) :=
  row <- query E (select_zone name) ;
  io_ret match row with
         | Err e => Err (Wrapf (text D p QueryZone) e)
         | Ok None => Err (Sentinel ErrZoneNotFound)
         | Ok (Some (_, row)) => wrap (text D p QueryZone) (scanZoneRow row)
         end.
Definition loadRecords (p : place) (zoneName : string) : io sql (result (list ZRecord)) :=
  rows p QueryRecords (iterate_records D) (select_records E zoneName) (fun l => Ok (map scan_record l)).
Definition GetZone (p : place) (name : string) : io sql (result Zone) :=
  zone <-? scanZone p (normalizeZoneName name) ;
  records <-? loadRecords p (z_Name zone) ;
  io_ok (set_Records records zone).
Definition append_record (m : gmap string (list ZRecord)) (row : string * (Z * record_row)) : gmap string (list ZRecord) :=
  <[fst row := default [] (m !! fst row) ++ [scan_record (snd row)]]> m.
Fixpoint load_batches (fuel : nat) (p : place) (start : nat) (zones : list Zone) (recordsByZone : gmap string (list ZRecord))
  : io sql (result (gmap string (list ZRecord))) :=
  match fuel with
  | O => io_ok recordsByZone
  | S fuel =>
    if (length zones <=? start)%nat then io_ok recordsByZone
    else
      let end_ := sqlBatchEnd start (length zones) in
      recordsByZone <-? rows p QueryRecordsFor (Some (text D p IterateRecordsFor)) (select_records_in E (sqlZoneNameArgs zones start end_))
                          (fun l => Ok (foldl append_record recordsByZone l)) ;
      load_batches fuel p end_ zones recordsByZone
  end.
Definition loadRecordsForZones (p : place) (zones : list Zone) : io sql (result (list Zone)) :=
  recordsByZone <-? load_batches (length zones) p 0 zones ∅ ;
  io_ok (assignZoneRecords zones recordsByZone).
Fixpoint scan_rows (l : list (Z * zone_row)) : result (list Zone) :=
  match l with
  | [] => Ok []
  | (_, row) :: l => let* zone := scanZoneRow row in let* zones := scan_rows l in Ok (zone :: zones)
  end.
Definition listing (opts : ListOptions) : tables -> list (Z * zone_row) :=
  select_zones E (if 0 <? Limit opts then Some (Limit opts) else None) (normalizeListOffset (Offset opts)).
Definition ListZones (p : place) (opts : ListOptions) : io sql (result (list Zone)) :=
  zones <-? rows p QueryZones (Some (text D p IterateZones)) (listing opts) scan_rows ;
  loadRecordsForZones p zones.
Definition ListZoneSummaries (p : place) (opts : ListOptions) : io sql (result (list ZoneSummary)) :=
  rows p QuerySummaries (Some (text D p IterateSummaries)) (listing opts) (fun l => Ok (map (fun kr => mkSummary (zr_name (snd kr)) (zr_version (snd kr))) l)).

(** ** Writing *)
Fixpoint insert_rows (zoneID : Z) (allowedRecordIDs : option (gset Z)) (records : list ZRecord) : io sql (result unit) :=
  match records with
  | [] => io_ok tt
  | rec :: records =>
    io_wrap (text D InTx InsertRecord) (insert_record E (explicit_id allowedRecordIDs rec) (record_columns zoneID rec)) ;;?
    insert_rows zoneID allowedRecordIDs records
  end.
Definition insertRecordsTx (zoneID : Z) (records : list ZRecord) (allowedRecordIDs : option (gset Z)) : io sql (result unit) :=
  if (length records =? 0)%nat then io_ok tt
  else
    io_wrap (text D InTx PrepareRecord) (roundtrip_call E) ;;?
    io_wrap (text D InTx PrepareRecordID) (roundtrip_call E) ;;?
    insert_rows zoneID allowedRecordIDs records.
Definition driver_text (e : error) : string := match e with Errorf text => text | _ => "" end.
Definition insertZoneTx (zone : Zone) : io sql (result Z) :=
  inserted <- insert_zone E (zone_columns zone) ;
  match inserted with
  | Err e => io_fail (if isDuplicate D (driver_text e) then Sentinel ErrZoneAlreadyExists else Wrapf (text D InTx InsertZone) e)
  | Ok id =>
    match last_insert_id D with
    | None => io_ok id
    | Some None => roundtrip_call E ;;? io_ok id
    | Some (Some text) => io_wrap text (roundtrip_call E) ;;? io_ok id
    end
  end.
(** The caller's zone is passed by reference; it changes on success only. *)
Definition write_new (zone : Zone) : io sql (result unit) :=
  zoneID <-? insertZoneTx zone ;
  insertRecordsTx zoneID (z_Records zone) None.
Definition prepare (e : Inputs) (zone : option Zone) : io sql (result (option Zone)) := fun s =>
  let '(r, u) := prepareZoneForCreate e zone normalizeZoneName (generator s) in
  (match r with Ok z => Ok (option_map (normalizeTimestamps D) z) | Err err => Err err end, mkSql (tb s) (calls s) u).
Definition nil_zone : error := Errorf "invalid memory address or nil pointer dereference".
Definition creating (e : Inputs) (zone : option Zone) (write : Zone -> io sql (result unit)) : io sql (result unit * option Zone) :=
  prepared <- prepare e zone ;
  match prepared with
  | Err err => io_ret (Err err, zone)
  | Ok None => io_ret (Err nil_zone, zone)
  | Ok (Some writeZone) =>
    written <- write writeZone ;
    io_ret (written, match written with Ok _ => copyZoneInto zone (Some writeZone) | Err _ => zone end)
  end.
Definition in_transaction (begin_failed commit_failed : error -> error) (m : io sql (result unit)) : io sql (result unit) :=
  r <- transaction E begin_failed commit_failed tt (r <- m ; io_ret (r, tt)) ;
  io_ret (fst r).
Definition createZone (zone : Zone) : io sql (result unit) := in_transaction (Wrapf (text D OnDb Begin)) id (write_new zone).
Definition CreateZone (e : Inputs) (zone : option Zone) : io sql (result unit * option Zone) := creating e zone createZone.
Definition tx_CreateZone (e : Inputs) (zone : option Zone) : io sql (result unit * option Zone) := creating e zone write_new.

Definition count_rows (p : place) (m : io sql (result Z)) : io sql (result Z) :=
  n <-? m ;
  io_wrap (text D p RowsAffected) (roundtrip_call E) ;;?
  io_ok n.
Definition exists_query (p : place) (name : string) : io sql (result bool) := io_wrap (text D p CheckExists) (query E (zone_exists name)).
(** [UPDATE zones SET ... WHERE name = ? [AND version = ?]], then the records. *)
Definition write_update (zone : Zone) (expectedVersion : string) : io sql (result unit) :=
  let matches row := (zr_name row =? z_Name zone)%string && ((expectedVersion =? "")%string || (zr_version row =? expectedVersion)%string) in
  let set row := mkZoneRow (zr_name row) (z_Version zone) (z_SOA zone) (dnssecColumnValues (z_DNSSEC zone)) (zr_created_at row) (At (z_UpdatedAt zone)) in
  n <-? count_rows InTx (io_wrap (text D InTx UpdateStep) (update_zones E matches set)) ;
  if n =? 0 then
    if asks_again D then
      found <-? exists_query InTx (z_Name zone) ;
      io_fail (Sentinel (if negb found then ErrZoneNotFound else ErrConflict))
    else io_fail (Sentinel (if negb (expectedVersion =? "")%string then ErrConflict else ErrZoneNotFound))
  else
    found <-? io_wrap (text D InTx GetZoneID) (query E (select_zone (z_Name zone))) ;
    match found with
    | None => io_fail (Wrapf (text D InTx GetZoneID) (Errorf "sql: no rows in result set"))
    | Some (zoneID, _) =>
      ids <-? io_wrap (text D InTx LoadIDs) (query E (select_record_ids zoneID)) ;
      io_wrap (text D InTx LoadIDs) (roundtrip_call E) ;;?
      io_wrap (text D InTx DeleteRecords) (delete_records E zoneID) ;;?
      insertRecordsTx zoneID (z_Records zone) (Some (list_to_set ids))
    end.
Definition with_zone {A} (zone : Zone) (m : io sql (result A)) : io sql (result A * Zone) := r <- m ; io_ret (r, zone).
Definition next_version (e : Inputs) (zone : Zone) (currentVersion : string) : io sql (result Zone) := fun s =>
  let '(r, u) := ensureZoneUpdateVersion e zone currentVersion (generator s) in (r, mkSql (tb s) (calls s) u).
(** The result and the caller's zone, which is written through on every path. *)
Definition update_body (e : Inputs) (zone : Zone) (expectedVersion : string) : io sql (result unit * Zone) :=
  row <- query E (select_zone (z_Name zone)) ;
  match row with
  | Err err => io_ret (Err (Wrapf (text D InTx QueryCurrent) err), zone)
  | Ok None => io_ret (Err (Sentinel ErrZoneNotFound), zone)
  | Ok (Some (_, row)) =>
    match (let* created := parseSQLiteTimeField "created_at" (zr_created_at row) in
           Ok (created, match zr_updated_at row with At t => t | Malformed _ => zeroTime end)) with
    | Err err => io_ret (Err (Wrapf (text D InTx QueryCurrent) err), zone)
    | Ok (createdAt, updatedAt) =>
      let zone := stamp_late D (in_now e) createdAt updatedAt zone in
      let zone := set_SOASerial (updateSOASerial (in_date e) (Serial (zr_soa row)) (Serial (z_SOA zone))) zone in
      versioned <- next_version e zone (zr_version row) ;
      match versioned with
      | Err err => io_ret (Err err, zone)
      | Ok zone =>
        match validateZoneForWrite (Some zone) with
        | (zone', Err err) => io_ret (Err err, default zone zone')
        | (zone', Ok _) => let zone := default zone zone' in with_zone zone (write_update zone expectedVersion)
        end
      end
    end
  end.
Definition touch (e : Inputs) (zone : Zone) : Zone := stamp_early D (in_now e) (set_Name (normalizeZoneName (z_Name zone)) zone).
Definition UpdateZone (e : Inputs) (zone : Zone) (expectedVersion : string) : io sql (result unit * Zone) :=
  let zone := touch e zone in
  transaction E (Wrapf (text D OnDb Begin)) id zone (update_body e zone expectedVersion).
Definition tx_UpdateZone (e : Inputs) (zone : Zone) (expectedVersion : string) : io sql (result unit * Zone) := update_body e (touch e zone) expectedVersion.

Definition UpdateDNSSECMetadata (now : Time) (zoneName : string) (dnssec : option DNSSECConfig) : io sql (result unit) :=
  let name := normalizeZoneName zoneName in
  let set row := mkZoneRow (zr_name row) (zr_version row) (zr_soa row) (dnssecColumnValues dnssec) (zr_created_at row) (At (metadata_time D now)) in
  n <-? count_rows OnDb (io_wrap (text D OnDb UpdateMetadata) (update_zones E (fun row => (zr_name row =? name)%string) set)) ;
  if n =? 0 then
    found <-? exists_query OnDb name ;
    if negb found then io_fail (Sentinel ErrZoneNotFound) else io_ok tt
  else io_ok tt.

Definition DeleteZone (p : place) (name : string) : io sql (result unit) :=
  n <-? count_rows p (io_wrap (text D p DeleteStep) (delete_zones E (normalizeZoneName name))) ;
  if n =? 0 then io_fail (Sentinel ErrZoneNotFound) else io_ok tt.
Definition deleteZoneWithVersionTx (name expectedVersion : string) : io sql (result unit) :=
  row <-? io_wrap (text D InTx CheckVersion) (query E (select_zone name)) ;
  match row with
  | None => io_fail (Sentinel ErrZoneNotFound)
  | Some (_, row) =>
    if negb (expectedVersion =? "")%string && negb (zr_version row =? expectedVersion)%string then io_fail (Sentinel ErrConflict)
    else
      n <-? count_rows InTx (io_wrap (text D InTx DeleteStep) (delete_zones E name)) ;
      if n =? 0 then io_fail (Sentinel ErrConflict) else io_ok tt
  end.
Definition DeleteZoneWithVersion (name expectedVersion : string) : io sql (result unit) :=
  in_transaction (Wrapf (text D OnDb BeginDelete)) (Wrapf (text D OnDb CommitDelete)) (deleteZoneWithVersionTx (normalizeZoneName name) expectedVersion).
Definition tx_DeleteZoneWithVersion (name expectedVersion : string) : io sql (result unit) := deleteZoneWithVersionTx (normalizeZoneName name) expectedVersion.
End backend.

(** ** The store interface
    An attempt of a write has inputs of its own ([nat]: the attempt). *)
Record Backend := mkBackend {
  backend_HealthCheck : io sql (result unit);
  backend_CountZones : io sql (result Z);
  backend_GetZone : string -> io sql (result Zone);
  backend_ListZones : ListOptions -> io sql (result (list Zone));
  backend_ListZoneSummaries : ListOptions -> io sql (result (list ZoneSummary));
  backend_CreateZone : Inputs -> option Zone -> io sql (result unit * option Zone);
  backend_UpdateZone : (nat -> Inputs) -> Zone -> string -> io sql (result unit * Zone);
  backend_UpdateDNSSECMetadata : (nat -> Time) -> string -> option DNSSECConfig -> io sql (result unit);
  backend_DeleteZone : string -> io sql (result unit);
  backend_DeleteZoneWithVersion : string -> string -> io sql (result unit) }.

(** ** SQLite *)
Module Sqlite.
Definition isSQLiteConstraintError (text : string) : bool := Contains text "UNIQUE constraint failed".
Definition sqlite_text (p : place) (s : step) : string :=
  match s with
  | CountZonesStep => "failed to count zones" | HealthStep => "sqlite health check failed" | Begin => "begin tx"
  | BeginDelete => "begin delete zone transaction" | CommitDelete => "commit delete zone transaction"
  | QueryZone | QueryCurrent => "query zone"
  | QueryZones => match p with OnDb => "failed to query zones" | InTx => "query zones" end
  | IterateZones => match p with OnDb => "error iterating zones" | InTx => "iterate zones" end
  | QuerySummaries => match p with OnDb => "failed to query zone summaries" | InTx => "query zone summaries" end
  | IterateSummaries => match p with OnDb => "error iterating zone summaries" | InTx => "iterate zone summaries" end
  | QueryRecords => "query records" | QueryRecordsFor => "query records for zones" | IterateRecordsFor => "iterate records for zones"
  | InsertZone => "insert zone" | GetZoneID => "get zone ID" | UpdateStep => "update zone" | RowsAffected => "rows affected"
  | LoadIDs => "load record IDs" | DeleteRecords => "delete old records" | PrepareRecord => "prepare record insert"
  | PrepareRecordID => "prepare record insert with id" | InsertRecord => "insert record" | UpdateMetadata => "update DNSSEC metadata"
  | CheckExists => "check zone existence" | DeleteStep => "delete zone" | CheckVersion => "check zone version"
  end.
Definition sqlite : Dialect :=
  mkDialect sqlite_text None (Some None) isSQLiteConstraintError id (fun now z => set_Times (z_CreatedAt z) now z)
    (fun _ created _ z => set_Times created (z_UpdatedAt z) z) id false.

(** What follows the first question mark. *)
Fixpoint query_part (dsn : string) : option string :=
  match dsn with EmptyString => None | String c rest => if (byte c =? 63) then Some rest else query_part rest end.
Section dsn.
Context `{UnicodeTables}.
Definition sqliteDSNHasQueryOption (dsn option_ : string) : bool :=
  match query_part dsn with None => false | Some query => Contains (ToLower query) (ToLower option_) end.
Definition sqliteDSNQuerySeparator (dsn : string) : string :=
  if HasSuffix dsn "?" || HasSuffix dsn "&" then "" else if Contains dsn "?" then "&" else "?".
Definition sqlite_pragmas : list (string * string) :=
  [("journal_mode", "journal_mode(wal)"); ("foreign_keys", "foreign_keys(1)"); ("busy_timeout", "busy_timeout(5000)")].
Definition sqliteDSNWithDefaultPragmas (dsn : string) : string :=
  foldl (fun dsn pragma => if sqliteDSNHasQueryOption dsn (fst pragma) then dsn else dsn +:+ sqliteDSNQuerySeparator dsn +:+ "_pragma=" +:+ snd pragma) dsn sqlite_pragmas.
End dsn.
Section operations.
Context `{UnicodeTables} (E : Engine).
Definition sqlite_HealthCheck : io sql (result unit) := HealthCheck E sqlite.
Definition sqlite_CountZones : io sql (result Z) := CountZones E sqlite.
Definition sqlite_GetZone (name : string) : io sql (result Zone) := GetZone E sqlite OnDb name.
Definition sqlite_ListZones (opts : ListOptions) : io sql (result (list Zone)) := ListZones E sqlite OnDb opts.
Definition sqlite_ListZoneSummaries (opts : ListOptions) : io sql (result (list ZoneSummary)) := ListZoneSummaries E sqlite OnDb opts.
Definition sqlite_DeleteZone (name : string) : io sql (result unit) := DeleteZone E sqlite OnDb name.
Definition sqlite_CreateZone (e : Inputs) (zone : option Zone) : io sql (result unit * option Zone) := CreateZone E sqlite e zone.
Definition sqlite_UpdateZone (e : Inputs) (zone : Zone) (expectedVersion : string) : io sql (result unit * Zone) := UpdateZone E sqlite e zone expectedVersion.
Definition sqlite_UpdateDNSSECMetadata (now : Time) (zoneName : string) (dnssec : option DNSSECConfig) : io sql (result unit) := UpdateDNSSECMetadata E sqlite now zoneName dnssec.
Definition sqlite_DeleteZoneWithVersion (name expectedVersion : string) : io sql (result unit) := DeleteZoneWithVersion E sqlite name expectedVersion.
Definition sqlite_backend : Backend :=
  mkBackend sqlite_HealthCheck sqlite_CountZones sqlite_GetZone sqlite_ListZones sqlite_ListZoneSummaries sqlite_CreateZone (fun env => sqlite_UpdateZone (env 0%nat))
    (fun now => sqlite_UpdateDNSSECMetadata (now 0%nat)) sqlite_DeleteZone sqlite_DeleteZoneWithVersion.
(** The operations of a transaction the caller has begun. *)
Definition sqliteTx_GetZone (name : string) : io sql (result Zone) := GetZone E sqlite InTx name.
Definition sqliteTx_ListZones (opts : ListOptions) : io sql (result (list Zone)) := ListZones E sqlite InTx opts.
Definition sqliteTx_ListZoneSummaries (opts : ListOptions) : io sql (result (list ZoneSummary)) := ListZoneSummaries E sqlite InTx opts.
Definition sqliteTx_DeleteZone (name : string) : io sql (result unit) := DeleteZone E sqlite InTx name.
Definition sqliteTx_CreateZone (e : Inputs) (zone : option Zone) : io sql (result unit * option Zone) := tx_CreateZone E sqlite e zone.
Definition sqliteTx_UpdateZone (e : Inputs) (zone : Zone) (expectedVersion : string) : io sql (result unit * Zone) := tx_UpdateZone E sqlite e zone expectedVersion.
Definition sqliteTx_DeleteZoneWithVersion (name expectedVersion : string) : io sql (result unit) := tx_DeleteZoneWithVersion E sqlite name expectedVersion.
End operations.
End Sqlite.

(** ** PostgreSQL *)
Module Postgres.
Definition postgresTimestamp (t : Time) : Time := (t + 500) / 1000 * 1000.
Definition normalizePostgresTimestamps (z : Zone) : Zone := set_Times (postgresTimestamp (z_CreatedAt z)) (postgresTimestamp (z_UpdatedAt z)) z.
Definition isPostgresUniqueViolation (text : string) : bool :=
  Contains text "duplicate key value violates unique constraint" || Contains text "23505".
Definition postgres_text (_ : place) (s : step) : string :=
  match s with
  | CountZonesStep => "count zones" | HealthStep => "postgres health check failed" | Begin => "begin tx"
  | BeginDelete => "begin delete zone transaction" | CommitDelete => "commit delete zone transaction"
  | QueryZone | QueryCurrent => "query zone" | QueryZones => "query zones" | IterateZones => "iterate zones"
  | QuerySummaries => "query zone summaries" | IterateSummaries => "iterate zone summaries"
  | QueryRecords => "query records" | QueryRecordsFor => "query records for zones" | IterateRecordsFor => "iterate records for zones"
  | InsertZone => "insert zone" | GetZoneID => "get zone ID" | UpdateStep => "update zone" | RowsAffected => "rows affected"
  | LoadIDs => "load record IDs" | DeleteRecords => "delete records" | PrepareRecord => "prepare record insert"
  | PrepareRecordID => "prepare record insert with id" | InsertRecord => "insert record" | UpdateMetadata => "update DNSSEC metadata"
  | CheckExists => "check zone existence" | DeleteStep => "delete zone" | CheckVersion => "check zone version"
  end.
Definition postgres : Dialect :=
  mkDialect postgres_text None None isPostgresUniqueViolation normalizePostgresTimestamps (fun now z => set_Times (z_CreatedAt z) (postgresTimestamp now) z)
    (fun _ created _ z => set_Times created (z_UpdatedAt z) z) postgresTimestamp false.
Section operations.
Context `{UnicodeTables} (E : Engine).
Definition postgres_HealthCheck : io sql (result unit) := HealthCheck E postgres.
Definition postgres_CountZones : io sql (result Z) := CountZones E postgres.
Definition postgres_GetZone (name : string) : io sql (result Zone) := GetZone E postgres OnDb name.
Definition postgres_ListZones (opts : ListOptions) : io sql (result (list Zone)) := ListZones E postgres OnDb opts.
Definition postgres_ListZoneSummaries (opts : ListOptions) : io sql (result (list ZoneSummary)) := ListZoneSummaries E postgres OnDb opts.
Definition postgres_DeleteZone (name : string) : io sql (result unit) := DeleteZone E postgres OnDb name.
Definition postgres_CreateZone (e : Inputs) (zone : option Zone) : io sql (result unit * option Zone) := CreateZone E postgres e zone.
Definition postgres_UpdateZone (e : Inputs) (zone : Zone) (expectedVersion : string) : io sql (result unit * Zone) := UpdateZone E postgres e zone expectedVersion.
Definition postgres_UpdateDNSSECMetadata (now : Time) (zoneName : string) (dnssec : option DNSSECConfig) : io sql (result unit) := UpdateDNSSECMetadata E postgres now zoneName dnssec.
Definition postgres_DeleteZoneWithVersion (name expectedVersion : string) : io sql (result unit) := DeleteZoneWithVersion E postgres name expectedVersion.
Definition postgres_backend : Backend :=
  mkBackend postgres_HealthCheck postgres_CountZones postgres_GetZone postgres_ListZones postgres_ListZoneSummaries postgres_CreateZone (fun env => postgres_UpdateZone (env 0%nat))
    (fun now => postgres_UpdateDNSSECMetadata (now 0%nat)) postgres_DeleteZone postgres_DeleteZoneWithVersion.
(** The operations of a transaction the caller has begun. *)
Definition pgTx_GetZone (name : string) : io sql (result Zone) := GetZone E postgres InTx name.
Definition pgTx_ListZones (opts : ListOptions) : io sql (result (list Zone)) := ListZones E postgres InTx opts.
Definition pgTx_ListZoneSummaries (opts : ListOptions) : io sql (result (list ZoneSummary)) := ListZoneSummaries E postgres InTx opts.
Definition pgTx_DeleteZone (name : string) : io sql (result unit) := DeleteZone E postgres InTx name.
Definition pgTx_CreateZone (e : Inputs) (zone : option Zone) : io sql (result unit * option Zone) := tx_CreateZone E postgres e zone.
Definition pgTx_UpdateZone (e : Inputs) (zone : Zone) (expectedVersion : string) : io sql (result unit * Zone) := tx_UpdateZone E postgres e zone expectedVersion.
Definition pgTx_DeleteZoneWithVersion (name expectedVersion : string) : io sql (result unit) := tx_DeleteZoneWithVersion E postgres name expectedVersion.
End operations.
End Postgres.

(** ** MySQL *)
Module Mysql.
Definition mysqlTimestamp (t : Time) : Time := if IsZero t then t else t / Second * Second.
Definition normalizeMySQLTimestamps (z : Zone) : Zone := set_Times (mysqlTimestamp (z_CreatedAt z)) (mysqlTimestamp (z_UpdatedAt z)) z.
Definition nextMySQLTimestamp (now after : Time) : Time :=
  let now := mysqlTimestamp now in
  let after := mysqlTimestamp after in
  if negb (after <? now) then time_Add after Second else now.
Definition isMySQLDuplicateError (text : string) : bool := Contains text "Duplicate entry" || Contains text "Error 1062".
Definition mysql_text (_ : place) (s : step) : string :=
  match s with
  | CountZonesStep => "failed to count zones" | HealthStep => "mysql health check failed" | Begin => "failed to begin transaction"
  | BeginDelete => "failed to begin delete zone transaction" | CommitDelete => "failed to commit delete zone transaction"
  | QueryZone => "failed to query zone" | QueryCurrent => "failed to query zone serial" | QueryZones => "failed to query zones"
  | IterateZones => "error iterating zones" | QuerySummaries => "failed to query zone summaries" | IterateSummaries => "error iterating zone summaries"
  | QueryRecords => "failed to query records" | QueryRecordsFor => "failed to query records for zones" | IterateRecordsFor => "error iterating records for zones"
  | InsertZone => "failed to insert zone" | GetZoneID => "failed to get zone ID" | UpdateStep => "failed to update zone"
  | RowsAffected => "failed to get rows affected" | LoadIDs => "failed to load record IDs" | DeleteRecords => "failed to delete old records"
  | PrepareRecord => "failed to prepare record statement" | PrepareRecordID => "failed to prepare record statement with id"
  | InsertRecord => "failed to insert record" | UpdateMetadata => "failed to update DNSSEC metadata" | CheckExists => "failed to check zone existence"
  | DeleteStep => "failed to delete zone" | CheckVersion => "failed to check zone version"
  end.
Definition mysql : Dialect :=
  mkDialect mysql_text (Some "error iterating records") (Some (Some "failed to get zone ID")) isMySQLDuplicateError normalizeMySQLTimestamps (fun _ z => z)
    (fun now created updated z => set_Times (mysqlTimestamp created) (nextMySQLTimestamp now updated) z) id true.

(** Whether the text of an error contains [needle], which has no colon; the
    sentinels' texts contain none of the needles. *)
Fixpoint mentions (needle : string) (e : error) : bool :=
  match e with
  | Sentinel _ => false
  | Errorf text => Contains text needle
  | Wrapf prefix cause => Contains prefix needle || mentions needle cause
  | JoinErrs errs => existsb (mentions needle) errs
  end.
(** The driver writes an error number as [Error 1213]. *)
Definition isMySQLDeadlock (e : error) : bool :=
  mentions "Deadlock" e || mentions "Error 1213" e || mentions "Lock wait timeout" e || mentions "Error 1205" e.

Definition maxRetries : nat := 3.
(** [done i]: the context ended while waiting after the i-th attempt.  What the
    attempts share by reference is passed along. *)
Fixpoint attempts {B} (done : nat -> bool) (fn : nat -> B -> io sql (result unit * B)) (remaining i : nat) (b : B) : io sql (result unit * B) :=
  match remaining with
  | O => io_ret (Err (Errorf "operation failed after 3 retries due to deadlock"), b)
  | S remaining =>
    tried <- fn i b ;
    match tried with
    | (Ok _, b) => io_ret (Ok tt, b)
    | (Err e, b) =>
      if negb (isMySQLDeadlock e) then io_ret (Err e, b)
      else if (0 <? remaining)%nat && done i then io_ret (Err (Sentinel ErrContextDone), b)
      else attempts done fn remaining (S i) b
    end
  end.
Definition withRetry {B} (done : nat -> bool) (fn : nat -> B -> io sql (result unit * B)) (b : B) : io sql (result unit * B) := attempts done fn maxRetries 0 b.
Definition retried (done : nat -> bool) (m : nat -> io sql (result unit)) : io sql (result unit) :=
  r <- withRetry done (fun i _ => r <- m i ; io_ret (r, tt)) tt ;
  io_ret (fst r).

Section operations.
Context `{UnicodeTables} (E : Engine) (done : nat -> bool).
Definition mysql_HealthCheck : io sql (result unit) := HealthCheck E mysql.
Definition mysql_CountZones : io sql (result Z) := CountZones E mysql.
Definition mysql_GetZone (name : string) : io sql (result Zone) := GetZone E mysql OnDb name.
Definition mysql_ListZones (opts : ListOptions) : io sql (result (list Zone)) := ListZones E mysql OnDb opts.
Definition mysql_ListZoneSummaries (opts : ListOptions) : io sql (result (list ZoneSummary)) := ListZoneSummaries E mysql OnDb opts.
Definition mysql_DeleteZone (name : string) : io sql (result unit) := DeleteZone E mysql OnDb name.
Definition mysql_createZone (zone : Zone) : io sql (result unit) := createZone E mysql zone.
Definition mysql_updateZone (e : Inputs) (zone : Zone) (expectedVersion : string) : io sql (result unit * Zone) := UpdateZone E mysql e zone expectedVersion.
Definition mysql_updateDNSSECMetadata (now : Time) (zoneName : string) (dnssec : option DNSSECConfig) : io sql (result unit) := UpdateDNSSECMetadata E mysql now zoneName dnssec.
Definition mysql_deleteZoneWithVersion (name expectedVersion : string) : io sql (result unit) := DeleteZoneWithVersion E mysql name expectedVersion.
(** [env i] are the inputs of the i-th attempt. *)
Definition mysql_CreateZone (e : Inputs) (zone : option Zone) : io sql (result unit * option Zone) := creating mysql e zone (fun writeZone => retried done (fun _ => mysql_createZone writeZone)).
Definition mysql_UpdateZone (env : nat -> Inputs) (zone : Zone) (expectedVersion : string) : io sql (result unit * Zone) := withRetry done (fun i zone => mysql_updateZone (env i) zone expectedVersion) zone.
Definition mysql_UpdateDNSSECMetadata (now : nat -> Time) (zoneName : string) (dnssec : option DNSSECConfig) : io sql (result unit) := retried done (fun i => mysql_updateDNSSECMetadata (now i) zoneName dnssec).
Definition mysql_DeleteZoneWithVersion (name expectedVersion : string) : io sql (result unit) := retried done (fun _ => mysql_deleteZoneWithVersion name expectedVersion).
Definition mysql_backend : Backend :=
  mkBackend mysql_HealthCheck mysql_CountZones mysql_GetZone mysql_ListZones mysql_ListZoneSummaries mysql_CreateZone mysql_UpdateZone
    mysql_UpdateDNSSECMetadata mysql_DeleteZone mysql_DeleteZoneWithVersion.
(** The operations of a transaction the caller has begun. *)
Definition mysqlTx_GetZone (name : string) : io sql (result Zone) := GetZone E mysql InTx name.
Definition mysqlTx_ListZones (opts : ListOptions) : io sql (result (list Zone)) := ListZones E mysql InTx opts.
Definition mysqlTx_ListZoneSummaries (opts : ListOptions) : io sql (result (list ZoneSummary)) := ListZoneSummaries E mysql InTx opts.
Definition mysqlTx_DeleteZone (name : string) : io sql (result unit) := DeleteZone E mysql InTx name.
Definition mysqlTx_CreateZone (e : Inputs) (zone : option Zone) : io sql (result unit * option Zone) := tx_CreateZone E mysql e zone.
Definition mysqlTx_UpdateZone (e : Inputs) (zone : Zone) (expectedVersion : string) : io sql (result unit * Zone) := tx_UpdateZone E mysql e zone expectedVersion.
Definition mysqlTx_DeleteZoneWithVersion (name expectedVersion : string) : io sql (result unit) := tx_DeleteZoneWithVersion E mysql name expectedVersion.
End operations.
End Mysql.
