(* ===== verification/SqlReads.v ===== *)
(** * What a SQL database holds

    The zones behind the rows ([view]), the invariant of the tables, and what
    each statement does to them. *)

From S2P Require Import Prelude Io GoStrings GoStringsFacts GoSort Zone Names Validation Serial Sha256 Ulid Store SqlBackend.
#[local] Open Scope io_scope.

(** Text columns are compared by a strict total order. *)
Class Collates (E : Engine) := collates : StrictTotal (collation E) String.eqb.
#[global] Existing Instance collates.

(** ** Orders *)
#[global] Instance never_less_weak {A} : WeakOrder (fun _ _ : A => false).
Proof. by split. Qed.
Lemma pulled_weak {A B} (f : A -> B) (less : B -> B -> bool) `{!WeakOrder less} : WeakOrder (fun a b => less (f a) (f b)).
Proof. split; [intros x y; exact (less_asym less (f x) (f y))|intros x y z; exact (not_after_trans less (f x) (f y) (f z))]. Qed.
Lemma sorted_filter {A} (R : A -> A -> Prop) (f : A -> bool) l : StronglySorted R l -> StronglySorted R (List.filter f l).
Proof.
  induction 1 as [|a l _ IH Ha]; cbn [List.filter]; [constructor|]. destruct (f a); [|done]. constructor; [done|].
  apply Forall_forall. intros x Hx. rewrite Forall_forall in Ha. apply Ha. rewrite list_elem_of_In, filter_In, <- list_elem_of_In in Hx. tauto.
Qed.
Lemma filter_Permutation {A} (f : A -> bool) l l' : l ≡ₚ l' -> List.filter f l ≡ₚ List.filter f l'.
Proof.
  induction 1 as [|x l l' _ IH|x y l|l l' l'' _ IH1 _ IH2]; cbn [List.filter]; [done| | |by etrans].
  - destruct (f x); [by constructor|done].
  - destruct (f x), (f y); try done. constructor.
Qed.
Lemma map_filter_list {A} (f : Z * A -> bool) (m : gmap Z A) : List.filter f (map_to_list m) ≡ₚ map_to_list (filter (fun kr => f kr = true) m).
Proof.
  apply NoDup_Permutation.
  - apply NoDup_ListNoDup, List.NoDup_filter, NoDup_ListNoDup, NoDup_map_to_list.
  - apply NoDup_map_to_list.
  - intros [k x]. rewrite list_elem_of_In, filter_In, <- list_elem_of_In, !elem_of_map_to_list, map_lookup_filter_Some. done.
Qed.

Section facts.
Context (E : Engine) `{!Collates E}.

(** ** The zones of the tables *)
Definition blank : Zone := mkZone "" "" (mkSOA "" "" 0 0 0 0 0) [] None zeroTime zeroTime.
Definition scanned (row : zone_row) : Zone := match scanZoneRow row with Ok z => z | Err _ => blank end.
Definition records_of (t : tables) (id : Z) : list ZRecord :=
  map scan_record (sort_Slice (record_less E) (List.filter (of_zone id) (map_to_list (t_records t)))).
Definition zone_of (t : tables) (kr : Z * zone_row) : Zone := set_Records (records_of t (fst kr)) (scanned (snd kr)).
Definition view (t : tables) : gmap string Zone := list_to_map (map (fun kr => (zr_name (snd kr), zone_of t kr)) (map_to_list (t_zones t))).

Definition stamped (c : stamp) : Prop := exists t, c = At t.
Record tables_ok (t : tables) : Prop := {
  ok_names : forall i j r r', t_zones t !! i = Some r -> t_zones t !! j = Some r' -> zr_name r = zr_name r' -> i = j;
  ok_zone_seq : forall i, is_Some (t_zones t !! i) -> i <= t_zone_seq t;
  ok_record_seq : forall i, is_Some (t_records t !! i) -> 0 < i <= t_record_seq t;
  ok_seq : 0 <= t_record_seq t;
  ok_owner : forall i r, t_records t !! i = Some r -> is_Some (t_zones t !! rr_zone_id r);
  ok_times : forall i r, t_zones t !! i = Some r -> stamped (zr_created_at r) /\ stamped (zr_updated_at r) /\ (forall c, c_signature_expiration (zr_dnssec r) = Some c -> stamped c) }.

Lemma row_record_tie a b : record_less E a b = false -> record_less E b a = false -> fst a = fst b.
Proof.
  intros H1 H2. destruct (lex_tie _ _ _ _ _ _ H1 H2) as (_ & H3 & H4). destruct (lex_tie _ _ _ _ _ _ H3 H4) as (_ & H5 & H6).
  by destruct (lex_tie _ _ _ _ _ _ H5 H6).
Qed.
#[local] Instance record_less_weak : WeakOrder (record_less E).
Proof. unfold record_less. apply _. Qed.
Lemma rows_tie (t : tables) (f : Z * record_row -> bool) a b : a ∈ List.filter f (map_to_list (t_records t)) -> b ∈ List.filter f (map_to_list (t_records t)) ->
  record_less E a b = false -> record_less E b a = false -> a = b.
Proof.
  rewrite !list_elem_of_In, !filter_In, <- !list_elem_of_In. intros [Ha _] [Hb _] H1 H2. pose proof (row_record_tie _ _ H1 H2) as Hk.
  destruct a as [i a], b as [j b]. cbn in Hk. subst j. apply elem_of_map_to_list in Ha, Hb. congruence.
Qed.
(** The records of a zone depend on its rows only. *)
Lemma records_of_ext t t' id : filter (fun kr => of_zone id kr = true) (t_records t) = filter (fun kr => of_zone id kr = true) (t_records t') -> records_of t id = records_of t' id.
Proof.
  intros Ef. unfold records_of. f_equal. apply sort_Slice_perm; [apply _|apply rows_tie|]. by rewrite !map_filter_list, Ef.
Qed.

Lemma view_lookup t n z : tables_ok t -> view t !! n = Some z <-> exists i r, t_zones t !! i = Some r /\ zr_name r = n /\ z = zone_of t (i, r).
Proof.
  intros Hok. unfold view. rewrite <- elem_of_list_to_map.
  - change (map ?f ?l) with (f <$> l). rewrite list_elem_of_fmap. split.
    + intros ([i r] & [= -> ->] & Hi%elem_of_map_to_list). by exists i, r.
    + intros (i & r & Hi & <- & ->). exists (i, r). split; [done|by apply elem_of_map_to_list].
  - change (map ?f ?l) with (f <$> l). rewrite <- list_fmap_compose. apply NoDup_fmap_2_strong; [|apply NoDup_map_to_list].
    intros [i r] [j r'] Hi%elem_of_map_to_list Hj%elem_of_map_to_list Hn. cbn in Hn. assert (i = j) as -> by (by eapply ok_names). congruence.
Qed.
Lemma view_none t n : tables_ok t -> view t !! n = None <-> forall i r, t_zones t !! i = Some r -> zr_name r <> n.
Proof.
  intros Hok. split.
  - intros Hn i r Hi <-. assert (view t !! zr_name r = Some (zone_of t (i, r))) by (apply view_lookup; eauto). congruence.
  - intros Hn. destruct (view t !! n) as [z|] eqn:Ev; [|done]. apply view_lookup in Ev as (i & r & Hi & Hr & _); [|done]. by destruct (Hn i r).
Qed.
Lemma named_rows t n : tables_ok t -> match view t !! n with
  | Some z => exists i r, t_zones t !! i = Some r /\ zr_name r = n /\ z = zone_of t (i, r) /\ List.filter (named n) (map_to_list (t_zones t)) = [(i, r)]
  | None => List.filter (named n) (map_to_list (t_zones t)) = []
  end.
Proof.
  intros Hok. assert (Hin : forall i r, (i, r) ∈ List.filter (named n) (map_to_list (t_zones t)) <-> t_zones t !! i = Some r /\ zr_name r = n).
  { intros i r. rewrite list_elem_of_In, filter_In, <- list_elem_of_In, elem_of_map_to_list. unfold named. cbn. by rewrite String.eqb_eq. }
  destruct (view t !! n) as [z|] eqn:Ev.
  - apply view_lookup in Ev as (i & r & Hi & Hr & ->); [|done]. exists i, r. split_and!; [done..|]. apply Permutation_singleton_r. apply NoDup_Permutation.
    + apply NoDup_ListNoDup, List.NoDup_filter, NoDup_ListNoDup, NoDup_map_to_list.
    + apply NoDup_singleton.
    + intros [j r']. rewrite Hin, list_elem_of_singleton. split; [|intros [= -> ->]; done]. intros [Hj Hr']. assert (i = j) as -> by (eapply ok_names; [done| |done|]; [done|congruence]). congruence.
  - destruct (List.filter _ _) as [|[i r] l] eqn:El; [done|]. assert (Hi : t_zones t !! i = Some r /\ zr_name r = n) by (apply Hin; by left).
    exfalso. apply (proj1 (view_none t n Hok) Ev i r); tauto.
Qed.
Lemma select_zone_spec t n : tables_ok t -> match select_zone n t with
  | Some (i, r) => t_zones t !! i = Some r /\ zr_name r = n /\ view t !! n = Some (zone_of t (i, r)) /\ List.filter (named n) (map_to_list (t_zones t)) = [(i, r)]
  | None => view t !! n = None /\ List.filter (named n) (map_to_list (t_zones t)) = []
  end.
Proof.
  intros Hok. pose proof (named_rows t n Hok) as Hn. unfold select_zone. destruct (view t !! n) as [z|].
  - destruct Hn as (i & r & Hi & Hr & -> & Hl). rewrite Hl. done.
  - by rewrite Hn.
Qed.
Lemma zone_exists_spec t n : tables_ok t -> zone_exists n t = bool_decide (is_Some (view t !! n)).
Proof.
  intros Hok. pose proof (named_rows t n Hok) as Hn. unfold zone_exists. destruct (view t !! n) as [z|].
  - destruct Hn as (i & r & Hi & Hr & _ & _). rewrite bool_decide_true by done. apply existsb_exists. exists (i, r). split; [by apply list_elem_of_In, elem_of_map_to_list|].
    unfold named. cbn. by rewrite Hr, String.eqb_refl.
  - rewrite bool_decide_false by (by intros [? ?]). apply not_true_iff_false. rewrite existsb_exists. intros (x & Hx & Hnx).
    assert (In x (List.filter (named n) (map_to_list (t_zones t)))) as Hin by (by apply filter_In). by rewrite Hn in Hin.
Qed.
Lemma select_records_spec t i r : tables_ok t -> t_zones t !! i = Some r -> map scan_record (select_records E (zr_name r) t) = records_of t i.
Proof.
  intros Hok Hi. unfold select_records, records_of. do 2 f_equal. pose proof (named_rows t (zr_name r) Hok) as Hn.
  assert (Hv : view t !! zr_name r = Some (zone_of t (i, r))) by (apply view_lookup; eauto). rewrite Hv in Hn.
  destruct Hn as (j & r' & Hj & Hr & _ & Hl). assert (j = i) as -> by (by eapply ok_names). rewrite Hl. apply filter_ext. intros kr. cbn. by rewrite orb_false_r.
Qed.
End facts.

(** * Reading from a SQL backend

    A read returns what the tables hold, or an error that a failing call of the
    engine explains; it writes nothing.  Listings load the records of up to 500
    zones at a time, which gives each zone the records that reading it alone gives. *)
#[local] Open Scope io_scope.

Section reads.
Context `{UnicodeTables} (E : Engine) `{!Collates E} (D : Dialect).

Definition quiet (s s' : sql) : Prop := tb s' = tb s /\ generator s' = generator s /\ (calls s <= calls s')%nat.
Definition faulted (s s' : sql) : Prop := exists n text, (calls s <= n < calls s')%nat /\ fault E n = Some text.
Definition plain (e : error) : Prop := forall x, errors_Is e x = false.
(** A failing call explains the error, which is none of the sentinels. *)
Definition explained (s s' : sql) (e : error) : Prop := faulted s s' /\ plain e.
Definition reads {A} (t : tables) (m : io sql (result A)) (Q : result A -> Prop) : Prop :=
  forall s, tb s = t -> wpio m s (fun r s' => quiet s s' /\ (Q r \/ exists e, r = Err e /\ explained s s' e)).

Lemma quiet_refl s : quiet s s.
Proof. by split_and!. Qed.
Lemma quiet_trans s1 s2 s3 : quiet s1 s2 -> quiet s2 s3 -> quiet s1 s3.
Proof. intros (? & ? & ?) (? & ? & ?). split_and!; [congruence..|lia]. Qed.
Lemma faulted_mono s0 s1 s2 s3 : (calls s0 <= calls s1)%nat -> (calls s2 <= calls s3)%nat -> faulted s1 s2 -> faulted s0 s3.
Proof. intros H1 H2 (n & text & Hn & Hf). exists n, text. split; [lia|done]. Qed.

Lemma wp_statement {A} (run : nat -> tables -> result A * tables) s (Q : result A -> sql -> Prop) :
  (forall text, fault E (calls s) = Some text -> Q (Err (Errorf text)) (mkSql (tb s) (S (calls s)) (generator s))) ->
  (let '(r, t) := run (calls s) (tb s) in Q r (mkSql t (S (calls s)) (generator s))) -> wpio (statement E run) s Q.
Proof. intros H1 H2. unfold wpio, statement. destruct (fault E (calls s)) as [text|] eqn:Ef; [by apply H1|]. by destruct (run _ _). Qed.
Lemma fault_here s text : fault E (calls s) = Some text -> explained s (mkSql (tb s) (S (calls s)) (generator s)) (Errorf text).
Proof. intros Hf. split; [|done]. exists (calls s), text. cbn. split; [lia|done]. Qed.

Lemma reads_mono {A} t (m : io sql (result A)) (Q Q' : result A -> Prop) : reads t m Q -> (forall r, Q r -> Q' r) -> reads t m Q'.
Proof. intros Hm HQ s Hs. eapply wpio_mono; [by apply Hm|]. intros r s' [Hq [Hr|He]]; auto. Qed.
Lemma reads_ret {A} t (r : result A) (Q : result A -> Prop) : Q r -> reads t (io_ret r) Q.
Proof. intros HQ s Hs. apply wpio_ret. split; [apply quiet_refl|by left]. Qed.
Lemma reads_query {A} t (read : tables -> A) : reads t (query E read) (fun r => r = Ok (read t)).
Proof.
  intros s <-. apply wp_statement.
  - intros text Hf. split; [split_and!; [done..|cbn; lia]|]. right. eexists. split; [done|by apply fault_here].
  - split; [split_and!; [done..|cbn; lia]|]. by left.
Qed.
Lemma reads_map {A B} t (m : io sql (result A)) (f : result A -> result B) (Q : result A -> Prop) (Q' : result B -> Prop) :
  reads t m Q -> (forall r, Q r -> Q' (f r)) -> (forall e, plain e -> exists e', f (Err e) = Err e' /\ plain e') -> reads t (io_bind m (fun r => io_ret (f r))) Q'.
Proof.
  intros Hm HQ Hf s Hs. apply wpio_bind. eapply wpio_mono; [by apply Hm|]. intros r s' [Hq [Hr|(e & -> & Hx & Hp)]]; apply wpio_ret; (split; [done|]); [left; auto|].
  destruct (Hf e Hp) as (e' & -> & Hp'). right. by exists e'.
Qed.
Lemma reads_wrap {A} t p (m : io sql (result A)) (Q Q' : result A -> Prop) : reads t m Q -> (forall r, Q r -> Q' (wrap p r)) -> reads t (io_wrap p m) Q'.
Proof. intros Hm HQ. apply (reads_map t m (wrap p) Q Q' Hm HQ). intros e Hp. by exists (Wrapf p e). Qed.
Lemma reads_try {A B} t (m : io sql (result A)) (k : A -> io sql (result B)) (Q : result A -> Prop) (Q' : result B -> Prop) :
  reads t m Q -> (forall r, Q r -> match r with Ok a => reads t (k a) Q' | Err e => Q' (Err e) end) -> reads t (io_try m k) Q'.
Proof.
  intros Hm Hk s Hs. apply wpio_try. eapply wpio_mono; [by apply Hm|]. intros r s1 [Hq [Hr|(e & -> & Hx & Hp)]].
  - specialize (Hk r Hr). destruct r as [a|e]; [|split; [done|by left]]. eapply wpio_mono; [apply Hk; destruct Hq; congruence|].
    intros r s2 [Hq2 Hr2]. split; [by eapply quiet_trans|]. destruct Hr2 as [|(e & -> & Hx & Hp)]; [by left|right]. exists e. split; [done|split; [|done]].
    eapply faulted_mono; [apply Hq|done|done].
  - split; [done|]. right. by exists e.
Qed.
Lemma reads_step {A B} t (read : tables -> A) p (k : A -> io sql (result B)) Q' : reads t (k (read t)) Q' -> reads t (io_try (io_wrap p (query E read)) k) Q'.
Proof. intros Hk. eapply reads_try; [apply (reads_wrap _ _ _ _ (fun r => r = Ok (read t)) (reads_query t read)); by intros r ->|]. by intros r ->. Qed.
Lemma reads_call t (o : option string) : reads t (match o with Some text => io_wrap text (roundtrip_call E) | None => roundtrip_call E end) (fun r => r = Ok tt).
Proof. destruct o; [eapply reads_wrap; [apply reads_query|by intros r ->]|apply reads_query]. Qed.
Lemma reads_rows {A B} t p q it (read : tables -> A) (scan : A -> result B) : reads t (rows E D p q it read scan) (fun r => r = scan (read t)).
Proof.
  apply reads_step. destruct (scan (read t)) as [b|e]; [|by apply reads_ret]. eapply reads_try; [apply reads_call|]. intros r ->. by apply reads_ret.
Qed.

(** ** One zone *)
Lemma scanned_shape row c u : zr_created_at row = At c -> zr_updated_at row = At u -> (forall x, c_signature_expiration (zr_dnssec row) = Some x -> stamped x) ->
  exists d, scanZoneRow row = Ok (mkZone (zr_name row) (zr_version row) (zr_soa row) [] d c u) /\ scanned row = mkZone (zr_name row) (zr_version row) (zr_soa row) [] d c u.
Proof.
  intros Hc Hu Hx. assert (exists d, scanZoneRow row = Ok (mkZone (zr_name row) (zr_version row) (zr_soa row) [] d c u)) as [d Hd].
  { unfold scanZoneRow. rewrite Hc, Hu. cbn. destruct (c_enabled _); [|by eexists].
    unfold applySQLiteSignatureExpiration. destruct (c_signature_expiration _) as [v|] eqn:Ev; [destruct (Hx v eq_refl) as [x ->]|]; by eexists. }
  exists d. split; [done|]. unfold scanned. by rewrite Hd.
Qed.
Lemma scanZoneRow_ok row : stamped (zr_created_at row) -> stamped (zr_updated_at row) ->
  (forall c, c_signature_expiration (zr_dnssec row) = Some c -> stamped c) -> scanZoneRow row = Ok (scanned row) /\ z_Name (scanned row) = zr_name row /\ z_Version (scanned row) = zr_version row.
Proof. intros (c & Hc) (u & Hu) Hx. destruct (scanned_shape row c u Hc Hu Hx) as (d & H1 & H2). rewrite H1, H2. done. Qed.
Lemma zone_name t kr : tables_ok t -> t_zones t !! fst kr = Some (snd kr) -> z_Name (zone_of E t kr) = zr_name (snd kr) /\ z_Version (zone_of E t kr) = zr_version (snd kr).
Proof. intros Hok Hk. destruct (ok_times _ Hok _ _ Hk) as (H1 & H2 & H3). by destruct (scanZoneRow_ok (snd kr) H1 H2 H3) as (_ & ? & ?). Qed.
Definition found (t : tables) (n : string) : result Zone := match view E t !! n with Some z => Ok z | None => Err (Sentinel ErrZoneNotFound) end.

Lemma reads_scanZone t p n : tables_ok t -> reads t (scanZone E D p n) (fun r => match r with
  | Ok z => exists i row, t_zones t !! i = Some row /\ zr_name row = n /\ z = scanned row
  | Err e => e = Sentinel ErrZoneNotFound /\ view E t !! n = None
  end).
Proof.
  intros Hok. unfold scanZone. eapply reads_map; [apply reads_query| |].
  - intros r ->. pose proof (select_zone_spec E t n Hok) as Hs. destruct (select_zone n t) as [[i row]|]; [|tauto]. destruct Hs as (Hi & Hn & _).
    destruct (ok_times _ Hok _ _ Hi) as (H1 & H2 & H3). destruct (scanZoneRow_ok row H1 H2 H3) as (-> & _). exists i, row. done.
  - intros e He. cbn. eexists. split; [done|]. intros x. apply He.
Qed.
Lemma reads_GetZone t p name : tables_ok t -> reads t (GetZone E D p name) (fun r => r = found t (normalizeZoneName name)).
Proof.
  intros Hok. eapply reads_try; [by apply reads_scanZone|]. intros [z|e].
  - intros (i & row & Hi & Hn & ->). eapply reads_try; [apply reads_rows|]. intros r ->. apply reads_ret. unfold found.
    destruct (ok_times _ Hok _ _ Hi) as (H1 & H2 & H3). destruct (scanZoneRow_ok row H1 H2 H3) as (_ & -> & _).
    rewrite (select_records_spec E t i row Hok Hi). assert (view E t !! normalizeZoneName name = Some (zone_of E t (i, row))) as ->; [|done].
    apply view_lookup; eauto.
  - intros [-> Hn]. unfold found. by rewrite Hn.
Qed.

(** ** Batches *)
Lemma flat_map_filter {A} (f : A -> list (string * A)) (g : A -> bool) (h : string * A -> bool) (l : list A) :
  (forall a, a ∈ l -> map snd (List.filter h (f a)) = if g a then [a] else []) -> map snd (List.filter h (flat_map f l)) = List.filter g l.
Proof.
  induction l as [|a l IH]; intros Hf; [done|]. cbn [flat_map List.filter]. rewrite List.filter_app, map_app, IH by (intros; apply Hf; by right).
  rewrite Hf by (by left). by destruct (g a).
Qed.
Lemma omap_filter {A B} (f : A -> option B) (h : B -> bool) (g : A -> bool) (l : list A) :
  (forall a b, f a = Some b -> h b = g a) -> List.filter h (omap f l) = omap f (List.filter g l).
Proof.
  intros Hf. induction l as [|a l IH]; [done|]. cbn. destruct (f a) as [b|] eqn:Ef; cbn.
  - rewrite (Hf a b Ef), IH. destruct (g a); [|done]. cbn. by rewrite Ef.
  - rewrite IH. destruct (g a); [|done]. cbn. by rewrite Ef.
Qed.
#[local] Instance in_less_weak : WeakOrder (lex_less (collation E) String.eqb fst (fun a b : string * (Z * record_row) => record_less E (snd a) (snd b))).
Proof. apply lex_weak; [apply _|]. apply pulled_weak, record_less_weak, _. Qed.
Lemma select_in t names n : tables_ok t ->
  map snd (List.filter (fun row => (fst row =? n)%string) (select_records_in E names t)) = if decide (n ∈ names) then select_records E n t else [].
Proof.
  intros Hok. unfold select_records_in. set (less := lex_less _ _ _ _). set (l := flat_map _ _).
  assert (Hl : map snd (List.filter (fun row => (fst row =? n)%string) l)
    = List.filter (fun kr => bool_decide (n ∈ names) && existsb (fun z => of_zone (fst z) kr) (List.filter (named n) (map_to_list (t_zones t)))) (map_to_list (t_records t))).
  { apply flat_map_filter. intros kr _. rewrite (omap_filter _ _ (named n)); [|intros z b; case_match; [intros [= <-]|]; done].
    pose proof (named_rows E t n Hok) as Hn. destruct (view E t !! n) as [z|]; [destruct Hn as (i & r & _ & Hr & _ & ->)|rewrite Hn; cbn; by rewrite andb_false_r].
    cbn. rewrite Hr, orb_false_r. destruct (of_zone i kr); cbn; [|by rewrite andb_false_r]. rewrite andb_true_r.
    assert (existsb (String.eqb n) names = bool_decide (n ∈ names)) as ->; [|by case_bool_decide].
    case_bool_decide as Hin; [apply existsb_exists; exists n; split; [by apply list_elem_of_In|apply String.eqb_refl]|].
    apply not_true_iff_false. rewrite existsb_exists. intros (x & Hx & ->%String.eqb_eq). by apply Hin, list_elem_of_In. }
  assert (Hsorted : StronglySorted (not_after (record_less E)) (map snd (List.filter (fun row => (fst row =? n)%string) (sort_Slice less l)))).
  { pose proof (sorted_filter _ (fun row => (fst row =? n)%string) _ (sort_Slice_sorted less l)) as Hs. revert Hs.
    assert (Hfst : Forall (fun row => fst row = n) (List.filter (fun row => (fst row =? n)%string) (sort_Slice less l))).
    { apply Forall_forall. intros x. rewrite list_elem_of_In, filter_In. intros [_ Hx]. by apply String.eqb_eq. }
    revert Hfst. generalize (List.filter (fun row => (fst row =? n)%string) (sort_Slice less l)). intros k Hk Hs. induction Hs as [|a k Hs IH Ha]; cbn; constructor.
    - apply IH. by apply Forall_cons_1 in Hk as [_ Hk].
    - apply Forall_cons_1 in Hk as [Ha' Hk]. rewrite Forall_forall in Ha, Hk. apply Forall_forall. intros y. change (map snd k) with (snd <$> k). intros (b & -> & Hb)%list_elem_of_fmap. specialize (Ha b Hb).
      unfold not_after, less, lex_less in *. rewrite (Hk b Hb), Ha', String.eqb_refl in Ha. exact Ha. }
  assert (Hperm : map snd (List.filter (fun row => (fst row =? n)%string) (sort_Slice less l)) ≡ₚ map snd (List.filter (fun row => (fst row =? n)%string) l)).
  { apply Permutation_map, filter_Permutation, sort_Slice_Permutation. }
  rewrite Hl in Hperm. case_decide as Hin.
  - rewrite bool_decide_true in Hperm by done. unfold select_records. symmetry. apply sort_Slice_unique; [by apply record_less_weak|apply rows_tie, _|done|done].
  - rewrite bool_decide_false in Hperm by done. apply Permutation_nil_r. rewrite Hperm. clear. by induction (map_to_list (t_records t)).
Qed.
Lemma foldl_append l : forall m n,
  default [] (foldl append_record m l !! n) = default [] (m !! n) ++ map scan_record (map snd (List.filter (fun row => (fst row =? n)%string) l)).
Proof.
  induction l as [|[k row] l IH]; intros m n; cbn [foldl List.filter]; [by rewrite app_nil_r|]. rewrite IH. unfold append_record at 1. cbn [fst snd].
  destruct (String.eqb_spec k n) as [->|Hk]; [|by rewrite lookup_insert_ne]. rewrite lookup_insert_eq. cbn. by rewrite <- app_assoc.
Qed.
Definition loaded (t : tables) (names : list string) (m : gmap string (list ZRecord)) : Prop :=
  forall n, default [] (m !! n) = if decide (n ∈ names) then map scan_record (select_records E n t) else [].
Lemma reads_batches t p zones : tables_ok t -> NoDup (map z_Name zones) -> forall fuel start m, (length zones - start <= fuel)%nat ->
  loaded t (take start (map z_Name zones)) m -> reads t (load_batches E D fuel p start zones m) (fun r => exists m', r = Ok m' /\ loaded t (map z_Name zones) m').
Proof.
  intros Hok Hnd. assert (Hend : forall start m, (length zones <= start)%nat -> loaded t (take start (map z_Name zones)) m -> loaded t (map z_Name zones) m).
  { intros start m Hs. by rewrite take_ge by (by rewrite length_map). }
  induction fuel as [|fuel IH]; intros start m Hfuel Hm; cbn [load_batches].
  { apply reads_ret. exists m. split; [done|]. apply (Hend start); [lia|done]. }
  destruct (Nat.leb_spec (length zones) start) as [Hs|Hs]. { apply reads_ret. exists m. split; [done|]. by apply (Hend start). }
  eapply reads_try; [apply reads_rows|]. intros r ->. unfold sqlBatchEnd, sqlBatchLoadZoneLimit in *. set (end_ := Nat.min (start + 500) (length zones)).
  assert (start < end_ <= length zones)%nat by (unfold end_; lia). apply IH; [lia|]. intros n. rewrite foldl_append, (Hm n), select_in by done.
  assert (Hsplit : take end_ (map z_Name zones) = take start (map z_Name zones) ++ sqlZoneNameArgs zones start end_).
  { unfold sqlZoneNameArgs. rewrite <- firstn_map, <- skipn_map. rewrite <- (take_drop start (map z_Name zones)) at 1.
    rewrite take_app, length_take, length_map, take_take. replace (Nat.min end_ start) with start by lia. by rewrite Nat.min_l by lia. }
  assert (Hdisj : n ∈ take start (map z_Name zones) -> n ∉ sqlZoneNameArgs zones start end_).
  { intros H1 H2. rewrite <- (take_drop end_ (map z_Name zones)), Hsplit in Hnd. apply NoDup_app in Hnd as (Hnd & _ & _). apply NoDup_app in Hnd as (_ & Hd & _). by apply (Hd n). }
  rewrite Hsplit. repeat case_decide; rewrite ?elem_of_app in *; rewrite ?app_nil_r; tauto || done.
Qed.

(** ** Listings *)
Definition all_zones (t : tables) : list Zone := map (zone_of E t) (sort_Slice (row_less E) (map_to_list (t_zones t))).
Lemma listing_page opts t : listing E opts t = page opts (sort_Slice (row_less E) (map_to_list (t_zones t))).
Proof.
  unfold listing, select_zones, page, normalizeListOffset. set (l := sort_Slice _ _). set (o := if Offset opts <? 0 then 0 else Offset opts).
  assert (Ho : drop (Z.to_nat o) l = if 0 <? Offset opts then drop (Z.to_nat (Offset opts)) l else l).
  { unfold o. destruct (Z.ltb_spec (Offset opts) 0), (Z.ltb_spec 0 (Offset opts)); try lia; try done. by replace (Z.to_nat (Offset opts)) with 0%nat by lia. }
  rewrite Ho. destruct ((0 <? Offset opts) && _) eqn:Eall.
  - apply andb_true_iff in Eall as [-> Hlen%Z.leb_le]. rewrite drop_ge by lia. by destruct (0 <? Limit opts); [rewrite take_nil|].
  - destruct (0 <? Limit opts) eqn:El; cbn [andb]; [|done]. set (l1 := if 0 <? Offset opts then _ else _). destruct (Z.ltb_spec (Limit opts) (Z.of_nat (length l1))); [done|].
    apply Z.ltb_lt in El. by rewrite take_ge by lia.
Qed.
Lemma page_incl {A} opts (l : list A) : sublist (page opts l) l.
Proof.
  unfold page. destruct (_ && _); [apply sublist_nil_l|]. set (l1 := if 0 <? Offset opts then _ else _).
  assert (sublist l1 l) by (unfold l1; destruct (0 <? Offset opts); [apply sublist_drop|done]). destruct (_ && _); [|done]. etrans; [apply sublist_take|done].
Qed.
Lemma listing_rows opts t kr : kr ∈ listing E opts t -> t_zones t !! fst kr = Some (snd kr).
Proof.
  rewrite listing_page. intros Hk. pose proof (elem_of_sublist _ _ _ Hk (page_incl opts _)) as Hin.
  rewrite sort_Slice_Permutation in Hin. destruct kr. by apply elem_of_map_to_list.
Qed.
Lemma scan_rows_ok l t : tables_ok t -> (forall kr, kr ∈ l -> t_zones t !! fst kr = Some (snd kr)) -> scan_rows l = Ok (map (fun kr => scanned (snd kr)) l).
Proof.
  intros Hok. induction l as [|[i row] l IH]; intros Hl; [done|]. cbn [scan_rows]. destruct (ok_times _ Hok i row) as (H1 & H2 & H3); [by apply (Hl (i, row)); left|].
  destruct (scanZoneRow_ok row H1 H2 H3) as (-> & _). cbn [rbind]. by rewrite IH by (intros kr Hk; apply Hl; by right).
Qed.
Lemma reads_ListZones t p opts : tables_ok t -> reads t (ListZones E D p opts) (fun r => r = Ok (page opts (all_zones t))).
Proof.
  intros Hok. eapply reads_try; [apply reads_rows|]. intros r ->. rewrite (scan_rows_ok _ t Hok) by (intros kr; apply listing_rows).
  set (l := listing E opts t). assert (Hrows : forall kr, kr ∈ l -> t_zones t !! fst kr = Some (snd kr)) by apply listing_rows.
  assert (Hname : forall kr, kr ∈ l -> z_Name (scanned (snd kr)) = zr_name (snd kr)) by (intros kr Hk; apply (zone_name t kr Hok), Hrows, Hk).
  assert (Hnd : NoDup (map z_Name (map (fun kr => scanned (snd kr)) l))).
  { rewrite map_map. apply (NoDup_fmap_2_strong (fun kr => z_Name (scanned (snd kr)))).
    - intros [i r] [j r'] Hi Hj. rewrite !Hname by done. intros Hn. apply Hrows in Hi, Hj. cbn in *. assert (i = j) as -> by (by eapply ok_names). congruence.
    - eapply sublist_NoDup; [|unfold l; rewrite listing_page; apply page_incl]. rewrite sort_Slice_Permutation. apply NoDup_map_to_list. }
  eapply reads_try; [eapply (reads_batches t p _ Hok Hnd); [lia|]; intros n; cbn; by rewrite lookup_empty, decide_False by apply not_elem_of_nil|].
  intros r (m & -> & Hm). apply reads_ret. f_equal. unfold all_zones. rewrite <- page_map, <- listing_page. fold l. unfold assignZoneRecords. rewrite map_map.
  apply map_ext_in. intros kr Hk%list_elem_of_In. rewrite (Hm (z_Name (scanned (snd kr)))), decide_True.
  - unfold zone_of. rewrite Hname by done. by rewrite (select_records_spec E t (fst kr) (snd kr) Hok (Hrows kr Hk)).
  - rewrite map_map. apply (list_elem_of_fmap_2 (fun kr => z_Name (scanned (snd kr)))), Hk.
Qed.
Lemma reads_summaries t p opts : tables_ok t -> reads t (ListZoneSummaries E D p opts) (fun r => r = Ok (page opts (map summary_of (all_zones t)))).
Proof.
  intros Hok. eapply reads_mono; [apply reads_rows|]. intros r ->. f_equal. unfold all_zones. rewrite map_map, <- page_map, <- listing_page. apply map_ext_in.
  intros kr Hk%list_elem_of_In%listing_rows. destruct (zone_name t kr Hok Hk) as [Hn Hv]. unfold summary_of. by rewrite Hn, Hv.
Qed.
Lemma all_zones_perm t : tables_ok t -> all_zones t ≡ₚ (map_to_list (view E t)).*2.
Proof.
  intros Hok. unfold all_zones. rewrite (Permutation_map _ (sort_Slice_Permutation (row_less E) _)).
  assert (Hm : map_to_list (view E t) ≡ₚ map (fun kr => (zr_name (snd kr), zone_of E t kr)) (map_to_list (t_zones t))).
  { unfold view. apply map_to_list_to_map. change (map ?f ?l) with (f <$> l). rewrite <- list_fmap_compose. apply NoDup_fmap_2_strong; [|apply NoDup_map_to_list].
    intros [i r] [j r'] Hi%elem_of_map_to_list Hj%elem_of_map_to_list Hn. cbn in Hn. assert (i = j) as -> by (by eapply ok_names). congruence. }
  rewrite Hm. change ((map ?f ?l).*2) with (map snd (map f l)). by rewrite map_map.
Qed.
Lemma reads_count t : tables_ok t -> reads t (CountZones E D) (fun r => r = Ok (Z.of_nat (size (view E t)))).
Proof.
  intros Hok. eapply reads_wrap; [apply reads_query|]. intros r ->. cbn. do 2 f_equal. rewrite <- !length_map_to_list, <- (length_fmap snd (map_to_list (view E t))), <- all_zones_perm by done.
  unfold all_zones. by rewrite length_map, sort_Slice_Permutation.
Qed.
End reads.
