(* ===== verification/SqlWrites.v ===== *)
(** * Writing to a SQL backend

    Every write either changes one zone as asked and nothing else, or fails and
    leaves the zones as they were; an error is the caller's fault or is
    explained by a failing call of the engine. *)

From S2P Require Import Prelude Io GoStrings GoStringsFacts GoSort Zone Names Validation Serial Sha256 Ulid Store SqlBackend SqlReads.
#[local] Open Scope io_scope.

Section writes.
Context `{UnicodeTables} (E : Engine) `{!Collates E} (D : Dialect).

(** ** Sequences of statements *)
Definition seq_le (t t' : tables) : Prop := t_zone_seq t <= t_zone_seq t' /\ t_record_seq t <= t_record_seq t'.
Definition later (s s' : sql) : Prop := (calls s <= calls s')%nat /\ seq_le (tb s) (tb s').
Definition writes {A} (s : sql) (m : io sql (result A)) (Q : result A -> tables -> Prop) : Prop :=
  wpio m s (fun r s' => later s s' /\ (Q r (tb s') \/ exists e, r = Err e /\ explained E s s' e)).
Lemma later_refl s : later s s.
Proof. unfold later, seq_le. lia. Qed.
Lemma later_trans s1 s2 s3 : later s1 s2 -> later s2 s3 -> later s1 s3.
Proof. unfold later, seq_le. lia. Qed.
Lemma quiet_later s s' : quiet s s' -> later s s'.
Proof. intros (Ht & _ & Hc). split; [done|]. rewrite Ht. unfold seq_le. lia. Qed.

Lemma writes_mono {A} s (m : io sql (result A)) (Q Q' : result A -> tables -> Prop) : writes s m Q -> (forall r t, Q r t -> Q' r t) -> writes s m Q'.
Proof. intros Hm HQ. unfold writes in *. eapply wpio_mono; [exact Hm|]. intros r s' [Hl [Hr|He]]; auto. Qed.
Lemma writes_ret {A} s (r : result A) (Q : result A -> tables -> Prop) : Q r (tb s) -> writes s (io_ret r) Q.
Proof. intros HQ. apply wpio_ret. split; [apply later_refl|by left]. Qed.
Lemma writes_reads {A} s (m : io sql (result A)) (Q : result A -> Prop) : reads E (tb s) m Q -> writes s m (fun r t => t = tb s /\ Q r).
Proof. intros Hm. eapply wpio_mono; [by apply Hm|]. intros r s' [Hq Hr]. split; [by apply quiet_later|]. destruct Hr; [left; split; [apply Hq|done]|by right]. Qed.
Lemma writes_try {A B} s (m : io sql (result A)) (k : A -> io sql (result B)) (Q : result A -> tables -> Prop) (Q' : result B -> tables -> Prop) :
  writes s m Q -> (forall a s1, later s s1 -> Q (Ok a) (tb s1) -> writes s1 (k a) Q') -> (forall e t, Q (Err e) t -> Q' (Err e) t) -> writes s (io_try m k) Q'.
Proof.
  intros Hm Hk He. unfold writes in *. apply wpio_try. eapply wpio_mono; [exact Hm|]. intros [a|e] s1 [Hl Hr].
  - destruct Hr as [Hr|(? & [=] & _)]. eapply wpio_mono; [by apply Hk|]. intros r s2 [Hl2 Hr2]. split; [by eapply later_trans|].
    destruct Hr2 as [|(e & -> & Hx & Hp)]; [by left|right]. exists e. split; [done|split; [|done]]. eapply faulted_mono; [apply Hl|done|done].
  - split; [done|]. destruct Hr as [|(e' & [= <-] & Hx)]; [left; auto|right; by exists e].
Qed.
Lemma writes_wrap {A} s p (m : io sql (result A)) (Q Q' : result A -> tables -> Prop) : writes s m Q -> (forall r t, Q r t -> Q' (wrap p r) t) -> writes s (io_wrap p m) Q'.
Proof.
  intros Hm HQ. unfold writes in *. apply wpio_wrap. eapply wpio_mono; [exact Hm|]. intros r s' [Hl Hr]. split; [done|]. destruct Hr as [|(e & -> & Hx & Hp)]; [left; auto|right]. by exists (Wrapf p e).
Qed.
Lemma writes_wrapped {A} s p (m : io sql (result A)) (Q : result A -> tables -> Prop) : (forall e t, Q (Err e) t -> Q (Err (Wrapf p e)) t) -> writes s m Q -> writes s (io_wrap p m) Q.
Proof. intros HQ Hm. apply (writes_wrap _ _ _ _ _ Hm). intros [a|e] t; [done|apply HQ]. Qed.
(** A read whose answer is known; a call without an answer. *)
Lemma writes_query {A B} s p (read : tables -> A) (k : A -> io sql (result B)) Q : (forall s1, later s s1 -> tb s1 = tb s -> writes s1 (k (read (tb s))) Q) ->
  writes s (io_try (io_wrap p (query E read)) k) Q.
Proof.
  intros Hk. apply (writes_try s _ _ (fun r t => t = tb s /\ r = Ok (read (tb s)))).
  - eapply writes_wrap; [apply writes_reads, reads_query|]. by intros r t [-> ->].
  - intros a s1 Hl [Ht [= ->]]. by apply Hk.
  - by intros e t [_ [=]].
Qed.
Lemma writes_call {B} s (o : option string) (k : unit -> io sql (result B)) Q : (forall s1, later s s1 -> tb s1 = tb s -> writes s1 (k tt) Q) ->
  writes s (io_try (match o with Some text => io_wrap text (roundtrip_call E) | None => roundtrip_call E end) k) Q.
Proof.
  intros Hk. apply (writes_try s _ _ (fun r t => t = tb s /\ r = Ok tt)).
  - apply writes_reads, reads_call.
  - intros [] s1 Hl [Ht _]. by apply Hk.
  - by intros e t [_ [=]].
Qed.
Lemma writes_statement {A} s (run : nat -> tables -> result A * tables) (Q : result A -> tables -> Prop) :
  seq_le (tb s) (snd (run (calls s) (tb s))) -> Q (fst (run (calls s) (tb s))) (snd (run (calls s) (tb s))) -> writes s (statement E run) Q.
Proof.
  intros Hs HQ. apply wp_statement.
  - intros text Hf. split; [split; [cbn; lia|split; cbn; lia]|]. right. eexists. split; [done|by apply fault_here].
  - destruct (run (calls s) (tb s)) as [r t]. cbn in *. split; [split; [cbn; lia|done]|by left].
Qed.

(** ** Inserting records *)
Definition record_key (rec : ZRecord) : string * string * Z * string := (rec_Name rec, rec_Type rec, rec_TTL rec, computeValueHash (rec_Value rec)).
(** Two records that the tables cannot hold together. *)
Definition rivals (allowed : option (gset Z)) (rec rec' : ZRecord) : Prop :=
  record_key rec = record_key rec' \/ (explicit_id allowed rec = explicit_id allowed rec' /\ is_Some (explicit_id allowed rec)).
Definition clash (allowed : option (gset Z)) (recs : list ZRecord) : Prop :=
  exists recs1 rec recs2 rec', recs = recs1 ++ rec :: recs2 /\ rec' ∈ recs1 /\ rivals allowed rec' rec.
(** The number a record gets. *)
Definition numbered (allowed : option (gset Z)) (seq : Z) (rec : ZRecord) (id : Z) : Prop :=
  match explicit_id allowed rec with Some j => id = j | None => seq < id end.
Definition new_rows (zoneID : Z) (recs : list ZRecord) (ids : list Z) : gmap Z record_row := list_to_map (zip ids (map (record_columns zoneID) recs)).

Definition occupied (t : tables) (zoneID : Z) (allowed : option (gset Z)) (rec : ZRecord) : Prop :=
  (exists kr, kr ∈ map_to_list (t_records t) /\ same_key (record_columns zoneID rec) kr = true) \/ (exists id, explicit_id allowed rec = Some id /\ is_Some (t_records t !! id)).
Lemma same_key_iff zoneID rec rec' id : same_key (record_columns zoneID rec) (id, record_columns zoneID rec') = true <-> record_key rec = record_key rec'.
Proof.
  unfold same_key, record_columns, record_key. generalize (computeValueHash (rec_Value rec)) (computeValueHash (rec_Value rec')). intros h h'.
  cbn [snd rr_zone_id rr_name rr_type rr_ttl rr_value_hash]. rewrite !andb_true_iff, !String.eqb_eq, !Z.eqb_eq. split; [intros ((((_ & ->) & ->) & ->) & ->); done|].
  by intros [= -> -> -> ->].
Qed.
Lemma insert_rows_spec zoneID allowed recs : forall s,
  is_Some (t_zones (tb s) !! zoneID) -> (forall i, is_Some (t_records (tb s) !! i) -> 0 < i <= t_record_seq (tb s)) -> 0 <= t_record_seq (tb s) ->
  (forall rec id, rec ∈ recs -> explicit_id allowed rec = Some id -> 0 < id <= t_record_seq (tb s)) ->
  writes s (insert_rows E D zoneID allowed recs) (fun r t' => match r with
    | Ok _ => t_zones t' = t_zones (tb s) /\ t_zone_seq t' = t_zone_seq (tb s) /\ t_record_seq (tb s) <= t_record_seq t' /\ exists ids, NoDup ids /\ Forall2 (numbered allowed (t_record_seq (tb s))) recs ids
        /\ (forall i, i ∈ ids -> t_records (tb s) !! i = None /\ 0 < i <= t_record_seq t') /\ t_records t' = new_rows zoneID recs ids ∪ t_records (tb s)
    | Err e => plain e /\ (clash allowed recs \/ exists rec, rec ∈ recs /\ occupied (tb s) zoneID allowed rec)
    end).
Proof.
  induction recs as [|rec recs IH]; intros s Hz Hids Hseq Hexp; cbn [insert_rows].
  { apply writes_ret. split_and!; [done..|]. exists []. split_and!; [constructor|constructor|intros i Hi; by apply elem_of_nil in Hi|]. unfold new_rows. cbn. by rewrite map_empty_union. }
  set (id := default (t_record_seq (tb s) + 1) (explicit_id allowed rec)).
  assert (Hid : 0 < id) by (unfold id; destruct (explicit_id allowed rec) as [j|] eqn:Ej; cbn; [apply (Hexp rec j); [by left|done]|lia]).
  eapply (writes_try _ _ _ (fun r t' => match r with
      | Ok _ => t_records (tb s) !! id = None /\ existsb (same_key (record_columns zoneID rec)) (map_to_list (t_records (tb s))) = false
          /\ t' = mkTables (t_zones (tb s)) (<[id := record_columns zoneID rec]> (t_records (tb s))) (t_zone_seq (tb s)) (Z.max (t_record_seq (tb s)) id)
      | Err e => plain e /\ occupied (tb s) zoneID allowed rec
      end)).
  - apply writes_wrapped; [done|]. apply writes_statement.
    + rewrite bool_decide_true by done. cbn [negb]. fold id. destruct (_ || _); unfold seq_le; cbn; lia.
    + rewrite bool_decide_true by done. cbn [negb]. fold id. destruct (_ || _) eqn:Eo.
      * apply orb_true_iff in Eo as [Ho%bool_decide_eq_true|(kr & Hk & Hs)%existsb_exists]; cbn; (split; [done|]); [right|left; exists kr; split; [by apply list_elem_of_In|done]].
        unfold id in Ho. destruct (explicit_id allowed rec) as [j|]; cbn in Ho; [by exists j|]. specialize (Hids _ Ho). lia.
      * apply orb_false_iff in Eo as [Ho%bool_decide_eq_false Hk]. cbn. split_and!; [by apply eq_None_not_Some|done|done].
  - intros [] s1 _ (Hfree & Hkey & Ht). eapply writes_mono; [apply IH|]; rewrite Ht; cbn.
    + done.
    + intros i. destruct (decide (i = id)) as [->|Hne]; [lia|]. rewrite lookup_insert_ne by done. intros Hi%Hids. lia.
    + lia.
    + intros rec' j Hin Hj. pose proof (Hexp rec' j ltac:(by right) Hj). lia.
    + intros [u|e] t'.
      * intros (Hz' & Hzs & Hle & ids & Hnd & Hnum & Hfr & Hrec). split_and!; [done|done|lia|]. assert (Hnew : id ∉ ids) by (intros Hin; destruct (Hfr id Hin) as [Hn _]; by rewrite lookup_insert_eq in Hn).
        exists (id :: ids). split_and!.
        -- by constructor.
        -- constructor; [unfold numbered, id; destruct (explicit_id allowed rec); [done|cbn; lia]|]. eapply Forall2_impl; [exact Hnum|]. intros rec' i. unfold numbered. destruct (explicit_id allowed rec'); [done|lia].
        -- intros i [->|Hi]%elem_of_cons; [split; [done|lia]|]. destruct (Hfr i Hi) as [Hn ?]. rewrite lookup_insert_None in Hn. tauto.
        -- rewrite Hrec. unfold new_rows. cbn. by rewrite <- insert_union_l, <- insert_union_r by (apply not_elem_of_list_to_map_1; rewrite fst_zip by (apply Forall2_length in Hnum; rewrite length_map; lia); done).
      * intros [Hp [(recs1 & rec1 & recs2 & rec' & -> & Hin & Hr)|(rec' & Hin & Hocc)]]; (split; [done|]).
        -- left. exists (rec :: recs1), rec1, recs2, rec'. split_and!; [done|by right|done].
        -- destruct Hocc as [([i row] & Hk%elem_of_map_to_list & Hs)|(j & Hj & Hocc)]; cbn [t_records] in *.
           ++ destruct (decide (i = id)) as [->|Hne].
              ** rewrite lookup_insert_eq in Hk. injection Hk as <-. apply same_key_iff in Hs. left. apply list_elem_of_split in Hin as (l1 & l2 & ->).
                 exists (rec :: l1), rec', l2, rec. split_and!; [done|by left|left; congruence].
              ** rewrite lookup_insert_ne in Hk by done. right. exists rec'. split; [by right|]. left. exists (i, row). split; [by apply elem_of_map_to_list|done].
           ++ destruct (decide (j = id)) as [->|Hne].
              ** left. apply list_elem_of_split in Hin as (l1 & l2 & ->). exists (rec :: l1), rec', l2, rec. split_and!; [done|by left|]. right.
                 pose proof (Hexp rec' id ltac:(right; apply elem_of_app; right; by left) Hj) as Hle. unfold id in Hle, Hj. rewrite Hj.
                 destruct (explicit_id allowed rec) as [k|]; cbn in *; [done|lia].
              ** rewrite lookup_insert_ne in Hocc by done. right. exists rec'. split; [by right|]. right. by exists j.
  - intros e t [Hp Ho]. split; [done|]. right. exists rec. split; [by left|done].
Qed.

(** ** Changing one zone *)
Definition others_same (n : string) (t t' : tables) : Prop :=
  (forall i r, zr_name r <> n -> t_zones t !! i = Some r <-> t_zones t' !! i = Some r)
  /\ (forall i r, zr_name r <> n -> t_zones t !! i = Some r ->
        filter (fun kr => of_zone i kr = true) (t_records t) = filter (fun kr => of_zone i kr = true) (t_records t')).
Lemma others_trans n t1 t2 t3 : others_same n t1 t2 -> others_same n t2 t3 -> others_same n t1 t3.
Proof. intros [H1 H2] [H3 H4]. split; [intros i r Hr; by rewrite H1, H3|]. intros i r Hr Hi. rewrite (H2 i r Hr Hi). apply (H4 i r Hr). by apply H1. Qed.
Lemma view_others n t t' m : tables_ok t -> tables_ok t' -> others_same n t t' -> m <> n -> view E t' !! m = view E t !! m.
Proof.
  intros Hok Hok' [Hz Hr] Hm. apply option_eq. intros z. rewrite !view_lookup by done. split; intros (i & r & Hi & <- & ->); exists i, r.
  - assert (t_zones t !! i = Some r) by (by apply Hz). split_and!; [done..|]. unfold zone_of. cbn. f_equal. symmetry. apply records_of_ext; [done|]. by apply (Hr i r).
  - split_and!; [by apply Hz|done|]. unfold zone_of. cbn. f_equal. apply records_of_ext; [done|]. by apply (Hr i r).
Qed.
Lemma view_write n t t' i r : tables_ok t -> tables_ok t' -> others_same n t t' -> t_zones t' !! i = Some r -> zr_name r = n ->
  view E t' = <[n := zone_of E t' (i, r)]> (view E t).
Proof.
  intros Hok Hok' Ho Hi Hr. apply map_eq. intros m. destruct (decide (m = n)) as [->|Hm]; [|rewrite lookup_insert_ne by done; by eapply view_others].
  rewrite lookup_insert_eq. apply view_lookup; eauto.
Qed.
Lemma view_delete n t t' : tables_ok t -> tables_ok t' -> others_same n t t' -> (forall i r, t_zones t' !! i = Some r -> zr_name r <> n) -> view E t' = delete n (view E t).
Proof.
  intros Hok Hok' Ho Hn. apply map_eq. intros m. destruct (decide (m = n)) as [->|Hm]; [|rewrite lookup_delete_ne by done; by eapply view_others].
  rewrite lookup_delete_eq. by apply view_none.
Qed.

(** ** What the tables keep of a zone *)
Definition stored_dnssec (config : option DNSSECConfig) : option DNSSECConfig :=
  match config with
  | Some c =>
    if Enabled c then
      Some (mkDNSSEC true (u8 (Algorithm c)) (u16 (KSKKeyTag c)) (u16 (ZSKKeyTag c)) (NSEC3Enabled c) (u16 (NSEC3Iterations c)) (NSEC3Salt c)
        (match SignatureExpiration c with Some t => if IsZero t then None else Some (column_time E t) | None => None end))
    else None
  | None => None
  end.
Lemma scanned_row name version soa config c u :
  scanned (mkZoneRow name version soa (dnssec_cells E (dnssecColumnValues config)) (At c) (At u)) = mkZone name version soa [] (stored_dnssec config) c u.
Proof.
  unfold scanned, scanZoneRow, stored_dnssec, dnssecColumnValues. destruct config as [c'|]; [|done]. destruct (Enabled c'); [|done]. cbn.
  by destruct (SignatureExpiration c') as [t|]; [destruct (IsZero t)|].
Qed.
Lemma stamped_cells config c : c_signature_expiration (dnssec_cells E (dnssecColumnValues config)) = Some c -> stamped c.
Proof.
  unfold dnssecColumnValues. destruct config as [c'|]; [|done]. destruct (Enabled c'); [|done]. cbn. destruct (SignatureExpiration c') as [t|]; [|done].
  destruct (IsZero t); [done|]. intros [= <-]. by eexists.
Qed.
Definition renumber (rec : ZRecord) (id : Z) : ZRecord := mkRecord (formatSQLRecordID id) (rec_Name rec) (rec_Type rec) (rec_TTL rec) (rec_Value rec) (option_map u16 (rec_Priority rec)).
Record stored_as (allowed : option (gset Z)) (seq : Z) (z w : Zone) : Prop := {
  st_name : z_Name w = z_Name z;
  st_version : z_Version w = z_Version z;
  st_soa : z_SOA w = z_SOA z;
  st_dnssec : z_DNSSEC w = stored_dnssec (z_DNSSEC z);
  st_records : exists ids, NoDup ids /\ Forall2 (numbered allowed seq) (z_Records z) ids /\ z_Records w ≡ₚ zip_with renumber (z_Records z) ids }.

Definition free_of (t : tables) (id : Z) : Prop := forall i r, t_records t !! i = Some r -> rr_zone_id r <> id.
Lemma new_rows_lookup zoneID recs ids i r : new_rows zoneID recs ids !! i = Some r -> rr_zone_id r = zoneID /\ i ∈ ids.
Proof.
  intros Hi. apply elem_of_list_to_map_2 in Hi. split.
  - assert (Hr : r ∈ map (record_columns zoneID) recs) by (eapply elem_of_zip_r; exact Hi). change (map ?f recs) with (f <$> recs) in Hr. by apply list_elem_of_fmap in Hr as (rec & -> & _).
  - by eapply elem_of_zip_l.
Qed.
Lemma records_written t t' zoneID recs ids : free_of t zoneID -> NoDup ids -> length ids = length recs -> t_records t' = new_rows zoneID recs ids ∪ t_records t ->
  records_of E t' zoneID ≡ₚ zip_with renumber recs ids.
Proof.
  intros Hfree Hnd Hlen Hrec. unfold records_of. rewrite (Permutation_map _ (sort_Slice_Permutation _ _)), map_filter_list.
  assert (filter (fun kr => of_zone zoneID kr = true) (t_records t') = new_rows zoneID recs ids) as ->.
  { rewrite Hrec. apply map_eq. intros i. apply option_eq. intros r. rewrite map_lookup_filter_Some, lookup_union_Some_raw. unfold of_zone. cbn. rewrite Z.eqb_eq. split.
    - intros [[Hi|[_ Hi]] Hz]; [done|]. by destruct (Hfree i r Hi).
    - intros Hi. split; [by left|]. by apply new_rows_lookup in Hi as [-> _]. }
  unfold new_rows. rewrite map_to_list_to_map by (rewrite fst_zip by (rewrite length_map; lia); done).
  clear -Hlen. revert ids Hlen. induction recs as [|rec recs IH]; intros [|id ids] Hlen; try done. cbn. constructor. apply IH. by injection Hlen.
Qed.
Lemma written_ok t t' zoneID recs ids : t_zones t' = t_zones t -> tables_ok t -> is_Some (t_zones t !! zoneID) ->
  t_zone_seq t' = t_zone_seq t -> t_record_seq t <= t_record_seq t' -> (forall i, i ∈ ids -> 0 < i <= t_record_seq t') -> t_records t' = new_rows zoneID recs ids ∪ t_records t -> tables_ok t'.
Proof.
  intros Hz Hok Hid Hzs Hle Hids Hrec. destruct Hok as [H1 H2 H3 H4 H5 H6]. split; rewrite ?Hz, ?Hzs; try done; [|lia|].
  - intros i. rewrite Hrec. intros [r [Hr|[_ Hr]]%lookup_union_Some_raw]; [apply new_rows_lookup in Hr as [_ Hr]; by apply Hids|]. specialize (H3 i ltac:(eauto)). lia.
  - intros i r. rewrite Hrec. intros [Hr|[_ Hr]]%lookup_union_Some_raw; [apply new_rows_lookup in Hr as [-> _]; done|]. eauto.
Qed.
Lemma written_others t t' zoneID row recs ids : t_zones t' = t_zones t -> tables_ok t -> t_zones t !! zoneID = Some row -> t_records t' = new_rows zoneID recs ids ∪ t_records t ->
  (forall i, i ∈ ids -> t_records t !! i = None) -> others_same (zr_name row) t t'.
Proof.
  intros Hz Hok Hid Hrec Hfresh. split; [by rewrite Hz|]. intros i r Hr Hi. rewrite Hrec. apply map_eq. intros k. apply option_eq. intros rec.
  rewrite !map_lookup_filter_Some, lookup_union_Some_raw. unfold of_zone. cbn. rewrite Z.eqb_eq. split; intros [Hk Hzk]; (split; [|done]).
  - right. split; [|done]. apply eq_None_not_Some. intros [rec' Hk']. apply new_rows_lookup in Hk' as [_ Hk']. rewrite (Hfresh k Hk') in Hk. done.
  - destruct Hk as [Hk|[_ Hk]]; [|done]. apply new_rows_lookup in Hk as [Hk _]. rewrite Hzk in Hk. subst i. congruence.
Qed.

(** ** The dialect fits the engine *)
Class Speaks : Prop := {
  sp_duplicate : isDuplicate D (duplicate_text E) = true;
  sp_faults : forall n text, fault E n = Some text -> isDuplicate D text = false;
  sp_changes : found_rows E = true \/ forall n now created updated z, touched E n (column_time E (z_UpdatedAt (stamp_late D now created updated z))) <> updated;
  sp_normalize : forall z, exists c u, normalizeTimestamps D z = set_Times c u z;
  sp_early : forall now z, exists c u, stamp_early D now z = set_Times c u z;
  sp_late : forall now created updated z, exists c u, stamp_late D now created updated z = set_Times c u z }.
Context `{!Speaks}.

(** ** Creating *)
Definition stored_row (zone : Zone) : zone_row :=
  mkZoneRow (z_Name zone) (z_Version zone) (z_SOA zone) (dnssec_cells E (dnssecColumnValues (z_DNSSEC zone))) (At (column_time E (z_CreatedAt zone))) (At (column_time E (z_UpdatedAt zone))).
Lemma new_zone_ok t id row : tables_ok t -> view E t !! zr_name row = None -> id = t_zone_seq t + 1 ->
  stamped (zr_created_at row) -> stamped (zr_updated_at row) -> (forall c, c_signature_expiration (zr_dnssec row) = Some c -> stamped c) ->
  let t' := mkTables (<[id := row]> (t_zones t)) (t_records t) id (t_record_seq t) in
  tables_ok t' /\ others_same (zr_name row) t t' /\ free_of t' id.
Proof.
  intros Hok Hv -> Hc Hu Hx t'. pose proof (proj1 (view_none E t _ Hok) Hv) as Hnew. destruct Hok as [H1 H2 H3 H4 H5 H6].
  assert (Hid : t_zones t !! (t_zone_seq t + 1) = None) by (apply eq_None_not_Some; intros Hs%H2; lia). split_and!.
  - split; unfold t'; cbn [t_zones t_records t_zone_seq t_record_seq]; [|..|done|done| |].
    + intros i j r r'. rewrite !lookup_insert_Some. intros [[<- <-]|[? Hi]] [[<- <-]|[? Hj]] Hn; [done|by destruct (Hnew j r')|by destruct (Hnew i r)|by eapply H1].
    + intros i. destruct (decide (i = t_zone_seq t + 1)) as [->|Hne]; [lia|]. rewrite lookup_insert_ne by done. intros Hs%H2. lia.
    + intros i r Hi. apply lookup_insert_is_Some. destruct (decide (t_zone_seq t + 1 = rr_zone_id r)); [by left|right; split; [done|eauto]].
    + intros i r. rewrite lookup_insert_Some. intros [[<- <-]|[? Hi]]; [done|eauto].
  - split; [|done]. intros i r Hr. unfold t'. cbn. rewrite lookup_insert_Some. split; [|intros [[_ <-]|[_ ?]]; done].
    intros Hi. right. split; [|done]. intros <-. congruence.
  - intros i r Hi. unfold t' in Hi. cbn in Hi. intros Hz. destruct (H5 i r Hi) as [z Hz']. congruence.
Qed.
Lemma insertZone_spec zone s : tables_ok (tb s) -> writes s (insertZoneTx E D zone) (fun r t' => match r with
  | Ok id => view E (tb s) !! z_Name zone = None /\ tables_ok t' /\ others_same (z_Name zone) (tb s) t' /\ t_zones t' !! id = Some (stored_row zone) /\ free_of t' id
      /\ t_record_seq t' = t_record_seq (tb s)
  | Err e => e = Sentinel ErrZoneAlreadyExists /\ is_Some (view E (tb s) !! z_Name zone)
  end).
Proof.
  intros Hok. unfold insertZoneTx, writes. apply wpio_bind. apply wp_statement.
  - intros text Hf. cbn [driver_text]. rewrite (sp_faults _ _ Hf). apply wpio_ret. split; [split; [cbn; lia|split; cbn; lia]|]. right. eexists. split; [done|].
    split; [exact (proj1 (fault_here E s text Hf))|done].
  - cbv zeta. rewrite zone_exists_spec with (E := E) by done. change (zr_name (zone_columns zone)) with (z_Name zone). case_bool_decide as Hv.
    + cbn [driver_text]. rewrite sp_duplicate. apply wpio_ret. split; [split; [cbn; lia|split; cbn; lia]|]. by left.
    + apply eq_None_not_Some in Hv. set (id := t_zone_seq (tb s) + 1).
      set (t' := mkTables _ _ _ _). destruct (new_zone_ok (tb s) id (stored_row zone) Hok Hv eq_refl) as (Hok' & Ho & Hf); [by eexists|by eexists|apply stamped_cells|].
      assert (Hl : later s (mkSql t' (S (calls s)) (generator s))) by (split; [cbn; lia|]; unfold t', seq_le, id; cbn; lia).
      assert (HQ : view E (tb s) !! z_Name zone = None /\ tables_ok t' /\ others_same (z_Name zone) (tb s) t' /\ t_zones t' !! id = Some (stored_row zone) /\ free_of t' id
        /\ t_record_seq t' = t_record_seq (tb s)) by (split_and!; try done; unfold t'; cbn; by rewrite lookup_insert_eq).
      assert (Hcall : forall o, writes (mkSql t' (S (calls s)) (generator s)) (io_try (match o with Some text => io_wrap text (roundtrip_call E) | None => roundtrip_call E end) (fun _ => io_ok id))
        (fun r t1 => r = Ok id /\ t1 = t')) by (intros o; apply writes_call; intros s1 _ Hs1; by apply writes_ret).
      destruct (last_insert_id D) as [o|]; [|apply wpio_ret; split; [done|by left]].
      specialize (Hcall o). unfold writes in Hcall. destruct o; (eapply wpio_mono; [exact Hcall|]); intros r s' [Hl' Hr]; (split; [by eapply later_trans|]);
        (destruct Hr as [[-> ->]|(e & -> & Hx & Hp)]; [by left|right; exists e; split; [done|split; [|done]]; eapply faulted_mono; [apply Hl|done|done]]).
Qed.
Definition created_times (z w : Zone) : Prop := z_CreatedAt w = column_time E (z_CreatedAt z) /\ z_UpdatedAt w = column_time E (z_UpdatedAt z).
Lemma insertRecords_spec zoneID row allowed recs s : tables_ok (tb s) -> t_zones (tb s) !! zoneID = Some row -> free_of (tb s) zoneID ->
  (forall rec id, rec ∈ recs -> explicit_id allowed rec = Some id -> 0 < id <= t_record_seq (tb s) /\ t_records (tb s) !! id = None) ->
  writes s (insertRecordsTx E D zoneID recs allowed) (fun r t' => match r with
    | Ok _ => tables_ok t' /\ others_same (zr_name row) (tb s) t' /\ t_zones t' = t_zones (tb s)
        /\ exists ids, NoDup ids /\ Forall2 (numbered allowed (t_record_seq (tb s))) recs ids /\ records_of E t' zoneID ≡ₚ zip_with renumber recs ids
    | Err e => plain e /\ clash allowed recs
    end).
Proof.
  intros Hok Hz Hfree Hexp. unfold insertRecordsTx. destruct (Nat.eqb_spec (length recs) 0) as [Hl|_].
  { destruct recs; [|done]. apply writes_ret. split_and!; [done|by split|done|]. exists []. split_and!; [constructor|constructor|].
    pose proof (records_written (tb s) (tb s) zoneID [] [] Hfree) as Hr. apply Hr; [constructor|done|]. unfold new_rows. cbn. by rewrite map_empty_union. }
  apply (writes_call _ (Some (text D InTx PrepareRecord))). intros s1 _ Ht1. apply (writes_call _ (Some (text D InTx PrepareRecordID))). intros s2 _ Ht2.
  rewrite Ht1 in Ht2. rewrite <- Ht2 in *. clear s1 Ht1. eapply writes_mono.
  { apply insert_rows_spec; [by rewrite Hz|apply (ok_record_seq _ Hok)|apply (ok_seq _ Hok)|]. intros rec id Hin Hid. by apply (Hexp rec id). }
  intros [u|e] t'.
  - intros (Hzt & Hzs & Hle & ids & Hnd & Hnum & Hids & Hrec). split_and!.
    + apply (written_ok (tb s2) t' zoneID recs ids); try done. intros i Hi. by apply Hids.
    + apply (written_others (tb s2) t' zoneID row recs ids); try done. intros i Hi. by apply Hids.
    + done.
    + exists ids. split_and!; [done|done|]. apply (records_written (tb s2)); [done|done|symmetry; by eapply Forall2_length|done].
  - intros [Hp [Hc|(rec & Hin & Hocc)]]; (split; [done|]); [done|]. exfalso. destruct Hocc as [([i r] & Hk%elem_of_map_to_list & Hs)|(id & Hid & Hocc)].
    + apply (Hfree i r Hk). unfold same_key in Hs. rewrite !andb_true_iff in Hs. destruct Hs as ((((Hs & _) & _) & _) & _). by apply Z.eqb_eq in Hs.
    + destruct (Hexp rec id Hin Hid) as [_ Hn]. rewrite Hn in Hocc. by destruct Hocc.
Qed.
Lemma write_new_spec zone s : tables_ok (tb s) -> writes s (write_new E D zone) (fun r t' => match r with
  | Ok _ => tables_ok t' /\ view E (tb s) !! z_Name zone = None
      /\ exists w, view E t' = <[z_Name zone := w]> (view E (tb s)) /\ stored_as None (t_record_seq (tb s)) zone w /\ created_times zone w
  | Err e => (e = Sentinel ErrZoneAlreadyExists /\ is_Some (view E (tb s) !! z_Name zone)) \/ (plain e /\ clash None (z_Records zone))
  end).
Proof.
  intros Hok. eapply writes_try; [by apply insertZone_spec| |intros e t He; by left].
  intros id s1 _ (Hv & Hok1 & Ho1 & Hid & Hfree & Hseq). eapply writes_mono; [apply (insertRecords_spec id (stored_row zone)); [done..|]|].
  - intros rec j _. unfold explicit_id. by destruct (parseSQLRecordID _).
  - intros [u|e] t'; [|by right]. intros (Hok' & Ho & Hz & ids & Hnd & Hnum & Hrec). split_and!; [done..|]. rewrite <- Hz in Hid.
    exists (zone_of E t' (id, stored_row zone)). split_and!.
    + apply view_write; try done. by eapply others_trans.
    + unfold zone_of, stored_row. cbn [fst snd]. rewrite scanned_row. split; try done. cbn. exists ids. rewrite <- Hseq. done.
    + unfold zone_of, stored_row. cbn [fst snd]. rewrite scanned_row. done.
Qed.

(** ** Updating *)
Lemma filter_within {A} (f g : A -> bool) l : (forall x, f x = true -> g x = true) -> List.filter f l = List.filter f (List.filter g l).
Proof.
  intros Hfg. induction l as [|x l IH]; cbn; [done|]. destruct (g x) eqn:Eg; cbn; [by rewrite IH|]. destruct (f x) eqn:Ef; [|done]. by rewrite (Hfg x Ef) in Eg.
Qed.
(** What an update sets. *)
Definition assignment (version : zone_row -> string) (soa : zone_row -> SOARecord) (config : option DNSSECConfig) (u : Time) (row : zone_row) : zone_row :=
  mkZoneRow (zr_name row) (version row) (soa row) (dnssecColumnValues config) (zr_created_at row) (At u).
Definition assigned (version : zone_row -> string) (soa : zone_row -> SOARecord) (config : option DNSSECConfig) (u : Time) (n : nat) (row : zone_row) : zone_row :=
  mkZoneRow (zr_name row) (version row) (soa row) (dnssec_cells E (dnssecColumnValues config)) (zr_created_at row) (At (touched E n (column_time E u))).
Lemma update_spec s n (matches : zone_row -> bool) version soa config u : tables_ok (tb s) -> (forall r, matches r = true -> zr_name r = n) ->
  writes s (update_zones E matches (assignment version soa config u)) (fun r t' => exists k, r = Ok k /\ tables_ok t' /\ others_same n (tb s) t'
    /\ t_records t' = t_records (tb s) /\ t_record_seq t' = t_record_seq (tb s)
    /\ match select_zone n (tb s) with
       | Some (i, row) => if matches row then exists c, t_zones t' !! i = Some (assigned version soa config u c row)
                              /\ (k = 0 -> found_rows E = false /\ assigned version soa config u c row = row) else k = 0 /\ t' = tb s
       | None => k = 0 /\ t' = tb s
       end).
Proof.
  intros Hok Hm. apply writes_statement; [unfold seq_le; cbn; lia|]. cbv zeta.
  set (set' := after_update E (assignment version soa config u) (calls s)). assert (Hset : forall row, set' row = assigned version soa config u (calls s) row) by done. clearbody set'. cbn [fst snd].
  set (t' := mkTables _ _ _ _). eexists. split; [done|]. pose proof (select_zone_spec E (tb s) n Hok) as Hsel.
  assert (Hlook : forall i r, t_zones t' !! i = Some r <-> exists r0, t_zones (tb s) !! i = Some r0 /\ r = if matches r0 then assigned version soa config u (calls s) r0 else r0).
  { intros i r. unfold t'. cbn. rewrite lookup_fmap_Some. split; intros (r0 & H1 & H2); exists r0; rewrite Hset in *; by split. }
  assert (Hname : forall r0, zr_name (if matches r0 then assigned version soa config u (calls s) r0 else r0) = zr_name r0) by (intros r0; by destruct (matches r0)).
  assert (Hok' : tables_ok t').
  { destruct Hok as [H1 H2 H3 H4 H5 H6]. split; try done.
    - intros i j r r' (r0 & Hi & ->)%Hlook (r0' & Hj & ->)%Hlook. rewrite !Hname. by eapply H1.
    - intros i [r (r0 & Hi & _)%Hlook]. apply (H2 i). by exists r0.
    - intros i r Hi. destruct (H5 i r Hi) as [z Hz]. eexists. apply Hlook. by exists z.
    - intros i r (r0 & Hi & ->)%Hlook. destruct (H6 i r0 Hi) as (Hc & Hu & Hx). destruct (matches r0); [|done]. split_and!; [done|by eexists|]. apply stamped_cells. }
  assert (Ho : others_same n (tb s) t').
  { split; [|done]. intros i r Hr. rewrite Hlook. split.
    - intros Hi. exists r. split; [done|]. destruct (matches r) eqn:Em; [|done]. by destruct (Hr (Hm r Em)).
    - intros (r0 & Hi & ->). rewrite Hname in Hr. destruct (matches r0) eqn:Em; [|done]. by destruct (Hr (Hm r0 Em)). }
  split_and!; [done..|]. set (count := List.filter _ _).
  assert (Hcount : count = List.filter (fun kr => matches (snd kr) && (found_rows E || negb (bool_decide (set' (snd kr) = snd kr)))) (List.filter (named n) (map_to_list (t_zones (tb s))))).
  { apply filter_within. intros kr [Hk _]%andb_true_iff. unfold named. apply String.eqb_eq. by apply Hm. }
  assert (Hsame : (forall i r, t_zones (tb s) !! i = Some r -> matches r = false) -> t' = tb s).
  { intros Hno. unfold t'. destruct (tb s) as [zs rs a b]. cbn in *. f_equal. apply map_eq. intros i. rewrite lookup_fmap. destruct (zs !! i) as [r|] eqn:Ei; [|done]. cbn. by rewrite (Hno i r Ei). }
  destruct (select_zone n (tb s)) as [[i row]|].
  - destruct Hsel as (Hi & Hn & Hv & Hl). rewrite Hl in Hcount. destruct (matches row) eqn:Em.
    + exists (calls s). split; [apply Hlook; exists row; by rewrite Em|]. rewrite Hcount. cbn. rewrite Em, Hset. cbn. destruct (found_rows E); cbn; [lia|].
      case_bool_decide; cbn; [done|lia].
    + rewrite Hcount. cbn. rewrite Em. cbn. split; [done|]. apply Hsame. intros j r Hj. destruct (matches r) eqn:Emr; [|done].
      assert (i = j) as -> by (eapply ok_names; [exact Hok|done|done|]; rewrite (Hm r Emr); done). congruence.
  - destruct Hsel as [Hv Hl]. rewrite Hl in Hcount. rewrite Hcount. split; [done|]. apply Hsame. intros j r Hj. destruct (matches r) eqn:Emr; [|done].
    pose proof (proj1 (view_none E _ _ Hok) Hv j r Hj) as Hne. by destruct (Hne (Hm r Emr)).
Qed.
Lemma delete_records_spec s i row : tables_ok (tb s) -> t_zones (tb s) !! i = Some row ->
  writes s (delete_records E i) (fun r t' => r = Ok tt /\ tables_ok t' /\ others_same (zr_name row) (tb s) t' /\ t_zones t' = t_zones (tb s) /\ free_of t' i
    /\ t_record_seq t' = t_record_seq (tb s) /\ forall k, k ∈ select_record_ids i (tb s) -> 0 < k <= t_record_seq t' /\ t_records t' !! k = None).
Proof.
  intros Hok Hi. apply writes_statement; [unfold seq_le; cbn; lia|]. cbn [fst snd]. set (t' := mkTables _ _ _ _).
  assert (Hlook : forall k r, t_records t' !! k = Some r <-> t_records (tb s) !! k = Some r /\ rr_zone_id r <> i).
  { intros k r. unfold t'. cbn. rewrite map_lookup_filter_Some. unfold of_zone. cbn. by rewrite Z.eqb_neq. }
  split_and!; [done| | |done| |done|].
  - destruct Hok as [H1 H2 H3 H4 H5 H6]. split; try done; [intros k [r [Hk _]%Hlook]; eauto|intros k r [Hk _]%Hlook; eauto].
  - split; [done|]. intros j r Hr Hj. apply map_eq. intros k. apply option_eq. intros rec. rewrite !map_lookup_filter_Some, Hlook. unfold of_zone. cbn. rewrite Z.eqb_eq.
    split; [|tauto]. intros [Hk Hz]. split_and!; [done| |done]. rewrite Hz. intros ->. congruence.
  - intros k r [_ Hk]%Hlook. done.
  - intros k Hk. unfold select_record_ids in Hk. apply list_elem_of_fmap in Hk as ([k' r] & -> & Hk). rewrite list_elem_of_In, filter_In, <- list_elem_of_In in Hk. destruct Hk as [Hk%elem_of_map_to_list Hz].
    cbn. split; [apply (ok_record_seq _ Hok); by exists r|]. apply eq_None_not_Some. intros [r' [Hk' Hz']%Hlook]. assert (r' = r) as -> by congruence. unfold of_zone in Hz. cbn in Hz. by apply Z.eqb_eq in Hz.
Qed.
Definition zone_ids (i : Z) (t : tables) : gset Z := list_to_set (select_record_ids i t).
Lemma zone_ids_spec t i row id : id ∈ zone_ids i t <-> formatSQLRecordID id ∈ map rec_ID (z_Records (zone_of E t (i, row))).
Proof.
  unfold zone_ids, select_record_ids, zone_of, records_of. cbn [z_Records set_Records fst]. rewrite elem_of_list_to_set, map_map.
  change (map ?f ?l) with (f <$> l). rewrite sort_Slice_Permutation, !list_elem_of_fmap. split.
  - intros ([k r] & -> & Hk). exists (k, r). by split.
  - intros ([k r] & Hk & Hin). exists (k, r). split; [|done]. cbn in *. by apply (inj pretty) in Hk.
Qed.
Lemma count_spec {A} s p (m : io sql (result Z)) (k : Z -> io sql (result A)) (Q : result Z -> tables -> Prop) Q' : writes s m Q -> (forall e t, Q (Err e) t -> Q' (Err e) t) ->
  (forall n s1, later s s1 -> Q (Ok n) (tb s1) -> writes s1 (k n) Q') -> writes s (io_try (count_rows E D p m) k) Q'.
Proof.
  intros Hm He Hk. apply (writes_try s _ _ Q); [|done|done]. apply (writes_try s _ _ Q _ Hm); [|done]. intros n s1 Hl Hn.
  apply (writes_call _ (Some (text D p RowsAffected))). intros s2 _ Ht. apply writes_ret. by rewrite Ht.
Qed.
End writes.
