(* ===== verification/SqlProps.v ===== *)
(** * The SQL backends keep the zones

    Outcome of every operation of a SQL backend on the zones behind its tables,
    for any engine and dialect that fit, whatever calls fail. *)

From S2P Require Import Prelude Io GoStrings GoStringsFacts GoSort Zone Names Validation ZoneRules Serial Sha256 Ulid Store MemoryStore SqlBackend SqlReads SqlWrites.
#[local] Open Scope io_scope.

Section props.
Context `{UnicodeTables} (E : Engine) `{!Collates E} (D : Dialect) `{!Speaks E D}.

(** ** Transactions *)
Definition same_rows (t t' : tables) : Prop := t_zones t' = t_zones t /\ t_records t' = t_records t.
Lemma same_rows_view t t' : same_rows t t' -> view E t' = view E t.
Proof. intros [Hz Hr]. unfold view, zone_of, records_of. by rewrite Hz, Hr. Qed.
Lemma same_rows_ok t t' : same_rows t t' -> seq_le t t' -> tables_ok t -> tables_ok t'.
Proof.
  intros [Hz Hr] [Hs1 Hs2] [H1 H2 H3 H4 H5 H6]. split; rewrite ?Hz, ?Hr; try done; [|..|lia].
  - intros i Hi. specialize (H2 i Hi). lia.
  - intros i Hi. specialize (H3 i Hi). lia.
Qed.
(** An operation: all its effect on success, none on failure. *)
Definition atomic {A B} (s : sql) (m : io sql (result A * B)) (Q : result A -> B -> tables -> Prop) : Prop :=
  wpio m s (fun rb s' => (calls s <= calls s')%nat /\ tables_ok (tb s') /\ (is_ok (fst rb) = false -> same_rows (tb s) (tb s'))
    /\ (Q (fst rb) (snd rb) (tb s') \/ exists e, fst rb = Err e /\ explained E s s' e)).
Lemma atomic_mono {A B} s (m : io sql (result A * B)) (Q Q' : result A -> B -> tables -> Prop) : atomic s m Q -> (forall r b t, Q r b t -> Q' r b t) -> atomic s m Q'.
Proof. unfold atomic. intros Hm HQ. eapply wpio_mono; [exact Hm|]. intros rb s' (? & ? & ? & [?|?]); split_and!; auto. Qed.
Definition keeps_plain (f : error -> error) : Prop := forall e, plain e -> plain (f e).
Lemma wrap_plain p : keeps_plain (Wrapf p).
Proof. intros e He x. apply He. Qed.
Lemma id_plain : keeps_plain id.
Proof. by intros e. Qed.

Definition writes2 {A B} (s : sql) (m : io sql (result A * B)) (Q : result A -> B -> tables -> Prop) : Prop :=
  wpio m s (fun rb s' => later s s' /\ (Q (fst rb) (snd rb) (tb s') \/ exists e, fst rb = Err e /\ explained E s s' e)).
Lemma writes2_with {A B} s (m : io sql (result A)) (b : B) (Q : result A -> tables -> Prop) : writes E s m Q -> writes2 s (r <- m ; io_ret (r, b)) (fun r b' t => b' = b /\ Q r t).
Proof. unfold writes. intros Hm. apply wpio_bind. eapply wpio_mono; [exact Hm|]. intros r s' [Hl Hr]. apply wpio_ret. cbn. split; [done|]. destruct Hr; [by left|by right]. Qed.

Lemma rollback_rows t t' : same_rows t (rollback E t t').
Proof. unfold rollback. by destruct (sequences_roll_back E). Qed.
Lemma rollback_seq t t' : seq_le t t' -> seq_le t (rollback E t t').
Proof. unfold rollback. destruct (sequences_roll_back E); [|done]. intros _. unfold seq_le. lia. Qed.
Lemma call_cases s : match roundtrip_call E s with
  | (Ok _, s') => quiet s s'
  | (Err e, s') => quiet s s' /\ explained E s s' e
  end.
Proof.
  pose proof (reads_query E (tb s) (fun _ => tt) s eq_refl) as Hr. unfold wpio in Hr. unfold roundtrip_call. destruct (query E (fun _ => tt) s) as [[u|e] s']; cbn in Hr.
  - by destruct Hr.
  - destruct Hr as [Hq [[=]|(e' & [= <-] & Hx)]]. by split.
Qed.
Lemma transaction_spec {A B} s bf cf (b : B) (body : io sql (result A * B)) (Q : result A -> B -> tables -> Prop) :
  keeps_plain bf -> keeps_plain cf -> tables_ok (tb s) -> (forall a b' t, Q (Ok a) b' t -> tables_ok t) ->
  (forall s1, quiet s s1 -> writes2 s1 body Q) -> atomic s (transaction E bf cf b body) (fun r b' t' => match r with Ok _ => Q r b' t' | Err e => exists t, Q (Err e) b' t end).
Proof.
  intros Hbf Hcf Hok HQ Hbody. unfold atomic, wpio, transaction. pose proof (call_cases s) as Hb. destruct (roundtrip_call E s) as [[u|e] s1].
  2: { destruct Hb as [(Ht & _ & Hc) [Hx Hp]]. cbn. rewrite Ht. split_and!; [done|done|by intros _|]. right. exists (bf e). split; [done|]. split; [done|by apply Hbf]. }
  specialize (Hbody s1 Hb). unfold writes2, wpio in Hbody. destruct Hb as (Ht1 & _ & Hc1). destruct (body s1) as [[[a|e] b'] s2]; cbn [fst snd] in *.
  - destruct Hbody as [[Hc2 Hs2] [Hq|(e & [=] & _)]]. pose proof (call_cases s2) as Hcm. destruct (roundtrip_call E s2) as [[u'|e] s3]; cbn.
    + destruct Hcm as (Ht3 & _ & Hc3). rewrite Ht3. split_and!; [lia|by eapply HQ|done|by left].
    + destruct Hcm as [(Ht3 & _ & Hc3) [Hx Hp]]. rewrite Ht3, <- Ht1. split_and!; [lia| |intros _; apply rollback_rows|].
      * apply (same_rows_ok (tb s1)); [apply rollback_rows|by apply rollback_seq|by rewrite Ht1].
      * right. exists (cf e). split; [done|]. split; [|by apply Hcf]. apply (faulted_mono E s s2 s3); [lia|cbn; lia|exact Hx].
  - destruct Hbody as [[Hc2 Hs2] Hr]. cbn. rewrite <- Ht1. split_and!; [lia| |intros _; apply rollback_rows|].
    + apply (same_rows_ok (tb s1)); [apply rollback_rows|by apply rollback_seq|by rewrite Ht1].
    + destruct Hr as [Hq|(e' & [= <-] & Hx & Hp)]; [left; eauto|]. right. exists e. split; [done|]. split; [|done]. apply (faulted_mono E s s1 s2); [lia|cbn; lia|exact Hx].
Qed.

(** ** Creating *)
Definition sql_content (z z' : Zone) : Prop :=
  z_Name z' = normalizeZoneName (z_Name z) /\ set_Serial 0 (z_SOA z) = set_Serial 0 (z_SOA z') /\ Forall2 same_record (z_Records z) (z_Records z') /\ z_DNSSEC z' = z_DNSSEC z.
Record sql_created (e : Inputs) (z z' : Zone) : Prop := {
  sc_content : sql_content z z';
  sc_valid : ValidateZone (Some z') = Ok tt;
  sc_serial : Serial (z_SOA z') = if Serial (z_SOA z) =? 0 then generateSerial (in_date e) 0 else Serial (z_SOA z);
  sc_version : z_Version z <> "" -> z_Version z' = z_Version z;
  sc_versioned : z_Version z' <> "" }.
Lemma prepare_cases e zone s :
  match prepare D e zone s with
  | (Ok None, _) => False
  | (Ok (Some z'), s') => quiet (mkSql (tb s) (calls s) (generator s')) s' /\ tb s' = tb s /\ calls s' = calls s /\ exists z, zone = Some z /\ sql_created e z z'
  | (Err err, s') => tb s' = tb s /\ calls s' = calls s /\ fst (prepareZoneForCreate e zone normalizeZoneName (generator s)) = Err err
  end.
Proof.
  unfold prepare. pose proof (prepareZoneForCreate_cases e zone normalizeZoneName (generator s)) as Hp.
  destruct (prepareZoneForCreate e zone normalizeZoneName (generator s)) as [[[w|]|err] u]; cbn [fst option_map tb calls] in *; [|done|done].
  destruct Hp as (z & rs & v & -> & Hval & -> & Hv & Hne & Hrs). split_and!; [by split_and!|done|done|]. exists z. split; [done|].
  match goal with |- sql_created _ _ (normalizeTimestamps D ?w) => destruct (sp_normalize E D w) as (c & u' & ->) end.
  split; cbn; try done.
  - split_and!; cbn; [done|by destruct (_ =? 0)| |done]. eapply Forall2_impl; [exact Hrs|]. intros r r' <-. done.
  - by destruct (_ =? 0).
Qed.
Lemma in_transaction_spec s bf cf m Q : keeps_plain bf -> keeps_plain cf -> tables_ok (tb s) -> (forall a t, Q (Ok a) t -> tables_ok t) ->
  (forall s1, quiet s s1 -> writes E s1 m Q) ->
  atomic s (r <- in_transaction E bf cf m ; io_ret (r, tt)) (fun r _ t' => match r with Ok _ => Q r t' | Err e => exists t, Q (Err e) t end).
Proof.
  intros Hbf Hcf Hok HQ Hm. pose proof (transaction_spec s bf cf tt (r <- m ; io_ret (r, tt)) (fun r b t => b = tt /\ Q r t) Hbf Hcf Hok) as Ht.
  assert (Hb : atomic s (transaction E bf cf tt (r <- m ; io_ret (r, tt))) (fun r _ t' => match r with Ok _ => Q r t' | Err e => exists t, Q (Err e) t end)).
  { eapply atomic_mono; [apply Ht|].
    - intros a b t [_ Hq]. by eapply HQ.
    - intros s1 Hq. apply writes2_with. by apply Hm.
    - intros [a|e] b t; [by intros [_ ?]|]. intros (t0 & _ & ?). eauto. }
  unfold atomic, in_transaction in *. apply wpio_bind, wpio_bind. eapply wpio_mono; [exact Hb|]. by intros [r b] s'.
Qed.
Lemma createZone_spec z s : tables_ok (tb s) -> atomic s (r <- createZone E D z ; io_ret (r, tt)) (fun r _ t' => match r with
  | Ok _ => view E (tb s) !! z_Name z = None
      /\ exists w, view E t' = <[z_Name z := w]> (view E (tb s)) /\ stored_as E None (t_record_seq (tb s)) z w /\ created_times E z w
  | Err err => (err = Sentinel ErrZoneAlreadyExists /\ is_Some (view E (tb s) !! z_Name z)) \/ (plain err /\ clash None (z_Records z))
  end).
Proof.
  intros Hok. eapply atomic_mono; [apply (in_transaction_spec s _ _ _ (fun r t' => match r with
    | Ok _ => tables_ok t' /\ view E (tb s) !! z_Name z = None
        /\ exists w, view E t' = <[z_Name z := w]> (view E (tb s)) /\ stored_as E None (t_record_seq (tb s)) z w /\ created_times E z w
    | Err err => (err = Sentinel ErrZoneAlreadyExists /\ is_Some (view E (tb s) !! z_Name z)) \/ (plain err /\ clash None (z_Records z))
    end)); [apply wrap_plain|apply id_plain|done|by intros a t [? _]|]|].
  - intros s1 (Ht & _ & _). rewrite <- Ht. apply write_new_spec; [done|done|by rewrite Ht].
  - intros [u|err] _ t; [by intros [_ ?]|]. by intros [t0 ?].
Qed.
(** ** Updating *)
Definition own_ids (old : Zone) (ids : gset Z) : Prop := forall id, id ∈ ids <-> formatSQLRecordID id ∈ map rec_ID (z_Records old).
Lemma write_update_spec s zone expected i row : tables_ok (tb s) -> select_zone (z_Name zone) (tb s) = Some (i, row) ->
  (found_rows E = true \/ forall n, At (touched E n (column_time E (z_UpdatedAt zone))) <> zr_updated_at row) ->
  writes E s (write_update E D zone expected) (fun r t' => match r with
    | Ok _ => tables_ok t' /\ (expected = "" \/ expected = zr_version row) /\ exists w ids, own_ids (zone_of E (tb s) (i, row)) ids
        /\ view E t' = <[z_Name zone := w]> (view E (tb s)) /\ stored_as E (Some ids) (t_record_seq (tb s)) zone w /\ z_CreatedAt w = z_CreatedAt (zone_of E (tb s) (i, row))
    | Err err => (err = Sentinel ErrConflict /\ expected <> "" /\ expected <> zr_version row)
        \/ (plain err /\ exists ids, own_ids (zone_of E (tb s) (i, row)) ids /\ clash (Some ids) (z_Records zone))
    end).
Proof.
  intros Hok Hsel Hch. pose proof (select_zone_spec E (tb s) (z_Name zone) Hok) as Hs. rewrite Hsel in Hs. destruct Hs as (Hi & Hn & Hv & _).
  unfold write_update. set (matches := fun row : zone_row => _).
  change (fun row : zone_row => mkZoneRow _ _ _ _ _ _) with (assignment (fun _ => z_Version zone) (fun _ => z_SOA zone) (z_DNSSEC zone) (z_UpdatedAt zone)).
  assert (Hm : forall r, matches r = true -> zr_name r = z_Name zone) by (intros r [Hr _]%andb_true_iff; by apply String.eqb_eq).
  assert (Hmr : matches row = true <-> expected = "" \/ expected = zr_version row).
  { unfold matches. rewrite Hn, String.eqb_refl. cbn [andb]. rewrite orb_true_iff, !String.eqb_eq. split; intros [|]; auto. }
  eapply count_spec.
  { apply writes_wrapped with (Q := fun r t' => exists k, r = Ok k /\ tables_ok t' /\ others_same (z_Name zone) (tb s) t' /\ t_records t' = t_records (tb s) /\ t_record_seq t' = t_record_seq (tb s)
      /\ if matches row then k <> 0 /\ exists c, t_zones t' !! i = Some (assigned E (fun _ => z_Version zone) (fun _ => z_SOA zone) (z_DNSSEC zone) (z_UpdatedAt zone) c row)
         else k = 0 /\ t' = tb s); [by intros e t (k & [=] & _)|].
    eapply writes_mono; [by apply (update_spec E s (z_Name zone) matches)|]. intros r t' (k & -> & Hok' & Ho & Hr & Hseq & Hk). rewrite Hsel in Hk. exists k. split_and!; [done..|].
    destruct (matches row); [|done]. destruct Hk as (c & Hz & Hk). split; [|by exists c]. intros Hk0. destruct (Hk Hk0) as [Hf He].
    destruct Hch as [Hch|Hch]; [congruence|]. apply (Hch c). exact (f_equal zr_updated_at He). }
  { by intros e t (k & [=] & _). }
  intros k s1 Hl1 (k' & [= <-] & Hok1 & Ho1 & Hr1 & Hseq1 & Hk). destruct (matches row) eqn:Em.
  2: { destruct Hk as [-> Ht]. cbn [Z.eqb]. assert (Hexp : expected <> "" /\ expected <> zr_version row) by (split; intros E1; assert (false = true) as [=] by (apply Hmr; auto)).
    destruct (asks_again D).
    - apply writes_query. intros s2 _ Ht2. rewrite Ht, zone_exists_spec with (E := E), Hv by done. rewrite bool_decide_true by done. apply writes_ret. by left.
    - destruct (String.eqb_spec expected "") as [->|_]; [by destruct Hexp|]. apply writes_ret. by left. }
  destruct Hk as (Hk0 & c & Hz1). apply Z.eqb_neq in Hk0 as ->. set (row1 := assigned _ _ _ _ _ _ _) in Hz1.
  assert (Hsel1 : select_zone (z_Name zone) (tb s1) = Some (i, row1)).
  { pose proof (select_zone_spec E (tb s1) (z_Name zone) Hok1) as Hs1. destruct (select_zone (z_Name zone) (tb s1)) as [[j r]|].
    - destruct Hs1 as (Hj & Hnj & _). assert (j = i) as -> by (eapply (ok_names _ Hok1); [exact Hj|exact Hz1|]; cbn; congruence). congruence.
    - destruct Hs1 as [Hv1 _]. pose proof (proj1 (view_none E _ _ Hok1) Hv1 i row1 Hz1) as Hne. cbn in Hne. congruence. }
  apply writes_query. intros s2 _ Ht2. rewrite Hsel1. apply writes_query. intros s3 _ Ht3. apply (writes_call _ _ (Some (text D InTx LoadIDs))). intros s4 _ Ht4. rewrite Ht3, Ht2 in *.
  assert (Hids : select_record_ids i (tb s2) = select_record_ids i (tb s)) by (unfold select_record_ids; by rewrite Ht2, Hr1). rewrite Ht2 in Hids.
  eapply writes_try.
  { apply writes_wrapped with (Q := fun r t' => r = Ok tt /\ tables_ok t' /\ others_same (zr_name row1) (tb s4) t' /\ t_zones t' = t_zones (tb s4) /\ free_of t' i
      /\ t_record_seq t' = t_record_seq (tb s4) /\ forall k, k ∈ select_record_ids i (tb s4) -> 0 < k <= t_record_seq t' /\ t_records t' !! k = None); [by intros e t ([=] & _)|].
    apply delete_records_spec; rewrite Ht4; done. }
  2: { by intros e t ([=] & _). }
  intros [] s5 _ (_ & Hok5 & Ho5 & Hz5 & Hfree & Hseq5 & Hgone). rewrite Ht4 in *. cbn in Ho5. rewrite Hn in Ho5.
  assert (Hown : own_ids (zone_of E (tb s) (i, row)) (list_to_set (select_record_ids i (tb s1)))) by (intros id; rewrite Hids; apply zone_ids_spec).
  eapply writes_mono; [apply (insertRecords_spec E D i row1); [done|by rewrite Hz5|done|]|].
  - intros rec id _. unfold explicit_id. destruct (parseSQLRecordID (rec_ID rec)) as [j|]; [|done]. unfold allows. case_bool_decide as Hj; [|done]. intros [= <-].
    apply Hgone. by apply elem_of_list_to_set in Hj.
  - intros [u|err] t'.
    + intros (Hok' & Ho' & Hzt & ids & Hnd & Hnum & Hrec). cbn in Ho'. rewrite Hn in Ho'. split_and!; [done|by apply Hmr|].
      assert (Hz' : t_zones t' !! i = Some row1) by (by rewrite Hzt, Hz5).
      exists (zone_of E t' (i, row1)), (list_to_set (select_record_ids i (tb s1))). split_and!; [done| | |].
      * apply view_write; try done. eapply others_trans; [|exact Ho']. by eapply others_trans.
      * unfold zone_of, row1, assigned. cbn [fst snd]. destruct (ok_times _ Hok i row Hi) as ((ct & Hct) & _). rewrite Hct. rewrite scanned_row. split; cbn; try done.
        exists ids. rewrite <- Hseq1, <- Hseq5. done.
      * unfold zone_of, row1, assigned. cbn [fst snd]. destruct (ok_times _ Hok i row Hi) as ((ct & Hct) & (ut & Hut) & Hx). destruct (scanned_shape row ct ut Hct Hut Hx) as (d & _ & ->).
        by rewrite Hct, scanned_row.
    + intros [Hp Hc]. right. split; [done|]. by exists (list_to_set (select_record_ids i (tb s1))).
Qed.

(** What an update, finished or not, does to the caller's zone. *)
Definition submitted (z z' : Zone) : Prop :=
  z_Name z' = z_Name z /\ set_Serial 0 (z_SOA z) = set_Serial 0 (z_SOA z') /\ Forall2 same_record (z_Records z) (z_Records z') /\ z_DNSSEC z' = z_DNSSEC z.
Lemma same_records_refl rs : Forall2 same_record rs rs.
Proof. induction rs; constructor; [by split_and!|done]. Qed.
Lemma same_records_trans rs1 rs2 rs3 : Forall2 same_record rs1 rs2 -> Forall2 same_record rs2 rs3 -> Forall2 same_record rs1 rs3.
Proof. intros H1. revert rs3. induction H1 as [|r1 r2 rs1 rs2 Hr _ IH]; intros rs3 H2; inversion H2 as [|? r3 ? ? Hr' H2']; subst; constructor; [|auto]. unfold same_record in *. intuition congruence. Qed.
Lemma submitted_refl z : submitted z z.
Proof. split_and!; [done|done|apply same_records_refl|done]. Qed.
Lemma submitted_trans z1 z2 z3 : submitted z1 z2 -> submitted z2 z3 -> submitted z1 z3.
Proof. intros (? & ? & ? & ?) (? & ? & ? & ?). split_and!; [congruence|congruence|by eapply same_records_trans|congruence]. Qed.
Lemma validated z : exists z', fst (validateZoneForWrite (Some z)) = Some z' /\ submitted z z' /\ z_Version z' = z_Version z /\ z_SOA z' = z_SOA z /\ z_UpdatedAt z' = z_UpdatedAt z.
Proof.
  unfold validateZoneForWrite, NormalizeZoneDerivedFields, zone_derived_fields.
  assert (Hrs : forall rs i, Forall2 same_record rs (fst (normalize_records true i rs))).
  { induction rs as [|r rs IH]; intros i; cbn [normalize_records]; [constructor|]. destruct (normalizeRecordDerivedFields (Some r) true) as [r'|e] eqn:Er; cbn [wrap]; [|apply same_records_refl].
    assert (Hr : same_record r r').
    { pose proof (ZoneRules.normalize_records_rule true [r] 0 [r']) as Hn. cbn [normalize_records] in Hn. rewrite Er in Hn. cbn in Hn. destruct (Hn eq_refl) as [_ Hf].
      inversion Hf as [|? ? ? ? Hr _]; subst. rewrite <- Hr. by split_and!. }
    specialize (IH (S i)). destruct (normalize_records true (S i) rs) as [rs' res]. by constructor. }
  specialize (Hrs (z_Records z) 0%nat). destruct (normalize_records true 0 (z_Records z)) as [rs [[]|e]]; cbn in *; (eexists; split_and!; [done|split_and!; done|done|done|done]).
Qed.
Record carried (e : Inputs) (old : option Zone) (z z' : Zone) : Prop := {
  ca_content : submitted z z';
  ca_serial : Serial (z_SOA z') = Serial (z_SOA z) \/ exists o, old = Some o /\ Serial (z_SOA z') = updateSOASerial (in_date e) (Serial (z_SOA o)) (Serial (z_SOA z));
  ca_version : forall o, old = Some o -> z_Version z <> "" -> z_Version z <> z_Version o -> z_Version z' = z_Version z }.
Lemma carried_refl e old z : carried e old z z.
Proof. split; [apply submitted_refl|by left|done]. Qed.
(** The zone an update writes. *)
Record sql_updated (e : Inputs) (old z z' : Zone) : Prop := {
  su_content : submitted z z';
  su_valid : ValidateZone (Some z') = Ok tt;
  su_serial : Serial (z_SOA z') = updateSOASerial (in_date e) (Serial (z_SOA old)) (Serial (z_SOA z));
  su_version : z_Version z <> "" -> z_Version z <> z_Version old -> z_Version z' = z_Version z;
  su_versioned : z_Version z' <> "" }.
Definition refused (e : Inputs) (z : Zone) (err : error) : Prop :=
  exists z1, submitted z z1 /\ ((exists v u, fst (ensureZoneUpdateVersion e z1 v u) = Err err) \/ snd (validateZoneForWrite (Some z1)) = Err err).
Definition update_outcome (e : Inputs) (zone : Zone) (expected : string) (t : tables) (r : result unit) (zone' : Zone) (t' : tables) : Prop :=
  let n := z_Name zone in
  match r with
  | Ok _ => exists old w ids, view E t !! n = Some old /\ (expected = "" \/ expected = z_Version old) /\ sql_updated e old zone zone' /\ own_ids old ids
      /\ view E t' = <[n := w]> (view E t) /\ stored_as E (Some ids) (t_record_seq t) zone' w /\ z_CreatedAt w = z_CreatedAt old
  | Err err => (err = Sentinel ErrZoneNotFound /\ view E t !! n = None)
      \/ exists old, view E t !! n = Some old /\ ((err = Sentinel ErrConflict /\ expected <> "" /\ expected <> z_Version old) \/ refused e zone err
            \/ (plain err /\ exists ids, own_ids old ids /\ clash (Some ids) (z_Records zone')))
  end.
Lemma wp_query_cases {A} (read : tables -> A) s (Q : result A -> sql -> Prop) :
  (forall e s', quiet s s' -> explained E s s' e -> Q (Err e) s') -> (forall s', quiet s s' -> Q (Ok (read (tb s))) s') -> wpio (query E read) s Q.
Proof.
  intros He Hok. eapply wpio_mono; [exact (reads_query E (tb s) read s eq_refl)|]. intros r s' [Hq [->|(e & -> & Hx)]]; auto.
Qed.
Definition update_post (e : Inputs) (zone : Zone) (expected : string) (s : sql) (rb : result unit * Zone) (s' : sql) : Prop :=
  carried e (view E (tb s) !! z_Name zone) zone (snd rb) /\ later s s'
  /\ (((is_ok (fst rb) = true -> tables_ok (tb s')) /\ update_outcome e zone expected (tb s) (fst rb) (snd rb) (tb s')) \/ exists err, fst rb = Err err /\ explained E s s' err).
Lemma update_body_spec e zone expected s : tables_ok (tb s) -> wpio (update_body E D e zone expected) s (update_post e zone expected s).
Proof.
  intros Hok. unfold update_body. apply wpio_bind. apply wp_query_cases.
  { intros err s1 Hq [Hx Hp]. apply wpio_ret. split_and!; [apply carried_refl|by apply quiet_later|]. right. eexists. split; [done|]. by split. }
  intros s1 Hq1. pose proof (select_zone_spec E (tb s) (z_Name zone) Hok) as Hsel. destruct (select_zone (z_Name zone) (tb s)) as [[i row]|] eqn:Esel.
  2: { apply wpio_ret. destruct Hsel as [Hv _]. split_and!; [apply carried_refl|by apply quiet_later|]. left. split; [done|]. by left. }
  destruct Hsel as (Hi & Hn & Hv & _). set (old := zone_of E (tb s) (i, row)) in *. destruct (ok_times _ Hok i row Hi) as ((ct & Hct) & (ut & Hut) & Hx). rewrite Hct, Hut. cbn [parseSQLiteTimeField rbind].
  assert (Hold : z_Version old = zr_version row /\ z_SOA old = zr_soa row).
  { unfold old, zone_of. cbn [snd]. by destruct (scanned_shape row ct ut Hct Hut Hx) as (d & _ & ->). }
  destruct Hold as [Hver Hsoa]. rewrite <- Hsoa, <- Hver. destruct (sp_late E D (in_now e) ct ut zone) as (c & u & Hlate). rewrite Hlate.
  set (z1 := set_SOASerial _ _). assert (Hz1 : submitted zone z1 /\ z_Version z1 = z_Version zone /\ z_UpdatedAt z1 = z_UpdatedAt (stamp_late D (in_now e) ct ut zone)
    /\ Serial (z_SOA z1) = updateSOASerial (in_date e) (Serial (z_SOA old)) (Serial (z_SOA zone))) by (rewrite Hlate; split_and!; [split_and!; try done; apply same_records_refl|done..]).
  clearbody z1. destruct Hz1 as (Hsub1 & Hver1 & Hup1 & Hser1). apply wpio_bind. unfold wpio at 1, next_version. set (ev := ensureZoneUpdateVersion e z1 (z_Version old) (generator s1)).
  assert (Hev : match fst ev with Ok z2 => exists v, z2 = set_Version v z1 /\ v <> "" /\ (z_Version zone <> "" -> z_Version zone <> z_Version old -> v = z_Version zone) | Err err => True end).
  { unfold ev, ensureZoneUpdateVersion. destruct (negb _ && negb _) eqn:Eb; cbn [fst].
    - bool_prop. exists (z_Version z1). split_and!; [by destruct z1|done|by intros _ _; rewrite Hver1].
    - destruct (NewZoneVersion e (generator s1)) as [[v|err] u'] eqn:Ev; cbn [fst]; [|done]. apply NewZoneVersion_nonempty in Ev. exists v. split_and!; [done|done|]. intros H1 H2. exfalso.
      apply andb_false_iff in Eb as [Eb|Eb]; bool_prop; congruence. }
  assert (Hcar1 : carried e (Some old) zone z1) by (split; [done|right; by exists old|intros o [= <-] _ _; by rewrite Hver1]).
  assert (Hl2 : forall u', later s (mkSql (tb s1) (calls s1) u')) by (intros u'; exact (quiet_later _ _ Hq1)).
  destruct ev as [[z2|err] u'] eqn:Eev; cbn [fst snd] in *.
  2: { apply wpio_ret. unfold update_post. rewrite Hv. split_and!; [done|apply Hl2|]. left. split; [done|]. right. exists old. split; [done|]. right. left. exists z1. split; [done|]. left.
    exists (z_Version old), (generator s1). unfold ev in Eev. by rewrite Eev. }
  destruct Hev as (v & -> & Hvne & Hvk). set (s2 := mkSql (tb s1) (calls s1) u'). destruct (validated (set_Version v z1)) as (z3 & Hz3 & Hsub3 & Hver3 & Hsoa3 & Hup3).
  assert (Hcar3 : carried e (Some old) zone z3).
  { split; [eapply submitted_trans; [exact Hsub1|exact Hsub3]|right; exists old; by rewrite Hsoa3|]. intros o [= <-] H1 H2. rewrite Hver3. cbn. auto. }
  pose proof (validateZoneForWrite_cases (set_Version v z1)) as Hval. destruct (validateZoneForWrite (Some (set_Version v z1))) as [z3' [[]|err]] eqn:Evw; cbn [fst] in Hz3; subst z3'; cbn [default from_option]; unfold id.
  2: { apply wpio_ret. unfold update_post. cbn [fst snd]. rewrite Hv. split_and!; [done|apply Hl2|]. left. split; [done|]. right. exists old. split; [done|]. right. left. exists (set_Version v z1). split; [exact Hsub1|]. right.
    by rewrite Evw. }
  destruct Hval as (rs & _ & Hvalid & _). unfold with_zone. apply wpio_bind. assert (Ht2 : tb s2 = tb s) by apply Hq1.
  assert (Hn3 : z_Name z3 = z_Name zone) by apply Hcar3.
  pose proof (write_update_spec s2 z3 expected i row) as Hw. rewrite Ht2, Hn3 in Hw. specialize (Hw Hok Esel). unfold writes in Hw. eapply wpio_mono.
  { apply Hw. destruct (sp_changes E D) as [Hf|Hch]; [by left|right]. intros n. rewrite Hut, Hup3. cbn. rewrite Hup1. intros [= Heq]. by apply (Hch n (in_now e) ct ut zone). }
  intros r s3 [Hl3 Hr]. apply wpio_ret. assert (Hl : later s s3) by (destruct Hl3 as [Hc3 Hs3]; rewrite Ht2 in Hs3; split; [cbn in Hc3; destruct Hq1 as (_ & _ & ?); lia|done]).
  unfold update_post. cbn [fst snd]. rewrite Hv. split_and!; [done|done|]. destruct Hr as [Hr|(err & -> & Hxf & Hp)].
  - left. destruct r as [[]|err]; cbn [is_ok].
    + destruct Hr as (Hok3 & Hexp & w & ids & Hown & Hview & Hst & Hcr). split; [done|]. exists old, w, ids. rewrite Hver. split_and!; [done|done| |done..].
      split; [apply Hcar3|done|by rewrite Hsoa3|intros H1 H2; rewrite Hver3; cbn; auto|by rewrite Hver3].
    + split; [done|]. right. exists old. split; [done|]. rewrite Hver. destruct Hr as [Hr|[Hp (ids & Hown & Hc)]]; [by left|]. right. right. split; [done|]. by exists ids.
  - right. exists err. split; [done|]. split; [|done]. apply (faulted_mono E s s2 s3); [apply Hq1|done|done].
Qed.

Lemma transaction_carries {A B} s bf cf (b : B) (body : io sql (result A * B)) (P : B -> Prop) :
  P b -> (forall s1, quiet s s1 -> wpio body s1 (fun rb _ => P (snd rb))) -> wpio (transaction E bf cf b body) s (fun rb _ => P (snd rb)).
Proof.
  intros Hb Hbody. unfold wpio, transaction. pose proof (call_cases s) as Hc. destruct (roundtrip_call E s) as [[u|e] s1]; [|done]. specialize (Hbody s1 Hc). unfold wpio in Hbody.
  destruct (body s1) as [[[a|e] b'] s2]; cbn [fst snd] in *; [|done]. by destruct (roundtrip_call E s2) as [[u'|e] s3].
Qed.
Lemma touch_name e zone : z_Name (touch D e zone) = normalizeZoneName (z_Name zone) /\ submitted (set_Name (normalizeZoneName (z_Name zone)) zone) (touch D e zone)
  /\ z_Version (touch D e zone) = z_Version zone /\ z_SOA (touch D e zone) = z_SOA zone.
Proof. unfold touch. destruct (sp_early E D (in_now e) (set_Name (normalizeZoneName (z_Name zone)) zone)) as (c & u & ->). split_and!; try done. split_and!; try done. apply same_records_refl. Qed.
Lemma UpdateZone_spec e zone expected s : tables_ok (tb s) -> atomic s (UpdateZone E D e zone expected) (update_outcome e (touch D e zone) expected (tb s)).
Proof.
  intros Hok. set (z0 := touch D e zone).
  eapply atomic_mono; [apply (transaction_spec s _ _ z0 _ (fun r z' t' => (is_ok r = true -> tables_ok t') /\ update_outcome e z0 expected (tb s) r z' t')); [apply wrap_plain|apply id_plain|done| |]|].
  - intros a z' t [Ht _]. by apply Ht.
  - intros s1 (Ht & _ & _). unfold writes2. eapply wpio_mono; [apply update_body_spec; by rewrite Ht|]. intros rb s' (_ & Hl & Hr). split; [done|]. rewrite Ht in Hr. exact Hr.
  - intros [[]|err] z' t; [by intros [_ ?]|]. intros (t0 & _ & Ho). exact Ho.
Qed.
Lemma UpdateZone_carried e zone expected s : tables_ok (tb s) ->
  wpio (UpdateZone E D e zone expected) s (fun rb _ => carried e (view E (tb s) !! normalizeZoneName (z_Name zone)) (touch D e zone) (snd rb)).
Proof.
  intros Hok. apply transaction_carries; [apply carried_refl|]. intros s1 (Ht & _ & _). eapply wpio_mono; [apply update_body_spec; by rewrite Ht|].
  intros rb s' (Hc & _). rewrite (proj1 (touch_name e zone)), Ht in Hc. exact Hc.
Qed.

(** ** Deleting *)
Lemma delete_zones_spec s n : tables_ok (tb s) -> writes E s (delete_zones E n) (fun r t' => tables_ok t' /\
  if bool_decide (is_Some (view E (tb s) !! n)) then r = Ok 1 /\ view E t' = delete n (view E (tb s)) else r = Ok 0 /\ same_rows (tb s) t').
Proof.
  intros Hok. apply writes_statement; [unfold seq_le; cbn; lia|]. cbn [fst snd]. set (t' := mkTables _ _ _ _). pose proof (named_rows E (tb s) n Hok) as Hn.
  assert (Hz : forall i r, t_zones t' !! i = Some r <-> t_zones (tb s) !! i = Some r /\ zr_name r <> n).
  { intros i r. unfold t'. cbn. rewrite map_lookup_filter_Some. unfold named. cbn. by rewrite String.eqb_neq. }
  set (gone := List.filter (named n) (map_to_list (t_zones (tb s)))) in *.
  assert (Hr : forall i r, t_records t' !! i = Some r <-> t_records (tb s) !! i = Some r /\ rr_zone_id r ∉ gone.*1) by (intros i r; unfold t'; cbn; by rewrite map_lookup_filter_Some).
  assert (Hgone : forall k, k ∈ gone.*1 <-> exists r, t_zones (tb s) !! k = Some r /\ zr_name r = n).
  { intros k. rewrite list_elem_of_fmap. unfold gone. setoid_rewrite list_elem_of_In. setoid_rewrite filter_In. setoid_rewrite <- list_elem_of_In. split.
    - intros ([k' r] & -> & [Hk%elem_of_map_to_list Hnm]). exists r. split; [done|]. by apply String.eqb_eq.
    - intros (r & Hk & <-). exists (k, r). split; [done|]. split; [by apply elem_of_map_to_list|apply String.eqb_refl]. }
  assert (Hok' : tables_ok t').
  { destruct Hok as [H1 H2 H3 H4 H5 H6]. split; try done.
    - intros i j r r' [Hi _]%Hz [Hj _]%Hz. by eapply H1.
    - intros i [r [Hi _]%Hz]. apply H2. eauto.
    - intros i [r [Hi _]%Hr]. apply H3. eauto.
    - intros i r [Hi Hnin]%Hr. destruct (H5 i r Hi) as [z Hzz]. exists z. apply Hz. split; [done|]. intros Hnm. apply Hnin, Hgone. eauto.
    - intros i r [Hi _]%Hz. eauto. }
  split; [done|]. destruct (view E (tb s) !! n) as [z|] eqn:Ev.
  - rewrite bool_decide_true by done. destruct Hn as (i & r & Hi & Hnm & _ & ->). split; [done|]. apply view_delete; [done|done|done| |intros j r' [_ ?]%Hz; done]. split.
    + intros j r' Hne. rewrite Hz. tauto.
    + intros j r' Hne Hj. apply map_eq. intros k. apply option_eq. intros rec. rewrite !map_lookup_filter_Some, Hr. unfold of_zone. cbn. rewrite Z.eqb_eq. split; [|tauto].
      intros [Hk Hzk]. split_and!; [done| |done]. rewrite Hgone. intros (r0 & Hr0 & Hn0). rewrite Hzk in Hr0. congruence.
  - rewrite bool_decide_false by (by intros [? ?]). rewrite Hn. split; [done|]. split; apply map_eq; intros k; apply option_eq; intros r; rewrite ?Hz, ?Hr; [|rewrite Hn; cbn; split; [tauto|intros; split; [done|apply not_elem_of_nil]]].
    split; [tauto|]. intros Hk. split; [done|]. by apply (proj1 (view_none E _ _ Hok) Ev k r).
Qed.
(** Deletion and the metadata update are single statements: if reading the count
    fails after the statement, the change has been made. *)
Lemma statement_strong {A} s (run : nat -> tables -> result A * tables) Q : writes E s (statement E run) Q ->
  wpio (statement E run) s (fun r s' => (calls s <= calls s')%nat /\ (Q r (tb s') \/ exists e, r = Err e /\ explained E s s' e /\ tb s' = tb s)).
Proof.
  unfold writes, wpio, statement. destruct (fault E (calls s)) as [text|] eqn:Ef; [cbn; intros [_ [HQ|(e & He & Hx)]]; (split; [lia|]); [by left|right; by exists e]|].
  destruct (run (calls s) (tb s)) as [r t]. cbn. intros [_ [HQ|(e & _ & (n & text & Hn & Hfn) & _)]]; [split; [lia|by left]|]. cbn in Hn. assert (n = calls s) as -> by lia. congruence.
Qed.
Definition single (s : sql) (m : io sql (result unit)) (Q : result unit -> tables -> Prop) : Prop :=
  wpio m s (fun r s' => (calls s <= calls s')%nat /\ tables_ok (tb s') /\ (Q r (tb s') \/ exists e, r = Err e /\ explained E s s' e /\ (view E (tb s') = view E (tb s) \/ Q (Ok tt) (tb s')))).
(** A counted statement followed by a decision on the count. *)
Lemma single_spec {run : nat -> tables -> result Z * tables} s p text_ (k : Z -> io sql (result unit)) (P : result Z -> tables -> Prop) (Q : result unit -> tables -> Prop) :
  tables_ok (tb s) -> writes E s (statement E run) P -> (forall r t, P r t -> tables_ok t /\ (view E t = view E (tb s) \/ Q (Ok tt) t) /\ exists n, r = Ok n) ->
  (forall n s1, P (Ok n) (tb s1) -> reads E (tb s1) (k n) (fun r => Q r (tb s1))) ->
  single s (io_try (count_rows E D p (io_wrap text_ (statement E run))) k) Q.
Proof.
  intros Hok Hst HP Hk. unfold single, count_rows. apply wpio_try, wpio_try, wpio_wrap. eapply wpio_mono; [exact (statement_strong s run P Hst)|]. intros r s1 [Hc1 Hr].
  destruct Hr as [Hp|(e & -> & [Hx Hpl] & Ht)].
  - destruct (HP r (tb s1) Hp) as (Hok1 & Hdone & n & ->). cbn [wrap]. apply wpio_try, wpio_wrap. apply wp_query_cases.
    + intros e s2 (Ht2 & _ & Hc2) [Hx Hpl]. cbn [wrap]. rewrite Ht2. split_and!; [lia|done|]. right. eexists. split; [done|]. split; [|done]. split; [|by apply wrap_plain].
      apply (faulted_mono E s s1 s2); [done|done|done].
    + intros s2 (Ht2 & _ & Hc2). cbn [wrap]. apply wpio_ret. eapply wpio_mono; [apply (Hk n s2); [by rewrite Ht2|done]|]. intros r s3 [(Ht3 & _ & Hc3) Hr3]. rewrite Ht3, Ht2.
      split_and!; [lia|done|]. rewrite Ht2 in Hr3. destruct Hr3 as [Hr3|(e & -> & Hx & Hpl)]; [by left|]. right. exists e. split; [done|]. split; [|done]. split; [|done]. apply (faulted_mono E s s2 s3); [lia|done|done].
  - cbn [wrap]. rewrite Ht. split_and!; [done|done|]. right. eexists. split; [done|]. split; [|by left]. split; [done|by apply wrap_plain].
Qed.
Definition delete_outcome (n : string) (t : tables) (r : result unit) (t' : tables) : Prop :=
  match r with
  | Ok _ => is_Some (view E t !! n) /\ view E t' = delete n (view E t)
  | Err err => view E t' = view E t /\ err = Sentinel ErrZoneNotFound /\ view E t !! n = None
  end.
Lemma DeleteZone_spec p name s : tables_ok (tb s) -> single s (DeleteZone E D p name) (delete_outcome (normalizeZoneName name) (tb s)).
Proof.
  intros Hok. set (n := normalizeZoneName name). eapply single_spec; [done|by apply (delete_zones_spec s n)| |].
  - intros r t [Hokt Hr]. split; [done|]. case_bool_decide as Hs; destruct Hr as [-> Hr]; (split; [|by eexists]); [right; by split|left; by apply same_rows_view].
  - intros k s1 [Hok1 Hr]. case_bool_decide as Hs; destruct Hr as [[= ->] Hr]; cbn; apply reads_ret; [by split|]. split_and!; [by apply same_rows_view|done|by apply eq_None_not_Some].
Qed.
Definition metadata_outcome (n : string) (config : option DNSSECConfig) (t : tables) (r : result unit) (t' : tables) : Prop :=
  match r with
  | Ok _ => exists z u, view E t !! n = Some z /\ view E t' = <[n := set_Times (z_CreatedAt z) u (set_DNSSEC (stored_dnssec E config) z)]> (view E t)
  | Err err => view E t' = view E t /\ err = Sentinel ErrZoneNotFound /\ view E t !! n = None
  end.
Lemma UpdateDNSSECMetadata_spec now name config s : tables_ok (tb s) -> single s (UpdateDNSSECMetadata E D now name config) (metadata_outcome (normalizeZoneName name) config (tb s)).
Proof.
  intros Hok. unfold UpdateDNSSECMetadata. set (n := normalizeZoneName name).
  change (fun row : zone_row => mkZoneRow _ _ _ _ _ _) with (assignment zr_version zr_soa config (metadata_time D now)).
  pose proof (select_zone_spec E (tb s) n Hok) as Hsel.
  assert (Hdone : forall t', tables_ok t' -> others_same n (tb s) t' -> t_records t' = t_records (tb s) -> forall i row c, t_zones (tb s) !! i = Some row -> zr_name row = n ->
    t_zones t' !! i = Some (assigned E zr_version zr_soa config (metadata_time D now) c row) -> metadata_outcome n config (tb s) (Ok tt) t').
  { intros t' Hok' Ho Hr i row c Hi Hn Hi'. destruct (ok_times _ Hok i row Hi) as ((ct & Hct) & (ut & Hut) & Hx). destruct (scanned_shape row ct ut Hct Hut Hx) as (d & _ & Hsc).
    exists (zone_of E (tb s) (i, row)), (touched E c (column_time E (metadata_time D now))). split; [apply view_lookup; eauto|].
    rewrite (view_write E n (tb s) t' i _ Hok Hok' Ho Hi') by done. f_equal. unfold zone_of, assigned, records_of. cbn [fst snd]. by rewrite Hr, Hct, scanned_row, Hsc. }
  pose proof (update_spec E s n (fun row => (zr_name row =? n)%string) zr_version zr_soa config (metadata_time D now) Hok (fun r => proj1 (String.eqb_eq _ _))) as Hup.
  unfold update_zones in *. eapply (single_spec _ _ _ _ _ _ Hok Hup).
  - intros r t (k & -> & Hok' & Ho & Hr & _ & Hk). split; [done|]. split; [|by eexists]. destruct (select_zone n (tb s)) as [[i row]|]; [|left; by destruct Hk as [_ ->]].
    destruct Hsel as (Hi & Hn & _). rewrite Hn, String.eqb_refl in Hk. destruct Hk as (c & Hz & _). right. by eapply Hdone.
  - intros k s1 (k' & [= <-] & Hok' & Ho & Hr & _ & Hk). destruct (select_zone n (tb s)) as [[i row]|].
    + destruct Hsel as (Hi & Hn & _). rewrite Hn, String.eqb_refl in Hk. destruct Hk as (c & Hz & _). assert (Hd : metadata_outcome n config (tb s) (Ok tt) (tb s1)) by (by eapply Hdone).
      destruct (k =? 0); [|by apply reads_ret]. apply reads_step. rewrite zone_exists_spec with (E := E) by done. rewrite bool_decide_true; [by apply reads_ret|].
      eexists. apply view_lookup; [done|]. exists i. eexists. split_and!; [exact Hz|done|done].
    + destruct Hk as [-> Ht], Hsel as [Hv _]. cbn. apply reads_step. rewrite Ht, zone_exists_spec with (E := E), Hv by done. cbn. by apply reads_ret.
Qed.
Definition versioned_outcome (n expected : string) (t : tables) (r : result unit) (t' : tables) : Prop :=
  match r with
  | Ok _ => exists z, view E t !! n = Some z /\ (expected = "" \/ expected = z_Version z) /\ view E t' = delete n (view E t)
  | Err err => (err = Sentinel ErrZoneNotFound /\ view E t !! n = None) \/ (err = Sentinel ErrConflict /\ exists z, view E t !! n = Some z /\ expected <> "" /\ expected <> z_Version z)
  end.
Lemma DeleteZoneWithVersion_spec name expected s : tables_ok (tb s) ->
  atomic s (r <- DeleteZoneWithVersion E D name expected ; io_ret (r, tt)) (fun r _ t' => versioned_outcome (normalizeZoneName name) expected (tb s) r t').
Proof.
  intros Hok. set (n := normalizeZoneName name).
  eapply atomic_mono; [apply (in_transaction_spec s _ _ _ (fun r t' => (is_ok r = true -> tables_ok t') /\ versioned_outcome n expected (tb s) r t')); [apply wrap_plain|apply wrap_plain|done|intros a t [Ht _]; by apply Ht|]|].
  2: { intros [[]|err] _ t; [by intros [_ ?]|]. intros (t0 & _ & Ho). exact Ho. }
  intros s1 (Ht & _ & _). unfold deleteZoneWithVersionTx. apply writes_query. intros s2 _ Ht2. rewrite Ht. fold n. pose proof (select_zone_spec E (tb s) n Hok) as Hsel.
  destruct (select_zone n (tb s)) as [[i row]|]; [|apply writes_ret; split; [done|]; left; split; [done|apply Hsel]].
  destruct Hsel as (Hi & Hn & Hv & _). destruct (zone_name E (tb s) (i, row) Hok Hi) as [_ Hver]. cbn [snd] in Hver. rewrite <- Hver. destruct (negb _ && negb _) eqn:Eb.
  { bool_prop. apply writes_ret. split; [done|]. right. split; [done|]. exists (zone_of E (tb s) (i, row)). split_and!; [done|done|congruence]. }
  eapply count_spec.
  - apply (writes_wrapped E s2 _ _ (fun r t' => r = Ok 1 /\ tables_ok t' /\ view E t' = delete n (view E (tb s)))); [by intros e t ([=] & _)|].
    eapply writes_mono; [apply delete_zones_spec; by rewrite Ht2, Ht|]. rewrite Ht2, Ht, Hv. intros r t [Hokt Hr]. rewrite bool_decide_true in Hr by done. by destruct Hr.
  - by intros e t ([=] & _).
  - intros k s3 _ ([= ->] & Hok3 & Hview). apply writes_ret. split; [done|]. exists (zone_of E (tb s) (i, row)). split_and!; [done| |done].
    apply andb_false_iff in Eb as [Eb|Eb]; bool_prop; auto.
Qed.
End props.
