(* ===== verification/SqlStores.v ===== *)
(** * The SQL backends refine a map of zones

    The requests of the store interface served by SQLite, PostgreSQL and MySQL,
    and the answers an abstract map of zones allows.  A stored zone is the
    written one with its records in the order of names, numbered by the database;
    records of an update that carry a number of the stored zone keep it. *)

From S2P Require Import Prelude Io GoStrings GoStringsFacts GoSort Zone Names Validation ZoneRules Serial Sha256 Ulid Store MemoryStore SqlBackend SqlReads SqlWrites SqlProps.
#[local] Open Scope io_scope.

Inductive sql_request :=
  | QHealth | QGet (name : string) | QList (opts : ListOptions) | QSummaries (opts : ListOptions) | QCount
  | QCreate (e : Inputs) (zone : option Zone) | QUpdate (env : nat -> Inputs) (zone : Zone) (expectedVersion : string)
  | QMetadata (now : nat -> Time) (name : string) (config : option DNSSECConfig) | QDelete (name : string) | QDeleteVersion (name expectedVersion : string).
Inductive sql_response :=
  | AZone (r : result Zone) | AZones (r : result (list Zone)) | ASummaries (r : result (list ZoneSummary)) | ACount (r : result Z)
  | ACreated (r : result unit) (zone : option Zone) | AUpdated (r : result unit) (zone : Zone) | ADone (r : result unit).
Inductive sql_backend := SQLite | PostgreSQL | MySQL.
Definition dialect (b : sql_backend) : Dialect := match b with SQLite => Sqlite.sqlite | PostgreSQL => Postgres.postgres | MySQL => Mysql.mysql end.

Section stores.
Context `{UnicodeTables}.

Definition answer {A} (f : A -> sql_response) (m : io sql A) : io sql sql_response := r <- m ; io_ret (f r).
(** [done]: see [Mysql.attempts]. *)
Definition backend (b : sql_backend) (E : Engine) (done : nat -> bool) : Backend :=
  match b with SQLite => Sqlite.sqlite_backend E | PostgreSQL => Postgres.postgres_backend E | MySQL => Mysql.mysql_backend E done end.
Definition serve (b : sql_backend) (E : Engine) (done : nat -> bool) (q : sql_request) : io sql sql_response :=
  let B := backend b E done in
  match q with
  | QHealth => answer ADone (backend_HealthCheck B)
  | QGet name => answer AZone (backend_GetZone B name)
  | QList opts => answer AZones (backend_ListZones B opts)
  | QSummaries opts => answer ASummaries (backend_ListZoneSummaries B opts)
  | QCount => answer ACount (backend_CountZones B)
  | QCreate e zone => answer (fun r => ACreated (fst r) (snd r)) (backend_CreateZone B e zone)
  | QUpdate env zone expected => answer (fun r => AUpdated (fst r) (snd r)) (backend_UpdateZone B env zone expected)
  | QMetadata now name config => answer ADone (backend_UpdateDNSSECMetadata B now name config)
  | QDelete name => answer ADone (backend_DeleteZone B name)
  | QDeleteVersion name expected => answer ADone (backend_DeleteZoneWithVersion B name expected)
  end.
Fixpoint serve_all (b : sql_backend) (E : Engine) (done : nat -> bool) (qs : list sql_request) : io sql (list sql_response) :=
  match qs with
  | [] => io_ret []
  | q :: qs => a <- serve b E done q ; rest <- serve_all b E done qs ; io_ret (a :: rest)
  end.

(** ** The abstract map of zones *)
Section spec.
Context (E : Engine) (broken : Prop).
(** The number a record gets: its own if it may keep it, else one no stored record has. *)
Definition fresh_id (v : gmap string Zone) (allowed : option (gset Z)) (rec : ZRecord) (id : Z) : Prop :=
  match explicit_id allowed rec with Some j => id = j | None => forall n z, v !! n = Some z -> formatSQLRecordID id ∉ map rec_ID (z_Records z) end.
Record keeps (v : gmap string Zone) (allowed : option (gset Z)) (z w : Zone) : Prop := {
  k_name : z_Name w = z_Name z;
  k_version : z_Version w = z_Version z;
  k_soa : z_SOA w = z_SOA z;
  k_dnssec : z_DNSSEC w = stored_dnssec E (z_DNSSEC z);
  k_records : exists ids, NoDup ids /\ Forall2 (fresh_id v allowed) (z_Records z) ids /\ z_Records w ≡ₚ zip_with renumber (z_Records z) ids }.
(** The zone an update writes, with the date of one of its attempts. *)
Definition updated_to (env : nat -> Inputs) (old z z' : Zone) : Prop :=
  sql_content z z' /\ ValidateZone (Some z') = Ok tt /\ (exists i, Serial (z_SOA z') = updateSOASerial (in_date (env i)) (Serial (z_SOA old)) (Serial (z_SOA z)))
  /\ (z_Version z <> "" -> z_Version z <> z_Version old -> z_Version z' = z_Version z) /\ z_Version z' <> "".
(** The database cannot be blamed for these errors. *)
Definition create_error (e : Inputs) (zone : option Zone) (v : gmap string Zone) (err : error) : Prop :=
  (err = Sentinel ErrZoneAlreadyExists /\ exists z, zone = Some z /\ is_Some (v !! normalizeZoneName (z_Name z)))
  \/ (exists u, fst (prepareZoneForCreate e zone normalizeZoneName u) = Err err)
  \/ (plain err /\ exists z z', zone = Some z /\ sql_created e z z' /\ clash None (z_Records z')).
Definition update_error (env : nat -> Inputs) (zone : Zone) (expected : string) (v : gmap string Zone) (err : error) : Prop :=
  let n := normalizeZoneName (z_Name zone) in
  (err = Sentinel ErrZoneNotFound /\ v !! n = None)
  \/ exists old, v !! n = Some old /\ ((err = Sentinel ErrConflict /\ expected <> "" /\ expected <> z_Version old)
       \/ (exists i, refused (env i) (set_Name n zone) err)
       \/ (plain err /\ exists ids z', own_ids old ids /\ submitted (set_Name n zone) z' /\ clash (Some ids) (z_Records z'))).
Definition read_as {A} (exact r : result A) : Prop := r = exact \/ (broken /\ exists e, r = Err e /\ plain e).
(** An error that [known] allows, or one of a failing database; the retries of
    MySQL replace an error that reads like a deadlock. *)
Definition failure (known : error -> Prop) (err : error) : Prop :=
  known err \/ (broken /\ plain err) \/ ((plain err \/ err = Sentinel ErrContextDone) /\ (broken \/ exists err0, known err0 /\ Mysql.isMySQLDeadlock err0 = true)).
Definition allows_answer (q : sql_request) (v : gmap string Zone) (a : sql_response) (v' : gmap string Zone) : Prop :=
  match q, a with
  | QHealth, ADone r => v' = v /\ read_as (Ok tt) r
  | QGet name, AZone r => v' = v /\ read_as (match v !! normalizeZoneName name with Some z => Ok z | None => Err (Sentinel ErrZoneNotFound) end) r
  | QList opts, AZones r => v' = v /\ exists l, l ≡ₚ (map_to_list v).*2 /\ read_as (Ok (page opts l)) r
  | QSummaries opts, ASummaries r => v' = v /\ exists l, l ≡ₚ (map_to_list v).*2 /\ read_as (Ok (page opts (map summary_of l))) r
  | QCount, ACount r => v' = v /\ read_as (Ok (Z.of_nat (size v))) r
  | QCreate e zone, ACreated r zone' =>
    match r with
    | Ok _ => exists z z' w, zone = Some z /\ zone' = Some z' /\ sql_created e z z' /\ v !! z_Name z' = None /\ v' = <[z_Name z' := w]> v /\ keeps v None z' w
    | Err err => v' = v /\ zone' = zone /\ failure (create_error e zone v) err
    end
  | QUpdate env zone expected, AUpdated r zone' =>
    let n := normalizeZoneName (z_Name zone) in
    match r with
    | Ok _ => exists old w ids, v !! n = Some old /\ (expected = "" \/ expected = z_Version old) /\ updated_to env old zone zone' /\ own_ids old ids
        /\ v' = <[n := w]> v /\ keeps v (Some ids) zone' w /\ z_CreatedAt w = z_CreatedAt old
    | Err err => v' = v /\ failure (update_error env zone expected v) err
    end
  | QMetadata _ name config, ADone r =>
    let n := normalizeZoneName name in
    let done v' := exists z u, v !! n = Some z /\ v' = <[n := set_Times (z_CreatedAt z) u (set_DNSSEC (stored_dnssec E config) z)]> v in
    match r with
    | Ok _ => done v'
    | Err err => (v' = v \/ (broken /\ done v')) /\ failure (fun err => err = Sentinel ErrZoneNotFound /\ v !! n = None) err
    end
  | QDelete name, ADone r =>
    let n := normalizeZoneName name in
    match r with
    | Ok _ => is_Some (v !! n) /\ v' = delete n v
    | Err err => (v' = v \/ (broken /\ v' = delete n v)) /\ failure (fun err => err = Sentinel ErrZoneNotFound /\ v !! n = None) err
    end
  | QDeleteVersion name expected, ADone r =>
    let n := normalizeZoneName name in
    match r with
    | Ok _ => exists z, v !! n = Some z /\ (expected = "" \/ expected = z_Version z) /\ v' = delete n v
    | Err err => v' = v /\ failure (fun err => (err = Sentinel ErrZoneNotFound /\ v !! n = None)
          \/ (err = Sentinel ErrConflict /\ exists z, v !! n = Some z /\ expected <> "" /\ expected <> z_Version z)) err
    end
  | _, _ => False
  end.
Inductive history : list sql_request -> gmap string Zone -> list sql_response -> gmap string Zone -> Prop :=
  | history_nil v : history [] v [] v
  | history_cons q qs v a v1 answers v' : allows_answer q v a v1 -> history qs v1 answers v' -> history (q :: qs) v (a :: answers) v'.
End spec.

(** ** Serving *)
Section serving.
Context (E : Engine) `{!Collates E}.
Definition broken : Prop := exists n text, fault E n = Some text.
Lemma explained_broken s s' e : explained E s s' e -> broken /\ plain e.
Proof. intros [(n & text & _ & Hf) Hp]. split; [by exists n, text|done]. Qed.
Lemma failure_known known e : known e -> failure broken known e.
Proof. by left. Qed.
Lemma failure_broken known e s s' : explained E s s' e -> failure broken known e.
Proof. intros Hx%explained_broken. by right; left. Qed.
Lemma failure_mono (known known' : error -> Prop) e : (forall x, known x -> known' x) -> failure broken known e -> failure broken known' e.
Proof. intros Hk [Hr|[Hr|[Hr [Hb|(x & Hx & Hd)]]]]; [left; auto|by right; left|right; right; split; [done|by left]|right; right; split; [done|right; exists x; auto]]. Qed.
Lemma stored_keeps t allowed z w : tables_ok t -> stored_as E allowed (t_record_seq t) z w -> keeps E (view E t) allowed z w.
Proof.
  intros Hok [H1 H2 H3 H4 (ids & Hnd & Hnum & Hrec)]. split; try done. exists ids. split_and!; [done| |done]. eapply Forall2_impl; [exact Hnum|]. intros rec id. unfold numbered, fresh_id.
  destruct (explicit_id allowed rec); [done|]. intros Hid n z0 Hz Hin. apply view_lookup in Hz as (i & r & Hi & _ & ->); [|done]. apply (zone_ids_spec E t i r) in Hin.
  unfold zone_ids, select_record_ids in Hin. apply elem_of_list_to_set, list_elem_of_fmap in Hin as ([k rec'] & -> & Hk). rewrite list_elem_of_In, filter_In, <- list_elem_of_In in Hk.
  destruct Hk as [Hk%elem_of_map_to_list _]. cbn in *. pose proof (ok_record_seq _ Hok k ltac:(eauto)). lia.
Qed.

(** ** Retries *)
Section retry.
Context {B : Type} (done : nat -> bool) (fn : nat -> B -> io sql (result unit * B)).
Context (I : gmap string Zone -> Prop) (J : B -> Prop) (Good : B -> gmap string Zone -> Prop) (known : error -> Prop).
Definition attempt_post (rb : result unit * B) (s' : sql) : Prop :=
  tables_ok (tb s') /\ match fst rb with Ok _ => Good (snd rb) (view E (tb s')) | Err e => I (view E (tb s')) /\ J (snd rb) /\ (known e \/ (broken /\ plain e)) end.
Definition retry_post (rb : result unit * B) (s' : sql) : Prop :=
  tables_ok (tb s') /\ match fst rb with Ok _ => Good (snd rb) (view E (tb s')) | Err e => I (view E (tb s')) /\ failure broken known e end.
Lemma attempts_spec : (forall i b s, tables_ok (tb s) -> I (view E (tb s)) -> J b -> wpio (fn i b) s attempt_post) ->
  forall remaining i b s, tables_ok (tb s) -> I (view E (tb s)) -> J b -> (remaining = O -> broken \/ exists err0, known err0 /\ Mysql.isMySQLDeadlock err0 = true) ->
  wpio (Mysql.attempts done fn remaining i b) s retry_post.
Proof.
  intros Hfn. induction remaining as [|remaining IH]; intros i b s Hok Hi Hj Hend; cbn [Mysql.attempts].
  { apply wpio_ret. split; [done|]. split; [done|]. right. right. split; [by left|auto]. }
  apply wpio_bind. eapply wpio_mono; [by apply Hfn|]. intros [[[]|e] b'] s' [Hok' Hr]; cbn [fst snd] in Hr; [by apply wpio_ret|]. destruct Hr as (Hi' & Hj' & Hk).
  destruct (Mysql.isMySQLDeadlock e) eqn:Ed; cbn [negb].
  - assert (Hcause : broken \/ exists err0, known err0 /\ Mysql.isMySQLDeadlock err0 = true) by (destruct Hk as [Hk|[Hb _]]; [right; by exists e|by left]).
    destruct ((0 <? remaining)%nat && done i); [|by apply IH]. apply wpio_ret. split; [done|]. split; [done|]. right. right. split; [by right|done].
  - apply wpio_ret. split; [done|]. split; [done|]. destruct Hk as [Hk|[Hb Hp]]; [by left|right; by left].
Qed.
End retry.
Lemma retried_spec done m I Good known s : tables_ok (tb s) -> I (view E (tb s)) ->
  (forall i s1, tables_ok (tb s1) -> I (view E (tb s1)) -> wpio (m i) s1 (fun r s' => attempt_post I (fun _ : unit => True) (fun _ v => Good v) known (r, tt) s')) ->
  wpio (Mysql.retried done m) s (fun r s' => retry_post I (fun (_ : unit) v => Good v) known (r, tt) s').
Proof.
  intros Hok Hi Hm. unfold Mysql.retried. apply wpio_bind. eapply wpio_mono; [eapply (attempts_spec done _ I (fun _ => True) (fun _ v => Good v) known); try done|].
  - intros i b s1 Hok1 Hi1 _. apply wpio_bind. eapply wpio_mono; [by apply Hm|]. intros r s' Hr. by apply wpio_ret.
  - intros [r b] s' Hr. by apply wpio_ret.
Qed.

(** ** Each request *)
Definition answers {A} (s : sql) (m : io sql A) (f : A -> sql_response) (q : sql_request) : Prop :=
  wpio m s (fun a s' => tables_ok (tb s') /\ allows_answer E broken q (view E (tb s)) (f a) (view E (tb s'))).
Lemma read_answers {A} s (m : io sql (result A)) (exact : result A) : tables_ok (tb s) -> reads E (tb s) m (fun r => r = exact) ->
  wpio m s (fun r s' => tables_ok (tb s') /\ view E (tb s') = view E (tb s) /\ read_as broken exact r).
Proof.
  intros Hok Hm. eapply wpio_mono; [by apply Hm|]. intros r s' [(Ht & _ & _) Hr]. rewrite Ht. split_and!; [done|done|].
  destruct Hr as [->|(e & -> & [Hb Hp]%explained_broken)]; [by left|right]. split; [done|]. by exists e.
Qed.

Section operations.
Context (D : Dialect) `{!Speaks E D}.
Definition create_known (z : Zone) (v : gmap string Zone) (err : error) : Prop :=
  (err = Sentinel ErrZoneAlreadyExists /\ is_Some (v !! z_Name z)) \/ (plain err /\ clash None (z_Records z)).
Definition create_good (z : Zone) (v v' : gmap string Zone) : Prop := v !! z_Name z = None /\ exists w, v' = <[z_Name z := w]> v /\ keeps E v None z w.
Lemma createZone_attempt z v s : tables_ok (tb s) -> view E (tb s) = v ->
  wpio (createZone E D z) s (fun r s' => attempt_post (fun v' => v' = v) (fun _ : unit => True) (fun _ v' => create_good z v v') (create_known z v) (r, tt) s').
Proof.
  intros Hok <-. pose proof (createZone_spec E D z s Hok) as Hc. unfold atomic in Hc. unfold wpio, io_bind in *. destruct (createZone E D z s) as [r s']. cbn in *.
  destruct Hc as (_ & Hok' & Hrows & Hr). split; [done|]. destruct r as [[]|err]; cbn in *.
  - destruct Hr as [(Hv & w & Hw & Hst & _)|(e & [=] & _)]. split; [done|]. exists w. split; [done|]. by apply stored_keeps.
  - split; [apply same_rows_view; auto|]. split; [done|]. destruct Hr as [Hr|(e & [= <-] & Hx%explained_broken)]; [by left|by right].
Qed.
Lemma creating_answers e zone s write : tables_ok (tb s) ->
  (forall z s1, tb s1 = tb s -> wpio (write z) s1 (fun r s' => retry_post (fun v' => v' = view E (tb s)) (fun (_ : unit) v' => create_good z (view E (tb s)) v') (create_known z (view E (tb s))) (r, tt) s')) ->
  answers s (creating D e zone write) (fun r => ACreated (fst r) (snd r)) (QCreate e zone).
Proof.
  intros Hok Hw. unfold answers, creating. apply wpio_bind. unfold wpio at 1. pose proof (prepare_cases E D e zone s) as Hp. destruct (prepare D e zone s) as [[[z'|]|err] s1]; cbn [fst snd].
  - destruct Hp as (_ & Ht & _ & z & -> & Hcr). apply wpio_bind. eapply wpio_mono; [by apply Hw|]. intros r s2 [Hok2 Hr]. apply wpio_ret. split; [done|]. destruct r as [[]|err]; cbn [fst snd allows_answer copyZoneInto] in *.
    + rewrite copyZone_id. destruct Hr as (Hv & w & Hview & Hk). exists z, z', w. done.
    + destruct Hr as [Hview Hf]. split_and!; [done|done|]. eapply failure_mono; [|exact Hf]. intros x [[-> Hs]|[Hp Hc]]; [left; split; [done|]; exists z; split; [done|]|right; right; split; [done|]; by exists z, z'].
      destruct Hcr as [(Hn & _) _ _ _ _]. by rewrite <- Hn.
  - done.
  - destruct Hp as (Ht & _ & He). apply wpio_ret. rewrite Ht. split; [done|]. cbn. split_and!; [done|done|]. apply failure_known. right. left. by exists (generator s).
Qed.
Lemma CreateZone_answers e zone s : tables_ok (tb s) -> answers s (CreateZone E D e zone) (fun r => ACreated (fst r) (snd r)) (QCreate e zone).
Proof.
  intros Hok. apply creating_answers; [done|]. intros z s1 Ht. eapply wpio_mono; [apply (createZone_attempt z (view E (tb s))); by rewrite Ht|].
  intros r s' [Hok' Hr]. split; [done|]. destruct r as [u|err]; cbn in *; [done|]. destruct Hr as (Hv & _ & Hk). split; [done|]. destruct Hk as [Hk|Hk]; [by left|right; by left].
Qed.

(** The caller's zone between the attempts of an update. *)
Record resubmitted (env : nat -> Inputs) (old : option Zone) (z zi : Zone) : Prop := {
  rs_name : normalizeZoneName (z_Name zi) = normalizeZoneName (z_Name z);
  rs_content : submitted (set_Name (normalizeZoneName (z_Name z)) z) (set_Name (normalizeZoneName (z_Name z)) zi);
  rs_serial : Serial (z_SOA zi) = Serial (z_SOA z) \/ exists o i, old = Some o /\ Serial (z_SOA zi) = updateSOASerial (in_date (env i)) (Serial (z_SOA o)) (Serial (z_SOA z));
  rs_version : forall o, old = Some o -> z_Version z <> "" -> z_Version z <> z_Version o -> z_Version zi = z_Version z }.
Lemma resubmitted_refl env old z : resubmitted env old z z.
Proof. split; [done|apply submitted_refl|by left|done]. Qed.
Lemma serial_again d d' cur r : updateSOASerial d' cur (updateSOASerial d cur r) = updateSOASerial d cur r \/ updateSOASerial d' cur (updateSOASerial d cur r) = updateSOASerial d' cur r.
Proof.
  unfold updateSOASerial at 1 4. destruct (Z.ltb_spec cur (updateSOASerial d cur r)) as [Hl|Hl]; [by left|right]. unfold updateSOASerial in Hl |- *.
  destruct (Z.ltb_spec cur r); [lia|done].
Qed.
Lemma carried_serial env old z zi i z' o : old = Some o -> resubmitted env old z zi -> Serial (z_SOA z') = updateSOASerial (in_date (env i)) (Serial (z_SOA o)) (Serial (z_SOA zi)) ->
  exists j, Serial (z_SOA z') = updateSOASerial (in_date (env j)) (Serial (z_SOA o)) (Serial (z_SOA z)).
Proof.
  intros -> [_ _ Hs _] ->. destruct Hs as [->|(o' & j & [= <-] & ->)]; [by exists i|]. destruct (serial_again (in_date (env j)) (in_date (env i)) (Serial (z_SOA o)) (Serial (z_SOA z))) as [->| ->]; eauto.
Qed.
Definition update_good (env : nat -> Inputs) (zone : Zone) (expected : string) (v : gmap string Zone) (zone' : Zone) (v' : gmap string Zone) : Prop :=
  let n := normalizeZoneName (z_Name zone) in
  exists old w ids, v !! n = Some old /\ (expected = "" \/ expected = z_Version old) /\ updated_to env old zone zone' /\ own_ids old ids
    /\ v' = <[n := w]> v /\ keeps E v (Some ids) zone' w /\ z_CreatedAt w = z_CreatedAt old.
Lemma touched_submitted e z zi : submitted (set_Name (normalizeZoneName (z_Name z)) z) (set_Name (normalizeZoneName (z_Name z)) zi) -> normalizeZoneName (z_Name zi) = normalizeZoneName (z_Name z) ->
  submitted (set_Name (normalizeZoneName (z_Name z)) z) (touch D e zi).
Proof. intros Hs Hn. eapply submitted_trans; [exact Hs|]. rewrite <- Hn. apply (touch_name E D). Qed.
Lemma UpdateZone_attempt env zone expected v i zi s : tables_ok (tb s) -> view E (tb s) = v ->
  normalizeZoneName (normalizeZoneName (z_Name zone)) = normalizeZoneName (z_Name zone) -> resubmitted env (v !! normalizeZoneName (z_Name zone)) zone zi ->
  wpio (UpdateZone E D (env i) zi expected) s (attempt_post (fun v' => v' = v) (resubmitted env (v !! normalizeZoneName (z_Name zone)) zone) (update_good env zone expected v) (update_error env zone expected v)).
Proof.
  intros Hok <- Hnorm Hre. pose proof (UpdateZone_spec E D (env i) zi expected s Hok) as Hu. pose proof (UpdateZone_carried E D (env i) zi expected s Hok) as Hc.
  unfold atomic, wpio in *. destruct (UpdateZone E D (env i) zi expected s) as [[r z'] s']. cbn [fst snd] in *. destruct Hu as (_ & Hok' & Hrows & Hr). split; [done|].
  destruct Hre as [Hn Hcon Hser Hver]. rewrite Hn in Hc. destruct (touch_name E D (env i) zi) as (Htn & _ & Htv & Hts). rewrite Hn in Htn.
  set (n := normalizeZoneName (z_Name zone)) in *. assert (Hsub : forall zz, submitted (touch D (env i) zi) zz -> submitted (set_Name n zone) zz) by (intros zz Hz; eapply submitted_trans; [by apply touched_submitted|done]).
  assert (Hre' : resubmitted env (view E (tb s) !! n) zone zi) by (by split).
  destruct r as [[]|err]; cbn [fst snd].
  - destruct Hr as [Hr|(e & [=] & _)]. destruct Hr as (old & w & ids & Hv & Hexp & Hup & Hown & Hview & Hst & Hcr). rewrite Htn in Hv, Hview. exists old, w, ids. fold n.
    destruct Hup as [Hsu Hval Hs Hvk Hvn]. rewrite Hts in Hs. rewrite Htv in Hvk. destruct (Hsub z' Hsu) as (Hz1 & Hz2 & Hz3 & Hz4).
    split_and!; [done|done| |done|done|by apply stored_keeps|done]. split_and!; [split_and!; done|done|by eapply (carried_serial env (Some old)); [done|rewrite <- Hv|]| |done].
    intros H1 H2. rewrite Hvk by (rewrite (Hver old Hv H1 H2); done). by apply (Hver old Hv).
  - split; [apply same_rows_view; auto|]. split.
    + destruct Hc as [Hcs Hcser Hcver]. destruct (Hsub z' Hcs) as (Hz1 & Hz2 & Hz3 & Hz4). cbn in Hz1. split; fold n.
      * by rewrite Hz1.
      * split_and!; done.
      * rewrite Hts in Hcser. destruct Hcser as [->|(o & Ho & Hs)]; [done|]. destruct (carried_serial env _ zone zi i z' o Ho Hre' Hs) as [j Hj]. right. by exists o, j.
      * intros o Ho H1 H2. rewrite Htv in Hcver. rewrite (Hcver o Ho); rewrite ?(Hver o Ho H1 H2); done.
    + destruct Hr as [Hr|(e & [= <-] & Hx%explained_broken)]; [left|by right]. unfold update_error. fold n. cbn [update_outcome] in Hr. rewrite Htn in Hr.
      destruct Hr as [Hr|(old & Hv & Hr)]; [by left|right]. exists old. split; [done|]. destruct Hr as [Hr|[(z1 & Hz1 & Hr)|(Hp & ids & Hown & Hcl)]]; [by left|right; left; exists i, z1; auto|].
      right. right. split; [done|]. exists ids, z'. split_and!; [done| |done]. apply Hsub, Hc.
Qed.
Lemma UpdateZone_answers env zone expected s : tables_ok (tb s) -> normalizeZoneName (normalizeZoneName (z_Name zone)) = normalizeZoneName (z_Name zone) ->
  answers s (UpdateZone E D (env 0%nat) zone expected) (fun r => AUpdated (fst r) (snd r)) (QUpdate env zone expected).
Proof.
  intros Hok Hnorm. eapply wpio_mono; [by apply (UpdateZone_attempt env zone expected (view E (tb s)) 0 zone s Hok eq_refl Hnorm), resubmitted_refl|].
  intros [r z'] s' [Hok' Hr]. split; [done|]. destruct r as [[]|err]; cbn in *; [done|]. destruct Hr as (Hv & _ & Hk). split; [done|]. destruct Hk as [Hk|Hk]; [by left|right; by left].
Qed.

Definition refreshed (n : string) (config : option DNSSECConfig) (v v' : gmap string Zone) : Prop :=
  exists z u, v !! n = Some z /\ v' = <[n := set_Times (z_CreatedAt z) u (set_DNSSEC (stored_dnssec E config) z)]> v.
Lemma refreshed_again n config v v1 v2 : refreshed n config v v1 -> refreshed n config v1 v2 -> refreshed n config v v2.
Proof.
  intros (z & u & Hz & ->) (z' & u' & Hz' & ->). rewrite lookup_insert_eq in Hz'. injection Hz' as <-. exists z, u'. split; [done|]. by rewrite insert_insert_eq.
Qed.
Definition missing (n : string) (v : gmap string Zone) (err : error) : Prop := err = Sentinel ErrZoneNotFound /\ v !! n = None.
Lemma metadata_attempt now name config v s : tables_ok (tb s) -> let n := normalizeZoneName name in view E (tb s) = v \/ (broken /\ refreshed n config v (view E (tb s))) ->
  wpio (UpdateDNSSECMetadata E D now name config) s (fun r s' => attempt_post (fun v' => v' = v \/ (broken /\ refreshed n config v v')) (fun _ : unit => True)
    (fun _ v' => refreshed n config v v') (missing n v) (r, tt) s').
Proof.
  intros Hok n Hv. assert (Hgo : forall v', refreshed n config (view E (tb s)) v' -> refreshed n config v v') by (intros v' Hr; destruct Hv as [<-|[_ Hv]]; [done|by eapply refreshed_again]).
  pose proof (UpdateDNSSECMetadata_spec E D now name config s Hok) as Hu. unfold single in Hu. eapply wpio_mono; [exact Hu|]. intros r s' (_ & Hok' & Hr). split; [done|]. fold n in Hr.
  destruct r as [[]|err]; cbn [fst snd].
  - destruct Hr as [Hr|(e & [=] & _)]. by apply Hgo.
  - destruct Hr as [(Hview & -> & Hn)|(e & [= <-] & Hx%explained_broken & Hd)].
    + rewrite Hview. split_and!; [done|done|]. left. split; [done|]. destruct Hv as [<-|[_ (z & u & Hz & Hv)]]; [done|]. rewrite Hv, lookup_insert_eq in Hn. done.
    + split_and!; [|done|by right]. destruct Hd as [->|Hd]; [done|]. right. split; [apply Hx|by apply Hgo].
Qed.
Lemma versioned_attempt name expected v s : tables_ok (tb s) -> view E (tb s) = v -> let n := normalizeZoneName name in
  wpio (DeleteZoneWithVersion E D name expected) s (fun r s' => attempt_post (fun v' => v' = v) (fun _ : unit => True)
    (fun _ v' => exists z, v !! n = Some z /\ (expected = "" \/ expected = z_Version z) /\ v' = delete n v)
    (fun err => missing n v err \/ (err = Sentinel ErrConflict /\ exists z, v !! n = Some z /\ expected <> "" /\ expected <> z_Version z)) (r, tt) s').
Proof.
  intros Hok <- n. pose proof (DeleteZoneWithVersion_spec E D name expected s Hok) as Hc. unfold atomic in Hc. unfold wpio, io_bind in *. destruct (DeleteZoneWithVersion E D name expected s) as [r s']. cbn in *.
  destruct Hc as (_ & Hok' & Hrows & Hr). split; [done|]. destruct r as [[]|err]; cbn in *.
  - by destruct Hr as [Hr|(e & [=] & _)].
  - split; [apply same_rows_view; auto|]. split; [done|]. destruct Hr as [Hr|(e & [= <-] & Hx%explained_broken)]; [by left|by right].
Qed.
Lemma attempt_answers {B} I J Good known (rb : result unit * B) s' : attempt_post I J Good known rb s' -> retry_post I Good known rb s'.
Proof. intros [Hok Hr]. split; [done|]. destruct (fst rb); [done|]. destruct Hr as (Hi & _ & Hk). split; [done|]. destruct Hk as [Hk|Hk]; [by left|right; by left]. Qed.
Lemma metadata_answers m now name config s : tables_ok (tb s) ->
  wpio m s (fun r s' => retry_post (fun v' => v' = view E (tb s) \/ (broken /\ refreshed (normalizeZoneName name) config (view E (tb s)) v')) (fun (_ : unit) v' => refreshed (normalizeZoneName name) config (view E (tb s)) v')
    (missing (normalizeZoneName name) (view E (tb s))) (r, tt) s') -> answers s m ADone (QMetadata now name config).
Proof. intros Hok Hm. unfold answers. eapply wpio_mono; [exact Hm|]. intros [[]|err] s' [Hok' Hr]; (split; [done|]); exact Hr. Qed.
Lemma versioned_answers m name expected s : tables_ok (tb s) -> let n := normalizeZoneName name in let v := view E (tb s) in
  wpio m s (fun r s' => retry_post (fun v' => v' = v) (fun (_ : unit) v' => exists z, v !! n = Some z /\ (expected = "" \/ expected = z_Version z) /\ v' = delete n v)
    (fun err => missing n v err \/ (err = Sentinel ErrConflict /\ exists z, v !! n = Some z /\ expected <> "" /\ expected <> z_Version z)) (r, tt) s') ->
  answers s m ADone (QDeleteVersion name expected).
Proof. intros Hok n v Hm. unfold answers. eapply wpio_mono; [exact Hm|]. intros [[]|err] s' [Hok' Hr]; (split; [done|]); exact Hr. Qed.
Lemma DeleteZone_answers name s : tables_ok (tb s) -> answers s (DeleteZone E D OnDb name) ADone (QDelete name).
Proof.
  intros Hok. pose proof (DeleteZone_spec E D OnDb name s Hok) as Hu. unfold single, answers in *. eapply wpio_mono; [exact Hu|]. intros r s' (_ & Hok' & Hr). split; [done|].
  destruct r as [[]|err]; cbn.
  - by destruct Hr as [Hr|(e & [=] & _)].
  - destruct Hr as [(Hv & Hm)|(e & [= <-] & [Hb Hp]%explained_broken & Hd)]; [split; [by left|by left]|]. split; [|right; by left]. destruct Hd as [Hd|[_ Hd]]; [by left|right; by split].
Qed.
End operations.

End serving.

(** ** The three backends *)
Definition fits (b : sql_backend) (E : Engine) : Prop :=
  isDuplicate (dialect b) (duplicate_text E) = true /\ (forall n text, fault E n = Some text -> isDuplicate (dialect b) text = false)
  /\ match b with
     | SQLite | PostgreSQL => found_rows E = true
     | MySQL => (forall n t, touched E n t = t) /\ (forall k, column_time E (k * Second) = k * Second)
     end.
Lemma mysqlTimestamp_floor t : exists k, Mysql.mysqlTimestamp t = k * Second /\ Mysql.mysqlTimestamp t <= t < Mysql.mysqlTimestamp t + Second.
Proof.
  unfold Mysql.mysqlTimestamp, IsZero. destruct (Z.eqb_spec t zeroTime) as [->|_]; [exists (-62135596800); split; [reflexivity|unfold Second; lia]|]. exists (t / Second). split; [done|].
  pose proof (Z.div_mod t Second ltac:(done)). pose proof (Z.mod_pos_bound t Second ltac:(done)). lia.
Qed.
Lemma nextMySQLTimestamp_later now t : exists k, Mysql.nextMySQLTimestamp now t = k * Second /\ t < Mysql.nextMySQLTimestamp now t.
Proof.
  destruct (mysqlTimestamp_floor now) as (k & Hk & _), (mysqlTimestamp_floor t) as (j & Hj & Hjb). unfold Mysql.nextMySQLTimestamp, time_Add. cbv zeta.
  destruct (Z.ltb_spec (Mysql.mysqlTimestamp t) (Mysql.mysqlTimestamp now)); cbn [negb].
  - exists k. split; [done|]. assert (j < k) by (unfold Second in *; lia). unfold Second in *. lia.
  - exists (j + 1). split; [rewrite Hj; unfold Second; lia|lia].
Qed.
Lemma fits_speaks b E : fits b E -> Speaks E (dialect b).
Proof.
  intros (Hd & Hf & Hb). split; [done|done| |destruct b; intros z; [exists (z_CreatedAt z), (z_UpdatedAt z); by destruct z|by eexists _, _..]|..].
  - destruct b; [by left|by left|right]. destruct Hb as [Ht Hc]. intros n now created updated z. cbn. rewrite Ht. destruct (nextMySQLTimestamp_later now updated) as (k & Hk & Hl). rewrite Hk, Hc in *. lia.
  - destruct b; intros now z; [by eexists _, _|by eexists _, _|]. exists (z_CreatedAt z), (z_UpdatedAt z). by destruct z.
  - destruct b; intros; by eexists _, _.
Qed.
(** Names are normalised once more when an update is retried. *)
Definition request_ok (q : sql_request) : Prop :=
  match q with QUpdate _ zone _ => normalizeZoneName (normalizeZoneName (z_Name zone)) = normalizeZoneName (z_Name zone) | _ => True end.
Lemma answer_wp {A} E s (m : io sql A) f q : answers E s m f q -> wpio (answer f m) s (fun a s' => tables_ok (tb s') /\ allows_answer E (broken E) q (view E (tb s)) a (view E (tb s'))).
Proof. unfold answers. intros Hm. apply wpio_bind. eapply wpio_mono; [exact Hm|]. intros a s' Ha. by apply wpio_ret. Qed.
Lemma serves_read {A} E `{!Collates E} s (m : io sql (result A)) (exact : result A) f q : tables_ok (tb s) -> reads E (tb s) m (fun r => r = exact) ->
  (forall r s', tables_ok (tb s') -> view E (tb s') = view E (tb s) -> read_as (broken E) exact r -> allows_answer E (broken E) q (view E (tb s)) (f r) (view E (tb s'))) -> answers E s m f q.
Proof. intros Hok Hr Ha. unfold answers. eapply wpio_mono; [by apply read_answers|]. intros r s' (? & ? & ?). auto. Qed.
Lemma serve_answers b E `{!Collates E} done q s : fits b E -> request_ok q -> tables_ok (tb s) ->
  wpio (serve b E done q) s (fun a s' => tables_ok (tb s') /\ allows_answer E (broken E) q (view E (tb s)) a (view E (tb s'))).
Proof.
  intros Hfit Hq Hok. pose proof (fits_speaks b E Hfit) as Hs. destruct q as [|name|opts|opts| |e zone|env zone expected|now name config|name|name expected]; apply answer_wp.
  - eapply (serves_read E s); [done|destruct b; exact (reads_call E (tb s) (Some _))|by intros r s' ? ->].
  - eapply (serves_read E s); [done|destruct b; by apply reads_GetZone|by intros r s' ? ->].
  - eapply (serves_read E s); [done|destruct b; by apply reads_ListZones|]. intros r s' ? ->. split; [done|]. exists (all_zones E (tb s)). split; [by apply all_zones_perm|done].
  - eapply (serves_read E s); [done|destruct b; by apply reads_summaries|]. intros r s' ? ->. split; [done|]. exists (all_zones E (tb s)). split; [by apply all_zones_perm|done].
  - eapply (serves_read E s); [done|destruct b; by apply reads_count|by intros r s' ? ->].
  - destruct b; [by apply CreateZone_answers..|]. apply creating_answers; [done..|]. intros z s1 Ht. apply retried_spec; [by rewrite Ht|by rewrite Ht|].
    intros i s2 Hok2 Hv2. by apply createZone_attempt.
  - destruct b; [by apply UpdateZone_answers..|]. unfold answers, backend, Mysql.mysql_backend, backend_UpdateZone, Mysql.mysql_UpdateZone, Mysql.withRetry. eapply wpio_mono.
    { apply (attempts_spec E done _ (fun v' => v' = view E (tb s)) (resubmitted env (view E (tb s) !! normalizeZoneName (z_Name zone)) zone) (update_good E env zone expected (view E (tb s))) (update_error env zone expected (view E (tb s))));
        [|done|done|apply resubmitted_refl|done]. intros i zi s1 Hok1 Hv1 Hre. by apply UpdateZone_attempt. }
    intros [[[]|err] z'] s' [Hok' Hr]; by split.
  - pose proof (metadata_attempt E (dialect b) (now 0%nat) name config (view E (tb s)) s Hok (or_introl eq_refl)) as Hm. cbv zeta in Hm.
    destruct b; [apply metadata_answers; [done|]; eapply wpio_mono; [exact Hm|]; intros r s'; apply attempt_answers..|].
    apply metadata_answers; [done|]. apply retried_spec; [done|by left|]. intros i s1 Hok1 Hv1. by apply metadata_attempt.
  - destruct b; by apply DeleteZone_answers.
  - pose proof (versioned_attempt E (dialect b) name expected (view E (tb s)) s Hok eq_refl) as Hm. cbv zeta in Hm.
    destruct b; [apply versioned_answers; [done|]; eapply wpio_mono; [exact Hm|]; intros r s'; apply attempt_answers..|].
    apply versioned_answers; [done|]. apply retried_spec; [done|done|]. intros i s1 Hok1 Hv1. by apply versioned_attempt.
Qed.
Lemma serve_all_history b E `{!Collates E} done qs : fits b E -> Forall request_ok qs -> forall s, tables_ok (tb s) ->
  wpio (serve_all b E done qs) s (fun answers s' => tables_ok (tb s') /\ history E (broken E) qs (view E (tb s)) answers (view E (tb s'))).
Proof.
  intros Hfit. induction 1 as [|q qs Hq _ IH]; intros s Hok; cbn [serve_all]; [apply wpio_ret; split; [done|constructor]|]. apply wpio_bind. eapply wpio_mono; [by apply serve_answers|].
  intros a s1 [Hok1 Ha]. apply wpio_bind. eapply wpio_mono; [by apply IH|]. intros rest s2 [Hok2 Hr]. apply wpio_ret. split; [done|]. by econstructor.
Qed.

Lemma clash_keys recs : clash None recs -> ~ NoDup (map record_key recs).
Proof.
  intros (recs1 & rec & recs2 & rec' & -> & Hin & Hr) Hnd. rewrite map_app in Hnd. apply NoDup_app in Hnd as (_ & Hd & _). apply (Hd (record_key rec')); [by apply list_elem_of_fmap_2|].
  destruct Hr as [->|[_ [j Hj]]]; [by left|]. unfold explicit_id in Hj. by destruct (parseSQLRecordID (rec_ID rec')).
Qed.
Lemma created_no_clash e z z' : sql_created e z z' -> NoDup (map record_key (z_Records z)) -> ~ clash None (z_Records z').
Proof.
  intros [(_ & _ & Hrecs & _) _ _ _ _] Hnd Hcl%clash_keys. apply Hcl. replace (map record_key (z_Records z')) with (map record_key (z_Records z)); [done|]. clear Hnd Hcl.
  induction Hrecs as [|r r' l l' (Hn & Ht & Httl & Hv) _ IH]; cbn [map]; [done|]. unfold record_key at 1 3. by rewrite Hn, Ht, Httl, Hv, IH.
Qed.

(** ** Properties *)
Definition empty_database : tables := mkTables ∅ ∅ 0 0.

(** C15: SQLite, PostgreSQL and MySQL backends refine a map of zones: the answers to
    any sequence of requests, and the zones behind the tables afterwards, are ones
    the abstract map allows, whatever calls of the database fail.  A write changes
    the one zone it names as asked, with the compare-and-set on versions, or changes
    nothing; an answer other than the map's own needs a failing call, so without
    failing calls every answer is exact.  A COMMIT that fails is one that was not
    applied. *)
Theorem sql_backends_refine (b : sql_backend) (E : Engine) (done : nat -> bool) (qs : list sql_request) (t : tables) (u : ulidState) :
  Collates E -> fits b E -> Forall request_ok qs -> tables_ok t ->
  let '(answers, s') := serve_all b E done qs (mkSql t 0 u) in
  tables_ok (tb s') /\ history E (exists n text, fault E n = Some text) qs (view E t) answers (view E (tb s')).
Proof.
  intros Hc Hfit Hqs Hok. pose proof (serve_all_history b E done qs Hfit Hqs (mkSql t 0 u) Hok) as Hh. unfold wpio in Hh. by destruct (serve_all b E done qs (mkSql t 0 u)).
Qed.

(** A zone created in a SQL backend is found again: if the database answers
    every call, the zone can be prepared, its name is free and no two of its records
    have the same name, type, TTL and value hash, then the creation succeeds, and the next read of
    the name the caller gave returns the prepared zone, its records numbered. *)
Theorem sql_create_then_get (b : sql_backend) (E : Engine) (done : nat -> bool) (e : Inputs) (z : Zone) (t : tables) (u : ulidState) :
  Collates E -> fits b E -> (forall n, fault E n = None) -> tables_ok t ->
  (forall u' err, fst (prepareZoneForCreate e (Some z) normalizeZoneName u') <> Err err) ->
  view E t !! normalizeZoneName (z_Name z) = None -> NoDup (map record_key (z_Records z)) ->
  exists z' w s', serve_all b E done [QCreate e (Some z); QGet (z_Name z)] (mkSql t 0 u) = ([ACreated (Ok tt) (Some z'); AZone (Ok w)], s')
    /\ sql_created e z z' /\ keeps E (view E t) None z' w.
Proof.
  intros Hc Hfit Hnf Hok Hprep Hfree Hkeys. assert (Hnb : ~ broken E) by (intros (n & text & Hf); by rewrite Hnf in Hf).
  assert (Hne : forall err, ~ create_error e (Some z) (view E t) err).
  { intros err [(_ & z0 & [= <-] & [w Hw])|[(u' & Hp)|(_ & z0 & z' & [= <-] & Hcr & Hcl)]]; [congruence|by eapply Hprep|]. revert Hcl. by eapply created_no_clash. }
  pose proof (serve_all_history b E done [QCreate e (Some z); QGet (z_Name z)] Hfit ltac:(by repeat constructor) (mkSql t 0 u) Hok) as Hh. unfold wpio in Hh.
  destruct (serve_all b E done _ _) as [l s']. cbn [fst snd tb] in Hh. destruct Hh as [_ Hh]. inversion Hh as [|q qs v a v1 l1 v' Ha Hh1]; subst. inversion Hh1 as [|q qs v a1 v2 l2 v' Ha1 Hh2]; subst. inversion Hh2; subst.
  destruct a as [| | | |r zone'| |]; try done. destruct a1 as [r1| | | | | |]; try done. cbn [allows_answer] in Ha, Ha1. destruct r as [[]|err].
  - destruct Ha as (z0 & z' & w & [= <-] & -> & Hcr & Hv & -> & Hk). pose proof (proj1 (sc_content _ _ _ Hcr)) as Hn. rewrite Hn in Ha1. rewrite lookup_insert_eq in Ha1.
    destruct Ha1 as [_ [->|[Hb _]]]; [|done]. exists z', w, s'. done.
  - destruct Ha as (_ & _ & [Hx|[[Hb _]|[_ [Hb|(err0 & Hx & _)]]]]); try done; by apply Hne in Hx.
Qed.
End stores.

(** ** Witnesses *)
#[local] Existing Instance ascii_tables.
Definition sql_inputs (n : nat) : Inputs := mkInputs (mkDate 2026 1 31) (1769000000 * Second + Z.of_nat n) (1769000000000 + Z.of_nat n) (Ok (replicate 10 7)).
(** A server whose fifth call meets a deadlock. *)
Definition deadlocked : Engine :=
  mkEngine (fun n => if (n =? 4)%nat then Some "Error 1213 (40001): Deadlock found" else None) (fun t => t / Second * Second) (fun _ t => t) str_ltb
    "Error 1062 (23000): Duplicate entry" false false.
Definition sql_session : list sql_request :=
  [QCreate (sql_inputs 0) (Some example_zone); QUpdate sql_inputs (set_Records (take 2 (z_Records example_zone)) example_zone) ""; QCount; QGet "example.com"; QDelete "example.com"].
#[local] Instance str_collates E : collation E = str_ltb -> Collates E.
Proof. intros Hc. unfold Collates. rewrite Hc. apply _. Qed.
Lemma empty_tables_ok : tables_ok empty_database.
Proof. split; cbn; try done; intros i; rewrite lookup_empty; by intros []. Qed.
Lemma deadlocked_fits : fits MySQL deadlocked.
Proof.
  split_and!; [reflexivity| |done|].
  - intros n text. cbn. by destruct (n =? 4)%nat; intros [= <-].
  - intros k. cbn. by rewrite Z.div_mul.
Qed.
Lemma sql_backends_refine_witness :
  let run := serve_all MySQL deadlocked (fun _ => false) sql_session (mkSql empty_database 0 (mkUlid 0 [])) in
  history deadlocked (exists n text, fault deadlocked n = Some text) sql_session (view deadlocked empty_database) run.1 (view deadlocked (tb run.2))
  /\ match run.1 with
     | [ACreated (Ok _) (Some _); AUpdated (Ok _) z'; ACount (Ok 1); AZone (Ok w); ADone (Ok _)] => z_Version w = z_Version z' /\ map rec_ID (z_Records w) = ["8"; "9"]
     | _ => False
     end.
Proof.
  split.
  - pose proof (sql_backends_refine MySQL deadlocked (fun _ => false) sql_session empty_database (mkUlid 0 []) (str_collates deadlocked eq_refl) deadlocked_fits) as Hr.
    destruct (serve_all _ _ _ _ _) as [answers s']. apply Hr; [|apply empty_tables_ok].
    apply Forall_cons; split; [exact I|]. apply Forall_cons; split; [vm_compute; reflexivity|]. repeat (apply Forall_cons; split; [exact I|]). apply Forall_nil. exact I.
  - vm_compute. split; reflexivity.
Defined.

Definition untroubled : Engine := mkEngine (fun _ => None) (fun t => t) (fun _ t => t) str_ltb "UNIQUE constraint failed: zones.name" true true.
Definition versioned_zone : Zone := set_Version "v01" example_zone.
Lemma sql_create_then_get_witness :
  exists z' w s', serve_all SQLite untroubled (fun _ => false) [QCreate (sql_inputs 0) (Some versioned_zone); QGet "Example.com"] (mkSql empty_database 0 (mkUlid 0 []))
      = ([ACreated (Ok tt) (Some z'); AZone (Ok w)], s')
    /\ sql_created (sql_inputs 0) versioned_zone z' /\ keeps untroubled (view untroubled empty_database) None z' w.
Proof.
  apply (sql_create_then_get SQLite untroubled (fun _ => false) (sql_inputs 0) versioned_zone empty_database (mkUlid 0 []) (str_collates untroubled eq_refl)).
  - split_and!; [vm_compute; reflexivity|intros n text; discriminate|reflexivity].
  - reflexivity.
  - apply empty_tables_ok.
  - intros u' err. vm_compute. discriminate.
  - vm_compute. reflexivity.
  - apply (bool_decide_unpack _). vm_compute. exact I.
Defined.
