(* ===== verification/StoreProps.v ===== *)
(** * Serials, versions and pages of the in-memory store

    Properties of the writes and listings of pkg/backend/memory.go that build on
    the serial generator and the ULID generator. *)

From S2P Require Import Prelude GoStrings GoStringsFacts GoSort Zone Names Validation Serial Ulid Store.
From S2P Require Import RRSets DnsNames ZoneRules MemoryStore.

Section props.
Context `{UnicodeTables}.

(** ** Serials *)
Definition serials_ok (m : MemoryBackend) : Prop :=
  map_Forall (fun _ z => 0 < Serial (z_SOA z) <= MaxUint32) (zones m).

(** Requests as the wire types allow them: [uint32] serials, real dates. *)
Definition request_ok (q : request) : Prop :=
  match q with
  | ReqCreate e (Some z) | ReqUpdate e z _ => calendar (in_date e) /\ 0 <= Serial (z_SOA z) <= MaxUint32
  | _ => True
  end.

(** Serials of stored zones only move forward: no request decreases the
    serial of a zone that stays in the store, a successful update strictly
    increases it (unless it is already 2^32-1), and every stored serial stays
    between 1 and 2^32-1. *)
Theorem stored_serial_monotone (q : request) (m m' : MemoryBackend) (u u' : ulidState) (r : response)
    (n : string) (z z' : Zone) :
  memory_ok m -> serials_ok m -> request_ok q -> exec q m u = (r, m', u') ->
  zones m !! n = Some z -> zones m' !! n = Some z' ->
  serials_ok m'
  /\ Serial (z_SOA z) <= Serial (z_SOA z')
  /\ (forall e w v, q = ReqUpdate e w v -> r = RespDone (Ok tt) -> NormalizeZoneName (z_Name w) = n ->
        Serial (z_SOA z) < MaxUint32 -> Serial (z_SOA z) < Serial (z_SOA z')).
Proof.
  intros Hok Hs Hq E Hz Hz'. pose proof (exec_refines q m u Hok) as Hr. rewrite E in Hr.
  destruct Hr as [Hstep _]. remember (zones m) as c eqn:Hc. remember (zones m') as c' eqn:Hc'.
  unfold serials_ok in *. rewrite <- Hc' in *. rewrite <- Hc in Hs. clear E Hc Hc' Hok.
  destruct Hstep as [?? H1|? H1|?? H1 H2|e z0 w Hn Hcr|???|e z0 v old w Hold Hv Hup|????|t nm d z0 Hz0|nm ? z0 H1 H2|??|????];
    try (split_and!; [done|assert (z' = z) as -> by congruence; lia|intros; discriminate]).
  - destruct (decide (n = z_Name w)) as [->|Hne]; [congruence|]. rewrite lookup_insert_ne in Hz' by done.
    split_and!; [|assert (z' = z) as -> by congruence; lia|done].
    apply map_Forall_insert_2; [|done]. rewrite (created_serial _ _ _ Hcr). destruct Hq as [_ Hq].
    destruct (Z.eqb_spec (Serial (z_SOA z0)) 0); [|lia]. unfold generateSerial. simpl. apply date_first_pos.
  - destruct Hq as [Hd Hq].
    pose proof (updateSOASerial_advances _ _ _ Hd (map_Forall_lookup_1 _ _ _ _ Hs Hold) Hq) as [Ha Hb].
    rewrite <- (updated_serial _ _ _ _ Hup) in *.
    pose proof (map_Forall_lookup_1 _ _ _ _ Hs Hold) as Hr. simpl in Hr.
    split; [apply map_Forall_insert_2; [lia|done]|].
    destruct (decide (n = NormalizeZoneName (z_Name z0))) as [->|Hne].
    + rewrite lookup_insert_eq in Hz'. injection Hz' as <-. rewrite Hold in Hz. injection Hz as <-.
      split; [lia|]. intros. lia.
    + rewrite lookup_insert_ne in Hz' by done. assert (z' = z) as -> by congruence.
      split; [lia|]. intros ??? [= <- <- <-]. congruence.
  - pose proof (map_Forall_lookup_1 _ _ _ _ Hs Hz0) as Hr. simpl in Hr.
    split; [apply map_Forall_insert_2; done|].
    destruct (decide (n = NormalizeZoneName nm)) as [->|Hne].
    + rewrite lookup_insert_eq in Hz'. injection Hz' as <-. rewrite Hz0 in Hz. injection Hz as <-. simpl.
      split; [lia|done].
    + rewrite lookup_insert_ne in Hz' by done. assert (z' = z) as -> by congruence. split; [lia|done].
  - split; [by apply map_Forall_delete|]. apply lookup_delete_Some in Hz' as [_ Hz'].
    assert (z' = z) as -> by congruence. split; [lia|]. intros. subst. destruct H2 as [?|(? & ? & _)]; discriminate.
Qed.

(** ** Versions *)

Lemma UpdateZone_version e z x m u w m' u' old :
  UpdateZone e z x m u = (Ok tt, w, m', u') -> zones m !! NormalizeZoneName (z_Name z) = Some old ->
  (z_Version w = z_Version z /\ z_Version z <> z_Version old /\ z_Version z <> "" /\ u' = u) \/ NewZoneVersion e u = (Ok (z_Version w), u').
Proof.
  intros E Hl. unfold UpdateZone in E. rewrite Hl in E. destruct (negb _ && _); [discriminate|].
  set (z3 := set_Times _ _ _) in E.
  destruct ((z_Version z3 =? "")%string || (z_Version z3 =? z_Version old)%string) eqn:Eo.
  - right. destruct (NewZoneVersion e u) as [[v|err] u1]; [|discriminate].
    pose proof (validateZoneForWrite_cases (set_Version v z3)) as Hw.
    destruct (validateZoneForWrite _) as [z5 [[]|err]]; [|discriminate].
    destruct Hw as (rs & -> & _). cbn [default from_option id] in E.
    destruct (assign_ids _ _ _) as [rs' next]. by injection E as <- _ <-.
  - left. apply orb_false_iff in Eo as [E1 E2]. bool_prop.
    pose proof (validateZoneForWrite_cases z3) as Hw.
    destruct (validateZoneForWrite _) as [z5 [[]|err]]; [|discriminate].
    destruct Hw as (rs & -> & _). cbn [default from_option id] in E.
    destruct (assign_ids _ _ _) as [rs' next]. by injection E as <- _ <-.
Qed.

(** A successful update always changes the zone's version: when the stored
    version was issued by the generator, the new one differs from it, whether
    the caller brought its own or left it to the store; and versions issued so
    far are never issued again. *)
Theorem update_changes_version (e : Inputs) (z : Zone) (x : string) (m m' : MemoryBackend) (u u' : ulidState)
    (w old : Zone) :
  ulid_wf u -> valid_input (in_vtime e, in_rand e) ->
  zones m !! NormalizeZoneName (z_Name z) = Some old -> issued_by u (z_Version old) ->
  UpdateZone e z x m u = (Ok tt, w, m', u') ->
  z_Version w <> z_Version old
  /\ (z_Version z = "" \/ issued_by u (z_Version z) -> issued_by u' (z_Version w)).
Proof.
  intros Hwf Hin Hl Hold E. destruct (UpdateZone_version _ _ _ _ _ _ _ _ _ E Hl) as [(E1 & E2 & E3 & ->)|E1].
  - rewrite E1. split; [done|]. by intros [Hv|Hv].
  - destruct (NewZoneVersion_fresh _ _ _ _ _ Hwf Hin E1 Hold) as (? & ? & _). by split.
Qed.

(** ** Pages *)
#[local] Instance by_name_order : WeakOrder by_name := by_key_weak (fun z => ToLower (z_Name z)).

Definition names_normalized (m : MemoryBackend) : Prop := map_Forall (fun n _ => normalized n) (zones m).

Lemma stored_order_unique m order : memory_ok m -> names_normalized m ->
  order ≡ₚ (map_to_list (zones m)).*2 -> sort_Slice by_name order = sort_Slice by_name (stored m).
Proof.
  intros Hok Hn Hp. rewrite stored_map. apply sort_Slice_perm; [apply _| |done].
  assert (forall z, z ∈ order -> zones m !! z_Name z = Some z /\ ToLower (z_Name z) = z_Name z) as Hin.
  { intros z Hz. rewrite Hp in Hz. apply list_elem_of_fmap in Hz as ([n z'] & -> & Hz).
    apply elem_of_map_to_list in Hz. simpl. destruct (Hok _ _ Hz) as [-> _]. split; [done|].
    by destruct (Hn _ _ Hz) as (_ & Hl & _). }
  intros x y Hx Hy H1 H2. destruct (Hin x Hx) as [Lx Ex], (Hin y Hy) as [Ly Ey].
  unfold by_name in *. rewrite Ex, Ey in *. assert (z_Name x = z_Name y) by (by apply str_leb_antisym).
  congruence.
Qed.

(** Pages tile the listing: whatever order the map iteration visits the
    zones in on each call, the first [k] pages of [n] zones, put end to end, are
    the first [k * n] zones of the full listing sorted by name; every zone
    appears exactly once when they cover the store. *)
Theorem pages_tile_listing (m : MemoryBackend) (n : Z) (k : nat) (order : nat -> list Zone) :
  memory_ok m -> names_normalized m -> 0 < n ->
  (forall i, order i ≡ₚ (map_to_list (zones m)).*2) ->
  let all := sort_Slice by_name (stored m) in
  concat (map (fun i => list_in_order (order i) (mkList n (Z.of_nat i * n) "")) (List.seq 0 k))
    = take (k * Z.to_nat n) all
  /\ all ≡ₚ (map_to_list (zones m)).*2
  /\ StronglySorted (fun a b => str_ltb (z_Name b) (z_Name a) = false) all.
Proof.
  intros Hok Hn Hpos Hord all. split_and!.
  - assert (forall i, list_in_order (order i) (mkList n (Z.of_nat i * n) "")
      = take (Z.to_nat n) (drop (i * Z.to_nat n) all)) as Hi.
    { intros i. rewrite list_in_order_page, (stored_order_unique m) by done. rewrite page_slice by lia.
      do 2 f_equal. lia. }
    rewrite (map_ext _ _ Hi). clear. induction k as [|k IH]; [by rewrite take_0|].
    rewrite seq_S, map_app, concat_app, IH. simpl. rewrite app_nil_r.
    replace (Z.to_nat n + k * Z.to_nat n)%nat with (k * Z.to_nat n + Z.to_nat n)%nat by lia.
    by rewrite take_take_drop.
  - unfold all. by rewrite sort_Slice_Permutation, stored_map.
  - assert (Forall (fun z => ToLower (z_Name z) = z_Name z) all) as Hl.
    { apply Forall_forall. intros z Hz. unfold all in Hz. rewrite sort_Slice_Permutation, stored_map in Hz.
      apply list_elem_of_fmap in Hz as ([nm z'] & -> & Hz). apply elem_of_map_to_list in Hz. simpl.
      destruct (Hok _ _ Hz) as [-> _]. by destruct (Hn _ _ Hz) as (_ & ? & _). }
    pose proof (sort_Slice_sorted by_name (stored m)) as Hs. fold all in Hs. clear -Hl Hs.
    induction Hs as [|z l Hs IH Hall]; constructor.
    + apply IH. by apply Forall_cons_1 in Hl as [_ ?].
    + apply Forall_cons_1 in Hl as [Ez Hl]. rewrite Forall_forall in *. intros y Hy. specialize (Hall y Hy).
      unfold not_after, by_name in Hall. by rewrite Ez, (Hl y Hy) in Hall.
Qed.
End props.

(** ** Witnesses *)
#[local] Existing Instance ascii_tables.

(** A store without the optional capabilities, whose zones are counted page by
    page. *)
Record PlainStore := mkPlain { plain : MemoryBackend }.
#[local] Instance plain_store : ZoneStore PlainStore := {|
  store_GetZone s := GetZone (plain s);
  store_ListZones s := ListZones (plain s);
  store_CreateZone e z s u := let '(r, z', m, u') := CreateZone e z (plain s) u in (r, z', mkPlain m, u');
  store_UpdateZone e z v s u := let '(r, z', m, u') := UpdateZone e z v (plain s) u in (r, z', mkPlain m, u');
  store_DeleteZone n s := let '(r, m) := DeleteZone n (plain s) in (r, mkPlain m);
  zoneSummaryStore := None; zoneCountStore := None; healthStore := None;
  dnssecMetadataStore := None; conditionalDeleteStore := None; revisionStore := None |}.
#[local] Instance plain_laws : StoreLaws PlainStore.
Proof.
  refine {| store_ok s := memory_ok (plain s); zones_of s := zones (plain s); law_stored s n z Hok := Hok n z;
            law_get s := memory_get (plain s); law_list s := memory_list (plain s) |}; try done.
  - intros e z s u Hok. pose proof (memory_create e z (plain s) u Hok) as Hc. simpl.
    destruct (CreateZone e z (plain s) u) as [[[[?|?] ?] ?] ?]; [done|]. destruct s.
    destruct Hc as (-> & -> & ?). done.
  - intros e z v s u Hok. pose proof (memory_update e z v (plain s) u Hok) as Hc. simpl.
    destruct (UpdateZone e z v (plain s) u) as [[[[?|?] ?] ?] ?]; [done|]. destruct s.
    destruct Hc as (-> & ?). done.
  - intros n s. pose proof (memory_delete n (plain s)) as Hc. simpl.
    destruct (DeleteZone n (plain s)) as [[?|?] ?]; [done|]. destruct s. destruct Hc as (-> & ?). done.
  - intros e z s u Hv. pose proof (memory_create_generator e z (plain s) u Hv) as Hg. simpl.
    by destruct (CreateZone e (Some z) (plain s) u) as [[[? ?] ?] ?].
  - intros e z v s u Hv Hold. pose proof (memory_update_generator e z v (plain s) u Hv Hold) as Hg. simpl.
    by destruct (UpdateZone e z v (plain s) u) as [[[? ?] ?] ?].
Defined.

Definition sample_inputs (t : Time) : Inputs := mkInputs (mkDate 2026 1 31) t (t * 1000000) (Ok (replicate 10 7)).
Definition sample_create : request := ReqCreate (sample_inputs 1000) (Some example_zone).
Definition sample_world : MemoryBackend * ulidState :=
  let '(_, m, u) := exec sample_create NewMemoryBackend ulidInit in (m, u).
Definition sample_memory : MemoryBackend := fst sample_world.
Definition sample_ulid : ulidState := snd sample_world.
Definition sample_stored : Zone := default example_zone (zones sample_memory !! "example.com.").
Definition sample_update : Zone := set_Version "" (set_SOASerial 0 example_zone).

Lemma sample_memory_ok : memory_ok sample_memory.
Proof.
  pose proof (exec_refines sample_create NewMemoryBackend ulidInit (map_Forall_empty _)) as Hr.
  unfold sample_memory, sample_world. destruct (exec _ _ _) as [[? ?] ?]. apply Hr.
Qed.
Lemma sample_zones : zones sample_memory = {[ "example.com." := sample_stored ]}.
Proof. vm_compute. reflexivity. Qed.
Lemma sample_ulid_wf : ulid_wf sample_ulid.
Proof.
  change sample_ulid with (mkUlid 1000 (replicate 10 7)). unfold ulid_wf, rnd_ok, bytes_ok. simpl.
  split_and!; [lia..| |done]. repeat (constructor; [lia|]). constructor.
Qed.

Lemma count_zones_correct_witness : CountZones 1 false (mkPlain sample_memory) = Some (Ok 1).
Proof.
  assert (size (zones_of (mkPlain sample_memory)) = 1%nat) as E.
  { change (zones_of (mkPlain sample_memory)) with (zones sample_memory). rewrite sample_zones.
    apply map_size_singleton. }
  rewrite (count_zones_correct (mkPlain sample_memory) 1); rewrite E; reflexivity.
Defined.

Definition first_update : result unit * Zone * MemoryBackend * ulidState :=
  store_UpdateZone (sample_inputs 2000) sample_update (z_Version sample_stored) sample_memory sample_ulid.

Lemma lost_update_refused_witness :
  fst (fst (fst (store_UpdateZone (sample_inputs 3000) sample_update (z_Version sample_stored)
                   (snd (fst first_update)) (snd first_update)))) = Err (Sentinel ErrConflict)
  /\ snd (fst (store_UpdateZone (sample_inputs 3000) sample_update (z_Version sample_stored)
                 (snd (fst first_update)) (snd first_update))) = snd (fst first_update).
Proof.
  refine (lost_update_refused (S := MemoryBackend) (sample_inputs 2000) (sample_inputs 3000) sample_update sample_update
    (z_Version sample_stored) sample_memory (snd (fst first_update)) sample_ulid (snd first_update) (snd first_update)
    (snd (fst (fst first_update))) sample_memory_ok _ eq_refl _ _); vm_compute; [discriminate|reflexivity|discriminate].
Defined.

Lemma stored_serial_monotone_witness :
  let after := exec (ReqUpdate (sample_inputs 2000) sample_update "") sample_memory sample_ulid in
  let z' := default example_zone (zones (snd (fst after)) !! "example.com.") in
  serials_ok (snd (fst after)) /\ Serial (z_SOA sample_stored) <= Serial (z_SOA z').
Proof.
  cbv zeta. set (q := ReqUpdate _ _ _). set (after := exec q _ _).
  destruct (stored_serial_monotone q sample_memory (snd (fst after)) sample_ulid (snd after) (fst (fst after))
    "example.com." sample_stored (default example_zone (zones (snd (fst after)) !! "example.com."))) as (H1 & H2 & _).
  - exact sample_memory_ok.
  - unfold serials_ok. rewrite sample_zones. apply map_Forall_singleton. vm_compute. split; [reflexivity|discriminate].
  - vm_compute. repeat split; discriminate.
  - vm_compute. reflexivity.
  - vm_compute. reflexivity.
  - vm_compute. reflexivity.
  - exact (conj H1 H2).
Defined.

Lemma update_changes_version_witness :
  let after := UpdateZone (sample_inputs 2000) sample_update "" sample_memory sample_ulid in
  z_Version (snd (fst (fst after))) <> z_Version sample_stored.
Proof.
  cbv zeta. set (after := UpdateZone _ _ _ _ _).
  apply (update_changes_version (sample_inputs 2000) sample_update "" sample_memory (snd (fst after)) sample_ulid
    (snd after) (snd (fst (fst after))) sample_stored).
  - exact sample_ulid_wf.
  - split; [vm_compute; split; [discriminate|reflexivity]|]. split; [|done]. unfold bytes_ok. simpl.
    repeat (constructor; [lia|]). constructor.
  - vm_compute. reflexivity.
  - exists sample_ulid. split_and!; [exact sample_ulid_wf|lia|vm_compute; reflexivity].
  - vm_compute. reflexivity.
Defined.

Lemma pages_tile_listing_witness :
  list_in_order (stored sample_memory) (mkList 10 0 "") = [sample_stored].
Proof.
  destruct (pages_tile_listing sample_memory 10 1 (fun _ => (map_to_list (zones sample_memory)).*2)) as (E & _).
  - exact sample_memory_ok.
  - unfold names_normalized. rewrite sample_zones. apply map_Forall_singleton. vm_compute. by repeat split.
  - lia.
  - done.
  - vm_compute in E |- *. exact E.
Defined.
