(* ===== verification/Hashing.v ===== *)
(** * Content hashes of zones (pkg/backend/version.go)

    The canonical JSON form of a zone, its SHA-256 hash and the legacy version
    label.  Structs are written in declaration order with [omitempty]; strings as
    [Json.json_string].  Zones have the same canonical form exactly when they have
    the same content, whose definition does not refer to the code. *)

From S2P Require Import Prelude GoStrings GoStringsFacts Utf8 GoSort GoNet Json Zone Names Validation DnsNames ZoneRules Sha256.

(** ** The canonical form *)
Record normalizedRecord := mkNorm { nr_Name : string; nr_Type : string; nr_TTL : Z; nr_Value : string }.

Definition json_record (r : normalizedRecord) : string :=
  json_object [json_field "name" (json_string (nr_Name r)); json_field "type" (json_string (nr_Type r));
               json_field "ttl" (Itoa (nr_TTL r)); json_field "value" (json_string (nr_Value r))].
Definition json_soa (s : SOARecord) : string :=
  json_object [json_field "mname" (json_string (MName s)); json_field "rname" (json_string (RName s));
               json_field "serial" (Itoa (Serial s)); json_field "refresh" (Itoa (Refresh s));
               json_field "retry" (Itoa (Retry s)); json_field "expire" (Itoa (Expire s));
               json_field "minimum" (Itoa (Minimum s))].
(** A [DNSSECConfig] whose [SignatureExpiration] is nil. *)
Definition json_dnssec (d : DNSSECConfig) : string :=
  json_object ([json_field "enabled" (json_bool (Enabled d)); json_field "algorithm" (Itoa (Algorithm d))]
    ++ omit_zero "ksk_key_tag" (KSKKeyTag d) ++ omit_zero "zsk_key_tag" (ZSKKeyTag d)
    ++ [json_field "nsec3_enabled" (json_bool (NSEC3Enabled d))]
    ++ omit_zero "nsec3_iterations" (NSEC3Iterations d) ++ omit_empty "nsec3_salt" (NSEC3Salt d)).

(** The [less] function of the record sort: name, type, TTL, value. *)
Definition record_less (a b : normalizedRecord) : bool :=
  if negb (nr_Name a =? nr_Name b)%string then str_ltb (nr_Name a) (nr_Name b)
  else if negb (nr_Type a =? nr_Type b)%string then str_ltb (nr_Type a) (nr_Type b)
  else if negb (nr_TTL a =? nr_TTL b) then nr_TTL a <? nr_TTL b
  else str_ltb (nr_Value a) (nr_Value b).

Section hashing.
Context `{UnicodeTables}.

Definition expandOwnerName (name zoneOrigin : string) : string := NormalizeRecordOwnerName name zoneOrigin.

Definition normalizeRecordValue (recordType value zoneName : string) : string :=
  if is_single_name_type recordType then NormalizeDomainTargetName value zoneName
  else if (recordType =? RecordTypeMX)%string then
    match Fields value with
    | [p0; p1] => p0 +:+ " " +:+ NormalizeDomainTargetName p1 zoneName
    | _ => value
    end
  else if (recordType =? RecordTypeSRV)%string then
    match Fields value with
    | [p0; p1; p2; p3] => p0 +:+ " " +:+ p1 +:+ " " +:+ p2 +:+ " " +:+ NormalizeDomainTargetName p3 zoneName
    | _ => value
    end
  else value.

Definition normalize_record (zoneName : string) (rec : ZRecord) : normalizedRecord :=
  mkNorm (expandOwnerName (rec_Name rec) zoneName) (rec_Type rec) (rec_TTL rec)
    (normalizeRecordValue (rec_Type rec) (rec_Value rec) zoneName).

Definition normalize_dnssec (d : DNSSECConfig) : DNSSECConfig :=
  mkDNSSEC (Enabled d) (Algorithm d) (KSKKeyTag d) (ZSKKeyTag d) (NSEC3Enabled d) (NSEC3Iterations d)
    (NSEC3Salt d) None.

Definition normalize_soa (zoneName : string) (s : SOARecord) : SOARecord :=
  mkSOA (NormalizeDomainTargetName (MName s) zoneName) (NormalizeDomainTargetName (RName s) zoneName)
    (Serial s) (Refresh s) (Retry s) (Expire s) (Minimum s).

(** The records come out of an unstable sort; [record_less] leaves no ties
    between different records (below), so the order is determined. *)
Definition NormalizeZoneForHashing (zone : Zone) : result string :=
  let zoneName := NormalizeZoneName (z_Name zone) in
  let dnssecNormalized := option_map normalize_dnssec (z_DNSSEC zone) in
  let soa := normalize_soa zoneName (z_SOA zone) in
  let normalizedRecords := sort_Slice record_less (map (normalize_record zoneName) (z_Records zone)) in
  Ok (json_object ([json_field "name" (json_string zoneName); json_field "soa" (json_soa soa);
                    json_field "records" (json_array (map json_record normalizedRecords))]
                   ++ match dnssecNormalized with
                      | Some d => [json_field "dnssec" (json_dnssec d)]
                      | None => []
                      end)).

Definition ComputeZoneHash (zone : Zone) : result string :=
  let* normalized := wrap "failed to normalize zone for hashing" (NormalizeZoneForHashing zone) in
  Ok (hex_EncodeToString (Sum256 normalized)).

Definition ComputeZoneHash8 (zone : Zone) : result string :=
  let* hashHex := ComputeZoneHash zone in
  if len hashHex <? 8 then Err (Errorf ("unexpected hash length: " +:+ Itoa (len hashHex)))
  else Ok (str_take 8 hashHex).

Definition ComputeZoneVersion (zone : Zone) : result string :=
  let* hash8 := ComputeZoneHash8 zone in
  Ok ("v" +:+ Itoa (Serial (z_SOA zone)) +:+ "-" +:+ hash8).

(** ** The record order *)
#[local] Instance record_less_weak : WeakOrder record_less.
Proof.
  change record_less with (lex_less str_ltb String.eqb nr_Name (lex_less str_ltb String.eqb nr_Type
    (lex_less Z.ltb Z.eqb nr_TTL (fun a b => str_ltb (nr_Value a) (nr_Value b))))). apply _.
Qed.
Lemma record_less_tie a b : record_less a b = false -> record_less b a = false -> a = b.
Proof.
  change record_less with (lex_less str_ltb String.eqb nr_Name (lex_less str_ltb String.eqb nr_Type
    (lex_less Z.ltb Z.eqb nr_TTL (fun a b => str_ltb (nr_Value a) (nr_Value b))))).
  intros H1 H2. destruct (lex_tie _ _ _ _ _ _ H1 H2) as (E1 & H3 & H4).
  destruct (lex_tie _ _ _ _ _ _ H3 H4) as (E2 & H5 & H6). destruct (lex_tie _ _ _ _ _ _ H5 H6) as (E3 & H7 & H8).
  destruct a, b; simpl in *. f_equal; [done..|]. by apply str_leb_antisym.
Qed.

(** ** Spellings of a name *)
(** Equal up to the case of ASCII letters. *)
Definition capital_of (c d : ascii) : Prop := 65 <= byte c <= 90 /\ byte d = byte c + 32.
Inductive caseless : string -> string -> Prop :=
  | caseless_nil : caseless "" ""
  | caseless_cons c d s t : c = d \/ capital_of c d \/ capital_of d c -> caseless s t -> caseless (String c s) (String d t).
Definition absolute (n : string) : Prop := exists p, n = p +:+ ".".
(** [n] ends with the labels of the origin [o]. *)
Definition under (o n : string) : Prop := exists x, caseless x o /\ (n = x \/ exists p, n = p +:+ "." +:+ x).
(** Two ways to write one name in the zone with origin [o], which has no final dot;
    in an owner name [@] is the origin. *)
Inductive same_name (owner : bool) (o : string) : string -> string -> Prop :=
  | same_refl n : same_name owner o n n
  | same_sym n m : same_name owner o n m -> same_name owner o m n
  | same_trans n m k : same_name owner o n m -> same_name owner o m k -> same_name owner o n k
  | same_case n m : is_ascii n = true -> caseless n m -> same_name owner o n m
  | same_dot n : is_ascii n = true -> under o n -> same_name owner o n (n +:+ ".")
  | same_relative n : is_ascii n = true -> n <> "@" -> n <> "" \/ owner = true -> ~ absolute n -> ~ under o n ->
      same_name owner o n (n +:+ "." +:+ o +:+ ".")
  | same_apex : owner = true -> same_name owner o "@" (o +:+ ".").
Record origin (o : string) : Prop := { or_ascii : is_ascii o = true; or_name : o <> "" /\ o <> "@"; or_relative : ~ absolute o }.

Abbreviation lows := (str_map lower_byte).
Lemma byte_lower c : byte (lower_byte c) = if (65 <=? byte c) && (byte c <=? 90) then byte c + 32 else byte c.
Proof. unfold lower_byte. destruct (_ && _) eqn:E; [|done]. bool_prop. rewrite byte_chr; lia. Qed.
Lemma caseless_lower n m : caseless n m <-> lows n = lows m.
Proof.
  assert (Hchar : forall c d, (c = d \/ capital_of c d \/ capital_of d c) <-> lower_byte c = lower_byte d).
  { intros c d. transitivity (byte (lower_byte c) = byte (lower_byte d)); [|split; [apply byte_inj|by intros ->]].
    assert (Hcd : c = d <-> byte c = byte d) by (split; [by intros ->|apply byte_inj]). unfold capital_of. rewrite !byte_lower, Hcd.
    destruct (Z.leb_spec 65 (byte c)), (Z.leb_spec (byte c) 90), (Z.leb_spec 65 (byte d)), (Z.leb_spec (byte d) 90); cbn [andb]; lia. }
  split.
  - induction 1 as [|c d s t Hc _ IH]; [done|]. cbn [str_map]. apply Hchar in Hc. by rewrite Hc, IH.
  - revert m. induction n as [|c n IH]; intros [|d m]; try done; [constructor|]. cbn [str_map]. intros [= Hc Hs]. constructor; [by apply Hchar|by apply IH].
Qed.
Lemma str_map_split f s a b : str_map f s = a +:+ b -> exists x y, s = x +:+ y /\ str_map f x = a /\ str_map f y = b.
Proof.
  revert s. induction a as [|c a IH]; intros s E; [by exists "", s|]. destruct s as [|d s]; [done|]. rewrite str_app_cons in E. cbn [str_map] in E. injection E as Ec Es.
  destruct (IH _ Es) as (x & y & -> & <- & <-). exists (String d x), y. cbn [str_map]. by rewrite Ec.
Qed.
Lemma lows_dot s : lows s = "." -> s = ".".
Proof. destruct s as [|c [|]]; try done. cbn [str_map]. intros [= E]. by apply lower_byte_dot in E as ->. Qed.
Lemma under_lower o n : under o n <-> lows n = lows o \/ exists p, lows n = p +:+ "." +:+ lows o.
Proof.
  split.
  - intros (x & Hx%caseless_lower & [->|[p ->]]); [by left|right]. exists (lows p). by rewrite !str_map_app, Hx.
  - intros [E|[p E]]; [exists n; split; [by apply caseless_lower|by left]|]. apply str_map_split in E as (a & b & -> & _ & E). apply str_map_split in E as (d & x & -> & Hd & Hx).
    apply lows_dot in Hd as ->. exists x. split; [by apply caseless_lower|]. right. by exists a.
Qed.
Lemma absolute_lower n : absolute n <-> absolute (lows n).
Proof. unfold absolute. split; [intros [p ->]; exists (lows p); by rewrite str_map_app|]. intros [p E]. by eapply str_map_lower_dot. Qed.
Lemma lows_at n : lows n = "@" <-> n = "@".
Proof.
  split; [|by intros ->]. destruct n as [|c [|]]; try done. cbn [str_map]. intros [= E]. f_equal. apply Ascii.eqb_eq.
  generalize (byte_ind (fun c => implb (Ascii.eqb (lower_byte c) "@"%char) (Ascii.eqb c "@"%char)) ltac:(vm_compute; reflexivity) c). cbv beta. by rewrite E.
Qed.
Lemma lows_nil n : lows n = "" <-> n = "".
Proof. by destruct n. Qed.

(** The fully qualified form of a lower-case name under a lower-case origin. *)
Definition qualified (owner : bool) (o n : string) : string :=
  if (n =? "@")%string then if owner then o +:+ "." else "@"
  else if negb owner && (n =? "")%string then ""
  else if HasSuffix n "." then n
  else if (n =? o)%string || HasSuffix n ("." +:+ o) then n +:+ "."
  else n +:+ "." +:+ o +:+ ".".
Definition normal_name (owner : bool) (n zone : string) : string := if owner then NormalizeRecordOwnerName n zone else NormalizeDomainTargetName n zone.
Lemma NormalizeZoneName_ascii n : is_ascii n = true -> n <> "" -> NormalizeZoneName n = if HasSuffix (lows n) "." then lows n else lows n +:+ ".".
Proof. intros Ha Hn. by rewrite NormalizeZoneName_nonempty, ToLower_ascii. Qed.
Lemma NormalizeDomainName_ascii n : is_ascii n = true -> n <> "" -> n <> "@" -> NormalizeDomainName n = NormalizeZoneName n.
Proof.
  intros Ha Hn Hat. unfold NormalizeDomainName. rewrite (proj2 (String.eqb_neq _ _) Hn), (proj2 (String.eqb_neq _ _) Hat). cbn [orb].
  destruct (HasPrefix n "*.") eqn:Ep; [|done]. apply HasPrefix_true in Ep as [r ->]. change (str_drop 2 ("*." +:+ r)) with r. rewrite is_ascii_app in Ha. apply andb_true_iff in Ha as [_ Ha].
  rewrite (NormalizeZoneName_ascii ("*." +:+ r)) by done. rewrite str_map_app. change (lows "*.") with "*.".
  destruct (decide (r = "")) as [->|Hr]; [done|]. rewrite NormalizeZoneName_ascii by done.
  rewrite HasSuffix_dot_ne by (by rewrite lows_nil). by destruct (HasSuffix (lows r) ".").
Qed.
Lemma origin_zone o : origin o -> NormalizeZoneName (lows o +:+ ".") = lows o +:+ "." /\ TrimSuffix (lows o +:+ ".") "." = lows o /\ is_ascii (lows o) = true.
Proof.
  intros [Ha _ _]. pose proof (is_ascii_lower _ Ha) as Hl. split_and!; [|apply TrimSuffix_app|done]. apply NormalizeZoneName_fixed. split_and!.
  - rewrite is_ascii_app. by rewrite Hl.
  - rewrite ToLower_ascii by (rewrite is_ascii_app; by rewrite Hl). by rewrite str_map_app, str_map_lower_idem.
  - apply HasSuffix_app.
Qed.
(** The code's normal forms are the qualified lower-case names. *)
Lemma normal_name_spec owner o n : origin o -> is_ascii n = true -> normal_name owner n (lows o +:+ ".") = qualified owner (lows o) (lows n).
Proof.
  intros Ho Hn. destruct (origin_zone o Ho) as (Hz & Ht & Hlo). destruct Ho as [Hao [Hne _] Hrel].
  assert (Hend : HasSuffix (lows o) "." = false) by (apply not_true_iff_false; intros E%HasSuffix_true; by apply Hrel, absolute_lower).
  assert (Hzone : forall m, is_ascii m = true -> m <> "" -> HasSuffix m "." = false -> NormalizeZoneName m = lows m +:+ ".").
  { intros m Hm Hm0 Hd. rewrite NormalizeZoneName_append by done. by rewrite ToLower_ascii. }
  assert (Hexp : is_ascii (n +:+ "." +:+ lows o) = true /\ n +:+ "." +:+ lows o <> "" /\ n +:+ "." +:+ lows o <> "@" /\ HasSuffix (n +:+ "." +:+ lows o) "." = false).
  { rewrite !is_ascii_app, Hn, Hlo. rewrite <- str_app_assoc, HasSuffix_dot_ne by (by rewrite lows_nil). split_and!; [done| | |done]; destruct n as [|a [|]]; done. }
  destruct Hexp as (Ha1 & Hn1 & Hat1 & Hd1).
  assert (Hl1 : lows (n +:+ "." +:+ lows o) = lows n +:+ "." +:+ lows o) by (by rewrite !str_map_app, str_map_lower_idem).
  assert (Hsuf : HasSuffix (lows n) "." = HasSuffix n ".") by (rewrite <- (ToLower_ascii n) by done; by apply HasSuffix_lower_dot).
  unfold qualified, normal_name, NormalizeRecordOwnerName, NormalizeDomainTargetName, ends_with_zone. cbv zeta. rewrite !Hz, !Ht, (ToLower_ascii n), (ToLower_ascii (lows o)), str_map_lower_idem, Hsuf by done.
  assert (Eat : (n =? "@")%string = (lows n =? "@")%string) by (apply eq_true_iff_eq; by rewrite !String.eqb_eq, lows_at).
  assert (Enil : (n =? "")%string = (lows n =? "")%string) by (apply eq_true_iff_eq; by rewrite !String.eqb_eq, lows_nil).
  rewrite Eat, Enil. destruct (String.eqb_spec (lows n) "@") as [Hat|Hat].
  { rewrite orb_true_r. destruct owner; [done|]. by apply lows_at in Hat as ->. }
  rewrite orb_false_r. assert (Hat' : n <> "@") by (by rewrite <- lows_at).
  destruct owner; cbn [negb andb].
  all: destruct (String.eqb_spec (lows n) "") as [Hnil|Hnil]; [apply lows_nil in Hnil as ->; try done|].
  1: { assert (Hno : ("" =? lows o)%string || HasSuffix "" ("." +:+ lows o) = false) by (by destruct o). cbn [str_map]. rewrite Hno. change (HasSuffix "" ".") with false. cbv iota.
    rewrite Hzone by done. rewrite Hl1. by rewrite !str_app_assoc. }
  all: assert (Hn0 : n <> "") by (by rewrite <- lows_nil); rewrite ?NormalizeDomainName_ascii by done.
  all: destruct (HasSuffix n ".") eqn:Ed; [rewrite NormalizeZoneName_ascii by done; by rewrite Hsuf|].
  all: destruct (_ || _); rewrite !Hzone by done; rewrite ?Hl1, ?str_app_assoc; done.
Qed.
Lemma qualified_absolute owner o n : qualified owner o (n +:+ ".") = n +:+ ".".
Proof.
  unfold qualified. rewrite HasSuffix_app. destruct (String.eqb_spec (n +:+ ".") "@") as [E|_]; [by destruct n as [|? [|]]|].
  destruct (String.eqb_spec (n +:+ ".") "") as [E|_]; [by destruct n|]. by rewrite andb_false_r.
Qed.
Lemma is_ascii_lows n : is_ascii (lows n) = is_ascii n.
Proof.
  unfold is_ascii. rewrite str_forallb_map. induction n as [|c n IH]; [done|]. cbn [str_forallb]. rewrite IH, byte_lower. f_equal.
  destruct ((65 <=? byte c) && (byte c <=? 90)) eqn:E; [|done]. bool_prop. destruct (Z.ltb_spec (byte c + 32) 128), (Z.ltb_spec (byte c) 128); lia.
Qed.
Lemma qualified_under owner o n : origin o -> lows n = lows o \/ (exists p, lows n = p +:+ "." +:+ lows o) -> qualified owner (lows o) (lows n) = lows n +:+ ".".
Proof.
  intros [_ [Hne Hat] Hrel] Hu. assert (Hlo : lows o <> "") by (by rewrite lows_nil).
  assert (Hd : HasSuffix (lows n) "." = false).
  { apply not_true_iff_false. intros E. destruct Hu as [Hu|[p Hu]]; rewrite Hu in E; [|rewrite <- str_app_assoc, HasSuffix_dot_ne in E by done]; apply HasSuffix_true in E; by apply Hrel, absolute_lower. }
  assert (Hn : lows n <> "" /\ lows n <> "@").
  { destruct Hu as [->|[p ->]]; [by rewrite lows_nil, lows_at|]. split; [by destruct p|]. destruct p as [|? [|]]; done. }
  unfold qualified. rewrite (proj2 (String.eqb_neq _ _) (proj1 Hn)), (proj2 (String.eqb_neq _ _) (proj2 Hn)), andb_false_r, Hd.
  assert (Ht : (lows n =? lows o)%string || HasSuffix (lows n) ("." +:+ lows o) = true) by (apply orb_true_iff; by rewrite String.eqb_eq, HasSuffix_true). by rewrite Ht.
Qed.
Lemma qualified_relative owner o n : n <> "@" -> n <> "" \/ owner = true -> ~ absolute n -> ~ under o n -> qualified owner (lows o) (lows n) = lows n +:+ "." +:+ lows o +:+ ".".
Proof.
  intros Hat Hn Habs Hu. unfold qualified. destruct (String.eqb_spec (lows n) "@") as [E|_]; [by apply (proj1 (lows_at n)) in E|].
  assert (Hnil : negb owner && (lows n =? "")%string = false).
  { destruct owner; [done|]. destruct Hn as [Hn|]; [|done]. apply String.eqb_neq. by rewrite lows_nil. }
  rewrite Hnil. destruct (HasSuffix (lows n) ".") eqn:Ed; [apply HasSuffix_true in Ed; by apply absolute_lower in Ed|].
  destruct (_ || _) eqn:E; [|done]. apply orb_true_iff in E. rewrite String.eqb_eq, HasSuffix_true in E. by apply under_lower in E.
Qed.

(** Two spellings have one normal form, and a normal form is a spelling: names
    have the same normal form exactly when they are spellings of one name. *)
Lemma same_name_normal owner o n m : origin o -> same_name owner o n m -> normal_name owner n (lows o +:+ ".") = normal_name owner m (lows o +:+ ".").
Proof.
  intros Ho. induction 1 as [n|n m _ IH|n m k _ IH1 _ IH2|n m Hn Hc|n Hn Hu|n Hn Hat Hnil Habs Hu|Hown]; [done|done|congruence|..].
  - apply caseless_lower in Hc. rewrite !normal_name_spec; [by rewrite Hc|done| |done|done]. by rewrite <- is_ascii_lows, <- Hc, is_ascii_lows.
  - rewrite !normal_name_spec by (done || (rewrite is_ascii_app; by rewrite Hn)). rewrite str_map_app, qualified_absolute. apply qualified_under; [done|]. by apply under_lower.
  - pose proof (or_ascii _ Ho) as Hao. rewrite !normal_name_spec by (done || (rewrite !is_ascii_app; by rewrite Hn, Hao)). rewrite qualified_relative by done.
    rewrite !str_map_app. change (lows ".") with ".". by rewrite <- !str_app_assoc, qualified_absolute.
  - pose proof (or_ascii _ Ho) as Hao. rewrite Hown, !normal_name_spec by (done || (rewrite is_ascii_app; by rewrite Hao)). cbn [str_map]. rewrite str_map_app, qualified_absolute. done.
Qed.
Lemma spelled_normal owner o n : origin o -> is_ascii n = true -> same_name owner o n (normal_name owner n (lows o +:+ ".")).
Proof.
  intros Ho Hn. rewrite normal_name_spec by done. pose proof (or_ascii _ Ho) as Hao.
  assert (Hlow : forall m, is_ascii m = true -> same_name owner o m (lows m)) by (intros m Hm; apply same_case; [done|]; apply caseless_lower; by rewrite str_map_lower_idem).
  destruct (decide (n = "@")) as [->|Hat].
  { unfold qualified. cbn [String.eqb str_map]. destruct owner; [|apply same_refl]. eapply same_trans; [by apply same_apex|]. change (lows o +:+ ".") with (lows o +:+ lows "."). rewrite <- str_map_app. apply Hlow. rewrite is_ascii_app. by rewrite Hao. }
  destruct ((lows n =? lows o)%string || HasSuffix (lows n) ("." +:+ lows o)) eqn:Eu.
  { apply orb_true_iff in Eu. rewrite String.eqb_eq, HasSuffix_true in Eu. rewrite qualified_under by done. apply under_lower in Eu. eapply same_trans; [by apply same_dot|].
    change (lows n +:+ ".") with (lows n +:+ lows "."). rewrite <- str_map_app. apply Hlow. rewrite is_ascii_app. by rewrite Hn. }
  assert (Hu : ~ under o n).
  { rewrite under_lower. apply not_true_iff_false in Eu. by rewrite orb_true_iff, String.eqb_eq, HasSuffix_true in Eu. }
  destruct (HasSuffix (lows n) ".") eqn:Ed.
  { apply HasSuffix_true in Ed as [p Ed]. rewrite Ed, qualified_absolute, <- Ed. by apply Hlow. }
  assert (Habs : ~ absolute n) by (rewrite absolute_lower; intros Ha; apply HasSuffix_true in Ha; congruence).
  destruct (decide (n <> "" \/ owner = true)) as [Hne|Hne].
  - rewrite qualified_relative by done. eapply same_trans; [by apply same_relative|]. change (lows n +:+ "." +:+ lows o +:+ ".") with (lows n +:+ lows "." +:+ lows o +:+ lows "."). rewrite <- !str_map_app. apply Hlow.
    rewrite !is_ascii_app. by rewrite Hn, Hao.
  - assert (n = "" /\ owner = false) as [-> ->] by (destruct (decide (n = "")), owner; tauto). apply same_refl.
Qed.
Lemma same_name_iff owner o n m : origin o -> is_ascii n = true -> is_ascii m = true ->
  normal_name owner n (lows o +:+ ".") = normal_name owner m (lows o +:+ ".") -> same_name owner o n m.
Proof. intros Ho Hn Hm E. eapply same_trans; [by apply spelled_normal|]. rewrite E. apply same_sym. by apply spelled_normal. Qed.
Lemma normal_name_ascii owner o n : origin o -> is_ascii n = true -> is_ascii (normal_name owner n (lows o +:+ ".")) = true.
Proof.
  intros Ho Hn. rewrite normal_name_spec by done. pose proof (or_ascii _ Ho) as Hao. unfold qualified. rewrite <- is_ascii_lows in Hn, Hao.
  repeat case_match; rewrite ?is_ascii_app; by rewrite ?Hn, ?Hao.
Qed.
(** The name of a zone. *)
Definition spells_zone (o n : string) : Prop := caseless n o \/ caseless n (o +:+ ".").
Lemma spells_zone_normal o n : origin o -> spells_zone o n -> NormalizeZoneName n = lows o +:+ ".".
Proof.
  intros Ho Hn. destruct (origin_zone o Ho) as (Hz & _ & _). destruct Ho as [Hao [Hne _] Hrel]. destruct Hn as [Hn%caseless_lower|Hn%caseless_lower].
  - assert (Ha : is_ascii n = true) by (by rewrite <- is_ascii_lows, Hn, is_ascii_lows). assert (Hn0 : n <> "") by (rewrite <- lows_nil, Hn; by rewrite lows_nil).
    rewrite NormalizeZoneName_ascii, Hn by done. destruct (HasSuffix (lows o) ".") eqn:E; [|done]. apply HasSuffix_true in E. exfalso. by apply Hrel, absolute_lower.
  - assert (Ha : is_ascii n = true) by (rewrite <- is_ascii_lows, Hn, is_ascii_lows, is_ascii_app; by rewrite Hao).
    assert (Hn0 : n <> "") by (intros ->; rewrite str_map_app in Hn; by destruct (lows o)).
    rewrite NormalizeZoneName_ascii, Hn by done. by rewrite str_map_app, HasSuffix_app.
Qed.
Lemma dns_name_origin n : dns_name n -> exists o, origin o /\ spells_zone o n.
Proof.
  intros (_ & ls & Hne & Hls & Hn). exists (dotted ls). destruct (dotted_last ls Hne Hls) as [H0 Hd]. split.
  - split; [by apply dotted_ascii| |intros Ha; apply HasSuffix_true in Ha; congruence]. split; [done|]. intros E.
    assert (Hdn : dns_name "@") by (split; [by vm_compute|]; exists ls; auto). by apply dns_name_not_special in Hdn as (_ & ? & _).
  - destruct Hn as [->| ->]; [left|right]; by apply caseless_lower.
Qed.

Inductive same_value (o t : string) : string -> string -> Prop :=
  | value_as_is v : same_value o t v v
  | value_name v w : t ∈ [RecordTypeCNAME; RecordTypeNS; RecordTypePTR] -> same_name false o v w -> same_value o t v w
  | value_MX v w p n m : t = RecordTypeMX -> Fields v = [p; n] -> Fields w = [p; m] -> same_name false o n m -> same_value o t v w
  | value_SRV v w p q r n m : t = RecordTypeSRV -> Fields v = [p; q; r; n] -> Fields w = [p; q; r; m] -> same_name false o n m -> same_value o t v w.

(** ** Zones with the same content

    [zone_equiv] says it without the code: one zone name, the same SOA and DNSSEC
    settings and the same records in some order, with names and the names in values
    spelled in any way.  Versions, timestamps, record identifiers, priorities and
    the signature expiration do not matter. *)
Record same_record (o : string) (r r' : ZRecord) : Prop := {
  sr_name : same_name true o (rec_Name r) (rec_Name r');
  sr_type : rec_Type r = rec_Type r';
  sr_ttl : rec_TTL r = rec_TTL r';
  sr_value : same_value o (rec_Type r) (rec_Value r) (rec_Value r') }.
Record same_soa (o : string) (s s' : SOARecord) : Prop := {
  ss_mname : same_name false o (MName s) (MName s');
  ss_rname : same_name false o (RName s) (RName s');
  ss_numbers : Serial s = Serial s' /\ Refresh s = Refresh s' /\ Retry s = Retry s' /\ Expire s = Expire s' /\ Minimum s = Minimum s' }.
Definition same_dnssec (d d' : DNSSECConfig) : Prop :=
  Enabled d = Enabled d' /\ Algorithm d = Algorithm d' /\ KSKKeyTag d = KSKKeyTag d' /\ ZSKKeyTag d = ZSKKeyTag d'
  /\ NSEC3Enabled d = NSEC3Enabled d' /\ NSEC3Iterations d = NSEC3Iterations d' /\ NSEC3Salt d = NSEC3Salt d'.
Definition zone_equiv (z z' : Zone) : Prop := exists o, origin o /\ spells_zone o (z_Name z) /\ spells_zone o (z_Name z')
  /\ same_soa o (z_SOA z) (z_SOA z') /\ (exists rs, z_Records z ≡ₚ rs /\ Forall2 (same_record o) rs (z_Records z'))
  /\ option_Forall2 same_dnssec (z_DNSSEC z) (z_DNSSEC z').

(** The normal forms respect it. *)
Lemma same_value_normal o t v w : origin o -> same_value o t v w -> normalizeRecordValue t v (lows o +:+ ".") = normalizeRecordValue t w (lows o +:+ ".").
Proof.
  intros Ho [u|u x Ht Hn|u x p n m -> Hu Hx Hn|u x p q r n m -> Hu Hx Hn]; [done|..]; apply (same_name_normal _ _ _ _ Ho) in Hn; cbn [normal_name] in Hn; unfold normalizeRecordValue.
  - assert (Hs : is_single_name_type t = true) by (unfold is_single_name_type; rewrite !orb_true_iff, !String.eqb_eq; rewrite !elem_of_cons, elem_of_nil in Ht; tauto). by rewrite Hs.
  - cbn. by rewrite Hu, Hx, Hn.
  - cbn. by rewrite Hu, Hx, Hn.
Qed.
Lemma same_record_normal o r r' : origin o -> same_record o r r' -> normalize_record (lows o +:+ ".") r = normalize_record (lows o +:+ ".") r'.
Proof. intros Ho [Hn Ht Hl Hv]. unfold normalize_record, expandOwnerName. f_equal; [by apply (same_name_normal true)|done|done|]. rewrite <- Ht. by apply same_value_normal. Qed.
Lemma same_soa_normal o s s' : origin o -> same_soa o s s' -> normalize_soa (lows o +:+ ".") s = normalize_soa (lows o +:+ ".") s'.
Proof. intros Ho [Hm Hr (H1 & H2 & H3 & H4 & H5)]. unfold normalize_soa. f_equal; try done; by apply (same_name_normal false). Qed.
Lemma same_dnssec_normal d d' : option_Forall2 same_dnssec d d' <-> option_map normalize_dnssec d = option_map normalize_dnssec d'.
Proof.
  split.
  - intros [a b (H1 & H2 & H3 & H4 & H5 & H6 & H7)|]; [|done]. cbn. unfold normalize_dnssec. by rewrite H1, H2, H3, H4, H5, H6, H7.
  - destruct d as [a|], d' as [b|]; try done; [|constructor]. cbn. intros [= H1 H2 H3 H4 H5 H6 H7]. constructor. by split_and!.
Qed.
Lemma zone_equiv_normal z z' : zone_equiv z z' -> NormalizeZoneForHashing z = NormalizeZoneForHashing z' /\ Serial (z_SOA z) = Serial (z_SOA z').
Proof.
  intros (o & Ho & Hn & Hn' & Hs & (rs & Hp & Hrs) & Hd%same_dnssec_normal). split; [|by destruct Hs as [_ _ (? & _)]]. unfold NormalizeZoneForHashing.
  rewrite (spells_zone_normal o (z_Name z)), (spells_zone_normal o (z_Name z')), (same_soa_normal o _ _ Ho Hs), Hd by done.
  rewrite (sort_Slice_perm record_less _ (map (normalize_record (lows o +:+ ".")) (z_Records z'))); [done|intros x y _ _; apply record_less_tie|].
  rewrite Hp. apply Permutation_refl'. clear Hp. by induction Hrs as [|r r' rs rs' Hr _ IH]; [|cbn [map]; rewrite IH, (same_record_normal o r r' Ho Hr)].
Qed.

(** ** The canonical form determines the content *)
Definition record_tree (r : normalizedRecord) : json :=
  JObject [("name", JString (nr_Name r)); ("type", JString (nr_Type r)); ("ttl", JNumber (Itoa (nr_TTL r))); ("value", JString (nr_Value r))].
Definition soa_tree (s : SOARecord) : json :=
  JObject [("mname", JString (MName s)); ("rname", JString (RName s)); ("serial", JNumber (Itoa (Serial s))); ("refresh", JNumber (Itoa (Refresh s)));
           ("retry", JNumber (Itoa (Retry s))); ("expire", JNumber (Itoa (Expire s))); ("minimum", JNumber (Itoa (Minimum s)))].
Definition opt_number (k : string) (n : Z) : list (string * json) := if n =? 0 then [] else [(k, JNumber (Itoa n))].
Definition dnssec_fields (d : DNSSECConfig) : list (string * json) :=
  [("enabled", JBool (Enabled d)); ("algorithm", JNumber (Itoa (Algorithm d)))] ++ opt_number "ksk_key_tag" (KSKKeyTag d) ++ opt_number "zsk_key_tag" (ZSKKeyTag d)
  ++ [("nsec3_enabled", JBool (NSEC3Enabled d))] ++ opt_number "nsec3_iterations" (NSEC3Iterations d)
  ++ (if (NSEC3Salt d =? "")%string then [] else [("nsec3_salt", JString (NSEC3Salt d))]).
Definition zone_tree (n : string) (s : SOARecord) (rs : list normalizedRecord) (d : option DNSSECConfig) : json :=
  JObject ([("name", JString n); ("soa", soa_tree s); ("records", JArray (map record_tree rs))]
    ++ match d with Some d => [("dnssec", JObject (dnssec_fields d))] | None => [] end).
Lemma pretty_head x s : (0 < x)%N -> exists c p, pretty.pretty_N_go x s = String c (p +:+ s) /\ is_digit c = true /\ c <> "0"%char /\ str_forallb is_digit p = true.
Proof.
  revert s. induction (N.lt_wf_0 x) as [x _ IH]. intros s Hx. rewrite pretty.pretty_N_go_step by done.
  destruct (N.ltb_spec x 10) as [Hlt|Hge].
  - rewrite N.div_small, pretty.pretty_N_go_0, N.mod_small by done. exists (pretty.pretty_N_char x), "". rewrite str_app_nil_l. split_and!; [done|apply pretty_char_is_digit| |done].
    destruct (pretty_char_digit x Hlt) as [_ Hv]. intros E. rewrite E in Hv. change (byte "0") with 48 in Hv. lia.
  - destruct (IH (x / 10)%N ltac:(apply N.div_lt; lia) (String (pretty.pretty_N_char (x mod 10)) s)) as (c & p & -> & Hc & Hc0 & Hp); [apply N.div_str_pos; lia|].
    exists c, (p +:+ str1 (pretty.pretty_N_char (x mod 10))). rewrite str_app_assoc. split_and!; [done|done|done|]. rewrite str_forallb_app, Hp. cbn. by rewrite pretty_char_is_digit.
Qed.
Lemma span_digits p : str_forallb is_digit p = true -> span is_digit p = (p, "").
Proof. intros Hp. pose proof (span_app is_digit p "" Hp I) as E. by rewrite str_app_nil_r in E. Qed.
Lemma number_ok_positive c p : is_digit c = true -> c <> "0"%char -> str_forallb is_digit p = true -> number_ok (String c p) = true /\ number_ok (String "-" (String c p)) = true.
Proof.
  intros Hc Hc0 Hp. assert (Hs : span is_digit (String c p) = (String c p, "")) by (apply span_digits; cbn [str_forallb]; by rewrite Hc).
  assert (Hz : negb (byte c =? 48) = true) by (apply negb_true_iff, Z.eqb_neq; intros E; by apply (byte_inj c "0"%char) in E).
  assert (Hm : (byte c =? 45) = false) by (unfold is_digit in Hc; bool_prop; apply Z.eqb_neq; lia).
  unfold number_ok. rewrite Hm, Hs. cbn [byte]. change (byte "-" =? 45) with true. cbv iota. rewrite Hs, Hz. done.
Qed.
Lemma digit_number_char p : str_forallb is_digit p = true -> str_forallb number_char p = true.
Proof. apply str_forallb_impl. intros c Hc. unfold number_char. by rewrite Hc. Qed.
Lemma Itoa_number z : number_ok (Itoa z) = true /\ str_forallb number_char (Itoa z) = true.
Proof.
  destruct z as [|p|p]; [done|..].
  all: destruct (pretty_head (N.pos p) "" ltac:(lia)) as (c & q & E & Hc & Hc0 & Hq); rewrite str_app_nil_r in E; destruct (number_ok_positive c q Hc Hc0 Hq) as [H1 H2].
  all: assert (Hn : str_forallb number_char (String c q) = true) by (apply digit_number_char; cbn [str_forallb]; by rewrite Hc).
  - change (Itoa (Z.pos p)) with (pretty.pretty_N_go (N.pos p) ""). by rewrite E.
  - change (Itoa (Z.neg p)) with ("-" +:+ pretty.pretty_N_go (N.pos p) ""). rewrite E. split; [exact H2|]. cbn [String.append str_forallb]. exact Hn.
Qed.

Lemma print_dnssec k d : print compact k (JObject (dnssec_fields d)) = json_dnssec d.
Proof. unfold json_dnssec, dnssec_fields, opt_number, omit_zero, omit_empty. repeat case_match; reflexivity. Qed.
Lemma print_records k rs : print compact k (JArray (map record_tree rs)) = json_array (map json_record rs).
Proof.
  destruct rs as [|r rs]; [done|]. unfold json_array. cbn [print map]. f_equal. change ("," +:+ nl compact (S k)) with ",". change (nl compact ?x) with "". rewrite !str_app_nil_l. f_equal. f_equal.
  change (print compact (S k) (record_tree r) :: map (print compact (S k)) (map record_tree rs)) with (map (print compact (S k)) (map record_tree (r :: rs))).
  change (json_record r :: map json_record rs) with (map json_record (r :: rs)). rewrite map_map. by apply map_ext.
Qed.
Lemma canonical_tree z : let n := NormalizeZoneName (z_Name z) in
  NormalizeZoneForHashing z = Ok (print compact 0 (zone_tree n (normalize_soa n (z_SOA z)) (sort_Slice record_less (map (normalize_record n) (z_Records z))) (option_map normalize_dnssec (z_DNSSEC z)))).
Proof.
  cbv zeta. unfold NormalizeZoneForHashing, zone_tree, json_object. f_equal. set (rs := sort_Slice _ _). rewrite <- (print_records 1 rs).
  destruct (z_DNSSEC z) as [d|]; cbn [option_map app]; [rewrite <- (print_dnssec 1)|]; reflexivity.
Qed.
Lemma Itoa_inj a b : Itoa a = Itoa b -> a = b.
Proof. apply (inj pretty). Qed.
#[local] Instance record_tree_inj : Inj (=) (=) record_tree.
Proof. intros [] []. cbn. by intros [= -> -> ->%Itoa_inj ->]. Qed.
Lemma soa_tree_inj s s' : soa_tree s = soa_tree s' -> s = s'.
Proof. destruct s, s'. cbn. by intros [= -> -> ->%Itoa_inj ->%Itoa_inj ->%Itoa_inj ->%Itoa_inj ->%Itoa_inj]. Qed.
Definition pick (k : string) (l : list (string * json)) : option json := foldr (fun kv found => if (fst kv =? k)%string then Some (snd kv) else found) None l.
Definition opt_tree (n : Z) : option json := if n =? 0 then None else Some (JNumber (Itoa n)).
Lemma opt_tree_inj a b : opt_tree a = opt_tree b -> a = b.
Proof. unfold opt_tree. destruct (Z.eqb_spec a 0), (Z.eqb_spec b 0); try done; [lia|]. by intros [= ?%Itoa_inj]. Qed.
Lemma dnssec_fields_pick d : let f k := pick k (dnssec_fields d) in
  f "enabled" = Some (JBool (Enabled d)) /\ f "algorithm" = Some (JNumber (Itoa (Algorithm d))) /\ f "ksk_key_tag" = opt_tree (KSKKeyTag d) /\ f "zsk_key_tag" = opt_tree (ZSKKeyTag d)
  /\ f "nsec3_enabled" = Some (JBool (NSEC3Enabled d)) /\ f "nsec3_iterations" = opt_tree (NSEC3Iterations d)
  /\ f "nsec3_salt" = if (NSEC3Salt d =? "")%string then None else Some (JString (NSEC3Salt d)).
Proof. unfold dnssec_fields, opt_number, opt_tree. repeat case_match; by split_and!. Qed.
Lemma dnssec_fields_inj d d' : dnssec_fields d = dnssec_fields d' -> same_dnssec d d'.
Proof.
  intros E. destruct (dnssec_fields_pick d) as (A1 & A2 & A3 & A4 & A5 & A6 & A7), (dnssec_fields_pick d') as (B1 & B2 & B3 & B4 & B5 & B6 & B7). rewrite E in *.
  unfold same_dnssec. split_and!; [congruence|apply Itoa_inj; congruence|apply opt_tree_inj; congruence|apply opt_tree_inj; congruence|congruence|apply opt_tree_inj; congruence|].
  rewrite A7 in B7. destruct (String.eqb_spec (NSEC3Salt d) ""), (String.eqb_spec (NSEC3Salt d') ""); congruence.
Qed.
Lemma zone_tree_inj n s rs d n' s' rs' d' : zone_tree n s rs d = zone_tree n' s' rs' d' -> n = n' /\ s = s' /\ rs = rs' /\ option_Forall2 same_dnssec d d'.
Proof.
  intros E. set (f k j := match j with JObject l => pick k l | _ => None end).
  assert (En : Some (JString n) = Some (JString n')) by exact (f_equal (f "name") E).
  assert (Es : Some (soa_tree s) = Some (soa_tree s')) by exact (f_equal (f "soa") E).
  assert (Er : Some (JArray (map record_tree rs)) = Some (JArray (map record_tree rs'))) by exact (f_equal (f "records") E).
  assert (Ed : option_map (fun d => JObject (dnssec_fields d)) d = option_map (fun d => JObject (dnssec_fields d)) d').
  { pose proof (f_equal (f "dnssec") E) as Ed. by destruct d, d'. }
  split_and!; [congruence|apply soa_tree_inj; congruence|apply (inj (fmap record_tree)); change (map record_tree rs = map record_tree rs'); congruence|].
  destruct d as [d|], d' as [d'|]; try done; constructor. apply dnssec_fields_inj. cbn [option_map] in Ed. congruence.
Qed.

Definition text_ok (r : normalizedRecord) : Prop := utf8 (nr_Name r) /\ utf8 (nr_Type r) /\ utf8 (nr_Value r).
Lemma record_tree_ok r : text_ok r -> json_ok (record_tree r).
Proof. intros (Hn & Ht & Hv). pose proof (Itoa_number (nr_TTL r)). cbn. split_and!; try done; try tauto; by apply ascii_utf8. Qed.
Lemma soa_tree_ok s : utf8 (MName s) -> utf8 (RName s) -> json_ok (soa_tree s).
Proof.
  intros Hm Hr. assert (Hnum : forall n, json_ok (JNumber (Itoa n))) by (intros n; apply Itoa_number). cbn [soa_tree json_ok foldr fst snd].
  split_and!; try done; try apply Itoa_number; by apply ascii_utf8.
Qed.
Lemma dnssec_fields_ok d : utf8 (NSEC3Salt d) -> json_ok (JObject (dnssec_fields d)).
Proof.
  intros Hs. unfold dnssec_fields, opt_number. repeat case_match; cbn [app json_ok foldr fst snd]; split_and!; try done; try apply Itoa_number; by apply ascii_utf8.
Qed.
Lemma json_object_ok l : Forall (fun kv => utf8 (fst kv) /\ json_ok (snd kv)) l -> json_ok (JObject l).
Proof. induction 1 as [|kv l [Hk Hv] _ IH]; [done|]. split; [done|]. split; [done|]. exact IH. Qed.
Lemma jdepth_object l k : Forall (fun kv => jdepth (snd kv) <= k)%nat l -> (jdepth (JObject l) <= S k)%nat.
Proof. intros Hl. change (jdepth (JObject l)) with (S (foldr (fun kv n => Nat.max (jdepth (snd kv)) n) 0%nat l)). induction Hl as [|kv l Hk _ IH]; cbn [foldr]; lia. Qed.
Lemma zone_tree_ok n s rs d : utf8 n -> utf8 (MName s) -> utf8 (RName s) -> Forall text_ok rs -> (forall x, d = Some x -> utf8 (NSEC3Salt x)) ->
  json_ok (zone_tree n s rs d) /\ (jdepth (zone_tree n s rs d) <= maxNestingDepth)%nat.
Proof.
  intros Hn Hm Hr Hrs Hd. split.
  - assert (Hrec : json_ok (JArray (map record_tree rs))) by (cbn [json_ok]; apply foldr_and_Forall, Forall_map; eapply Forall_impl; [exact Hrs|exact record_tree_ok]).
    pose proof (soa_tree_ok s Hm Hr) as Hs. unfold zone_tree.
    destruct d as [d|]; cbn [app]; [pose proof (dnssec_fields_ok d (Hd d eq_refl)) as Hdn|]; apply json_object_ok; repeat apply Forall_cons_2; try apply Forall_nil_2;
      (split; cbn [fst snd]; [by apply ascii_utf8|done]).
  - assert (Hbound : (4 <= maxNestingDepth)%nat) by (apply Nat.leb_le; vm_compute; reflexivity).
    assert (Hl : (jdepth (JArray (map record_tree rs)) <= 2)%nat) by (cbn [jdepth]; clear; induction rs as [|r rs IH]; cbn in *; lia).
    assert (Hs : (jdepth (soa_tree s) <= 1)%nat) by done.
    etransitivity; [|exact Hbound]. etransitivity; [apply (jdepth_object _ 2)|lia]. destruct d as [d|]; cbn [app]; repeat apply Forall_cons_2; try apply Forall_nil_2; cbn [snd]; try (cbn; lia); try lia.
    transitivity 1%nat; [|lia]. apply (jdepth_object _ 0). unfold dnssec_fields, opt_number. repeat case_match; cbn [app]; repeat apply Forall_cons_2; try apply Forall_nil_2; done.
Qed.

(** Zones as validation leaves them: a name, an SOA and values of the forms of
    [ZoneRules], names in ASCII and texts in UTF-8. *)
Record readable (z : Zone) : Prop := {
  rd_name : dns_name (z_Name z);
  rd_soa : soa_rules (NormalizeZoneName (z_Name z)) (z_SOA z);
  rd_records : Forall (fun r => is_ascii (rec_Name r) = true /\ ValidString (rec_Value r) = true
      /\ value_rule (NormalizeZoneName (z_Name z)) (rec_Type r) (rec_Value r)) (z_Records z);
  rd_salt : forall d, z_DNSSEC z = Some d -> ValidString (NSEC3Salt d) = true }.
Lemma domain_ascii n : domain n -> is_ascii n = true.
Proof. intros [->|(_ & ls & _ & Hls & [-> | ->])]; rewrite ?is_ascii_app, ?dotted_ascii by done; done. Qed.
Lemma digits_plain s : forall acc v, digits_value acc s = Some v -> str_forallb is_digit s = true.
Proof. induction s as [|a s IH]; intros acc v; [done|]. cbn [digits_value str_forallb]. destruct (is_digit a); [|done]. intros E. by apply IH in E. Qed.
Lemma uint16_plain p : uint16_text p -> is_ascii p = true /\ lacks " "%char p.
Proof.
  intros (n & E & _). unfold Atoi in E. destruct p as [|a t]; [done|].
  assert (Hdig : forall s, str_forallb is_digit s = true -> is_ascii s = true /\ lacks " "%char s).
  { intros s Hs. split; (eapply str_forallb_impl; [|exact Hs]); intros c Hc; unfold is_digit in Hc; bool_prop; [apply Z.ltb_lt; lia|]. apply negb_true_iff, Ascii.eqb_neq. intros ->. change (byte " ") with 32 in *. lia. }
  assert (Hnum : forall s v, (if (s =? "")%string then None else digits_value 0 s) = Some v -> is_ascii s = true /\ lacks " "%char s).
  { intros s v. destruct (s =? "")%string; [done|]. intros Hv. by eapply Hdig, digits_plain. }
  assert (Hsign : byte a = 45 \/ byte a = 43 -> is_ascii t = true /\ lacks " "%char t -> is_ascii (String a t) = true /\ lacks " "%char (String a t)).
  { intros Ha [Ht Hl]. assert (a = "-"%char \/ a = "+"%char) as [-> | ->] by (destruct Ha; [left|right]; by apply byte_inj); done. }
  destruct (Z.eqb_spec (byte a) 45); [|destruct (Z.eqb_spec (byte a) 43)].
  - apply Hsign; [auto|]. destruct (if (t =? "")%string then None else digits_value 0 t) eqn:Et; [|done]. by eapply Hnum.
  - apply Hsign; [auto|]. destruct (if (t =? "")%string then None else digits_value 0 t) eqn:Et; [|done]. by eapply Hnum.
  - destruct (if (String a t =? "")%string then None else digits_value 0 (String a t)) eqn:Et; [|done]. by eapply Hnum.
Qed.
Lemma first_field p n q m : uint16_text p -> uint16_text q -> p +:+ " " +:+ n = q +:+ " " +:+ m -> p = q /\ n = m.
Proof.
  intros [_ Hp]%uint16_plain [_ Hq]%uint16_plain E. pose proof (Split_app " "%char p n Hp) as H1. pose proof (Split_app " "%char q m Hq) as H2. change (str1 " "%char) with " " in *.
  rewrite E, H2 in H1. injection H1 as -> _. split; [done|]. by apply str_app_inj_l in E as E%str_app_inj_l.
Qed.
Lemma value_same o t v w : origin o -> value_rule (lows o +:+ ".") t v -> value_rule (lows o +:+ ".") t w ->
  normalizeRecordValue t v (lows o +:+ ".") = normalizeRecordValue t w (lows o +:+ ".") -> same_value o t v w.
Proof.
  intros Ho Hv Hw E. pose proof (fun n m Hn Hm => same_name_iff false o n m Ho (domain_ascii n Hn) (domain_ascii m Hm)) as Hname. cbn [normal_name] in Hname.
  inversion Hv as [v' Hv'|v' ip Hi Hip|t' v' Ht [Hn _]|v' p n Hf Hp [Hn _]|v' p q r n Hf Hp Hq Hr [Hn _]|v' Hl Hp|v' num tag ws fl txt Hf]; subst.
  all: try (cbn in E; subst w; apply value_as_is).
  - assert (Hs : is_single_name_type t = true) by (unfold is_single_name_type; rewrite !orb_true_iff, !String.eqb_eq; rewrite !elem_of_cons, elem_of_nil in Ht; tauto).
    unfold normalizeRecordValue in E. rewrite Hs in E. apply value_name; [done|]. apply Hname; [done| |done].
    inversion Hw as [| |t' v' _ [Hn' _]| | | | ]; subst; try done.
  - inversion Hw as [| |t' v' Ht| v' p' n' Hf' Hp' [Hn' _]| | |]; subst; [by rewrite !elem_of_cons, elem_of_nil in Ht; destruct Ht as [|[|[|]]]|]. cbn in E. rewrite Hf, Hf' in E.
    apply first_field in E as [-> E]; [|done|done]. eapply value_MX; [done|exact Hf|exact Hf'|by apply Hname].
  - inversion Hw as [| |t' v' Ht| |v' p' q' r' n' Hf' Hp' Hq' Hr' [Hn' _]| |]; subst; [by rewrite !elem_of_cons, elem_of_nil in Ht; destruct Ht as [|[|[|]]]|]. cbn in E. rewrite Hf, Hf' in E.
    apply first_field in E as [-> E]; [|done|done]. apply first_field in E as [-> E]; [|done|done]. apply first_field in E as [-> E]; [|done|done]. eapply value_SRV; [done|exact Hf|exact Hf'|by apply Hname].
Qed.
Lemma value_text o t v : origin o -> value_rule (lows o +:+ ".") t v -> utf8 v -> utf8 t /\ utf8 (normalizeRecordValue t v (lows o +:+ ".")).
Proof.
  intros Ho Hv Hu. assert (Hname : forall n, domain n -> is_ascii (NormalizeDomainTargetName n (lows o +:+ ".")) = true) by (intros n Hn%domain_ascii; by apply (normal_name_ascii false)).
  inversion Hv as [v' Hv'|v' ip Hi Hip|t' v' Ht [Hn _]|v' p n Hf Hp [Hn _]|v' p q r n Hf Hp Hq Hr [Hn _]|v' Hl Hp|v' num tag ws fl txt Hf]; subst; try (by split; [apply ascii_utf8|]).
  - rewrite !elem_of_cons, elem_of_nil in Ht. destruct Ht as [->|[->|[->|[]]]]; (split; [by apply ascii_utf8|]); by apply ascii_utf8, Hname.
  - split; [by apply ascii_utf8|]. cbn. rewrite Hf. apply ascii_utf8. apply uint16_plain in Hp as [Hp _]. rewrite !is_ascii_app, Hp, Hname by done. done.
  - split; [by apply ascii_utf8|]. cbn. rewrite Hf. apply ascii_utf8. apply uint16_plain in Hp as [Hp _], Hq as [Hq _], Hr as [Hr _]. rewrite !is_ascii_app, Hp, Hq, Hr, Hname by done. done.
Qed.
Lemma readable_tree z o : readable z -> origin o -> spells_zone o (z_Name z) -> let n := lows o +:+ "." in
  let tree := zone_tree n (normalize_soa n (z_SOA z)) (sort_Slice record_less (map (normalize_record n) (z_Records z))) (option_map normalize_dnssec (z_DNSSEC z)) in
  NormalizeZoneForHashing z = Ok (print compact 0 tree) /\ json_parse (print compact 0 tree) = Some tree.
Proof.
  intros [_ [[Hm _] [Hr _] _] Hrs Hsalt] Ho Hn. pose proof (canonical_tree z) as Hc. cbv zeta in *. rewrite (spells_zone_normal o (z_Name z)) in * by done. split; [done|].
  match goal with |- json_parse (print compact 0 ?t) = _ => set (tree := t) end. destruct (zone_tree_ok (lows o +:+ ".") (normalize_soa (lows o +:+ ".") (z_SOA z))
    (sort_Slice record_less (map (normalize_record (lows o +:+ ".")) (z_Records z))) (option_map normalize_dnssec (z_DNSSEC z))) as [Hok Hdepth].
  - apply ascii_utf8. rewrite is_ascii_app, is_ascii_lows, (or_ascii _ Ho). done.
  - apply ascii_utf8. by apply (normal_name_ascii false), domain_ascii.
  - apply ascii_utf8. by apply (normal_name_ascii false), domain_ascii.
  - rewrite (sort_Slice_Permutation record_less). apply Forall_map. eapply Forall_impl; [exact Hrs|]. intros r (Ha & Hv & Hrule). apply ValidString_utf8 in Hv.
    destruct (value_text o _ _ Ho Hrule Hv) as [Ht Hval]. split_and!; [|done|done]. apply ascii_utf8. by apply (normal_name_ascii true).
  - intros d. destruct (z_DNSSEC z) as [d0|] eqn:Ed; [|done]. intros [= <-]. apply ValidString_utf8. by apply (Hsalt d0).
  - rewrite <- (str_app_nil_r (print compact 0 tree)). apply json_round_trip; [apply compact_ok|done|done|done].
Qed.
Lemma canonical_equiv z z' : readable z -> readable z' -> NormalizeZoneForHashing z = NormalizeZoneForHashing z' -> zone_equiv z z'.
Proof.
  intros Hz Hz' E. destruct (dns_name_origin _ (rd_name _ Hz)) as (o & Ho & Hn), (dns_name_origin _ (rd_name _ Hz')) as (o' & Ho' & Hn').
  destruct (readable_tree z o Hz Ho Hn) as [Ec Ep], (readable_tree z' o' Hz' Ho' Hn') as [Ec' Ep']. rewrite Ec, Ec' in E.
  assert (Et : forall a b, Ok (print compact 0 a) = Ok (print compact 0 b) -> json_parse (print compact 0 a) = Some a -> json_parse (print compact 0 b) = Some b -> a = b) by congruence.
  apply Et in E; [|exact Ep|exact Ep']. apply zone_tree_inj in E as (Eo & Es & Er & Ed). apply str_app_inj_r in Eo.
  assert (Hn2 : spells_zone o (z_Name z')) by (destruct Hn' as [Hc%caseless_lower|Hc%caseless_lower]; [left|right]; apply caseless_lower; rewrite ?str_map_app in *; congruence).
  rewrite <- Eo in *. exists o. split_and!; [done|done|done| | |].
  - destruct Hz as [_ [[Hm _] [Hr _] _] _ _], Hz' as [_ [[Hm' _] [Hr' _] _] _ _]. unfold normalize_soa in Es. injection Es as E1 E2 E3 E4 E5 E6 E7.
    split; [apply same_name_iff; by try apply domain_ascii|apply same_name_iff; by try apply domain_ascii|by split_and!].
  - assert (Hp : map (normalize_record (lows o +:+ ".")) (z_Records z') ≡ₚ map (normalize_record (lows o +:+ ".")) (z_Records z)) by (by rewrite <- (sort_Slice_Permutation record_less (map _ (z_Records z))), Er, sort_Slice_Permutation).
    apply Permutation_map_inv in Hp as (rs & Em & Hp). exists rs. split; [done|].
    pose proof (rd_records _ Hz) as Hrs. rewrite Hp in Hrs. pose proof (rd_records _ Hz') as Hrs'. rewrite (spells_zone_normal o _ Ho Hn) in Hrs. rewrite (spells_zone_normal o _ Ho Hn2) in Hrs'.
    clear -Em Hrs Hrs' Ho. revert Em. generalize dependent (z_Records z'). induction Hrs as [|r rs (Ha & _ & Hv) _ IH]; intros [|r' rs'] Hrs' Em; try done. cbn [map] in Em. injection Em as En Et El Ev Em.
    apply Forall_cons in Hrs' as [(Ha' & _ & Hv') Hrs']. constructor; [|by apply IH]. split; [by apply same_name_iff|done|done|]. rewrite Et in *. by apply value_same.
  - apply same_dnssec_normal. apply same_dnssec_normal in Ed. by destruct (z_DNSSEC z), (z_DNSSEC z').
Qed.
(** Accepted zones are readable. *)
Lemma accepted_readable z : ValidateZone (Some z) = Ok tt ->
  Forall (fun r => in_range 32 (rec_TTL r) /\ is_ascii (rec_Name r) = true /\ ValidString (rec_Value r) = true) (z_Records z) ->
  (forall d, z_DNSSEC z = Some d -> ValidString (NSEC3Salt d) = true) -> readable z.
Proof.
  intros Hv Hrs Hsalt. unfold ValidateZone in Hv. inv_ok. match goal with Hz : ValidateZoneName _ = _ |- _ => apply zone_name_accepted in Hz as Hz' end.
  assert (E : NormalizeZoneName (NormalizeZoneName (z_Name z)) = NormalizeZoneName (z_Name z)) by (by apply NormalizeZoneName_fixed, dns_name_plain).
  split; [done|by apply validate_soa_rules| |done].
  assert (Hrules : Forall (record_rules (NormalizeZoneName (z_Name z))) (z_Records z)) by (eapply validate_records_rules; [done|by eapply Forall_impl; [exact Hrs|intros r (? & _)]|done]).
  rewrite Forall_forall in *. intros r Hr. destruct (Hrs r Hr) as (_ & Ha & Hu). split_and!; [done|done|]. apply Hrules, Hr.
Qed.

Lemma ComputeZoneHash_ok z : exists n, NormalizeZoneForHashing z = Ok n /\ ComputeZoneHash z = Ok (sha256_hex n).
Proof. unfold ComputeZoneHash. eexists. split; [reflexivity|]. reflexivity. Qed.

(** C40: What is hashed is the content of the zone.  Zones with the same content
    ([zone_equiv]: one zone name, the same SOA, DNSSEC settings and records, in any
    order and whatever the version, timestamps, record identifiers, priorities and
    signature expiration, with every name spelled in any case, relative or absolute,
    with or without its final dot, and any white space in MX and SRV values) have
    the same canonical form, the same hash and the same label; and conversely zones
    of the form that validation leaves ([readable]) with the same canonical form
    have the same content. *)
Theorem zone_hash_content (z z' : Zone) :
  (zone_equiv z z' ->
     NormalizeZoneForHashing z = NormalizeZoneForHashing z' /\ ComputeZoneHash z = ComputeZoneHash z' /\ ComputeZoneVersion z = ComputeZoneVersion z')
  /\ (readable z -> readable z' -> NormalizeZoneForHashing z = NormalizeZoneForHashing z' -> zone_equiv z z').
Proof.
  split; [|apply canonical_equiv]. intros Hz. destruct (zone_equiv_normal z z' Hz) as [Hc Hs].
  assert (Hh : ComputeZoneHash z = ComputeZoneHash z') by (unfold ComputeZoneHash; by rewrite Hc). split_and!; [done|done|].
  unfold ComputeZoneVersion, ComputeZoneHash8. by rewrite Hh, Hs.
Qed.

(** Computing a hash never fails: the hash is 64 lower-case hexadecimal
    digits, its short form their first 8, and the legacy label is the serial and
    the short form behind a v. *)
Lemma zone_hash_shape (z : Zone) :
  exists h, ComputeZoneHash z = Ok h /\ len h = 64 /\ str_forallb is_lower_hex h = true
    /\ ComputeZoneHash8 z = Ok (str_take 8 h)
    /\ ComputeZoneVersion z = Ok ("v" +:+ Itoa (Serial (z_SOA z)) +:+ "-" +:+ str_take 8 h).
Proof.
  destruct (ComputeZoneHash_ok z) as (n & _ & E). exists (sha256_hex n).
  assert (len (sha256_hex n) = 64) as Hl by (unfold len; by rewrite sha256_hex_length).
  assert (ComputeZoneHash8 z = Ok (str_take 8 (sha256_hex n))) as E8.
  { unfold ComputeZoneHash8. rewrite E. cbn [rbind]. by rewrite Hl. }
  split_and!; [done|done| |done|].
  - apply hex_encode_lower, Sum256_range.
  - unfold ComputeZoneVersion. by rewrite E8.
Qed.
End hashing.

#[local] Existing Instance ascii_tables.

(** The zone of two records, respelled and reordered. *)
Definition hash_sample (v : string) (rs : list ZRecord) : Zone :=
  mkZone "example.com" v (mkSOA "ns1" "Admin.example.com." 7 1 1 1 1) rs None 0 0.

Definition hash_one : Zone := hash_sample "v1" [mkRecord "1" "@" "NS" 60 "NS1" None; mkRecord "2" "www" "MX" 60 "10  mail" (Some 10)].
Definition hash_two : Zone := hash_sample "v2" [mkRecord "" "WWW.example.com." "MX" 60 "10 mail.example.com." None; mkRecord "9" "example.com" "NS" 60 "ns1.Example.com." None].
Lemma zone_hash_content_witness : zone_equiv hash_one hash_two /\ ComputeZoneHash hash_one = ComputeZoneHash hash_two.
Proof.
  destruct (zone_hash_content hash_one hash_two) as [Hhash Hcontent]. assert (He : zone_equiv hash_one hash_two).
  { apply Hcontent; [apply accepted_readable..|].
    - vm_compute. reflexivity.
    - repeat constructor; vm_compute; done.
    - done.
    - vm_compute. reflexivity.
    - repeat constructor; vm_compute; done.
    - done.
    - vm_compute. reflexivity. }
  split; [exact He|]. apply Hhash, He.
Defined.

Example canonical_form : NormalizeZoneForHashing (hash_sample "v1" [mkRecord "1" "@" "TXT" 60 "a<b" None])
  = Ok (str_map (fun c => if Ascii.eqb c "'"%char then chr 34 else c)
     "{'name':'example.com.','soa':{'mname':'ns1.example.com.','rname':'admin.example.com.','serial':7,'refresh':1,'retry':1,'expire':1,'minimum':1},'records':[{'name':'example.com.','type':'TXT','ttl':60,'value':'a\u003cb'}]}").
Proof. vm_compute. reflexivity. Qed.
