(* ===== verification/Etcd.v ===== *)
(** * The etcd backend ([pkg/backend/etcd.go])

    Several controller processes share one etcd cluster.  An operation of the
    backend is a program of calls: reads and transactions of the cluster, the
    lock of a zone inside the process, and the process's clock and identifier
    generator.  A call to the cluster may fail, and a transaction that is reported
    as failed may have been applied.  The JSON form of a zone ([marshal],
    [unmarshal]) is a parameter. *)

From S2P Require Import Prelude Program GoStrings GoStringsFacts GoSort Zone Names Validation Serial Ulid Store Hashing.
#[local] Open Scope prog_scope.

(** ** The cluster *)
Record entry := mkEntry { e_value : string; e_create : Z; e_mod : Z }.
Inductive comparison := CreateRevisionIs (key : string) (n : Z) | ModRevisionIs (key : string) (n : Z) | ValueIs (key value : string).
Inductive operation := OpPut (key value : string) | OpDelete (key : string).
(** A range read: one key or all keys with a prefix, in the order of keys. *)
Record range := mkRange { r_key : string; r_prefix : bool; r_limit : Z; r_descend : bool }.
Abbreviation keyspace := (gmap string entry).

(** [journal]: every applied transaction, with the thread that sent it and the
    keys before it.  [held]: the zone locks of each process with their holders. *)
Record etcd := mkEtcd {
  e_keys : keyspace;
  e_revision : Z;
  e_journal : list (nat * keyspace);
  e_held : gmap (nat * string) nat;
  e_generators : nat -> ulidState }.

(** A missing key has the revisions 0 and no value. *)
Definition holds (ks : keyspace) (c : comparison) : bool :=
  match c with
  | CreateRevisionIs key n => from_option e_create 0 (ks !! key) =? n
  | ModRevisionIs key n => from_option e_mod 0 (ks !! key) =? n
  | ValueIs key v => match ks !! key with Some e => (e_value e =? v)%string | None => false end
  end.
Definition apply_operation (rev : Z) (ks : keyspace) (o : operation) : keyspace :=
  match o with
  | OpPut key v => <[key := mkEntry v (from_option e_create rev (ks !! key)) rev]> ks
  | OpDelete key => delete key ks
  end.
Definition apply_operations (rev : Z) (ops : list operation) (ks : keyspace) : keyspace := foldl (apply_operation rev) ks ops.
Definition in_range (r : range) (ke : string * entry) : bool := if r_prefix r then HasPrefix (fst ke) (r_key r) else (fst ke =? r_key r)%string.
Definition key_less (a b : string * entry) : bool := str_ltb (fst a) (fst b).
(** The entries read and the number of keys in the range. *)
Definition select (r : range) (ks : keyspace) : list (string * entry) * Z :=
  let l := sort_Slice key_less (List.filter (in_range r) (map_to_list ks)) in
  let l := if r_descend r then rev l else l in
  (if 0 <? r_limit r then take (Z.to_nat (r_limit r)) l else l, Z.of_nat (length l)).

(** ** Calls *)
Inductive etcd_call : Type -> Type :=
  | CLock (zone : string) : etcd_call unit
  | CUnlock (zone : string) : etcd_call unit
  | CLocal {X} (f : Inputs -> ulidState -> X * ulidState) : etcd_call X
  | CGet (r : range) : etcd_call (result (list (string * entry) * Z))
  | CTxn (cmps : list comparison) (ops : list operation) : etcd_call (result bool).

(** What the environment answers to a call: whether it fails, with which text,
    and whether a failed transaction was applied nevertheless. *)
Record answer := mkAnswer { a_fails : option string; a_applied : bool; a_inputs : Inputs }.

Section exec.
(** The process a thread runs in. *)
Context (proc : nat -> nat).

(** A revision is used even by a transaction that only deletes missing keys;
    revisions are only compared with those of entries. *)
Definition commit (t : nat) (cmps : list comparison) (ops : list operation) (s : etcd) : bool * etcd :=
  if forallb (holds (e_keys s)) cmps
  then (true, mkEtcd (apply_operations (e_revision s + 1) ops (e_keys s)) (e_revision s + 1) (e_journal s ++ [(t, e_keys s)]) (e_held s) (e_generators s))
  else (false, s).
Definition etcd_exec (X : Type) (t : nat) (a : answer) (c : etcd_call X) (s : etcd) : option (X * etcd) :=
  match c in etcd_call X return option (X * etcd) with
  | CLock zone =>
    match e_held s !! (proc t, zone) with
    | Some _ => None
    | None => Some (tt, mkEtcd (e_keys s) (e_revision s) (e_journal s) (<[(proc t, zone) := t]> (e_held s)) (e_generators s))
    end
  | CUnlock zone => Some (tt, mkEtcd (e_keys s) (e_revision s) (e_journal s) (delete (proc t, zone) (e_held s)) (e_generators s))
  | CLocal f =>
    let '(x, u) := f (a_inputs a) (e_generators s (proc t)) in
    Some (x, mkEtcd (e_keys s) (e_revision s) (e_journal s) (e_held s) (fun p => if (p =? proc t)%nat then u else e_generators s p))
  | CGet r => Some (match a_fails a with Some text => Err (Errorf text) | None => Ok (select r (e_keys s)) end, s)
  | CTxn cmps ops =>
    match a_fails a with
    | Some text => Some (Err (Errorf text), if a_applied a then snd (commit t cmps ops s) else s)
    | None => let '(ok, s') := commit t cmps ops s in Some (Ok ok, s')
    end
  end.
End exec.

(** ** The backend *)
Definition defaultEtcdPrefix : string := "/arca-dns".
Definition defaultHistoryRetention : nat := 100.
Definition etcdZonesPrefix : string := "zones".
Definition etcdVersionsPrefix : string := "versions".
Definition etcdHistoryPrefix : string := "history".
(** The prefix a backend keeps of the configured one. *)
Definition etcd_prefix (prefix : string) : string := TrimSuffix (if (prefix =? "")%string then defaultEtcdPrefix else prefix) "/".

Section backend.
Context `{UnicodeTables} (prefix : string) (marshal : Zone -> result string) (unmarshal : string -> result Zone).

Definition zonesPrefix : string := prefix +:+ "/" +:+ etcdZonesPrefix +:+ "/".
Definition versionPrefix : string := prefix +:+ "/" +:+ etcdVersionsPrefix +:+ "/".
Definition historyPrefix : string := prefix +:+ "/" +:+ etcdHistoryPrefix +:+ "/".
Definition zoneKey (name : string) : string := zonesPrefix +:+ NormalizeZoneName name.
Definition versionKey (name : string) : string := versionPrefix +:+ NormalizeZoneName name.
Definition historyKey (name version : string) : string := historyPrefix +:+ NormalizeZoneName name +:+ "/" +:+ version.
Definition historyPrefixForZone (name : string) : string := historyPrefix +:+ NormalizeZoneName name +:+ "/".

Definition one_key (key : string) : range := mkRange key false 0 false.
Definition all_keys (key : string) : range := mkRange key true 0 false.
Definition wrapped {A} (text : string) (p : prog etcd_call (result A)) : prog etcd_call (result A) := r <~ p ; Ret (wrap text r).
Definition out_of_range {A} : result A := Err (Errorf "slice bounds out of range").
(** [l[start:end]], which panics outside the bounds. *)
Definition slice {A} (l : list A) (start end_ : Z) : result (list A) :=
  if (start <=? end_) && (end_ <=? Z.of_nat (length l)) then Ok (take (Z.to_nat (end_ - start)) (drop (Z.to_nat start) l)) else out_of_range.
Definition first_value (kvs : list (string * entry)) : result entry := match kvs with (_, e) :: _ => Ok e | [] => out_of_range end.

Definition locked {A} (zone : string) (p : prog etcd_call A) : prog etcd_call A :=
  call (CLock zone) ;;~
  a <~ p ;
  call (CUnlock zone) ;;~
  Ret a.

Definition etcd_HealthCheck : prog etcd_call (result unit) :=
  wrapped "etcd health check failed" (_ <~? call (CGet (mkRange prefix false 1 false)) ; Ret (Ok tt)).
Definition etcd_CountZones : prog etcd_call (result Z) :=
  resp <~? wrapped "failed to count zones" (call (CGet (all_keys zonesPrefix))) ;
  Ret (Ok (snd resp)).
(** A read of one key that must exist, decoded. *)
Definition read_zone (text : string) (missing : sentinel) (key : string) : prog etcd_call (result (entry * Zone)) :=
  resp <~? wrapped text (call (CGet (one_key key))) ;
  Ret (if snd resp =? 0 then Err (Sentinel missing)
       else let* e := first_value (fst resp) in let* zone := wrap "failed to unmarshal zone" (unmarshal (e_value e)) in Ok (e, zone)).
Definition etcd_GetZone (name : string) : prog etcd_call (result Zone) :=
  found <~? read_zone "failed to get zone" ErrZoneNotFound (zoneKey name) ;
  Ret (Ok (snd found)).
Fixpoint unmarshal_all (text : string) (kvs : list (string * entry)) : result (list Zone) :=
  match kvs with
  | [] => Ok []
  | (key, e) :: kvs => let* zone := wrap (text +:+ key) (unmarshal (e_value e)) in let* zones := unmarshal_all text kvs in Ok (zone :: zones)
  end.
(** Pagination as [ListZones] and [ListRevisions] do it. *)
Definition paginate {A} (opts : ListOptions) (l : list A) : result (list A) :=
  let start := if Offset opts <? 0 then 0 else Offset opts in
  if Z.of_nat (length l) <? start then Ok []
  else if Limit opts <=? 0 then slice l start (Z.of_nat (length l))
  else
    let end_ := i64 (start + Limit opts) in
    slice l start (if Z.of_nat (length l) <? end_ then Z.of_nat (length l) else end_).
Definition etcd_ListZones (opts : ListOptions) : prog etcd_call (result (list Zone)) :=
  resp <~? wrapped "failed to list zones" (call (CGet (all_keys zonesPrefix))) ;
  Ret (let* zones := unmarshal_all "failed to unmarshal zone at key " (fst resp) in
       paginate opts (sort_Slice (fun a b => str_ltb (z_Name a) (z_Name b)) zones)).
Definition etcd_ListZoneSummaries (opts : ListOptions) : prog etcd_call (result (list ZoneSummary)) :=
  let offset := if Offset opts <? 0 then 0 else Offset opts in
  resp <~? wrapped "failed to list zone summaries" (call (CGet (mkRange versionPrefix true (if 0 <? Limit opts then i64 (offset + Limit opts) else 0) false))) ;
  let kvs := fst resp in
  Ret (if Z.of_nat (length kvs) <? offset then Ok []
       else
         let end_ := if (0 <? Limit opts) && (i64 (offset + Limit opts) <? Z.of_nat (length kvs)) then i64 (offset + Limit opts) else Z.of_nat (length kvs) in
         let* kvs := slice kvs offset end_ in
         Ok (map (fun ke => mkSummary (TrimPrefix (fst ke) versionPrefix) (e_value (snd ke))) kvs)).

(** ** Writing *)
Definition put_zone (zone : Zone) (data : string) : list operation :=
  [OpPut (zoneKey (z_Name zone)) data; OpPut (versionKey (z_Name zone)) (z_Version zone); OpPut (historyKey (z_Name zone) (z_Version zone)) data].
(** The caller's zone is passed by reference; its new value is returned. *)
Definition etcd_CreateZone (zone : option Zone) : prog etcd_call (result unit * option Zone) :=
  prepared <~ call (CLocal (fun e u => prepareZoneForCreate e zone NormalizeZoneName u)) ;
  match prepared with
  | Err err => Ret (Err err, zone)
  | Ok None => Ret (Err (Errorf "invalid memory address or nil pointer dereference"), zone)
  | Ok (Some writeZone) =>
    locked (NormalizeZoneName (z_Name writeZone))
      match marshal writeZone with
      | Err err => Ret (Err (Wrapf "failed to marshal zone" err), zone)
      | Ok zoneData =>
        succeeded <~ call (CTxn [CreateRevisionIs (zoneKey (z_Name writeZone)) 0] (put_zone writeZone zoneData)) ;
        Ret match succeeded with
            | Err err => (Err (Wrapf "failed to create zone" err), zone)
            | Ok false => (Err (Sentinel ErrZoneAlreadyExists), zone)
            | Ok true => (Ok tt, copyZoneInto zone (Some writeZone))
            end
      end
  end.

(** The zone an update writes, or the error and the zone as it is by then. *)
Definition prepare_update (zone currentZone : Zone) (e : Inputs) (u : ulidState) : (Zone * result unit) * ulidState :=
  let zone := set_Times (z_CreatedAt currentZone) (in_now e)
                (set_SOASerial (updateSOASerial (in_date e) (Serial (z_SOA currentZone)) (Serial (z_SOA zone))) zone) in
  match ensureZoneUpdateVersion e zone (z_Version currentZone) u with
  | (Err err, u) => ((zone, Err err), u)
  | (Ok zone, u) => let '(zone', r) := validateZoneForWrite (Some zone) in ((default zone zone', r), u)
  end.
Definition version_is (key expectedVersion : string) : list comparison := if (expectedVersion =? "")%string then [] else [ValueIs key expectedVersion].
Definition update_zone (zone : Zone) (expectedVersion : string) : prog etcd_call (result unit * Zone) :=
  let normalized := z_Name zone in
  found <~ read_zone "failed to get zone" ErrZoneNotFound (zoneKey normalized) ;
  match found with
  | Err err => Ret (Err err, zone)
  | Ok (e, currentZone) =>
    if negb (expectedVersion =? "")%string && negb (z_Version currentZone =? expectedVersion)%string then Ret (Err (Sentinel ErrConflict), zone)
    else
      prepared <~ call (CLocal (prepare_update zone currentZone)) ;
      let '(zone, r) := prepared in
      match r with
      | Err err => Ret (Err err, zone)
      | Ok _ =>
        match marshal zone with
        | Err err => Ret (Err (Wrapf "failed to marshal zone" err), zone)
        | Ok zoneData =>
          succeeded <~ call (CTxn (ModRevisionIs (zoneKey normalized) (e_mod e) :: version_is (versionKey normalized) expectedVersion) (put_zone zone zoneData)) ;
          Ret (match succeeded with
               | Err err => Err (Wrapf "failed to update zone" err)
               | Ok false => Err (Sentinel ErrConflict)
               | Ok true => Ok tt
               end, zone)
        end
      end
  end.
Definition etcd_UpdateZone (zone : Zone) (expectedVersion : string) : prog etcd_call (result unit * Zone) :=
  let zone := set_Name (NormalizeZoneName (z_Name zone)) zone in
  locked (NormalizeZoneName (z_Name zone)) (update_zone zone expectedVersion).

(** After a transaction: a failed comparison means the zone is gone or changed. *)
Definition settle (failed check : string) (key : string) (succeeded : result bool) : prog etcd_call (result unit) :=
  match succeeded with
  | Err err => Ret (Err (Wrapf failed err))
  | Ok true => Ret (Ok tt)
  | Ok false =>
    resp <~? wrapped check (call (CGet (one_key key))) ;
    Ret (Err (Sentinel (if snd resp =? 0 then ErrZoneNotFound else ErrConflict)))
  end.
Definition etcd_UpdateDNSSECMetadata (zoneName : string) (dnssec : option DNSSECConfig) : prog etcd_call (result unit) :=
  let normalized := NormalizeZoneName zoneName in
  locked (NormalizeZoneName normalized)
    (found <~? read_zone "failed to get zone" ErrZoneNotFound (zoneKey normalized) ;
     now <~ call (CLocal (fun e u => (in_now e, u))) ;
     let zone := set_Times (z_CreatedAt (snd found)) now (set_DNSSEC (cloneDNSSECConfig dnssec) (snd found)) in
     match marshal zone with
     | Err err => Ret (Err (Wrapf "failed to marshal zone" err))
     | Ok zoneData =>
       succeeded <~ call (CTxn [ModRevisionIs (zoneKey normalized) (e_mod (fst found))] [OpPut (zoneKey normalized) zoneData]) ;
       settle "failed to update DNSSEC metadata" "check zone existence after DNSSEC metadata conflict" (zoneKey normalized) succeeded
     end).
(** The revision of a key that must exist. *)
Definition read_revision (key : string) : prog etcd_call (result Z) :=
  resp <~? wrapped "failed to check zone existence" (call (CGet (one_key key))) ;
  Ret (if snd resp =? 0 then Err (Sentinel ErrZoneNotFound) else let* e := first_value (fst resp) in Ok (e_mod e)).
Definition delete_zone (normalized expectedVersion : string) : prog etcd_call (result unit) :=
  locked (NormalizeZoneName normalized)
    (modRevision <~? read_revision (zoneKey normalized) ;
     succeeded <~ call (CTxn (ModRevisionIs (zoneKey normalized) modRevision :: version_is (versionKey normalized) expectedVersion)
                          [OpDelete (zoneKey normalized); OpDelete (versionKey normalized)]) ;
     settle "failed to delete zone" "check zone existence after delete conflict" (zoneKey normalized) succeeded).
Definition etcd_DeleteZone (name : string) : prog etcd_call (result unit) := delete_zone (NormalizeZoneName name) "".
Definition etcd_DeleteZoneWithVersion (name expectedVersion : string) : prog etcd_call (result unit) := delete_zone (NormalizeZoneName name) expectedVersion.

(** ** Revisions *)
Definition etcd_GetRevision (zoneName version : string) : prog etcd_call (result Zone) :=
  found <~? read_zone "failed to get revision" ErrVersionNotFound (historyKey (NormalizeZoneName zoneName) version) ;
  Ret (Ok (snd found)).
Definition revision_of (zone : Zone) : ZoneVersion :=
  let hashHex := match ComputeZoneHash zone with Ok h => h | Err _ => "" end in
  mkZoneVersion (z_Version zone) (Serial (z_SOA zone)) (z_UpdatedAt zone) hashHex (if 8 <=? len hashHex then str_take 8 hashHex else "").
Definition etcd_ListRevisions (zoneName : string) (opts : ListOptions) : prog etcd_call (result (list ZoneVersion)) :=
  resp <~? wrapped "failed to list revisions" (call (CGet (mkRange (historyPrefixForZone (NormalizeZoneName zoneName)) true 0 true))) ;
  Ret (let* zones := unmarshal_all "failed to unmarshal revision at key " (fst resp) in paginate opts (map revision_of zones)).
Definition etcd_GetCurrentVersion (zoneName : string) : prog etcd_call (result string) :=
  resp <~? wrapped "failed to get current version" (call (CGet (one_key (versionKey (NormalizeZoneName zoneName))))) ;
  Ret (if snd resp =? 0 then Err (Sentinel ErrZoneNotFound) else let* e := first_value (fst resp) in Ok (e_value e)).
(** Started by an update, runs beside everything else; errors are ignored. *)
Fixpoint delete_keys (keys : list string) : prog etcd_call unit :=
  match keys with
  | [] => Ret tt
  | key :: keys => call (CTxn [] [OpDelete key]) ;;~ delete_keys keys
  end.
Definition cleanupHistory (zoneName : string) : prog etcd_call unit :=
  resp <~ call (CGet (mkRange (historyPrefixForZone zoneName) true 0 true)) ;
  match resp with
  | Err _ => Ret tt
  | Ok (kvs, count) => if Z.of_nat defaultHistoryRetention <? count then delete_keys (map fst (drop defaultHistoryRetention kvs)) else Ret tt
  end.

(** ** Watching *)
Inductive EventType := EventTypeCreated | EventTypeUpdated | EventTypeDeleted.
Record ZoneEvent := mkZoneEvent { ze_Type : EventType; ze_ZoneName : string; ze_Version : string; ze_Zone : option Zone }.
(** A change of a key: its value, or [None] for a deletion, and whether it existed. *)
Definition convertEtcdEvent (key : string) (value : option string) (existed : bool) : option ZoneEvent :=
  if negb (HasPrefix key zonesPrefix) then None
  else
    let zoneName := TrimPrefix key zonesPrefix in
    match value with
    | Some v =>
      match unmarshal v with
      | Err _ => None
      | Ok zone => Some (mkZoneEvent (if existed then EventTypeUpdated else EventTypeCreated) zoneName (z_Version zone) (Some zone))
      end
    | None => Some (mkZoneEvent EventTypeDeleted zoneName "" None)
    end.
End backend.
