(* ===== verification/EtcdFacts.v ===== *)
(** * The zones behind the keys of an etcd cluster

    What the transactions of the backend do to the zones the keys stand for, and
    what its reads return: the zone, version and history keys of a zone stay in
    step, listings are the stored zones in order. *)

From S2P Require Import Prelude GoStrings GoStringsFacts GoSort Zone Names Validation DnsNames ZoneRules Serial Ulid Store MemoryStore Hashing Etcd.

(** ** Keys *)
Lemma lacks_split c a b a' b' : lacks c a -> lacks c a' -> a +:+ str1 c +:+ b = a' +:+ str1 c +:+ b' -> a = a' /\ b = b'.
Proof.
  revert a'. unfold lacks. induction a as [|x a IH]; intros [|y a'] Ha Ha' He; cbn [str_forallb] in *.
  - rewrite !str_app_nil_l in He. by apply str_app_inj_l in He.
  - rewrite str_app_nil_l, str_app_cons in He. injection He as <- _. by rewrite Ascii.eqb_refl in Ha'.
  - rewrite str_app_nil_l, str_app_cons in He. injection He as -> _. by rewrite Ascii.eqb_refl in Ha.
  - rewrite !str_app_cons in He. injection He as -> He. apply andb_true_iff in Ha as [_ Ha], Ha' as [_ Ha']. by destruct (IH a' Ha Ha' He) as [-> ->].
Qed.
Lemma ldh_lacks_slash l : ldh_label l -> lacks "/"%char l.
Proof. intros (Hf & _). revert Hf. apply str_forallb_impl. intros c Hc. apply negb_true_iff, not_true_iff_false. intros ->%Ascii.eqb_eq. by vm_compute in Hc. Qed.
Lemma dotted_lacks_slash ls : Forall ldh_label ls -> lacks "/"%char (dotted ls).
Proof.
  induction 1 as [|l ls Hl Hls IH]; [done|]. unfold dotted in *. destruct ls as [|l' ls]; [by apply ldh_lacks_slash|].
  rewrite str_join_cons by done. rewrite !lacks_app. split_and!; [by apply ldh_lacks_slash|done|done].
Qed.

#[global] Instance entry_eq_dec : EqDecision entry.
Proof. solve_decision. Defined.

Section facts.
Context `{UnicodeTables, !UnicodeLaws} (prefix : string) (unmarshal : string -> result Zone).
Abbreviation zp n := (zonesPrefix prefix +:+ n).
Abbreviation vp n := (versionPrefix prefix +:+ n).
Abbreviation hp n := (historyPrefix prefix +:+ n).

Lemma zone_not_version n m : zp n <> vp m.
Proof. unfold zonesPrefix, versionPrefix. rewrite !str_app_assoc. by intros He%str_app_inj_l. Qed.
Lemma zone_not_history n k : zp n <> hp k.
Proof. unfold zonesPrefix, historyPrefix. rewrite !str_app_assoc. by intros He%str_app_inj_l. Qed.
Lemma version_not_history n k : vp n <> hp k.
Proof. unfold versionPrefix, historyPrefix. rewrite !str_app_assoc. by intros He%str_app_inj_l. Qed.

Lemma zone_valid_name n z : ValidateZone (Some z) = Ok tt -> z_Name z = NormalizeZoneName n -> NormalizeZoneName (z_Name z) = z_Name z /\ lacks "/"%char (z_Name z).
Proof.
  intros Hv Hn. unfold ValidateZone in Hv. inv_ok. match goal with Hz : ValidateZoneName _ = _ |- _ => apply zone_name_accepted in Hz as Hd end.
  assert (Hi : NormalizeZoneName (z_Name z) = z_Name z).
  { rewrite Hn. apply NormalizeZoneName_idem. rewrite <- Hn. destruct Hd as (_ & ls & _ & Hls & Hs). apply dotted_ascii in Hls. destruct Hs as [->| ->]; [done|]. by rewrite is_ascii_app, Hls. }
  split; [done|]. destruct (dns_name_normalize _ Hd) as (ls & _ & Hls & Heq & _). rewrite Hi in Heq. rewrite Heq, lacks_app. split; [by apply dotted_lacks_slash|done].
Qed.

(** ** The zones behind the keys *)
Definition decoded (e : entry) : option Zone := match unmarshal (e_value e) with Ok z => Some z | Err _ => None end.
Definition zone_entry (ke : string * entry) : option (string * Zone) :=
  if HasPrefix (fst ke) (zonesPrefix prefix) then (fun z => (TrimPrefix (fst ke) (zonesPrefix prefix), z)) <$> decoded (snd ke) else None.
Definition view (ks : keyspace) : gmap string Zone := list_to_map (omap zone_entry (map_to_list ks)).

Lemma zone_entry_Some ke n z : zone_entry ke = Some (n, z) <-> fst ke = zp n /\ decoded (snd ke) = Some z.
Proof.
  unfold zone_entry. destruct (HasPrefix (fst ke) (zonesPrefix prefix)) eqn:Hp.
  - apply HasPrefix_true in Hp as [m ->]. rewrite TrimPrefix_app. destruct (decoded (snd ke)); cbn; split; [by intros [= -> ->]|by intros [<-%str_app_inj_l [= ->]]|done|by intros [_ ?]].
  - split; [done|]. intros [He _]. exfalso. apply not_true_iff_false in Hp. apply Hp, HasPrefix_true. by exists n.
Qed.
Lemma zones_lookup ks n : view ks !! n = ks !! zp n ≫= decoded.
Proof.
  apply option_eq. intros z. unfold view. rewrite <- elem_of_list_to_map.
  - rewrite list_elem_of_omap. split.
    + intros ([k e] & Hin%elem_of_map_to_list & [Hk Hd]%zone_entry_Some). cbn in *. subst k. by rewrite Hin.
    + intros Hl. destruct (ks !! zp n) as [e|] eqn:He; [|done]. exists (zp n, e). by rewrite elem_of_map_to_list, zone_entry_Some.
  - pose proof (NoDup_fst_map_to_list ks) as Hnd. induction (map_to_list ks) as [|[k e] l IH]; cbn; [constructor|]. apply NoDup_cons in Hnd as [Hk Hnd].
    destruct (zone_entry (k, e)) as [[m z0]|] eqn:Er; [|by apply IH]. apply zone_entry_Some in Er as [Hm _]. cbn in *. constructor; [|by apply IH].
    intros ([m' z'] & Hm' & ([k' e'] & Hin & [Hk' _]%zone_entry_Some)%list_elem_of_omap)%list_elem_of_fmap. cbn in *. subst. apply Hk, list_elem_of_fmap. by exists (zp m', e').
Qed.

(** What the cluster holds. *)
Record keys_ok (ks : keyspace) (rev : Z) : Prop := {
  ko_zone : forall n e, ks !! zp n = Some e -> exists z, unmarshal (e_value e) = Ok z /\ z_Name z = n /\ NormalizeZoneName n = n
    /\ ValidateZone (Some z) = Ok tt /\ z_Version z <> "" /\ e_value <$> ks !! vp n = Some (z_Version z);
  ko_version : forall n, is_Some (ks !! vp n) -> is_Some (ks !! zp n);
  ko_revision : forall k e, ks !! k = Some e -> 0 < e_create e /\ 0 < e_mod e <= rev }.

(** ** Writing keys *)
Lemma view_other ks ks' : (forall n, ks' !! zp n = ks !! zp n) -> view ks' = view ks.
Proof. intros Hk. apply map_eq. intros n. by rewrite !zones_lookup, Hk. Qed.
Lemma view_stored ks rev n e : keys_ok ks rev -> ks !! zp n = Some e -> exists z, view ks !! n = Some z /\ unmarshal (e_value e) = Ok z /\ z_Name z = n /\ NormalizeZoneName n = n
  /\ ValidateZone (Some z) = Ok tt /\ z_Version z <> "" /\ e_value <$> ks !! vp n = Some (z_Version z).
Proof.
  intros Hok He. destruct (ko_zone _ _ Hok n e He) as (z & Hz & Hrest). exists z. rewrite zones_lookup, He. cbn. unfold decoded. by rewrite Hz.
Qed.
Lemma view_missing ks rev n : keys_ok ks rev -> view ks !! n = None <-> ks !! zp n = None.
Proof.
  intros Hok. rewrite zones_lookup. destruct (ks !! zp n) as [e|] eqn:He; [|done]. destruct (view_stored _ _ _ _ Hok He) as (z & _ & Hz & _). cbn. unfold decoded. by rewrite Hz.
Qed.
Lemma keys_ok_lock ks rev n z : keys_ok ks rev -> view ks !! n = Some z -> z_Name z = n /\ NormalizeZoneName n = n /\ ValidateZone (Some z) = Ok tt /\ z_Version z <> "".
Proof.
  intros Hok Hv. destruct (ks !! zp n) as [e|] eqn:He; [|by rewrite zones_lookup, He in Hv]. destruct (view_stored _ _ _ _ Hok He) as (z' & Hz' & _ & Hrest). rewrite Hv in Hz'. injection Hz' as <-. tauto.
Qed.

(** A new zone or version of a zone. *)
Section put.
Context (ks : keyspace) (rev : Z) (zone : Zone) (data : string).
Context (Hok : keys_ok ks rev) (Hrev : 0 <= rev) (Hdata : unmarshal data = Ok zone) (Hname : NormalizeZoneName (z_Name zone) = z_Name zone)
  (Hvalid : ValidateZone (Some zone) = Ok tt) (Hversion : z_Version zone <> "").
Abbreviation after := (apply_operations (rev + 1) (put_zone prefix zone data) ks).
Lemma put_zone_key n : e_value <$> after !! zp n = if decide (n = z_Name zone) then Some data else e_value <$> ks !! zp n.
Proof.
  unfold put_zone, apply_operations, zoneKey, versionKey, historyKey. rewrite Hname. cbn [foldl apply_operation].
  rewrite lookup_insert_ne by (intros He; symmetry in He; revert He; apply zone_not_history). rewrite lookup_insert_ne by (intros He; symmetry in He; revert He; apply zone_not_version).
  destruct (decide (n = z_Name zone)) as [->|Hne]; [by rewrite lookup_insert_eq|]. rewrite lookup_insert_ne; [done|]. by intros He%str_app_inj_l.
Qed.
Lemma put_elsewhere n : n <> z_Name zone -> after !! zp n = ks !! zp n.
Proof.
  intros Hne. unfold put_zone, apply_operations, zoneKey, versionKey, historyKey. rewrite Hname. cbn [foldl apply_operation].
  rewrite lookup_insert_ne by (intros He; symmetry in He; revert He; apply zone_not_history). rewrite lookup_insert_ne by (intros He; symmetry in He; revert He; apply zone_not_version).
  rewrite lookup_insert_ne; [done|]. intros He%str_app_inj_l. congruence.
Qed.
Lemma put_version_key n : e_value <$> after !! vp n = if decide (n = z_Name zone) then Some (z_Version zone) else e_value <$> ks !! vp n.
Proof.
  unfold put_zone, apply_operations, zoneKey, versionKey, historyKey. rewrite Hname. cbn [foldl apply_operation].
  rewrite lookup_insert_ne by (intros He; symmetry in He; revert He; apply version_not_history).
  destruct (decide (n = z_Name zone)) as [->|Hne]; [by rewrite lookup_insert_eq|]. rewrite lookup_insert_ne by (by intros He%str_app_inj_l). rewrite lookup_insert_ne by apply zone_not_version. done.
Qed.
Lemma put_history_key k : e_value <$> after !! hp k = if decide (k = z_Name zone +:+ "/" +:+ z_Version zone) then Some data else e_value <$> ks !! hp k.
Proof.
  unfold put_zone, apply_operations, zoneKey, versionKey, historyKey. rewrite Hname. cbn [foldl apply_operation].
  destruct (decide (k = z_Name zone +:+ "/" +:+ z_Version zone)) as [->|Hne]; [by rewrite lookup_insert_eq|]. rewrite lookup_insert_ne by (by intros He%str_app_inj_l).
  rewrite lookup_insert_ne by apply version_not_history. rewrite lookup_insert_ne by apply zone_not_history. done.
Qed.
Lemma put_revisions k e : after !! k = Some e -> (ks !! k = Some e \/ e_mod e = rev + 1) /\ 0 < e_create e /\ 0 < e_mod e <= rev + 1.
Proof.
  unfold put_zone, apply_operations. cbn [foldl apply_operation]. intros He.
  assert (Hstep : forall (m : keyspace) k0 v, (forall k e, m !! k = Some e -> (ks !! k = Some e \/ e_mod e = rev + 1) /\ 0 < e_create e /\ 0 < e_mod e <= rev + 1) ->
    forall k e, <[k0 := mkEntry v (from_option e_create (rev + 1) (m !! k0)) (rev + 1)]> m !! k = Some e -> (ks !! k = Some e \/ e_mod e = rev + 1) /\ 0 < e_create e /\ 0 < e_mod e <= rev + 1).
  { intros m k0 v Hm k1 e1. rewrite lookup_insert. destruct (decide (k0 = k1)) as [->|]; [|apply Hm]. intros [= <-]. cbn. destruct (m !! k1) as [e0|] eqn:E0; cbn; [destruct (Hm _ _ E0); lia|lia]. }
  revert k e He. do 3 apply Hstep. intros k e He. destruct (ko_revision _ _ Hok k e He). split; [by left|lia].
Qed.
Lemma put_zones : view after = <[z_Name zone := zone]> (view ks).
Proof.
  apply map_eq. intros n. rewrite zones_lookup. pose proof (put_zone_key n) as Hk. rewrite lookup_insert. destruct (decide (n = z_Name zone)) as [->|Hne].
  - rewrite decide_True by done. destruct (after !! zp (z_Name zone)) as [e|]; [|done]. injection Hk as Hk. cbn. unfold decoded. by rewrite Hk, Hdata.
  - rewrite decide_False by congruence. rewrite zones_lookup. destruct (after !! zp n) as [e|], (ks !! zp n) as [e'|]; try done. injection Hk as Hk. cbn. unfold decoded. by rewrite Hk.
Qed.
Lemma put_ok : keys_ok after (rev + 1).
Proof.
  split.
  - intros n e He. pose proof (put_zone_key n) as Hk. pose proof (put_version_key n) as Hv. rewrite He in Hk. destruct (decide (n = z_Name zone)) as [->|Hne].
    + injection Hk as ->. exists zone. by rewrite Hdata.
    + destruct (ks !! zp n) as [e'|] eqn:He'; [|done]. injection Hk as ->. rewrite Hv. by apply (ko_zone _ _ Hok).
  - intros n [ve Hve]. pose proof (put_zone_key n) as Hk. pose proof (put_version_key n) as Hv. rewrite Hve in Hv. destruct (decide (n = z_Name zone)) as [->|Hne].
    + apply (fmap_is_Some e_value). rewrite Hk. eauto.
    + apply (fmap_is_Some e_value). rewrite Hk. apply fmap_is_Some, (ko_version _ _ Hok), (fmap_is_Some e_value). rewrite <- Hv. eauto.
  - intros k e He. by apply put_revisions in He as [_ ?].
Qed.
End put.

(** New metadata for a stored zone: only the zone key changes. *)
Section rewrite.
Context (ks : keyspace) (rev : Z) (n : string) (e : entry) (old zone : Zone) (data : string).
Context (Hok : keys_ok ks rev) (Hrev : 0 <= rev) (He : ks !! zp n = Some e) (Hold : view ks !! n = Some old) (Hdata : unmarshal data = Ok zone)
  (Hsame : z_Name zone = z_Name old /\ z_Version zone = z_Version old /\ ValidateZone (Some zone) = ValidateZone (Some old)).
Abbreviation after := (<[zp n := mkEntry data (from_option e_create (rev + 1) (ks !! zp n)) (rev + 1)]> ks).
Lemma rewrite_view : view after = <[n := zone]> (view ks).
Proof.
  apply map_eq. intros m. rewrite zones_lookup. destruct (decide (n = m)) as [->|Hne].
  - rewrite !lookup_insert_eq. cbn. unfold decoded. cbn. by rewrite Hdata.
  - rewrite !lookup_insert_ne; [by rewrite zones_lookup|done|]. by intros Hz%str_app_inj_l.
Qed.
Lemma rewrite_ok : keys_ok after (rev + 1).
Proof.
  destruct Hsame as (Hn & Hv & Hval). split.
  - intros m e'. destruct (decide (n = m)) as [<-|Hne].
    + rewrite lookup_insert_eq. intros [= <-]. cbn [e_value]. exists zone. destruct (view_stored _ _ _ _ Hok He) as (z & Hz & _ & Hname & Hnorm & Hvd & Hver & Hvk). rewrite Hold in Hz. injection Hz as <-.
      rewrite lookup_insert_ne by (apply zone_not_version). rewrite Hn, Hv, Hval. done.
    + rewrite lookup_insert_ne by (by intros Hz%str_app_inj_l). rewrite lookup_insert_ne by (apply zone_not_version). apply (ko_zone _ _ Hok).
  - intros m. rewrite lookup_insert_ne by (apply zone_not_version). intros Hm%(ko_version _ _ Hok). rewrite lookup_insert. case_decide; eauto.
  - intros k e'. rewrite lookup_insert. case_decide as Hk; [|intros Hl; destruct (ko_revision _ _ Hok k e' Hl); lia]. intros [= <-]. cbn. rewrite He. cbn. destruct (ko_revision _ _ Hok _ _ He). lia.
Qed.
End rewrite.

(** A deleted zone. *)
Section erase.
Context (ks : keyspace) (rev : Z) (n : string) (Hok : keys_ok ks rev).
Abbreviation after := (delete (vp n) (delete (zp n) ks)).
Lemma erase_view : view after = delete n (view ks).
Proof.
  apply map_eq. intros m. rewrite zones_lookup, lookup_delete_ne by (intros Hz; symmetry in Hz; revert Hz; apply zone_not_version). destruct (decide (n = m)) as [->|Hne].
  - by rewrite !lookup_delete_eq.
  - rewrite !lookup_delete_ne; [by rewrite zones_lookup|done|]. by intros Hz%str_app_inj_l.
Qed.
Lemma erase_subset k e : after !! k = Some e -> ks !! k = Some e.
Proof. by intros [_ [_ ?]%lookup_delete_Some]%lookup_delete_Some. Qed.
Lemma erase_ok rev' : rev <= rev' -> keys_ok after rev'.
Proof.
  intros Hr. split.
  - intros m e Hm. pose proof (erase_subset _ _ Hm) as Hm'. destruct (decide (n = m)) as [->|Hne].
    + rewrite lookup_delete_ne, lookup_delete_eq in Hm; [done|]. intros Hz. symmetry in Hz. by apply zone_not_version in Hz.
    + rewrite lookup_delete_ne by (by intros Hz%str_app_inj_l). rewrite lookup_delete_ne by apply zone_not_version. by apply (ko_zone _ _ Hok).
  - intros m. rewrite lookup_delete. case_decide as Hm; [by intros []|]. rewrite lookup_delete_ne by apply zone_not_version. intros Hv%(ko_version _ _ Hok).
    rewrite lookup_delete_ne by (intros Hz; symmetry in Hz; revert Hz; apply zone_not_version). rewrite lookup_delete_ne; [done|]. intros Hz%str_app_inj_l. subst. done.
  - intros k e Hk%erase_subset. destruct (ko_revision _ _ Hok k e Hk). lia.
Qed.
End erase.
Lemma clean_ok ks rev k rev' : keys_ok ks rev -> rev <= rev' -> keys_ok (delete (hp k) ks) rev' /\ view (delete (hp k) ks) = view ks.
Proof.
  intros Hok Hr. assert (Hz : forall n, delete (hp k) ks !! zp n = ks !! zp n) by (intros n; apply lookup_delete_ne; intros Hz; symmetry in Hz; by apply zone_not_history in Hz).
  assert (Hv : forall n, delete (hp k) ks !! vp n = ks !! vp n) by (intros n; apply lookup_delete_ne; intros Hv; symmetry in Hv; by apply version_not_history in Hv).
  split; [|by apply view_other]. split.
  - intros n e. rewrite Hz, Hv. apply (ko_zone _ _ Hok).
  - intros n. rewrite Hz, Hv. apply (ko_version _ _ Hok).
  - intros k' e [_ He]%lookup_delete_Some. destruct (ko_revision _ _ Hok k' e He). lia.
Qed.

(** ** Reading keys *)
Lemma str_ltb_prefix p a b : str_ltb (p +:+ a) (p +:+ b) = str_ltb a b.
Proof. induction p as [|c p IH]; [done|]. by rewrite !str_app_cons, str_ltb_cons, Z.ltb_irrefl. Qed.
Lemma sort_map {A B} (g : A -> B) less less' (l : list A) `{!WeakOrder less, !WeakOrder less'} : (forall a b, less' (g a) (g b) = less a b) ->
  (forall x y, x ∈ map g l -> y ∈ map g l -> less' x y = false -> less' y x = false -> x = y) -> sort_Slice less' (map g l) = map g (sort_Slice less l).
Proof.
  intros Hg Hanti. apply sort_Slice_unique; [done|done| |by rewrite sort_Slice_Permutation].
  induction (sort_Slice_sorted less l) as [|a l0 _ IH Ha]; cbn; constructor; [done|]. apply Forall_map. eapply Forall_impl; [exact Ha|]. intros b. unfold not_after. cbn. by rewrite Hg.
Qed.
#[global] Instance key_less_weak : WeakOrder key_less := by_key_weak fst.
Lemma select_one ks k : select (one_key k) ks = match ks !! k with Some e => ([(k, e)], 1) | None => ([], 0) end.
Proof using.
  clear unmarshal. unfold select. cbn [r_descend r_limit one_key]. change (0 <? 0) with false. cbv iota. set (l := List.filter _ _).
  assert (Hl : l ≡ₚ match ks !! k with Some e => [(k, e)] | None => [] end).
  { unfold l. apply NoDup_Permutation; [apply NoDup_ListNoDup, List.NoDup_filter, NoDup_ListNoDup, NoDup_map_to_list|destruct (ks !! k); [apply NoDup_singleton|constructor]|].
    intros [k' e]. rewrite list_elem_of_In, filter_In, <- list_elem_of_In, elem_of_map_to_list. unfold in_range. cbn. rewrite String.eqb_eq.
    destruct (ks !! k) as [e0|] eqn:Ek; rewrite ?list_elem_of_singleton, ?elem_of_nil; naive_solver. }
  rewrite <- (sort_Slice_Permutation key_less) in Hl. destruct (ks !! k); [apply Permutation_singleton_r in Hl|apply Permutation_nil_r in Hl]; by rewrite Hl.
Qed.
(** The zones in the order of their names. *)
Definition in_order (ks : keyspace) : list (string * Zone) := sort_Slice (fun a b => str_ltb (fst a) (fst b)) (map_to_list (view ks)).
Definition zones_in_order (ks : keyspace) : list Zone := (in_order ks).*2.
Lemma in_order_elem ks nz : nz ∈ in_order ks <-> view ks !! fst nz = Some (snd nz).
Proof. unfold in_order. rewrite sort_Slice_Permutation. destruct nz. apply elem_of_map_to_list. Qed.
Definition entry_of (p : string) (ks : keyspace) (nz : string * Zone) : string * entry := (p +:+ fst nz, default (mkEntry "" 0 0) (ks !! (p +:+ fst nz))).
Lemma select_all ks p : (forall n, is_Some (ks !! (p +:+ n)) <-> is_Some (view ks !! n)) ->
  sort_Slice key_less (List.filter (in_range (mkRange p true 0 false)) (map_to_list ks)) = map (entry_of p ks) (in_order ks).
Proof.
  intros Hp. assert (Hperm : List.filter (in_range (mkRange p true 0 false)) (map_to_list ks) ≡ₚ map (entry_of p ks) (map_to_list (view ks))).
  { apply NoDup_Permutation.
    - apply NoDup_ListNoDup, List.NoDup_filter, NoDup_ListNoDup, NoDup_map_to_list.
    - apply NoDup_fmap_2_strong; [|apply NoDup_map_to_list]. intros [n z] [n' z'] Hn%elem_of_map_to_list Hn'%elem_of_map_to_list [= He%str_app_inj_l _]. cbn in He. subst n'. congruence.
    - intros [k e]. rewrite list_elem_of_In, filter_In, <- list_elem_of_In, elem_of_map_to_list. unfold in_range. cbn. rewrite HasPrefix_true, list_elem_of_fmap. split.
      + intros [He [n ->]]. destruct (proj1 (Hp n)) as [z Hz]; [eauto|]. exists (n, z). unfold entry_of. cbn. rewrite He. split; [done|]. by apply elem_of_map_to_list.
      + intros ([n z] & [= -> ->] & Hz%elem_of_map_to_list). cbn. destruct (proj2 (Hp n)) as [e He]; [eauto|]. rewrite He. eauto. }
  assert (Hanti : forall x y : string * entry, x ∈ map (entry_of p ks) (map_to_list (view ks)) -> y ∈ map (entry_of p ks) (map_to_list (view ks)) -> key_less x y = false -> key_less y x = false -> x = y).
  { intros x y ([n z] & -> & Hn%elem_of_map_to_list)%list_elem_of_fmap ([n' z'] & -> & Hn'%elem_of_map_to_list)%list_elem_of_fmap. unfold key_less, entry_of. cbn. intros H1 H2. by rewrite (str_leb_antisym _ _ H1 H2). }
  erewrite (sort_Slice_perm key_less); [|intros x y Hx Hy; rewrite Hperm in Hx, Hy; by apply Hanti|exact Hperm]. apply sort_map; [apply by_key_weak|apply _| |done]. intros [n z] [n' z']. unfold key_less, entry_of. cbn. apply str_ltb_prefix.
Qed.
Lemma zone_keys ks rev n : keys_ok ks rev -> is_Some (ks !! zp n) <-> is_Some (view ks !! n).
Proof. intros Hok. rewrite <- !not_eq_None_Some. by rewrite (view_missing ks rev n Hok). Qed.
Lemma version_keys ks rev n : keys_ok ks rev -> is_Some (ks !! vp n) <-> is_Some (view ks !! n).
Proof.
  intros Hok. rewrite <- (zone_keys ks rev) by done. split; [apply (ko_version _ _ Hok)|]. intros [e He]. destruct (ko_zone _ _ Hok n e He) as (z & _ & _ & _ & _ & _ & Hv). apply (fmap_is_Some e_value). rewrite Hv. eauto.
Qed.
Lemma zones_perm ks : zones_in_order ks ≡ₚ (map_to_list (view ks)).*2.
Proof. unfold zones_in_order, in_order. by rewrite sort_Slice_Permutation. Qed.
Lemma zones_sorted ks rev : keys_ok ks rev -> StronglySorted (not_after (fun a b => str_ltb (z_Name a) (z_Name b))) (zones_in_order ks).
Proof.
  intros Hok. unfold zones_in_order. assert (Hn : Forall (fun nz => z_Name (snd nz) = fst nz) (in_order ks)).
  { apply Forall_forall. intros [n z] Hz%in_order_elem. by destruct (keys_ok_lock ks rev n z Hok Hz). }
  unfold in_order in *. induction (sort_Slice_sorted (fun a b : string * Zone => str_ltb (fst a) (fst b)) (map_to_list (view ks))) as [|a l _ IH Ha]; cbn; [constructor|]. apply Forall_cons in Hn as [Hna Hnl].
  constructor; [by apply IH|]. apply Forall_map, Forall_forall. intros b Hb. rewrite Forall_forall in Ha, Hnl. specialize (Ha b Hb). unfold not_after in *. cbn. by rewrite Hna, (Hnl b Hb).
Qed.
Lemma unmarshal_in_order text ks rev : keys_ok ks rev -> unmarshal_all unmarshal text (map (entry_of (zonesPrefix prefix) ks) (in_order ks)) = Ok (zones_in_order ks).
Proof.
  intros Hok. unfold zones_in_order. assert (Hn : Forall (fun nz => view ks !! fst nz = Some (snd nz)) (in_order ks)) by (apply Forall_forall; intros nz; apply in_order_elem).
  induction Hn as [|[n z] l Hz _ IH]; [done|]. cbn in *. rewrite zones_lookup in Hz. destruct (ks !! zp n) as [e|]; [|done]. cbn in Hz |- *. unfold decoded in Hz. destruct (unmarshal (e_value e)) as [z'|]; [|done]. injection Hz as ->.
  cbn. by rewrite IH.
Qed.

(** *** Pages *)
Definition paging_ok (opts : ListOptions) : Prop := Z.max 0 (Offset opts) + Z.max 0 (Limit opts) < 2 ^ 63.
Lemma i64_small x : 0 <= x < 2 ^ 63 -> i64 x = x.
Proof. intros Hx. unfold i64. rewrite Z.mod_small by lia. lia. Qed.
Lemma page_start {A} opts (l : list A) : page opts l = page (mkList (Limit opts) (if Offset opts <? 0 then 0 else Offset opts) "") l.
Proof. unfold page. cbn. by destruct (Z.ltb_spec (Offset opts) 0), (Z.ltb_spec 0 (Offset opts)); try lia. Qed.
Lemma page_slice_all {A} opts k (l : list A) : Limit opts <= 0 -> 0 <= k -> page (mkList (Limit opts) k "") l = drop (Z.to_nat k) l.
Proof.
  intros Hl Hk. unfold page. cbn. rewrite (proj2 (Z.ltb_ge 0 _) Hl). cbn. destruct (Z.ltb_spec 0 k); cbn; [|by replace k with 0 by lia]. destruct (Z.leb_spec (Z.of_nat (length l)) k); [|done]. by rewrite drop_ge by lia.
Qed.
Lemma slice_ok {A} (l : list A) a b : 0 <= a <= b -> b <= Z.of_nat (length l) -> slice l a b = Ok (take (Z.to_nat (b - a)) (drop (Z.to_nat a) l)).
Proof. intros Ha Hb. unfold slice. rewrite (proj2 (Z.leb_le a b)), (proj2 (Z.leb_le b _)) by lia. done. Qed.
Lemma paginate_page {A} opts (l : list A) : paging_ok opts -> paginate opts l = Ok (page opts l).
Proof.
  unfold paging_ok, paginate. intros Hok. rewrite page_start. set (k := if Offset opts <? 0 then 0 else Offset opts). assert (Hk : 0 <= k /\ k <= Z.max 0 (Offset opts)) by (unfold k; destruct (Z.ltb_spec (Offset opts) 0); lia). clearbody k.
  destruct (Z.ltb_spec (Z.of_nat (length l)) k) as [Hbig|Hsmall].
  { f_equal. unfold page. cbn. rewrite (proj2 (Z.ltb_lt 0 k)), (proj2 (Z.leb_le _ k)) by lia. done. }
  destruct (Z.leb_spec (Limit opts) 0) as [Hl|Hl].
  { rewrite page_slice_all by lia. rewrite slice_ok by lia. f_equal. apply take_ge. rewrite length_drop. lia. }
  rewrite i64_small by lia. rewrite page_slice by lia. destruct (Z.ltb_spec (Z.of_nat (length l)) (k + Limit opts)); rewrite slice_ok by lia; f_equal.
  - rewrite !take_ge; [done|rewrite length_drop; lia..].
  - f_equal. lia.
Qed.
(** The first keys up to the end of the page are enough. *)
Lemma summaries_page {A B} opts (f : A -> B) (l : list A) : paging_ok opts ->
  let offset := if Offset opts <? 0 then 0 else Offset opts in
  let limit := if 0 <? Limit opts then i64 (offset + Limit opts) else 0 in
  let kvs := if 0 <? limit then take (Z.to_nat limit) l else l in
  (if Z.of_nat (length kvs) <? offset then Ok []
   else let* kvs := slice kvs offset (if (0 <? Limit opts) && (i64 (offset + Limit opts) <? Z.of_nat (length kvs)) then i64 (offset + Limit opts) else Z.of_nat (length kvs)) in Ok (map f kvs))
  = Ok (page opts (map f l)).
Proof.
  unfold paging_ok. intros Hok. rewrite <- page_map, page_start. set (k := if Offset opts <? 0 then 0 else Offset opts). assert (Hk : 0 <= k /\ k <= Z.max 0 (Offset opts)) by (unfold k; destruct (Z.ltb_spec (Offset opts) 0); lia). clearbody k.
  cbv zeta. destruct (Z.ltb_spec 0 (Limit opts)) as [Hl|Hl]; cbn [andb].
  - rewrite i64_small by lia. rewrite (proj2 (Z.ltb_lt 0 (k + Limit opts))) by lia. rewrite length_take. rewrite page_slice by lia.
    destruct (Z.ltb_spec (Z.of_nat (Nat.min (Z.to_nat (k + Limit opts)) (length l))) k) as [Hbig|Hsmall].
    { rewrite drop_ge by lia. by rewrite take_nil. }
    rewrite (proj2 (Z.ltb_ge _ _)) by lia. rewrite slice_ok by (rewrite ?length_take; lia). cbn [rbind]. do 2 f_equal. rewrite skipn_firstn_comm. rewrite take_take.
    destruct (decide (Z.of_nat (length l) <= k + Limit opts)); [|f_equal; lia]. rewrite !take_ge; [done|rewrite length_drop; lia..].
  - rewrite page_slice_all by lia. change (0 <? 0) with false. cbv iota. destruct (Z.ltb_spec (Z.of_nat (length l)) k) as [Hbig|Hsmall]; [by rewrite drop_ge by lia|].
    rewrite slice_ok by lia. cbn [rbind]. rewrite take_ge; [done|]. rewrite length_drop. lia.
Qed.
End facts.
