(* ===== verification/EtcdSessions.v ===== *)
(** * Several processes on one etcd cluster refine a map of zones

    Sessions of requests run in any number of processes, call by call in any
    order, with failing calls and crashed processes.  Every change of the cluster
    is one request's effect on the zones stored at that moment, every answer is
    explained by the zones stored at one moment of its session, and a write is
    refused only for a version that does not match or because another process
    wrote the zone in between. *)

From S2P Require Import Prelude Program GoStrings GoStringsFacts GoSort Zone Names Validation DnsNames ZoneRules Serial Ulid Store MemoryStore Hashing Etcd EtcdFacts.
#[local] Open Scope prog_scope.

(** ** Requests *)
Inductive etcd_request :=
  | EGet (name : string) | EList (opts : ListOptions) | ESummaries (opts : ListOptions) | ECount | EHealth
  | ECreate (zone : option Zone) | EUpdate (zone : Zone) (expectedVersion : string) | EMetadata (name : string) (dnssec : option DNSSECConfig)
  | EDelete (name : string) | EDeleteVersion (name expectedVersion : string)
  | ERevision (name version : string) | ERevisions (name : string) (opts : ListOptions) | EVersion (name : string) | ECleanup (name : string).
Inductive etcd_response :=
  | RZone (r : result Zone) | RZones (r : result (list Zone)) | RSummaries (r : result (list ZoneSummary)) | RCount (r : result Z)
  | RCreated (r : result unit) (zone : option Zone) | RUpdated (r : result unit) (zone : Zone) | RDone (r : result unit)
  | RRevisions (r : result (list ZoneVersion)) | RVersion (r : result string).

Section sessions.
Context `{UnicodeTables, !UnicodeLaws} (prefix : string) (marshal : Zone -> result string) (unmarshal : string -> result Zone).
Context (proc : nat -> nat) (requests : nat -> list etcd_request) (broken : Prop).
Abbreviation view := (view prefix unmarshal).
Abbreviation zp n := (zonesPrefix prefix +:+ n).
Abbreviation vp n := (versionPrefix prefix +:+ n).
Abbreviation hp n := (historyPrefix prefix +:+ n).

Definition respond {A} (f : A -> etcd_response) (p : prog etcd_call A) : prog etcd_call etcd_response := a <~ p ; Ret (f a).
Definition etcd_serve (q : etcd_request) : prog etcd_call etcd_response :=
  match q with
  | EGet name => respond RZone (etcd_GetZone prefix unmarshal name)
  | EList opts => respond RZones (etcd_ListZones prefix unmarshal opts)
  | ESummaries opts => respond RSummaries (etcd_ListZoneSummaries prefix opts)
  | ECount => respond RCount (etcd_CountZones prefix)
  | EHealth => respond RDone (etcd_HealthCheck prefix)
  | ECreate zone => respond (fun r => RCreated (fst r) (snd r)) (etcd_CreateZone prefix marshal zone)
  | EUpdate zone expected => respond (fun r => RUpdated (fst r) (snd r)) (etcd_UpdateZone prefix marshal unmarshal zone expected)
  | EMetadata name dnssec => respond RDone (etcd_UpdateDNSSECMetadata prefix marshal unmarshal name dnssec)
  | EDelete name => respond RDone (etcd_DeleteZone prefix name)
  | EDeleteVersion name expected => respond RDone (etcd_DeleteZoneWithVersion prefix name expected)
  | ERevision name version => respond RZone (etcd_GetRevision prefix unmarshal name version)
  | ERevisions name opts => respond RRevisions (etcd_ListRevisions prefix unmarshal name opts)
  | EVersion name => respond RVersion (etcd_GetCurrentVersion prefix name)
  | ECleanup name => respond (fun _ => RDone (Ok tt)) (cleanupHistory prefix (NormalizeZoneName name))
  end.
Fixpoint etcd_session (qs : list etcd_request) : prog etcd_call (list etcd_response) :=
  match qs with
  | [] => Ret []
  | q :: qs => a <~ etcd_serve q ; l <~ etcd_session qs ; Ret (a :: l)
  end.

(** ** What happened

    The keys before each transaction, and now. *)
Definition snapshots (s : etcd) : list keyspace := (e_journal s).*2 ++ [e_keys s].
(** The transactions thread [t] sent, by their place in the journal. *)
Definition sent (t : nat) (journal : list (nat * keyspace)) : list nat :=
  List.filter (fun j => match journal !! j with Some (u, _) => (u =? t)%nat | None => false end) (List.seq 0 (length journal)).
(** Transaction [j] of thread [u] turned [ks] into [ks']. *)
Definition changed (s : etcd) (j u : nat) (ks ks' : keyspace) : Prop := e_journal s !! j = Some (u, ks) /\ snapshots s !! S j = Some ks'.
(** Another process wrote zone [n] between the snapshots [k0] and [k]. *)
Definition overtaken (t : nat) (n : string) (k0 k : nat) (s : etcd) : Prop :=
  exists j u ks ks', (k0 <= j < k)%nat /\ changed s j u ks ks' /\ proc u <> proc t /\ ks' !! zp n <> ks !! zp n.

(** An error because of a failing call. *)
Definition lost (err : error) : Prop := broken /\ exists p text, err = Wrapf p (Errorf text).
Definition answer_error (a : etcd_response) : option error :=
  match a with
  | RZone (Err e) | RZones (Err e) | RSummaries (Err e) | RCount (Err e) | RCreated (Err e) _ | RUpdated (Err e) _ | RDone (Err e) | RRevisions (Err e) | RVersion (Err e) => Some e
  | _ => None
  end.
Abbreviation nn name := (NormalizeZoneName name).
(** A request changed the zones from [v] to [v'] and is answered [a]; the answer
    may have been lost. *)
Definition outcome (q : etcd_request) (v v' : gmap string Zone) (a : etcd_response) : Prop :=
  match q with
  | ECreate zone => exists e z z', zone = Some z /\ created e z z' /\ v !! z_Name z' = None /\ v' = <[z_Name z' := z']> v
      /\ (a = RCreated (Ok tt) (Some z') \/ exists err, lost err /\ a = RCreated (Err err) zone)
  | EUpdate zone expected => exists e old z', v !! nn (z_Name zone) = Some old /\ (expected = "" \/ expected = z_Version old) /\ updated e old zone z'
      /\ v' = <[nn (z_Name zone) := z']> v /\ (a = RUpdated (Ok tt) z' \/ exists err, lost err /\ a = RUpdated (Err err) z')
  | EMetadata name dnssec => exists z now, v !! nn name = Some z /\ v' = <[nn name := set_Times (z_CreatedAt z) now (set_DNSSEC dnssec z)]> v
      /\ (a = RDone (Ok tt) \/ exists err, lost err /\ a = RDone (Err err))
  | EDelete name => is_Some (v !! nn name) /\ v' = delete (nn name) v /\ (a = RDone (Ok tt) \/ exists err, lost err /\ a = RDone (Err err))
  | EDeleteVersion name expected => exists z, v !! nn name = Some z /\ (expected = "" \/ expected = z_Version z) /\ v' = delete (nn name) v
      /\ (a = RDone (Ok tt) \/ exists err, lost err /\ a = RDone (Err err))
  | ECleanup _ => v' = v /\ a = RDone (Ok tt)
  | _ => False
  end.
(** The zone [z] was stored under the name [n] in some snapshot up to [k]. *)
Definition once_stored (s : etcd) (k : nat) (n : string) (z : Zone) : Prop := exists j ks, (j <= k)%nat /\ snapshots s !! j = Some ks /\ view ks !! n = Some z.
Definition unencodable (err : error) : Prop := exists w cause, marshal w = Err cause /\ err = Wrapf "failed to marshal zone" cause.
(** A request that changed nothing is answered [a], with the zones [v] of the
    snapshot [k]. *)
Definition unchanged (t : nat) (q : etcd_request) (s : etcd) (k0 k : nat) (v : gmap string Zone) (a : etcd_response) : Prop :=
  let conflict n expected := (exists z, v !! n = Some z /\ expected <> "" /\ expected <> z_Version z) \/ overtaken t n k0 k s in
  match q, a with
  | EGet name, RZone r => r = match v !! nn name with Some z => Ok z | None => Err (Sentinel ErrZoneNotFound) end
  | EList opts, RZones r => exists l, l ≡ₚ (map_to_list v).*2 /\ StronglySorted (not_after (fun a b => str_ltb (z_Name a) (z_Name b))) l /\ r = Ok (page opts l)
  | ESummaries opts, RSummaries r => exists l, l ≡ₚ (map_to_list v).*2 /\ StronglySorted (not_after (fun a b => str_ltb (z_Name a) (z_Name b))) l /\ r = Ok (page opts (map summary_of l))
  | ECount, RCount r => r = Ok (Z.of_nat (size v))
  | EHealth, RDone r => r = Ok tt
  | EVersion name, RVersion r => r = match v !! nn name with Some z => Ok (z_Version z) | None => Err (Sentinel ErrZoneNotFound) end
  | ERevision name version, RZone (Ok z) => z_Version z = version /\ once_stored s k (nn name) z
  | ERevision _ _, RZone (Err err) => err = Sentinel ErrVersionNotFound
  | ERevisions name opts, RRevisions r => exists l, Forall (once_stored s k (nn name)) l /\ NoDup (map z_Version l) /\ r = Ok (page opts (map revision_of l))
  | ECleanup _, RDone r => r = Ok tt
  | ECreate zone, RCreated (Err err) zone' => zone' = zone
      /\ ((err = Sentinel ErrZoneAlreadyExists /\ exists z, zone = Some z /\ is_Some (v !! nn (z_Name z)))
          \/ (exists e u, fst (prepareZoneForCreate e zone NormalizeZoneName u) = Err err) \/ unencodable err)
  | EUpdate zone expected, RUpdated (Err err) _ =>
      (err = Sentinel ErrZoneNotFound /\ v !! nn (z_Name zone) = None)
      \/ (err = Sentinel ErrConflict /\ conflict (nn (z_Name zone)) expected)
      \/ (exists old e u, v !! nn (z_Name zone) = Some old /\ snd (fst (prepare_update (set_Name (nn (z_Name zone)) zone) old e u)) = Err err) \/ unencodable err
  | EMetadata name _, RDone (Err err) => (err = Sentinel ErrZoneNotFound /\ v !! nn name = None) \/ (err = Sentinel ErrConflict /\ overtaken t (nn name) k0 k s) \/ unencodable err
  | EDelete name, RDone (Err err) => (err = Sentinel ErrZoneNotFound /\ v !! nn name = None) \/ (err = Sentinel ErrConflict /\ overtaken t (nn name) k0 k s)
  | EDeleteVersion name expected, RDone (Err err) => (err = Sentinel ErrZoneNotFound /\ v !! nn name = None) \/ (err = Sentinel ErrConflict /\ conflict (nn name) expected)
  | _, _ => False
  end.
(** The answer [a] to [q] of thread [t], between the snapshots [k0] and [k], with
    the transactions [ws] it caused. *)
Definition answered (t : nat) (s : etcd) (q : etcd_request) (k0 k : nat) (ws : list nat) (a : etcd_response) : Prop :=
  (k0 <= k)%nat
  /\ ((ws = [] /\ exists ks, snapshots s !! k = Some ks /\ (unchanged t q s k0 k (view ks) a \/ exists err, lost err /\ answer_error a = Some err))
      \/ (((exists j, ws = [j]) \/ exists name, q = ECleanup name)
          /\ Forall (fun j => (k0 <= j < k)%nat /\ exists ks ks', changed s j t ks ks' /\ outcome q (view ks) (view ks') a) ws)).
Inductive explained (t : nat) (s : etcd) : nat -> list etcd_request -> list etcd_response -> list nat -> Prop :=
  | explained_nil k : explained t s k [] [] []
  | explained_cons k0 k q qs a l ws ws' : answered t s q k0 k ws a -> explained t s k qs l ws' -> explained t s k0 (q :: qs) (a :: l) (ws ++ ws').

(** ** The protocol *)
(** While [t] holds the lock of zone [n], no thread of its process writes the
    zone: transactions from [k] on. *)
Definition undisturbed (t : nat) (n : string) (k : nat) (s : etcd) : Prop :=
  forall j u ks ks', (k <= j)%nat -> changed s j u ks ks' -> proc u = proc t -> ks' !! zp n = ks !! zp n.
Record etcd_rely (t : nat) (s s' : etcd) : Prop := {
  er_journal : e_journal s `prefix_of` e_journal s';
  er_snapshots : snapshots s `prefix_of` snapshots s';
  er_revision : e_revision s <= e_revision s';
  er_fresh : forall k e, e_keys s' !! k = Some e -> e_keys s !! k = Some e \/ e_revision s < e_mod e;
  er_held : forall p z, e_held s !! (p, z) = Some t <-> e_held s' !! (p, z) = Some t;
  er_sent : sent t (e_journal s') = sent t (e_journal s);
  er_locked : forall n, e_held s !! (proc t, n) = Some t -> undisturbed t n (length (e_journal s)) s' }.
Record etcd_inv (s : etcd) : Prop := {
  ei_revision : 0 <= e_revision s;
  ei_keys : keys_ok prefix unmarshal (e_keys s) (e_revision s);
  ei_history : forall k e, e_keys s !! hp k = Some e -> exists z, unmarshal (e_value e) = Ok z /\ k = z_Name z +:+ "/" +:+ z_Version z
    /\ lacks "/"%char (z_Name z) /\ once_stored s (length (e_journal s)) (z_Name z) z;
  ei_journal : forall j t ks, e_journal s !! j = Some (t, ks) -> exists ks' q a, snapshots s !! S j = Some ks' /\ q ∈ requests t /\ outcome q (view ks) (view ks') a;
  ei_holders : forall p z t, e_held s !! (p, z) = Some t -> requests t <> [] }.
(** A thread holds at most one lock, which it gives back. *)
Definition etcd_pre (X : Type) (t : nat) (c : etcd_call X) (s : etcd) : Prop :=
  match c with
  | CLock _ => forall p z, e_held s !! (p, z) <> Some t
  | CUnlock zone => e_held s !! (proc t, zone) = Some t
  | _ => True
  end.
Definition etcd_protocol : protocol (C := etcd_call) (St := etcd) (Env := answer) :=
  mkProtocol (fun a => a_fails a <> None -> broken) etcd_inv etcd_rely (fun t s s' => forall u, u <> t -> etcd_rely u s s') etcd_pre.
Abbreviation triple' := (triple (etcd_exec proc) etcd_protocol).
Abbreviation stable' := (stable etcd_protocol).

Lemma snapshots_length s : length (snapshots s) = S (length (e_journal s)).
Proof. unfold snapshots. rewrite length_app, length_fmap. cbn. lia. Qed.
Lemma snapshots_now s : snapshots s !! length (e_journal s) = Some (e_keys s).
Proof. unfold snapshots. by rewrite lookup_app_r, length_fmap, Nat.sub_diag by (rewrite length_fmap; lia). Qed.
Lemma changed_later t s s' j u ks ks' : etcd_rely t s s' -> changed s j u ks ks' -> changed s' j u ks ks'.
Proof. intros Hr [Hj Hs]. split; [by eapply prefix_lookup_Some; [|apply Hr]|by eapply prefix_lookup_Some; [|apply Hr]]. Qed.
Lemma changed_before t s s' j u ks ks' : etcd_rely t s s' -> (j < length (e_journal s))%nat -> changed s' j u ks ks' -> changed s j u ks ks'.
Proof.
  intros Hr Hj [H1 H2]. destruct (er_journal _ _ _ Hr) as [l Hl]. destruct (er_snapshots _ _ _ Hr) as [l' Hl']. split.
  - rewrite Hl, lookup_app_l in H1 by done. done.
  - rewrite Hl', lookup_app_l in H2 by (rewrite snapshots_length; lia). done.
Qed.
#[local] Instance etcd_rely_preorder t : PreOrder (etcd_rely t).
Proof.
  split.
  - intros s. split; try done; [auto|]. intros n _ j u ks ks' Hj [Hl _]. apply lookup_lt_Some in Hl. lia.
  - intros s1 s2 s3 [a1 a2 a3 a4 a5 a6 a7] H23. pose proof H23 as [b1 b2 b3 b4 b5 b6 b7]. split.
    + by etrans.
    + by etrans.
    + lia.
    + intros k e [He|He]%b4; [|right; lia]. by apply a4.
    + intros p z. by rewrite a5.
    + congruence.
    + intros n Hn j u ks ks' Hj Hc. destruct (decide (j < length (e_journal s2))%nat) as [Hlt|Hge].
      * apply (a7 n Hn j u ks ks' Hj). by eapply changed_before.
      * apply (b7 n (proj1 (a5 _ _) Hn) j u ks ks' ltac:(lia) Hc).
Qed.
#[export] Instance etcd_protocol_preorder t : PreOrder (rely etcd_protocol t) := etcd_rely_preorder t.
Definition seq {B D} t F (p : prog etcd_call B) (f : B -> prog etcd_call D) G G' : triple' t F p G -> (forall b, triple' t (G b) (f b) G') -> triple' t F (bind p f) G' := triple_bind (etcd_exec proc) etcd_protocol t F p f G G'.
Definition call_seq {X D} t F (c : etcd_call X) (K : X -> prog etcd_call D) G G' : triple' t F (call c) G -> (forall x, triple' t (G x) (K x) G') -> triple' t F (Call c K) G' := seq t F (call c) K G G'.
Lemma overtaken_later t u n k0 k s s' : etcd_rely u s s' -> overtaken t n k0 k s -> overtaken t n k0 k s'.
Proof. intros Hr (j & v & ks & ks' & Hj & Hc & Hrest). exists j, v, ks, ks'. split_and!; [lia|lia|by eapply changed_later|apply Hrest..]. Qed.
Lemma once_stored_later u s s' k n z : etcd_rely u s s' -> once_stored s k n z -> once_stored s' k n z.
Proof. intros Hr (j & ks & Hj & Hs & Hv). exists j, ks. split_and!; [done|by eapply prefix_lookup_Some; [|apply Hr]|done]. Qed.
Lemma unchanged_later t u q s s' k0 k v a : etcd_rely u s s' -> unchanged t q s k0 k v a -> unchanged t q s' k0 k v a.
Proof.
  intros Hr. pose proof (fun n => overtaken_later t u n k0 k s s' Hr) as Ho. pose proof (fun n z => once_stored_later u s s' k n z Hr) as Hs. unfold unchanged. destruct q, a; try done.
  - destruct r; naive_solver.
  - destruct r; naive_solver.
  - destruct r; naive_solver.
  - destruct r; naive_solver.
  - destruct r; naive_solver.
  - intros (l & Hl & Hrest). exists l. split; [|done]. eapply Forall_impl; [exact Hl|]. intros z. apply Hs.
Qed.
Lemma answered_later t u s s' q k0 k ws a : etcd_rely u s s' -> answered t s q k0 k ws a -> answered t s' q k0 k ws a.
Proof.
  intros Hr [Hk Ha]. split; [done|]. destruct Ha as [(-> & ks & Hs & Ha)|[Hw Hf]]; [left|right].
  - split; [done|]. exists ks. split; [by eapply prefix_lookup_Some; [|apply Hr]|]. destruct Ha as [Ha|Ha]; [left; by eapply unchanged_later|by right].
  - split; [done|]. eapply Forall_impl; [exact Hf|]. intros j (Hj & ks & ks' & Hc & Ho). split; [done|]. exists ks, ks'. split; [by eapply changed_later|done].
Qed.
Lemma explained_later t u s s' k qs l ws : etcd_rely u s s' -> explained t s k qs l ws -> explained t s' k qs l ws.
Proof. intros Hr. induction 1; econstructor; [by eapply answered_later|done]. Qed.

(** ** What a thread knows *)
Record knows (t : nat) (lock : option string) (ws : list nat) (k : nat) (s : etcd) : Prop := {
  kn_held : forall p z, e_held s !! (p, z) = Some t <-> lock = Some z /\ p = proc t;
  kn_sent : sent t (e_journal s) = ws;
  kn_since : (k <= length (e_journal s))%nat }.
Lemma known_stable t lock ws k : stable' t (knows t lock ws k).
Proof.
  intros s s' [Hh Hs Hk] Hr _. split.
  - intros p z. rewrite <- Hh. symmetry. apply Hr.
  - by rewrite (er_sent _ _ _ Hr).
  - etrans; [exact Hk|]. apply prefix_length, Hr.
Qed.
Lemma stable_and t (F G : etcd -> Prop) : stable' t F -> stable' t G -> stable' t (fun s => F s /\ G s).
Proof. intros HF HG s s' [H1 H2] Hr Hi. split; [by eapply HF|by eapply HG]. Qed.
Lemma stable_const t (A : Prop) : stable' t (fun _ => A).
Proof. by intros s s' Ha _ _. Qed.
Lemma stable_exists {D} t (F : D -> etcd -> Prop) : (forall d, stable' t (F d)) -> stable' t (fun s => exists d, F d s).
Proof. intros HF s s' [d Hd] Hr Hi. exists d. by eapply HF. Qed.
Lemma stable_answered t q k0 k ws a : stable' t (fun s => answered t s q k0 k ws a).
Proof. intros s s' Ha Hr _. by eapply answered_later. Qed.

(** The entry of zone [n] read at snapshot [k], under the lock of the zone. *)
Record watching (t : nat) (n : string) (e : entry) (k : nat) (s : etcd) : Prop := {
  wa_read : exists ks, snapshots s !! k = Some ks /\ ks !! zp n = Some e;
  wa_revision : e_mod e <= e_revision s;
  wa_same : forall e', e_keys s !! zp n = Some e' -> e_mod e' = e_mod e -> e' = e;
  wa_quiet : undisturbed t n k s }.
Lemma watching_stable t n e k ws k0 : stable' t (fun s => knows t (Some n) ws k0 s /\ watching t n e k s).
Proof.
  intros s s' [Hk [Hread Hrev Hsame Hq]] Hr Hi. split; [by eapply known_stable|]. split.
  - destruct Hread as (ks & Hs & He). exists ks. split; [|done]. by eapply prefix_lookup_Some; [|apply Hr].
  - pose proof (er_revision _ _ _ Hr). lia.
  - intros e' He' Hm. destruct (er_fresh _ _ _ Hr _ _ He') as [He|He]; [by apply Hsame|]. lia.
  - intros j u ks ks' Hj Hc Hp. destruct (decide (j < length (e_journal s))%nat) as [Hlt|Hge].
    + apply (Hq j u ks ks' Hj); [|done]. by eapply changed_before.
    + exact (er_locked _ _ _ Hr n (proj2 (kn_held _ _ _ _ _ Hk (proc t) n) (conj eq_refl eq_refl)) j u ks ks' ltac:(lia) Hc Hp).
Qed.
(** A zone whose entry is another one was written by another process. *)
Lemma watching_overtaken t n e k k' ks' s : watching t n e k s -> (k <= k')%nat -> snapshots s !! k' = Some ks' -> ks' !! zp n <> Some e -> overtaken t n k k' s.
Proof.
  intros [(ks & Hs & He) _ _ Hq] Hk Hs' Hne. assert (Hlen : (k' <= length (e_journal s))%nat) by (apply lookup_lt_Some in Hs'; rewrite snapshots_length in Hs'; lia).
  assert (Hscan : forall d j ksj, (j + d = k')%nat -> (k <= j)%nat -> snapshots s !! j = Some ksj -> ksj !! zp n = Some e -> overtaken t n k k' s).
  { induction d as [|d IH]; intros j ksj Hj Hkj Hsj Hej.
    - assert (j = k') as -> by lia. rewrite Hs' in Hsj. injection Hsj as <-. done.
    - destruct (e_journal s !! j) as [[u ksj']|] eqn:Ej; [|apply lookup_ge_None in Ej; lia]. destruct (snapshots s !! S j) as [ks1|] eqn:E1; [|apply lookup_ge_None in E1; rewrite snapshots_length in E1; lia].
      assert (ksj' = ksj) as ->. { unfold snapshots in Hsj. rewrite lookup_app_l in Hsj by (rewrite length_fmap; lia). rewrite list_lookup_fmap, Ej in Hsj. by injection Hsj. }
      destruct (decide (ks1 !! zp n = Some e)) as [Hsame|Hdiff]; [apply (IH (S j) ks1); [lia|lia|done|done]|]. exists j, u, ksj, ks1. assert (Hc : changed s j u ksj ks1) by done.
      split_and!; [lia|lia|done| |by rewrite Hej]. intros Hp. apply Hdiff. by rewrite (Hq j u ksj ks1 Hkj Hc Hp). }
  by apply (Hscan (k' - k)%nat k ks); [lia|lia| |].
Qed.

(** ** Calls *)
Lemma sent_snoc t journal u ks : sent t (journal ++ [(u, ks)]) = sent t journal ++ (if (u =? t)%nat then [length journal] else []).
Proof.
  unfold sent. rewrite length_app, Nat.add_comm. cbn [length plus]. rewrite seq_S, List.filter_app. cbn [List.filter plus]. rewrite lookup_app_r, Nat.sub_diag by lia. cbn [lookup list_lookup]. replace (List.filter _ (List.seq 0 (length journal))) with (sent t journal); [by destruct (u =? t)%nat|].
  apply List.filter_ext_in. intros j Hj%in_seq. by rewrite lookup_app_l by lia.
Qed.
Definition committed (t : nat) (ks' : keyspace) (s : etcd) : etcd := mkEtcd ks' (e_revision s + 1) (e_journal s ++ [(t, e_keys s)]) (e_held s) (e_generators s).
Lemma committed_snapshots t ks' s : snapshots (committed t ks' s) = snapshots s ++ [ks'].
Proof. unfold snapshots, committed. cbn. by rewrite fmap_app. Qed.
Lemma committed_changed t ks' s : changed (committed t ks' s) (length (e_journal s)) t (e_keys s) ks'.
Proof.
  split; [cbn; by rewrite lookup_app_r, Nat.sub_diag|]. rewrite committed_snapshots, lookup_app_r; rewrite snapshots_length; [|done]. by rewrite Nat.sub_diag.
Qed.
Lemma commit_step t s ks' : etcd_inv s ->
  (forall k e, ks' !! k = Some e -> e_keys s !! k = Some e \/ e_mod e = e_revision s + 1) ->
  (forall m, ks' !! zp m <> e_keys s !! zp m -> e_held s !! (proc t, m) = Some t) ->
  keys_ok prefix unmarshal ks' (e_revision s + 1) ->
  (forall k e, ks' !! hp k = Some e -> (exists e0, e_keys s !! hp k = Some e0 /\ e_value e0 = e_value e)
     \/ exists z, unmarshal (e_value e) = Ok z /\ k = z_Name z +:+ "/" +:+ z_Version z /\ lacks "/"%char (z_Name z) /\ view ks' !! z_Name z = Some z) ->
  (exists q a, q ∈ requests t /\ outcome q (view (e_keys s)) (view ks') a) ->
  etcd_inv (committed t ks' s) /\ forall u, u <> t -> etcd_rely u s (committed t ks' s).
Proof.
  intros Hi Hfresh Hlock Hok Hhist (q & a & Hq & Ho). assert (Hrely : forall u, u <> t -> etcd_rely u s (committed t ks' s)).
  { intros u Hu. split.
    - by apply prefix_app_r.
    - rewrite committed_snapshots. by apply prefix_app_r.
    - cbn. lia.
    - intros k e [He|He]%Hfresh; [by left|right; lia].
    - done.
    - cbn [committed e_journal]. rewrite sent_snoc. destruct (Nat.eqb_spec t u); [done|]. by rewrite app_nil_r.
    - intros n Hn j v ks1 ks2 Hj [H1 H2] Hp. cbn in H1. rewrite lookup_app_r in H1 by lia. apply list_lookup_singleton_Some in H1 as [Hj0 [= <- <-]]. assert (j = length (e_journal s)) as -> by lia.
      destruct (committed_changed t ks' s) as [_ Hc]. rewrite Hc in H2. injection H2 as <-. destruct (decide (ks' !! zp n = e_keys s !! zp n)) as [|Hne]; [done|]. apply Hlock in Hne. rewrite Hp in Hne. congruence. }
  split; [|done]. pose proof (Hrely (S t) ltac:(lia)) as Hr. split.
  - pose proof (ei_revision _ Hi). cbn. lia.
  - done.
  - intros k e He. cbn [committed e_journal]. rewrite length_app. cbn [length]. destruct (Hhist k e He) as [(e0 & He0 & Hv)|(z & Hz & Hk & Hl & Hview)].
    + destruct (ei_history _ Hi k e0 He0) as (z & Hz & Hk & Hl & Hst). exists z. rewrite <- Hv. split_and!; [done..|]. apply (once_stored_later _ _ _ _ _ _ Hr) in Hst. destruct Hst as (j & ks & Hj & Hs & Hw). exists j, ks. split; [lia|done].
    + exists z. split_and!; [done..|]. exists (S (length (e_journal s))), ks'. split; [lia|]. split; [|done]. apply (committed_changed t ks' s).
  - intros j u ks Hj. cbn [committed e_journal] in Hj. destruct (decide (j < length (e_journal s))%nat) as [Hlt|Hge].
    + rewrite lookup_app_l in Hj by done. destruct (ei_journal _ Hi j u ks Hj) as (ks1 & q1 & a1 & Hs & Hrest). exists ks1, q1, a1. split; [|done]. by eapply prefix_lookup_Some; [|apply Hr].
    + rewrite lookup_app_r in Hj by lia. apply list_lookup_singleton_Some in Hj as [Hj0 [= <- <-]]. assert (j = length (e_journal s)) as -> by lia. exists ks', q, a. split; [apply (committed_changed t ks' s)|done].
  - apply Hi.
Qed.

Lemma call_get t (F : etcd -> Prop) r (G : result (list (string * entry) * Z) -> etcd -> Prop) : stable' t F -> (forall x, stable' t (G x)) ->
  (forall s, etcd_inv s -> F s -> (broken -> forall text, G (Err (Errorf text)) s) /\ G (Ok (select r (e_keys s))) s) -> triple' t F (call (CGet r)) G.
Proof.
  intros HF HG Hs. apply triple_call; [done..|]. intros s Hi Hf. split; [done|]. intros a x s2 Ha. cbn [etcd_exec]. destruct (Hs s Hi Hf) as [H1 H2].
  cbn in Ha. destruct (a_fails a) as [text|]; intros [= <- <-]; (split; [done|]; split; [intros u _; reflexivity|]); [|done]. by apply H1, Ha.
Qed.
(** Calls that leave keys, journal and locks alone. *)
Lemma same_rely u s s' : e_keys s' = e_keys s -> e_revision s' = e_revision s -> e_journal s' = e_journal s -> (forall p z, e_held s !! (p, z) = Some u <-> e_held s' !! (p, z) = Some u) -> etcd_rely u s s'.
Proof.
  intros Hk Hr Hj Hh. assert (Hs : snapshots s' = snapshots s) by (unfold snapshots; by rewrite Hk, Hj). split.
  - by rewrite Hj.
  - by rewrite Hs.
  - lia.
  - intros k e. rewrite Hk. by left.
  - done.
  - by rewrite Hj.
  - intros n _ j v ks ks' Hl [Hc _]. rewrite Hj in Hc. apply lookup_lt_Some in Hc. lia.
Qed.
Lemma same_inv s s' : e_keys s' = e_keys s -> e_revision s' = e_revision s -> e_journal s' = e_journal s -> (forall p z t, e_held s' !! (p, z) = Some t -> requests t <> []) -> etcd_inv s -> etcd_inv s'.
Proof.
  intros Hk Hr Hj Hh [H1 H2 H3 H4 _]. assert (Hs : snapshots s' = snapshots s) by (unfold snapshots; by rewrite Hk, Hj). split.
  - by rewrite Hr.
  - by rewrite Hk, Hr.
  - unfold once_stored in *. by rewrite Hk, Hj, Hs.
  - by rewrite Hj, Hs.
  - done.
Qed.
Lemma call_local {X} t (F : etcd -> Prop) (f : Inputs -> ulidState -> X * ulidState) (G : X -> etcd -> Prop) : stable' t F -> (forall x, stable' t (G x)) ->
  (forall s e u, F s -> G (fst (f e u)) s) -> triple' t F (call (CLocal f)) G.
Proof.
  intros HF HG Hf. apply triple_call; [done..|]. intros s Hi Hs. split; [done|]. intros a x s2 _. cbn [etcd_exec]. specialize (Hf s (a_inputs a) (e_generators s (proc t)) Hs).
  destruct (f (a_inputs a) (e_generators s (proc t))) as [y u]. intros [= <- <-]. set (s' := mkEtcd _ _ _ _ _). assert (Hr : forall v, etcd_rely v s s') by (intros v; by apply same_rely).
  assert (Hi' : etcd_inv s') by (apply (same_inv s); [done..|apply (ei_holders _ Hi)|done]). split; [done|]. split; [intros v _; apply Hr|]. eapply HG; [exact Hf|apply Hr|done].
Qed.
Lemma call_lock t zone ws k : requests t <> [] -> triple' t (knows t None ws k) (call (CLock zone)) (fun _ => knows t (Some zone) ws k).
Proof.
  intros Hreq. apply triple_call; [apply known_stable|intros []; apply known_stable|]. intros s Hi [Hh Hs Hk]. split; [intros p z Hz; by apply Hh in Hz as [? _]|]. intros a x s2 _. cbn [etcd_exec].
  destruct (e_held s !! (proc t, zone)) as [u|] eqn:El; [done|]. intros [= <- <-]. set (s' := mkEtcd _ _ _ _ _). split.
  { apply (same_inv s); [done..| |done]. intros p z u. cbn. rewrite lookup_insert. case_decide; [by intros [= <-]|apply (ei_holders _ Hi)]. }
  split.
  - intros u Hu. apply same_rely; [done..|]. intros p z. cbn. rewrite lookup_insert. case_decide as Hd; [|done]. injection Hd as <- <-. rewrite El. split; [done|]. intros [= ?]. by subst.
  - split; cbn; [|done|done]. intros p z. rewrite lookup_insert. case_decide as Hd; [injection Hd as <- <-; done|]. rewrite Hh. split; [by intros [? _]|]. intros [[= <-] ->]. done.
Qed.
Lemma call_unlock t zone ws k (R : etcd -> Prop) : (forall u s s', etcd_rely u s s' -> R s -> R s') ->
  triple' t (fun s => knows t (Some zone) ws k s /\ R s) (call (CUnlock zone)) (fun _ s => knows t None ws k s /\ R s).
Proof.
  intros Hlater. assert (HR : stable' t R) by (intros s s' Hs Hr _; by eapply Hlater).
  apply triple_call; [by apply stable_and; [apply known_stable|]|intros []; by apply stable_and; [apply known_stable|]|]. intros s Hi [[Hh Hs Hk] Hrs]. split; [by apply Hh|]. intros a x s2 _. cbn [etcd_exec]. intros [= <- <-].
  set (s' := mkEtcd _ _ _ _ _). assert (Hg : forall u, u <> t -> etcd_rely u s s').
  { intros u Hu. apply same_rely; [done..|]. intros p z. cbn. rewrite lookup_delete. case_decide as Hd; [|done]. injection Hd as <- <-. split; [|done]. intros Hu'. exfalso. apply Hu. pose proof (proj2 (Hh (proc t) zone) (conj eq_refl eq_refl)) as Ht. congruence. }
  split; [apply (same_inv s); [done..| |done]; intros p z u Hu; cbn in Hu; apply lookup_delete_Some in Hu as [_ Hu]; by apply (ei_holders _ Hi) in Hu|]. split; [exact Hg|]. split; [|apply (Hlater (S t) s); [apply Hg; lia|done]].
  split; cbn; [|done|done]. intros p z. rewrite lookup_delete. case_decide as Hd; [injection Hd as <- <-; by split; [|intros []]|]. rewrite Hh. split; [|by intros []]. intros [[= <-] ->]. done.
Qed.
Lemma call_txn t (F : etcd -> Prop) cmps ops (G : result bool -> etcd -> Prop) : stable' t F -> (forall x, stable' t (G x)) ->
  (forall s, etcd_inv s -> F s -> (broken -> forall text, G (Err (Errorf text)) s)
     /\ if forallb (holds (e_keys s)) cmps
        then let s2 := committed t (apply_operations (e_revision s + 1) ops (e_keys s)) s in
             etcd_inv s2 /\ (forall u, u <> t -> etcd_rely u s s2) /\ G (Ok true) s2 /\ (broken -> forall text, G (Err (Errorf text)) s2)
        else G (Ok false) s) -> triple' t F (call (CTxn cmps ops)) G.
Proof.
  intros HF HG Hs. apply triple_call; [done..|]. intros s Hi Hf. split; [done|]. intros a x s2 Ha. cbn [etcd_exec]. unfold commit. destruct (Hs s Hi Hf) as [H1 H2]. fold (committed t (apply_operations (e_revision s + 1) ops (e_keys s)) s).
  assert (Hself : guar etcd_protocol t s s) by (intros u _; reflexivity). cbn in Ha.
  destruct (a_fails a) as [text|]; [specialize (Ha ltac:(done)); specialize (H1 Ha text)|]; destruct (forallb (holds (e_keys s)) cmps); cbn [snd].
  - destruct H2 as (? & ? & _ & H2). specialize (H2 Ha text). destruct (a_applied a); intros [= <- <-]; [done|]. done.
  - destruct (a_applied a); intros [= <- <-]; done.
  - intros [= <- <-]. destruct H2 as (? & ? & ? & _). done.
  - intros [= <- <-]. done.
Qed.

(** ** Reading *)
(** The keys [ks] of snapshot [k] as a thread read them. *)
Record observed (t : nat) (lock : option string) (ws : list nat) (k0 k : nat) (ks : keyspace) (s : etcd) : Prop := {
  ob_since : (k0 <= k)%nat;
  ob_knows : knows t lock ws k s;
  ob_snapshot : snapshots s !! k = Some ks;
  ob_keys : exists rev, keys_ok prefix unmarshal ks rev;
  ob_history : forall key e, ks !! hp key = Some e -> exists z, unmarshal (e_value e) = Ok z /\ key = z_Name z +:+ "/" +:+ z_Version z
    /\ lacks "/"%char (z_Name z) /\ once_stored s k (z_Name z) z;
  ob_watching : forall n e, lock = Some n -> ks !! zp n = Some e -> watching t n e k s }.
Lemma observed_stable t lock ws k0 k ks : stable' t (observed t lock ws k0 k ks).
Proof.
  intros s s' [H1 H2 H3 H4 H5 H6] Hr Hi. split; [done|by eapply known_stable|by eapply prefix_lookup_Some; [|apply Hr]|done| |].
  - intros key e He. destruct (H5 key e He) as (z & Hz & Hk & Hl & Hst). exists z. split_and!; [done..|]. by eapply once_stored_later.
  - intros n e -> He. eapply (watching_stable t n e k ws k s s'); [|done|done]. split; [done|by apply H6].
Qed.
Lemma observe t lock ws k0 s : etcd_inv s -> knows t lock ws k0 s -> observed t lock ws k0 (length (e_journal s)) (e_keys s) s.
Proof.
  intros Hi [Hh Hs Hk]. split; [done|by split|apply snapshots_now|by exists (e_revision s); apply Hi|apply Hi|].
  intros n e _ He. split.
  - exists (e_keys s). by rewrite snapshots_now.
  - pose proof (ko_revision _ _ _ _ (ei_keys _ Hi) _ _ He). lia.
  - congruence.
  - intros j u ks ks' Hj [Hc _]. apply lookup_lt_Some in Hc. lia.
Qed.
Lemma triple_read t lock ws k0 r (F : etcd -> Prop) : stable' t F -> (forall s, F s -> knows t lock ws k0 s) ->
  triple' t F (call (CGet r)) (fun x s => F s /\ exists k ks, observed t lock ws k0 k ks s /\ (x = Ok (select r ks) \/ broken /\ exists text, x = Err (Errorf text))).
Proof.
  intros HF Hk. apply call_get; [done| |].
  - intros x. apply stable_and; [done|]. apply stable_exists. intros k. apply stable_exists. intros ks. apply stable_and; [apply observed_stable|apply stable_const].
  - intros s Hi Hf. pose proof (observe t lock ws k0 s Hi (Hk s Hf)) as Ho. split.
    + intros Hb text. split; [done|]. eexists _, _. split; [exact Ho|]. eauto.
    + split; [done|]. eexists _, _. split; [exact Ho|]. by left.
Qed.

(** The request [q] is answered. *)
Definition served (t : nat) (lock : option string) (q : etcd_request) (ws : list nat) (k0 : nat) (a : etcd_response) (s : etcd) : Prop :=
  exists k ws', answered t s q k0 k ws' a /\ knows t lock (ws ++ ws') k s.
Lemma served_stable t lock q ws k0 a : stable' t (served t lock q ws k0 a).
Proof. apply stable_exists. intros k. apply stable_exists. intros ws'. apply stable_and; [apply stable_answered|apply known_stable]. Qed.
Lemma observed_served t lock q ws k0 k ks a s : observed t lock ws k0 k ks s -> (unchanged t q s k0 k (view ks) a \/ exists err, lost err /\ answer_error a = Some err) -> served t lock q ws k0 a s.
Proof. intros Ho Ha. exists k, []. rewrite app_nil_r. split; [|apply Ho]. split; [apply Ho|]. left. split; [done|]. exists ks. split; [apply Ho|done]. Qed.
Lemma serve_read t q ws k0 r K :
  (forall s k ks, observed t None ws k0 k ks s -> exists a, K (Ok (select r ks)) = Ret a /\ unchanged t q s k0 k (view ks) a) ->
  (forall text, exists a p, K (Err (Errorf text)) = Ret a /\ answer_error a = Some (Wrapf p (Errorf text))) ->
  triple' t (knows t None ws k0) (Call (CGet r) K) (served t None q ws k0).
Proof.
  intros Hok Herr. change (Call (CGet r) K) with (bind (call (CGet r)) K). eapply seq; [apply (triple_read t None ws k0 r (knows t None ws k0) (known_stable _ _ _ _)); auto|]. intros x. cbv beta.
  intros s (_ & k & ks & Ho & Hx). destruct Hx as [->|[Hb [text ->]]].
  - destruct (Hok s k ks Ho) as (a & Ha & Hun). rewrite Ha. apply rg_ret. intros s1 Hr Hi. apply (served_stable t None q ws k0 a s); [|done|done]. eapply observed_served; [done|by left].
  - destruct (Herr text) as (a & p & Ha & Her). rewrite Ha. apply rg_ret. intros s1 Hr Hi. apply (served_stable t None q ws k0 a s); [|done|done]. eapply observed_served; [done|]. right. exists (Wrapf p (Errorf text)). split; [|done]. split; [done|]. by exists p, text.
Qed.
Abbreviation serves t q := (forall ws k0, triple' t (knows t None ws k0) (etcd_serve q) (served t None q ws k0)).
(** A read answers with [f], the value of the keys, or the error of the call. *)
Ltac serve_by_reading := intros ws k0; cbn [etcd_serve]; apply serve_read; [intros s k ks Ho; destruct (ob_keys _ _ _ _ _ _ _ Ho) as [rev Hok]|intros text; by eexists _, _].
Lemma serve_health t : serves t EHealth.
Proof. serve_by_reading. by eexists. Qed.
Lemma serve_get t name : serves t (EGet name).
Proof.
  serve_by_reading. rewrite select_one. unfold zoneKey. cbn [wrap bind]. destruct (ks !! zp (nn name)) as [e|] eqn:He.
  - destruct (view_stored _ _ _ _ _ _ Hok He) as (z & Hz & Hu & _). eexists. cbn. rewrite Hu. split; [done|]. cbn. by rewrite Hz.
  - eexists. split; [done|]. cbn. by rewrite (proj2 (view_missing _ _ _ _ _ Hok) He).
Qed.
Lemma serve_version t name : NormalizeZoneName (nn name) = nn name -> serves t (EVersion name).
Proof.
  intros Hn. serve_by_reading. rewrite select_one. unfold versionKey. rewrite Hn. cbn [wrap bind]. destruct (ks !! vp (nn name)) as [ve|] eqn:Hve.
  - destruct (ko_version _ _ _ _ Hok (nn name)) as [e He]; [eauto|]. destruct (view_stored _ _ _ _ _ _ Hok He) as (z & Hz & _ & _ & _ & _ & _ & Hv). rewrite Hve in Hv. injection Hv as Hv. eexists. split; [done|]. cbn. by rewrite Hz, Hv.
  - eexists. split; [done|]. cbn. destruct (view ks !! nn name) as [z|] eqn:Hz; [|done]. destruct (proj2 (version_keys _ _ _ _ (nn name) Hok)); [eauto|congruence].
Qed.
Lemma select_sorted ks r : select (mkRange r true 0 false) ks = (sort_Slice key_less (List.filter (in_range (mkRange r true 0 false)) (map_to_list ks)), Z.of_nat (length (sort_Slice key_less (List.filter (in_range (mkRange r true 0 false)) (map_to_list ks))))).
Proof. done. Qed.
Lemma serve_count t : serves t ECount.
Proof.
  serve_by_reading. unfold all_keys. rewrite select_sorted, (select_all prefix unmarshal) by (intros n; by apply (zone_keys prefix unmarshal ks rev)). eexists. split; [done|]. cbn [unchanged wrap snd]. f_equal. f_equal. rewrite length_map. unfold in_order.
  rewrite (Permutation_length (sort_Slice_Permutation _ _)). apply length_map_to_list.
Qed.
Lemma serve_list t opts : paging_ok opts -> serves t (EList opts).
Proof.
  intros Hp. serve_by_reading. unfold all_keys. rewrite select_sorted, (select_all prefix unmarshal) by (intros n; by apply (zone_keys prefix unmarshal ks rev)). cbn [wrap bind fst]. rewrite (unmarshal_in_order prefix unmarshal _ ks rev Hok). cbn [rbind].
  eexists. split; [done|]. exists (sort_Slice (fun a b => str_ltb (z_Name a) (z_Name b)) (zones_in_order prefix unmarshal ks)). split_and!.
  - rewrite sort_Slice_Permutation. apply zones_perm.
  - apply sort_Slice_sorted, (by_key_weak z_Name).
  - by apply paginate_page.
Qed.
Lemma serve_summaries t opts : paging_ok opts -> serves t (ESummaries opts).
Proof.
  intros Hp. serve_by_reading. set (l := map (entry_of (versionPrefix prefix) ks) (in_order prefix unmarshal ks)).
  assert (Hsel : fst (select (mkRange (versionPrefix prefix) true (if 0 <? Limit opts then i64 ((if Offset opts <? 0 then 0 else Offset opts) + Limit opts) else 0) false) ks)
    = (if 0 <? (if 0 <? Limit opts then i64 ((if Offset opts <? 0 then 0 else Offset opts) + Limit opts) else 0) then take (Z.to_nat (if 0 <? Limit opts then i64 ((if Offset opts <? 0 then 0 else Offset opts) + Limit opts) else 0)) l else l)).
  { unfold select, l. cbn [r_limit r_descend fst]. pose proof (select_all prefix unmarshal ks (versionPrefix prefix)) as Hs. rewrite <- Hs by (intros n; by apply (version_keys prefix unmarshal ks rev)). done. }
  eexists. split; [done|]. cbn [wrap unchanged]. rewrite Hsel, (summaries_page opts) by done. exists (zones_in_order prefix unmarshal ks). split_and!; [apply zones_perm|by eapply zones_sorted|]. do 2 f_equal. unfold l, zones_in_order. rewrite !map_map. apply List.map_ext_in.
  intros [n z] Hin%list_elem_of_In%in_order_elem. cbn [fst snd] in Hin. unfold entry_of. cbn [fst snd]. rewrite TrimPrefix_app. destruct (keys_ok_lock _ _ _ _ _ _ Hok Hin) as (Hname & _). unfold summary_of. rewrite Hname. f_equal.
  destruct (ks !! zp n) as [e|] eqn:He; [|by rewrite (proj2 (view_missing _ _ _ _ _ Hok) He) in Hin]. destruct (view_stored _ _ _ _ _ _ Hok He) as (z' & Hz & _ & _ & _ & _ & _ & Hv). rewrite Hin in Hz. injection Hz as <-. destruct (ks !! vp n); [by injection Hv|done].
Qed.
Lemma serve_revision t name version : NormalizeZoneName (nn name) = nn name -> lacks "/"%char (nn name) -> serves t (ERevision name version).
Proof.
  intros Hn Hl. serve_by_reading. rewrite select_one. unfold historyKey. rewrite Hn. cbn [wrap bind]. destruct (ks !! hp (nn name +:+ "/" +:+ version)) as [e|] eqn:He.
  - destruct (ob_history _ _ _ _ _ _ _ Ho _ _ He) as (z & Hz & Hk & Hlz & Hst). eexists. cbn. rewrite Hz. split; [done|]. cbn. apply lacks_split in Hk as [-> ->]; done.
  - eexists. split; [done|]. done.
Qed.
Lemma unmarshal_history text n (P : Zone -> Prop) kvs : Forall (fun ke => exists z, unmarshal (e_value (snd ke)) = Ok z /\ fst ke = hp (n +:+ "/" +:+ z_Version z) /\ P z) kvs ->
  exists l, unmarshal_all unmarshal text kvs = Ok l /\ Forall P l /\ map fst kvs = map (fun z => hp (n +:+ "/" +:+ z_Version z)) l.
Proof.
  induction 1 as [|[k e] kvs (z & Hz & Hk & Hp) _ (l & Hl & HP & Hm)]; [by exists []|]. cbn in *. rewrite Hz. cbn. rewrite Hl. cbn. exists (z :: l). split_and!; [done|by constructor|]. cbn. by rewrite Hk, Hm.
Qed.
Lemma filter_keys_NoDup {A B} (f : A * B -> bool) (l : list (A * B)) : NoDup l.*1 -> NoDup (List.filter f l).*1.
Proof.
  induction l as [|x l IH]; [done|]. cbn. intros [Hx Hl]%NoDup_cons. destruct (f x); [|by apply IH]. cbn. apply NoDup_cons. split; [|by apply IH].
  intros (y & Hy & [Hin _]%list_elem_of_In%filter_In)%list_elem_of_fmap. apply Hx, list_elem_of_fmap. exists y. by rewrite list_elem_of_In.
Qed.
Lemma serve_revisions t name opts : NormalizeZoneName (nn name) = nn name -> lacks "/"%char (nn name) -> paging_ok opts -> serves t (ERevisions name opts).
Proof.
  intros Hn Hl Hp. serve_by_reading. unfold historyPrefixForZone. rewrite Hn. set (r := mkRange _ _ _ _). set (kvs := fst (select r ks)). assert (Hperm : kvs ≡ₚ List.filter (in_range r) (map_to_list ks)).
  { unfold kvs, select. cbn [r r_limit r_descend fst]. change (0 <? 0) with false. cbv iota. by rewrite <- Permutation_rev, sort_Slice_Permutation. }
  destruct (unmarshal_history "failed to unmarshal revision at key " (nn name) (once_stored s k (nn name)) kvs) as (l & Hun & HP & Hm).
  { apply Forall_forall. intros [key e] Hin. rewrite Hperm in Hin. apply list_elem_of_In, filter_In in Hin as [Hin Hr]. apply list_elem_of_In, elem_of_map_to_list in Hin. unfold in_range in Hr. cbn [r r_prefix r_key fst] in Hr. apply HasPrefix_true in Hr as [v ->].
    rewrite !str_app_assoc in Hin. destruct (ob_history _ _ _ _ _ _ _ Ho _ _ Hin) as (z & Hz & Hk & Hlz & Hst). apply lacks_split in Hk as [Hnz Hv]; [|done|done]. exists z. cbn [fst snd]. rewrite <- Hv, !str_app_assoc. rewrite <- Hnz in Hst. done. }
  exists (RRevisions (Ok (page opts (map revision_of l)))). split.
  - cbn [wrap bind]. fold kvs. rewrite Hun. cbn [rbind]. by rewrite paginate_page.
  - exists l. split_and!; [done| |done]. apply (NoDup_fmap_1 (fun v => hp (nn name +:+ "/" +:+ v))). rewrite <- list_fmap_compose. unfold compose. change (NoDup (map (fun z => hp (nn name +:+ "/" +:+ z_Version z)) l)). rewrite <- Hm.
    assert (Hnd : NoDup (map fst kvs)); [|exact Hnd]. change (NoDup kvs.*1). rewrite Hperm. apply filter_keys_NoDup, NoDup_fst_map_to_list.
Qed.

(** ** Writing *)
Lemma commit_known t lock ws k0 s ks' : knows t lock ws k0 s -> knows t lock (ws ++ [length (e_journal s)]) (S (length (e_journal s))) (committed t ks' s).
Proof.
  intros [Hh Hs Hk]. split; [done| |].
  - cbn [committed e_journal]. by rewrite sent_snoc, Hs, Nat.eqb_refl.
  - cbn [committed e_journal]. rewrite length_app. cbn. lia.
Qed.
Lemma delete_keys_served t name ws k0 keys : ECleanup name ∈ requests t -> Forall (fun key => exists k, key = hp k) keys ->
  triple' t (served t None (ECleanup name) ws k0 (RDone (Ok tt))) (delete_keys keys) (fun _ => served t None (ECleanup name) ws k0 (RDone (Ok tt))).
Proof.
  intros Hq. induction 1 as [|key keys [k ->] _ IH]; cbn [delete_keys]; [apply triple_ret; [apply served_stable|auto]|]. eapply seq; [|intros b; exact IH].
  apply call_txn; [apply served_stable|intros; apply served_stable|]. intros s Hi Hs. split; [done|]. cbn [forallb]. cbv zeta. set (ks' := apply_operations _ _ _). change ks' with (delete (hp k) (e_keys s)) in *. clear ks'.
  destruct (clean_ok prefix unmarshal (e_keys s) (e_revision s) k (e_revision s + 1) (ei_keys _ Hi) ltac:(lia)) as [Hok Hview].
  assert (Hz : forall m, delete (hp k) (e_keys s) !! zp m = e_keys s !! zp m) by (intros m; apply lookup_delete_ne; intros Hz; symmetry in Hz; by apply zone_not_history in Hz).
  destruct (commit_step t s (delete (hp k) (e_keys s)) Hi) as [Hi' Hr].
  - intros k' e [_ He]%lookup_delete_Some. by left.
  - intros m Hm. by rewrite Hz in Hm.
  - done.
  - intros k' e [_ He]%lookup_delete_Some. left. by exists e.
  - exists (ECleanup name), (RDone (Ok tt)). split; [done|]. by rewrite Hview.
  - assert (Hserved : served t None (ECleanup name) ws k0 (RDone (Ok tt)) (committed t (delete (hp k) (e_keys s)) s)); [|done]. destruct Hs as (k1 & ws' & Ha & Hk1). exists (S (length (e_journal s))), (ws' ++ [length (e_journal s)]).
    rewrite app_assoc. split; [|by apply (commit_known _ _ _ k1)]. apply (answered_later t (S t) s _ _ _ _ _ _ (Hr (S t) ltac:(lia))) in Ha. destruct Ha as [Hle Ha]. pose proof (kn_since _ _ _ _ _ Hk1) as Hlen. split; [lia|]. right. split; [right; by exists name|].
    apply Forall_app. split.
    + destruct Ha as [(-> & _)|[_ Hf]]; [constructor|]. eapply Forall_impl; [exact Hf|]. intros j [Hj Hc]. split; [lia|done].
    + constructor; [|constructor]. split; [lia|]. exists (e_keys s), (delete (hp k) (e_keys s)). split; [apply committed_changed|]. by rewrite Hview.
Qed.
Lemma serve_cleanup t name : ECleanup name ∈ requests t -> serves t (ECleanup name).
Proof.
  intros Hq ws k0. cbn [etcd_serve]. eapply seq; [|intros b; apply (triple_ret _ _ _ (served t None (ECleanup name) ws k0 (RDone (Ok tt)))); [apply served_stable|auto]].
  unfold cleanupHistory. assert (Hstart : forall s, knows t None ws k0 s -> served t None (ECleanup name) ws k0 (RDone (Ok tt)) s).
  { intros s Hs. exists k0, []. rewrite app_nil_r. split; [|done]. split; [done|]. right. split; [right; by exists name|constructor]. }
  eapply seq; [apply (triple_read t None ws k0 _ (knows t None ws k0) (known_stable _ _ _ _)); auto|]. intros x. cbv beta. eapply triple_conseq; [|intros s Hs; exact Hs|intros b s Hs; exact Hs].
  intros s (Hs%Hstart & k & ks & Ho & Hx). destruct Hx as [->|[_ [text ->]]]; [|by apply (triple_ret _ _ t _ tt _ (served_stable t None (ECleanup name) ws k0 (RDone (Ok tt))))].
  set (r := mkRange _ _ _ _). destruct (select r ks) as [kvs count] eqn:Esel. destruct (_ <? count); [|by apply (triple_ret _ _ t _ tt _ (served_stable t None (ECleanup name) ws k0 (RDone (Ok tt))))].
  apply delete_keys_served; [done| |done]. apply Forall_map, Forall_forall. intros [key e] Hin%list_elem_of_In. apply list_elem_of_In, (subseteq_drop defaultHistoryRetention kvs) in Hin.
  assert (Hk : (key, e) ∈ List.filter (in_range r) (map_to_list ks)).
  { unfold select in Esel. cbn [r r_limit r_descend] in Esel. change (0 <? 0) with false in Esel. cbv iota in Esel. injection Esel as <- _. by rewrite <- Permutation_rev, sort_Slice_Permutation in Hin. }
  apply list_elem_of_In, filter_In in Hk as [_ Hr]. unfold in_range in Hr. cbn [r r_prefix r_key fst] in Hr. apply HasPrefix_true in Hr as [v ->]. unfold historyPrefixForZone. rewrite !str_app_assoc. cbn [fst]. by eexists.
Qed.

(** The new keys [ks'] differ in the keys of zone [n] only. *)
Record sound_write (n : string) (s : etcd) (ks' : keyspace) : Prop := {
  sw_fresh : forall k e, ks' !! k = Some e -> e_keys s !! k = Some e \/ e_mod e = e_revision s + 1;
  sw_zone : forall m, m <> n -> ks' !! zp m = e_keys s !! zp m;
  sw_ok : keys_ok prefix unmarshal ks' (e_revision s + 1);
  sw_history : forall k e, ks' !! hp k = Some e -> (exists e0, e_keys s !! hp k = Some e0 /\ e_value e0 = e_value e)
     \/ exists z, unmarshal (e_value e) = Ok z /\ k = z_Name z +:+ "/" +:+ z_Version z /\ lacks "/"%char (z_Name z) /\ view ks' !! z_Name z = Some z }.
Lemma triple_write t n q ws k0 (F R : etcd -> Prop) cmps ops (ans : result bool -> etcd_response) p : q ∈ requests t -> stable' t F -> stable' t R -> (forall s, F s -> knows t (Some n) ws k0 s) ->
  (forall text, answer_error (ans (Err (Errorf text))) = Some (Wrapf p (Errorf text))) ->
  (forall s, etcd_inv s -> F s -> if forallb (holds (e_keys s)) cmps
     then let ks' := apply_operations (e_revision s + 1) ops (e_keys s) in
          sound_write n s ks' /\ outcome q (view (e_keys s)) (view ks') (ans (Ok true)) /\ forall text, broken -> outcome q (view (e_keys s)) (view ks') (ans (Err (Errorf text)))
     else R s) ->
  triple' t F (call (CTxn cmps ops)) (fun x s => match x with Ok false => R s | _ => served t (Some n) q ws k0 (ans x) s end).
Proof.
  intros Hq HF HR Hk Hans Hs. apply call_txn; [done|by intros [[]|]; [apply served_stable| |apply served_stable]|]. intros s Hi Hf. specialize (Hs s Hi Hf). pose proof (Hk s Hf) as Hkn. split.
  - intros Hb text. eapply observed_served; [by apply observe|]. right. exists (Wrapf p (Errorf text)). split; [|apply Hans]. split; [done|]. by exists p, text.
  - destruct (forallb (holds (e_keys s)) cmps); [|done]. cbv zeta in *. set (ks' := apply_operations _ _ _) in *. destruct Hs as ([H1 H2 H3 H4] & Ho & Hlost).
    assert (Hserved : forall a, outcome q (view (e_keys s)) (view ks') a -> served t (Some n) q ws k0 a (committed t ks' s)).
    { intros a Ha. exists (S (length (e_journal s))), [length (e_journal s)]. pose proof (kn_since _ _ _ _ _ Hkn) as Hlen. split; [|by eapply commit_known]. split; [lia|]. right. split; [left; by eexists|]. constructor; [|constructor]. split; [lia|].
      exists (e_keys s), ks'. split; [apply committed_changed|done]. }
    destruct (commit_step t s ks' Hi H1) as [Hi' Hr]; [|done|done|by eexists q, _|].
    + intros m Hm. destruct (decide (m = n)) as [->|Hne]; [by apply Hkn|]. by rewrite H2 in Hm.
    + split_and!; [done|done|by apply Hserved|]. intros Hb text. by apply Hserved, Hlost.
Qed.
Lemma under_lock {A} t n q ws k0 (p : prog etcd_call A) (f : A -> etcd_response) : q ∈ requests t ->
  triple' t (knows t (Some n) ws k0) p (fun a => served t (Some n) q ws k0 (f a)) -> triple' t (knows t None ws k0) (respond f (locked n p)) (served t None q ws k0).
Proof.
  intros Hq Hp. eapply (seq _ _ _ _ (fun a => served t None q ws k0 (f a))); [|intros a; apply triple_ret; [apply served_stable|auto]].
  eapply seq; [apply call_lock; by destruct (requests t); [apply elem_of_nil in Hq|]|]. intros []. eapply seq; [exact Hp|]. intros a. cbv beta. unfold served. apply triple_exists. intros k. apply triple_exists. intros ws'.
  eapply seq; [eapply triple_conseq; [apply (call_unlock t n (ws ++ ws') k (fun s => answered t s q k0 k ws' (f a))); intros u s s'; apply answered_later|intros s [H1 H2]; by split|intros b s Hs; exact Hs]|].
  intros []. apply triple_ret; [apply stable_and; [apply known_stable|apply stable_answered]|]. intros s _ [H1 H2]. by exists k, ws'.
Qed.

(** What the transaction of a write finds, after the entry [e] of zone [z] was read. *)
Lemma comparisons t n ws k0 k ks s e z expected : etcd_inv s -> observed t (Some n) ws k0 k ks s -> ks !! zp n = Some e -> view ks !! n = Some z ->
  if forallb (holds (e_keys s)) (ModRevisionIs (zp n) (e_mod e) :: version_is (vp n) expected)
  then e_keys s !! zp n = Some e /\ view (e_keys s) !! n = Some z /\ (expected = "" \/ expected = z_Version z)
  else overtaken t n k0 (length (e_journal s)) s \/ (expected <> "" /\ expected <> z_Version z).
Proof.
  intros Hi Ho He Hz. pose proof (ob_watching _ _ _ _ _ _ _ Ho n e eq_refl He) as Hw. destruct (ob_keys _ _ _ _ _ _ _ Ho) as [rev Hok]. pose proof (ko_revision _ _ _ _ Hok _ _ He) as Hpos.
  assert (Hover : e_keys s !! zp n <> Some e -> overtaken t n k0 (length (e_journal s)) s).
  { intros Hne. pose proof (kn_since _ _ _ _ _ (ob_knows _ _ _ _ _ _ _ Ho)) as Hlen. destruct (watching_overtaken t n e k _ _ s Hw Hlen (snapshots_now s) Hne) as (j & u & ks1 & ks2 & Hj & Hrest). pose proof (ob_since _ _ _ _ _ _ _ Ho). exists j, u, ks1, ks2. split; [lia|done]. }
  cbn [forallb holds]. destruct (e_keys s !! zp n) as [e'|] eqn:He'.
  2: { cbn [from_option]. rewrite (proj2 (Z.eqb_neq 0 _)) by lia. left. by apply Hover. }
  cbn [from_option]. destruct (Z.eqb_spec (e_mod e') (e_mod e)) as [Hm|Hm]; cbn [andb].
  2: { left. apply Hover. intros [= ->]. done. }
  pose proof (wa_same _ _ _ _ _ Hw e' He' Hm) as ->. clear Hover. destruct (view_stored _ _ _ _ _ _ (ei_keys _ Hi) He') as (z' & Hz' & Hu & _ & _ & _ & _ & Hv).
  assert (z' = z) as ->. { destruct (view_stored _ _ _ _ _ _ Hok He) as (z2 & Hz2 & Hu2 & _). congruence. }
  unfold version_is. destruct (String.eqb_spec expected "") as [->|Hne]; cbn [forallb]; [by auto|]. cbn [holds]. destruct (e_keys s !! vp n) as [ve|]; [|done]. cbn in Hv. injection Hv as ->.
  destruct (String.eqb_spec (z_Version z) expected) as [->|Hne']; cbn [andb]; [by auto|]. right. by split.
Qed.
(** A read of the zone's entry under its lock. *)
Lemma read_then {A} t n q ws k0 (K : result (list (string * entry) * Z) -> prog etcd_call A) (f : A -> etcd_response) p :
  (forall text, exists a, K (Err (Errorf text)) = Ret a /\ answer_error (f a) = Some (Wrapf p (Errorf text))) ->
  (exists a, K (Ok ([], 0)) = Ret a /\ forall s k v, v !! n = None -> unchanged t q s k0 k v (f a)) ->
  (forall k ks e z, ks !! zp n = Some e -> unmarshal (e_value e) = Ok z -> view ks !! n = Some z -> z_Name z = n -> ValidateZone (Some z) = Ok tt ->
     triple' t (observed t (Some n) ws k0 k ks) (K (Ok ([(zp n, e)], 1))) (fun a => served t (Some n) q ws k0 (f a))) ->
  triple' t (knows t (Some n) ws k0) (Call (CGet (one_key (zp n))) K) (fun a => served t (Some n) q ws k0 (f a)).
Proof.
  intros Herr Hnone Hsome. change (Call (CGet (one_key (zp n))) K) with (bind (call (CGet (one_key (zp n)))) K).
  eapply seq; [apply (triple_read t (Some n) ws k0 _ (knows t (Some n) ws k0) (known_stable _ _ _ _)); auto|]. intros x. cbv beta. intros s (_ & k & ks & Ho & Hx). destruct Hx as [->|[Hb [text ->]]].
  - rewrite select_one. destruct (ob_keys _ _ _ _ _ _ _ Ho) as [rev Hok]. destruct (ks !! zp n) as [e|] eqn:He.
    + destruct (view_stored _ _ _ _ _ _ Hok He) as (z & Hz & Hu & Hn & _ & Hv & _). by apply (Hsome k ks e z).
    + destruct Hnone as (a & -> & Hun). apply (triple_ret _ _ t (served t (Some n) q ws k0 (f a))); [apply served_stable|auto|]. eapply observed_served; [exact Ho|]. left. apply Hun. by apply (view_missing _ _ _ _ _ Hok).
  - destruct (Herr text) as (a & -> & Ha). apply (triple_ret _ _ t (served t (Some n) q ws k0 (f a))); [apply served_stable|auto|]. eapply observed_served; [exact Ho|]. right. eexists. split; [|exact Ha]. split; [done|]. by exists p, text.
Qed.

(** A transaction refused: the zone was overtaken, or its version does not match. *)
Definition refused (t : nat) (n : string) (ws : list nat) (k0 k : nat) (ks : keyspace) (z : Zone) (expected : string) (s : etcd) : Prop :=
  observed t (Some n) ws k0 k ks s /\ ((exists k', overtaken t n k0 k' s /\ knows t (Some n) ws k' s) \/ (expected <> "" /\ expected <> z_Version z)).
Lemma refused_stable t n ws k0 k ks z expected : stable' t (refused t n ws k0 k ks z expected).
Proof.
  apply stable_and; [apply observed_stable|]. intros s s' [(k' & Ho & Hk)|Hv] Hr Hi; [left|by right]. exists k'. split; [by eapply overtaken_later|by eapply known_stable].
Qed.
Lemma comparisons_refused t n ws k0 k ks s e z expected : etcd_inv s -> observed t (Some n) ws k0 k ks s -> ks !! zp n = Some e -> view ks !! n = Some z ->
  forallb (holds (e_keys s)) (ModRevisionIs (zp n) (e_mod e) :: version_is (vp n) expected) = false -> refused t n ws k0 k ks z expected s.
Proof.
  intros Hi Ho He Hz Hf. pose proof (comparisons t n ws k0 k ks s e z expected Hi Ho He Hz) as Hc. rewrite Hf in Hc. split; [done|]. destruct Hc as [Hc|Hc]; [left|by right].
  exists (length (e_journal s)). split; [done|]. destruct (ob_knows _ _ _ _ _ _ _ Ho) as [H1 H2 H3]. by split.
Qed.
Definition settled (failed : string) (x : result bool) : etcd_response := RDone match x with Err err => Err (Wrapf failed err) | Ok _ => Ok tt end.
Lemma settle_served t n q ws k0 k ks e z expected failed check x : ks !! zp n = Some e -> view ks !! n = Some z ->
  (forall s k v, v !! n = None -> unchanged t q s k0 k v (RDone (Err (Sentinel ErrZoneNotFound)))) ->
  (forall s k v, (exists z, v !! n = Some z /\ expected <> "" /\ expected <> z_Version z) \/ overtaken t n k0 k s -> unchanged t q s k0 k v (RDone (Err (Sentinel ErrConflict)))) ->
  triple' t (fun s => match x with Ok false => refused t n ws k0 k ks z expected s | _ => served t (Some n) q ws k0 (settled failed x) s end)
    (settle failed check (zp n) x) (fun r => served t (Some n) q ws k0 (RDone r)).
Proof.
  intros He Hz Hmissing Hconflict. destruct x as [[]|err]; [apply triple_ret; [apply served_stable|auto]| |apply triple_ret; [apply served_stable|auto]].
  cbn [settle]. change (triple' t (refused t n ws k0 k ks z expected) (bind (call (CGet (one_key (zp n)))) (fun x => match wrap check x with
    Ok resp => Ret (Err (Sentinel (if snd resp =? 0 then ErrZoneNotFound else ErrConflict))) | Err e => Ret (Err e) end)) (fun r => served t (Some n) q ws k0 (RDone r))).
  set (ans := fun x : result (list (string * entry) * Z) => RDone match wrap check x with Ok resp => Err (Sentinel (if snd resp =? 0 then ErrZoneNotFound else ErrConflict)) | Err e => Err e end).
  eapply (seq _ _ _ _ (fun x => served t (Some n) q ws k0 (ans x))); [|intros x; unfold ans; destruct x; cbn [wrap]; apply triple_ret; [apply served_stable|auto|apply served_stable|auto]].
  apply call_get; [apply refused_stable|intros; apply served_stable|]. intros s Hi [Ho Hr]. pose proof (ob_since _ _ _ _ _ _ _ Ho) as Hle. destruct (ob_knows _ _ _ _ _ _ _ Ho) as [Hh Hs Hlen].
  assert (Hnow : observed t (Some n) ws k0 (length (e_journal s)) (e_keys s) s) by (apply observe; [done|]; split; [done|done|lia]). split.
  - intros Hb text. eapply observed_served; [exact Hnow|]. right. eexists. split; [|done]. split; [done|]. by exists check, text.
  - eapply observed_served; [exact Hnow|]. left. unfold ans. rewrite select_one. destruct (e_keys s !! zp n) as [e'|] eqn:He'; [|by apply Hmissing, (view_missing _ _ _ _ _ (ei_keys _ Hi))]. cbn [wrap snd]. apply Hconflict.
    destruct Hr as [(k' & (j & u & ks1 & ks2 & Hj & Hrest) & Hk')|[Hx1 Hx2]]; [right; exists j, u, ks1, ks2; pose proof (kn_since _ _ _ _ _ Hk'); split; [lia|done]|].
    destruct (decide (e_keys s !! zp n = Some e)) as [Hsame|Hdiff].
    + left. exists z. split_and!; [|done..]. rewrite zones_lookup in Hz |- *. by rewrite Hsame, <- He.
    + right. destruct (watching_overtaken t n e k _ _ s (ob_watching _ _ _ _ _ _ _ Ho n e eq_refl He) Hlen (snapshots_now s) Hdiff) as (j & u & ks1 & ks2 & Hj & Hrest). exists j, u, ks1, ks2. split; [lia|done].
Qed.
Lemma erase_sound n s : etcd_inv s -> sound_write n s (delete (vp n) (delete (zp n) (e_keys s))).
Proof.
  intros Hi. split.
  - intros k e He. left. by eapply erase_subset.
  - intros m Hm. rewrite lookup_delete_ne by (intros Hv; symmetry in Hv; by apply zone_not_version in Hv). apply lookup_delete_ne. intros Hz%str_app_inj_l. congruence.
  - apply (erase_ok _ _ _ _ n (ei_keys _ Hi)). lia.
  - intros k e He. left. exists e. split; [by eapply erase_subset|done].
Qed.
Lemma delete_served t name q ws k0 expected : q ∈ requests t -> NormalizeZoneName (nn name) = nn name -> (q = EDelete name /\ expected = "" \/ q = EDeleteVersion name expected) ->
  triple' t (knows t None ws k0) (respond RDone (delete_zone prefix (nn name) expected)) (served t None q ws k0).
Proof.
  intros Hq Hn Hkind. unfold delete_zone, zoneKey, versionKey. rewrite !Hn. apply under_lock; [done|]. set (n := nn name) in *.
  assert (Hmissing : forall s k v, v !! n = None -> unchanged t q s k0 k v (RDone (Err (Sentinel ErrZoneNotFound)))) by (intros s k v Hv; destruct Hkind as [[-> ->]| ->]; by left).
  assert (Hconflict : forall s k v, (exists z, v !! n = Some z /\ expected <> "" /\ expected <> z_Version z) \/ overtaken t n k0 k s -> unchanged t q s k0 k v (RDone (Err (Sentinel ErrConflict)))).
  { intros s k v Hv. destruct Hkind as [[-> ->]| ->]; right; split; try done. by destruct Hv as [(z & _ & [] & _)|Hv]. }
  apply (read_then t n q ws k0 _ RDone "failed to check zone existence"); [intros text; by eexists|exists (Err (Sentinel ErrZoneNotFound)); by split|].
  intros k ks e z He Hu Hz _ _. cbn -[settle triple]. eapply (call_seq _ _ _ _ (fun x s => match x with Ok false => refused t n ws k0 k ks z expected s | _ => served t (Some n) q ws k0 (settled "failed to delete zone" x) s end)).
  2: { intros x. by apply (settle_served t n q ws k0 k ks e z expected). }
  apply (triple_write t n q ws k0 (observed t (Some n) ws k0 k ks) _ _ _ (settled "failed to delete zone") "failed to delete zone"); [done|apply observed_stable|apply refused_stable| |done|].
  - intros s Ho. destruct (ob_knows _ _ _ _ _ _ _ Ho). pose proof (ob_since _ _ _ _ _ _ _ Ho). split; [done..|lia].
  - intros s Hi Ho. pose proof (comparisons t n ws k0 k ks s e z expected Hi Ho He Hz) as Hc. destruct (forallb _ _) eqn:Hf; [|by eapply comparisons_refused].
    destruct Hc as (He' & Hz' & Hx). cbv zeta. change (apply_operations _ _ _) with (delete (vp n) (delete (zp n) (e_keys s))). rewrite erase_view. split; [by apply erase_sound|].
    assert (Hout : forall a, (a = RDone (Ok tt) \/ exists err, lost err /\ a = RDone (Err err)) -> outcome q (view (e_keys s)) (delete n (view (e_keys s))) a).
    { intros a Ha. destruct Hkind as [[-> ->]| ->]; cbn [outcome]; [split; [by eexists|by split]|]. exists z. by split_and!. }
    split; [apply Hout; by left|]. intros text Hb. apply Hout. right. eexists. split; [|done]. split; [done|]. by eexists _, _.
Qed.

Context (json : forall z data, marshal z = Ok data -> unmarshal data = Ok z).
Lemma observed_knows t lock ws k0 k ks s : observed t lock ws k0 k ks s -> knows t lock ws k0 s.
Proof. intros Ho. destruct (ob_knows _ _ _ _ _ _ _ Ho). pose proof (ob_since _ _ _ _ _ _ _ Ho). split; [done..|lia]. Qed.
Lemma answer_now {A} t lock q ws k0 k ks (a : A) (f : A -> etcd_response) : (forall s, observed t lock ws k0 k ks s -> unchanged t q s k0 k (view ks) (f a)) ->
  triple' t (observed t lock ws k0 k ks) (Ret a) (fun a => served t lock q ws k0 (f a)).
Proof. intros Hu. apply triple_ret; [apply observed_stable|]. intros s _ Ho. eapply observed_served; [exact Ho|]. left. by apply Hu. Qed.
Lemma rewrite_sound n s e old zone data : etcd_inv s -> e_keys s !! zp n = Some e -> view (e_keys s) !! n = Some old -> unmarshal data = Ok zone ->
  z_Name zone = z_Name old /\ z_Version zone = z_Version old /\ ValidateZone (Some zone) = ValidateZone (Some old) ->
  sound_write n s (apply_operations (e_revision s + 1) [OpPut (zp n) data] (e_keys s)) /\ view (apply_operations (e_revision s + 1) [OpPut (zp n) data] (e_keys s)) = <[n := zone]> (view (e_keys s)).
Proof.
  intros Hi He Hold Hdata Hsame. unfold apply_operations. cbn [foldl apply_operation]. split; [|by eapply rewrite_view]. split.
  - intros k e'. rewrite lookup_insert. case_decide; [intros [= <-]; by right|by left].
  - intros m Hm. apply lookup_insert_ne. intros Hz%str_app_inj_l. congruence.
  - by eapply (rewrite_ok _ _ _ _ n e old zone); [apply Hi|apply Hi|..].
  - intros k e'. rewrite lookup_insert_ne by (intros Hz; by apply zone_not_history in Hz). intros He'. left. by exists e'.
Qed.
Lemma serve_metadata t name dnssec : EMetadata name dnssec ∈ requests t -> NormalizeZoneName (nn name) = nn name -> serves t (EMetadata name dnssec).
Proof.
  intros Hq Hn ws k0. cbn [etcd_serve]. unfold etcd_UpdateDNSSECMetadata, zoneKey. cbv zeta. rewrite !Hn. apply under_lock; [done|]. set (n := nn name) in *. set (q := EMetadata name dnssec) in *.
  apply (read_then t n q ws k0 _ RDone "failed to get zone"); [intros text; by eexists|exists (Err (Sentinel ErrZoneNotFound)); split; [done|]; intros s k v Hv; by left|].
  intros k ks e z He Hu Hz Hname Hvalid. cbn -[settle triple]. rewrite Hu. cbn -[settle triple]. rewrite cloneDNSSECConfig_id.
  apply (call_seq _ _ _ _ (fun _ => observed t (Some n) ws k0 k ks)); [by apply call_local; [apply observed_stable|intros; apply observed_stable|]|]. intros now. cbv beta. set (zone := set_Times _ _ _).
  destruct (marshal zone) as [data|cause] eqn:Em.
  2: { apply answer_now. intros s _. right. right. by exists zone, cause. }
  apply json in Em. eapply (call_seq _ _ _ _ (fun x s => match x with Ok false => refused t n ws k0 k ks z "" s | _ => served t (Some n) q ws k0 (settled "failed to update DNSSEC metadata" x) s end)).
  2: { intros x. apply (settle_served t n q ws k0 k ks e z ""); [done|done|intros s k' v Hv; by left|]. intros s k' v Hv. right. left. split; [done|]. by destruct Hv as [(z' & _ & [] & _)|Hv]. }
  apply (triple_write t n q ws k0 (observed t (Some n) ws k0 k ks) _ _ _ (settled "failed to update DNSSEC metadata") "failed to update DNSSEC metadata"); [done|apply observed_stable|apply refused_stable|apply observed_knows|done|].
  intros s Hi Ho. pose proof (comparisons t n ws k0 k ks s e z "" Hi Ho He Hz) as Hc. pose proof (comparisons_refused t n ws k0 k ks s e z "" Hi Ho He Hz) as Href. change (version_is (vp n) "") with (@nil comparison) in *.
  destruct (forallb _ _); [|by apply Href]. destruct Hc as (He' & Hz' & _). destruct (rewrite_sound n s e z zone data Hi He' Hz' Em) as [Hs Hv]; [by destruct z|]. cbv zeta. rewrite Hv. split; [done|].
  split; [exists z, now; by split_and!; [done|done|left]|]. intros text Hb. exists z, now. split_and!; [done|done|]. right. eexists. split; [|done]. split; [done|]. by eexists _, _.
Qed.

Lemma put_sound n s zone data : etcd_inv s -> unmarshal data = Ok zone -> z_Name zone = nn n -> ValidateZone (Some zone) = Ok tt -> z_Version zone <> "" ->
  let ks' := apply_operations (e_revision s + 1) (put_zone prefix zone data) (e_keys s) in sound_write (z_Name zone) s ks' /\ view ks' = <[z_Name zone := zone]> (view (e_keys s)).
Proof.
  intros Hi Hdata Hn Hvalid Hver. destruct (zone_valid_name n zone Hvalid Hn) as [Hname Hl]. cbv zeta. split; [|by apply put_zones]. split.
  - intros k e He. by destruct (put_revisions prefix unmarshal _ _ _ _ (ei_keys _ Hi) (ei_revision _ Hi) k e He).
  - intros m Hm. by apply put_elsewhere.
  - by apply put_ok; [apply Hi|apply Hi|..].
  - intros k e He. pose proof (put_history_key prefix (e_keys s) (e_revision s) zone data Hname k) as Hk. rewrite He in Hk. destruct (decide _) as [->|Hne].
    + right. exists zone. injection Hk as ->. rewrite put_zones by done. by rewrite lookup_insert_eq.
    + left. destruct (e_keys s !! hp k) as [e0|]; [|done]. injection Hk as Hk. by exists e0.
Qed.
Lemma answer_known {A} t lock q ws k0 (a : A) (f : A -> etcd_response) : (forall s k ks, observed t lock ws k0 k ks s -> unchanged t q s k0 k (view ks) (f a)) ->
  triple' t (knows t lock ws k0) (Ret a) (fun a => served t lock q ws k0 (f a)).
Proof. intros Hu. apply triple_ret; [apply known_stable|]. intros s Hi Hk. eapply observed_served; [by apply observe|]. left. apply Hu. by apply observe. Qed.
Lemma created_prepared e z u w : fst (prepareZoneForCreate e z NormalizeZoneName u) = Ok (Some w) -> exists z0, z = Some z0 /\ created e z0 w.
Proof.
  intros Hw. pose proof (prepareZoneForCreate_cases e z NormalizeZoneName u) as Hp. rewrite Hw in Hp. destruct Hp as (z0 & rs & v & -> & Hvalid & -> & Hv & Hne & Hrs). exists z0. split; [done|].
  repeat split; try done; cbn; [by destruct (_ =? 0)| |by destruct (_ =? 0)]. eapply Forall2_impl; [exact Hrs|]. intros r r' <-. by split_and!.
Qed.
Lemma serve_create t zone : ECreate zone ∈ requests t -> serves t (ECreate zone).
Proof.
  intros Hq ws k0. set (q := ECreate zone) in *. cbn [etcd_serve q]. apply (call_seq t _ (CLocal (fun e u => prepareZoneForCreate e zone NormalizeZoneName u)) _ (fun x s => (exists e u, fst (prepareZoneForCreate e zone NormalizeZoneName u) = x) /\ knows t None ws k0 s)).
  { apply call_local; [apply known_stable|intros x; apply stable_and; [apply stable_const|apply known_stable]|]. intros s e u Hk. split; [by exists e, u|done]. }
  intros x. apply triple_pure. intros (e & u & Hx). destruct x as [[w|]|err].
  - destruct (created_prepared e zone u w Hx) as (z & Hz & Hc). pose proof (created_content _ _ _ Hc) as (Hcn & _). pose proof (created_valid _ _ _ Hc) as Hvalid. destruct (zone_valid_name _ w Hvalid Hcn) as [Hname Hl].
    cbv beta iota. rewrite Hname. apply (under_lock t (z_Name w) q ws k0 _ (fun r => RCreated (fst r) (snd r))); [done|]. unfold zoneKey. rewrite Hname. destruct (marshal w) as [data|cause] eqn:Em.
    2: { apply (answer_known _ _ _ _ _ (Err (Wrapf "failed to marshal zone" cause), zone) (fun r => RCreated (fst r) (snd r))). intros s k ks _. split; [done|]. right. right. by exists w, cause. }
    apply json in Em. set (res := fun x : result bool => match x with Err err => (Err (Wrapf "failed to create zone" err), zone) | Ok false => (Err (Sentinel ErrZoneAlreadyExists), zone) | Ok true => (Ok tt, copyZoneInto zone (Some w)) end).
    set (ans := fun x => RCreated (fst (res x)) (snd (res x))). eapply (seq _ _ _ _ (fun x s => match x with Ok false => served t (Some (z_Name w)) q ws k0 (ans (Ok false)) s | _ => served t (Some (z_Name w)) q ws k0 (ans x) s end)).
    2: { intros x. apply triple_ret; destruct x as [[]|]; try apply served_stable; by intros s _ Hs. }
    apply (triple_write t (z_Name w) q ws k0 (knows t (Some (z_Name w)) ws k0) _ _ _ ans "failed to create zone"); [done|apply known_stable|apply served_stable|done|done|].
    intros s Hi Hk. cbn [forallb holds]. destruct (e_keys s !! zp (z_Name w)) as [en|] eqn:He; cbn [from_option].
    + pose proof (ko_revision _ _ _ _ (ei_keys _ Hi) _ _ He). rewrite (proj2 (Z.eqb_neq _ 0)) by lia. cbn [andb]. eapply observed_served; [by apply observe|]. left. split; [done|]. left. split; [done|]. exists z. split; [done|]. rewrite <- Hcn. apply (zone_keys _ _ _ _ _ (ei_keys _ Hi)). by eexists.
    + change (0 =? 0) with true. cbn [andb]. destruct (put_sound _ s w data Hi Em Hcn Hvalid (created_versioned _ _ _ Hc)) as [Hs Hv]. cbv zeta in *. rewrite Hv. split; [done|]. apply (view_missing _ unmarshal _ _ _ (ei_keys _ Hi)) in He.
      unfold ans, res. cbn [fst snd]. rewrite Hz. cbn [copyZoneInto]. rewrite copyZone_id. split; [exists e, z, w; split_and!; try done; by left|]. intros text Hb. exists e, z, w. split_and!; try done. right. eexists. split; [|by rewrite Hz]. split; [done|]. by eexists _, _.
  - exfalso. pose proof (prepareZoneForCreate_cases e zone NormalizeZoneName u) as Hp. by rewrite Hx in Hp.
  - apply (answer_known _ _ _ _ _ (RCreated (Err err) zone) id). intros s k ks _. split; [done|]. right. left. by exists e, u.
Qed.

Lemma updated_prepared zone old e u z' : fst (prepare_update (set_Name (nn (z_Name zone)) zone) old e u) = (z', Ok tt) -> updated e old zone z'.
Proof.
  unfold prepare_update. set (z1 := set_Times _ _ _). assert (Hev : match fst (ensureZoneUpdateVersion e z1 (z_Version old) u) with
    Ok z2 => exists v, z2 = set_Version v z1 /\ v <> "" /\ (z_Version zone <> "" -> z_Version zone <> z_Version old -> v = z_Version zone) | Err _ => True end).
  { unfold ensureZoneUpdateVersion. destruct (negb _ && negb _) eqn:Eb; cbn [fst].
    - bool_prop. exists (z_Version z1). by split_and!; [destruct z1|done|].
    - destruct (NewZoneVersion e u) as [[v|err] u'] eqn:Ev; cbn [fst]; [|done]. apply NewZoneVersion_nonempty in Ev. exists v. split_and!; [done|done|]. intros H1 H2. exfalso. apply andb_false_iff in Eb as [Eb|Eb]; bool_prop; done. }
  destruct (ensureZoneUpdateVersion e z1 (z_Version old) u) as [[z2|err] u']; cbn [fst] in Hev |- *; [|done]. destruct Hev as (v & -> & Hne & Hv).
  pose proof (validateZoneForWrite_cases (set_Version v z1)) as Hw. destruct (validateZoneForWrite _) as [w [[]|err]]; [|done]. destruct Hw as (rs & -> & Hvalid & Hrs). cbn [default from_option id fst]. intros [= <-].
  repeat split; try done. cbn in Hrs |- *. eapply Forall2_impl; [exact Hrs|]. intros r r' <-. by split_and!.
Qed.
Lemma serve_update t zone expected : EUpdate zone expected ∈ requests t -> NormalizeZoneName (nn (z_Name zone)) = nn (z_Name zone) -> serves t (EUpdate zone expected).
Proof.
  intros Hq Hn ws k0. set (q := EUpdate zone expected) in *. cbn [etcd_serve q]. unfold etcd_UpdateZone. set (zone1 := set_Name _ _). cbv zeta. change (z_Name zone1) with (nn (z_Name zone)). rewrite Hn. set (n := nn (z_Name zone)) in *.
  set (f := fun r : result unit * Zone => RUpdated (fst r) (snd r)). apply (under_lock t n q ws k0 _ f); [done|]. unfold update_zone, zoneKey, versionKey. change (z_Name zone1) with n. cbv zeta. rewrite !Hn.
  apply (read_then t n q ws k0 _ f "failed to get zone"); [intros text; by eexists|exists (Err (Sentinel ErrZoneNotFound), zone1); split; [done|]; intros s k v Hv; by left|].
  intros k ks e old He Hu Hz Hname Hvalid. cbn -[triple prepare_update]. rewrite Hu. cbn -[triple prepare_update]. destruct (negb (expected =? "")%string && negb (z_Version old =? expected)%string) eqn:Eexp.
  { apply (answer_now _ _ _ _ _ _ _ (Err (Sentinel ErrConflict), zone1) f). intros s _. right. left. split; [done|]. left. exists old. bool_prop. by split_and!. }
  assert (Hexp : expected = "" \/ expected = z_Version old) by (apply andb_false_iff in Eexp as [?|?]; bool_prop; auto).
  apply (call_seq _ _ _ _ (fun x s => (exists ei u, fst (prepare_update zone1 old ei u) = x) /\ observed t (Some n) ws k0 k ks s)).
  { apply call_local; [apply observed_stable|intros x; apply stable_and; [apply stable_const|apply observed_stable]|]. intros s ei u Ho. split; [by exists ei, u|done]. }
  intros [z' r]. apply triple_pure. intros (ei & u & Hp). cbv beta iota. destruct r as [[]|err].
  2: { apply (answer_now _ _ _ _ _ _ _ (Err err, z') f). intros s _. right. right. left. exists old, ei, u. split; [done|]. change (snd (fst (prepare_update zone1 old ei u)) = Err err). by rewrite Hp. }
  apply updated_prepared in Hp as Hup. pose proof (updated_content _ _ _ _ Hup) as (Hcn & _). destruct (marshal z') as [data|cause] eqn:Em.
  2: { apply (answer_now _ _ _ _ _ _ _ (Err (Wrapf "failed to marshal zone" cause), z') f). intros s _. right. right. right. by exists z', cause. }
  apply json in Em. set (res := fun x : result bool => (match x with Err err => Err (Wrapf "failed to update zone" err) | Ok false => Err (Sentinel ErrConflict) | Ok true => Ok tt end, z')). set (ans := fun x => f (res x)).
  eapply (call_seq _ _ _ _ (fun x s => match x with Ok false => served t (Some n) q ws k0 (ans (Ok false)) s | _ => served t (Some n) q ws k0 (ans x) s end)).
  2: { intros x. apply triple_ret; destruct x as [[]|]; try apply served_stable; by intros s _ Hs. }
  apply (triple_write t n q ws k0 (observed t (Some n) ws k0 k ks) _ _ _ ans "failed to update zone"); [done|apply observed_stable|apply served_stable|apply observed_knows|done|].
  intros s Hi Ho. pose proof (comparisons t n ws k0 k ks s e old expected Hi Ho He Hz) as Hc. destruct (forallb _ _).
  - destruct Hc as (_ & Hz' & _). destruct (put_sound _ s z' data Hi Em Hcn (updated_valid _ _ _ _ Hup) (updated_versioned _ _ _ _ Hup)) as [Hs Hv]. cbv zeta in *. rewrite Hcn in Hs, Hv. fold n in Hs, Hv. rewrite Hv. split; [done|].
    split; [exists ei, old, z'; split_and!; try done; by left|]. intros text Hb. exists ei, old, z'. split_and!; try done. right. eexists. split; [|done]. split; [done|]. by eexists _, _.
  - destruct Hc as [Hover|[H1 H2]]; [|by destruct Hexp]. eapply observed_served; [apply observe; [done|by eapply observed_knows]|]. left. right. left. split; [done|]. by right.
Qed.

(** ** Sessions *)
Definition request_ok (q : etcd_request) : Prop :=
  match q with
  | EList opts | ESummaries opts => paging_ok opts
  | EUpdate zone _ => NormalizeZoneName (nn (z_Name zone)) = nn (z_Name zone)
  | EMetadata name _ | EDelete name | EDeleteVersion name _ | EVersion name => NormalizeZoneName (nn name) = nn name
  | ERevision name _ => NormalizeZoneName (nn name) = nn name /\ lacks "/"%char (nn name)
  | ERevisions name opts => NormalizeZoneName (nn name) = nn name /\ lacks "/"%char (nn name) /\ paging_ok opts
  | _ => True
  end.
Lemma serve_ok t q : q ∈ requests t -> request_ok q -> serves t q.
Proof.
  intros Hq Hok. destruct q; cbn in Hok.
  - apply serve_get.
  - by apply serve_list.
  - by apply serve_summaries.
  - apply serve_count.
  - apply serve_health.
  - by apply serve_create.
  - by apply serve_update.
  - by apply serve_metadata.
  - intros ws k0. apply delete_served; [done|done|by left].
  - intros ws k0. apply delete_served; [done|done|by right].
  - destruct Hok. by apply serve_revision.
  - destruct Hok as (? & ? & ?). by apply serve_revisions.
  - by apply serve_version.
  - by apply serve_cleanup.
Qed.
(** What no step undoes stays true. *)
Lemma frame_kept {A} t (p : prog etcd_call A) Q (R : etcd -> Prop) s : (forall u s s', etcd_rely u s s' -> R s -> R s') -> R s ->
  rg (etcd_exec proc) etcd_protocol t p Q s -> rg (etcd_exec proc) etcd_protocol t p (fun a s => Q a s /\ R s) s.
Proof.
  intros Hlater. revert s. induction p as [a|X c k IH]; intros s HR Hp s1 Hr Hi.
  - split; [by apply Hp|by eapply Hlater].
  - destruct (Hp s1 Hr Hi) as [Hpre Hk]. split; [done|]. intros e x s2 He Hx. destruct (Hk e x s2 He Hx) as (Hi2 & Hg & Hk2). split_and!; [done|exact Hg|]. apply IH; [|done]. apply (Hlater (S t) s1); [apply Hg; lia|]. by eapply Hlater.
Qed.
Lemma session_ok t qs ws k0 : (forall q, q ∈ qs -> q ∈ requests t /\ request_ok q) ->
  triple' t (knows t None ws k0) (etcd_session qs) (fun l s => exists k ws', explained t s k0 qs l ws' /\ knows t None (ws ++ ws') k s).
Proof.
  revert ws k0. induction qs as [|q qs IH]; intros ws k0 Hqs; cbn [etcd_session].
  { apply triple_ret; [apply known_stable|]. intros s _ Hs. exists k0, []. rewrite app_nil_r. split; [constructor|done]. }
  destruct (Hqs q ltac:(left)) as [Hq Hok]. eapply seq; [by apply (serve_ok t q Hq Hok)|]. intros a. cbv beta. apply triple_exists. intros k. apply triple_exists. intros ws'.
  intros s [Ha Hk]. apply rg_bind; [apply _|]. eapply (rg_mono _ _ t _ (fun l s => answered t s q k0 k ws' a /\ exists k1 ws1, explained t s k qs l ws1 /\ knows t None ((ws ++ ws') ++ ws1) k1 s)).
  - intros l s1 [Ha1 (k1 & ws1 & Hex & Hk1)]. apply (triple_ret _ _ t (fun s => answered t s q k0 k ws' a /\ explained t s k qs l ws1 /\ knows t None ((ws ++ ws') ++ ws1) k1 s)).
    + apply stable_and; [apply stable_answered|]. apply stable_and; [|apply known_stable]. intros s2 s3 He Hr _. by eapply explained_later.
    + intros s2 _ (H1 & H2 & H3). exists k1, (ws' ++ ws1). rewrite app_assoc. split; [by econstructor|done].
    + done.
  - apply (rg_mono _ _ t _ _ _ s (fun l s1 Hx => conj (proj2 Hx) (proj1 Hx))). apply frame_kept; [intros u s1 s2; apply answered_later|done|]. apply IH; [|done]. intros q' Hq'. apply Hqs. by right.
Qed.

(** Every thread that has not finished, or the holder of the lock it waits for,
    can make its next call. *)
Definition done_with (t : nat) (l : list etcd_response) (s : etcd) : Prop := explained t s 0 (requests t) l (sent t (e_journal s)) /\ forall p z, e_held s !! (p, z) <> Some t.
Lemma session_done t : Forall request_ok (requests t) -> triple' t (knows t None [] 0) (etcd_session (requests t)) (done_with t).
Proof.
  intros Hok. rewrite Forall_forall in Hok. eapply triple_conseq; [apply (session_ok t (requests t) [] 0); intros q Hq; split; [done|by apply Hok]|intros s Hs; exact Hs|]. intros l s (k & ws & He & [Hh Hs Hk]). cbn in Hs. split; [by rewrite Hs|]. intros p z Hz. by apply Hh in Hz as [? _].
Qed.
Lemma etcd_compatible i j s s' : i <> j -> inv etcd_protocol s -> guar etcd_protocol i s s' -> rely etcd_protocol j s s'.
Proof. intros Hij _ Hg. apply Hg. congruence. Qed.
Definition calm (a : answer) : Prop := a_fails a = None.
Lemma cluster_moves ps (inputs : Inputs) : pool_ok (etcd_exec proc) etcd_protocol done_with ps -> (forall t, requests t <> [] -> (t < length ps.1)%nat) -> ~ Forall finished ps.1 ->
  exists t a X (c : etcd_call X) k x s', (answers etcd_protocol a /\ calm a) /\ ps.1 !! t = Some (Call c k) /\ etcd_exec proc X t a c ps.2 = Some (x, s').
Proof.
  intros [Hi Hp] Hin Hf. set (a := mkAnswer None false inputs). assert (Ha : answers etcd_protocol a /\ calm a) by (split; [intros Hx; by destruct Hx|done]).
  assert (exists t X (c : etcd_call X) k, ps.1 !! t = Some (Call c k)) as (t & X & c & k & Ht).
  { clear -Hf. induction ps.1 as [|p l IH]; [by destruct Hf|]. destruct p as [r|X c k]; [|by exists 0%nat, X, c, k]. destruct IH as (t & X & c & k & Ht); [|by exists (S t), X, c, k]. intros Hl. apply Hf. constructor; [by exists r|done]. }
  assert (Hrun : forall t X (c : etcd_call X) k, ps.1 !! t = Some (Call c k) -> (exists x s', etcd_exec proc X t a c ps.2 = Some (x, s')) \/ exists zone u, e_held ps.2 !! (proc t, zone) = Some u).
  { clear. intros t X c k _. destruct c; cbn; try (left; by eexists _, _).
    - destruct (e_held ps.2 !! (proc t, zone)) as [u|] eqn:E; [right; by exists zone, u|left; by eexists _, _].
    - destruct (f inputs (e_generators ps.2 (proc t))). left. by eexists _, _.
    - destruct (commit t cmps ops ps.2). left. by eexists _, _. }
  destruct (Hrun t X c k Ht) as [(x & s' & Hx)|(zone & u & Hu)]; [by exists t, a, X, c, k, x, s'|]. pose proof (ei_holders _ Hi _ _ _ Hu) as Hr. apply Hin in Hr. apply lookup_lt_is_Some in Hr as [p Hpu]. pose proof (Hp u p Hpu) as Hrg. destruct p as [r|Y d g].
  { destruct (Hrg ps.2 ltac:(reflexivity) Hi) as [_ Hno]. by destruct (Hno _ _ Hu). }
  destruct (Hrg ps.2 ltac:(reflexivity) Hi) as [Hpre _]. exists u, a, Y, d, g. destruct d; cbn.
  - by destruct (Hpre _ _ Hu).
  - by eexists _, _.
  - destruct (f inputs (e_generators ps.2 (proc u))). by eexists _, _.
  - by eexists _, _.
  - destruct (commit u cmps ops ps.2). by eexists _, _.
Qed.
End sessions.

(** ** Processes that share a cluster *)
Section cluster.
Context `{UnicodeTables, !UnicodeLaws} (prefix : string) (marshal : Zone -> result string) (unmarshal : string -> result Zone).
Context (proc : nat -> nat) (sessions : list (list etcd_request)) (generators : nat -> ulidState).
Definition requests_of (t : nat) : list etcd_request := default [] (sessions !! t).
Definition new_cluster : etcd := mkEtcd ∅ 1 [] ∅ generators.
Definition run_cluster (sch : list (nat * answer)) : list (prog etcd_call (list etcd_response)) * etcd :=
  Program.interleave (etcd_exec proc) sch (map (etcd_session prefix marshal unmarshal) sessions, new_cluster).
(** Some call failed. *)
Definition troubled (sch : list (nat * answer)) : Prop := Exists (fun te => a_fails (snd te) <> None) sch.
Context (json : forall z data, marshal z = Ok data -> unmarshal data = Ok z) (Hok : Forall (Forall request_ok) sessions).

Lemma requests_ok t : Forall request_ok (requests_of t).
Proof. unfold requests_of. destruct (sessions !! t) as [qs|] eqn:E; [|constructor]. rewrite Forall_lookup in Hok. by apply (Hok t). Qed.
Lemma cluster_starts broken : pool_ok (etcd_exec proc) (etcd_protocol prefix unmarshal proc requests_of broken) (done_with prefix marshal unmarshal proc requests_of broken) (map (etcd_session prefix marshal unmarshal) sessions, new_cluster).
Proof.
  split.
  - split; cbn; [lia| |done..|done]. split; intros *; rewrite lookup_empty; [done|by intros []|done].
  - cbn. intros t p Hp. rewrite list_lookup_fmap in Hp. destruct (sessions !! t) as [qs|] eqn:E; [|done]. injection Hp as <-. assert (qs = requests_of t) as -> by (unfold requests_of; by rewrite E).
    apply session_done; [done|apply requests_ok|]. split; cbn; [|done|lia]. intros q z. rewrite lookup_empty. by split; [|intros []].
Qed.
Lemma cluster_ok broken sch : (troubled sch -> broken) ->
  pool_ok (etcd_exec proc) (etcd_protocol prefix unmarshal proc requests_of broken) (done_with prefix marshal unmarshal proc requests_of broken) (run_cluster sch).
Proof.
  intros Hb. apply interleave_ok; [apply _|intros i j s s'; apply etcd_compatible| |apply cluster_starts]. apply Forall_forall. intros te Hin Hf. apply Hb, Exists_exists. by exists te.
Qed.

(** C16: any number of threads in any number of processes serve sessions of
    requests on one initially empty etcd cluster, their calls interleaved in any
    order, some failing, some transactions applied though reported as failed.
    At every moment the zone, version and history keys are in step.  Every
    applied transaction turned the zones stored before it into the zones one
    request of its thread may make of them (a zone created that was missing,
    updated or deleted in the expected version, given new metadata).  Every
    answer of a finished thread agrees with the zones stored at one moment after
    the answer before it: reads return them, a conflict means a version that did
    not match or a write of another process in between, a missing or existing
    zone was missing or existing, and the transactions of the thread are exactly
    those its answers account for; only with failing calls can a change be
    answered with an error. *)
Theorem etcd_sessions_linearize sch :
  let '(l, s) := run_cluster sch in
  keys_ok prefix unmarshal (e_keys s) (e_revision s)
  /\ (forall j t ks, e_journal s !! j = Some (t, ks) -> exists ks' q a, snapshots s !! S j = Some ks' /\ q ∈ requests_of t /\ outcome (troubled sch) q (view prefix unmarshal ks) (view prefix unmarshal ks') a)
  /\ (forall t answers, l !! t = Some (Ret answers) -> explained prefix marshal unmarshal proc (troubled sch) t s 0 (requests_of t) answers (sent t (e_journal s))).
Proof.
  pose proof (cluster_ok (troubled sch) sch id) as Hp. destruct (run_cluster sch) as [l s]. pose proof Hp as [Hi _]. split_and!; [apply Hi|apply Hi|].
  intros t answers Ht. by destruct (pool_ok_finished _ _ _ (l, s) t answers Hp Ht) as [He _].
Qed.
(** C5: threads that serve requests on an etcd cluster never block each other for
    good: whatever was called in whatever order and failed, the calls still to
    make can be scheduled so that every thread answers all its requests, without
    another failure. *)
Theorem etcd_sessions_complete (inputs : Inputs) sch : exists sch', Forall (fun te => calm (snd te)) sch' /\ Forall finished (run_cluster (sch ++ sch')).1.
Proof.
  destruct (interleave_completes (etcd_exec proc) (etcd_protocol prefix unmarshal proc requests_of True) (done_with prefix marshal unmarshal proc requests_of True) (etcd_compatible _ _ _ _ _) calm (run_cluster sch)) as (sch' & Hs & Hf).
  - intros ps Hp Hf Hlen. apply (cluster_moves prefix marshal unmarshal proc requests_of True ps inputs Hp); [|done]. intros t Ht. rewrite Hlen. unfold run_cluster. rewrite interleave_length. cbn. rewrite length_map.
    unfold requests_of in Ht. destruct (sessions !! t) eqn:E; [by apply lookup_lt_Some in E|done].
  - by apply cluster_ok.
  - exists sch'. split; [eapply Forall_impl; [exact Hs|]; by intros te []|]. unfold run_cluster. by rewrite interleave_app.
Qed.
End cluster.

(** ** Witnesses *)
#[local] Existing Instance ascii_tables.
Definition etcd_inputs : Inputs := mkInputs (mkDate 2026 1 31) (1769000000 * Second) 1769000000000 (Ok (replicate 10 7)).
Definition shared_zone : Zone := set_Version "v01" example_zone.
Definition shared_stored : Zone := match fst (prepareZoneForCreate etcd_inputs (Some shared_zone) NormalizeZoneName (mkUlid 0 [])) with Ok (Some z) => z | _ => shared_zone end.
Definition shared_update : Zone := set_Version "v02" (set_Records (take 2 (z_Records example_zone)) example_zone).
Definition shared_updated : Zone := fst (fst (prepare_update (set_Name "example.com." shared_update) shared_stored etcd_inputs (mkUlid 0 []))).
Definition toy_marshal (z : Zone) : result string := if bool_decide (z = shared_stored) then Ok "{1}" else if bool_decide (z = shared_updated) then Ok "{2}" else Err (Errorf "json: unsupported value").
Definition toy_unmarshal (data : string) : result Zone := if (data =? "{1}")%string then Ok shared_stored else if (data =? "{2}")%string then Ok shared_updated else Err (Errorf "unexpected end of JSON input").
Lemma toy_json z data : toy_marshal z = Ok data -> toy_unmarshal data = Ok z.
Proof. unfold toy_marshal, toy_unmarshal. repeat case_bool_decide; by intros [= <-]; subst. Qed.
(** Thread 0 creates a zone; thread 1 updates it in another process while
    thread 2 deletes it, whose answer is lost. *)
Definition racing : list (list etcd_request) := [[ECreate (Some shared_zone)]; [EUpdate shared_update "v01"; EGet "Example.com"]; [EDelete "example.com"]].
Definition racing_proc (t : nat) : nat := if (t =? 1)%nat then 1 else 0.
Definition race : list (nat * answer) :=
  let ok := mkAnswer None false etcd_inputs in
  [(0, ok); (0, ok); (0, ok); (0, ok); (1, ok); (1, ok); (1, ok); (2, ok); (2, ok); (2, mkAnswer (Some "deadline exceeded") true etcd_inputs); (2, ok); (1, ok); (1, ok); (1, ok)]%nat.
Lemma racing_ok : Forall (Forall request_ok) racing.
Proof. repeat (apply Forall_cons; split); try apply Forall_nil; try exact I; vm_compute; reflexivity. Qed.
Lemma etcd_sessions_linearize_witness :
  let run := run_cluster "/arca-dns" toy_marshal toy_unmarshal racing_proc racing (fun _ => mkUlid 0 []) race in
  keys_ok "/arca-dns" toy_unmarshal (e_keys run.2) (e_revision run.2)
  /\ (forall t answers, run.1 !! t = Some (Ret answers) -> explained "/arca-dns" toy_marshal toy_unmarshal racing_proc (troubled race) t run.2 0 (requests_of racing t) answers (sent t (e_journal run.2)))
  /\ match run.1 with
     | [Ret [RCreated (Ok _) (Some _)]; Ret [RUpdated (Err (Sentinel ErrConflict)) _; RZone (Err (Sentinel ErrZoneNotFound))]; Ret [RDone (Err (Wrapf _ (Errorf _)))]] => True
     | _ => False
     end.
Proof.
  cbv zeta. split; [|split].
  3: vm_compute; exact I.
  all: pose proof (etcd_sessions_linearize (H0 := ascii_tables_laws) "/arca-dns" toy_marshal toy_unmarshal racing_proc racing (fun _ => mkUlid 0 []) toy_json racing_ok race) as Hl; destruct (run_cluster _ _ _ _ _ _ _) as [l s]; apply Hl.
Defined.
Lemma etcd_sessions_complete_witness :
  exists sch', Forall (fun te => calm (snd te)) sch' /\ Forall finished (run_cluster "/arca-dns" toy_marshal toy_unmarshal racing_proc racing (fun _ => mkUlid 0 []) (take 10 race ++ sch')).1.
Proof. exact (etcd_sessions_complete (H0 := ascii_tables_laws) "/arca-dns" toy_marshal toy_unmarshal racing_proc racing (fun _ => mkUlid 0 []) toy_json racing_ok etcd_inputs (take 10 race)). Defined.
