(* ===== verification/BirdState.v ===== *)
(** * Health state machine of an agent (internal/agent/bird/statemachine.go)

    Health signals drive four states; the state and a debounce timer decide
    whether the anycast routes are announced or withdrawn.  The readings of
    [time.Now] are arguments. *)

From S2P Require Import Prelude GoStrings.

Inductive HealthState := StateHealthy | StateDegraded | StateUnhealthy | StateRecovering.
#[global] Instance HealthState_eq_dec : EqDecision HealthState.
Proof. solve_decision. Defined.

Record HealthSignal := mkSignal {
  HardFail : bool; LatencyDegraded : bool; Reason : string; ObservedAt : Time }.

Record StateMachineConfig := mkSMConfig {
  FailureThreshold : Z; RecoveryThreshold : Z; MinStateDuration : Duration }.

Record StateMachine := mkSM {
  sm_state : HealthState;
  consecutiveFails : Z;
  consecutiveOKs : Z;
  lastTransition : Time;
  lastRouteChange : Time }.

Definition set_state (s : HealthState) (sm : StateMachine) : StateMachine :=
  mkSM s (consecutiveFails sm) (consecutiveOKs sm) (lastTransition sm) (lastRouteChange sm).
Definition set_counts (fails oks : Z) (sm : StateMachine) : StateMachine :=
  mkSM (sm_state sm) fails oks (lastTransition sm) (lastRouteChange sm).

(** [StateMachineConfig.Validate]. *)
Definition ValidateStateMachineConfig (c : StateMachineConfig) : result unit :=
  guard_err (FailureThreshold c <? 1) (Errorf ("failure_threshold must be >= 1, got " +:+ Itoa (FailureThreshold c))) ;;*
  guard_err (RecoveryThreshold c <? 1) (Errorf ("recovery_threshold must be >= 1, got " +:+ Itoa (RecoveryThreshold c))) ;;*
  guard_err (MinStateDuration c <? 0) (Errorf ("min_state_duration must be >= 0, got " +:+ Itoa (MinStateDuration c))).

(** [None] is the panic on an invalid configuration. *)
Definition NewStateMachine (config : StateMachineConfig) (now : Time) : option StateMachine :=
  match ValidateStateMachineConfig config with
  | Ok _ => Some (mkSM StateHealthy 0 0 now zeroTime)
  | Err _ => None
  end.

Section machine.
Context (config : StateMachineConfig).

Definition handleHardFailure (sm : StateMachine) : StateMachine :=
  match sm_state sm with
  | StateHealthy | StateDegraded =>
    if FailureThreshold config <=? consecutiveFails sm then set_state StateUnhealthy sm else sm
  | StateRecovering => set_state StateUnhealthy sm
  | StateUnhealthy => sm
  end.

Definition handleLatencyDegradation (sm : StateMachine) : StateMachine :=
  match sm_state sm with
  | StateHealthy => set_state StateDegraded sm
  | StateDegraded => sm
  | StateRecovering | StateUnhealthy => sm
  end.

Definition handleSuccess (sm : StateMachine) : StateMachine :=
  match sm_state sm with
  | StateDegraded => set_state StateHealthy sm
  | StateUnhealthy => if 1 <=? consecutiveOKs sm then set_state StateRecovering sm else sm
  | StateRecovering =>
    if RecoveryThreshold config <=? consecutiveOKs sm then set_state StateHealthy sm else sm
  | StateHealthy => sm
  end.

(** [time.Since(sm.lastRouteChange)] reads the clock: [now]. *)
Definition determineRouteAction (now : Time) (sm : StateMachine) : bool * bool :=
  if negb (IsZero (lastRouteChange sm)) && (time_Sub now (lastRouteChange sm) <? MinStateDuration config)
  then (false, false)
  else match sm_state sm with
       | StateHealthy | StateDegraded => (true, false)
       | StateUnhealthy | StateRecovering => (false, true)
       end.

Definition handle (signal : HealthSignal) (sm : StateMachine) : StateMachine :=
  if HardFail signal then handleHardFailure (set_counts (consecutiveFails sm + 1) 0 sm)
  else if LatencyDegraded signal then handleLatencyDegradation (set_counts 0 0 sm)
  else handleSuccess (set_counts 0 (consecutiveOKs sm + 1) sm).

(** [(shouldAnnounce, shouldWithdraw)] and the new machine. *)
Definition ProcessSignal (now : Time) (signal : HealthSignal) (sm : StateMachine) : bool * bool * StateMachine :=
  let oldState := sm_state sm in
  let sm1 := handle signal sm in
  let sm2 := if bool_decide (oldState <> sm_state sm1)
             then mkSM (sm_state sm1) (consecutiveFails sm1) (consecutiveOKs sm1) now (lastRouteChange sm1)
             else sm1 in
  if HardFail signal && (bool_decide (sm_state sm2 = StateHealthy) || bool_decide (sm_state sm2 = StateDegraded))
  then (false, false, sm2)
  else (determineRouteAction now sm2, sm2).

Definition MarkRouteChanged (now : Time) (sm : StateMachine) : StateMachine :=
  mkSM (sm_state sm) (consecutiveFails sm) (consecutiveOKs sm) (lastTransition sm) now.

Definition GetState (sm : StateMachine) : HealthState := sm_state sm.

(** ** Traces *)

(** Signals with the time each is processed at; marks of route changes between
    them do not touch the fields below. *)
Definition step (sm : StateMachine) (ev : Time * HealthSignal) : StateMachine :=
  snd (ProcessSignal (fst ev) (snd ev) sm).
Definition process (sm : StateMachine) (evs : list (Time * HealthSignal)) : StateMachine := foldl step sm evs.

Definition is_fail (s : HealthSignal) : bool := HardFail s.
Definition is_success (s : HealthSignal) : bool := negb (HardFail s) && negb (LatencyDegraded s).

Lemma step_handle sm ev : sm_state (step sm ev) = sm_state (handle (snd ev) sm)
  /\ consecutiveFails (step sm ev) = consecutiveFails (handle (snd ev) sm)
  /\ consecutiveOKs (step sm ev) = consecutiveOKs (handle (snd ev) sm).
Proof.
  unfold step, ProcessSignal. destruct (bool_decide (sm_state sm <> _)); simpl;
    destruct (HardFail (snd ev) && _); done.
Qed.

(** The invariant of reachable machines. *)
Record sm_inv (sm : StateMachine) : Prop := {
  inv_fails : 0 <= consecutiveFails sm;
  inv_oks : 0 <= consecutiveOKs sm;
  inv_up : sm_state sm = StateHealthy \/ sm_state sm = StateDegraded ->
    consecutiveFails sm < FailureThreshold config;
  inv_unhealthy : sm_state sm = StateUnhealthy -> consecutiveOKs sm = 0;
  inv_recovering : sm_state sm = StateRecovering ->
    consecutiveFails sm = 0 /\ consecutiveOKs sm < Z.max 2 (RecoveryThreshold config)
}.

Context (Hvalid : ValidateStateMachineConfig config = Ok tt).

Lemma config_bounds : 1 <= FailureThreshold config /\ 1 <= RecoveryThreshold config /\ 0 <= MinStateDuration config.
Proof. revert Hvalid. unfold ValidateStateMachineConfig. intros Hv. inv_ok. bool_prop. lia. Qed.

Lemma handle_inv s sm : sm_inv sm -> sm_inv (handle s sm).
Proof.
  intros [Hf Ho Hup Hu Hr]. pose proof config_bounds as (HF & HR & _).
  unfold handle, handleHardFailure, handleLatencyDegradation, handleSuccess.
  destruct sm as [st f o lt lr]; simpl in *.
  destruct (HardFail s), (LatencyDegraded s), st; simpl in *;
    try specialize (Hup (or_introl eq_refl)); try specialize (Hup (or_intror eq_refl));
    try specialize (Hu eq_refl); try specialize (Hr eq_refl); repeat go_case; bool_prop;
    split; simpl in *; intros; try discriminate; try lia; try (destruct_or!; discriminate).
Qed.

Lemma step_inv sm ev : sm_inv sm -> sm_inv (step sm ev).
Proof.
  intros Hi. destruct (step_handle sm ev) as (E1 & E2 & E3). destruct (handle_inv (snd ev) sm Hi).
  split; rewrite ?E1, ?E2, ?E3; done.
Qed.
Lemma process_inv evs : forall sm, sm_inv sm -> sm_inv (process sm evs).
Proof. induction evs as [|ev evs IH]; intros sm Hi; [done|]. apply IH, step_inv, Hi. Qed.
Lemma process_app evs evs' sm : process sm (evs ++ evs') = process (process sm evs) evs'.
Proof. apply foldl_app. Qed.

Lemma new_inv now sm : NewStateMachine config now = Some sm -> sm_inv sm.
Proof.
  pose proof config_bounds as (? & ? & ?). unfold NewStateMachine. rewrite Hvalid. intros [= <-].
  split; simpl; intros; try lia; discriminate.
Qed.

(** Hard failures in a row. *)
Lemma fails_process evs : forall sm, Forall (fun ev => is_fail (snd ev) = true) evs ->
  consecutiveFails (process sm evs) = consecutiveFails sm + Z.of_nat (length evs).
Proof.
  induction evs as [|ev evs IH]; intros sm Hall; [simpl; lia|]. apply Forall_cons_1 in Hall as [He Hall].
  cbn [process foldl]. change (foldl step (step sm ev) evs) with (process (step sm ev) evs). rewrite IH by done.
  destruct (step_handle sm ev) as (_ & -> & _). unfold handle, is_fail in *. rewrite He.
  unfold handleHardFailure. simpl. destruct (sm_state sm); repeat go_case; simpl; lia.
Qed.

Lemma fail_not_recovering sm ev : is_fail (snd ev) = true -> sm_state (step sm ev) <> StateRecovering.
Proof.
  intros He. destruct (step_handle sm ev) as (-> & _). unfold handle, is_fail in *. rewrite He.
  unfold handleHardFailure. destruct sm as [[] ? ? ? ?]; simpl; repeat go_case; done.
Qed.

(** A machine that leaves the up states does so on its [FailureThreshold]-th
    hard failure in a row: [k] consecutive failures were counted. *)
Lemma fails_suffix evs : forall sm, consecutiveFails sm = 0 -> 0 <= consecutiveFails (process sm evs) ->
  exists pre suf, evs = pre ++ suf /\ Forall (fun ev => is_fail (snd ev) = true) suf
    /\ Z.of_nat (length suf) = consecutiveFails (process sm evs).
Proof.
  induction evs as [|ev evs IH] using rev_ind; intros sm H0 _; [exists [], []; split_and!; [done|constructor|by symmetry]|].
  rewrite process_app. change (process (process sm evs) [ev]) with (step (process sm evs) ev).
  destruct (step_handle (process sm evs) ev) as (_ & -> & _). destruct (is_fail (snd ev)) eqn:He.
  - assert (0 <= consecutiveFails (process sm evs)) as Hpos.
    { clear -H0. induction evs as [|e evs IH] using rev_ind; [simpl; lia|].
      rewrite process_app. change (process (process sm evs) [e]) with (step (process sm evs) e).
      destruct (step_handle (process sm evs) e) as (_ & -> & _).
      unfold handle, handleHardFailure, handleLatencyDegradation, handleSuccess. simpl.
      destruct (sm_state (process sm evs)); repeat go_case; simpl; lia. }
    destruct (IH sm H0 Hpos) as (pre & suf & -> & Hall & Hlen). exists pre, (suf ++ [ev]).
    rewrite app_assoc. split_and!; [done|apply Forall_app; split; [done|by constructor]|].
    rewrite length_app, Nat2Z.inj_add, Hlen. unfold handle, is_fail in *. rewrite He. unfold handleHardFailure.
    simpl. destruct (sm_state (process sm (pre ++ suf))); repeat go_case; simpl; lia.
  - exists (evs ++ [ev]), []. rewrite app_nil_r. split_and!; [done|constructor|].
    unfold handle, is_fail, handleLatencyDegradation, handleSuccess in *. rewrite He. simpl.
    destruct (LatencyDegraded (snd ev)), (sm_state (process sm evs)); simpl; repeat go_case; done.
Qed.

Definition up (st : HealthState) : Prop := st = StateHealthy \/ st = StateDegraded.

(** The machine goes down only on a hard failure that completes the count. *)
Lemma goes_down sm ev : up (sm_state sm) -> ~ up (sm_state (step sm ev)) ->
  sm_state (step sm ev) = StateUnhealthy /\ FailureThreshold config <= consecutiveFails (step sm ev).
Proof.
  destruct (step_handle sm ev) as (-> & -> & _). unfold up, handle, handleHardFailure, handleLatencyDegradation, handleSuccess.
  destruct sm as [[] ? ? ? ?]; simpl; intros [?|?]; try discriminate; repeat go_case; simpl; bool_prop; tauto || lia.
Qed.

Lemma up_dec st : up st \/ st = StateUnhealthy \/ st = StateRecovering.
Proof. unfold up. destruct st; tauto. Qed.

(** Consecutive successes of an unhealthy machine. *)
Lemma successes_process evs : forall sm, Forall (fun ev => is_success (snd ev) = true) evs -> sm_inv sm ->
  sm_state sm = StateUnhealthy ->
  let k := Z.of_nat (length evs) in
  consecutiveOKs (process sm evs) = k
  /\ sm_state (process sm evs) =
      if k =? 0 then StateUnhealthy
      else if k <? Z.max 2 (RecoveryThreshold config) then StateRecovering else StateHealthy.
Proof.
  induction evs as [|ev evs IH] using rev_ind; intros sm Hall Hi Hu.
  { simpl. split; [apply Hi; done|done]. }
  apply Forall_app in Hall as [Hall He%Forall_cons_1]. destruct He as [He _].
  destruct (IH sm Hall Hi Hu) as [Hk Hst]. rewrite process_app, length_app, Nat2Z.inj_add. simpl length.
  change (process (process sm evs) [ev]) with (step (process sm evs) ev).
  destruct (step_handle (process sm evs) ev) as (-> & _ & ->). unfold is_success in He. bool_prop.
  unfold handle. rewrite H, H0. unfold handleSuccess. cbn [sm_state set_counts consecutiveOKs]. rewrite Hst, Hk.
  set (k := Z.of_nat (length evs)) in *. cbv zeta. assert (0 <= k) by lia. change (Z.of_nat 1) with 1.
  pose proof config_bounds as (_ & HR & _).
  destruct (Z.eqb_spec k 0), (Z.eqb_spec (k + 1) 0), (Z.ltb_spec k (Z.max 2 (RecoveryThreshold config))),
    (Z.ltb_spec (k + 1) (Z.max 2 (RecoveryThreshold config))), (Z.leb_spec 1 (k + 1)),
    (Z.leb_spec (RecoveryThreshold config) (k + 1)); try lia; simpl; split; try done; try lia.
Qed.
End machine.

Lemma ProcessSignal_decision (config : StateMachineConfig) (now : Time) (signal : HealthSignal) (sm sm' : StateMachine)
    (announce withdraw : bool) :
  ProcessSignal config now signal sm = (announce, withdraw, sm') ->
  let settled := IsZero (lastRouteChange sm) = true
                 \/ MinStateDuration config <= time_Sub now (lastRouteChange sm) in
  lastRouteChange sm' = lastRouteChange sm
  /\ (announce = true <-> up (sm_state sm') /\ HardFail signal = false /\ settled)
  /\ (withdraw = true <-> ~ up (sm_state sm') /\ settled).
Proof.
  unfold ProcessSignal. set (sm1 := handle config signal sm).
  assert (lastRouteChange sm1 = lastRouteChange sm) as Hl.
  { unfold sm1, handle, handleHardFailure, handleLatencyDegradation, handleSuccess.
    destruct sm as [[] ? ? ? ?]; simpl; repeat go_case; done. }
  set (sm2 := if bool_decide _ then _ else _).
  assert (lastRouteChange sm2 = lastRouteChange sm) as Hl2 by (unfold sm2; by destruct (bool_decide _)).
  assert (negb (IsZero (lastRouteChange sm)) && (time_Sub now (lastRouteChange sm) <? MinStateDuration config) = false
    <-> IsZero (lastRouteChange sm) = true \/ MinStateDuration config <= time_Sub now (lastRouteChange sm)) as Hset.
  { rewrite andb_false_iff, negb_false_iff, Z.ltb_ge. done. }
  unfold determineRouteAction, up. rewrite Hl2. clearbody sm2. intros E. cbv zeta. rewrite <- Hset. clear Hset Hl.
  destruct (negb (IsZero (lastRouteChange sm)) && _), (HardFail signal), (sm_state sm2) eqn:Hst;
    simpl in E; injection E as <- <- <-; rewrite Hst, Hl2; repeat split; intros; destruct_and?; try done; try tauto;
    destruct_or?; try done; intros [?|?]; done.
Qed.

(** The detection half, for use by the components that feed the machine. *)
Lemma NewStateMachine_valid config t0 sm0 : NewStateMachine config t0 = Some sm0 ->
  ValidateStateMachineConfig config = Ok tt.
Proof. unfold NewStateMachine. by destruct (ValidateStateMachineConfig config) as [[]|]. Qed.

Lemma fails_make_unhealthy config t0 sm0 pre suf : NewStateMachine config t0 = Some sm0 ->
  Forall (fun ev => HardFail (snd ev) = true) suf -> FailureThreshold config <= Z.of_nat (length suf) ->
  sm_state (process config sm0 (pre ++ suf)) = StateUnhealthy.
Proof.
  intros Hnew Hall Hlen. pose proof (NewStateMachine_valid _ _ _ Hnew) as Hv.
  pose proof (new_inv config Hv t0 sm0 Hnew) as Hi0. pose proof (config_bounds config Hv) as (HF & _ & _).
  pose proof (process_inv config Hv (pre ++ suf) sm0 Hi0) as Hi.
  destruct suf as [|ev suf] using rev_ind; [simpl in Hlen; lia|]. clear IHsuf.
  assert (FailureThreshold config <= consecutiveFails (process config sm0 (pre ++ suf ++ [ev]))) as Hge.
  { rewrite process_app, fails_process by done.
    destruct (process_inv config Hv pre sm0 Hi0) as [Hpos _]. lia. }
  destruct (up_dec (sm_state (process config sm0 (pre ++ suf ++ [ev])))) as [Hup|[?|Hrec]]; [|done|].
  - exfalso. pose proof (inv_up _ _ Hi Hup). lia.
  - exfalso. revert Hrec. rewrite app_assoc, process_app.
    change (process config (process config sm0 (pre ++ suf)) [ev])
      with (step config (process config sm0 (pre ++ suf)) ev).
    apply fail_not_recovering. apply Forall_app in Hall as [_ He%Forall_cons_1]. exact (proj1 He).
Qed.

(** ** Properties *)

(** Failure detection, over any sequence of signals to a new machine: after
    [FailureThreshold] hard failures in a row the machine is unhealthy, and it
    is never unhealthy or recovering unless that many hard failures in a row
    occurred. *)
Theorem unhealthy_after_threshold (config : StateMachineConfig) (t0 : Time) (sm0 : StateMachine)
    (evs : list (Time * HealthSignal)) :
  NewStateMachine config t0 = Some sm0 ->
  (forall pre suf, evs = pre ++ suf -> Forall (fun ev => HardFail (snd ev) = true) suf ->
     FailureThreshold config <= Z.of_nat (length suf) -> sm_state (process config sm0 evs) = StateUnhealthy)
  /\ (~ up (sm_state (process config sm0 evs)) ->
     exists pre suf post, evs = pre ++ suf ++ post /\ Forall (fun ev => HardFail (snd ev) = true) suf
       /\ FailureThreshold config <= Z.of_nat (length suf)).
Proof.
  intros Hnew.
  assert (consecutiveFails sm0 = 0 /\ sm_state sm0 = StateHealthy) as [Hz Hs0].
  { unfold NewStateMachine in Hnew. rewrite (NewStateMachine_valid _ _ _ Hnew) in Hnew. by injection Hnew as <-. }
  pose proof (NewStateMachine_valid _ _ _ Hnew) as Hv. pose proof (config_bounds config Hv) as (HF & _ & _).
  split.
  - intros pre suf -> Hall Hlen. by eapply fails_make_unhealthy.
  - induction evs as [|ev evs IH] using rev_ind; [intros Hn; exfalso; apply Hn; left; exact Hs0|]. intros Hdown.
    pose proof (fails_suffix config (evs ++ [ev]) sm0 Hz) as Hsuf.
    rewrite process_app in *.
    change (process config (process config sm0 evs) [ev]) with (step config (process config sm0 evs) ev) in *.
    destruct (up_dec (sm_state (process config sm0 evs))) as [Hup|Hd].
    + destruct (goes_down config _ ev Hup Hdown) as [_ Hge]. destruct Hsuf as (pre & suf & -> & Hall & Hlen); [lia|].
      exists pre, suf, []. rewrite app_nil_r. split_and!; [done|done|lia].
    + destruct IH as (pre & suf & post & -> & Hall & Hlen).
      { unfold up. destruct Hd as [->| ->]; intros [?|?]; discriminate. }
      exists pre, suf, (post ++ [ev]). rewrite <- !app_assoc. done.
Qed.

(** Recovery, from any unhealthy machine reached by processing signals: [k]
    successes in a row make it healthy exactly when [k] reaches the recovery
    threshold and is at least two; with fewer it is recovering. *)
Theorem recovery_after_threshold (config : StateMachineConfig) (t0 : Time) (sm0 : StateMachine)
    (evs oks : list (Time * HealthSignal)) :
  NewStateMachine config t0 = Some sm0 ->
  sm_state (process config sm0 evs) = StateUnhealthy ->
  Forall (fun ev => is_success (snd ev) = true) oks ->
  let k := Z.of_nat (length oks) in
  (sm_state (process config sm0 (evs ++ oks)) = StateHealthy <-> RecoveryThreshold config <= k /\ 2 <= k)
  /\ (0 < k < Z.max 2 (RecoveryThreshold config) -> sm_state (process config sm0 (evs ++ oks)) = StateRecovering).
Proof.
  intros Hnew Hu Hall k. pose proof (NewStateMachine_valid _ _ _ Hnew) as Hv.
  pose proof (process_inv config Hv evs sm0 (new_inv config Hv t0 sm0 Hnew)) as Hi.
  rewrite process_app. destruct (successes_process config Hv oks _ Hall Hi Hu) as [_ ->]. fold k.
  destruct (Z.eqb_spec k 0), (Z.ltb_spec k (Z.max 2 (RecoveryThreshold config))); split; try done; try lia;
    (split; [done || lia|]; intros; try lia; done).
Qed.

(** ** Witnesses *)
Definition demo_config : StateMachineConfig := mkSMConfig 3 2 (10 * Second).
Definition fail_at (t : Time) : Time * HealthSignal := (t, mkSignal true false "down" t).
Definition ok_at (t : Time) : Time * HealthSignal := (t, mkSignal false false "up" t).
Definition demo_new : StateMachine := mkSM StateHealthy 0 0 0 zeroTime.

Lemma unhealthy_after_threshold_witness :
  sm_state (process demo_config demo_new [ok_at 1; fail_at 2; fail_at 3; fail_at 4]) = StateUnhealthy.
Proof.
  destruct (unhealthy_after_threshold demo_config 0 demo_new [ok_at 1; fail_at 2; fail_at 3; fail_at 4])
    as [H _]; [reflexivity|].
  apply (H [ok_at 1] [fail_at 2; fail_at 3; fail_at 4]); [reflexivity|repeat constructor|done].
Defined.

Lemma recovery_after_threshold_witness :
  sm_state (process demo_config demo_new ([fail_at 2; fail_at 3; fail_at 4] ++ [ok_at 5; ok_at 6])) = StateHealthy.
Proof.
  destruct (recovery_after_threshold demo_config 0 demo_new [fail_at 2; fail_at 3; fail_at 4] [ok_at 5; ok_at 6])
    as [H _]; [reflexivity|vm_compute; reflexivity|repeat constructor|].
  apply H. vm_compute. split; discriminate.
Defined.

(** With a recovery threshold of one a single success is not enough. *)
Example recovery_threshold_one :
  sm_state (process (mkSMConfig 1 1 0) demo_new [fail_at 1; ok_at 2]) = StateRecovering
  /\ sm_state (process (mkSMConfig 1 1 0) demo_new [fail_at 1; ok_at 2; ok_at 3]) = StateHealthy.
Proof. vm_compute. done. Qed.
