(* ===== verification/BirdProtocol.v ===== *)
(** * BIRD control protocol responses (internal/agent/bird/protocol.go)

    The reader is the text received and the error that ended it, if any.
    [bufio.Scanner] delivers the lines; a line that fills its 64 KiB buffer is
    an error. *)

From S2P Require Import Prelude GoStrings GoStringsFacts.

Record Response := mkResponse { Code : Z; Lines : list string; RawText : string }.

Definition IsSuccess (r : Response) : bool := Code r <? 8000.
Definition IsError (r : Response) : bool := 8000 <=? Code r.

Definition newline : ascii := chr 10.
Definition MaxScanTokenSize : Z := 65536.

(** [bufio.ScanLines]: lines without their end-of-line marker; no empty line
    after a final newline. *)
Definition dropCR (line : string) : string := TrimSuffix line (str1 (chr 13)).
Fixpoint drop_last_empty (ls : list string) : list string :=
  match ls with
  | [] => []
  | [l] => if (l =? "")%string then [] else [l]
  | l :: ls => l :: drop_last_empty ls
  end.
Definition scan_lines (content : string) : list string := drop_last_empty (Split content newline).

(** The loop of [ParseResponse]: the collected contents, the raw lines, the last
    status code. *)
Fixpoint parse_lines (ls : list string) (readErr : option error) (lines rawLines : list string) (lastCode : Z)
  : result Response :=
  let finish := Ok (mkResponse lastCode lines (str_join rawLines (str1 newline))) in
  match ls with
  | [] => match readErr with Some e => Err (Wrapf "read response" e) | None => finish end
  | raw :: ls =>
    if MaxScanTokenSize <=? len raw then Err (Wrapf "read response" (Errorf "bufio.Scanner: token too long"))
    else
      let line := dropCR raw in
      let rawLines := rawLines ++ [line] in
      if len line <? 4 then parse_lines ls readErr lines rawLines lastCode
      else
        match Atoi (str_take 4 line) with
        | None => parse_lines ls readErr lines rawLines lastCode
        | Some code =>
          let separator := if 4 <? len line then str_take 1 (str_drop 4 line) else " " in
          let content := if 5 <? len line then str_drop 5 line else "" in
          let lines := lines ++ [content] in
          if (separator =? " ")%string then
            if code =? 0 then Ok (mkResponse lastCode lines (str_join rawLines (str1 newline)))
            else parse_lines ls readErr lines rawLines code
          else parse_lines ls readErr lines rawLines lastCode
        end
  end.

Definition ParseResponse (content : string) (readErr : option error) : result Response :=
  parse_lines (scan_lines content) readErr [] [] 0.

Definition ParseGreeting (content : string) (readErr : option error) : result string :=
  let* resp := wrap "parse greeting" (ParseResponse content readErr) in
  match Lines resp with
  | [] => Err (Errorf "empty greeting")
  | l :: _ => Ok l
  end.

(** ** Well-formed responses *)
Definition digit (d : Z) : ascii := chr (48 + d).
Definition code4 (z : Z) : string :=
  String (digit (z / 1000)) (String (digit (z / 100 mod 10)) (String (digit (z / 10 mod 10)) (str1 (digit (z mod 10))))).

(** A reply: continuation lines, a line with the status, the terminator. *)
Definition reply_lines (conts : list (Z * string)) (code : Z) (text : string) : list string :=
  map (fun c => code4 (fst c) +:+ "-" +:+ snd c) conts ++ [code4 code +:+ " " +:+ text; "0000 "].
Definition reply_text (ls : list string) : string := str_concat (map (fun l => l +:+ str1 newline) ls).

Lemma is_digit_digit d : 0 <= d < 10 -> is_digit (digit d) = true /\ byte (digit d) = 48 + d.
Proof.
  intros Hd. unfold digit, is_digit. rewrite byte_chr by lia. split; [|done].
  apply andb_true_iff. split; lia.
Qed.

Lemma Atoi_code4 z : 0 <= z < 10000 -> Atoi (code4 z) = Some z.
Proof.
  intros Hz. pose proof (Z.mod_pos_bound (z / 100) 10 ltac:(lia)).
  pose proof (Z.mod_pos_bound (z / 10) 10 ltac:(lia)). pose proof (Z.mod_pos_bound z 10 ltac:(lia)).
  assert (0 <= z / 1000 < 10) as H3 by (split; [apply Z.div_pos; lia|apply Z.div_lt_upper_bound; lia]).
  destruct (is_digit_digit _ H3) as [D3 B3], (is_digit_digit (z / 100 mod 10) ltac:(lia)) as [D2 B2],
    (is_digit_digit (z / 10 mod 10) ltac:(lia)) as [D1 B1], (is_digit_digit (z mod 10) ltac:(lia)) as [D0 B0].
  unfold Atoi, code4. rewrite B3.
  rewrite (proj2 (Z.eqb_neq (48 + z / 1000) 45)), (proj2 (Z.eqb_neq (48 + z / 1000) 43)) by lia.
  unfold str1. cbn [digits_value String.eqb]. rewrite D3, D2, D1, D0, B3, B2, B1, B0.
  assert ((((0 * 10 + (48 + z / 1000 - 48)) * 10 + (48 + z / 100 mod 10 - 48)) * 10 + (48 + z / 10 mod 10 - 48)) * 10
    + (48 + z mod 10 - 48) = z) as ->.
  { pose proof (Z.div_mod z 10). pose proof (Z.div_mod (z / 10) 10). pose proof (Z.div_mod (z / 100) 10).
    rewrite !Z.div_div in * by lia. change (10 * 10) with 100 in *. change (100 * 10) with 1000 in *. lia. }
  unfold MinInt64, MaxInt64. by rewrite !(proj2 (Z.leb_le _ _)) by lia.
Qed.

(** One line of a reply: its code, its separator, its content. *)
Lemma parse_line c sep text ls e lines raw last :
  0 <= c < 10000 -> len text < 60000 -> HasSuffix (code4 c +:+ str1 sep +:+ text) (str1 (chr 13)) = false ->
  parse_lines ((code4 c +:+ str1 sep +:+ text) :: ls) e lines raw last =
  let raw' := raw ++ [code4 c +:+ str1 sep +:+ text] in
  let lines' := lines ++ [text] in
  if Ascii.eqb sep " "%char
  then if c =? 0 then Ok (mkResponse last lines' (str_join raw' (str1 newline)))
       else parse_lines ls e lines' raw' c
  else parse_lines ls e lines' raw' last.
Proof.
  intros Hc Ht Hcr. set (line := code4 c +:+ str1 sep +:+ text) in *.
  assert (len line = 5 + len text) as Hlen.
  { unfold line, len, code4, str1. rewrite !str_app_cons, !str_app_nil_l. cbn [String.length]. lia. }
  assert (0 <= len text) by (unfold len; lia).
  cbn [parse_lines]. unfold MaxScanTokenSize. rewrite (proj2 (Z.leb_gt _ _)) by lia.
  unfold dropCR. rewrite TrimSuffix_no by done.
  rewrite (proj2 (Z.ltb_ge (len line) 4)), (proj2 (Z.ltb_lt 4 (len line))) by lia.
  assert (str_take 4 line = code4 c) as -> by reflexivity. rewrite Atoi_code4 by done.
  assert (str_take 1 (str_drop 4 line) = str1 sep) as -> by (unfold line, code4, str1; by destruct text).
  assert ((if 5 <? len line then str_drop 5 line else "") = text) as ->.
  { destruct (Z.ltb_spec 5 (len line)); [reflexivity|]. symmetry. apply str_length_0. unfold len in *. lia. }
  assert ((str1 sep =? " ")%string = Ascii.eqb sep " "%char) as ->; [|done].
  unfold str1. simpl. by destruct (Ascii.eqb sep " ").
Qed.

Definition CR : string := str1 (chr 13).
(** Texts that fit in one line. *)
Definition line_text (s : string) : Prop := lacks newline s /\ HasSuffix s CR = false /\ len s < 60000.

Lemma reply_line_no_CR c sep text : Ascii.eqb sep (chr 13) = false -> HasSuffix text CR = false ->
  HasSuffix (code4 c +:+ str1 sep +:+ text) CR = false.
Proof.
  intros Hs Ht. rewrite HasSuffix_app_r by (rewrite str_length_app; simpl; lia).
  destruct text as [|a text].
  - rewrite str_app_nil_r. unfold HasSuffix, CR, str1. cbn [String.length Nat.leb Nat.sub str_drop String.eqb andb].
    by rewrite Hs.
  - rewrite HasSuffix_app_r; [done|simpl; lia].
Qed.

Lemma scan_reply ls : Forall (lacks newline) ls -> scan_lines (reply_text ls) = ls.
Proof.
  intros Hls. assert (Split (reply_text ls) newline = ls ++ [""]) as E.
  { unfold reply_text. induction Hls as [|l ls Hl _ IH]; [reflexivity|].
    cbn [map str_concat foldr]. change (foldr String.append "" ?l) with (str_concat l).
    by rewrite str_app_assoc, Split_app, IH. }
  unfold scan_lines. rewrite E. clear. induction ls as [|l ls IH]; [done|].
  cbn [app drop_last_empty]. rewrite IH. by destruct (ls ++ [""]) eqn:E; [destruct ls|].
Qed.

Lemma code4_lacks c : 0 <= c < 10000 -> lacks newline (code4 c).
Proof.
  intros Hc. assert (forall d, 0 <= d < 10 -> Ascii.eqb (digit d) newline = false) as Hd.
  { intros d Hd. apply Ascii.eqb_neq. intros E. apply (f_equal byte) in E. unfold digit, newline in E.
    rewrite !byte_chr in E by lia. lia. }
  unfold lacks, code4, str1. cbn [str_forallb].
  rewrite !Hd; [done|apply Z.mod_pos_bound; lia..|]. split; [apply Z.div_pos; lia|apply Z.div_lt_upper_bound; lia].
Qed.

Lemma parse_conts conts : forall ls e lines raw last,
  Forall (fun c => 0 <= fst c < 10000 /\ line_text (snd c)) conts ->
  parse_lines (map (fun c => code4 (fst c) +:+ "-" +:+ snd c) conts ++ ls) e lines raw last =
  parse_lines ls e (lines ++ map snd conts) (raw ++ map (fun c => code4 (fst c) +:+ "-" +:+ snd c) conts) last.
Proof.
  induction conts as [|[c t] conts IH]; intros ls e lines raw last Hall; [by rewrite !app_nil_r|].
  apply Forall_cons_1 in Hall as [(Hc & Hn & Hcr & Hl) Hall]. cbn [map app fst snd] in *.
  change "-" with (str1 "-"%char) at 1. rewrite parse_line; [|done|done|by apply reply_line_no_CR].
  cbn [Ascii.eqb]. simpl. rewrite IH by done. by rewrite <- !app_assoc.
Qed.

(** Round trip of control-socket replies: a reply made of continuation
    lines, a status line and the 0000 terminator is parsed back into the status
    code of the status line and the contents of all lines, whatever follows the
    terminator on the connection; it counts as an error exactly when the status
    is 8000 or more. *)
Theorem reply_round_trip (conts : list (Z * string)) (code : Z) (text : string) (rest : list string) (e : option error) :
  Forall (fun c => 0 <= fst c < 10000 /\ line_text (snd c)) conts ->
  0 < code < 10000 -> line_text text -> Forall (lacks newline) rest ->
  exists resp, ParseResponse (reply_text (reply_lines conts code text ++ rest)) e = Ok resp
    /\ Code resp = code /\ Lines resp = map snd conts ++ [text; ""]
    /\ (IsError resp = true <-> 8000 <= code) /\ IsSuccess resp = negb (IsError resp).
Proof.
  intros Hconts Hcode (Hn & Hcr & Hl) Hrest. unfold ParseResponse.
  assert (Forall (lacks newline) (reply_lines conts code text ++ rest)) as Hlack.
  { apply Forall_app. split; [|done]. unfold reply_lines. apply Forall_app. split.
    - apply Forall_map. eapply Forall_impl; [exact Hconts|]. intros [c t] (Hc & Ht & _). simpl in *.
      apply lacks_app. split; [by apply code4_lacks|]. apply lacks_app. by split.
    - constructor; [|by constructor]. apply lacks_app. split; [apply code4_lacks; lia|]. apply lacks_app. by split. }
  rewrite scan_reply by done. unfold reply_lines. rewrite <- app_assoc, parse_conts by done. cbn [app].
  change " " with (str1 " "%char) at 1. rewrite parse_line; [|lia|done|by apply reply_line_no_CR].
  simpl. rewrite (proj2 (Z.eqb_neq code 0)) by lia. eexists. split; [reflexivity|]. simpl.
  rewrite <- app_assoc. split_and!; [done|done| |].
  - unfold IsError. simpl. apply Z.leb_le.
  - unfold IsSuccess, IsError. simpl. destruct (Z.ltb_spec code 8000), (Z.leb_spec 8000 code); done || lia.
Qed.

Lemma reply_round_trip_witness :
  exists resp, ParseResponse (reply_text (reply_lines [(1, "BIRD 2.0.8 ready.")] 9001 "syntax error" ++ [])) None = Ok resp
    /\ Code resp = 9001 /\ Lines resp = map snd [(1, "BIRD 2.0.8 ready.")] ++ ["syntax error"; ""]
    /\ (IsError resp = true <-> 8000 <= 9001) /\ IsSuccess resp = negb (IsError resp).
Proof.
  apply (reply_round_trip [(1, "BIRD 2.0.8 ready.")] 9001 "syntax error" [] None);
    [repeat constructor; vm_compute; discriminate || done|lia|repeat split|constructor].
Defined.
