(* ===== verification/BirdRoutes.v ===== *)
(** * Route announcement (internal/agent/bird/routes.go and loop.go)

    The route manager enables and disables the BGP protocols of the local BIRD
    daemon and caches what it believes is announced; the control loop connects
    it to the health state machine.  BIRD itself is not part of the repository:
    the daemon behind the [Client] interface is a parameter, with the documented
    effect of its commands as the laws of [BirdDaemon]. *)

From S2P Require Import Prelude GoStrings GoStringsFacts Utf8 Regex Validation BirdProtocol BirdState.

(** [birdIdentifierRE], [^[A-Za-z_][A-Za-z0-9_]*$]. *)
Definition is_ident_start (c : ascii) : bool :=
  ((65 <=? byte c) && (byte c <=? 90)) || ((97 <=? byte c) && (byte c <=? 122)) || (byte c =? 95).
Definition birdIdentifierRE : regex :=
  RCat (RClass is_ident_start) (RStar (RClass (fun c => is_ident_start c || is_digit c))).

Definition validateBIRDIdentifier (field name : string) : result unit :=
  guard_err (negb (MatchString birdIdentifierRE name))
    (Errorf ("invalid " +:+ field +:+ ": " +:+ name +:+ " must match ^[A-Za-z_][A-Za-z0-9_]*$")).
Fixpoint validateBIRDIdentifiers (field : string) (names : list string) : result unit :=
  match names with
  | [] => Ok tt
  | name :: names => validateBIRDIdentifier field name ;;* validateBIRDIdentifiers field names
  end.

Record RouteManager := mkRM {
  protocolNames : list string;
  announced : bool;
  needsWithdraw : bool;
  lastChange : Time }.

Definition NewRouteManager (names : list string) : result RouteManager :=
  validateBIRDIdentifiers "bird.protocol_names" names ;;* Ok (mkRM names false true zeroTime).

(** ** Reading the status *)
Definition blank (c : option ascii) : bool :=
  match c with Some c => (byte c =? 32) || (byte c =? 9) | None => true end.
Definition word_at (s word : string) (i : nat) : bool :=
  (i + String.length word <=? String.length s)%nat
  && (str_take (String.length word) (str_drop i s) =? word)%string
  && (match i with O => true | S j => blank (String.get j s) end)
  && blank (String.get (i + String.length word) s).
Definition containsWord (s word : string) : bool :=
  existsb (word_at s word) (List.seq 0 (String.length s)).

Definition protocolEnabledFromShowProtocols (output : string) : bool :=
  forallb (fun raw =>
    let line := TrimSpace raw in
    (line =? "")%string || negb (containsWord line "Disabled" || containsWord line "disabled"))
    (Split output newline).

(** *** What the reader decides

    BIRD answers [show protocols] with a table: lines of words that are padded with
    spaces.  The line of a protocol that was disabled has the word [Disabled]. *)
Definition row_text (row : list string) : string := str_join row " ".
Definition table_text (rows : list (list string)) : string := str_join (map row_text rows) (str1 newline).
Definition printed (rows : list (list string)) : Prop := Forall (Forall (fun word => graphic_string word)) rows.
Definition says_disabled (rows : list (list string)) : Prop := exists row, row ∈ rows /\ ("Disabled" ∈ row \/ "disabled" ∈ row).

Definition is_space (c : ascii) : bool := Ascii.eqb c " "%char.
Lemma graphic_not_blank a : graphic a = true -> blank (Some a) = false /\ is_space a = false.
Proof.
  intros Ha. split.
  - unfold graphic in Ha. cbn. bool_prop. apply orb_false_iff. rewrite !Z.eqb_neq. lia.
  - unfold is_space. apply Ascii.eqb_neq. intros ->. by vm_compute in Ha.
Qed.
Lemma HasPrefix_cons a s b w : HasPrefix (String a s) (String b w) = Ascii.eqb a b && HasPrefix s w.
Proof. unfold HasPrefix. cbn [strip_prefix]. rewrite Ascii.eqb_sym. by destruct (Ascii.eqb a b). Qed.
Lemma HasPrefix_nil s : HasPrefix s "" = true.
Proof. by destruct s. Qed.
(** A text goes on with a space or ends. *)
Definition word_ends (t : string) : Prop := t = "" \/ exists t', t = String " " t'.
(** Looking for a word from left to right; [b] says that a word may start here. *)
Section words.
Context (w : string).
Definition word_here (s : string) : bool := HasPrefix s w && blank (String.get (String.length w) s).
Fixpoint scan (b : bool) (s : string) : bool :=
  (b && word_here s) || match s with EmptyString => false | String a s => scan (blank (Some a)) s end.

Lemma str_get_app p t : String.get (String.length p) (p +:+ t) = String.get 0 t.
Proof. induction p as [|a p IH]; [done|]. by rewrite str_app_cons. Qed.
Lemma str_get_shift p t n : String.get (String.length p + n) (p +:+ t) = String.get n t.
Proof. induction p as [|a p IH]; [done|]. by rewrite str_app_cons. Qed.
Lemma word_prefix (t : string) : (String.length w <=? String.length t)%nat && (str_take (String.length w) t =? w)%string = HasPrefix t w.
Proof.
  apply eq_true_iff_eq. rewrite andb_true_iff, Nat.leb_le, String.eqb_eq, HasPrefix_true. split.
  - intros [_ Ht]. exists (str_drop (String.length w) t). rewrite <- Ht at 1. symmetry. apply str_take_drop.
  - intros [r ->]. rewrite str_take_app, str_length_app. split; [lia|done].
Qed.
Lemma scan_word p t : w <> "" -> existsb (word_at (p +:+ t) w) (List.seq (String.length p) (String.length t))
  = scan (match String.length p with O => true | S j => blank (String.get j (p +:+ t)) end) t.
Proof.
  intros Hne. revert p. induction t as [|a t IH]; intros p.
  - cbn. unfold word_here. destruct w; [done|]. by rewrite andb_false_r.
  - cbn [String.length List.seq existsb scan]. f_equal.
    + unfold word_at, word_here. rewrite str_drop_app, str_get_shift, str_length_app. 
      replace (String.length p + String.length w <=? String.length p + String.length (String a t))%nat with (String.length w <=? String.length (String a t))%nat
        by (apply eq_true_iff_eq; rewrite !Nat.leb_le; lia).
      rewrite word_prefix. destruct (HasPrefix _ w), (blank (String.get _ (String a t))), (match String.length p with O => true | S j => _ end); done.
    + specialize (IH (p +:+ str1 a)). rewrite str_app_assoc in IH. change (str1 a +:+ t) with (String a t) in IH.
      rewrite str_length_app in IH. cbn [str1 String.length] in IH. rewrite Nat.add_1_r in IH. rewrite IH. by rewrite str_get_app.
Qed.
Lemma containsWord_scan s : w <> "" -> containsWord s w = scan true s.
Proof. intros Hne. apply (scan_word ""), Hne. Qed.
End words.

Lemma word_here_cell x w t : graphic_string x -> graphic_string w -> word_ends t -> word_here w (x +:+ t) = (x =? w)%string.
Proof.
  unfold word_here. revert w. induction x as [|a x IH]; intros w Hx Hw Ht.
  - rewrite str_app_nil_l. destruct w as [|b w]; [by rewrite HasPrefix_nil; destruct Ht as [->|[t' ->]]|].
    destruct Ht as [->|[t' ->]]; [done|]. rewrite HasPrefix_cons. cbn [str_forallb] in Hw. apply andb_true_iff in Hw as [Hb _].
    rewrite (proj2 (Ascii.eqb_neq " "%char b)); [done|]. intros <-. by vm_compute in Hb.
  - cbn [str_forallb] in Hx. apply andb_true_iff in Hx as [Ha Hx]. rewrite str_app_cons. destruct w as [|b w].
    + rewrite HasPrefix_nil. cbn [String.length String.get]. destruct (graphic_not_blank a Ha) as [Hb _]. cbn in Hb. cbn. by rewrite Hb.
    + cbn [str_forallb] in Hw. apply andb_true_iff in Hw as [_ Hw]. rewrite HasPrefix_cons. cbn [String.length String.get String.eqb].
      rewrite <- andb_assoc, IH by done. by destruct (Ascii.eqb a b).
Qed.
Lemma scan_cell w x b t : graphic_string x -> graphic_string w -> w <> "" -> word_ends t ->
  scan w b (x +:+ t) = (b && (x =? w)%string) || match t with EmptyString => false | String _ t' => scan w true t' end.
Proof.
  intros Hx Hw Hne Ht. revert b Hx. induction x as [|a x IH]; intros b Hx.
  - rewrite str_app_nil_l. rewrite (proj2 (String.eqb_neq "" w)), andb_false_r by done. destruct Ht as [->|[t' ->]]; cbn [scan].
    + unfold word_here. destruct w; [done|]. by rewrite andb_false_r.
    + replace (word_here w (String " " t')) with false; [by rewrite andb_false_r|].
      symmetry. unfold word_here. destruct w as [|c w]; [done|]. rewrite HasPrefix_cons. cbn [str_forallb] in Hw. apply andb_true_iff in Hw as [Hc _].
      rewrite (proj2 (Ascii.eqb_neq " "%char c)); [done|]. intros <-. by vm_compute in Hc.
  - pose proof Hx as Hx'. cbn [str_forallb] in Hx'. apply andb_true_iff in Hx' as [Ha Hx']. rewrite <- (word_here_cell (String a x) w t) by done.
    rewrite str_app_cons. cbn [scan]. rewrite (proj1 (graphic_not_blank a Ha)), IH by done. done.
Qed.
Lemma scan_row w row : graphic_string w -> w <> "" -> Forall (fun x => graphic_string x) row -> scan w true (row_text row) = true <-> w ∈ row.
Proof.
  intros Hw Hne Hrow. unfold row_text. induction Hrow as [|x row Hx Hrow IH]; [split; [|by intros ?%elem_of_nil]; cbn; unfold word_here; by destruct w|].
  rewrite elem_of_cons. destruct row as [|y row].
  - cbn [str_join]. rewrite <- (str_app_nil_r x) at 1. rewrite scan_cell by (done || by left). rewrite orb_false_r. cbn [andb]. rewrite String.eqb_eq, elem_of_nil. naive_solver.
  - rewrite str_join_cons by done. rewrite scan_cell; [|done..|right; by eexists]. change (" " +:+ str_join (y :: row) " ") with (String " " (str_join (y :: row) " ")). cbn iota.
    rewrite orb_true_iff, IH. cbn [andb]. rewrite String.eqb_eq. naive_solver.
Qed.

(** Trimming only takes spaces off a printed line. *)
Definition spaces (s : string) : Prop := str_forallb is_space s = true.
Lemma scan_lead w p t : graphic_string w -> w <> "" -> spaces p -> scan w true (p +:+ t) = scan w true t.
Proof.
  intros Hw Hne. induction p as [|a p IH]; [done|]. unfold spaces. cbn [str_forallb]. intros [->%Ascii.eqb_eq Hp]%andb_true_iff.
  rewrite str_app_cons. rewrite <- (IH Hp). change (String " " (p +:+ t)) with ("" +:+ String " " (p +:+ t)).
  rewrite scan_cell; [|done..|right; by eexists]. cbn. by destruct w.
Qed.
Lemma here_trail w t q : graphic_string w -> spaces q -> word_here w (t +:+ q) = word_here w t \/ w = "".
Proof.
  unfold word_here. revert w. induction t as [|a t IH]; intros w Hw Hq.
  - left. rewrite str_app_nil_l. destruct w as [|b w]; [|destruct q as [|c q]; [done|]].
    + rewrite !HasPrefix_nil. destruct q as [|c q]; [done|]. unfold spaces in Hq. cbn [str_forallb] in Hq. by apply andb_true_iff in Hq as [->%Ascii.eqb_eq _].
    + unfold spaces in Hq. cbn [str_forallb] in *. apply andb_true_iff in Hq as [->%Ascii.eqb_eq _]. apply andb_true_iff in Hw as [Hb _].
      rewrite HasPrefix_cons, (proj2 (Ascii.eqb_neq " "%char b)); [done|]. intros <-. by vm_compute in Hb.
  - destruct w as [|b w]; [by right|]. left. cbn [str_forallb] in Hw. apply andb_true_iff in Hw as [_ Hw]. rewrite str_app_cons, !HasPrefix_cons. cbn [String.length String.get].
    rewrite <- !andb_assoc. destruct (Ascii.eqb a b); [|done]. cbn [andb]. destruct (IH w Hw Hq) as [->| ->]; [done|]. rewrite !HasPrefix_nil. cbn [String.length String.get].
    destruct t as [|c t]; [|done]. rewrite str_app_nil_l. destruct q as [|c q]; [done|]. unfold spaces in Hq. cbn [str_forallb] in Hq. by apply andb_true_iff in Hq as [->%Ascii.eqb_eq _].
Qed.
Lemma scan_trail w b t q : graphic_string w -> w <> "" -> spaces q -> scan w b (t +:+ q) = scan w b t.
Proof.
  intros Hw Hne Hq. assert (Hq0 : forall b, scan w b q = false).
  { clear b t. induction q as [|a q IH]; intros b; cbn [scan].
    - unfold word_here. destruct w; [done|]. by rewrite andb_false_r.
    - destruct (here_trail w "" (String a q) Hw Hq) as [Hh|?]; [|done]. rewrite str_app_nil_l in Hh. rewrite Hh. unfold spaces in Hq. cbn [str_forallb] in Hq. apply andb_true_iff in Hq as [_ Hq]. rewrite IH by done.
      unfold word_here. destruct w; [done|]. by rewrite andb_false_r. }
  revert b. induction t as [|a t IH]; intros b.
  - rewrite str_app_nil_l, Hq0. cbn [scan]. unfold word_here. destruct w; [done|]. by rewrite andb_false_r.
  - destruct (here_trail w (String a t) q Hw Hq) as [Hh|?]; [|done]. rewrite str_app_cons in *. cbn [scan]. by rewrite Hh, IH.
Qed.
Definition printable (c : ascii) : bool := graphic c || is_space c.
Lemma TrimSpace_printed s : str_forallb printable s = true -> exists p q, s = p +:+ TrimSpace s +:+ q /\ spaces p /\ spaces q.
Proof.
  intros Hs. assert (Hch : forall l, (forall c, c ∈ l -> c ∈ chunks s) -> Forall (fun c => IsSpace (fst c) = true) l -> spaces (text l)).
  { assert (Hpr : Forall (fun c => IsSpace (fst c) = true -> snd c = " ") (chunks s)).
    { clear - Hs. unfold chunks. induction s as [|a s IH]; [constructor|]. cbn [str_forallb] in Hs. apply andb_true_iff in Hs as [Ha Hs]. cbn [chunks_go].
      assert (decode_rune (String a s) = (byte a, 1%nat)) as ->.
      { unfold decode_rune. rewrite (proj2 (Z.ltb_lt (byte a) 128)); [done|]. generalize (byte_ind (fun a => implb (printable a) (byte a <? 128)) ltac:(by vm_compute) a). rewrite Ha. cbn. lia. }
      cbn [Nat.sub str_take]. constructor; [|by apply IH]. cbn [fst snd]. intros Hsp.
      generalize (byte_ind (fun a => implb (printable a && IsSpace (byte a)) (is_space a)) ltac:(by vm_compute) a). rewrite Ha, Hsp. cbn. by intros ->%Ascii.eqb_eq. }
    intros l Hin Hl. rewrite Forall_forall in Hpr. induction l as [|c l IH]; [done|]. apply Forall_cons in Hl as [Hc Hl]. change (text (c :: l)) with (snd c +:+ text l). unfold spaces.
    rewrite str_forallb_app, (Hpr c) by (done || apply Hin; left). apply IH; [|done]. intros c' Hc'. apply Hin. by right. }
  unfold TrimSpace. destruct (drop_spaces_split (chunks s)) as (p & Ep & Hp). set (l := drop_spaces (chunks s)) in *. destruct (drop_spaces_split (rev l)) as (q & Eq & Hq). set (m := drop_spaces (rev l)) in *.
  assert (El : l = rev m ++ rev q) by (rewrite <- rev_app_distr, <- Eq; by rewrite rev_involutive).
  exists (text p), (text (rev q)). split_and!.
  - change (str_concat (map snd (rev m))) with (text (rev m)). rewrite <- !text_app, <- El, <- Ep. by rewrite text_chunks.
  - apply Hch; [|done]. intros c Hc. rewrite Ep. by apply elem_of_app; left.
  - apply Hch; [|by apply Forall_rev]. intros c Hc. rewrite Ep, El, !elem_of_app. auto.
Qed.
Lemma row_printable row : Forall (fun x => graphic_string x) row -> str_forallb printable (row_text row) = true.
Proof.
  assert (Hg : forall x, graphic_string x -> str_forallb printable x = true) by (intros x; apply str_forallb_impl; intros c Hc; unfold printable; by rewrite Hc).
  unfold row_text. induction 1 as [|x row Hx Hrow IH]; [done|]. destruct row as [|y row]; [by apply Hg|]. rewrite str_join_cons, !str_forallb_app, IH, Hg by done. done.
Qed.
Lemma row_lacks row : Forall (fun x => graphic_string x) row -> lacks newline (row_text row).
Proof.
  intros Hr%row_printable. unfold lacks. eapply str_forallb_impl; [|exact Hr]. intros c Hc.
  generalize (byte_ind (fun c => implb (printable c) (negb (Ascii.eqb newline c))) ltac:(by vm_compute) c). rewrite Hc. cbn. by rewrite Ascii.eqb_sym.
Qed.
Lemma row_word w row : graphic_string w -> w <> "" -> Forall (fun x => graphic_string x) row -> containsWord (TrimSpace (row_text row)) w = true <-> w ∈ row.
Proof.
  intros Hw Hne Hrow. rewrite <- (scan_row w row) by done. destruct (TrimSpace_printed _ (row_printable row Hrow)) as (p & q & E & Hp & Hq).
  rewrite containsWord_scan by done. rewrite E at 2. by rewrite scan_lead, scan_trail.
Qed.
(** The reader decides whether the table says disabled. *)
Lemma show_parsed rows : printed rows -> protocolEnabledFromShowProtocols (table_text rows) = true <-> ~ says_disabled rows.
Proof.
  intros Hr. unfold protocolEnabledFromShowProtocols, says_disabled, table_text. destruct rows as [|row0 rows0]; [split; [|done]; intros _ (row & Hrow & _); by apply elem_of_nil in Hrow|].
  set (rows := row0 :: rows0) in *. rewrite Split_join; [|done|].
  2: { unfold printed in Hr. rewrite Forall_fmap. eapply Forall_impl; [exact Hr|]. intros row. apply row_lacks. }
  rewrite forallb_forall. unfold printed in Hr. rewrite Forall_forall in Hr. split.
  - intros Hall (row & Hrow & Hd). specialize (Hall (row_text row) ltac:(by apply in_map, list_elem_of_In)). cbv zeta in Hall.
    pose proof (row_word "Disabled" row eq_refl ltac:(done) (Hr row Hrow)) as H1. pose proof (row_word "disabled" row eq_refl ltac:(done) (Hr row Hrow)) as H2.
    destruct (String.eqb_spec (TrimSpace (row_text row)) "") as [E|_]; [rewrite E in *; destruct Hd as [Hd|Hd]; [by apply H1 in Hd|by apply H2 in Hd]|].
    cbn [orb] in Hall. apply negb_true_iff, orb_false_iff in Hall as [N1 N2]. destruct Hd as [Hd%H1|Hd%H2]; congruence.
  - intros Hno line Hl. apply in_map_iff in Hl as (row & <- & Hrow%list_elem_of_In). cbv zeta. apply orb_true_iff. right. apply negb_true_iff, orb_false_iff.
    split; apply not_true_iff_false; intros Hc%row_word; try done; try (by apply Hr); apply Hno; exists row; auto.
Qed.

Section routes.
Context {C : Type} (Exec : string -> C -> result Response * C).

Definition bird_error (what name : string) (resp : Response) : error :=
  Errorf ("BIRD error " +:+ what +:+ " " +:+ name +:+ " (" +:+ Itoa (Code resp) +:+ "): " +:+ RawText resp).

(** The loop of [withdrawRoutesLocked]: every protocol is tried. *)
Fixpoint disable_all (names : list string) (c : C) : list error * C :=
  match names with
  | [] => ([], c)
  | name :: names =>
    let '(r, c1) := Exec ("disable " +:+ name) c in
    let '(errs, c2) := disable_all names c1 in
    match r with
    | Err e => (Wrapf ("disable protocol " +:+ name) e :: errs, c2)
    | Ok resp => (if IsError resp then bird_error "disabling" name resp :: errs else errs, c2)
    end
  end.
Definition withdrawRoutesLocked (rm : RouteManager) (c : C) : option error * C :=
  let '(errs, c') := disable_all (protocolNames rm) c in
  (match errs with [] => None | _ => Some (JoinErrs errs) end, c').

(** The loop of [AnnounceRoutesChanged]: it stops at the first failure. *)
Fixpoint enable_all (names : list string) (c : C) : option error * C :=
  match names with
  | [] => (None, c)
  | name :: names =>
    let '(r, c1) := Exec ("enable " +:+ name) c in
    match r with
    | Err e => (Some (Wrapf ("enable protocol " +:+ name) e), c1)
    | Ok resp => if IsError resp then (Some (bird_error "enabling" name resp), c1) else enable_all names c1
    end
  end.

Definition rollbackAnnounceFailure (now : Time) (cause : error) (rm : RouteManager) (c : C) : error * RouteManager * C :=
  let '(err, c') := withdrawRoutesLocked rm c in
  match err with
  | Some e => (JoinErrs [cause; Wrapf "rollback partial announce" e],
               mkRM (protocolNames rm) false true (lastChange rm), c')
  | None => (cause, mkRM (protocolNames rm) false false now, c')
  end.

Definition AnnounceRoutesChanged (now : Time) (rm : RouteManager) (c : C) : result bool * RouteManager * C :=
  if announced rm then (Ok false, rm, c)
  else
    let '(err, c1) := enable_all (protocolNames rm) c in
    match err with
    | Some cause => let '(e, rm', c2) := rollbackAnnounceFailure now cause rm c1 in (Err e, rm', c2)
    | None => (Ok true, mkRM (protocolNames rm) true false now, c1)
    end.

Definition WithdrawRoutesChanged (now : Time) (rm : RouteManager) (c : C) : result bool * RouteManager * C :=
  if negb (announced rm) && negb (needsWithdraw rm) then (Ok false, rm, c)
  else
    let '(err, c') := withdrawRoutesLocked rm c in
    match err with
    | Some e => (Err e, mkRM (protocolNames rm) false true (lastChange rm), c')
    | None => (Ok true, mkRM (protocolNames rm) false false now, c')
    end.

Definition ForceWithdrawRoutes (now : Time) (rm : RouteManager) (c : C) : result unit * RouteManager * C :=
  let '(err, c') := withdrawRoutesLocked rm c in
  match err with
  | Some e => (Err e, mkRM (protocolNames rm) false true (lastChange rm), c')
  | None => (Ok tt, mkRM (protocolNames rm) false false now, c')
  end.

(** The query loop of [Reconcile]: (allEnabled, anyEnabled). *)
Fixpoint query_all (names : list string) (allEnabled anyEnabled : bool) (c : C) : result (bool * bool) * C :=
  match names with
  | [] => (Ok (allEnabled, anyEnabled), c)
  | name :: names =>
    let '(r, c1) := Exec ("show protocols " +:+ name) c in
    match r with
    | Err e => (Err (Wrapf ("reconcile: show protocols " +:+ name) e), c1)
    | Ok resp =>
      if IsError resp then (Err (Errorf ("reconcile: BIRD error " +:+ Itoa (Code resp) +:+ ": " +:+ RawText resp)), c1)
      else if protocolEnabledFromShowProtocols (RawText resp) then query_all names allEnabled true c1
      else query_all names false anyEnabled c1
    end
  end.

Definition Reconcile (rm : RouteManager) (c : C) : result unit * RouteManager * C :=
  match protocolNames rm with
  | [] => (Err (Errorf "reconcile: no protocols configured"), rm, c)
  | names =>
    let '(r, c') := query_all names true false c in
    match r with
    | Err e => (Err e, rm, c')
    | Ok (allEnabled, anyEnabled) =>
      (Ok tt, mkRM (protocolNames rm) allEnabled (anyEnabled && negb allEnabled) (lastChange rm), c')
    end
  end.

(** [GetStatus]: the status text of every protocol, or the first failure. *)
Fixpoint status_texts (names : list string) (c : C) : result (list string) * C :=
  match names with
  | [] => (Ok [], c)
  | name :: names =>
    let '(r, c1) := Exec ("show protocols " +:+ name) c in
    match r with
    | Err e => (Err (Wrapf ("show protocols " +:+ name) e), c1)
    | Ok resp =>
      if IsError resp then (Err (Errorf ("BIRD error " +:+ name +:+ " (" +:+ Itoa (Code resp) +:+ "): " +:+ RawText resp)), c1)
      else let '(rest, c2) := status_texts names c1 in (let* out := rest in Ok (RawText resp :: out), c2)
    end
  end.
Definition GetStatus (rm : RouteManager) (c : C) : result string * C :=
  let '(r, c') := status_texts (protocolNames rm) c in (let* out := r in Ok (str_join out (str1 newline)), c').

(** ** The control loop *)
Context (config : StateMachineConfig).
Record ControlLoop := mkLoop { stateMachine : StateMachine; routeManager : RouteManager; daemon : C }.

(** The clock readings of one iteration: when the signal is processed, when the
    route change is recorded by the manager and by the machine. *)
Record Tick := mkTick { t_signal : Time; t_route : Time; t_mark : Time }.

Definition processSignal (t : Tick) (signal : HealthSignal) (cl : ControlLoop) : ControlLoop :=
  let '(shouldAnnounce, shouldWithdraw, sm1) := ProcessSignal config (t_signal t) signal (stateMachine cl) in
  let '(sm2, rm2, c2) :=
    if shouldAnnounce then
      let '(r, rm', c') := AnnounceRoutesChanged (t_route t) (routeManager cl) (daemon cl) in
      (match r with Ok true => MarkRouteChanged (t_mark t) sm1 | _ => sm1 end, rm', c')
    else (sm1, routeManager cl, daemon cl) in
  let '(sm3, rm3, c3) :=
    if shouldWithdraw then
      let '(r, rm', c') := WithdrawRoutesChanged (t_route t) rm2 c2 in
      (match r with Ok true => MarkRouteChanged (t_mark t) sm2 | _ => sm2 end, rm', c')
    else (sm2, rm2, c2) in
  mkLoop sm3 rm3 c3.

Definition shutdown (now : Time) (cl : ControlLoop) : ControlLoop :=
  let '(_, rm', c') := WithdrawRoutesChanged now (routeManager cl) (daemon cl) in
  mkLoop (stateMachine cl) rm' c'.

(** The signals received until the context is cancelled or the channel closed;
    both ends run [shutdown]. *)
Definition Run (signals : list (Tick * HealthSignal)) (stop : Time) (cl : ControlLoop) : ControlLoop :=
  shutdown stop (foldl (fun cl s => processSignal (fst s) (snd s) cl) cl signals).

(** ** The daemon

    What the repository relies on: [enable] and [disable], when not refused, do what
    they say to the named protocol and nothing to others, and [show protocols]
    changes nothing and prints a table of words that has the word [Disabled] or
    [disabled] exactly when the protocol is disabled. *)
Class BirdDaemon := {
  enabled : C -> string -> Prop;
  enable_law : forall c n r c', Exec ("enable " +:+ n) c = (Ok r, c') -> IsError r = false -> enabled c' n;
  disable_law : forall c n r c', Exec ("disable " +:+ n) c = (Ok r, c') -> IsError r = false -> ~ enabled c' n;
  frame_law : forall c n n' r c', Exec ("enable " +:+ n) c = (r, c') \/ Exec ("disable " +:+ n) c = (r, c') ->
    n' <> n -> enabled c' n' <-> enabled c n';
  show_law : forall c n r c', Exec ("show protocols " +:+ n) c = (r, c') ->
    (forall n', enabled c' n' <-> enabled c n')
    /\ (forall resp, r = Ok resp -> IsError resp = false ->
          exists rows, RawText resp = table_text rows /\ printed rows /\ (enabled c n <-> ~ says_disabled rows))
}.
Context `{BirdDaemon}.

(** What the cached flags claim about the daemon. *)
Definition truthful (rm : RouteManager) (c : C) : Prop :=
  (announced rm = true -> Forall (enabled c) (protocolNames rm))
  /\ (announced rm = false -> needsWithdraw rm = false -> Forall (fun n => ~ enabled c n) (protocolNames rm)).

Lemma disable_all_effect names : forall c c', disable_all names c = ([], c') ->
  forall n, n ∈ names \/ ~ enabled c n -> ~ enabled c' n.
Proof.
  induction names as [|x names IH]; intros c c' E n Hn; cbn [disable_all] in E.
  { injection E as <-. destruct Hn as [Hn|?]; [by apply elem_of_nil in Hn|done]. }
  destruct (Exec ("disable " +:+ x) c) as [r c1] eqn:Ex, (disable_all names c1) as [errs c2] eqn:Ed.
  destruct r as [resp|e]; [|discriminate]. destruct (IsError resp) eqn:Ee; [discriminate|]. injection E as -> ->.
  eapply IH; [exact Ed|]. destruct (decide (n = x)) as [->|Hne]; [right; by eapply disable_law|].
  destruct Hn as [Hn|Hn]; [apply elem_of_cons in Hn as [?|?]; [done|by left]|].
  right. by rewrite (frame_law _ _ _ _ _ (or_intror Ex) Hne).
Qed.

Lemma enable_all_effect names : forall c c', enable_all names c = (None, c') ->
  forall n, n ∈ names \/ enabled c n -> enabled c' n.
Proof.
  induction names as [|x names IH]; intros c c' E n Hn; cbn [enable_all] in E.
  { injection E as <-. destruct Hn as [Hn|?]; [by apply elem_of_nil in Hn|done]. }
  destruct (Exec ("enable " +:+ x) c) as [r c1] eqn:Ex. destruct r as [resp|e]; [|discriminate].
  destruct (IsError resp) eqn:Ee; [discriminate|]. eapply IH; [exact E|].
  destruct (decide (n = x)) as [->|Hne]; [right; by eapply enable_law|].
  destruct Hn as [Hn|Hn]; [apply elem_of_cons in Hn as [?|?]; [done|by left]|].
  right. by rewrite (frame_law _ _ _ _ _ (or_introl Ex) Hne).
Qed.

Lemma query_all_effect names : forall c c' a0 y0 a y, query_all names a0 y0 c = (Ok (a, y), c') ->
  (forall n, enabled c' n <-> enabled c n)
  /\ (a = true <-> a0 = true /\ Forall (enabled c) names)
  /\ (y = false <-> y0 = false /\ Forall (fun n => ~ enabled c n) names).
Proof.
  induction names as [|x names IH]; intros c c' a0 y0 a y E; cbn [query_all] in E.
  { injection E as <- <- <-. split_and!; [done|..]; (split; [intros ->; by split|by intros [-> _]]). }
  destruct (Exec ("show protocols " +:+ x) c) as [r c1] eqn:Ex. destruct (show_law _ _ _ _ Ex) as [Hsame Hshow].
  destruct r as [resp|e]; [|discriminate]. destruct (IsError resp) eqn:Ee; [discriminate|].
  destruct (Hshow resp eq_refl Ee) as (rows & Hraw & Hpr & Hen). apply show_parsed in Hpr. rewrite <- Hraw, <- Hen in Hpr. clear Hshow. rename Hpr into Hshow. rewrite !Forall_cons.
  assert (Forall (enabled c1) names <-> Forall (enabled c) names) as F1 by (by apply Forall_iff).
  assert (Forall (fun n => ~ enabled c1 n) names <-> Forall (fun n => ~ enabled c n) names) as F2
    by (apply Forall_iff; intros n; by rewrite Hsame).
  destruct (protocolEnabledFromShowProtocols (RawText resp)); destruct (IH _ _ _ _ _ _ E) as (H1 & H2 & H3);
    rewrite F1 in H2; rewrite F2 in H3; (split; [intros n; by rewrite H1|]).
  - assert (enabled c x) as Hx by (by apply Hshow). split; [tauto|]. intuition discriminate.
  - assert (~ enabled c x) as Hx by (intros Hx%Hshow; done). split; [|tauto]. intuition discriminate.
Qed.

Lemma withdraw_effect rm c err c' : withdrawRoutesLocked rm c = (err, c') -> err = None ->
  Forall (fun n => ~ enabled c' n) (protocolNames rm).
Proof.
  unfold withdrawRoutesLocked. destruct (disable_all (protocolNames rm) c) as [[|e errs] c1] eqn:E; [|by intros [= <- <-]].
  intros [= _ <-] _. apply Forall_forall. intros n Hn. eapply disable_all_effect; [exact E|by left].
Qed.

Lemma withdraw_truthful now rm c r rm' c' : truthful rm c -> WithdrawRoutesChanged now rm c = (r, rm', c') ->
  truthful rm' c' /\ announced rm' = false /\ protocolNames rm' = protocolNames rm
  /\ (is_ok r = negb (needsWithdraw rm')).
Proof.
  intros Ht E. unfold WithdrawRoutesChanged in E. destruct (negb (announced rm) && negb (needsWithdraw rm)) eqn:Eb.
  { injection E as <- <- <-. bool_prop. split_and!; [done..|]. by rewrite H1. }
  destruct (withdrawRoutesLocked rm c) as [err c1] eqn:Ew. destruct err as [e|]; injection E as <- <- <-; simpl.
  - by repeat split.
  - split_and!; [|done..]. split; [done|]. intros _ _. by eapply withdraw_effect.
Qed.

Lemma announce_truthful now rm c r rm' c' : truthful rm c -> AnnounceRoutesChanged now rm c = (r, rm', c') ->
  truthful rm' c' /\ protocolNames rm' = protocolNames rm /\ (announced rm' = is_ok r).
Proof.
  intros Ht E. unfold AnnounceRoutesChanged in E. destruct (announced rm) eqn:Ea.
  { injection E as <- <- <-. by split_and!. }
  destruct (enable_all (protocolNames rm) c) as [[cause|] c1] eqn:Ee.
  - unfold rollbackAnnounceFailure in E. destruct (withdrawRoutesLocked rm c1) as [[e|] c2] eqn:Ew;
      injection E as <- <- <-; simpl; [by repeat split|].
    split_and!; [|done..]. split; [done|]. intros _ _. by eapply withdraw_effect.
  - injection E as <- <- <-. simpl. split_and!; [|done..]. split; [|done]. intros _.
    apply Forall_forall. intros n Hn. eapply enable_all_effect; [exact Ee|by left].
Qed.

Lemma force_truthful now rm c r rm' c' : ForceWithdrawRoutes now rm c = (r, rm', c') ->
  truthful rm' c' /\ protocolNames rm' = protocolNames rm.
Proof.
  unfold ForceWithdrawRoutes. destruct (withdrawRoutesLocked rm c) as [[e|] c1] eqn:Ew; intros [= <- <- <-]; simpl;
    [by repeat split|]. split; [|done]. split; [done|]. intros _ _. by eapply withdraw_effect.
Qed.

(** [Reconcile] trusts the status output; the status of the daemon is unchanged
    by a failed query. *)
Lemma query_all_frame names : forall c a0 y0 r c', query_all names a0 y0 c = (r, c') ->
  forall n, enabled c' n <-> enabled c n.
Proof.
  induction names as [|x names IH]; intros c a0 y0 r c' E n; cbn [query_all] in E; [by injection E as _ <-|].
  destruct (Exec ("show protocols " +:+ x) c) as [r1 c1] eqn:Ex. destruct (show_law _ _ _ _ Ex) as [Hsame _].
  rewrite <- Hsame. destruct r1 as [resp|e]; [|by injection E as _ <-].
  destruct (IsError resp); [by injection E as _ <-|].
  destruct (protocolEnabledFromShowProtocols _); by eapply IH.
Qed.

Lemma reconcile_truthful rm c r rm' c' : truthful rm c -> Reconcile rm c = (r, rm', c') ->
  truthful rm' c' /\ protocolNames rm' = protocolNames rm.
Proof.
  intros Ht E. unfold Reconcile in E. destruct (protocolNames rm) as [|x names] eqn:En; [by injection E as _ <- <-|].
  destruct (query_all (x :: names) true false c) as [r1 c1] eqn:Eq.
  destruct r1 as [[a y]|e]; injection E as _ <- <-.
  - destruct (query_all_effect _ _ _ _ _ _ _ Eq) as (H1 & H2 & H3). split; [|done]. unfold truthful. simpl.
    split.
    + intros ->. eapply Forall_impl; [apply H2; done|]. intros n Hn. by apply H1.
    + intros -> Hy. rewrite andb_true_r in Hy. subst y. eapply Forall_impl; [apply H3; done|].
      intros n Hn. by rewrite H1.
  - pose proof (query_all_frame _ _ _ _ _ _ Eq) as Hf. split; [|done]. destruct Ht as [Ha Hb]. rewrite En in *.
    split; rewrite En; intros; (eapply Forall_impl; [by eauto|]); intros n Hn; by rewrite Hf.
Qed.

Lemma processSignal_truthful t signal cl : truthful (routeManager cl) (daemon cl) ->
  truthful (routeManager (processSignal t signal cl)) (daemon (processSignal t signal cl))
  /\ protocolNames (routeManager (processSignal t signal cl)) = protocolNames (routeManager cl).
Proof.
  intros Ht. unfold processSignal. destruct (ProcessSignal _ _ _ _) as [[a w] sm1].
  assert (exists sm2 rm2 c2, (if a then
      let '(r, rm', c') := AnnounceRoutesChanged (t_route t) (routeManager cl) (daemon cl) in
      (match r with Ok true => MarkRouteChanged (t_mark t) sm1 | _ => sm1 end, rm', c')
      else (sm1, routeManager cl, daemon cl)) = (sm2, rm2, c2) /\ truthful rm2 c2
      /\ protocolNames rm2 = protocolNames (routeManager cl)) as (sm2 & rm2 & c2 & -> & Ht2 & Hn2).
  { destruct a; [|by do 3 eexists].
    destruct (AnnounceRoutesChanged _ _ _) as [[r rm'] c'] eqn:E. destruct (announce_truthful _ _ _ _ _ _ Ht E) as (? & ? & _).
    by do 3 eexists. }
  destruct w; [|done]. destruct (WithdrawRoutesChanged _ _ _) as [[r rm'] c'] eqn:E.
  destruct (withdraw_truthful _ _ _ _ _ _ Ht2 E) as (? & _ & ? & _). simpl. split; [done|congruence].
Qed.
End routes.

(** ** Properties *)
Inductive route_op :=
  | OpAnnounce (now : Time) | OpWithdraw (now : Time) | OpForceWithdraw (now : Time) | OpReconcile.

Definition run_op {C} (Exec : string -> C -> result Response * C) (op : route_op) (st : RouteManager * C)
  : RouteManager * C :=
  match op with
  | OpAnnounce t => let '(_, rm, c) := AnnounceRoutesChanged Exec t (fst st) (snd st) in (rm, c)
  | OpWithdraw t => let '(_, rm, c) := WithdrawRoutesChanged Exec t (fst st) (snd st) in (rm, c)
  | OpForceWithdraw t => let '(_, rm, c) := ForceWithdrawRoutes Exec t (fst st) (snd st) in (rm, c)
  | OpReconcile => let '(_, rm, c) := Reconcile Exec (fst st) (snd st) in (rm, c)
  end.

Section properties.
Context {C : Type} (Exec : string -> C -> result Response * C) `{!BirdDaemon Exec}.


(** C36: The control loop never leaves routes behind silently: after any sequence
    of health signals, when the loop ends (cancelled or channel closed) the
    manager no longer believes the routes announced, and unless a withdrawal
    failed in BIRD (which leaves [needsWithdraw] set) every configured protocol
    is disabled. *)
Theorem loop_exit_withdraws (config : StateMachineConfig) (signals : list (Tick * HealthSignal)) (stop : Time)
    (cl : ControlLoop (C := C)) :
  truthful Exec (routeManager cl) (daemon cl) ->
  let cl' := Run Exec config signals stop cl in
  announced (routeManager cl') = false
  /\ (needsWithdraw (routeManager cl') = false ->
       Forall (fun n => ~ enabled Exec (daemon cl') n) (protocolNames (routeManager cl))).
Proof.
  intros Ht. unfold Run. set (mid := foldl _ cl signals).
  assert (truthful Exec (routeManager mid) (daemon mid)
    /\ protocolNames (routeManager mid) = protocolNames (routeManager cl)) as [Hm Hn].
  { unfold mid. clear mid. revert cl Ht. induction signals as [|s signals IH]; intros cl Ht; [done|]. simpl.
    destruct (processSignal_truthful Exec config (fst s) (snd s) cl Ht) as [Ht' Hn'].
    destruct (IH _ Ht') as [? Hn'']. split; [done|]. by rewrite Hn''. }
  unfold shutdown. destruct (WithdrawRoutesChanged _ _ _ _) as [[r rm'] c'] eqn:E. simpl.
  destruct (withdraw_truthful _ _ _ _ _ _ _ Hm E) as ([_ Hw] & Ha & Hn' & _). split; [done|].
  intros Hnw. rewrite <- Hn, <- Hn'. by apply Hw.
Qed.

(** C23: An unhealthy node stops attracting traffic: when a signal leaves the
    machine unhealthy or recovering outside the debounce window, the loop has
    withdrawn the routes (every protocol is disabled, or the failed withdrawal
    is remembered for a retry); and routes go from withdrawn to announced only
    on a signal that leaves the machine healthy or degraded. *)
Theorem routes_follow_health (config : StateMachineConfig) (t : Tick) (signal : HealthSignal)
    (cl cl' : ControlLoop (C := C)) :
  truthful Exec (routeManager cl) (daemon cl) -> cl' = processSignal Exec config t signal cl ->
  (~ up (sm_state (stateMachine cl')) ->
     IsZero (lastRouteChange (stateMachine cl)) = true
       \/ MinStateDuration config <= time_Sub (t_signal t) (lastRouteChange (stateMachine cl)) ->
     announced (routeManager cl') = false
     /\ (needsWithdraw (routeManager cl') = false ->
          Forall (fun n => ~ enabled Exec (daemon cl') n) (protocolNames (routeManager cl))))
  /\ (announced (routeManager cl) = false -> announced (routeManager cl') = true ->
       up (sm_state (stateMachine cl')) /\ HardFail signal = false).
Proof.
  intros Ht ->. unfold processSignal.
  destruct (ProcessSignal config (t_signal t) signal (stateMachine cl)) as [[a w] sm1] eqn:Ep.
  pose proof (ProcessSignal_decision config _ _ _ _ _ _ Ep) as (_ & Ha & Hw). cbv zeta in Ha, Hw.
  assert (forall (r : result bool) m, sm_state (match r with Ok true => MarkRouteChanged (t_mark t) m | _ => m end)
    = sm_state m) as Hmark by (by intros [[]|]).
  destruct a, w.
  - exfalso. by apply (proj1 Hw); [|apply Ha].
  - destruct (AnnounceRoutesChanged _ _ _ _) as [[r rm'] c'] eqn:E. simpl. rewrite Hmark.
    destruct (proj1 Ha eq_refl) as (Hup & Hf & _). split; [done|]. done.
  - destruct (WithdrawRoutesChanged _ _ _ _) as [[r rm'] c'] eqn:E. simpl. rewrite Hmark.
    destruct (withdraw_truthful _ _ _ _ _ _ _ Ht E) as ([_ Hd] & Hn & Hp & _). rewrite Hp in Hd.
    split; [|congruence]. intros _ _. auto.
  - simpl. split; [|congruence]. intros Hdown Hset. discriminate (proj2 Hw (conj Hdown Hset)).
Qed.
End properties.

(** ** A daemon for the witnesses

    It accepts every command and keeps the set of enabled protocols. *)
Definition reply (raw : string) : Response := mkResponse 1 [] raw.
Definition demo_table (c : gset string) (n : string) : list (list string) :=
  [["Name"; ""; ""; ""; ""; ""; "Proto"; ""; ""; ""; "State"; ""; "Info"]; ["anycast"; "BGP"; ""; "master"; if decide (n ∈ c) then "up" else "down"; ""; if decide (n ∈ c) then "Established" else "Disabled"; ""]].
Definition demo_exec (cmd : string) (c : gset string) : result Response * gset string :=
  match strip_prefix "enable " cmd, strip_prefix "disable " cmd, strip_prefix "show protocols " cmd with
  | Some n, _, _ => (Ok (reply ""), {[ n ]} ∪ c)
  | _, Some n, _ => (Ok (reply ""), c ∖ {[ n ]})
  | _, _, Some n => (Ok (reply (table_text (demo_table c n))), c)
  | _, _, _ => (Err (Errorf "unknown command"), c)
  end.

#[local] Instance demo_daemon : BirdDaemon demo_exec.
Proof.
  assert (forall n c, demo_exec ("enable " +:+ n) c = (Ok (reply ""), {[ n ]} ∪ c)) as He by done.
  assert (forall n c, demo_exec ("disable " +:+ n) c = (Ok (reply ""), c ∖ {[ n ]})) as Hd by done.
  refine {| enabled c n := n ∈ c |}.
  - intros c n r c'. rewrite He. intros [= <- <-] _. set_solver.
  - intros c n r c'. rewrite Hd. intros [= <- <-] _. set_solver.
  - intros c n n' r c'. rewrite He, Hd. intros [[= <- <-]|[= <- <-]] Hne; set_solver.
  - intros c n r c'. change (demo_exec ("show protocols " +:+ n) c) with (Ok (reply (table_text (demo_table c n))), c).
    intros [= <- <-]. split; [done|]. intros resp [= <-] _. exists (demo_table c n). split; [done|]. unfold demo_table, printed, says_disabled. destruct (decide (n ∈ c)) as [Hn|Hn].
    + split; [by repeat constructor|]. split; [|done]. intros _ (row & Hrow & Hw). apply elem_of_cons in Hrow as [->|Hrow%list_elem_of_singleton]; [|subst row]; destruct Hw as [Hw|Hw]; by repeat (apply elem_of_cons in Hw as [?|Hw]; [done|]); apply elem_of_nil in Hw.
    + split; [by repeat constructor|]. split; [done|]. intros []. eexists. split; [right; left|]. left. do 6 right. left.
Defined.

Definition demo_manager : RouteManager := mkRM ["anycast_1"; "anycast_2"] false true zeroTime.


Definition demo_loop : ControlLoop := mkLoop demo_new demo_manager (∅ : gset string).

Lemma loop_exit_withdraws_witness :
  announced (routeManager (Run demo_exec demo_config [(mkTick 1 1 1, snd (ok_at 1))] 9 demo_loop)) = false.
Proof. apply (loop_exit_withdraws demo_exec demo_config [(mkTick 1 1 1, snd (ok_at 1))] 9 demo_loop). done. Defined.

Lemma routes_follow_health_witness :
  up (sm_state (stateMachine (processSignal demo_exec demo_config (mkTick 1 1 1) (snd (ok_at 1)) demo_loop)))
  /\ HardFail (snd (ok_at 1)) = false.
Proof.
  apply (routes_follow_health demo_exec demo_config (mkTick 1 1 1) (snd (ok_at 1)) demo_loop
    (processSignal demo_exec demo_config (mkTick 1 1 1) (snd (ok_at 1)) demo_loop)); [done|reflexivity|reflexivity|vm_compute; reflexivity].
Defined.
