(* ===== verification/RateLimit.v ===== *)
(** * Per-client rate limiting (pkg/middleware/ratelimit.go)

    The table of client limiters with its cleanup and eviction.  The token
    bucket itself ([golang.org/x/time/rate]) is third-party code: its type,
    its constructor and [Allow] are parameters. *)

From S2P Require Import Prelude GoStrings GoStringsFacts.

Definition rateLimiterCleanupInterval : Duration := 5 * Minute.
Definition rateLimiterClientTTL : Duration := 10 * Minute.
Definition defaultRateLimiterMaxClients : Z := 10000.

Record RateLimiterConfig := mkRLConfig { ReadRPS : Z; WriteRPS : Z; Burst : Z; MaxClients : Z }.
Definition DefaultRateLimiterConfig : RateLimiterConfig := mkRLConfig 100 10 20 defaultRateLimiterMaxClients.

(** [oldestKey] and [oldestSeen] of the eviction scan. *)
Definition scan_step {A} (seen : A -> Time) (best : string * Time) (kv : string * A) : string * Time :=
  if (fst best =? "")%string || time_Before (seen (snd kv)) (snd best)
  then (fst kv, seen (snd kv)) else best.
Definition scan_oldest {A} (seen : A -> Time) (l : list (string * A)) : string * Time :=
  foldl (scan_step seen) ("", zeroTime) l.

Section limiter.
Context {L : Type} (newLimiter : Z -> Z -> L) (Allow : Time -> L -> bool * L).

Record clientLimiter := mkClient { readLimiter : L; writeLimiter : L; lastSeen : Time }.
Record RateLimiter := mkLimiter {
  config : RateLimiterConfig; clients : gmap string clientLimiter; lastCleanup : Time }.

Definition NewRateLimiter (cfg : RateLimiterConfig) (now : Time) : RateLimiter :=
  let cfg := if MaxClients cfg <=? 0
             then mkRLConfig (ReadRPS cfg) (WriteRPS cfg) (Burst cfg) defaultRateLimiterMaxClients else cfg in
  mkLimiter cfg ∅ now.

Definition stale (now : Time) (cl : clientLimiter) : bool := rateLimiterClientTTL <? time_Sub now (lastSeen cl).

Definition cleanupStaleClientsLocked (now : Time) (cs : gmap string clientLimiter) : gmap string clientLimiter :=
  filter (fun kv => stale now (snd kv) = false) cs.

(** The eviction loop; the map iteration visits the clients in some order.
    Every round removes a client, so as many rounds as clients are enough. *)
Fixpoint evict_loop (fuel : nat) (max : Z) (cs : gmap string clientLimiter) : gmap string clientLimiter :=
  match fuel with
  | O => cs
  | S fuel =>
    if (0 <? max) && (max <=? Z.of_nat (size cs)) then
      let '(oldestKey, _) := scan_oldest lastSeen (map_to_list cs) in
      if (oldestKey =? "")%string then cs else evict_loop fuel max (delete oldestKey cs)
    else cs
  end.
Definition evictClientsLocked (now : Time) (max : Z) (cs : gmap string clientLimiter) : gmap string clientLimiter :=
  let cs := cleanupStaleClientsLocked now cs in evict_loop (S (size cs)) max cs.

(** The table after the request of [clientKey] is registered; the limiter it
    returns is the client's read or write limiter. *)
Definition getLimiter (now : Time) (clientKey : string) (isWrite : bool) (rl : RateLimiter) : L * RateLimiter :=
  let '(cs1, cleanup1) :=
    if rateLimiterCleanupInterval <=? time_Sub now (lastCleanup rl)
    then (cleanupStaleClientsLocked now (clients rl), now) else (clients rl, lastCleanup rl) in
  let '(cl, cs2) :=
    match cs1 !! clientKey with
    | Some cl => (cl, cs1)
    | None =>
      (mkClient (newLimiter (ReadRPS (config rl)) (Burst (config rl)))
         (newLimiter (WriteRPS (config rl)) (Burst (config rl))) now,
       evictClientsLocked now (MaxClients (config rl)) cs1)
    end in
  let cl := mkClient (readLimiter cl) (writeLimiter cl) now in
  (if isWrite then writeLimiter cl else readLimiter cl,
   mkLimiter (config rl) (<[clientKey := cl]> cs2) cleanup1).

Definition rateLimitClientKey (clientIP principal : string) : string :=
  let principal := TrimSpace principal in
  if (principal =? "")%string then "ip:" +:+ clientIP
  else "principal:" +:+ principal +:+ "|ip:" +:+ clientIP.

Definition is_write_method (m : string) : bool :=
  (m =? "POST")%string || (m =? "PUT")%string || (m =? "DELETE")%string || (m =? "PATCH")%string.

Inductive outcome := Next | TooManyRequests.

(** One request: [tAllow] is the clock reading of [Allow]. *)
Definition Middleware (now tAllow : Time) (clientIP principal method : string) (rl : RateLimiter)
  : outcome * RateLimiter :=
  let clientKey := rateLimitClientKey clientIP principal in
  let isWrite := is_write_method method in
  let '(limiter, rl1) := getLimiter now clientKey isWrite rl in
  let '(ok, limiter') := Allow tAllow limiter in
  (* the limiter is shared with the table entry: the bucket is updated there *)
  let upd cl := if isWrite then mkClient (readLimiter cl) limiter' (lastSeen cl)
                else mkClient limiter' (writeLimiter cl) (lastSeen cl) in
  (if ok then Next else TooManyRequests, mkLimiter (config rl1) (alter upd clientKey (clients rl1)) (lastCleanup rl1)).

(** ** The eviction scan finds a least recently seen client *)
Lemma scan_oldest_spec (l : list (string * clientLimiter)) :
  l <> [] -> Forall (fun kv => fst kv <> "") l ->
  exists cl, (fst (scan_oldest lastSeen l), cl) ∈ l /\ snd (scan_oldest lastSeen l) = lastSeen cl
    /\ Forall (fun kv => lastSeen cl <= lastSeen (snd kv)) l.
Proof.
  unfold scan_oldest. induction l as [|kv l IH] using rev_ind; intros Hne Hk; [done|]. clear Hne.
  apply Forall_app in Hk as [Hk Hkv%Forall_cons_1]. destruct Hkv as [Hkv _]. rewrite foldl_app. cbn [foldl].
  destruct l as [|kv0 l0].
  { simpl. unfold scan_step. simpl. exists (snd kv). destruct kv. split_and!; [by left|done|]. repeat constructor. simpl; lia. }
  destruct IH as (cl & Hin & Hseen & Hmin); [done|done|]. set (best := foldl _ _ (kv0 :: l0)) in *.
  assert (fst best <> "") as Hb.
  { rewrite Forall_forall in Hk. apply (Hk _ Hin). }
  unfold scan_step, time_Before. rewrite (proj2 (String.eqb_neq _ _) Hb). simpl orb.
  destruct (Z.ltb_spec (lastSeen (snd kv)) (snd best)) as [Hlt|Hge]; cbn [fst snd].
  - exists (snd kv). split_and!; [|done|].
    + apply elem_of_app. right. destruct kv. by left.
    + apply Forall_app. split; [|repeat constructor; lia]. eapply Forall_impl; [exact Hmin|]. simpl. intros. lia.
  - exists cl. split_and!; [|done|].
    + apply elem_of_app. by left.
    + apply Forall_app. split; [done|]. repeat constructor. lia.
Qed.

Definition keys_ok (cs : gmap string clientLimiter) : Prop := cs !! "" = None.

Lemma evict_loop_spec fuel max cs : keys_ok cs -> 0 < max -> (size cs < fuel)%nat ->
  let cs' := evict_loop fuel max cs in
  cs' ⊆ cs /\ Z.of_nat (size cs') < max
  /\ (forall k k' cl cl', cs !! k = Some cl -> cs' !! k = None -> cs' !! k' = Some cl' -> lastSeen cl <= lastSeen cl').
Proof.
  intros Hk Hm. revert cs Hk. induction fuel as [|fuel IH]; intros cs Hk Hf; [lia|]. cbn [evict_loop].
  rewrite (proj2 (Z.ltb_lt 0 max)) by done. simpl andb. destruct (Z.leb_spec max (Z.of_nat (size cs))) as [Hge|Hlt].
  2: { cbv zeta. split_and!; [done|lia|]. congruence. }
  destruct (scan_oldest_spec (map_to_list cs)) as (cl0 & Hin & _ & Hmin).
  { intros E. apply map_to_list_empty_iff in E. subst. rewrite map_size_empty in Hge. lia. }
  { apply Forall_forall. intros [k cl] Hkv%elem_of_map_to_list. simpl. intros ->. unfold keys_ok in Hk. congruence. }
  destruct (scan_oldest lastSeen (map_to_list cs)) as [key t]. simpl in Hin. apply elem_of_map_to_list in Hin.
  assert (key <> "") as Hne by (intros ->; unfold keys_ok in Hk; congruence).
  rewrite (proj2 (String.eqb_neq _ _) Hne).
  assert (size (delete key cs) = pred (size cs)) as Hsz by (apply map_size_delete_Some; eauto).
  assert (size cs <> 0%nat) as Hnz.
  { intros E. apply map_size_empty_iff in E. subst cs. by rewrite lookup_empty in Hin. }
  destruct (IH (delete key cs)) as (Hsub & Hbound & Hlru).
  { unfold keys_ok. by rewrite lookup_delete_ne. }
  { lia. }
  cbv zeta in *. split_and!; [|done|].
  - etransitivity; [exact Hsub|]. apply delete_subseteq.
  - intros k k' cl cl' Hcl Hgone Hcl'. destruct (decide (k = key)) as [->|Hne'].
    + assert (cl = cl0) as -> by congruence. rewrite Forall_forall in Hmin.
      assert (cs !! k' = Some cl') as Hin'.
      { eapply lookup_weaken; [exact Hcl'|]. etransitivity; [exact Hsub|]. apply delete_subseteq. }
      apply (Hmin (k', cl')). by apply elem_of_map_to_list.
    + apply (Hlru k k'); [|done|done]. by rewrite lookup_delete_ne.
Qed.

Record limiter_inv (rl : RateLimiter) : Prop := {
  inv_max : 0 < MaxClients (config rl);
  inv_keys : keys_ok (clients rl);
  inv_size : Z.of_nat (size (clients rl)) <= MaxClients (config rl) }.

Lemma cleanup_sub now cs : cleanupStaleClientsLocked now cs ⊆ cs.
Proof. apply map_filter_subseteq. Qed.
Lemma keys_ok_sub cs cs' : cs' ⊆ cs -> keys_ok cs -> keys_ok cs'.
Proof. intros Hsub Hk. unfold keys_ok in *. by eapply lookup_weaken_None. Qed.
Lemma cleanup_lost now cs k cl : cs !! k = Some cl -> cleanupStaleClientsLocked now cs !! k = None -> stale now cl = true.
Proof.
  intros Hk Hn. destruct (stale now cl) eqn:E; [done|]. exfalso.
  unfold cleanupStaleClientsLocked in Hn. rewrite map_lookup_filter_None in Hn.
  destruct Hn as [Hn|Hn]; [congruence|]. by apply (Hn cl Hk).
Qed.

(** The state of the table right before the client is (re)inserted. *)
Lemma evict_spec now max cs : keys_ok cs -> 0 < max ->
  let cs' := evictClientsLocked now max cs in
  cs' ⊆ cs /\ Z.of_nat (size cs') < max
  /\ (forall k cl, cs !! k = Some cl -> cs' !! k = None ->
        stale now cl = true \/ forall k' cl', cs' !! k' = Some cl' -> lastSeen cl <= lastSeen cl').
Proof.
  intros Hk Hm. unfold evictClientsLocked. set (c1 := cleanupStaleClientsLocked now cs).
  assert (keys_ok c1) as Hk1 by (eapply keys_ok_sub; [apply cleanup_sub|done]).
  destruct (evict_loop_spec (S (size c1)) max c1 Hk1 Hm ltac:(lia)) as (Hsub & Hsz & Hlru). cbv zeta in *.
  split_and!; [etransitivity; [exact Hsub|apply cleanup_sub]|done|].
  intros k cl Hcl Hgone. destruct (c1 !! k) as [cl1|] eqn:E1.
  - right. assert (cl1 = cl) as -> by (pose proof (lookup_weaken _ _ _ _ E1 (cleanup_sub now cs)); congruence).
    intros k' cl' Hcl'. by eapply Hlru.
  - left. by eapply cleanup_lost.
Qed.

Lemma getLimiter_spec now key w rl : limiter_inv rl -> key <> "" ->
  let rl' := snd (getLimiter now key w rl) in
  limiter_inv rl' /\ config rl' = config rl
  /\ (exists cl, clients rl' !! key = Some cl /\ lastSeen cl = now)
  /\ (forall k cl', k <> key -> clients rl' !! k = Some cl' -> clients rl !! k = Some cl')
  /\ (forall k cl, k <> key -> clients rl !! k = Some cl -> clients rl' !! k = None ->
        stale now cl = true \/
        forall k' cl', k' <> key -> clients rl' !! k' = Some cl' -> lastSeen cl <= lastSeen cl').
Proof.
  intros [Hm Hk Hs] Hne. unfold getLimiter.
  assert (exists cs1 t1, (if rateLimiterCleanupInterval <=? time_Sub now (lastCleanup rl)
    then (cleanupStaleClientsLocked now (clients rl), now) else (clients rl, lastCleanup rl)) = (cs1, t1)
    /\ cs1 ⊆ clients rl /\ (forall k cl, clients rl !! k = Some cl -> cs1 !! k = None -> stale now cl = true))
    as (cs1 & t1 & -> & Hsub & Hlost).
  { destruct (_ <=? _); do 2 eexists; (split; [done|]); (split; [done || apply cleanup_sub|]).
    - intros k cl. apply cleanup_lost.
    - congruence. }
  assert (keys_ok cs1) as Hk1 by (by eapply keys_ok_sub).
  assert (Z.of_nat (size cs1) <= MaxClients (config rl)) as Hs1.
  { pose proof (map_subseteq_size _ _ Hsub). lia. }
  destruct (cs1 !! key) as [cl0|] eqn:E.
  - cbn [snd clients config]. split_and!; [split; [done| |]|done| | |].
    + unfold keys_ok. simpl. by rewrite lookup_insert_ne.
    + simpl. rewrite map_size_insert_Some; eauto.
    + eexists. split; [apply lookup_insert_eq|done].
    + intros k cl' Hn. rewrite lookup_insert_ne by done. intros Hl. by eapply lookup_weaken.
    + intros k cl Hn Hcl. rewrite lookup_insert_ne by done. intros Hg. left. eauto.
  - destruct (evict_spec now (MaxClients (config rl)) cs1 Hk1 Hm) as (Hsub2 & Hs2 & Hlru). cbv zeta in *.
    set (cs2 := evictClientsLocked now (MaxClients (config rl)) cs1) in *.
    cbn [snd clients config]. split_and!; [split; [done| |]|done| | |].
    + unfold keys_ok. simpl. rewrite lookup_insert_ne by done. by eapply (keys_ok_sub cs1).
    + simpl. rewrite map_size_insert_None; [lia|]. by eapply lookup_weaken_None.
    + eexists. split; [apply lookup_insert_eq|done].
    + intros k cl' Hn. rewrite lookup_insert_ne by done. intros Hl.
      eapply lookup_weaken; [|exact Hsub]. by eapply lookup_weaken.
    + intros k cl Hn Hcl. rewrite lookup_insert_ne by done. intros Hg.
      destruct (cs1 !! k) as [cl1|] eqn:E1; [|left; eauto].
      assert (cl1 = cl) as -> by (pose proof (lookup_weaken _ _ _ _ E1 Hsub); congruence).
      destruct (Hlru k cl E1 Hg) as [?|Hl]; [by left|right].
      intros k' cl' Hk'. rewrite lookup_insert_ne by done. apply Hl.
Qed.

Lemma rateLimitClientKey_nonempty ip p : rateLimitClientKey ip p <> "".
Proof. unfold rateLimitClientKey. destruct (_ =? _)%string; discriminate. Qed.

Lemma Middleware_table now ta ip p m rl :
  let rl1 := snd (getLimiter now (rateLimitClientKey ip p) (is_write_method m) rl) in
  let rl' := snd (Middleware now ta ip p m rl) in
  config rl' = config rl1 /\ size (clients rl') = size (clients rl1)
  /\ (forall k, k <> rateLimitClientKey ip p -> clients rl' !! k = clients rl1 !! k)
  /\ fmap lastSeen (clients rl') = fmap lastSeen (clients rl1).
Proof.
  unfold Middleware. destruct (getLimiter _ _ _ _) as [l rl1]. destruct (Allow ta l) as [ok l']. simpl.
  split_and!; [done| | |].
  - rewrite <- !size_dom. by rewrite dom_alter_L.
  - intros k Hk. by rewrite lookup_alter_ne.
  - apply map_eq. intros k. rewrite !lookup_fmap. destruct (decide (k = rateLimitClientKey ip p)) as [->|Hne].
    + rewrite lookup_alter_eq. destruct (clients rl1 !! _); simpl; [|done]. by destruct (is_write_method m).
    + by rewrite lookup_alter_ne.
Qed.

Lemma Middleware_inv now ta ip p m rl : limiter_inv rl -> limiter_inv (snd (Middleware now ta ip p m rl)).
Proof.
  intros Hi. destruct (Middleware_table now ta ip p m rl) as (Ec & Es & El & _). cbv zeta in *.
  destruct (getLimiter_spec now _ (is_write_method m) rl Hi (rateLimitClientKey_nonempty ip p)) as ([H1 H2 H3] & _).
  split; rewrite ?Ec, ?Es; [done| |done]. unfold keys_ok in *. rewrite El; [done|].
  intros E. by apply (rateLimitClientKey_nonempty ip p).
Qed.

Record http_request := mkReq { req_now : Time; req_allow : Time; req_ip : string; req_principal : string; req_method : string }.
Definition serve (rl : RateLimiter) (q : http_request) : RateLimiter :=
  snd (Middleware (req_now q) (req_allow q) (req_ip q) (req_principal q) (req_method q) rl).

(** C35: The table of clients stays bounded: after any sequence of requests, from
    any mix of clients and at any times, a new rate limiter never retains more
    than [MaxClients] clients (10000 when the configured bound is not positive),
    and the client just served is always among them. *)
Theorem limiter_clients_bounded (cfg : RateLimiterConfig) (t0 : Time) (qs : list http_request) (q : http_request) :
  let max := if MaxClients cfg <=? 0 then defaultRateLimiterMaxClients else MaxClients cfg in
  let rl := foldl serve (NewRateLimiter cfg t0) (qs ++ [q]) in
  Z.of_nat (size (clients rl)) <= max
  /\ exists cl, clients rl !! rateLimitClientKey (req_ip q) (req_principal q) = Some cl /\ lastSeen cl = req_now q.
Proof.
  intros max. rewrite foldl_app. cbn [foldl]. set (rl0 := foldl serve (NewRateLimiter cfg t0) qs).
  assert (limiter_inv rl0 /\ MaxClients (config rl0) = max) as [Hi Hmax].
  { unfold rl0. assert (limiter_inv (NewRateLimiter cfg t0) /\ MaxClients (config (NewRateLimiter cfg t0)) = max) as Hnew.
    { unfold NewRateLimiter, max, defaultRateLimiterMaxClients. destruct (Z.leb_spec (MaxClients cfg) 0); simpl;
        (split; [|done]); split; simpl; rewrite ?map_size_empty; try done; try lia. }
    revert Hnew. generalize (NewRateLimiter cfg t0). induction qs as [|q' qs IH]; intros rl [Hi Hm]; [done|].
    simpl. apply IH. split; [by apply Middleware_inv|]. unfold serve.
    destruct (Middleware_table (req_now q') (req_allow q') (req_ip q') (req_principal q') (req_method q') rl) as (-> & _).
    destruct (getLimiter_spec (req_now q') _ (is_write_method (req_method q')) rl Hi
      (rateLimitClientKey_nonempty (req_ip q') (req_principal q'))) as (_ & -> & _). done. }
  pose proof (Middleware_inv (req_now q) (req_allow q) (req_ip q) (req_principal q) (req_method q) rl0 Hi) as Hi'.
  destruct (Middleware_table (req_now q) (req_allow q) (req_ip q) (req_principal q) (req_method q) rl0) as (Ec & Es & _ & Ef).
  destruct (getLimiter_spec (req_now q) _ (is_write_method (req_method q)) rl0 Hi
    (rateLimitClientKey_nonempty (req_ip q) (req_principal q))) as (_ & Ec1 & (cl & Hcl & Hseen) & _).
  cbv zeta in *. fold (serve rl0 q) in *. split.
  - destruct Hi' as [_ _ Hsz]. rewrite Ec, Ec1, Hmax in Hsz. done.
  - apply (f_equal (fun m => m !! rateLimitClientKey (req_ip q) (req_principal q))) in Ef.
    rewrite !lookup_fmap, Hcl in Ef. simpl in Ef. destruct (clients (serve rl0 q) !! _) as [cl'|]; [|discriminate].
    exists cl'. split; [done|]. injection Ef as ->. done.
Qed.

(** Clients are isolated: a request never changes the buckets of another
    client, and a client it evicts was either idle for more than ten minutes or
    not seen more recently than any other client that is kept. *)
Theorem limiter_isolation_lru (now ta : Time) (ip principal method : string) (rl : RateLimiter) :
  limiter_inv rl ->
  let me := rateLimitClientKey ip principal in
  let rl' := snd (Middleware now ta ip principal method rl) in
  (forall k cl', k <> me -> clients rl' !! k = Some cl' -> clients rl !! k = Some cl')
  /\ (forall k cl, k <> me -> clients rl !! k = Some cl -> clients rl' !! k = None ->
        stale now cl = true \/
        forall k' cl', k' <> me -> clients rl' !! k' = Some cl' -> lastSeen cl <= lastSeen cl').
Proof.
  intros Hi. destruct (Middleware_table now ta ip principal method rl) as (_ & _ & El & _).
  destruct (getLimiter_spec now _ (is_write_method method) rl Hi (rateLimitClientKey_nonempty ip principal))
    as (_ & _ & _ & Hsame & Hlru). cbv zeta in *. split.
  - intros k cl' Hk. rewrite El by done. by apply Hsame.
  - intros k cl Hk Hcl. rewrite El by done. intros Hg. destruct (Hlru k cl Hk Hcl Hg) as [?|Hl]; [by left|right].
    intros k' cl' Hk'. rewrite El by done. by apply Hl.
Qed.
End limiter.

(** A bucket that counts down, for the witness. *)
Definition demo_bucket (_ burst : Z) : Z := burst.
Definition demo_allow (_ : Time) (n : Z) : bool * Z := (0 <? n, n - 1).
Definition demo_request (t : Time) (ip : string) (rl : RateLimiter (L := Z)) : RateLimiter :=
  snd (Middleware demo_bucket demo_allow t t ip "" "GET" rl).
Definition demo_full : RateLimiter :=
  demo_request 6 "192.0.2.2" (demo_request 5 "192.0.2.1" (NewRateLimiter (mkRLConfig 1 1 2 2) 0)).

Lemma limiter_isolation_lru_witness :
  let first := mkClient 1 2 5 in
  clients demo_full !! "ip:192.0.2.1" = Some first
  /\ clients (demo_request 7 "192.0.2.3" demo_full) !! "ip:192.0.2.1" = None
  /\ (stale 7 first = true \/
      forall k cl, k <> "ip:192.0.2.3" -> clients (demo_request 7 "192.0.2.3" demo_full) !! k = Some cl ->
        lastSeen first <= lastSeen cl).
Proof.
  split; [vm_compute; done|]. split; [vm_compute; done|].
  refine (proj2 (limiter_isolation_lru demo_bucket demo_allow 7 7 "192.0.2.3" "" "GET" demo_full _) "ip:192.0.2.1" _ _ _ _).
  - split; vm_compute; done.
  - done.
  - vm_compute; done.
  - vm_compute; done.
Defined.
