(* ===== verification/Auth.v ===== *)
(** * API key authentication and authorization (pkg/middleware/auth.go) *)

From S2P Require Import Prelude GoStrings GoStringsFacts GoSort GoNet Sha256 Zone.

Record AuthConfig := mkAuthConfig {
  APIKeys : gmap string string;
  APIKeyRoles : gmap string string;
  HeaderName : string;
  AllowImplicitAdminRoles : bool }.

Definition AuthRoleAdmin : string := "admin".
Definition AuthRoleAgent : string := "agent".
Definition AuthPermissionManageZones : string := "zones:manage".
Definition AuthPermissionReadSyncArtifacts : string := "sync_artifacts:read".

Definition rolePermissionPolicy : gmap string (gset string) :=
  {[ AuthRoleAdmin := {[ AuthPermissionManageZones; AuthPermissionReadSyncArtifacts ]};
     AuthRoleAgent := {[ AuthPermissionReadSyncArtifacts ]} ]}.

Record apiKeyCredential := mkCred { cred_name : string; cred_role : string; cred_hash : list Z }.
Record Authenticator := mkAuth { auth_config : AuthConfig; credentials : list apiKeyCredential }.

(** What a handler chain answers. *)
Inductive answer := Proceed | Reject (code : ErrorCode) (message : string).

Section auth.
Context `{UnicodeTables}.

Definition normalizeConfiguredAPIKeys (apiKeys : gmap string string) : gmap string string :=
  if (size apiKeys =? 0)%nat then apiKeys else (fun hash => ToLower (TrimSpace hash)) <$> apiKeys.

(** The key names in the order the map iteration visits them. *)
Definition names_of (m : gmap string string) : list string := (map_to_list m).*1.

Definition implicit_admin (normalized : gmap string string) (name : string) : gmap string string :=
  if (TrimSpace (default "" (normalized !! name)) =? "")%string then <[name := AuthRoleAdmin]> normalized else normalized.

Definition normalizeConfiguredAPIKeyRoles (apiKeys apiKeyRoles : gmap string string) (allowImplicit : bool)
  : gmap string string :=
  if (size apiKeys =? 0)%nat then apiKeyRoles
  else
    let normalized := (fun role => ToLower (TrimSpace role)) <$> apiKeyRoles in
    if allowImplicit then foldl implicit_admin normalized (names_of apiKeys) else normalized.

Definition parseSHA256APIKeyHash (value : string) : option (list Z) :=
  match strip_prefix "sha256:" (ToLower (TrimSpace value)) with
  | None => None
  | Some hexPart =>
    if negb (len hexPart =? 64) then None
    else match hex_DecodeString hexPart with
         | Some decoded => if Z.of_nat (length decoded) =? 32 then Some decoded else None
         | None => None
         end
  end.

Definition credential_of (apiKeys apiKeyRoles : gmap string string) (name : string) : option apiKeyCredential :=
  match parseSHA256APIKeyHash (default "" (apiKeys !! name)) with
  | None => None
  | Some hash => Some (mkCred name (TrimSpace (default "" (apiKeyRoles !! name))) hash)
  end.
Definition buildAPIKeyCredentials (apiKeys apiKeyRoles : gmap string string) : list apiKeyCredential :=
  omap (credential_of apiKeys apiKeyRoles) (sort_Strings (names_of apiKeys)).

Definition NewAuthenticator (config : AuthConfig) : Authenticator :=
  let header := if (HeaderName config =? "")%string then "X-API-Key" else HeaderName config in
  let keys := normalizeConfiguredAPIKeys (APIKeys config) in
  let roles := normalizeConfiguredAPIKeyRoles keys (APIKeyRoles config) (AllowImplicitAdminRoles config) in
  mkAuth (mkAuthConfig keys roles header (AllowImplicitAdminRoles config)) (buildAPIKeyCredentials keys roles).

(** The comparison loop: every credential is compared, the first match names
    the principal. *)
Fixpoint compare_all (hash : list Z) (cs : list apiKeyCredential) (acc : string * string * bool) : string * string * bool :=
  match cs with
  | [] => acc
  | c :: cs =>
    let acc' := if bool_decide (hash = cred_hash c)
                then (if snd acc then acc else (cred_name c, cred_role c, true)) else acc in
    compare_all hash cs acc'
  end.

Definition authenticateAPIKey (a : Authenticator) (apiKey : string) : string * string * bool :=
  if (apiKey =? "")%string then ("", "", false)
  else compare_all (Sum256 apiKey) (credentials a) ("", "", false).

(** The authentication middleware: the answer and the principal and role it
    stores in the request context. *)
Definition AuthMiddleware (a : Authenticator) (header : string) : answer * option (string * string) :=
  let '(principal, role, authenticated) := authenticateAPIKey a header in
  if negb authenticated then
    (Reject ErrorCodeUnauthorized (if (header =? "")%string then "API key required" else "Invalid API key"), None)
  else (Proceed, Some (principal, role)).

Definition forbidden : answer := Reject ErrorCodeForbidden "API key role is not allowed for this endpoint".

Definition RequireRole (allowedRoles : list string) (auth_role : string) : answer :=
  let allowed := map (fun role => ToLower (TrimSpace role)) allowedRoles in
  let role := ToLower (TrimSpace auth_role) in
  if (role =? AuthRoleAdmin)%string then Proceed
  else if bool_decide (role ∈ allowed) then Proceed else forbidden.

Definition roleHasPermission (role permission : string) : bool :=
  match rolePermissionPolicy !! role with
  | None => false
  | Some permissions => bool_decide (permission ∈ permissions)
  end.

Definition required_permissions (ps : list string) : list string :=
  List.filter (fun p => negb (p =? "")%string) (map (fun p => ToLower (TrimSpace p)) ps).
Definition RequirePermission (requiredPermissions : list string) (auth_role : string) : answer :=
  let role := ToLower (TrimSpace auth_role) in
  if forallb (roleHasPermission role) (required_permissions requiredPermissions) then Proceed else forbidden.

(** A protected endpoint: authentication, then authorization. *)
Definition protected (a : Authenticator) (permissions : list string) (header : string) : answer :=
  match AuthMiddleware a header with
  | (Proceed, Some (_, role)) => RequirePermission permissions role
  | (r, _) => r
  end.

(** ** Lemmas *)
Lemma compare_all_spec hash cs : forall acc, snd acc = false ->
  match find (fun c => bool_decide (hash = cred_hash c)) cs with
  | Some c => compare_all hash cs acc = (cred_name c, cred_role c, true)
  | None => compare_all hash cs acc = acc
  end.
Proof.
  induction cs as [|c cs IH]; intros acc Hacc; [done|]. cbn [find compare_all].
  destruct (bool_decide (hash = cred_hash c)); [|by apply IH]. rewrite Hacc.
  assert (forall l p, compare_all hash l (p, true) = (p, true)) as Hkeep.
  { intros l p. induction l as [|x l IHl]; simpl; [done|]. destruct (bool_decide _); apply IHl. }
  apply Hkeep.
Qed.

(** The key a configuration entry stands for. *)
Definition configured_hash (config : AuthConfig) (name : string) : option (list Z) :=
  h ← APIKeys config !! name; parseSHA256APIKeyHash (ToLower (TrimSpace h)).

Lemma names_of_elem m n : n ∈ names_of m <-> is_Some (m !! n).
Proof.
  unfold names_of. rewrite list_elem_of_fmap. split.
  - intros ([k v] & -> & Hk%elem_of_map_to_list). simpl. eauto.
  - intros [v Hv]. exists (n, v). split; [done|]. by apply elem_of_map_to_list.
Qed.

Lemma normalized_keys_lookup keys n :
  normalizeConfiguredAPIKeys keys !! n = (fun h => ToLower (TrimSpace h)) <$> keys !! n.
Proof.
  unfold normalizeConfiguredAPIKeys. destruct (Nat.eqb_spec (size keys) 0) as [E|E]; [|apply lookup_fmap].
  apply map_size_empty_iff in E as ->. by rewrite lookup_empty.
Qed.

(** The first matching element of a filtered sorted list. *)
Lemma find_omap_sorted {A} (f : string -> option A) (P : A -> bool) l :
  StronglySorted (not_after str_ltb) l ->
  match find P (omap f l) with
  | Some c => exists x, x ∈ l /\ f x = Some c /\ P c = true
      /\ forall y c', y ∈ l -> f y = Some c' -> P c' = true -> not_after str_ltb x y
  | None => forall y c', y ∈ l -> f y = Some c' -> P c' = false
  end.
Proof.
  induction 1 as [|x l Hs IH Hx]; [simpl; intros y c' Hy; by apply elem_of_nil in Hy|].
  change (omap f (x :: l)) with (match f x with Some y => y :: omap f l | None => omap f l end).
  destruct (f x) as [c|] eqn:Ef; cbn [find].
  - destruct (P c) eqn:Ep.
    + exists x. split_and!; [by left|done|done|]. intros y c' Hy _ _. apply elem_of_cons in Hy as [->|Hy].
      * unfold not_after. apply str_ltb_irrefl.
      * rewrite Forall_forall in Hx. auto.
    + destruct (find P (omap f l)) as [c1|].
      * destruct IH as (x1 & Hx1 & Hf1 & Hp1 & Hmin). exists x1. split_and!; [by right|done|done|].
        intros y c' Hy Hfy Hpy. apply elem_of_cons in Hy as [->|Hy]; [congruence|]. eauto.
      * intros y c' Hy Hfy. apply elem_of_cons in Hy as [->|Hy]; [congruence|]. eauto.
  - destruct (find P (omap f l)) as [c1|].
    + destruct IH as (x1 & Hx1 & Hf1 & Hp1 & Hmin). exists x1. split_and!; [by right|done|done|].
      intros y c' Hy Hfy Hpy. apply elem_of_cons in Hy as [->|Hy]; [congruence|]. eauto.
    + intros y c' Hy Hfy. apply elem_of_cons in Hy as [->|Hy]; [congruence|]. eauto.
Qed.

Lemma credential_of_configured config roles n c :
  n ∈ names_of (normalizeConfiguredAPIKeys (APIKeys config)) ->
  credential_of (normalizeConfiguredAPIKeys (APIKeys config)) roles n = Some c ->
  cred_name c = n /\ configured_hash config n = Some (cred_hash c)
  /\ cred_role c = TrimSpace (default "" (roles !! n)).
Proof.
  intros [h Hh]%names_of_elem. unfold credential_of, configured_hash. rewrite Hh. simpl.
  rewrite normalized_keys_lookup in Hh. destruct (APIKeys config !! n) as [h0|]; [|discriminate].
  simpl in Hh. injection Hh as <-. simpl. destruct (parseSHA256APIKeyHash _); [|discriminate]. by intros [= <-].
Qed.

Lemma configured_credential config roles n hash : configured_hash config n = Some hash ->
  n ∈ names_of (normalizeConfiguredAPIKeys (APIKeys config))
  /\ credential_of (normalizeConfiguredAPIKeys (APIKeys config)) roles n
     = Some (mkCred n (TrimSpace (default "" (roles !! n))) hash).
Proof.
  unfold configured_hash. intros Hc. destruct (APIKeys config !! n) as [h|] eqn:E; [|discriminate]. simpl in Hc.
  assert (normalizeConfiguredAPIKeys (APIKeys config) !! n = Some (ToLower (TrimSpace h))) as Hn
    by (by rewrite normalized_keys_lookup, E). split.
  - apply names_of_elem. eauto.
  - unfold credential_of. rewrite Hn. simpl. by rewrite Hc.
Qed.

Definition roles_of (config : AuthConfig) : gmap string string :=
  normalizeConfiguredAPIKeyRoles (normalizeConfiguredAPIKeys (APIKeys config)) (APIKeyRoles config)
    (AllowImplicitAdminRoles config).

(** Who a request authenticates as. *)
Lemma authenticate_spec config key :
  (exists p, key <> "" /\ configured_hash config p = Some (Sum256 key)
     /\ authenticateAPIKey (NewAuthenticator config) key = (p, TrimSpace (default "" (roles_of config !! p)), true)
     /\ forall n, configured_hash config n = Some (Sum256 key) -> str_ltb n p = false)
  \/ ((key = "" \/ forall n, configured_hash config n <> Some (Sum256 key))
      /\ authenticateAPIKey (NewAuthenticator config) key = ("", "", false)).
Proof.
  unfold authenticateAPIKey. destruct (String.eqb_spec key "") as [->|Hk]; [right; auto|].
  cbn [NewAuthenticator credentials]. unfold buildAPIKeyCredentials. fold (roles_of config).
  set (l := sort_Strings _). set (f := credential_of _ _).
  assert (StronglySorted (not_after str_ltb) l) as Hs by apply sort_Slice_sorted, _.
  pose proof (compare_all_spec (Sum256 key) (omap f l) ("", "", false) eq_refl) as Hc.
  pose proof (find_omap_sorted f (fun c => bool_decide (Sum256 key = cred_hash c)) l Hs) as Hf.
  assert (forall n, n ∈ l <-> n ∈ names_of (normalizeConfiguredAPIKeys (APIKeys config))) as Hl.
  { intros n. unfold l, sort_Strings. by rewrite sort_Slice_Permutation. }
  destruct (find _ (omap f l)) as [c|].
  - left. destruct Hf as (p & Hp & Hfp & Hpc & Hmin). bool_prop.
    destruct (credential_of_configured config (roles_of config) p c (proj1 (Hl p) Hp) Hfp) as (<- & Hh & Hr).
    exists (cred_name c). split_and!; [done|congruence|by rewrite Hc, Hr|].
    intros n Hn. destruct (configured_credential config (roles_of config) n _ Hn) as [Hin Hcr].
    apply (Hmin n _ (proj2 (Hl n) Hin) Hcr). by apply bool_decide_eq_true.
  - right. split; [|done]. right. intros n Hn.
    destruct (configured_credential config (roles_of config) n _ Hn) as [Hin Hcr].
    specialize (Hf n _ (proj2 (Hl n) Hin) Hcr). simpl in Hf. bool_prop. done.
Qed.

Lemma implicit_fold names : forall m n, foldl implicit_admin m names !! n = m !! n
  \/ foldl implicit_admin m names !! n = Some AuthRoleAdmin.
Proof.
  induction names as [|x names IH]; intros m n; [by left|]. cbn [foldl].
  destruct (IH (implicit_admin m x) n) as [->|?]; [|by right]. unfold implicit_admin.
  destruct (_ =? "")%string; [|by left]. destruct (decide (n = x)) as [->|Hne].
  - right. apply lookup_insert_eq.
  - left. by rewrite lookup_insert_ne.
Qed.

Lemma roles_of_lookup config n : is_Some (APIKeys config !! n) ->
  roles_of config !! n = (fun r => ToLower (TrimSpace r)) <$> APIKeyRoles config !! n
  \/ (AllowImplicitAdminRoles config = true /\ roles_of config !! n = Some AuthRoleAdmin).
Proof.
  intros [h Hh]. unfold roles_of, normalizeConfiguredAPIKeyRoles.
  destruct (Nat.eqb_spec (size (normalizeConfiguredAPIKeys (APIKeys config))) 0) as [E|_].
  { apply map_size_empty_iff in E. pose proof (normalized_keys_lookup (APIKeys config) n) as Hn.
    rewrite E, lookup_empty, Hh in Hn. discriminate. }
  destruct (AllowImplicitAdminRoles config); [|left; apply lookup_fmap].
  destruct (implicit_fold (names_of (normalizeConfiguredAPIKeys (APIKeys config)))
    ((fun r => ToLower (TrimSpace r)) <$> APIKeyRoles config) n) as [->|?]; [left; apply lookup_fmap|by right].
Qed.

Lemma roleHasPermission_true r p : roleHasPermission r p = true <->
  (r = AuthRoleAdmin /\ (p = AuthPermissionManageZones \/ p = AuthPermissionReadSyncArtifacts))
  \/ (r = AuthRoleAgent /\ p = AuthPermissionReadSyncArtifacts).
Proof.
  unfold roleHasPermission, rolePermissionPolicy.
  destruct (decide (r = AuthRoleAdmin)) as [->|Ha].
  { rewrite lookup_insert_eq, bool_decide_eq_true. set_solver. }
  rewrite lookup_insert_ne by done. destruct (decide (r = AuthRoleAgent)) as [->|Hg].
  { rewrite lookup_singleton_eq, bool_decide_eq_true. set_solver. }
  rewrite lookup_singleton_ne by done. split; [done|]. intros [[? _]|[? _]]; done.
Qed.

(** ** Properties *)

(** Authentication: a request is authenticated exactly when it carries a
    non-empty key whose SHA-256 digest is one of the configured hashes (up to
    case and surrounding space), and the principal is the first such key name in
    alphabetical order. *)
Theorem authentication_exact (config : AuthConfig) (key : string) :
  let '(principal, role, ok) := authenticateAPIKey (NewAuthenticator config) key in
  (ok = true <-> key <> "" /\ exists name, configured_hash config name = Some (Sum256 key))
  /\ (ok = true -> configured_hash config principal = Some (Sum256 key)
        /\ forall name, configured_hash config name = Some (Sum256 key) -> str_ltb name principal = false).
Proof.
  destruct (authenticate_spec config key) as [(p & Hk & Hp & -> & Hmin)|[Hno ->]].
  - split; [|done]. split; [|done]. eauto.
  - split; [|done]. split; [done|]. intros [Hk [n Hn]]. destruct Hno as [?|Hno]; [done|]. by apply Hno in Hn.
Qed.

(** Only administrators manage zones: an endpoint that requires the
    zone-management permission answers only requests whose key is configured and
    has the admin role (explicitly, or implicitly where the configuration allows
    keys without a role to be administrators); every other request is rejected
    as unauthorized or forbidden. *)
Theorem manage_requires_admin (config : AuthConfig) (permissions : list string) (header : string) :
  AuthPermissionManageZones ∈ required_permissions permissions ->
  protected (NewAuthenticator config) permissions header = Proceed ->
  exists name, configured_hash config name = Some (Sum256 header)
    /\ ((exists role, APIKeyRoles config !! name = Some role
            /\ ToLower (TrimSpace (TrimSpace (ToLower (TrimSpace role)))) = AuthRoleAdmin)
        \/ AllowImplicitAdminRoles config = true).
Proof.
  intros Hreq Hp. unfold protected, AuthMiddleware in Hp.
  destruct (authenticate_spec config header) as [(p & Hk & Hh & E & _)|[_ E]]; rewrite E in Hp; cbn [negb] in Hp;
    [|discriminate]. exists p. split; [done|]. unfold RequirePermission in Hp.
  destruct (forallb _ _) eqn:Ef; [|discriminate]. rewrite forallb_forall in Ef. rewrite list_elem_of_In in Hreq.
  specialize (Ef _ Hreq). apply roleHasPermission_true in Ef as [[Er _]|[_ Er]]; [|discriminate].
  assert (is_Some (APIKeys config !! p)) as Hs.
  { unfold configured_hash in Hh. destruct (APIKeys config !! p); [eauto|discriminate]. }
  destruct (roles_of_lookup config p Hs) as [Hr|[Hi _]]; [|by right].
  left. rewrite Hr in Er. destruct (APIKeyRoles config !! p) as [role|]; [|discriminate Er].
  exists role. by split.
Qed.
End auth.

(** ** Witnesses *)
#[local] Existing Instance ascii_tables.

Definition demo_auth : AuthConfig := mkAuthConfig
  {[ "ops" := "sha256:" +:+ sha256_hex "secret"; "edge" := "SHA256:" +:+ sha256_hex "agent-key" ]}
  {[ "ops" := " Admin "; "edge" := "agent" ]} "" false.

Lemma manage_requires_admin_witness :
  exists name, configured_hash demo_auth name = Some (Sum256 "secret")
    /\ ((exists role, APIKeyRoles demo_auth !! name = Some role
            /\ ToLower (TrimSpace (TrimSpace (ToLower (TrimSpace role)))) = AuthRoleAdmin)
        \/ AllowImplicitAdminRoles demo_auth = true).
Proof.
  apply (manage_requires_admin demo_auth [AuthPermissionManageZones] "secret").
  - vm_compute. left.
  - vm_compute. reflexivity.
Defined.

Example agent_is_forbidden :
  protected (NewAuthenticator demo_auth) [AuthPermissionManageZones] "agent-key" = forbidden
  /\ protected (NewAuthenticator demo_auth) [AuthPermissionReadSyncArtifacts] "agent-key" = Proceed.
Proof. vm_compute. done. Qed.
