(* ===== verification/Scheduler.v ===== *)
(** * Signature freshness scheduler (pkg/dnssec/scheduler.go)

    One check cycle over the zones and the per-zone exponential backoff.  The
    signer and the zone lister are interfaces: what they answer during a cycle
    is given by functions; [rand.Int63n] is a parameter with its documented
    range. *)

From S2P Require Import Prelude GoStrings Zone.

Record SchedulerConfig := mkSched {
  CheckInterval : Duration; ResignThreshold : Duration; InitialJitter : Duration;
  FailureBackoffMin : Duration; FailureBackoffMax : Duration }.
Definition DefaultSchedulerConfig : SchedulerConfig :=
  mkSched Hour (7 * 24 * Hour) (5 * Minute) (5 * Minute) (6 * Hour).

Record backoffState := mkBackoff { failures : Z; nextAllowed : Time }.
Abbreviation Backoff := (gmap string backoffState).

(** The doubling loop, in [time.Duration] arithmetic. *)
Fixpoint double_delay (n : nat) (maxDelay delay : Duration) : Duration :=
  match n with
  | O => delay
  | S n => if i64 (maxDelay - delay) <? delay then maxDelay else double_delay n maxDelay (i64 (delay * 2))
  end.
Definition failureBackoffDelay (minDelay maxDelay : Duration) (failures : Z) : Duration :=
  if (failures <=? 0) || (minDelay <=? 0) then 0
  else if maxDelay <=? 0 then minDelay
  else if maxDelay <=? minDelay then maxDelay
  else double_delay (Z.to_nat failures) maxDelay minDelay.

Section scheduler.
Context (config : SchedulerConfig) (Int63n : Z -> Z).

Definition isBackedOff (b : Backoff) (zoneName : string) (now : Time) : bool :=
  match b !! zoneName with
  | None => false
  | Some state => time_Before now (nextAllowed state)
  end.

Definition backoff_delay (n : Z) : Duration :=
  let delay := failureBackoffDelay (FailureBackoffMin config) (FailureBackoffMax config) n in
  let jitterLimit := Z.quot delay 10 in
  if (0 <? jitterLimit) && (delay <? FailureBackoffMax config) then
    let remaining := i64 (FailureBackoffMax config - delay) in
    let jitterLimit := if remaining <? jitterLimit then remaining else jitterLimit in
    i64 (delay + Int63n jitterLimit)
  else delay.

Definition recordFailure (b : Backoff) (zoneName : string) (now : Time) : Backoff :=
  let state := default (mkBackoff 0 zeroTime) (b !! zoneName) in
  let n := failures state + 1 in
  <[zoneName := mkBackoff n (time_Add now (backoff_delay n))]> b.

Definition clearBackoff (b : Backoff) (zoneName : string) : Backoff := delete zoneName b.

(** What the signer answers during the cycle. *)
Context (GetEarliestExpiration : string -> result Z) (ResignZone : string -> result unit).

(** (resigned, skipped) and the backoff table. *)
Definition attemptResign (b : Backoff) (zoneName : string) (now : Time) : bool * bool * Backoff :=
  if isBackedOff b zoneName now then (false, true, b)
  else match ResignZone zoneName with
       | Err _ => (false, false, recordFailure b zoneName now)
       | Ok _ => (true, false, clearBackoff b zoneName)
       end.

(** The accumulators of one cycle; [attempts] records the calls to the
    signer's [ResignZone] in order. *)
Record cycle := mkCycle {
  backoff : Backoff; earliestExpiration : Time;
  zonesChecked : Z; zonesResigned : Z; zonesSkipped : Z; attempts : list string }.

Definition count_attempt (b : Backoff) (zoneName : string) (now : Time) (c : cycle) (earliest : Time) : cycle :=
  let '(resigned, skipped, b') := attemptResign b zoneName now in
  mkCycle b' earliest (zonesChecked c + 1)
    (if resigned then zonesResigned c + 1 else zonesResigned c)
    (if skipped then zonesSkipped c + 1 else zonesSkipped c)
    (if isBackedOff b zoneName now then attempts c else attempts c ++ [zoneName]).

Definition dnssec_enabled (zone : Zone) : bool :=
  match z_DNSSEC zone with Some d => Enabled d | None => false end.
Definition unix_seconds (s : Z) : Time := s * 1000000000.

(** The loop body for one zone. *)
Definition check_zone (now : Time) (c : cycle) (zone : Zone) : cycle :=
  if negb (dnssec_enabled zone) then c
  else
    let skip e := mkCycle (backoff c) e (zonesChecked c + 1) (zonesResigned c) (zonesSkipped c) (attempts c) in
    match GetEarliestExpiration (z_Name zone) with
    | Err err =>
      if errors_Is err ErrSignatureExpirationUnavailable
      then count_attempt (backoff c) (z_Name zone) now c (earliestExpiration c)
      else skip (earliestExpiration c)
    | Ok expiration =>
      let expirationTime := unix_seconds expiration in
      let remaining := time_Sub expirationTime now in
      let earliest := if IsZero (earliestExpiration c) || time_Before expirationTime (earliestExpiration c)
                      then expirationTime else earliestExpiration c in
      if remaining <? ResignThreshold config
      then count_attempt (backoff c) (z_Name zone) now c earliest
      else skip earliest
    end.

Definition run_cycle (now : Time) (b : Backoff) (zones : result (list Zone)) : cycle :=
  match zones with
  | Err _ => mkCycle b zeroTime 0 0 0 []
  | Ok zones => foldl (check_zone now) (mkCycle b zeroTime 0 0 0 []) zones
  end.

(** Zones whose signatures need renewal at [now]. *)
Definition needs_resign (now : Time) (zone : Zone) : bool :=
  dnssec_enabled zone &&
  match GetEarliestExpiration (z_Name zone) with
  | Err err => errors_Is err ErrSignatureExpirationUnavailable
  | Ok e => time_Sub (unix_seconds e) now <? ResignThreshold config
  end.
End scheduler.

(** ** The backoff delay *)
Lemma i64_id x : MinInt64 <= x <= MaxInt64 -> i64 x = x.
Proof. unfold i64, MinInt64, MaxInt64. intros. rewrite Z.mod_small; lia. Qed.

Lemma double_delay_value n : forall mx d, 0 < d <= mx -> mx <= MaxInt64 ->
  double_delay n mx d = Z.min mx (d * 2 ^ Z.of_nat n).
Proof.
  induction n as [|n IH]; intros mx d Hd Hm; cbn [double_delay]; [simpl; lia|].
  assert (0 < 2 ^ Z.of_nat n) as Hpos by lia. unfold MaxInt64 in *.
  rewrite (i64_id (mx - d)) by (unfold MinInt64, MaxInt64; lia).
  rewrite Nat2Z.inj_succ, Z.pow_succ_r by lia.
  destruct (Z.ltb_spec (mx - d) d).
  - symmetry. apply Z.min_l. nia.
  - rewrite i64_id by (unfold MinInt64, MaxInt64; lia). rewrite IH by lia. f_equal. ring.
Qed.

Lemma failureBackoffDelay_value mn mx n : 0 < mn < mx -> mx <= MaxInt64 -> 0 < n ->
  failureBackoffDelay mn mx n = Z.min mx (mn * 2 ^ n).
Proof.
  intros Hb Hm Hn. unfold failureBackoffDelay.
  rewrite (proj2 (Z.leb_gt n 0)), (proj2 (Z.leb_gt mn 0)), (proj2 (Z.leb_gt mx 0)), (proj2 (Z.leb_gt mx mn)) by lia.
  simpl. rewrite double_delay_value, Z2Nat.id by lia. done.
Qed.

(** After the n-th failure in a row of a zone, with 0 < min < max, the delay
    is min(max, min * 2^n) plus a jitter of less than a tenth of it, and never
    exceeds the maximum (no overflow of the 64-bit duration occurs on the way);
    the zone is skipped until the delay has passed and tried again after it. *)
Theorem backoff_delay_bounds (config : SchedulerConfig) (Int63n : Z -> Z) (b : Backoff) (zone : string) (now t : Time) :
  (forall n, 0 < n -> 0 <= Int63n n < n) ->
  0 < FailureBackoffMin config < FailureBackoffMax config -> FailureBackoffMax config <= MaxInt64 ->
  let n := failures (default (mkBackoff 0 zeroTime) (b !! zone)) + 1 in
  0 < n ->
  let base := Z.min (FailureBackoffMax config) (FailureBackoffMin config * 2 ^ n) in
  let b' := recordFailure config Int63n b zone now in
  exists d, base <= d <= FailureBackoffMax config /\ d <= base + base / 10
    /\ isBackedOff b' zone t = (t <? now + d)
    /\ (forall z, z <> zone -> b' !! z = b !! z).
Proof.
  intros Hrand Hb Hm n Hn base b'. set (mx := FailureBackoffMax config) in *.
  assert (0 < base <= mx) as Hbase.
  { unfold base. assert (0 < FailureBackoffMin config * 2 ^ n) by (apply Z.mul_pos_pos; lia). lia. }
  exists (backoff_delay config Int63n n).
  assert (base <= backoff_delay config Int63n n <= mx /\ backoff_delay config Int63n n <= base + base / 10) as [Hr Hj].
  { unfold backoff_delay. rewrite failureBackoffDelay_value by done. fold mx. fold base.
    rewrite Z.quot_div_nonneg by lia. assert (0 <= base / 10) by (apply Z.div_pos; lia).
    destruct (Z.ltb_spec 0 (base / 10)), (Z.ltb_spec base mx); simpl; try lia.
    unfold MaxInt64 in *. rewrite (i64_id (mx - base)) by (unfold MinInt64, MaxInt64; lia).
    set (j := if mx - base <? base / 10 then mx - base else base / 10).
    assert (0 < j <= mx - base /\ j <= base / 10) as Hj by (unfold j; destruct (Z.ltb_spec (mx - base) (base / 10)); lia).
    pose proof (Hrand j ltac:(lia)). rewrite i64_id by (unfold MinInt64, MaxInt64; lia). lia. }
  split_and!; try done; try lia.
  - unfold isBackedOff, b', recordFailure. by rewrite lookup_insert_eq.
  - intros z Hz. unfold b', recordFailure. by rewrite lookup_insert_ne.
Qed.

Lemma backoff_delay_bounds_witness :
  exists d, 10 * Minute <= d <= 6 * Hour
    /\ isBackedOff (recordFailure DefaultSchedulerConfig (fun n => n / 2) ∅ "example.com." 1000) "example.com." 2000
       = (2000 <? 1000 + d).
Proof.
  destruct (backoff_delay_bounds DefaultSchedulerConfig (fun n => n / 2) ∅ "example.com." 1000 2000)
    as (d & Hd & _ & Hb & _).
  - intros n Hn. split; [apply Z.div_pos; lia|apply Z.div_lt; lia].
  - vm_compute. done.
  - vm_compute. discriminate.
  - vm_compute. done.
  - exists d. split; [exact Hd|exact Hb].
Defined.

(** ** One cycle *)
Section cycle_facts.
Context (config : SchedulerConfig) (Int63n : Z -> Z) (exp : string -> result Z) (resign : string -> result unit) (now : Time).

Definition due (b : Backoff) (z : Zone) : bool := needs_resign config exp now z && negb (isBackedOff b (z_Name z) now).

Lemma attemptResign_frame b n n' : n' <> n -> snd (attemptResign config Int63n resign b n now) !! n' = b !! n'.
Proof.
  intros Hne. unfold attemptResign. destruct (isBackedOff b n now); [done|]. destruct (resign n); simpl.
  - unfold clearBackoff. by rewrite lookup_delete_ne.
  - unfold recordFailure. by rewrite lookup_insert_ne.
Qed.

(** One zone: it is tried exactly when it is due, and nothing else is touched. *)
Lemma check_zone_step c z :
  let c' := check_zone config Int63n exp resign now c z in
  attempts c' = (if due (backoff c) z then attempts c ++ [z_Name z] else attempts c)
  /\ zonesChecked c' = zonesChecked c + (if dnssec_enabled z then 1 else 0)
  /\ (forall n, n <> z_Name z -> backoff c' !! n = backoff c !! n)
  /\ (due (backoff c) z = true ->
        backoff c' = if is_ok (resign (z_Name z)) then clearBackoff (backoff c) (z_Name z)
                     else recordFailure config Int63n (backoff c) (z_Name z) now)
  /\ (due (backoff c) z = false -> backoff c' = backoff c).
Proof.
  unfold check_zone, due, needs_resign. destruct (dnssec_enabled z); simpl; [|split_and!; [done|lia|done..]].
  assert (forall e, let c' := count_attempt config Int63n resign (backoff c) (z_Name z) now c e in
    attempts c' = (if isBackedOff (backoff c) (z_Name z) now then attempts c else attempts c ++ [z_Name z])
    /\ zonesChecked c' = zonesChecked c + 1
    /\ backoff c' = snd (attemptResign config Int63n resign (backoff c) (z_Name z) now)) as Hc.
  { intros e. unfold count_attempt. destruct (attemptResign _ _ _ _ _ _) as [[r s] b']. done. }
  assert (forall e, let c' := count_attempt config Int63n resign (backoff c) (z_Name z) now c e in
    attempts c' = (if negb (isBackedOff (backoff c) (z_Name z) now) then attempts c ++ [z_Name z] else attempts c)
    /\ zonesChecked c' = zonesChecked c + 1
    /\ (forall n, n <> z_Name z -> backoff c' !! n = backoff c !! n)
    /\ (negb (isBackedOff (backoff c) (z_Name z) now) = true -> backoff c' =
          if is_ok (resign (z_Name z)) then clearBackoff (backoff c) (z_Name z)
          else recordFailure config Int63n (backoff c) (z_Name z) now)
    /\ (negb (isBackedOff (backoff c) (z_Name z) now) = false -> backoff c' = backoff c)) as Hall.
  { intros e. cbv zeta. destruct (Hc e) as (-> & -> & ->). split_and!; [by destruct (isBackedOff _ _ _)|done| | |].
    - intros n Hn. by apply attemptResign_frame.
    - unfold attemptResign. intros Hb%negb_true_iff. rewrite Hb. by destruct (resign (z_Name z)).
    - unfold attemptResign. intros Hb%negb_false_iff. by rewrite Hb. }
  destruct (exp (z_Name z)) as [e|err].
  - destruct (time_Sub (unix_seconds e) now <? ResignThreshold config); [apply Hall|by split_and!].
  - destruct (errors_Is err ErrSignatureExpirationUnavailable); [apply Hall|by split_and!].
Qed.

Lemma cycle_attempts zs : forall c, NoDup (map z_Name zs) ->
  let c' := foldl (check_zone config Int63n exp resign now) c zs in
  attempts c' = attempts c ++ map z_Name (List.filter (due (backoff c)) zs)
  /\ zonesChecked c' = zonesChecked c + Z.of_nat (length (List.filter dnssec_enabled zs))
  /\ (forall n, n ∉ map z_Name zs -> backoff c' !! n = backoff c !! n)
  /\ (forall z, z ∈ zs -> backoff c' !! z_Name z =
        (if due (backoff c) z
         then (if is_ok (resign (z_Name z)) then None
               else recordFailure config Int63n (backoff c) (z_Name z) now !! z_Name z)
         else backoff c !! z_Name z)).
Proof.
  induction zs as [|z zs IH]; intros c Hnd; cbn [foldl].
  { simpl. split_and!; [by rewrite app_nil_r|lia|done|]. intros z Hz. by apply elem_of_nil in Hz. }
  cbn [map] in Hnd. apply NoDup_cons in Hnd as [Hz Hnd].
  set (c1 := check_zone config Int63n exp resign now c z).
  destruct (check_zone_step c z) as (Ha & Hk & Hf & Hd & Hn). fold c1 in Ha, Hk, Hf, Hd, Hn.
  destruct (IH c1 Hnd) as (IHa & IHk & IHf & IHz). cbv zeta in *.
  assert (forall z', z' ∈ zs -> backoff c1 !! z_Name z' = backoff c !! z_Name z') as Hsame.
  { intros z' Hz'. apply Hf. intros E. apply Hz. rewrite <- E. apply list_elem_of_fmap. eauto. }
  assert (forall z', z' ∈ zs -> due (backoff c1) z' = due (backoff c) z') as Hdue.
  { intros z' Hz'. unfold due, isBackedOff. by rewrite (Hsame z' Hz'). }
  assert (List.filter (due (backoff c1)) zs = List.filter (due (backoff c)) zs) as Hfilt.
  { clear -Hdue. induction zs as [|z' zs IH]; [done|]. simpl. rewrite (Hdue z' ltac:(by left)).
    rewrite IH; [done|]. intros z'' H'. apply Hdue. by right. }
  split_and!.
  - rewrite IHa, Ha, Hfilt. cbn [List.filter]. destruct (due (backoff c) z); [|done]. by rewrite <- app_assoc.
  - rewrite IHk, Hk. cbn [List.filter]. destruct (dnssec_enabled z); simpl length; lia.
  - intros n Hn'. cbn [map] in Hn'. apply not_elem_of_cons in Hn' as [Hne Hn']. rewrite IHf by done. by apply Hf.
  - intros z' Hz'. apply elem_of_cons in Hz' as [->|Hz'].
    + rewrite IHf by done. destruct (due (backoff c) z) eqn:Ed.
      * rewrite (Hd eq_refl). destruct (is_ok (resign (z_Name z))); [|done]. unfold clearBackoff. apply lookup_delete_eq.
      * by rewrite (Hn eq_refl).
    + rewrite IHz, Hdue by done. destruct (due (backoff c) z'); [|by apply Hsame].
      destruct (is_ok (resign (z_Name z'))); [done|]. unfold recordFailure. rewrite !lookup_insert_eq.
      by rewrite (Hsame z' Hz').
Qed.
End cycle_facts.

(** C39: A cycle re-signs exactly what it should: over zones with distinct names,
    the signer is asked once, in order, for each DNSSEC-enabled zone whose
    expiration is unavailable or closer than the threshold and which is not
    backed off, and for no other zone; success clears the zone's backoff, failure
    extends it, and the backoff of every other zone is unchanged. *)
Theorem cycle_resigns_due (config : SchedulerConfig) (Int63n : Z -> Z) (exp : string -> result Z)
    (resign : string -> result unit) (now : Time) (b : Backoff) (zs : list Zone) :
  NoDup (map z_Name zs) ->
  let c := run_cycle config Int63n exp resign now b (Ok zs) in
  attempts c = map z_Name (List.filter (fun z => needs_resign config exp now z && negb (isBackedOff b (z_Name z) now)) zs)
  /\ (forall z, z ∈ zs -> backoff c !! z_Name z =
        (if needs_resign config exp now z && negb (isBackedOff b (z_Name z) now)
         then (if is_ok (resign (z_Name z)) then None
               else recordFailure config Int63n b (z_Name z) now !! z_Name z)
         else b !! z_Name z))
  /\ (forall n, n ∉ map z_Name zs -> backoff c !! n = b !! n).
Proof.
  intros Hnd. destruct (cycle_attempts config Int63n exp resign now zs (mkCycle b zeroTime 0 0 0 []) Hnd)
    as (Ha & _ & Hf & Hz). cbv zeta in *. unfold run_cycle. split_and!; [exact Ha|exact Hz|exact Hf].
Qed.

Definition signed_zone (name : string) (on : bool) : Zone :=
  mkZone name "v" (DefaultSOA "ns" "h") [] (Some (mkDNSSEC on 13 0 0 false 0 "" None)) 0 0.

Lemma cycle_resigns_due_witness :
  attempts (run_cycle DefaultSchedulerConfig (fun n => 0) (fun n => if (n =? "a.")%string then Ok 100 else Ok 4000000000)
    (fun _ => Ok tt) 0 ∅ (Ok [signed_zone "a." true; signed_zone "b." true; signed_zone "c." false])) = ["a."].
Proof.
  destruct (cycle_resigns_due DefaultSchedulerConfig (fun n => 0) (fun n => if (n =? "a.")%string then Ok 100 else Ok 4000000000)
    (fun _ => Ok tt) 0 ∅ [signed_zone "a." true; signed_zone "b." true; signed_zone "c." false]) as [E _].
  - simpl. repeat constructor; set_solver.
  - rewrite E. vm_compute. reflexivity.
Defined.
