(* ===== verification/Nsec.v ===== *)
(** * Denial-of-existence chains (pkg/dnssec/nsec3.go)

    Generation of the NSEC and NSEC3 chains of a zone.  The name functions of
    [github.com/miekg/dns] are third-party code: they are the parameter [DnsLib],
    and no theorem below assumes anything about them. *)

From S2P Require Import Prelude GoStrings GoStringsFacts GoSort.

Record DnsLib := mkDnsLib {
  Fqdn : string -> string;
  IsSubDomain : string -> string -> bool;       (* parent, child *)
  SplitDomainName : string -> list string;
  CanonicalName : string -> string;
  HashName : string -> Z -> Z -> string -> string }.

(** The header fields the generators look at. *)
Record RR := mkRR { rr_Name : string; rr_Rrtype : Z }.

Definition TypeNSEC : Z := 47.
Definition TypeRRSIG : Z := 46.
Definition TypeNSEC3 : Z := 50.
Definition TypeNSEC3PARAM : Z := 51.
Definition SHA1 : Z := 1.

Record NSEC := mkNSEC { nsec_Name : string; nsec_Ttl : Z; nsec_NextDomain : string; nsec_TypeBitMap : list Z }.
Record NSEC3 := mkNSEC3 {
  nsec3_Name : string; nsec3_Ttl : Z; nsec3_Hash : Z; nsec3_Flags : Z; nsec3_Iterations : Z;
  nsec3_SaltLength : Z; nsec3_Salt : string; nsec3_HashLength : Z; nsec3_NextDomain : string;
  nsec3_TypeBitMap : list Z }.
Record NSEC3PARAM := mkNSEC3PARAM {
  param_Name : string; param_Ttl : Z; param_Hash : Z; param_Flags : Z; param_Iterations : Z;
  param_SaltLength : Z; param_Salt : string }.
Record NSEC3Params := mkNSEC3Params { HashAlg : Z; Flags : Z; Iterations : Z; Salt : string; TTL : Z }.

Definition appendUnique (slice : list Z) (val : Z) : list Z :=
  if existsb (fun v => v =? val) slice then slice else slice ++ [val].

Definition sort_types (l : list Z) : list Z := sort_Slice Z.ltb l.

Section chains.
Context (lib : DnsLib).

(** The comparison loop from the last labels backwards, on reversed lists. *)
Fixpoint labels_less (a b : list string) : bool :=
  match a, b with
  | x :: a, y :: b => if (x =? y)%string then labels_less a b else str_ltb x y
  | [], _ :: _ => true
  | _, [] => false
  end.
Definition canonicalDNSSECLess (a b : string) : bool :=
  labels_less (rev (SplitDomainName lib (CanonicalName lib a))) (rev (SplitDomainName lib (CanonicalName lib b))).
Definition sortCanonicalDNSSECNames (names : list string) : list string := sort_Slice canonicalDNSSECLess names.

Definition parentDomain (name : string) : string :=
  match SplitDomainName lib name with
  | _ :: (_ :: _) as rest => Fqdn lib (str_join rest ".")
  | _ => ""
  end.

(** Owner names of the records of the zone. *)
Definition owner_names (zoneApex : string) (rrs : list RR) : gset string :=
  foldl (fun nameSet rr =>
    if (rr_Rrtype rr =? TypeNSEC3) || negb (IsSubDomain lib zoneApex (rr_Name rr)) then nameSet
    else {[ Fqdn lib (rr_Name rr) ]} ∪ nameSet) ∅ rrs.

(** The walk from a name up to the apex; every step removes a label, so as many
    steps as the name has bytes are enough. *)
Fixpoint walk_up (fuel : nat) (zoneApex parent : string) (st : gset string * gset string) : gset string * gset string :=
  match fuel with
  | O => st
  | S fuel =>
    let parent := parentDomain parent in
    if (parent =? "")%string || (parent =? zoneApex)%string || negb (IsSubDomain lib zoneApex parent) then st
    else
      let st := if bool_decide (parent ∈ fst st) then st
                else ({[ parent ]} ∪ fst st, {[ parent ]} ∪ snd st) in
      walk_up fuel zoneApex parent st
  end.

(** (names, emptyNonTerminals).  The Go loop ranges over the set it extends; a
    name added on the way up has all its ancestors added by the same walk, so
    visiting it or not makes no difference and the model visits the original
    names. *)
Definition collectAuthoritativeNames (zoneApex : string) (rrs : list RR) : list string * gset string :=
  let nameSet := owner_names zoneApex rrs in
  let '(all, ents) := foldl (fun st name => walk_up (String.length name) zoneApex name st) (nameSet, ∅) (elements nameSet) in
  (elements all, ents).

Definition add_type (zoneApex : string) (m : gmap string (gset Z)) (rr : RR) : gmap string (gset Z) :=
  let name := Fqdn lib (rr_Name rr) in
  if (rr_Rrtype rr =? TypeNSEC3) || negb (IsSubDomain lib zoneApex name) then m
  else <[name := {[ rr_Rrtype rr ]} ∪ default ∅ (m !! name)]> m.
Definition typeBitmapByName (zoneApex : string) (rrs : list RR) : gmap string (list Z) :=
  (fun typeSet : gset Z => sort_types (elements typeSet)) <$> foldl (add_type zoneApex) ∅ rrs.

(** The element that follows index [i], cyclically. *)
Definition next_of (l : list string) (i : nat) : string := default "" (l !! ((i + 1) mod length l)%nat).

Definition nsec_bitmap (typeBitmaps : gmap string (list Z)) (ents : gset string) (name : string) : list Z :=
  let bitmap := default [] (typeBitmaps !! name) in
  let bitmap := if bool_decide (name ∈ ents) then [] else bitmap in
  sort_types (appendUnique (appendUnique bitmap TypeNSEC) TypeRRSIG).

Definition GenerateNSECChain (zoneApex : string) (rrs : list RR) (ttl : Z) : result (list NSEC) :=
  let zoneApex := Fqdn lib zoneApex in
  let '(names, ents) := collectAuthoritativeNames zoneApex rrs in
  if (length names =? 0)%nat then Err (Errorf "no authoritative names found")
  else
    let typeBitmaps := typeBitmapByName zoneApex rrs in
    let names := sortCanonicalDNSSECNames names in
    Ok (imap (fun i name => mkNSEC name ttl (next_of names i) (nsec_bitmap typeBitmaps ents name)) names).

(** The map from hashes to names, or the collision. *)
Fixpoint hash_names (params : NSEC3Params) (names : list string) (m : gmap string string) : result (gmap string string) :=
  match names with
  | [] => Ok m
  | name :: names =>
    let hash := HashName lib name (HashAlg params) (Iterations params) (Salt params) in
    match m !! hash with
    | Some existing =>
      Err (Errorf ("NSEC3 hash collision: " +:+ name +:+ " and " +:+ existing +:+ " both hash to " +:+ hash
                   +:+ " (regenerate salt)"))
    | None => hash_names params names (<[hash := name]> m)
    end
  end.

Definition nsec3_record (params : NSEC3Params) (zoneApex : string) (bitmaps : gmap string (list Z)) (ents : gset string)
    (hashToName : gmap string string) (hashes : list string) (i : nat) (hash : string) : NSEC3 :=
  let name := default "" (hashToName !! hash) in
  let bitmap := if bool_decide (name ∈ ents) then [] else default [] (bitmaps !! name) in
  mkNSEC3 (hash +:+ "." +:+ zoneApex) (TTL params) (HashAlg params) (Flags params) (Iterations params)
    (u8 (len (Salt params) / 2)) (Salt params) 20 (next_of hashes i) bitmap.

Definition GenerateNSEC3Chain (zoneApex : string) (rrs : list RR) (params : NSEC3Params)
  : result (NSEC3PARAM * list NSEC3) :=
  let zoneApex := Fqdn lib zoneApex in
  let '(names, ents) := collectAuthoritativeNames zoneApex rrs in
  let bitmaps := typeBitmapByName zoneApex rrs in
  let bitmaps := match bitmaps !! zoneApex with
                 | Some apexBitmap => <[zoneApex := appendUnique apexBitmap TypeNSEC3PARAM]> bitmaps
                 | None => <[zoneApex := [TypeNSEC3PARAM]]> bitmaps
                 end in
  let* hashToName := hash_names params names ∅ in
  let hashes := sort_Strings (map fst (map_to_list hashToName)) in
  Ok (mkNSEC3PARAM zoneApex (TTL params) (HashAlg params) (Flags params) (Iterations params)
        (u8 (len (Salt params) / 2)) (Salt params),
      imap (nsec3_record params zoneApex bitmaps ents hashToName hashes) hashes).

(** ** Sorting *)
#[local] Instance labels_weak : WeakOrder labels_less.
Proof.
  split.
  - intros x. induction x as [|a x IH]; intros [|b y]; simpl; try done.
    rewrite (String.eqb_sym b a). destruct (a =? b)%string; [apply IH|apply str_ltb_asym].
  - intros x. induction x as [|a x IH]; intros [|b y] [|c z]; simpl; try done.
    destruct (String.eqb_spec b a) as [->|H1], (String.eqb_spec c a) as [->|H2].
    + apply IH.
    + done.
    + rewrite (proj2 (String.eqb_neq a b)) by congruence. intros Hba Hab.
      destruct H1. by apply str_leb_antisym.
    + destruct (String.eqb_spec c b) as [->|H3]; [done|]. apply (not_after_trans str_ltb).
Qed.
#[local] Instance canonical_weak : WeakOrder canonicalDNSSECLess.
Proof. split; intros; [by apply (less_asym labels_less)|by eapply (not_after_trans labels_less)]. Qed.
#[local] Instance Zltb_weak : WeakOrder Z.ltb.
Proof. split; intros; rewrite ?Z.ltb_lt, ?Z.ltb_ge in *; lia. Qed.

Lemma appendUnique_elem l v x : x ∈ appendUnique l v <-> x ∈ l \/ x = v.
Proof.
  unfold appendUnique. destruct (existsb _ l) eqn:E.
  - apply existsb_exists in E as (y & Hy & ->%Z.eqb_eq). rewrite <- list_elem_of_In in Hy. naive_solver.
  - rewrite elem_of_app, list_elem_of_singleton. done.
Qed.
Lemma appendUnique_NoDup l v : NoDup l -> NoDup (appendUnique l v).
Proof.
  intros Hl. unfold appendUnique. destruct (existsb _ l) eqn:E; [done|]. apply NoDup_app. split_and!; [done| |apply NoDup_singleton].
  intros x Hx ->%list_elem_of_singleton. apply not_true_iff_false in E. apply E, existsb_exists.
  exists v. split; [by apply list_elem_of_In|apply Z.eqb_refl].
Qed.

Lemma sort_types_strict l : NoDup l -> StronglySorted Z.lt (sort_types l).
Proof.
  intros Hnd. unfold sort_types. pose proof (sort_Slice_sorted Z.ltb l) as Hs.
  assert (NoDup (sort_Slice Z.ltb l)) as Hnd' by (by rewrite sort_Slice_Permutation).
  induction Hs as [|x k Hs IH Hx]; [constructor|]. apply NoDup_cons in Hnd' as [Hni Hnd'].
  constructor; [by apply IH|]. rewrite Forall_forall in *. intros y Hy. specialize (Hx y Hy).
  unfold not_after in Hx. apply Z.ltb_ge in Hx. assert (x <> y) by (intros ->; done). lia.
Qed.

(** ** Names and types *)
Definition in_zone_rr (zoneApex name : string) (rr : RR) : Prop :=
  rr_Rrtype rr <> TypeNSEC3 /\ IsSubDomain lib zoneApex name = true.

Lemma in_zone_test_false apex name rr :
  (rr_Rrtype rr =? TypeNSEC3) || negb (IsSubDomain lib apex name) = false <-> in_zone_rr apex name rr.
Proof. unfold in_zone_rr. rewrite orb_false_iff, Z.eqb_neq, negb_false_iff. done. Qed.

Lemma owner_names_elem apex rrs n : n ∈ owner_names apex rrs <->
  exists rr, rr ∈ rrs /\ in_zone_rr apex (rr_Name rr) rr /\ n = Fqdn lib (rr_Name rr).
Proof.
  unfold owner_names. induction rrs as [|rr rrs IH] using rev_ind.
  { simpl. split; [set_solver|]. intros (rr & Hrr & _). by apply elem_of_nil in Hrr. }
  rewrite foldl_app, exists_elem_snoc, <- IH. cbn [foldl].
  destruct (_ || _) eqn:E.
  - split; [by left|]. intros [?|[Hz _]]; [done|]. apply in_zone_test_false in Hz. congruence.
  - apply in_zone_test_false in E. rewrite elem_of_union, elem_of_singleton. tauto.
Qed.

(** Walking up keeps the owner names and never marks one as empty. *)
Definition walk_inv (owners : gset string) (st : gset string * gset string) : Prop :=
  owners ⊆ fst st /\ snd st ## owners.
Lemma walk_up_inv owners fuel apex : forall name st, walk_inv owners st -> walk_inv owners (walk_up fuel apex name st).
Proof.
  induction fuel as [|fuel IH]; intros name st Hst; [done|]. cbn [walk_up]. destruct (_ || _); [done|].
  apply IH. destruct (bool_decide _) eqn:E; [done|]. apply bool_decide_eq_false in E.
  destruct Hst as [H1 H2]. split; simpl; set_solver.
Qed.
Lemma collect_spec apex rrs names ents : collectAuthoritativeNames apex rrs = (names, ents) ->
  NoDup names /\ forall n, n ∈ owner_names apex rrs -> n ∈ names /\ n ∉ ents.
Proof.
  unfold collectAuthoritativeNames. destruct (foldl _ _ _) as [all ents'] eqn:E. intros [= <- <-].
  split; [apply NoDup_elements|]. set (owners := owner_names apex rrs) in *.
  assert (walk_inv owners (all, ents')) as [H1 H2].
  { rewrite <- E. clear E. assert (walk_inv owners (owners, ∅)) as H0 by (split; simpl; set_solver). revert H0.
    generalize (owners, ∅ : gset string). induction (elements owners) as [|x l IH]; intros st Hst; [done|].
    apply IH. by apply walk_up_inv. }
  intros n Hn. rewrite elem_of_elements. set_solver.
Qed.

Lemma type_sets apex rrs n t : t ∈ default ∅ (foldl (add_type apex) ∅ rrs !! n) <->
  exists rr, rr ∈ rrs /\ in_zone_rr apex (Fqdn lib (rr_Name rr)) rr /\ Fqdn lib (rr_Name rr) = n /\ rr_Rrtype rr = t.
Proof.
  induction rrs as [|rr rrs IH] using rev_ind.
  { simpl. rewrite lookup_empty. split; [set_solver|]. intros (rr & Hrr & _). by apply elem_of_nil in Hrr. }
  rewrite foldl_app, exists_elem_snoc, <- IH. cbn [foldl]. unfold add_type. destruct (_ || _) eqn:E.
  - split; [by left|]. intros [?|[Hz _]]; [done|]. apply in_zone_test_false in Hz. congruence.
  - apply in_zone_test_false in E. destruct (decide (Fqdn lib (rr_Name rr) = n)) as [<-|Hne].
    + rewrite lookup_insert_eq. simpl. rewrite elem_of_union, elem_of_singleton. fold (add_type apex).
      split; [intros [->|?]; tauto|]. intros [?|(_ & _ & <-)]; tauto.
    + rewrite lookup_insert_ne by done. fold (add_type apex). tauto.
Qed.

Lemma typeBitmap_spec apex rrs n :
  NoDup (default [] (typeBitmapByName apex rrs !! n))
  /\ forall t, t ∈ default [] (typeBitmapByName apex rrs !! n) <->
    exists rr, rr ∈ rrs /\ in_zone_rr apex (Fqdn lib (rr_Name rr)) rr /\ Fqdn lib (rr_Name rr) = n /\ rr_Rrtype rr = t.
Proof.
  unfold typeBitmapByName. rewrite lookup_fmap. setoid_rewrite <- type_sets.
  destruct (foldl (add_type apex) ∅ rrs !! n) as [ts|]; simpl.
  - unfold sort_types. split; [rewrite sort_Slice_Permutation; apply NoDup_elements|].
    intros t. by rewrite sort_Slice_Permutation, elem_of_elements.
  - split; [constructor|]. intros t. split; [by intros ?%elem_of_nil|set_solver].
Qed.

Lemma nsec_bitmap_spec apex rrs ents n :
  let b := nsec_bitmap (typeBitmapByName apex rrs) ents n in
  StronglySorted Z.lt b /\ forall t, t ∈ b <-> t = TypeNSEC \/ t = TypeRRSIG \/ (n ∉ ents /\
    exists rr, rr ∈ rrs /\ in_zone_rr apex (Fqdn lib (rr_Name rr)) rr /\ Fqdn lib (rr_Name rr) = n /\ rr_Rrtype rr = t).
Proof.
  destruct (typeBitmap_spec apex rrs n) as [Hnd Hel]. unfold nsec_bitmap. split.
  - apply sort_types_strict. do 2 apply appendUnique_NoDup. destruct (bool_decide _); [constructor|done].
  - intros t. unfold sort_types. rewrite sort_Slice_Permutation, !appendUnique_elem.
    destruct (bool_decide (n ∈ ents)) eqn:E.
    + apply bool_decide_eq_true in E. split; [intros [[H%elem_of_nil| ->]| ->]; tauto|]. tauto.
    + apply bool_decide_eq_false in E. rewrite Hel. tauto.
Qed.

(** ** Rings *)
Lemma imap_map_fst {A B} (f : nat -> A -> B) (g : B -> A) l : (forall i x, g (f i x) = x) -> map g (imap f l) = l.
Proof.
  intros Hg. apply list_eq. intros i. rewrite list_lookup_fmap, list_lookup_imap.
  destruct (l !! i); simpl; [by rewrite Hg|done].
Qed.

(** The NSEC chain of a zone is closed and complete: the owners are the
    zone's names, each once, in canonical order; each record points to the next
    owner and the last one back to the first; every owner name of an in-zone
    record is in the chain, and the type bitmap of an owner lists, in strictly
    increasing order, NSEC, RRSIG and exactly the types present at that owner
    (none for an empty non-terminal). *)
Lemma nsec_chain_closed (apex : string) (rrs : list RR) (ttl : Z) (chain : list NSEC) :
  GenerateNSECChain apex rrs ttl = Ok chain ->
  let names := map nsec_Name chain in
  chain <> [] /\ NoDup names /\ StronglySorted (fun a b => canonicalDNSSECLess b a = false) names
  /\ (forall i r, chain !! i = Some r -> Some (nsec_NextDomain r) = names !! ((i + 1) mod length chain)%nat)
  /\ (forall rr, rr ∈ rrs -> in_zone_rr (Fqdn lib apex) (rr_Name rr) rr -> Fqdn lib (rr_Name rr) ∈ names)
  /\ (forall r, r ∈ chain -> StronglySorted Z.lt (nsec_TypeBitMap r)
        /\ (forall t, t ∈ nsec_TypeBitMap r -> t = TypeNSEC \/ t = TypeRRSIG \/
               exists rr, rr ∈ rrs /\ Fqdn lib (rr_Name rr) = nsec_Name r /\ rr_Rrtype rr = t)
        /\ TypeNSEC ∈ nsec_TypeBitMap r /\ TypeRRSIG ∈ nsec_TypeBitMap r
        /\ (forall rr, rr ∈ rrs -> in_zone_rr (Fqdn lib apex) (rr_Name rr) rr ->
               in_zone_rr (Fqdn lib apex) (Fqdn lib (rr_Name rr)) rr ->
               Fqdn lib (rr_Name rr) = nsec_Name r -> rr_Rrtype rr ∈ nsec_TypeBitMap r)).
Proof.
  unfold GenerateNSECChain. destruct (collectAuthoritativeNames (Fqdn lib apex) rrs) as [ns ents] eqn:Ec.
  destruct (collect_spec _ _ _ _ Ec) as [Hnd Hown]. destruct (Nat.eqb_spec (length ns) 0) as [|Hlen]; [discriminate|].
  set (sorted := sortCanonicalDNSSECNames ns). intros [= <-]. set (f := fun i name => mkNSEC name ttl _ _).
  assert (map nsec_Name (imap f sorted) = sorted) as Hmap by (by apply imap_map_fst).
  assert (sorted ≡ₚ ns) as Hp by apply sort_Slice_Permutation. cbv zeta. rewrite Hmap.
  assert (length (imap f sorted) = length sorted) as Hl by apply length_imap.
  assert (length sorted = length ns) as Hls by (by rewrite Hp).
  split_and!.
  - intros E. rewrite E in Hl. simpl in Hl. lia.
  - by rewrite Hp.
  - apply sort_Slice_sorted. apply _.
  - intros i r Hr. rewrite Hl. rewrite list_lookup_imap in Hr. destruct (sorted !! i) as [x|] eqn:Ei; [|discriminate].
    injection Hr as <-. simpl. unfold next_of.
    destruct (lookup_lt_is_Some_2 sorted ((i + 1) mod length sorted)%nat) as [y Hy].
    { apply Nat.mod_upper_bound. lia. }
    by rewrite Hy.
  - intros rr Hrr Hz. rewrite Hp. apply Hown, owner_names_elem. eauto.
  - intros r Hr. apply elem_of_lookup_imap in Hr as (i & x & -> & Hx). simpl.
    destruct (nsec_bitmap_spec (Fqdn lib apex) rrs ents x) as [Hs Hel]. split_and!; [done| | | |].
    + intros t Ht. apply Hel in Ht as [?|[?|(_ & rr & ? & _ & ? & ?)]]; [tauto|tauto|]. right. right. eauto.
    + apply Hel. tauto.
    + apply Hel. tauto.
    + intros rr Hrr Hz Hz' <-. apply Hel. right. right. split; [|eauto]. apply Hown, owner_names_elem. eauto.
Qed.

Lemma hash_names_spec params names : forall m m', hash_names params names m = Ok m' ->
  (forall n, n ∈ names -> m' !! HashName lib n (HashAlg params) (Iterations params) (Salt params) = Some n)
  /\ (forall h n, m !! h = Some n -> m' !! h = Some n)
  /\ (forall h, is_Some (m' !! h) -> is_Some (m !! h) \/
        exists n, n ∈ names /\ h = HashName lib n (HashAlg params) (Iterations params) (Salt params)).
Proof.
  induction names as [|x names IH]; intros m m' E; cbn [hash_names] in E.
  { injection E as <-. split_and!; [by intros n ?%elem_of_nil|done|by left]. }
  destruct (m !! HashName lib x (HashAlg params) (Iterations params) (Salt params)) eqn:Eh; [discriminate|].
  destruct (IH _ _ E) as (H1 & H2 & H3). split_and!.
  - intros n [->|Hn]%elem_of_cons; [|by apply H1]. apply H2. apply lookup_insert_eq.
  - intros h n Hn. apply H2. rewrite lookup_insert_ne; [done|]. intros <-. congruence.
  - intros h Hh. destruct (H3 h Hh) as [Hs|(n & Hn & ->)].
    + destruct (decide (h = HashName lib x (HashAlg params) (Iterations params) (Salt params))) as [->|Hne].
      * right. exists x. split; [by left|done].
      * left. by rewrite lookup_insert_ne in Hs by done.
    + right. exists n. split; [by right|done].
Qed.

(** The NSEC3 chain is closed and complete: the hashes of the zone's names
    (every owner name of an in-zone record among them), each once, in increasing
    order, each record pointing to the next hash and the last one back to the
    first; the type bitmap at the hash of an owner lists the types present
    there. *)
Lemma nsec3_chain_closed (apex : string) (rrs : list RR) (params : NSEC3Params) (param : NSEC3PARAM) (chain : list NSEC3) :
  GenerateNSEC3Chain apex rrs params = Ok (param, chain) ->
  let hash n := HashName lib n (HashAlg params) (Iterations params) (Salt params) in
  exists hashes, map nsec3_Name chain = map (fun h => h +:+ "." +:+ Fqdn lib apex) hashes
    /\ NoDup hashes /\ StronglySorted (fun a b => str_ltb b a = false) hashes
    /\ (forall i r, chain !! i = Some r -> Some (nsec3_NextDomain r) = hashes !! ((i + 1) mod length chain)%nat)
    /\ (forall rr, rr ∈ rrs -> in_zone_rr (Fqdn lib apex) (rr_Name rr) rr -> hash (Fqdn lib (rr_Name rr)) ∈ hashes)
    /\ (forall h, h ∈ hashes -> exists n, h = hash n)
    /\ (forall rr, rr ∈ rrs -> in_zone_rr (Fqdn lib apex) (rr_Name rr) rr -> in_zone_rr (Fqdn lib apex) (Fqdn lib (rr_Name rr)) rr ->
          exists r, r ∈ chain /\ nsec3_Name r = hash (Fqdn lib (rr_Name rr)) +:+ "." +:+ Fqdn lib apex /\ rr_Rrtype rr ∈ nsec3_TypeBitMap r).
Proof.
  unfold GenerateNSEC3Chain. destruct (collectAuthoritativeNames (Fqdn lib apex) rrs) as [ns ents] eqn:Ec.
  destruct (collect_spec _ _ _ _ Ec) as [_ Hown]. set (bitmaps := match _ !! _ with Some _ => _ | None => _ end).
  destruct (hash_names params ns ∅) as [m|e] eqn:Eh; cbn [rbind]; [|discriminate].
  destruct (hash_names_spec _ _ _ _ Eh) as (H1 & _ & H3).
  set (hashes := sort_Strings _). intros [= <- <-]. cbv zeta. exists hashes.
  assert (hashes ≡ₚ (map_to_list m).*1) as Hp by apply sort_Slice_Permutation.
  assert (forall h, h ∈ hashes <-> is_Some (m !! h)) as Hel.
  { intros h. rewrite Hp, list_elem_of_fmap. split.
    - intros ([k v] & -> & Hk%elem_of_map_to_list). simpl. eauto.
    - intros [v Hv]. exists (h, v). split; [done|]. by apply elem_of_map_to_list. }
  set (f := nsec3_record _ _ _ _ _ _). assert (length (imap f hashes) = length hashes) as Hl by apply length_imap.
  split_and!.
  - apply list_eq. intros i. rewrite !list_lookup_fmap, list_lookup_imap. by destruct (hashes !! i).
  - rewrite Hp. apply NoDup_fst_map_to_list.
  - apply sort_Slice_sorted. apply _.
  - intros i r Hr. rewrite Hl. rewrite list_lookup_imap in Hr. destruct (hashes !! i) as [x|] eqn:Ei; [|discriminate].
    injection Hr as <-. simpl. unfold next_of.
    destruct (lookup_lt_is_Some_2 hashes ((i + 1) mod length hashes)%nat) as [y Hy].
    { apply Nat.mod_upper_bound. apply lookup_lt_Some in Ei. lia. }
    by rewrite Hy.
  - intros rr Hrr Hz. apply Hel. eexists. apply H1. apply Hown, owner_names_elem. eauto.
  - intros h Hh. apply Hel in Hh. destruct (H3 h Hh) as [[? ?]|(n & _ & ->)]; [by rewrite lookup_empty in *|eauto].
  - intros rr Hrr Hz Hz'. destruct (Hown (Fqdn lib (rr_Name rr))) as [Hn Hent]; [apply owner_names_elem; eauto|]. pose proof (H1 _ Hn) as Hm.
    assert (Hh : HashName lib (Fqdn lib (rr_Name rr)) (HashAlg params) (Iterations params) (Salt params) ∈ hashes) by (apply Hel; eauto).
    apply list_elem_of_lookup in Hh as [i Hi]. eexists. split; [apply list_elem_of_lookup; exists i; rewrite list_lookup_imap, Hi; done|].
    split; [done|]. unfold f, nsec3_record. rewrite Hm. cbn [default nsec3_TypeBitMap]. rewrite bool_decide_eq_false_2 by done.
    destruct (typeBitmap_spec (Fqdn lib apex) rrs (Fqdn lib (rr_Name rr))) as [_ Ht].
    assert (Hin : rr_Rrtype rr ∈ default [] (typeBitmapByName (Fqdn lib apex) rrs !! Fqdn lib (rr_Name rr))) by (apply Ht; eauto).
    unfold bitmaps. destruct (decide (Fqdn lib (rr_Name rr) = Fqdn lib apex)) as [E|Hne].
    + rewrite E in *. destruct (typeBitmapByName (Fqdn lib apex) rrs !! Fqdn lib apex) as [b|]; [|by apply elem_of_nil in Hin].
      rewrite lookup_insert_eq. cbn. apply appendUnique_elem. by left.
    + destruct (typeBitmapByName (Fqdn lib apex) rrs !! Fqdn lib apex); (rewrite lookup_insert_ne by (intros E; by rewrite E in Hne)); done.
Qed.
End chains.

(** ** Witnesses: a name library for plain ASCII names *)
Definition plain_lib : DnsLib := mkDnsLib
  (fun n => if HasSuffix n "." then n else n +:+ ".")
  (fun p c => (p =? c)%string || HasSuffix c ("." +:+ p))
  (fun n => if (TrimSuffix n "." =? "")%string then [] else Split (TrimSuffix n ".") "."%char)
  (fun n => str_map lower_byte n)
  (fun n _ _ salt => salt +:+ n).

Definition demo_rrs : list RR :=
  [mkRR "example.com." 6; mkRR "example.com." 2; mkRR "b.x.example.com." 1; mkRR "a.example.com." 1; mkRR "other.net." 1].

Example nsec_chain_of_demo :
  exists chain, GenerateNSECChain plain_lib "example.com" demo_rrs 300 = Ok chain
    /\ map nsec_Name chain = ["example.com."; "a.example.com."; "x.example.com."; "b.x.example.com."]
    /\ NoDup (map nsec_Name chain).
Proof.
  eexists. split; [vm_compute; reflexivity|]. split; [reflexivity|].
  eapply (nsec_chain_closed plain_lib "example.com" demo_rrs 300). vm_compute. reflexivity.
Qed.

Example nsec3_chain_of_demo :
  exists hashes, NoDup hashes /\ "aaexample.com." ∈ hashes.
Proof.
  destruct (GenerateNSEC3Chain plain_lib "example.com" demo_rrs (mkNSEC3Params 1 0 1 "aa" 300)) as [[p c]|] eqn:E;
    [|vm_compute in E; discriminate].
  destruct (nsec3_chain_closed plain_lib "example.com" demo_rrs (mkNSEC3Params 1 0 1 "aa" 300) p c E)
    as (hs & _ & Hnd & _ & _ & Hin & _).
  exists hs. split; [exact Hnd|]. apply (Hin (mkRR "example.com." 6)); [left|split; [discriminate|reflexivity]].
Qed.
