(* ===== verification/Health.v ===== *)
(** * Health checks and the health engine (internal/agent/health)

    [CheckAll] combines the results of the individual DNS checks (network
    queries, whose results are inputs); the engine turns statuses into the
    signals of the state machine. *)

From S2P Require Import Prelude GoStrings BirdState.

Inductive CheckType := CheckTypeQuery | CheckTypeFullPath | CheckTypeLatency | CheckTypeSync.
#[global] Instance CheckType_eq_dec : EqDecision CheckType.
Proof. solve_decision. Defined.
#[global] Instance CheckType_countable : Countable CheckType.
Proof.
  refine (inj_countable' (fun c => match c with CheckTypeQuery => 0 | CheckTypeFullPath => 1 | CheckTypeLatency => 2 | CheckTypeSync => 3 end)
    (fun z => if z =? 0 then CheckTypeQuery else if z =? 1 then CheckTypeFullPath else if z =? 2 then CheckTypeLatency else CheckTypeSync) _).
  by intros [].
Defined.

Record CheckResult := mkCheck {
  chk_Type : CheckType; chk_Success : bool; chk_Latency : Duration; chk_Error : option string; chk_Timestamp : Time }.

Record HealthStatus := mkStatus { Healthy : bool; Checks : gmap CheckType CheckResult; LastCheck : Time }.

(** ** The response check *)
Record DNSAnswer := mkAnswer { ans_Name : string; ans_Rrtype : Z }.
Record DNSMsg := mkMsg { Rcode : Z; Authoritative : bool; Answer : list DNSAnswer }.

Section response.
Context (Fqdn : string -> string) (RcodeToString TypeToString : Z -> string).
Definition validateDNSResponse (resp : option DNSMsg) (questionName : string) (questionType : Z) (checkType : CheckType)
  : result unit :=
  match resp with
  | None => Err (Errorf "DNS query returned nil response")
  | Some m =>
    guard_err (negb (Rcode m =? 0)) (Errorf ("DNS query returned error: " +:+ RcodeToString (Rcode m))) ;;*
    guard_err (bool_decide (checkType = CheckTypeQuery) && negb (Authoritative m))
      (Errorf ("DNS response is not authoritative for " +:+ questionName)) ;;*
    guard_err (negb (existsb (fun rr => (Fqdn (ans_Name rr) =? questionName)%string && (ans_Rrtype rr =? questionType)) (Answer m)))
      (Errorf ("DNS response missing expected " +:+ TypeToString questionType +:+ " answer for " +:+ questionName))
  end.
End response.

(** ** [CheckAll]: which checks run, and what they returned *)
Record CheckerOptions := mkOpts { CheckAuthoritative : bool; CheckResolver : bool }.

Definition run_check (st : gmap CheckType CheckResult * bool) (key : CheckType) (r : CheckResult)
  : gmap CheckType CheckResult * bool :=
  (<[key := r]> (fst st), snd st && chk_Success r).

Definition CheckAll (opts : CheckerOptions) (query fullPath latency : CheckResult) (additional : list CheckResult) (now : Time)
  : HealthStatus :=
  let st0 := (∅, true) in
  let '(st1, n1) := if CheckAuthoritative opts then (run_check st0 CheckTypeQuery query, 1) else (st0, 0) in
  let '(st2, n2) := if CheckResolver opts
                    then (run_check (run_check st1 CheckTypeFullPath fullPath) CheckTypeLatency latency, n1 + 2)
                    else (st1, n1) in
  let st3 := foldl (fun st r => run_check st (chk_Type r) r) st2 additional in
  mkStatus (if n2 =? 0 then false else snd st3) (fst st3) now.

(** ** The engine *)
Record Engine := mkEngine {
  failureThreshold : Z; recoveryThreshold : Z;
  eng_fails : Z; eng_oks : Z; lastSignalType : string }.
Definition NewEngine (failThreshold recThreshold : Z) : Engine := mkEngine failThreshold recThreshold 0 0 "".

(** The scan over the checks in iteration order: hard failure (with its reason),
    latency issue.  A hard failure ends the loop. *)
Fixpoint scan_checks (checks : list (CheckType * CheckResult)) (latency : bool) : option string * bool :=
  match checks with
  | [] => (None, latency)
  | (name, check) :: checks =>
    if negb (chk_Success check) then
      if bool_decide (name = CheckTypeLatency) then scan_checks checks true
      else (Some (default "Unknown error" (chk_Error check)), latency)
    else scan_checks checks latency
  end.

Definition processHealthStatus (now : Time) (status : HealthStatus) (e : Engine) : HealthSignal * bool * Engine :=
  let '(hard, latency) := scan_checks (map_to_list (Checks status)) false in
  let hard := match hard with
              | Some r => Some r
              | None => if negb (Healthy status) && negb latency then Some "Health status is unhealthy" else None
              end in
  match hard with
  | Some reason =>
    let fails := eng_fails e + 1 in
    if failureThreshold e <=? fails
    then (mkSignal true false reason now, true, mkEngine (failureThreshold e) (recoveryThreshold e) fails 0 "hard_fail")
    else (mkSignal false false "" now, false, mkEngine (failureThreshold e) (recoveryThreshold e) fails 0 (lastSignalType e))
  | None =>
    if latency
    then (mkSignal false true "Latency threshold exceeded" now, true,
          mkEngine (failureThreshold e) (recoveryThreshold e) 0 0 "latency_degraded")
    else
      let oks := eng_oks e + 1 in
      if recoveryThreshold e <=? oks
      then (mkSignal false false "All health checks passed" now, true,
            mkEngine (failureThreshold e) (recoveryThreshold e) 0 oks "healthy")
      else (mkSignal false false "" now, false, mkEngine (failureThreshold e) (recoveryThreshold e) 0 oks (lastSignalType e))
  end.

(** [RunWithStatus]: statuses in, the signals sent out with their times. *)
Fixpoint engine_run (statuses : list (Time * HealthStatus)) (e : Engine) : list (Time * HealthSignal) * Engine :=
  match statuses with
  | [] => ([], e)
  | (now, s) :: statuses =>
    let '(signal, send, e') := processHealthStatus now s e in
    let '(out, e'') := engine_run statuses e' in
    (if send then (now, signal) :: out else out, e'')
  end.

(** ** Classification of a status *)
Definition hard_failure (s : HealthStatus) : Prop :=
  (exists t c, Checks s !! t = Some c /\ chk_Success c = false /\ t <> CheckTypeLatency)
  \/ (Healthy s = false /\ map_Forall (fun _ c => chk_Success c = true) (Checks s)).
Definition latency_failure (s : HealthStatus) : Prop :=
  exists c, Checks s !! CheckTypeLatency = Some c /\ chk_Success c = false.

(** What the scan finds does not depend on the order of the map iteration. *)
Lemma scan_checks_spec l : forall lat,
  (is_Some (fst (scan_checks l lat)) <-> exists t c, (t, c) ∈ l /\ chk_Success c = false /\ t <> CheckTypeLatency)
  /\ (fst (scan_checks l lat) = None ->
      (snd (scan_checks l lat) = true <-> lat = true \/ exists c, (CheckTypeLatency, c) ∈ l /\ chk_Success c = false)).
Proof.
  induction l as [|[t c] l IH]; intros lat; cbn [scan_checks].
  { split; [split; [by intros [? ?]|intros (? & ? & Hn & _); by apply elem_of_nil in Hn]|].
    intros _. split; [by left|]. intros [?|(? & Hn & _)]; [done|by apply elem_of_nil in Hn]. }
  assert (forall b, (exists t' c', (t', c') ∈ (t, c) :: l /\ chk_Success c' = b /\ t' <> CheckTypeLatency)
    <-> (chk_Success c = b /\ t <> CheckTypeLatency) \/ exists t' c', (t', c') ∈ l /\ chk_Success c' = b /\ t' <> CheckTypeLatency) as Hcons.
  { intros b. setoid_rewrite elem_of_cons. split.
    - intros (t' & c' & [[= -> ->]|?] & ?); eauto 10.
    - intros [?|(t' & c' & ? & ?)]; [exists t, c; tauto|exists t', c'; tauto]. }
  rewrite Hcons. destruct (chk_Success c) eqn:Es; cbn [negb].
  - destruct (IH lat) as [H1 H2]. split; [rewrite H1; split; [by right|by intros [[? _]|?]]|].
    intros Hn. rewrite (H2 Hn). split; (intros [?|(c' & Hc & Hf)]; [by left|right]); exists c'.
    + split; [by right|done].
    + apply elem_of_cons in Hc as [[= <- <-]|?]; [congruence|done].
  - case_bool_decide as Ht; subst.
    + destruct (IH true) as [H1 H2]. split; [rewrite H1; split; [by right|by intros [[_ ?]|?]]|].
      intros Hn. rewrite (H2 Hn). split; [|by left]. intros _. right. exists c. split; [by left|done].
    + simpl. split; [|done]. split; [by left|eauto].
Qed.

Lemma status_scan s : let '(hard, lat) := scan_checks (map_to_list (Checks s)) false in
  (is_Some hard \/ (hard = None /\ Healthy s = false /\ lat = false) <-> hard_failure s)
  /\ (hard = None -> (lat = true <-> latency_failure s)).
Proof.
  destruct (scan_checks_spec (map_to_list (Checks s)) false) as [H1 H2].
  destruct (scan_checks _ false) as [hard lat]. cbn [fst snd] in *. setoid_rewrite elem_of_map_to_list in H1.
  setoid_rewrite elem_of_map_to_list in H2. split.
  - unfold hard_failure. rewrite H1. split.
    + intros [?|(-> & Hh & ->)]; [by left|right]. split; [done|]. intros t c Hc.
      destruct (chk_Success c) eqn:Ec; [done|]. exfalso. destruct (decide (t = CheckTypeLatency)) as [->|Ht].
      * destruct (H2 eq_refl) as [_ H2']. discriminate H2'. right. eauto.
      * destruct (proj2 H1) as [? ?]; [|done]. eauto.
    + intros [?|[Hh Hall]]; [by left|right]. destruct hard as [r|].
      * destruct (proj1 H1) as (t & c & Hc & Hf & _); [done|]. specialize (Hall t c Hc). simpl in Hall. congruence.
      * split_and!; [done|done|]. destruct lat; [|done]. destruct (proj1 (H2 eq_refl) eq_refl) as [?|(c & Hc & Hf)]; [done|].
        specialize (Hall _ c Hc). simpl in Hall. congruence.
  - intros Hn. rewrite (H2 Hn). unfold latency_failure. split; [by intros [?|?]|by right].
Qed.

Lemma process_hard now s e : hard_failure s -> failureThreshold e <= eng_fails e + 1 ->
  exists sg e', processHealthStatus now s e = (sg, true, e') /\ HardFail sg = true
    /\ eng_fails e' = eng_fails e + 1 /\ failureThreshold e' = failureThreshold e.
Proof.
  intros Hh Hf. pose proof (status_scan s) as Hs. unfold processHealthStatus.
  destruct (scan_checks _ false) as [hard lat]. destruct Hs as [Hs _].
  assert (exists r, match hard with Some r => Some r
    | None => if negb (Healthy s) && negb lat then Some "Health status is unhealthy" else None end = Some r) as [r ->].
  { apply Hs in Hh as [[r ->]|(-> & -> & ->)]; eauto. }
  rewrite (proj2 (Z.leb_le _ _) Hf). eauto 10.
Qed.

Lemma engine_thresholds now s e : failureThreshold (snd (processHealthStatus now s e)) = failureThreshold e
  /\ (0 <= eng_fails e -> 0 <= eng_fails (snd (processHealthStatus now s e))).
Proof.
  unfold processHealthStatus. destruct (scan_checks _ false) as [hard lat].
  destruct (match hard with Some _ => _ | None => _ end) as [r|]; repeat go_case; simpl; split; done || lia.
Qed.

Lemma engine_run_app l1 : forall l2 e, fst (engine_run (l1 ++ l2) e)
  = fst (engine_run l1 e) ++ fst (engine_run l2 (snd (engine_run l1 e))).
Proof.
  induction l1 as [|[now s] l1 IH]; intros l2 e; [done|]. cbn [app engine_run].
  destruct (processHealthStatus now s e) as [[sg send] e']. specialize (IH l2 e').
  destruct (engine_run (l1 ++ l2) e') as [o1 e1], (engine_run l1 e') as [o2 e2]. cbn [fst snd] in *. subst o1.
  destruct send; done.
Qed.

Lemma engine_run_thresholds l : forall e, failureThreshold (snd (engine_run l e)) = failureThreshold e
  /\ (0 <= eng_fails e -> 0 <= eng_fails (snd (engine_run l e))).
Proof.
  induction l as [|[now s] l IH]; intros e; [done|]. cbn [engine_run].
  destruct (engine_thresholds now s e) as [H1 H2]. destruct (processHealthStatus now s e) as [[sg send] e'].
  destruct (IH e') as [H3 H4]. destruct (engine_run l e') as [o e'']. cbn [snd] in *. split; [congruence|auto].
Qed.

Lemma engine_run_hard l : forall e, Forall (fun x => hard_failure (snd x)) l -> failureThreshold e <= 1 -> 0 <= eng_fails e ->
  Forall (fun ev => HardFail (snd ev) = true) (fst (engine_run l e)) /\ length (fst (engine_run l e)) = length l.
Proof.
  induction l as [|[now s] l IH]; intros e Hall Ht Hf; [by split; constructor|].
  apply Forall_cons_1 in Hall as [Hs Hall]. cbn [snd] in Hs. cbn [engine_run].
  destruct (process_hard now s e Hs ltac:(lia)) as (sg & e' & -> & Hhard & Hfe & Hte).
  destruct (IH e' Hall ltac:(lia) ltac:(lia)) as [H1 H2]. destruct (engine_run l e') as [o e'']. cbn [fst] in *.
  split; [by constructor|simpl; by rewrite H2].
Qed.

(** ** Properties *)

(** Outages reach the routing decision: with the engine forwarding every
    status (threshold at most one), once as many consecutive statuses as the
    machine's failure threshold have a failing DNS or synchronization check (or
    are unhealthy without one), the state machine fed by the engine is unhealthy,
    whatever came before. *)
Theorem outage_detected (config : StateMachineConfig) (t0 : Time) (sm0 : StateMachine) (recovery threshold : Z)
    (before outage : list (Time * HealthStatus)) :
  NewStateMachine config t0 = Some sm0 -> threshold <= 1 ->
  Forall (fun x => hard_failure (snd x)) outage ->
  FailureThreshold config <= Z.of_nat (length outage) ->
  sm_state (process config sm0 (fst (engine_run (before ++ outage) (NewEngine threshold recovery)))) = StateUnhealthy.
Proof.
  intros Hnew Ht Hall Hlen. rewrite engine_run_app.
  destruct (engine_run_thresholds before (NewEngine threshold recovery)) as [H1 H2].
  destruct (engine_run_hard outage (snd (engine_run before (NewEngine threshold recovery))) Hall) as [H3 H4].
  { by rewrite H1. }
  { apply H2. simpl. lia. }
  eapply fails_make_unhealthy; [done|done|]. by rewrite H4.
Qed.

(** Classification of a status, independently of the order in which its
    checks are visited: the signal is a hard failure exactly when a check other
    than latency failed or the status is unhealthy with no failed check, a
    latency degradation exactly when latency alone failed, and a success signal
    is only sent when every check passed and the status is healthy. *)
Theorem signal_classification (now : Time) (s : HealthStatus) (e e' : Engine) (sg : HealthSignal) :
  processHealthStatus now s e = (sg, true, e') ->
  (HardFail sg = true <-> hard_failure s)
  /\ (LatencyDegraded sg = true <-> ~ hard_failure s /\ latency_failure s)
  /\ (HardFail sg = false -> LatencyDegraded sg = false ->
       Healthy s = true /\ map_Forall (fun _ c => chk_Success c = true) (Checks s)).
Proof.
  pose proof (status_scan s) as Hs. unfold processHealthStatus.
  destruct (scan_checks _ false) as [hard lat]. destruct Hs as [Hh Hl]. intros E. rewrite <- Hh.
  destruct hard as [r|].
  { destruct (_ <=? _); [|discriminate]. injection E as <- <-. simpl. split_and!; [|..]; try done.
    - split; [|done]. intros _. left. eauto.
    - split; [done|]. intros [Hn _]. exfalso. apply Hn. left. eauto. }
  specialize (Hl eq_refl). destruct lat.
  - rewrite andb_false_r in E. injection E as <- <-. simpl. split_and!; [|..]; try done.
    + split; [done|]. by intros [[? ?]|(_ & _ & ?)].
    + split; [|done]. intros _. split; [by intros [[? ?]|(_ & _ & ?)]|by apply Hl].
  - rewrite andb_true_r in E. destruct (Healthy s) eqn:Eh; simpl in E.
    + destruct (_ <=? _); [|discriminate]. injection E as <- <-. simpl. split_and!; [|..].
      * split; [done|]. by intros [[? ?]|(_ & ? & ?)].
      * split; [done|]. intros [_ ?%Hl]. done.
      * intros _ _. split; [done|]. intros t c Hc. destruct (chk_Success c) eqn:Ec; [done|]. exfalso.
        destruct (decide (t = CheckTypeLatency)) as [->|Ht]; [|].
        -- assert (latency_failure s) as ?%Hl by (by exists c). done.
        -- assert (hard_failure s) as Hf by (left; eauto). apply Hh in Hf as [[? ?]|(_ & ? & _)]; congruence.
    + destruct (_ <=? _); [|discriminate]. injection E as <- <-. simpl. split_and!; [|..]; try done.
      * split; [|done]. intros _. by right.
      * split; [done|]. intros [Hn _]. exfalso. apply Hn. by right.
Qed.

(** ** Witnesses *)
Definition failing : HealthStatus := mkStatus false {[ CheckTypeQuery := mkCheck CheckTypeQuery false 0 (Some "timeout") 0 ]} 0.
Definition passing : HealthStatus := mkStatus true {[ CheckTypeQuery := mkCheck CheckTypeQuery true 0 None 0 ]} 0.

Lemma failing_hard : hard_failure failing.
Proof. left. exists CheckTypeQuery. eexists. split; [reflexivity|]. done. Qed.

Lemma outage_detected_witness :
  sm_state (process demo_config demo_new
    (fst (engine_run ([(1, passing)] ++ [(2, failing); (3, failing); (4, failing)]) (NewEngine 1 1)))) = StateUnhealthy.
Proof.
  apply (outage_detected demo_config 0 demo_new 1 1); [reflexivity|lia| |vm_compute; discriminate].
  repeat (constructor; [exact failing_hard|]). constructor.
Defined.

Lemma signal_classification_witness :
  HardFail (fst (fst (processHealthStatus 7 failing (NewEngine 1 1)))) = true <-> hard_failure failing.
Proof. exact (proj1 (signal_classification 7 failing (NewEngine 1 1) _ _ eq_refl)). Defined.
