(* ===== verification/Http.v ===== *)
(** * Replies of the controller API ([internal/controller/api/handler.go])

    Entity tags, the headers and bodies of replies, and the replies that carry a
    signed zone. *)

From S2P Require Import Prelude GoStrings GoStringsFacts Sha256 Zone ZonePath Store.

(** ** Entity tags and headers *)
Definition formatETag (version : string) : string := str1 dquote +:+ version +:+ str1 dquote.

Definition etag_candidate (part : string) : string := TrimByte dquote (TrimPrefix (TrimSpace part) "W/").
Definition etagMatches (ifNoneMatch current : string) : bool :=
  (TrimSpace ifNoneMatch =? "*")%string
  || existsb (fun part => (etag_candidate part =? current)%string) (Split ifNoneMatch ","%char).

(** If-Match uses strong comparison: weak tags never match. *)
Definition strongETagMatches (ifMatch current : string) : bool :=
  existsb (fun part => let tag := TrimSpace part in
    negb (HasPrefix tag "W/") && (TrimByte dquote tag =? current)%string) (Split ifMatch ","%char).

Definition sha256HexAndHash8 (s : string) : string * string :=
  let hexSum := sha256_hex s in
  if len hexSum <? 8 then (hexSum, hexSum) else (hexSum, str_take 8 hexSum).

Definition signArtifact (body key : string) : string := base64_EncodeToString (hmac_sha256 key body).

(** A reply under construction: [c.Header] sets a header, or removes it when
    the value is empty. *)
Record pagination := mkPagination { pg_offset : Z; pg_limit : Z; pg_count : Z; pg_next : option Z }.
Inductive reply_body :=
  | NoBody
  | Text (s : string)
  | ErrorBody (code : ErrorCode) (message : string)
  | StatusBody (fields : list (string * string))
  | ZoneBody (z : Zone)
  | RecordsBody (records : list ZRecord)
  | ZonesBody (zones : list Zone) (p : pagination)
  | SummariesBody (zones : list ZoneSummary) (p : pagination)
  | VersionsBody (versions : list ZoneVersion) (p : pagination)
  | MetadataBody (zone version : string) (serial : Z) (hash hash8 : string) (dnssec_enabled : bool)
  | ImportBody (created : Zone) (duplicates : Z).
Record reply := mkReply { r_status : Z; r_headers : gmap string string; r_body : reply_body }.
Definition set_header (k v : string) (h : gmap string string) : gmap string string :=
  if (v =? "")%string then delete k h else <[k := v]> h.

Record signedZoneResult := mkSigned {
  sz_zoneName : string; sz_version : string; sz_serial : Z; sz_zoneFile : string; sz_dnssec : option DNSSECConfig }.

Section signed.
(** The attachment header value ([mime.FormatMediaType]) and the signing key. *)
Context (contentDisposition : string -> string).
Context (artifactSignatureKey artifactSignatureKeyID : string).

Definition setArtifactSignatureHeaders (body : string) (h : gmap string string) : gmap string string :=
  if (artifactSignatureKey =? "")%string then h
  else
    let h := set_header "X-Zone-Signature" (signArtifact body artifactSignatureKey) h in
    if negb (artifactSignatureKeyID =? "")%string
    then set_header "X-Zone-Signature-Key-ID" artifactSignatureKeyID h else h.

Definition signedZoneErrorStatus (err : error) : Z :=
  if errors_Is err ErrSignedArtifactUnavailable || errors_Is err ErrSignedArtifactExpired then 503 else 500.
Definition writeSignedZoneError (message : string) (err : error) (h : gmap string string) : reply :=
  let status := signedZoneErrorStatus err in
  if status =? 503 then mkReply status h (ErrorBody ErrorCodeUnavailable message)
  else mkReply status h (ErrorBody ErrorCodeInternal message).

Definition artifact_headers (sz : signedZoneResult) : gmap string string :=
  let '(hashHex, hash8) := sha256HexAndHash8 (sz_zoneFile sz) in
  setArtifactSignatureHeaders (sz_zoneFile sz)
    (set_header "X-Zone-Hash8" hash8
      (set_header "X-Zone-Hash" hashHex
        (set_header "X-Zone-Serial" (Itoa (sz_serial sz))
          (set_header "ETag" (formatETag hashHex) ∅)))).

(** The reply that serves a signed zone. *)
Definition signed_zone_reply (ifNoneMatch : string) (signedZone : signedZoneResult) : reply :=
  let hashHex := fst (sha256HexAndHash8 (sz_zoneFile signedZone)) in
  let h := artifact_headers signedZone in
  if negb (ifNoneMatch =? "")%string && etagMatches ifNoneMatch hashHex then mkReply 304 h NoBody
  else mkReply 200 (set_header "Content-Disposition" (contentDisposition (sz_zoneName signedZone))
                     (set_header "Content-Type" "text/plain; charset=utf-8" h))
         (Text (sz_zoneFile signedZone)).
End signed.

(** ** Lemmas *)
Lemma get_header k k' v h : default "" (set_header k v h !! k') = if (k =? k')%string then v else default "" (h !! k').
Proof.
  unfold set_header. destruct (String.eqb_spec k k') as [->|Hne]; destruct (String.eqb_spec v "") as [->|Hv].
  - by rewrite lookup_delete_eq.
  - by rewrite lookup_insert, decide_True.
  - by rewrite lookup_delete_ne.
  - by rewrite lookup_insert_ne.
Qed.
Lemma hash8_fst s : fst (sha256HexAndHash8 s) = sha256_hex s.
Proof. unfold sha256HexAndHash8. cbv zeta. by destruct (len (sha256_hex s) <? 8). Qed.
