(* ===== verification/SyncClient.v ===== *)
(** * The agent's controller client ([internal/agent/sync/client.go])

    Listing the controller's zones page by page, and fetching a signed zone
    artifact: the conditional request, the retry loop, and the checks of
    checksum, signature and serial that an artifact must pass.  The network
    ([Do], [Wait]), the decoding of a list page and the zone file parser are
    parameters. *)

From S2P Require Import Prelude GoStrings GoStringsFacts Sha256.

(** ** Strings *)

(** [strings.EqualFold] where one side consists of hexadecimal digits: no rune
    outside ASCII folds to one, so case folding is that of ASCII. *)
Definition EqualFold (s t : string) : bool := (str_map lower_byte s =? str_map lower_byte t)%string.

(** [strconv.ParseUint(s, 10, 32)]. *)
Definition ParseUint32 (s : string) : option Z :=
  if (s =? "")%string then None
  else match digits_value 0 s with
       | Some v => if v <=? MaxUint32 then Some v else None
       | None => None
       end.

(** ** Configuration and messages *)
Definition listZonesPageLimit : Z := 1000.
Definition maxErrorResponseBodySize : Z := 4 * 1024.
Definition DefaultControllerClientMaxResponseBytes : Z := 64 * 1024 * 1024.

Record Client := mkClient {
  baseURL : string; apiKey : string; RetryAttempts : Z; maxResponseBytes : Z;
  verifyChecksums : bool; verifySignatures : bool; signatureKey : string; signatureKeys : gmap string string }.

Record ZoneInfo := mkInfo { zi_Name : string; zi_Version : string; zi_ETag : string }.
Record SignedZoneArtifact := mkArtifact {
  Content : string; ETag : string; art_Serial : Z; Hash : string; NotModified : bool }.
Record listZonesResponse := mkListResponse { lr_Zones : list ZoneInfo; lr_Offset : Z; lr_Limit : Z; lr_Count : Z }.

(** A request is its URL and the two headers the client sets (empty when not
    set); a response is a status, the header values ([""] when absent) and a
    body, whose read may end in an error. *)
Record HttpRequest := mkHttpReq { url : string; hdr_APIKey : string; hdr_IfNoneMatch : string }.
Record HttpResponse := mkHttpResp {
  StatusCode : Z; Header_Get : string -> string; Body : string; BodyErr : option error }.
Definition StatusOK : Z := 200.
Definition StatusNotModified : Z := 304.

(** ** ETags and headers *)
Definition isInvalidETagChar (r : Z) : bool := (r <? 32) || (r =? 127).
Definition etag_special (c : ascii) : bool :=
  Ascii.eqb c dquote || Ascii.eqb c ","%char || Ascii.eqb c (chr 92).

Definition etagValue (etag : string) : string :=
  TrimByte dquote (TrimSpace (TrimPrefix (TrimSpace etag) "W/")).

Definition normalizeIfNoneMatch (etag : string) : string :=
  let e := TrimSpace etag in
  if (e =? "")%string then ""
  else
    let e := TrimByte dquote (TrimSpace (TrimPrefix e "W/")) in
    if (e =? "")%string || (e =? "*")%string || str_exists etag_special e || ContainsFunc e isInvalidETagChar then ""
    else str1 dquote +:+ e +:+ str1 dquote.

Definition isHex (s : string) : bool := bool_decide (is_Some (hex_DecodeString s)).

Definition validateFullChecksumHeader (zoneHash : string) : result unit :=
  guard_err (zoneHash =? "")%string (Errorf "missing full checksum header in response") ;;*
  guard_err (negb (len zoneHash =? 64)) 
    (Errorf ("invalid checksum header length: expected 64 hex chars, got " +:+ Itoa (len zoneHash))) ;;*
  guard_err (negb (isHex zoneHash)) (Errorf "invalid checksum header").

Definition parseZoneSerialHeader (value : string) : result Z :=
  if (TrimSpace value =? "")%string then Err (Errorf "missing X-Zone-Serial header in response")
  else match ParseUint32 (TrimSpace value) with
       | Some v => Ok (u32 v)
       | None => Err (Errorf "invalid X-Zone-Serial header")
       end.

(** [url.PathEscape]. *)
Definition unreserved (c : ascii) : bool :=
  let b := byte c in
  (48 <=? b) && (b <=? 57) || (65 <=? b) && (b <=? 90) || (97 <=? b) && (b <=? 122)
  || str_exists (Ascii.eqb c) "-_.~$&+=:@".
Definition upper_hex (d : Z) : ascii := if d <? 10 then chr (48 + d) else chr (55 + d).
Fixpoint PathEscape (s : string) : string :=
  match s with
  | EmptyString => ""
  | String a t =>
    if unreserved a then String a (PathEscape t)
    else String "%"%char (String (upper_hex (byte a / 16)) (String (upper_hex (byte a mod 16)) (PathEscape t)))
  end.

(** ** Artifact signatures *)
Definition artifactSignature (body key : string) : string := base64_EncodeToString (hmac_sha256 key body).

Section signatures.
Context `{UnicodeTables}.

(** The key ring as the configuration map is visited: entries with an empty
    identifier or key are dropped. *)
Definition add_key (ring : gmap string string) (kv : string * string) : gmap string string :=
  let keyID := ToLower (TrimSpace (fst kv)) in
  let key := TrimSpace (snd kv) in
  if negb (keyID =? "")%string && negb (key =? "")%string then <[keyID := key]> ring else ring.
Definition normalizeSignatureKeyRing (keys : list (string * string)) : gmap string string := foldl add_key ∅ keys.

Definition SetVerifyChecksums (enabled : bool) (c : Client) : Client :=
  mkClient (baseURL c) (apiKey c) (RetryAttempts c) (maxResponseBytes c) enabled (verifySignatures c) (signatureKey c) (signatureKeys c).
Definition SetSignatureVerificationKeys (enabled : bool) (key : string) (keys : list (string * string)) (c : Client) : Client :=
  mkClient (baseURL c) (apiKey c) (RetryAttempts c) (maxResponseBytes c) (verifyChecksums c)
    enabled (TrimSpace key) (normalizeSignatureKeyRing keys).

Definition artifactSignatureVerificationKey (keyIDHeader legacyKey : string) (keyRing : gmap string string) : result string :=
  let keyID := ToLower (TrimSpace keyIDHeader) in
  if negb (keyID =? "")%string then
    let key := TrimSpace (default "" (keyRing !! keyID)) in
    if (key =? "")%string then
      let legacyKey := TrimSpace legacyKey in
      if negb (legacyKey =? "")%string && (size keyRing =? 0)%nat then Ok legacyKey
      else Err (Errorf ("unknown signature key id: " +:+ keyID))
    else Ok key
  else
    let legacyKey := TrimSpace legacyKey in
    if negb (legacyKey =? "")%string then Ok legacyKey
    else match map_to_list keyRing with
         | [] => Err (Errorf "signature verification enabled but controller signature key is empty")
         | [(_, key)] => Ok (TrimSpace key)
         | _ => Err (Errorf "missing signature key id header in response")
         end.

Definition signature_payload (signatureHeader : string) : string :=
  TrimPrefix (TrimPrefix (TrimSpace signatureHeader) "sha256=") "hmac-sha256=".

Definition verifyArtifactSignature (body signatureHeader keyIDHeader legacyKey : string) (keyRing : gmap string string) : result unit :=
  let* key := artifactSignatureVerificationKey keyIDHeader legacyKey keyRing in
  if (TrimSpace signatureHeader =? "")%string then Err (Errorf "missing signature header in response")
  else match base64_DecodeString (signature_payload signatureHeader) with
       | None => Err (Errorf "invalid signature header")
       | Some actual =>
         guard_err (negb (bool_decide (actual = hmac_sha256 key body))) (Errorf "signature verification failed")
       end.
End signatures.

(** ** Response bodies *)

(** [io.ReadAll(io.LimitReader(body, n))]: at most [n] bytes; a read error
    surfaces only when the body ends before them. *)
Definition read_limited (n : Z) (resp : HttpResponse) : result string :=
  if n <=? len (Body resp) then Ok (str_take (Z.to_nat n) (Body resp))
  else match BodyErr resp with Some e => Err e | None => Ok (Body resp) end.

Definition readLimitedBody (limit : Z) (resp : HttpResponse) : result string :=
  let* data := read_limited (i64 (limit + 1)) resp in
  guard_err (limit <? len data) (Errorf ("response body exceeds limit of " +:+ Itoa limit +:+ " bytes")) ;;*
  Ok data.
Definition readResponseBody (cl : Client) (resp : HttpResponse) : result string :=
  readLimitedBody (if maxResponseBytes cl <=? 0 then DefaultControllerClientMaxResponseBytes else maxResponseBytes cl) resp.

Definition readErrorResponseBody (resp : HttpResponse) : string :=
  match read_limited (maxErrorResponseBodySize + 1) resp with
  | Err _ => "<failed to read body>"
  | Ok data =>
    if maxErrorResponseBodySize <? len data
    then str_take (Z.to_nat maxErrorResponseBodySize) data +:+ "...(truncated)" else data
  end.
Definition unexpected_status (resp : HttpResponse) : error :=
  Errorf ("unexpected status code: " +:+ Itoa (StatusCode resp) +:+ ", body: " +:+ readErrorResponseBody resp).

(** ** Requests *)
Inductive parsedRR := RR_SOA (serial : Z) | RR_other.

Section client.
Context `{UnicodeTables}.
(** [Do] sends one request; [Wait] is the pause before a retry, which ends in
    the context's error when the context is done first. *)
Context {C : Type} (Do : HttpRequest -> C -> result HttpResponse * C) (Wait : C -> option error * C).
Context (url_ok : string -> bool) (decodeList : string -> result listZonesResponse)
        (ParseBINDZone : string -> string -> result (list parsedRR)).
Context (cl : Client).

Fixpoint first_soa (rrs : list parsedRR) : option Z :=
  match rrs with
  | [] => None
  | RR_SOA serial :: _ => Some serial
  | RR_other :: t => first_soa t
  end.
Definition parseZoneSOASerial (zoneName zoneContent : string) : result Z :=
  let* parsed := ParseBINDZone zoneContent zoneName in
  match first_soa parsed with Some serial => Ok serial | None => Err (Errorf "missing SOA record") end.

(** The loop from attempt number [attempt] with [n] attempts left. *)
Fixpoint retry_loop (n : nat) (attempt : Z) (lastErr : error) (req : HttpRequest) (c : C) : result HttpResponse * C :=
  match n with
  | O => (Err (Wrapf "all retry attempts exhausted" lastErr), c)
  | S n' =>
    let '(stopped, c) := if 0 <? attempt then Wait c else (None, c) in
    match stopped with
    | Some e => (Err e, c)
    | None =>
      match Do req c with
      | (Err e, c) => retry_loop n' (attempt + 1) (Wrapf ("attempt " +:+ Itoa (attempt + 1) +:+ " failed") e) req c
      | (Ok resp, c) =>
        if (StatusCode resp <? 500) || (StatusCode resp =? StatusNotModified) then (Ok resp, c)
        else retry_loop n' (attempt + 1)
               (Errorf ("attempt " +:+ Itoa (attempt + 1) +:+ " returned status " +:+ Itoa (StatusCode resp))) req c
      end
    end
  end.
Definition doWithRetry (req : HttpRequest) (c : C) : result HttpResponse * C :=
  retry_loop (Z.to_nat (RetryAttempts cl + 1)) 0 (Errorf "%!w(<nil>)") req c.

Definition conditionalRequestETag (currentETag currentBody : string) : string :=
  let requestETag := normalizeIfNoneMatch currentETag in
  if (requestETag =? "")%string then ""
  else if negb (verifySignatures cl) then requestETag
  else if (currentBody =? "")%string then ""
  else
    let expectedHash := etagValue requestETag in
    if negb (len expectedHash =? 64) then ""
    else if negb (isHex expectedHash) then ""
    else if negb (EqualFold (sha256_hex currentBody) expectedHash) then ""
    else requestETag.

Definition checksum_mismatch (what expected got : string) : error := Errorf (what +:+ expected +:+ ", got " +:+ got).

(** The response to a conditional request that says nothing changed. *)
Definition not_modified (requestETag currentETag currentBody : string) (resp : HttpResponse) : result SignedZoneArtifact :=
  guard_err (requestETag =? "")%string (Errorf "received 304 Not Modified without a conditional ETag") ;;*
  let responseETag := normalizeIfNoneMatch (Header_Get resp "ETag") in
  guard_err (responseETag =? "")%string (Errorf "missing ETag header in 304 response") ;;*
  guard_err (negb (responseETag =? requestETag)%string)
    (checksum_mismatch "ETag mismatch in 304 response: requested " requestETag responseETag) ;;*
  let zoneHash := Header_Get resp "X-Zone-Hash" in
  (if verifyChecksums cl then
     wrap "invalid checksum header in 304 response" (validateFullChecksumHeader zoneHash) ;;*
     guard_err (negb (EqualFold (etagValue responseETag) zoneHash)) (Errorf "checksum header mismatch in 304 response") ;;*
     (if negb (currentBody =? "")%string then
        guard_err (negb (EqualFold (sha256_hex currentBody) zoneHash)) (Errorf "local artifact checksum mismatch in 304 response")
      else Ok tt)
   else Ok tt) ;;*
  (if verifySignatures cl then
     wrap "invalid signature header in 304 response"
       (verifyArtifactSignature currentBody (Header_Get resp "X-Zone-Signature") (Header_Get resp "X-Zone-Signature-Key-ID")
          (signatureKey cl) (signatureKeys cl))
   else Ok tt) ;;*
  Ok (mkArtifact "" currentETag 0 "" true).

(** A full response: the body must pass every enabled check. *)
Definition full_response (zoneName : string) (resp : HttpResponse) : result SignedZoneArtifact :=
  let* body := wrap "failed to read response body" (readResponseBody cl resp) in
  let newETag := Header_Get resp "ETag" in
  guard_err (newETag =? "")%string (Errorf "missing ETag header in response") ;;*
  let zoneHash := Header_Get resp "X-Zone-Hash" in
  (if verifyChecksums cl then
     validateFullChecksumHeader zoneHash ;;*
     guard_err (negb (EqualFold (sha256_hex body) zoneHash))
       (checksum_mismatch "checksum verification failed: expected " zoneHash (sha256_hex body))
   else Ok tt) ;;*
  (if verifySignatures cl then
     verifyArtifactSignature body (Header_Get resp "X-Zone-Signature") (Header_Get resp "X-Zone-Signature-Key-ID")
       (signatureKey cl) (signatureKeys cl)
   else Ok tt) ;;*
  let* bodySerial := wrap "failed to parse signed zone SOA serial" (parseZoneSOASerial zoneName body) in
  let* headerSerial := parseZoneSerialHeader (Header_Get resp "X-Zone-Serial") in
  guard_err (negb (headerSerial =? bodySerial))
    (Errorf ("zone serial header mismatch: X-Zone-Serial " +:+ Itoa headerSerial +:+ ", SOA serial " +:+ Itoa bodySerial)) ;;*
  Ok (mkArtifact body newETag bodySerial zoneHash false).

Definition fetchSignedZoneArtifact (zoneName currentETag currentBody : string) (c : C) : result SignedZoneArtifact * C :=
  let endpoint := baseURL cl +:+ "/api/v1/zones/" +:+ PathEscape zoneName +:+ "/signed" in
  if negb (url_ok endpoint) then (Err (Errorf "failed to create request"), c)
  else
    let requestETag := conditionalRequestETag currentETag currentBody in
    match doWithRetry (mkHttpReq endpoint (apiKey cl) requestETag) c with
    | (Err e, c) => (Err e, c)
    | (Ok resp, c) =>
      (if StatusCode resp =? StatusNotModified then not_modified requestETag currentETag currentBody resp
       else if negb (StatusCode resp =? StatusOK) then Err (unexpected_status resp)
       else full_response zoneName resp, c)
    end.

(** ** Listing the zones *)
Definition listZonesPage (offset limit : Z) (c : C) : result listZonesResponse * C :=
  let endpoint := baseURL cl +:+ "/api/v1/zones" in
  if negb (url_ok endpoint) then (Err (Errorf "failed to parse request URL"), c)
  else
    match doWithRetry (mkHttpReq (endpoint +:+ "?fields=summary&limit=" +:+ Itoa limit +:+ "&offset=" +:+ Itoa offset) (apiKey cl) "") c with
    | (Err e, c) => (Err e, c)
    | (Ok resp, c) =>
      (guard_err (negb (StatusCode resp =? StatusOK)) (unexpected_status resp) ;;*
       let* body := wrap "failed to read response body" (readResponseBody cl resp) in
       wrap "failed to decode response" (decodeList body), c)
    end.

Definition hasPagination (r : listZonesResponse) : bool :=
  negb (lr_Offset r =? 0) || negb (lr_Limit r =? 0) || negb (lr_Count r =? 0).

Definition validateListZonesPagination (r : listZonesResponse) (expectedOffset expectedLimit : Z) : result unit :=
  guard_err (negb (lr_Offset r =? expectedOffset)) (Errorf "invalid zones pagination offset") ;;*
  guard_err (negb (lr_Limit r =? expectedLimit)) (Errorf "invalid zones pagination limit") ;;*
  guard_err (lr_Count r <? 0) (Errorf "invalid zones pagination count: must be non-negative") ;;*
  guard_err (negb (lr_Count r =? Z.of_nat (length (lr_Zones r)))) (Errorf "invalid zones pagination count") ;;*
  guard_err (lr_Limit r <? lr_Count r) (Errorf "invalid zones pagination count: exceeds limit").

Definition zone_info (z : ZoneInfo) : ZoneInfo := mkInfo (zi_Name z) (zi_Version z) (zi_Version z).

(** The page loop; [None] when [fuel] pages do not reach the end (nothing but
    the controller's answers bounds the number of pages). *)
Fixpoint list_pages (fuel : nat) (offset : Z) (zones : list ZoneInfo) (c : C) : option (result (list ZoneInfo) * C) :=
  match fuel with
  | O => None
  | S fuel' =>
    match listZonesPage offset listZonesPageLimit c with
    | (Err e, c) => Some (Err e, c)
    | (Ok r, c) =>
      let zones := zones ++ map zone_info (lr_Zones r) in
      if negb (hasPagination r) then Some (Ok zones, c)
      else match validateListZonesPagination r offset listZonesPageLimit with
           | Err e => Some (Err e, c)
           | Ok _ =>
             if (lr_Count r =? 0) || (lr_Count r <? lr_Limit r) then Some (Ok zones, c)
             else list_pages fuel' (i64 (offset + lr_Count r)) zones c
           end
    end
  end.
Definition ListZones (fuel : nat) (c : C) : option (result (list ZoneInfo) * C) := list_pages fuel 0 [] c.
End client.

(** ** Properties *)

(** The keys a client trusts: the configured key, or one of its key ring. *)
Definition trusted_key (cl : Client) (key : string) : Prop :=
  (key = TrimSpace (signatureKey cl) /\ key <> "") \/ (exists id k, signatureKeys cl !! id = Some k /\ key = TrimSpace k).

(** [body] carries a valid code under a trusted key. *)
Definition authentic (cl : Client) (body signatureHeader : string) : Prop :=
  exists key, trusted_key cl key /\ base64_DecodeString (signature_payload signatureHeader) = Some (hmac_sha256 key body).

Section facts.
Context `{UnicodeTables}.

Lemma verification_key_trusted keyID cl key :
  artifactSignatureVerificationKey keyID (signatureKey cl) (signatureKeys cl) = Ok key -> trusted_key cl key.
Proof.
  unfold artifactSignatureVerificationKey. cbv zeta. intros Hk. repeat go_case; simplify_eq; bool_prop.
  - by left.
  - right. exists (ToLower (TrimSpace keyID)). destruct (signatureKeys cl !! _) as [k|] eqn:E; [by exists k|].
    by destruct Heqb0.
  - by left.
  - right. exists s, s0. split; [|done]. apply elem_of_map_to_list. rewrite Heql. set_solver.
Qed.

Lemma verify_authentic body sig keyID cl :
  verifyArtifactSignature body sig keyID (signatureKey cl) (signatureKeys cl) = Ok tt -> authentic cl body sig.
Proof.
  unfold verifyArtifactSignature. intros (key & Hk & Hv)%rbind_ok. exists key.
  split; [by apply (verification_key_trusted keyID)|]. repeat go_case; simplify_eq.
  apply guard_err_ok, negb_false_iff, bool_decide_eq_true in Hv. by f_equal.
Qed.

Lemma EqualFold_hex s t : EqualFold s t = true -> str_map lower_byte s = str_map lower_byte t.
Proof. intros. by apply String.eqb_eq. Qed.

Lemma conditional_etag cl etag body :
  conditionalRequestETag cl etag body <> "" ->
  conditionalRequestETag cl etag body = normalizeIfNoneMatch etag
  /\ (verifySignatures cl = true -> EqualFold (sha256_hex body) (etagValue (normalizeIfNoneMatch etag)) = true).
Proof.
  unfold conditionalRequestETag. generalize (normalizeIfNoneMatch etag) as r. intros r. cbv zeta.
  destruct (r =? "")%string; [done|]. destruct (verifySignatures cl); [|done]. cbn [negb].
  repeat case_match; try done. by bool_prop.
Qed.

(** What the client has checked of an artifact it returns, given the response
    it is built from. *)
Definition checked_content (ParseBINDZone : string -> string -> result (list parsedRR)) (cl : Client)
    (zoneName : string) (resp : HttpResponse) (a : SignedZoneArtifact) : Prop :=
  StatusCode resp = StatusOK /\ readResponseBody cl resp = Ok (Content a) /\ ETag a = Header_Get resp "ETag" /\ ETag a <> ""
  /\ parseZoneSOASerial ParseBINDZone zoneName (Content a) = Ok (art_Serial a)
  /\ parseZoneSerialHeader (Header_Get resp "X-Zone-Serial") = Ok (art_Serial a)
  /\ (verifyChecksums cl = true -> str_map lower_byte (Header_Get resp "X-Zone-Hash") = str_map lower_byte (sha256_hex (Content a)))
  /\ (verifySignatures cl = true -> authentic cl (Content a) (Header_Get resp "X-Zone-Signature")).

Definition checked_unchanged (cl : Client) (currentETag currentBody : string) (resp : HttpResponse) (a : SignedZoneArtifact) : Prop :=
  StatusCode resp = StatusNotModified /\ ETag a = currentETag
  /\ normalizeIfNoneMatch currentETag <> "" /\ normalizeIfNoneMatch (Header_Get resp "ETag") = normalizeIfNoneMatch currentETag
  /\ (verifyChecksums cl = true -> currentBody <> "" ->
       str_map lower_byte (Header_Get resp "X-Zone-Hash") = str_map lower_byte (sha256_hex currentBody))
  /\ (verifySignatures cl = true -> currentBody <> "" /\ authentic cl currentBody (Header_Get resp "X-Zone-Signature")).

Lemma full_response_checked P cl zoneName resp a :
  StatusCode resp = StatusOK -> full_response P cl zoneName resp = Ok a ->
  NotModified a = false /\ checked_content P cl zoneName resp a.
Proof.
  intros Hs. unfold full_response, checked_content. cbv zeta. intros Hr. inv_ok. simplify_eq. bool_prop. simplify_eq.
  split_and!; try done; cbn [Content].
  - intros Hc. rewrite Hc in *. inv_ok. bool_prop. by symmetry; apply EqualFold_hex.
  - intros Hv. rewrite Hv in *. by eapply verify_authentic.
Qed.

Lemma not_modified_checked cl etag body resp a :
  StatusCode resp = StatusNotModified -> not_modified cl (conditionalRequestETag cl etag body) etag body resp = Ok a ->
  NotModified a = true /\ checked_unchanged cl etag body resp a.
Proof.
  intros Hs. unfold not_modified, checked_unchanged. cbv zeta. intros Hr. inv_ok. simplify_eq. bool_prop.
  destruct (conditional_etag cl etag body) as [Hc Hv]; [done|]. rewrite Hc in *.
  split_and!; try done; cbn [ETag].
  - intros Hk Hb. rewrite Hk in *. inv_ok. bool_prop. apply String.eqb_neq in Hb. rewrite Hb in *. cbn [negb] in *. inv_ok. bool_prop.
    by symmetry; apply EqualFold_hex.
  - intros Hs'. rewrite Hs' in *. split.
    + intros ->. unfold conditionalRequestETag in Hc. rewrite Hs' in Hc. cbv zeta in Hc. cbn [negb] in Hc.
      destruct (normalizeIfNoneMatch etag =? "")%string; by rewrite <- Hc in *.
    + inv_ok. by eapply verify_authentic.
Qed.

(** The response comes from the last request sent. *)
Lemma retry_last {C} (Do : HttpRequest -> C -> result HttpResponse * C) Wait n attempt e req c resp c' :
  retry_loop Do Wait n attempt e req c = (Ok resp, c') -> exists c0, Do req c0 = (Ok resp, c').
Proof.
  revert attempt e c. induction n as [|n IH]; intros attempt e c; cbn [retry_loop]; [discriminate|].
  destruct (if 0 <? attempt then Wait c else (None, c)) as [[err|] c1]; [discriminate|].
  destruct (Do req c1) as [[r|er] c2] eqn:Hd; [|apply IH].
  destruct (_ || _); [|apply IH]. intros [= -> ->]. by exists c1.
Qed.
End facts.

Lemma fetch_checked `{UnicodeTables} {C : Type} (Do : HttpRequest -> C -> result HttpResponse * C)
    (Wait : C -> option error * C) (url_ok : string -> bool) (ParseBINDZone : string -> string -> result (list parsedRR))
    (cl : Client) (zoneName currentETag currentBody : string) (c c' : C) (a : SignedZoneArtifact) :
  fetchSignedZoneArtifact Do Wait url_ok ParseBINDZone cl zoneName currentETag currentBody c = (Ok a, c') ->
  let req := mkHttpReq (baseURL cl +:+ "/api/v1/zones/" +:+ PathEscape zoneName +:+ "/signed") (apiKey cl)
               (conditionalRequestETag cl currentETag currentBody) in
  exists c0 resp, Do req c0 = (Ok resp, c')
    /\ (NotModified a = false -> checked_content ParseBINDZone cl zoneName resp a)
    /\ (NotModified a = true -> checked_unchanged cl currentETag currentBody resp a).
Proof.
  unfold fetchSignedZoneArtifact. cbv zeta. destruct (url_ok _); [|discriminate]. cbn [negb].
  destruct (doWithRetry _ _ _ _ _) as [[resp|e] c1] eqn:Hd; intros [= Hr <-].
  destruct (retry_last _ _ _ _ _ _ _ _ _ Hd) as [c0 Hc0]. exists c0, resp. split; [done|].
  destruct (Z.eqb_spec (StatusCode resp) StatusNotModified) as [Hn|Hn].
  - destruct (not_modified_checked _ _ _ _ _ Hn Hr) as [-> Hc]. done.
  - destruct (Z.eqb_spec (StatusCode resp) StatusOK) as [Ho|Ho]; [|discriminate].
    destruct (full_response_checked _ _ _ _ _ Ho Hr) as [-> Hc]. done.
Qed.

(** C20: Artifact integrity: an artifact returned as new content is the body of a
    200 response to this very request, within the size limit; its serial is the
    one of its SOA record and of the response header; with checksums on its
    SHA-256 is the announced one, and with signatures on it carries a valid
    HMAC under a key the client trusts.  An artifact returned as unchanged comes
    from a 304 response to a conditional request for the same entity tag, and
    the same checks hold of the local copy. *)
Theorem fetched_artifact_verified `{UnicodeTables} {C : Type} (Do : HttpRequest -> C -> result HttpResponse * C)
    (Wait : C -> option error * C) (url_ok : string -> bool) (ParseBINDZone : string -> string -> result (list parsedRR))
    (cl : Client) (zoneName currentETag currentBody : string) (c c' : C) (a : SignedZoneArtifact) :
  fetchSignedZoneArtifact Do Wait url_ok ParseBINDZone cl zoneName currentETag currentBody c = (Ok a, c') ->
  let req := mkHttpReq (baseURL cl +:+ "/api/v1/zones/" +:+ PathEscape zoneName +:+ "/signed") (apiKey cl)
               (conditionalRequestETag cl currentETag currentBody) in
  exists c0 resp, Do req c0 = (Ok resp, c')
    /\ (NotModified a = false -> checked_content ParseBINDZone cl zoneName resp a)
    /\ (NotModified a = true -> checked_unchanged cl currentETag currentBody resp a).
Proof. apply fetch_checked. Qed.

(** ** Listing *)
Section listing.
Context `{UnicodeTables} {C : Type} (Do : HttpRequest -> C -> result HttpResponse * C) (Wait : C -> option error * C).
Context (url_ok : string -> bool) (decodeList : string -> result listZonesResponse) (cl : Client).

(** The page of [all] a controller answers with. *)
Definition page_of (all : list ZoneInfo) (offset limit : Z) : listZonesResponse :=
  let zs := take (Z.to_nat limit) (drop (Z.to_nat offset) all) in
  mkListResponse zs offset limit (Z.of_nat (length zs)).

(** The controller answers every page request from the same listing. *)
Definition serves (all : list ZoneInfo) : Prop :=
  forall (k : nat) c, (k * 1000 <= length all)%nat ->
    exists c', listZonesPage Do Wait url_ok decodeList cl (Z.of_nat (k * 1000)) listZonesPageLimit c
      = (Ok (page_of all (Z.of_nat (k * 1000)) listZonesPageLimit), c').

Lemma page_valid all offset : 0 <= offset ->
  validateListZonesPagination (page_of all offset listZonesPageLimit) offset listZonesPageLimit = Ok tt.
Proof.
  intros Ho. unfold validateListZonesPagination, page_of, listZonesPageLimit.
  cbn [lr_Offset lr_Limit lr_Count lr_Zones]. rewrite !Z.eqb_refl. cbn [negb guard_err rbind].
  rewrite length_take. destruct (Z.ltb_spec (Z.of_nat (Z.to_nat 1000 `min` length (drop (Z.to_nat offset) all))) 0); [lia|].
  cbn [guard_err rbind].
  by destruct (Z.ltb_spec 1000 (Z.of_nat (Z.to_nat 1000 `min` length (drop (Z.to_nat offset) all)))); [lia|].
Qed.

Lemma list_pages_correct all fuel k zones c :
  serves all -> Z.of_nat (length all) + 1000 <= MaxInt64 ->
  (k * 1000 <= length all)%nat -> (length all < (k + fuel) * 1000)%nat ->
  zones = map zone_info (take (k * 1000) all) ->
  exists c', list_pages Do Wait url_ok decodeList cl fuel (Z.of_nat (k * 1000)) zones c = Some (Ok (map zone_info all), c').
Proof.
  intros Hs Hmax. revert k zones c. induction fuel as [|fuel IH]; intros k zones c Hk Hf ->; [lia|]. cbn [list_pages].
  destruct (Hs k c Hk) as [c1 ->].
  set (r := page_of all (Z.of_nat (k * 1000)) listZonesPageLimit).
  assert (Hz : lr_Zones r = take 1000 (drop (k * 1000) all)) by (unfold r, page_of; cbn [lr_Zones]; by rewrite Nat2Z.id).
  assert (Hc : lr_Count r = Z.of_nat (Nat.min 1000 (length all - k * 1000))).
  { unfold r, page_of. cbn [lr_Count]. by rewrite length_take, length_drop, Nat2Z.id. }
  assert (Hj : map zone_info (take (k * 1000) all) ++ map zone_info (lr_Zones r) = map zone_info (take ((k + 1) * 1000) all)).
  { rewrite Hz, <- map_app, take_take_drop. f_equal. f_equal. lia. }
  assert (Hp : hasPagination r = true) by (unfold hasPagination, r; by rewrite orb_true_r).
  rewrite Hj, Hp. cbn [negb]. unfold r at 1. rewrite page_valid by lia.
  destruct (_ || _) eqn:Hend.
  - exists c1. do 4 f_equal. rewrite take_ge; [done|]. change (lr_Limit r) with 1000 in Hend.
    apply orb_true_iff in Hend as [Hend|Hend]; bool_prop; lia.
  - change (lr_Limit r) with 1000 in Hend. bool_prop.
    destruct (IH (k + 1)%nat (map zone_info (take ((k + 1) * 1000) all)) c1) as [c2 Hc2]; [lia|lia|done|].
    exists c2. rewrite <- Hc2. f_equal. unfold i64. rewrite Hc. unfold MaxInt64 in Hmax. rewrite Z.mod_small by lia. lia.
Qed.

(** C38: Listing is complete: against a controller that answers every page from
    one listing, the page loop ends after as many pages as the listing has
    thousands, plus one, and returns every zone once and in order. *)
Theorem list_zones_complete (all : list ZoneInfo) (fuel : nat) (c : C) :
  serves all -> Z.of_nat (length all) + 1000 <= MaxInt64 -> (length all < fuel * 1000)%nat ->
  exists c', ListZones Do Wait url_ok decodeList cl fuel c = Some (Ok (map zone_info all), c').
Proof. intros Hs Hm Hf. apply (list_pages_correct all fuel 0 [] c); [done|done|lia|lia|done]. Qed.
End listing.

(** ** Witnesses *)
#[local] Existing Instance ascii_tables.

(** A controller that serves one signed zone and a listing of one zone. *)
Definition sample_key : string := "shared secret".
Definition sample_zone : string := "example.com. IN SOA".
Definition sample_headers (h : string) : string :=
  if (h =? "ETag")%string then sha256_hex sample_zone
  else if (h =? "X-Zone-Serial")%string then "7"
  else if (h =? "X-Zone-Hash")%string then sha256_hex sample_zone
  else if (h =? "X-Zone-Signature")%string then artifactSignature sample_zone sample_key else "".
Definition sample_Do (req : HttpRequest) (c : unit) : result HttpResponse * unit :=
  (Ok (mkHttpResp 200 sample_headers (if HasSuffix (url req) "/signed" then sample_zone else "list") None), c).
Definition sample_Wait (c : unit) : option error * unit := (None, c).
Definition sample_client : Client := mkClient "https://controller" "key" 2 0 true true sample_key ∅.
Definition sample_parse (_ _ : string) : result (list parsedRR) := Ok [RR_SOA 7].
Definition sample_listing : list ZoneInfo := [mkInfo "example.com." "v1" ""].
Definition sample_artifact : SignedZoneArtifact :=
  mkArtifact sample_zone (sha256_hex sample_zone) 7 (sha256_hex sample_zone) false.

Lemma fetched_artifact_verified_witness :
  fetchSignedZoneArtifact sample_Do sample_Wait (fun _ => true) sample_parse sample_client "example.com." "" "" tt = (Ok sample_artifact, tt)
  /\ exists c0 resp, sample_Do (mkHttpReq "https://controller/api/v1/zones/example.com./signed" "key" "") c0 = (Ok resp, tt)
       /\ (NotModified sample_artifact = false -> checked_content sample_parse sample_client "example.com." resp sample_artifact)
       /\ (NotModified sample_artifact = true -> checked_unchanged sample_client "" "" resp sample_artifact).
Proof.
  split; [vm_compute; reflexivity|].
  refine (fetched_artifact_verified sample_Do sample_Wait (fun _ => true) sample_parse sample_client "example.com." "" "" tt tt
    sample_artifact _). vm_compute. reflexivity.
Defined.

Lemma list_zones_complete_witness :
  exists c', ListZones sample_Do sample_Wait (fun _ => true) (fun _ => Ok (mkListResponse sample_listing 0 1000 1)) sample_client 1 tt
    = Some (Ok (map zone_info sample_listing), c').
Proof.
  apply (list_zones_complete sample_Do sample_Wait (fun _ => true) (fun _ => Ok (mkListResponse sample_listing 0 1000 1)) sample_client
    sample_listing 1 tt).
  - intros k c Hk. assert (k = 0)%nat as -> by (cbn in Hk; lia). exists c. destruct c. vm_compute. reflexivity.
  - vm_compute. done.
  - cbn. lia.
Defined.
