(* ===== verification/Migrate.v ===== *)
(** * Moving zones between backends ([cmd/arca-dns-controller/cmd/migrate.go])

    Export to JSON files, import from them, and the direct copy, over any
    [ZoneStore] and over the file system with faults.  The directory of the
    command is the modelled one; its name has no pattern characters.  The JSON
    form of a zone ([marshal], [unmarshal]) and the transactions of a store are
    parameters. *)

From S2P Require Import Prelude Io GoStrings GoStringsFacts GoSort Zone Names Validation Serial ZonePath Ulid Store FileSystem FileManager ConfigData SyncClient.
#[local] Open Scope io_scope.

(** ** Which backend *)
Inductive setting := Text (s : string) | Number (n : Z) | Flag (b : bool) | Texts (l : list string).
Definition defaultMigrateBackend : string := "sqlite".
Definition effectiveMigrateBackendType (backendType : string) (cfg : BackendConfig) : string :=
  if negb (backendType =? "")%string then backendType
  else if negb (be_Type cfg =? "")%string then be_Type cfg else defaultMigrateBackend.
Definition set_if (b : bool) (key : string) (v : setting) (m : gmap string setting) : gmap string setting := if b then <[key := v]> m else m.
Definition given (s : string) : bool := negb (s =? "")%string.
Definition pool_settings (sql : SQLBackendConfig) (m : gmap string setting) : gmap string setting :=
  set_if (0 <? sql_ConnMaxLifetime sql) "conn_max_lifetime" (Number (sql_ConnMaxLifetime sql))
    (set_if (0 <? sql_MaxIdleConns sql) "max_idle_conns" (Number (sql_MaxIdleConns sql))
      (set_if (0 <? sql_MaxOpenConns sql) "max_open_conns" (Number (sql_MaxOpenConns sql)) m)).
(** The arguments of [backend.NewBackend].  [flag] names the flag in the message. *)
Definition sql_settings (product flag type dsn : string) (sql : SQLBackendConfig) (cfg : BackendConfig) : result (string * gmap string setting) :=
  let configured := (be_Type cfg =? type)%string in
  let dsn := if negb (given dsn) && configured then sql_DSN sql else dsn in
  if negb (given dsn) then Err (Errorf (product +:+ " backend requires " +:+ flag +:+ " flag or dsn in config"))
  else Ok (type, if configured then pool_settings sql {[ "dsn" := Text dsn ]} else {[ "dsn" := Text dsn ]}).
Definition backend_settings (dsn_flag path_flag backendType dsn path : string) (cfg : BackendConfig) : result (string * gmap string setting) :=
  if (backendType =? "sqlite")%string then
    let dsn := if negb (given dsn) && (be_Type cfg =? "sqlite")%string then be_SQLite_DSN cfg else dsn in
    Ok ("sqlite", set_if (given dsn) "dsn" (Text dsn) ∅)
  else if (backendType =? "postgres")%string then sql_settings "PostgreSQL" dsn_flag "postgres" dsn (be_Postgres cfg) cfg
  else if (backendType =? "mysql")%string then sql_settings "MySQL" dsn_flag "mysql" dsn (be_MySQL cfg) cfg
  else if (backendType =? "git")%string then
    let configured := (be_Type cfg =? "git")%string in
    let git := be_Git cfg in
    let path := if negb (given path) && configured then git_RepositoryPath git else path in
    if negb (given path) then Err (Errorf ("Git backend requires " +:+ path_flag +:+ " flag or repository_path in config"))
    else
      Ok ("git",
        if configured then
          <["auto_sync" := Flag false]>
            (set_if (given (git_Email git)) "author_email" (Text (git_Email git))
              (set_if (given (git_Author git)) "author_name" (Text (git_Author git))
                (set_if (given (git_Branch git)) "branch" (Text (git_Branch git)) {[ "repository_path" := Text path ]})))
        else {[ "repository_path" := Text path ]})
  else if (backendType =? "etcd")%string then
    let configured := (be_Type cfg =? "etcd")%string in
    let etcd := be_Etcd cfg in
    let endpoints := if configured && negb (length (etcd_Endpoints etcd) =? 0)%nat then etcd_Endpoints etcd else ["localhost:2379"] in
    let m := {[ "endpoints" := Texts endpoints ]} in
    Ok ("etcd",
      if configured then
        set_if (0 <? etcd_RequestTimeout etcd) "request_timeout" (Number (etcd_RequestTimeout etcd))
          (set_if (0 <? etcd_DialTimeout etcd) "dial_timeout" (Number (etcd_DialTimeout etcd))
            (set_if (given (etcd_Password etcd)) "password" (Text (etcd_Password etcd))
              (set_if (given (etcd_Username etcd)) "username" (Text (etcd_Username etcd))
                (set_if (given (etcd_Prefix etcd)) "prefix" (Text (etcd_Prefix etcd)) m))))
      else m)
  else Err (Errorf ("unsupported backend type: " +:+ backendType +:+ " (supported: sqlite, postgres, mysql, git, etcd)")).
Definition createBackendForCopy (backendType dsn path : string) (cfg : BackendConfig) : result (string * gmap string setting) :=
  backend_settings "--from-dsn/--to-dsn" "--from-path/--to-path" backendType dsn path cfg.
Definition createBackend (backendType dsn path : string) (cfg : BackendConfig) : result (string * gmap string setting) :=
  backend_settings "--dsn" "--path" (effectiveMigrateBackendType backendType cfg) dsn path cfg.

(** ** Comparing zones *)
Definition sameDNSSECConfig (a b : option DNSSECConfig) : bool :=
  match a, b with
  | Some a, Some b =>
    Bool.eqb (Enabled a) (Enabled b) && (Algorithm a =? Algorithm b) && (KSKKeyTag a =? KSKKeyTag b) && (ZSKKeyTag a =? ZSKKeyTag b)
    && Bool.eqb (NSEC3Enabled a) (NSEC3Enabled b) && (NSEC3Iterations a =? NSEC3Iterations b) && (NSEC3Salt a =? NSEC3Salt b)%string
    && match SignatureExpiration a, SignatureExpiration b with Some x, Some y => x =? y | None, None => true | _, _ => false end
  | None, None => true
  | _, _ => false
  end.
Definition sameRecord (a b : ZRecord) : bool :=
  (rec_ID a =? rec_ID b)%string && (rec_Name a =? rec_Name b)%string && (rec_Type a =? rec_Type b)%string && (rec_TTL a =? rec_TTL b) && (rec_Value a =? rec_Value b)%string
  && match rec_Priority a, rec_Priority b with Some x, Some y => x =? y | None, None => true | _, _ => false end.
Fixpoint sameRecords (a b : list ZRecord) : bool :=
  match a, b with
  | [], [] => true
  | x :: a, y :: b => sameRecord x y && sameRecords a b
  | _, _ => false
  end.

Section migrate.
Context `{UnicodeTables}.
Definition sameReplacementZone (visible attempted : Zone) : bool :=
  given (z_Version attempted) && (z_Version visible =? z_Version attempted)%string
  && (NormalizeZoneName (z_Name visible) =? NormalizeZoneName (z_Name attempted))%string
  && bool_decide (z_SOA visible = z_SOA attempted) && sameDNSSECConfig (z_DNSSEC visible) (z_DNSSEC attempted)
  && sameRecords (z_Records visible) (z_Records attempted).
Definition sanitizeFilename (zoneName : string) : string := ReplaceAll (SafeZoneFilename zoneName) "." "_".
Definition export_name (zoneName : string) : string := sanitizeFilename zoneName +:+ ".json".

(** ** Writing to a store

    [env] supplies the inputs of each write in turn; a command's store comes with
    the version generator and the number of writes so far. *)
Context {S : Type} `{ZoneStore S} (env : nat -> Inputs).
Record dest := mkDest { d_store : S; d_ulid : ulidState; d_calls : nat }.
(** A working copy of the store, and its commit. *)
Record Transactions := mkTransactions { BeginTx : S -> result S; Commit : S -> S -> result S }.

(** The zone is passed by reference. *)
Definition CreateZone (zone : Zone) : io dest (result unit * Zone) := fun d =>
  let '(r, z', s, u) := store_CreateZone (env (d_calls d)) (Some zone) (d_store d) (d_ulid d) in
  ((r, default zone z'), mkDest s u (Datatypes.S (d_calls d))).
Definition GetZone (name : string) : io dest (result Zone) := fun d => (store_GetZone (d_store d) name, d).
Definition deleteZoneForOverwrite (name expectedVersion : string) : io dest (result unit) := fun d =>
  match conditionalDeleteStore with
  | Some delete => let '(r, s) := delete name expectedVersion (d_store d) in (r, mkDest s (d_ulid d) (d_calls d))
  | None => (Err (Sentinel ErrConditionalDeleteUnsupported), d)
  end.

Definition restoreZoneAfterOverwriteFailure (current attemptedReplacement : Zone) : io dest (result unit) :=
  let create_previous : io dest (result unit) :=
    created <- CreateZone current ;
    io_ret (wrap "restore previous zone: create previous zone" (fst created)) in
  visible <- GetZone (z_Name current) ;
  match visible with
  | Ok visible =>
    if (z_Version visible =? z_Version current)%string then io_ok tt
    else if negb (sameReplacementZone visible attemptedReplacement)
    then io_fail (Wrapf "restore previous zone: visible zone changed after failed replacement" (Sentinel ErrConflict))
    else
      io_wrap "restore previous zone: delete failed replacement zone" (deleteZoneForOverwrite (z_Name current) (z_Version visible)) ;;?
      create_previous
  | Err e => if errors_Is e ErrZoneNotFound then create_previous else io_fail (Wrapf "restore previous zone: get visible zone" e)
  end.
Definition overwriteZoneWithRestore (zone : Zone) : io dest (result unit * Zone) :=
  got <- GetZone (z_Name zone) ;
  match got with
  | Err e => io_ret (Err (Wrapf "get existing zone" e), zone)
  | Ok current =>
    deleted <- deleteZoneForOverwrite (z_Name zone) (z_Version current) ;
    match deleted with
    | Err e => io_ret (Err (Wrapf "delete existing zone" e), zone)
    | Ok _ =>
      made <- CreateZone zone ;
      let '(created, zone') := made in
      match created with
      | Ok _ => io_ret (Ok tt, zone')
      | Err e =>
        restored <- restoreZoneAfterOverwriteFailure current zone' ;
        io_ret (Err match restored with
                    | Err restoreErr => JoinErrs [Wrapf "create replacement zone" e; restoreErr]
                    | Ok _ => Wrapf "create replacement zone" e
                    end, zone')
      end
    end
  end.
Definition overwriteZoneInTransaction (tx : Transactions) (zone : Zone) : io dest (result unit * Zone) := fun d =>
  let base := d_store d in
  let rolled_back e zone (d' : dest) := ((Err e, zone), mkDest base (d_ulid d') (d_calls d')) in
  match BeginTx tx base with
  | Err e => ((Err (Wrapf "begin overwrite transaction" e), zone), d)
  | Ok work =>
    let d := mkDest work (d_ulid d) (d_calls d) in
    match GetZone (z_Name zone) d with
    | (Err e, d) => rolled_back (Wrapf "get existing zone" e) zone d
    | (Ok current, d) =>
      match deleteZoneForOverwrite (z_Name zone) (z_Version current) d with
      | (Err e, d) => rolled_back (Wrapf "delete existing zone" e) zone d
      | (Ok _, d) =>
        match CreateZone zone d with
        | ((Err e, zone), d) => rolled_back (Wrapf "create replacement zone" e) zone d
        | ((Ok _, zone), d) =>
          match Commit tx (d_store d) base with
          | Err e => rolled_back (Wrapf "commit overwrite transaction" e) zone d
          | Ok s => ((Ok tt, zone), mkDest s (d_ulid d) (d_calls d))
          end
        end
      end
    end
  end.
Context (transactions : option Transactions).
Definition overwriteZone (zone : Zone) : io dest (result unit * Zone) :=
  match transactions with Some tx => overwriteZoneInTransaction tx zone | None => overwriteZoneWithRestore zone end.

(** The loop of import and copy: how many zones were written and skipped;
    [where_] ends the messages. *)
Fixpoint write_zones (where_ : string) (overwrite : bool) (copied skipped : Z) (zones : list Zone) : io dest (result (Z * Z)) :=
  match zones with
  | [] => io_ok (copied, skipped)
  | zone :: zones =>
    let zone := set_Version "" zone in
    made <- CreateZone zone ;
    let '(created, zone) := made in
    match created with
    | Ok _ => write_zones where_ overwrite (copied + 1) skipped zones
    | Err e =>
      if errors_Is e ErrZoneAlreadyExists then
        if overwrite then
          done <- overwriteZone zone ;
          let '(r, zone) := done in
          match r with
          | Err e => io_fail (Wrapf ("overwrite zone " +:+ z_Name zone +:+ where_) e)
          | Ok _ => write_zones where_ overwrite (copied + 1) skipped zones
          end
        else write_zones where_ overwrite copied (skipped + 1) zones
      else io_fail (Wrapf ("create zone " +:+ z_Name zone +:+ where_) e)
    end
  end.

(** The copy command with both stores open. *)
Definition everything : ListOptions := mkList 0 0 "".
Definition runCopy {T} `{ZoneStore T} (source : T) (dryRun overwrite : bool) : io dest (result (Z * Z)) :=
  match store_ListZones source everything with
  | Err e => io_fail (Wrapf "list zones from source" e)
  | Ok zones => if dryRun then io_ok (0, 0) else write_zones " in destination" overwrite 0 0 zones
  end.
End migrate.

(** ** Files *)
Definition maxMigrationFileSize : Z := DefaultControllerClientMaxResponseBytes.

Section files.
Context `{UnicodeTables} (w : World).

Definition validateExistingMigrationDirectory (label : string) : io fs (result unit) :=
  info <-? os_Lstat_dir w ;
  match info with
  | LinkDir => io_fail (Errorf (label +:+ " must not be a symlink"))
  | Dir _ => io_ok tt
  | _ => io_fail (Errorf (label +:+ " must be a directory"))
  end.
(** Open, flush and close; file systems that cannot flush a directory are
    tolerated. *)
Definition syncMigrationDir : io fs (result unit) :=
  syscall w (fun _ d => (Ok tt, d)) ;;?
  synced <- (fun s => (match fault w (tick s) with Some (EOther msg) => Err (Errorf msg) | _ => Ok tt end, mkFs (zone_dir s) (S (tick s)))) ;
  closed <- tmp_Close w ;
  io_ret (synced ;;* closed).
Definition ensureMigrationDirectory (label : string) : io fs (result unit) :=
  first <- validateExistingMigrationDirectory label ;
  existed <-? match first with
              | Ok _ => io_ok true
              | Err e => if os_IsNotExist e then io_ok false else io_fail (Wrapf ("stat " +:+ label) e)
              end ;
  io_wrap ("mkdir " +:+ label) (os_MkdirAll w) ;;?
  io_wrap ("stat " +:+ label) (validateExistingMigrationDirectory label) ;;?
  if negb existed then io_wrap ("sync " +:+ label +:+ " parent") syncMigrationDir else io_ok tt.

(** A step on the open temporary file closes it when it fails. *)
Definition on_temp (prefix : string) (m : io fs (result unit)) : io fs (result unit) :=
  r <- io_wrap prefix m ;
  match r with Ok _ => io_ok tt | Err e => _ <- tmp_Close w ; io_fail e end.
Definition fill_and_rename (tmpPath name data : string) (perm : Z) : io fs (result unit) :=
  on_temp "chmod temp file" (tmp_Chmod w tmpPath perm) ;;?
  on_temp "write temp file" (tmp_Write w tmpPath data) ;;?
  on_temp "sync temp file" (tmp_Sync w) ;;?
  io_wrap "close temp file" (tmp_Close w) ;;?
  io_wrap "rename temp file" (os_Rename w tmpPath name).
Definition writeMigrationFileAtomicSynced (name data : string) (perm : Z) : io fs (result unit) :=
  io_wrap "stat output directory" (validateExistingMigrationDirectory "output directory") ;;?
  tmpPath <-? io_wrap "create temp file" (os_CreateTemp w ("." +:+ name +:+ ".") ".tmp") ;
  renamed <- fill_and_rename tmpPath name data perm ;
  match renamed with
  | Err e => _ <- os_Remove w tmpPath ; io_fail e
  | Ok _ => io_wrap "sync output directory" syncMigrationDir
  end.

Definition readRegularMigrationFile (name : string) : io fs (result string) :=
  info <-? os_Lstat w name ;
  if is_symlink info then io_fail (Errorf "migration file must not be a symlink")
  else if negb (is_regular info) then io_fail (Errorf "migration file must be a regular file")
  else if maxMigrationFileSize <? node_size info then io_fail (Errorf "migration file exceeds maximum size")
  else
    file <-? os_Open w name ;
    openedInfo <-? file_Stat w file ;
    if negb (SameFile info openedInfo) then io_fail (Errorf "migration file changed while opening")
    else if negb (is_regular openedInfo) then io_fail (Errorf "migration file must be a regular file")
    else if maxMigrationFileSize <? node_size openedInfo then io_fail (Errorf "migration file exceeds maximum size")
    else
      data <-? ReadAll_limited w file (maxMigrationFileSize + 1) ;
      if maxMigrationFileSize <? len data then io_fail (Errorf "migration file exceeds maximum size") else io_ok data.
(** [filepath.Glob] of [*.json] in the directory. *)
Definition glob_json : io fs (list string) := fun s =>
  (match fault w (tick s), zone_dir s with
   | None, Dir es => sort_Strings (List.filter (fun n => HasSuffix n ".json") ((map_to_list es).*1))
   | _, _ => []
   end, mkFs (zone_dir s) (S (tick s))).

Context (marshal : Zone -> result string) (unmarshal : string -> result Zone).
Fixpoint export_zones (zones : list Zone) : io fs (result unit) :=
  match zones with
  | [] => io_ok tt
  | zone :: zones =>
    match marshal zone with
    | Err e => io_fail (Wrapf ("marshal zone " +:+ z_Name zone) e)
    | Ok data =>
      io_wrap ("write zone " +:+ z_Name zone) (writeMigrationFileAtomicSynced (export_name (z_Name zone)) data 420) ;;?
      export_zones zones
    end
  end.
Definition exportFromStore {S} `{ZoneStore S} (store : S) (dryRun : bool) : io fs (result Z) :=
  match store_ListZones store everything with
  | Err e => io_fail (Wrapf "list zones" e)
  | Ok zones =>
    if dryRun then io_ok 0
    else
      io_wrap "create output directory" (ensureMigrationDirectory "output directory") ;;?
      export_zones zones ;;?
      io_ok (Z.of_nat (length zones))
  end.

(** Every file is read and validated before the first zone is written. *)
Fixpoint read_zones (files : list string) : io fs (result (list Zone)) :=
  match files with
  | [] => io_ok []
  | file :: files =>
    data <-? io_wrap ("read file " +:+ file) (readRegularMigrationFile file) ;
    match (let* zone := wrap ("parse file " +:+ file) (unmarshal data) in
           wrap ("validate file " +:+ file) (ValidateZone (Some zone)) ;;* Ok zone) with
    | Err e => io_fail e
    | Ok zone => zones <-? read_zones files ; io_ok (zone :: zones)
    end
  end.
Definition read_directory : io fs (result (list Zone)) :=
  io_wrap "stat input directory" (validateExistingMigrationDirectory "input directory") ;;?
  files <- glob_json ;
  if (length files =? 0)%nat then io_fail (Errorf "no zone files found") else read_zones files.
Definition importToStore {S} `{ZoneStore S} (env : nat -> Inputs) (transactions : option Transactions) (dryRun overwrite : bool) (f : fs) (d : dest (S := S))
  : result Z * fs * dest :=
  match read_directory f with
  | (Err e, f) => (Err e, f, d)
  | (Ok zones, f) =>
    if dryRun then (Ok 0, f, d)
    else match write_zones env transactions "" overwrite 0 0 zones d with
         | (Err e, d) => (Err e, f, d)
         | (Ok (imported, _), d) => (Ok imported, f, d)
         end
  end.
End files.
