(* ===== verification/MigrateFacts.v ===== *)
(** * Migration keeps zones

    Against any store that keeps the contract: a copy brings over every zone and
    touches nothing else; an export followed by an import gives the zones back.
    Against stores that may fail ([FaultyStore]): a failed overwrite puts the old
    zone back. *)

From S2P Require Import Prelude Io GoStrings GoStringsFacts GoSort Zone Names Validation DnsNames ZoneRules Serial ZonePath Ulid Store MemoryStore StoreProps FileSystem FileManager FileManagerFacts Migrate.
#[local] Open Scope io_scope.

Section store.
Context `{UnicodeTables, !UnicodeLaws} {S : Type} `{!ZoneStore S, !StoreLaws S, !CreateErrors S}.
Context (env : nat -> Inputs) (env_ok : forall n r, in_rand (env n) = Err r -> errors_Is r ErrZoneAlreadyExists = false).

(** What a copy of [z] keeps: all but name spelling, version, times and derived
    fields; the serial unless it was 0. *)
Definition copy_of (z w : Zone) : Prop :=
  same_content z w /\ ValidateZone (Some w) = Ok tt /\ (Serial (z_SOA z) <> 0 -> Serial (z_SOA w) = Serial (z_SOA z)) /\ (z_Version z <> "" -> z_Version w = z_Version z).
Definition zone_key (z : Zone) : string := NormalizeZoneName (z_Name z).
Abbreviation zones d := (zones_of (d_store d)).
Abbreviation ok d := (store_ok (d_store d)).

Lemma created_copy e z w : created e z w -> copy_of z w.
Proof.
  intros [Hc Hv Hs Hver _ _]. split_and!; [done|done| |done]. intros Hs0. rewrite Hs. by rewrite (proj2 (Z.eqb_neq _ _) Hs0).
Qed.
Lemma create_step z d r z' d' : CreateZone env z d = ((r, z'), d') -> ok d ->
  match r with
  | Ok _ => exists w, copy_of z w /\ zones d !! zone_key z = None /\ zones d' = <[zone_key z := w]> (zones d) /\ ok d'
  | Err e => z' = z /\ d_store d' = d_store d /\ (errors_Is e ErrZoneAlreadyExists = true -> is_Some (zones d !! zone_key z))
  end.
Proof.
  unfold CreateZone. pose proof (law_create (env (d_calls d)) (Some z) (d_store d) (d_ulid d)) as Hl.
  destruct (store_CreateZone (env (d_calls d)) (Some z) (d_store d) (d_ulid d)) as [[[r0 z0] s] u] eqn:Ec. intros [= -> <- <-] Hok. specialize (Hl Hok).
  destruct r as [[]|e]; cbn [d_store].
  - destruct Hl as (z1 & w & [= <-] & -> & Hcr & Hs & Hn & Hz). assert (Ew : z_Name w = zone_key z) by (by destruct Hcr as [[-> _]]).
    exists w. rewrite Ew in *. split_and!; try done. by apply (created_copy (env (d_calls d))).
  - destruct Hl as (-> & -> & _). split_and!; [done..|]. intros He. by eapply (exists_truthful _ _ _ _ _ _ _ _ (env_ok _) Ec).
Qed.
Lemma get_spec n d : GetZone n d = (match zones d !! NormalizeZoneName n with Some z => Ok z | None => Err (Sentinel ErrZoneNotFound) end, d).
Proof. unfold GetZone. by rewrite law_get. Qed.
Lemma delete_spec n v d r d' : deleteZoneForOverwrite n v d = (r, d') -> ok d ->
  match r with
  | Ok _ => zones d' = delete (NormalizeZoneName n) (zones d) /\ ok d'
  | Err _ => d_store d' = d_store d
  end.
Proof.
  unfold deleteZoneForOverwrite. destruct conditionalDeleteStore as [f|] eqn:Ef; [|by intros [= <- <-]].
  pose proof (law_conditional_delete f n v (d_store d) Ef) as Hl. destruct (f n v (d_store d)) as [r0 s]. intros [= -> <-] Hok.
  destruct r as [[]|e]; cbn [d_store]; [|by destruct Hl]. destruct Hl as (z & _ & _ & -> & Hs). auto.
Qed.
(** The name of a stored zone is in normal form if it was looked up as one. *)
Lemma stored_key d n z : ok d -> zones d !! NormalizeZoneName n = Some z -> z_Name z = NormalizeZoneName n /\ zone_key z = NormalizeZoneName n.
Proof.
  intros Hok Hz. destruct (law_stored _ _ _ Hok Hz) as (En & Hv & _). split; [done|]. unfold zone_key. rewrite En. apply NormalizeZoneName_idem.
  assert (Hname : ValidateZoneName (z_Name z) = Ok tt) by (unfold ValidateZone in Hv; apply rbind_ok in Hv as ([] & Hn%wrap_ok & _); done).
  rewrite <- En. apply zone_name_accepted in Hname. destruct Hname as (_ & ls & _ & Hls & [-> | ->]); rewrite ?is_ascii_app, dotted_ascii by done; done.
Qed.

(** ** Overwriting *)
Record TxLaws (tx : Transactions (S := S)) : Prop := {
  tx_begin : forall s work, BeginTx tx s = Ok work -> zones_of work = zones_of s /\ (store_ok s -> store_ok work);
  tx_commit : forall work base s, Commit tx work base = Ok s -> zones_of s = zones_of work /\ (store_ok work -> store_ok s) }.

(** The zone [n] is as it was, or was put back with its content and version. *)
Definition kept (n : string) (before after : gmap string Zone) : Prop :=
  after !! n = before !! n \/ exists old w, before !! n = Some old /\ after !! n = Some w /\ copy_of old w.
Definition restore_failed (e : error) : Prop := exists create restore, e = JoinErrs [create; restore].
Definition overwritten (zone : Zone) (d : dest) (r : result unit) (d' : dest) : Prop :=
  ok d' /\ match r with
  | Ok _ => exists w, copy_of zone w /\ is_Some (zones d !! zone_key zone) /\ zones d' = <[zone_key zone := w]> (zones d)
  | Err e => (forall m, m <> zone_key zone -> zones d' !! m = zones d !! m) /\ (kept (zone_key zone) (zones d) (zones d') \/ restore_failed e)
  end.

Lemma unchanged_overwritten zone d d' e : ok d -> d_store d' = d_store d -> overwritten zone d (Err e) d'.
Proof. intros Hok E. unfold overwritten, kept. rewrite E. split; [done|]. split; [done|]. left. by left. Qed.

Lemma restore_spec current attempted d : ok d -> zones d !! zone_key current = None ->
  let '(r, d') := restoreZoneAfterOverwriteFailure env current attempted d in
  ok d' /\ match r with
  | Ok _ => exists w, copy_of current w /\ zones d' = <[zone_key current := w]> (zones d)
  | Err _ => zones d' = zones d
  end.
Proof.
  intros Hok Hn. unfold restoreZoneAfterOverwriteFailure, io_bind. rewrite get_spec. fold (zone_key current). rewrite Hn.
  change (errors_Is (Sentinel ErrZoneNotFound) ErrZoneNotFound) with true. cbv iota.
  destruct (CreateZone env current d) as [[r z'] d'] eqn:Ec. unfold io_bind. rewrite Ec. cbn. pose proof (create_step _ _ _ _ _ Ec Hok) as Hs. destruct r as [[]|e]; cbn.
  - destruct Hs as (w & Hw & _ & Hz & Hok'). split; [done|]. exists w. done.
  - destruct Hs as (_ & -> & _). done.
Qed.

Lemma overwrite_restore_spec zone d r z' d' : ok d -> overwriteZoneWithRestore env zone d = ((r, z'), d') -> overwritten zone d r d'.
Proof.
  intros Hok. unfold overwriteZoneWithRestore, io_bind. rewrite get_spec. fold (zone_key zone). destruct (zones d !! zone_key zone) as [current|] eqn:Ecur.
  2: { intros [= <- <- <-]. by apply unchanged_overwritten. }
  destruct (stored_key d (z_Name zone) current Hok Ecur) as [_ Ekey]. fold (zone_key zone) in Ekey.
  destruct (deleteZoneForOverwrite (z_Name zone) (z_Version current) d) as [[[]|e] d1] eqn:Ed; pose proof (delete_spec _ _ _ _ _ Ed Hok) as Hdel.
  2: { intros [= <- <- <-]. by apply unchanged_overwritten. }
  destruct Hdel as [Hz1 Hok1]. fold (zone_key zone) in Hz1.
  destruct (CreateZone env zone d1) as [[[[]|e] z1] d2] eqn:Ec; pose proof (create_step _ _ _ _ _ Ec Hok1) as Hcr.
  - intros [= <- <- <-]. destruct Hcr as (w & Hw & _ & Hz2 & Hok2). split; [done|]. exists w. split_and!; [done|eauto|]. by rewrite Hz2, Hz1, insert_delete_eq.
  - destruct Hcr as (-> & Es2 & _). assert (Hok2 : ok d2) by (by rewrite Es2). assert (Hn2 : zones d2 !! zone_key current = None) by (by rewrite Es2, Hz1, Ekey, lookup_delete_eq).
    pose proof (restore_spec current zone d2 Hok2 Hn2) as Hr. destruct (restoreZoneAfterOverwriteFailure env current zone d2) as [rr d3]. destruct Hr as [Hok3 Hr].
    intros [= <- <- <-]. split; [done|]. rewrite Ekey in *. destruct rr as [[]|re].
    + destruct Hr as (w & Hw & Hz3). split.
      * intros m Hm. by rewrite Hz3, lookup_insert_ne, Es2, Hz1, lookup_delete_ne.
      * left. right. exists current, w. split_and!; [done| |done]. by rewrite Hz3, lookup_insert_eq.
    + split; [|right; by eexists _, _]. intros m Hm. by rewrite Hr, Es2, Hz1, lookup_delete_ne.
Qed.

Lemma overwrite_tx_spec tx zone d r z' d' : TxLaws tx -> ok d -> overwriteZoneInTransaction env tx zone d = ((r, z'), d') -> overwritten zone d r d'.
Proof.
  intros Htx Hok. unfold overwriteZoneInTransaction. destruct (BeginTx tx (d_store d)) as [work|e] eqn:Eb; [|intros [= <- <- <-]; by apply unchanged_overwritten].
  destruct (tx_begin _ Htx _ _ Eb) as [Hw Hwok]. set (d0 := mkDest work (d_ulid d) (d_calls d)). assert (Hok0 : ok d0) by (by apply Hwok).
  rewrite get_spec. destruct (zones d0 !! _) as [current|] eqn:Ecur; [|intros [= <- <- <-]; by apply unchanged_overwritten].
  destruct (deleteZoneForOverwrite (z_Name zone) (z_Version current) d0) as [[[]|e] d1] eqn:Ed; pose proof (delete_spec _ _ _ _ _ Ed Hok0) as Hdel;
    [|intros [= <- <- <-]; by apply unchanged_overwritten]. destruct Hdel as [Hz1 Hok1].
  destruct (CreateZone env zone d1) as [[[[]|e] z1] d2] eqn:Ec; pose proof (create_step _ _ _ _ _ Ec Hok1) as Hcr; [|intros [= <- <- <-]; by apply unchanged_overwritten].
  destruct Hcr as (w & Hwz & _ & Hz2 & Hok2). destruct (Commit tx (d_store d2) (d_store d)) as [s|e] eqn:Ecm; [|intros [= <- <- <-]; by apply unchanged_overwritten].
  destruct (tx_commit _ Htx _ _ _ Ecm) as [Hs Hsok]. intros [= <- <- <-]. cbn [d_store]. split; [by apply Hsok|]. cbn [d_store d0] in *.
  exists w. split; [done|]. unfold zone_key in *. rewrite <- Hw. split; [eauto|]. rewrite Hs, Hz2, Hz1. by rewrite insert_delete_eq.
Qed.

Context (transactions : option (Transactions (S := S))) (tx_ok : forall tx, transactions = Some tx -> TxLaws tx).
Lemma overwrite_spec zone d r z' d' : ok d -> overwriteZone env transactions zone d = ((r, z'), d') -> overwritten zone d r d'.
Proof.
  unfold overwriteZone. destruct transactions as [tx|] eqn:E; [|apply overwrite_restore_spec]. intros Hok. by apply overwrite_tx_spec; [apply tx_ok|].
Qed.

(** ** The loop *)
Lemma copy_of_version z w : copy_of (set_Version "" z) w -> same_content z w /\ ValidateZone (Some w) = Ok tt /\ (Serial (z_SOA z) <> 0 -> Serial (z_SOA w) = Serial (z_SOA z)).
Proof. intros (Hc & Hv & Hs & _). done. Qed.
Definition migrated (z w : Zone) : Prop :=
  same_content z w /\ ValidateZone (Some w) = Ok tt /\ (Serial (z_SOA z) <> 0 -> Serial (z_SOA w) = Serial (z_SOA z)).
(** What is stored under [n] after the zones were written over [before]. *)
Definition expected (overwrite : bool) (zones : list Zone) (before after : gmap string Zone) : Prop := forall n,
  (n ∉ map zone_key zones -> after !! n = before !! n)
  /\ (forall z, z ∈ zones -> zone_key z = n ->
       (overwrite = false -> forall old, before !! n = Some old -> after !! n = Some old)
       /\ ((overwrite = true \/ before !! n = None) -> exists w, after !! n = Some w /\ migrated z w)).

Lemma expected_cons overwrite z zs before mid after : zone_key z ∉ map zone_key zs ->
  (forall n, n <> zone_key z -> mid !! n = before !! n) ->
  (overwrite = false -> forall old, before !! zone_key z = Some old -> mid !! zone_key z = Some old) ->
  ((overwrite = true \/ before !! zone_key z = None) -> exists w, mid !! zone_key z = Some w /\ migrated z w) ->
  expected overwrite zs mid after -> expected overwrite (z :: zs) before after.
Proof.
  intros Hnew Hother Hold Hcopy Hrest n. destruct (Hrest n) as [Hout Hin]. cbn [map]. split.
  - intros [Hne Hn]%not_elem_of_cons. rewrite Hout by done. by apply Hother.
  - intros z1 [->|Hz1]%elem_of_cons <-.
    + destruct (Hrest (zone_key z)) as [Hout' _]. specialize (Hout' Hnew). rewrite Hout'. auto.
    + assert (Hne : zone_key z1 <> zone_key z) by (intros E; apply Hnew; rewrite <- E; apply list_elem_of_fmap; eauto).
      destruct (Hin z1 Hz1 eq_refl) as [A B]. rewrite (Hother _ Hne) in A, B. auto.
Qed.

Lemma write_zones_spec overwrite where_ zs : forall copied skipped d r d', NoDup (map zone_key zs) -> ok d ->
  write_zones env transactions where_ overwrite copied skipped zs d = (r, d') -> ok d' /\
  match r with
  | Ok (c, k) => c + k = copied + skipped + Z.of_nat (length zs) /\ (overwrite = true -> k = skipped) /\ expected overwrite zs (zones d) (zones d')
  | Err _ => forall n, n ∉ map zone_key zs -> zones d' !! n = zones d !! n
  end.
Proof.
  induction zs as [|z zs IH]; intros copied skipped d r d' Hnd Hok; cbn [write_zones].
  { intros [= <- <-]. split; [done|]. split_and!; [cbn; lia|done|]. intros n. split; [done|]. intros z Hz. by apply elem_of_nil in Hz. }
  cbn [map] in Hnd. apply NoDup_cons in Hnd as [Hnew Hnd]. unfold io_bind. destruct (CreateZone env (set_Version "" z) d) as [[cr z1] d1] eqn:Ec.
  pose proof (create_step _ _ _ _ _ Ec Hok) as Hcr. change (zone_key (set_Version "" z)) with (zone_key z) in Hcr.
  assert (Hgo : forall c k dm r d', write_zones env transactions where_ overwrite c k zs dm = (r, d') -> ok dm -> c + k = copied + skipped + 1 -> (overwrite = true -> k = skipped) ->
    (forall n, n <> zone_key z -> zones dm !! n = zones d !! n) ->
    (overwrite = false -> forall old, zones d !! zone_key z = Some old -> zones dm !! zone_key z = Some old) ->
    ((overwrite = true \/ zones d !! zone_key z = None) -> exists w, zones dm !! zone_key z = Some w /\ migrated z w) ->
    ok d' /\ match r with Ok (c, k) => c + k = copied + skipped + Z.of_nat (length (z :: zs)) /\ (overwrite = true -> k = skipped) /\ expected overwrite (z :: zs) (zones d) (zones d')
              | Err _ => forall n, n ∉ map zone_key (z :: zs) -> zones d' !! n = zones d !! n end).
  { clear r d'. intros c k dm r d' Hw Hokm Hck Hk Hother Hold Hcopy. destruct (IH _ _ _ _ _ Hnd Hokm Hw) as [Hok' Hr]. split; [done|]. destruct r as [[c' k']|e].
    - destruct Hr as (Hsum & Hk' & Hexp). split_and!; [cbn [length]; lia|intros Ho; rewrite Hk', Hk; done|]. by eapply expected_cons.
    - intros n [Hne Hn]%not_elem_of_cons. rewrite Hr by done. by apply Hother. }
  destruct cr as [[]|e].
  - destruct Hcr as (w & Hw%copy_of_version & Hnone & Hz1 & Hok1). intros Hrun. eapply Hgo; [exact Hrun|done|lia|done| | |].
    + intros n Hn. by rewrite Hz1, lookup_insert_ne.
    + intros _ old Hold. congruence.
    + intros _. exists w. split; [by rewrite Hz1, lookup_insert_eq|done].
  - destruct Hcr as (-> & Es1 & Hex). assert (Hok1 : ok d1) by (by rewrite Es1). destruct (errors_Is e ErrZoneAlreadyExists) eqn:Ee.
    2: { intros [= <- <-]. split; [done|]. intros n _. by rewrite Es1. }
    specialize (Hex eq_refl). destruct overwrite.
    + destruct (overwriteZone env transactions (set_Version "" z) d1) as [[ov z2] d2] eqn:Eo. pose proof (overwrite_spec _ _ _ _ _ Hok1 Eo) as [Hok2 Hov].
      change (zone_key (set_Version "" z)) with (zone_key z) in Hov. rewrite Es1 in Hov. destruct ov as [[]|e2].
      * destruct Hov as (w & Hw%copy_of_version & _ & Hz2). intros Hrun. eapply Hgo; [exact Hrun|done|lia|done| |done|].
        -- intros n Hn. by rewrite Hz2, lookup_insert_ne.
        -- intros _. exists w. split; [by rewrite Hz2, lookup_insert_eq|done].
      * intros [= <- <-]. split; [done|]. intros n [Hne _]%not_elem_of_cons. by apply Hov.
    + intros Hrun. rewrite <- Es1 in Hex. eapply Hgo; [exact Hrun|done|lia|done|by intros; rewrite Es1|by intros; rewrite Es1|].
      intros [?|Hnone]; [done|]. rewrite Es1, Hnone in Hex. by destruct Hex.
Qed.
End store.

(** ** File names *)
Definition underscore (c : ascii) : ascii := if Ascii.eqb c "."%char then "_"%char else c.
Lemma ReplaceAll_dots s : ReplaceAll s "." "_" = str_map underscore s.
Proof.
  unfold ReplaceAll. induction s as [|a s IH]; [done|]. cbn [replace_go str_map]. unfold underscore at 1. destruct (Ascii.eqb_spec a "."%char) as [->|Hne].
  - assert (HasPrefix (String "." s) "." = true) as -> by (by apply bool_decide_eq_true; exists s). cbn [String.length Nat.sub]. by rewrite IH.
  - assert (HasPrefix (String a s) "." = false) as ->; [|by rewrite IH]. apply bool_decide_eq_false. cbn [strip_prefix].
    destruct (Ascii.eqb_spec "."%char a) as [<-|]; [done|]. by intros [? ?].
Qed.
Lemma underscore_inj s : forall t, lacks "_"%char s -> lacks "_"%char t -> str_map underscore s = str_map underscore t -> s = t.
Proof.
  induction s as [|a s IH]; intros [|b t]; try done. unfold lacks. cbn [str_forallb str_map]. rewrite !andb_true_iff, !negb_true_iff, !Ascii.eqb_neq. intros [Ha Hs] [Hb Ht] [= E1 E2].
  f_equal; [|by apply IH]. revert E1. unfold underscore. destruct (Ascii.eqb_spec a "."%char) as [->|], (Ascii.eqb_spec b "."%char) as [->|]; congruence.
Qed.
Lemma dotted_lacks ls : Forall ldh_label ls -> lacks "_"%char (dotted ls).
Proof.
  assert (Hl : forall l, ldh_label l -> lacks "_"%char l).
  { intros l (Hc & _). eapply str_forallb_impl; [|exact Hc]. intros c Hc'. apply negb_true_iff, Ascii.eqb_neq. intros ->. discriminate. }
  induction 1 as [|l ls Hl0 Hls IH]; [done|]. destruct ls as [|l' ls]; [by apply Hl|]. rewrite dotted_cons by done. rewrite !lacks_app. split_and!; [by apply Hl|done|done].
Qed.

Section names.
Context `{UnicodeTables}.
Lemma export_name_inj n n' : ValidateZoneName n = Ok tt -> ValidateZoneName n' = Ok tt -> NormalizeZoneName n = n -> NormalizeZoneName n' = n' ->
  len n <= 201 -> len n' <= 201 -> export_name n = export_name n' -> n = n'.
Proof.
  intros Hv Hv' Hn Hn' Hl Hl'. unfold export_name, sanitizeFilename. intros E%str_app_inj_r. rewrite !ReplaceAll_dots in E.
  pose proof (valid_zone_file n Hv ltac:(by rewrite Hn)) as F. pose proof (valid_zone_file n' Hv' ltac:(by rewrite Hn')) as F'. rewrite Hn in F. rewrite Hn' in F'.
  assert (Hlack : forall m, ValidateZoneName m = Ok tt -> NormalizeZoneName m = m -> m = SafeZoneFilename m +:+ "." -> lacks "_"%char (SafeZoneFilename m)).
  { intros m Hm%zone_name_accepted Hmn Hms. destruct (dns_name_normalize m Hm) as (ls & _ & Hls & Heq & _). rewrite Hmn in Heq. rewrite Heq in Hms at 1.
    apply str_app_inj_r in Hms. rewrite <- Hms. by apply dotted_lacks. }
  rewrite F, F'. f_equal. apply underscore_inj; auto.
Qed.
Lemma export_name_json n : HasSuffix (export_name n) ".json" = true.
Proof. unfold export_name. apply HasSuffix_app. Qed.
End names.

(** ** Files *)

(** What holds when a computation succeeds. *)
Definition wp_ok {St A} (m : io St (result A)) (s : St) (P : A -> St -> Prop) : Prop := wpio m s (fun r s' => match r with Ok a => P a s' | Err _ => True end).
Lemma ok_try {St A B} (m : io St (result A)) (k : A -> io St (result B)) s P : wp_ok m s (fun a s' => wp_ok (k a) s' P) -> wp_ok (io_try m k) s P.
Proof. unfold wp_ok, wpio, io_try, io_bind. destruct (m s) as [[a|e] s']; done. Qed.
Lemma ok_wrap {St A} p (m : io St (result A)) s P : wp_ok m s P -> wp_ok (io_wrap p m) s P.
Proof. unfold wp_ok, wpio, io_wrap, io_bind. destruct (m s) as [[a|e] s']; done. Qed.
Lemma ok_mono {St A} (m : io St (result A)) s P P' : wp_ok m s P -> (forall a s', P a s' -> P' a s') -> wp_ok m s P'.
Proof. unfold wp_ok, wpio. destruct (m s) as [[a|e] s']; cbn; auto. Qed.
Lemma ok_run {St A} (m : io St (result A)) s a s' P : m s = (Ok a, s') -> wp_ok m s P -> P a s'.
Proof. unfold wp_ok, wpio. by intros ->. Qed.
Lemma ok_weak {St A} (m : io St (result A)) s (Q : result A -> St -> Prop) P : wpio m s Q -> (forall a s', Q (Ok a) s' -> P a s') -> wp_ok m s P.
Proof. unfold wp_ok, wpio. destruct (m s) as [[a|e] s']; cbn; auto. Qed.
Lemma ok_quiet {A} (m : io fs (result A)) s : quiet m -> wp_ok m s (fun _ s' => still s s').
Proof. intros Hq. eapply ok_weak; [apply (wp_quiet m s Hq)|]. done. Qed.

Section files.
Context `{UnicodeTables} (w : World).

Lemma ok_temp p m s P : wp_ok m s P -> wp_ok (on_temp w p m) s P.
Proof.
  unfold wp_ok, on_temp, wpio, io_wrap, io_bind, io_ok, io_fail, io_ret. destruct (m s) as [[[]|e] s1]; [done|].
  cbn. by destruct (tmp_Close w s1).
Qed.
Lemma ok_syscall {A} (op : nat -> directory -> result A * directory) s P :
  (forall a d, op (tick s) (zone_dir s) = (Ok a, d) -> P a (mkFs d (S (tick s)))) -> wp_ok (syscall w op) s P.
Proof.
  intros Hop. unfold wp_ok, wpio, syscall. destruct (fault w (tick s)); [done|]. destruct (op _ _) as [[a|e] d] eqn:E; cbn; auto.
Qed.
Lemma ok_tmp_write n data s (P : unit -> fs -> Prop) :
  P tt (mkFs (update_entries (alter (set_data (mtime_now w (tick s)) data) n) (zone_dir s)) (S (tick s))) -> wp_ok (tmp_Write w n data) s P.
Proof. unfold wp_ok, wpio, tmp_Write. by destruct (fault w (tick s)). Qed.
Lemma ok_fill tmp name data perm s es i p t x : entries s = <[tmp := Regular i p t x]> es -> es !! tmp = None ->
  wp_ok (fill_and_rename w tmp name data perm) s (fun _ s' => exists i t, entries s' = <[name := Regular i perm t data]> es).
Proof.
  intros He Hnew. apply ok_try, ok_temp, ok_syscall. intros [] d1 [= <-]. set (s1 := mkFs _ _).
  assert (H1 : entries s1 = <[tmp := Regular i perm t x]> es) by (cbn; by rewrite ents_alter, He, alter_insert_eq).
  apply ok_try, ok_temp, ok_tmp_write. set (s2 := mkFs (update_entries _ (zone_dir s1)) _).
  assert (H2 : entries s2 = <[tmp := Regular i perm (mtime_now w (tick s1)) data]> es) by (unfold s2; cbn [zone_dir]; by rewrite ents_alter, H1, alter_insert_eq).
  apply ok_try, ok_temp, ok_syscall. intros [] d3 [= <-]. apply ok_try, ok_wrap, ok_syscall. intros [] d4 [= <-]. apply ok_wrap.
  eapply ok_weak; [apply wp_rename|]. intros [] s5 (nd & Hnd & H5). change (entries _ !! tmp) with (entries s2 !! tmp) in Hnd. rewrite H2, lookup_insert_eq in Hnd. injection Hnd as <-.
  change (entries s5 = <[name := Regular i perm (mtime_now w (tick s1)) data]> (delete tmp (entries s2))) in H5. rewrite H5, H2. exists i, (mtime_now w (tick s1)). by rewrite delete_insert_id.
Qed.
Lemma quiet_syncMigration : quiet (syncMigrationDir w).
Proof.
  apply quiet_try; [by apply quiet_syscall|]. intros _. apply quiet_bind; [intros s; by destruct (fault w _) as [[]|]|]. intros r. apply quiet_bind; [by apply quiet_syscall|]. done.
Qed.
Lemma quiet_validateMigration label : quiet (validateExistingMigrationDirectory w label).
Proof. apply quiet_try; [by apply quiet_syscall|]. intros []; done. Qed.

Lemma ok_write name data perm s : wp_ok (writeMigrationFileAtomicSynced w name data perm) s (fun _ s' => exists i t, entries s' = <[name := Regular i perm t data]> (entries s)).
Proof.
  apply ok_try, ok_wrap. eapply ok_mono; [apply ok_quiet, quiet_validateMigration|]. intros [] s1 H1. apply ok_try, ok_wrap.
  eapply ok_weak; [apply wp_create|]. cbn beta. intros tmp s2 ([_ Hnew] & i & p & t & x & H2). unfold wp_ok. apply wpio_bind.
  eapply wpio_mono; [apply (ok_fill tmp name data perm s2 (entries s) i p t x); [by rewrite H2, H1|by rewrite <- H1]|]. intros [[]|e] s3; cbn beta iota.
  - intros (i' & t' & H3). apply ok_wrap. eapply ok_mono; [apply ok_quiet, quiet_syncMigration|]. intros [] s4 H4. exists i', t'. by rewrite H4.
  - intros _. unfold wpio, io_bind, io_fail, io_ret. by destruct (os_Remove w tmp s3).
Qed.
Lemma ok_ensure label s : wp_ok (ensureMigrationDirectory w label) s (fun _ s' => entries s' = entries s).
Proof.
  unfold wp_ok, ensureMigrationDirectory. apply wpio_bind. eapply wpio_mono; [apply wp_quiet, quiet_validateMigration|]. intros first s1 H1. fold (@wp_ok fs unit).
  apply ok_try. assert (Hq : forall b, quiet (match first with Ok _ => io_ok true | Err e => if os_IsNotExist e then io_ok b else io_fail (Wrapf ("stat " +:+ label) e) end)).
  { intros b. destruct first; [done|]. by destruct (os_IsNotExist e). }
  eapply ok_mono; [apply ok_quiet, Hq|]. intros existed s2 H2. apply ok_try, ok_wrap. eapply ok_weak; [apply wp_mkdir|]. cbn beta. intros [] s3 H3.
  apply ok_try, ok_wrap. eapply ok_mono; [apply ok_quiet, quiet_validateMigration|]. intros [] s4 H4.
  destruct existed; cbn [negb]; [|apply ok_wrap; eapply ok_mono; [apply ok_quiet, quiet_syncMigration|]; intros [] s5 H5]; cbn; by rewrite ?H5, H4, H3, H2, H1.
Qed.

(** ** Exporting *)
Context (marshal : Zone -> result string) (unmarshal : string -> result Zone).
Lemma ok_export zones : forall s, NoDup (map (fun z => export_name (z_Name z)) zones) ->
  wp_ok (export_zones w marshal zones) s (fun _ s' =>
    (forall z, z ∈ zones -> exists data, marshal z = Ok data /\ content (entries s' !! export_name (z_Name z)) = Some data)
    /\ (forall n, n ∉ map (fun z => export_name (z_Name z)) zones -> entries s' !! n = entries s !! n)).
Proof.
  induction zones as [|z zones IH]; intros s Hnd; cbn [export_zones].
  { split; [intros z Hz; by apply elem_of_nil in Hz|done]. }
  cbn [map] in *. apply NoDup_cons in Hnd as [Hnew Hnd]. destruct (marshal z) as [data|e] eqn:Em; [|done]. apply ok_try, ok_wrap.
  eapply ok_mono; [apply ok_write|]. intros [] s1 (i & t & H1). eapply ok_mono; [by apply IH|]. intros [] s2 [Hall Hother]. split.
  - intros z' [->|Hz']%elem_of_cons; [|auto]. exists data. split; [done|]. rewrite Hother by done. by rewrite H1, lookup_insert_eq.
  - intros n [Hne Hn]%not_elem_of_cons. rewrite Hother by done. by rewrite H1, lookup_insert_ne.
Qed.

(** ** Importing *)
Lemma ok_read name s : wp_ok (readRegularMigrationFile w name) s (fun data s' => still s s' /\ content (entries s !! name) = Some data).
Proof.
  assert (E : forall s0, fst (readRegularMigrationFile w name s0) = (let* x := fst (readRegularSyncFile w name "migration file" s0) in Ok (fst x)) /\ snd (readRegularMigrationFile w name s0) = snd (readRegularSyncFile w name "migration file" s0)).
  { intros s0. unfold readRegularMigrationFile, readRegularSyncFile, io_try, io_bind, io_ok, io_fail, io_ret. change maxMigrationFileSize with maxSyncFileSize.
    repeat (case_match; simplify_eq; try done). }
  pose proof (wp_readRegular w name "migration file" s) as Hr. unfold wp_ok, wpio in *. destruct (E s) as [E1 E2]. rewrite E1, E2.
  destruct (fst (readRegularSyncFile w name "migration file" s)) as [[data perm]|e]; cbn; [|done]. destruct Hr as [Hs (i & t & Hn)]. split; [done|]. by rewrite Hn.
Qed.
Definition read_from (s : fs) (file : string) (z : Zone) : Prop :=
  exists data, content (entries s !! file) = Some data /\ unmarshal data = Ok z /\ ValidateZone (Some z) = Ok tt.
Lemma ok_read_zones files : forall s, wp_ok (read_zones w unmarshal files) s (fun zones s' => still s s' /\ Forall2 (read_from s) files zones).
Proof.
  induction files as [|file files IH]; intros s; cbn [read_zones]; [by split|]. apply ok_try, ok_wrap. eapply ok_mono; [apply ok_read|]. intros data s1 [H1 Hd].
  destruct (unmarshal data) as [z|e] eqn:Eu; cbn [wrap rbind]; [|done]. destruct (ValidateZone (Some z)) as [[]|e] eqn:Ev; cbn [wrap rbind]; [|done].
  apply ok_try. eapply ok_mono; [apply IH|]. intros zones s2 [H2 Hz]. cbn. split; [by eapply still_trans|]. constructor; [by exists data|].
  eapply Forall2_impl; [exact Hz|]. intros f z' (d' & Hd' & ?). exists d'. by rewrite <- H1.
Qed.
Definition json_names (es : gmap string node) : list string := sort_Strings (List.filter (fun n => HasSuffix n ".json") ((map_to_list es).*1)).
Lemma ok_read_directory s : wp_ok (read_directory w unmarshal) s (fun zones s' => still s s' /\ Forall2 (read_from s) (json_names (entries s)) zones).
Proof.
  apply ok_try, ok_wrap. eapply ok_mono; [apply ok_quiet, quiet_validateMigration|]. intros [] s1 H1. unfold wp_ok. apply wpio_bind. unfold wpio at 1, glob_json. cbn [fst snd].
  destruct (fault w (tick s1)); [done|]. destruct (zone_dir s1) as [| | |es] eqn:Ed; [done..|]. set (files := sort_Strings _). destruct (_ =? 0)%nat; [done|].
  fold (wp_ok (read_zones w unmarshal files) (mkFs (Dir es) (S (tick s1))) (fun zones s' => still s s' /\ Forall2 (read_from s) (json_names (entries s)) zones)).
  eapply ok_mono; [apply ok_read_zones|]. intros zones s2 [H2 Hz]. unfold still in *. cbn [zone_dir] in H2. split; [congruence|].
  rewrite <- H1, Ed. cbn [ents]. fold files. eapply Forall2_impl; [exact Hz|]. intros f z (d' & Hd' & Hrest). exists d'. rewrite <- H1, Ed. by split.
Qed.
End files.

(** The JSON files of a directory hold exactly the exported zones. *)
Lemma read_back `{UnicodeTables} (marshal : Zone -> result string) (unmarshal : string -> result Zone) (l zs : list Zone) (es es0 : gmap string node) :
  NoDup (map (fun z => export_name (z_Name z)) l) -> (forall z data, marshal z = Ok data -> unmarshal data = Ok z) ->
  (forall n, HasSuffix n ".json" = true -> es0 !! n = None) ->
  (forall z, z ∈ l -> exists data, marshal z = Ok data /\ content (es !! export_name (z_Name z)) = Some data) ->
  (forall n, n ∉ map (fun z => export_name (z_Name z)) l -> es !! n = es0 !! n) ->
  Forall2 (fun file z => exists data, content (es !! file) = Some data /\ unmarshal data = Ok z /\ ValidateZone (Some z) = Ok tt) (json_names es) zs -> zs ≡ₚ l.
Proof.
  intros Hnd Hjson Hclean Hfiles Hother Hread.
  assert (Hnames : json_names es ≡ₚ map (fun z => export_name (z_Name z)) l).
  { unfold json_names, sort_Strings. rewrite sort_Slice_Permutation. apply NoDup_Permutation; [|done|].
    - apply NoDup_ListNoDup, List.NoDup_filter, NoDup_ListNoDup, NoDup_fst_map_to_list.
    - intros n. rewrite list_elem_of_In, filter_In, <- list_elem_of_In. split.
      + intros [Hin Hj]. destruct (decide (n ∈ map (fun z => export_name (z_Name z)) l)) as [|Hno]; [done|]. apply list_elem_of_fmap in Hin as ([n' nd] & -> & Hm%elem_of_map_to_list).
        cbn in *. rewrite Hother, Hclean in Hm by done. done.
      + intros (z & -> & Hz)%list_elem_of_fmap. destruct (Hfiles z Hz) as (data & _ & Hc). split; [|apply export_name_json].
        destruct (es !! export_name (z_Name z)) as [nd|] eqn:E; [|done]. apply list_elem_of_fmap. exists (export_name (z_Name z), nd). split; [done|by apply elem_of_map_to_list]. }
  assert (Hpick : forall files zs, Forall2 (fun file z => exists data, content (es !! file) = Some data /\ unmarshal data = Ok z /\ ValidateZone (Some z) = Ok tt) files zs ->
    forall l', files = map (fun z => export_name (z_Name z)) l' -> (forall z, z ∈ l' -> z ∈ l) -> zs = l').
  { clear Hread zs Hnames. induction 1 as [|file z files zs (data & Hc & Hu & _) _ IH]; intros [|z' l'] Hf Hsub; try discriminate; [done|]. injection Hf as -> ->.
    destruct (Hfiles z') as (data' & Hm & Hc'); [apply Hsub; by left|]. assert (data' = data) as -> by congruence. rewrite (Hjson _ _ Hm) in Hu. injection Hu as <-.
    f_equal. apply IH; [done|]. intros z Hz. apply Hsub. by right. }
  apply Permutation_map_inv in Hnames as (l' & El & Hp). rewrite (Hpick _ _ Hread l' El); [by symmetry|]. intros z Hz. by rewrite Hp.
Qed.

(** ** Properties *)
Section properties.
Context `{UnicodeTables, !UnicodeLaws} {S T : Type} `{!ZoneStore S, !StoreLaws S, !CreateErrors S, !ZoneStore T, !StoreLaws T}.
Context (env : nat -> Inputs) (transactions : option (Transactions (S := S))).

(** The inputs of the writes, the transactions and the source store behave. *)
Definition random_source_ok : Prop := forall n r, in_rand (env n) = Err r -> errors_Is r ErrZoneAlreadyExists = false.
Definition transactions_ok : Prop := forall tx, transactions = Some tx -> TxLaws tx.
Definition normal_names (source : T) : Prop := forall n, is_Some (zones_of source !! n) -> NormalizeZoneName n = n.

Lemma source_listing source : store_ok source -> normal_names source -> exists l, store_ListZones source everything = Ok l
  /\ l ≡ₚ (map_to_list (zones_of source)).*2 /\ NoDup (map zone_key l) /\ Z.of_nat (length l) = Z.of_nat (size (zones_of source))
  /\ (forall z, z ∈ l -> ValidateZoneName (z_Name z) = Ok tt /\ zones_of source !! z_Name z = Some z /\ zone_key z = z_Name z)
  /\ (forall n z, zones_of source !! n = Some z -> z ∈ l /\ z_Name z = n /\ zone_key z = n).
Proof.
  intros Hok Hnorm. destruct (law_list source) as (l & Hp & _ & Hl). exists l.
  assert (Hz : forall n z, zones_of source !! n = Some z -> z_Name z = n /\ zone_key z = n /\ ValidateZoneName (z_Name z) = Ok tt).
  { intros n z Hnz. destruct (law_stored _ _ _ Hok Hnz) as (En & Hv & _). split; [done|]. split; [unfold zone_key; rewrite En; apply Hnorm; eauto|].
    unfold ValidateZone in Hv. by apply rbind_ok in Hv as ([] & Hn%wrap_ok & _). }
  assert (Hin : forall z, z ∈ l <-> exists n, zones_of source !! n = Some z).
  { intros z. rewrite Hp, list_elem_of_fmap. split; [intros ([n z'] & -> & Hm%elem_of_map_to_list); by exists n|]. intros [n Hn]. exists (n, z). split; [done|by apply elem_of_map_to_list]. }
  split_and!.
  - rewrite Hl. f_equal.
  - done.
  - change (map zone_key l) with (zone_key <$> l). rewrite Hp. assert (E : zone_key <$> (map_to_list (zones_of source)).*2 = (map_to_list (zones_of source)).*1).
    { rewrite <- list_fmap_compose. apply list_fmap_ext. intros i [n z] Hi. cbn. apply Hz, elem_of_map_to_list. by eapply list_elem_of_lookup_2. }
    rewrite E. apply NoDup_fst_map_to_list.
  - f_equal. rewrite Hp, length_fmap. apply length_map_to_list.
  - intros z [n Hn]%Hin. destruct (Hz n z Hn) as (<- & Hk & Hv). done.
  - intros n z Hn. destruct (Hz n z Hn) as (E & Hk & _). split; [apply Hin; eauto|done].
Qed.

(** C29: Copying between backends is complete and careful: if the command
    succeeds, every zone of the source was written or skipped; a zone the
    destination did not have (or, with [--overwrite], any zone of the source) is
    then stored there with the same content and serial; without [--overwrite]
    zones the destination already had are untouched.  Whether it succeeds or not,
    zones the source does not have are untouched, and a dry run writes nothing. *)
Theorem copy_complete (source : T) (dryRun overwrite : bool) (d d' : dest (S := S)) (r : result (Z * Z)) :
  random_source_ok -> transactions_ok -> store_ok source -> normal_names source -> store_ok (d_store d) ->
  runCopy env transactions source dryRun overwrite d = (r, d') ->
  (dryRun = true -> d' = d)
  /\ (forall n, zones_of source !! n = None -> zones_of (d_store d') !! n = zones_of (d_store d) !! n)
  /\ (dryRun = false -> forall copied skipped, r = Ok (copied, skipped) ->
      copied + skipped = Z.of_nat (size (zones_of source)) /\ (overwrite = true -> skipped = 0)
      /\ forall n z, zones_of source !! n = Some z ->
         (overwrite = false -> forall old, zones_of (d_store d) !! n = Some old -> zones_of (d_store d') !! n = Some old)
         /\ ((overwrite = true \/ zones_of (d_store d) !! n = None) -> exists w, zones_of (d_store d') !! n = Some w /\ migrated z w)).
Proof.
  intros Henv Htx Hsrc Hnorm Hok. destruct (source_listing source Hsrc Hnorm) as (l & Hl & _ & Hnd & Hlen & Hmem & Hall).
  unfold runCopy. rewrite Hl. destruct dryRun; [intros [= <- <-]; split_and!; done|]. intros Hrun.
  destruct (write_zones_spec env Henv transactions Htx _ _ _ _ _ _ _ _ Hnd Hok Hrun) as [_ Hr]. split_and!; [done| |].
  - intros n Hn. assert (Hout : n ∉ map zone_key l).
    { intros (z & -> & Hz)%list_elem_of_fmap. destruct (Hmem z Hz) as (_ & Hz' & Hk). congruence. }
    destruct r as [[c k]|e]; [|by apply Hr]. destruct Hr as (_ & _ & Hexp). by apply (Hexp n).
  - intros _ copied skipped ->. destruct Hr as (Hsum & Hk & Hexp). split_and!; [lia|auto|]. intros n z Hn. destruct (Hall n z Hn) as (Hz & _ & Hzk). exact (proj2 (Hexp n) z Hz Hzk).
Qed.

(** C30: Export and import are inverse: if both commands succeed, exporting a
    store of zones with names of at most 200 bytes into a directory without JSON
    files and importing that directory into an empty store, whatever faults the
    two runs met, gives a store with exactly the same zones up to versions and
    times. *)
Theorem export_import_round_trip (w w' : World) (marshal : Zone -> result string) (unmarshal : string -> result Zone)
    (source : T) (overwrite : bool) (f0 f1 f1' f2 : fs) (d d' : dest (S := S)) (exported imported : Z) :
  random_source_ok -> transactions_ok -> store_ok source -> normal_names source -> (forall n, is_Some (zones_of source !! n) -> len n <= 201) ->
  (forall z data, marshal z = Ok data -> unmarshal data = Ok z) ->
  (forall n, HasSuffix n ".json" = true -> entries f0 !! n = None) -> store_ok (d_store d) -> zones_of (d_store d) = ∅ ->
  exportFromStore w marshal source false f0 = (Ok exported, f1) -> zone_dir f1' = zone_dir f1 ->
  importToStore w' unmarshal env transactions false overwrite f1' d = (Ok imported, f2, d') ->
  exported = Z.of_nat (size (zones_of source))
  /\ (forall n, zones_of source !! n = None -> zones_of (d_store d') !! n = None)
  /\ forall n z, zones_of source !! n = Some z -> exists w, zones_of (d_store d') !! n = Some w /\ migrated z w.
Proof.
  intros Henv Htx Hsrc Hnorm Hshort Hjson Hclean Hok Hempty Hexport Hsame Himport. destruct (source_listing source Hsrc Hnorm) as (l & Hl & _ & Hnd & Hlen & Hmem & Hall).
  unfold exportFromStore in Hexport. rewrite Hl in Hexport.
  assert (Hnames : NoDup (map (fun z => export_name (z_Name z)) l)).
  { assert (E : (fun z => export_name (z_Name z)) <$> l = export_name <$> (zone_key <$> l)).
    { rewrite <- list_fmap_compose. apply list_fmap_ext. intros i z Hi. cbn. f_equal. symmetry. apply Hmem. by eapply list_elem_of_lookup_2. }
    change (map ?f l) with (f <$> l). rewrite E. apply NoDup_fmap_2_strong; [|done]. intros n n' (z & -> & Hz)%list_elem_of_fmap (z' & -> & Hz')%list_elem_of_fmap.
    destruct (Hmem z Hz) as (Hv & Hs & Hk), (Hmem z' Hz') as (Hv' & Hs' & Hk'). rewrite Hk, Hk'. apply export_name_inj; [done|done|exact Hk|exact Hk'|apply Hshort; eauto|apply Hshort; eauto]. }
  assert (Hex : wp_ok (io_wrap "create output directory" (ensureMigrationDirectory w "output directory") ;;? export_zones w marshal l ;;? io_ok (Z.of_nat (length l))) f0
    (fun n s' => n = Z.of_nat (length l) /\ (forall z, z ∈ l -> exists data, marshal z = Ok data /\ content (entries s' !! export_name (z_Name z)) = Some data)
      /\ (forall n, n ∉ map (fun z => export_name (z_Name z)) l -> entries s' !! n = entries f0 !! n))).
  { apply ok_try, ok_wrap. eapply ok_mono; [apply ok_ensure|]. intros [] s1 H1. apply ok_try. eapply ok_mono; [by apply ok_export|]. intros [] s2 [Ha Hb]. cbn. rewrite <- H1. done. }
  destruct (ok_run _ _ _ _ _ Hexport Hex) as (-> & Hfiles & Hother). clear Hex. split; [lia|].
  unfold importToStore in Himport. destruct (read_directory w' unmarshal f1') as [[zs|e] f2'] eqn:Eread; [|done].
  destruct (ok_run _ _ _ _ _ Eread (ok_read_directory w' unmarshal f1')) as [_ Hread]. unfold read_from in Hread. rewrite Hsame in Hread.
  assert (Hzs : zs ≡ₚ l) by (by eapply read_back).
  destruct (write_zones env transactions "" overwrite 0 0 zs d) as [[[c k]|e] d1] eqn:Ewrite; [|done]. injection Himport as <- <- <-.
  assert (Hnd' : NoDup (map zone_key zs)) by (change (map zone_key zs) with (zone_key <$> zs); by rewrite Hzs).
  destruct (write_zones_spec env Henv transactions Htx _ _ _ _ _ _ _ _ Hnd' Hok Ewrite) as [_ (_ & _ & Hexp)]. split.
  - intros n Hn. rewrite (proj1 (Hexp n)), Hempty; [done|]. intros (z & -> & Hz)%list_elem_of_fmap. rewrite Hzs in Hz. destruct (Hmem z Hz) as (_ & Hz' & Hk). congruence.
  - intros n z Hn. destruct (Hall n z Hn) as (Hz & _ & Hk). destruct (proj2 (Hexp n) z ltac:(by rewrite Hzs) Hk) as [_ Hw]. apply Hw. right. by rewrite Hempty.
Qed.
End properties.

(** ** Overwriting on a store that fails

    What the overwrite path relies on is less than the contract: a lookup may fail
    but does not lie; a failed creation may have had no effect, or have left some
    zone under the name that was free, its own or that of another client. *)
Class FaultyStore `{UnicodeTables} (S : Type) `{ZoneStore S} := {
  fs_ok : S -> Prop;
  fs_zones : S -> gmap string Zone;
  fs_stored : forall s n z, fs_ok s -> fs_zones s !! n = Some z -> z_Name z = n /\ ValidateZone (Some z) = Ok tt;
  fs_get : forall s n, match store_GetZone s n with
    | Ok z => fs_zones s !! NormalizeZoneName n = Some z
    | Err e => errors_Is e ErrZoneNotFound = true -> fs_zones s !! NormalizeZoneName n = None
    end;
  fs_create : forall e z s u, fs_ok s ->
    match store_CreateZone e (Some z) s u with
    | (Ok _, z', s', _) => exists w, z' = Some w /\ created e z w /\ fs_ok s' /\ fs_zones s !! z_Name w = None /\ fs_zones s' = <[z_Name w := w]> (fs_zones s)
    | (Err _, _, s', _) => fs_ok s' /\ (fs_zones s' = fs_zones s
        \/ fs_zones s !! NormalizeZoneName (z_Name z) = None /\ exists x, fs_zones s' = <[NormalizeZoneName (z_Name z) := x]> (fs_zones s))
    end;
  fs_delete : forall f n expected s, conditionalDeleteStore = Some f -> fs_ok s ->
    match f n expected s with
    | (Ok _, s') => fs_ok s' /\ fs_zones s' = delete (NormalizeZoneName n) (fs_zones s)
        /\ exists z, fs_zones s !! NormalizeZoneName n = Some z /\ (expected = "" \/ expected = z_Version z)
    | (Err _, s') => s' = s
    end }.
(** Stores that keep the contract do. *)
#[export] Instance lawful_store `{UnicodeTables} {S : Type} `{!ZoneStore S, !StoreLaws S} : FaultyStore S.
Proof.
  refine {| fs_ok := store_ok; fs_zones := zones_of |}.
  - intros s n z Hok Hz. by destruct (law_stored s n z Hok Hz) as (? & ? & _).
  - intros s n. rewrite law_get. by destruct (zones_of s !! _).
  - intros e z s u Hok. pose proof (law_create e (Some z) s u Hok) as Hl. destruct (store_CreateZone e (Some z) s u) as [[[[[]|err] z'] s'] u'].
    + destruct Hl as (z0 & w & [= <-] & -> & Hc & Hs & Hn & Hz). exists w. by split_and!.
    + destruct Hl as (_ & -> & _). auto.
  - intros f n expected s Hf Hok. pose proof (law_conditional_delete f n expected s Hf) as Hl. destruct (f n expected s) as [[[]|err] s'].
    + destruct Hl as (z & Hz & He & Hd & Hs). split; [auto|]. split; [done|]. by exists z.
    + by destruct Hl.
Defined.

Section faulty.
Context `{UnicodeTables, !UnicodeLaws} {S : Type} `{!ZoneStore S, !FaultyStore S} (env : nat -> Inputs).
Abbreviation fzones d := (fs_zones (d_store d)).
Abbreviation fok d := (fs_ok (d_store d)).
(** [x] is the zone whose creation was attempted. *)
Definition replacement_of (x attempted : Zone) : Prop :=
  z_Version attempted <> "" /\ z_Version x = z_Version attempted /\ zone_key x = zone_key attempted /\ z_SOA x = z_SOA attempted
  /\ z_DNSSEC x = z_DNSSEC attempted /\ z_Records x = z_Records attempted.
Lemma sameRecords_eq a b : sameRecords a b = true -> a = b.
Proof.
  revert b. induction a as [|x a IH]; intros [|y b]; try done. cbn [sameRecords]. intros [Hr Hs]%andb_true_iff. f_equal; [|by apply IH]. unfold sameRecord in Hr.
  destruct x as [x1 x2 x3 x4 x5 x6], y as [y1 y2 y3 y4 y5 y6]. cbn in Hr. rewrite !andb_true_iff, !String.eqb_eq, Z.eqb_eq in Hr. destruct Hr as (((((-> & ->) & ->) & ->) & ->) & Hp).
  destruct x6, y6; try done. by apply Z.eqb_eq in Hp as ->.
Qed.
Lemma sameDNSSEC_eq a b : sameDNSSECConfig a b = true -> a = b.
Proof.
  destruct a as [a|], b as [b|]; try done. cbn [sameDNSSECConfig]. rewrite !andb_true_iff, !Z.eqb_eq, !Bool.eqb_true_iff, String.eqb_eq. destruct a, b. cbn.
  intros (((((((-> & ->) & ->) & ->) & ->) & ->) & ->) & He). do 2 f_equal. destruct SignatureExpiration, SignatureExpiration0; try done. by apply Z.eqb_eq in He as ->.
Qed.
Lemma sameReplacement_spec x attempted : sameReplacementZone x attempted = true -> replacement_of x attempted.
Proof.
  unfold sameReplacementZone, given. rewrite !andb_true_iff, negb_true_iff, !String.eqb_eq, String.eqb_neq, bool_decide_eq_true.
  intros (((((? & ?) & ?) & ?) & ?%sameDNSSEC_eq) & ?%sameRecords_eq). by split_and!.
Qed.

Lemma fs_create_step z d r z' d' : CreateZone env z d = ((r, z'), d') -> fok d ->
  fok d' /\ match r with
  | Ok _ => exists w, copy_of z w /\ fzones d' = <[zone_key z := w]> (fzones d)
  | Err _ => fzones d' = fzones d \/ fzones d !! zone_key z = None /\ exists x, fzones d' = <[zone_key z := x]> (fzones d)
  end.
Proof.
  unfold CreateZone. intros E Hok. pose proof (fs_create (env (d_calls d)) z (d_store d) (d_ulid d) Hok) as Hl.
  destruct (store_CreateZone (env (d_calls d)) (Some z) (d_store d) (d_ulid d)) as [[[r0 z0] s] u]. injection E as -> <- <-. destruct r as [[]|e]; [|done].
  destruct Hl as (w & -> & Hcr & Hs & _ & Hz). assert (Ew : z_Name w = zone_key z) by (by destruct Hcr as [[-> _]]). split; [done|]. exists w. split; [by eapply created_copy|]. by rewrite <- Ew.
Qed.
Lemma fs_delete_step n v d r d' : deleteZoneForOverwrite n v d = (r, d') -> fok d ->
  match r with
  | Ok _ => fok d' /\ fzones d' = delete (NormalizeZoneName n) (fzones d) /\ exists z, fzones d !! NormalizeZoneName n = Some z /\ (v = "" \/ v = z_Version z)
  | Err _ => d_store d' = d_store d
  end.
Proof.
  unfold deleteZoneForOverwrite. destruct conditionalDeleteStore as [f|] eqn:Ef; [|by intros [= <- <-]]. intros E Hok.
  pose proof (fs_delete f n v (d_store d) Ef Hok) as Hl. destruct (f n v (d_store d)) as [r0 s]. injection E as -> <-. by destruct r as [[]|e].
Qed.
Lemma fs_get_step n d r d' : GetZone n d = (r, d') -> d' = d /\ match r with
  | Ok z => fzones d !! NormalizeZoneName n = Some z | Err e => errors_Is e ErrZoneNotFound = true -> fzones d !! NormalizeZoneName n = None end.
Proof. unfold GetZone. intros [= <- <-]. split; [done|]. apply fs_get. Qed.
Lemma fs_key d n z : fok d -> fzones d !! NormalizeZoneName n = Some z -> zone_key z = NormalizeZoneName n.
Proof.
  intros Hok Hz. destruct (fs_stored _ _ _ Hok Hz) as (En & Hv). unfold zone_key. rewrite En. apply NormalizeZoneName_idem.
  assert (Hname : ValidateZoneName (z_Name z) = Ok tt) by (unfold ValidateZone in Hv; apply rbind_ok in Hv as ([] & Hn%wrap_ok & _); done).
  rewrite <- En. apply zone_name_accepted in Hname. destruct Hname as (_ & ls & _ & Hls & [-> | ->]); rewrite ?is_ascii_app, dotted_ascii by done; done.
Qed.

(** What restoring [current] after a failed creation of [attempted] does. *)
Definition restored (current attempted : Zone) (before : gmap string Zone) (r : result unit) (after : gmap string Zone) : Prop :=
  let n := zone_key current in
  (forall m, m <> n -> after !! m = before !! m)
  /\ (forall x, before !! n = Some x -> ~ replacement_of x attempted -> after !! n = Some x)
  /\ (r = Ok tt -> exists w, after !! n = Some w /\ (copy_of current w \/ before !! n = Some w /\ z_Version w = z_Version current)).
Lemma create_previous_spec current d r z' d' : CreateZone env current d = ((r, z'), d') -> fok d -> fzones d !! zone_key current = None ->
  fok d' /\ (forall m, m <> zone_key current -> fzones d' !! m = fzones d !! m) /\ (r = Ok tt -> exists w, fzones d' !! zone_key current = Some w /\ copy_of current w).
Proof.
  intros Ec Hok Hn. destruct (fs_create_step _ _ _ _ _ Ec Hok) as [Hok' Hr]. split; [done|]. destruct r as [[]|e].
  - destruct Hr as (w & Hw & ->). split; [intros m Hm; by rewrite lookup_insert_ne|]. intros _. exists w. by rewrite lookup_insert_eq.
  - split; [|done]. destruct Hr as [->|(_ & x & ->)]; [done|]. intros m Hm. by rewrite lookup_insert_ne.
Qed.
Lemma restore_steps current attempted d r d' : restoreZoneAfterOverwriteFailure env current attempted d = (r, d') -> fok d ->
  fok d' /\ restored current attempted (fzones d) r (fzones d').
Proof.
  unfold restoreZoneAfterOverwriteFailure, io_bind. intros E Hok. destruct (GetZone (z_Name current) d) as [visible d0] eqn:Eg. destruct (fs_get_step _ _ _ _ Eg) as [-> Hv]. fold (zone_key current) in Hv.
  assert (Hsame : forall e, fok d /\ restored current attempted (fzones d) (Err e) (fzones d)) by (intros e; split; [done|]; by split_and!).
  destruct visible as [visible|e].
  - destruct (String.eqb_spec (z_Version visible) (z_Version current)) as [Ev|_].
    { injection E as <- <-. split; [done|]. split_and!; [done..|]. intros _. exists visible. split; [done|]. by right. }
    destruct (sameReplacementZone visible attempted) eqn:Es; cbn [negb] in E; [|injection E as <- <-; apply Hsame]. apply sameReplacement_spec in Es.
    unfold io_try, io_wrap, io_bind in E. destruct (deleteZoneForOverwrite (z_Name current) (z_Version visible) d) as [[[]|e] d1] eqn:Ed; pose proof (fs_delete_step _ _ _ _ _ Ed Hok) as Hdel; cbn in E.
    + destruct Hdel as (Hok1 & Hz1 & _). fold (zone_key current) in Hz1. destruct (CreateZone env current d1) as [[rc zc] d2] eqn:Ec. cbn in E. injection E as <- <-.
      destruct (create_previous_spec _ _ _ _ _ Ec Hok1) as (Hok2 & Hoth & Hcp); [by rewrite Hz1, lookup_delete_eq|]. split; [done|]. split_and!.
      * intros m Hm. by rewrite Hoth, Hz1, lookup_delete_ne.
      * intros x Hx Hnot. rewrite Hv in Hx. by injection Hx as ->.
      * intros Hr. destruct rc as [[]|]; [|done]. destruct (Hcp eq_refl) as (w & Hw & Hc). exists w. auto.
    + injection E as <- <-. rewrite Hdel. apply Hsame.
  - destruct (errors_Is e ErrZoneNotFound) eqn:Ee; [|injection E as <- <-; apply Hsame]. specialize (Hv eq_refl). destruct (CreateZone env current d) as [[rc zc] d2] eqn:Ec. cbn in E. injection E as <- <-.
    destruct (create_previous_spec _ _ _ _ _ Ec Hok Hv) as (Hok2 & Hoth & Hcp). split; [done|]. split_and!; [done|intros x Hx; by rewrite Hv in Hx|].
    intros Hr. destruct rc as [[]|]; [|done]. destruct (Hcp eq_refl) as (w & Hw & Hc). exists w. auto.
Qed.

(** What an overwrite did, as far as its result tells. *)
Definition replaced_zone (zone : Zone) (before : gmap string Zone) (r : result unit) (after : gmap string Zone) : Prop :=
  let n := zone_key zone in
  (forall m, m <> n -> after !! m = before !! m)
  /\ match r with
     | Ok _ => is_Some (before !! n) /\ exists w, after !! n = Some w /\ copy_of zone w
     | Err e => after !! n = before !! n \/ restore_failed e
         \/ exists old w, before !! n = Some old /\ after !! n = Some w /\ (copy_of old w \/ z_Version w = z_Version old)
     end.
Lemma replaced_unchanged zone m e : replaced_zone zone m (Err e) m.
Proof. split; [done|]. by left. Qed.
Lemma with_restore_replaced zone d r z' d' : fok d -> overwriteZoneWithRestore env zone d = ((r, z'), d') -> replaced_zone zone (fzones d) r (fzones d').
Proof.
  intros Hok. unfold overwriteZoneWithRestore, io_bind. destruct (GetZone (z_Name zone) d) as [[current|e] d0] eqn:Eg; destruct (fs_get_step _ _ _ _ Eg) as [-> Hcur].
  2: { intros [= <- <- <-]. apply replaced_unchanged. }
  pose proof (fs_key _ _ _ Hok Hcur) as Hk. fold (zone_key zone) in Hcur, Hk.
  destruct (deleteZoneForOverwrite (z_Name zone) (z_Version current) d) as [[[]|e] d1] eqn:Ed; pose proof (fs_delete_step _ _ _ _ _ Ed Hok) as Hdel.
  2: { intros [= <- <- <-]. rewrite Hdel. apply replaced_unchanged. }
  destruct Hdel as (Hok1 & Hz1 & _). fold (zone_key zone) in Hz1. destruct (CreateZone env zone d1) as [[rc z1] d2] eqn:Ec. destruct (fs_create_step _ _ _ _ _ Ec Hok1) as [Hok2 Hcr].
  assert (Hoth2 : forall m, m <> zone_key zone -> fzones d2 !! m = fzones d !! m).
  { intros m Hm. assert (H12 : fzones d2 !! m = fzones d1 !! m) by (destruct rc as [[]|e]; [destruct Hcr as (w & _ & ->); by rewrite lookup_insert_ne|destruct Hcr as [->|(_ & x & ->)]; [done|by rewrite lookup_insert_ne]]). by rewrite H12, Hz1, lookup_delete_ne. }
  destruct rc as [[]|e].
  - intros [= <- <- <-]. split; [done|]. split; [by eexists|]. destruct Hcr as (w & Hw & ->). exists w. by rewrite lookup_insert_eq.
  - destruct (restoreZoneAfterOverwriteFailure env current z1 d2) as [rr d3] eqn:Er. intros [= <- <- <-]. destruct (restore_steps _ _ _ _ _ Er Hok2) as (_ & Hoth & _ & Hok3). rewrite Hk in *.
    split; [intros m Hm; by rewrite Hoth, Hoth2|]. destruct rr as [[]|re]; [|right; left; by eexists _, _]. destruct (Hok3 eq_refl) as (w & Hw & Hc). right. right. exists current, w. split_and!; [done..|]. destruct Hc as [|[_ ?]]; auto.
Qed.
(** A transaction: a working copy, and a commit that installs it or fails. *)
Record FaultyTx (tx : Transactions (S := S)) : Prop := {
  ftx_begin : forall s work, BeginTx tx s = Ok work -> fs_zones work = fs_zones s /\ (fs_ok s -> fs_ok work);
  ftx_commit : forall work base s, Commit tx work base = Ok s -> fs_zones s = fs_zones work }.
Lemma in_transaction_replaced tx zone d r z' d' : FaultyTx tx -> fok d -> overwriteZoneInTransaction env tx zone d = ((r, z'), d') -> replaced_zone zone (fzones d) r (fzones d').
Proof.
  intros Htx Hok. unfold overwriteZoneInTransaction. destruct (BeginTx tx (d_store d)) as [work|e] eqn:Eb; [|intros [= <- <- <-]; apply replaced_unchanged].
  destruct (ftx_begin _ Htx _ _ Eb) as [Hw Hwok]. set (d0 := mkDest work (d_ulid d) (d_calls d)). assert (Hok0 : fok d0) by (by apply Hwok).
  destruct (GetZone (z_Name zone) d0) as [[current|e] dg] eqn:Eg; destruct (fs_get_step _ _ _ _ Eg) as [-> Hcur]; [|intros [= <- <- <-]; apply replaced_unchanged].
  destruct (deleteZoneForOverwrite (z_Name zone) (z_Version current) d0) as [[[]|e] d1] eqn:Ed; pose proof (fs_delete_step _ _ _ _ _ Ed Hok0) as Hdel; [|intros [= <- <- <-]; apply replaced_unchanged].
  destruct Hdel as (Hok1 & Hz1 & _). fold (zone_key zone) in Hz1, Hcur. destruct (CreateZone env zone d1) as [[[[]|e] z1] d2] eqn:Ec; destruct (fs_create_step _ _ _ _ _ Ec Hok1) as [Hok2 Hcr]; [|intros [= <- <- <-]; apply replaced_unchanged].
  destruct Hcr as (w & Hcw & Hz2). destruct (Commit tx (d_store d2) (d_store d)) as [s|e] eqn:Ecm; [|intros [= <- <- <-]; apply replaced_unchanged].
  pose proof (ftx_commit _ Htx _ _ _ Ecm) as Hs. intros [= <- <- <-]. cbn [d_store]. cbn [d_store d0] in Hz1, Hcur. rewrite Hw in Hz1, Hcur. rewrite Hs, Hz2, Hz1. split; [intros m Hm; by rewrite lookup_insert_ne, lookup_delete_ne|].
  split; [by eexists|]. exists w. by rewrite lookup_insert_eq.
Qed.
End faulty.

(** C31: Replacing a zone is all or nothing as far as the command can tell, also
    on a store whose lookups may fail and whose failed creations may have taken
    effect, or have met a zone that another client created ([FaultyStore]; a failed
    deletion is taken to have had no effect).  On success the new content is stored;
    on failure every other zone is untouched, and the zone is stored as before, or
    was created again with its old content, serial and version, or a zone with its
    old version is there, unless the error joins the failure with a second one about
    the restoration.  And a restoration never takes away a zone that is not the very
    replacement whose creation failed, in version, SOA, records and DNSSEC
    settings. *)
Theorem overwrite_restores `{UnicodeTables, !UnicodeLaws} {S : Type} `{!ZoneStore S, !FaultyStore S} (env : nat -> Inputs) (transactions : option (Transactions (S := S))) :
  (forall tx, transactions = Some tx -> FaultyTx tx) ->
  (forall zone zone' d d' r, fs_ok (d_store d) -> overwriteZone env transactions zone d = ((r, zone'), d') -> replaced_zone zone (fs_zones (d_store d)) r (fs_zones (d_store d')))
  /\ (forall current attempted d d' r x, fs_ok (d_store d) -> restoreZoneAfterOverwriteFailure env current attempted d = (r, d') ->
        fs_zones (d_store d) !! zone_key current = Some x -> ~ replacement_of x attempted -> fs_zones (d_store d') !! zone_key current = Some x).
Proof.
  intros Htx. split.
  - intros zone zone' d d' r Hok. unfold overwriteZone. destruct transactions as [tx|]; intros E; [eapply in_transaction_replaced; [by apply Htx|done|exact E]|by eapply with_restore_replaced].
  - intros current attempted d d' r x Hok E Hx Hnot. eapply (proj2 (restore_steps _ _ _ _ _ _ E Hok)); done.
Qed.

(** ** Witnesses *)
#[local] Existing Instance ascii_tables.
#[local] Existing Instance ascii_tables_laws.
Definition copy_env (n : nat) : Inputs := sample_inputs (2000 + Z.of_nat n).
Definition direct : Transactions (S := MemoryBackend) := mkTransactions (fun s => Ok s) (fun work _ => Ok work).
Definition empty_dest : dest (S := MemoryBackend) := mkDest NewMemoryBackend ulidInit 0.
Lemma direct_ok : transactions_ok (Some direct).
Proof. intros tx [= <-]. split; by intros ??? [= <-] || intros ?? [= <-]. Qed.
Lemma sample_normal : normal_names sample_memory.
Proof. intros n. change (zones_of sample_memory) with (zones sample_memory). rewrite sample_zones. intros [z [<- _]%lookup_singleton_Some]. vm_compute. reflexivity. Qed.

Lemma copy_complete_witness : let '(r, d) := runCopy copy_env None sample_memory false false empty_dest in
  r = Ok (1, 0) /\ exists w, zones (d_store d) !! "example.com." = Some w /\ migrated sample_stored w.
Proof.
  destruct (runCopy copy_env None sample_memory false false empty_dest) as [r d] eqn:E.
  destruct (copy_complete copy_env None sample_memory false false empty_dest d r) as (_ & _ & Hall).
  - done.
  - done.
  - exact sample_memory_ok.
  - exact sample_normal.
  - apply map_Forall_empty.
  - exact E.
  - assert (r = Ok (1, 0)) as -> by (apply (f_equal fst) in E; vm_compute in E; by symmetry). split; [done|].
    destruct (Hall eq_refl 1 0 eq_refl) as (_ & _ & Hz). apply (Hz "example.com."); [vm_compute; reflexivity|right; vm_compute; reflexivity].
Defined.

(** The memory backend behind a connection: [fl_lost] says of the next creations
    whether their answer is lost, that is whether an error is reported although the
    zone was created. *)
Record Flaky := mkFlaky { fl_memory : MemoryBackend; fl_lost : list bool }.
Definition flaky_create (e : Inputs) (zone : option Zone) (s : Flaky) (u : ulidState) : result unit * option Zone * Flaky * ulidState :=
  let '(r, z, m, u') := store_CreateZone e zone (fl_memory s) u in
  let s' := mkFlaky m (tail (fl_lost s)) in
  match fl_lost s with true :: _ => (Err (Errorf "connection reset"), z, s', u') | _ => (r, z, s', u') end.
#[local] Instance flaky_store : ZoneStore Flaky := {|
  store_GetZone s n := store_GetZone (fl_memory s) n;
  store_ListZones s opts := store_ListZones (fl_memory s) opts;
  store_CreateZone := flaky_create;
  store_UpdateZone e z v s u := let '(r, z', m, u') := store_UpdateZone e z v (fl_memory s) u in (r, z', mkFlaky m (fl_lost s), u');
  store_DeleteZone n s := let '(r, m) := store_DeleteZone n (fl_memory s) in (r, mkFlaky m (fl_lost s));
  zoneSummaryStore := None; zoneCountStore := None; healthStore := None; dnssecMetadataStore := None;
  conditionalDeleteStore := Some (fun n v s => let '(r, m) := DeleteZoneWithVersion n v (fl_memory s) in (r, mkFlaky m (fl_lost s)));
  revisionStore := None |}.
Lemma flaky_create_law e z s u : store_ok (fl_memory s) ->
  match flaky_create e (Some z) s u with
  | (Ok _, z', s', _) => exists w, z' = Some w /\ created e z w /\ store_ok (fl_memory s') /\ zones_of (fl_memory s) !! z_Name w = None
      /\ zones_of (fl_memory s') = <[z_Name w := w]> (zones_of (fl_memory s))
  | (Err _, _, s', _) => store_ok (fl_memory s') /\ (zones_of (fl_memory s') = zones_of (fl_memory s)
      \/ zones_of (fl_memory s) !! NormalizeZoneName (z_Name z) = None
         /\ exists x, zones_of (fl_memory s') = <[NormalizeZoneName (z_Name z) := x]> (zones_of (fl_memory s)))
  end.
Proof.
  intros Hok. unfold flaky_create. pose proof (fs_create e z (fl_memory s) u Hok) as Hl. destruct (store_CreateZone e (Some z) (fl_memory s) u) as [[[r z'] m] u'].
  assert (Hlost : fs_ok m /\ (fs_zones m = fs_zones (fl_memory s) \/ fs_zones (fl_memory s) !! NormalizeZoneName (z_Name z) = None
      /\ exists x, fs_zones m = <[NormalizeZoneName (z_Name z) := x]> (fs_zones (fl_memory s)))).
  { destruct r as [[]|err]; [|done]. destruct Hl as (w & _ & Hc & Hm & Hn & Hz). assert (Ew : z_Name w = NormalizeZoneName (z_Name z)) by (by destruct Hc as [[-> _]]).
    rewrite Ew in *. split; [done|]. right. split; [done|]. by exists w. }
  destruct (fl_lost s) as [|[] l]; [exact Hl|exact Hlost|exact Hl].
Qed.
#[local] Instance flaky_faulty : FaultyStore Flaky.
Proof.
  refine {| fs_ok s := store_ok (fl_memory s); fs_zones s := zones_of (fl_memory s) |}.
  - intros s n z. exact (fs_stored (fl_memory s) n z).
  - intros s n. exact (fs_get (fl_memory s) n).
  - intros e z s u. apply flaky_create_law.
  - intros f n v s [= <-] Hok. pose proof (fs_delete DeleteZoneWithVersion n v (fl_memory s) eq_refl Hok) as Hl. destruct s as [m l]. cbn [fl_memory fl_lost] in *.
    destruct (DeleteZoneWithVersion n v m) as [[[]|err] m']; [exact Hl|]. by rewrite Hl.
Defined.

(** A replacement whose creation takes effect while its answer is lost: the
    overwrite finds it, takes it away and creates the old zone again.  A zone that
    another client created meanwhile stays. *)
Definition replacement : Zone := set_Version "" (set_SOASerial 2026013107 example_zone).
Definition ours : Zone := set_Version "ours" replacement.
Definition foreign : Zone := set_Version "foreign" replacement.
Definition flaky_dest (m : MemoryBackend) (lost : list bool) : dest (S := Flaky) := mkDest (mkFlaky m lost) sample_ulid 0.
Definition foreign_dest : dest (S := Flaky) := snd (CreateZone copy_env foreign (flaky_dest NewMemoryBackend [])).
Lemma foreign_ok : store_ok (fl_memory (d_store foreign_dest)).
Proof.
  destruct (CreateZone copy_env foreign (flaky_dest NewMemoryBackend [])) as [[r z] d] eqn:E.
  destruct (fs_create_step copy_env foreign (flaky_dest NewMemoryBackend []) r z d E) as [Hok _]; [apply map_Forall_empty|]. unfold foreign_dest. by rewrite E.
Qed.
Definition version_at (d : dest (S := Flaky)) : option string := option_map z_Version (zones (fl_memory (d_store d)) !! "example.com.").
Lemma overwrite_restores_witness :
  (let '((r, _), d) := overwriteZone copy_env None replacement (flaky_dest sample_memory [true]) in
   (exists e, r = Err e) /\ version_at d = Some (z_Version sample_stored) /\ replaced_zone replacement (zones sample_memory) r (zones (fl_memory (d_store d))))
  /\ version_at (snd (restoreZoneAfterOverwriteFailure copy_env sample_stored ours foreign_dest)) = Some "foreign".
Proof.
  destruct (overwrite_restores copy_env (None : option (Transactions (S := Flaky)))) as [Hover Hkeep]; [done|]. split.
  - destruct (overwriteZone copy_env None replacement (flaky_dest sample_memory [true])) as [[r z] d] eqn:E. split_and!.
    + assert (Hr : match fst (fst (overwriteZone copy_env None replacement (flaky_dest sample_memory [true]))) with Err _ => true | Ok _ => false end = true) by (vm_compute; reflexivity).
      rewrite E in Hr. cbn in Hr. destruct r as [|e]; [done|by exists e].
    + assert (Hd : version_at (snd (overwriteZone copy_env None replacement (flaky_dest sample_memory [true]))) = Some (z_Version sample_stored)) by (vm_compute; reflexivity).
      by rewrite E in Hd.
    + apply (Hover replacement z (flaky_dest sample_memory [true]) d r); [exact sample_memory_ok|exact E].
  - destruct (restoreZoneAfterOverwriteFailure copy_env sample_stored ours foreign_dest) as [r d] eqn:E. cbn [snd].
    destruct (zones (fl_memory (d_store foreign_dest)) !! "example.com.") as [x|] eqn:Ex; [|by vm_compute in Ex].
    assert (Hv : z_Version x = "foreign") by (apply (f_equal (option_map z_Version)) in Ex; vm_compute in Ex; by injection Ex).
    assert (Ek : zone_key sample_stored = "example.com.") by (vm_compute; reflexivity).
    specialize (Hkeep sample_stored ours foreign_dest d r x). rewrite Ek in Hkeep. unfold version_at.
    assert (Hd : zones (fl_memory (d_store d)) !! "example.com." = Some x).
    { apply Hkeep; [|exact E|exact Ex|].
      - exact foreign_ok.
      - intros (_ & Ever & _). rewrite Hv in Ever. by vm_compute in Ever. }
    rewrite Hd. cbn. by rewrite Hv.
Defined.
Definition still_world : World := mkWorld (fun _ => None) (fun _ => 0%nat) Z.of_nat Z.of_nat (fun _ => (1000000, 4096)) (fun _ => false).
Definition sample_marshal (z : Zone) : result string := if decide (z = sample_stored) then Ok "{}" else Err (Errorf "marshal").
Definition sample_unmarshal (_ : string) : result Zone := Ok sample_stored.
Definition empty_directory : fs := mkFs (Dir ∅) 0.
Lemma export_import_round_trip_witness :
  let '(r, f) := exportFromStore still_world sample_marshal sample_memory false empty_directory in
  let '(r', _, d) := importToStore still_world sample_unmarshal copy_env (Some direct) false true f empty_dest in
  r = Ok 1 /\ r' = Ok 1 /\ exists w, zones (d_store d) !! "example.com." = Some w /\ migrated sample_stored w.
Proof.
  destruct (exportFromStore still_world sample_marshal sample_memory false empty_directory) as [r f] eqn:E.
  destruct (importToStore still_world sample_unmarshal copy_env (Some direct) false true f empty_dest) as [[r' f'] d] eqn:E'.
  assert (Er : r = Ok 1) by (apply (f_equal fst) in E; vm_compute in E; by symmetry). subst r.
  assert (Er : r' = Ok 1).
  { assert (Hi : fst (fst (importToStore still_world sample_unmarshal copy_env (Some direct) false true (snd (exportFromStore still_world sample_marshal sample_memory false empty_directory)) empty_dest)) = Ok 1) by (vm_compute; reflexivity).
    rewrite E in Hi. cbn [snd] in Hi. by rewrite E' in Hi. }
  subst r'. split_and!; [done|done|].
  destruct (export_import_round_trip copy_env (Some direct) still_world still_world sample_marshal sample_unmarshal sample_memory true empty_directory f f f' empty_dest d 1 1) as (_ & _ & Hall).
  - done.
  - exact direct_ok.
  - exact sample_memory_ok.
  - exact sample_normal.
  - intros n. change (zones_of sample_memory) with (zones sample_memory). rewrite sample_zones. intros [z [<- _]%lookup_singleton_Some]. vm_compute. discriminate.
  - intros z data. unfold sample_marshal. case_decide as Hz; [|done]. intros _. by rewrite Hz.
  - intros n _. apply lookup_empty.
  - apply map_Forall_empty.
  - reflexivity.
  - exact E.
  - reflexivity.
  - exact E'.
  - apply (Hall "example.com."). vm_compute. reflexivity.
Defined.
