(* ===== verification/Sync.v ===== *)
(** * Zone synchronisation on the agent ([internal/agent/sync/sync.go])

    The syncer lists the controller's zones, fetches the artifacts that changed,
    refuses stale serials, writes the zone files through the file manager, tells
    the name server through hooks (rolling back when they fail), deletes zones
    that disappeared, and records per-zone and overall freshness.

    The file manager is used through an interface ([ZoneFiles], with its laws
    in [ZoneFilesLaws]); the name-server hooks, the network and the clock are
    parameters. *)

From S2P Require Import Prelude GoStrings GoStringsFacts GoSort Names Validation Serial ZonePath Sha256 SyncClient.

(** ** Interface of the file manager

    [F] is the state of the zone directory.  Every operation may fail; a write
    returns the token of its rollback closure. *)
Class ZoneFiles (F : Type) := {
  Rollback : Type;
  fm_ZoneExists : string -> F -> bool * F;
  fm_ReadZoneFile : string -> F -> result string * F;
  fm_WriteZoneFile : string -> string -> option (string -> result unit) -> F -> result Rollback * F;
  fm_rollback : Rollback -> F -> option error * F;
  fm_deleteZoneFiles : string -> F -> option error * F;
  fm_removeManagedZone : string -> F -> option error * F;
  (** Pairs of zone name and safe file name, sorted by file name. *)
  fm_listManagedZones : F -> result (list (string * string)) * F
}.

(** At most the key [k] of [m] changed, to one of [vals]. *)
Definition touches (k : string) (vals : list (option string)) (m m' : gmap string string) : Prop :=
  (forall j, j <> k -> m' !! j = m !! j) /\ m' !! k ∈ vals.

Lemma touches_same s (m : gmap string string) vals : touches s (m !! s :: vals) m m.
Proof. split; [done|set_solver]. Qed.
Lemma touches_insert k x (m : gmap string string) : touches k [m !! k; Some x] m (<[k := x]> m).
Proof. split; [intros; by rewrite lookup_insert_ne|]. rewrite lookup_insert, decide_True by done. set_solver. Qed.
Lemma touches_delete k (m : gmap string string) : touches k [m !! k; None] m (delete k m).
Proof. split; [intros; by rewrite lookup_delete_ne|]. rewrite lookup_delete_eq. set_solver. Qed.

(** Entries of [m] may only disappear, and only those with a key in [ks]. *)
Definition shrinks {V} (ks : list string) (m m' : gmap string V) : Prop :=
  forall k, m' !! k = m !! k \/ (k ∈ ks /\ m' !! k = None).
Lemma shrinks_refl {V} ks (m : gmap string V) : shrinks ks m m.
Proof. by left. Qed.
Lemma shrinks_touch s (m m' : gmap string string) : touches s [m !! s; None] m m' -> shrinks [s] m m'.
Proof.
  intros [Ho Hs] k. destruct (decide (k = s)) as [->|]; [|left; auto].
  apply elem_of_cons in Hs as [->|Hs%list_elem_of_singleton]; [by left|right; set_solver].
Qed.
Lemma shrinks_trans {V} ks ks' (m m1 m' : gmap string V) :
  shrinks ks m m1 -> shrinks ks' m1 m' -> shrinks (ks ++ ks') m m'.
Proof.
  intros H1 H2 k. destruct (H2 k) as [->|[Hk ->]]; [|right; set_solver].
  destruct (H1 k) as [->|[Hk ->]]; [by left|right; set_solver].
Qed.
Lemma shrinks_weaken {V} ks ks' (m m' : gmap string V) : ks ⊆ ks' -> shrinks ks m m' -> shrinks ks' m m'.
Proof. intros Hs Hm k. destruct (Hm k) as [|[Hk ?]]; [by left|right; set_solver]. Qed.
Lemma shrinks_None {V} ks (m m' : gmap string V) k : shrinks ks m m' -> m !! k = None -> m' !! k = None.
Proof. intros Hm Hk. by destruct (Hm k) as [->|[_ ->]]. Qed.
Lemma shrinks_notin {V} ks (m m' : gmap string V) k : shrinks ks m m' -> k ∉ ks -> m' !! k = m !! k.
Proof. intros Hm Hk. by destruct (Hm k) as [|[? _]]. Qed.

(** What the syncer relies on, in terms of the contents of the zone files by
    safe file name and of the index of managed zones. *)
Class ZoneFilesLaws (F : Type) `{UnicodeTables, ZoneFiles F} := {
  zone_file : F -> gmap string string;
  managed : F -> gmap string string;
  (** What a rollback closure restores: the file's previous content and index entry. *)
  saved : Rollback -> string * option string * option string;
  (** The closures writes return. *)
  intact : Rollback -> Prop;
  exists_spec z f : let '(b, f') := fm_ZoneExists z f in
    zone_file f' = zone_file f /\ managed f' = managed f;
  read_spec z f : let '(r, f') := fm_ReadZoneFile z f in
    zone_file f' = zone_file f /\ managed f' = managed f
    /\ forall content, r = Ok content -> zone_file f !! SafeZoneFilename z = Some content;
  write_spec z content v f : dir_ok (zone_file f) (managed f) -> entry_ok (SafeZoneFilename z) (NormalizeZoneName z) ->
    reserved (SafeZoneFilename z) = false ->
    let '(r, f') := fm_WriteZoneFile z content v f in
    let s := SafeZoneFilename z in
    touches s [zone_file f !! s; Some content] (zone_file f) (zone_file f')
    /\ touches s [managed f !! s; Some (NormalizeZoneName z)] (managed f) (managed f')
    /\ forall tok, r = Ok tok ->
         zone_file f' !! s = Some content /\ managed f' !! s = Some (NormalizeZoneName z)
         /\ saved tok = (s, zone_file f !! s, managed f !! s) /\ intact tok
         /\ (forall check, v = Some check -> check content = Ok tt);
  rollback_spec tok f : dir_ok (zone_file f) (managed f) -> intact tok ->
    let '(err, f') := fm_rollback tok f in
    let '(s, content, entry) := saved tok in
    (forall z, entry = Some z -> entry_ok s z) ->
    touches s [zone_file f !! s; content] (zone_file f) (zone_file f')
    /\ touches s [managed f !! s; entry] (managed f) (managed f')
    /\ (err = None -> zone_file f' !! s = content /\ managed f' !! s = entry);
  delete_spec z f : dir_ok (zone_file f) (managed f) ->
    let '(err, f') := fm_deleteZoneFiles z f in
    let s := SafeZoneFilename z in
    managed f' = managed f /\ touches s [zone_file f !! s; None] (zone_file f) (zone_file f')
    /\ (err = None -> zone_file f' !! s = None);
  remove_spec z f : dir_ok (zone_file f) (managed f) ->
    let '(err, f') := fm_removeManagedZone z f in
    let s := SafeZoneFilename z in
    zone_file f' = zone_file f /\ touches s [managed f !! s; None] (managed f) (managed f')
    /\ (err = None -> managed f' !! s = None);
  list_spec f : let '(r, f') := fm_listManagedZones f in
    zone_file f' = zone_file f /\ managed f' = managed f
    /\ forall refs, r = Ok refs -> forall z s, (z, s) ∈ refs <-> managed f !! s = Some z
}.

(** ** State *)
Record ZoneSyncState := mkZoneState {
  ss_ZoneName : string; ss_Version : string; ss_LastSync : Time; ss_LastAttempt : Time; ss_FailCount : Z }.

Record SyncConfig := mkSyncConfig { SyncInterval : Duration; Jitter : Duration; MaxStaleness : Duration }.

(** The syncer's own state ([zoneStates], [lastSuccess]) and the world it acts
    on: connection, zone directory, name server, clock readings so far. *)
Record env {C F S : Type} := mkEnv {
  zoneStates : gmap string ZoneSyncState; lastSuccess : Time;
  net : C; files : F; services : S; clock : nat }.
Arguments env : clear implicits.
Arguments mkEnv {C F S}.

(** Hooks of the agent's main loop; they may read the zone files and act on
    the name server. *)
Record Hooks {F S : Type} := mkHooks {
  onZoneApplied : option (string -> F -> S -> option error * S);
  onZoneApplyRollback : option (string -> bool -> F -> S -> option error * S);
  onZoneDeleted : option (string -> F -> S -> option error * S);
  onZoneDeleteRollback : option (string -> F -> S -> option error * S);
  validateZoneFile : option (string -> string -> result unit) }.
Arguments Hooks : clear implicits.
Arguments mkHooks {F S}.

Definition validateControllerZoneName `{UnicodeTables} (zoneName : string) : result string :=
  let normalized := NormalizeZoneName zoneName in
  wrap zoneName (ValidateZoneName normalized) ;;* Ok normalized.

Fixpoint check_names `{UnicodeTables} (i : Z) (zones : list ZoneInfo) (seen : gmap string Z) : result unit :=
  match zones with
  | [] => Ok tt
  | zone :: t =>
    let* normalized := wrap ("invalid zone name from controller at index " +:+ Itoa i) (validateControllerZoneName (zi_Name zone)) in
    match seen !! normalized with
    | Some previous =>
      Err (Errorf ("duplicate zone name from controller at index " +:+ Itoa i +:+ ": " +:+ zi_Name zone +:+ " duplicates index " +:+ Itoa previous))
    | None => check_names (i + 1) t (<[normalized := i]> seen)
    end
  end.
Definition validateControllerZoneList `{UnicodeTables} (zones : list ZoneInfo) : result unit := check_names 0 zones ∅.

(** [errors.Join] of two errors that may be nil. *)
Definition join_errors (a b : option error) : option error :=
  match a, b with
  | None, None => None
  | Some x, None => Some (JoinErrs [x])
  | None, Some y => Some (JoinErrs [y])
  | Some x, Some y => Some (JoinErrs [x; y])
  end.

Section syncer.
Context `{UnicodeTables} {C F S : Type} `{ZoneFiles F}.
Context (Do : HttpRequest -> C -> result HttpResponse * C) (Wait : C -> option error * C)
        (url_ok : string -> bool) (decodeList : string -> result listZonesResponse)
        (ParseBINDZone : string -> string -> result (list parsedRR)).
Context (cl : Client) (hooks : Hooks F S) (Now : nat -> Time).
Abbreviation E := (env C F S).

(** *** Access to the parts of the state *)
Definition set_states (m : gmap string ZoneSyncState) (e : E) : E :=
  mkEnv m (lastSuccess e) (net e) (files e) (services e) (clock e).
Definition set_files (f : F) (e : E) : E :=
  mkEnv (zoneStates e) (lastSuccess e) (net e) f (services e) (clock e).
Definition set_services (s : S) (e : E) : E :=
  mkEnv (zoneStates e) (lastSuccess e) (net e) (files e) s (clock e).
Definition set_net (c : C) (e : E) : E :=
  mkEnv (zoneStates e) (lastSuccess e) c (files e) (services e) (clock e).

(** A small state monad over the environment. *)
Definition M (A : Type) : Type := E -> A * E.
Definition ret {A} (a : A) : M A := fun e => (a, e).
Definition bind {A B} (m : M A) (k : A -> M B) : M B := fun e => let '(a, e) := m e in k a e.
Notation "x <- m ; k" := (bind m (fun x => k)) (at level 100, m at level 99, right associativity).
Definition on_files {A} (op : F -> A * F) : M A := fun e => let '(a, f) := op (files e) in (a, set_files f e).
Definition on_net {A} (op : C -> A * C) : M A := fun e => let '(a, c) := op (net e) in (a, set_net c e).
Definition call_hook {A} (h : option (F -> S -> option A * S)) : M (option A) :=
  fun e => match h with
           | None => (None, e)
           | Some run => let '(a, s) := run (files e) (services e) in (a, set_services s e)
           end.
Definition time_Now : M Time :=
  fun e => (Now (clock e), mkEnv (zoneStates e) (lastSuccess e) (net e) (files e) (services e) (clock e + 1)).

(** *** Per-zone state *)
Definition getOrCreateState (zoneName : string) (e : E) : ZoneSyncState :=
  default (mkZoneState zoneName "" zeroTime zeroTime 0) (zoneStates e !! zoneName).
Definition put_state (zoneName : string) (st : ZoneSyncState) : M unit :=
  fun e => (tt, set_states (<[zoneName := st]> (zoneStates e)) e).

Definition recordZoneSyncFailure (zoneName : string) (now : Time) : M unit :=
  fun e => let st := getOrCreateState zoneName e in
  put_state zoneName (mkZoneState (ss_ZoneName st) (ss_Version st) (ss_LastSync st) now (i64 (ss_FailCount st + 1))) e.
Definition recordZoneSyncSuccess (zoneName : string) (now : Time) : M unit :=
  fun e => let st := getOrCreateState zoneName e in
  put_state zoneName (mkZoneState (ss_ZoneName st) (ss_Version st) now now 0) e.
Definition record_version (zoneName version : string) : M unit :=
  fun e => let st := getOrCreateState zoneName e in
  put_state zoneName (mkZoneState (ss_ZoneName st) version (ss_LastSync st) (ss_LastAttempt st) (ss_FailCount st)) e.
Definition delete_state (zoneName : string) : M unit :=
  fun e => (tt, set_states (delete zoneName (zoneStates e)) e).
Definition recordSyncSuccess (now : Time) : M unit :=
  fun e => (tt, mkEnv (zoneStates e) now (net e) (files e) (services e) (clock e)).
Definition recordDeleteFailure (zoneName : string) : M unit :=
  now <- time_Now ; recordZoneSyncFailure zoneName now.

(** *** Local zone files *)
Definition localZoneFileForState (zoneName currentETag : string) : M (string * bool) :=
  present <- on_files (fm_ZoneExists zoneName) ;
  if negb present then ret ("", false)
  else
    let expectedHash := etagValue currentETag in
    if negb (len expectedHash =? 64) || negb (isHex expectedHash) then ret ("", true)
    else
      read <- on_files (fm_ReadZoneFile zoneName) ;
      match read with
      | Err _ => ret ("", false)
      | Ok content => if negb (sha256_hex content =? expectedHash)%string then ret ("", false) else ret (content, true)
      end.

Definition localZoneSerial (zoneName : string) : M (option Z) :=
  present <- on_files (fm_ZoneExists zoneName) ;
  if negb present then ret None
  else
    read <- on_files (fm_ReadZoneFile zoneName) ;
    match read with
    | Err _ => ret None
    | Ok content =>
      match parseZoneSOASerial ParseBINDZone zoneName content with
      | Err _ => ret None
      | Ok serial => ret (Some serial)
      end
    end.

(** *** Applying one zone *)
Definition rollbackAppliedZone (zoneName : string) (hadPrevious : bool) : M (option error) :=
  err <- call_hook (option_map (fun h => h zoneName hadPrevious) (onZoneApplyRollback hooks)) ;
  ret (option_map (Wrapf "rollback applied zone service references") err).

Definition rollbackFailedApply (zoneName : string) (hadPrevious : bool) (rollback : Rollback) : M (option error) :=
  if hadPrevious then
    fileErr <- on_files (fm_rollback rollback) ;
    hookErr <- rollbackAppliedZone zoneName hadPrevious ;
    ret (join_errors fileErr hookErr)
  else
    hookErr <- rollbackAppliedZone zoneName hadPrevious ;
    match hookErr with
    | Some err => ret (Some err)
    | None => on_files (fm_rollback rollback)
    end.

(** The artifact is new: write it, tell the name server, record the version. *)
Definition apply_artifact (zoneName : string) (artifact : SignedZoneArtifact) : M (option error) :=
  let validate := option_map (fun v => v zoneName) (validateZoneFile hooks) in
  hadPrevious <- on_files (fm_ZoneExists zoneName) ;
  written <- on_files (fm_WriteZoneFile zoneName (Content artifact) validate) ;
  match written with
  | Err e => ret (Some (Wrapf "failed to write zone file" e))
  | Ok rollback =>
    applied <- call_hook (option_map (fun h => h zoneName) (onZoneApplied hooks)) ;
    match applied with
    | Some err =>
      rollbackErr <- rollbackFailedApply zoneName hadPrevious rollback ;
      match rollbackErr with
      | Some re => ret (Some (JoinErrs [Wrapf "post-apply hook failed" err; re]))
      | None => ret (Some (Wrapf "post-apply hook failed" err))
      end
    | None => _ <- record_version zoneName (ETag artifact) ; ret None
    end
  end.

Definition stale_error (artifactSerial currentSerial : Z) : error :=
  Errorf ("rejected stale signed zone: serial " +:+ Itoa artifactSerial +:+ " is older than local serial " +:+ Itoa currentSerial).

(** The entity tag and body to send with the conditional request. *)
Definition current_artifact (zoneName : string) : M (string * string) :=
  fun e =>
    let currentETag := match zoneStates e !! zoneName with Some st => ss_Version st | None => "" end in
    if (currentETag =? "")%string then (("", ""), e)
    else let '((body, matches), e) := localZoneFileForState zoneName currentETag e in
         (if matches then (currentETag, body) else ("", ""), e).

Definition syncZone (zone : ZoneInfo) : M (option error) :=
  match validateControllerZoneName (zi_Name zone) with
  | Err e => ret (Some (Wrapf "invalid zone name from controller" e))
  | Ok _ =>
    current <- current_artifact (zi_Name zone) ;
    currentSerial <- localZoneSerial (zi_Name zone) ;
    fetched <- on_net (fetchSignedZoneArtifact Do Wait url_ok ParseBINDZone cl (zi_Name zone) (fst current) (snd current)) ;
    match fetched with
    | Err e => ret (Some (Wrapf "failed to fetch zone" e))
    | Ok artifact =>
      if NotModified artifact then ret None
      else
        match currentSerial with
        | Some serial =>
          if zoneSerialBefore (art_Serial artifact) serial then ret (Some (stale_error (art_Serial artifact) serial))
          else apply_artifact (zi_Name zone) artifact
        | None => apply_artifact (zi_Name zone) artifact
        end
    end
  end.

(** *** Deleting removed zones *)
Definition rollbackDeletedZone (zoneName : string) : M (option error) :=
  call_hook (option_map (fun h => h zoneName) (onZoneDeleteRollback hooks)).

Definition deleteRemovedZone (zoneName : string) : M (option error) :=
  hookErr <- call_hook (option_map (fun h => h zoneName) (onZoneDeleted hooks)) ;
  match hookErr with
  | Some err => ret (Some (Wrapf "delete hook failed" err))
  | None =>
    deleted <- on_files (fm_deleteZoneFiles zoneName) ;
    match deleted with
    | Some err =>
      let deleteErr := Wrapf "failed to delete zone file" err in
      rollbackErr <- rollbackDeletedZone zoneName ;
      match rollbackErr with
      | Some re => ret (Some (JoinErrs [deleteErr; Wrapf "rollback deleted zone" re]))
      | None => ret (Some deleteErr)
      end
    | None =>
      removed <- on_files (fm_removeManagedZone zoneName) ;
      match removed with
      | Some err => ret (Some (Wrapf "failed to update managed zone index" err))
      | None => _ <- delete_state zoneName ; ret None
      end
    end
  end.

(** Delete each zone in turn, counting deletions and failures. *)
Fixpoint delete_all (zoneNames : list string) (deleted errs : Z) : M (Z * Z) :=
  match zoneNames with
  | [] => ret (deleted, errs)
  | zoneName :: t =>
    err <- deleteRemovedZone zoneName ;
    match err with
    | Some _ => _ <- recordDeleteFailure zoneName ; delete_all t deleted (errs + 1)
    | None => delete_all t (deleted + 1) errs
    end
  end.

Definition removed_states (controllerZones : gset string) (e : E) : list string :=
  List.filter (fun n => negb (bool_decide (n ∈ controllerZones))) ((map_to_list (zoneStates e)).*1).
Definition still_desired (controllerZoneFiles : gset string) (n : string) : bool :=
  bool_decide (SafeZoneFilename n ∈ controllerZoneFiles).
Fixpoint forget_all (zoneNames : list string) : M unit :=
  match zoneNames with
  | [] => ret tt
  | zoneName :: t => _ <- delete_state zoneName ; forget_all t
  end.

Definition deleteRemovedZones (controllerZones controllerZoneFiles : gset string) : M (Z * Z) :=
  fun e =>
    let removed := removed_states controllerZones e in
    let staleAliases := sort_Strings (List.filter (still_desired controllerZoneFiles) removed) in
    let staleStateZones := sort_Strings (List.filter (fun n => negb (still_desired controllerZoneFiles n)) removed) in
    let attemptedFiles : gset string := list_to_set (map SafeZoneFilename staleStateZones) in
    (_ <- forget_all staleAliases ;
     counts <- delete_all staleStateZones 0 0 ;
     managedZones <- on_files fm_listManagedZones ;
     match managedZones with
     | Err _ => ret (fst counts, snd counts + 1)
     | Ok refs =>
       let orphans := List.filter (fun ref => negb (bool_decide (snd ref ∈ controllerZoneFiles))
                                              && negb (bool_decide (snd ref ∈ attemptedFiles))) refs in
       delete_all (map fst orphans) (fst counts) (snd counts)
     end) e.

(** *** A whole cycle *)
Fixpoint sync_each (zones : list ZoneInfo) (ok errs : Z) : M (Z * Z) :=
  match zones with
  | [] => ret (ok, errs)
  | zone :: t =>
    err <- syncZone zone ;
    now <- time_Now ;
    match err with
    | Some _ => _ <- recordZoneSyncFailure (zi_Name zone) now ; sync_each t ok (errs + 1)
    | None => _ <- recordZoneSyncSuccess (zi_Name zone) now ; sync_each t (ok + 1) errs
    end
  end.

Definition cycle_error (zoneErrors deleteErrors : Z) : option error :=
  if 0 <? zoneErrors then
    if 0 <? deleteErrors
    then Some (Errorf ("zones failed to sync (" +:+ Itoa zoneErrors +:+ " errors); failed to delete removed zones ("
                       +:+ Itoa deleteErrors +:+ " errors)"))
    else Some (Errorf ("zones failed to sync (" +:+ Itoa zoneErrors +:+ " errors)"))
  else if 0 <? deleteErrors then Some (Errorf ("failed to delete removed zones (" +:+ Itoa deleteErrors +:+ " errors)"))
  else None.

(** Reconcile with a listing that passed validation. *)
Definition reconcile (zones : list ZoneInfo) : M (option error) :=
  let controllerZones : gset string := list_to_set (map zi_Name zones) in
  let controllerZoneFiles : gset string := list_to_set (map (fun z => SafeZoneFilename (zi_Name z)) zones) in
  synced <- sync_each zones 0 0 ;
  deletions <- deleteRemovedZones controllerZones controllerZoneFiles ;
  let successCount := fst synced + fst deletions in
  let errorCount := snd synced + snd deletions in
  _ <- (if (errorCount =? 0) && ((0 <? successCount) || (length zones =? 0)%nat)
        then now <- time_Now ; recordSyncSuccess now else ret tt) ;
  ret (cycle_error (snd synced) (snd deletions)).

(** [fuel] bounds the pages of the listing only. *)
Definition SyncAll (fuel : nat) (e : E) : option (option error * E) :=
  match ListZones Do Wait url_ok decodeList cl fuel (net e) with
  | None => None
  | Some (Err err, c) => Some (Some (Wrapf "failed to list zones" err), set_net c e)
  | Some (Ok zones, c) =>
    Some (match validateControllerZoneList zones with
          | Err err => (Some err, set_net c e)
          | Ok _ => reconcile zones (set_net c e)
          end)
  end.

Definition fail_zone (zoneName : string) (err : error) : M (option error) :=
  now <- time_Now ; _ <- recordZoneSyncFailure zoneName now ; ret (Some err).

(** Synchronise one zone on demand. *)
Definition SyncZone (fuel : nat) (zoneName : string) (e : E) : option (option error * E) :=
  match validateControllerZoneName zoneName with
  | Err err => Some (Some (Wrapf "invalid requested zone name" err), e)
  | Ok _ =>
    match ListZones Do Wait url_ok decodeList cl fuel (net e) with
    | None => None
    | Some (Err err, c) => Some (fail_zone zoneName (Wrapf "failed to list zones" err) (set_net c e))
    | Some (Ok zones, c) =>
      Some ((match validateControllerZoneList zones with
             | Err err => fail_zone zoneName err
             | Ok _ =>
               match List.find (fun z => (zi_Name z =? zoneName)%string) zones with
               | None => fail_zone zoneName (Errorf ("zone not found: " +:+ zoneName))
               | Some target =>
                 err <- syncZone target ;
                 match err with
                 | Some er => fail_zone (zi_Name target) er
                 | None => now <- time_Now ; _ <- recordZoneSyncSuccess (zi_Name target) now ; _ <- recordSyncSuccess now ; ret None
                 end
               end
             end) (set_net c e))
    end
  end.

(** *** Read-outs *)
Definition FailedZoneCount (e : E) : Z :=
  Z.of_nat (length (List.filter (fun kv => 0 <? ss_FailCount (snd kv)) (map_to_list (zoneStates e)))).
Definition IsStale (config : SyncConfig) (now : Time) (e : E) : bool := MaxStaleness config <? time_Sub now (lastSuccess e).
End syncer.

(** The interval to the next cycle, with the jitter drawn by [rand.Int63n]. *)
Definition addJitter (config : SyncConfig) (Int63n : Z -> Z) (duration : Duration) : Duration :=
  if duration <=? 0 then 1
  else if Jitter config <=? 0 then duration
  else
    let randomJitter := Int63n (Jitter config) - Jitter config / 2 in
    let next := i64 (duration + randomJitter) in
    let minDuration := if duration / 2 <=? 0 then 1 else duration / 2 in
    if next <? minDuration then minDuration else next.
