(* ===== verification/SyncFacts.v ===== *)
(** * Correctness of zone synchronisation

    Effects of the syncer's operations on zone files, index and recorded state,
    proved against the laws of the file-manager interface with a small
    weakest-precondition calculus, and the properties of a whole cycle. *)

From S2P Require Import Prelude GoStrings GoStringsFacts GoSort Names Validation Serial ZonePath Sha256 SyncClient Sync.

(** ** A small program logic for the syncer's monad *)
Section logic.
Context {C F S : Type}.
Definition wp {A} (m : env C F S -> A * env C F S) (e : env C F S) (Q : A -> env C F S -> Prop) : Prop :=
  Q (fst (m e)) (snd (m e)).
Lemma wp_mono {A} (m : env C F S -> A * env C F S) e (Q Q' : A -> env C F S -> Prop) :
  wp m e Q -> (forall a e', Q a e' -> Q' a e') -> wp m e Q'.
Proof. unfold wp. auto. Qed.
Lemma wp_bind {A B} (m : env C F S -> A * env C F S) (k : A -> env C F S -> B * env C F S) e Q :
  wp m e (fun a e' => wp (k a) e' Q) -> wp (bind m k) e Q.
Proof. unfold wp, bind. by destruct (m e). Qed.
Lemma wp_ret {A} (a : A) e (Q : A -> env C F S -> Prop) : Q a e -> wp (ret a) e Q.
Proof. done. Qed.
Lemma wp_eq {A} (m : env C F S -> A * env C F S) e a e' Q : m e = (a, e') -> wp m e Q -> Q a e'.
Proof. unfold wp. by intros ->. Qed.
End logic.

(** ** Effects of the operations *)
Section file_effects.
#[local] Set Default Proof Using "Type".
Context `{UnicodeTables} {C F S : Type} `{!ZoneFiles F, !ZoneFilesLaws F}.
Abbreviation E := (env C F S).
Abbreviation contents e := (zone_file (files e)).
Abbreviation index e := (managed (files e)).

Definition keeps (e e' : E) : Prop :=
  contents e' = contents e /\ index e' = index e /\ zoneStates e' = zoneStates e /\ lastSuccess e' = lastSuccess e.
Lemma keeps_refl e : keeps e e.
Proof. done. Qed.
Lemma keeps_trans e1 e2 e3 : keeps e1 e2 -> keeps e2 e3 -> keeps e1 e3.
Proof. unfold keeps. intros (-> & -> & -> & ->) (-> & -> & -> & ->). done. Qed.

(** Zone files that exist can be read (no input/output error occurs). *)
Definition reads_reliable : Prop := forall f z content, zone_file f !! SafeZoneFilename z = Some content ->
  fst (fm_ZoneExists z f) = true /\ fst (fm_ReadZoneFile z f) = Ok content.

Lemma wp_files {A} (op : F -> A * F) (e : E) (Q : A -> E -> Prop) :
  (forall a f, op (files e) = (a, f) -> Q a (set_files f e)) -> wp (on_files op) e Q.
Proof. intros HQ. unfold wp, on_files. destruct (op (files e)) as [a f]. by apply HQ. Qed.

Lemma wp_exists z (e : E) : wp (on_files (fm_ZoneExists z)) e (fun b e' => keeps e e'
  /\ (reads_reliable -> is_Some (contents e !! SafeZoneFilename z) -> b = true)).
Proof.
  apply wp_files. intros b f Hop. pose proof (exists_spec z (files e)) as Hs. rewrite Hop in Hs. split; [unfold keeps; naive_solver|].
  intros Hr [content Hc]. destruct (Hr _ _ _ Hc) as [Hb _]. by rewrite Hop in Hb.
Qed.
Lemma wp_read z (e : E) : wp (on_files (fm_ReadZoneFile z)) e (fun r e' => keeps e e'
  /\ (forall content, r = Ok content -> contents e !! SafeZoneFilename z = Some content)
  /\ (reads_reliable -> forall content, contents e !! SafeZoneFilename z = Some content -> r = Ok content)).
Proof.
  apply wp_files. intros r f Hop. pose proof (read_spec z (files e)) as Hs. rewrite Hop in Hs.
  split; [unfold keeps; naive_solver|]. split; [naive_solver|].
  intros Hr content Hc. destruct (Hr _ _ _ Hc) as [_ Hb]. by rewrite Hop in Hb.
Qed.
Lemma wp_hook {A} (h : option (F -> S -> option A * S)) (e : E) : wp (call_hook h) e (fun _ e' => keeps e e').
Proof. unfold wp, call_hook. destruct h as [run|]; [|done]. destruct (run _ _) as [a s]. done. Qed.

(** Reading the local state changes nothing. *)
Lemma wp_localFile z etag (e : E) : wp (localZoneFileForState z etag) e (fun _ e' => keeps e e').
Proof.
  apply wp_bind. eapply wp_mono; [apply wp_exists|]. intros b e1 [Hk1 _].
  destruct b; [|done]. cbn [negb]. destruct (_ || _); [done|]. apply wp_bind.
  eapply wp_mono; [apply wp_read|]. intros r e2 (Hk2 & _). pose proof (keeps_trans _ _ _ Hk1 Hk2).
  destruct r; [|done]. by destruct (negb _).
Qed.
Lemma wp_current z (e : E) : wp (current_artifact z) e (fun _ e' => keeps e e').
Proof.
  unfold wp, current_artifact. cbv zeta. destruct (_ =? "")%string; [done|].
  pose proof (wp_localFile z (match zoneStates e !! z with Some st => ss_Version st | None => "" end) e) as Hl.
  unfold wp in Hl. by destruct (localZoneFileForState z _ e) as [[body m] e1].
Qed.
(** The directory is consistent. *)
Abbreviation okay e := (dir_ok (contents e) (index e)).
(** Zones the syncer can store: valid names in normal form up to spelling, whose
    file does not look like a backup. *)
Definition syncable (z : string) : Prop :=
  entry_ok (SafeZoneFilename z) (NormalizeZoneName z) /\ reserved (SafeZoneFilename z) = false.

(** Only the file [s] may change, to one of [vals]; the index is consistent and
    the freshness record kept. *)
Definition only_file (s : string) (vals : list (option string)) (e e' : E) : Prop :=
  touches s vals (contents e) (contents e') /\ okay e' /\ lastSuccess e' = lastSuccess e.

Lemma dir_touched s vals ivals (f f' i i' : gmap string string) :
  touches s vals f f' -> touches s ivals i i' -> reserved s = false ->
  (forall z, Some z ∈ ivals -> i !! s = Some z \/ entry_ok s z) -> dir_ok f i -> dir_ok f' i'.
Proof.
  intros [Hf _] [Hi Hs] Hr Hv [Hidx Hres]. split.
  - intros k z Hk. destruct (decide (k = s)) as [->|Hne].
    + rewrite Hk in Hs. destruct (Hv _ Hs) as [Hz|Hz]; [by apply (Hidx s z)|done].
    + rewrite Hi in Hk by done. by apply Hidx.
  - intros k Hk. destruct (decide (k = s)) as [->|Hne]; [done|]. rewrite Hf in Hk by done. by apply Hres.
Qed.
Lemma wp_write z content v (e : E) : syncable z -> okay e ->
  wp (on_files (fm_WriteZoneFile z content v)) e (fun r e' =>
    let s := SafeZoneFilename z in
    only_file s [contents e !! s; Some content] e e' /\ zoneStates e' = zoneStates e
    /\ forall tok, r = Ok tok -> contents e' !! s = Some content /\ saved tok = (s, contents e !! s, index e !! s) /\ intact tok).
Proof.
  intros [Hent Hres] Hok. apply wp_files. intros r f Hop. pose proof (write_spec z content v (files e) Hok Hent Hres) as Hs. rewrite Hop in Hs.
  destruct Hs as (Hf & Hi & Hw). split; [split; [done|split; [|done]]|split; [done|naive_solver]].
  apply (dir_touched _ _ _ _ _ _ _ Hf Hi Hres); [|done].
  intros z'. rewrite elem_of_cons, list_elem_of_singleton. intros [?|[= ->]]; auto.
Qed.
Lemma wp_rollback tok s content entry (e : E) :
  saved tok = (s, content, entry) -> intact tok -> reserved s = false -> (forall z, entry = Some z -> entry_ok s z) -> okay e ->
  wp (on_files (fm_rollback tok)) e (fun r e' => only_file s [contents e !! s; content] e e' /\ zoneStates e' = zoneStates e
    /\ (r = None -> contents e' !! s = content)).
Proof.
  intros Hsaved Hint Hres Hentry Hok. apply wp_files. intros r f Hop. pose proof (rollback_spec tok (files e) Hok Hint) as Hs. rewrite Hop, Hsaved in Hs.
  destruct (Hs Hentry) as (Hf & Hi & Hw). split; [split; [done|split; [|done]]|split; [done|naive_solver]].
  apply (dir_touched _ _ _ _ _ _ _ Hf Hi Hres); [|done].
  intros z'. rewrite elem_of_cons, list_elem_of_singleton. intros [?|<-]; auto.
Qed.

Lemma keeps_only s vals (e e1 : E) : okay e -> keeps e e1 -> only_file s (contents e !! s :: vals) e e1.
Proof. intros Hidx (Hc & Hi & _ & Hl). split; [rewrite Hc; apply touches_same|]. by rewrite Hc, Hi. Qed.
Lemma only_keeps s vals (e e1 e2 : E) : keeps e e1 -> only_file s vals e1 e2 -> only_file s vals e e2.
Proof. intros (Hc & Hi & _ & Hl). unfold only_file. by rewrite Hc, Hl. Qed.
Lemma only_then_keeps s vals (e e1 e2 : E) : only_file s vals e e1 -> keeps e1 e2 -> only_file s vals e e2.
Proof. intros Ho (Hc & Hi & _ & Hl). unfold only_file in *. by rewrite Hc, Hi, Hl. Qed.

End file_effects.

Section hook_effects.
Context `{UnicodeTables} {C F S : Type} `{!ZoneFiles F, !ZoneFilesLaws F}.
Context (hooks : Hooks F S).
Abbreviation E := (env C F S).
Abbreviation contents e := (zone_file (files e)).
Abbreviation index e := (managed (files e)).
Abbreviation okay e := (dir_ok (contents e) (index e)).

(** *** Applying an artifact *)
Lemma wp_rollbackApplied z had (e : E) : wp (rollbackAppliedZone hooks z had) e (fun _ e' => keeps e e').
Proof. apply wp_bind. eapply wp_mono; [apply wp_hook|]. done. Qed.

Lemma wp_rollbackFailed z had tok s content entry (e : E) :
  saved tok = (s, content, entry) -> intact tok -> reserved s = false -> (forall z, entry = Some z -> entry_ok s z) -> okay e ->
  wp (rollbackFailedApply hooks z had tok) e (fun r e' => only_file s [contents e !! s; content] e e'
    /\ zoneStates e' = zoneStates e /\ (r = None -> contents e' !! s = content)).
Proof.
  intros Hsaved Hint Hres Hentry Hok. unfold rollbackFailedApply. destruct had; apply wp_bind.
  - eapply wp_mono; [by apply (wp_rollback _ _ _ _ _ Hsaved)|]. intros r1 e1 (Ho & Hz & Hr). apply wp_bind.
    eapply wp_mono; [apply wp_rollbackApplied|]. intros r2 e2 Hk. apply wp_ret.
    split; [by eapply only_then_keeps|]. destruct Hk as (Hc & _ & Hst & _). rewrite Hc, Hst. split; [done|].
    destruct r1, r2; try discriminate. auto.
  - eapply wp_mono; [apply wp_rollbackApplied|]. intros r1 e1 Hk. destruct r1 as [er|].
    + apply wp_ret. split; [by apply keeps_only|]. by destruct Hk as (_ & _ & -> & _).
    + destruct (Hk) as (Hc & Hi & Hst & _). eapply wp_mono; [apply (wp_rollback _ _ _ _ _ Hsaved Hint Hres Hentry); by rewrite Hc, Hi|].
      cbv beta. rewrite Hc, Hst. intros r2 e2 (Ho & Hz & Hr). split; [|done]. by eapply only_keeps.
Qed.

Definition post_apply_failed (err : error) : error := Wrapf "post-apply hook failed" err.

Lemma wp_apply z art (e : E) : syncable z -> okay e ->
  wp (apply_artifact hooks z art) e (fun r e' =>
    let s := SafeZoneFilename z in
    only_file s [contents e !! s; Some (Content art)] e e'
    /\ (r = None -> contents e' !! s = Some (Content art)
          /\ exists st, zoneStates e' = <[z := st]> (zoneStates e) /\ ss_Version st = ETag art)
    /\ (r <> None -> zoneStates e' = zoneStates e)
    /\ (forall err, r = Some (post_apply_failed err) -> contents e' = contents e)).
Proof.
  intros Hcan Hok. set (s := SafeZoneFilename z). apply wp_bind. eapply wp_mono; [apply wp_exists|]. intros had e1 [Hk1 _].
  apply wp_bind. eapply wp_mono; [apply wp_write; [done|by destruct Hk1 as (-> & -> & _)]|].
  intros written e2 (Ho2 & Hz2 & Hw). fold s in Ho2, Hw. pose proof (only_keeps _ _ _ _ _ Hk1 Ho2) as Ho.
  destruct Hk1 as (Hc1 & Hi1 & Hs1 & _). rewrite Hc1 in Ho. rewrite Hc1, Hi1 in Hw. rewrite Hs1 in Hz2.
  destruct written as [tok|er]; [|apply wp_ret; split_and!; [done|done|done|by intros err [=]]].
  destruct (Hw tok eq_refl) as (Hnew & Hsaved & Hint). apply wp_bind. eapply wp_mono; [apply wp_hook|]. intros applied e3 Hk3.
  pose proof (only_then_keeps _ _ _ _ _ Ho Hk3) as Ho3.
  destruct Hk3 as (Hc3 & Hi3 & Hs3 & Hl3). destruct applied as [err|].
  - apply wp_bind. eapply wp_mono; [apply (wp_rollbackFailed _ _ _ _ _ _ _ Hsaved Hint)|].
    + apply Hcan.
    + intros z' Hz'. by apply (proj1 Hok s z').
    + rewrite Hc3, Hi3. apply Ho.
    + intros r e4 (Ho4 & Hz4 & Hr4). cbv zeta.
      assert (Hall : only_file s [contents e !! s; Some (Content art)] e e4).
      { destruct Ho4 as (Ht4 & Hi4 & Hl4), Ho3 as (Ht3 & _ & Hl3'). split; [|split; [done|by rewrite Hl4]].
        rewrite Hc3, Hnew in Ht4. rewrite Hc3 in Ht3. destruct Ht3 as [Ha _], Ht4 as [Hb Hd].
        split; [intros; by rewrite Hb, Ha|]. rewrite !elem_of_cons in *. tauto. }
      destruct r as [re|]; apply wp_ret; (split; [done|]).
      * split_and!; [done|intros _; by rewrite Hz4, Hs3|by intros err' [=]].
      * split_and!; [done|intros _; by rewrite Hz4, Hs3|]. intros err' _. apply map_eq. intros k.
        destruct (decide (k = s)) as [->|Hne]; [by apply Hr4|]. by apply (proj1 (proj1 Hall)).
  - apply wp_bind. unfold wp at 1. cbn -[insert]. apply wp_ret. split_and!.
    + done.
    + intros _. split; [by rewrite <- Hnew, <- Hc3|]. eexists. split; [by rewrite <- Hz2, <- Hs3|]. done.
    + done.
    + by intros err [=].
Qed.

(** *** Deleting zones *)

Lemma shrinks_dir ks ks' (f f' i i' : gmap string string) : shrinks ks f f' -> shrinks ks' i i' -> dir_ok f i -> dir_ok f' i'.
Proof.
  intros Hf Hi [Hidx Hres]. split.
  - intros k z Hk. destruct (Hi k) as [Heq|[_ Heq]]; rewrite Heq in Hk; [by apply Hidx|done].
  - intros k Hk. apply Hres. destruct (Hf k) as [Heq|[_ Heq]]; rewrite Heq in Hk; [done|by destruct Hk].
Qed.

Record deleted (ns : list string) (clean : Prop) (e e' : E) : Prop := {
  del_files : shrinks (map SafeZoneFilename ns) (contents e) (contents e');
  del_index : shrinks (map SafeZoneFilename ns) (index e) (index e');
  del_last : lastSuccess e' = lastSuccess e;
  del_states : forall n, n ∉ ns -> zoneStates e' !! n = zoneStates e !! n;
  del_clean : clean -> shrinks ns (zoneStates e) (zoneStates e')
    /\ forall n, n ∈ ns -> contents e' !! SafeZoneFilename n = None /\ index e' !! SafeZoneFilename n = None
                          /\ zoneStates e' !! n = None }.

Lemma deleted_keeps n (clean : Prop) (e e' : E) : keeps e e' -> ~ clean -> deleted [n] clean e e'.
Proof. intros (Hc & Hi & Hs & Hl) Hn. split; rewrite ?Hc, ?Hi, ?Hs; try apply shrinks_refl; done. Qed.

Lemma deleted_okay ns clean (e e' : E) : deleted ns clean e e' -> okay e -> okay e'.
Proof. intros [Hf Hi _ _ _]. by apply (shrinks_dir _ _ _ _ _ _ Hf Hi). Qed.

Lemma wp_deleteRemovedZone n (e : E) : okay e ->
  wp (deleteRemovedZone hooks n) e (fun r e' => deleted [n] (r = None) e e').
Proof.
  intros Hok. apply wp_bind. eapply wp_mono; [apply wp_hook|]. intros hookErr e1 Hk1.
  destruct hookErr as [er|]; [by apply wp_ret, deleted_keeps|]. destruct Hk1 as (Hc1 & Hi1 & Hs1 & Hl1).
  apply wp_bind, wp_files. intros derr f1 Hdel. pose proof (delete_spec n (files e1)) as Hd. rewrite Hdel, Hc1, Hi1 in Hd. specialize (Hd Hok).
  destruct Hd as (Hmi & Hf & Hgone). apply shrinks_touch in Hf.
  destruct derr as [er|].
  - apply wp_bind. eapply wp_mono; [apply wp_hook|]. intros rb e2 (Hc2 & Hi2 & Hs2 & Hl2).
    assert (forall b : error, deleted [n] (Some b = None) e e2).
    { intros b. split; rewrite ?Hc2, ?Hi2, ?Hs2, ?Hl2; try done. cbn. rewrite Hmi. apply shrinks_refl.
      cbn. intros. by rewrite Hs1. }
    destruct rb; by apply wp_ret.
  - apply wp_bind, wp_files. intros rerr f2 Hrem. cbn [files set_files] in Hrem.
    pose proof (remove_spec n f1) as Hr. rewrite Hrem, Hmi in Hr.
    specialize (Hr (shrinks_dir _ [] _ _ _ _ Hf (shrinks_refl _ _) Hok)).
    destruct Hr as (Hfile & Hix & Hnone). apply shrinks_touch in Hix.
    destruct rerr as [er|].
    + apply wp_ret. split; cbn; rewrite ?Hfile, ?Hs1; done.
    + apply wp_bind. unfold wp at 1, delete_state. cbn [fst snd]. apply wp_ret. split; cbn; rewrite ?Hfile, ?Hs1; try done.
      * intros k Hk. rewrite lookup_delete_ne; [done|set_solver].
      * intros _. split; [intros k; destruct (decide (k = n)) as [->|]; [right|left]|].
        -- split; [set_solver|]. apply lookup_delete_eq.
        -- by apply lookup_delete_ne.
        -- intros k ->%list_elem_of_singleton. split_and!; [auto|auto|apply lookup_delete_eq].
Qed.

Lemma deleted_cons n ns (P1 P2 P : Prop) (e e1 e2 e3 : E) :
  deleted [n] P1 e e1 -> files e2 = files e1 -> lastSuccess e2 = lastSuccess e1 ->
  (forall k, k <> n -> zoneStates e2 !! k = zoneStates e1 !! k) ->
  (P -> P1 /\ P2 /\ zoneStates e2 = zoneStates e1) -> deleted ns P2 e2 e3 -> deleted (n :: ns) P e e3.
Proof.
  intros [Hf Hi Hl Hs Hc] Hff Hll Hss HP [Hf' Hi' Hl' Hs' Hc']. rewrite Hff in *. rewrite Hll in *. split.
  - exact (shrinks_trans _ _ _ _ _ Hf Hf').
  - exact (shrinks_trans _ _ _ _ _ Hi Hi').
  - by rewrite Hl'.
  - intros k [Hk1 Hk2]%not_elem_of_cons. rewrite Hs', Hss, Hs by set_solver. done.
  - intros (H1 & H2 & Heq)%HP. destruct (Hc H1) as [Hsh Hgone], (Hc' H2) as [Hsh' Hgone']. rewrite Heq in Hsh'. split.
    + exact (shrinks_trans _ _ _ _ _ Hsh Hsh').
    + intros k [->|Hk]%elem_of_cons; [|by apply Hgone'].
      destruct (Hgone n) as (G1 & G2 & G3); [set_solver|].
      split_and!; eapply shrinks_None; eauto.
Qed.

Context (Now : nat -> Time).
Lemma wp_delete_all ns d er (e : E) : okay e ->
  wp (delete_all hooks Now ns d er) e (fun r e' => deleted ns (snd r = er) e e'
    /\ fst r + snd r = d + er + Z.of_nat (length ns) /\ d <= fst r /\ er <= snd r).
Proof.
  revert d er e. induction ns as [|n ns IH]; intros d er e Hok.
  { apply wp_ret. split; [split; try apply shrinks_refl; try done; split; [apply shrinks_refl|set_solver]|cbn; lia]. }
  cbn [delete_all]. apply wp_bind. eapply wp_mono; [by apply wp_deleteRemovedZone|]. intros err e1 Hdel.
  pose proof (deleted_okay _ _ _ _ Hdel Hok) as Hok1.
  destruct err as [er1|].
  - apply wp_bind. unfold wp at 1. eapply wp_mono; [by apply IH|]. intros r e3 (Hrest & Hcnt & H1 & H2).
    split; [|cbn [length]; lia].
    refine (deleted_cons n ns _ _ _ e e1 _ e3 Hdel _ _ _ _ Hrest); [done|done| |lia].
    intros k Hk. cbn. by rewrite lookup_insert_ne.
  - eapply wp_mono; [by apply IH|]. intros r e3 (Hrest & Hcnt & H1 & H2). split; [|cbn [length]; lia].
    by refine (deleted_cons n ns _ _ _ e e1 e1 e3 Hdel _ _ _ _ Hrest).
Qed.

Lemma wp_forget ns (e : E) : wp (forget_all ns) e (fun _ e' =>
  files e' = files e /\ lastSuccess e' = lastSuccess e
  /\ (forall k, k ∉ ns -> zoneStates e' !! k = zoneStates e !! k) /\ (forall k, k ∈ ns -> zoneStates e' !! k = None)).
Proof.
  revert e. induction ns as [|n ns IH]; intros e; [apply wp_ret; split_and!; done || set_solver|].
  cbn [forget_all]. apply wp_bind. unfold wp at 1. eapply wp_mono; [apply IH|]. cbn.
  intros _ e' (Hf & Hl & Ho & Hn). split_and!; [done|done| |].
  - intros k [Hk1 Hk2]%not_elem_of_cons. rewrite Ho by done. by apply lookup_delete_ne.
  - intros k Hk. destruct (decide (k ∈ ns)) as [Hin|Hin]; [by apply Hn|]. rewrite Ho by done.
    apply elem_of_cons in Hk as [->|]; [apply lookup_delete_eq|done].
Qed.

Lemma elem_of_sorted_filter (f : string -> bool) l n :
  n ∈ sort_Strings (List.filter f l) <-> n ∈ l /\ f n = true.
Proof. unfold sort_Strings. by rewrite sort_Slice_Permutation, !list_elem_of_In, filter_In. Qed.
Lemma elem_of_removed cz (e : E) n : n ∈ removed_states cz e <-> is_Some (zoneStates e !! n) /\ n ∉ cz.
Proof.
  unfold removed_states. rewrite list_elem_of_In, filter_In, <- list_elem_of_In, negb_true_iff, bool_decide_eq_false.
  split; intros [Hn Hc]; (split; [|done]).
  - apply list_elem_of_fmap in Hn as ([k st] & -> & Hin%elem_of_map_to_list). by exists st.
  - destruct Hn as [st Hst]. apply list_elem_of_fmap. exists (n, st). split; [done|by apply elem_of_map_to_list].
Qed.

Lemma orphans_unlisted (cf : gset string) (att : gset string) (m : gmap string string) refs n :
  index_ok m -> (forall z s, (z, s) ∈ refs <-> m !! s = Some z) ->
  n ∈ map fst (List.filter (fun ref : string * string => negb (bool_decide (snd ref ∈ cf)) && negb (bool_decide (snd ref ∈ att))) refs) ->
  SafeZoneFilename n ∉ cf.
Proof.
  intros Hm Hrefs Hn. apply list_elem_of_In, in_map_iff in Hn as ([z s] & <- & Hin).
  apply filter_In in Hin as [Hin Hb]. cbn [fst snd] in *. apply list_elem_of_In, Hrefs in Hin. bool_prop.
  by rewrite (proj2 (proj2 (Hm s z Hin))).
Qed.

Record reconciled (cz cf : gset string) (e : E) (r : Z * Z) (e' : E) : Prop := {
  rc_kept : forall k, k ∈ cf -> contents e' !! k = contents e !! k;
  rc_files : forall k, contents e' !! k = contents e !! k \/ contents e' !! k = None;
  rc_last : lastSuccess e' = lastSuccess e;
  rc_states : forall n, n ∈ cz -> SafeZoneFilename n ∈ cf -> zoneStates e' !! n = zoneStates e !! n;
  rc_counts : 0 <= fst r /\ 0 <= snd r;
  rc_clean : snd r = 0 -> (forall n, is_Some (zoneStates e' !! n) -> n ∈ cz)
    /\ (forall s, is_Some (index e' !! s) -> s ∈ cf)
    /\ (forall s, s ∉ cf -> is_Some (index e !! s) -> contents e' !! s = None) }.

(** The orphans among the managed zones, given which files were attempted. *)
Definition orphans (cf : gset string) (ns : list string) (refs : list (string * string)) : list string :=
  map fst (List.filter (fun ref => negb (bool_decide (snd ref ∈ cf))
             && negb (bool_decide (snd ref ∈ (list_to_set (map SafeZoneFilename ns) : gset string)))) refs).

Lemma orphan_found cf ns (m : gmap string string) refs s z :
  index_ok m -> (forall z s, (z, s) ∈ refs <-> m !! s = Some z) -> m !! s = Some z -> s ∉ cf ->
  s ∈ map SafeZoneFilename ns \/ (z ∈ orphans cf ns refs /\ SafeZoneFilename z = s).
Proof.
  intros Hm Hrefs Hs Hcf. destruct (decide (s ∈ map SafeZoneFilename ns)) as [?|Hns]; [by left|right].
  split; [|by apply (Hm s z)]. apply list_elem_of_In, in_map_iff. exists (z, s). split; [done|].
  apply filter_In. split; [by apply list_elem_of_In, Hrefs|]. cbn [snd].
  rewrite !bool_decide_eq_false_2 by set_solver. done.
Qed.

(** Putting the phases together: forget aliases ([e1]), delete stale zones
    ([e2]), delete orphans ([e4]). *)
Lemma reconciled_phases cz cf (al ns : list string) refs c r (e e1 e2 e3 e4 : E) :
  okay e ->
  (forall n, n ∈ al <-> n ∈ removed_states cz e /\ still_desired cf n = true) ->
  (forall n, n ∈ ns <-> n ∈ removed_states cz e /\ negb (still_desired cf n) = true) ->
  files e1 = files e -> lastSuccess e1 = lastSuccess e ->
  (forall k, k ∉ al -> zoneStates e1 !! k = zoneStates e !! k) -> (forall k, k ∈ al -> zoneStates e1 !! k = None) ->
  deleted ns (snd c = 0) e1 e2 -> 0 <= fst c -> 0 <= snd c -> keeps e2 e3 ->
  (forall z s, (z, s) ∈ refs <-> index e2 !! s = Some z) ->
  deleted (orphans cf ns refs) (snd r = snd c) e3 e4 -> fst c <= fst r -> snd c <= snd r ->
  reconciled cz cf e r e4.
Proof.
  intros Hok Hal Hns Hf1 Hl1 Hs1 Hn1 [Df Di Dl Ds Dc] Hc1 Hc2 (Kc & Ki & Ks & Kl) Hrefs [Of Oi Ol Os Oc] Hr1 Hr2.
  rewrite Hf1 in *. rewrite Kc in *. rewrite Ki in *. rewrite Ks in *. rewrite Kl in *.
  assert (Hidx2 : index_ok (index e2)) by exact (proj1 (shrinks_dir _ _ _ _ _ _ Df Di Hok)).
  assert (HnsF : forall n, n ∈ ns -> SafeZoneFilename n ∉ cf).
  { intros n [_ Hn]%Hns. unfold still_desired in Hn. by bool_prop. }
  assert (HosF : forall n, n ∈ orphans cf ns refs -> SafeZoneFilename n ∉ cf).
  { intros n. by apply (orphans_unlisted cf _ (index e2)). }
  assert (Hmap : forall l k, (forall n, n ∈ l -> SafeZoneFilename n ∉ cf) -> k ∈ cf -> k ∉ map SafeZoneFilename l).
  { intros l k Hl Hk Hin. apply list_elem_of_In, in_map_iff in Hin as (n & <- & Hn%list_elem_of_In). by apply (Hl n). }
  split.
  - intros k Hk. rewrite (shrinks_notin _ _ _ k Of), (shrinks_notin _ _ _ k Df); eauto.
  - intros k. destruct (Of k) as [->|[_ ->]]; [|by right]. destruct (Df k) as [->|[_ ->]]; auto.
  - by rewrite Ol, Dl.
  - intros n Hcz Hcf. assert (n ∉ removed_states cz e) by (rewrite elem_of_removed; tauto).
    rewrite Os, Ds, Hs1; [done|rewrite Hal; tauto|rewrite Hns; tauto|]. intros Hn. by apply (HosF n).
  - lia.
  - intros Hzero. destruct (Dc ltac:(lia)) as [Dsh Dgone], (Oc ltac:(lia)) as [Osh Ogone]. split_and!.
    + intros n Hn. destruct (decide (n ∈ cz)) as [?|Hcz]; [done|exfalso]. destruct Hn as [st Hn].
      destruct (Osh n) as [Heq|[_ Heq]]; rewrite Heq in Hn; [|done].
      destruct (decide (n ∈ ns)) as [Hin|Hin]; [by destruct (Dgone n Hin) as (_ & _ & ?); simplify_eq|].
      rewrite Ds in Hn by done. destruct (decide (n ∈ al)) as [Ha|Ha]; [by rewrite Hn1 in Hn|].
      rewrite Hs1 in Hn by done. assert (Hrem : n ∈ removed_states cz e) by (apply elem_of_removed; eauto).
      rewrite Hal in Ha. rewrite Hns in Hin. destruct (still_desired cf n); tauto.
    + intros s [z Hz]. destruct (decide (s ∈ cf)) as [?|Hcf]; [done|exfalso].
      destruct (Oi s) as [Heq|[_ Heq]]; rewrite Heq in Hz; [|done].
      destruct (orphan_found cf ns _ refs s z Hidx2 Hrefs Hz Hcf) as [Hin|[Hin <-]].
      * apply list_elem_of_In, in_map_iff in Hin as (n & <- & Hn%list_elem_of_In). destruct (Dgone n Hn) as (_ & ? & _). congruence.
      * destruct (Ogone z Hin) as (_ & ? & _). congruence.
    + intros s Hcf [z Hz]. destruct (decide (s ∈ map SafeZoneFilename ns)) as [Hin|Hin].
      * apply (shrinks_None _ _ _ _ Of). apply list_elem_of_In, in_map_iff in Hin as (n & <- & Hn%list_elem_of_In).
        by destruct (Dgone n Hn).
      * assert (Hz2 : index e2 !! s = Some z) by (by rewrite (shrinks_notin _ _ _ s Di)).
        destruct (orphan_found cf ns _ refs s z Hidx2 Hrefs Hz2 Hcf) as [?|[Ho <-]]; [done|]. by destruct (Ogone z Ho).
Qed.

Lemma wp_deleteRemovedZones cz cf (e : E) : okay e ->
  wp (deleteRemovedZones hooks Now cz cf) e (reconciled cz cf e).
Proof.
  intros Hok. unfold deleteRemovedZones, wp.
  set (al := sort_Strings (List.filter (still_desired cf) (removed_states cz e))).
  set (ns := sort_Strings (List.filter (fun n => negb (still_desired cf n)) (removed_states cz e))).
  cbv zeta. match goal with |- reconciled _ _ _ (fst (?m e)) _ => change (wp m e (reconciled cz cf e)) end.
  apply wp_bind. eapply wp_mono; [apply wp_forget|]. intros _ e1 (Hf1 & Hl1 & Hs1 & Hn1).
  apply wp_bind. eapply wp_mono; [apply wp_delete_all; by rewrite Hf1|]. intros c e2 (Hdel & Hcnt & Hc1 & Hc2).
  assert (Hok2 : okay e2) by (eapply deleted_okay; [exact Hdel|by rewrite Hf1]).
  assert (Hal := elem_of_sorted_filter (still_desired cf) (removed_states cz e)). fold al in Hal.
  assert (Hns := elem_of_sorted_filter (fun n => negb (still_desired cf n)) (removed_states cz e)). fold ns in Hns.
  apply wp_bind, wp_files. intros lst f Hlist. pose proof (list_spec (files e2)) as Hspec. rewrite Hlist in Hspec.
  destruct Hspec as (Hc & Hi & Hrefs). assert (Hk : keeps e2 (set_files f e2)) by done.
  destruct lst as [refs|er].
  - eapply wp_mono; [apply wp_delete_all; destruct Hk as (-> & -> & _); done|]. intros r e4 (Ho & Hcnt' & Hr1 & Hr2).
    by apply (reconciled_phases cz cf al ns refs c r e e1 e2 (set_files f e2) e4); try done; apply Hrefs.
  - apply wp_ret. set (refs := map (fun kz => (snd kz, fst kz)) (map_to_list (index e2))).
    apply (reconciled_phases cz cf al ns refs c (fst c, snd c + 1) e e1 e2 (set_files f e2) (set_files f e2)); try done.
    + intros z s. unfold refs. rewrite list_elem_of_In, in_map_iff. split.
      * intros ([k v] & [= -> ->] & Hin). by apply elem_of_map_to_list, list_elem_of_In.
      * intros Hs. exists (s, z). split; [done|]. by apply list_elem_of_In, elem_of_map_to_list.
    + split; try apply shrinks_refl; try done. cbn. lia.
    + cbn. lia.
Qed.
End hook_effects.

Section effects.
#[local] Set Default Proof Using "Type".
Context `{UnicodeTables} {C F S : Type} `{!ZoneFiles F, !ZoneFilesLaws F}.
Context (Do : HttpRequest -> C -> result HttpResponse * C) (Wait : C -> option error * C)
        (url_ok : string -> bool) (decodeList : string -> result listZonesResponse)
        (ParseBINDZone : string -> string -> result (list parsedRR)).
Context (cl : Client) (hooks : Hooks F S) (Now : nat -> Time).
Abbreviation E := (env C F S).
Abbreviation contents e := (zone_file (files e)).
Abbreviation index e := (managed (files e)).
Abbreviation okay e := (dir_ok (contents e) (index e)).

Lemma wp_localSerial z (e : E) : wp (localZoneSerial ParseBINDZone z) e (fun r e' => keeps e e'
  /\ (reads_reliable -> forall old cur, contents e !! SafeZoneFilename z = Some old ->
        parseZoneSOASerial ParseBINDZone z old = Ok cur -> r = Some cur)).
Proof.
  apply wp_bind. eapply wp_mono; [apply wp_exists|]. intros b e1 [Hk1 Hb].
  destruct b; cbn [negb].
  - apply wp_bind. eapply wp_mono; [apply wp_read|]. intros r e2 (Hk2 & _ & Hr).
    pose proof (keeps_trans _ _ _ Hk1 Hk2) as Hk. destruct Hk1 as (Hc & _). rewrite Hc in Hr.
    destruct r as [content|er].
    + destruct (parseZoneSOASerial _ _ content) eqn:Hp; (split; [done|]); intros Hrel old cur Ho Hq;
        pose proof (Hr Hrel _ Ho); simplify_eq; cbn; congruence.
    + split; [done|]. intros Hrel old cur Ho. by discriminate (Hr Hrel _ Ho).
  - split; [done|]. intros Hrel old cur Ho. by discriminate (Hb Hrel (mk_is_Some _ _ Ho)).
Qed.

(** An artifact that came over the network for zone [z] and passed the checks. *)
Definition published (z : string) (art : SignedZoneArtifact) : Prop :=
  exists req c resp c', Do req c = (Ok resp, c') /\ checked_content ParseBINDZone cl z resp art.

(** The file of zone [z] is as before, or holds a published artifact that is
    not older than the readable file it replaces. *)
Definition refreshed (z : string) (e e' : E) : Prop :=
  let s := SafeZoneFilename z in
  contents e' !! s = contents e !! s
  \/ exists art, published z art /\ contents e' !! s = Some (Content art)
       /\ (reads_reliable -> forall old cur, contents e !! s = Some old ->
            parseZoneSOASerial ParseBINDZone z old = Ok cur -> zoneSerialBefore (art_Serial art) cur = false).

Record zone_synced (z : string) (e : E) (r : option error) (e' : E) : Prop := {
  zs_others : forall k, k <> SafeZoneFilename z -> contents e' !! k = contents e !! k;
  zs_file : refreshed z e e';
  zs_okay : okay e';
  zs_last : lastSuccess e' = lastSuccess e;
  zs_states : forall n, n <> z -> zoneStates e' !! n = zoneStates e !! n;
  zs_failed : r <> None -> zoneStates e' !! z = zoneStates e !! z;
  zs_undone : forall err, r = Some (post_apply_failed err) -> contents e' = contents e }.

Lemma synced_keeps z (e e' : E) r : okay e -> keeps e e' -> zone_synced z e r e'.
Proof.
  intros Hidx (Hc & Hi & Hs & Hl). split; rewrite ?Hc, ?Hi, ?Hs; try done. left. by rewrite Hc.
Qed.

Lemma synced_applied z (e e1 e2 : E) r art :
  keeps e e1 -> published z art ->
  (reads_reliable -> forall old cur, contents e !! SafeZoneFilename z = Some old ->
     parseZoneSOASerial ParseBINDZone z old = Ok cur -> zoneSerialBefore (art_Serial art) cur = false) ->
  only_file (SafeZoneFilename z) [contents e1 !! SafeZoneFilename z; Some (Content art)] e1 e2 ->
  (r = None -> exists st, zoneStates e2 = <[z := st]> (zoneStates e1)) -> (r <> None -> zoneStates e2 = zoneStates e1) ->
  (forall err, r = Some (post_apply_failed err) -> contents e2 = contents e1) ->
  zone_synced z e r e2.
Proof.
  intros (Hc & Hi & Hs & Hl) Hpub Hser ((Hother & Hfile) & Hidx & Hlast) Hok Herr Hundo.
  split; rewrite <- ?Hc, <- ?Hs, <- ?Hl; try done.
  - apply elem_of_cons in Hfile as [Hfile|Hfile%list_elem_of_singleton]; [left; by rewrite Hfile, Hc|right; eauto].
  - intros n Hn. destruct r; [by rewrite Herr|]. destruct (Hok eq_refl) as [st ->]. by rewrite lookup_insert_ne.
  - intros Hr. by rewrite Herr.
Qed.

Lemma wp_syncZone zone (e : E) : syncable (zi_Name zone) -> okay e ->
  wp (syncZone Do Wait url_ok ParseBINDZone cl hooks zone) e (zone_synced (zi_Name zone) e).
Proof.
  intros Hcan Hidx. unfold syncZone. destruct (validateControllerZoneName _) as [n|er]; [|by apply wp_ret, synced_keeps].
  apply wp_bind. eapply wp_mono; [apply wp_current|]. intros [etag body] e1 Hk1.
  apply wp_bind. eapply wp_mono; [apply wp_localSerial|]. intros serial e2 [Hk2 Hser].
  destruct (Hk1) as (Hc1 & _). rewrite Hc1 in Hser. pose proof (keeps_trans _ _ _ Hk1 Hk2) as Hk.
  apply wp_bind. unfold wp at 1, on_net. cbn [fst snd].
  destruct (fetchSignedZoneArtifact _ _ _ _ _ _ _ _ (net e2)) as [[art|er] c] eqn:Hf; cbn [fst snd];
    [|by apply wp_ret, synced_keeps].
  destruct (NotModified art) eqn:Hn; [by apply wp_ret, synced_keeps|].
  destruct (fetch_checked _ _ _ _ _ _ _ _ _ _ _ Hf) as (c0 & resp & Hdo & Hfull & _).
  assert (Hpub : published (zi_Name zone) art) by (eexists _, _, _, _; eauto).
  assert (Hkn : keeps e (set_net c e2)) by done.
  assert (Hi2 : okay (set_net c e2)) by (destruct Hkn as (-> & -> & _); done).
  destruct serial as [cur|].
  - destruct (zoneSerialBefore _ cur) eqn:Hb; [by apply wp_ret, synced_keeps|].
    eapply wp_mono; [by apply wp_apply|]. intros r e3 (Ho & Hok & Herr & Hundo).
    eapply synced_applied; eauto; [|intros Hr; destruct (Hok Hr) as (_ & st & Hst & _); eauto].
    intros Hrel old cur' Ho' Hp. pose proof (Hser Hrel _ _ Ho' Hp) as [= ->]. done.
  - eapply wp_mono; [by apply wp_apply|]. intros r e3 (Ho & Hok & Herr & Hundo).
    eapply synced_applied; eauto; [|intros Hr; destruct (Hok Hr) as (_ & st & Hst & _); eauto].
    intros Hrel old cur' Ho' Hp. by discriminate (Hser Hrel _ _ Ho' Hp).
Qed.

(** *** Synchronising every listed zone *)
Abbreviation names zones := (map zi_Name zones).
Abbreviation zone_files zones := (map (fun z => SafeZoneFilename (zi_Name z)) zones).

Record all_synced (zones : list ZoneInfo) (ok errs : Z) (e : E) (r : Z * Z) (e' : E) : Prop := {
  as_files : forall zone, zone ∈ zones -> refreshed (zi_Name zone) e e';
  as_others : forall k, k ∉ zone_files zones -> contents e' !! k = contents e !! k;
  as_okay : okay e';
  as_last : lastSuccess e' = lastSuccess e;
  as_states : forall n, n ∉ names zones -> zoneStates e' !! n = zoneStates e !! n;
  as_counts : fst r + snd r = ok + errs + Z.of_nat (length zones) /\ errs <= snd r /\ ok <= fst r;
  as_clean : snd r = errs -> forall zone, zone ∈ zones ->
    exists st, zoneStates e' !! zi_Name zone = Some st /\ ss_FailCount st = 0 }.

Lemma refreshed_frame z (e e1 e2 e3 : E) : contents e1 !! SafeZoneFilename z = contents e !! SafeZoneFilename z ->
  contents e3 !! SafeZoneFilename z = contents e2 !! SafeZoneFilename z -> refreshed z e1 e2 -> refreshed z e e3.
Proof. intros H1 H2. unfold refreshed. cbv zeta. by rewrite H1, H2. Qed.

(** One zone, its bookkeeping, then the rest. *)
Lemma all_synced_cons zone zones ok errs ok' errs' (e e1 e2 e3 : E) err r st :
  SafeZoneFilename (zi_Name zone) ∉ zone_files zones ->
  zone_synced (zi_Name zone) e err e1 ->
  files e2 = files e1 -> lastSuccess e2 = lastSuccess e1 -> zoneStates e2 = <[zi_Name zone := st]> (zoneStates e1) ->
  ok + errs + 1 = ok' + errs' -> ok <= ok' -> errs <= errs' -> (errs' = errs -> ss_FailCount st = 0) ->
  all_synced zones ok' errs' e2 r e3 -> all_synced (zone :: zones) ok errs e r e3.
Proof.
  intros Hnew [Hoth Hfile Hidx Hlast Hst _ _] Hf Hl Hs Hcount Hle1 Hle2 Hclean [Hfs Hot Hix Hla Hsts Hct Hcl].
  rewrite Hf in *. rewrite Hl in Hla. rewrite Hs in *. split.
  - intros z [->|Hz]%elem_of_cons.
    + eapply refreshed_frame; [done| |exact Hfile]. by apply Hot.
    + eapply refreshed_frame; [|done|by apply Hfs]. rewrite Hf. apply Hoth. intros Heq. apply Hnew. rewrite <- Heq.
      apply list_elem_of_In, in_map_iff. exists z. split; [done|by apply list_elem_of_In].
  - intros k [Hk1 Hk2]%not_elem_of_cons. rewrite Hot by done. by apply Hoth.
  - done.
  - by rewrite Hla.
  - intros n [Hn1 Hn2]%not_elem_of_cons. rewrite Hsts by done. rewrite lookup_insert_ne by done. by apply Hst.
  - cbn [length]. lia.
  - intros Hr z [->|Hz]%elem_of_cons; [|apply Hcl; [lia|done]].
    exists st. split; [|apply Hclean; lia]. rewrite Hsts, lookup_insert; [by rewrite decide_True|].
    intros Hin. apply Hnew. apply list_elem_of_In, in_map_iff in Hin as (z' & Heq & Hz').
    rewrite <- Heq. apply list_elem_of_In, in_map_iff. by exists z'.
Qed.

Lemma wp_sync_each zones ok errs (e : E) :
  Forall (fun z => syncable (zi_Name z)) zones -> NoDup (zone_files zones) -> okay e ->
  wp (sync_each Do Wait url_ok ParseBINDZone cl hooks Now zones ok errs) e (all_synced zones ok errs e).
Proof.
  revert ok errs e. induction zones as [|zone zones IH]; intros ok errs e Hcan Hnd Hidx.
  { apply wp_ret. split; try done; [set_solver|cbn; lia|set_solver]. }
  apply Forall_cons in Hcan as [Hc1 Hcan]. apply NoDup_cons in Hnd as [Hnew Hnd]. cbn [sync_each].
  apply wp_bind. eapply wp_mono; [by apply wp_syncZone|]. intros err e1 Hz.
  apply wp_bind. unfold wp at 1, time_Now. cbn [fst snd].
  destruct err as [er|]; apply wp_bind; unfold wp at 1;
    (eapply wp_mono; [apply IH; [done|done|exact (zs_okay _ _ _ _ Hz)]|]); intros r e3 Hall.
  - refine (all_synced_cons zone zones ok errs ok (errs + 1) e e1 _ e3 (Some er) r _ Hnew Hz _ _ _ _ _ _ _ Hall);
      [done|done|reflexivity|lia|lia|lia|lia].
  - refine (all_synced_cons zone zones ok errs (ok + 1) errs e e1 _ e3 None r _ Hnew Hz _ _ _ _ _ _ _ Hall);
      [done|done|reflexivity|lia|lia|lia|done].
Qed.

(** *** The listing *)
Lemma check_names_spec zones i seen : check_names i zones seen = Ok tt ->
  Forall (fun z => ValidateZoneName (NormalizeZoneName (zi_Name z)) = Ok tt) zones
  /\ NoDup (map (fun z => NormalizeZoneName (zi_Name z)) zones)
  /\ Forall (fun z => seen !! NormalizeZoneName (zi_Name z) = None) zones.
Proof.
  revert i seen. induction zones as [|z zones IH]; intros i seen; [by intros _; repeat split; constructor|]. cbn [check_names map].
  intros (n & Hn & Hrest)%rbind_ok. apply wrap_ok in Hn. unfold validateControllerZoneName in Hn. cbv zeta in Hn.
  apply rbind_ok in Hn as ([] & Hv%wrap_ok & [= <-]).
  destruct (seen !! _) eqn:Hseen; [discriminate|]. destruct (IH _ _ Hrest) as (H1 & H2 & H3). split_and!.
  - by constructor.
  - constructor; [|done]. intros Hin. apply list_elem_of_In, in_map_iff in Hin as (z' & Heq & Hz').
    rewrite Forall_forall in H3. specialize (H3 z' (proj2 (list_elem_of_In _ _) Hz')).
    cbv beta in H3. by rewrite Heq, lookup_insert, decide_True in H3.
  - constructor; [done|]. eapply Forall_impl; [exact H3|]. cbv beta. intros z' Hz'.
    by apply lookup_insert_None in Hz' as [? _].
Qed.

(** What the controller lists: normalised names short enough for a file name
    that do not look like backups. *)
Definition proper_listing (zones : list ZoneInfo) : Prop :=
  Forall (fun z => NormalizeZoneName (zi_Name z) = zi_Name z /\ len (zi_Name z) <= 201
                   /\ reserved (SafeZoneFilename (zi_Name z)) = false) zones.

Lemma listing_files zones : validateControllerZoneList zones = Ok tt -> proper_listing zones ->
  Forall (fun z => syncable (zi_Name z)) zones /\ NoDup (zone_files zones).
Proof.
  intros (Hv & Hnd & _)%check_names_spec Hp. split.
  - unfold proper_listing in Hp. rewrite Forall_forall in *. intros z Hin. destruct (Hp z Hin) as (Hz & _ & Hr). specialize (Hv z Hin). cbv beta in Hv.
    split; [|done]. rewrite Hz in *. done.
  - induction zones as [|z zones IH]; [constructor|]. cbn [map] in *.
    apply Forall_cons in Hv as [Hv Hvs]. apply NoDup_cons in Hnd as [Hnew Hnd]. apply Forall_cons in Hp as [(Hz & Hl & _) Hp].
    constructor; [|by apply IH]. intros Hin. apply Hnew. apply list_elem_of_In, in_map_iff in Hin as (z' & Heq & Hz').
    apply list_elem_of_In, in_map_iff. exists z'. split; [|done].
    pose proof (proj1 (Forall_forall _ _) Hvs z' (proj2 (list_elem_of_In _ _) Hz')) as Hv'.
    pose proof (proj1 (Forall_forall _ _) Hp z' (proj2 (list_elem_of_In _ _) Hz')) as (Hn' & Hl' & _). cbv beta in Hv'.
    rewrite Hz in *. rewrite Hn' in *.
    pose proof (valid_zone_file _ Hv ltac:(by rewrite Hz)) as E. pose proof (valid_zone_file _ Hv' ltac:(by rewrite Hn')) as E'.
    rewrite Hz in E. rewrite Hn' in E'. rewrite ?Hn'. etransitivity; [exact E'|]. symmetry. etransitivity; [exact E|]. by rewrite Heq.
Qed.

(** *** The cycle *)
Record cycle_done (zones : list ZoneInfo) (e : E) (r : option error) (e' : E) : Prop := {
  cd_files : forall zone, zone ∈ zones -> refreshed (zi_Name zone) e e';
  cd_others : forall k, k ∉ zone_files zones -> contents e' !! k = contents e !! k \/ contents e' !! k = None;
  cd_failed : r <> None -> lastSuccess e' = lastSuccess e;
  cd_clean : r = None -> lastSuccess e' = Now (clock e' - 1)%nat
    /\ (forall zone, zone ∈ zones -> exists st, zoneStates e' !! zi_Name zone = Some st /\ ss_FailCount st = 0)
    /\ (forall n, is_Some (zoneStates e' !! n) -> n ∈ names zones)
    /\ (forall s, is_Some (index e' !! s) -> s ∈ zone_files zones) }.

Lemma cycle_error_none a b : 0 <= a -> 0 <= b -> cycle_error a b = None <-> a = 0 /\ b = 0.
Proof.
  intros Ha Hb. unfold cycle_error. destruct (Z.ltb_spec 0 a); [|destruct (Z.ltb_spec 0 b)]; split; try lia; try done.
  by destruct (0 <? b).
Qed.

Lemma wp_reconcile zones (e : E) :
  validateControllerZoneList zones = Ok tt -> proper_listing zones -> okay e ->
  wp (reconcile Do Wait url_ok ParseBINDZone cl hooks Now zones) e (cycle_done zones e).
Proof.
  intros Hv Hp Hidx. destruct (listing_files zones Hv Hp) as [Hcan Hnd]. unfold reconcile.
  set (cz := list_to_set (names zones) : gset string). set (cf := list_to_set (zone_files zones) : gset string). cbv zeta.
  apply wp_bind. eapply wp_mono; [by apply wp_sync_each|]. intros sy e1 [Sf So Si Sl Ss Sct Scl].
  apply wp_bind. eapply wp_mono; [by apply wp_deleteRemovedZones|]. intros de e2 [Rk Rf Rl Rs Rct Rcl].
  assert (Hfiles : forall zone, zone ∈ zones -> SafeZoneFilename (zi_Name zone) ∈ cf).
  { intros zone Hz. apply elem_of_list_to_set, list_elem_of_In, in_map_iff. exists zone. split; [done|by apply list_elem_of_In]. }
  assert (Hnames : forall zone, zone ∈ zones -> zi_Name zone ∈ cz).
  { intros zone Hz. apply elem_of_list_to_set, list_elem_of_In, in_map_iff. exists zone. split; [done|by apply list_elem_of_In]. }
  assert (H1 : forall zone, zone ∈ zones -> refreshed (zi_Name zone) e e2).
  { intros zone Hz. eapply refreshed_frame; [reflexivity|by apply Rk, Hfiles|by apply Sf]. }
  assert (H2 : forall k, k ∉ zone_files zones -> contents e2 !! k = contents e !! k \/ contents e2 !! k = None).
  { intros k Hk. rewrite <- (So k Hk). apply Rf. }
  assert (Hn : cycle_error (snd sy) (snd de) = None <-> snd sy = 0 /\ snd de = 0) by (apply cycle_error_none; lia).
  apply wp_bind. destruct (_ && _) eqn:Hcond.
  - apply wp_bind. unfold wp, time_Now, recordSyncSuccess, ret. cbn [fst snd].
    assert (Hzero : snd sy = 0 /\ snd de = 0) by (bool_prop; lia). split; [done|done|by intros []; apply Hn|].
    intros _. cbn. destruct (Rcl ltac:(lia)) as (Q1 & Q2 & _). split_and!.
    + f_equal. lia.
    + intros zone Hz. destruct (Scl ltac:(lia) zone Hz) as (st & Hst & Hfc). exists st. split; [|done]. rewrite Rs; auto.
    + intros n [st Hst]. specialize (Q1 n (mk_is_Some _ _ Hst)). by apply elem_of_list_to_set in Q1.
    + intros s Hs. specialize (Q2 s Hs). by apply elem_of_list_to_set in Q2.
  - apply wp_ret, wp_ret. split; [done|done|intros _; by rewrite Rl, Sl|].
    intros [Hs Hd]%Hn. exfalso. rewrite Hs, Hd in Hcond. cbn [Z.add Z.eqb andb] in Hcond.
    apply orb_false_iff in Hcond as [Hc1 Hc2]. bool_prop. apply Nat.eqb_neq in Hc2. lia.
Qed.

Lemma SyncAll_cases fuel (e e' : E) r :
  SyncAll Do Wait url_ok decodeList ParseBINDZone cl hooks Now fuel e = Some (r, e') ->
  (exists zones c, ListZones Do Wait url_ok decodeList cl fuel (net e) = Some (Ok zones, c)
     /\ validateControllerZoneList zones = Ok tt
     /\ reconcile Do Wait url_ok ParseBINDZone cl hooks Now zones (set_net c e) = (r, e'))
  \/ ((forall zones c, ListZones Do Wait url_ok decodeList cl fuel (net e) = Some (Ok zones, c) ->
         validateControllerZoneList zones <> Ok tt)
      /\ r <> None /\ keeps e e').
Proof.
  unfold SyncAll. destruct (ListZones _ _ _ _ _ _ _) as [[[zones|er] c]|] eqn:Hl; [| |discriminate].
  - destruct (validateControllerZoneList zones) as [[]|er] eqn:Hv; intros [= Hr].
    + left. eauto 6.
    + right. simplify_eq. split_and!; [|done|done]. intros zs c' [= <- _]. congruence.
  - intros [= <- <-]. right. split_and!; [|done|done]. by intros zs c' [=].
Qed.


(** The agent's freshness is honest: a cycle returns no error exactly when it
    moves the last success to the time at its end; then every listed zone has a
    clean state, no other zone has any, and every managed file belongs to a
    listed zone.  Any error leaves the last success as it was. *)
Theorem sync_success_clean (fuel : nat) (e e' : E) (r : option error) (zones : list ZoneInfo) (c : C) :
  SyncAll Do Wait url_ok decodeList ParseBINDZone cl hooks Now fuel e = Some (r, e') -> okay e ->
  ListZones Do Wait url_ok decodeList cl fuel (net e) = Some (Ok zones, c) -> proper_listing zones ->
  (r <> None -> lastSuccess e' = lastSuccess e)
  /\ (r = None -> lastSuccess e' = Now (clock e' - 1)%nat
       /\ (forall zone, zone ∈ zones -> exists st, zoneStates e' !! zi_Name zone = Some st /\ ss_FailCount st = 0)
       /\ (forall n, is_Some (zoneStates e' !! n) -> n ∈ names zones)
       /\ (forall s, is_Some (index e' !! s) -> s ∈ zone_files zones)).
Proof.
  intros Hs Hidx Hl Hp. destruct (SyncAll_cases _ _ _ _ Hs) as [(zs & c' & Hl' & Hv & Hr)|(_ & Herr & Hk)].
  - rewrite Hl in Hl'. injection Hl' as <- <-.
    by destruct (wp_eq _ _ _ _ _ Hr (wp_reconcile zones (set_net c e) Hv Hp Hidx)).
  - split; [by intros _; destruct Hk as (_ & _ & _ & ?)|done].
Qed.

(** C37: A zone the name server refuses is undone.  In a directory whose index
    the agent wrote and in which no zone file is named like a backup ([okay]), and
    for a valid zone whose file name does not contain [.zone.backup] ([syncable]):
    when applying a new zone fails in the post-apply hook and the error reports no
    failed rollback, every zone file has its previous content and the recorded
    version is unchanged, so the zone is fetched again. *)
Theorem failed_apply_undone (zone : ZoneInfo) (e e' : E) (err : error) :
  syncable (zi_Name zone) -> okay e ->
  syncZone Do Wait url_ok ParseBINDZone cl hooks zone e = (Some (post_apply_failed err), e') ->
  contents e' = contents e /\ zoneStates e' !! zi_Name zone = zoneStates e !! zi_Name zone.
Proof.
  intros Hcan Hidx Hr. pose proof (wp_eq _ _ _ _ _ Hr (wp_syncZone zone e Hcan Hidx)) as Hz.
  split; [by apply (zs_undone _ _ _ _ Hz err)|]. by apply (zs_failed _ _ _ _ Hz).
Qed.
End effects.

(** The next interval is always positive (a ticker rejects other periods) and
    stays within half the interval below and half the jitter above. *)
Lemma addJitter_bounds (config : SyncConfig) (Int63n : Z -> Z) (d : Duration) :
  (forall n, 0 < n -> 0 <= Int63n n < n) -> d <= MaxInt64 -> Jitter config <= MaxInt64 ->
  0 < addJitter config Int63n d
  /\ (0 < d -> d / 2 <= addJitter config Int63n d /\ (addJitter config Int63n d <= d + Z.max 0 (Jitter config) / 2 + 1)).
Proof.
  intros Hr Hd Hj. unfold addJitter. destruct (Z.leb_spec d 0); [lia|].
  destruct (Z.leb_spec (Jitter config) 0); [Z.to_euclidean_division_equations; lia|]. cbv zeta.
  specialize (Hr (Jitter config) ltac:(lia)). unfold MaxInt64 in *.
  set (x := d + (Int63n (Jitter config) - Jitter config / 2)).
  assert (Hx : i64 x <= x).
  { unfold i64. assert (- 2 ^ 63 <= x) by (unfold x; Z.to_euclidean_division_equations; lia).
    pose proof (Z.mod_le (x + 2 ^ 63) (2 ^ 64) ltac:(lia) ltac:(lia)). lia. }
  set (m := if d / 2 <=? 0 then 1 else d / 2).
  assert (Hm : d / 2 <= m /\ 0 < m /\ m <= d) by (unfold m; destruct (Z.leb_spec (d / 2) 0); Z.to_euclidean_division_equations; lia).
  assert (Hxu : x <= d + Jitter config / 2 + 1) by (unfold x; Z.to_euclidean_division_equations; lia).
  rewrite Z.max_r by lia. destruct (Z.ltb_spec (i64 x) m); Z.to_euclidean_division_equations; lia.
Qed.
