(* ===== verification/ZoneDirectory.v ===== *)
(** * The file manager implements the syncer's interface

    The operations of [FileManager] under any world of failing system calls
    satisfy the laws [ZoneFilesLaws] that the syncer is proved against; the
    syncer's properties are then run on a concrete zone directory.  Also: the
    file of a zone with a backup-like name is lost when another zone's backups
    are pruned, which is why the laws exclude such names. *)

From S2P Require Import Prelude Io GoStrings GoStringsFacts GoSort Utf8 Json Names Validation DnsNames.
From S2P Require Import ZonePath Serial Sha256 FileSystem FileManager FileManagerFacts SyncClient Sync SyncFacts.

Section effects.
Context `{UnicodeTables} (w : World) (fm : FileManager).
#[local] Set Default Proof Using "Type".
Abbreviation files s := (zone_files (entries s)).
Abbreviation index s := (index_of (entries s)).
Abbreviation okay s := (dir_ok (files s) (index s)).

(** ** Views of the directory *)
Lemma only_files P s s' : only P s s' -> (forall n, P n -> hidden n) -> files s' = files s /\ index s' = index s.
Proof.
  intros Ho HP. split.
  - apply map_eq. intros k. rewrite !zone_files_lookup, Ho; [done|]. intros Hk%HP. by apply zone_file_not_hidden in Hk.
  - unfold index_of. rewrite Ho; [done|]. intros [_ Hk]%HP. done.
Qed.
Lemma fresh_hidden pre suf s n : suf ∈ [""; ".tmp"; ".rollback"] -> fresh_temp pre suf s n -> hidden n.
Proof. intros Hs [Ht _]. by eapply temp_hidden. Qed.

(** Replacing a zone file changes that file only. *)
Lemma replaced_zone z pre suf new s s' : suf ∈ [""; ".tmp"; ".rollback"] -> replaced (z +:+ ".zone") pre suf new s s' ->
  touches z [files s !! z; new] (files s) (files s') /\ index s' = index s.
Proof.
  intros Hsuf [Ho Hc]. split; [split|].
  - intros j Hj. rewrite !zone_files_lookup, Ho; [done|]. intros [Heq|Hf].
    + by apply str_app_inj_r in Heq.
    + apply (fresh_hidden _ _ _ _ Hsuf) in Hf. by apply zone_file_not_hidden in Hf.
  - rewrite !zone_files_lookup. set_solver.
  - unfold index_of. rewrite Ho; [done|]. intros [Heq|Hf].
    + by apply (zone_file_not_index z).
    + by apply (fresh_hidden _ _ _ _ Hsuf) in Hf as [_ ?].
Qed.
(** Replacing the index changes no zone file. *)
Lemma replaced_index pre suf zones s s' : suf ∈ [""; ".tmp"; ".rollback"] -> index_ok zones ->
  replaced managedZonesIndexFile pre suf (Some (marshal_index zones)) s s' ->
  files s' = files s /\ (index s' = index s \/ index s' = zones).
Proof.
  intros Hsuf Hz [Ho Hc]. split.
  - apply map_eq. intros k. rewrite !zone_files_lookup, Ho; [done|]. intros [Heq|Hf].
    + by apply zone_file_not_index in Heq.
    + apply (fresh_hidden _ _ _ _ Hsuf) in Hf. by apply zone_file_not_hidden in Hf.
  - unfold index_of. destruct Hc as [-> | ->]; [by left|right].
    destruct (index_round_trip zones Hz) as (i & -> & ->). done.
Qed.

Lemma backup_pattern_zone z j : backup_of z (j +:+ ".zone") -> reserved j = true.
Proof.
  unfold backup_of, ZoneBackupPattern, reserved. intros [r Hr]%HasPrefix_true. rewrite str_app_assoc in Hr.
  change (".zone.backup." +:+ r) with (".zone.backup" +:+ ("." +:+ r)) in Hr. rewrite <- str_app_assoc in Hr.
  apply eq_sym, app_split_cases in Hr as [(t & -> & _)|(t & Ht & Hq)]; [rewrite str_app_assoc; apply Contains_app|].
  destruct t as [|c1 [|c2 [|c3 [|c4 [|c5 t]]]]]; rewrite ?str_app_cons, ?str_app_nil_l in Hq; try discriminate Hq.
  2: { injection Hq as _ _ _ _ _ Hq. by destruct t. }
  rewrite str_app_nil_r in Ht. subst j. rewrite <- (str_app_nil_r (_ +:+ _)), str_app_assoc. apply Contains_app.
Qed.
Lemma backup_pattern_index z : ~ backup_of z managedZonesIndexFile.
Proof.
  unfold backup_of, ZoneBackupPattern. intros [r Hr]%HasPrefix_true.
  assert (Hc : Contains managedZonesIndexFile ".zone.backup." = true) by (rewrite Hr, str_app_assoc; apply Contains_app).
  vm_compute in Hc. discriminate.
Qed.
(** No file of a zone is one of its own backups. *)
Lemma backup_pattern_self z : ~ backup_of z (ZoneFilePath z).
Proof.
  unfold backup_of, ZoneBackupPattern, ZoneFilePath. intros [r Hr]%HasPrefix_true. rewrite str_app_assoc in Hr. by apply str_app_inj in Hr as [_ ?].
Qed.
(** The files of zones other than [z] are kept, up to those named like backups of
    [z], which may be gone. *)
Definition spares (z : string) (f f' : gmap string string) : Prop :=
  forall j, j <> SafeZoneFilename z -> f' !! j = f !! j \/ backup_of z (j +:+ ".zone") /\ f' !! j = None.
Lemma spares_trans z f f' f'' : spares z f f' -> spares z f' f'' -> spares z f f''.
Proof. intros H1 H2 j Hj. destruct (H2 j Hj) as [->|?]; [by apply H1|by right]. Qed.
Lemma touches_spares z vals f f' : touches (SafeZoneFilename z) vals f f' -> spares z f f'.
Proof. intros [Ho _] j Hj. left. by apply Ho. Qed.
(** In a directory without such files nothing else changes. *)
Lemma spares_touches z vals (f f' : gmap string string) : (forall s, is_Some (f !! s) -> reserved s = false) -> spares z f f' -> f' !! SafeZoneFilename z ∈ vals ->
  touches (SafeZoneFilename z) vals f f'.
Proof.
  intros Hres Hs Hv. split; [|done]. intros j Hj. destruct (Hs j Hj) as [->|[Hb Hn]]; [done|]. apply backup_pattern_zone in Hb.
  rewrite Hn. destruct (f !! j) eqn:E; [|done]. by rewrite Hres in Hb by (rewrite E; eauto).
Qed.
(** Pruning backups removes no other zone file, and none of a consistent
    directory. *)
Lemma pruned_spares z s s' : pruned (backup_of z) s s' ->
  spares z (files s) (files s') /\ files s' !! SafeZoneFilename z = files s !! SafeZoneFilename z /\ index s' = index s.
Proof.
  intros Hp. split_and!.
  - intros j Hj. rewrite !zone_files_lookup. destruct (Hp (j +:+ ".zone")) as [->|[Hb Hn]]; [by left|right]. by rewrite Hn.
  - rewrite !zone_files_lookup. destruct (Hp (SafeZoneFilename z +:+ ".zone")) as [->|[Hb _]]; [done|]. by apply backup_pattern_self in Hb.
  - unfold index_of. destruct (Hp managedZonesIndexFile) as [->|[Hb _]]; [done|]. by apply backup_pattern_index in Hb.
Qed.
Lemma pruned_backups z s s' : pruned (backup_of z) s s' -> okay s -> files s' = files s /\ index s' = index s.
Proof.
  intros (Hs & He & Hi)%pruned_spares [_ Hres]. split; [|done]. apply map_eq. intros k. destruct (decide (k = SafeZoneFilename z)) as [->|Hk]; [done|].
  by apply (spares_touches z [files s' !! SafeZoneFilename z] _ _ Hres Hs); [set_solver|].
Qed.

(** ** The index *)
Lemma wp_readManaged s : wpio (readManagedZones w) s (fun r s' => still s s' /\ forall zones, r = Ok zones -> zones = index s).
Proof.
  apply wpio_try. eapply wpio_mono; [apply wp_quiet, quiet_validateIfExists|]. intros [[]|e] s1 H1; [|done].
  apply wpio_bind. eapply wpio_mono; [apply wp_readRegular|]. intros [[data mode]|e] s2 [H2 Hr]; cbn in Hr.
  - pose proof (still_trans _ _ _ H1 H2) as H02. destruct Hr as (i & t & Hr). rewrite H1 in Hr.
    destruct (unmarshal_index data) eqn:Hu; apply wpio_ret; (split; [done|]); [|done].
    intros zones [= <-]. unfold index_of. rewrite Hr. cbn. by rewrite Hu.
  - pose proof (still_trans _ _ _ H1 H2) as H02. destruct (os_IsNotExist e); apply wpio_ret; (split; [done|]); [|done].
    intros zones [= <-]. unfold index_of. rewrite <- H1, Hr by done. done.
Qed.

Lemma wp_writeManaged zones s : index_ok zones -> wpio (writeManagedZones w zones) s (fun r s' =>
  files s' = files s /\ (index s' = index s \/ index s' = zones) /\ (r = Ok tt -> index s' = zones)).
Proof.
  intros Hz. apply wpio_try. eapply wpio_mono; [apply ensure_entries|]. intros [[]|e] s1 H1; [|rewrite H1; split_and!; auto; done].
  eapply wpio_mono; [apply wp_replace, temp_longer, dotted_longer|]. intros r s2 [Hr Hok].
  destruct (replaced_index _ ".tmp" zones s1 s2 ltac:(set_solver) Hz Hr) as [Hf Hi]. rewrite H1 in Hf, Hi. split_and!; [done|done|].
  intros Hr'. unfold index_of. rewrite Hok by done. destruct (index_round_trip zones Hz) as (i & -> & ->). done.
Qed.

Lemma index_restore s z m : index_ok m -> (forall n, z = Some n -> entry_ok s n) ->
  index_ok (match z with Some n => <[s := n]> m | None => delete s m end).
Proof. intros Hm Hz. destruct z; [apply map_Forall_insert_2; auto|by apply map_Forall_delete]. Qed.

(** Update the entry [s] of the index to [z]. *)
Lemma wp_update_entry s z st : index_ok (index st) -> (forall n, z = Some n -> entry_ok s n) ->
  wpio (writeManagedZones w (match z with Some n => <[s := n]> (index st) | None => delete s (index st) end)) st (fun r st' =>
    files st' = files st /\ touches s [index st !! s; z] (index st) (index st') /\ (r = Ok tt -> index st' !! s = z)).
Proof.
  intros Hi Hz. assert (Ht : touches s [index st !! s; z] (index st) (match z with Some n => <[s := n]> (index st) | None => delete s (index st) end)
    /\ (match z with Some n => <[s := n]> (index st) | None => delete s (index st) end : gmap string string) !! s = z).
  { destruct z; [split; [apply touches_insert|apply lookup_insert_eq]|split; [apply touches_delete|apply lookup_delete_eq]]. }
  eapply wpio_mono; [by apply wp_writeManaged, index_restore|]. intros r st' (Hf & Hor & Hok). split_and!; [done| |].
  - destruct Hor as [-> | ->]; [apply touches_same|apply Ht].
  - intros ->. rewrite Hok by done. apply Ht.
Qed.

Lemma wp_record z st : index_ok (index st) -> entry_ok (SafeZoneFilename z) (NormalizeZoneName z) ->
  wpio (recordManagedZoneWithRollback w z) st (fun r st' =>
    files st' = files st /\ touches (SafeZoneFilename z) [index st !! SafeZoneFilename z; Some (NormalizeZoneName z)] (index st) (index st')
    /\ forall prev, r = Ok prev -> prev = index st !! SafeZoneFilename z /\ index st' !! SafeZoneFilename z = Some (NormalizeZoneName z)).
Proof.
  intros Hi Hz. apply wpio_try. eapply wpio_mono; [apply wp_readManaged|]. intros [zones|e] s1 [H1 Hr].
  - rewrite (Hr zones eq_refl) in *. cbv zeta. apply wpio_try.
    eapply wpio_mono; [rewrite <- H1; apply (wp_update_entry _ (Some _)); rewrite ?H1; [done|by intros n [= <-]]|].
    rewrite H1. intros [[]|e] s2 (Hf & Ht & Hok); [apply wpio_ret|]; (split_and!; [done|done|]); [|done].
    intros prev [= <-]. split; [done|by apply Hok].
  - rewrite H1. split_and!; [done|apply touches_same|done].
Qed.
Lemma wp_restore_zone s z st : index_ok (index st) -> (forall n, z = Some n -> entry_ok s n) ->
  wpio (restore_zone w s z) st (fun r st' =>
    files st' = files st /\ touches s [index st !! s; z] (index st) (index st') /\ (r = Ok tt -> index st' !! s = z)).
Proof.
  intros Hi Hz. apply wpio_try. eapply wpio_mono; [apply wp_readManaged|]. intros [zones|e] s1 [H1 Hr].
  - rewrite (Hr zones eq_refl) in *. eapply wpio_mono; [rewrite <- H1; apply wp_update_entry; rewrite ?H1; done|]. by rewrite H1.
  - rewrite H1. split_and!; [done|apply touches_same|done].
Qed.
Lemma wp_removeManaged z st : index_ok (index st) ->
  wpio (removeManagedZone w z) st (fun r st' =>
    files st' = files st /\ touches (SafeZoneFilename z) [index st !! SafeZoneFilename z; None] (index st) (index st')
    /\ (r = Ok tt -> index st' !! SafeZoneFilename z = None)).
Proof. intros Hi. refine (wp_restore_zone (SafeZoneFilename z) None st Hi _). done. Qed.

(** ** Undoing a write *)
Lemma wp_restore_file z snap st : wpio (restoreZoneFileSnapshot w (ZoneFilePath z) snap) st (fun r st' =>
  let s := SafeZoneFilename z in
  touches s [files st !! s; snap_content snap] (files st) (files st') /\ index st' = index st
  /\ (r = Ok tt -> files st' !! s = snap_content snap)).
Proof.
  eapply wpio_mono; [apply wp_restore|]. intros r st' [Hr Hok].
  destruct (replaced_zone _ _ ".rollback" _ _ _ ltac:(set_solver) Hr) as [Ht Hi]. split_and!; [done|done|].
  intros Hr'. rewrite zone_files_lookup. by apply Hok.
Qed.
Lemma wp_drop_backup b st : hidden b -> wpio (if (b =? "")%string then io_ok tt else removeRollbackBackup w b) st
  (fun _ st' => files st' = files st /\ index st' = index st).
Proof.
  intros Hb. destruct (b =? "")%string; [done|]. eapply wpio_mono; [apply wp_removeBackup|]. intros r st' Ho.
  by apply (only_files _ _ _ Ho); intros n ->.
Qed.
Lemma touches_trans s a b c (f f' f'' : gmap string string) : touches s [a; b] f f' -> touches s [f' !! s; c] f' f'' -> c = a \/ c = b ->
  touches s [a; b] f f''.
Proof.
  intros [Ho Hs] [Ho' Hs'] Hc. split; [intros j Hj; by rewrite Ho', Ho|]. set_solver.
Qed.

(** After a failed commit the file has its old content, unless the rollback
    failed too. *)
Lemma wp_undo_commit {A} p e z snap b content st0 st : hidden b ->
  touches (SafeZoneFilename z) [files st0 !! SafeZoneFilename z; Some content] (files st0) (files st) ->
  snap_content snap = files st0 !! SafeZoneFilename z ->
  wpio (undo_commit (A := A) w p e (ZoneFilePath z) snap b) st (fun r st' =>
    touches (SafeZoneFilename z) [files st0 !! SafeZoneFilename z; Some content] (files st0) (files st')
    /\ index st' = index st /\ exists err, r = Err err).
Proof.
  intros Hb Ht Hsnap. apply wpio_bind. unfold rollbackZoneFileCommit. apply wpio_bind.
  eapply wpio_mono; [apply wp_restore_file|]. intros r1 s1 (Ht1 & Hi1 & _). apply wpio_bind.
  eapply wpio_mono; [by apply wp_drop_backup|]. intros r2 s2 [Hf2 Hi2]. apply wpio_ret, wpio_ret.
  split_and!; [|by rewrite Hi2, Hi1|eauto]. rewrite Hf2. eapply touches_trans; [exact Ht|exact Ht1|by left].
Qed.

Definition intact_rollback (rb : writeRollback) : Prop := hidden (rb_backup rb).
Lemma hidden_empty : hidden "".
Proof. by split. Qed.

Lemma wp_run_rollback rb st : index_ok (index st) -> intact_rollback rb -> (forall n, rb_previous rb = Some n -> entry_ok (SafeZoneFilename (rb_zone rb)) n) ->
  wpio (run_rollback w rb) st (fun r st' =>
    let s := SafeZoneFilename (rb_zone rb) in
    touches s [files st !! s; snap_content (rb_snapshot rb)] (files st) (files st')
    /\ touches s [index st !! s; rb_previous rb] (index st) (index st')
    /\ (r = None -> files st' !! s = snap_content (rb_snapshot rb) /\ index st' !! s = rb_previous rb)).
Proof.
  intros Hi Hb Hp. unfold run_rollback. apply wpio_bind. eapply wpio_mono; [apply wp_restore_file|]. intros r1 s1 (Ht1 & Hi1 & Hok1).
  apply wpio_bind, wpio_wrap. eapply wpio_mono; [apply wp_restore_zone; [by rewrite Hi1|done]|]. rewrite Hi1. intros r2 s2 (Hf2 & Ht2 & Hok2).
  apply wpio_bind. eapply wpio_mono; [by apply wp_drop_backup|]. intros r3 s3 [Hf3 Hi3]. apply wpio_ret. cbv zeta.
  rewrite Hf3, Hi3, Hf2. split_and!; [done|done|]. intros Hnone.
  destruct r1 as [[]|], r2 as [[]|]; try discriminate; auto.
Qed.

(** ** Writing a zone file *)
Lemma only_target z s s' : only (fun m => m = z +:+ ".zone" \/ hidden m) s s' ->
  (forall j, j <> z -> files s' !! j = files s !! j) /\ index s' = index s.
Proof.
  intros Ho. split.
  - intros j Hj. rewrite !zone_files_lookup, Ho; [done|]. intros [Heq|Hh]; [by apply str_app_inj_r in Heq|by apply zone_file_not_hidden in Hh].
  - unfold index_of. rewrite Ho; [done|]. intros [Heq|[_ Hh]]; [by apply (zone_file_not_index z)|done].
Qed.

(** Up to the rename nothing visible changes; the rename puts the content in. *)
Lemma wp_prepare z tmp v content st0 st i perm t : hidden tmp ->
  entries st0 !! tmp = None -> entries st = <[tmp := Regular i perm t content]> (entries st0) ->
  wpio (io_try (match v with
                | None => io_ok tt
                | Some check => io_wrap "zone validation failed"
                    (fun s => (let* n := lookup_entry (zone_dir s) tmp in check (node_data n), s))
                end) (fun _ =>
        io_try (backup_current w (ZoneFilePath z)) (fun backupPath =>
        io_try (io_wrap "failed to rename temporary file" (os_Rename w tmp (ZoneFilePath z))) (fun _ => io_ok backupPath)))) st
    (fun r st' =>
      match r with
      | Err _ => only hidden st0 st'
      | Ok b => hidden b /\ only (fun m => m = ZoneFilePath z \/ hidden m) st0 st' /\ files st' !! SafeZoneFilename z = Some content
                /\ (forall check, v = Some check -> check content = Ok tt)
      end).
Proof.
  intros Htmp Hnew He. assert (H0 : only hidden st0 st).
  { intros m Hm. rewrite He, lookup_insert_ne; [done|by intros ->]. }
  apply wpio_try. eapply wpio_mono with (Q := fun r s' => s' = st /\ (r = Ok tt -> forall check, v = Some check -> check content = Ok tt)).
  { destruct v as [check|]; [|by apply wpio_ret]. apply wpio_wrap. unfold wpio. cbn [fst snd]. split; [done|].
    assert (Hl : lookup_entry (zone_dir st) tmp = Ok (Regular i perm t content)).
    { destruct (zone_dir st) eqn:Hd; cbn in He |- *; [exfalso; symmetry in He; by apply insert_non_empty in He..|]. by rewrite He, lookup_insert_eq. }
    rewrite Hl. cbn. intros Hc c [= <-]. by destruct (check content) as [[]|]. }
  intros [[]|e] s1 [-> Hv]; [|done]. apply wpio_try. eapply wpio_mono; [apply wp_backup_current|].
  intros rb s2 [Ho2 Hb]. assert (Hh2 : only hidden st0 s2).
  { eapply only_trans; [exact H0|]. eapply only_weaken; [|exact Ho2]. intros m. apply fresh_hidden. set_solver. }
  destruct rb as [b|e]; [|done]. apply wpio_try, wpio_wrap. eapply wpio_mono; [apply wp_rename|].
  intros [[]|e] s3; cbn [wrap]; [|intros H3 m Hm; by rewrite H3, Hh2]. intros (nd & Hnd & H3). apply wpio_ret.
  assert (Htmp2 : entries s2 !! tmp = Some (Regular i perm t content)) by (eapply fresh_kept; [exact Ho2|by rewrite He, lookup_insert_eq]).
  rewrite Hnd in Htmp2. injection Htmp2 as ->. split_and!.
  - destruct (String.eqb_spec b "") as [->|Hne]; [apply hidden_empty|]. eapply fresh_hidden; [|by apply Hb]. set_solver.
  - intros m Hm. assert (m <> ZoneFilePath z /\ ~ hidden m) as [Hz Hh] by tauto. rewrite H3, lookup_insert_ne, lookup_delete_ne by (done || by intros ->).
    by apply Hh2.
  - rewrite zone_files_lookup. by rewrite H3, lookup_insert_eq.
  - by apply Hv.
Qed.

(** What a write did, whether or not it reports success. *)
Definition written_as (z content : string) (v : option (string -> result unit)) (st : fs) (r : result writeRollback) (st' : fs) : Prop :=
  let s := SafeZoneFilename z in
  (files st' !! s ∈ [files st !! s; Some content] /\ spares z (files st) (files st'))
  /\ touches s [index st !! s; Some (NormalizeZoneName z)] (index st) (index st')
  /\ forall rb, r = Ok rb -> files st' !! s = Some content /\ index st' !! s = Some (NormalizeZoneName z)
       /\ rb_zone rb = z /\ snap_content (rb_snapshot rb) = files st !! s /\ rb_previous rb = index st !! s
       /\ intact_rollback rb /\ (forall check, v = Some check -> check content = Ok tt).
Lemma written_nothing z content v st e st' : files st' = files st -> index st' = index st -> written_as z content v st (Err e) st'.
Proof. intros Hf Hi. unfold written_as. rewrite Hf, Hi. split_and!; [set_solver|by left|apply touches_same|done]. Qed.
Lemma written_undone z content v st r st' :
  touches (SafeZoneFilename z) [files st !! SafeZoneFilename z; Some content] (files st) (files st') ->
  touches (SafeZoneFilename z) [index st !! SafeZoneFilename z; Some (NormalizeZoneName z)] (index st) (index st') ->
  (exists e, r = Err e) -> written_as z content v st r st'.
Proof. intros Hf Hi [e ->]. split; [split; [apply Hf|by eapply touches_spares]|]. by split. Qed.

Lemma wp_publish z tmp snap v content st0 st i perm t : index_ok (index st0) -> entry_ok (SafeZoneFilename z) (NormalizeZoneName z) -> hidden tmp -> entries st0 !! tmp = None ->
  entries st = <[tmp := Regular i perm t content]> (entries st0) -> snap_content snap = files st0 !! SafeZoneFilename z ->
  wpio (publish_temp w fm z (ZoneFilePath z) tmp snap v) st (written_as z content v st0).
Proof.
  intros Hok Hz Htmp Hnew He Hsnap. set (s := SafeZoneFilename z). apply wpio_bind.
  eapply wpio_mono; [by eapply (wp_prepare z tmp v content st0)|]. intros [b|e] s1.
  - intros (Hb & Ho1 & Hf1 & Hv). destruct (only_target s _ _ Ho1) as [Hoth Hi1].
    assert (Ht1 : touches s [files st0 !! s; Some content] (files st0) (files s1)) by (split; [done|]; fold s in Hf1; set_solver).
    apply wpio_bind. eapply wpio_mono; [apply wp_quiet, quiet_syncDir|]. intros [[]|e] s2 H2; rewrite <- H2 in Ht1, Hi1, Hf1.
    + apply wpio_bind. eapply wpio_mono; [by apply wp_record; rewrite ?Hi1|]. fold s. rewrite Hi1.
      intros [prev|e] s3 (Hf3 & Hi3 & Hr3).
      * destruct (Hr3 prev eq_refl) as [-> Hix]. apply wpio_bind. eapply wpio_mono; [apply wp_cleanup|]. intros r4 s4 H4.
        destruct (pruned_spares z _ _ H4) as (Hs4 & Hf4 & Hi4). fold s in Hf4. rewrite Hf3 in Hs4, Hf4. apply wpio_ret. unfold written_as. fold s. rewrite Hf4, Hi4.
        split; [split; [apply Ht1|eapply spares_trans; [by eapply touches_spares|done]]|]. split; [done|]. intros rb [= <-]. by split_and!.
      * eapply wpio_mono; [apply (wp_undo_commit _ _ z snap b content st0); [done|by rewrite Hf3|done]|].
        intros r s4 (Ht4 & Hi4 & Herr). apply written_undone; [done|by rewrite Hi4|done].
    + eapply wpio_mono; [by apply (wp_undo_commit _ _ z snap b content st0)|]. intros r s3 (Ht3 & Hi3 & Herr).
      apply written_undone; [done| |done]. rewrite Hi3, Hi1. apply touches_same.
  - intros Ho. apply wpio_bind. eapply wpio_mono; [apply wp_remove_any|]. intros r2 s2 H2. apply wpio_ret.
    assert (Ho2 : only hidden st0 s2).
    { intros m Hm. rewrite <- (Ho m Hm). destruct H2 as [-> | ->]; [done|]. apply lookup_delete_ne. by intros ->. }
    by apply written_nothing; apply (only_files _ _ _ Ho2).
Qed.

Lemma wp_WriteZoneFile z content v st : index_ok (index st) -> entry_ok (SafeZoneFilename z) (NormalizeZoneName z) ->
  wpio (WriteZoneFileValidatedWithRollback w fm z content v) st (written_as z content v st).
Proof.
  intros Hok Hz. apply wpio_try. eapply wpio_mono; [apply ensure_entries|]. intros [[]|e] s1 H1; [|by apply written_nothing; rewrite H1].
  cbv zeta. apply wpio_try. eapply wpio_mono with (Q := fun _ s' => still s1 s').
  { destruct (0 <? minFreeBytes fm); [|done]. apply wp_quiet, quiet_wrap, quiet_try; [by apply quiet_wrap, quiet_syscall|].
    intros x. cbv zeta. by destruct (_ <? _). }
  intros [[]|e] s2 H2; [|by apply written_nothing; rewrite H2, H1].
  apply wpio_try. eapply wpio_mono; [apply wp_snapshot|]. intros [snap|e] s3 [H3 Hsnap]; [|by apply written_nothing; rewrite H3, H2, H1].
  destruct (Hsnap snap eq_refl) as [Hs _].
  assert (He3 : entries s3 = entries st) by (by rewrite H3, H2, H1). rewrite H2, H1 in Hs.
  apply wpio_try, wpio_wrap. eapply wpio_mono; [apply wp_writeTemp|]. intros [tmp|e] s4; cbn [wrap].
  - intros ([Ht Hnew] & i & t & He4). eapply wpio_mono; [eapply (wp_publish z tmp snap v content s3 s4);
      [by rewrite He3|done|eapply temp_hidden; [exact Ht|set_solver]|exact Hnew|exact He4|]|].
    + by rewrite zone_files_lookup, He3.
    + intros r s5. unfold written_as. by rewrite He3.
  - intros Ho. destruct (only_files _ _ _ Ho (fun n => fresh_hidden _ ".tmp" s3 n ltac:(set_solver))) as [Hf Hi].
    apply written_nothing; by rewrite ?Hf, ?Hi, He3.
Qed.

(** ** Deleting *)
Lemma delete_shrinks k (m : gmap string string) : shrinks [k] m (delete k m).
Proof. intros j. destruct (decide (j = k)) as [->|]; [right; rewrite lookup_delete_eq; set_solver|left; by rewrite lookup_delete_ne]. Qed.

(** The zone file is gone; what follows only prunes its backups. *)
Lemma wp_delete_backups z (changed : bool) st0 st : okay st0 -> files st = delete (SafeZoneFilename z) (files st0) -> index st = index st0 ->
  wpio (io_bind (listBackups w z) (fun backups =>
    match backups with
    | Err _ => if changed then io_wrap "fsync zone directory after delete" (syncDir w) else io_ok tt
    | Ok names => io_bind (remove_each w names changed) (fun changed => if (changed : bool)
        then io_wrap "fsync zone directory after delete" (syncDir w) else io_ok tt)
    end)) st (fun _ st' => index st' = index st0 /\ files st' = delete (SafeZoneFilename z) (files st0)).
Proof.
  intros Hok Hf Hi. assert (Hok' : okay st) by (rewrite Hf, Hi; by eapply shrinks_dir; [apply delete_shrinks|apply (shrinks_refl [])|]).
  assert (Hend : forall st', pruned (backup_of z) st st' -> index st' = index st0 /\ files st' = delete (SafeZoneFilename z) (files st0)).
  { intros st' Hp. by destruct (pruned_backups z _ _ Hp Hok') as [-> ->]. }
  assert (Hsync : forall (b : bool) s1, pruned (backup_of z) st s1 ->
    wpio (if b then io_wrap "fsync zone directory after delete" (syncDir w) else io_ok tt) s1
      (fun _ st' => index st' = index st0 /\ files st' = delete (SafeZoneFilename z) (files st0))).
  { intros b s1 Hp. eapply wpio_mono with (Q := fun _ s2 => still s1 s2); [destruct b; [apply wp_quiet, quiet_wrap, quiet_syncDir|done]|].
    intros r s2 H2. apply Hend. eapply pruned_trans; [exact Hp|by apply pruned_still]. }
  apply wpio_bind. eapply wpio_mono; [apply wp_listBackups|]. intros [names|e] s2 [H2 Hn].
  - apply wpio_bind. eapply wpio_mono; [apply wp_remove_each|]. intros ch s3 H3. apply Hsync.
    eapply pruned_trans; [by apply pruned_still|]. eapply pruned_weaken; [|exact H3]. by apply Hn.
  - by apply Hsync, pruned_still.
Qed.

Lemma wp_deleteZoneFiles z st : okay st -> wpio (deleteZoneFiles w z) st (fun r st' =>
  let s := SafeZoneFilename z in
  index st' = index st /\ touches s [files st !! s; None] (files st) (files st') /\ (r = Ok tt -> files st' !! s = None)).
Proof.
  intros Hok. set (s := SafeZoneFilename z). apply wpio_bind. eapply wpio_mono; [apply wp_remove|]. intros removed s1 H1.
  assert (Hgone : forall (b : bool), files s1 = delete s (files st) -> index s1 = index st ->
    wpio (io_bind (listBackups w z) (fun backups =>
      match backups with
      | Err _ => if b then io_wrap "fsync zone directory after delete" (syncDir w) else io_ok tt
      | Ok names => io_bind (remove_each w names b) (fun changed => if (changed : bool)
          then io_wrap "fsync zone directory after delete" (syncDir w) else io_ok tt)
      end)) s1 (fun r st' => index st' = index st /\ touches s [files st !! s; None] (files st) (files st') /\ (r = Ok tt -> files st' !! s = None))).
  { intros b Hf Hi. eapply wpio_mono; [by apply (wp_delete_backups z b st s1)|]. intros r s2 [-> ->].
    split_and!; [done|apply touches_delete|intros _; apply lookup_delete_eq]. }
  destruct removed as [[]|e].
  - apply wpio_try, wpio_ret. assert (Ho : only (fun m => m = s +:+ ".zone" \/ hidden m) st s1).
    { intros m Hm. rewrite H1. apply lookup_delete_ne. intros <-. tauto. }
    destruct (only_target s _ _ Ho) as [Hoth Hi]. apply Hgone; [|done]. apply map_eq. intros k.
    destruct (decide (k = s)) as [->|Hk]; [|by rewrite lookup_delete_ne, Hoth].
    rewrite lookup_delete_eq, zone_files_lookup, H1. unfold ZoneFilePath. fold s. by rewrite lookup_delete_eq.
  - destruct H1 as [H1 Hex]. destruct (os_IsNotExist e); apply wpio_try, wpio_ret.
    + apply Hgone; [|by rewrite H1]. rewrite H1. symmetry. apply delete_id. rewrite zone_files_lookup. unfold ZoneFilePath in Hex. fold s in Hex.
      by rewrite Hex.
    + rewrite H1. split_and!; [done|apply touches_same|done].
Qed.
End effects.

(** ** The instance *)
Section instance.
Context `{UnicodeTables} (w : World) (fm : FileManager).

(** A result of which only the error is used. *)
Definition error_of {A} (m : io fs (result A)) : io fs (option error) := fun st => let '(r, st') := m st in (err_of r, st').

#[local] Instance dir_manager : ZoneFiles fs := {|
  Rollback := writeRollback;
  fm_ZoneExists := ZoneExists w;
  fm_ReadZoneFile := ReadZoneFile w;
  fm_WriteZoneFile := WriteZoneFileValidatedWithRollback w fm;
  fm_rollback := run_rollback w;
  fm_deleteZoneFiles z := error_of (deleteZoneFiles w z);
  fm_removeManagedZone z := error_of (removeManagedZone w z);
  fm_listManagedZones := listManagedZones w |}.

Lemma wpio_let {A} (m : io fs A) st (Q : A -> fs -> Prop) : wpio m st Q -> let '(r, st') := m st in Q r st'.
Proof. unfold wpio. by destruct (m st). Qed.
Lemma error_of_let {A} (m : io fs (result A)) st (Q : option error -> fs -> Prop) : wpio m st (fun r => Q (err_of r)) ->
  let '(err, st') := error_of m st in Q err st'.
Proof. unfold wpio, error_of. by destruct (m st). Qed.
Lemma managed_refs_spec m z s : (z, s) ∈ managed_refs m <-> m !! s = Some z.
Proof.
  unfold managed_refs. rewrite sort_Slice_Permutation, list_elem_of_In, in_map_iff. split.
  - intros ([k v] & [= -> ->] & Hin). by apply elem_of_map_to_list, list_elem_of_In.
  - intros Hs. exists (s, z). split; [done|]. by apply list_elem_of_In, elem_of_map_to_list.
Qed.

#[local] Program Instance dir_manager_laws : ZoneFilesLaws fs := {|
  zone_file st := zone_files (entries st); managed st := index_of (entries st);
  saved rb := (SafeZoneFilename (rb_zone rb), snap_content (rb_snapshot rb), rb_previous rb);
  intact := intact_rollback |}.
Next Obligation.
  intros z st. apply wpio_let, wpio_bind. eapply wpio_mono; [apply wp_quiet, quiet_validateIfExists|]. intros [[]|e] s1 H1.
  - apply wpio_bind. eapply wpio_mono; [by apply wp_quiet, quiet_syscall|]. intros r s2 H2. apply wpio_ret. by rewrite H2, H1.
  - apply wpio_ret. by rewrite H1.
Qed.
Next Obligation.
  intros z st. apply wpio_let, wpio_try. eapply wpio_mono; [apply wp_quiet, quiet_validateIfExists|]. intros [[]|e] s1 H1; [|by rewrite H1].
  apply wpio_try, wpio_wrap. eapply wpio_mono; [apply wp_readRegular|]. intros [[data mode]|e] s2 [H2 Hr]; cbn [wrap].
  - destruct Hr as (i & t & Hr). apply wpio_ret. rewrite H2, H1. split_and!; [done|done|]. intros c [= <-].
    rewrite zone_files_lookup. rewrite H1 in Hr. unfold ZoneFilePath in Hr. by rewrite Hr.
  - by rewrite H2, H1.
Qed.
Next Obligation.
  intros z content v st [Hok Hrs] Hz Hres. apply wpio_let. eapply wpio_mono; [by apply wp_WriteZoneFile|].
  intros r st' ([Hc Hf] & Hi & Hr). split_and!; [by apply spares_touches|done|]. intros rb Hrb. destruct (Hr rb Hrb) as (? & ? & -> & -> & -> & ? & ?). done.
Qed.
Next Obligation.
  intros rb st [Hok _] Hint. apply (wpio_let _ _ (fun err st' => (forall z, rb_previous rb = Some z -> entry_ok (SafeZoneFilename (rb_zone rb)) z) -> _)).
  unfold wpio. intros Hp. exact (wp_run_rollback w rb st Hok Hint Hp).
Qed.
Next Obligation.
  intros z st Hok. apply error_of_let. eapply wpio_mono; [by apply wp_deleteZoneFiles|]. intros [[]|e] st' (Hi & Hf & Hr); by split_and!; auto.
Qed.
Next Obligation.
  intros z st [Hok _]. apply error_of_let. eapply wpio_mono; [by apply wp_removeManaged|]. intros [[]|e] st' (Hi & Hf & Hr); by split_and!; auto.
Qed.
Next Obligation.
  intros st. apply wpio_let, wpio_try. eapply wpio_mono; [apply wp_readManaged|]. intros [zones|e] s1 [H1 Hr]; [|by rewrite H1].
  apply wpio_ret. rewrite H1. split_and!; [done|done|]. rewrite (Hr zones eq_refl). intros refs [= <-]. apply managed_refs_spec.
Qed.
End instance.

(** ** Properties *)
Section properties.
Context `{UnicodeTables} (w : World) (fm : FileManager).
Abbreviation files s := (zone_files (entries s)).
Abbreviation index s := (index_of (entries s)).

(** The file of the zone key [j] is named like a backup of the zone [z]. *)
Definition backup_named (z j : string) : Prop := HasPrefix (j +:+ ".zone") (ZoneBackupPattern z) = true.

(** C8: Writing a zone file is atomic.  Whatever system calls fail and wherever
    the process is stopped, in a directory whose index the agent wrote and for a
    valid zone name, the zone's file holds exactly its old or its new content, never
    a part of either; no other entry of the index changes; and no other zone's file
    changes unless its name has the form of this zone's backups (the file of
    [a.zone.backup.b.] beside the zone [a.]), in which case it is kept or deleted by
    the pruning of backups.  A write that reports success has passed the validator,
    left the new content and recorded the zone in the index. *)
Theorem zone_write_atomic (z content : string) (v : option (string -> result unit)) (st st' : fs) (r : result writeRollback) :
  WriteZoneFileValidatedWithRollback w fm z content v st = (r, st') ->
  index_ok (index st) -> entry_ok (SafeZoneFilename z) (NormalizeZoneName z) ->
  (files st' !! SafeZoneFilename z = files st !! SafeZoneFilename z \/ files st' !! SafeZoneFilename z = Some content)
  /\ (forall j, j <> SafeZoneFilename z -> index st' !! j = index st !! j
        /\ (files st' !! j = files st !! j \/ backup_named z j /\ files st' !! j = None))
  /\ (is_ok r = true -> files st' !! SafeZoneFilename z = Some content /\ index st' !! SafeZoneFilename z = Some (NormalizeZoneName z)
        /\ forall check, v = Some check -> check content = Ok tt).
Proof.
  intros Hrun Hok Hz. destruct (wpio_run _ _ _ _ _ Hrun (wp_WriteZoneFile w fm z content v st Hok Hz)) as ([Hc Hf] & Hi & Hr).
  split_and!.
  - rewrite elem_of_cons, list_elem_of_singleton in Hc. done.
  - intros j Hj. split; [by apply Hi|by apply Hf].
  - destruct r as [rb|]; [|done]. intros _. by destruct (Hr rb eq_refl) as (? & ? & _ & _ & _ & _ & ?).
Qed.

(** C9: A rollback undoes the write it belongs to, under the conditions of the
    write: when it reports no error, the whole index and every zone file are as
    before the write, but for files whose names have the form of the written zone's
    backups, which the write may have deleted and the rollback does not bring
    back. *)
Theorem zone_write_undone (w' : World) (z content : string) (v : option (string -> result unit)) (st st1 st2 : fs) (rb : writeRollback) :
  WriteZoneFileValidatedWithRollback w fm z content v st = (Ok rb, st1) -> run_rollback w' rb st1 = (None, st2) ->
  index_ok (index st) -> entry_ok (SafeZoneFilename z) (NormalizeZoneName z) ->
  index st2 = index st
  /\ forall j, files st2 !! j = files st !! j \/ backup_named z j /\ files st2 !! j = None.
Proof.
  intros Hrun Hback Hok Hz. destruct (wpio_run _ _ _ _ _ Hrun (wp_WriteZoneFile w fm z content v st Hok Hz)) as ([_ Hf] & Hi & Hr).
  destruct (Hr rb eq_refl) as (_ & _ & Ez & Es & Ep & Hint & _).
  assert (Hok1 : index_ok (index st1)).
  { intros k n Hk. destruct (decide (k = SafeZoneFilename z)) as [->|Hne]; [|rewrite (proj1 Hi) in Hk by done; by apply (Hok k)].
    destruct Hi as [_ Hi]. rewrite Hk, elem_of_cons, list_elem_of_singleton in Hi. destruct Hi as [Hi|[= ->]]; [by apply (Hok (SafeZoneFilename z))|done]. }
  assert (Hprev : forall n, rb_previous rb = Some n -> entry_ok (SafeZoneFilename (rb_zone rb)) n).
  { intros n. rewrite Ep, Ez. apply Hok. }
  destruct (wpio_run _ _ _ _ _ Hback (wp_run_rollback w' rb st1 Hok1 Hint Hprev)) as (Hf2 & Hi2 & Hdone).
  destruct (Hdone eq_refl) as [D1 D2]. rewrite Ez, ?Es, ?Ep in *. split; [apply map_eq|]; intros j.
  - destruct (decide (j = SafeZoneFilename z)) as [->|Hj]; [done|]. by rewrite (proj1 Hi2), (proj1 Hi).
  - destruct (decide (j = SafeZoneFilename z)) as [->|Hj]; [by left|]. rewrite (proj1 Hf2) by done. by apply Hf.
Qed.
End properties.

(** ** A concrete zone directory *)
#[local] Existing Instance ascii_tables.
Definition calm : World :=
  mkWorld (fun _ => None) (fun _ => 0%nat) Z.of_nat Z.of_nat (fun _ => (1000000, 4096)) (fun _ => false).
Definition demo_manager : FileManager := NewFileManager 2.
Definition demo_index : gmap string string := {[ "example.com" := "example.com."; "gone.example" := "gone.example." ]}.
Definition demo_dir : fs :=
  mkFs (Dir (<[managedZonesIndexFile := Regular 1 420 0 (marshal_index demo_index)]>
             {[ "example.com.zone" := Regular 2 420 0 "zone at 5"; "gone.example.zone" := Regular 3 420 0 "zone at 3" ]})) 0.

#[local] Instance demo_files : ZoneFiles fs := dir_manager calm demo_manager.
#[local] Instance demo_laws : ZoneFilesLaws fs := dir_manager_laws calm demo_manager.

(** A controller that lists [example.com.] and serves serial 7 of it. *)
Definition demo_response (body : string) : HttpResponse :=
  mkHttpResp 200 (fun h => if (h =? "ETag")%string then "v7" else if (h =? "X-Zone-Serial")%string then "7" else "") body None.
Definition demo_Do (req : HttpRequest) (c : unit) : result HttpResponse * unit :=
  (Ok (demo_response (if HasSuffix (url req) "/signed" then "zone at 7" else "list")), c).
Definition demo_Wait (c : unit) : option error * unit := (None, c).
Definition demo_url (_ : string) : bool := true.
Definition demo_zones : list ZoneInfo := [mkInfo "example.com." "v7" ""].
Definition demo_list (_ : string) : result listZonesResponse := Ok (mkListResponse demo_zones 0 0 0).
Definition demo_parse (content zone : string) : result (list parsedRR) :=
  Ok [RR_other; RR_SOA (if (content =? "zone at 7")%string then 7 else 5)].
Definition demo_client : Client := mkClient "https://controller" "key" 0 0 false false "" ∅.
Definition demo_hooks (refuse : bool) : Hooks fs unit :=
  mkHooks (Some (fun _ _ s => (if refuse then Some (Errorf "nsd-control failed") else None, s))) None None None None.
Definition demo_env : env unit fs unit := mkEnv ∅ zeroTime tt demo_dir tt 0.
Definition demo_cycle (refuse : bool) : option (option error * env unit fs unit) :=
  SyncAll demo_Do demo_Wait demo_url demo_list demo_parse demo_client (demo_hooks refuse) Z.of_nat 1 demo_env.
Definition demo_after (refuse : bool) : env unit fs unit := default demo_env (snd <$> demo_cycle refuse).

Example demo_outcome :
  map_to_list (zone_file (Sync.files (demo_after false))) = [("example.com", "zone at 7")]
  /\ map_to_list (managed (Sync.files (demo_after false))) = [("example.com", "example.com.")]
  /\ zone_file (Sync.files (demo_after true)) !! "example.com" = Some "zone at 5".
Proof. split_and!; vm_compute; reflexivity. Qed.

Lemma demo_ok : dir_ok (zone_files (entries demo_dir)) (index_of (entries demo_dir)).
Proof.
  assert (Hi : index_of (entries demo_dir) = demo_index) by (vm_compute; reflexivity). rewrite Hi. split.
  - assert (H1 : entry_ok "example.com" "example.com.") by (split_and!; vm_compute; reflexivity).
    assert (H2 : entry_ok "gone.example" "gone.example.") by (split_and!; vm_compute; reflexivity).
    unfold index_ok, demo_index. refine (map_Forall_insert_2 _ _ _ _ H1 _). exact (proj2 (map_Forall_singleton _ _ _) H2).
  - assert (Hf : zone_files (entries demo_dir) = {[ "example.com" := "zone at 5"; "gone.example" := "zone at 3" ]}) by (vm_compute; reflexivity).
    rewrite Hf. intros s [x Hs]. apply lookup_insert_Some in Hs as [[<- _]|[_ Hs]]; [vm_compute; done|].
    apply lookup_singleton_Some in Hs as [<- _]. vm_compute. done.
Qed.
Lemma demo_env_ok : dir_ok (zone_file (Sync.files demo_env)) (managed (Sync.files demo_env)).
Proof. exact demo_ok. Qed.
Lemma demo_zone : entry_ok (SafeZoneFilename "example.com.") (NormalizeZoneName "example.com.").
Proof. split_and!; vm_compute; reflexivity. Qed.
Lemma demo_listing : proper_listing [mkInfo "example.com." "v7" "v7"].
Proof. apply Forall_singleton. vm_compute. done. Qed.


Lemma sync_success_clean_witness :
  lastSuccess (demo_after false) = Z.of_nat (clock (demo_after false) - 1)
  /\ (forall s, is_Some (managed (Sync.files (demo_after false)) !! s) -> s ∈ ["example.com"]).
Proof.
  assert (H : lastSuccess (demo_after false) = Z.of_nat (clock (demo_after false) - 1)
    /\ (forall zone, zone ∈ [mkInfo "example.com." "v7" "v7"] ->
          exists st, zoneStates (demo_after false) !! zi_Name zone = Some st /\ ss_FailCount st = 0)
    /\ (forall n, is_Some (zoneStates (demo_after false) !! n) -> n ∈ map zi_Name [mkInfo "example.com." "v7" "v7"])
    /\ (forall s, is_Some (managed (Sync.files (demo_after false)) !! s) ->
          s ∈ map (fun z => SafeZoneFilename (zi_Name z)) [mkInfo "example.com." "v7" "v7"])).
  - refine (proj2 (sync_success_clean demo_Do demo_Wait demo_url demo_list demo_parse demo_client (demo_hooks false) Z.of_nat 1
      demo_env (demo_after false) None [mkInfo "example.com." "v7" "v7"] tt _ demo_env_ok _ demo_listing) eq_refl);
      vm_compute; reflexivity.
  - split; [exact (proj1 H)|]. exact (proj2 (proj2 (proj2 H))).
Defined.

Lemma failed_apply_undone_witness :
  let zone := mkInfo "example.com." "v7" "v7" in
  zone_file (Sync.files (snd (syncZone demo_Do demo_Wait demo_url demo_parse demo_client (demo_hooks true) zone demo_env)))
    = zone_file (Sync.files demo_env).
Proof.
  refine (proj1 (failed_apply_undone demo_Do demo_Wait demo_url demo_parse demo_client (demo_hooks true)
    (mkInfo "example.com." "v7" "v7") demo_env _ (Errorf "nsd-control failed") _ demo_env_ok _)).
  - split; [exact demo_zone|vm_compute; reflexivity].
  - vm_compute. reflexivity.
Defined.

(** The process is killed after [n] system calls. *)
Definition crash_at (n : nat) : World :=
  mkWorld (fun t => if (n <=? t)%nat then Some (EOther "killed") else None) (fun _ => 3%nat) Z.of_nat Z.of_nat (fun _ => (1000000, 4096)) (fun _ => false).
Definition demo_write (w : World) : result writeRollback * fs :=
  WriteZoneFileValidatedWithRollback w demo_manager "example.com." "zone at 7" None demo_dir.
(** At every crash point the file is old or new; a write that was not
    interrupted succeeds. *)
Example crash_sweep : forallb (fun n =>
    match zone_files (entries (snd (demo_write (crash_at n)))) !! "example.com" with
    | Some c => (c =? "zone at 5")%string || (c =? "zone at 7")%string
    | None => false
    end) (seq 0 46) = true
  /\ is_ok (fst (demo_write calm)) = true.
Proof. split; vm_compute; reflexivity. Qed.

Lemma zone_write_atomic_witness :
  let st' := snd (demo_write (crash_at 30)) in
  zone_files (entries st') !! "example.com" = zone_files (entries demo_dir) !! "example.com"
  \/ zone_files (entries st') !! "example.com" = Some "zone at 7".
Proof.
  refine (proj1 (zone_write_atomic (crash_at 30) demo_manager "example.com." "zone at 7" None demo_dir
    (snd (demo_write (crash_at 30))) (fst (demo_write (crash_at 30))) _ (proj1 demo_ok) demo_zone)); vm_compute; reflexivity.
Defined.

Definition demo_token : writeRollback := match fst (demo_write calm) with Ok rb => rb | Err _ => mkRollback "" (mkSnapshot false 0 "") None "" end.
Lemma zone_write_undone_witness :
  index_of (entries (snd (run_rollback calm demo_token (snd (demo_write calm))))) = index_of (entries demo_dir)
  /\ zone_files (entries (snd (run_rollback calm demo_token (snd (demo_write calm))))) !! "example.com" = Some "zone at 5".
Proof.
  destruct (zone_write_undone calm demo_manager calm "example.com." "zone at 7" None demo_dir (snd (demo_write calm)) (snd (run_rollback calm demo_token (snd (demo_write calm)))) demo_token
    ltac:(vm_compute; reflexivity) ltac:(vm_compute; reflexivity) (proj1 demo_ok) demo_zone) as [Hi Hf].
  split; [exact Hi|]. destruct (Hf "example.com") as [Hj|[Hb _]]; [rewrite Hj; vm_compute; reflexivity|vm_compute in Hb; discriminate].
Defined.

(** The backups of zone [a.] are the files matching [a.zone.backup.] and
    anything; the file of the valid zone [a.zone.backup.b.] is one of them, so
    deleting [a.] deletes it, and reports success. *)
Definition two_zones : fs :=
  mkFs (Dir {[ "a.zone" := Regular 1 420 0 "zone a"; "a.zone.backup.b.zone" := Regular 2 420 0 "another zone" ]}) 0.
Theorem backup_pattern_captures_zone :
  ValidateZoneName "a.zone.backup.b." = Ok tt
  /\ zone_files (entries two_zones) !! SafeZoneFilename "a.zone.backup.b." = Some "another zone"
  /\ fst (deleteZoneFiles calm "a." two_zones) = Ok tt
  /\ zone_files (entries (snd (deleteZoneFiles calm "a." two_zones))) !! SafeZoneFilename "a.zone.backup.b." = None.
Proof. split_and!; vm_compute; reflexivity. Qed.
