(* ===== verification/ArtifactCache.v ===== *)
(** * The cache of signed artifacts ([internal/controller/service/signer.go])

    One directory per zone under the artifact directory, one file per signed
    version.  Files are written to a temporary file and renamed; reads check
    that the file is a regular one; old versions are pruned by modification
    time.  The system calls are those of [FileSystem], on the directory of one
    zone or on the artifact directory itself. *)

From S2P Require Import Prelude Io GoStrings GoStringsFacts GoSort Names Validation ZonePath FileSystem FileManager.
#[local] Open Scope io_scope.

Definition maxArtifactVersionFilenameLength : nat := 200.

(** ** The directory tree *)
Inductive artifact_root :=
  | NoRoot (d : directory)
  | Zones (zs : gmap string directory).
Record cache := mkCache { root : artifact_root; ticks : nat }.
Definition root_directory (c : cache) : directory := match root c with NoRoot d => d | Zones _ => Dir ∅ end.
Definition zone_view (c : cache) (z : string) : directory :=
  match root c with Zones zs => default Missing (zs !! z) | NoRoot _ => Missing end.
(** A call on the artifact directory; a directory just made is empty. *)
Definition in_root {A} (m : io fs A) : io cache A := fun c =>
  let '(a, s) := m (mkFs (root_directory c) (ticks c)) in
  (a, mkCache (match zone_dir s, root c with Dir _, Zones zs => Zones zs | Dir _, _ => Zones ∅ | d, _ => NoRoot d end) (tick s)).
(** A call on the directory of a zone; there is none without the artifact
    directory. *)
Definition in_zone {A} (z : string) (m : io fs A) : io cache A := fun c =>
  let '(a, s) := m (mkFs (zone_view c z) (ticks c)) in
  (a, mkCache (match root c with Zones zs => Zones (<[z := zone_dir s]> zs) | r => r end) (tick s)).

(** ** File names *)
Definition safe_version_rune (r : Z) : bool :=
  ((97 <=? r) && (r <=? 122)) || ((65 <=? r) && (r <=? 90)) || ((48 <=? r) && (r <=? 57))
  || (r =? 45) || (r =? 95) || (r =? 46).
Definition safeArtifactVersionFilename (version : string) : string :=
  let version := TrimSpace version in
  if (version =? "")%string then "unknown"
  else
    let b := str_concat (map (fun c => if safe_version_rune (fst c) then snd c else "_") (chunks version)) in
    let safe := TrimByte "."%char (ReplaceAll b ".." "_") in
    let safe := if (safe =? "")%string then "unknown" else safe in
    if (maxArtifactVersionFilenameLength <? String.length safe)%nat then str_take maxArtifactVersionFilenameLength safe else safe.

Section cache.
Context `{UnicodeTables} (w : World).
(** Configuration of the service. *)
Context (artifactDir : string) (maxArtifacts : Z).

Definition artifactZoneDir (zoneName : string) : string := SafeZoneFilename zoneName.
Definition artifact_file (version : string) : string := safeArtifactVersionFilename version +:+ ".zone.signed".

(** ** Directories *)
Definition validateExistingArtifactDirectory (label : string) : io fs (result unit) :=
  info <-? os_Lstat_dir w ;
  match info with
  | LinkDir => io_fail (Errorf (label +:+ " must not be a symlink"))
  | Dir _ => io_ok tt
  | _ => io_fail (Errorf (label +:+ " must be a directory"))
  end.
Definition ensureArtifactDirectory (label : string) : io fs (result unit) :=
  first <- validateExistingArtifactDirectory label ;
  existed <-? match first with
              | Ok _ => io_ok true
              | Err e => if os_IsNotExist e then io_ok false else io_fail (Wrapf ("stat " +:+ label) e)
              end ;
  io_wrap ("mkdir " +:+ label) (os_MkdirAll w) ;;?
  io_wrap ("stat " +:+ label) (validateExistingArtifactDirectory label) ;;?
  if negb existed then io_wrap ("sync " +:+ label +:+ " parent") (syncDir w) else io_ok tt.
Definition ensureArtifactZoneDirectory (zoneName : string) : io cache (result unit) :=
  in_root (ensureArtifactDirectory "artifact cache directory") ;;?
  in_zone (artifactZoneDir zoneName) (ensureArtifactDirectory "artifact zone directory").
Definition validateArtifactZoneDirectoryIfExists (zoneName : string) : io cache (result unit) :=
  r <- in_root (validateExistingArtifactDirectory "artifact cache directory") ;
  match r with
  | Err e => if os_IsNotExist e then io_ok tt else io_fail (Wrapf "stat artifact cache directory" e)
  | Ok _ =>
    r <- in_zone (artifactZoneDir zoneName) (validateExistingArtifactDirectory "artifact zone directory") ;
    match r with
    | Err e => if os_IsNotExist e then io_ok tt else io_fail (Wrapf "stat artifact zone directory" e)
    | Ok _ => io_ok tt
    end
  end.

(** ** Files *)

(** Fill the temporary file and rename it; remove it when a step fails. *)
Definition publish_artifact (path contents : string) : io fs (result unit) :=
  tmpPath <-? io_wrap "create temp artifact" (os_CreateTemp w ("." +:+ path +:+ ".") ".tmp") ;
  renamed <- (io_wrap "chmod temp artifact" (tmp_Chmod w tmpPath 420) ;;?
              io_wrap "write temp artifact" (tmp_Write w tmpPath contents) ;;?
              io_wrap "sync temp artifact" (tmp_Sync w) ;;?
              io_wrap "close temp artifact" (tmp_Close w) ;;?
              io_wrap "rename artifact" (os_Rename w tmpPath path)) ;
  match renamed with
  | Err e => _ <- os_Remove w tmpPath ; io_fail e
  | Ok _ => io_wrap "sync artifact dir" (syncDir w)
  end.
Definition storeArtifact (zoneName version contents : string) : io cache (result unit) :=
  if (artifactDir =? "")%string then io_ok tt
  else
    ensureArtifactZoneDirectory zoneName ;;?
    in_zone (artifactZoneDir zoneName) (publish_artifact (artifact_file version) contents).

Definition readRegularArtifactFile (path : string) : io fs (result string) :=
  data <-? readRegularSyncFile w path "artifact file" ; io_ok (fst data).
Definition loadArtifact (zoneName version : string) : io cache (result string) :=
  if (artifactDir =? "")%string then io_fail (Errorf "artifact cache disabled")
  else
    validateArtifactZoneDirectoryIfExists zoneName ;;?
    in_zone (artifactZoneDir zoneName) (readRegularArtifactFile (artifact_file version)).

Definition removeSignedZoneArtifact (zoneName version : string) : io cache (result unit) :=
  if (artifactDir =? "")%string then io_ok tt
  else
    validateArtifactZoneDirectoryIfExists zoneName ;;?
    removed <- in_zone (artifactZoneDir zoneName) (os_Remove w (artifact_file version)) ;
    match removed with
    | Ok _ => io_ok tt
    | Err e => if os_IsNotExist e then io_ok tt else io_fail e
    end.

(** [os.RemoveAll] of the directory; when it fails, some of the entries may be
    gone. *)
Definition os_RemoveAll : io fs (result unit) := fun s =>
  match fault w (tick s) with
  | Some e => (Err (sys_error e), mkFs (update_entries (fun es => list_to_map (drop (torn w (tick s)) (map_to_list es))) (zone_dir s)) (S (tick s)))
  | None => (Ok tt, mkFs Missing (S (tick s)))
  end.
Definition removeZoneArtifacts (zoneName : string) : io cache (result unit) :=
  if (artifactDir =? "")%string then io_ok tt
  else
    let normalizedZoneName := NormalizeZoneName zoneName in
    match ValidateZoneName normalizedZoneName with
    | Err e => io_fail (Wrapf "invalid zone name" e)
    | Ok _ =>
      validateArtifactZoneDirectoryIfExists normalizedZoneName ;;?
      io_wrap "remove artifact directory" (in_zone (artifactZoneDir normalizedZoneName) os_RemoveAll)
    end.

(** ** Pruning *)
Definition os_ReadDir : io fs (result (list (string * node))) :=
  syscall w (fun _ d =>
    (match d with
     | Dir es => Ok (sort_Slice (fun a b => str_ltb (fst a) (fst b)) (map_to_list es))
     | Missing | LinkDir => Err (Sentinel ErrNotExist)
     | NotDir => Err (Errorf "not a directory")
     end, d)).
(** Links and special files do not carry a time in this model. *)
Definition node_mtime (n : node) : Time := match n with Regular _ _ t _ => t | _ => zeroTime end.
Definition is_dir (n : node) : bool := match n with Subdirectory _ => true | _ => false end.
Record artifactFile := mkArtifactFile { af_name : string; af_modTime : Time }.
Fixpoint list_artifacts (entries : list (string * node)) : io fs (result (list artifactFile)) :=
  match entries with
  | [] => io_ok []
  | (name, n) :: entries =>
    if is_dir n || negb (HasSuffix name ".zone.signed") then list_artifacts entries
    else
      info <-? io_wrap ("stat artifact " +:+ name) (os_Lstat w name) ;
      rest <-? list_artifacts entries ;
      io_ok (mkArtifactFile name (node_mtime info) :: rest)
  end.
(** By modification time, by name when the times are equal. *)
Definition artifact_older : artifactFile -> artifactFile -> bool :=
  lex_less time_Before Z.eqb af_modTime (fun a b => str_ltb (af_name a) (af_name b)).
Fixpoint remove_artifacts (artifacts : list artifactFile) : io fs (result unit) :=
  match artifacts with
  | [] => io_ok tt
  | a :: artifacts =>
    removed <- os_Remove w (af_name a) ;
    match removed with
    | Err e => if negb (os_IsNotExist e) then io_fail (Wrapf ("remove artifact " +:+ af_name a) e) else remove_artifacts artifacts
    | Ok _ => remove_artifacts artifacts
    end
  end.
Definition prune_directory : io fs (result unit) :=
  r <- os_ReadDir ;
  match r with
  | Err e => if os_IsNotExist e then io_ok tt else io_fail (Wrapf "read artifact dir" e)
  | Ok entries =>
    artifacts <-? list_artifacts entries ;
    if Z.of_nat (length artifacts) <=? maxArtifacts then io_ok tt
    else remove_artifacts (take (Z.to_nat (Z.of_nat (length artifacts) - maxArtifacts)) (sort_Slice artifact_older artifacts))
  end.
Definition pruneArtifacts (zoneName : string) : io cache (result unit) :=
  if (artifactDir =? "")%string || (maxArtifacts <=? 0) then io_ok tt
  else
    validateArtifactZoneDirectoryIfExists zoneName ;;?
    in_zone (artifactZoneDir zoneName) prune_directory.
End cache.
