(* ===== verification/ArtifactCacheFacts.v ===== *)
(** * Effects of the artifact cache

    Whatever system calls fail: storing an artifact touches one file, removing
    and pruning only make files of one zone disappear, a load returns what was
    stored; and when the clock advances, pruning keeps the artifact written
    last. *)

From S2P Require Import Prelude Io GoStrings GoStringsFacts GoSort Names Validation ZonePath FileSystem FileManager FileManagerFacts ArtifactCache.

(** ** The directory of a zone inside the tree *)
Abbreviation zone_entries c z := (ents (zone_view c z)).
Definition zone_fs (c : cache) (z : string) : fs := mkFs (zone_view c z) (ticks c).

Definition put (z : string) (s : fs) (c : cache) : cache :=
  mkCache (match root c with Zones zs => Zones (<[z := zone_dir s]> zs) | r => r end) (tick s).
Lemma wp_in_zone {A} z (m : io fs A) c Q : wpio m (zone_fs c z) (fun a s => Q a (put z s c)) -> wpio (in_zone z m) c Q.
Proof. unfold wpio, in_zone. fold (zone_fs c z). by destruct (m (zone_fs c z)) as [a s]. Qed.
Lemma put_other z s c z' : z' <> z -> zone_view (put z s c) z' = zone_view c z'.
Proof. intros Hz. unfold zone_view, put. cbn. destruct (root c); [done|]. by rewrite lookup_insert_ne. Qed.
(** The directory put back is the one seen later, unless there is no tree. *)
Lemma put_same z s c : zone_view (put z s c) z = zone_dir s \/ (zone_view c z = Missing /\ zone_view (put z s c) z = Missing).
Proof. unfold zone_view, put. cbn. destruct (root c); [by right|]. left. by rewrite lookup_insert_eq. Qed.

Definition keeps_dir {A} (m : io fs A) : Prop := forall s, (exists es, zone_dir s = Dir es) -> exists es, zone_dir (snd (m s)) = Dir es.
Lemma in_root_view {A} (m : io fs A) c z : keeps_dir m -> zone_entries (snd (in_root m c)) z = zone_entries c z.
Proof.
  intros Hd. unfold in_root, zone_view, root_directory. destruct (root c) as [d|zs].
  - destruct (m _) as [a s]. cbn. by destruct (zone_dir s).
  - destruct (Hd (mkFs (Dir ∅) (ticks c))) as [es Hes]; [by eexists|]. destruct (m _) as [a s]. cbn in *. by rewrite Hes.
Qed.

(** ** Modification times *)
Section dates.
Context (w : World).
(** Every file is older than the next system call. *)
Definition dated (s : fs) : Prop := forall n nd, entries s !! n = Some nd -> node_mtime nd < mtime_now w (tick s).
Definition keeps {A} (m : io fs A) : Prop := forall s, dated s -> dated (snd (m s)) /\ (tick s <= tick (snd (m s)))%nat.
Context (clock : forall i j, (i < j)%nat -> mtime_now w i < mtime_now w j).

Lemma keeps_ret {A} (a : A) : keeps (io_ret a).
Proof. done. Qed.
Lemma keeps_bind {A B} (m : io fs A) (k : A -> io fs B) : keeps m -> (forall a, keeps (k a)) -> keeps (io_bind m k).
Proof.
  intros Hm Hk s Hs. unfold io_bind. specialize (Hm s Hs). destruct (m s) as [a s1]. cbn in Hm. destruct Hm as [H1 H2].
  destruct (Hk a s1 H1) as [H3 H4]. split; [done|lia].
Qed.
Lemma keeps_try {A B} (m : io fs (result A)) (k : A -> io fs (result B)) : keeps m -> (forall a, keeps (k a)) -> keeps (io_try m k).
Proof. intros Hm Hk. apply keeps_bind; [done|]. intros [a|e]; [apply Hk|done]. Qed.
Lemma keeps_wrap {A} p (m : io fs (result A)) : keeps m -> keeps (io_wrap p m).
Proof. intros Hm. by apply keeps_bind. Qed.
Lemma dated_tick s n : dated s -> (tick s <= n)%nat -> dated (mkFs (zone_dir s) n).
Proof.
  intros Hs Hn m nd Hm. cbn in *. specialize (Hs m nd Hm). destruct (decide (tick s = n)) as [<-|]; [done|].
  pose proof (clock (tick s) n ltac:(lia)). lia.
Qed.
(** A call dates what it writes by its own time. *)
Lemma keeps_syscall {A} (op : nat -> directory -> result A * directory) :
  (forall t d n nd, ents (snd (op t d)) !! n = Some nd ->
     (exists n' nd', ents d !! n' = Some nd' /\ node_mtime nd' = node_mtime nd) \/ node_mtime nd = mtime_now w t) ->
  keeps (syscall w op).
Proof.
  intros Hop s Hs. unfold syscall. destruct (fault w (tick s)) as [e|]; cbn [snd].
  - split; [|cbn; lia]. apply dated_tick; [done|lia].
  - specialize (Hop (tick s) (zone_dir s)). destruct (op (tick s) (zone_dir s)) as [r d]. cbn [snd] in *. split; [|cbn; lia].
    intros n nd Hn. cbn [zone_dir tick] in *. pose proof (clock (tick s) (S (tick s)) ltac:(lia)).
    destruct (Hop n nd Hn) as [(n' & nd' & Hn' & <-)| ->]; [|done]. specialize (Hs n' nd' Hn'). lia.
Qed.
Lemma keeps_quiet {A} (op : nat -> directory -> result A * directory) : (forall t d, snd (op t d) = d) -> keeps (syscall w op).
Proof. intros Hop. apply keeps_syscall. intros t d n nd. rewrite Hop. eauto 6. Qed.
Lemma keeps_remove n : keeps (os_Remove w n).
Proof.
  apply keeps_syscall. intros t d m nd. destruct (lookup_entry d n) as [[| |[]|]|]; cbn [snd]; try (intros Hm; left; eexists _, _; by split);
    destruct d; cbn [update_entries ents]; intros Hm; left; try (by apply lookup_delete_Some in Hm as [_ Hm]; eexists _, _; split);
    eexists _, _; by split.
Qed.
Lemma keeps_rename old new : keeps (os_Rename w old new).
Proof.
  apply keeps_syscall. intros t d m nd. destruct (lookup_entry d old) as [o|] eqn:Ho; cbn [snd]; [|eauto 6].
  apply lookup_entry_ok in Ho. destruct (lookup_entry d new) as [[| |b|]|e]; cbn [snd]; eauto 6;
    (destruct d as [| | |es]; cbn [update_entries ents]; [eauto 6..|]; intros [[<- <-]|[_ Hm]]%lookup_insert_Some; left; [by eexists _, _|];
     apply lookup_delete_Some in Hm as [_ Hm]; by eexists _, _).
Qed.
Lemma keeps_mkdir : keeps (os_MkdirAll w).
Proof. apply keeps_syscall. intros t d m nd. destruct d; cbn [snd ents]; eauto 6. Qed.
Lemma keeps_syncDir : keeps (syncDir w).
Proof.
  apply keeps_try; [by apply keeps_quiet|]. intros _ s Hs. destruct (fault w (tick s)) as [[]|]; cbn [snd]; (split; [apply dated_tick; [done|lia]|cbn; lia]).
Qed.
Lemma keeps_create tries pre suf : keeps (create_temp w tries pre suf).
Proof.
  induction tries as [|tries IH]; [done|]. cbn [create_temp]. apply keeps_bind.
  - apply keeps_syscall. intros t d n nd. destruct d as [| | |es]; cbn [snd]; eauto 6.
    destruct (es !! _); cbn [snd ents]; [eauto 6|]. intros [[_ <-]|[_ Hn]]%lookup_insert_Some; [by right|eauto 6].
  - by intros [[n|]|e].
Qed.
Lemma keeps_chmod n p : keeps (tmp_Chmod w n p).
Proof.
  apply keeps_syscall. intros t d m nd. cbn [snd]. rewrite ents_alter.
  intros [(_ & o & Ho & ->)|[_ Ho]]%lookup_alter_Some; left; eexists _, _; (split; [exact Ho|]); [|done]. by destruct o.
Qed.
Lemma keeps_write n data : keeps (tmp_Write w n data).
Proof.
  intros s Hs. unfold tmp_Write. pose proof (clock (tick s) (S (tick s)) ltac:(lia)) as Hc.
  assert (Hput : forall c, dated (mkFs (update_entries (alter (set_data (mtime_now w (tick s)) c) n) (zone_dir s)) (S (tick s)))).
  { intros c m nd. cbn [zone_dir tick]. rewrite ents_alter. intros [(_ & o & Ho & ->)|[_ Ho]]%lookup_alter_Some; specialize (Hs _ _ Ho); [|lia].
    destruct o; cbn in *; lia. }
  destruct (fault w (tick s)); cbn [snd tick]; (split; [apply Hput|lia]).
Qed.
Lemma keeps_RemoveAll : keeps (os_RemoveAll w).
Proof.
  intros s Hs. unfold os_RemoveAll. destruct (fault w (tick s)); cbn [snd tick]; (split; [|lia]).
  - pose proof (clock (tick s) (S (tick s)) ltac:(lia)) as Hc. intros n nd. cbn [zone_dir tick]. destruct (zone_dir s) as [| | |es] eqn:Hd; cbn [update_entries ents]; try done.
    intros Hn%elem_of_list_to_map_2. apply list_elem_of_lookup in Hn as [i Hi]. rewrite lookup_drop in Hi.
    apply list_elem_of_lookup_2 in Hi as Hin.
    apply elem_of_map_to_list in Hin. specialize (Hs n nd). rewrite Hd in Hs. cbn in Hs. specialize (Hs Hin). lia.
  - intros n nd. cbn. by rewrite lookup_empty.
Qed.
End dates.

(** ** Storing *)
Definition signed_suffix (n : string) : Prop := HasSuffix n ".zone.signed" = true.
Definition temp_pre (path : string) : string := "." +:+ path +:+ ".".
Lemma temp_not_signed pre n : temp_name pre ".tmp" n -> ~ signed_suffix n.
Proof.
  intros [r ->] Hs. apply HasSuffix_true in Hs as [q Hq]. change ".zone.signed" with (".zone.signe" +:+ str1 "d") in Hq.
  change ".tmp" with (".tm" +:+ str1 "p") in Hq. rewrite <- !str_app_assoc in Hq. by apply str_snoc_inj in Hq.
Qed.
Lemma artifact_file_signed v : signed_suffix (artifact_file v).
Proof. apply HasSuffix_app. Qed.

Lemma wpio_and {S A} (m : io S A) s (Q Q' : A -> S -> Prop) : wpio m s Q -> wpio m s Q' -> wpio m s (fun a s' => Q a s' /\ Q' a s').
Proof. by split. Qed.
Lemma wp_keeps {A} w (m : io fs A) s : keeps w m -> wpio m s (fun _ s' => dated w s -> dated w s' /\ (tick s <= tick s')%nat).
Proof. intros Hm Hs. by apply Hm. Qed.

Section files.
Context `{UnicodeTables} (w : World) (clock : forall i j, (i < j)%nat -> mtime_now w i < mtime_now w j).
Context (artifactDir : string) (maxArtifacts : Z).
#[local] Set Default Proof Using "Type".

(** The temporary file after the steps that fill it. *)
Lemma wp_fill_artifact tmp path data s es i p t x : entries s = <[tmp := Regular i p t x]> es ->
  wpio (io_try (io_wrap "chmod temp artifact" (tmp_Chmod w tmp 420)) (fun _ =>
        io_try (io_wrap "write temp artifact" (tmp_Write w tmp data)) (fun _ =>
        io_try (io_wrap "sync temp artifact" (tmp_Sync w)) (fun _ =>
        io_try (io_wrap "close temp artifact" (tmp_Close w)) (fun _ =>
        io_wrap "rename artifact" (os_Rename w tmp path)))))) s
    (fun r s' => exists nd s1, entries s1 = <[tmp := nd]> es /\
       match r with
       | Err _ => entries s' = entries s1
       | Ok _ => (exists k, (tick s <= k)%nat /\ nd = Regular i 420 (mtime_now w k) data) /\ entries s' = <[path := nd]> (delete tmp (entries s1))
       end).
Proof.
  intros He. apply wpio_try, wpio_wrap. unfold wpio at 1, tmp_Chmod, syscall.
  destruct (fault w (tick s)) as [er|]; cbn [fst snd wrap]; [by exists (Regular i p t x), s|]. apply wpio_try, wpio_wrap. unfold wpio at 1, tmp_Write.
  cbn [tick zone_dir]. set (t1 := S (tick s)).
  assert (Hput : forall c, ents (update_entries (alter (set_data (mtime_now w t1) c) tmp) (update_entries (alter (set_perm 420) tmp) (zone_dir s)))
    = <[tmp := Regular i 420 (mtime_now w t1) c]> es).
  { intros c. rewrite !ents_alter, He, !alter_insert_eq. done. }
  destruct (fault w t1) as [er|]; cbn [fst snd zone_dir wrap]; [eexists _, (mkFs _ 0); split; [apply Hput|done]|].
  set (s2 := mkFs _ (S t1)). assert (He2 : entries s2 = <[tmp := Regular i 420 (mtime_now w t1) data]> es) by apply Hput.
  apply wpio_try, wpio_wrap, (wp_value w (fun _ => tt)); [intros e s3 H3 _; exists (Regular i 420 (mtime_now w t1) data), s2; by rewrite H3|]. intros _ s3 H3.
  apply wpio_try, wpio_wrap, (wp_value w (fun _ => tt)); [intros e s4 H4 _; exists (Regular i 420 (mtime_now w t1) data), s2; by rewrite H4, H3|]. intros _ s4 H4.
  assert (He4 : entries s4 = entries s2) by (by rewrite H4, H3).
  apply wpio_wrap. eapply wpio_mono; [apply wp_rename|]. intros [[]|e] s5; cbn [wrap].
  - intros (nd & Hnd & H5). rewrite He4, He2, lookup_insert_eq in Hnd. injection Hnd as <-.
    exists (Regular i 420 (mtime_now w t1) data), s2. split; [done|]. split; [exists t1; split; [unfold t1; lia|done]|]. by rewrite H5, He4.
  - intros H5. exists (Regular i 420 (mtime_now w t1) data), s2. by rewrite H5, He4.
Qed.

Lemma wp_publish_artifact path data s :
  wpio (publish_artifact w path data) s (fun r s' =>
    replaced path (temp_pre path) ".tmp" (Some data) s s'
    /\ (r = Ok tt -> exists i t, entries s' !! path = Some (Regular i 420 t data)
          /\ (dated w s -> forall n nd, entries s !! n = Some nd -> node_mtime nd < t))).
Proof using clock.
  assert (Hn : ~ temp_name (temp_pre path) ".tmp" path) by apply temp_longer, dotted_longer.
  apply wpio_try, wpio_wrap. eapply wpio_mono; [apply wpio_and; [apply wp_create|apply (wp_keeps w), keeps_create; exact clock]|].
  intros [tmp|e] s1; cbn [wrap]; intros [H1 Hk1].
  2: { split; [|done]. apply replaced_temp; [done|]. intros m _. by rewrite H1. }
  destruct H1 as (Hf & i & p & t & x & H1). apply wpio_bind. eapply wpio_mono; [by eapply wp_fill_artifact|].
  intros r s2 (nd & s1' & H1' & H2). destruct r as [[]|e].
  - destruct H2 as [(k & Hk & ->) H2]. destruct (rename_temp path (temp_pre path) ".tmp" tmp _ s s1' s2 Hf H1' H2) as [Ho Hnew].
    eapply wpio_mono; [apply wp_quiet, quiet_wrap, quiet_syncDir|]. intros r s3 H3. split.
    + split; [|right; by rewrite H3, Hnew]. intros m Hm. by rewrite H3, Ho.
    + intros _. exists i, (mtime_now w k). split; [by rewrite H3, Hnew|]. intros Hd n nd Hnd. specialize (Hd n nd Hnd) as Hlt. destruct (Hk1 Hd) as [_ Ht].
      destruct (decide (tick s = k)) as [<-|]; [done|]. pose proof (clock (tick s) k ltac:(lia)). lia.
  - apply wpio_bind. eapply wpio_mono; [apply wp_remove_any|]. intros r3 s3 H3. apply wpio_ret. split; [|done].
    rewrite H2 in H3. by apply (replaced_cleanup path (temp_pre path) ".tmp" _ tmp nd s s1' s3 Hn Hf H1').
Qed.
End files.

(** ** Effects on the tree *)
Abbreviation view c z n := (zone_entries c z !! n).
Definition same_entries {A} (m : io fs A) : Prop := forall s, entries (snd (m s)) = entries s.
Definition cquiet {A} (m : io cache A) : Prop := forall c z n, view (snd (m c)) z n = view c z n.
Definition cdated (w : World) (c : cache) : Prop := forall z n nd, view c z n = Some nd -> node_mtime nd < mtime_now w (ticks c).
Definition ckeeps (w : World) {A} (m : io cache A) : Prop := forall c, cdated w c -> cdated w (snd (m c)).

Lemma put_entries z s c n : view (put z s c) z n = entries s !! n \/ view (put z s c) z n = view c z n.
Proof. destruct (put_same z s c) as [-> | [-> ->]]; auto. Qed.
(** Without a tree nothing is ever put back. *)
Lemma put_view z s c z' n : view (put z s c) z' n = view c z' n \/ (z' = z /\ zone_view (put z s c) z' = zone_dir s).
Proof.
  destruct (decide (z' = z)) as [->|Hz]; [|left; by rewrite put_other].
  destruct (put_same z s c) as [Hs|[H1 H2]]; [by right|left; by rewrite H1, H2].
Qed.

Lemma cquiet_ret {A} (a : A) : cquiet (io_ret a).
Proof. done. Qed.
Lemma cquiet_bind {A B} (m : io cache A) (k : A -> io cache B) : cquiet m -> (forall a, cquiet (k a)) -> cquiet (io_bind m k).
Proof. intros Hm Hk c z n. unfold io_bind. specialize (Hm c z n). destruct (m c) as [a c1]. cbn in Hm. by rewrite (Hk a). Qed.
Lemma cquiet_try {A B} (m : io cache (result A)) (k : A -> io cache (result B)) : cquiet m -> (forall a, cquiet (k a)) -> cquiet (io_try m k).
Proof. intros Hm Hk. apply cquiet_bind; [done|]. intros [a|e]; [apply Hk|done]. Qed.
Lemma cquiet_in_zone {A} z (m : io fs A) : same_entries m -> cquiet (in_zone z m).
Proof.
  intros Hm c z' n. specialize (Hm (zone_fs c z)). unfold in_zone. fold (zone_fs c z). destruct (m (zone_fs c z)) as [a s]. cbn in Hm. cbn [snd].
  fold (put z s c). destruct (put_view z s c z' n) as [->|[-> ->]]; [done|]. by rewrite Hm.
Qed.
Lemma cquiet_in_root {A} (m : io fs A) : keeps_dir m -> cquiet (in_root m).
Proof. intros Hm c z n. by rewrite in_root_view. Qed.

Lemma keeps_dir_quiet {A} (m : io fs A) : quiet m -> keeps_dir m.
Proof. intros Hm s [es Hs]. exists es. rewrite Hm. done. Qed.
Lemma keeps_dir_bind {A B} (m : io fs A) (k : A -> io fs B) : keeps_dir m -> (forall a, keeps_dir (k a)) -> keeps_dir (io_bind m k).
Proof. intros Hm Hk s Hs. unfold io_bind. specialize (Hm s Hs). destruct (m s) as [a s1]. by apply Hk. Qed.
Lemma keeps_dir_try {A B} (m : io fs (result A)) (k : A -> io fs (result B)) : keeps_dir m -> (forall a, keeps_dir (k a)) -> keeps_dir (io_try m k).
Proof. intros Hm Hk. apply keeps_dir_bind; [done|]. intros [a|e]; [apply Hk|by intros s]. Qed.

Section tree.
Context `{UnicodeTables} (w : World) (clock : forall i j, (i < j)%nat -> mtime_now w i < mtime_now w j).
Context (artifactDir : string) (maxArtifacts : Z).
#[local] Set Default Proof Using "Type".

Lemma ckeeps_ret {A} (a : A) : ckeeps w (io_ret a).
Proof. by intros c. Qed.
Lemma ckeeps_bind {A B} (m : io cache A) (k : A -> io cache B) : ckeeps w m -> (forall a, ckeeps w (k a)) -> ckeeps w (io_bind m k).
Proof. intros Hm Hk c Hc. unfold io_bind. specialize (Hm c Hc). destruct (m c) as [a c1]. by apply Hk. Qed.
Lemma ckeeps_try {A B} (m : io cache (result A)) (k : A -> io cache (result B)) : ckeeps w m -> (forall a, ckeeps w (k a)) -> ckeeps w (io_try m k).
Proof. intros Hm Hk. apply ckeeps_bind; [done|]. intros [a|e]; [apply Hk|apply ckeeps_ret]. Qed.
Lemma ckeeps_wrap {A} p (m : io cache (result A)) : ckeeps w m -> ckeeps w (io_wrap p m).
Proof. intros Hm. apply ckeeps_bind; [done|]. intros r. apply (ckeeps_ret (wrap p r)). Qed.
Lemma cdated_zone c z : cdated w c -> dated w (zone_fs c z).
Proof. intros Hc n nd Hn. by apply (Hc z n nd). Qed.
Lemma later c c' : cdated w c -> (ticks c <= ticks c')%nat -> forall z n nd, view c z n = Some nd -> node_mtime nd < mtime_now w (ticks c').
Proof using clock.
  intros Hc Ht z n nd Hn. specialize (Hc z n nd Hn). destruct (decide (ticks c = ticks c')) as [<-|]; [done|].
  pose proof (clock (ticks c) (ticks c') ltac:(lia)). lia.
Qed.
Lemma ckeeps_in_zone {A} z (m : io fs A) : keeps w m -> ckeeps w (in_zone z m).
Proof using clock.
  intros Hm c Hc. destruct (Hm (zone_fs c z) (cdated_zone c z Hc)) as [Hd Ht]. unfold in_zone. fold (zone_fs c z).
  destruct (m (zone_fs c z)) as [a s]. cbn [snd] in *. fold (put z s c). intros z' n nd Hn.
  destruct (put_view z s c z' n) as [E|[-> E]].
  - rewrite E in Hn. by apply (later c (put z s c) Hc Ht z' n nd).
  - rewrite E in Hn. by apply (Hd n nd).
Qed.
Lemma ckeeps_in_root {A} (m : io fs A) : keeps_dir m -> (forall s, (tick s <= tick (snd (m s)))%nat) -> ckeeps w (in_root m).
Proof using clock.
  intros Hd Ht c Hc z n nd. rewrite in_root_view by done. apply (later c); [done|]. unfold in_root.
  specialize (Ht (mkFs (root_directory c) (ticks c))). by destruct (m _).
Qed.

(** *** Directories *)
Definition ticking {A} (m : io fs A) : Prop := forall s, (tick s <= tick (snd (m s)))%nat.
Lemma ticking_bind {A B} (m : io fs A) (k : A -> io fs B) : ticking m -> (forall a, ticking (k a)) -> ticking (io_bind m k).
Proof. intros Hm Hk s. unfold io_bind. specialize (Hm s). destruct (m s) as [a s1]. specialize (Hk a s1). cbn in *. lia. Qed.
Lemma ticking_try {A B} (m : io fs (result A)) (k : A -> io fs (result B)) : ticking m -> (forall a, ticking (k a)) -> ticking (io_try m k).
Proof. intros Hm Hk. apply ticking_bind; [done|]. intros [a|e]; [apply Hk|by intros s]. Qed.
Lemma ticking_wrap {A} p (m : io fs (result A)) : ticking m -> ticking (io_wrap p m).
Proof. intros Hm. apply ticking_bind; [done|]. by intros r s. Qed.
Lemma ticking_syscall {A} (op : nat -> directory -> result A * directory) : ticking (syscall w op).
Proof. intros s. unfold syscall. destruct (fault w _); [cbn; lia|]. destruct (op _ _). cbn. lia. Qed.
Lemma ticking_syncDir : ticking (syncDir w).
Proof. apply ticking_try; [apply ticking_syscall|]. intros _ s. destruct (fault w _) as [[]|]; cbn; lia. Qed.

Lemma validate_quiet label : quiet (validateExistingArtifactDirectory w label).
Proof. apply quiet_try; [by apply quiet_syscall|]. intros []; done. Qed.
Lemma validate_keeps label : keeps w (validateExistingArtifactDirectory w label).
Proof using clock. apply keeps_try; [by apply keeps_quiet|]. intros []; done. Qed.
Lemma validate_ticking label : ticking (validateExistingArtifactDirectory w label).
Proof. apply ticking_try; [apply ticking_syscall|]. intros [] s; done. Qed.
Lemma quiet_same {A} (m : io fs A) : quiet m -> same_entries m.
Proof. intros Hm s. by rewrite Hm. Qed.

Lemma validateIfExists_cquiet zn : cquiet (validateArtifactZoneDirectoryIfExists w zn).
Proof.
  apply cquiet_bind; [apply cquiet_in_root, keeps_dir_quiet, validate_quiet|]. intros [[]|e]; [|by destruct (os_IsNotExist e)].
  apply cquiet_bind; [apply cquiet_in_zone, quiet_same, validate_quiet|]. intros [[]|e]; [done|]. by destruct (os_IsNotExist e).
Qed.
Lemma validateIfExists_ckeeps zn : ckeeps w (validateArtifactZoneDirectoryIfExists w zn).
Proof using clock.
  apply ckeeps_bind; [apply ckeeps_in_root; [apply keeps_dir_quiet, validate_quiet|apply validate_ticking]|].
  intros [[]|e]; [|destruct (os_IsNotExist e); apply ckeeps_ret].
  apply ckeeps_bind; [apply ckeeps_in_zone, validate_keeps|]. intros [[]|e]; [apply ckeeps_ret|]. destruct (os_IsNotExist e); apply ckeeps_ret.
Qed.

Lemma ensure_same label : same_entries (ensureArtifactDirectory w label).
Proof.
  intros s. change (wpio (ensureArtifactDirectory w label) s (fun _ s' => entries s' = entries s)).
  apply wpio_bind. eapply wpio_mono; [apply wp_quiet, validate_quiet|]. intros first s1 H1.
  apply wpio_try. eapply wpio_mono with (Q := fun _ s' => still s1 s').
  { destruct first; [done|]. by destruct (os_IsNotExist e). }
  intros [existed|e] s2 H2; [|by rewrite H2, H1].
  apply wpio_try, wpio_wrap. eapply wpio_mono; [apply wp_mkdir|]. intros [[]|e] s3 H3; cbn; [|by rewrite H3, H2, H1].
  apply wpio_try, wpio_wrap. eapply wpio_mono; [apply wp_quiet, validate_quiet|]. intros [[]|e] s4 H4; cbn; [|by rewrite H4, H3, H2, H1].
  destruct existed; cbn [negb]; [apply wpio_ret; by rewrite H4, H3, H2, H1|].
  eapply wpio_mono; [apply wp_quiet, quiet_wrap, quiet_syncDir|]. intros r s5 H5. by rewrite H5, H4, H3, H2, H1.
Qed.
Lemma mkdir_keeps_dir : keeps_dir (os_MkdirAll w).
Proof. intros s [es Hs]. unfold os_MkdirAll, syscall. destruct (fault w _); cbn; [by exists es|]. rewrite Hs. by exists es. Qed.
Lemma first_pure {A} (R : (forall B, io fs B -> Prop)) (first : result A) label :
  (forall B (b : B), R B (io_ret b)) -> R _ (match first with Ok _ => io_ok true | Err e => if os_IsNotExist e then io_ok false else io_fail (Wrapf label e) end).
Proof. intros HR. destruct first; [apply HR|]. destruct (os_IsNotExist e); apply HR. Qed.
Lemma ensure_keeps_dir label : keeps_dir (ensureArtifactDirectory w label).
Proof.
  apply keeps_dir_bind; [apply keeps_dir_quiet, validate_quiet|]. intros first.
  apply keeps_dir_try; [apply (first_pure (fun _ m => keeps_dir m)); by intros B b s|]. intros existed.
  apply keeps_dir_try; [apply keeps_dir_bind; [apply mkdir_keeps_dir|by intros r s]|]. intros _.
  apply keeps_dir_try; [apply keeps_dir_quiet, quiet_wrap, validate_quiet|]. intros _.
  destruct (negb existed); [apply keeps_dir_quiet, quiet_wrap, quiet_syncDir|by intros s].
Qed.
Lemma ensure_keeps label : keeps w (ensureArtifactDirectory w label).
Proof using clock.
  apply keeps_bind; [apply validate_keeps|]. intros first.
  apply keeps_try; [apply (first_pure (fun _ m => keeps w m)); intros; apply keeps_ret|]. intros existed.
  apply keeps_try; [by apply keeps_wrap, keeps_mkdir|]. intros _. apply keeps_try; [apply keeps_wrap, validate_keeps|]. intros _.
  destruct (negb existed); [by apply keeps_wrap, keeps_syncDir|apply keeps_ret].
Qed.
Lemma ensure_ticking label : ticking (ensureArtifactDirectory w label).
Proof.
  apply ticking_bind; [apply validate_ticking|]. intros first.
  apply ticking_try; [apply (first_pure (fun _ m => ticking m)); by intros B b s|]. intros existed.
  apply ticking_try; [apply ticking_wrap, ticking_syscall|]. intros _. apply ticking_try; [apply ticking_wrap, validate_ticking|]. intros _.
  destruct (negb existed); [apply ticking_wrap, ticking_syncDir|by intros s].
Qed.
Lemma ensureZone_cquiet zn : cquiet (ensureArtifactZoneDirectory w zn).
Proof. apply cquiet_try; [apply cquiet_in_root, ensure_keeps_dir|]. intros _. apply cquiet_in_zone, ensure_same. Qed.
Lemma ensureZone_ckeeps zn : ckeeps w (ensureArtifactZoneDirectory w zn).
Proof using clock.
  apply ckeeps_try; [apply ckeeps_in_root; [apply ensure_keeps_dir|apply ensure_ticking]|]. intros _. apply ckeeps_in_zone, ensure_keeps.
Qed.
End tree.

(** ** Operations *)
Section operations.
Context `{UnicodeTables} (w : World) (clock : forall i j, (i < j)%nat -> mtime_now w i < mtime_now w j).
Context (artifactDir : string) (maxArtifacts : Z).
#[local] Set Default Proof Using "Type".

(** Only files of zone directory [z] with a name in [P] may differ. *)
Definition frame (z : string) (P : string -> Prop) (c c' : cache) : Prop :=
  forall z' n, signed_suffix n -> (z' = z -> ~ P n) -> view c' z' n = view c z' n.
(** The file [f] of [z] is the one written last. *)
Definition newest (c : cache) (z f data : string) : Prop :=
  exists i p t, view c z f = Some (Regular i p t data)
    /\ forall n nd, signed_suffix n -> n <> f -> view c z n = Some nd -> node_mtime nd < t.
Definition same_views (c c' : cache) : Prop := forall z n, view c' z n = view c z n.

Lemma frame_refl z P c : frame z P c c.
Proof. by intros z' n. Qed.
Lemma same_frame z P c c' : same_views c c' -> frame z P c c'.
Proof. intros Hs z' n _ _. apply Hs. Qed.
Lemma wp_cquiet {A} (m : io cache A) c : cquiet m -> wpio m c (fun _ c' => same_views c c').
Proof. intros Hm z n. apply Hm. Qed.
Lemma wp_ckeeps {A} (m : io cache A) c : ckeeps w m -> wpio m c (fun _ c' => cdated w c -> cdated w c').
Proof. intros Hm Hc. by apply Hm. Qed.

Lemma create_missing tries pre suf s : zone_dir s = Missing -> exists e s', create_temp w tries pre suf s = (Err e, s').
Proof.
  intros Hs. destruct tries; [by repeat eexists|]. cbn [create_temp]. unfold io_bind, syscall. destruct (fault w (tick s)); [by repeat eexists|].
  rewrite Hs. by repeat eexists.
Qed.
Lemma publish_missing path data s : zone_dir s = Missing -> fst (publish_artifact w path data s) <> Ok tt.
Proof.
  intros Hs. unfold publish_artifact, io_try, io_wrap, io_bind, os_CreateTemp.
  destruct (create_missing (100 * 100) ("." +:+ path +:+ ".") ".tmp" s Hs) as (e & s' & ->). done.
Qed.

Lemma publish_keeps path data : keeps w (publish_artifact w path data).
Proof using clock.
  apply keeps_try; [by apply keeps_wrap, keeps_create|]. intros tmp. apply keeps_bind.
  - apply keeps_try; [by apply keeps_wrap, keeps_chmod|]. intros _. apply keeps_try; [by apply keeps_wrap, keeps_write|]. intros _.
    apply keeps_try; [by apply keeps_wrap, keeps_quiet|]. intros _. apply keeps_try; [by apply keeps_wrap, keeps_quiet|]. intros _.
    by apply keeps_wrap, keeps_rename.
  - intros [[]|e]; [by apply keeps_wrap, keeps_syncDir|]. apply keeps_bind; [by apply keeps_remove|]. intros _. apply keeps_ret.
Qed.
Lemma store_ckeeps zn v data : ckeeps w (storeArtifact w artifactDir zn v data).
Proof using clock.
  unfold storeArtifact. destruct (artifactDir =? "")%string; [apply ckeeps_ret|]. apply ckeeps_try; [by apply ensureZone_ckeeps|].
  intros _. apply ckeeps_in_zone; [done|apply publish_keeps].
Qed.

Lemma wp_store zn v data c :
  wpio (storeArtifact w artifactDir zn v data) c (fun r c' =>
    frame (artifactZoneDir zn) (fun n => n = artifact_file v) c c'
    /\ (content (view c' (artifactZoneDir zn) (artifact_file v)) = content (view c (artifactZoneDir zn) (artifact_file v))
        \/ content (view c' (artifactZoneDir zn) (artifact_file v)) = Some data)
    /\ (r = Ok tt -> artifactDir <> "" -> cdated w c -> newest c' (artifactZoneDir zn) (artifact_file v) data)).
Proof using clock.
  unfold storeArtifact. destruct (String.eqb_spec artifactDir "") as [Ed|Ed].
  { apply wpio_ret. split_and!; [apply frame_refl|by left|done]. }
  set (z := artifactZoneDir zn). set (f := artifact_file v).
  apply wpio_try. eapply wpio_mono; [apply wpio_and; [apply wp_cquiet, ensureZone_cquiet|apply wp_ckeeps, ensureZone_ckeeps; exact clock]|].
  intros [[]|e] c1 [Hv Hd]; [|split_and!; [by apply same_frame|left; by rewrite Hv|done]].
  apply wp_in_zone. destruct (publish_artifact w f data (zone_fs c1 z)) as [r s'] eqn:Er.
  assert (Hp := wpio_run _ _ _ _ _ Er (wp_publish_artifact w clock f data (zone_fs c1 z))). destruct Hp as [[Ho Hc] Hok].
  assert (Hkeep : forall n, signed_suffix n -> n <> f -> entries s' !! n = view c1 z n).
  { intros n Hs Hn. apply Ho. intros [?|[Ht _]]; [done|]. by apply temp_not_signed in Ht. }
  unfold wpio. rewrite Er. cbn [fst snd]. split_and!.
  - intros z' n Hs Hzn. rewrite <- Hv. destruct (put_view z s' c1 z' n) as [->|[-> ->]]; [done|]. apply Hkeep; [done|]. by apply Hzn.
  - rewrite <- Hv. destruct (put_view z s' c1 z f) as [->|[_ ->]]; [by left|]. exact Hc.
  - intros -> _ Hdc. destruct (put_same z s' c1) as [Hput|[Hmiss _]].
    2: { exfalso. apply (publish_missing f data (zone_fs c1 z) Hmiss). by rewrite Er. }
    destruct (Hok eq_refl) as (i & t & Hf & Ht). exists i, 420, t. rewrite Hput. split; [done|]. intros n nd Hs Hn Hnd.
    rewrite Hkeep in Hnd by done. apply (Ht (cdated_zone w c1 z (Hd Hdc)) n nd Hnd).
Qed.

(** A load returns the content of the file. *)
Lemma wp_load zn v c : wpio (loadArtifact w artifactDir zn v) c (fun r c' => same_views c c'
  /\ forall data, r = Ok data -> content (view c (artifactZoneDir zn) (artifact_file v)) = Some data).
Proof.
  unfold loadArtifact. destruct (artifactDir =? "")%string; [by apply wpio_ret|].
  apply wpio_try. eapply wpio_mono; [apply wp_cquiet, validateIfExists_cquiet|]. intros [[]|e] c1 Hv; [|done].
  apply wp_in_zone, wpio_try. eapply wpio_mono; [apply wp_readRegular|]. intros r s' [Hs Hr]. cbn in Hr.
  assert (Hsame : same_views c (put (artifactZoneDir zn) s' c1)).
  { intros z n. rewrite <- Hv. destruct (put_view (artifactZoneDir zn) s' c1 z n) as [->|[-> ->]]; [done|]. by rewrite Hs. }
  destruct r as [[data perm]|e]; [|done]. apply wpio_ret. split; [done|]. intros d [= <-]. destruct Hr as (i & t & Hr). unfold zone_fs in Hr. cbn in Hr. by rewrite <- Hv, Hr.
Qed.
Lemma readRegular_keeps n label : keeps w (readRegularSyncFile w n label).
Proof using clock.
  unfold readRegularSyncFile. apply keeps_try; [by apply keeps_quiet|]. intros info.
  destruct (is_symlink info); [apply keeps_ret|]. destruct (negb _); [apply keeps_ret|]. destruct (_ <? _); [apply keeps_ret|].
  apply keeps_try; [by apply keeps_quiet|]. intros file. apply keeps_try; [by apply keeps_quiet|]. intros opened.
  destruct (negb _); [apply keeps_ret|]. destruct (negb _); [apply keeps_ret|]. destruct (_ <? _); [apply keeps_ret|].
  apply keeps_try; [by apply keeps_quiet|]. intros data. destruct (_ <? _); apply keeps_ret.
Qed.
Lemma load_ckeeps zn v : ckeeps w (loadArtifact w artifactDir zn v).
Proof using clock.
  unfold loadArtifact. destruct (artifactDir =? "")%string; [apply ckeeps_ret|]. apply ckeeps_try; [by apply validateIfExists_ckeeps|].
  intros _. apply ckeeps_in_zone; [done|]. apply keeps_try; [apply readRegular_keeps|]. intros r. apply keeps_ret.
Qed.

(** Files of [z] with a name in [P] may be gone; nothing else changed. *)
Definition shrunk (z : string) (P : string -> Prop) (c c' : cache) : Prop :=
  forall z' n, view c' z' n = view c z' n \/ (z' = z /\ P n /\ view c' z' n = None).
Lemma shrunk_same z P c c' : same_views c c' -> shrunk z P c c'.
Proof. intros Hs z' n. left. apply Hs. Qed.
Lemma shrunk_after z P c c1 c2 : same_views c c1 -> shrunk z P c1 c2 -> shrunk z P c c2.
Proof. intros Hs Hp z' n. rewrite <- Hs. apply Hp. Qed.
Lemma pruned_put z (P : string -> Prop) c s' : pruned P (zone_fs c z) s' -> shrunk z P c (put z s' c).
Proof.
  intros Hp z' n. destruct (put_view z s' c z' n) as [->|[-> ->]]; [by left|]. destruct (Hp n) as [->|[? ->]]; [by left|by right].
Qed.
Lemma wp_shrink {A} zn (m : io fs A) (P : string -> Prop) c : (forall s, wpio m s (fun _ s' => pruned P s s')) ->
  wpio (in_zone (artifactZoneDir zn) m) c (fun _ c' => shrunk (artifactZoneDir zn) P c c').
Proof. intros Hm. apply wp_in_zone. eapply wpio_mono; [apply Hm|]. intros a s'. apply pruned_put. Qed.

Lemma wp_removeArtifact zn v c : wpio (removeSignedZoneArtifact w artifactDir zn v) c (fun _ c' =>
  shrunk (artifactZoneDir zn) (fun n => n = artifact_file v) c c').
Proof.
  unfold removeSignedZoneArtifact. destruct (artifactDir =? "")%string; [by apply wpio_ret, shrunk_same|].
  apply wpio_try. eapply wpio_mono; [apply wp_cquiet, validateIfExists_cquiet|]. intros [[]|e] c1 Hv; [|by apply shrunk_same].
  apply wpio_bind. eapply wpio_mono; [apply (wp_shrink zn _ (fun n => n = artifact_file v))|].
  - intros s. eapply wpio_mono; [apply wp_remove_any|]. intros r s' Hs n. destruct Hs as [-> | ->]; [by left|].
    destruct (decide (n = artifact_file v)) as [->|]; [right; by rewrite lookup_delete_eq|left; by rewrite lookup_delete_ne].
  - intros r c2 H2. assert (shrunk (artifactZoneDir zn) (fun n => n = artifact_file v) c c2) by by eapply shrunk_after.
    destruct r as [[]|e]; [by apply wpio_ret|]. destruct (os_IsNotExist e); by apply wpio_ret.
Qed.
Lemma removeArtifact_ckeeps zn v : ckeeps w (removeSignedZoneArtifact w artifactDir zn v).
Proof using clock.
  unfold removeSignedZoneArtifact. destruct (artifactDir =? "")%string; [apply ckeeps_ret|]. apply ckeeps_try; [by apply validateIfExists_ckeeps|].
  intros _. apply ckeeps_bind; [by apply ckeeps_in_zone, keeps_remove|]. intros [[]|e]; [apply ckeeps_ret|]. destruct (os_IsNotExist e); apply ckeeps_ret.
Qed.

Lemma RemoveAll_pruned s : wpio (os_RemoveAll w) s (fun _ s' => pruned (fun _ => True) s s').
Proof.
  unfold wpio, os_RemoveAll. destruct (fault w (tick s)); cbn [snd]; intros n; cbn [zone_dir ents].
  - destruct (zone_dir s) as [| | |es]; cbn [update_entries ents]; try by left.
    destruct (decide (is_Some ((list_to_map (drop (torn w (tick s)) (map_to_list es)) : gmap string node) !! n))) as [[nd Hnd]|Hn].
    + left. rewrite Hnd. apply elem_of_list_to_map_2, list_elem_of_lookup in Hnd as [i Hi]. rewrite lookup_drop in Hi.
      by apply list_elem_of_lookup_2, elem_of_map_to_list in Hi as ->.
    + right. split; [done|]. by apply eq_None_not_Some.
  - right. by rewrite lookup_empty.
Qed.
Lemma wp_removeZone zn c : wpio (removeZoneArtifacts w artifactDir zn) c (fun _ c' =>
  shrunk (artifactZoneDir (NormalizeZoneName zn)) (fun _ => True) c c').
Proof.
  unfold removeZoneArtifacts. destruct (artifactDir =? "")%string; [by apply wpio_ret, shrunk_same|]. cbv zeta.
  destruct (ValidateZoneName _); [|by apply wpio_ret, shrunk_same].
  apply wpio_try. eapply wpio_mono; [apply wp_cquiet, validateIfExists_cquiet|]. intros [[]|e] c1 Hv; [|by apply shrunk_same].
  apply wpio_wrap. eapply wpio_mono; [apply (wp_shrink (NormalizeZoneName zn) _ (fun _ => True)), RemoveAll_pruned|].
  intros r c2 H2. by eapply shrunk_after.
Qed.
Lemma removeZone_ckeeps zn : ckeeps w (removeZoneArtifacts w artifactDir zn).
Proof using clock.
  unfold removeZoneArtifacts. destruct (artifactDir =? "")%string; [apply ckeeps_ret|]. cbv zeta. destruct (ValidateZoneName _); [|apply ckeeps_ret].
  apply ckeeps_try; [by apply validateIfExists_ckeeps|]. intros _. by apply ckeeps_wrap, ckeeps_in_zone, keeps_RemoveAll.
Qed.

(** *** Pruning *)
Lemma artifact_older_weak : WeakOrder artifact_older.
Proof. unfold artifact_older. exact (lex_weak Z.ltb Z.eqb af_modTime _). Qed.

Lemma list_artifacts_quiet l : quiet (list_artifacts w l).
Proof.
  induction l as [|[n nd] l IH]; [done|]. cbn [list_artifacts]. destruct (_ || _); [done|].
  apply quiet_try; [by apply quiet_wrap, quiet_syscall|]. intros info. apply quiet_try; [done|]. by intros rest.
Qed.
(** The listed files are the artifacts of the directory, each once. *)
Lemma wp_list l s : NoDup l.*1 -> (forall n nd, (n, nd) ∈ l -> entries s !! n = Some nd) ->
  wpio (list_artifacts w l) s (fun r s' => still s s' /\ forall as_, r = Ok as_ -> NoDup (map af_name as_)
    /\ (forall a, a ∈ as_ -> af_name a ∈ l.*1 /\ signed_suffix (af_name a) /\ exists nd, entries s !! af_name a = Some nd /\ node_mtime nd = af_modTime a)
    /\ (forall n nd, (n, nd) ∈ l -> is_dir nd = false -> signed_suffix n -> mkArtifactFile n (node_mtime nd) ∈ as_)).
Proof.
  clear clock. revert s. induction l as [|[n nd] l IH]; intros s Hnd Hl.
  { apply wpio_ret. split; [done|]. intros as_ [= <-]. split; [constructor|]. split; intros; set_solver. }
  cbn [fmap list_fmap fst] in Hnd. apply NoDup_cons in Hnd as [Hn Hnd]. cbn [list_artifacts].
  assert (Hl' : forall m md, (m, md) ∈ l -> entries s !! m = Some md) by (intros; apply Hl; set_solver).
  destruct (is_dir nd || negb (HasSuffix n ".zone.signed")) eqn:Hskip.
  - eapply wpio_mono; [by apply IH|]. intros r s' [Hs Hr]. split; [done|]. intros as_ ->. destruct (Hr as_ eq_refl) as (H1 & H2 & H3).
    split; [done|]. split; [intros a Ha; destruct (H2 a Ha) as (? & ? & ?); split_and!; [set_solver|done..]|].
    intros m md [[= -> ->]|Hm]%elem_of_cons Hd Hs'; [|by apply H3]. unfold signed_suffix in Hs'. rewrite Hd, Hs' in Hskip. discriminate.
  - apply orb_false_iff in Hskip as [Hd Hsig%negb_false_iff].
    apply wpio_try, wpio_wrap, wp_lookup; [done|]. intros info s1 H1 Hinfo. cbn [wrap].
    rewrite (Hl n nd) in Hinfo by set_solver. injection Hinfo as <-.
    assert (He1 : entries s1 = entries s) by (by rewrite H1).
    apply wpio_try. eapply wpio_mono; [apply IH; [done|]|]; [by rewrite He1|]. intros [rest|e] s2 [H2 Hr].
    2: { split; [by eapply still_trans|done]. }
    apply wpio_ret. split; [by eapply still_trans|]. intros as_ [= <-]. destruct (Hr rest eq_refl) as (R1 & R2 & R3). rewrite He1 in R2. split_and!.
    + cbn [map af_name]. constructor; [|done]. intros Hin%list_elem_of_In. apply in_map_iff in Hin as (a & Ea & Ha%list_elem_of_In). apply Hn. rewrite <- Ea. by apply R2.
    + intros a [-> |Ha]%elem_of_cons; [|destruct (R2 a Ha) as (? & ? & ?); split_and!; [set_solver|done..]]. cbn. split_and!; [set_solver|done|].
      exists nd. split; [|done]. apply Hl. set_solver.
    + intros m md [[= -> ->]|Hm]%elem_of_cons Hmd Hs'; [set_solver|]. apply elem_of_cons. right. by apply R3.
Qed.

(** The greatest element is the last one. *)
Lemma last_sorted {A} (less : A -> A -> bool) (l : list A) x k : StronglySorted (not_after less) l -> NoDup l ->
  (forall y, y ∈ l -> y <> x -> less y x = true) -> (k < length l)%nat -> x ∉ take k l.
Proof.
  clear clock. intros Hs. revert k. induction Hs as [|a l Hs IH Hall]; intros k Hnd Hx Hk; [cbn in Hk; lia|].
  apply NoDup_cons in Hnd as [Ha Hnd]. destruct k as [|k]; [by intros ?%elem_of_nil|]. cbn [take length] in *.
  intros [Heq|Hin]%elem_of_cons.
  - subst a. destruct l as [|b l]; [cbn in Hk; lia|]. apply Forall_cons in Hall as [Hb _]. unfold not_after in Hb.
    rewrite Hx in Hb; [done|set_solver|]. intros ->. set_solver.
  - apply (IH k); [done| |lia|done]. intros y Hy. apply Hx. set_solver.
Qed.

Lemma wp_remove_artifacts as_ s : wpio (remove_artifacts w as_) s (fun _ s' => pruned (fun n => n ∈ map af_name as_) s s').
Proof.
  clear clock. revert s. induction as_ as [|a as_ IH]; intros s; [by left|]. cbn [remove_artifacts map]. apply wpio_bind.
  eapply wpio_mono; [apply wp_remove_any|]. intros r s1 H1.
  assert (Hone : pruned (fun n => n ∈ af_name a :: map af_name as_) s s1).
  { intros m. destruct H1 as [-> | ->]; [by left|]. destruct (decide (m = af_name a)) as [->|]; [right|left].
    - rewrite lookup_delete_eq. set_solver.
    - by rewrite lookup_delete_ne. }
  assert (Hrest : wpio (remove_artifacts w as_) s1 (fun _ s' => pruned (fun n => n ∈ af_name a :: map af_name as_) s s')).
  { eapply wpio_mono; [apply IH|]. intros r' s2 H2. eapply pruned_trans; [exact Hone|]. eapply pruned_weaken; [|exact H2]. set_solver. }
  destruct r as [[]|e]; [done|]. destruct (negb (os_IsNotExist e)); [by apply wpio_ret|done].
Qed.

Lemma wp_prune_directory s f i p t data : 0 < maxArtifacts -> signed_suffix f ->
  entries s !! f = Some (Regular i p t data) ->
  (forall n nd, signed_suffix n -> n <> f -> entries s !! n = Some nd -> node_mtime nd < t) ->
  wpio (prune_directory w maxArtifacts) s (fun _ s' => pruned (fun n => signed_suffix n /\ n <> f) s s').
Proof.
  clear clock. intros Hmax Hsig Hf Hnew. apply wpio_bind. unfold wpio at 1, os_ReadDir, syscall.
  destruct (fault w (tick s)) as [er|]; cbn [fst snd].
  { rewrite sys_error_exists. by apply wpio_ret, pruned_still. }
  destruct (zone_dir s) as [| | |es] eqn:Hd; cbn [fst snd]; [by apply wpio_ret, pruned_still; rewrite <- Hd..|].
  rewrite <- Hd in Hf, Hnew. set (s1 := mkFs (Dir es) _). assert (Hs1 : still s s1) by (by unfold still; rewrite Hd).
  apply wpio_try. eapply wpio_mono; [apply wp_list|].
  - rewrite sort_Slice_Permutation. apply NoDup_fst_map_to_list.
  - intros n nd. rewrite sort_Slice_Permutation. by rewrite elem_of_map_to_list.
  - intros [as_|e] s2 [H2 Hr]; [|apply pruned_still; by eapply still_trans]. destruct (Hr as_ eq_refl) as (Hnd & Helem & Hall).
    assert (Hs2 : pruned (fun n => signed_suffix n /\ n <> f) s s2) by (apply pruned_still; by eapply still_trans).
    destruct (Z.leb_spec (Z.of_nat (length as_)) maxArtifacts) as [|Hlen]; [by apply wpio_ret|].
    eapply wpio_mono; [apply wp_remove_artifacts|]. intros r s3 H3. eapply pruned_trans; [exact Hs2|]. eapply pruned_weaken; [|exact H3].
    assert (Hent : forall n, entries s1 !! n = entries s !! n) by (intros; by rewrite Hs1).
    intros n Hn%list_elem_of_In. apply in_map_iff in Hn as (a & <- & Ha%list_elem_of_In).
    assert (Hin : a ∈ as_). { apply elem_of_take in Ha as (j & Hj & _). apply list_elem_of_lookup_2 in Hj. by rewrite sort_Slice_Permutation in Hj. }
    destruct (Helem a Hin) as (_ & Hsa & nd & Hna & Hta). split; [done|]. intros Ef.
    assert (Ea : a = mkArtifactFile f t). { rewrite Hent, Ef, Hf in Hna. injection Hna as <-. destruct a. cbn in *. by subst. }
    subst a. revert Ha. apply last_sorted with (less := artifact_older).
    + apply sort_Slice_sorted, artifact_older_weak.
    + rewrite sort_Slice_Permutation. by eapply NoDup_fmap_1.
    + intros b Hb Hne. rewrite sort_Slice_Permutation in Hb. destruct (Helem b Hb) as (_ & Hsb & nb & Hnb & Htb). rewrite Hent in Hnb.
      assert (af_name b <> f). { intros Eb. apply Hne. rewrite Eb, Hf in Hnb. injection Hnb as <-. destruct b. cbn in *. by subst. }
      pose proof (Hnew _ _ Hsb ltac:(done) Hnb) as Hlt. rewrite Htb in Hlt. unfold artifact_older, lex_less. cbn [af_modTime].
      rewrite (proj2 (Z.eqb_neq _ _)) by lia. cbn. by apply Z.ltb_lt.
    + rewrite sort_Slice_Permutation. lia.
Qed.

Lemma prune_keeps : keeps w (prune_directory w maxArtifacts).
Proof using clock.
  apply keeps_bind; [by apply keeps_quiet|]. intros [l|e]; [|destruct (os_IsNotExist e); apply keeps_ret].
  apply keeps_try.
  - induction l as [|[n nd] l IH]; [apply keeps_ret|]. cbn [list_artifacts]. destruct (_ || _); [done|].
    apply keeps_try; [by apply keeps_wrap, keeps_quiet|]. intros info. apply keeps_try; [done|]. intros rest. apply keeps_ret.
  - intros as_. destruct (_ <=? _); [apply keeps_ret|]. generalize (take (Z.to_nat (Z.of_nat (length as_) - maxArtifacts)) (sort_Slice artifact_older as_)).
    clear -clock. intros l. induction l as [|a l IH]; [apply keeps_ret|]. cbn [remove_artifacts]. apply keeps_bind; [by apply keeps_remove|].
    intros [[]|e]; [done|]. destruct (negb _); [apply keeps_ret|done].
Qed.
Lemma prune_ckeeps zn : ckeeps w (pruneArtifacts w artifactDir maxArtifacts zn).
Proof using clock.
  unfold pruneArtifacts. destruct (_ || _); [apply ckeeps_ret|]. apply ckeeps_try; [by apply validateIfExists_ckeeps|].
  intros _. by apply ckeeps_in_zone, prune_keeps.
Qed.

(** Pruning keeps the artifact written last. *)
Lemma wp_prune zn v data c : (artifactDir <> "" -> newest c (artifactZoneDir zn) (artifact_file v) data) ->
  wpio (pruneArtifacts w artifactDir maxArtifacts zn) c (fun _ c' =>
    shrunk (artifactZoneDir zn) (fun n => signed_suffix n /\ n <> artifact_file v) c c').
Proof.
  intros Hnew. unfold pruneArtifacts. destruct (String.eqb_spec artifactDir "") as [|Hdir]; [by apply wpio_ret, shrunk_same|].
  destruct (Z.leb_spec maxArtifacts 0) as [|Hmax]; [by apply wpio_ret, shrunk_same|]. cbn [orb].
  apply wpio_try. eapply wpio_mono; [apply wp_cquiet, validateIfExists_cquiet|]. intros [[]|e] c1 Hv; [|by apply shrunk_same].
  destruct (Hnew Hdir) as (i & p & t & Hf & Hold). apply wp_in_zone.
  eapply wpio_mono; [apply (wp_prune_directory (zone_fs c1 (artifactZoneDir zn)) (artifact_file v) i p t data)|].
  - done.
  - apply artifact_file_signed.
  - cbn. by rewrite Hv.
  - cbn. intros n nd Hs Hn. rewrite Hv. by apply Hold.
  - intros r s'. intros Hp. eapply shrunk_after; [exact Hv|]. by apply pruned_put.
Qed.
(** Pruning only makes files of the zone disappear. *)
Lemma prune_directory_any s : wpio (prune_directory w maxArtifacts) s (fun _ s' => pruned (fun _ => True) s s').
Proof.
  clear clock. apply wpio_bind. eapply wpio_mono; [apply wp_quiet; by apply quiet_syscall|]. intros [l|e] s1 H1.
  2: { destruct (os_IsNotExist e); by apply wpio_ret, pruned_still. }
  apply wpio_try. eapply wpio_mono; [apply wp_quiet, list_artifacts_quiet|]. intros [as_|e] s2 H2; [|apply pruned_still; by eapply still_trans].
  assert (Hs : pruned (fun _ => True) s s2) by (apply pruned_still; by eapply still_trans).
  destruct (_ <=? _); [by apply wpio_ret|]. eapply wpio_mono; [apply wp_remove_artifacts|]. intros r s3 H3.
  eapply pruned_trans; [exact Hs|]. by eapply pruned_weaken; [|exact H3].
Qed.
Lemma wp_prune_any zn c : wpio (pruneArtifacts w artifactDir maxArtifacts zn) c (fun _ c' => shrunk (artifactZoneDir zn) (fun _ => True) c c').
Proof.
  clear clock. unfold pruneArtifacts. destruct (_ || _); [by apply wpio_ret, shrunk_same|].
  apply wpio_try. eapply wpio_mono; [apply wp_cquiet, validateIfExists_cquiet|]. intros [[]|e] c1 Hv; [|by apply shrunk_same].
  eapply wpio_mono; [apply (wp_shrink zn _ (fun _ => True)), prune_directory_any|]. intros r c2 H2. by eapply shrunk_after.
Qed.
End operations.
