(* ===== verification/Controller.v ===== *)
(** * The state requests share in the controller

    The parts of the controller a request can touch (the zone store, the version
    generator, the DNSSEC keys, the cache of signed artifacts, the per-zone
    signing locks), and the atomic calls the API handlers and the signing
    service make on them.  The handlers are programs over these calls. *)

From S2P Require Import Prelude Io Program GoStrings GoStringsFacts Names Zone Validation Serial Ulid Store FileSystem ArtifactCache.

(** The DNS library's records as the service looks at them. *)
Inductive RRKind :=
  | KindRRSIG (algorithm inception expiration : Z)
  | KindDNSKEY (algorithm flags keyTag : Z)
  | KindNSEC3PARAM (hash flags iterations : Z) (salt : string)
  | KindOther.

(** ** Keys and signing

    [keymanager.go] and [signer.go] of [pkg/dnssec], the zone file generator and
    parser of [pkg/parser], as far as the service uses them. *)
Record SignerLib (K KeyPair RR : Type) := mkSignerLib {
  EnsureZoneKeys : Inputs -> string -> K -> result (KeyPair * KeyPair) * K;
  RemoveZoneKeys : Inputs -> string -> K -> result unit * K;
  SignZoneWithKeys : Inputs -> Zone -> KeyPair -> KeyPair -> result (Zone * list RR);
  GenerateBINDZoneFile : Zone -> result string;
  GenerateBINDZoneFileFromRRs : string -> string -> list RR -> result string;
  (** [ParseBINDZone] with the default options: the records. *)
  ParseBINDZone : string -> string -> result (list RR);
  rr_kind : RR -> RRKind;
  key_KeyTag : KeyPair -> Z;
  key_Algorithm : KeyPair -> Z;
  (** The DS record of a key for a digest type, as text. *)
  ToDS : KeyPair -> Z -> option string }.
Arguments EnsureZoneKeys {K KeyPair RR}.
Arguments RemoveZoneKeys {K KeyPair RR}.
Arguments SignZoneWithKeys {K KeyPair RR}.
Arguments GenerateBINDZoneFile {K KeyPair RR}.
Arguments GenerateBINDZoneFileFromRRs {K KeyPair RR}.
Arguments ParseBINDZone {K KeyPair RR}.
Arguments rr_kind {K KeyPair RR}.
Arguments key_KeyTag {K KeyPair RR}.
Arguments key_Algorithm {K KeyPair RR}.
Arguments ToDS {K KeyPair RR}.

(** ** State *)
(** A request created, changed or deleted a zone. *)
Record event := mkEvent { ev_by : nat; ev_zone : string; ev_old : option Zone; ev_new : option Zone }.
Record ctl (S K : Type) := mkCtl {
  c_store : S;
  c_ulid : ulidState;
  c_keys : K;
  c_cache : cache;
  (** Zones whose signing lock is held, and by which request. *)
  c_locks : gmap string nat;
  (** Ghost state: which request drew a version from the generator, and the
      history of the zones. *)
  c_issued : gmap string nat;
  c_log : list event }.
Arguments mkCtl {S K}.
Arguments c_store {S K}.
Arguments c_ulid {S K}.
Arguments c_keys {S K}.
Arguments c_cache {S K}.
Arguments c_locks {S K}.
Arguments c_issued {S K}.
Arguments c_log {S K}.

Section setters.
Context {S K : Type} (s : ctl S K).
Definition with_store (x : S) : ctl S K := mkCtl x (c_ulid s) (c_keys s) (c_cache s) (c_locks s) (c_issued s) (c_log s).
Definition with_ulid (x : ulidState) : ctl S K := mkCtl (c_store s) x (c_keys s) (c_cache s) (c_locks s) (c_issued s) (c_log s).
Definition with_keys (x : K) : ctl S K := mkCtl (c_store s) (c_ulid s) x (c_cache s) (c_locks s) (c_issued s) (c_log s).
Definition with_cache (x : cache) : ctl S K := mkCtl (c_store s) (c_ulid s) (c_keys s) x (c_locks s) (c_issued s) (c_log s).
Definition with_locks (x : gmap string nat) : ctl S K := mkCtl (c_store s) (c_ulid s) (c_keys s) (c_cache s) x (c_issued s) (c_log s).
Definition with_issued (x : gmap string nat) : ctl S K := mkCtl (c_store s) (c_ulid s) (c_keys s) (c_cache s) (c_locks s) x (c_log s).
Definition with_log (x : list event) : ctl S K := mkCtl (c_store s) (c_ulid s) (c_keys s) (c_cache s) (c_locks s) (c_issued s) x.
End setters.

(** What the environment answers: dates, times and random bytes, whether the
    request's context is done, how many pages a count may take. *)
Record Env := mkEnv { env_in : Inputs; env_done : bool }.

(** ** Calls *)
Inductive op (KeyPair RR : Type) : Type -> Type :=
  | DoGet (name : string) : op KeyPair RR (result Zone)
  | DoList (opts : ListOptions) : op KeyPair RR (result (list Zone))
  | DoSummaries (opts : ListOptions) : op KeyPair RR (result (list ZoneSummary))
  | DoHealth : op KeyPair RR (result unit)
  | DoHasRevisions : op KeyPair RR bool
  | DoRevision (name version : string) : op KeyPair RR (option (result Zone))
  | DoRevisions (name : string) (opts : ListOptions) : op KeyPair RR (option (result (list ZoneVersion)))
  (** The store writes through the pointer it gets. *)
  | DoCreate (zone : Zone) : op KeyPair RR (result unit * Zone)
  | DoUpdate (zone : Zone) (expectedVersion : string) : op KeyPair RR (result unit * Zone)
  | DoDelete (name expectedVersion : string) : op KeyPair RR (result unit)
  | DoMetadata (name : string) (dnssec : option DNSSECConfig) : op KeyPair RR (result unit)
  | DoVersion : op KeyPair RR (result string)
  | DoSerial (currentSerial : Z) : op KeyPair RR Z
  | DoNow : op KeyPair RR Time
  | DoLock (zone : string) : op KeyPair RR (result unit)
  | DoUnlock (zone : string) : op KeyPair RR unit
  | DoEnsureKeys (zone : string) : op KeyPair RR (result (KeyPair * KeyPair))
  | DoRemoveKeys (zone : string) : op KeyPair RR (result unit)
  | DoSign (zone : Zone) (ksk zsk : KeyPair) : op KeyPair RR (result (Zone * list RR))
  | DoStoreArtifact (zone version contents : string) : op KeyPair RR (result unit)
  | DoLoadArtifact (zone version : string) : op KeyPair RR (result string)
  | DoRemoveArtifact (zone version : string) : op KeyPair RR (result unit)
  | DoRemoveArtifacts (zone : string) : op KeyPair RR (result unit)
  | DoPruneArtifacts (zone : string) : op KeyPair RR (result unit).
Arguments DoGet {KeyPair RR}.
Arguments DoList {KeyPair RR}.
Arguments DoSummaries {KeyPair RR}.
Arguments DoHealth {KeyPair RR}.
Arguments DoHasRevisions {KeyPair RR}.
Arguments DoRevision {KeyPair RR}.
Arguments DoRevisions {KeyPair RR}.
Arguments DoCreate {KeyPair RR}.
Arguments DoUpdate {KeyPair RR}.
Arguments DoDelete {KeyPair RR}.
Arguments DoMetadata {KeyPair RR}.
Arguments DoVersion {KeyPair RR}.
Arguments DoSerial {KeyPair RR}.
Arguments DoNow {KeyPair RR}.
Arguments DoLock {KeyPair RR}.
Arguments DoUnlock {KeyPair RR}.
Arguments DoEnsureKeys {KeyPair RR}.
Arguments DoRemoveKeys {KeyPair RR}.
Arguments DoSign {KeyPair RR}.
Arguments DoStoreArtifact {KeyPair RR}.
Arguments DoLoadArtifact {KeyPair RR}.
Arguments DoRemoveArtifact {KeyPair RR}.
Arguments DoRemoveArtifacts {KeyPair RR}.
Arguments DoPruneArtifacts {KeyPair RR}.

Section exec.
Context `{UnicodeTables} {S K KeyPair RR : Type} `{ZoneStore S}.
Context (lib : SignerLib K KeyPair RR) (w : World) (artifactDir : string) (maxArtifacts : Z).

Definition on_cache {A} (m : io cache A) (s : ctl S K) : A * ctl S K := let '(a, c) := m (c_cache s) in (a, with_cache s c).

Definition stored (s : ctl S K) (name : string) : option Zone := match store_GetZone (c_store s) name with Ok z => Some z | Err _ => None end.
(** A successful write is logged. *)
Definition log_write (r : result unit) (ev : event) (s : ctl S K) : ctl S K :=
  match r with Ok _ => with_log s (c_log s ++ [ev]) | Err _ => s end.

(** The lock of a zone is a channel with room for one: taking it waits while
    another request holds it, unless the context is done; releasing a lock that
    is not held panics, so there is no result either. *)
Definition LockContext (t : nat) (done : bool) (zone : string) (s : ctl S K) : option (result unit * ctl S K) :=
  if done then Some (Err (Sentinel ErrContextDone), s)
  else match c_locks s !! zone with
       | Some _ => None
       | None => Some (Ok tt, with_locks s (<[zone := t]> (c_locks s)))
       end.
Definition Unlock (zone : string) (s : ctl S K) : option (unit * ctl S K) :=
  match c_locks s !! zone with
  | Some _ => Some (tt, with_locks s (delete zone (c_locks s)))
  | None => None
  end.
(** The handlers' conditional delete. *)
Definition deleteZoneWithVersion (name expectedVersion : string) (st : S) : result unit * S :=
  match conditionalDeleteStore with
  | None => (Err (Sentinel ErrConditionalDeleteUnsupported), st)
  | Some f => f name expectedVersion st
  end.

(** [exec t e c s]: the call [c] of request [t]. *)
Definition exec (X : Type) (t : nat) (e : Env) (c : op KeyPair RR X) (s : ctl S K) : option (X * ctl S K) :=
  match c in op _ _ X return option (X * ctl S K) with
  | DoGet name => Some (store_GetZone (c_store s) name, s)
  | DoList opts => Some (store_ListZones (c_store s) opts, s)
  | DoSummaries opts => Some (ListZoneSummaries (c_store s) opts, s)
  | DoHealth => Some (CheckHealth (env_done e) (c_store s), s)
  | DoHasRevisions => Some (match revisionStore with Some _ => true | None => false end, s)
  | DoRevision name version => Some (match revisionStore with Some r => Some (GetRevision _ r (c_store s) name version) | None => None end, s)
  | DoRevisions name opts => Some (match revisionStore with Some r => Some (ListRevisions _ r (c_store s) name opts) | None => None end, s)
  | DoCreate zone =>
    let '(r, z, st, u) := store_CreateZone (env_in e) (Some zone) (c_store s) (c_ulid s) in
    let z := default zone z in
    Some ((r, z), log_write r (mkEvent t (z_Name z) None (Some z)) (with_ulid (with_store s st) u))
  | DoUpdate zone expected =>
    let '(r, z, st, u) := store_UpdateZone (env_in e) zone expected (c_store s) (c_ulid s) in
    Some ((r, z), log_write r (mkEvent t (NormalizeZoneName (z_Name zone)) (stored s (z_Name zone)) (Some z)) (with_ulid (with_store s st) u))
  | DoDelete name expected =>
    let '(r, st) := deleteZoneWithVersion name expected (c_store s) in
    Some (r, log_write r (mkEvent t (NormalizeZoneName name) (stored s name) None) (with_store s st))
  | DoMetadata name cfg =>
    match dnssecMetadataStore with
    | None => Some (Err (Errorf "backend does not support DNSSEC metadata persistence"), s)
    | Some f => let '(r, st) := f (in_now (env_in e)) name cfg (c_store s) in Some (r, with_store s st)
    end
  | DoVersion =>
    let '(r, u) := NewZoneVersion (env_in e) (c_ulid s) in
    Some (r, with_issued (with_ulid s u) (match r with Ok v => <[v := t]> (c_issued s) | Err _ => c_issued s end))
  | DoSerial cur => Some (NextSOASerial (in_date (env_in e)) cur, s)
  | DoNow => Some (in_now (env_in e), s)
  | DoLock zone => LockContext t (env_done e) zone s
  | DoUnlock zone => Unlock zone s
  | DoEnsureKeys zone => let '(r, k) := EnsureZoneKeys lib (env_in e) zone (c_keys s) in Some (r, with_keys s k)
  | DoRemoveKeys zone => let '(r, k) := RemoveZoneKeys lib (env_in e) zone (c_keys s) in Some (r, with_keys s k)
  | DoSign zone ksk zsk => Some (SignZoneWithKeys lib (env_in e) zone ksk zsk, s)
  | DoStoreArtifact zone version contents => Some (on_cache (storeArtifact w artifactDir zone version contents) s)
  | DoLoadArtifact zone version => Some (on_cache (loadArtifact w artifactDir zone version) s)
  | DoRemoveArtifact zone version => Some (on_cache (removeSignedZoneArtifact w artifactDir zone version) s)
  | DoRemoveArtifacts zone => Some (on_cache (removeZoneArtifacts w artifactDir zone) s)
  | DoPruneArtifacts zone => Some (on_cache (pruneArtifacts w artifactDir maxArtifacts zone) s)
  end.
End exec.
