(* ===== verification/SigningService.v ===== *)
(** * The signing service ([internal/controller/service/signer.go])

    Signing a zone, the prepared write that the API handlers complete or abort,
    re-signing, and serving the published artifact, as programs over the calls
    of [Controller].  A write goes: take the zone's lock, sign, store the
    artifact, write the zone to the store, prune old artifacts, release the
    lock; an artifact whose zone was not written is removed again. *)

From S2P Require Import Prelude Io Program GoStrings GoStringsFacts Names Zone Validation Serial Ulid Store FileSystem ArtifactCache Controller.
#[local] Open Scope prog_scope.

Definition SHA1_hash : Z := 1.
Definition SHA256_digest : Z := 2.
Definition SHA384_digest : Z := 4.

Record NSEC3Metadata := mkNSEC3Metadata {
  nm_Enabled : bool; nm_HashAlg : Z; nm_Flags : Z; nm_Iterations : Z; nm_Salt : string }.
Record SigningMetadata := mkSigningMetadata {
  md_KSKKeyTag : Z; md_ZSKKeyTag : Z; md_Algorithm : Z; md_Inception : Z; md_Expiration : Z; md_NSEC3Params : option NSEC3Metadata }.
Record SignedZoneArtifact (RR : Type) := mkSignedArtifact {
  sa_ZoneName : string; sa_Version : string; sa_Serial : Z; sa_SignedZone : string;
  sa_UnsignedRRs : list RR; sa_SignedRRs : list RR; sa_Metadata : SigningMetadata; sa_DNSSEC : option DNSSECConfig }.
Arguments mkSignedArtifact {RR}.
Arguments sa_ZoneName {RR}.
Arguments sa_Version {RR}.
Arguments sa_Serial {RR}.
Arguments sa_SignedZone {RR}.
Arguments sa_UnsignedRRs {RR}.
Arguments sa_SignedRRs {RR}.
Arguments sa_Metadata {RR}.
Arguments sa_DNSSEC {RR}.

(** [SetMaxArtifactsPerZone]. *)
Definition SetMaxArtifactsPerZone (maxArtifacts : Z) : Z := if maxArtifacts <? 0 then 0 else maxArtifacts.

(** [cloneZone]: a deep copy, so a value. *)
Definition cloneZone (zone : Zone) : Zone :=
  mkZone (z_Name zone) (z_Version zone) (z_SOA zone)
    (map (fun r => mkRecord (rec_ID r) (rec_Name r) (rec_Type r) (rec_TTL r) (rec_Value r)
                     (match rec_Priority r with Some p => Some p | None => None end)) (z_Records zone))
    (cloneDNSSECConfig (z_DNSSEC zone)) (z_CreatedAt zone) (z_UpdatedAt zone).

Section service.
Context {K KeyPair RR : Type} (lib : SignerLib K KeyPair RR).
Context `{UnicodeTables} (artifactDir : string) (ResignThreshold : Duration).
Abbreviation prog' A := (prog (op KeyPair RR) A).
Abbreviation artifact := (SignedZoneArtifact RR).

(** ** Metadata of a signed zone *)

(** Zero means none yet; the earliest inception and expiration win. *)
Definition earliest (cur candidate : Z) : Z := if (cur =? 0) || (candidate <? cur) then candidate else cur.
Definition rrsig_span (acc : Z * Z) (rr : RR) : Z * Z :=
  match rr_kind lib rr with
  | KindRRSIG _ inception expiration => (earliest (fst acc) inception, earliest (snd acc) expiration)
  | _ => acc
  end.
Definition first_nonzero (cur candidate : Z) : Z := if cur =? 0 then candidate else cur.
Definition metadata_step (m : SigningMetadata) (rr : RR) : SigningMetadata :=
  match rr_kind lib rr with
  | KindRRSIG alg inception expiration =>
    mkSigningMetadata (md_KSKKeyTag m) (md_ZSKKeyTag m) (first_nonzero (md_Algorithm m) alg)
      (earliest (md_Inception m) inception) (earliest (md_Expiration m) expiration) (md_NSEC3Params m)
  | KindDNSKEY alg flags keyTag =>
    mkSigningMetadata (if flags =? 257 then first_nonzero (md_KSKKeyTag m) keyTag else md_KSKKeyTag m)
      (if flags =? 256 then first_nonzero (md_ZSKKeyTag m) keyTag else md_ZSKKeyTag m)
      (first_nonzero (md_Algorithm m) alg) (md_Inception m) (md_Expiration m) (md_NSEC3Params m)
  | KindNSEC3PARAM hash flags iterations salt =>
    mkSigningMetadata (md_KSKKeyTag m) (md_ZSKKeyTag m) (md_Algorithm m) (md_Inception m) (md_Expiration m)
      (Some (mkNSEC3Metadata true hash flags iterations salt))
  | KindOther => m
  end.
Definition config_nsec3 (cfg : option DNSSECConfig) : option NSEC3Metadata :=
  match cfg with
  | Some c => if NSEC3Enabled c then Some (mkNSEC3Metadata true SHA1_hash 0 (NSEC3Iterations c) (NSEC3Salt c)) else None
  | None => None
  end.
Definition signingMetadataFromRRs (rrs : list RR) (cfg : option DNSSECConfig) : SigningMetadata :=
  let m := foldl metadata_step (mkSigningMetadata 0 0 0 0 0 None) rrs in
  match md_NSEC3Params m with
  | Some _ => m
  | None => mkSigningMetadata (md_KSKKeyTag m) (md_ZSKKeyTag m) (md_Algorithm m) (md_Inception m) (md_Expiration m) (config_nsec3 cfg)
  end.

(** ** Signing *)
Definition unsignedRRsFromZone (zone : Zone) : result (list RR) :=
  let* zoneFile := GenerateBINDZoneFile lib zone in ParseBINDZone lib zoneFile (z_Name zone).

(** The artifact made from the signed records. *)
Definition artifact_of (zone signedZone : Zone) (unsignedRRs signedRRs : list RR) (signedZoneFile : string) (ksk zsk : KeyPair) : artifact :=
  let '(inception, expiration) := foldl rrsig_span (0, 0) signedRRs in
  mkSignedArtifact (z_Name zone) (z_Version signedZone) (Serial (z_SOA signedZone)) signedZoneFile unsignedRRs signedRRs
    (mkSigningMetadata (key_KeyTag lib ksk) (key_KeyTag lib zsk) (key_Algorithm lib ksk) inception expiration (config_nsec3 (z_DNSSEC signedZone)))
    (cloneDNSSECConfig (z_DNSSEC signedZone)).
Definition SignZone (zone : Zone) : prog' (result artifact) :=
  match unsignedRRsFromZone zone with
  | Err e => Ret (Err (Wrapf "build unsigned RRs" e))
  | Ok unsignedRRs =>
    keys <~ call (DoEnsureKeys (z_Name zone)) ;
    match keys with
    | Err e => Ret (Err (Wrapf "failed to ensure zone keys" e))
    | Ok (ksk, zsk) =>
      signed <~ call (DoSign zone ksk zsk) ;
      match signed with
      | Err e => Ret (Err (Wrapf "failed to sign zone" e))
      | Ok (signedZone, signedRRs) =>
        match GenerateBINDZoneFileFromRRs lib (z_Name zone) (z_Version signedZone) signedRRs with
        | Err e => Ret (Err (Wrapf "failed to generate signed zone file" e))
        | Ok signedZoneFile => Ret (Ok (artifact_of zone signedZone unsignedRRs signedRRs signedZoneFile ksk zsk))
        end
      end
    end
  end.

(** ** Locks *)
Definition acquireZoneLock (zoneName : string) : prog' (result string) :=
  r <~ call (DoLock (NormalizeZoneName zoneName)) ;
  Ret match r with Ok _ => Ok (NormalizeZoneName zoneName) | Err e => Err (Wrapf "lock zone signing" e) end.
(** Take the lock, run the body, release it ([defer lock.Unlock()]). *)
Definition with_lock {A} (zoneName : string) (body : prog' (result A)) : prog' (result A) :=
  lock <~? acquireZoneLock zoneName ;
  r <~ body ;
  call (DoUnlock lock) ;;~
  Ret r.

(** ** Stored artifacts *)
Definition storeSignedZoneArtifact (a : artifact) : prog' (result unit) :=
  if (artifactDir =? "")%string then Ret (Ok tt)
  else
    r <~ call (DoStoreArtifact (sa_ZoneName a) (sa_Version a) (sa_SignedZone a)) ;
    Ret (wrap ("store signed artifact for zone " +:+ sa_ZoneName a +:+ " version " +:+ sa_Version a) r).
Definition pruneSignedZoneArtifacts (zoneName : string) : prog' unit :=
  if (artifactDir =? "")%string then Ret tt else _ <~ call (DoPruneArtifacts zoneName) ; Ret tt.
Definition completeSignedZoneWrite (a : artifact) : prog' unit := pruneSignedZoneArtifacts (sa_ZoneName a).

(** ** Prepared writes *)
Record SignedZoneWrite := mkWrite {
  sw_artifact : artifact; sw_lock : string; sw_once : bool; sw_stored : bool; sw_committed : bool }.

Definition sw_Store (sw : SignedZoneWrite) : prog' (result unit * SignedZoneWrite) :=
  if sw_stored sw then Ret (Ok tt, sw)
  else
    r <~ storeSignedZoneArtifact (sw_artifact sw) ;
    Ret match r with
        | Err e => (Err e, sw)
        | Ok _ => (Ok tt, mkWrite (sw_artifact sw) (sw_lock sw) (sw_once sw) true (sw_committed sw))
        end.
Definition sw_Commit (sw : SignedZoneWrite) : prog' (result unit * SignedZoneWrite) :=
  stored <~ sw_Store sw ;
  match stored with
  | (Err e, sw) => Ret (Err e, sw)
  | (Ok _, sw) =>
    if negb (sw_committed sw) then
      completeSignedZoneWrite (sw_artifact sw) ;;~
      Ret (Ok tt, mkWrite (sw_artifact sw) (sw_lock sw) (sw_once sw) (sw_stored sw) true)
    else Ret (Ok tt, sw)
  end.
Definition sw_Complete (sw : SignedZoneWrite) : prog' (result unit * SignedZoneWrite) :=
  if sw_once sw then Ret (Ok tt, sw)
  else
    committed <~ sw_Commit sw ;
    let '(r, sw) := committed in
    call (DoUnlock (sw_lock sw)) ;;~
    Ret (r, mkWrite (sw_artifact sw) (sw_lock sw) true (sw_stored sw) (sw_committed sw)).
Definition sw_Abort (sw : SignedZoneWrite) : prog' unit :=
  if sw_once sw then Ret tt
  else
    (if sw_stored sw && negb (sw_committed sw)
     then _ <~ call (DoRemoveArtifact (sa_ZoneName (sw_artifact sw)) (sa_Version (sw_artifact sw))) ; Ret tt
     else Ret tt) ;;~
    call (DoUnlock (sw_lock sw)).

(** The zone with its DNSSEC settings attached, and the write. *)
Definition PrepareSignedZoneWrite (zone : Zone) : prog' (result (Zone * SignedZoneWrite)) :=
  lock <~? acquireZoneLock (z_Name zone) ;
  r <~ SignZone zone ;
  match r with
  | Err e => call (DoUnlock lock) ;;~ Ret (Err e)
  | Ok a => Ret (Ok (set_DNSSEC (cloneDNSSECConfig (sa_DNSSEC a)) zone, mkWrite a lock false false false))
  end.

(** ** Re-signing *)
Definition resignAndStoreZoneLocked (zone : Zone) : prog' (result artifact) :=
  let currentVersion := z_Version zone in
  version <~ call DoVersion ;
  match version with
  | Err e => Ret (Err (Wrapf "generate zone version" e))
  | Ok newVersion =>
    serial <~ call (DoSerial (Serial (z_SOA zone))) ;
    let resignedZone := set_SOASerial serial (set_Version newVersion (cloneZone zone)) in
    a <~? SignZone resignedZone ;
    let resignedZone := set_DNSSEC (cloneDNSSECConfig (sa_DNSSEC a)) resignedZone in
    _ <~? storeSignedZoneArtifact a ;
    written <~ call (DoUpdate resignedZone currentVersion) ;
    match fst written with
    | Err e =>
      _ <~ call (DoRemoveArtifact (sa_ZoneName a) (sa_Version a)) ;
      Ret (Err (Wrapf "persist re-signed zone" e))
    | Ok _ => completeSignedZoneWrite a ;;~ Ret (Ok a)
    end
  end.
Definition ResignZone (zoneName : string) : prog' (result unit) :=
  with_lock zoneName (
    r <~ call (DoGet zoneName) ;
    match r with
    | Err e => Ret (Err (Wrapf "failed to get zone" e))
    | Ok zone =>
      match z_DNSSEC zone with
      | Some cfg => if Enabled cfg then _ <~? resignAndStoreZoneLocked zone ; Ret (Ok tt)
                    else Ret (Err (Errorf ("DNSSEC not enabled for zone " +:+ zoneName)))
      | None => Ret (Err (Errorf ("DNSSEC not enabled for zone " +:+ zoneName)))
      end
    end).

(** ** Serving artifacts *)
Definition signedArtifactFromCache (zone : Zone) (signed : string) : result artifact :=
  let* rrs := wrap "parse cached signed artifact" (ParseBINDZone lib signed (z_Name zone)) in
  let metadata := signingMetadataFromRRs rrs (z_DNSSEC zone) in
  if md_Expiration metadata =? 0 then Err (Errorf "cached signed artifact has no RRSIG records")
  else Ok (mkSignedArtifact (z_Name zone) (z_Version zone) (Serial (z_SOA zone)) signed [] rrs metadata (cloneDNSSECConfig (z_DNSSEC zone))).
Definition loadCachedSignedZoneArtifact (zone : Zone) : prog' (result artifact) :=
  if (artifactDir =? "")%string then Ret (Err (Errorf "artifact cache disabled"))
  else if (z_Version zone =? "")%string then Ret (Err (Errorf "zone version is empty"))
  else
    signed <~? call (DoLoadArtifact (z_Name zone) (z_Version zone)) ;
    Ret (signedArtifactFromCache zone signed).
(** [time.Unix(expiration, 0).After(now)]. *)
Definition expires_after (expiration : Z) (now : Time) : bool := time_Before now (expiration * Second).
Definition cachedArtifactFresh (a : artifact) (now : Time) : bool :=
  if md_Expiration (sa_Metadata a) =? 0 then false
  else
    let threshold := if ResignThreshold <? 0 then 0 else ResignThreshold in
    expires_after (md_Expiration (sa_Metadata a)) (time_Add now threshold).
Definition cachedArtifactUsable (a : artifact) (now : Time) : bool :=
  if md_Expiration (sa_Metadata a) =? 0 then false else expires_after (md_Expiration (sa_Metadata a)) now.
Definition cachedSignedZoneArtifact (zone : Zone) : prog' (option artifact) :=
  r <~ loadCachedSignedZoneArtifact zone ;
  match r with
  | Err _ => Ret None
  | Ok a => now <~ call DoNow ; Ret (if negb (cachedArtifactFresh a now) then None else Some a)
  end.
Definition getSignedZoneLocked (zone : Zone) : prog' (result artifact) := resignAndStoreZoneLocked zone.
(** Serve the cached artifact, or sign now. *)
Definition GetSignedZoneArtifact (zoneName : string) : prog' (result artifact) :=
  zone <~? call (DoGet zoneName) ;
  cached <~ cachedSignedZoneArtifact zone ;
  match cached with
  | Some a => Ret (Ok a)
  | None =>
    with_lock (z_Name zone) (
      zone <~? call (DoGet zoneName) ;
      cached <~ cachedSignedZoneArtifact zone ;
      match cached with
      | Some a => Ret (Ok a)
      | None => getSignedZoneLocked zone
      end)
  end.
(** Only what has been published; the second read happens under the lock. *)
Definition GetPublishedSignedZone (zoneName : string) : prog' (result artifact) :=
  zone <~? call (DoGet zoneName) ;
  with_lock (z_Name zone) (
    zone <~? call (DoGet zoneName) ;
    loaded <~ loadCachedSignedZoneArtifact zone ;
    match loaded with
    | Err e => Ret (Err (Wrapf "load" (Sentinel ErrSignedArtifactUnavailable)))
    | Ok a =>
      now <~ call DoNow ;
      if negb (cachedArtifactUsable a now)
      then Ret (Err (Wrapf ("zone=" +:+ sa_ZoneName a) (Sentinel ErrSignedArtifactExpired)))
      else Ret (Ok a)
    end).

Definition ds_strings (ksk : KeyPair) : result (list string) :=
  match ToDS lib ksk SHA256_digest, ToDS lib ksk SHA384_digest with
  | None, _ => Err (Errorf "failed to export DS record (digest type 2)")
  | _, None => Err (Errorf "failed to export DS record (digest type 4)")
  | Some a, Some b => Ok [a; b]
  end.
Definition service_GetDSRecords (zoneName : string) : prog' (result (list string)) :=
  with_lock zoneName (
    keys <~ call (DoEnsureKeys zoneName) ;
    Ret match keys with
        | Err e => Err (Wrapf "failed to get zone keys" e)
        | Ok (ksk, _) => ds_strings ksk
        end).

(** The earliest expiration, for the scheduler. *)
Definition persisted_expiration (cfg : DNSSECConfig) : Z :=
  match SignatureExpiration cfg with
  | Some t => if IsZero t then 0 else u32 (t / Second)
  | None => 0
  end.
Definition GetEarliestExpiration (zoneName : string) : prog' (result Z) :=
  zone <~? call (DoGet zoneName) ;
  match z_DNSSEC zone with
  | Some cfg =>
    if Enabled cfg then
      loaded <~ loadCachedSignedZoneArtifact zone ;
      Ret match loaded with
          | Ok a =>
            let p := persisted_expiration cfg in
            if negb (p =? 0) && (p <? md_Expiration (sa_Metadata a)) then Ok p else Ok (md_Expiration (sa_Metadata a))
          | Err e => Err (Wrapf ("for zone " +:+ zoneName) (Sentinel ErrSignatureExpirationUnavailable))
          end
    else Ret (Err (Errorf ("DNSSEC not enabled for zone " +:+ zoneName)))
  | None => Ret (Err (Errorf ("DNSSEC not enabled for zone " +:+ zoneName)))
  end.

(** ** Signing a stored zone, keeping its version *)
Definition persistDNSSECMetadata (zoneName : string) (cfg : option DNSSECConfig) : prog' (result unit) :=
  match cfg with
  | Some c => if Enabled c then call (DoMetadata zoneName (cloneDNSSECConfig cfg))
              else Ret (Err (Errorf ("signed DNSSEC metadata missing for zone " +:+ zoneName)))
  | None => Ret (Err (Errorf ("signed DNSSEC metadata missing for zone " +:+ zoneName)))
  end.
(** Returns the zone with its new settings. *)
Definition persistSignedZoneArtifactAndMetadata (zone : Zone) (a : artifact) : prog' (result Zone) :=
  _ <~? storeSignedZoneArtifact a ;
  r <~ persistDNSSECMetadata (z_Name zone) (sa_DNSSEC a) ;
  match r with
  | Err e =>
    _ <~ call (DoRemoveArtifact (sa_ZoneName a) (sa_Version a)) ;
    Ret (Err e)
  | Ok _ => pruneSignedZoneArtifacts (sa_ZoneName a) ;;~ Ret (Ok (set_DNSSEC (cloneDNSSECConfig (sa_DNSSEC a)) zone))
  end.
Definition signAndStoreZoneLocked (zone : Zone) : prog' (result Zone) :=
  a <~? SignZone zone ; persistSignedZoneArtifactAndMetadata zone a.
Definition SignAndStoreZone (zone : Zone) : prog' (result Zone) := with_lock (z_Name zone) (signAndStoreZoneLocked zone).

(** ** Deleted zones *)
Definition CleanupZone (zoneName : string) : prog' (result unit) :=
  let normalizedZoneName := NormalizeZoneName zoneName in
  match ValidateZoneName normalizedZoneName with
  | Err e => Ret (Err (Wrapf "invalid zone name" e))
  | Ok _ =>
    r <~ acquireZoneLock normalizedZoneName ;
    match r with
    | Err e => Ret (Err (Wrapf "lock zone cleanup" e))
    | Ok lock =>
      removed <~ call (DoRemoveArtifacts normalizedZoneName) ;
      out <~ match removed with
             | Err e => Ret (Err (Wrapf "remove signed artifacts" e))
             | Ok _ => r <~ call (DoRemoveKeys normalizedZoneName) ; Ret (wrap "remove DNSSEC keys" r)
             end ;
      call (DoUnlock lock) ;;~
      Ret out
    end
  end.
End service.
