(* ===== verification/Handlers.v ===== *)
(** * Zone handlers of the controller API ([internal/controller/api/handler.go],
    [handler_raw.go], [errors.go])

    Each handler is a program over the calls of [Controller] that ends in a
    reply.  The bound request body, headers, path and query parameters are its
    arguments. *)

From S2P Require Import Prelude Io Program GoStrings GoStringsFacts Names Zone Validation Serial Ulid Store FileSystem ArtifactCache Controller SigningService Http.
#[local] Open Scope prog_scope.

(** ** Replies *)
Definition api_error (status : Z) (code : ErrorCode) (message : string) : reply := mkReply status ∅ (ErrorBody code message).
Definition internal_error (message : string) : reply := api_error 500 ErrorCodeInternal message.
Definition zone_not_found : reply := api_error 404 ErrorCodeNotFound "Zone not found".
Definition status_only (status : Z) : reply := mkReply status ∅ NoBody.

(** [errors.As] with [http.MaxBytesError]. *)
Definition requestBodyTooLargeError (err : error) : bool := errors_Is err ErrMaxBytes.
Definition writeInvalidRequestBody (err : error) : reply :=
  if requestBodyTooLargeError err then api_error 413 ErrorCodeInvalidInput "Request body exceeds maximum size limit"
  else api_error 400 ErrorCodeInvalidInput "Invalid request body".

Definition maxValidationDetailLength : nat := 512.
(** The text of a validation error sent to the client; cut between runes. *)
Definition sanitizedValidationMessage (err : option string) : string :=
  match err with
  | None => "invalid input"
  | Some text =>
    let msg := TrimSpace text in
    if (msg =? "")%string then "invalid input"
    else
      let runes := chunks msg in
      if (length runes <=? maxValidationDetailLength)%nat then msg
      else str_concat (map (fun c => encode_rune (fst c)) (take maxValidationDetailLength runes)) +:+ "..."
  end.

(** ** Query parameters *)
Definition parsePagination (offsetStr limitStr : string) (defaultLimit : Z) : reply + (Z * Z) :=
  let bad := api_error 400 ErrorCodeInvalidInput "Invalid pagination parameter" in
  let offset := if (offsetStr =? "")%string then Some 0
                else match Atoi offsetStr with Some v => if v <? 0 then None else Some v | None => None end in
  match offset with
  | None => inl bad
  | Some offset =>
    let limit := if (limitStr =? "")%string then Some defaultLimit
                 else match Atoi limitStr with Some v => if (v <=? 0) || (1000 <? v) then None else Some v | None => None end in
    match limit with
    | None => inl bad
    | Some limit => inr (offset, limit)
    end
  end.
Definition paginationMetadata (offset limit count : Z) : pagination :=
  mkPagination offset limit count (if count =? limit then Some (i64 (offset + count)) else None).

Section text.
Context `{UnicodeTables}.
Definition listZonesSummaryOnly (fieldsParam : string) : bool :=
  let fields := ToLower (TrimSpace fieldsParam) in (fields =? "summary")%string || (fields =? "summaries")%string.
Definition parseListZonesFields (fieldsParam : string) : reply + bool :=
  let fields := ToLower (TrimSpace fieldsParam) in
  if (fields =? "")%string || (fields =? "full")%string then inr false
  else if (fields =? "summary")%string || (fields =? "summaries")%string then inr true
  else inl (api_error 400 ErrorCodeInvalidInput "Invalid fields parameter").
End text.

(** *** Version parameters *)
Definition isCrockfordBase32Upper (r : Z) : bool :=
  ((48 <=? r) && (r <=? 57)) || ((65 <=? r) && (r <=? 72)) || ((74 <=? r) && (r <=? 75)) || ((77 <=? r) && (r <=? 78))
  || ((80 <=? r) && (r <=? 84)) || ((86 <=? r) && (r <=? 90)).
Definition isLowerHex (r : Z) : bool := ((48 <=? r) && (r <=? 57)) || ((97 <=? r) && (r <=? 102)).
Definition all_runes (f : Z -> bool) (s : string) : bool := forallb (fun c => f (fst c)) (chunks s).
Definition isControllerZoneVersion (version : string) : bool :=
  match version with
  | String c rest => (len version =? 27) && Ascii.eqb c "v"%char && all_runes isCrockfordBase32Upper rest
  | EmptyString => false
  end.
(** [strings.Cut(s, "-")]. *)
Definition cut_dash (s : string) : option (string * string) :=
  match Split s "-"%char with
  | before :: (_ :: _) as parts => Some (before, str_drop (S (String.length before)) s)
  | _ => None
  end.
Definition isLegacyZoneVersion (version : string) : bool :=
  match version with
  | String c rest =>
    if (len version <? len "v1-00000000") || negb (Ascii.eqb c "v"%char) then false
    else match cut_dash rest with
         | None => false
         | Some (serial, hash8) =>
           if (serial =? "")%string || negb (len hash8 =? 8) then false
           else all_runes (fun r => (48 <=? r) && (r <=? 57)) serial && all_runes isLowerHex hash8
         end
  | EmptyString => false
  end.
Definition isValidZoneVersionParam (version : string) : bool := isControllerZoneVersion version || isLegacyZoneVersion version.

(** [If-Match: *] is refused. *)
Definition rejectWildcardIfMatch (ifMatch operation : string) : option reply :=
  if negb (TrimSpace ifMatch =? "*")%string then None
  else Some (api_error 400 ErrorCodeInvalidInput ("If-Match wildcard is not supported for " +:+ operation)).

(** ** Requests *)
Record createZoneRequest := mkCreateReq { cr_Name : string; cr_SOA : SOARecord; cr_Records : list ZRecord }.
Record updateZoneRequest := mkUpdateReq { ur_Name : string; ur_SOA : SOARecord }.

(** An early reply stops the handler. *)
Definition or_reply {C A} (p : prog C (reply + A)) (f : A -> prog C reply) : prog C reply :=
  bind p (fun r => match r with inl r => Ret r | inr a => f a end).
Notation "x <~! p ; q" := (or_reply p (fun x => q)) (at level 100, p at level 99, right associativity) : prog_scope.
Definition check {C} (r : option reply) (k : prog C reply) : prog C reply := match r with Some r => Ret r | None => k end.

Section handlers.
Context {K KeyPair RR : Type} (lib : SignerLib K KeyPair RR).
Context `{UnicodeTables} (artifactDir : string) (ResignThreshold : Duration).
(** Whether a signing service is configured, and the artifact settings. *)
Context (signingService : bool) (contentDisposition : string -> string) (artifactSignatureKey artifactSignatureKeyID : string).
Abbreviation prog' A := (prog (op KeyPair RR) A).
Abbreviation write := (option (SignedZoneWrite (RR := RR))).

(** ** Observability *)
Definition Health : prog' reply := Ret (mkReply 200 ∅ (StatusBody [("status", "ok")])).
Definition Ready : prog' reply :=
  r <~ call DoHealth ;
  Ret match r with
      | Err _ => mkReply 503 ∅ (StatusBody [("status", "not_ready"); ("error", "backend unavailable")])
      | Ok _ => mkReply 200 ∅ (StatusBody [("status", "ready")])
      end.
Definition Status (version commit date : string) : prog' reply :=
  Ret (mkReply 200 ∅ (StatusBody [("status", "operational"); ("version", version); ("commit", commit); ("date", date)])).

(** ** Signed writes *)
Definition signing_failed : reply := internal_error "Failed to sign zone".

Definition prepareSignedZoneWrite (zone : Zone) : prog' (reply + (Zone * write)) :=
  if negb signingService then Ret (inr (zone, None))
  else
    r <~ PrepareSignedZoneWrite lib zone ;
    Ret match r with
        | Err _ => inl signing_failed
        | Ok (zone, sw) => inr (zone, Some sw)
        end.
Definition ensureZoneAbsentBeforeSigning (name : string) : prog' (option reply) :=
  r <~ call (DoGet name) ;
  Ret match r with
      | Ok _ => Some (api_error 409 ErrorCodeAlreadyExists "Zone already exists")
      | Err e => if negb (errors_Is e ErrZoneNotFound) then Some (internal_error "Failed to create zone") else None
      end.
Definition prepareSignedZoneCreate (zone : Zone) : prog' (reply + (Zone * write)) :=
  if negb signingService then Ret (inr (zone, None))
  else
    let zone := set_Name (NormalizeZoneName (z_Name zone)) zone in
    absent <~ ensureZoneAbsentBeforeSigning (z_Name zone) ;
    match absent with
    | Some r => Ret (inl r)
    | None =>
      if Serial (z_SOA zone) =? 0 then
        serial <~ call (DoSerial 0) ;
        prepareSignedZoneWrite (set_SOASerial serial zone)
      else prepareSignedZoneWrite zone
    end.
Definition prepareSignedZoneUpdate (zone : Zone) (currentSerial : Z) : prog' (reply + (Zone * write)) :=
  if negb signingService then Ret (inr (zone, None))
  else
    serial <~ call (DoSerial currentSerial) ;
    prepareSignedZoneWrite (set_SOASerial serial (set_Name (NormalizeZoneName (z_Name zone)) zone)).

(** One step of the prepared write; a failure is the reply. *)
Definition write_step (step : SignedZoneWrite -> prog' (result unit * SignedZoneWrite)) (sw : write) : prog' (option reply * write) :=
  match sw with
  | None => Ret (None, None)
  | Some w =>
    r <~ step w ;
    let '(r, w) := r in
    Ret (match r with Err _ => Some signing_failed | Ok _ => None end, Some w)
  end.
Definition storeSignedZoneWrite : write -> prog' (option reply * write) := write_step (sw_Store artifactDir).
Definition commitSignedZoneWrite : write -> prog' (option reply * write) := write_step (sw_Commit artifactDir).
Definition finishSignedZoneWrite : write -> prog' (option reply * write) := write_step (sw_Complete artifactDir).
Definition abort (sw : write) : prog' unit := match sw with None => Ret tt | Some w => sw_Abort w end.

(** The part every write handler repeats after the preparation: store the
    artifact, write the zone, commit, read the zone back, complete; and abort on
    every way out. *)
Definition publish_write (sw : write) (store_write : prog' (result unit * Zone)) (on_error : error -> prog' reply)
    (not_retrieved : string) : prog' (reply + Zone) :=
  stored <~ storeSignedZoneWrite sw ;
  match stored with
  | (Some r, sw) => abort sw ;;~ Ret (inl r)
  | (None, sw) =>
    written <~ store_write ;
    match written with
    | (Err e, _) => r <~ on_error e ; abort sw ;;~ Ret (inl r)
    | (Ok _, zone) =>
      committed <~ commitSignedZoneWrite sw ;
      match committed with
      | (Some r, sw) => abort sw ;;~ Ret (inl r)
      | (None, sw) =>
        got <~ call (DoGet (z_Name zone)) ;
        match got with
        | Err _ => abort sw ;;~ Ret (inl (internal_error not_retrieved))
        | Ok updated =>
          completed <~ finishSignedZoneWrite sw ;
          match completed with
          | (Some r, sw) => abort sw ;;~ Ret (inl r)
          | (None, sw) => abort sw ;;~ Ret (inr updated)
          end
        end
      end
    end
  end.

(** Replies to a failed update; the current version is read again for the
    details of a conflict. *)
Definition update_error (name message : string) (e : error) : prog' reply :=
  if errors_Is e ErrZoneNotFound then Ret zone_not_found
  else if errors_Is e ErrConflict then
    _ <~ call (DoGet name) ;
    Ret (api_error 409 ErrorCodeConflict "Zone version mismatch (optimistic lock failure)")
  else Ret (internal_error message).

(** ** Zones *)
Definition created_reply (created : Zone) (body : reply_body) : reply :=
  mkReply 201 (set_header "Location" ("/api/v1/zones/" +:+ z_Name created) (set_header "ETag" (formatETag (z_Version created)) ∅)) body.
(** From a validated zone on, for both ways to create one, which word a refusal
    of the store differently. *)
Definition create_zone (exists_message : string -> string) (zone : Zone) : prog' (reply + Zone) :=
  version <~ call DoVersion ;
  match version with
  | Err _ => Ret (inl (internal_error "Failed to generate zone version"))
  | Ok v =>
    prepared <~ prepareSignedZoneCreate (set_Version v zone) ;
    match prepared with
    | inl r => Ret (inl r)
    | inr (zone, sw) =>
      publish_write sw (call (DoCreate zone))
        (fun e => Ret (if errors_Is e ErrZoneAlreadyExists then api_error 409 ErrorCodeAlreadyExists (exists_message (z_Name zone))
                       else internal_error "Failed to create zone"))
        "Zone created but failed to retrieve"
    end
  end.
Definition CreateZone (body : result createZoneRequest) : prog' reply :=
  match body with
  | Err e => Ret (writeInvalidRequestBody e)
  | Ok req =>
    let zone := mkZone (cr_Name req) "" (cr_SOA req) (map (set_ID "") (cr_Records req)) None zeroTime zeroTime in
    match NormalizeZoneDerivedFields (Some zone) with
    | (_, Err _) => Ret (api_error 400 ErrorCodeInvalidInput "Zone validation failed")
    | (zone', Ok _) =>
      match ValidateZone zone' with
      | Err _ => Ret (api_error 400 ErrorCodeInvalidInput "Zone validation failed")
      | Ok _ =>
        created <~! create_zone (fun _ => "Zone already exists") (default zone zone') ;
        Ret (created_reply created (ZoneBody created))
      end
    end
  end.

Definition get_error (message : string) (e : error) : reply :=
  if errors_Is e ErrZoneNotFound then zone_not_found else internal_error message.
Definition get_zone (message name : string) : prog' (reply + Zone) :=
  r <~ call (DoGet name) ;
  Ret match r with Err e => inl (get_error message e) | Ok zone => inr zone end.
Definition etag_header (version : string) : gmap string string := set_header "ETag" (formatETag version) ∅.

Definition GetZone (name ifNoneMatch : string) : prog' reply :=
  zone <~! get_zone "Failed to retrieve zone" name ;
  Ret (if negb (ifNoneMatch =? "")%string && etagMatches ifNoneMatch (z_Version zone)
       then mkReply 304 (etag_header (z_Version zone)) NoBody
       else mkReply 200 (etag_header (z_Version zone)) (ZoneBody zone)).
Definition HeadZone (name ifNoneMatch : string) : prog' reply :=
  r <~ call (DoGet name) ;
  Ret match r with
      | Err e => if errors_Is e ErrZoneNotFound then status_only 404 else status_only 500
      | Ok zone =>
        if negb (ifNoneMatch =? "")%string && etagMatches ifNoneMatch (z_Version zone)
        then mkReply 304 (etag_header (z_Version zone)) NoBody
        else mkReply 200 (etag_header (z_Version zone)) NoBody
      end.

Definition ListZones (offsetStr limitStr fieldsParam : string) : prog' reply :=
  match parsePagination offsetStr limitStr 100 with
  | inl r => Ret r
  | inr (offset, limit) =>
    match parseListZonesFields fieldsParam with
    | inl r => Ret r
    | inr true =>
      r <~ call (DoSummaries (mkList limit offset "")) ;
      Ret match r with
          | Err _ => internal_error "Failed to list zones"
          | Ok summaries => mkReply 200 ∅ (SummariesBody summaries (paginationMetadata offset limit (Z.of_nat (length summaries))))
          end
    | inr false =>
      r <~ call (DoList (mkList limit offset "")) ;
      Ret match r with
          | Err _ => internal_error "Failed to list zones"
          | Ok zones => mkReply 200 ∅ (ZonesBody zones (paginationMetadata offset limit (Z.of_nat (length zones))))
          end
    end
  end.

Definition history_unsupported : reply :=
  api_error 501 ErrorCodeUnavailable "Zone version history is not supported by the configured backend".
Definition ListZoneVersions (name offsetStr limitStr : string) : prog' reply :=
  zone <~! get_zone "Failed to retrieve zone" name ;
  revisions <~ call DoHasRevisions ;
  if negb revisions then Ret history_unsupported
  else
    match parsePagination offsetStr limitStr 10 with
    | inl r => Ret r
    | inr (offset, limit) =>
      r <~ call (DoRevisions name (mkList limit offset "")) ;
      Ret match r with
          | None => history_unsupported
          | Some (Err _) => internal_error "Failed to list zone versions"
          | Some (Ok versions) =>
            mkReply 200 (etag_header (z_Version zone)) (VersionsBody versions (paginationMetadata offset limit (Z.of_nat (length versions))))
          end
    end.
Definition GetZoneRevision (name version : string) : prog' reply :=
  if negb (isValidZoneVersionParam version) then Ret (api_error 400 ErrorCodeInvalidInput "Invalid zone version")
  else
    _ <~! get_zone "Failed to retrieve zone" name ;
    r <~ call (DoRevision name version) ;
    Ret match r with
        | None => history_unsupported
        | Some (Err e) => if errors_Is e ErrVersionNotFound then api_error 404 ErrorCodeNotFound "Zone version not found"
                          else internal_error "Failed to retrieve zone version"
        | Some (Ok rev) => mkReply 200 (etag_header (z_Version rev)) (ZoneBody rev)
        end.

Definition precondition_required (message : string) : reply := api_error 428 ErrorCodeInvalidInput message.
Definition version_mismatch : reply := api_error 409 ErrorCodeConflict "Zone version mismatch (optimistic lock failure)".

Definition UpdateZone (nameParam ifMatch : string) (body : result updateZoneRequest) : prog' reply :=
  let name := NormalizeZoneName nameParam in
  match body with
  | Err e => Ret (writeInvalidRequestBody e)
  | Ok req =>
    if negb (NormalizeZoneName (ur_Name req) =? name)%string
    then Ret (api_error 400 ErrorCodeInvalidInput "Zone name in body does not match URL")
    else if (ifMatch =? "")%string then Ret (precondition_required "If-Match header is required for zone updates")
    else
      check (rejectWildcardIfMatch ifMatch "zone updates") (
      current <~! get_zone "Failed to update zone" (NormalizeZoneName (ur_Name req)) ;
      if negb (strongETagMatches ifMatch (z_Version current)) then Ret version_mismatch
      else
        let expectedVersion := z_Version current in
        let zone := mkZone (NormalizeZoneName (ur_Name req)) "" (ur_SOA req) (z_Records current) (z_DNSSEC current) zeroTime zeroTime in
        match RepairZoneDerivedFields (Some zone) with
        | (_, Err _) => Ret (api_error 400 ErrorCodeInvalidInput "Zone validation failed")
        | (zone', Ok _) =>
          match ValidateZone zone' with
          | Err _ => Ret (api_error 400 ErrorCodeInvalidInput "Zone validation failed")
          | Ok _ =>
            let zone := default zone zone' in
            let zone := if negb signingService then set_SOASerial 0 zone else zone in
            version <~ call DoVersion ;
            match version with
            | Err _ => Ret (internal_error "Failed to generate zone version")
            | Ok v =>
              prepared <~! prepareSignedZoneUpdate (set_Version v zone) (Serial (z_SOA current)) ;
              let '(zone, sw) := prepared in
              updated <~! publish_write sw (call (DoUpdate zone expectedVersion))
                            (update_error (z_Name zone) "Failed to update zone") "Zone updated but failed to retrieve" ;
              Ret (mkReply 200 (etag_header (z_Version updated)) (ZoneBody updated))
            end
          end
        end)
  end.

Definition cleanupDeletedZone (name : string) : prog' unit :=
  if negb signingService then Ret tt else _ <~ CleanupZone name ; Ret tt.
Definition DeleteZone (name ifMatch : string) : prog' reply :=
  let normalizedName := NormalizeZoneName name in
  match ValidateZoneName normalizedName with
  | Err _ => Ret (api_error 400 ErrorCodeInvalidInput "Invalid zone name")
  | Ok _ =>
    if (ifMatch =? "")%string then Ret (precondition_required "If-Match header is required for zone deletes")
    else
      check (rejectWildcardIfMatch ifMatch "zone deletes") (
      r <~ call (DoGet name) ;
      match r with
      | Err e =>
        if errors_Is e ErrZoneNotFound then cleanupDeletedZone name ;;~ Ret zone_not_found
        else Ret (internal_error "Failed to delete zone")
      | Ok current =>
        if negb (strongETagMatches ifMatch (z_Version current)) then Ret version_mismatch
        else
          r <~ call (DoDelete name (z_Version current)) ;
          match r with
          | Err e =>
            if errors_Is e ErrZoneNotFound then Ret zone_not_found
            else if errors_Is e ErrConditionalDeleteUnsupported
            then Ret (api_error 501 ErrorCodeUnavailable "Backend does not support atomic conditional delete")
            else if errors_Is e ErrConflict then _ <~ call (DoGet normalizedName) ; Ret version_mismatch
            else Ret (internal_error "Failed to delete zone")
          | Ok _ => cleanupDeletedZone name ;;~ Ret (status_only 204)
          end
      end)
  end.
End handlers.
