(* ===== verification/RecordHandlers.v ===== *)
(** * Versions as file names and as parameters

    The versions the generator issues ([pkg/model/version.go]) are letters and
    digits, so the artifact cache files them under their own name and the API
    accepts them as path parameters. *)

From S2P Require Import Prelude Io Program GoStrings GoStringsFacts Zone Names Validation Serial Sha256 ZonePath FileSystem Ulid Store Http ArtifactCache Controller SigningService Handlers.
(** Letters and digits. *)
Definition alnum (c : ascii) : bool :=
  ((97 <=? byte c) && (byte c <=? 122)) || ((65 <=? byte c) && (byte c <=? 90)) || ((48 <=? byte c) && (byte c <=? 57)).
Abbreviation alnum_string s := (str_forallb alnum s = true).

Lemma alnum_graphic c : alnum c = true -> graphic c = true.
Proof. unfold alnum, graphic. intros Ha. apply andb_true_iff. rewrite !Z.leb_le. repeat (apply orb_true_iff in Ha as [Ha|Ha]); apply andb_true_iff in Ha as [?%Z.leb_le ?%Z.leb_le]; lia. Qed.
Lemma alnum_impl (f : ascii -> bool) s : (forall c, alnum c = true -> f c = true) -> alnum_string s -> str_forallb f s = true.
Proof. intros Hf. induction s as [|a s IH]; [done|]. cbn [str_forallb]. intros [Ha Hs]%andb_true_iff. by rewrite (Hf a Ha), IH. Qed.

Lemma chunks_alnum s : alnum_string s -> chunks s = map (fun c => (byte c, str1 c)) (String.list_ascii_of_string s).
Proof.
  unfold chunks. induction s as [|a s IH]; [done|]. cbn [str_forallb]. intros [Ha Hs]%andb_true_iff. cbn [chunks_go].
  assert (decode_rune (String a s) = (byte a, 1%nat)) as ->.
  { apply alnum_graphic in Ha. unfold graphic in Ha. bool_prop. unfold decode_rune. by rewrite (proj2 (Z.ltb_lt (byte a) 128)) by lia. }
  cbn [Nat.sub str_take String.list_ascii_of_string map]. by rewrite IH.
Qed.
Lemma concat_chunks s (f : Z * string -> string) : alnum_string s ->
  (forall c, alnum c = true -> f (byte c, str1 c) = str1 c) -> str_concat (map f (chunks s)) = s.
Proof.
  intros Hs Hf. rewrite chunks_alnum by done. induction s as [|a s IH]; [done|]. cbn [str_forallb] in Hs. apply andb_true_iff in Hs as [Ha Hs].
  cbn [String.list_ascii_of_string map str_concat foldr]. rewrite Hf by done. change (foldr String.append "" ?l) with (str_concat l).
  rewrite IH by done. unfold str1. by rewrite str_app_cons, str_app_nil_l.
Qed.
Lemma ReplaceAll_dotless s : lacks "."%char s -> ReplaceAll s ".." "_" = s.
Proof.
  unfold lacks. induction s as [|a s IH]; [done|]. cbn [str_forallb]. intros [Ha Hs]%andb_true_iff. rewrite ReplaceAll_cons, IH by done.
  destruct (HasPrefix (String a s) "..") eqn:E; [|done]. apply HasPrefix_true in E as [q E]. by injection E as -> _.
Qed.

(** The file name of a version of letters and digits is the version. *)
Lemma version_filename v : alnum_string v -> v <> "" -> (String.length v <= 200)%nat -> safeArtifactVersionFilename v = v.
Proof.
  intros Hv Hne Hl. unfold safeArtifactVersionFilename. rewrite TrimSpace_graphic by (by apply (alnum_impl graphic); [apply alnum_graphic|]).
  rewrite (proj2 (String.eqb_neq _ _) Hne). cbv zeta.
  assert (Hdot : lacks "."%char v).
  { apply alnum_impl; [|done]. intros c Hc. apply negb_true_iff. apply Ascii.eqb_neq. intros ->. done. }
  rewrite (concat_chunks v) by
    (try done; intros c Hc; cbn [fst snd]; unfold safe_version_rune, alnum in *; by rewrite Hc).
  rewrite ReplaceAll_dotless by done. unfold TrimByte. rewrite TrimLeft_lacks by done. rewrite (proj1 (TrimRight_lacks _ v Hdot)).
  rewrite (proj2 (String.eqb_neq _ _) Hne). unfold maxArtifactVersionFilenameLength. by rewrite (proj2 (Nat.ltb_ge _ _)).
Qed.

Lemma crockford_alnum d : 0 <= d < 32 -> alnum (crockford d) = true /\ isCrockfordBase32Upper (byte (crockford d)) = true.
Proof.
  intros Hd. assert (Hall : forallb (fun k => let c := crockford (Z.of_nat k) in alnum c && isCrockfordBase32Upper (byte c)) (seq 0 32) = true) by (vm_compute; reflexivity).
  rewrite forallb_forall in Hall. specialize (Hall (Z.to_nat d)). cbv zeta in Hall. rewrite Z2Nat.id in Hall by lia.
  apply andb_true_iff, Hall, in_seq. lia.
Qed.
Lemma digits_alnum ds : digits_ok ds -> alnum_string (digits_string ds) /\ String.length (digits_string ds) = length ds.
Proof.
  induction 1 as [|d ds Hd _ [IH1 IH2]]; [done|]. cbn [digits_string map str_concat foldr]. change (foldr String.append "" ?l) with (str_concat l).
  unfold str1. rewrite str_app_cons, str_app_nil_l. cbn [str_forallb String.length length]. split; [|by rewrite <- IH2].
  rewrite (proj1 (crockford_alnum d Hd)). exact IH1.
Qed.

(** What an issued version looks like. *)
Lemma issued_shape u v : issued_by u v -> exists ds, v = String "v" (digits_string ds) /\ digits_ok ds /\ length ds = 26%nat.
Proof.
  intros (st & [Hms Hr] & _ & ->). destruct (encodeULID_digits _ _ Hms Hr) as (ds & -> & Hd & Hl & _).
  exists ds. by rewrite str_app_cons, str_app_nil_l.
Qed.
Lemma issued_filename u v : issued_by u v -> safeArtifactVersionFilename v = v.
Proof.
  intros (ds & -> & Hd & Hl)%issued_shape. destruct (digits_alnum ds Hd) as [Ha Hn]. apply version_filename; [|done|].
  - cbn [str_forallb]. by rewrite Ha.
  - cbn [String.length]. rewrite Hn, Hl. lia.
Qed.
(** Issued versions have artifact files of their own. *)
Lemma artifact_file_inj u v v' : issued_by u v -> issued_by u v' -> artifact_file v = artifact_file v' -> v = v'.
Proof.
  intros Hv Hv'. unfold artifact_file. rewrite (issued_filename u v Hv), (issued_filename u v' Hv'). apply str_app_inj_r.
Qed.

(** * Record handlers of the controller API ([internal/controller/api/records.go])

    Records are addressed by an identifier: the stored one, or one derived from
    the content.  Every mutation loads the zone under an If-Match precondition,
    changes its list of records, validates the whole zone and writes it back
    against the version it was loaded with. *)
#[local] Open Scope prog_scope.

Definition maxBulkRecordOperations : Z := 1000.
Record bulkRecordUpdate := mkBulkUpdate {
  bu_ID : string; bu_Name : string; bu_Type : string; bu_TTL : Z; bu_Value : string; bu_Priority : option Z }.
Record bulkRecordRequest := mkBulk { bulk_Create : list ZRecord; bulk_Update : list bulkRecordUpdate; bulk_Delete : list string }.

(** ** Identifiers *)
Definition NUL : string := str1 (chr 0).
Definition recordIdentity (r : ZRecord) : string :=
  rec_Name r +:+ NUL +:+ rec_Type r +:+ NUL +:+ Itoa (rec_TTL r) +:+ NUL +:+ rec_Value r.
Definition derivedRecordID (r : ZRecord) : string := "r" +:+ str_take 16 (sha256_hex (recordIdentity r)).
Definition recordID (r : ZRecord) : string := if negb (rec_ID r =? "")%string then rec_ID r else derivedRecordID r.
Definition recordIDMatches (r : ZRecord) (id : string) : bool :=
  if (id =? "")%string then false
  else if (recordID r =? id)%string then true
  else (derivedRecordID r =? id)%string.
Definition preserveRecordID (r : ZRecord) : string :=
  if (rec_ID r =? "")%string then "" else if (rec_ID r =? derivedRecordID r)%string then "" else rec_ID r.
Definition sameRecord (a b : ZRecord) : bool := (recordIdentity a =? recordIdentity b)%string.

Fixpoint find_from {A} (i : nat) (f : A -> bool) (l : list A) : option nat :=
  match l with
  | [] => None
  | x :: l => if f x then Some i else find_from (S i) f l
  end.
Definition findRecordByID (records : list ZRecord) (id : string) : option nat := find_from 0 (fun r => recordIDMatches r id) records.
Fixpoint exists_from (i : nat) (records : list ZRecord) (r : ZRecord) (skip : option nat) : bool :=
  match records with
  | [] => false
  | candidate :: records =>
    if bool_decide (Some i = skip) then exists_from (S i) records r skip
    else if sameRecord candidate r then true
    else exists_from (S i) records r skip
  end.
(** [skip] is an index, or none (-1). *)
Definition recordExists (records : list ZRecord) (r : ZRecord) (skip : option nat) : bool := exists_from 0 records r skip.

(** The first element whose key was seen before. *)
Fixpoint first_duplicate (key : ZRecord -> string) (i : nat) (seen : gset string) (records : list ZRecord) : option (nat * string) :=
  match records with
  | [] => None
  | r :: records =>
    if bool_decide (key r ∈ seen) then Some (i, key r)
    else first_duplicate key (S i) ({[ key r ]} ∪ seen) records
  end.
Definition firstDuplicateRecord (records : list ZRecord) : option (nat * string) := first_duplicate recordIdentity 0 ∅ records.
Definition firstDuplicateRecordID (records : list ZRecord) : option (nat * string) := first_duplicate recordID 0 ∅ records.

Fixpoint findRecordID (records : list ZRecord) (r : ZRecord) : string :=
  match records with
  | [] => ""
  | candidate :: records => if sameRecord candidate r then recordID candidate else findRecordID records r
  end.
Definition recordsWithIDs (records : list ZRecord) : list ZRecord :=
  map (fun r => if (rec_ID r =? "")%string then set_ID (derivedRecordID r) r else r) records.
Definition zoneWithRecordIDs (zone : Zone) : Zone := set_Records (recordsWithIDs (z_Records zone)) zone.

Section records.
Context `{UnicodeTables}.

(** The record is normalised in place. *)
Definition validateRecordForZone (zoneName : string) (record : ZRecord) : reply + ZRecord :=
  let bad := api_error 400 ErrorCodeInvalidInput "Record validation failed" in
  match NormalizeRecordDerivedFields (Some record) with
  | Err _ => inl bad
  | Ok record =>
    match ValidateRecord (Some record) with
    | Err _ => inl bad
    | Ok _ =>
      match ValidateRecordNameInZone (rec_Name record) zoneName with
      | Err _ => inl bad
      | Ok _ =>
        match ValidateRecordValueInZone (rec_Type record) (rec_Value record) zoneName with
        | Err _ => inl bad
        | Ok _ => inr record
        end
      end
    end
  end.

(** ** Bulk operations *)
Definition recordBatchError (status : Z) (message : string) : reply :=
  let errorCode := ErrorCodeInvalidInput in
  let errorCode := if status =? 409 then ErrorCodeAlreadyExists else errorCode in
  let errorCode := if status =? 404 then ErrorCodeNotFound else errorCode in
  api_error status errorCode message.

(** (deleteIDs, deleteIndexes). *)
Fixpoint bulk_deletes (records : list ZRecord) (ops : list string) (ids : gset string) (indexes : gset nat)
  : reply + (gset string * gset nat) :=
  match ops with
  | [] => inr (ids, indexes)
  | opID :: ops =>
    let id := TrimSpace opID in
    if (id =? "")%string then inl (recordBatchError 400 "Delete operation is missing record id")
    else
      match findRecordByID records id with
      | None => inl (recordBatchError 404 "Record not found")
      | Some idx =>
        match records !! idx with
        | None => inl (recordBatchError 404 "Record not found")
        | Some r =>
          let canonicalID := recordID r in
          if bool_decide (canonicalID ∈ ids) then inl (recordBatchError 400 "Duplicate record id in delete operations")
          else bulk_deletes records ops ({[ canonicalID; derivedRecordID r; id ]} ∪ ids) ({[ idx ]} ∪ indexes)
        end
      end
  end.
Definition drop_indexes (indexes : gset nat) (records : list ZRecord) : list ZRecord :=
  omap (fun ir => if bool_decide (fst ir ∈ indexes) then None else Some (snd ir)) (imap pair records).
Fixpoint bulk_updates (zoneName : string) (deleteIDs : gset string) (ops : list bulkRecordUpdate) (updateIDs : gset string)
    (records : list ZRecord) : reply + list ZRecord :=
  match ops with
  | [] => inr records
  | u :: ops =>
    let id := TrimSpace (bu_ID u) in
    if (id =? "")%string then inl (recordBatchError 400 "Update operation is missing record id")
    else if bool_decide (id ∈ deleteIDs) then inl (recordBatchError 400 "Record cannot be updated and deleted in the same batch")
    else
      match findRecordByID records id with
      | None => inl (recordBatchError 404 "Record not found")
      | Some idx =>
        match records !! idx with
        | None => inl (recordBatchError 404 "Record not found")
        | Some old =>
          let canonicalID := recordID old in
          if bool_decide (canonicalID ∈ updateIDs) then inl (recordBatchError 400 "Duplicate record id in update operations")
          else
            match validateRecordForZone zoneName (mkRecord (preserveRecordID old) (bu_Name u) (bu_Type u) (bu_TTL u) (bu_Value u) (bu_Priority u)) with
            | inl r => inl r
            | inr record => bulk_updates zoneName deleteIDs ops ({[ canonicalID ]} ∪ updateIDs) (<[idx := record]> records)
            end
        end
      end
  end.
Fixpoint bulk_creates (zoneName : string) (ops : list ZRecord) (records : list ZRecord) : reply + list ZRecord :=
  match ops with
  | [] => inr records
  | r :: ops =>
    match validateRecordForZone zoneName (set_ID "" r) with
    | inl e => inl e
    | inr record => bulk_creates zoneName ops (records ++ [record])
    end
  end.
Definition applyBulkRecordOperations (zoneName : string) (current : list ZRecord) (req : bulkRecordRequest) : reply + list ZRecord :=
  match bulk_deletes current (bulk_Delete req) ∅ ∅ with
  | inl r => inl r
  | inr (deleteIDs, deleteIndexes) =>
    let records := if (0 <? size deleteIndexes)%nat then drop_indexes deleteIndexes current else current in
    match bulk_updates zoneName deleteIDs (bulk_Update req) ∅ records with
    | inl r => inl r
    | inr records =>
      match bulk_creates zoneName (bulk_Create req) records with
      | inl r => inl r
      | inr records =>
        match firstDuplicateRecord records with
        | Some _ => inl (recordBatchError 409 "Record already exists")
        | None =>
          match firstDuplicateRecordID records with
          | Some _ => inl (recordBatchError 409 "Record id already exists")
          | None => inr records
          end
        end
      end
    end
  end.

(** ** Loading and committing *)
Context {K KeyPair RR : Type} (lib : SignerLib K KeyPair RR) (artifactDir : string) (signingService : bool).
Abbreviation prog' A := (prog (op KeyPair RR) A).

Definition loadZoneForRecordMutation (name ifMatch : string) : prog' (reply + Zone) :=
  if (ifMatch =? "")%string then Ret (inl (precondition_required "If-Match header is required for record updates"))
  else
    match rejectWildcardIfMatch ifMatch "record updates" with
    | Some r => Ret (inl r)
    | None =>
      r <~ get_zone "Failed to update record" name ;
      Ret match r with
          | inl r => inl r
          | inr zone =>
            if negb (strongETagMatches ifMatch (z_Version zone)) then inl version_mismatch
            else match RepairZoneDerivedFields (Some zone) with
                 | (_, Err _) => inl (api_error 400 ErrorCodeInvalidInput "Zone validation failed")
                 | (zone', Ok _) => inr (default zone zone')
                 end
          end
    end.

(** [expectedVersion] is the version the zone was loaded with. *)
Definition commitRecordMutation (zone : Zone) (expectedVersion : string) : prog' (reply + Zone) :=
  match ValidateZone (Some zone) with
  | Err _ => Ret (inl (api_error 400 ErrorCodeInvalidInput "Zone validation failed"))
  | Ok _ =>
    match firstDuplicateRecordID (z_Records zone) with
    | Some _ => Ret (inl (api_error 409 ErrorCodeAlreadyExists "Record id already exists"))
    | None =>
      version <~ call DoVersion ;
      match version with
      | Err _ => Ret (inl (internal_error "Failed to generate zone version"))
      | Ok v =>
        let zone := set_Version v zone in
        prepared <~ prepareSignedZoneUpdate lib signingService zone (Serial (z_SOA zone)) ;
        match prepared with
        | inl r => Ret (inl r)
        | inr (zone, sw) =>
          publish_write artifactDir sw (call (DoUpdate zone expectedVersion))
            (update_error (z_Name zone) "Failed to update record") "Record updated but failed to retrieve zone"
        end
      end
    end
  end.

(** ** Handlers *)
Definition record_reply (status : Z) (updated : Zone) : reply :=
  mkReply status (etag_header (z_Version updated)) (ZoneBody (zoneWithRecordIDs updated)).
Definition already_exists : reply := api_error 409 ErrorCodeAlreadyExists "Record already exists".
Definition record_not_found : reply := api_error 404 ErrorCodeNotFound "Record not found".
Definition record_id_required : reply := api_error 400 ErrorCodeInvalidInput "Record id is required".

Definition ListRecords (name : string) : prog' reply :=
  zone <~! get_zone "Failed to retrieve zone records" name ;
  Ret (mkReply 200 (etag_header (z_Version zone)) (RecordsBody (recordsWithIDs (z_Records zone)))).

Definition CreateRecord (name ifMatch : string) (body : result ZRecord) : prog' reply :=
  match body with
  | Err e => Ret (writeInvalidRequestBody e)
  | Ok record =>
    zone <~! loadZoneForRecordMutation name ifMatch ;
    record <~! Ret (validateRecordForZone (z_Name zone) (set_ID "" record)) ;
    if recordExists (z_Records zone) record None then Ret already_exists
    else
      updated <~! commitRecordMutation (set_Records (z_Records zone ++ [record]) zone) (z_Version zone) ;
      let id := findRecordID (z_Records updated) record in
      let headers := etag_header (z_Version updated) in
      let headers := if negb (id =? "")%string
                     then set_header "Location" ("/api/v1/zones/" +:+ z_Name updated +:+ "/records/" +:+ id) headers else headers in
      Ret (mkReply 201 headers (ZoneBody (zoneWithRecordIDs updated)))
  end.

Definition UpdateRecord (name idParam ifMatch : string) (body : result ZRecord) : prog' reply :=
  let id := TrimSpace idParam in
  if (id =? "")%string then Ret record_id_required
  else
    match body with
    | Err e => Ret (writeInvalidRequestBody e)
    | Ok record =>
      zone <~! loadZoneForRecordMutation name ifMatch ;
      match findRecordByID (z_Records zone) id with
      | None => Ret record_not_found
      | Some idx =>
        record <~! Ret (validateRecordForZone (z_Name zone) record) ;
        let record := set_ID (match z_Records zone !! idx with Some old => preserveRecordID old | None => "" end) record in
        if recordExists (z_Records zone) record (Some idx) then Ret already_exists
        else
          updated <~! commitRecordMutation (set_Records (<[idx := record]> (z_Records zone)) zone) (z_Version zone) ;
          Ret (record_reply 200 updated)
      end
    end.

Definition DeleteRecord (name idParam ifMatch : string) : prog' reply :=
  let id := TrimSpace idParam in
  if (id =? "")%string then Ret record_id_required
  else
    zone <~! loadZoneForRecordMutation name ifMatch ;
    match findRecordByID (z_Records zone) id with
    | None => Ret record_not_found
    | Some idx =>
      updated <~! commitRecordMutation (set_Records (take idx (z_Records zone) ++ drop (S idx) (z_Records zone)) zone) (z_Version zone) ;
      Ret (record_reply 200 updated)
    end.

Definition BulkRecords (name ifMatch : string) (body : result bulkRecordRequest) : prog' reply :=
  match body with
  | Err e => Ret (writeInvalidRequestBody e)
  | Ok req =>
    if (length (bulk_Create req) =? 0)%nat && (length (bulk_Update req) =? 0)%nat && (length (bulk_Delete req) =? 0)%nat
    then Ret (api_error 400 ErrorCodeInvalidInput "Bulk request must include at least one operation")
    else
      zone <~! loadZoneForRecordMutation name ifMatch ;
      let operationCount := Z.of_nat (length (bulk_Create req) + length (bulk_Update req) + length (bulk_Delete req)) in
      if maxBulkRecordOperations <? operationCount
      then Ret (api_error 400 ErrorCodeInvalidInput "Bulk request includes too many operations")
      else
        records <~! Ret (applyBulkRecordOperations (z_Name zone) (z_Records zone) req) ;
        updated <~! commitRecordMutation (set_Records records zone) (z_Version zone) ;
        Ret (record_reply 200 updated)
  end.
End records.
