(* ===== verification/DnsRecords.v ===== *)
(** * Resource records of the DNS library

    The records of [github.com/miekg/dns] that the zone file code
    ([pkg/parser]) and the signer ([pkg/dnssec]) build and look at: one
    constructor per Go struct the program names, [OtherData] for the types it
    has no case for.  The type of a record's header is the one of its data.  An
    IP address is its bytes (4 or 16), [None] for a nil slice.  The library's own
    functions are the parameter [RRLib]; [RRLaws] states what their
    documentation says of them, for the theorems that need it. *)

From S2P Require Import Prelude GoStrings GoStringsFacts GoNet Sha256 Names Validation Nsec Store.

Definition TypeA : Z := 1.
Definition TypeNS : Z := 2.
Definition TypeCNAME : Z := 5.
Definition TypeSOA : Z := 6.
Definition TypePTR : Z := 12.
Definition TypeMX : Z := 15.
Definition TypeTXT : Z := 16.
Definition TypeAAAA : Z := 28.
Definition TypeSRV : Z := 33.
Definition TypeDNSKEY : Z := 48.
Definition TypeCAA : Z := 257.
Definition ClassINET : Z := 1.

(** The fields of an RRSIG but its header. *)
Record signature := mkSignature {
  TypeCovered : Z; sig_Algorithm : Z; Labels : Z; OrigTtl : Z; Expiration : Z; Inception : Z;
  sig_KeyTag : Z; SignerName : string; Signature : string }.
#[global] Instance signature_eq_dec : EqDecision signature.
Proof. solve_decision. Defined.

Inductive rdata :=
  | SOAData (Ns Mbox : string) (Serial Refresh Retry Expire Minttl : Z)
  | NSData (Ns : string)
  | AData (a : option (list Z))
  | AAAAData (a : option (list Z))
  | CNAMEData (Target : string)
  | MXData (Preference : Z) (Mx : string)
  | TXTData (Txt : list string)
  | PTRData (Ptr : string)
  | SRVData (Priority Weight Port : Z) (Target : string)
  | CAAData (Flag : Z) (Tag Value : string)
  | DNSKEYData (Flags Protocol Algorithm : Z) (PublicKey : string)
  | RRSIGData (s : signature)
  | NSECData (NextDomain : string) (TypeBitMap : list Z)
  | NSEC3Data (Hash Flags Iterations SaltLength : Z) (Salt : string) (HashLength : Z) (NextDomain : string) (TypeBitMap : list Z)
  | NSEC3PARAMData (Hash Flags Iterations SaltLength : Z) (Salt : string)
  | OtherData (Rrtype : Z) (text : string).
#[global] Instance rdata_eq_dec : EqDecision rdata.
Proof. solve_decision. Defined.

Definition data_type (d : rdata) : Z :=
  match d with
  | SOAData _ _ _ _ _ _ _ => TypeSOA | NSData _ => TypeNS | AData _ => TypeA | AAAAData _ => TypeAAAA
  | CNAMEData _ => TypeCNAME | MXData _ _ => TypeMX | TXTData _ => TypeTXT | PTRData _ => TypePTR
  | SRVData _ _ _ _ => TypeSRV | CAAData _ _ _ => TypeCAA | DNSKEYData _ _ _ _ => TypeDNSKEY
  | RRSIGData _ => TypeRRSIG | NSECData _ _ => TypeNSEC | NSEC3Data _ _ _ _ _ _ _ _ => TypeNSEC3
  | NSEC3PARAMData _ _ _ _ _ => TypeNSEC3PARAM | OtherData t _ => t
  end.
Record dnsRR := mkDnsRR { h_Name : string; h_Class : Z; h_Ttl : Z; h_data : rdata }.
#[global] Instance dnsRR_eq_dec : EqDecision dnsRR.
Proof. solve_decision. Defined.
Definition h_Rrtype (rr : dnsRR) : Z := data_type (h_data rr).

(** What the chain generators look at, and the records they make. *)
Definition rr_header (rr : dnsRR) : RR := mkRR (h_Name rr) (h_Rrtype rr).
Definition nsec_rr (r : NSEC) : dnsRR :=
  mkDnsRR (nsec_Name r) ClassINET (nsec_Ttl r) (NSECData (nsec_NextDomain r) (nsec_TypeBitMap r)).
Definition nsec3_rr (r : NSEC3) : dnsRR :=
  mkDnsRR (nsec3_Name r) ClassINET (nsec3_Ttl r)
    (NSEC3Data (nsec3_Hash r) (nsec3_Flags r) (nsec3_Iterations r) (nsec3_SaltLength r) (nsec3_Salt r) (nsec3_HashLength r)
       (nsec3_NextDomain r) (nsec3_TypeBitMap r)).
Definition nsec3param_rr (r : NSEC3PARAM) : dnsRR :=
  mkDnsRR (param_Name r) ClassINET (param_Ttl r)
    (NSEC3PARAMData (param_Hash r) (param_Flags r) (param_Iterations r) (param_SaltLength r) (param_Salt r)).

(** A [dns.DNSKEY] struct, which the key pairs hold by value. *)
Record dnskey := mkDnskey {
  dk_Name : string; dk_Class : Z; dk_Ttl : Z; dk_Flags : Z; dk_Protocol : Z; dk_Algorithm : Z; dk_PublicKey : string }.
Definition dnskey_rr (k : dnskey) : dnsRR :=
  mkDnsRR (dk_Name k) (dk_Class k) (dk_Ttl k) (DNSKEYData (dk_Flags k) (dk_Protocol k) (dk_Algorithm k) (dk_PublicKey k)).

(** [net.IP.String]. *)
Definition net_IP_String (ip : option (list Z)) : string :=
  match ip with
  | None => "<nil>"
  | Some b =>
    if (length b =? 4)%nat then str_join (map Itoa b) "."
    else if (length b =? 16)%nat then IP_String b
    else "?" +:+ hex_EncodeToString b
  end.

(** ** The library *)
Record RRLib (PrivateKey : Type) := mkRRLib {
  names : DnsLib;
  rr_String : dnsRR -> string;
  (** [dns.TypeToString], empty for a type that has no name. *)
  TypeToString : Z -> string;
  (** A [ZoneParser] over a text, with an origin, a default TTL and whether
      includes are allowed: the records [Next] gives, then what [Err] gives. *)
  ZoneParser : string -> string -> Z -> bool -> list dnsRR * option string;
  IsRRset : list dnsRR -> bool;
  CountLabel : string -> Z;
  KeyTag : dnskey -> Z;
  (** Whether a private key is a [crypto.Signer]. *)
  is_Signer : PrivateKey -> bool;
  (** [RRSIG.Sign], which completes the record it is called on. *)
  Sign : Inputs -> PrivateKey -> dnsRR -> list dnsRR -> result dnsRR;
  (** The DS record of a key for a digest type, as text. *)
  ToDS_String : dnskey -> Z -> option string }.
Arguments names {PrivateKey}.
Arguments rr_String {PrivateKey}.
Arguments TypeToString {PrivateKey}.
Arguments ZoneParser {PrivateKey}.
Arguments IsRRset {PrivateKey}.
Arguments CountLabel {PrivateKey}.
Arguments KeyTag {PrivateKey}.
Arguments is_Signer {PrivateKey}.
Arguments Sign {PrivateKey}.
Arguments ToDS_String {PrivateKey}.

(** [r'] is the completion of the record [r] as a signature of [rrset]: "Sign
    signs an RRset.  The signature needs to be filled in with the values:
    Inception, Expiration, KeyTag, SignerName and Algorithm.  The rest is copied
    from the RRset." *)
Definition completes (r r' : dnsRR) (rrset : list dnsRR) : Prop :=
  match h_data r, h_data r', rrset with
  | RRSIGData s, RRSIGData s', h0 :: _ =>
    h_Name r' = h_Name h0 /\ h_Class r' = h_Class h0 /\ h_Ttl r' = h_Ttl r /\ TypeCovered s' = h_Rrtype h0
    /\ sig_Algorithm s' = sig_Algorithm s /\ Expiration s' = Expiration s /\ Inception s' = Inception s
    /\ sig_KeyTag s' = sig_KeyTag s /\ SignerName s' = SignerName s
  | _, _, _ => False
  end.

(** Names without escapes. *)
Definition unescaped (n : string) : Prop := ValidateZoneName n = Ok tt \/ ValidateRecordName n = Ok tt.

Class RRLaws {PrivateKey} (lib : RRLib PrivateKey) := {
  (** "IsRRset reports whether a set of RRs is a valid RRset as defined by RFC
      2181.  This means the RRs need to have the same type, name, and class." *)
  law_IsRRset : forall rr rrs, IsRRset lib (rr :: rrs) = true <->
    Forall (fun r => h_Name r = h_Name rr /\ h_Rrtype r = h_Rrtype rr /\ h_Class r = h_Class rr) rrs;
  law_Sign : forall e k r rrset r', Sign lib e k r rrset = Ok r' -> completes r r' rrset;
  (** "Fqdn return the fully qualified domain name from s.  If s is already
      fully qualified, it behaves as the identity function." *)
  law_Fqdn : forall n, unescaped n -> HasSuffix n "." = true -> Fqdn (names lib) n = n;
  (** "IsSubDomain checks if child is indeed a child of the parent.  If child
      and parent are the same domain true is returned as well." *)
  law_IsSubDomain : forall p c, unescaped p -> unescaped c -> HasSuffix p "." = true -> in_zone c p ->
    IsSubDomain (names lib) p c = true }.

(** ** A library for plain ASCII names

    It keeps the laws; key tags and signatures are made up. *)
Definition same_rrset (a b : dnsRR) : bool :=
  (h_Name a =? h_Name b)%string && (h_Rrtype a =? h_Rrtype b) && (h_Class a =? h_Class b).
Definition data_text (d : rdata) : string :=
  match d with
  | SOAData ns mbox serial _ _ _ _ => ns +:+ " " +:+ mbox +:+ " " +:+ Itoa serial
  | NSData n | CNAMEData n | PTRData n => n
  | AData a | AAAAData a => net_IP_String a
  | MXData p n => Itoa p +:+ " " +:+ n
  | TXTData ts => str_join ts " "
  | SRVData p w q n => Itoa p +:+ " " +:+ Itoa w +:+ " " +:+ Itoa q +:+ " " +:+ n
  | CAAData f t v => Itoa f +:+ " " +:+ t +:+ " " +:+ v
  | DNSKEYData f p a k => Itoa f +:+ " " +:+ Itoa p +:+ " " +:+ Itoa a +:+ " " +:+ k
  | RRSIGData s => Itoa (TypeCovered s) +:+ " " +:+ Itoa (Expiration s) +:+ " " +:+ Itoa (sig_KeyTag s) +:+ " " +:+ Signature s
  | NSECData n _ | NSEC3Data _ _ _ _ _ _ n _ => n
  | NSEC3PARAMData _ _ _ _ s | OtherData _ s => s
  end.
Definition plain_Sign (k : Z) (r : dnsRR) (rrset : list dnsRR) : result dnsRR :=
  match rrset, h_data r with
  | h0 :: _, RRSIGData s =>
    Ok (mkDnsRR (h_Name h0) (h_Class h0) (h_Ttl r)
          (RRSIGData (mkSignature (h_Rrtype h0) (sig_Algorithm s) (Labels s) (OrigTtl s) (Expiration s) (Inception s)
             (sig_KeyTag s) (SignerName s) ("signed with " +:+ Itoa k))))
  | _, _ => Err (Errorf "dns: bad rrset")
  end.
Definition plain_rrlib (parser : string -> list dnsRR * option string) : RRLib Z := {|
  names := plain_lib;
  rr_String rr := h_Name rr +:+ " " +:+ Itoa (h_Ttl rr) +:+ " TYPE" +:+ Itoa (h_Rrtype rr) +:+ " " +:+ data_text (h_data rr);
  TypeToString t := "TYPE" +:+ Itoa t;
  ZoneParser content _ _ _ := parser content;
  IsRRset rrs := match rrs with [] => false | rr :: rrs => forallb (fun r => same_rrset r rr) rrs end;
  CountLabel n := Z.of_nat (length (SplitDomainName plain_lib n));
  KeyTag k := dk_Flags k + len (dk_PublicKey k);
  is_Signer k := true;
  Sign e := plain_Sign;
  ToDS_String k d := Some (dk_Name k +:+ " DS " +:+ Itoa d) |}.
#[global] Instance plain_laws parser : RRLaws (plain_rrlib parser).
Proof.
  split.
  - intros rr rrs. cbn. rewrite <- Is_true_true, forallb_True. apply Forall_iff. intros r. unfold same_rrset.
    rewrite Is_true_true, !andb_true_iff, String.eqb_eq, !Z.eqb_eq. tauto.
  - intros e k r rrset r'. cbn. unfold plain_Sign, completes. destruct rrset as [|h0 rrset]; [done|].
    destruct (h_data r); try done. intros [= <-]. done.
  - intros n _ Hd. cbn. by rewrite Hd.
  - intros p c _ _ _ Hz. cbn. rewrite (String.eqb_sym p c). by apply in_zone_test.
Qed.
