(* ===== verification/BindFiles.v ===== *)
(** * BIND zone files ([pkg/parser])

    Reading a zone file: the size limit and the scan for directives of bind.go,
    then the DNS library's parser; turning the parsed records into a zone
    (normalize.go); writing a zone or signed records as a zone file
    (generator.go). *)

From S2P Require Import Prelude GoStrings GoStringsFacts GoSort GoNet Zone Names Validation Store DnsRecords.
Definition DefaultMaxZoneFileSize : Z := 10 * 1024 * 1024.

Record ParsedZone := mkParsedZone { Origin : string; DefaultTTL : Z; Records : list dnsRR }.
Record ParseOptions := mkParseOptions { AllowIncludes : bool; opt_DefaultTTL : Z; MaxBytes : Z }.
Definition DefaultParseOptions : ParseOptions := mkParseOptions false 3600 DefaultMaxZoneFileSize.

(** ** Reading *)

(** The reader is a string reader: [io.ReadAll] gives the whole text, through a
    [LimitReader] at most the limit, nothing when the limit is not positive. *)
Definition limit_read (n : Z) (content : string) : string :=
  if n <=? 0 then "" else if len content <=? n then content else str_take (Z.to_nat n) content.
Definition readZoneFile (content : string) (opts : ParseOptions) : result string :=
  let maxBytes := if MaxBytes opts =? 0 then DefaultMaxZoneFileSize else MaxBytes opts in
  if maxBytes <? 0 then Ok content
  else
    let content := limit_read (i64 (maxBytes + 1)) content in
    if maxBytes <? len content then Err (Errorf ("zone file exceeds maximum size of " +:+ Itoa maxBytes +:+ " bytes"))
    else Ok content.

Definition directiveScanMaxTokenSize (opts : ParseOptions) : Z :=
  let maxBytes := if MaxBytes opts =? 0 then DefaultMaxZoneFileSize else MaxBytes opts in
  if (maxBytes <? 0) || (MaxInt64 <? maxBytes) then MaxInt64 else maxBytes.

(** The lines of a [bufio.Scanner]: what follows the last newline is a line
    unless it is empty; a carriage return at the end is dropped.  A line that
    fills the buffer (at least the initial 1024 bytes) stops the scan. *)
Fixpoint drop_last_empty (lines : list string) : list string :=
  match lines with
  | [] => []
  | [l] => if (l =? "")%string then [] else [l]
  | l :: lines => l :: drop_last_empty lines
  end.
Definition scanner_lines (content : string) : list string := drop_last_empty (Split content (chr 10)).
Definition dropCR (line : string) : string := TrimSuffix line (str1 (chr 13)).
Definition token_too_long (maxTokenSize : Z) (line : string) : bool := Z.max 1024 maxTokenSize <=? len line.

(** [strings.ToUpper(s) == pat] for an ASCII [pat]: the dotless i and the long s
    are the only code points outside ASCII with an ASCII upper case. *)
Definition upper_rune (r : Z) : Z :=
  if (97 <=? r) && (r <=? 122) then r - 32 else if r =? 305 then 73 else if r =? 383 then 83 else r.
Definition ToUpper_is (s pat : string) : bool :=
  bool_decide (map (fun c => upper_rune (fst c)) (chunks s) = map fst (chunks pat)).

Fixpoint scan_directives (opts : ParseOptions) (lineNum includeCount : Z) (lines : list string) : result unit :=
  match lines with
  | [] => Ok tt
  | raw :: lines =>
    if token_too_long (directiveScanMaxTokenSize opts) raw
    then Err (Wrapf "failed to scan zone file" (Errorf "bufio.Scanner: token too long"))
    else
      let lineNum := lineNum + 1 in
      let line := TrimSpace (dropCR raw) in
      if (line =? "")%string || HasPrefix line ";" then scan_directives opts lineNum includeCount lines
      else
        match Fields line with
        | [] => scan_directives opts lineNum includeCount lines
        | directive :: _ =>
          if ToUpper_is directive "$GENERATE"
          then Err (Errorf ("$GENERATE directive is not supported (line " +:+ Itoa lineNum +:+ ")"))
          else if ToUpper_is directive "$INCLUDE" then
            if negb (AllowIncludes opts)
            then Err (Errorf ("$INCLUDE directive is not allowed (line " +:+ Itoa lineNum +:+ ")"))
            else if 1 <? includeCount + 1
            then Err (Errorf ("multiple $INCLUDE directives not supported (only single file include allowed, line "
                              +:+ Itoa lineNum +:+ ")"))
            else scan_directives opts lineNum (includeCount + 1) lines
          else scan_directives opts lineNum includeCount lines
        end
  end.
Definition validateDirectives (content : string) (opts : ParseOptions) : result unit :=
  scan_directives opts 0 0 (scanner_lines content).

(** The TTL of the first record that has one. *)
Fixpoint first_ttl (def : Z) (rrs : list dnsRR) : Z :=
  match rrs with
  | [] => def
  | rr :: rrs => if 0 <? h_Ttl rr then h_Ttl rr else first_ttl def rrs
  end.

(** ** Normalisation *)
Record NormalizeOptions := mkNormalizeOptions { Canonicalize : bool; Deduplicate : bool; SortRecords : bool }.
Definition DefaultNormalizeOptions : NormalizeOptions := mkNormalizeOptions true true true.

(** The key of a record: all fields but the ID. *)
Definition duplicate_key (r : ZRecord) : string :=
  rec_Name r +:+ "|" +:+ rec_Type r +:+ "|" +:+ Itoa (rec_TTL r) +:+ "|" +:+ rec_Value r.
Fixpoint dedup_loop (seen : gset string) (records : list ZRecord) : list ZRecord * Z :=
  match records with
  | [] => ([], 0)
  | r :: records =>
    if bool_decide (duplicate_key r ∈ seen)
    then let '(result, duplicates) := dedup_loop seen records in (result, duplicates + 1)
    else let '(result, duplicates) := dedup_loop ({[duplicate_key r]} ∪ seen) records in (r :: result, duplicates)
  end.
Definition deduplicateRecordsWithCount (records : list ZRecord) : list ZRecord * Z := dedup_loop ∅ records.
Definition deduplicateRecords (records : list ZRecord) : list ZRecord := fst (deduplicateRecordsWithCount records).

Definition record_less : ZRecord -> ZRecord -> bool :=
  lex_less str_ltb String.eqb rec_Name (lex_less str_ltb String.eqb rec_Type (fun a b => str_ltb (rec_Value a) (rec_Value b))).
Definition sortRecords (records : list ZRecord) : list ZRecord := sort_Slice record_less records.

Section bind.
Context `{UnicodeTables} {PrivateKey : Type} (lib : RRLib PrivateKey).

Definition ParseBINDZone (content origin : string) (opts : ParseOptions) : result ParsedZone :=
  if (origin =? "")%string then Err (Errorf "origin must not be empty")
  else
    let origin := if negb (HasSuffix origin ".") then origin +:+ "." else origin in
    let* content := wrap "failed to read zone file" (readZoneFile content opts) in
    validateDirectives content opts ;;*
    match ZoneParser lib content origin (opt_DefaultTTL opts) (AllowIncludes opts) with
    | (_, Some e) => Err (Wrapf "parse error" (Errorf e))
    | (rrs, None) =>
      if (length rrs =? 0)%nat then Err (Errorf "no records found in zone file")
      else Ok (mkParsedZone origin (first_ttl (opt_DefaultTTL opts) rrs) rrs)
    end.

Definition canonicalizeDomain (name : string) : string :=
  let name := ToLower name in
  if negb (HasSuffix name ".") then name +:+ "." else name.
Definition canonical_if (opts : NormalizeOptions) (name : string) : string :=
  if Canonicalize opts then canonicalizeDomain name else name.

Definition plain_record (name type : string) (ttl : Z) (value : string) : ZRecord := mkRecord "" name type ttl value None.

(** The SOA record of the zone, or one of its records. *)
Definition convert_rr (opts : NormalizeOptions) (defaultTTL : Z) (rr : dnsRR) : result (SOARecord + ZRecord) :=
  let ttl := if h_Ttl rr =? 0 then defaultTTL else h_Ttl rr in
  let name := canonical_if opts (h_Name rr) in
  let record type value := Ok (inr (plain_record name type ttl value)) in
  match h_data rr with
  | SOAData ns mbox serial refresh retry expire minttl =>
    Ok (inl (mkSOA (canonical_if opts ns) (canonical_if opts mbox) serial refresh retry expire minttl))
  | NSData ns => record "NS" (canonical_if opts ns)
  | AData a => record "A" (net_IP_String a)
  | AAAAData a => record "AAAA" (net_IP_String a)
  | CNAMEData target => record "CNAME" (canonical_if opts target)
  | MXData preference mx => record "MX" (Itoa preference +:+ " " +:+ canonical_if opts mx)
  | TXTData txt => record "TXT" (str_join txt "")
  | PTRData ptr => record "PTR" (canonical_if opts ptr)
  | SRVData priority weight port target =>
    record "SRV" (Itoa priority +:+ " " +:+ Itoa weight +:+ " " +:+ Itoa port +:+ " " +:+ canonical_if opts target)
  | CAAData flag tag value => record "CAA" (Itoa flag +:+ " " +:+ tag +:+ " " +:+ str1 dquote +:+ value +:+ str1 dquote)
  | _ =>
    let rrType := TypeToString lib (h_Rrtype rr) in
    let rrType := if (rrType =? "")%string then "TYPE" +:+ Itoa (h_Rrtype rr) else rrType in
    Err (Errorf ("unsupported record type: " +:+ rrType +:+ " (for record " +:+ name +:+ ")"))
  end.
Fixpoint convert_rrs (opts : NormalizeOptions) (defaultTTL : Z) (soa : option SOARecord) (rrs : list dnsRR)
  : result (option SOARecord * list ZRecord) :=
  match rrs with
  | [] => Ok (soa, [])
  | rr :: rrs =>
    let* c := convert_rr opts defaultTTL rr in
    match c with
    | inl s =>
      match soa with
      | Some _ => Err (Errorf "multiple SOA records found")
      | None => convert_rrs opts defaultTTL (Some s) rrs
      end
    | inr r =>
      let* rest := convert_rrs opts defaultTTL soa rrs in
      Ok (fst rest, r :: snd rest)
    end
  end.
(** The zone and how many duplicates were dropped. *)
Definition NormalizeParsedZoneWithMetadata (parsed : option ParsedZone) (opts : NormalizeOptions) : result (Zone * Z) :=
  match parsed with
  | None => Err (Errorf "parsed zone is nil")
  | Some parsed =>
    let origin := canonical_if opts (Origin parsed) in
    let* converted := convert_rrs opts (DefaultTTL parsed) None (Records parsed) in
    match converted with
    | (None, _) => Err (Errorf "no SOA record found")
    | (Some soa, records) =>
      let '(records, duplicates) := if Deduplicate opts then deduplicateRecordsWithCount records else (records, 0) in
      let records := if SortRecords opts then sortRecords records else records in
      Ok (mkZone origin "" soa records None zeroTime zeroTime, duplicates)
    end
  end.
Definition NormalizeParsedZone (parsed : option ParsedZone) (opts : NormalizeOptions) : result Zone :=
  let* r := NormalizeParsedZoneWithMetadata parsed opts in Ok (fst r).

(** ** Writing *)
Definition newline : string := str1 (chr 10).
Definition zone_soa_rr (origin : string) (soa : SOARecord) : dnsRR :=
  mkDnsRR origin ClassINET (Minimum soa)
    (SOAData (NormalizeDomainTargetName (MName soa) origin) (NormalizeDomainTargetName (RName soa) origin)
       (Serial soa) (Refresh soa) (Retry soa) (Expire soa) (Minimum soa)).

Definition convertRecordToRR (origin : string) (record : ZRecord) : result dnsRR :=
  let rr data := mkDnsRR (NormalizeRecordOwnerName (rec_Name record) origin) ClassINET (rec_TTL record) data in
  let value := rec_Value record in
  let target name := NormalizeDomainTargetName name origin in
  if (rec_Type record =? RecordTypeA)%string then Ok (rr (AData (ParseIP value ≫= To4)))
  else if (rec_Type record =? RecordTypeAAAA)%string then Ok (rr (AAAAData (ParseIP value)))
  else if (rec_Type record =? RecordTypeCNAME)%string then Ok (rr (CNAMEData (target value)))
  else if (rec_Type record =? RecordTypeNS)%string then Ok (rr (NSData (target value)))
  else if (rec_Type record =? RecordTypeMX)%string then
    let* rdata := ParseMXValue value in Ok (rr (MXData (mx_Priority rdata) (target (mx_Target rdata))))
  else if (rec_Type record =? RecordTypeTXT)%string then Ok (rr (TXTData (SplitTXTValue value)))
  else if (rec_Type record =? RecordTypePTR)%string then Ok (rr (PTRData (target value)))
  else if (rec_Type record =? RecordTypeSRV)%string then
    let* rdata := ParseSRVValue value in
    Ok (rr (SRVData (srv_Priority rdata) (srv_Weight rdata) (srv_Port rdata) (target (srv_Target rdata))))
  else if (rec_Type record =? RecordTypeCAA)%string then
    let* rdata := ParseCAAValue value in Ok (rr (CAAData (caa_Flags rdata) (caa_Tag rdata) (caa_Value rdata)))
  else Err (Errorf ("unsupported record type: " +:+ rec_Type record)).
Fixpoint convert_records (origin : string) (records : list ZRecord) : result (list dnsRR) :=
  match records with
  | [] => Ok []
  | record :: records =>
    let* rr := wrap ("failed to convert record " +:+ rec_Name record) (convertRecordToRR origin record) in
    let* rrs := convert_records origin records in
    Ok (rr :: rrs)
  end.

Definition rr_lines (rrs : list dnsRR) : string := str_concat (map (fun rr => rr_String lib rr +:+ newline) rrs).
Definition GenerateBINDZoneFile (zone : option Zone) : result string :=
  match zone with
  | None => Err (Errorf "zone is nil")
  | Some zone =>
    let origin := NormalizeZoneName (z_Name zone) in
    let* rrs := convert_records origin (z_Records zone) in
    Ok ("; Zone: " +:+ origin +:+ newline +:+ "; Generated by arca-dns" +:+ newline
        +:+ "; Version: " +:+ z_Version zone +:+ newline +:+ newline
        +:+ "$ORIGIN " +:+ origin +:+ newline +:+ newline
        +:+ rr_lines (zone_soa_rr origin (z_SOA zone) :: rrs))
  end.
Definition GenerateBINDZoneFileFromRRs (zoneName version : string) (rrs : list dnsRR) : result string :=
  if (length rrs =? 0)%nat then Err (Errorf "no RRs provided")
  else Ok ("; Zone: " +:+ zoneName +:+ newline +:+ "; Generated by arca-dns (DNSSEC-signed)" +:+ newline
           +:+ "; Version: " +:+ version +:+ newline +:+ newline
           +:+ "$ORIGIN " +:+ zoneName +:+ newline +:+ newline
           +:+ rr_lines rrs).
Definition ModelToBind (zone : option Zone) : result string :=
  match zone with
  | None => Err (Errorf "zone is nil")
  | Some _ => wrap "validation failed" (ValidateZone zone) ;;* GenerateBINDZoneFile zone
  end.
End bind.

(** * Importing BIND zone files ([pkg/parser/convert.go])

    The zone file is parsed, normalised and validated.  Without an origin in the
    request it is looked for in the file. *)
(** [strings.EqualFold] against an ASCII text: besides the other case, only the
    long s and the Kelvin sign fold to ASCII letters. *)
Definition fold_rune (r : Z) : Z :=
  if (65 <=? r) && (r <=? 90) then r + 32 else if r =? 383 then 115 else if r =? 8490 then 107 else r.
Definition EqualFoldASCII (s pat : string) : bool :=
  bool_decide (map (fun c => fold_rune (fst c)) (chunks s) = map (fun c => fold_rune (fst c)) (chunks pat)).

Definition ensure_dot (origin : string) : string := if HasSuffix origin "." then origin else origin +:+ ".".
Fixpoint origin_of_lines (lines : list string) : string + string :=
  match lines with
  | [] => inr "no $ORIGIN directive or SOA record found"
  | line :: lines =>
    let line := TrimSpace line in
    if (line =? "")%string || HasPrefix line ";" then origin_of_lines lines
    else
      match Fields line with
      | [] => origin_of_lines lines
      | first :: rest =>
        match (if EqualFoldASCII first "$ORIGIN" then head rest else None) with
        | Some origin => inl (ensure_dot origin)
        | None =>
          if HasPrefix first "$" then origin_of_lines lines
          else if existsb (fun part => EqualFoldASCII part "SOA") rest then
            if (first =? "@")%string then inr "cannot determine origin from @ symbol without $ORIGIN directive"
            else inl (ensure_dot first)
          else origin_of_lines lines
        end
      end
  end.
Definition extractOrigin (raw : string) : string + string := origin_of_lines (Split raw (chr 10)).

Section import.
Context `{UnicodeTables} {PrivateKey : Type} (rrlib : RRLib PrivateKey) (error_text : error -> string).

(** The zone and the number of duplicate records, or the text of the error. *)
Definition BindToModelWithMetadata (raw origin : string) : Zone * Z + string :=
  match ParseBINDZone rrlib raw origin DefaultParseOptions with
  | Err e => inr ("failed to parse zone file: " +:+ error_text e)
  | Ok parsed =>
    match NormalizeParsedZoneWithMetadata rrlib (Some parsed) DefaultNormalizeOptions with
    | Err e => inr ("failed to normalize zone: " +:+ error_text e)
    | Ok (zone, duplicates) =>
      match ValidateZone (Some zone) with
      | Err e => inr ("validation failed: " +:+ error_text e)
      | Ok _ => inl (zone, duplicates)
      end
    end
  end.
Definition BindToModelWithDefaultsMetadata (raw : string) : Zone * Z + string :=
  match extractOrigin raw with
  | inr e => inr ("failed to extract origin: " +:+ e)
  | inl origin => BindToModelWithMetadata raw origin
  end.

Lemma imported_valid raw origin z d : BindToModelWithMetadata raw origin = inl (z, d) -> ValidateZone (Some z) = Ok tt.
Proof.
  unfold BindToModelWithMetadata. destruct (ParseBINDZone _ _ _ _) as [parsed|]; [|done].
  destruct (NormalizeParsedZoneWithMetadata _ _ _) as [[z0 d0]|e]; [|done].
  destruct (ValidateZone (Some z0)) as [[]|e] eqn:E; [|done]. by intros [= <- <-].
Qed.
Lemma imported_default_valid raw z d : BindToModelWithDefaultsMetadata raw = inl (z, d) -> ValidateZone (Some z) = Ok tt.
Proof. unfold BindToModelWithDefaultsMetadata. destruct (extractOrigin raw); [|done]. apply imported_valid. Qed.
End import.

Example origin_from_soa :
  extractOrigin ("; comment" +:+ str1 (chr 10) +:+ "$TTL 300" +:+ str1 (chr 10) +:+ "example.org IN soa ns1 admin 1 2 3 4 5") = inl "example.org."
  /\ extractOrigin ("@ IN SOA ns1 admin 1 2 3 4 5") = inr "cannot determine origin from @ symbol without $ORIGIN directive".
Proof. split; vm_compute; reflexivity. Qed.
