(* ===== verification/Signer.v ===== *)
(** * The zone signer ([pkg/dnssec/signer.go], [types.go])

    A zone becomes its resource records and the two DNSKEY records; the records
    are grouped into RRsets and each RRset is signed, the DNSKEY RRset with the
    key-signing key and every other one with the zone-signing key; the denial
    chain of [Nsec] is made over the result and signed too; the records are
    sorted.  The clock is read at every signature: reading number [n] is
    [clock n].  Go ranges over the map of RRsets in any order: [range] lists the
    map. *)

From S2P Require Import Prelude GoStrings GoStringsFacts GoSort GoNet Sha256 Zone Names Validation Store Nsec DnsRecords BindFiles.

(** ** Scanning ([fmt.Sscanf])

    The text is its list of code points.  White space in the format matches at
    least one space, never a newline; [%d] into a [uint16] skips spaces, takes
    digits and fails on overflow; [%s] takes a word; what is left over is
    ignored.  [None] is an error. *)
Fixpoint skip_spaces (input : list (Z * string)) : option (list (Z * string)) :=
  match input with
  | [] => Some []
  | c :: rest => if fst c =? 10 then None else if IsSpace (fst c) then skip_spaces rest else Some input
  end.
Fixpoint skip_blanks (input : list (Z * string)) : list (Z * string) :=
  match input with
  | [] => []
  | c :: rest => if IsSpace (fst c) && negb (fst c =? 10) then skip_blanks rest else input
  end.
Definition scan_blank (input : list (Z * string)) : option (list (Z * string)) :=
  match input with
  | [] => Some []
  | c :: _ => if negb (IsSpace (fst c)) || (fst c =? 10) then None else Some (skip_blanks input)
  end.
Definition rune_digit (r : Z) : bool := (48 <=? r) && (r <=? 57).
Fixpoint scan_digits (acc : Z) (input : list (Z * string)) : Z * list (Z * string) :=
  match input with
  | [] => (acc, [])
  | c :: rest => if rune_digit (fst c) then scan_digits (acc * 10 + (fst c - 48)) rest else (acc, input)
  end.
Definition scan_uint16 (input : list (Z * string)) : option (Z * list (Z * string)) :=
  input ← skip_spaces input;
  match input with
  | [] => None
  | c :: _ => if rune_digit (fst c) then let '(v, rest) := scan_digits 0 input in if 65535 <? v then None else Some (v, rest) else None
  end.
Fixpoint take_word (input : list (Z * string)) : string :=
  match input with
  | [] => ""
  | c :: rest => if IsSpace (fst c) then "" else encode_rune (fst c) +:+ take_word rest
  end.
Definition scan_word (input : list (Z * string)) : option string :=
  input ← skip_spaces input;
  match input with [] => None | _ => Some (take_word input) end.

(** [fmt.Sscanf(s, "%d", &prio)]. *)
Definition Sscanf_d (s : string) : option Z := fst <$> scan_uint16 (chunks s).
(** [fmt.Sscanf(s, "%d %d %d %s", &priority, &weight, &port, &target)]. *)
Definition Sscanf_dddS (s : string) : option (Z * Z * Z * string) :=
  '(priority, i) ← scan_uint16 (chunks s);
  i ← scan_blank i;
  '(weight, i) ← scan_uint16 i;
  i ← scan_blank i;
  '(port, i) ← scan_uint16 i;
  i ← scan_blank i;
  target ← scan_word i;
  Some (priority, weight, port, target).

(** ** Options and keys *)
Record SignerOptions := mkSignerOptions {
  opt_Inception : Duration; opt_Expiration : Duration; opt_ResignThreshold : Duration;
  opt_NSEC3Enabled : bool; opt_NSEC3Iterations : Z; opt_NSEC3SaltLength : Z }.
#[global] Instance SignerOptions_eq_dec : EqDecision SignerOptions.
Proof. solve_decision. Defined.
Definition DefaultSignerOptions : SignerOptions := mkSignerOptions (-1 * Hour) (30 * 24 * Hour) (7 * 24 * Hour) true 1 8.
(** The options the constructor settles on. *)
Definition NewZoneSigner (opts : SignerOptions) : SignerOptions :=
  let opts := if bool_decide (opts = mkSignerOptions 0 0 0 false 0 0) then DefaultSignerOptions else opts in
  mkSignerOptions (opt_Inception opts)
    (if opt_Expiration opts <=? 0 then opt_Expiration DefaultSignerOptions else opt_Expiration opts)
    (if opt_ResignThreshold opts <? 0 then 0 else opt_ResignThreshold opts)
    (opt_NSEC3Enabled opts) (opt_NSEC3Iterations opts) (opt_NSEC3SaltLength opts).

Definition KeyRole : Type := string.
Definition KeyRoleKSK : KeyRole := "KSK".
Definition KeyRoleZSK : KeyRole := "ZSK".
Record KeyID := mkKeyID { key_Zone : string; key_Alg : Z; key_Tag : Z }.
Record KeyPair (PrivateKey : Type) := mkKeyPair { kp_ID : KeyID; kp_Role : KeyRole; kp_DNSKEY : dnskey; kp_Private : PrivateKey }.
Arguments mkKeyPair {PrivateKey}.
Arguments kp_ID {PrivateKey}.
Arguments kp_Role {PrivateKey}.
Arguments kp_DNSKEY {PrivateKey}.
Arguments kp_Private {PrivateKey}.

Definition generateRandomSalt (length : Z) (random : result (list Z)) : string :=
  if length <=? 0 then ""
  else match random with Err _ => "" | Ok b => hex_EncodeToString b end.
Definition NewNSEC3Params (ttl iterations saltLength : Z) (random : result (list Z)) : NSEC3Params :=
  mkNSEC3Params SHA1 0 iterations (generateRandomSalt saltLength random) ttl.

(** ** RRsets *)
Definition group_key (rr : dnsRR) : string := h_Name rr +:+ "/" +:+ Itoa (h_Rrtype rr).
Definition group_step (m : gmap string (list dnsRR)) (rr : dnsRR) : gmap string (list dnsRR) :=
  <[group_key rr := default [] (m !! group_key rr) ++ [rr]]> m.
(** The checks of an RRset against its first record. *)
Fixpoint check_rrset (key : string) (first : dnsRR) (rest : list dnsRR) : result unit :=
  match rest with
  | [] => Ok tt
  | rr :: rest =>
    if negb (h_Ttl rr =? h_Ttl first)
    then Err (Errorf ("TTL mismatch in RRset " +:+ key +:+ ": " +:+ Itoa (h_Ttl first) +:+ " vs " +:+ Itoa (h_Ttl rr)
                      +:+ " (data corruption detected)"))
    else if negb (h_Class rr =? h_Class first)
    then Err (Errorf ("class mismatch in RRset " +:+ key +:+ ": " +:+ Itoa (h_Class first) +:+ " vs " +:+ Itoa (h_Class rr)
                      +:+ " (data corruption detected)"))
    else check_rrset key first rest
  end.
Fixpoint check_rrsets (rrsets : list (string * list dnsRR)) : result (list (list dnsRR)) :=
  match rrsets with
  | [] => Ok []
  | (key, rrset) :: rrsets =>
    match rrset with [] => Ok tt | first :: rest => check_rrset key first rest end ;;*
    let* checked := check_rrsets rrsets in
    Ok (rrset :: checked)
  end.
Definition groupRRsets (range : gmap string (list dnsRR) -> list (string * list dnsRR)) (rrs : list dnsRR) : result (list (list dnsRR)) :=
  check_rrsets (range (foldl group_step ∅ rrs)).

(** Zero means none yet. *)
Definition earliest_step (earliest : Z) (rr : dnsRR) : Z :=
  match h_data rr with
  | RRSIGData s => if (earliest =? 0) || (Expiration s <? earliest) then Expiration s else earliest
  | _ => earliest
  end.
Definition earliestRRSIGExpiration (rrs : list dnsRR) : option Time :=
  let earliest := foldl earliest_step 0 rrs in
  if earliest =? 0 then None else Some (earliest * Second).

Section signer.
Context `{UnicodeTables} {PrivateKey : Type} (lib : RRLib PrivateKey).
Context (range : gmap string (list dnsRR) -> list (string * list dnsRR)).
Abbreviation key_pair := (KeyPair PrivateKey).

Definition NormalizeZoneFQDN (zone : string) : result string :=
  let zone := TrimSpace zone in
  if (zone =? "")%string then Err (Errorf "zone name cannot be empty")
  else
    let zone := ToLower zone in
    let zone := if negb (HasSuffix zone ".") then zone +:+ "." else zone in
    wrap ("invalid DNS zone name " +:+ zone) (ValidateZoneName zone) ;;* Ok zone.
Definition ZoneNameForFile (zone : string) : result string :=
  let* zone := NormalizeZoneFQDN zone in Ok (TrimSuffix zone ".").

(** ** Records of the model *)
Definition recordToRR (origin : string) (record : ZRecord) : result dnsRR :=
  let rr data := mkDnsRR (NormalizeRecordOwnerName (rec_Name record) origin) ClassINET (rec_TTL record) data in
  let value := rec_Value record in
  let target name := NormalizeDomainTargetName name origin in
  if (rec_Type record =? RecordTypeA)%string then
    match ParseIP value with
    | None => Err (Errorf ("invalid IPv4 address: " +:+ value))
    | Some ip =>
      match To4 ip with
      | None => Err (Errorf ("not an IPv4 address: " +:+ value))
      | Some ipv4 => Ok (rr (AData (Some ipv4)))
      end
    end
  else if (rec_Type record =? RecordTypeAAAA)%string then
    match ParseIP value with
    | None => Err (Errorf ("invalid IPv6 address: " +:+ value))
    | Some ip =>
      if bool_decide (is_Some (To4 ip)) then Err (Errorf ("not an IPv6 address (IPv4 detected): " +:+ value))
      else Ok (rr (AAAAData (Some ip)))
    end
  else if (rec_Type record =? RecordTypeNS)%string then Ok (rr (NSData (target value)))
  else if (rec_Type record =? RecordTypeCNAME)%string then Ok (rr (CNAMEData (target value)))
  else if (rec_Type record =? RecordTypeMX)%string then
    match Fields value with
    | [p0; p1] =>
      match Sscanf_d p0 with
      | None => Err (Errorf ("invalid MX priority: " +:+ p0))
      | Some prio => Ok (rr (MXData prio (target p1)))
      end
    | _ => Err (Errorf ("invalid MX value: " +:+ value))
    end
  else if (rec_Type record =? RecordTypeTXT)%string then Ok (rr (TXTData (SplitTXTValue value)))
  else if (rec_Type record =? RecordTypePTR)%string then Ok (rr (PTRData (target value)))
  else if (rec_Type record =? RecordTypeSRV)%string then
    match Sscanf_dddS value with
    | None => Err (Errorf ("invalid SRV value: " +:+ value))
    | Some (priority, weight, port, t) => Ok (rr (SRVData priority weight port (target t)))
    end
  else if (rec_Type record =? RecordTypeCAA)%string then
    match Fields value with
    | p0 :: tag :: (_ :: _) as rest =>
      match Atoi p0 with
      | Some flag =>
        if (flag <? 0) || (255 <? flag) then Err (Errorf ("invalid CAA flag: " +:+ p0))
        else Ok (rr (CAAData (u8 flag) tag (TrimByte dquote (str_join rest " "))))
      | None => Err (Errorf ("invalid CAA flag: " +:+ p0))
      end
    | _ => Err (Errorf ("invalid CAA value: " +:+ value))
    end
  else Err (Errorf ("unsupported record type: " +:+ rec_Type record)).
Fixpoint records_to_rrs (origin : string) (records : list ZRecord) : result (list dnsRR) :=
  match records with
  | [] => Ok []
  | record :: records =>
    let* rr := wrap ("failed to convert record " +:+ rec_Name record) (recordToRR origin record) in
    let* rrs := records_to_rrs origin records in
    Ok (rr :: rrs)
  end.
(** The SOA record is built as the zone file generator builds it. *)
Definition modelToRRs (zone : Zone) (normalizedZoneName : string) : result (list dnsRR) :=
  let* rrs := records_to_rrs normalizedZoneName (z_Records zone) in
  Ok (zone_soa_rr normalizedZoneName (z_SOA zone) :: rrs).
Definition createDNSKEYRecords (ksk zsk : key_pair) : list dnsRR := [dnskey_rr (kp_DNSKEY ksk); dnskey_rr (kp_DNSKEY zsk)].

(** ** Signing *)
Definition rrsigLabelCount (owner : string) : Z :=
  let labels := CountLabel lib owner in
  u8 (if HasPrefix owner "*." && (0 <? labels) then labels - 1 else labels).

Context (opts : SignerOptions) (e : Inputs) (clock : nat -> Time) (random : result (list Z)).

Definition unix_after (t : Time) (d : Duration) : Z := u32 (time_Add t d / Second).
(** The record before it is signed. *)
Definition unsigned_rrsig (first : dnsRR) (key : key_pair) (zoneName : string) (now : Time) : dnsRR :=
  mkDnsRR (h_Name first) ClassINET (h_Ttl first)
    (RRSIGData (mkSignature (h_Rrtype first) (dk_Algorithm (kp_DNSKEY key)) (rrsigLabelCount (h_Name first)) (h_Ttl first)
       (unix_after now (opt_Expiration opts)) (unix_after now (opt_Inception opts))
       (KeyTag lib (kp_DNSKEY key)) zoneName "")).
(** [n] is the number of clock readings so far. *)
Definition signRRset (n : nat) (rrset : list dnsRR) (key : key_pair) (zoneName : string) : result dnsRR :=
  match rrset with
  | [] => Err (Errorf "empty RRset")
  | first :: _ =>
    if negb (IsRRset lib rrset) then Err (Errorf "invalid RRset: records have inconsistent name, type, or class")
    else if negb (is_Signer lib (kp_Private key)) then Err (Errorf "private key does not implement crypto.Signer")
    else wrap "failed to sign RRset" (Sign lib e (kp_Private key) (unsigned_rrsig first key zoneName (clock n)) rrset)
  end.

Definition head_type (rrset : list dnsRR) : Z := match rrset with rr :: _ => h_Rrtype rr | [] => 0 end.
Definition head_name (rrset : list dnsRR) : string := match rrset with rr :: _ => h_Name rr | [] => "" end.
Definition signing_key (ksk zsk : key_pair) (rrset : list dnsRR) : key_pair :=
  if head_type rrset =? TypeDNSKEY then ksk else zsk.
(** The RRsets but RRSIG sets, each with its signature; and the clock readings. *)
Fixpoint sign_rrsets (n : nat) (ksk zsk : key_pair) (zoneName : string) (rrsets : list (list dnsRR)) : result (list dnsRR * nat) :=
  match rrsets with
  | [] => Ok ([], n)
  | rrset :: rrsets =>
    if head_type rrset =? TypeRRSIG then sign_rrsets n ksk zsk zoneName rrsets
    else
      let* rrsig := wrap ("failed to sign RRset " +:+ head_name rrset +:+ "/" +:+ TypeToString lib (head_type rrset))
                      (signRRset n rrset (signing_key ksk zsk rrset) zoneName) in
      let* rest := sign_rrsets (S n) ksk zsk zoneName rrsets in
      Ok (rrset ++ rrsig :: fst rest, snd rest)
  end.
(** The records of a denial chain, one RRset each. *)
Fixpoint sign_chain (what : string) (n : nat) (zsk : key_pair) (zoneName : string) (rrs : list dnsRR) : result (list dnsRR * nat) :=
  match rrs with
  | [] => Ok ([], n)
  | rr :: rrs =>
    let* rrsig := wrap ("failed to sign " +:+ what +:+ " record " +:+ h_Name rr) (signRRset n [rr] zsk zoneName) in
    let* rest := sign_chain what (S n) zsk zoneName rrs in
    Ok (rr :: rrsig :: fst rest, snd rest)
  end.

Definition rr_less : dnsRR -> dnsRR -> bool :=
  lex_less str_ltb String.eqb h_Name (lex_less Z.ltb Z.eqb h_Rrtype (fun a b => str_ltb (rr_String lib a) (rr_String lib b))).
Definition sortRRs (rrs : list dnsRR) : list dnsRR := sort_Slice rr_less rrs.

(** The records that prove what does not exist, and the parameters for the zone. *)
Definition denial_records (zone : Zone) (zoneName : string) (signedRRs : list dnsRR) : result (string * list dnsRR * option NSEC3Params) :=
  if opt_NSEC3Enabled opts then
    let params := NewNSEC3Params (Minimum (z_SOA zone)) (opt_NSEC3Iterations opts) (opt_NSEC3SaltLength opts) random in
    let* chain := wrap "failed to generate NSEC3 chain" (GenerateNSEC3Chain (names lib) zoneName (map rr_header signedRRs) params) in
    Ok ("NSEC3", nsec3param_rr (fst chain) :: map nsec3_rr (snd chain), Some params)
  else
    let* chain := wrap "failed to generate NSEC chain" (GenerateNSECChain (names lib) zoneName (map rr_header signedRRs) (Minimum (z_SOA zone))) in
    Ok ("NSEC", map nsec_rr chain, None).

Definition rrsToModel (n : nat) (originalZone : Zone) (signedRRs : list dnsRR) (ksk zsk : key_pair) (normalizedZoneName : string) : result Zone :=
  match earliestRRSIGExpiration signedRRs with
  | None => Err (Errorf "signed RRs contain no RRSIG records")
  | Some expiration =>
    Ok (mkZone normalizedZoneName (z_Version originalZone) (z_SOA originalZone) (z_Records originalZone)
          (Some (mkDNSSEC true (dk_Algorithm (kp_DNSKEY ksk)) (KeyTag lib (kp_DNSKEY ksk)) (KeyTag lib (kp_DNSKEY zsk)) false 0 "" (Some expiration)))
          (z_CreatedAt originalZone) (clock n))
  end.
Definition set_nsec3 (params : option NSEC3Params) (zone : Zone) : Zone :=
  match params, z_DNSSEC zone with
  | Some p, Some c =>
    set_DNSSEC (Some (mkDNSSEC (Enabled c) (Algorithm c) (KSKKeyTag c) (ZSKKeyTag c) true (Iterations p) (Salt p) (SignatureExpiration c))) zone
  | _, _ => zone
  end.

Definition signZoneWithKeys (zone : Zone) (normalizedZoneName : string) (ksk zsk : key_pair) : result (Zone * list dnsRR) :=
  let* rrs := wrap "failed to convert zone to RRs" (modelToRRs zone normalizedZoneName) in
  let* rrsets := wrap "failed to group RRsets" (groupRRsets range (rrs ++ createDNSKEYRecords ksk zsk)) in
  let* signed := sign_rrsets 0 ksk zsk normalizedZoneName rrsets in
  let* denial := denial_records zone normalizedZoneName (fst signed) in
  let '(what, chain, params) := denial in
  let* signed_chain := sign_chain what (snd signed) zsk normalizedZoneName chain in
  let signedRRs := sortRRs (fst signed ++ fst signed_chain) in
  let* signedZone := wrap "failed to convert signed RRs to zone" (rrsToModel (snd signed_chain) zone signedRRs ksk zsk normalizedZoneName) in
  Ok (set_nsec3 params signedZone, signedRRs).
Definition SignZoneWithKeys (zone : option Zone) (ksk zsk : option key_pair) : result (Zone * list dnsRR) :=
  match zone, ksk, zsk with
  | None, _, _ => Err (Errorf "zone is nil")
  | Some zone, Some ksk, Some zsk =>
    let* normalizedZoneName := wrap "invalid zone name" (NormalizeZoneFQDN (z_Name zone)) in
    signZoneWithKeys zone normalizedZoneName ksk zsk
  | Some _, _, _ => Err (Errorf "dnssec keys are required")
  end.

(** [rfc3339] formats a time in UTC. *)
Definition GenerateSignedZoneFile (rfc3339 : Time -> string) (signedZone : Zone) (signedRRs : list dnsRR) : string :=
  "; Zone: " +:+ z_Name signedZone +:+ newline +:+ "; Signed by arca-dns" +:+ newline
  +:+ "; Version: " +:+ z_Version signedZone +:+ newline
  +:+ match z_DNSSEC signedZone ≫= SignatureExpiration with
      | Some t => "; Signatures valid until: " +:+ rfc3339 t +:+ newline
      | None => ""
      end
  +:+ newline +:+ "$ORIGIN " +:+ z_Name signedZone +:+ newline +:+ newline +:+ rr_lines lib signedRRs.
End signer.
