(* ===== verification/SignerFacts.v ===== *)
(** * What the signer produces

    Grouping keeps every record in the RRset of its owner and type; every RRset
    of the signed zone, the denial chain's included, has its signature by the
    right key, and every signature is one of an RRset of the zone. *)

From S2P Require Import Prelude GoStrings GoStringsFacts GoSort Zone Names Validation DnsNames ZoneRules Serial Store Nsec DnsRecords BindFiles Signer.

(** ** Grouping *)
Lemma group_spec rrs k :
  foldl group_step ∅ rrs !! k = match filter (fun rr => group_key rr = k) rrs with [] => None | l => Some l end.
Proof.
  induction rrs as [|rr rrs IH] using rev_ind; [apply lookup_empty|].
  rewrite foldl_app, filter_app. cbn [foldl]. unfold group_step at 1. destruct (decide (group_key rr = k)) as [<-|Hne].
  - rewrite lookup_insert_eq, filter_cons_True, filter_nil by done. rewrite IH.
    destruct (filter _ rrs); done.
  - rewrite lookup_insert_ne by done. rewrite filter_cons_False, filter_nil, app_nil_r by done. exact IH.
Qed.

Lemma check_rrsets_ok sets out : check_rrsets sets = Ok out -> out = map snd sets.
Proof.
  revert out. induction sets as [|[k set] sets IH]; intros out E; cbn [check_rrsets] in E; inv_ok; [done|].
  subst. cbn. f_equal. by apply IH.
Qed.

Section facts.
Context `{UnicodeTables} {PrivateKey : Type} (lib : RRLib PrivateKey) `{!RRLaws lib}.
Context (range : gmap string (list dnsRR) -> list (string * list dnsRR)).
Context (range_perm : forall m, range m ≡ₚ map_to_list m).
Context (opts : SignerOptions) (e : Inputs) (clock : nat -> Time) (random : result (list Z)).
Abbreviation key_pair := (KeyPair PrivateKey).
Abbreviation signRRset' := (signRRset lib opts e clock).

Lemma groupRRsets_ok rrs sets set : groupRRsets range rrs = Ok sets ->
  set ∈ sets <-> exists rr, rr ∈ rrs /\ set = filter (fun r => group_key r = group_key rr) rrs.
Proof.
  intros ->%check_rrsets_ok. rewrite range_perm, list_elem_of_fmap. split.
  - intros ([k l] & -> & Hl%elem_of_map_to_list). rewrite group_spec in Hl. cbn [snd].
    destruct (filter _ rrs) as [|rr rest] eqn:E; [done|]. injection Hl as <-.
    assert (Hrr : rr ∈ filter (fun r => group_key r = k) rrs) by (rewrite E; left).
    apply list_elem_of_filter in Hrr as [<- Hrr]. by exists rr.
  - intros (rr & Hrr & ->). exists (group_key rr, filter (fun r => group_key r = group_key rr) rrs). split; [done|].
    apply elem_of_map_to_list. rewrite group_spec.
    destruct (filter _ rrs) as [|x l] eqn:E; [|done]. exfalso.
    assert (Hin : rr ∈ filter (fun r => group_key r = group_key rr) rrs) by (by apply list_elem_of_filter). by rewrite E in Hin; apply elem_of_nil in Hin.
Qed.

(** ** One signature *)

(** [sig] is a signature of the records [rrset] by [key] in the zone [zoneName]. *)
Record covers (key : key_pair) (zoneName : string) (rrset : list dnsRR) (sig : dnsRR) : Prop := {
  cov_set : rrset <> [];
  cov_data : exists s n, h_data sig = RRSIGData s
    /\ sig_KeyTag s = KeyTag lib (kp_DNSKEY key) /\ sig_Algorithm s = dk_Algorithm (kp_DNSKEY key) /\ SignerName s = zoneName
    /\ Expiration s = unix_after (clock n) (opt_Expiration opts) /\ Inception s = unix_after (clock n) (opt_Inception opts)
    /\ forall rr, rr ∈ rrset -> h_Name rr = h_Name sig /\ h_Rrtype rr = TypeCovered s /\ h_Class rr = h_Class sig;
  cov_signed : exists unsigned, Sign lib e (kp_Private key) unsigned rrset = Ok sig }.

Lemma signRRset_covers n rrset key zoneName sig : signRRset' n rrset key zoneName = Ok sig -> covers key zoneName rrset sig.
Proof.
  unfold signRRset. destruct rrset as [|first rest]; [done|]. destruct (IsRRset lib (first :: rest)) eqn:Ei; [|done].
  destruct (is_Signer lib (kp_Private key)); [|done]. cbn [negb]. rewrite wrap_ok. intros Hs.
  rewrite law_IsRRset in Ei. pose proof (law_Sign _ _ _ _ _ Hs) as Hc. unfold completes in Hc. cbn in Hc.
  destruct (h_data sig) as [| | | | | | | | | | |s| | | |] eqn:Ed; try done. destruct Hc as (Hn & Hcl & _ & Ht & Ha & He & Hi & Hk & Hz).
  split; [done| |by eexists]. exists s, n. rewrite Hz, Hk, Ha, He, Hi. split_and!; try done.
  intros rr [->|Hrr]%elem_of_cons; [done|]. rewrite Forall_forall in Ei. destruct (Ei rr Hrr) as (-> & -> & ->). done.
Qed.

Lemma covers_rrsig key zoneName rrset sig : covers key zoneName rrset sig -> h_Rrtype sig = TypeRRSIG.
Proof. intros [_ (s & n & E & _) _]. unfold h_Rrtype. by rewrite E. Qed.

(** The heads of the grouped sets give their type. *)
Lemma head_type_elem rrset key zoneName sig rr : covers key zoneName rrset sig -> rr ∈ rrset -> head_type rrset = h_Rrtype rr.
Proof.
  intros [Hne (s & n & _ & _ & _ & _ & _ & _ & Hall) _] Hrr. destruct rrset as [|x l]; [done|]. cbn.
  destruct (Hall rr Hrr) as (_ & -> & _). by destruct (Hall x ltac:(left)) as (_ & -> & _).
Qed.

(** ** The signing loops *)
Definition signed_sets (key_of : list dnsRR -> key_pair) (zoneName : string) (sets : list (list dnsRR)) (out : list dnsRR) : Prop :=
  (forall set, set ∈ sets -> (forall rr, rr ∈ set -> rr ∈ out) /\ exists sig, sig ∈ out /\ covers (key_of set) zoneName set sig)
  /\ (forall rr, rr ∈ out -> exists set, set ∈ sets /\ (rr ∈ set \/ covers (key_of set) zoneName set rr)).

Lemma signed_sets_nil key_of zoneName : signed_sets key_of zoneName [] [].
Proof. split; [intros set Hs; by apply elem_of_nil in Hs|intros rr Hr; by apply elem_of_nil in Hr]. Qed.
Lemma signed_sets_cons key_of zoneName set sets sig out : covers (key_of set) zoneName set sig ->
  signed_sets key_of zoneName sets out -> signed_sets key_of zoneName (set :: sets) (set ++ sig :: out).
Proof.
  intros Hc [H1 H2]. split.
  - intros s [->|Hs]%elem_of_cons.
    + split; [set_solver|]. exists sig. split; [set_solver|done].
    + destruct (H1 s Hs) as [Hin (sg & Hsg & Hcov)]. split; [set_solver|]. exists sg. split; [set_solver|done].
  - intros rr. rewrite elem_of_app, elem_of_cons. intros [Hr|[->|Hr]].
    + exists set. split; [left|by left].
    + exists set. split; [left|by right].
    + destruct (H2 rr Hr) as (s & Hs & Hc'). exists s. split; [by right|done].
Qed.

Lemma sign_rrsets_spec ksk zsk zoneName sets : forall n out n', Forall (fun set => head_type set <> TypeRRSIG) sets ->
  sign_rrsets lib opts e clock n ksk zsk zoneName sets = Ok (out, n') -> signed_sets (signing_key ksk zsk) zoneName sets out.
Proof.
  induction sets as [|set sets IH]; intros n out n' Hf E; cbn [sign_rrsets] in E; inv_ok.
  { simplify_eq. apply signed_sets_nil. }
  inversion_clear Hf as [|? ? Ht Hf']. rewrite (proj2 (Z.eqb_neq _ _) Ht) in E. inv_ok.
  subst. destruct a0 as [out0 n0]. apply signed_sets_cons; [by eapply signRRset_covers|by eapply IH].
Qed.
Lemma sign_chain_spec what zsk zoneName rrs : forall n out n',
  sign_chain lib opts e clock what n zsk zoneName rrs = Ok (out, n') ->
  signed_sets (fun _ => zsk) zoneName (map (fun rr => [rr]) rrs) out.
Proof.
  induction rrs as [|rr rrs IH]; intros n out n' E; cbn [sign_chain] in E; inv_ok.
  { simplify_eq. apply signed_sets_nil. }
  subst. destruct a0 as [out0 n0]. cbn [map fst].
  apply (signed_sets_cons (fun _ => zsk) zoneName [rr]); [by eapply signRRset_covers|by eapply IH].
Qed.

(** ** Records before signing *)
Ltac no_such_type := let Hin := fresh in intros Hin; repeat (apply elem_of_cons in Hin as [Hin|Hin]; [by vm_compute in Hin|]); by apply elem_of_nil in Hin.
Lemma recordToRR_type origin r rr : recordToRR origin r = Ok rr -> h_Rrtype rr ∉ [TypeRRSIG; TypeDNSKEY; TypeNSEC; TypeNSEC3; TypeNSEC3PARAM].
Proof.
  unfold recordToRR. repeat case_match; try done; intros [= <-]; no_such_type.
Qed.
Lemma modelToRRs_type zone name rrs rr : modelToRRs zone name = Ok rrs -> rr ∈ rrs ->
  h_Rrtype rr ∉ [TypeRRSIG; TypeDNSKEY; TypeNSEC; TypeNSEC3; TypeNSEC3PARAM].
Proof.
  unfold modelToRRs. intros E. inv_ok. subst. intros [->|Hrr]%elem_of_cons; [no_such_type|].
  revert a Heqr Hrr. induction (z_Records zone) as [|r rs IH]; intros a E; cbn [records_to_rrs] in E; inv_ok; subst; [set_solver|].
  intros [->|Hrr]%elem_of_cons; [by eapply recordToRR_type|by eapply IH].
Qed.

(** ** The signed zone *)
Definition zone_key (ksk zsk : key_pair) (rr : dnsRR) : key_pair := if h_Rrtype rr =? TypeDNSKEY then ksk else zsk.

(** The records [rrs] are the records [base] and [chain], every RRset signed. *)
Record fully_signed (ksk zsk : key_pair) (name : string) (base chain rrs : list dnsRR) : Prop := {
  fs_all : forall rr, rr ∈ base \/ rr ∈ chain -> rr ∈ rrs;
  fs_only : forall rr, rr ∈ rrs -> h_Rrtype rr <> TypeRRSIG -> rr ∈ base \/ rr ∈ chain;
  fs_base : forall rr, rr ∈ base -> exists set sig, sig ∈ rrs /\ covers (zone_key ksk zsk rr) name set sig
    /\ forall r, r ∈ set <-> r ∈ base /\ h_Name r = h_Name rr /\ h_Rrtype r = h_Rrtype rr;
  fs_chain : forall rr, rr ∈ chain -> exists sig, sig ∈ rrs /\ covers zsk name [rr] sig;
  fs_sigs : forall sig, sig ∈ rrs -> h_Rrtype sig = TypeRRSIG ->
    exists key set, (key = ksk \/ key = zsk) /\ covers key name set sig /\ forall r, r ∈ set -> r ∈ rrs }.

Lemma fully_signed_perm ksk zsk name base chain rrs rrs' : rrs ≡ₚ rrs' ->
  fully_signed ksk zsk name base chain rrs -> fully_signed ksk zsk name base chain rrs'.
Proof.
  intros Hp [H1 H2 H3 H4 H5]. split; setoid_rewrite <- Hp; done.
Qed.

(** A grouped set has exactly the records of an owner and type. *)
Lemma grouped_set key name rr base set sig : rr ∈ base -> set = filter (fun r => group_key r = group_key rr) base ->
  covers key name set sig -> forall r, r ∈ set <-> r ∈ base /\ h_Name r = h_Name rr /\ h_Rrtype r = h_Rrtype rr.
Proof.
  intros Hrr -> [_ (s & n & _ & _ & _ & _ & _ & _ & Hall) _] r. split.
  - intros Hr. destruct (Hall r Hr) as (-> & -> & _). destruct (Hall rr) as (-> & -> & _); [by apply list_elem_of_filter|].
    by apply list_elem_of_filter in Hr as [_ Hr].
  - intros (Hr & Hn & Ht). apply list_elem_of_filter. split; [|done]. unfold group_key. by rewrite Hn, Ht.
Qed.

Lemma signed_loops ksk zsk name base chain sets out out' : Forall (fun rr => h_Rrtype rr <> TypeRRSIG) (base ++ chain) ->
  groupRRsets range base = Ok sets -> signed_sets (signing_key ksk zsk) name sets out ->
  signed_sets (fun _ => zsk) name (map (fun rr => [rr]) chain) out' -> fully_signed ksk zsk name base chain (out ++ out').
Proof.
  rewrite Forall_app. intros [Hb Hch] Hg [S1 S2] [C1 C2].
  assert (Hset : forall rr, rr ∈ base -> filter (fun r => group_key r = group_key rr) base ∈ sets)
    by (intros rr Hrr; apply (groupRRsets_ok _ _ _ Hg); eauto).
  assert (Hself : forall rr, rr ∈ base -> rr ∈ filter (fun r => group_key r = group_key rr) base) by (intros; by apply list_elem_of_filter).
  assert (Hone : forall rr, rr ∈ chain -> [rr] ∈ map (fun rr => [rr]) chain) by (intros rr Hr; apply list_elem_of_fmap; eauto).
  split; setoid_rewrite elem_of_app.
  - intros rr [Hr|Hr]; [left|right].
    + apply (S1 _ (Hset rr Hr)), Hself, Hr.
    + apply (C1 _ (Hone rr Hr)). left.
  - intros rr [Hr|Hr] Ht.
    + left. apply S2 in Hr as (set & Hs & [Hr|Hc]); [|by apply covers_rrsig in Hc].
      apply (groupRRsets_ok _ _ _ Hg) in Hs as (r0 & _ & ->). by apply list_elem_of_filter in Hr as [_ Hr].
    + right. apply C2 in Hr as (set & Hs & [Hr|Hc]); [|by apply covers_rrsig in Hc].
      apply list_elem_of_fmap in Hs as (r0 & -> & Hr0). by apply list_elem_of_singleton in Hr as ->.
  - intros rr Hrr. destruct (S1 _ (Hset rr Hrr)) as [_ (sig & Hsig & Hc)]. eexists _, sig. split; [by left|]. split.
    + unfold zone_key. rewrite <- (head_type_elem _ _ _ _ _ Hc (Hself rr Hrr)). exact Hc.
    + by eapply grouped_set.
  - intros rr Hrr. destruct (C1 _ (Hone rr Hrr)) as [_ (sig & Hsig & Hc)]. eauto.
  - intros sig [Hs|Hs] Ht.
    + apply S2 in Hs as (set & Hset' & [Hr|Hc]).
      * apply (groupRRsets_ok _ _ _ Hg) in Hset' as (r0 & _ & ->). apply list_elem_of_filter in Hr as [_ Hr].
        rewrite Forall_forall in Hb. by apply Hb in Hr.
      * exists (signing_key ksk zsk set), set. split; [unfold signing_key; case_match; tauto|]. split; [done|].
        intros r Hr. left. by apply (S1 _ Hset').
    + apply C2 in Hs as (set & Hset' & [Hr|Hc]).
      * exfalso. apply list_elem_of_fmap in Hset' as (r0 & -> & Hr0). apply list_elem_of_singleton in Hr as ->.
        rewrite Forall_forall in Hch. by apply Hch in Hr0.
      * exists zsk, set. split; [by right|]. split; [done|]. intros r Hr. right. by apply (C1 _ Hset').
Qed.

Lemma grouped_types sets base : Forall (fun rr => h_Rrtype rr <> TypeRRSIG) base -> groupRRsets range base = Ok sets ->
  Forall (fun set => head_type set <> TypeRRSIG) sets.
Proof.
  intros Hb Hg. apply Forall_forall. intros set Hs. apply (groupRRsets_ok _ _ _ Hg) in Hs as (rr & Hrr & ->).
  destruct (filter _ base) as [|x l] eqn:E; [by vm_compute|]. cbn. rewrite Forall_forall in Hb. apply Hb.
  assert (Hx : x ∈ filter (fun r => group_key r = group_key rr) base) by (rewrite E; left). by apply list_elem_of_filter in Hx as [_ Hx].
Qed.
Lemma denial_types zone name signed what chain params rr :
  denial_records lib opts random zone name signed = Ok (what, chain, params) -> rr ∈ chain -> h_Rrtype rr <> TypeRRSIG.
Proof.
  unfold denial_records. destruct (opt_NSEC3Enabled opts); intros E; inv_ok; simplify_eq.
  - intros [->|(r & -> & _)%list_elem_of_fmap]%elem_of_cons; by vm_compute.
  - intros (r & -> & _)%list_elem_of_fmap. by vm_compute.
Qed.

(** The steps of a successful signing. *)
Lemma signed_steps zone ksk zsk zone' rrs :
  SignZoneWithKeys lib range opts e clock random (Some zone) (Some ksk) (Some zsk) = Ok (zone', rrs) ->
  exists name recs what chain params signed n,
    NormalizeZoneFQDN (z_Name zone) = Ok name /\ modelToRRs zone name = Ok recs
    /\ (forall rr, rr ∈ recs ++ createDNSKEYRecords ksk zsk -> rr ∈ signed) /\ (forall rr, rr ∈ signed -> rr ∈ rrs)
    /\ denial_records lib opts random zone name signed = Ok (what, chain, params)
    /\ fully_signed ksk zsk name (recs ++ createDNSKEYRecords ksk zsk) chain rrs
    /\ StronglySorted (not_after (rr_less lib)) rrs
    /\ exists z, rrsToModel lib clock n zone rrs ksk zsk name = Ok z /\ zone' = set_nsec3 params z.
Proof.
  unfold SignZoneWithKeys, signZoneWithKeys. destruct (NormalizeZoneFQDN (z_Name zone)) as [name|] eqn:En; [|done]. cbn [rbind wrap].
  destruct (modelToRRs zone name) as [recs|] eqn:Em; [|done]. cbn [rbind wrap].
  destruct (groupRRsets range _) as [sets|] eqn:Eg; [|done]. cbn [rbind wrap].
  destruct (sign_rrsets _ _ _ _ _ _ _ _ _) as [[signed n]|] eqn:Es; [|done]. cbn [rbind fst snd].
  destruct (denial_records _ _ _ _ _ _) as [[[what chain] params]|] eqn:Ed; [|done]. cbn [rbind].
  destruct (sign_chain _ _ _ _ _ _ _ _ _) as [[out' n']|] eqn:Ec; [|done]. cbn [rbind fst snd].
  destruct (rrsToModel _ _ _ _ _ _ _ _) as [z|] eqn:Er; [|done]. cbn [rbind wrap]. intros [= <- <-].
  assert (Hb : Forall (fun rr => h_Rrtype rr <> TypeRRSIG) (recs ++ createDNSKEYRecords ksk zsk)).
  { apply Forall_app. split; [|by repeat constructor; vm_compute]. apply Forall_forall. intros r Hr Ht.
    apply (modelToRRs_type _ _ _ _ Em Hr). rewrite Ht. left. }
  pose proof (sign_rrsets_spec _ _ _ _ _ _ _ (grouped_types _ _ Hb Eg) Es) as HS.
  exists name, recs, what, chain, params, signed, n'. split_and!; [done|done| | |done| | |by exists z].
  - intros rr Hrr. apply (proj1 HS (filter (fun r => group_key r = group_key rr) (recs ++ createDNSKEYRecords ksk zsk))); [apply (groupRRsets_ok _ _ _ Eg); eauto|by apply list_elem_of_filter].
  - intros rr Hrr. unfold sortRRs. rewrite sort_Slice_Permutation. by apply elem_of_app; left.
  - apply (fully_signed_perm _ _ _ _ _ (signed ++ out')); [symmetry; apply sort_Slice_Permutation|].
    eapply signed_loops; [|exact Eg|exact HS|by eapply sign_chain_spec].
    apply Forall_app. split; [done|]. apply Forall_forall. intros rr. by eapply denial_types.
  - apply sort_Slice_sorted. apply _.
Qed.

(** ** The earliest expiration *)
Lemma earliest_spec rrs : (forall rr s, rr ∈ rrs -> h_data rr = RRSIGData s -> 0 < Expiration s) ->
  let m := foldl earliest_step 0 rrs in
  0 <= m /\ (forall rr s, rr ∈ rrs -> h_data rr = RRSIGData s -> 0 < m <= Expiration s)
  /\ (0 < m -> exists rr s, rr ∈ rrs /\ h_data rr = RRSIGData s /\ m = Expiration s).
Proof.
  induction rrs as [|rr rrs IH] using rev_ind; intros Hpos; cbv zeta.
  { split_and!; [done|intros ?? Hr; by apply elem_of_nil in Hr|done]. }
  rewrite foldl_app. cbn [foldl]. destruct IH as (H0 & H1 & H2); [intros; eapply Hpos; [by apply elem_of_app; left|done]|].
  set (m := foldl earliest_step 0 rrs) in *. pose proof (fun s => Hpos rr s ltac:(set_solver)) as Hp. unfold earliest_step.
  assert (Hold : 0 < m -> exists r s, r ∈ rrs ++ [rr] /\ h_data r = RRSIGData s /\ m = Expiration s).
  { intros Hm. destruct (H2 Hm) as (r & s & Hr & ? & ?). exists r, s. set_solver. }
  destruct (h_data rr) as [| | | | | | | | | | |s| | | |] eqn:Ed.
  12: { specialize (Hp s eq_refl). destruct ((m =? 0) || (Expiration s <? m)) eqn:Et.
        - split_and!; [lia| |exists rr, s; set_solver]. intros r s' [Hr| ->%list_elem_of_singleton]%elem_of_app Es'.
          + pose proof (H1 r s' Hr Es'). apply orb_true_iff in Et as [Et|Et]; bool_prop; lia.
          + assert (s' = s) as -> by congruence. lia.
        - bool_prop. split_and!; [lia| |exact Hold]. intros r s' [Hr| ->%list_elem_of_singleton]%elem_of_app Es'; [by eapply H1|].
          assert (s' = s) as -> by congruence. lia. }
  all: split_and!; [done| |exact Hold]; intros r s [Hr| ->%list_elem_of_singleton]%elem_of_app Es'; [by eapply H1|congruence].
Qed.

(** What the signed zone records of the signing. *)
Definition earliest_expiration (rrs : list dnsRR) (t : Time) : Prop :=
  exists rr s, rr ∈ rrs /\ h_data rr = RRSIGData s /\ t = Expiration s * Second
    /\ forall rr' s', rr' ∈ rrs -> h_data rr' = RRSIGData s' -> Expiration s <= Expiration s'.

Lemma rrsToModel_spec n zone rrs ksk zsk name z params : (forall rr s, rr ∈ rrs -> h_data rr = RRSIGData s -> 0 < Expiration s) ->
  rrsToModel lib clock n zone rrs ksk zsk name = Ok z ->
  exists t, z_DNSSEC (set_nsec3 params z) ≫= SignatureExpiration = Some t /\ earliest_expiration rrs t.
Proof.
  intros Hpos E. unfold rrsToModel, earliestRRSIGExpiration in E. destruct (earliest_spec rrs Hpos) as (H0 & H1 & H2). cbv zeta in *.
  set (m := foldl earliest_step 0 rrs) in *. destruct (Z.eqb_spec m 0) as [|Hm]; [done|]. cbn in E. injection E as <-.
  exists (m * Second). split; [by destruct params|]. destruct H2 as (rr & s & Hrr & Es & Hms); [lia|].
  exists rr, s. split_and!; [done|done|congruence|]. intros rr' s' Hr' Es'. rewrite <- Hms. by eapply H1.
Qed.

(** ** Denial of existence *)
Lemma dns_name_TrimSpace n : dns_name n -> TrimSpace n = n.
Proof.
  intros (_ & ls & _ & Hls & Hn). apply TrimSpace_graphic.
  assert (Hg : forall l, ldh_label l -> graphic_string l).
  { intros l (Hl & _). eapply str_forallb_impl; [|exact Hl]. intros c Hc.
    generalize (byte_ind (fun c => implb (is_alnum_hyphen c) (graphic c)) ltac:(by vm_compute) c). by rewrite Hc. }
  assert (Hd : graphic_string (dotted ls)).
  { clear Hn. induction Hls as [|l ls Hl Hls IH]; [done|]. destruct ls as [|l' ls]; [by apply Hg|]. rewrite dotted_cons by done.
    by rewrite !str_forallb_app, Hg, IH. }
  destruct Hn as [->| ->]; [done|]. by rewrite str_forallb_app, Hd.
Qed.
(** The name signed under is the zone's normal form. *)
Lemma NormalizeZoneFQDN_valid n name : dns_name n -> NormalizeZoneFQDN n = Ok name -> name = NormalizeZoneName n /\ unescaped name.
Proof.
  intros Hn. unfold NormalizeZoneFQDN. rewrite dns_name_TrimSpace by done.
  pose proof (dns_name_not_special n Hn) as (H0 & _ & _). rewrite (proj2 (String.eqb_neq _ _) H0).
  intros E. inv_ok. subst. split; [|by left]. rewrite NormalizeZoneName_nonempty by done. by destruct (HasSuffix _ _).
Qed.

Lemma in_zone_suffix c p : HasSuffix p "." = true -> in_zone c p -> HasSuffix c "." = true.
Proof. intros [q ->]%HasSuffix_true [->|[r ->]]; [apply HasSuffix_app|]. rewrite <- !str_app_assoc. apply HasSuffix_app. Qed.

(** The owner of a record of an accepted zone. *)
Definition proper_owner (apex n : string) : Prop := in_zone n apex /\ unescaped n.
Lemma record_proper_owner z apex i rs : apex = NormalizeZoneName z -> NormalizeZoneName apex = apex -> unescaped apex ->
  validate_records z i rs = Ok tt -> Forall (fun r => proper_owner apex (NormalizeRecordOwnerName (rec_Name r) apex)) rs.
Proof.
  intros -> Hfix Hu. revert i. induction rs as [|r rs IH]; intros i Hv; [done|]. cbn [validate_records] in Hv. inv_ok.
  constructor; [|by eapply IH]. split; [by apply name_in_zone_ok|].
  match goal with Hn : ValidateRecordNameInZone _ _ = _ |- _ => unfold ValidateRecordNameInZone in Hn; rename Hn into Hname end.
  rewrite owner_normal_origin by done. inv_ok. destruct (String.eqb_spec (rec_Name r) "@") as [->|_]; [done|]. inv_ok. by right.
Qed.
Lemma modelToRRs_owners zone apex recs : Forall (fun r => proper_owner apex (NormalizeRecordOwnerName (rec_Name r) apex)) (z_Records zone) ->
  unescaped apex -> modelToRRs zone apex = Ok recs -> Forall (fun rr => proper_owner apex (h_Name rr)) recs.
Proof.
  intros Hr Hu E. unfold modelToRRs in E. inv_ok. subst. constructor; [by split; [left|]|].
  revert a Heqr. induction Hr as [|r rs Hr _ IH]; intros a E; cbn [records_to_rrs] in E; inv_ok; subst; [done|].
  constructor; [|by apply IH]. assert (h_Name a0 = NormalizeRecordOwnerName (rec_Name r) apex) as ->; [|done].
  match goal with Hc : recordToRR _ _ = Ok _ |- _ => revert Hc end. unfold recordToRR. repeat case_match; try done; by intros [= <-].
Qed.
Lemma proper_owner_in_zone apex rr : unescaped apex -> HasSuffix apex "." = true -> proper_owner apex (h_Name rr) ->
  h_Rrtype rr <> TypeNSEC3 ->
  Fqdn (names lib) (h_Name rr) = h_Name rr /\ in_zone_rr (names lib) (Fqdn (names lib) apex) (h_Name rr) (rr_header rr).
Proof.
  intros Hu Hd [Hz Hn] Ht. split; [apply law_Fqdn; [done|by eapply in_zone_suffix]|]. split; [done|].
  rewrite law_Fqdn by done. by apply law_IsSubDomain.
Qed.

(** The chain's records are in the zone and closed into a ring by next names. *)
Definition ring {R} (next : R -> string) (owner : list string) (chain : list R) : Prop :=
  NoDup owner /\ forall i r, chain !! i = Some r -> Some (next r) = owner !! ((i + 1) mod length chain)%nat.
Definition nsec_denial (apex : string) (base rrs : list dnsRR) (chain : list NSEC) : Prop :=
  (forall r, r ∈ chain -> nsec_rr r ∈ rrs)
  /\ ring nsec_NextDomain (map nsec_Name chain) chain
  /\ StronglySorted (fun a b => canonicalDNSSECLess (names lib) b a = false) (map nsec_Name chain)
  /\ (forall rr, rr ∈ base -> exists r, r ∈ chain /\ nsec_Name r = h_Name rr /\ h_Rrtype rr ∈ nsec_TypeBitMap r)
  /\ (forall r, r ∈ chain -> StronglySorted Z.lt (nsec_TypeBitMap r))
  /\ (forall r t, r ∈ chain -> t ∈ nsec_TypeBitMap r ->
        exists rr, rr ∈ rrs /\ h_Rrtype rr = t /\ (h_Name rr = nsec_Name r \/ Fqdn (names lib) (h_Name rr) = nsec_Name r)).
Definition nsec3_denial (apex : string) (params : NSEC3Params) (base rrs : list dnsRR) (chain : list NSEC3) : Prop :=
  let hash n := HashName (names lib) n (HashAlg params) (Iterations params) (Salt params) in
  (forall r, r ∈ chain -> nsec3_rr r ∈ rrs)
  /\ (exists hashes, map nsec3_Name chain = map (fun h => h +:+ "." +:+ apex) hashes /\ ring nsec3_NextDomain hashes chain
        /\ StronglySorted (fun a b => str_ltb b a = false) hashes)
  /\ (forall rr, rr ∈ base -> exists r, r ∈ chain /\ nsec3_Name r = hash (h_Name rr) +:+ "." +:+ apex /\ h_Rrtype rr ∈ nsec3_TypeBitMap r).

(** The NSEC3PARAM record of the apex, and the parameters the options ask for. *)
Definition param_of (apex : string) (p : NSEC3Params) : NSEC3PARAM :=
  mkNSEC3PARAM apex (TTL p) (HashAlg p) (Flags p) (Iterations p) (u8 (len (Salt p) / 2)) (Salt p).
Definition params_of (zone : Zone) (p : NSEC3Params) : Prop := p = NewNSEC3Params (Minimum (z_SOA zone)) (opt_NSEC3Iterations opts) (opt_NSEC3SaltLength opts) random.
Lemma GenerateNSEC3Chain_param apex rrs p param chain : GenerateNSEC3Chain (names lib) apex rrs p = Ok (param, chain) -> param = param_of (Fqdn (names lib) apex) p.
Proof. unfold GenerateNSEC3Chain. destruct (collectAuthoritativeNames _ _ _) as [ns ents]. destruct (hash_names _ _ _ _); [|done]. by intros [= <- _]. Qed.
(** [chain] is the whole denial of existence of the records [base]: the NSEC
    records of one ring, or the NSEC3PARAM record and the NSEC3 records of one. *)
Definition denial_chain (zone : Zone) (apex : string) (base rrs chain : list dnsRR) (params : option NSEC3Params) : Prop :=
  if opt_NSEC3Enabled opts
  then exists c p, chain = nsec3param_rr (param_of apex p) :: map nsec3_rr c /\ params = Some p /\ params_of zone p /\ nsec3_denial apex p base rrs c
  else exists c, chain = map nsec_rr c /\ params = None /\ nsec_denial apex base rrs c.

Section denial.
Context (zone : Zone) (ksk zsk : key_pair) (apex what : string) (chain signed rrs all base : list dnsRR) (params : option NSEC3Params).
Context (Hu : unescaped apex) (Hd : HasSuffix apex "." = true).
Context (Hbase : Forall (fun rr => proper_owner apex (h_Name rr) /\ h_Rrtype rr <> TypeNSEC3) base).
Context (Hin : forall rr, rr ∈ base -> rr ∈ signed) (Hout : forall rr, rr ∈ signed -> rr ∈ rrs).
Context (Hden : denial_records lib opts random zone apex signed = Ok (what, chain, params)).
Context (Hfs : fully_signed ksk zsk apex all chain rrs).

Lemma base_header rr : rr ∈ base -> rr_header rr ∈ map rr_header signed /\ Fqdn (names lib) (h_Name rr) = h_Name rr
  /\ in_zone_rr (names lib) (Fqdn (names lib) apex) (h_Name rr) (rr_header rr).
Proof.
  intros Hrr. rewrite Forall_forall in Hbase. destruct (Hbase rr Hrr) as [Ho Ht]. split; [apply list_elem_of_fmap; eauto|].
  by apply proper_owner_in_zone.
Qed.

Lemma denial_nsec : opt_NSEC3Enabled opts = false -> exists c, chain = map nsec_rr c /\ params = None /\ nsec_denial apex base rrs c.
Proof.
  intros E. unfold denial_records in Hden. rewrite E in Hden. inv_ok. simplify_eq.
  match goal with Hc : GenerateNSECChain _ _ _ _ = Ok ?c |- _ => exists c; pose proof (nsec_chain_closed _ _ _ _ _ Hc) as (_ & Hnd & Hs & Hnx & Hcov & Hbm);
    set (ch := c) in * end.
  assert (Hrr : forall r, r ∈ ch -> nsec_rr r ∈ rrs).
  { intros r Hr. apply (fs_all _ _ _ _ _ _ Hfs). right. apply list_elem_of_fmap. eauto. }
  split; [done|]. split; [done|]. split_and!; [done|by split|done| |by intros r Hr; apply (Hbm r Hr)|].
  - intros rr Hb. destruct (base_header rr Hb) as (Hh & Hf & Hz). pose proof (Hcov _ Hh Hz) as Hname. cbn in Hname. rewrite Hf in Hname.
    apply list_elem_of_fmap in Hname as (r & Hname & Hr). exists r. split_and!; [done|done|]. destruct (Hbm r Hr) as (_ & _ & _ & _ & Hall).
    apply (Hall (rr_header rr) Hh Hz); cbn; rewrite Hf; done.
  - intros r t Hr Ht. destruct (Hbm r Hr) as (_ & Hty & _). destruct (Hty t Ht) as [->|[->|(h & Hh & Hn & Ht')]].
    + exists (nsec_rr r). split_and!; [by apply Hrr|done|by left].
    + destruct (fs_chain _ _ _ _ _ _ Hfs (nsec_rr r)) as (sig & Hsig & Hc); [apply list_elem_of_fmap; eauto|].
      exists sig. split_and!; [done|by eapply covers_rrsig|]. left. destruct Hc as [_ (s & n & _ & _ & _ & _ & _ & _ & Hall) _].
      by destruct (Hall (nsec_rr r) ltac:(left)) as [<- _].
    + apply list_elem_of_fmap in Hh as (rr & -> & Hrr'). exists rr. split_and!; [by apply Hout|done|by right].
Qed.
Lemma denial_nsec3 : opt_NSEC3Enabled opts = true -> exists c p, chain = nsec3param_rr (param_of apex p) :: map nsec3_rr c /\ params = Some p /\ params_of zone p /\ nsec3_denial apex p base rrs c.
Proof.
  intros E. unfold denial_records in Hden. rewrite E in Hden. inv_ok. simplify_eq.
  match goal with Hc : GenerateNSEC3Chain _ _ _ ?p = Ok ?c |- _ => exists (snd c), p; rewrite (surjective_pairing c) in Hc;
    pose proof (nsec3_chain_closed _ _ _ _ _ _ Hc) as (hs & Hn & Hnd & Hs & Hnx & _ & _ & Hbm); set (ch := snd c) in * end.
  match goal with Hc : GenerateNSEC3Chain _ _ _ _ = Ok _ |- _ => apply GenerateNSEC3Chain_param in Hc; rewrite law_Fqdn in Hc by done; rewrite Hc end.
  split; [done|]. split; [done|]. split; [done|]. rewrite law_Fqdn in Hn by done. split_and!.
  - intros r Hr. apply (fs_all _ _ _ _ _ _ Hfs). do 2 right. apply list_elem_of_fmap. eauto.
  - exists hs. split_and!; [done|by split|done].
  - intros rr Hb. destruct (base_header rr Hb) as (Hh & Hf & Hz). destruct (Hbm (rr_header rr) Hh Hz) as (r & Hr & Hname & Ht); cbn in *; rewrite ?Hf in *.
    { done. }
    exists r. rewrite Hname, law_Fqdn by done. done.
Qed.
End denial.

(** What an accepted zone gives the signer. *)
Definition proper_records (apex : string) (recs : list dnsRR) : Prop := unescaped apex /\ HasSuffix apex "." = true /\ Forall (fun rr => proper_owner apex (h_Name rr)) recs.
Lemma accepted_records zone name recs : ValidateZone (Some zone) = Ok tt -> NormalizeZoneFQDN (z_Name zone) = Ok name -> modelToRRs zone name = Ok recs ->
  name = NormalizeZoneName (z_Name zone) /\ proper_records name recs.
Proof.
  intros Hv Hn Hm. unfold ValidateZone in Hv. inv_ok. match goal with Hz : ValidateZoneName _ = _ |- _ => apply zone_name_accepted in Hz; rename Hz into Hname end.
  destruct (NormalizeZoneFQDN_valid _ _ Hname Hn) as [-> Hu]. split; [done|]. pose proof (dns_name_plain _ Hname) as [HN _]. pose proof HN as (_ & _ & Hdot). split; [done|]. split; [done|].
  eapply modelToRRs_owners; [|done|done]. eapply record_proper_owner; [done|by apply NormalizeZoneName_fixed|done|eassumption].
Qed.
(** The key records at the apex. *)
Definition apex_keys (apex : string) (ksk zsk : key_pair) : list dnsRR := filter (fun rr => h_Name rr = apex) (createDNSKEYRecords ksk zsk).
Lemma apex_keys_all apex ksk zsk : dk_Name (kp_DNSKEY ksk) = apex -> dk_Name (kp_DNSKEY zsk) = apex -> apex_keys apex ksk zsk = createDNSKEYRecords ksk zsk.
Proof. intros Hk Hz. unfold apex_keys, createDNSKEYRecords. by rewrite !filter_cons_True. Qed.
Lemma chain_denies zone ksk zsk apex recs what chain params signed rrs : proper_records apex recs -> modelToRRs zone apex = Ok recs ->
  (forall rr, rr ∈ recs ++ createDNSKEYRecords ksk zsk -> rr ∈ signed) -> (forall rr, rr ∈ signed -> rr ∈ rrs) ->
  denial_records lib opts random zone apex signed = Ok (what, chain, params) -> fully_signed ksk zsk apex (recs ++ createDNSKEYRecords ksk zsk) chain rrs ->
  denial_chain zone apex (recs ++ apex_keys apex ksk zsk) rrs chain params.
Proof.
  intros (Hu & Hdot & Hown) Hm Hin Hout Hd Hf.
  assert (Hbase : Forall (fun rr => proper_owner apex (h_Name rr) /\ h_Rrtype rr <> TypeNSEC3) (recs ++ apex_keys apex ksk zsk)).
  { apply Forall_app. split; apply Forall_forall; intros rr Hrr.
    - rewrite Forall_forall in Hown. split; [by apply Hown|]. intros Ht. apply (modelToRRs_type _ _ _ _ Hm Hrr). rewrite Ht. do 3 right. left.
    - apply list_elem_of_filter in Hrr as [Hn Hrr]. rewrite Hn. split; [by split; [left|]|]. by repeat (apply elem_of_cons in Hrr as [->|Hrr]; [done|]); apply elem_of_nil in Hrr. }
  assert (Hsub : forall rr, rr ∈ recs ++ apex_keys apex ksk zsk -> rr ∈ signed).
  { intros rr Hrr. apply Hin. rewrite !elem_of_app in *. destruct Hrr as [?|Hrr]; [by left|right]. by apply list_elem_of_filter in Hrr as [_ ?]. }
  unfold denial_chain. destruct (opt_NSEC3Enabled opts) eqn:E3; [by eapply denial_nsec3|by eapply denial_nsec].
Qed.

(** C32: Signing is complete and sound.  For an accepted zone and keys of its
    apex, the signed records are, in sorted order, its SOA and records, the two
    DNSKEY records, the denial chain and signatures, and nothing else.  The chain
    is the whole ring of NSEC records through the owners of these records, or the
    NSEC3PARAM record with the whole ring of NSEC3 records.  Each RRset of the zone
    (all records of an owner and type) is signed as a whole, the DNSKEY RRset with
    the key-signing key and every other one with the zone-signing key, each denial
    record with the zone-signing key; every signature in the output is one of an
    RRset of the output, names the zone, carries the signing key's tag and
    algorithm and the configured validity around the time of signing.  The signed
    zone keeps version, SOA, records and creation time, and records the NSEC3
    parameters and the earliest expiration of its signatures. *)
Theorem signed_zone_complete (zone zone' : Zone) (ksk zsk : key_pair) (rrs : list dnsRR) :
  ValidateZone (Some zone) = Ok tt -> dk_Name (kp_DNSKEY ksk) = NormalizeZoneName (z_Name zone) -> dk_Name (kp_DNSKEY zsk) = NormalizeZoneName (z_Name zone) ->
  SignZoneWithKeys lib range opts e clock random (Some zone) (Some ksk) (Some zsk) = Ok (zone', rrs) ->
  (forall n, 0 < unix_after (clock n) (opt_Expiration opts)) ->
  let apex := NormalizeZoneName (z_Name zone) in
  exists recs chain params, modelToRRs zone apex = Ok recs
    /\ fully_signed ksk zsk apex (recs ++ createDNSKEYRecords ksk zsk) chain rrs
    /\ denial_chain zone apex (recs ++ createDNSKEYRecords ksk zsk) rrs chain params
    /\ StronglySorted (not_after (rr_less lib)) rrs
    /\ z_Name zone' = apex /\ z_Version zone' = z_Version zone /\ z_SOA zone' = z_SOA zone
    /\ z_Records zone' = z_Records zone /\ z_CreatedAt zone' = z_CreatedAt zone
    /\ (forall p, params = Some p -> option_map (fun c => (NSEC3Iterations c, NSEC3Salt c)) (z_DNSSEC zone') = Some (Iterations p, Salt p))
    /\ exists t, z_DNSSEC zone' ≫= SignatureExpiration = Some t /\ earliest_expiration rrs t.
Proof.
  intros Hv Hk Hzk E Hclock. cbv zeta. destruct (signed_steps _ _ _ _ _ E) as (name & recs & what & chain & params & signed & n & Hn & Hm & Hin & Hout & Hd & Hf & Hs & z & Hz & ->).
  destruct (accepted_records _ _ _ Hv Hn Hm) as [-> Hp]. exists recs, chain, params. split; [done|]. split; [done|]. split; [rewrite <- (apex_keys_all _ _ _ Hk Hzk) at 1; by eapply chain_denies|]. split; [done|].
  split_and!; [..|eapply rrsToModel_spec; [|exact Hz]].
  7: { intros rr s Hr Es. destruct Hf as [_ _ _ _ Hsig].
       destruct (Hsig rr Hr) as (key & set & _ & [_ (s' & m & Es' & _ & _ & _ & He & _) _] & _); [unfold h_Rrtype; by rewrite Es|].
       assert (s' = s) as -> by congruence. rewrite He. apply Hclock. }
  6: { intros p ->. unfold rrsToModel in Hz. case_match; [|done]. by injection Hz as <-. }
  all: unfold rrsToModel in Hz; case_match; [|done]; injection Hz as <-; by destruct params.
Qed.

(** C33: The denial of existence of a signed zone is sound and complete.  For an
    accepted zone signed with keys of its own, the NSEC records in the signed
    zone form one ring in canonical order through distinct owners, every owner
    of a record of the zone is in the ring and its bitmap lists the record's
    type, and a bitmap is in order and lists no type that the signed zone does not have
    at that owner; with NSEC3 the same ring runs through the distinct hashes of the
    names, with the parameters the signed zone's settings record. *)
Theorem signed_zone_denial (zone zone' : Zone) (ksk zsk : key_pair) (rrs : list dnsRR) :
  ValidateZone (Some zone) = Ok tt ->
  let apex := NormalizeZoneName (z_Name zone) in
  dk_Name (kp_DNSKEY ksk) = apex -> dk_Name (kp_DNSKEY zsk) = apex ->
  SignZoneWithKeys lib range opts e clock random (Some zone) (Some ksk) (Some zsk) = Ok (zone', rrs) ->
  exists recs, modelToRRs zone apex = Ok recs
    /\ let base := recs ++ createDNSKEYRecords ksk zsk in
       if opt_NSEC3Enabled opts
       then exists chain params, nsec3_denial apex params base rrs chain
              /\ option_map (fun c => (NSEC3Iterations c, NSEC3Salt c)) (z_DNSSEC zone') = Some (Iterations params, Salt params)
       else exists chain, nsec_denial apex base rrs chain.
Proof.
  intros Hv apex Hk Hz E. destruct (signed_steps _ _ _ _ _ E) as (name & recs & what & chain & params & signed & n & Hn & Hm & Hin & Hout & Hd & Hf & _ & z & Hz' & ->).
  destruct (accepted_records _ _ _ Hv Hn Hm) as [-> Hp]. exists recs. split; [done|]. cbv zeta.
  pose proof (chain_denies _ _ _ _ _ _ _ _ _ _ Hp Hm Hin Hout Hd Hf) as Hc. rewrite (apex_keys_all _ _ _ Hk Hz : apex_keys (NormalizeZoneName (z_Name zone)) ksk zsk = _) in Hc. unfold denial_chain in Hc. destruct (opt_NSEC3Enabled opts).
  - destruct Hc as (c & p & _ & -> & _ & Hc). exists c, p. split; [done|]. unfold rrsToModel in Hz'. case_match; [|done]. by injection Hz' as <-.
  - destruct Hc as (c & _ & _ & Hc). by exists c.
Qed.
End facts.

(** ** Witnesses: a zone signed with made-up keys *)
#[local] Existing Instance ascii_tables.
Definition demo_key (zone : string) (flags n : Z) : KeyPair Z :=
  mkKeyPair (mkKeyID zone 13 n) (if flags =? 257 then KeyRoleKSK else KeyRoleZSK) (mkDnskey zone ClassINET 3600 flags 3 13 ("key" +:+ Itoa n)) n.
Definition demo_dns : RRLib Z := plain_rrlib (fun _ => ([], None)).
Definition demo_inputs : Inputs := mkInputs (mkDate 2026 1 31) 0 0 (Ok []).
Definition demo_ksk : KeyPair Z := demo_key "example.com." 257 1.
Definition demo_zsk : KeyPair Z := demo_key "example.com." 256 2.
Definition sign_demo (opts : SignerOptions) : result (Zone * list dnsRR) :=
  SignZoneWithKeys demo_dns map_to_list opts demo_inputs (fun _ => 1769000000 * Second) (Ok [171; 205]) (Some example_zone) (Some demo_ksk) (Some demo_zsk).
Definition nsec_options : SignerOptions := mkSignerOptions (-1 * Hour) (30 * 24 * Hour) 0 false 0 0.
Lemma example_zone_valid : ValidateZone (Some example_zone) = Ok tt.
Proof. vm_compute. reflexivity. Qed.

Lemma signed_zone_complete_witness :
  exists zone' rrs, sign_demo DefaultSignerOptions = Ok (zone', rrs) /\ z_Version zone' = z_Version example_zone
    /\ (z_DNSSEC zone' ≫= SignatureExpiration) = Some (1771592000 * Second)
    /\ exists t, z_DNSSEC zone' ≫= SignatureExpiration = Some t /\ earliest_expiration rrs t.
Proof.
  destruct (sign_demo DefaultSignerOptions) as [[zone' rrs]|] eqn:E; [|vm_compute in E; discriminate]. unfold sign_demo in E.
  exists zone', rrs. split; [reflexivity|].
  destruct (signed_zone_complete demo_dns map_to_list (fun m => reflexivity _) DefaultSignerOptions demo_inputs (fun _ => 1769000000 * Second) (Ok [171; 205]) example_zone zone' demo_ksk demo_zsk rrs example_zone_valid) as (recs & chain & params & _ & _ & Hc & _ & _ & Hv & _ & _ & _ & _ & Ht).
  - vm_compute. reflexivity.
  - vm_compute. reflexivity.
  - exact E.
  - intros n. vm_compute. reflexivity.
  - split; [exact Hv|]. split; [|exact Ht]. vm_compute in E. injection E as <- _. reflexivity.
Defined.

Definition demo_base (recs : list dnsRR) : list dnsRR := recs ++ createDNSKEYRecords demo_ksk demo_zsk.
Lemma signed_zone_denial_witness :
  (exists zone' rrs recs chain params, sign_demo DefaultSignerOptions = Ok (zone', rrs) /\ modelToRRs example_zone "example.com." = Ok recs
    /\ nsec3_denial demo_dns "example.com." params (demo_base recs) rrs chain)
  /\ exists zone' rrs recs chain, sign_demo nsec_options = Ok (zone', rrs) /\ modelToRRs example_zone "example.com." = Ok recs
    /\ nsec_denial demo_dns "example.com." (demo_base recs) rrs chain.
Proof.
  assert (Hk : dk_Name (kp_DNSKEY demo_ksk) = NormalizeZoneName (z_Name example_zone)) by (vm_compute; reflexivity).
  assert (Hz : dk_Name (kp_DNSKEY demo_zsk) = NormalizeZoneName (z_Name example_zone)) by (vm_compute; reflexivity).
  split.
  - destruct (sign_demo DefaultSignerOptions) as [[zone' rrs]|] eqn:E; [|vm_compute in E; discriminate]. unfold sign_demo in E.
    destruct (signed_zone_denial demo_dns map_to_list (fun m => reflexivity _) DefaultSignerOptions _ _ _ example_zone zone' demo_ksk demo_zsk rrs example_zone_valid Hk Hz E)
      as (recs & Hr & chain & params & Hc & _).
    exists zone', rrs, recs, chain, params. split; [reflexivity|]. split; [exact Hr|exact Hc].
  - destruct (sign_demo nsec_options) as [[zone' rrs]|] eqn:E; [|vm_compute in E; discriminate]. unfold sign_demo in E.
    destruct (signed_zone_denial demo_dns map_to_list (fun m => reflexivity _) nsec_options _ _ _ example_zone zone' demo_ksk demo_zsk rrs example_zone_valid Hk Hz E)
      as (recs & Hr & chain & Hc).
    exists zone', rrs, recs, chain. split; [reflexivity|]. split; [exact Hr|exact Hc].
Defined.
