(* ===== verification/KeyManager.v ===== *)
(** * The DNSSEC key manager ([pkg/dnssec/keymanager.go], [keymanager_ops.go],
    [encryption.go], [masterkey.go], [path_validation.go], [types.go])

    One directory per zone under the key directory: a file with the tags of the
    active keys, and for each key a file with the public key and one with the
    encrypted private key.  Files are written to a temporary file and renamed.
    The system calls are those of [FileSystem] with its faults; an operation runs
    under the lock of its zone, so it is a sequence of calls on one directory.
    The private keys, their text forms and AES-GCM are the libraries' ([KeyLib]);
    what they draw from the random source depends on the tick. *)

From S2P Require Import Prelude Io GoStrings GoStringsFacts GoSort GoNet Zone Names Validation DnsNames Sha256 FileSystem FileManager ArtifactCache Store DnsRecords Signer.
#[local] Open Scope io_scope.

(** ** Names of files *)
Definition unsafeKeyStoragePathChar (r : Z) : bool := (r <? 32) || (r =? 127).
(** [filepath.Base] on Unix. *)
Definition Base (path : string) : string :=
  if (path =? "")%string then "."
  else
    let path := TrimRightByte "/"%char path in
    if (path =? "")%string then "/" else List.last (Split path "/"%char) "".
Section paths.
Context `{UnicodeTables}.
Definition validateKeyStorageDirectoryPath (label path : string) : result unit :=
  let trimmed := TrimSpace path in
  guard_err (trimmed =? "")%string (Errorf (label +:+ " cannot be empty")) ;;*
  guard_err (negb (trimmed =? path)%string) (Errorf (label +:+ " must not contain surrounding whitespace")) ;;*
  guard_err (ContainsFunc path unsafeKeyStoragePathChar) (Errorf (label +:+ " contains control characters")) ;;*
  guard_err (negb (IsAbs path)) (Errorf (label +:+ " must be an absolute path: " +:+ path)).
Definition validateKeyStorageFilePath (label path : string) : result unit :=
  validateKeyStorageDirectoryPath label path ;;*
  guard_err ((Base path =? ".")%string || (Base path =? "/")%string) (Errorf (label +:+ " must include a filename: " +:+ path)).
Definition validateKeyStorageFileName (label fileName : string) : result unit :=
  let trimmed := TrimSpace fileName in
  guard_err (trimmed =? "")%string (Errorf (label +:+ " cannot be empty")) ;;*
  guard_err (negb (trimmed =? fileName)%string) (Errorf (label +:+ " must not contain surrounding whitespace")) ;;*
  guard_err (ContainsFunc fileName unsafeKeyStoragePathChar) (Errorf (label +:+ " contains control characters")) ;;*
  guard_err (IsAbs fileName || negb (Base fileName =? fileName)%string || (fileName =? ".")%string || (fileName =? "..")%string)
    (Errorf (label +:+ " must be a filename, not a path: " +:+ fileName)).

(** [%0nd] of a number with at most that many digits. *)
Fixpoint padded (width : nat) (n : Z) : string :=
  match width with
  | O => ""
  | S width => padded width (n / 10) +:+ str1 (chr (48 + n mod 10))
  end.
Definition MakeKeyFilenames (zone : string) (alg keyTag : Z) : result (string * string) :=
  let* zoneName := ZoneNameForFile zone in
  let base := "K" +:+ zoneName +:+ ".+" +:+ padded 3 alg +:+ "+" +:+ padded 5 keyTag in
  Ok (base +:+ ".key", base +:+ ".private.enc").
Definition parseKeyTagFromFilename (prefix filename : string) : option Z :=
  let rest := TrimPrefix filename prefix in
  if len rest <? 5 then None
  else
    match Atoi (str_take 5 rest) with
    | Some tag => if (tag <? 0) || (65535 <? tag) then None else Some tag
    | None => None
    end.
End paths.
Definition AlgorithmName (alg : Z) : string := if alg =? 8 then "RSASHA256" else if alg =? 13 then "ECDSAP256SHA256" else "UNKNOWN(" +:+ Itoa alg +:+ ")".
Definition ValidateAlgorithm (alg : Z) : result unit :=
  guard_err (negb ((alg =? 8) || (alg =? 13))) (Errorf ("unsupported DNSSEC algorithm: " +:+ Itoa alg +:+ " (supported: 8=RSA-SHA256, 13=ECDSA-P256)")).

(** ** The libraries *)
Definition MasterKeySize : nat := 32.
Definition maxDNSSECKeyFileSize : Z := 1 * 1024 * 1024.
Record EncryptedPrivateKey := mkEnvelope {
  env_Version : Z; env_Cipher : string; NonceB64 : string; CiphertextB64 : string; env_Zone : string; env_Algorithm : Z; env_KeyTag : Z; env_Role : KeyRole }.
Record activeKeys := mkActive { active_Algorithm : Z; ActiveKSKTag : Z; ActiveZSKTag : Z }.
(** A private key as [crypto.PrivateKey] holds it. *)
Inductive private_key (R E : Type) := RSAKey (k : R) | ECDSAKey (k : E) | OtherKey.
Arguments RSAKey {R E}.
Arguments ECDSAKey {R E}.
Arguments OtherKey {R E}.
Record KeyLib (R E : Type) := mkKeyLib {
  (** [DNSKEY.Generate]: the public key and the private one. *)
  Generate : nat -> Z -> Z -> result (string * private_key R E);
  dnskey_String : dnskey -> string;
  (** [dns.NewRR], with nothing for a record of another type. *)
  NewRR : string -> result (option dnskey);
  MarshalPKCS1PrivateKey : R -> string;
  ParsePKCS1PrivateKey : string -> result R;
  MarshalECPrivateKey : E -> result string;
  ParseECPrivateKey : string -> result E;
  (** AES-GCM with its nonce size. *)
  NonceSize : nat;
  rand_nonce : nat -> result (list Z);
  gcm_Seal : list Z -> list Z -> string -> string -> list Z;
  gcm_Open : list Z -> list Z -> list Z -> string -> result string;
  marshal_envelope : EncryptedPrivateKey -> result string;
  unmarshal_envelope : string -> result EncryptedPrivateKey;
  marshal_active : activeKeys -> result string;
  (** Decoding into an existing value. *)
  unmarshal_active : string -> activeKeys -> result activeKeys;
  (** The DNS library. *)
  rrs : RRLib (private_key R E) }.
Arguments Generate {R E}.
Arguments dnskey_String {R E}.
Arguments NewRR {R E}.
Arguments MarshalPKCS1PrivateKey {R E}.
Arguments ParsePKCS1PrivateKey {R E}.
Arguments MarshalECPrivateKey {R E}.
Arguments ParseECPrivateKey {R E}.
Arguments NonceSize {R E}.
Arguments rand_nonce {R E}.
Arguments gcm_Seal {R E}.
Arguments gcm_Open {R E}.
Arguments marshal_envelope {R E}.
Arguments unmarshal_envelope {R E}.
Arguments marshal_active {R E}.
Arguments unmarshal_active {R E}.
Arguments rrs {R E}.

(** A draw from the random source. *)
Definition draw {A} (f : nat -> A) : io fs A := fun s => (f (tick s), mkFs (zone_dir s) (S (tick s))).

Section encryption.
Context {R E : Type} (lib : KeyLib R E).
Definition buildAAD (meta : EncryptedPrivateKey) : string :=
  "zone=" +:+ env_Zone meta +:+ ",algorithm=" +:+ Itoa (env_Algorithm meta) +:+ ",keytag=" +:+ Itoa (env_KeyTag meta) +:+ ",role=" +:+ env_Role meta.
Definition sealed (masterKey nonce : list Z) (plaintext : string) (meta : EncryptedPrivateKey) : EncryptedPrivateKey :=
  mkEnvelope 1 "aes-256-gcm" (base64_EncodeToString nonce) (base64_EncodeToString (gcm_Seal lib masterKey nonce plaintext (buildAAD meta)))
    (env_Zone meta) (env_Algorithm meta) (env_KeyTag meta) (env_Role meta).
Definition EncryptPrivateKey (masterKey : list Z) (plaintext : string) (meta : EncryptedPrivateKey) : io fs (result string) :=
  if negb (length masterKey =? MasterKeySize)%nat then io_fail (Errorf "invalid master key: invalid master key size")
  else
    nonce <-? io_wrap "generate nonce" (draw (rand_nonce lib)) ;
    io_ret (wrap "marshal envelope" (marshal_envelope lib (sealed masterKey nonce plaintext meta))).
Definition decrypt_failed {A} (text : string) : result A := Err (Errorf ("decryption failed: " +:+ text)).
Definition DecryptPrivateKey (masterKey : list Z) (encryptedData : string) : result (string * EncryptedPrivateKey) :=
  if negb (length masterKey =? MasterKeySize)%nat then Err (Errorf "invalid master key: invalid master key size")
  else
    match unmarshal_envelope lib encryptedData with
    | Err _ => decrypt_failed "invalid json"
    | Ok envelope =>
      if negb (env_Version envelope =? 1) then decrypt_failed ("unsupported version " +:+ Itoa (env_Version envelope))
      else if negb (env_Cipher envelope =? "aes-256-gcm")%string then Err (Errorf ("unsupported cipher: " +:+ env_Cipher envelope))
      else
        match base64_DecodeString (NonceB64 envelope), base64_DecodeString (CiphertextB64 envelope) with
        | None, _ => decrypt_failed "invalid nonce"
        | _, None => decrypt_failed "invalid ciphertext"
        | Some nonce, Some ciphertext =>
          if negb (length nonce =? NonceSize lib)%nat then decrypt_failed "invalid nonce length"
          else
            match gcm_Open lib masterKey nonce ciphertext (buildAAD envelope) with
            | Err err => decrypt_failed (match err with Errorf text => text | _ => "" end)
            | Ok plaintext => Ok (plaintext, envelope)
            end
        end
    end.
End encryption.

(** ** Files *)
Section files.
Context (w : World).
(** Open the directory and flush it. *)
Definition key_syncDir : io fs (result unit) := syscall w (fun _ d => (Ok tt, d)) ;;? syscall w (fun _ d => (Ok tt, d)).
Definition existing_directory (link other : string) : io fs (result unit) :=
  info <-? os_Lstat_dir w ;
  match info with
  | LinkDir => io_fail (Errorf link)
  | Dir _ => io_ok tt
  | _ => io_fail (Errorf other)
  end.
Definition validateExistingKeyDirectory : io fs (result unit) := existing_directory "key directory must not be a symlink" "key path must be a directory".
Definition validateExistingZoneKeyDir : io fs (result unit) := existing_directory "zone key directory must not be a symlink" "zone key path must be a directory".
Definition validateKeyStorageDirectoryIfExists (label : string) : io fs (result unit) :=
  r <- validateExistingKeyDirectory ;
  match r with
  | Ok _ => io_ok tt
  | Err e => if os_IsNotExist e then io_ok tt else io_fail (Wrapf ("stat " +:+ label) e)
  end.
Definition check_info (validate : option (Z -> result unit)) (info : node) : result unit := match validate with Some v => v (node_perm info) | None => Ok tt end.
Definition readValidatedRegularKeyFile (name : string) (validate : option (Z -> result unit)) : io fs (result string) :=
  info <-? os_Lstat w name ;
  if is_symlink info then io_fail (Errorf "key file must not be a symlink")
  else if negb (is_regular info) then io_fail (Errorf "key file must be a regular file")
  else if maxDNSSECKeyFileSize <? node_size info then io_fail (Errorf "key file exceeds maximum size")
  else
    io_ret (check_info validate info) ;;?
    file <-? os_Open w name ;
    openedInfo <-? file_Stat w file ;
    if negb (SameFile info openedInfo) then io_fail (Errorf "key file changed while opening")
    else if negb (is_regular openedInfo) then io_fail (Errorf "key file must be a regular file")
    else if maxDNSSECKeyFileSize <? node_size openedInfo then io_fail (Errorf "key file exceeds maximum size")
    else
      io_ret (check_info validate openedInfo) ;;?
      data <-? ReadAll_limited w file (maxDNSSECKeyFileSize + 1) ;
      if maxDNSSECKeyFileSize <? len data then io_fail (Errorf "key file exceeds maximum size")
      else io_ok data.
Definition readRegularKeyFile (name : string) : io fs (result string) := readValidatedRegularKeyFile name None.
Definition restricted (perm : Z) : result unit :=
  guard_err (negb (Z.land perm 7 =? 0)) (Errorf "key file permissions must not allow other access") ;;*
  guard_err (negb (Z.land perm 24 =? 0)) (Errorf "key file permissions must not allow group write or execute").
Definition readRestrictedKeyFile (name : string) : io fs (result string) := readValidatedRegularKeyFile name (Some restricted).
Definition writeFileAtomic (name data : string) (perm : Z) : io fs (result unit) :=
  tmpPath <-? io_wrap "create temp file" (os_CreateTemp w ("." +:+ name +:+ ".") ".tmp") ;
  r <- (io_wrap "chmod temp file" (tmp_Chmod w tmpPath perm) ;;?
        io_wrap "write temp file" (tmp_Write w tmpPath data) ;;?
        io_wrap "sync temp file" (tmp_Sync w) ;;?
        io_wrap "close temp file" (tmp_Close w) ;;?
        io_wrap "rename temp file" (os_Rename w tmpPath name) ;;?
        io_wrap "sync directory" key_syncDir) ;
  match r with
  | Ok _ => io_ok tt
  | Err e => _ <- tmp_Close w ; _ <- os_Remove w tmpPath ; io_fail e
  end.
End files.

(** ** The keys of a zone *)
Record KeyManager := mkKeyManager { masterKey : list Z; km_algorithm : Z; kskBits : Z; zskBits : Z }.
Definition dnskeyKSKFlags : Z := 257.
Definition dnskeyZSKFlags : Z := 256.
Definition active_file : string := "active.json".
Definition zone_not_found {A} : result A := Err (Sentinel ErrZoneNotFound).
(** A missing file means that there is no key. *)
Definition or_not_found {A} (text : string) (m : io fs (result A)) : io fs (result A) :=
  r <- m ;
  io_ret match r with Err e => if os_IsNotExist e then zone_not_found else Err (Wrapf text e) | Ok a => Ok a end.

Section manager.
Context `{UnicodeTables} {R E : Type} (lib : KeyLib R E) (w : World) (km : KeyManager).
Abbreviation key_pair := (KeyPair (private_key R E)).

Definition parse_private (privData : string) : result (private_key R E) :=
  if km_algorithm km =? 8 then let* key := wrap "parse rsa private key" (ParsePKCS1PrivateKey lib privData) in Ok (RSAKey key)
  else if km_algorithm km =? 13 then let* key := wrap "parse ecdsa private key" (ParseECPrivateKey lib privData) in Ok (ECDSAKey key)
  else Err (Errorf ("unsupported algorithm: " +:+ Itoa (km_algorithm km))).
Definition marshal_private (key : private_key R E) : result string :=
  if km_algorithm km =? 8 then match key with RSAKey k => Ok (MarshalPKCS1PrivateKey lib k) | _ => Err (Errorf "invalid rsa private key type") end
  else if km_algorithm km =? 13 then match key with ECDSAKey k => wrap "marshal ecdsa private key" (MarshalECPrivateKey lib k) | _ => Err (Errorf "invalid ecdsa private key type") end
  else Err (Errorf ("unsupported algorithm: " +:+ Itoa (km_algorithm km))).

(** The operations of a zone act on its directory. *)
Definition loadKey (zone : string) (role : KeyRole) : io fs (result key_pair) :=
  zoneFQDN <-? io_ret (NormalizeZoneFQDN zone) ;
  _ <-? io_ret (ZoneNameForFile zoneFQDN) ;
  activeData <-? or_not_found "read active.json" (readRegularKeyFile w active_file) ;
  active <-? io_ret (wrap "parse active.json" (unmarshal_active lib activeData (mkActive 0 0 0))) ;
  keyTag <-? io_ret (if (role =? KeyRoleKSK)%string then Ok (ActiveKSKTag active) else if (role =? KeyRoleZSK)%string then Ok (ActiveZSKTag active) else Err (Errorf ("invalid key role: " +:+ role))) ;
  files <-? io_ret (MakeKeyFilenames zoneFQDN (km_algorithm km) keyTag) ;
  pubData <-? or_not_found "read public key" (readRegularKeyFile w (fst files)) ;
  rr <-? io_ret (wrap "parse dnskey" (NewRR lib pubData)) ;
  key <-? io_ret match rr with Some k => Ok k | None => Err (Errorf "not a dnskey record") end ;
  privEncData <-? or_not_found "read private key" (readRegularKeyFile w (snd files)) ;
  opened <-? io_ret (wrap "decrypt private key" (DecryptPrivateKey lib (masterKey km) privEncData)) ;
  privateKey <-? io_ret (parse_private (fst opened)) ;
  let envelope := snd opened in
  io_ok (mkKeyPair (mkKeyID zoneFQDN (env_Algorithm envelope) (env_KeyTag envelope)) (env_Role envelope) key privateKey).

Definition saveKeyFiles (kp : key_pair) : io fs (result unit) :=
  let id := kp_ID kp in
  _ <-? io_ret (ZoneNameForFile (key_Zone id)) ;
  io_wrap "create zone directory" (os_MkdirAll w) ;;?
  files <-? io_ret (MakeKeyFilenames (key_Zone id) (key_Alg id) (key_Tag id)) ;
  let pubData := dnskey_String lib (kp_DNSKEY kp) +:+ str1 (chr 10) in
  privData <-? io_ret (marshal_private (kp_Private kp)) ;
  encData <-? io_wrap "encrypt private key" (EncryptPrivateKey lib (masterKey km) privData (mkEnvelope 0 "" "" "" (key_Zone id) (key_Alg id) (key_Tag id) (kp_Role kp))) ;
  io_wrap "write public key" (writeFileAtomic w (fst files) pubData 420) ;;?
  io_wrap "write private key" (writeFileAtomic w (snd files) encData 384).
Definition readActiveKeys (zone : string) : io fs (result activeKeys) :=
  _ <-? io_ret (ZoneNameForFile zone) ;
  let active := mkActive (km_algorithm km) 0 0 in
  r <- readRegularKeyFile w active_file ;
  match r with
  | Ok data => io_ret (wrap "parse existing active.json" (unmarshal_active lib data active))
  | Err e => if os_IsNotExist e then io_ok active else io_fail (Wrapf "read active.json" e)
  end.
Definition writeActiveKeys (zone : string) (active : activeKeys) : io fs (result unit) :=
  _ <-? io_ret (ZoneNameForFile zone) ;
  data <-? io_ret (wrap "marshal active.json" (marshal_active lib active)) ;
  io_wrap "write active.json" (writeFileAtomic w active_file data 420).
Definition updateActiveKeys (kp : key_pair) : io fs (result unit) :=
  active <-? readActiveKeys (key_Zone (kp_ID kp)) ;
  active <-? io_ret (if (kp_Role kp =? KeyRoleKSK)%string then Ok (mkActive (km_algorithm km) (key_Tag (kp_ID kp)) (ActiveZSKTag active))
                     else if (kp_Role kp =? KeyRoleZSK)%string then Ok (mkActive (km_algorithm km) (ActiveKSKTag active) (key_Tag (kp_ID kp)))
                     else Err (Errorf ("invalid key role: " +:+ kp_Role kp))) ;
  writeActiveKeys (key_Zone (kp_ID kp)) active.
Definition saveKey (kp : key_pair) : io fs (result unit) :=
  saveKeyFiles kp ;;?
  io_wrap "update active keys" (updateActiveKeys kp).
Definition generateKeyLocked (zone : string) (role : KeyRole) (bits flags : Z) (activate : bool) : io fs (result key_pair) :=
  zoneFQDN <-? io_ret (NormalizeZoneFQDN zone) ;
  generated <-? io_wrap "generate key" (draw (fun t => Generate lib t (km_algorithm km) bits)) ;
  let key := mkDnskey zoneFQDN ClassINET 3600 flags 3 (km_algorithm km) (fst generated) in
  let keyPair := mkKeyPair (mkKeyID zoneFQDN (km_algorithm km) (KeyTag (rrs lib) key)) role key (snd generated) in
  io_wrap "save key" (if activate then saveKey keyPair else saveKeyFiles keyPair) ;;?
  io_ok keyPair.
(** A key that is missing is nothing, any other error ends the operation. *)
Definition load_existing (text zoneFQDN : string) (role : KeyRole) : io fs (result (option key_pair)) :=
  r <- loadKey zoneFQDN role ;
  io_ret match r with
         | Ok kp => Ok (Some kp)
         | Err e => if errors_Is e ErrZoneNotFound then Ok None else Err (Wrapf text e)
         end.
Definition ensureZoneKeysLocked (zoneFQDN : string) : io fs (result (key_pair * key_pair)) :=
  ksk <-? load_existing "load ksk" zoneFQDN KeyRoleKSK ;
  zsk <-? load_existing "load zsk" zoneFQDN KeyRoleZSK ;
  ksk <-? match ksk with Some k => io_ok k | None => io_wrap "generate ksk" (generateKeyLocked zoneFQDN KeyRoleKSK (kskBits km) dnskeyKSKFlags true) end ;
  zsk <-? match zsk with Some k => io_ok k | None => io_wrap "generate zsk" (generateKeyLocked zoneFQDN KeyRoleZSK (zskBits km) dnskeyZSKFlags true) end ;
  io_ok (ksk, zsk).
Definition rotateZoneKeysLocked (zoneFQDN : string) : io fs (result (key_pair * key_pair)) :=
  ksk <-? io_wrap "generate ksk" (generateKeyLocked zoneFQDN KeyRoleKSK (kskBits km) dnskeyKSKFlags false) ;
  zsk <-? io_wrap "generate zsk" (generateKeyLocked zoneFQDN KeyRoleZSK (zskBits km) dnskeyZSKFlags false) ;
  io_wrap "activate rotated keys" (writeActiveKeys (key_Zone (kp_ID ksk)) (mkActive (km_algorithm km) (key_Tag (kp_ID ksk)) (key_Tag (kp_ID zsk)))) ;;?
  io_ok (ksk, zsk).

(** Remove the files of keys that are not active, counting them. *)
Fixpoint remove_keys (prefix : string) (keep : list Z) (removed : Z) (entries : list (string * node)) : io fs (result unit * Z) :=
  match entries with
  | [] => io_ret (Ok tt, removed)
  | (name, n) :: entries =>
    if is_dir n || negb (HasPrefix name prefix) || negb (HasSuffix name ".key" || HasSuffix name ".private.enc") then remove_keys prefix keep removed entries
    else
      match parseKeyTagFromFilename prefix name with
      | None => remove_keys prefix keep removed entries
      | Some tag =>
        if existsb (Z.eqb tag) keep then remove_keys prefix keep removed entries
        else
          r <- os_Remove w name ;
          match r with
          | Err e => io_ret (Err (Wrapf ("remove key file " +:+ name) e), removed)
          | Ok _ => remove_keys prefix keep (removed + 1) entries
          end
      end
  end.
Definition kept_tags (active : activeKeys) : list Z :=
  (if ActiveKSKTag active =? 0 then [] else [ActiveKSKTag active]) ++ (if ActiveZSKTag active =? 0 then [] else [ActiveZSKTag active]).
(** The count is dropped when there is an error. *)
Definition removeOldKeysLocked (zoneFQDN : string) : io fs (result Z) :=
  activeData <-? or_not_found "read active.json" (readRegularKeyFile w active_file) ;
  active <-? io_ret (wrap "parse active.json" (unmarshal_active lib activeData (mkActive 0 0 0))) ;
  zoneName <-? io_ret (ZoneNameForFile zoneFQDN) ;
  entries <-? io_wrap "read zone key dir" (os_ReadDir w) ;
  r <- remove_keys ("K" +:+ zoneName +:+ ".+" +:+ padded 3 (active_Algorithm active) +:+ "+") (kept_tags active) 0 entries ;
  match fst r with
  | Err e => io_fail e
  | Ok _ => key_syncDir w ;;? io_ok (snd r)
  end.

(** ** Under the lock of the zone *)
(** Waiting for a lock ends when the request is cancelled. *)
Definition wait : io fs (result unit) := syscall w (fun _ d => (Ok tt, d)).
(** [flock] opens its file, making it when it is missing. *)
Definition lock_file : io fs (result unit) :=
  syscall w (fun t d =>
    match d with
    | Dir es => (match es !! ".lock" with Some (Subdirectory _) => Err (Errorf "is a directory") | _ => Ok tt end,
                 match es !! ".lock" with None => Dir (<[".lock" := Regular (Z.of_nat t) 384 (mtime_now w t) ""]> es) | Some _ => d end)
    | Missing | LinkDir => (Err (Sentinel ErrNotExist), d)
    | NotDir => (Err (Errorf "not a directory"), d)
    end).
(** The directory, made if it may be missing; what is missing otherwise is a
    zone without keys. *)
Definition ensure_directory (validate : io fs (result unit)) (what made : string) (createDir : bool) : io fs (result bool) :=
  r <- validate ;
  existed <-? io_ret match r with
                     | Ok _ => Ok true
                     | Err e => if negb (os_IsNotExist e) then Err (Wrapf ("stat " +:+ what) e) else if createDir then Ok false else zone_not_found
                     end ;
  if createDir then
    io_wrap ("create " +:+ made) (os_MkdirAll w) ;;?
    io_wrap ("stat " +:+ what) validate ;;?
    io_ok existed
  else io_ok true.
Definition withZoneKeyLock {A} (zone : string) (createDir : bool) (fn : string -> io fs (result A)) : io cache (result A) :=
  zoneFQDN <-? io_ret (NormalizeZoneFQDN zone) ;
  zoneName <-? io_ret (ZoneNameForFile zoneFQDN) ;
  in_root wait ;;?
  keyDirExisted <-? in_root (ensure_directory (validateExistingKeyDirectory w) "key directory" "key directory" createDir) ;
  (if keyDirExisted then io_ok tt else in_root (io_wrap "sync key directory parent" (key_syncDir w))) ;;?
  existed <-? in_zone zoneName (ensure_directory (validateExistingZoneKeyDir w) "zone key directory" "zone directory" createDir) ;
  (if existed then io_ok tt else in_root (io_wrap "sync key directory parent" (key_syncDir w))) ;;?
  in_zone zoneName (io_wrap "lock zone key directory" lock_file) ;;?
  r <- in_zone zoneName (fn zoneFQDN) ;
  unlocked <- in_zone zoneName wait ;
  io_ret match r, unlocked with Ok _, Err e => Err (Wrapf "unlock zone key directory" e) | _, _ => r end.

Definition LoadKSK (zone : string) : io cache (result key_pair) := withZoneKeyLock zone false (fun zoneFQDN => loadKey zoneFQDN KeyRoleKSK).
Definition LoadZSK (zone : string) : io cache (result key_pair) := withZoneKeyLock zone false (fun zoneFQDN => loadKey zoneFQDN KeyRoleZSK).
Definition GenerateKSK (zone : string) : io cache (result key_pair) :=
  withZoneKeyLock zone true (fun zoneFQDN => generateKeyLocked zoneFQDN KeyRoleKSK (kskBits km) dnskeyKSKFlags true).
Definition GenerateZSK (zone : string) : io cache (result key_pair) :=
  withZoneKeyLock zone true (fun zoneFQDN => generateKeyLocked zoneFQDN KeyRoleZSK (zskBits km) dnskeyZSKFlags true).
Definition EnsureZoneKeys (zone : string) : io cache (result (key_pair * key_pair)) := withZoneKeyLock zone true ensureZoneKeysLocked.
Definition GenerateZoneKeys (zone : string) (rotate : bool) : io cache (result (key_pair * key_pair)) :=
  if negb rotate then EnsureZoneKeys zone else withZoneKeyLock zone true rotateZoneKeysLocked.
Definition RemoveOldKeys (zone : string) : io cache (result Z) := withZoneKeyLock zone false removeOldKeysLocked.
Definition removeZoneKeysLocked : io fs (result unit) :=
  io_wrap "remove zone key directory" (os_RemoveAll w) ;;?
  io_wrap "sync key directory parent" (key_syncDir w).
Definition RemoveZoneKeys (zone : string) : io cache (result unit) :=
  r <- withZoneKeyLock zone false (fun _ => removeZoneKeysLocked) ;
  io_ret match r with Err e => if errors_Is e ErrZoneNotFound then Ok tt else Err e | Ok _ => Ok tt end.
Definition ExportDS (zone : string) (digestType : Z) : io cache (result string) :=
  withZoneKeyLock zone false (fun zoneFQDN =>
    ksk <-? io_wrap "load ksk" (loadKey zoneFQDN KeyRoleKSK) ;
    io_ret match ToDS_String (rrs lib) (kp_DNSKEY ksk) digestType with Some ds => Ok ds | None => Err (Errorf "failed to generate ds record") end).
End manager.

Record KeyManagerOptions := mkKeyManagerOptions { KeyDirectory : string; MasterKey : list Z; kmo_Algorithm : Z; KSKBits : Z; ZSKBits : Z }.
Definition NewKeyManager `{UnicodeTables} (w : World) (opts : KeyManagerOptions) : io cache (result KeyManager) :=
  if (KeyDirectory opts =? "")%string then io_fail (Errorf "key directory cannot be empty")
  else
    _ <-? io_ret (validateKeyStorageDirectoryPath "key directory" (KeyDirectory opts)) ;
    in_root (validateKeyStorageDirectoryIfExists w "key directory") ;;?
    if negb (length (MasterKey opts) =? MasterKeySize)%nat then io_fail (Errorf "invalid master key: unexpected size")
    else
      _ <-? io_ret (ValidateAlgorithm (kmo_Algorithm opts)) ;
      io_ok (mkKeyManager (MasterKey opts) (kmo_Algorithm opts)
        (if kmo_Algorithm opts =? 8 then if KSKBits opts =? 0 then 2048 else KSKBits opts else 256)
        (if kmo_Algorithm opts =? 8 then if ZSKBits opts =? 0 then 1024 else ZSKBits opts else 256)).

(** ** The master key

    The directories involved are named by their paths. *)
Definition MasterKeyFileName : string := "_masterkey".
Definition LegacyMasterKeyFilePath : string := "/etc/arca-dns/master.key".
Inductive MasterKeySource := MasterKeySourceEnv | MasterKeySourceFile | MasterKeySourceGenerated.
Record MasterKeyOptions := mkMasterKeyOptions { mk_KeyDirectory : string; AllowAutoGenerate : bool; FileName : string }.
(** [filepath.Dir] of an absolute path. *)
Definition Dirname (path : string) : string := Clean (str_join (removelast (Split path "/"%char)) "/" +:+ "/").
Definition MasterKeyPath (keyDir fileName : string) : string :=
  Clean (keyDir +:+ "/" +:+ (if (fileName =? "")%string then MasterKeyFileName else fileName)).

Section masterkey.
Context `{UnicodeTables} (w : World) (rand_key : nat -> result (list Z)).
Definition invalid_master_key {A} (text : string) : result A := Err (Errorf ("invalid master key: " +:+ text)).
Definition sized (key : option (list Z)) (text : string) : result (list Z) :=
  match key with
  | None => invalid_master_key text
  | Some key => if negb (length key =? MasterKeySize)%nat then invalid_master_key "unexpected size" else Ok key
  end.
Definition ParseMasterKeyB64 (s : string) : result (list Z) := sized (base64_DecodeString (TrimSpace s)) "invalid base64".
Definition ParseMasterKeyHex (s : string) : result (list Z) := sized (hex_DecodeString (TrimSpace s)) "invalid hex".
Definition ParseMasterKey (s : string) : result (list Z) :=
  let s := TrimSpace s in
  if (s =? "")%string then invalid_master_key "empty key"
  else match ParseMasterKeyB64 s with Ok key => Ok key | Err _ => ParseMasterKeyHex s end.
Definition GenerateMasterKey : io fs (result (list Z)) := io_wrap "generate random key" (draw rand_key).
(** Remove the temporary file when a step before the rename fails. *)
Definition publish_master_key (name encoded : string) : io fs (result unit) :=
  tmpPath <-? io_wrap "create master key temp file" (os_CreateTemp w ("." +:+ name +:+ ".") ".tmp") ;
  filled <- (io_wrap "chmod master key temp file" (tmp_Chmod w tmpPath 384) ;;?
             io_wrap "write master key file" (tmp_Write w tmpPath encoded) ;;?
             io_wrap "sync master key file" (tmp_Sync w)) ;
  match filled with
  | Err e => _ <- tmp_Close w ; _ <- os_Remove w tmpPath ; io_fail e
  | Ok _ =>
    renamed <- (io_wrap "close master key file" (tmp_Close w) ;;? io_wrap "rename master key file" (os_Rename w tmpPath name)) ;
    match renamed with
    | Err e => _ <- os_Remove w tmpPath ; io_fail e
    | Ok _ => io_wrap "sync master key directory" (syncDir w)
    end
  end.
Definition SaveMasterKey (path : string) (key : list Z) : io cache (result unit) :=
  if negb (length key =? MasterKeySize)%nat then io_ret (invalid_master_key "unexpected size")
  else
    _ <-? io_ret (validateKeyStorageFilePath "master key file" path) ;
    let path := Clean path in
    in_zone (Dirname path)
      (validateKeyStorageDirectoryIfExists w "key directory" ;;?
       io_wrap "create key directory" (os_MkdirAll w) ;;?
       io_wrap "stat key directory" (validateExistingKeyDirectory w) ;;?
       publish_master_key (Base path) (base64_EncodeToString key)).
(** [data, err := read; if err == nil { parse } else if !os.IsNotExist(err) { fail }]. *)
Definition read_master_key (prefix suffix : string) (read : io fs (result string)) : io fs (result (option (list Z))) :=
  r <- read ;
  io_ret match r with
         | Ok data => let* key := wrap ("parse master key from " +:+ suffix) (ParseMasterKey data) in Ok (Some key)
         | Err e => if os_IsNotExist e then Ok None else Err (Wrapf prefix e)
         end.
Definition legacy_master_key : io fs (result (option (list Z))) :=
  let file := Base LegacyMasterKeyFilePath in
  r <- os_Lstat w file ;
  match r with
  | Err e => io_ret (if os_IsNotExist e then Ok None else Err (Wrapf "stat legacy master key file" e))
  | Ok _ =>
    io_wrap "stat legacy master key directory" (validateExistingKeyDirectory w) ;;?
    data <-? io_wrap "read legacy master key file" (readRestrictedKeyFile w file) ;
    io_ret (let* key := wrap "parse master key from legacy file" (ParseMasterKey data) in Ok (Some key))
  end.
(** [envKey]: the environment variable [ARCA_DNS_DNSSEC_MASTER_KEY_B64]. *)
Definition LoadMasterKey (envKey : string) (opts : MasterKeyOptions) : io cache (result (list Z * MasterKeySource)) :=
  if negb (envKey =? "")%string then io_ret (let* key := wrap "load master key from env" (ParseMasterKeyB64 envKey) in Ok (key, MasterKeySourceEnv))
  else
    let fileName := if (FileName opts =? "")%string then MasterKeyFileName else FileName opts in
    _ <-? io_ret (validateKeyStorageFileName "master key filename" fileName) ;
    _ <-? io_ret (validateKeyStorageDirectoryPath "master key directory" (mk_KeyDirectory opts)) ;
    let keyPath := MasterKeyPath (Clean (mk_KeyDirectory opts)) fileName in
    stat <- in_zone (Dirname keyPath) (validateExistingKeyDirectory w) ;
    _ <-? io_ret match stat with Err e => if os_IsNotExist e then Ok tt else Err (Wrapf "stat master key directory" e) | Ok _ => Ok tt end ;
    found <-? in_zone (Dirname keyPath) (read_master_key "read master key file" "file" (readRestrictedKeyFile w (Base keyPath))) ;
    match found with
    | Some key => io_ok (key, MasterKeySourceFile)
    | None =>
      legacy <-? in_zone (Dirname LegacyMasterKeyFilePath) legacy_master_key ;
      match legacy with
      | Some key => io_ok (key, MasterKeySourceFile)
      | None =>
        if AllowAutoGenerate opts then
          key <-? in_zone (Dirname keyPath) (io_wrap "generate master key" GenerateMasterKey) ;
          io_wrap "save generated master key" (SaveMasterKey keyPath key) ;;?
          io_ok (key, MasterKeySourceGenerated)
        else io_fail (Errorf "master key not found")
      end
    end.
End masterkey.
