(* ===== verification/KeyManagerFacts.v ===== *)
(** * What the key manager keeps

    Whatever system calls fail and wherever the process stops, the active keys of
    a zone are lost only by removing the zone's keys: they are replaced at once,
    both files of a key are there before it becomes active, and clearing old keys
    keeps the active ones.  Keys are told apart by their tags, so this holds for
    runs in which no two generated keys have the same tag. *)

From S2P Require Import Prelude Io GoStrings GoStringsFacts GoSort GoNet Zone Names Validation DnsNames ZoneRules Sha256 FileSystem FileManager FileManagerFacts ArtifactCache ArtifactCacheFacts Store DnsRecords Signer Nsec SignerFacts KeyManager.
#[local] Open Scope io_scope.

(** ** Names of key files *)
Lemma padded_digits width n : 0 <= n < 10 ^ Z.of_nat width -> String.length (padded width n) = width /\ digits_value 0 (padded width n) = Some n /\ str_forallb is_digit (padded width n) = true.
Proof.
  revert n. induction width as [|width IH]; intros n Hn; cbn [padded]; [assert (n = 0) as -> by (cbn in Hn; lia); done|].
  rewrite Nat2Z.inj_succ, Z.pow_succ_r in Hn by lia. destruct (IH (n / 10)) as (Hl & Hd & Hf); [Z.to_euclidean_division_equations; lia|].
  assert (Hc : is_digit (chr (48 + n mod 10)) = true /\ byte (chr (48 + n mod 10)) = 48 + n mod 10).
  { pose proof (Z.mod_pos_bound n 10 ltac:(lia)). unfold is_digit. rewrite byte_chr by lia. split; [apply andb_true_iff; lia|done]. }
  destruct Hc as [Hc Hb]. split_and!.
  - rewrite str_length_app, Hl. cbn. lia.
  - rewrite (digits_value_snoc _ _ _ _ Hd Hc), Hb. f_equal. Z.to_euclidean_division_equations. lia.
  - rewrite str_forallb_app, Hf. cbn. by rewrite Hc.
Qed.
Lemma padded5 t : 0 <= t < 65536 -> String.length (padded 5 t) = 5%nat /\ Atoi (padded 5 t) = Some t.
Proof.
  intros Ht. destruct (padded_digits 5 t) as (Hl & Hd & Hf); [cbn; lia|]. split; [done|]. destruct (padded 5 t) as [|c s] eqn:E; [done|]. cbn [str_forallb] in Hf. apply andb_true_iff in Hf as [Hc _]. unfold Atoi.
  unfold is_digit in Hc. bool_prop. rewrite (proj2 (Z.eqb_neq (byte c) 45)), (proj2 (Z.eqb_neq (byte c) 43)) by lia. cbn [String.eqb]. rewrite Hd. unfold MinInt64, MaxInt64. by rewrite !(proj2 (Z.leb_le _ _)) by lia.
Qed.
Lemma padded_length width n : String.length (padded width n) = width.
Proof. revert n. induction width as [|width IH]; intros n; [done|]. cbn [padded]. rewrite str_length_app, IH. cbn. lia. Qed.
Lemma padded5_inj t t' : 0 <= t < 65536 -> 0 <= t' < 65536 -> padded 5 t = padded 5 t' -> t = t'.
Proof. intros Ht Ht' He. destruct (padded5 t Ht) as [_ H1], (padded5 t' Ht') as [_ H2]. congruence. Qed.

(** ** What the libraries promise *)
Abbreviation is_byte := (fun b => 0 <= b < 256).
Class KeyLaws `{UnicodeTables} {R E : Type} (lib : KeyLib R E) : Prop := {
  kl_public : forall t alg bits pub priv zone flags, NormalizeZoneFQDN zone = Ok zone -> Generate lib t alg bits = Ok (pub, priv) ->
    NewRR lib (dnskey_String lib (mkDnskey zone ClassINET 3600 flags 3 alg pub) +:+ str1 (chr 10)) = Ok (Some (mkDnskey zone ClassINET 3600 flags 3 alg pub));
  kl_rsa : forall k, ParsePKCS1PrivateKey lib (MarshalPKCS1PrivateKey lib k) = Ok k;
  kl_ec : forall k data, MarshalECPrivateKey lib k = Ok data -> ParseECPrivateKey lib data = Ok k;
  kl_open : forall key nonce p aad, length nonce = NonceSize lib -> gcm_Open lib key nonce (gcm_Seal lib key nonce p aad) aad = Ok p;
  kl_bytes : forall key nonce p aad, Forall is_byte (gcm_Seal lib key nonce p aad);
  kl_nonce : forall t nonce, rand_nonce lib t = Ok nonce -> length nonce = NonceSize lib /\ Forall is_byte nonce;
  kl_envelope : forall e data, marshal_envelope lib e = Ok data -> unmarshal_envelope lib data = Ok e;
  kl_active : forall a data, marshal_active lib a = Ok data -> forall a0, unmarshal_active lib data a0 = Ok a;
  kl_tag : forall k, 0 <= KeyTag (rrs lib) k < 65536 }.

Section zone.
Context `{UnicodeTables, !UnicodeLaws} {R E : Type} (lib : KeyLib R E) `{!KeyLaws lib} (w : World) (km : KeyManager).
Context (zone : string) (Hzone : NormalizeZoneFQDN zone = Ok zone).
#[local] Set Default Proof Using "Type".
Abbreviation key_pair := (KeyPair (private_key R E)).
Abbreviation zn := (TrimSuffix zone ".").
Abbreviation alg := (km_algorithm km).
Definition key_prefix (algorithm : Z) : string := "K" +:+ zn +:+ ".+" +:+ padded 3 algorithm +:+ "+".
Definition pub_name (tag : Z) : string := key_prefix alg +:+ padded 5 tag +:+ ".key".
Definition priv_name (tag : Z) : string := key_prefix alg +:+ padded 5 tag +:+ ".private.enc".
Lemma zone_name_for_file : ZoneNameForFile zone = Ok zn.
Proof using Hzone. unfold ZoneNameForFile. by rewrite Hzone. Qed.
Lemma key_filenames tag : MakeKeyFilenames zone alg tag = Ok (pub_name tag, priv_name tag).
Proof using Hzone. unfold MakeKeyFilenames. rewrite zone_name_for_file. cbn [rbind]. unfold pub_name, priv_name, key_prefix. by rewrite !str_app_assoc. Qed.
Lemma pub_name_inj t t' : 0 <= t < 65536 -> 0 <= t' < 65536 -> pub_name t = pub_name t' -> t = t'.
Proof. intros Ht Ht' He. apply str_app_inj_l, str_app_inj_r in He. by apply padded5_inj. Qed.
Lemma priv_name_inj t t' : 0 <= t < 65536 -> 0 <= t' < 65536 -> priv_name t = priv_name t' -> t = t'.
Proof. intros Ht Ht' He. apply str_app_inj_l, str_app_inj_r in He. by apply padded5_inj. Qed.
Lemma pub_not_priv t t' : pub_name t <> priv_name t'.
Proof. intros He%str_app_inj_l%(f_equal String.length). rewrite !str_length_app, !padded_length in He. discriminate He. Qed.
Lemma pub_not_active t : pub_name t <> active_file.
Proof. done. Qed.
Lemma priv_not_active t : priv_name t <> active_file.
Proof. done. Qed.
Lemma parse_tag name tag suffix : 0 <= tag < 65536 -> name = key_prefix alg +:+ padded 5 tag +:+ suffix -> parseKeyTagFromFilename (key_prefix alg) name = Some tag.
Proof.
  intros Ht ->. unfold parseKeyTagFromFilename. rewrite TrimPrefix_app. destruct (padded5 tag Ht) as [Hl Ha].
  assert (Hlen : (len (padded 5 tag +:+ suffix) <? 5) = false) by (apply Z.ltb_ge; unfold len; rewrite str_length_app, Hl; lia). rewrite Hlen.
  replace 5%nat with (String.length (padded 5 tag)) by done. rewrite str_take_app, Hl, Ha. destruct (Z.ltb_spec tag 0), (Z.ltb_spec 65535 tag); try lia. done.
Qed.

(** ** Keys and their files *)
Definition role_bits (role : KeyRole) : Z := if (role =? KeyRoleKSK)%string then kskBits km else zskBits km.
Definition role_flags (role : KeyRole) : Z := if (role =? KeyRoleKSK)%string then dnskeyKSKFlags else dnskeyZSKFlags.
(** The key generated at tick [t]. *)
Definition born (t : nat) (role : KeyRole) (kp : key_pair) : Prop :=
  exists pub priv, Generate lib t alg (role_bits role) = Ok (pub, priv)
    /\ kp_DNSKEY kp = mkDnskey zone ClassINET 3600 (role_flags role) 3 alg pub /\ kp_Private kp = priv /\ kp_Role kp = role
    /\ kp_ID kp = mkKeyID zone alg (KeyTag (rrs lib) (kp_DNSKEY kp)).
Abbreviation tag_of kp := (key_Tag (kp_ID kp)).
Definition pub_text (kp : key_pair) : string := dnskey_String lib (kp_DNSKEY kp) +:+ str1 (chr 10).
Definition meta_of (kp : key_pair) : EncryptedPrivateKey := mkEnvelope 0 "" "" "" (key_Zone (kp_ID kp)) (key_Alg (kp_ID kp)) (tag_of kp) (kp_Role kp).
Definition priv_text (kp : key_pair) (data : string) : Prop :=
  exists t nonce plain, rand_nonce lib t = Ok nonce /\ marshal_private lib km (kp_Private kp) = Ok plain /\ length (masterKey km) = MasterKeySize
    /\ marshal_envelope lib (sealed lib (masterKey km) nonce plain (meta_of kp)) = Ok data.
(** The key two files stand for. *)
Definition decode_pair (pub priv : string) : option key_pair :=
  match NewRR lib pub, DecryptPrivateKey lib (masterKey km) priv with
  | Ok (Some key), Ok (plain, envelope) =>
    match parse_private lib km plain with
    | Ok k => Some (mkKeyPair (mkKeyID zone (env_Algorithm envelope) (env_KeyTag envelope)) (env_Role envelope) key k)
    | Err _ => None
    end
  | _, _ => None
  end.
Lemma private_round_trip k data : marshal_private lib km k = Ok data -> parse_private lib km data = Ok k.
Proof using KeyLaws0.
  unfold marshal_private, parse_private. destruct (alg =? 8); [|destruct (alg =? 13); [|done]]; destruct k as [k|k|]; try done.
  - intros [= <-]. by rewrite kl_rsa.
  - destruct (MarshalECPrivateKey lib k) as [d|e] eqn:Em; [|done]. intros [= <-]. by rewrite (kl_ec _ _ Em).
Qed.
Lemma sealed_opens t nonce plain meta data : rand_nonce lib t = Ok nonce -> length (masterKey km) = MasterKeySize -> marshal_envelope lib (sealed lib (masterKey km) nonce plain meta) = Ok data ->
  DecryptPrivateKey lib (masterKey km) data = Ok (plain, sealed lib (masterKey km) nonce plain meta).
Proof using KeyLaws0.
  intros Hn Hk Hm. destruct (kl_nonce _ _ Hn) as [Hl Hb]. unfold DecryptPrivateKey. rewrite Hk, Nat.eqb_refl, (kl_envelope _ _ Hm). cbn [negb sealed env_Version env_Cipher NonceB64 CiphertextB64].
  rewrite !base64_round_trip by (done || apply kl_bytes). change (1 =? 1) with true. rewrite Hl, Nat.eqb_refl. cbn [negb]. cbn -[gcm_Open gcm_Seal buildAAD].
  change (buildAAD (mkEnvelope 1 "aes-256-gcm" _ _ _ _ _ _)) with (buildAAD meta). by rewrite kl_open.
Qed.
Lemma decode_born t role kp data : born t role kp -> priv_text kp data -> decode_pair (pub_text kp) data = Some kp.
Proof using KeyLaws0 Hzone.
  intros (pub & priv & Hg & Hd & Hp & Hr & Hi) (t' & nonce & plain & Hn & Hm & Hk & Hdata). unfold decode_pair, pub_text. rewrite Hd, (kl_public _ _ _ _ _ _ _ Hzone Hg), (sealed_opens _ _ _ _ _ Hn Hk Hdata), (private_round_trip _ _ Hm).
  cbn [sealed env_Algorithm env_KeyTag env_Role meta_of]. destruct kp as [id r d k]. cbn in *. subst. done.
Qed.

(** ** Reading *)
Definition later (s s' : fs) : Prop := still s s' /\ (tick s <= tick s')%nat.
Lemma look_trans s1 s2 s3 : later s1 s2 -> later s2 s3 -> later s1 s3.
Proof. intros [H1 H2] [H3 H4]. split; [by eapply still_trans|lia]. Qed.
Definition unrelated (e : error) : Prop := errors_Is e ErrZoneNotFound = false.
Lemma wp_look n s (Q : result node -> fs -> Prop) :
  (forall e s', later s s' -> unrelated e -> (os_IsNotExist e = true -> entries s !! n = None) -> Q (Err e) s') ->
  (forall nd s', later s s' -> entries s !! n = Some nd -> Q (Ok nd) s') ->
  wpio (syscall w (fun _ d => (lookup_entry d n, d))) s Q.
Proof.
  intros HE HO. unfold wpio, syscall. destruct (fault w (tick s)) as [er|]; cbn [fst snd].
  - apply HE; [by split; [|cbn; lia]|by destruct er|by rewrite sys_error_exists].
  - destruct (lookup_entry (zone_dir s) n) as [nd|e] eqn:Hl; cbn.
    + apply HO; [by split; [|cbn; lia]|by apply lookup_entry_ok].
    + apply HE; [by split; [|cbn; lia]| |by apply lookup_entry_missing]. destruct (zone_dir s); cbn in Hl; try by injection Hl as <-. destruct (entries !! n); [done|by injection Hl as <-].
Qed.
Lemma wp_answer {A} (v : A) s (Q : result A -> fs -> Prop) :
  (forall e s', later s s' -> unrelated e -> os_IsNotExist e = false -> Q (Err e) s') -> (forall s', later s s' -> Q (Ok v) s') ->
  wpio (syscall w (fun _ d => (Ok v, d))) s Q.
Proof.
  intros HE HO. unfold wpio, syscall. destruct (fault w (tick s)) as [er|]; cbn [fst snd]; [apply HE; [by split; [|cbn; lia]|by destruct er|apply sys_error_exists]|apply HO; by split; [|cbn; lia]].
Qed.
Definition read_of (n : string) (s : fs) (r : result string) : Prop :=
  match r with
  | Ok data => content (entries s !! n) = Some data
  | Err e => unrelated e /\ (os_IsNotExist e = true -> entries s !! n = None)
  end.
Lemma wp_readKey n validate s : (forall v p e, validate = Some v -> v p = Err e -> unrelated e /\ os_IsNotExist e = false) -> wpio (readValidatedRegularKeyFile w n validate) s (fun r s' => later s s' /\ read_of n s r).
Proof.
  intros Hval. unfold readValidatedRegularKeyFile. assert (Hcheck : forall info e, check_info validate info = Err e -> unrelated e /\ os_IsNotExist e = false) by (intros info e; unfold check_info; destruct validate; [by apply Hval|done]).
  apply wpio_try, wp_look; [done|]. intros info s1 H1 Hinfo. destruct (is_symlink info); [by apply wpio_ret|]. destruct (is_regular info) eqn:Hreg; cbn [negb]; [|by apply wpio_ret].
  destruct (Z.ltb_spec maxDNSSECKeyFileSize (node_size info)) as [|Hsize]; [by apply wpio_ret|]. apply wpio_try, wpio_ret. destruct (check_info validate info) as [u|e] eqn:Ec; [|destruct (Hcheck _ _ Ec) as [Hu Hx]; split; [done|]; split; [done|]; by rewrite Hx].
  assert (Hk : forall s2, later s1 s2 -> later s s2) by (intros s2; by apply look_trans).
  apply wpio_try, wp_look; rewrite (proj1 H1); [intros e s2 H2 He Hm; split; [by apply Hk|done]|]. intros file s2 H2 Hfile. rewrite Hinfo in Hfile. injection Hfile as <-.
  apply wpio_try, wp_answer; [intros e s3 H3 He Hm; split; [apply Hk; by eapply look_trans|split; [done|by rewrite Hm]]|]. intros s3 H3. assert (H03 : later s s3) by (apply Hk; by eapply look_trans).
  destruct (SameFile info info); cbn [negb]; [|by apply wpio_ret]. rewrite Hreg. cbn [negb]. rewrite (proj2 (Z.ltb_ge maxDNSSECKeyFileSize (node_size info))) by lia.
  apply wpio_try, wpio_ret. rewrite Ec. apply wpio_try, wp_answer; [intros e s4 H4 He Hm; split; [by eapply look_trans|split; [done|by rewrite Hm]]|]. intros s4 H4. assert (H04 : later s s4) by (by eapply look_trans).
  destruct info as [i perm t data| | |]; try discriminate. cbn [node_data node_size] in *. rewrite (proj2 (Z.leb_le (len data) (maxDNSSECKeyFileSize + 1))) by lia. rewrite (proj2 (Z.ltb_ge maxDNSSECKeyFileSize (len data))) by lia.
  apply wpio_ret. split; [done|]. cbn. by rewrite Hinfo.
Qed.
Lemma wp_read_key n s : wpio (readRegularKeyFile w n) s (fun r s' => later s s' /\ read_of n s r).
Proof. by apply wp_readKey. Qed.
Lemma wp_or_not_found n text s (Q : result string -> fs -> Prop) :
  (forall e s', later s s' -> (errors_Is e ErrZoneNotFound = true -> entries s !! n = None) -> Q (Err e) s') -> (forall data s', later s s' -> content (entries s !! n) = Some data -> Q (Ok data) s') ->
  wpio (or_not_found text (readRegularKeyFile w n)) s Q.
Proof.
  intros HE HO. apply wpio_bind. eapply wpio_mono; [apply wp_read_key|]. intros [data|e] s1 [H1 Hr]; cbn in Hr; apply wpio_ret; [by apply HO|]. destruct Hr as [Hu Hm]. destruct (os_IsNotExist e); apply HE; [done|auto|done|]. cbn. unfold unrelated in Hu. by rewrite Hu.
Qed.

(** ** What a directory stands for *)
Abbreviation nodes := (gmap string node).
Definition pair_at (es : nodes) (tag : Z) : option key_pair :=
  match content (es !! pub_name tag), content (es !! priv_name tag) with Some pub, Some priv => decode_pair pub priv | _, _ => None end.
Definition active_tags (es : nodes) : option activeKeys :=
  match content (es !! active_file) with Some data => match unmarshal_active lib data (mkActive 0 0 0) with Ok a => Some a | Err _ => None end | None => None end.
Definition role_tag (role : KeyRole) (a : activeKeys) : Z := if (role =? KeyRoleKSK)%string then ActiveKSKTag a else ActiveZSKTag a.
Definition active_key (es : nodes) (role : KeyRole) : option key_pair := a ← active_tags es; pair_at es (role_tag role a).
Definition is_role (role : KeyRole) : Prop := role = KeyRoleKSK \/ role = KeyRoleZSK.
Lemma wp_load_active role s : is_role role -> wpio (loadKey lib w km zone role) s (fun r s' => later s s'
  /\ match r with Ok kp => active_key (entries s) role = Some kp | Err e => errors_Is e ErrZoneNotFound = true -> active_key (entries s) role = None end).
Proof using Hzone.
  intros Hrole. unfold loadKey, active_key, active_tags. apply wpio_try, wpio_ret. rewrite Hzone. apply wpio_try, wpio_ret. rewrite zone_name_for_file.
  apply wpio_try, wp_or_not_found; [intros e s1 H1 He; split; [done|]; intros Hi; by rewrite (He Hi)|]. intros data s1 H1 Hdata. rewrite Hdata. apply wpio_try, wpio_ret. destruct (unmarshal_active lib data (mkActive 0 0 0)) as [a|e]; cbn [wrap]; [|done].
  apply wpio_try, wpio_ret. assert (Htag : (if (role =? KeyRoleKSK)%string then Ok (ActiveKSKTag a) else if (role =? KeyRoleZSK)%string then Ok (ActiveZSKTag a) else Err (Errorf ("invalid key role: " +:+ role))) = Ok (role_tag role a)) by (by destruct Hrole as [-> | ->]).
  rewrite Htag. cbn [mbind option_bind]. set (tag := role_tag role a). apply wpio_try, wpio_ret. rewrite key_filenames. cbn [fst snd]. unfold pair_at.
  apply wpio_try, wp_or_not_found; rewrite (proj1 H1); [intros e s2 H2 He; split; [by eapply look_trans|]; intros Hi; by rewrite (He Hi)|]. intros pub s2 H2 Hpub. rewrite Hpub. assert (H02 : later s s2) by (by eapply look_trans).
  apply wpio_try, wpio_ret. unfold decode_pair. destruct (NewRR lib pub) as [rr|e]; cbn [wrap]; [|split; [done|]; intros _; destruct (content (entries s !! priv_name tag)); reflexivity]. apply wpio_try, wpio_ret. destruct rr as [key|]; [|split; [done|]; intros _; destruct (content (entries s !! priv_name tag)); reflexivity].
  apply wpio_try, wp_or_not_found; rewrite (proj1 H02); [intros e s3 H3 He; split; [by eapply look_trans|]; intros Hi; by rewrite (He Hi)|]. intros priv s3 H3 Hpriv. rewrite Hpriv. assert (H03 : later s s3) by (by eapply look_trans).
  apply wpio_try, wpio_ret. destruct (DecryptPrivateKey lib (masterKey km) priv) as [[plain envelope]|e]; cbn [wrap]; [|done]. apply wpio_try, wpio_ret. cbn [fst snd]. destruct (parse_private lib km plain) as [k|e]; [|done]. by apply wpio_ret.
Qed.

(** ** Files that were written by the manager *)
(** [n] bounds the ticks at which the keys were generated. *)
Record fits (m data : string) (n : nat) : Prop := {
  fit_pub : forall tag, 0 <= tag < 65536 -> m = pub_name tag -> exists t role kp, (t < n)%nat /\ is_role role /\ born t role kp /\ tag_of kp = tag /\ data = pub_text kp;
  fit_priv : forall tag, 0 <= tag < 65536 -> m = priv_name tag -> exists t role kp, (t < n)%nat /\ is_role role /\ born t role kp /\ tag_of kp = tag /\ priv_text kp data;
  fit_active : m = active_file -> exists a, (forall a0, unmarshal_active lib data a0 = Ok a) /\ active_Algorithm a = alg
    /\ forall role, is_role role -> role_tag role a = 0 \/ exists t kp, (t < n)%nat /\ born t role kp /\ tag_of kp = role_tag role a }.
Definition key_file (m : string) : Prop := m = active_file \/ exists tag, m = pub_name tag \/ m = priv_name tag.
Definition dir_ok (es : nodes) (n : nat) : Prop := forall m data, key_file m -> content (es !! m) = Some data -> fits m data n.
Lemma fits_later m data n n' : (n <= n')%nat -> fits m data n -> fits m data n'.
Proof.
  intros Hn [H1 H2 H3]. split.
  - intros tag Ht Hm. destruct (H1 tag Ht Hm) as (t & role & kp & Hlt & Hrest). exists t, role, kp. split; [lia|done].
  - intros tag Ht Hm. destruct (H2 tag Ht Hm) as (t & role & kp & Hlt & Hrest). exists t, role, kp. split; [lia|done].
  - intros Hm. destruct (H3 Hm) as (a & Hu & Ha & Hr). exists a. split_and!; [done..|]. intros role Hrole. destruct (Hr role Hrole) as [|(t & kp & Hlt & Hrest)]; [by left|right]. exists t, kp. split; [lia|done].
Qed.
(** Every file is as before, gone, or one of the manager's. *)
Lemma dir_ok_step es es' n n' : (n <= n')%nat ->
  (forall m, key_file m -> content (es' !! m) = content (es !! m) \/ content (es' !! m) = None \/ exists data, content (es' !! m) = Some data /\ fits m data n') -> dir_ok es n -> dir_ok es' n'.
Proof.
  intros Hn Hm Hok m data Hk Hd. destruct (Hm m Hk) as [He|[He|(data' & He & Hf)]]; rewrite He in Hd; [|done|by injection Hd as <-]. eapply fits_later; [exact Hn|]. by apply Hok.
Qed.

(** ** Writing *)
Lemma temp_not_key path m : key_file m -> ~ temp_name (temp_pre path) ".tmp" m.
Proof. by intros [->|[tag [->| ->]]] [r Hr]. Qed.
Lemma replaced_other path new m s s' : replaced path (temp_pre path) ".tmp" new s s' -> key_file m -> m <> path -> entries s' !! m = entries s !! m.
Proof. intros [Ho _] Hk Hm. apply Ho. intros [?|[Ht _]]; [done|]. by apply (temp_not_key path m Hk). Qed.
Lemma replaced_ok path data n n' s s' : replaced path (temp_pre path) ".tmp" (Some data) s s' -> (n <= n')%nat -> fits path data n' -> dir_ok (entries s) n -> dir_ok (entries s') n'.
Proof.
  intros Hr Hn Hf. apply dir_ok_step; [done|]. intros m Hk. destruct (decide (m = path)) as [->|Hne]; [|left; by rewrite (replaced_other path (Some data) m s s')]. destruct Hr as [_ [Hc|Hc]]; [by left|]. right. right. by exists data.
Qed.
Lemma ticking_create tries pre suf : ticking (create_temp w tries pre suf).
Proof. induction tries as [|tries IH]; intros s; [done|]. revert s. apply ticking_bind; [apply ticking_syscall|]. intros [[n|]|e]; [by intros s|exact IH|by intros s]. Qed.
Lemma ticking_put n data : ticking (tmp_Write w n data).
Proof. intros s. unfold tmp_Write. destruct (fault w _); cbn; lia. Qed.
Lemma ticking_key_sync : ticking (key_syncDir w).
Proof. apply ticking_try; [apply ticking_syscall|]. intros _. apply ticking_syscall. Qed.
Lemma ticking_atomic path data perm : ticking (writeFileAtomic w path data perm).
Proof.
  apply ticking_try; [apply ticking_wrap, ticking_create|]. intros tmp. apply ticking_bind.
  - repeat (apply ticking_try; [apply ticking_wrap; (apply ticking_syscall || apply ticking_put)|]; intros _). apply ticking_wrap, ticking_key_sync.
  - intros [|e]; [by intros s|]. apply ticking_bind; [apply ticking_syscall|]. intros _. apply ticking_bind; [apply ticking_syscall|]. by intros r s.
Qed.
Lemma quiet_key_sync : quiet (key_syncDir w).
Proof. apply quiet_try; [by apply quiet_syscall|]. intros _. by apply quiet_syscall. Qed.
Definition wrote (path data : string) (r : result unit) (s s' : fs) : Prop :=
  replaced path (temp_pre path) ".tmp" (Some data) s s' /\ (r = Ok tt -> content (entries s' !! path) = Some data) /\ (tick s <= tick s')%nat.
Lemma wp_atomic path data perm s : wpio (writeFileAtomic w path data perm) s (fun r s' => wrote path data r s s').
Proof.
  assert (Hmain : wpio (writeFileAtomic w path data perm) s (fun r s' => replaced path (temp_pre path) ".tmp" (Some data) s s' /\ (r = Ok tt -> content (entries s' !! path) = Some data))).
  2: { pose proof (ticking_atomic path data perm s). unfold wrote, wpio in *. tauto. }
  assert (Hn : ~ temp_name (temp_pre path) ".tmp" path) by apply temp_longer, dotted_longer. unfold writeFileAtomic, os_CreateTemp. apply wpio_try, wpio_wrap. eapply wpio_mono; [apply wp_create|].
  intros [tmp|e] s1; cbn [wrap]; [|intros H1; split; [|done]; apply replaced_temp; [done|]; intros m _; by rewrite H1]. intros (Hf & i & p & t & x & H1). apply wpio_bind.
  eapply (wpio_mono _ _ (fun r s' => (exists nd, entries s' = <[tmp := nd]> (entries s) /\ r <> Ok tt) \/ (only (fun m => m = path \/ fresh_temp (temp_pre path) ".tmp" s m) s s' /\ content (entries s' !! path) = Some data))).
  - apply wpio_try, wpio_wrap. unfold wpio at 1, tmp_Chmod, syscall. destruct (fault w (tick s1)) as [er|]; cbn [fst snd wrap]; [left; by exists (Regular i p t x)|]. apply wpio_try, wpio_wrap. unfold wpio at 1, tmp_Write. cbn [tick zone_dir]. set (t1 := S (tick s1)).
    assert (Hput : forall c, ents (update_entries (alter (set_data (mtime_now w t1) c) tmp) (update_entries (alter (set_perm perm) tmp) (zone_dir s1))) = <[tmp := Regular i perm (mtime_now w t1) c]> (entries s)) by (intros c; by rewrite !ents_alter, H1, !alter_insert_eq).
    destruct (fault w t1) as [er|]; cbn [fst snd zone_dir wrap]; [left; eexists; split; [apply Hput|done]|]. set (s2 := mkFs _ (S t1)). set (nd := Regular i perm (mtime_now w t1) data). assert (H2 : entries s2 = <[tmp := nd]> (entries s)) by apply Hput. clearbody s2.
    apply wpio_try, wpio_wrap, (wp_value w (fun _ => tt)); [intros e s3 H3 _; left; exists nd; by rewrite H3|]. intros _ s3 H3.
    apply wpio_try, wpio_wrap, (wp_value w (fun _ => tt)); [intros e s4 H4 _; left; exists nd; by rewrite H4, H3|]. intros _ s4 H4. assert (He4 : entries s4 = <[tmp := nd]> (entries s)) by (by rewrite H4, H3).
    apply wpio_try, wpio_wrap. eapply wpio_mono; [apply wp_rename|]. intros [[]|e] s5; cbn [wrap]; [|intros H5; left; exists nd; by rewrite H5].
    intros (nd' & Hnd & H5). rewrite He4, lookup_insert_eq in Hnd. injection Hnd as <-. destruct (rename_temp path (temp_pre path) ".tmp" tmp nd s s4 s5 Hf He4 H5) as [Ho Hnew].
    eapply wpio_mono; [apply wp_quiet, quiet_wrap, quiet_key_sync|]. intros r s6 H6. right. split; [intros m Hm; by rewrite H6, Ho|by rewrite H6, Hnew].
  - intros r s2 [(nd & H2 & Hr)|[Ho Hc]].
    + destruct r as [[]|e]; [done|]. apply wpio_bind. eapply wpio_mono; [apply wp_quiet; by apply quiet_syscall|]. intros r3 s3 H3. apply wpio_bind. eapply wpio_mono; [apply wp_remove_any|]. intros r4 s4 H4. apply wpio_ret. split; [|done].
      rewrite H3 in H4. by apply (replaced_cleanup path (temp_pre path) ".tmp" _ tmp nd s s2 s4 Hn Hf H2).
    + destruct r as [[]|e]; [apply wpio_ret; split; [split; [done|by right]|done]|]. apply wpio_bind. eapply wpio_mono; [apply wp_quiet; by apply quiet_syscall|]. intros r3 s3 H3. apply wpio_bind. eapply wpio_mono; [apply wp_remove_any|].
      intros r4 s4 H4. apply wpio_ret. split; [|done]. rewrite H3 in H4. assert (Hne : tmp <> path) by (intros ->; by apply Hn, Hf). split.
      * intros m Hm. destruct H4 as [-> | ->]; [by apply Ho|]. rewrite lookup_delete_ne; [by apply Ho|]. intros <-. apply Hm. by right.
      * right. destruct H4 as [-> | ->]; [done|]. by rewrite lookup_delete_ne.
Qed.

Lemma pub_file tag : key_file (pub_name tag).
Proof. right. exists tag. by left. Qed.
Lemma priv_file tag : key_file (priv_name tag).
Proof. right. exists tag. by right. Qed.
Lemma active_is_file : key_file active_file.
Proof. by left. Qed.
Lemma born_tag t role kp : born t role kp -> 0 <= tag_of kp < 65536.
Proof using KeyLaws0. intros (pub & priv & _ & _ & _ & _ & ->). apply kl_tag. Qed.
Lemma pub_fits t role kp n : born t role kp -> is_role role -> (t < n)%nat -> fits (pub_name (tag_of kp)) (pub_text kp) n.
Proof using KeyLaws0.
  intros Hb Hr Ht. split; [|intros tag _ He; by apply pub_not_priv in He|intros He; by apply pub_not_active in He]. intros tag Htag He%pub_name_inj; [|by eapply born_tag|done]. exists t, role, kp. by split_and!.
Qed.
Lemma priv_fits t role kp data n : born t role kp -> is_role role -> (t < n)%nat -> priv_text kp data -> fits (priv_name (tag_of kp)) data n.
Proof using KeyLaws0.
  intros Hb Hr Ht Hd. split; [intros tag _ He; symmetry in He; by apply pub_not_priv in He| |intros He; by apply priv_not_active in He]. intros tag Htag He%priv_name_inj; [|by eapply born_tag|done]. exists t, role, kp. by split_and!.
Qed.
Lemma wp_mkdir_later s : wpio (os_MkdirAll w) s (fun _ s' => entries s' = entries s /\ (tick s <= tick s')%nat).
Proof. pose proof (wp_mkdir w s) as H1. pose proof (ticking_syscall w (fun _ d => match d with Missing => (Ok tt, Dir ∅) | Dir _ | LinkDir => (Ok tt, d) | NotDir => (Err (Errorf "not a directory"), d) end) s) as H2. unfold wpio in *. split; [done|exact H2]. Qed.
(** A key's files are written; nothing else changes. *)
Definition saved (kp : key_pair) (r : result unit) (s s' : fs) : Prop :=
  (tick s <= tick s')%nat /\ (forall m, key_file m -> m <> pub_name (tag_of kp) -> m <> priv_name (tag_of kp) -> entries s' !! m = entries s !! m)
  /\ (dir_ok (entries s) (tick s) -> dir_ok (entries s') (tick s')) /\ (r = Ok tt -> pair_at (entries s') (tag_of kp) = Some kp).
Lemma wp_saveKeyFiles t role kp s : born t role kp -> is_role role -> (t < tick s)%nat -> wpio (saveKeyFiles lib w km kp) s (fun r s' => saved kp r s s').
Proof using KeyLaws0 Hzone.
  intros Hb Hr Ht. pose proof Hb as (pub & priv & Hg & Hd & Hp & Hrole & Hid). assert (Hzk : key_Zone (kp_ID kp) = zone) by (by rewrite Hid). assert (Hak : key_Alg (kp_ID kp) = alg) by (by rewrite Hid).
  assert (Hstop : forall e s1, entries s1 = entries s -> (tick s <= tick s1)%nat -> saved kp (Err e) s s1).
  { intros e s1 H1 H2. split_and!; [done|by intros; rewrite H1| |done]. rewrite H1. apply dir_ok_step; [done|]. by left. }
  unfold saveKeyFiles. cbv zeta. rewrite Hzk, Hak. apply wpio_try, wpio_ret. rewrite zone_name_for_file. apply wpio_try, wpio_wrap. eapply wpio_mono; [apply wp_mkdir_later|]. intros [[]|e] s1 [H1 T1]; cbn [wrap]; [|by apply Hstop].
  apply wpio_try, wpio_ret. rewrite key_filenames. cbn [fst snd]. apply wpio_try, wpio_ret. destruct (marshal_private lib km (kp_Private kp)) as [plain|e] eqn:Em; [|by apply Hstop].
  apply wpio_try, wpio_wrap. unfold EncryptPrivateKey. destruct (length (masterKey km) =? MasterKeySize)%nat eqn:Ek; cbn [negb]; [|apply wpio_ret; by apply Hstop]. apply Nat.eqb_eq in Ek.
  apply wpio_try, wpio_wrap. unfold wpio at 1, draw. cbn [fst snd]. set (s2 := mkFs _ _). assert (H2 : entries s2 = entries s) by exact H1. assert (T2 : (tick s <= tick s2)%nat) by (cbn; lia). clearbody s2. destruct (rand_nonce lib (tick s1)) as [nonce|e] eqn:En; cbn [wrap]; [|by apply Hstop].
  apply wpio_ret. assert (Hmeta : mkEnvelope 0 "" "" "" zone alg (tag_of kp) (kp_Role kp) = meta_of kp) by (unfold meta_of; by rewrite Hzk, Hak). rewrite Hmeta. destruct (marshal_envelope lib (sealed lib (masterKey km) nonce plain (meta_of kp))) as [data|e] eqn:Ed; cbn [wrap]; [|by apply Hstop].
  assert (Hdata : priv_text kp data) by (by exists (tick s1), nonce, plain).
  assert (Hpub : forall r e s3, wrote (pub_name (tag_of kp)) (pub_text kp) r s2 s3 -> saved kp (Err e) s s3).
  { intros r e s3 (Hw & _ & T3). split_and!; [lia| | |done].
    - intros m Hk Hm _. rewrite (replaced_other _ _ m _ _ Hw Hk Hm). by rewrite H2.
    - intros Hok. eapply replaced_ok; [exact Hw| |apply (pub_fits t role); [done|done|lia]|rewrite H2; exact Hok]. lia. }
  apply wpio_try, wpio_wrap. eapply wpio_mono; [apply wp_atomic|]. intros [[]|e] s3 H3; cbn [wrap]; [|by apply (Hpub _ _ _ H3)].
  specialize (Hpub _ (Errorf "") _ H3) as (T3 & Hoth3 & Hok3 & _). destruct H3 as (_ & Hc3 & _). specialize (Hc3 eq_refl). apply wpio_wrap. eapply wpio_mono; [apply wp_atomic|]. intros r s4 (Hw4 & Hc4 & T4). split_and!; [lia| | |].
  - intros m Hk Hm1 Hm2. rewrite (replaced_other _ _ m _ _ Hw4 Hk Hm2). by apply Hoth3.
  - intros Hok%Hok3. eapply replaced_ok; [exact Hw4| |apply (priv_fits t role); [done|done|lia|done]|exact Hok]. lia.
  - destruct r as [[]|e]; cbn [wrap]; [|done]. intros _. unfold pair_at. rewrite (replaced_other _ _ (pub_name (tag_of kp)) _ _ Hw4 (pub_file _)) by apply pub_not_priv. rewrite Hc3, (Hc4 eq_refl). by eapply decode_born.
Qed.

(** *** The active keys *)
Lemma wp_readActive s : wpio (readActiveKeys lib w km zone) s (fun r s' => later s s'
  /\ match r with Ok a => content (entries s !! active_file) = None /\ a = mkActive alg 0 0 \/ exists data, content (entries s !! active_file) = Some data /\ unmarshal_active lib data (mkActive alg 0 0) = Ok a | Err _ => True end).
Proof using Hzone.
  unfold readActiveKeys. apply wpio_try, wpio_ret. rewrite zone_name_for_file. cbv zeta. apply wpio_bind. eapply wpio_mono; [apply wp_read_key|]. intros [data|e] s1 [H1 Hr]; cbn in Hr.
  - apply wpio_ret. split; [done|]. destruct (unmarshal_active lib data (mkActive alg 0 0)) as [a|e] eqn:Eu; cbn [wrap]; [|done]. right. by exists data.
  - destruct Hr as [_ Hm]. destruct (os_IsNotExist e); apply wpio_ret; (split; [done|]); [|done]. left. by rewrite Hm.
Qed.
Definition activated (a : activeKeys) (r : result unit) (s s' : fs) : Prop :=
  (tick s <= tick s')%nat /\ (forall m, key_file m -> m <> active_file -> entries s' !! m = entries s !! m)
  /\ (active_tags (entries s') = active_tags (entries s) \/ active_tags (entries s') = Some a) /\ (r = Ok tt -> active_tags (entries s') = Some a)
  /\ (active_Algorithm a = alg -> (forall role, is_role role -> role_tag role a = 0 \/ exists t kp, (t < tick s)%nat /\ born t role kp /\ tag_of kp = role_tag role a) -> dir_ok (entries s) (tick s) -> dir_ok (entries s') (tick s')).
Lemma active_same es es' : content (es' !! active_file) = content (es !! active_file) -> active_tags es' = active_tags es.
Proof. unfold active_tags. by intros ->. Qed.
Lemma wp_writeActive a s : wpio (writeActiveKeys lib w zone a) s (fun r s' => activated a r s s').
Proof using KeyLaws0 Hzone.
  unfold writeActiveKeys. apply wpio_try, wpio_ret. rewrite zone_name_for_file. apply wpio_try, wpio_ret. destruct (marshal_active lib a) as [data|e] eqn:Em; cbn [wrap].
  2: { split_and!; [done|done|by left|done|done]. }
  apply wpio_wrap. eapply wpio_mono; [apply wp_atomic|]. intros r s1 (Hw & Hc & T1). pose proof (kl_active _ _ Em) as Hu. assert (Hnew : content (entries s1 !! active_file) = Some data -> active_tags (entries s1) = Some a) by (intros Hx; unfold active_tags; by rewrite Hx, Hu).
  split_and!; [done| | | |].
  - intros m Hk Hm. by apply (replaced_other active_file (Some data)).
  - destruct Hw as [_ [Hx|Hx]]; [left; by apply active_same|right; by apply Hnew].
  - destruct r as [[]|e]; cbn [wrap]; [|done]. intros _. by apply Hnew, Hc.
  - intros Ha Hr Hok. eapply replaced_ok; [exact Hw|exact T1| |exact Hok]. split; [intros tag _ He; symmetry in He; by apply pub_not_active in He|intros tag _ He; symmetry in He; by apply priv_not_active in He|]. intros _. exists a. split_and!; [done..|].
    intros role Hrole. destruct (Hr role Hrole) as [|(t & kp & Ht & Hrest)]; [by left|right]. exists t, kp. split; [lia|done].
Qed.

(** ** Keys are told apart by their tags

    A run generates finitely many keys: at the ticks of the others the library
    may be taken to fail. *)
Record distinct_tags : Prop := {
  tags_inj : forall t t' role role' kp kp', is_role role -> is_role role' -> born t role kp -> born t' role' kp' -> tag_of kp = tag_of kp' -> t = t' /\ role = role';
  tags_nonzero : forall t role kp, is_role role -> born t role kp -> tag_of kp <> 0 }.
Context (Htags : distinct_tags).

Lemma born_det t role kp kp' : born t role kp -> born t role kp' -> kp = kp'.
Proof.
  intros (pub & priv & Hg & Hd & Hp & Hr & Hi) (pub' & priv' & Hg' & Hd' & Hp' & Hr' & Hi'). rewrite Hg in Hg'. injection Hg' as <- <-. destruct kp as [id r d k], kp' as [id' r' d' k']. cbn in *. congruence.
Qed.
Lemma pair_born es n tag kp : dir_ok es n -> 0 <= tag < 65536 -> pair_at es tag = Some kp -> exists t role, (t < n)%nat /\ is_role role /\ born t role kp /\ tag_of kp = tag.
Proof using KeyLaws0 Hzone Htags.
  intros Hok Htag. unfold pair_at. destruct (content (es !! pub_name tag)) as [pub|] eqn:Ep; [|done]. destruct (content (es !! priv_name tag)) as [priv|] eqn:Eq; [|done].
  destruct (fit_pub _ _ _ (Hok _ _ (pub_file tag) Ep) tag Htag eq_refl) as (t & role & kp1 & Ht & Hr & Hb & Hk & ->). destruct (fit_priv _ _ _ (Hok _ _ (priv_file tag) Eq) tag Htag eq_refl) as (t' & role' & kp2 & Ht' & Hr' & Hb' & Hk' & Hp).
  destruct (tags_inj Htags t t' role role' kp1 kp2 Hr Hr' Hb Hb') as [<- <-]; [congruence|]. rewrite <- (born_det _ _ _ _ Hb Hb') in *. rewrite (decode_born _ _ _ _ Hb Hp). intros [= <-]. by exists t, role.
Qed.
Lemma no_pair_zero es n : dir_ok es n -> pair_at es 0 = None.
Proof using KeyLaws0 Hzone Htags. intros Hok. destruct (pair_at es 0) as [kp|] eqn:Ek; [|done]. destruct (pair_born es n 0 kp Hok ltac:(lia) Ek) as (t & role & _ & Hr & Hb & Ht). by destruct (tags_nonzero Htags t role kp Hr Hb). Qed.
Lemma active_ok es n a : dir_ok es n -> active_tags es = Some a -> active_Algorithm a = alg /\ (forall data, content (es !! active_file) = Some data -> forall a0, unmarshal_active lib data a0 = Ok a)
  /\ forall role, is_role role -> role_tag role a = 0 \/ exists t kp, (t < n)%nat /\ born t role kp /\ tag_of kp = role_tag role a.
Proof.
  unfold active_tags. intros Hok. destruct (content (es !! active_file)) as [data|] eqn:Ed; [|done]. destruct (fit_active _ _ _ (Hok _ _ active_is_file Ed) eq_refl) as (a' & Hu & Ha & Hr). rewrite Hu. intros [= <-]. split_and!; [done| |done]. by intros ? [= <-].
Qed.
(** An active key was generated for its role. *)
Lemma active_born es n role kp : dir_ok es n -> is_role role -> active_key es role = Some kp -> exists t a, (t < n)%nat /\ born t role kp /\ active_tags es = Some a /\ role_tag role a = tag_of kp.
Proof using KeyLaws0 Hzone Htags.
  intros Hok Hrole. unfold active_key. destruct (active_tags es) as [a|] eqn:Ea; [|done]. cbn [mbind option_bind]. intros Hk. destruct (active_ok es n a Hok Ea) as (_ & _ & Hr). destruct (Hr role Hrole) as [Hz|(t & kp' & Ht & Hb & He)]; [by rewrite Hz, (no_pair_zero es n Hok) in Hk|].
  rewrite <- He in Hk. destruct (pair_born es n _ kp Hok (born_tag _ _ _ Hb) Hk) as (t' & role' & _ & Hr' & Hb' & He'). destruct (tags_inj Htags t t' role role' kp' kp Hrole Hr' Hb Hb' (eq_sym He')) as [<- <-]. rewrite <- (born_det _ _ _ _ Hb Hb') in *. by exists t, a.
Qed.
(** Nothing but the files of the key generated at [t0] changes. *)
Definition framed (t0 : nat) (role0 : KeyRole) (es es' : nodes) : Prop :=
  forall m, key_file m -> (forall kp0, born t0 role0 kp0 -> m <> pub_name (tag_of kp0) /\ m <> priv_name (tag_of kp0)) -> es' !! m = es !! m.
Lemma pair_frame es es' t0 role0 t role kp : framed t0 role0 es es' -> is_role role0 -> is_role role -> born t role kp -> (t < t0)%nat -> pair_at es' (tag_of kp) = pair_at es (tag_of kp).
Proof using KeyLaws0 Htags.
  intros Hf Hr0 Hr Hb Ht. assert (Hne : forall kp0, born t0 role0 kp0 -> tag_of kp <> tag_of kp0) by (intros kp0 Hb0 He; destruct (tags_inj Htags _ _ _ _ _ _ Hr Hr0 Hb Hb0 He); lia). pose proof (born_tag _ _ _ Hb).
  unfold pair_at. rewrite !Hf; [done|apply priv_file| |apply pub_file|]; intros kp0 Hb0; pose proof (born_tag _ _ _ Hb0); specialize (Hne kp0 Hb0); split.
  - intros Hx. symmetry in Hx. by apply pub_not_priv in Hx.
  - by intros ?%priv_name_inj.
  - by intros ?%pub_name_inj.
  - apply pub_not_priv.
Qed.
Lemma active_frame es es' n n' t0 role0 role : dir_ok es n -> dir_ok es' n' -> (n <= t0)%nat -> is_role role0 -> is_role role -> framed t0 role0 es es' -> active_key es' role = active_key es role.
Proof using KeyLaws0 Hzone Htags.
  intros Hok Hok' Hn Hr0 Hrole Hf. unfold active_key. assert (Ha : active_tags es' = active_tags es).
  { apply active_same. rewrite Hf; [done|apply active_is_file|]. intros kp0 _. split; apply not_eq_sym; [apply pub_not_active|apply priv_not_active]. }
  rewrite Ha. destruct (active_tags es) as [a|] eqn:Ea; [|done]. cbn [mbind option_bind]. destruct (active_ok es n a Hok Ea) as (_ & _ & Hr). destruct (Hr role Hrole) as [Hz|(t & kp & Ht & Hb & He)]; [by rewrite Hz, (no_pair_zero es n Hok), (no_pair_zero es' n' Hok')|].
  rewrite <- He. eapply pair_frame; [exact Hf|done|exact Hrole|exact Hb|lia].
Qed.

(** ** Operations on a zone *)
Definition set_tag (role : KeyRole) (tag : Z) (a : activeKeys) : activeKeys := if (role =? KeyRoleKSK)%string then mkActive alg tag (ActiveZSKTag a) else mkActive alg (ActiveKSKTag a) tag.
Lemma set_tag_same role tag a : role_tag role (set_tag role tag a) = tag.
Proof. unfold role_tag, set_tag. by destruct (role =? KeyRoleKSK)%string. Qed.
Lemma set_tag_other role role' tag a : is_role role -> is_role role' -> role' <> role -> role_tag role' (set_tag role tag a) = role_tag role' a.
Proof. by intros [->| ->] [->| ->]. Qed.
Lemma set_tag_alg role tag a : active_Algorithm (set_tag role tag a) = alg.
Proof. unfold set_tag. by destruct (role =? KeyRoleKSK)%string. Qed.
Lemma pair_activated a r s s' tag : activated a r s s' -> pair_at (entries s') tag = pair_at (entries s) tag.
Proof. intros (_ & Hoth & _). unfold pair_at. by rewrite !Hoth by (apply pub_file || apply priv_file || apply pub_not_active || apply priv_not_active). Qed.
(** The active key of [role] is as before or [kp], that of the other role is as
    before. *)
Definition rekeyed (role : KeyRole) (kp : key_pair) (s s' : fs) : Prop :=
  (tick s <= tick s')%nat /\ dir_ok (entries s') (tick s') /\ (forall role', is_role role' -> role' <> role -> active_key (entries s') role' = active_key (entries s) role')
  /\ (active_key (entries s') role = active_key (entries s) role \/ active_key (entries s') role = Some kp).
Lemma wp_updateActive t role kp s : born t role kp -> is_role role -> (t < tick s)%nat -> dir_ok (entries s) (tick s) -> pair_at (entries s) (tag_of kp) = Some kp ->
  wpio (updateActiveKeys lib w km kp) s (fun r s' => rekeyed role kp s s' /\ (r = Ok tt -> active_key (entries s') role = Some kp)).
Proof using KeyLaws0 Hzone Htags.
  intros Hb Hrole Ht Hok Hpair. pose proof Hb as (pub & priv & _ & _ & _ & Hkr & Hid). unfold updateActiveKeys. rewrite Hkr. assert (Hzk : key_Zone (kp_ID kp) = zone) by (by rewrite Hid). rewrite Hzk.
  apply wpio_try. eapply wpio_mono; [apply wp_readActive|]. intros [a|e] s1 [[H1 T1] Hr]. 2: { split; [|done]. split_and!; [done| |by intros; rewrite H1|left; by rewrite H1]. rewrite H1. eapply dir_ok_step; [exact T1|by left|done]. }
  assert (Hnew : forall X, (if (role =? KeyRoleKSK)%string then Ok (mkActive alg (tag_of kp) (ActiveZSKTag a)) else if (role =? KeyRoleZSK)%string then Ok (mkActive alg (ActiveKSKTag a) (tag_of kp)) else X) = Ok (set_tag role (tag_of kp) a)) by (intros X; by destruct Hrole as [->| ->]).
  apply wpio_try, wpio_ret. rewrite Hnew. eapply wpio_mono; [apply wp_writeActive|]. intros r s2 H2. pose proof (fun tag => pair_activated _ _ _ _ tag H2) as Hp2. rewrite H1 in Hp2. destruct H2 as (T2 & _ & Hact & Hdone & Hok2). rewrite H1 in Hact, Hok2.
  assert (Hold : forall role', is_role role' -> (role_tag role' a = 0 \/ exists t' kp', (t' < tick s)%nat /\ born t' role' kp' /\ tag_of kp' = role_tag role' a) /\ active_key (entries s) role' = pair_at (entries s) (role_tag role' a)).
  { intros role' Hrole'. unfold active_key, active_tags. destruct Hr as [[Hnone ->]|(data & Hd & Hu)].
    - rewrite Hnone. assert (Hz : role_tag role' (mkActive alg 0 0) = 0) by (unfold role_tag; by destruct (role' =? _)%string). rewrite Hz. split; [by left|]. by rewrite (no_pair_zero _ _ Hok).
    - rewrite Hd. destruct (fit_active _ _ _ (Hok _ _ active_is_file Hd) eq_refl) as (a' & Hu' & _ & Hr'). rewrite Hu' in Hu. injection Hu as <-. rewrite Hu'. split; [by apply Hr'|done]. }
  assert (Hok' : dir_ok (entries s2) (tick s2)).
  { apply Hok2; [apply set_tag_alg| |eapply dir_ok_step; [exact T1|by left|done]]. intros role' Hrole'. destruct (decide (role' = role)) as [->|Hne]; [right; exists t, kp; rewrite set_tag_same; split; [lia|done]|].
    rewrite set_tag_other by done. destruct (Hold role' Hrole') as [[|(t' & kp' & Ht' & Hrest)] _]; [by left|right; exists t', kp'; split; [lia|done]]. }
  assert (Hset : active_tags (entries s2) = Some (set_tag role (tag_of kp) a) -> active_key (entries s2) role = Some kp) by (intros Hx; unfold active_key; rewrite Hx; cbn [mbind option_bind]; by rewrite set_tag_same, Hp2).
  assert (Hkeep : active_tags (entries s2) = active_tags (entries s) -> forall role', active_key (entries s2) role' = active_key (entries s) role') by (intros Hx role'; unfold active_key; rewrite Hx; destruct (active_tags (entries s)); [|done]; cbn [mbind option_bind]; apply Hp2).
  split; [|auto]. split_and!; [lia|done| |destruct Hact as [Hact|Hact]; [left; by apply Hkeep|right; by apply Hset]]. intros role' Hrole' Hne. destruct Hact as [Hact|Hact]; [by apply Hkeep|].
  rewrite (proj2 (Hold role' Hrole')). unfold active_key. rewrite Hact. cbn [mbind option_bind]. by rewrite set_tag_other, Hp2.
Qed.
(** What [generateKeyLocked] makes at a tick. *)
Definition new_key (role : KeyRole) (g : string * private_key R E) : key_pair :=
  let key := mkDnskey zone ClassINET 3600 (role_flags role) 3 alg (fst g) in mkKeyPair (mkKeyID zone alg (KeyTag (rrs lib) key)) role key (snd g).
Lemma new_key_born t role g : Generate lib t alg (role_bits role) = Ok g -> born t role (new_key role g).
Proof. destruct g as [pub priv]. intros Hg. by exists pub, priv. Qed.
Lemma wp_generate role activate s (Q : result key_pair -> fs -> Prop) :
  (forall e s1, entries s1 = entries s -> (tick s <= tick s1)%nat -> Q (Err e) s1) ->
  (forall kp s1, born (tick s) role kp -> entries s1 = entries s -> tick s1 = S (tick s) ->
     wpio (if (activate : bool) then saveKey lib w km kp else saveKeyFiles lib w km kp) s1 (fun r s2 => match r with Ok _ => Q (Ok kp) s2 | Err e => Q (Err (Wrapf "save key" e)) s2 end)) ->
  wpio (generateKeyLocked lib w km zone role (role_bits role) (role_flags role) activate) s Q.
Proof using Hzone.
  clear Htags. intros HE HO. unfold generateKeyLocked. apply wpio_try, wpio_ret. rewrite Hzone. apply wpio_try, wpio_wrap. unfold wpio at 1, draw. cbn [fst snd]. set (s1 := mkFs _ _).
  destruct (Generate lib (tick s) alg (role_bits role)) as [g|e] eqn:Eg; cbn [wrap]; [|apply HE; [done|cbn; lia]]. cbv zeta. fold (new_key role g). apply wpio_try, wpio_wrap. eapply wpio_mono; [apply (HO (new_key role g) s1); [by apply new_key_born|done..]|]. by intros [u|e] s2.
Qed.
Lemma saved_framed t role kp r s s' : born t role kp -> saved kp r s s' -> framed t role (entries s) (entries s').
Proof. intros Hb (_ & Hoth & _) m Hk Hm. destruct (Hm kp Hb). by apply Hoth. Qed.
(** Without activation: the files are there, the active keys are as before. *)
Lemma wp_generate_files role s : is_role role -> dir_ok (entries s) (tick s) ->
  wpio (generateKeyLocked lib w km zone role (role_bits role) (role_flags role) false) s (fun r s' => (tick s <= tick s')%nat /\ dir_ok (entries s') (tick s') /\ framed (tick s) role (entries s) (entries s')
    /\ forall kp, r = Ok kp -> born (tick s) role kp /\ (tick s < tick s')%nat /\ pair_at (entries s') (tag_of kp) = Some kp).
Proof using KeyLaws0 Hzone.
  clear Htags. intros Hrole Hok. apply wp_generate.
  - intros e s1 H1 T1. split_and!; [done| |by intros m _ _; rewrite H1|done]. rewrite H1. eapply dir_ok_step; [exact T1|by left|done].
  - intros kp s1 Hb H1 T1. eapply wpio_mono; [apply (wp_saveKeyFiles (tick s) role); [done..|lia]|]. intros r s2 H2. pose proof (saved_framed _ _ _ _ _ _ Hb H2) as Hf. destruct H2 as (T2 & _ & Hok2 & Hp). rewrite H1 in *.
    assert (Hok2' : dir_ok (entries s2) (tick s2)) by (apply Hok2; eapply dir_ok_step; [|by left|exact Hok]; lia).
    destruct r as [[]|e]; (split_and!; [lia|done|done|]); [|done]. intros kp' [= <-]. split_and!; [done|lia|by apply Hp].
Qed.
(** With activation. *)
Lemma wp_generate_active role s : is_role role -> dir_ok (entries s) (tick s) ->
  wpio (generateKeyLocked lib w km zone role (role_bits role) (role_flags role) true) s (fun r s' => (exists kp, born (tick s) role kp /\ (tick s < tick s')%nat /\ rekeyed role kp s s' /\ (forall kp', r = Ok kp' -> kp' = kp /\ active_key (entries s') role = Some kp))
    \/ (entries s' = entries s /\ (tick s <= tick s')%nat /\ exists e, r = Err e)).
Proof using KeyLaws0 Hzone Htags.
  intros Hrole Hok. apply wp_generate; [intros e s1 H1 T1; right; split_and!; [done..|by exists e]|]. intros kp s1 Hb H1 T1. apply wpio_try. eapply wpio_mono; [apply (wp_saveKeyFiles (tick s) role); [done..|lia]|]. intros r s2 H2. pose proof (saved_framed _ _ _ _ _ _ Hb H2) as Hf.
  destruct H2 as (T2 & _ & Hok2 & Hp). rewrite H1 in *. assert (Hok2' : dir_ok (entries s2) (tick s2)) by (apply Hok2; eapply dir_ok_step; [|by left|exact Hok]; lia).
  assert (Hsame : forall role', is_role role' -> active_key (entries s2) role' = active_key (entries s) role') by (intros role' Hr'; eapply active_frame; [exact Hok|exact Hok2'|done|exact Hrole|done|exact Hf]).
  destruct r as [[]|e]. 2: { left. exists kp. split; [done|]. split; [lia|]. split; [|done]. split_and!; [lia|done|auto|left; by apply Hsame]. }
  apply wpio_wrap. eapply wpio_mono; [apply (wp_updateActive (tick s) role); [done|done|lia|done|by apply Hp]|]. intros r s3 [(T3 & Hok3 & Hoth & Hact) Hdone]. rewrite (Hsame role Hrole) in Hact.
  assert (Hre : rekeyed role kp s s3) by (split_and!; [lia|done|intros role' Hr' Hne; rewrite (Hoth role' Hr' Hne); by apply Hsame|done]). destruct r as [[]|e]; cbn [wrap]; left; exists kp; (split_and!; [done|lia|done|]); [|done]. intros kp' [= <-]. split; [done|by apply Hdone].
Qed.

(** ** What an operation promises *)
Definition fresh_key (n n' : nat) (role : KeyRole) (kp : key_pair) : Prop := exists t, (n <= t < n')%nat /\ born t role kp.
(** The active keys: the KSK and the ZSK. *)
Definition active_view (es : nodes) : option key_pair * option key_pair := (active_key es KeyRoleKSK, active_key es KeyRoleZSK).
Lemma view_same es es' : (forall role, is_role role -> active_key es' role = active_key es role) -> active_view es' = active_view es.
Proof. clear Htags. intros Hs. unfold active_view. by rewrite !Hs by (by left + right). Qed.
Definition loaded (role : KeyRole) (r : result key_pair) (es es' : nodes) : Prop :=
  active_view es' = active_view es /\ match r with Ok kp => active_key es role = Some kp | Err e => errors_Is e ErrZoneNotFound = true -> active_key es role = None end.
Definition generated (role : KeyRole) (n n' : nat) (r : result key_pair) (es es' : nodes) : Prop :=
  (forall role', is_role role' -> role' <> role -> active_key es' role' = active_key es role')
  /\ (active_key es' role = active_key es role \/ exists kp, fresh_key n n' role kp /\ active_key es' role = Some kp)
  /\ forall kp, r = Ok kp -> fresh_key n n' role kp /\ active_key es' role = Some kp.
Definition ensured (n n' : nat) (r : result (key_pair * key_pair)) (es es' : nodes) : Prop :=
  (forall role, is_role role -> active_key es' role = active_key es role \/ (active_key es role = None /\ exists kp, fresh_key n n' role kp /\ active_key es' role = Some kp))
  /\ forall a b, r = Ok (a, b) -> active_view es' = (Some a, Some b).
Definition rotated (n n' : nat) (r : result (key_pair * key_pair)) (es es' : nodes) : Prop :=
  (active_view es' = active_view es \/ exists a b, fresh_key n n' KeyRoleKSK a /\ fresh_key n n' KeyRoleZSK b /\ active_view es' = (Some a, Some b))
  /\ forall a b, r = Ok (a, b) -> fresh_key n n' KeyRoleKSK a /\ fresh_key n n' KeyRoleZSK b /\ active_view es' = (Some a, Some b).
(** Afterwards only the active keys are stored. *)
Definition cleared (r : result Z) (es es' : nodes) : Prop :=
  active_view es' = active_view es /\ forall count tag kp, r = Ok count -> 0 <= tag < 65536 -> pair_at es' tag = Some kp -> active_view es' = (Some kp, snd (active_view es')) \/ active_view es' = (fst (active_view es'), Some kp).
Definition removed (r : result unit) (es es' : nodes) : Prop :=
  (forall role, is_role role -> active_key es' role = active_key es role \/ active_key es' role = None) /\ match r with Ok _ => es' = ∅ | Err e => errors_Is e ErrZoneNotFound = true -> es' = ∅ end.
Definition exported (digestType : Z) (r : result string) (es es' : nodes) : Prop :=
  active_view es' = active_view es /\ forall ds, r = Ok ds -> exists kp, active_key es KeyRoleKSK = Some kp /\ ToDS_String (rrs lib) (kp_DNSKEY kp) digestType = Some ds.
(** Every operation keeps the directory well formed. *)
Definition kept (Q : nat -> nat -> nodes -> nodes -> Prop) (s s' : fs) : Prop := (tick s <= tick s')%nat /\ dir_ok (entries s') (tick s') /\ Q (tick s) (tick s') (entries s) (entries s').
Lemma later_ok s s' : later s s' -> dir_ok (entries s) (tick s) -> dir_ok (entries s') (tick s').
Proof. clear Htags. intros [Hs Ht] Hok. rewrite Hs. eapply dir_ok_step; [exact Ht|by left|done]. Qed.
Lemma wp_loadKey role s : is_role role -> dir_ok (entries s) (tick s) -> wpio (loadKey lib w km zone role) s (fun r s' => kept (fun _ _ => loaded role r) s s').
Proof using Hzone.
  clear Htags. intros Hrole Hok. eapply wpio_mono; [by apply wp_load_active|]. intros r s1 [H1 Hr]. split; [apply H1|]. split; [by eapply later_ok|]. split; [by rewrite (proj1 H1)|done].
Qed.
Lemma wp_export digestType s : dir_ok (entries s) (tick s) ->
  wpio (io_try (io_wrap "load ksk" (loadKey lib w km zone KeyRoleKSK)) (fun ksk => io_ret match ToDS_String (rrs lib) (kp_DNSKEY ksk) digestType with Some ds => Ok ds | None => Err (Errorf "failed to generate ds record") end)) s
    (fun r s' => kept (fun _ _ => exported digestType r) s s').
Proof using Hzone.
  clear Htags. intros Hok. apply wpio_try, wpio_wrap. eapply wpio_mono; [apply wp_load_active; by left|]. intros r s1 [H1 Hr]. assert (Hv : active_view (entries s1) = active_view (entries s)) by (by rewrite (proj1 H1)). assert (Hok1 : dir_ok (entries s1) (tick s1)) by (by eapply later_ok).
  destruct r as [kp|e]; cbn [wrap]; [|split_and!; [apply H1|done|by split]]. apply wpio_ret. split_and!; [apply H1|done|]. split; [done|]. intros ds. destruct (ToDS_String (rrs lib) (kp_DNSKEY kp) digestType) as [d|] eqn:Ed; [|done]. intros [= <-]. by exists kp.
Qed.
Lemma wp_generateKey role s : is_role role -> dir_ok (entries s) (tick s) ->
  wpio (generateKeyLocked lib w km zone role (role_bits role) (role_flags role) true) s (fun r s' => kept (fun n n' => generated role n n' r) s s').
Proof using KeyLaws0 Hzone Htags.
  intros Hrole Hok. eapply wpio_mono; [by apply wp_generate_active|]. intros r s1 [(kp & Hb & T1' & (T1 & Hok1 & Hoth & Hact) & Hdone)|(H1 & T1 & e & ->)].
  2: { split; [done|]. split; [rewrite H1; eapply dir_ok_step; [exact T1|by left|done]|]. split_and!; [by rewrite H1|left; by rewrite H1|done]. }
  assert (Hfr : fresh_key (tick s) (tick s1) role kp) by (exists (tick s); split; [lia|done]). split; [done|]. split; [done|]. split_and!; [done|destruct Hact as [Hact|Hact]; [by left|right; by exists kp]|]. intros kp' Hr. by destruct (Hdone kp' Hr) as [-> ?].
Qed.
Lemma fresh_mono n n' m m' role kp : fresh_key n n' role kp -> (m <= n)%nat -> (n' <= m')%nat -> fresh_key m m' role kp.
Proof. clear Htags. intros (t & Ht & Hb) H1 H2. exists t. split; [lia|done]. Qed.
Lemma wp_load_existing text role s : is_role role -> wpio (load_existing lib w km text zone role) s (fun r s' => later s s' /\ match r with Ok k => active_key (entries s) role = k | Err _ => True end).
Proof using Hzone.
  clear Htags. intros Hrole. apply wpio_bind. eapply wpio_mono; [by apply wp_load_active|]. intros [kp|e] s1 [H1 Hr]; apply wpio_ret; split; try done. destruct (errors_Is e ErrZoneNotFound) eqn:Ee; [by apply Hr|done].
Qed.
(** One step of [ensureZoneKeysLocked]: the key that is missing is made. *)
Lemma wp_ensure_one text role (k : option key_pair) s : is_role role -> dir_ok (entries s) (tick s) -> active_key (entries s) role = k ->
  wpio (match k with Some k => io_ok k | None => io_wrap text (generateKeyLocked lib w km zone role (role_bits role) (role_flags role) true) end) s
    (fun r s' => kept (fun n n' es es' => (forall role', is_role role' -> role' <> role -> active_key es' role' = active_key es role')
       /\ (active_key es' role = active_key es role \/ (active_key es role = None /\ exists kp, fresh_key n n' role kp /\ active_key es' role = Some kp)) /\ forall kp, r = Ok kp -> active_key es' role = Some kp) s s').
Proof using KeyLaws0 Hzone Htags.
  intros Hrole Hok Hk. destruct k as [kp|].
  - apply wpio_ret. split; [done|]. split; [done|]. split_and!; [done|by left|]. by intros kp' [= <-].
  - apply wpio_wrap. eapply wpio_mono; [by apply wp_generateKey|]. intros r s1 (T1 & Hok1 & Hoth & Hact & Hdone). split; [done|]. split; [done|]. split_and!; [done|destruct Hact as [Hact|Hact]; [by left|by right]|]. intros kp. destruct r as [kp'|e]; cbn [wrap]; [|done]. intros [= <-]. by apply Hdone.
Qed.
Lemma wp_ensure s : dir_ok (entries s) (tick s) -> wpio (ensureZoneKeysLocked lib w km zone) s (fun r s' => kept (fun n n' => ensured n n' r) s s').
Proof using KeyLaws0 Hzone Htags.
  intros Hok. assert (Hstop : forall e s1, later s s1 -> kept (fun n n' => ensured n n' (Err e)) s s1).
  { intros e s1 H1. split; [apply H1|]. split; [by eapply later_ok|]. split; [|done]. intros role _. left. by rewrite (proj1 H1). }
  unfold ensureZoneKeysLocked. apply wpio_try. eapply wpio_mono; [apply wp_load_existing; by left|]. intros [k|e] s1 [H1 Hk]; [|by apply Hstop]. apply wpio_try. eapply wpio_mono; [apply wp_load_existing; by right|]. intros [z|e] s2 [H2 Hz]; [|by apply Hstop; eapply look_trans].
  rewrite (proj1 H1) in Hz. assert (H02 : later s s2) by (by eapply look_trans). assert (Hok2 : dir_ok (entries s2) (tick s2)) by (by eapply later_ok).
  apply wpio_try. eapply wpio_mono; [apply (wp_ensure_one _ KeyRoleKSK); [by left|done|by rewrite (proj1 H02)]|]. intros r3 s3 (T3 & Hok3 & Hoth3 & Hact3 & Hdone3). rewrite (proj1 H02) in Hoth3, Hact3. specialize (Hoth3 KeyRoleZSK ltac:(by right) ltac:(done)). destruct H02 as [_ T02].
  destruct r3 as [a|e].
  2: { split; [lia|]. split; [done|]. split; [|done]. intros role [->| ->]; [|by left]. destruct Hact3 as [?|(? & kp & Hf & ?)]; [by left|right; split; [done|]; exists kp; split; [eapply fresh_mono; [exact Hf|lia|lia]|done]]. }
  apply wpio_try. eapply wpio_mono; [apply (wp_ensure_one _ KeyRoleZSK); [by right|done|by rewrite Hoth3]|]. intros r4 s4 (T4 & Hok4 & Hoth4 & Hact4 & Hdone4). specialize (Hoth4 KeyRoleKSK ltac:(by left) ltac:(done)). rewrite Hoth3 in Hact4. specialize (Hdone3 a eq_refl).
  assert (Hall : forall role, is_role role -> active_key (entries s4) role = active_key (entries s) role \/ (active_key (entries s) role = None /\ exists kp, fresh_key (tick s) (tick s4) role kp /\ active_key (entries s4) role = Some kp)).
  { intros role [->| ->]; rewrite ?Hoth4; [destruct Hact3 as [?|(? & kp & Hf & ?)]|destruct Hact4 as [?|(? & kp & Hf & ?)]]; (by left) || (right; split; [done|]; exists kp; split; [|done]; eapply fresh_mono; [exact Hf|lia|lia]). }
  destruct r4 as [b|e]; [apply wpio_ret|]; (split; [lia|]; split; [done|]; split; [done|]); [|done]. intros a' b' [= <- <-]. unfold active_view. by rewrite Hoth4, Hdone3, (Hdone4 b eq_refl).
Qed.
Lemma wp_rotate s : dir_ok (entries s) (tick s) -> wpio (rotateZoneKeysLocked lib w km zone) s (fun r s' => kept (fun n n' => rotated n n' r) s s').
Proof using KeyLaws0 Hzone Htags.
  intros Hok. assert (HK : is_role KeyRoleKSK) by (by left). assert (HZ : is_role KeyRoleZSK) by (by right). unfold rotateZoneKeysLocked. apply wpio_try, wpio_wrap. eapply wpio_mono; [apply (wp_generate_files KeyRoleKSK); [by left|done]|]. intros r1 s1 (T1 & Hok1 & Hf1 & Hdone1).
  assert (Hv1 : active_view (entries s1) = active_view (entries s)) by (apply view_same; intros role Hrole; eapply (active_frame _ _ _ _ (tick s)); [exact Hok|exact Hok1|done|exact HK|exact Hrole|exact Hf1]).
  destruct r1 as [a|e]; cbn [wrap]; [|split; [done|]; split; [done|]; split; [by left|done]]. destruct (Hdone1 a eq_refl) as (Hb1 & T1' & Hp1).
  apply wpio_try, wpio_wrap. eapply wpio_mono; [apply (wp_generate_files KeyRoleZSK); [by right|done]|]. intros r2 s2 (T2 & Hok2 & Hf2 & Hdone2).
  assert (Hv2 : active_view (entries s2) = active_view (entries s)) by (rewrite <- Hv1; apply view_same; intros role Hrole; eapply (active_frame _ _ _ _ (tick s1)); [exact Hok1|exact Hok2|done|exact HZ|exact Hrole|exact Hf2]).
  destruct r2 as [b|e]; cbn [wrap]; [|split; [lia|]; split; [done|]; split; [by left|done]]. destruct (Hdone2 b eq_refl) as (Hb2 & T2' & Hp2). rewrite <- (pair_frame _ _ _ _ _ _ _ Hf2 HZ HK Hb1 T1') in Hp1.
  assert (Hza : key_Zone (kp_ID a) = zone) by (destruct Hb1 as (? & ? & _ & _ & _ & _ & Hx); by rewrite Hx). rewrite Hza.
  apply wpio_try, wpio_wrap. eapply wpio_mono; [apply wp_writeActive|]. intros r3 s3 H3. pose proof (fun tag => pair_activated _ _ _ _ tag H3) as Hp3. destruct H3 as (T3 & _ & Hact & Hdone3 & Hok3). set (new := mkActive _ _ _) in *.
  assert (Hset : active_tags (entries s3) = Some new -> active_view (entries s3) = (Some a, Some b)) by (intros Hx; unfold active_view, active_key; rewrite Hx; cbn [mbind option_bind new role_tag ActiveKSKTag ActiveZSKTag]; cbn; by rewrite !Hp3, Hp1, Hp2).
  assert (Hfa : fresh_key (tick s) (tick s3) KeyRoleKSK a) by (exists (tick s); split; [lia|done]). assert (Hfb : fresh_key (tick s) (tick s3) KeyRoleZSK b) by (exists (tick s1); split; [lia|done]).
  assert (Hview : active_view (entries s3) = active_view (entries s) \/ exists a b, fresh_key (tick s) (tick s3) KeyRoleKSK a /\ fresh_key (tick s) (tick s3) KeyRoleZSK b /\ active_view (entries s3) = (Some a, Some b)).
  { destruct Hact as [Hact|Hact]; [left|right; exists a, b; auto]. rewrite <- Hv2. unfold active_view, active_key. rewrite Hact. destruct (active_tags (entries s2)); [|done]. cbn [mbind option_bind]. by rewrite !Hp3. }
  assert (Hok3' : dir_ok (entries s3) (tick s3)). { apply Hok3; [done| |done]. intros role [->| ->]; right; [exists (tick s), a|exists (tick s1), b]; (split; [lia|done]). }
  destruct r3 as [[]|e]; cbn [wrap]; [apply wpio_ret|]; (split; [lia|]; split; [done|]; split; [done|]); [|done]. intros a' b' [= <- <-]. auto.
Qed.

(** *** Removal *)
Lemma dir_ok_pruned P s s' : pruned P s s' -> (tick s <= tick s')%nat -> dir_ok (entries s) (tick s) -> dir_ok (entries s') (tick s').
Proof. clear Htags. intros Hp Ht. apply dir_ok_step; [done|]. intros m _. destruct (Hp m) as [Hm|[_ Hm]]; rewrite Hm; [by left|by right; left]. Qed.
Lemma wp_ticking {A} (m : io fs A) s : ticking m -> wpio m s (fun _ s' => (tick s <= tick s')%nat).
Proof. clear Htags. intros Hm. apply Hm. Qed.
Definition old_key (prefix : string) (keep : list Z) (m : string) : Prop := HasPrefix m prefix = true /\ exists tag, parseKeyTagFromFilename prefix m = Some tag /\ existsb (Z.eqb tag) keep = false.
Definition key_suffix (m : string) : bool := HasSuffix m ".key" || HasSuffix m ".private.enc".
Lemma wp_remove_keys prefix keep count l s : wpio (remove_keys w prefix keep count l) s (fun r s' => (tick s <= tick s')%nat /\ pruned (old_key prefix keep) s s'
  /\ (fst r = Ok tt -> forall m nd, (m, nd) ∈ l -> is_dir nd = false -> key_suffix m = true -> old_key prefix keep m -> entries s' !! m = None)).
Proof.
  clear Htags. revert count s. induction l as [|[name n] l IH]; intros count s; cbn [remove_keys]; [apply wpio_ret; split_and!; [done|by left|intros _ m nd Hin; by apply not_elem_of_nil in Hin]|].
  assert (Hskip : (is_dir n = false -> key_suffix name = true -> ~ old_key prefix keep name) -> wpio (remove_keys w prefix keep count l) s (fun r s' => (tick s <= tick s')%nat /\ pruned (old_key prefix keep) s s'
    /\ (fst r = Ok tt -> forall m nd, (m, nd) ∈ (name, n) :: l -> is_dir nd = false -> key_suffix m = true -> old_key prefix keep m -> entries s' !! m = None))).
  { intros Hno. eapply wpio_mono; [apply IH|]. intros r s1 (T1 & Hp & Hall). split_and!; [done..|]. intros Hr m nd [[= -> ->]|Hin]%elem_of_cons Hd Hs Ho; [by destruct (Hno Hd Hs)|by eapply Hall]. }
  destruct (is_dir n) eqn:Ed; [by apply Hskip|]. cbn [orb]. destruct (HasPrefix name prefix) eqn:Epre; cbn [negb orb]; [|apply Hskip; intros _ _ [Hx _]; congruence]. fold (key_suffix name). destruct (key_suffix name) eqn:Es; cbn [negb]; [|by apply Hskip].
  destruct (parseKeyTagFromFilename prefix name) as [tag|] eqn:Et; [|apply Hskip; intros _ _ [_ (tag & Hx & _)]; congruence]. destruct (existsb (Z.eqb tag) keep) eqn:Ek; [apply Hskip; intros _ _ [_ (tag' & Hx & Hy)]; congruence|].
  assert (Hold : old_key prefix keep name) by (split; [done|by exists tag]). apply wpio_bind.
  eapply wpio_mono; [apply wpio_and; [apply wp_remove|apply wp_ticking, ticking_syscall]|]. intros r s1 [Hr T1]. destruct r as [[]|e]; [|apply wpio_ret; split_and!; [done|apply pruned_still, Hr|done]].
  assert (Hone : pruned (old_key prefix keep) s s1). { intros m. rewrite Hr. destruct (decide (m = name)) as [->|]; [right; by rewrite lookup_delete_eq|left; by rewrite lookup_delete_ne]. }
  eapply wpio_mono; [apply IH|]. intros r s2 (T2 & Hp & Hall). split_and!; [lia|by eapply pruned_trans|]. intros Hr2 m nd [[= -> ->]|Hin]%elem_of_cons Hd Hs Ho; [|by eapply Hall]. destruct (Hp name) as [Hx|[_ Hx]]; [|done]. rewrite Hx, Hr. apply lookup_delete_eq.
Qed.
Lemma kept_role role a : is_role role -> role_tag role a <> 0 -> existsb (Z.eqb (role_tag role a)) (kept_tags a) = true.
Proof.
  clear Htags. intros Hrole Hz. unfold kept_tags. rewrite existsb_app. apply orb_true_iff. destruct Hrole as [->| ->]; [left|right]; unfold role_tag in *; cbn in *; rewrite (proj2 (Z.eqb_neq _ _) Hz); cbn; by rewrite Z.eqb_refl.
Qed.
Lemma kept_tag_role tag a : existsb (Z.eqb tag) (kept_tags a) = true -> tag = ActiveKSKTag a \/ tag = ActiveZSKTag a.
Proof.
  clear Htags. unfold kept_tags. rewrite existsb_app. intros [Hx|Hx]%orb_true_iff; [left|right]; destruct (_ =? 0); cbn in Hx; try done; rewrite orb_false_r in Hx; lia.
Qed.
Lemma pub_old keep tag : 0 <= tag < 65536 -> existsb (Z.eqb tag) keep = false <-> old_key (key_prefix alg) keep (pub_name tag).
Proof.
  clear Htags. intros Ht. pose proof (parse_tag (pub_name tag) tag ".key" Ht eq_refl) as Hp. split; [intros Hk; split; [apply HasPrefix_true; by eexists|by exists tag]|]. intros [_ (tag' & Hp' & Hk)]. congruence.
Qed.
Lemma priv_old keep tag : 0 <= tag < 65536 -> existsb (Z.eqb tag) keep = false <-> old_key (key_prefix alg) keep (priv_name tag).
Proof.
  clear Htags. intros Ht. pose proof (parse_tag (priv_name tag) tag ".private.enc" Ht eq_refl) as Hp. split; [intros Hk; split; [apply HasPrefix_true; by eexists|by exists tag]|]. intros [_ (tag' & Hp' & Hk)]. congruence.
Qed.
(** Removing files that are not of an active key keeps the active keys. *)
Lemma pruned_view s s' a : active_tags (entries s) = Some a -> dir_ok (entries s) (tick s) -> dir_ok (entries s') (tick s') -> pruned (old_key (key_prefix alg) (kept_tags a)) s s' ->
  active_tags (entries s') = Some a /\ active_view (entries s') = active_view (entries s).
Proof using KeyLaws0 Hzone Htags.
  intros Ha Hok Hok' Hp. assert (Ha' : active_tags (entries s') = Some a). { rewrite <- Ha. apply active_same. destruct (Hp active_file) as [->|[[Hx _] _]]; [done|]. discriminate Hx. }
  split; [done|]. apply view_same. intros role Hrole. unfold active_key. rewrite Ha, Ha'. cbn [mbind option_bind]. destruct (active_ok _ _ a Hok Ha) as (_ & _ & Hr). destruct (Z.eq_dec (role_tag role a) 0) as [Hz|Hz]; [by rewrite Hz, (no_pair_zero _ _ Hok), (no_pair_zero _ _ Hok')|].
  destruct (Hr role Hrole) as [|(t & kp & _ & Hb & He)]; [done|]. pose proof (kept_role role a Hrole Hz) as Hk. pose proof (born_tag _ _ _ Hb) as Hrange. rewrite He in Hrange. unfold pair_at.
  destruct (Hp (pub_name (role_tag role a))) as [->|[Hx%pub_old _]]; [|congruence|done]. by destruct (Hp (priv_name (role_tag role a))) as [->|[Hx%priv_old _]]; [|congruence|done].
Qed.
Lemma wp_removeOld s : dir_ok (entries s) (tick s) -> wpio (removeOldKeysLocked lib w zone) s (fun r s' => kept (fun _ _ => cleared r) s s').
Proof using KeyLaws0 Hzone Htags.
  intros Hok. assert (Hstop : forall e s1, later s s1 -> kept (fun _ _ => cleared (Err e)) s s1) by (intros e s1 H1; split; [apply H1|]; split; [by eapply later_ok|]; split; [by rewrite (proj1 H1)|done]).
  unfold removeOldKeysLocked. apply wpio_try, wp_or_not_found; [intros e s1 H1 _; by apply Hstop|]. intros data s1 H1 Hd. apply wpio_try, wpio_ret. destruct (unmarshal_active lib data (mkActive 0 0 0)) as [a|e] eqn:Eu; cbn [wrap]; [|by apply Hstop].
  assert (Ha : active_tags (entries s) = Some a) by (unfold active_tags; by rewrite Hd, Eu). destruct (active_ok _ _ a Hok Ha) as (Halg & _ & _). apply wpio_try, wpio_ret. rewrite zone_name_for_file, Halg. fold (key_prefix alg).
  apply wpio_try, wpio_wrap. unfold wpio at 1, os_ReadDir, syscall. assert (Hstep : later s (mkFs (zone_dir s1) (S (tick s1)))) by (eapply look_trans; [exact H1|split; [done|cbn; lia]]).
  destruct (fault w (tick s1)) as [er|]; cbn [fst snd wrap]; [by apply Hstop|]. destruct (zone_dir s1) as [| | |es] eqn:Ez; cbn [fst snd wrap]; [by apply Hstop..|]. set (s2 := mkFs (Dir es) _) in *. set (l := sort_Slice _ _).
  assert (Hes : entries s2 = entries s) by apply (f_equal ents (proj1 Hstep)). assert (Hin : forall m nd, entries s !! m = Some nd -> (m, nd) ∈ l) by (intros m nd Hm; unfold l; rewrite sort_Slice_Permutation; apply elem_of_map_to_list; by rewrite <- Hes in Hm).
  apply wpio_bind. eapply wpio_mono; [apply wp_remove_keys|]. intros [r count] s3 (T3 & Hp & Hall). cbn [fst snd] in *. assert (Hps : pruned (old_key (key_prefix alg) (kept_tags a)) s s3) by (intros m; rewrite <- Hes; apply Hp).
  destruct Hstep as [_ T2]. assert (Hok3 : dir_ok (entries s3) (tick s3)) by (eapply dir_ok_pruned; [exact Hps|lia|done]). destruct (pruned_view s s3 a Ha Hok Hok3 Hps) as [Ha3 Hv3].
  destruct r as [[]|e]; [|apply wpio_ret; split; [lia|]; split; [done|]; split; [done|done]]. apply wpio_try. eapply wpio_mono; [apply wpio_and; [apply wp_quiet, quiet_key_sync|apply wp_ticking, ticking_key_sync]|].
  intros r s4 [H4 T4]. assert (Hend : forall r', kept (fun _ _ => cleared r') s s4); [|destruct r; [apply wpio_ret|]; apply Hend]. intros r'. split; [lia|]. split; [by eapply later_ok|]. split; [by rewrite H4|]. rewrite H4. intros n tag kp _ Htag Hpair.
  assert (Hkeep : existsb (Z.eqb tag) (kept_tags a) = true).
  { destruct (existsb (Z.eqb tag) (kept_tags a)) eqn:Ek; [done|]. pose proof (proj1 (pub_old _ tag Htag) Ek) as Ho. unfold pair_at in Hpair. destruct (entries s3 !! pub_name tag) as [nd|] eqn:En; [|done].
    assert (Hs : entries s !! pub_name tag = Some nd) by (destruct (Hps (pub_name tag)) as [Hx|[_ Hx]]; congruence). rewrite (Hall eq_refl (pub_name tag) nd (Hin _ _ Hs)) in En; [done| | |done]; [by destruct nd|]. unfold key_suffix, pub_name. by rewrite <- str_app_assoc, HasSuffix_app. }
  unfold active_view, active_key. rewrite Ha3. cbn [mbind option_bind fst snd role_tag]. destruct (kept_tag_role _ _ Hkeep) as [->| ->]; [left|right]; cbn; by rewrite Hpair.
Qed.
Lemma pruned_active P s s' role : pruned P s s' -> active_key (entries s') role = active_key (entries s) role \/ active_key (entries s') role = None.
Proof.
  clear Htags. intros Hp. unfold active_key, active_tags. destruct (Hp active_file) as [->|[_ ->]]; [|by right]. destruct (content (entries s !! active_file)) as [data|]; [|by left]. destruct (unmarshal_active lib data (mkActive 0 0 0)) as [a|]; [|by left]. cbn [mbind option_bind]. unfold pair_at.
  destruct (Hp (pub_name (role_tag role a))) as [->|[_ ->]]; [|by right]. destruct (Hp (priv_name (role_tag role a))) as [->|[_ ->]]; [by left|]. right. by destruct (content _).
Qed.
Lemma wp_removeZoneKeys s : dir_ok (entries s) (tick s) -> wpio (removeZoneKeysLocked w) s (fun r s' => kept (fun _ _ => removed r) s s').
Proof.
  clear Htags. intros Hok. assert (Hend : forall r (s1 : fs), pruned (fun _ => True) s s1 -> (tick s <= tick s1)%nat -> match r with Ok _ => entries s1 = ∅ | Err e => unrelated e end -> kept (fun _ _ => removed r) s s1).
  { intros r s1 Hp Ht Hr. split; [done|]. split; [by eapply dir_ok_pruned|]. split; [intros role _; by eapply pruned_active|]. destruct r; [done|]. unfold unrelated in Hr. congruence. }
  unfold removeZoneKeysLocked. apply wpio_try, wpio_wrap. assert (Hgone : wpio (os_RemoveAll w) s (fun r s' => match r with Ok _ => entries s' = ∅ | Err e => unrelated e end /\ (tick s <= tick s')%nat)) by (unfold wpio, os_RemoveAll; destruct (fault w (tick s)) as [[]|]; cbn [fst snd zone_dir tick sys_error]; split; done || lia).
  eapply wpio_mono; [apply wpio_and; [apply RemoveAll_pruned|exact Hgone]|]. intros r s1 (Hp & Hg & T1). destruct r as [[]|e]; cbn [wrap]; [|by apply Hend].
  assert (Hsame : forall r s2, later s1 s2 -> match r with Ok _ => entries s2 = ∅ | Err e => unrelated e end -> kept (fun _ _ => removed r) s s2) by (intros r s2 [H2 T2] Hr; apply Hend; [intros m; rewrite H2; apply Hp|lia|done]).
  apply wpio_wrap, wpio_try, wp_answer; [intros e s2 H2 He _; by apply Hsame|]. intros s2 H2. apply wp_answer; [intros e s3 H3 He _; apply Hsame; [by eapply look_trans|done]|]. intros s3 H3. apply Hsame; [by eapply look_trans|]. by rewrite (proj1 H3), (proj1 H2).
Qed.
End zone.

(** ** Names of zones *)
Section names.
Context `{UnicodeTables, !UnicodeLaws}.
Lemma dns_name_ascii n : dns_name n -> is_ascii n = true.
Proof.
  intros Hn. pose proof (dns_name_TrimSpace n Hn) as _. destruct Hn as (_ & ls & _ & Hls & Hn). assert (Hd : is_ascii (dotted ls) = true).
  { clear Hn. induction Hls as [|l ls (Hl & _) Hls IH]; [done|]. assert (Ha : is_ascii l = true). { eapply str_forallb_impl; [|exact Hl]. intros c Hc. generalize (byte_ind (fun c => implb (is_alnum_hyphen c) (byte c <? 128)) ltac:(by vm_compute) c). by rewrite Hc. }
    destruct ls as [|l' ls]; [done|]. rewrite dotted_cons by done. by rewrite !is_ascii_app, Ha, IH. }
  destruct Hn as [->| ->]; [done|]. by rewrite is_ascii_app, Hd.
Qed.
Lemma normalize_error name e : NormalizeZoneFQDN name = Err e -> errors_Is e ErrZoneNotFound = false.
Proof.
  unfold NormalizeZoneFQDN. destruct (TrimSpace name =? "")%string; [by intros [= <-]|]. cbv zeta. generalize (if negb (HasSuffix (ToLower (TrimSpace name)) ".") then ToLower (TrimSpace name) +:+ "." else ToLower (TrimSpace name)). intros z. unfold ValidateZoneName, ValidateDomainName.
  repeat (case_match; try (by intros [= <-])).
Qed.
Lemma normalize_normal name zone : NormalizeZoneFQDN name = Ok zone -> NormalizeZoneFQDN zone = Ok zone /\ exists q, zone = q +:+ ".".
Proof.
  unfold NormalizeZoneFQDN at 1. destruct (TrimSpace name =? "")%string; [done|]. cbv zeta. set (l := ToLower (TrimSpace name)). set (z := if negb (HasSuffix l ".") then l +:+ "." else l). intros Hv. apply rbind_ok in Hv as ([] & Hv & [= <-]). apply wrap_ok in Hv. pose proof Hv as Hn. apply zone_name_accepted in Hn.
  assert (Hs : HasSuffix z "." = true) by (unfold z; destruct (HasSuffix l ".") eqn:El; cbn [negb]; [done|apply HasSuffix_app]). split; [|by apply HasSuffix_true].
  assert (Ha : is_ascii l = true) by (pose proof (dns_name_ascii _ Hn) as Ha; unfold z in Ha; destruct (negb (HasSuffix l ".")); [|done]; rewrite is_ascii_app in Ha; by apply andb_true_iff in Ha as [Ha _]).
  assert (Hl : ToLower z = z). { unfold z. destruct (negb (HasSuffix l ".")); [rewrite ToLower_app by done|]; [f_equal|]; by apply ToLower_lower. }
  unfold NormalizeZoneFQDN. rewrite dns_name_TrimSpace by done. pose proof (dns_name_not_special z Hn) as (H1 & _ & _). rewrite (proj2 (String.eqb_neq _ _) H1), Hl, Hs. cbn [negb]. by rewrite Hv.
Qed.
Lemma zone_directory_inj z z' : NormalizeZoneFQDN z = Ok z -> NormalizeZoneFQDN z' = Ok z' -> TrimSuffix z "." = TrimSuffix z' "." -> z = z'.
Proof. intros [_ [q ->]]%normalize_normal [_ [q' ->]]%normalize_normal. rewrite !TrimSuffix_app. congruence. Qed.
End names.

(** ** Under the lock *)
Abbreviation dir_of z := (TrimSuffix z ".").
Section locked.
Context `{UnicodeTables, !UnicodeLaws} (w : World).
#[local] Set Default Proof Using "Type".
(** Nothing but the lock files changes. *)
Definition undisturbed (c c' : cache) : Prop := (ticks c <= ticks c')%nat /\ forall z m, m <> ".lock" -> zone_entries c' z !! m = zone_entries c z !! m.
Lemma undisturbed_refl c : undisturbed c c.
Proof. done. Qed.
Lemma undisturbed_trans c1 c2 c3 : undisturbed c1 c2 -> undisturbed c2 c3 -> undisturbed c1 c3.
Proof. intros [T1 H1] [T2 H2]. split; [lia|]. intros z m Hm. by rewrite H2, H1. Qed.
Lemma wp_in_root {A} (m : io fs A) c (Q : A -> cache -> Prop) : keeps_dir m -> ticking m ->
  wpio m (mkFs (root_directory c) (ticks c)) (fun a s => forall c', undisturbed c c' -> (forall z, zone_entries c' z = zone_entries c z) -> root_directory c' = match zone_dir s with Dir _ => Dir ∅ | d => d end -> Q a c') -> wpio (in_root m) c Q.
Proof.
  intros Hd Ht Hm. pose proof (fun z => in_root_view m c z Hd) as Hv. specialize (Ht (mkFs (root_directory c) (ticks c))). unfold wpio, in_root in *. destruct (m (mkFs (root_directory c) (ticks c))) as [a s]. cbn [fst snd] in *. apply Hm; [split; [done|by intros; rewrite Hv]|done|].
  unfold root_directory. cbn [root]. destruct (zone_dir s), (root c); done.
Qed.
Lemma wp_in_quiet {A} z (m : io fs A) c (Q : A -> cache -> Prop) : same_entries m -> ticking m ->
  wpio m (zone_fs c z) (fun a s => forall c', undisturbed c c' -> zone_entries c' z = zone_entries c z -> (exists es, zone_view c' z = Dir es) \/ (forall es, zone_dir s <> Dir es) \/ (exists d, root c' = NoRoot d) -> Q a c') -> wpio (in_zone z m) c Q.
Proof.
  intros Hs Ht Hm. apply wp_in_zone. pose proof (Hs (zone_fs c z)) as Hs1. specialize (Ht (zone_fs c z)). unfold wpio in *. set (s := snd (m (zone_fs c z))) in *. assert (Hview : forall z', zone_entries (put z s c) z' = zone_entries c z').
  { intros z'. destruct (decide (z' = z)) as [->|Hne]; [|by rewrite put_other]. destruct (put_same z s c) as [->|[H1 H2]]; [done|by rewrite H1, H2]. }
  apply Hm; [split; [done|by intros; rewrite Hview]|done|]. unfold put, zone_view. cbn [root]. destruct (root c) as [d|zs]; [right; right; by exists d|]. rewrite lookup_insert_eq. cbn. destruct (zone_dir s) eqn:Ed; [by right; left..|left; by eexists].
Qed.

Lemma wp_existing link other s : wpio (existing_directory w link other) s (fun r s' => later s s' /\ match r with Ok _ => exists es, zone_dir s = Dir es | Err e => unrelated e /\ (os_IsNotExist e = true -> zone_dir s = Missing) end).
Proof.
  unfold existing_directory. apply wpio_try. unfold wpio at 1, os_Lstat_dir, syscall. destruct (fault w (tick s)) as [er|]; cbn [fst snd]; [split; [by split; [|cbn; lia]|]; split; [by destruct er|by rewrite sys_error_exists]|].
  assert (Hl : later s (mkFs (zone_dir s) (S (tick s)))) by (by split; [|cbn; lia]). destruct (zone_dir s) as [| | |es] eqn:Ed; cbn [fst snd]; [by split|apply wpio_ret; by split..|apply wpio_ret; split; [done|by exists es]].
Qed.
Definition prepared (r : result bool) (s s' : fs) : Prop := (tick s <= tick s')%nat /\ entries s' = entries s /\ (forall es, zone_dir s = Dir es -> zone_dir s' = Dir es)
  /\ match r with Ok _ => exists es, zone_dir s' = Dir es | Err e => errors_Is e ErrZoneNotFound = true -> zone_dir s = Missing end.
Lemma wp_ensure_directory link other what made createDir s : wpio (ensure_directory w (existing_directory w link other) what made createDir) s (fun r s' => prepared r s s').
Proof.
  assert (Hstill : forall (r : result bool) s1, later s s1 -> match r with Ok _ => exists es, zone_dir s = Dir es | Err e => errors_Is e ErrZoneNotFound = true -> zone_dir s = Missing end -> prepared r s s1).
  { intros r s1 [H1 T1] Hr. split; [done|]. rewrite H1. split; [done|]. split; [done|]. by destruct r. }
  unfold ensure_directory. apply wpio_bind. eapply wpio_mono; [apply wp_existing|]. intros r s1 [H1 Hr].
  apply wpio_try, wpio_ret. assert (Hmake : forall b, (createDir = false -> exists es, zone_dir s = Dir es) ->
    wpio (if createDir then io_try (io_wrap ("create " +:+ made) (os_MkdirAll w)) (fun _ => io_try (io_wrap ("stat " +:+ what) (existing_directory w link other)) (fun _ => io_ok b)) else io_ok true) s1 (fun r s' => prepared r s s')).
  { intros b Hdir. destruct createDir; [|apply wpio_ret, Hstill; [done|by apply Hdir]]. apply wpio_try, wpio_wrap.
    assert (Hmk : wpio (os_MkdirAll w) s1 (fun r s' => (tick s1 <= tick s')%nat /\ entries s' = entries s1 /\ (forall es, zone_dir s1 = Dir es -> zone_dir s' = Dir es) /\ match r with Ok _ => True | Err e => unrelated e end)).
    { unfold wpio, os_MkdirAll, syscall. destruct (fault w (tick s1)) as [er|]; cbn [fst snd zone_dir tick]; [split_and!; [lia|done|done|by destruct er]|]. destruct (zone_dir s1); cbn [fst snd zone_dir tick ents]; (split_and!; [lia|done|done|done]). }
    eapply wpio_mono; [exact Hmk|]. rewrite (proj1 H1). destruct H1 as [_ T1]. intros [[]|e] s2 (T2 & H2 & Hd2 & He); cbn [wrap].
    - apply wpio_try, wpio_wrap. eapply wpio_mono; [apply wp_existing|]. intros r2 s3 [[H3 T3] Hr3]. assert (Hb : (tick s <= tick s3)%nat /\ entries s3 = entries s /\ (forall es, zone_dir s = Dir es -> zone_dir s3 = Dir es)) by (split_and!; [lia|by rewrite H3|by rewrite H3]).
      destruct r2 as [[]|e]; cbn [wrap]; [apply wpio_ret|]; (split; [apply Hb|]; split; [apply Hb|]; split; [apply Hb|]); [by rewrite H3|]. intros Hx. destruct Hr3 as [Hu _]. unfold unrelated in Hu. cbn in Hx. congruence.
    - split; [lia|]. split; [done|]. split; [done|]. intros Hx. unfold unrelated in He. cbn in Hx. congruence. }
  destruct r as [[]|e]; [by apply Hmake|]. destruct Hr as [Hu Hm]. destruct (os_IsNotExist e); cbn [negb]; [|apply Hstill; [done|]; intros Hx; cbn in Hx; unfold unrelated in Hu; congruence].
  destruct createDir; [by apply Hmake|]. apply Hstill; [done|auto].
Qed.
Lemma ensure_directory_calm link other what made createDir :
  let m := ensure_directory w (existing_directory w link other) what made createDir in same_entries m /\ ticking m /\ keeps_dir m.
Proof.
  intros m. pose proof (wp_ensure_directory link other what made createDir) as Hw. split_and!; intros s; specialize (Hw s); destruct Hw as (T & He & Hd & _); [done|done|]. intros [es Hs]. exists es. by apply Hd.
Qed.
Lemma wp_lock_file s : wpio (lock_file w) s (fun r s' => (tick s <= tick s')%nat /\ (forall m, m <> ".lock" -> entries s' !! m = entries s !! m) /\ match r with Ok _ => exists es es', zone_dir s = Dir es /\ zone_dir s' = Dir es' | Err e => unrelated e end).
Proof.
  unfold wpio, lock_file, syscall. destruct (fault w (tick s)) as [er|]; cbn [fst snd]; [split_and!; [cbn; lia|done|by destruct er]|]. destruct (zone_dir s) as [| | |es] eqn:Ed; cbn [fst snd zone_dir tick]; [split_and!; [lia|done|done]..|].
  split; [lia|]. destruct (es !! ".lock") as [nd|] eqn:El.
  - split; [done|]. destruct nd; try done; by exists es, es.
  - split; [|by exists es; eexists]. intros m Hm. cbn [ents]. by rewrite lookup_insert_ne.
Qed.
(** The answer, or a failure to unlock. *)
Definition answered {A} (r r' : result A) : Prop := r' = r \/ exists e, r' = Err e /\ errors_Is e ErrZoneNotFound = false.
Lemma missing_root c z : root_directory c = Missing -> zone_entries c z = ∅.
Proof. unfold root_directory, zone_view. by destruct (root c). Qed.
Lemma same_quiet {A} (m : io fs A) : quiet m -> same_entries m.
Proof. intros Hm s. by rewrite Hm. Qed.
(** The steps before the lock; a missing directory means that there are no keys. *)
Definition blocked (z : string) (c : cache) (e : error) (c' : cache) : Prop := undisturbed c c' /\ (errors_Is e ErrZoneNotFound = true -> zone_entries c z = ∅ /\ zone_entries c' z = ∅).
Lemma wp_locked {A} name zone createDir (fn : string -> io fs (result A)) c (Q : result A -> cache -> Prop) : NormalizeZoneFQDN name = Ok zone ->
  (forall e c', blocked (dir_of zone) c e c' -> Q (Err e) c') ->
  (forall s, (ticks c <= tick s)%nat -> (forall m, m <> ".lock" -> entries s !! m = zone_entries c (dir_of zone) !! m) ->
     wpio (fn zone) s (fun r s' => forall r' c', (tick s' <= ticks c')%nat -> zone_entries c' (dir_of zone) = entries s' ->
       (forall z m, z <> dir_of zone -> m <> ".lock" -> zone_entries c' z !! m = zone_entries c z !! m) -> answered r r' -> Q r' c')) ->
  wpio (withZoneKeyLock w name createDir fn) c Q.
Proof using H0.
  intros Hname HE HO. destruct (normalize_normal _ _ Hname) as [Hzone _]. set (d := dir_of zone) in *. unfold withZoneKeyLock. apply wpio_try, wpio_ret. rewrite Hname. apply wpio_try, wpio_ret. unfold ZoneNameForFile. rewrite Hzone. cbn [rbind]. fold d.
  assert (Hfail : forall e c1, undisturbed c c1 -> unrelated e -> Q (Err e) c1) by (intros e c1 H1 He; apply HE; split; [done|]; unfold unrelated in He; congruence).
  assert (Hsync : forall b text c1, undisturbed c c1 -> forall k : unit -> io cache (result A), (forall c2, undisturbed c c2 -> (forall z, zone_entries c2 z = zone_entries c1 z) -> wpio (k tt) c2 Q) -> wpio (io_try (if b : bool then io_ok tt else in_root (io_wrap text (key_syncDir w))) k) c1 Q).
  { intros b text c1 H1 k Hk. apply wpio_try. destruct b; [by apply wpio_ret, Hk|]. apply wp_in_root; [apply keeps_dir_quiet, quiet_wrap, quiet_key_sync|apply ticking_wrap, ticking_key_sync|]. apply wpio_wrap, wpio_try, wp_answer.
    - intros e s2 _ He _ c2 H2 _ _. cbn [wrap]. apply Hfail; [by eapply undisturbed_trans|done].
    - intros s2 _. apply wp_answer; [intros e s3 _ He _ c2 H2 _ _; cbn [wrap]; apply Hfail; [by eapply undisturbed_trans|done]|]. intros s3 _ c2 H2 Hz _. apply Hk; [by eapply undisturbed_trans|done]. }
  apply wpio_try, wp_in_root; [by apply keeps_dir_quiet, quiet_syscall|apply ticking_syscall|]. apply wp_answer; [intros e s1 _ He _ c1 H1 _ _; by apply Hfail|]. intros s1 _ c1 H1 Hz1 _.
  destruct (ensure_directory_calm "key directory must not be a symlink" "key path must be a directory" "key directory" "key directory" createDir) as (_ & Ht2 & Hk2). apply wpio_try, wp_in_root; [exact Hk2|exact Ht2|]. eapply wpio_mono; [apply wp_ensure_directory|]. intros r2 s2 (_ & _ & _ & Hr2) c2 H2 Hz2 _.
  assert (H02 : undisturbed c c2) by (by eapply undisturbed_trans). destruct r2 as [b2|e]. 2: { apply HE. split; [done|]. intros Hx%Hr2. rewrite Hz2, <- Hz1. split; by apply missing_root. }
  apply Hsync; [done|]. intros c3 H3 Hz3. destruct (ensure_directory_calm "zone key directory must not be a symlink" "zone key path must be a directory" "zone key directory" "zone directory" createDir) as (Hs4 & Ht4 & _). apply wpio_try, wp_in_quiet; [exact Hs4|exact Ht4|]. eapply wpio_mono; [apply wp_ensure_directory|].
  intros r4 s4 (_ & _ & _ & Hr4) c4 H4 Hz4 _. assert (H04 : undisturbed c c4) by (by eapply undisturbed_trans). destruct r4 as [b4|e]. 2: { apply HE. split; [done|]. intros Hx%Hr4. cbn in Hx. rewrite Hz4, <- Hz1, <- Hz2, <- Hz3. by rewrite Hx. }
  apply Hsync; [done|]. intros c5 H5 _. clear Hsync Hz1 Hz2 Hz3 Hz4 Hs4 Ht4 Ht2 Hk2 Hr2 Hr4 H1 H2 H02 H3 H4 H04.
  apply wpio_try, wp_in_zone, wpio_wrap. eapply wpio_mono; [apply wp_lock_file|]. intros r6 s6 (T6 & H6 & Hr6). assert (Hun : undisturbed c (put d s6 c5)).
  { split; [destruct H5; cbn in *; lia|]. intros z m Hm. rewrite <- (proj2 H5 z m Hm). destruct (put_view d s6 c5 z m) as [->|[-> ->]]; [done|]. by apply H6. }
  destruct r6 as [[]|e]; cbn [wrap]; [|by apply Hfail]. destruct Hr6 as (es & es' & Hd5 & Hd6). set (c6 := put d s6 c5) in *. assert (Hc6 : exists zs, root c6 = Zones zs /\ zone_entries c6 d = entries s6).
  { unfold c6, put, zone_view. cbn [root]. cbn in Hd5. unfold zone_view in Hd5. destruct (root c5) as [x|zs]; [done|]. eexists. split; [done|]. by rewrite lookup_insert_eq. }
  destruct Hc6 as (zs & Hroot & Hent). clearbody c6. apply wpio_bind, wp_in_zone. eapply wpio_mono; [apply (HO (zone_fs c6 d)); [apply Hun|intros m Hm; by apply Hun]|]. intros r7 s7 H7. apply wpio_bind, wp_in_quiet; [by apply same_quiet, quiet_syscall|apply ticking_syscall|].
  assert (Hview : zone_view (put d s7 c6) d = zone_dir s7) by (unfold put, zone_view; rewrite Hroot; cbn [root]; by rewrite lookup_insert_eq).
  assert (Hend : forall r' c8, undisturbed (put d s7 c6) c8 -> zone_entries c8 d = zone_entries (put d s7 c6) d -> answered r7 r' -> Q r' c8).
  { intros r' c8 [T8 H8] He8 Ha. apply H7; [done|by rewrite He8, Hview| |done]. intros z m Hz Hm. rewrite (H8 z m Hm), put_other by done. by apply Hun. }
  apply wp_answer; [intros e s8 _ He _ c8 H8 He8 _|intros s8 _ c8 H8 He8 _]; apply wpio_ret, Hend; try done; destruct r7; [right; eexists; split; [done|exact He]|by left|by left|by left].
Qed.
End locked.

(** ** Sessions *)
Section sessions.
Context `{UnicodeTables, !UnicodeLaws} {R E : Type} (lib : KeyLib R E) `{!KeyLaws lib} (w : World) (km : KeyManager).
#[local] Set Default Proof Using "Type".
Abbreviation key_pair := (KeyPair (private_key R E)).
Abbreviation nodes := (gmap string node).
Definition agree (es es' : nodes) : Prop := forall m, m <> ".lock" -> es' !! m = es !! m.
Section stable.
Context (zone : string).
Lemma key_file_agree es es' m : agree es es' -> key_file km zone m -> es' !! m = es !! m.
Proof. intros Ha Hm. apply Ha. by destruct Hm as [->|[tag [->| ->]]]. Qed.
Lemma pair_agree es es' tag : agree es es' -> pair_at lib km zone es' tag = pair_at lib km zone es tag.
Proof. intros Ha. unfold pair_at. by rewrite !(key_file_agree es es') by (done || apply pub_file || apply priv_file). Qed.
Lemma active_agree es es' role : agree es es' -> active_key lib km zone es' role = active_key lib km zone es role.
Proof.
  intros Ha. unfold active_key. rewrite (active_same lib es es') by (by rewrite Ha). destruct (active_tags lib es); [|done]. cbn [mbind option_bind]. by apply pair_agree.
Qed.
Lemma view_agree es es' : agree es es' -> active_view lib km zone es' = active_view lib km zone es.
Proof. intros Ha. unfold active_view. by rewrite !(active_agree es es'). Qed.
Lemma dir_ok_agree es es' n n' : agree es es' -> (n <= n')%nat -> dir_ok lib km zone es n -> dir_ok lib km zone es' n'.
Proof. intros Ha Hn. apply dir_ok_step; [done|]. intros m Hm. left. by rewrite (key_file_agree es es'). Qed.
(** Promises that hold for a failed lock and survive the unlocking. *)
Record stable {A} (P : result A -> nat -> nat -> nodes -> nodes -> Prop) : Prop := {
  st_widen : forall r r' n n' m m' es es0 es', P r n n' es es' -> (m <= n)%nat -> (n' <= m')%nat -> agree es0 es -> answered r r' -> P r' m m' es0 es';
  st_block : forall e n n' es es', agree es es' -> (errors_Is e ErrZoneNotFound = true -> es = ∅ /\ es' = ∅) -> P (Err e) n n' es es' }.
Lemma active_empty role : active_key lib km zone ∅ role = None.
Proof. done. Qed.
Lemma loaded_stable role : stable (fun r _ _ => loaded lib km zone role r).
Proof.
  split.
  - intros r r' n n' m m' es es0 es' [Hv Hr] _ _ Ha Hans. split; [by rewrite Hv, (view_agree es0 es)|]. rewrite <- (active_agree es0 es) by done. destruct Hans as [->|(e & -> & He)]; [done|congruence].
  - intros e n n' es es' Ha He. split; [by apply view_agree|]. intros Hx. by destruct (He Hx) as [-> _].
Qed.
Lemma exported_stable digestType : stable (fun r _ _ => exported lib km zone digestType r).
Proof.
  split.
  - intros r r' n n' m m' es es0 es' [Hv Hr] _ _ Ha Hans. split; [by rewrite Hv, (view_agree es0 es)|]. rewrite <- (active_agree es0 es) by done. by destruct Hans as [->|(e & -> & He)].
  - intros e n n' es es' Ha He. split; [by apply view_agree|done].
Qed.
Lemma generated_stable role : stable (fun r n n' => generated lib km zone role n n' r).
Proof.
  split.
  - intros r r' n n' m m' es es0 es' (Hoth & Hact & Hr) Hm Hm' Ha Hans. assert (Hf : forall kp, fresh_key lib km zone n n' role kp -> fresh_key lib km zone m m' role kp) by (intros kp Hk; by eapply fresh_mono). split_and!.
    + intros role' Hr' Hne. by rewrite (Hoth role' Hr' Hne), (active_agree es0 es).
    + rewrite <- (active_agree es0 es) by done. destruct Hact as [|(kp & ? & ?)]; [by left|right; exists kp; auto].
    + destruct Hans as [->|(e & -> & He)]; [|done]. intros kp Hk. destruct (Hr kp Hk). auto.
  - intros e n n' es es' Ha _. split_and!; [intros; by apply active_agree|left; by apply active_agree|done].
Qed.
Lemma ensured_stable : stable (fun r n n' => ensured lib km zone n n' r).
Proof.
  split.
  - intros r r' n n' m m' es es0 es' (Hact & Hr) Hm Hm' Ha Hans. split; [|by destruct Hans as [->|(e & -> & He)]]. intros role Hrole. rewrite <- (active_agree es0 es) by done. destruct (Hact role Hrole) as [|(? & kp & ? & ?)]; [by left|right]. split; [done|]. exists kp. split; [by eapply fresh_mono|done].
  - intros e n n' es es' Ha _. split; [|done]. intros role _. left. by apply active_agree.
Qed.
Lemma rotated_stable : stable (fun r n n' => rotated lib km zone n n' r).
Proof.
  split.
  - intros r r' n n' m m' es es0 es' (Hact & Hr) Hm Hm' Ha Hans. assert (Hf : forall role kp, fresh_key lib km zone n n' role kp -> fresh_key lib km zone m m' role kp) by (intros role kp Hk; by eapply fresh_mono). split.
    + rewrite <- (view_agree es0 es) by done. destruct Hact as [|(a & b & ? & ? & ?)]; [by left|right; exists a, b; auto].
    + destruct Hans as [->|(e & -> & He)]; [|done]. intros a b Hab. destruct (Hr a b Hab) as (? & ? & ?). auto.
  - intros e n n' es es' Ha _. split; [left; by apply view_agree|done].
Qed.
Lemma cleared_stable : stable (fun r _ _ => cleared lib km zone r).
Proof.
  split.
  - intros r r' n n' m m' es es0 es' (Hv & Hr) _ _ Ha Hans. split; [by rewrite Hv, (view_agree es0 es)|]. by destruct Hans as [->|(e & -> & He)].
  - intros e n n' es es' Ha _. split; [by apply view_agree|done].
Qed.
Lemma removed_stable : stable (fun r _ _ => removed lib km zone r).
Proof.
  split.
  - intros r r' n n' m m' es es0 es' (Hact & Hr) _ _ Ha Hans. split; [intros role; rewrite <- (active_agree es0 es) by done; apply Hact|]. destruct Hans as [->|(e & -> & He)]; [done|congruence].
  - intros e n n' es es' Ha He. split; [intros role _; left; by apply active_agree|]. intros Hx. by destruct (He Hx).
Qed.
End stable.

Context (Htags : forall zone, NormalizeZoneFQDN zone = Ok zone -> distinct_tags lib km zone).
Definition tree_ok (c : cache) : Prop := forall zone, NormalizeZoneFQDN zone = Ok zone -> dir_ok lib km zone (zone_entries c (dir_of zone)) (ticks c).
(** Nothing changes in the directories of other zones. *)
Definition obeys (zone : string) (P : nat -> nat -> nodes -> nodes -> Prop) (c c' : cache) : Prop :=
  P (ticks c) (ticks c') (zone_entries c (dir_of zone)) (zone_entries c' (dir_of zone)) /\ forall z, z <> dir_of zone -> agree (zone_entries c z) (zone_entries c' z).
Lemma tree_step zone c c' : NormalizeZoneFQDN zone = Ok zone -> (ticks c <= ticks c')%nat -> dir_ok lib km zone (zone_entries c' (dir_of zone)) (ticks c') -> (forall z, z <> dir_of zone -> agree (zone_entries c z) (zone_entries c' z)) -> tree_ok c -> tree_ok c'.
Proof using H0.
  intros Hz Ht Hd Hoth Hc zone' Hz'. destruct (decide (zone' = zone)) as [->|Hne]; [done|]. eapply dir_ok_agree; [apply Hoth|exact Ht|by apply Hc]. intros Hx. by apply Hne, zone_directory_inj.
Qed.
Lemma wp_request {A} name zone createDir (fn : string -> io fs (result A)) (P : result A -> nat -> nat -> nodes -> nodes -> Prop) c : NormalizeZoneFQDN name = Ok zone -> stable P -> tree_ok c ->
  (forall s, dir_ok lib km zone (entries s) (tick s) -> wpio (fn zone) s (fun r s' => kept lib km zone (P r) s s')) ->
  wpio (withZoneKeyLock w name createDir fn) c (fun r c' => tree_ok c' /\ obeys zone (P r) c c').
Proof using H0.
  intros Hname [Hwiden Hblock] Hc Hfn. destruct (normalize_normal _ _ Hname) as [Hz _]. eapply wp_locked; [exact Hname| |].
  - intros e c' [[Ht Hag] He]. assert (Hag' : forall z, agree (zone_entries c z) (zone_entries c' z)) by (intros z m; apply Hag). split; [|split; [by apply Hblock|done]]. eapply tree_step; [exact Hz|exact Ht| |done|done]. eapply dir_ok_agree; [apply Hag'|exact Ht|by apply Hc].
  - intros s Ht Hag. eapply wpio_mono; [apply Hfn; eapply dir_ok_agree; [exact Hag|exact Ht|by apply Hc]|]. intros r s' (Ht' & Hok & HP) r' c' Hc' Hent Hoth Hans. assert (Hoth' : forall z, z <> dir_of zone -> agree (zone_entries c z) (zone_entries c' z)) by (intros z Hne m; by apply Hoth).
    split; [apply (tree_step zone c); [exact Hz|lia| |done|done]|split; [|done]]; rewrite Hent; [eapply dir_ok_step; [exact Hc'|by left|done]|]. eapply Hwiden; [exact HP|done|done|done|done].
Qed.

Inductive key_request := ReqLoadKSK | ReqLoadZSK | ReqGenerateKSK | ReqGenerateZSK | ReqEnsureZoneKeys | ReqGenerateZoneKeys (rotate : bool) | ReqRemoveOldKeys | ReqRemoveZoneKeys | ReqExportDS (digestType : Z).
Inductive key_answer := AnsKey (r : result key_pair) | AnsKeys (r : result (key_pair * key_pair)) | AnsCount (r : result Z) | AnsRemoved (r : result unit) | AnsText (r : result string).
Definition io_map {S A B} (f : A -> B) (m : io S A) : io S B := io_bind m (fun a => io_ret (f a)).
Definition serve_keys (name : string) (req : key_request) : io cache key_answer :=
  match req with
  | ReqLoadKSK => io_map AnsKey (LoadKSK lib w km name)
  | ReqLoadZSK => io_map AnsKey (LoadZSK lib w km name)
  | ReqGenerateKSK => io_map AnsKey (GenerateKSK lib w km name)
  | ReqGenerateZSK => io_map AnsKey (GenerateZSK lib w km name)
  | ReqEnsureZoneKeys => io_map AnsKeys (EnsureZoneKeys lib w km name)
  | ReqGenerateZoneKeys rotate => io_map AnsKeys (GenerateZoneKeys lib w km name rotate)
  | ReqRemoveOldKeys => io_map AnsCount (RemoveOldKeys lib w name)
  | ReqRemoveZoneKeys => io_map AnsRemoved (RemoveZoneKeys w name)
  | ReqExportDS digestType => io_map AnsText (ExportDS lib w km name digestType)
  end.
(** What the answer to a request says of the zone's directory before and after,
    the request running between two ticks. *)
Definition promised (zone : string) (req : key_request) (ans : key_answer) (n n' : nat) (es es' : nodes) : Prop :=
  match req, ans with
  | ReqLoadKSK, AnsKey r => loaded lib km zone KeyRoleKSK r es es'
  | ReqLoadZSK, AnsKey r => loaded lib km zone KeyRoleZSK r es es'
  | ReqGenerateKSK, AnsKey r => generated lib km zone KeyRoleKSK n n' r es es'
  | ReqGenerateZSK, AnsKey r => generated lib km zone KeyRoleZSK n n' r es es'
  | ReqEnsureZoneKeys, AnsKeys r | ReqGenerateZoneKeys false, AnsKeys r => ensured lib km zone n n' r es es'
  | ReqGenerateZoneKeys true, AnsKeys r => rotated lib km zone n n' r es es'
  | ReqRemoveOldKeys, AnsCount r => cleared lib km zone r es es'
  | ReqRemoveZoneKeys, AnsRemoved r => removed lib km zone r es es'
  | ReqExportDS digestType, AnsText r => exported lib km zone digestType r es es'
  | _, _ => False
  end.
Definition refused (ans : key_answer) : Prop :=
  match ans with AnsKey (Err _) | AnsKeys (Err _) | AnsCount (Err _) | AnsRemoved (Err _) | AnsText (Err _) => True | _ => False end.
(** A name that is not a zone name is refused. *)
Definition served (c : cache) (name : string) (req : key_request) (ans : key_answer) (c' : cache) : Prop :=
  match NormalizeZoneFQDN name with
  | Ok zone => obeys zone (promised zone req ans) c c'
  | Err _ => refused ans /\ c' = c
  end.
Lemma wp_serve name req c : tree_ok c -> wpio (serve_keys name req) c (fun ans c' => tree_ok c' /\ served c name req ans c').
Proof using H0 KeyLaws0 Htags.
  intros Hc. unfold served. destruct (NormalizeZoneFQDN name) as [zone|e] eqn:En.
  - destruct (normalize_normal _ _ En) as [Hz _]. pose proof (Htags zone Hz) as Ht. destruct req as [| | | | |[]| | |d]; cbn [serve_keys]; apply wpio_bind; (eapply wpio_mono; [|intros r c' Hr; apply wpio_ret; exact Hr]).
    + apply (wp_request _ _ _ _ _ _ En (loaded_stable zone KeyRoleKSK) Hc). intros s Hs. by apply wp_loadKey; [|left|].
    + apply (wp_request _ _ _ _ _ _ En (loaded_stable zone KeyRoleZSK) Hc). intros s Hs. by apply wp_loadKey; [|right|].
    + apply (wp_request _ _ _ _ _ _ En (generated_stable zone KeyRoleKSK) Hc). intros s Hs. by apply (wp_generateKey lib w km zone Hz Ht KeyRoleKSK); [left|].
    + apply (wp_request _ _ _ _ _ _ En (generated_stable zone KeyRoleZSK) Hc). intros s Hs. by apply (wp_generateKey lib w km zone Hz Ht KeyRoleZSK); [right|].
    + apply (wp_request _ _ _ _ _ _ En (ensured_stable zone) Hc). intros s Hs. by apply wp_ensure.
    + apply (wp_request _ _ _ _ _ _ En (rotated_stable zone) Hc). intros s Hs. by apply wp_rotate.
    + apply (wp_request _ _ _ _ _ _ En (ensured_stable zone) Hc). intros s Hs. by apply wp_ensure.
    + apply (wp_request _ _ _ _ _ _ En (cleared_stable zone) Hc). intros s Hs. by apply wp_removeOld.
    + apply wpio_bind. eapply wpio_mono; [apply (wp_request _ _ _ _ _ _ En (removed_stable zone) Hc); intros s Hs; by apply wp_removeZoneKeys|]. intros r c' (Hc' & (Hact & Hr) & Hoth). apply wpio_ret. split; [done|]. split; [|done]. split; [done|]. destruct r as [u|e]; [done|]. destruct (errors_Is e ErrZoneNotFound) eqn:Ee; [by apply Hr|congruence].
    + apply (wp_request _ _ _ _ _ _ En (exported_stable zone d) Hc). intros s Hs. by apply wp_export.
  - pose proof (normalize_error _ _ En) as He. destruct req as [| | | | |[]| | |d]; cbn [serve_keys]; unfold LoadKSK, LoadZSK, GenerateKSK, GenerateZSK, GenerateZoneKeys, EnsureZoneKeys, RemoveOldKeys, RemoveZoneKeys, ExportDS, withZoneKeyLock, wpio, io_map, io_bind, io_try, io_ret; cbn [negb]; rewrite En; cbn; rewrite ?He; done.
Qed.

Record key_event := mkEvent { ev_before : cache; ev_zone : string; ev_request : key_request; ev_answer : key_answer; ev_after : cache }.
Fixpoint key_history (reqs : list (string * key_request)) (c : cache) : list key_event :=
  match reqs with
  | [] => []
  | (name, req) :: reqs => let '(ans, c') := serve_keys name req c in mkEvent c name req ans c' :: key_history reqs c'
  end.
Definition explained_event (e : key_event) : Prop := served (ev_before e) (ev_zone e) (ev_request e) (ev_answer e) (ev_after e).
Lemma history_explained reqs c : tree_ok c -> Forall explained_event (key_history reqs c).
Proof using H0 KeyLaws0 Htags.
  revert c. induction reqs as [|[name req] reqs IH]; intros c Hc; cbn [key_history]; [done|]. pose proof (wp_serve name req c Hc) as Hw. destruct (serve_keys name req c) as [ans c'] eqn:Es. eapply wpio_run in Hw as [Hc' Hs]; [|exact Es]. constructor; [exact Hs|by apply IH].
Qed.
End sessions.

(** ** The key manager *)

(** *** The keys of a run

    A run generates keys at some ticks; the library that fails at all others gives
    the same run. *)
Definition only_at (D : nat -> bool) {R E : Type} (lib : KeyLib R E) : KeyLib R E := {|
  Generate t alg bits := if D t then Generate lib t alg bits else Err (Errorf "no key at this tick");
  dnskey_String := dnskey_String lib; NewRR := NewRR lib;
  MarshalPKCS1PrivateKey := MarshalPKCS1PrivateKey lib; ParsePKCS1PrivateKey := ParsePKCS1PrivateKey lib;
  MarshalECPrivateKey := MarshalECPrivateKey lib; ParseECPrivateKey := ParseECPrivateKey lib;
  NonceSize := NonceSize lib; rand_nonce := rand_nonce lib; gcm_Seal := gcm_Seal lib; gcm_Open := gcm_Open lib;
  marshal_envelope := marshal_envelope lib; unmarshal_envelope := unmarshal_envelope lib;
  marshal_active := marshal_active lib; unmarshal_active := unmarshal_active lib; rrs := rrs lib |}.
Section run_keys.
Context `{UnicodeTables, !UnicodeLaws} {R E : Type} (lib : KeyLib R E) `{!KeyLaws lib} (w : World) (km : KeyManager) (D : nat -> bool).
#[local] Instance only_at_laws : KeyLaws (only_at D lib).
Proof. destruct KeyLaws0. split; try done. cbn. intros t alg bits pub priv zone flags Hz. destruct (D t); [by apply kl_public0|done]. Qed.
Lemma born_only zone t role kp : born (only_at D lib) km zone t role kp -> D t = true /\ born lib km zone t role kp.
Proof. intros (pub & priv & Hg & Hrest). cbn in Hg. destruct (D t) eqn:Ed; [|done]. split; [done|]. by exists pub, priv. Qed.
Lemma fresh_only zone n n' role kp : fresh_key (only_at D lib) km zone n n' role kp -> fresh_key lib km zone n n' role kp.
Proof. intros (t & Ht & [_ Hb]%born_only). by exists t. Qed.
(** No two keys generated at the ticks [D] have the same tag, and none has tag 0. *)
Record tags_distinct (zone : string) : Prop := {
  td_inj : forall t t' role role' kp kp', D t = true -> D t' = true -> is_role role -> is_role role' -> born lib km zone t role kp -> born lib km zone t' role' kp' ->
    key_Tag (kp_ID kp) = key_Tag (kp_ID kp') -> t = t' /\ role = role';
  td_nonzero : forall t role kp, D t = true -> is_role role -> born lib km zone t role kp -> key_Tag (kp_ID kp) <> 0 }.
Lemma tags_only zone : tags_distinct zone -> distinct_tags (only_at D lib) km zone.
Proof. intros [Hi Hn]. split; [intros t t' role role' kp kp' Hr Hr' [Hd Hb]%born_only [Hd' Hb']%born_only; by apply Hi|intros t role kp Hr [Hd Hb]%born_only; by eapply Hn]. Qed.
Lemma promised_only zone req ans n n' es es' : promised (only_at D lib) km zone req ans n n' es es' -> promised lib km zone req ans n n' es es'.
Proof.
  destruct req as [| | | | |[]| | |d], ans as [r|r|r|r|r]; cbn [promised]; try exact id.
  1, 2: (intros (Ho & Ha & Hr); split_and!; [exact Ho|destruct Ha as [Ha|(kp & ?%fresh_only & Ha)]; [by left|right; by exists kp]|intros kp Hk; destruct (Hr kp Hk) as [?%fresh_only ?]; by split]).
  1, 3: (intros [Ho Hr]; split; [|exact Hr]; intros role Hrole; destruct (Ho role Hrole) as [Ha|(Hn & kp & ?%fresh_only & Ha)]; [by left|right; split; [done|by exists kp]]).
  intros [Ho Hr]. split; [destruct Ho as [Ho|(a & b & ?%fresh_only & ?%fresh_only & Ho)]; [by left|right; by exists a, b]|].
  intros a b Hk. destruct (Hr a b Hk) as (?%fresh_only & ?%fresh_only & ?). by split_and!.
Qed.
Lemma explained_only e : explained_event (only_at D lib) km e -> explained_event lib km e.
Proof.
  unfold explained_event, served. destruct (NormalizeZoneFQDN (ev_zone e)) as [zone|]; [|done]. intros [Hp Ho]. split; [by apply promised_only|exact Ho].
Qed.
End run_keys.


(** *** A library to run it with *)
Fixpoint unary (n : nat) : string := match n with O => "0" | S n => String "1"%char (unary n) end.
Fixpoint take_unary (s : string) : option (nat * string) :=
  match s with
  | String c s => if Ascii.eqb c "1"%char then match take_unary s with Some (n, rest) => Some (S n, rest) | None => None end else Some (0%nat, s)
  | EmptyString => None
  end.
Lemma take_unary_app n s : take_unary (unary n +:+ s) = Some (n, s).
Proof. induction n as [|n IH]; [done|]. cbn [unary]. rewrite str_app_cons. cbn [take_unary]. by rewrite IH. Qed.
Definition text_field (s : string) : string := unary (String.length s) +:+ s.
Definition number_field (z : Z) : string := (if z <? 0 then "-" else "+") +:+ unary (Z.abs_nat z).
Definition take_text (s : string) : option (string * string) := match take_unary s with Some (n, rest) => Some (str_take n rest, str_drop n rest) | None => None end.
Definition take_number (s : string) : option (Z * string) :=
  match s with
  | String c s => match take_unary s with Some (n, rest) => Some (if Ascii.eqb c "-"%char then - Z.of_nat n else Z.of_nat n, rest) | None => None end
  | EmptyString => None
  end.
Lemma take_text_app s t : take_text (text_field s +:+ t) = Some (s, t).
Proof. unfold take_text, text_field. by rewrite str_app_assoc, take_unary_app, str_take_app, str_drop_app. Qed.
Lemma take_number_app z t : take_number (number_field z +:+ t) = Some (z, t).
Proof. unfold number_field. destruct (Z.ltb_spec z 0); rewrite str_app_assoc, str_app_cons, str_app_nil_l; cbn [take_number]; rewrite take_unary_app; cbn; do 2 f_equal; lia. Qed.
Definition or_malformed {A} (o : option A) : result A := match o with Some a => Ok a | None => Err (Errorf "malformed") end.
Definition toy_rrlib : RRLib (private_key nat nat) := {|
  names := plain_lib; rr_String := h_Name; TypeToString := Itoa; ZoneParser _ _ _ _ := ([], None); IsRRset _ := true; CountLabel n := Z.of_nat (length (SplitDomainName plain_lib n));
  KeyTag k := (2 * len (dk_PublicKey k) + dk_Flags k - 255) mod 65536; is_Signer k := true; Sign e k := plain_Sign 0; ToDS_String k d := Some (dk_Name k +:+ " DS") |}.
Definition toy_keys : KeyLib nat nat := {|
  Generate t alg bits := Ok (String.string_of_list_ascii (repeat "k"%char t), ECDSAKey t);
  dnskey_String k := text_field (dk_Name k) +:+ number_field (dk_Flags k) +:+ number_field (dk_Algorithm k) +:+ text_field (dk_PublicKey k);
  NewRR s := or_malformed (x ← take_text s; y ← take_number (snd x); z ← take_number (snd y); p ← take_text (snd z); Some (Some (mkDnskey (fst x) ClassINET 3600 (fst y) 3 (fst z) (fst p))));
  MarshalPKCS1PrivateKey := unary;
  ParsePKCS1PrivateKey s := or_malformed (fst <$> take_unary s);
  MarshalECPrivateKey k := Ok (unary k);
  ParseECPrivateKey s := or_malformed (fst <$> take_unary s);
  NonceSize := 12;
  rand_nonce t := Ok (repeat 7 12);
  gcm_Seal key nonce p aad := map byte (String.list_ascii_of_string p);
  gcm_Open key nonce c aad := Ok (String.string_of_list_ascii (map chr c));
  marshal_envelope e := Ok (number_field (env_Version e) +:+ text_field (env_Cipher e) +:+ text_field (NonceB64 e) +:+ text_field (CiphertextB64 e) +:+ text_field (env_Zone e) +:+ number_field (env_Algorithm e) +:+ number_field (env_KeyTag e) +:+ text_field (env_Role e));
  unmarshal_envelope s := or_malformed (v ← take_number s; c ← take_text (snd v); n ← take_text (snd c); x ← take_text (snd n); z ← take_text (snd x); a ← take_number (snd z); t ← take_number (snd a); r ← take_text (snd t);
    Some (mkEnvelope (fst v) (fst c) (fst n) (fst x) (fst z) (fst a) (fst t) (fst r)));
  marshal_active a := Ok (number_field (active_Algorithm a) +:+ number_field (ActiveKSKTag a) +:+ number_field (ActiveZSKTag a));
  unmarshal_active s _ := or_malformed (a ← take_number s; k ← take_number (snd a); z ← take_number (snd k); Some (mkActive (fst a) (fst k) (fst z)));
  rrs := toy_rrlib |}.
Ltac unpack := repeat (first [rewrite take_text_app|rewrite take_number_app]; cbn [mbind option_bind fst snd]).
(** The last field ends the text. *)
Lemma take_text_end s : take_text (text_field s) = Some (s, "").
Proof. pose proof (take_text_app s "") as Ht. by rewrite str_app_nil_r in Ht. Qed.
Lemma take_number_end z : take_number (number_field z) = Some (z, "").
Proof. pose proof (take_number_app z "") as Ht. by rewrite str_app_nil_r in Ht. Qed.
Lemma bytes_chars p : map chr (map byte (String.list_ascii_of_string p)) = String.list_ascii_of_string p.
Proof. induction p as [|c p IH]; [done|]. cbn. by rewrite chr_byte, IH. Qed.
Lemma byte_list p : Forall is_byte (map byte (String.list_ascii_of_string p)).
Proof. induction p as [|c p IH]; [done|]. constructor; [apply byte_range|done]. Qed.
#[global] Instance toy_key_laws `{UnicodeTables} : KeyLaws toy_keys.
Proof.
  split; cbn [toy_keys NewRR dnskey_String ParsePKCS1PrivateKey MarshalPKCS1PrivateKey MarshalECPrivateKey ParseECPrivateKey gcm_Open gcm_Seal NonceSize rand_nonce marshal_envelope unmarshal_envelope marshal_active unmarshal_active rrs KeyTag toy_rrlib dk_Name dk_Flags dk_Algorithm dk_PublicKey].
  - intros t alg bits pub priv zone flags _ _. rewrite !str_app_assoc. by unpack.
  - intros k. pose proof (take_unary_app k "") as Ht. rewrite str_app_nil_r in Ht. by rewrite Ht.
  - intros k data [= <-]. pose proof (take_unary_app k "") as Ht. rewrite str_app_nil_r in Ht. by rewrite Ht.
  - intros key nonce p aad _. by rewrite bytes_chars, String.string_of_list_ascii_of_string.
  - intros key nonce p aad. apply byte_list.
  - intros t nonce [= <-]. split; [done|]. by repeat constructor.
  - intros e data [= <-]. unpack. rewrite take_text_end. by destruct e.
  - intros a data [= <-] _. unpack. rewrite take_number_end. by destruct a.
  - intros k. apply Z.mod_pos_bound. lia.
Qed.
Lemma key_length t : len (String.string_of_list_ascii (repeat "k"%char t)) = Z.of_nat t.
Proof. unfold len. induction t as [|t IH]; [done|]. cbn [repeat String.string_of_list_ascii String.length]. lia. Qed.
Lemma toy_tag km zone t role kp : Z.of_nat t < 30000 -> born toy_keys km zone t role kp -> key_Tag (kp_ID kp) = 2 * Z.of_nat t + (if (role =? KeyRoleKSK)%string then 2 else 1).
Proof.
  intros Ht (pub & priv & Hg & Hd & _ & _ & Hi). cbn [toy_keys Generate] in Hg. injection Hg as <- _. rewrite Hi. cbn [key_Tag]. rewrite Hd. cbn [toy_keys rrs toy_rrlib KeyTag dk_PublicKey dk_Flags]. rewrite key_length. unfold role_flags, dnskeyKSKFlags, dnskeyZSKFlags.
  destruct (role =? KeyRoleKSK)%string; rewrite Z.mod_small; lia.
Qed.
Lemma toy_distinct km zone (ticks : list nat) : Forall (fun t => Z.of_nat t < 30000) ticks -> tags_distinct toy_keys km (fun t => existsb (Nat.eqb t) ticks) zone.
Proof.
  intros Hb. assert (Hlt : forall t, existsb (Nat.eqb t) ticks = true -> Z.of_nat t < 30000).
  { intros t (x & Hx & ->%Nat.eqb_eq)%existsb_exists. rewrite Forall_forall in Hb. by apply Hb, list_elem_of_In. }
  split.
  - intros t t' role role' kp kp' Ht%Hlt Ht'%Hlt Hr Hr' H1%toy_tag H2%toy_tag He; [|done..]. rewrite H1, H2 in He. destruct Hr as [->| ->], Hr' as [->| ->]; cbn in He; first [split; [lia|done]|lia].
  - intros t role kp Ht%Hlt _ Hk%toy_tag; [|done]. rewrite Hk. destruct (role =? KeyRoleKSK)%string; lia.
Qed.
(** One system call fails. *)
Definition key_world : World := mkWorld (fun t => if (t =? 95)%nat then Some (EOther "disk full") else None) (fun _ => 3%nat) Z.of_nat Z.of_nat (fun _ => (1000000, 4096)) (fun _ => false).
Definition toy_manager : KeyManager := mkKeyManager (repeat 1 32) 13 256 256.
Definition key_requests : list (string * key_request) :=
  [("Example.com", ReqEnsureZoneKeys); ("example.com.", ReqGenerateZoneKeys true); ("example.com", ReqGenerateZoneKeys true); ("example.com", ReqRemoveOldKeys); ("example.com", ReqLoadKSK); ("example.org", ReqLoadZSK); ("example.com", ReqExportDS 2); ("example.com", ReqRemoveZoneKeys); ("..", ReqLoadZSK)].
Definition succeeded (ans : key_answer (R := nat) (E := nat)) : bool :=
  match ans with AnsKey (Ok _) | AnsKeys (Ok _) | AnsCount (Ok _) | AnsRemoved (Ok _) | AnsText (Ok _) => true | _ => false end.
(** The run generates keys at these ticks. *)
Definition key_ticks : list nat := [14%nat; 42%nat; 82%nat; 107%nat; 126%nat].
