(* ===== verification/NameServers.v ===== *)
(** * The name servers an agent drives ([internal/agent/nsd/control.go],
    [internal/agent/unbound/control.go], their adapters and
    [internal/agent/plugin], [internal/agent/commandpath], the hooks of
    [cmd/arca-dns-agent/main.go])

    NSD gets one file with a stanza per zone, Unbound one file with a stub zone
    per zone; after a change the servers are told by running their control
    programs.  The hooks the synchronisation calls when it applies or deletes a
    zone are written against the plugin interfaces [AuthoritativeServer] and
    [Resolver].

    The state holds the directories by their paths and a log: the commands that
    were run, whether they succeeded, and the files as they were then.  System
    calls fail as the [World] says; what a command answers is an argument, since
    the programs are not part of the repository.  Paths are absolute and do not
    end in a slash, as configuration validation ensures. *)

From S2P Require Import Prelude Io GoStrings GoStringsFacts GoSort GoNet ConfigData Names Validation ZonePath FileSystem FileManager ArtifactCache KeyManager.
#[local] Open Scope io_scope.

Record command := mkCommand { cmd_argv : list string; cmd_ok : bool; cmd_files : cache }.
Record services := mkServices { sv_files : cache; sv_log : list command }.
Definition in_files {A} (m : io cache A) : io services A := fun s => let '(a, c) := m (sv_files s) in (a, mkServices c (sv_log s)).
(** A call on the directory of a file. *)
Definition in_dir {A} (dir : string) (m : io fs A) : io services A := in_files (in_zone dir m).

Definition unsafePathChar (r : Z) : bool := (r <? 32) || (r =? 127).
(** [commandpath.Validate]. *)
Definition commandpath_Validate (field path : string) : result unit :=
  let trimmed := TrimSpace path in
  guard_err (trimmed =? "")%string (invalid field "empty") ;;*
  guard_err (negb (trimmed =? path)%string) (invalid field "must not contain surrounding whitespace") ;;*
  guard_err (ContainsFunc path unsafePathChar) (invalid field "contains control characters") ;;*
  guard_err (negb (IsAbs path)) (invalid field "must be an absolute path").
Definition normalizeZoneName `{UnicodeTables} (zoneName : string) : result string :=
  let normalized := NormalizeZoneName zoneName in
  wrap ("invalid zone name " +:+ zoneName) (ValidateZoneName normalized) ;;* Ok normalized.

(** ** Configuration files *)
Section files.
Context (w : World).
(** Open, flush and close a directory; a file system that cannot flush one is
    tolerated. *)
Definition config_syncDir : io fs (result unit) :=
  syscall w (fun _ d => (Ok tt, d)) ;;?
  synced <- (fun s =>
    (match fault w (tick s) with Some (EOther msg) => Err (Errorf msg) | _ => Ok tt end, mkFs (zone_dir s) (S (tick s)))) ;
  closed <- syscall w (fun _ d => (Ok tt, d)) ;
  io_ret match synced with Err e => Err e | Ok _ => closed end.
Definition validateExistingConfigDirectory : io fs (result unit) := existing_directory w "config directory must not be a symlink" "config path must be a directory".
Definition validateConfigDirectoryIfExistsForPath : io fs (result unit) :=
  r <- validateExistingConfigDirectory ;
  match r with
  | Ok _ => io_ok tt
  | Err e => if os_IsNotExist e then io_ok tt else io_fail (Wrapf "stat config directory" e)
  end.
Definition ensure_config_directory (label : string) : io fs (result unit) :=
  r <- validateExistingConfigDirectory ;
  existed <-? io_ret match r with
                     | Ok _ => Ok true
                     | Err e => if os_IsNotExist e then Ok false else Err (Wrapf "stat config directory" e)
                     end ;
  io_wrap "create config directory" (os_MkdirAll w) ;;?
  io_wrap "stat config directory" validateExistingConfigDirectory ;;?
  if existed then io_ok tt else io_wrap label config_syncDir.
Definition ensureConfigDirectoryForPath : io fs (result unit) := ensure_config_directory "fsync config directory parent".
(** Chmod, write and flush the temporary file; it is closed in any case. *)
Definition fill_config (tmpPath data : string) (perm : Z) : io fs (result unit) :=
  filled <- (tmp_Chmod w tmpPath perm ;;? tmp_Write w tmpPath data ;;? tmp_Sync w) ;
  match filled with
  | Err e => _ <- tmp_Close w ; io_fail e
  | Ok _ => tmp_Close w
  end.
(** Fill a temporary file, rename it over [name] and flush the directory; it is
    removed when the rename is not reached. *)
Definition atomic_replace (fill : string -> io fs (result unit)) (prefix suffix name : string) : io fs (result unit) :=
  tmpPath <-? os_CreateTemp w prefix suffix ;
  renamed <- (fill tmpPath ;;? os_Rename w tmpPath name) ;
  match renamed with
  | Err e => _ <- os_Remove w tmpPath ; io_fail e
  | Ok _ => config_syncDir
  end.
Definition config_writeFileAtomic (name data : string) (perm : Z) : io fs (result unit) :=
  ensureConfigDirectoryForPath ;;?
  atomic_replace (fun tmpPath => fill_config tmpPath data perm) ("." +:+ name +:+ ".") ".tmp" name.
Definition maxManagedZoneConfigFileSize : Z := 4 * 1024 * 1024.
Definition readRegularConfigFile (label name : string) (max : Z) : io fs (result string) :=
  info <-? os_Lstat w name ;
  if is_symlink info then io_fail (Errorf (label +:+ " must not be a symlink"))
  else if negb (is_regular info) then io_fail (Errorf (label +:+ " must be a regular file"))
  else if max <? node_size info then io_fail (Errorf (label +:+ " exceeds maximum size"))
  else
    file <-? os_Open w name ;
    openedInfo <-? file_Stat w file ;
    if negb (SameFile info openedInfo) then io_fail (Errorf (label +:+ " changed while opening"))
    else if negb (is_regular openedInfo) then io_fail (Errorf (label +:+ " must be a regular file"))
    else if max <? node_size openedInfo then io_fail (Errorf (label +:+ " exceeds maximum size"))
    else
      data <-? ReadAll_limited w file (max + 1) ;
      if max <? len data then io_fail (Errorf (label +:+ " exceeds maximum size"))
      else io_ok data.
Definition readRegularManagedZoneConfigFile (name : string) : io fs (result string) :=
  readRegularConfigFile "NSD managed zone config" name maxManagedZoneConfigFileSize.
(** The package of Unbound has a copy of these routines. *)
Definition unbound_syncDir : io fs (result unit) := config_syncDir.
Definition unbound_validateExistingConfigDirectory : io fs (result unit) := validateExistingConfigDirectory.
Definition unbound_validateConfigDirectoryIfExistsForPath : io fs (result unit) := validateConfigDirectoryIfExistsForPath.
Definition unbound_ensureConfigDirectoryForPath : io fs (result unit) := ensureConfigDirectoryForPath.
Definition unbound_writeFileAtomic : string -> string -> Z -> io fs (result unit) := config_writeFileAtomic.
End files.

Definition newline : string := str1 (chr 10).
Definition quoted (s : string) : string := str1 (chr 34) +:+ s +:+ str1 (chr 34).

Section servers.
Context `{UnicodeTables} (w : World) (run : nat -> list string -> result string).
(** Run a program until it ends or its time is up; its output, or the error. *)
Definition exec_Command (argv : list string) : io services (result string) := fun s =>
  let c := sv_files s in
  let r := run (ticks c) argv in
  (r, mkServices (mkCache (root c) (S (ticks c))) (sv_log s ++ [mkCommand argv (is_ok r) c])).
Definition exec_checked (what : string) (path : result string) (args : list string) : io services (result string) :=
  path <-? io_ret path ; io_wrap what (exec_Command (path :: args)).
Definition exec_unit (what : string) (path : result string) (args : list string) : io services (result unit) :=
  exec_checked what path args ;;? io_ok tt.

(** ** NSD *)
Section nsd.
Context (c : NSDConfig).
Definition nsd_validatedControlPath : result string := commandpath_Validate "nsd.control_path" (nsd_ControlPath c) ;;* Ok (nsd_ControlPath c).
Definition validatedCheckzonePath : result string := commandpath_Validate "nsd.checkzone_path" (nsd_CheckzonePath c) ;;* Ok (nsd_CheckzonePath c).
Definition zoneConfigPath : string :=
  if negb (nsd_ZoneConfigPath c =? "")%string then nsd_ZoneConfigPath c else Clean (Dirname (nsd_ConfigPath c) +:+ "/arca-dns-zones.conf").

(** The zone a line marks. *)
Definition zone_marker (line : string) : option string :=
  let line := TrimSpace line in
  if HasPrefix line "# arca-dns-zone:" then
    let zoneName := TrimSpace (TrimPrefix line "# arca-dns-zone:") in
    if (zoneName =? "")%string then None else Some zoneName
  else None.
Fixpoint read_markers (lines : list string) (zones : gset string) : result (gset string) :=
  match lines with
  | [] => Ok zones
  | line :: lines =>
    match zone_marker line with
    | None => read_markers lines zones
    | Some zoneName =>
      let* normalized := wrap "invalid NSD managed zone marker" (normalizeZoneName zoneName) in
      read_markers lines ({[ normalized ]} ∪ zones)
    end
  end.
Definition readManagedZoneConfig (name : string) : io fs (result (string * gset string)) :=
  validateConfigDirectoryIfExistsForPath w ;;?
  r <- readRegularManagedZoneConfigFile w name ;
  io_ret match r with
         | Err e => if os_IsNotExist e then Ok ("", ∅) else Err (Wrapf "read NSD managed zone config" e)
         | Ok existing => let* zones := read_markers (Split existing (chr 10)) ∅ in Ok (existing, zones)
         end.
Definition zone_stanza (zoneDir zoneName : string) : string :=
  "# arca-dns-zone: " +:+ zoneName +:+ newline +:+ "zone:" +:+ newline
  +:+ "    name: " +:+ quoted zoneName +:+ newline
  +:+ "    zonefile: " +:+ quoted (Clean (zoneDir +:+ "/" +:+ SafeZoneFilename zoneName +:+ ".zone")) +:+ newline +:+ newline.
Definition renderManagedZoneConfig (configPath zoneDir : string) (zones : gset string) : string :=
  "# Generated by arca-dns-agent. DO NOT EDIT." +:+ newline
  +:+ "# Include this file from nsd.conf, for example:" +:+ newline
  +:+ "# include: " +:+ quoted configPath +:+ newline +:+ newline
  +:+ str_concat (map (zone_stanza zoneDir) (sort_Strings (map NormalizeZoneName (elements zones)))).
(** Whether the file changed. *)
Definition updateManagedZoneConfig (mutator : gset string -> gset string) : io services (result bool) :=
  let path := zoneConfigPath in
  _ <-? io_ret (ValidateNSDRenderedConfigPath "nsd.zone_config_path" path) ;
  _ <-? io_ret (ValidateNSDRenderedConfigPath "nsd.zone_directory" (nsd_ZoneDirectory c)) ;
  in_dir (Dirname path)
    (read <-? readManagedZoneConfig (Base path) ;
     let after := renderManagedZoneConfig path (nsd_ZoneDirectory c) (mutator (snd read)) in
     if (fst read =? after)%string then io_ok false
     else
       io_wrap "write NSD managed zone config" (config_writeFileAtomic w (Base path) after 420) ;;?
       io_ok true).

Definition nsd_Reconfig : io services (result unit) :=
  if negb (nsd_Enabled c) then io_ok tt else exec_unit "nsd-control reconfig failed" nsd_validatedControlPath ["reconfig"].
Definition update_zones (mutator : gset string -> gset string) : io services (result unit) :=
  changed <-? updateManagedZoneConfig mutator ;
  if negb changed then io_ok tt else nsd_Reconfig.
Definition nsd_EnsureZone (zoneName : string) : io services (result unit) :=
  if negb (nsd_Enabled c) then io_ok tt
  else normalized <-? io_ret (normalizeZoneName zoneName) ; update_zones (fun zones => {[ normalized ]} ∪ zones).
Definition nsd_DeleteZone (zoneName : string) : io services (result unit) :=
  if negb (nsd_Enabled c) then io_ok tt
  else normalized <-? io_ret (normalizeZoneName zoneName) ; update_zones (fun zones => zones ∖ {[ normalized ]}).
Definition nsd_ReloadZone (zoneName : string) : io services (result unit) :=
  if negb (nsd_Enabled c) then io_ok tt
  else normalized <-? io_ret (normalizeZoneName zoneName) ; exec_unit "nsd-control reload failed" nsd_validatedControlPath ["reload"; normalized].
Definition nsd_NotifyZone (zoneName : string) : io services (result unit) :=
  if negb (nsd_Enabled c) then io_ok tt
  else normalized <-? io_ret (normalizeZoneName zoneName) ; exec_unit "nsd-control notify failed" nsd_validatedControlPath ["notify"; normalized].
Definition nsd_Reload : io services (result unit) :=
  if negb (nsd_Enabled c) then io_ok tt else exec_unit "nsd-control reload failed" nsd_validatedControlPath ["reload"].
Definition nsd_CheckZone (zoneName zoneFile : string) : io services (result unit) :=
  if negb (nsd_Enabled c) then io_ok tt
  else normalized <-? io_ret (normalizeZoneName zoneName) ; exec_unit "zone validation failed" validatedCheckzonePath [normalized; zoneFile].
Definition nsd_Status : io services (result string) :=
  if negb (nsd_Enabled c) then io_ok "disabled"
  else out <-? exec_checked "nsd-control status failed" nsd_validatedControlPath ["status"] ; io_ok (TrimSpace out).
Definition nsd_IsRunning : io services bool :=
  if negb (nsd_Enabled c) then io_ret false
  else r <- exec_checked "" nsd_validatedControlPath ["status"] ; io_ret (is_ok r).
End nsd.

(** ** Unbound *)
Section unbound.
Context (c : UnboundConfig).
Definition unbound_validatedControlPath : result string := commandpath_Validate "unbound.control_path" (ub_ControlPath c) ;;* Ok (ub_ControlPath c).
Definition validatedCheckconfPath : result string := commandpath_Validate "unbound.checkconf_path" (ub_CheckconfPath c) ;;* Ok (ub_CheckconfPath c).
Definition unbound_Reload : io services (result unit) :=
  if negb (ub_Enabled c) then io_ok tt else exec_unit "unbound-control reload failed" unbound_validatedControlPath ["reload"].
Definition CheckConfig : io services (result unit) :=
  if negb (ub_Enabled c) then io_ok tt else exec_unit "unbound config validation failed" validatedCheckconfPath [ub_ConfigPath c].
Definition unbound_Status : io services (result string) :=
  if negb (ub_Enabled c) then io_ok "disabled"
  else out <-? exec_checked "unbound-control status failed" unbound_validatedControlPath ["status"] ; io_ok (TrimSpace out).
Definition unbound_IsRunning : io services bool :=
  if negb (ub_Enabled c) then io_ret false
  else r <- exec_checked "" unbound_validatedControlPath ["status"] ; io_ret (is_ok r).
Definition stub_text (normalized : string) : string :=
  "# Stub zone for " +:+ normalized +:+ newline +:+ "# Generated by arca-dns-agent" +:+ newline +:+ "stub-zone:" +:+ newline
  +:+ "    name: " +:+ quoted normalized +:+ newline
  +:+ "    stub-addr: " +:+ TrimSpace (stub_NSDAddress (ub_StubZoneConfig c)) +:+ "@" +:+ Itoa (stub_NSDPort (ub_StubZoneConfig c)) +:+ newline.
Definition GenerateStubZoneConfig (zoneName : string) : result string :=
  let* normalized := normalizeZoneName zoneName in
  StubZone_Validate (ub_StubZoneConfig c) ;;* Ok (stub_text normalized).
(** The file's name in the directory of the configuration file. *)
Definition stubZoneConfigPath (zoneName : string) : string := "stub-zone-" +:+ SafeZoneFilename zoneName +:+ ".conf".
Definition UpdateStubZoneConfig (zoneName : string) : io services (result unit) :=
  if negb (ub_Enabled c) then io_ok tt
  else
    normalized <-? io_ret (normalizeZoneName zoneName) ;
    stubConfig <-? io_ret (wrap "failed to generate stub-zone config" (GenerateStubZoneConfig normalized)) ;
    io_wrap "failed to write stub-zone config" (in_dir (Dirname (ub_ConfigPath c)) (unbound_writeFileAtomic w (stubZoneConfigPath normalized) stubConfig 420)).
Definition delete_stub (name : string) : io fs (result unit) :=
  io_wrap "failed to validate stub-zone config directory" (unbound_validateConfigDirectoryIfExistsForPath w) ;;?
  r <- os_Remove w name ;
  io_ret match r with Err e => if os_IsNotExist e then Ok tt else Err (Wrapf "failed to delete stub-zone config" e) | Ok _ => Ok tt end.
Definition DeleteStubZoneConfig (zoneName : string) : io services (result unit) :=
  if negb (ub_Enabled c) then io_ok tt
  else
    normalized <-? io_ret (normalizeZoneName zoneName) ;
    in_dir (Dirname (ub_ConfigPath c)) (delete_stub (stubZoneConfigPath normalized)).
Definition EnsureEDNSBufferSize : result unit :=
  if negb (ub_Enabled c) then Ok tt else guard_err (negb (ub_EDNSBufferSize c =? 1232)) (Errorf "EDNS buffer size mismatch: expected 1232").
Definition unbound_FlushZone (zoneName : string) : io services (result unit) :=
  if negb (ub_Enabled c) then io_ok tt
  else normalized <-? io_ret (normalizeZoneName zoneName) ; exec_unit "unbound-control flush_zone failed" unbound_validatedControlPath ["flush_zone"; normalized].
End unbound.
End servers.

(** ** The plugin interfaces *)
Record ServerStatus := mkServerStatus { Running : bool; StatusText : string }.
Record AuthoritativeServer (S : Type) := mkAuthoritative {
  auth_EnsureZone : string -> io S (result unit);
  auth_ReloadZone : string -> io S (result unit);
  auth_CheckZone : string -> string -> io S (result unit);
  auth_DeleteZone : string -> io S (result unit);
  auth_Reload : io S (result unit);
  auth_Status : io S (result ServerStatus);
  auth_Type : string }.
Record Resolver (S : Type) := mkResolver {
  res_Reload : io S (result unit);
  res_CheckConfig : io S (result unit);
  res_FlushZone : string -> io S (result unit);
  res_UpdateStubZone : string -> io S (result unit);
  res_DeleteStubZone : string -> io S (result unit);
  res_Status : io S (result ServerStatus);
  res_Type : string }.
Arguments auth_EnsureZone {S}.
Arguments auth_ReloadZone {S}.
Arguments auth_CheckZone {S}.
Arguments auth_DeleteZone {S}.
Arguments auth_Reload {S}.
Arguments auth_Status {S}.
Arguments auth_Type {S}.
Arguments res_Reload {S}.
Arguments res_CheckConfig {S}.
Arguments res_FlushZone {S}.
Arguments res_UpdateStubZone {S}.
Arguments res_DeleteStubZone {S}.
Arguments res_Status {S}.
Arguments res_Type {S}.
Definition NoopAuthoritativeServer {S} : AuthoritativeServer S := mkAuthoritative S (fun _ => io_ok tt) (fun _ => io_ok tt) (fun _ _ => io_ok tt) (fun _ => io_ok tt) (io_ok tt) (io_ok (mkServerStatus false "disabled")) "noop".
Definition NoopResolver {S} : Resolver S := mkResolver S (io_ok tt) (io_ok tt) (fun _ => io_ok tt) (fun _ => io_ok tt) (fun _ => io_ok tt) (io_ok (mkServerStatus false "disabled")) "noop".
Definition nsd_Adapter_Status {S} (c : NSDConfig) : io S (result ServerStatus) := io_ok (mkServerStatus (nsd_Enabled c) "enabled").
Definition unbound_Adapter_Status (run : nat -> list string -> result string) (c : UnboundConfig) : io services (result ServerStatus) :=
  statusText <-? unbound_Status run c ; running <- unbound_IsRunning run c ; io_ok (mkServerStatus running statusText).
Definition nsd_Adapter `{UnicodeTables} (w : World) (run : nat -> list string -> result string) (c : NSDConfig) : AuthoritativeServer services :=
  mkAuthoritative _ (nsd_EnsureZone w run c) (nsd_ReloadZone run c) (nsd_CheckZone run c) (nsd_DeleteZone w run c) (nsd_Reload run c)
    (nsd_Adapter_Status c) "nsd".
Definition unbound_Adapter `{UnicodeTables} (w : World) (run : nat -> list string -> result string) (c : UnboundConfig) : Resolver services :=
  mkResolver _ (unbound_Reload run c) (CheckConfig run c) (unbound_FlushZone run c) (UpdateStubZoneConfig w c) (DeleteStubZoneConfig w c)
    (unbound_Adapter_Status run c) "unbound".

(** ** The hooks of the agent *)
Section hooks.
Context {S : Type} (authServer : AuthoritativeServer S) (resolver : Resolver S).
Definition applyZoneServiceReferences (zoneName : string) : io S (result unit) :=
  auth_EnsureZone authServer zoneName ;;?
  auth_ReloadZone authServer zoneName ;;?
  res_UpdateStubZone resolver zoneName ;;?
  res_CheckConfig resolver ;;?
  res_Reload resolver ;;?
  res_FlushZone resolver zoneName.
Definition errors_Join (errs : list error) : result unit := match errs with [] => Ok tt | _ => Err (JoinErrs errs) end.
(** The error of a call, wrapped, or none. *)
Definition collect (prefix : string) (r : result unit) : list error := match r with Err e => [Wrapf prefix e] | Ok _ => [] end.
Definition restore_auth (zoneName : string) : io S (list error) :=
  r <- auth_EnsureZone authServer zoneName ;
  match r with
  | Err e => io_ret [Wrapf "restore authoritative zone" e]
  | Ok _ => r <- auth_ReloadZone authServer zoneName ; io_ret (collect "reload restored authoritative zone" r)
  end.
Definition restore_resolver (zoneName : string) : io S (list error) :=
  r <- res_UpdateStubZone resolver zoneName ;
  match r with
  | Err e => io_ret [Wrapf "restore resolver stub zone" e]
  | Ok _ =>
    checked <- res_CheckConfig resolver ;
    reloaded <- res_Reload resolver ;
    match reloaded with
    | Err e => io_ret (collect "check restored resolver config" checked ++ [Wrapf "reload restored resolver config" e])
    | Ok _ =>
      flushed <- res_FlushZone resolver zoneName ;
      io_ret (collect "check restored resolver config" checked ++ collect "flush restored resolver cache" flushed)
    end
  end.
Definition restoreZoneServiceReferences (zoneName : string) (restoreAuth restoreResolver : bool) : io S (result unit) :=
  authErrs <- (if restoreAuth then restore_auth zoneName else io_ret []) ;
  resolverErrs <- (if restoreResolver then restore_resolver zoneName else io_ret []) ;
  io_ret (errors_Join (authErrs ++ resolverErrs)).
Definition rollbackZoneServiceDeletion (zoneName : string) (restoreAuth restoreResolver : bool) (cause : error) : io S (result unit) :=
  r <- restoreZoneServiceReferences zoneName restoreAuth restoreResolver ;
  io_fail match r with Err e => JoinErrs [cause; Wrapf "rollback zone service deletion" e] | Ok _ => cause end.
(** One step of the deletion: what was deleted comes back when it fails. *)
Definition deletion_step (zoneName text : string) (restoreResolver : bool) (step next : io S (result unit)) : io S (result unit) :=
  r <- step ;
  match r with
  | Err e => rollbackZoneServiceDeletion zoneName true restoreResolver (Wrapf text e)
  | Ok _ => next
  end.
Definition deleteZoneServiceReferences (zoneName : string) : io S (result unit) :=
  deletion_step zoneName "delete authoritative zone" false (auth_DeleteZone authServer zoneName) (
  deletion_step zoneName "delete resolver stub zone" false (res_DeleteStubZone resolver zoneName) (
  deletion_step zoneName "check resolver config after zone deletion" true (res_CheckConfig resolver) (
  deletion_step zoneName "reload resolver after zone deletion" true (res_Reload resolver) (
  deletion_step zoneName "flush resolver cache after zone deletion" true (res_FlushZone resolver zoneName) (io_ok tt))))).
Definition rollbackAppliedZoneServiceReferences (zoneName : string) (hadPrevious : bool) : io S (result unit) :=
  if hadPrevious then restoreZoneServiceReferences zoneName true true else deleteZoneServiceReferences zoneName.
End hooks.

(** The servers of a configuration, as the daemon chooses them. *)
Definition agent_servers `{UnicodeTables} (w : World) (run : nat -> list string -> result string) (cfg : AgentConfig) : result (AuthoritativeServer services * Resolver services) :=
  let* authServer := if (ag_Authoritative cfg =? "nsd")%string
                     then Ok (if nsd_Enabled (ag_NSD cfg) then nsd_Adapter w run (ag_NSD cfg) else NoopAuthoritativeServer)
                     else Err (Errorf ("unsupported authoritative server: " +:+ ag_Authoritative cfg)) in
  let* resolver := if ub_Enabled (ag_Unbound cfg)
                   then wrap "failed to validate unbound EDNS buffer size" (EnsureEDNSBufferSize (ag_Unbound cfg)) ;;* Ok (unbound_Adapter w run (ag_Unbound cfg))
                   else Ok NoopResolver in
  Ok (authServer, resolver).
