(* ===== verification/NameServersFacts.v ===== *)
(** * The name servers follow the zones

    The generated NSD file lists exactly the zones it was written for, the hooks
    of the agent add a zone to both servers or take it away again, and a deletion
    that fails brings the zone back, whatever system calls and commands fail. *)

From S2P Require Import Prelude Io GoStrings GoStringsFacts Utf8 GoSort GoNet ConfigData Names Validation DnsNames ZoneRules ZonePath FileSystem FileManager FileManagerFacts ArtifactCache ArtifactCacheFacts SignerFacts KeyManager KeyManagerFacts NameServers.
#[local] Open Scope io_scope.

(** ** Trimming lines *)
Lemma TrimSpace_space s : TrimSpace (String " "%char s) = TrimSpace s.
Proof. unfold TrimSpace. by rewrite chunks_cons_ascii by (by vm_compute). Qed.
Lemma TrimSpace_prefix a s : byte a < 128 -> IsSpace (byte a) = false -> exists t, String a s = TrimSpace (String a s) +:+ t.
Proof.
  intros Ha Hs. unfold TrimSpace. rewrite (drop_spaces_id (chunks (String a s))) by (by rewrite chunks_cons_ascii). destruct (drop_spaces_split (rev (chunks (String a s)))) as (sp & Esp & _).
  exists (text (rev sp)). fold (text (rev (drop_spaces (rev (chunks (String a s)))))). rewrite <- text_app, <- rev_app_distr, <- Esp, rev_involutive. by rewrite text_chunks.
Qed.
Lemma chunks_ascii s : is_ascii s = true -> chunks s = map (fun c => (byte c, str1 c)) (String.list_ascii_of_string s).
Proof.
  unfold is_ascii. induction s as [|a s IH]; [done|]. cbn [str_forallb]. intros [Ha%Z.ltb_lt Hs]%andb_true_iff. rewrite chunks_cons_ascii by done. cbn [String.list_ascii_of_string map]. by rewrite IH.
Qed.
Lemma TrimSpace_ends a s b : is_ascii (String a (s +:+ str1 b)) = true -> IsSpace (byte a) = false -> IsSpace (byte b) = false -> TrimSpace (String a (s +:+ str1 b)) = String a (s +:+ str1 b).
Proof.
  intros Hi Ha Hb. unfold TrimSpace. assert (Hc : exists l, chunks (String a (s +:+ str1 b)) = ((byte a, str1 a) :: l) ++ [(byte b, str1 b)]).
  { assert (Hx : forall s, String.list_ascii_of_string (s +:+ str1 b) = String.list_ascii_of_string s ++ [b]) by (intros s0; induction s0 as [|d s0 IH0]; [done|]; rewrite str_app_cons; cbn [String.list_ascii_of_string]; by rewrite IH0).
    exists (map (fun c => (byte c, str1 c)) (String.list_ascii_of_string s)). rewrite chunks_ascii by done. cbn [String.list_ascii_of_string map]. by rewrite Hx, map_app. }
  destruct Hc as (l & Hc). rewrite (drop_spaces_id (chunks _)) by (by rewrite Hc). rewrite (drop_spaces_id (rev _)) by (by rewrite Hc, rev_app_distr). rewrite rev_involutive. apply text_chunks.
Qed.
Lemma ContainsFunc_lacks s f c : ContainsFunc s f = false -> f (byte c) = true -> byte c < 128 -> lacks c s.
Proof.
  intros Hs Hf Hc. unfold lacks. revert Hs. induction s as [s IH] using (induction_ltof1 _ String.length). unfold ltof in IH. intros Hs. destruct s as [|a t]; [done|].
  destruct (Z.ltb_spec (byte a) 128) as [Ha|Ha].
  - unfold ContainsFunc in Hs. rewrite chunks_cons_ascii in Hs by done. cbn [existsb fst] in Hs. apply orb_false_iff in Hs as [Hs1 Hs2]. cbn [str_forallb]. apply andb_true_iff. split; [|apply IH; [cbn; lia|done]].
    destruct (Ascii.eqb_spec a c) as [->|]; [congruence|done].
  - assert (Hne : String a t <> "") by done. pose proof (decode_rune_width _ Hne) as [Hw Hl]. unfold ContainsFunc in Hs. rewrite chunks_unfold in Hs by done. cbn [existsb] in Hs. apply orb_false_iff in Hs as [_ Hs].
    rewrite <- (str_take_drop (snd (decode_rune (String a t))) (String a t)), str_forallb_app. apply andb_true_iff. split; [|apply IH; [rewrite str_drop_length; cbn in *; lia|done]].
    assert (Hhigh : forall d, 128 <= byte d -> negb (Ascii.eqb d c) = true) by (intros d Hd; destruct (Ascii.eqb_spec d c) as [->|]; [lia|done]).
    destruct (decode_rune (String a t)) as [r n] eqn:Ed. cbn [fst snd] in *. destruct ((r =? RuneError) && (Z.of_nat n =? 1)) eqn:Ev.
    + apply andb_true_iff in Ev as [_ Ev%Z.eqb_eq]. assert (n = 1%nat) as -> by lia. cbn [str_take str_forallb]. by rewrite Hhigh.
    + pose proof (decode_rune_piece _ r n Hne Ed Ev) as (_ & a' & t' & Ep & _ & Ht'). rewrite Ep. destruct n as [|n]; [lia|]. cbn [str_take] in Ep. injection Ep as <- _. cbn [str_forallb]. rewrite Hhigh by done.
      eapply str_forallb_impl; [|exact Ht']. intros d Hd. apply Hhigh. unfold cont in Hd. by apply andb_true_iff in Hd as [Hd%Z.leb_le _].
Qed.

(** ** The generated NSD configuration *)
Abbreviation nl := (chr 10).
Lemma lacks_join c ls sep : lacks c sep -> Forall (lacks c) ls -> lacks c (str_join ls sep).
Proof.
  intros Hsep Hls. induction Hls as [|x ls Hx Hls IH]; [done|]. destruct (decide (ls = [])) as [->|Hne]; [done|]. rewrite str_join_cons by done. by rewrite !lacks_app.
Qed.
Lemma lacks_pieces c ls sep : lacks c (str_join ls sep) -> Forall (lacks c) ls.
Proof.
  induction ls as [|x ls IH]; [done|]. intros Hj. destruct (decide (ls = [])) as [->|Hne]; [by constructor|]. rewrite str_join_cons in Hj by done. rewrite !lacks_app in Hj. destruct Hj as (? & _ & ?). constructor; auto.
Qed.
Lemma Clean_lacks c path : c <> "/"%char -> c <> "."%char -> lacks c path -> lacks c (Clean path).
Proof.
  intros H1 H2 Hp. assert (Hd : forall s, str_forallb (fun d => Ascii.eqb d "."%char || Ascii.eqb d "/"%char) s = true -> lacks c s).
  { intros s Hs. eapply str_forallb_impl; [|exact Hs]. intros d Hd. destruct (Ascii.eqb_spec d c) as [->|]; [|done]. apply orb_true_iff in Hd as [->%Ascii.eqb_eq| ->%Ascii.eqb_eq]; done. }
  rewrite <- (join_Split path "/"%char) in Hp. apply lacks_pieces in Hp. assert (Hel : forall rooted out l, Forall (lacks c) out -> Forall (lacks c) l -> Forall (lacks c) (clean_elements rooted out l)).
  { intros rooted out l. revert out. induction l as [|e l IH]; intros out Ho Hl; cbn [clean_elements]; [by apply Forall_rev|]. apply Forall_cons in Hl as [He Hl]. destruct (_ || _); [by apply IH|]. destruct (e =? "..")%string; [|apply IH; [by constructor|done]].
    destruct out as [|x out]; [apply IH; [destruct rooted; [done|by constructor]|done]|]. apply Forall_cons in Ho as [Hx Ho]. destruct (x =? "..")%string; (apply IH; [|done]); [by repeat constructor|done]. }
  unfold Clean. cbv zeta. assert (Ht : lacks c (str_join (clean_elements (IsAbs path) [] (Split path "/"%char)) "/")) by (apply lacks_join; [by apply Hd|by apply Hel]).
  destruct (IsAbs path); [apply lacks_app; split; [by apply Hd|done]|]. destruct (_ =? "")%string; [by apply Hd|done].
Qed.
Section rendering.
Context `{UnicodeTables, !UnicodeLaws}.
#[local] Set Default Proof Using "Type".
(** Zones as the file lists them. *)
Definition managed (k : string) : Prop := normalizeZoneName k = Ok k.
Lemma managed_facts k : managed k -> dns_name k /\ NormalizeZoneName k = k /\ exists q, k = q +:+ ".".
Proof.
  unfold managed, normalizeZoneName. intros Hk. apply rbind_ok in Hk as ([] & Hv & [= Hn]). apply wrap_ok in Hv. rewrite Hn in Hv. apply zone_name_accepted in Hv. split; [done|]. split; [done|].
  destruct (dns_name_normalize k Hv) as (ls & _ & _ & Hl & _). rewrite Hn in Hl. by exists (dotted ls).
Qed.
Lemma normalize_managed z k : normalizeZoneName z = Ok k -> managed k /\ k = NormalizeZoneName z.
Proof using H0.
  unfold managed, normalizeZoneName. intros Hk. apply rbind_ok in Hk as ([] & Hv & [= <-]). apply wrap_ok in Hv. split; [|done]. pose proof Hv as Hd. apply zone_name_accepted, dns_name_ascii in Hd. rewrite NormalizeZoneName_idem by done. by rewrite Hv.
Qed.
Lemma managed_lacks k : managed k -> lacks nl k.
Proof.
  intros (Hd & _ & _)%managed_facts. destruct Hd as (_ & ls & _ & Hls & Hs). assert (Hl : lacks nl (dotted ls)).
  { apply lacks_join; [done|]. eapply Forall_impl; [exact Hls|]. intros l (Hl & _). eapply str_forallb_impl; [|exact Hl]. intros c Hc. generalize (byte_ind (fun c => implb (is_alnum_hyphen c) (negb (Ascii.eqb c nl))) ltac:(by vm_compute) c). by rewrite Hc. }
  destruct Hs as [->| ->]; [done|]. by apply lacks_app.
Qed.
Lemma managed_TrimSpace k : managed k -> TrimSpace k = k.
Proof. intros (Hd & _)%managed_facts. by apply dns_name_TrimSpace. Qed.
Lemma marker_line k : managed k -> zone_marker ("# arca-dns-zone: " +:+ k) = Some k.
Proof.
  intros Hk. destruct (managed_facts k Hk) as (Hd & _ & q & Hq). unfold zone_marker. assert (Ht : TrimSpace ("# arca-dns-zone: " +:+ k) = "# arca-dns-zone: " +:+ k).
  { rewrite Hq. rewrite <- str_app_assoc. change ("# arca-dns-zone: " +:+ q) with (String "#"%char (" arca-dns-zone: " +:+ q)). rewrite str_app_cons. apply TrimSpace_ends; [|done|done]. pose proof (dns_name_ascii k Hd) as Ha. rewrite Hq, is_ascii_app in Ha. apply andb_true_iff in Ha as [Ha _].
    change (String "#"%char ((" arca-dns-zone: " +:+ q) +:+ str1 ".")) with ("#" +:+ ((" arca-dns-zone: " +:+ q) +:+ str1 ".")). by rewrite !is_ascii_app, Ha. }
  rewrite Ht. assert (Hp : HasPrefix ("# arca-dns-zone: " +:+ k) "# arca-dns-zone:" = true) by (apply HasPrefix_true; by exists (" " +:+ k)). rewrite Hp.
  change ("# arca-dns-zone: " +:+ k) with ("# arca-dns-zone:" +:+ (" " +:+ k)). rewrite TrimPrefix_app. change (" " +:+ k) with (String " "%char k). rewrite TrimSpace_space, managed_TrimSpace by done.
  pose proof (dns_name_not_special k Hd) as (Hne & _ & _). by rewrite (proj2 (String.eqb_neq _ _) Hne).
Qed.
(** A line that starts otherwise marks nothing. *)
Lemma other_line a s : byte a < 128 -> IsSpace (byte a) = false -> HasPrefix (String a s) "# arca-dns-zone:" = false -> zone_marker (String a s) = None.
Proof.
  intros Ha Hs Hp. unfold zone_marker. destruct (HasPrefix (TrimSpace (String a s)) "# arca-dns-zone:") eqn:Ht; [|done]. apply HasPrefix_true in Ht as [t Ht]. destruct (TrimSpace_prefix a s Ha Hs) as [u Hu]. rewrite Ht, str_app_assoc in Hu. rewrite Hu in Hp.
  assert (Hx : HasPrefix ("# arca-dns-zone:" +:+ t +:+ u) "# arca-dns-zone:" = true) by (apply HasPrefix_true; by eexists). congruence.
Qed.
Lemma indented_line s : zone_marker ("    " +:+ s) = zone_marker s.
Proof. unfold zone_marker. change ("    " +:+ s) with (String " " (String " " (String " " (String " " s))))%char. by rewrite !TrimSpace_space. Qed.
Lemma safe_lacks s : str_forallb safe_char s = true -> lacks nl s.
Proof. intros Hs. eapply str_forallb_impl; [|exact Hs]. intros c Hc. generalize (byte_ind (fun c => implb (safe_char c) (negb (Ascii.eqb c nl))) ltac:(by vm_compute) c). by rewrite Hc. Qed.
Lemma path_lacks field path : ValidateNSDRenderedConfigPath field path = Ok tt -> lacks nl path.
Proof.
  unfold ValidateNSDRenderedConfigPath. intros Hv. apply rbind_ok in Hv as (? & _ & Hv). apply rbind_ok in Hv as (? & _ & Hv). apply rbind_ok in Hv as (? & Hc & _). apply guard_err_ok in Hc. by eapply ContainsFunc_lacks; [exact Hc|done|].
Qed.
Lemma lacks_field label s : lacks nl label -> lacks nl s -> lacks nl (label +:+ quoted s).
Proof. intros Hl Hs. unfold quoted. rewrite !lacks_app. by split_and!. Qed.
Lemma read_line line rest zones : lacks nl line -> zone_marker line = None -> read_markers (Split (line +:+ newline +:+ rest) nl) zones = read_markers (Split rest nl) zones.
Proof. intros Hl Hm. unfold newline. rewrite Split_app by done. cbn [read_markers]. by rewrite Hm. Qed.
Lemma read_stanza zoneDir k rest zones : managed k -> lacks nl zoneDir -> read_markers (Split (zone_stanza zoneDir k +:+ rest) nl) zones = read_markers (Split rest nl) ({[ k ]} ∪ zones).
Proof.
  intros Hk Hd. pose proof (managed_lacks k Hk) as Hl. pose proof (SafeZoneFilename_shape k) as [Hs _]. unfold zone_stanza. set (file := Clean _). assert (Hf : lacks nl file) by (apply Clean_lacks; [done|done|]; rewrite !lacks_app; split_and!; [done|done|by apply safe_lacks|done]).
  rewrite !str_app_assoc. rewrite <- (str_app_assoc "# arca-dns-zone: "). unfold newline at 1. rewrite Split_app by (by apply lacks_app). cbn [read_markers]. rewrite (marker_line k Hk). unfold managed in Hk. rewrite Hk. cbn [wrap rbind].
  rewrite read_line by done. rewrite <- (str_app_assoc "    name: "). rewrite read_line; [|by apply lacks_field|change ("    name: " +:+ quoted k) with ("    " +:+ ("name: " +:+ quoted k)); by rewrite indented_line; apply other_line].
  rewrite <- (str_app_assoc "    zonefile: "). rewrite read_line; [|by apply lacks_field|change ("    zonefile: " +:+ quoted file) with ("    " +:+ ("zonefile: " +:+ quoted file)); by rewrite indented_line; apply other_line].
  change (newline +:+ rest) with ("" +:+ newline +:+ rest). by rewrite read_line.
Qed.
Lemma read_stanzas zoneDir ks zones : Forall managed ks -> lacks nl zoneDir -> read_markers (Split (str_concat (map (zone_stanza zoneDir) ks)) nl) zones = Ok (list_to_set ks ∪ zones).
Proof.
  intros Hks Hd. revert zones. induction Hks as [|k ks Hk Hks IH]; intros zones; [cbn; f_equal; by rewrite union_empty_l_L|]. cbn [map str_concat foldr]. change (foldr String.append "" ?l) with (str_concat l). rewrite read_stanza by done. rewrite IH. f_equal. cbn [list_to_set foldr]. by rewrite (union_assoc_L _ {[k]}), (union_comm_L _ {[k]}).
Qed.
Definition all_managed (zs : gset string) : Prop := forall k, k ∈ zs -> managed k.
(** What was rendered is read back. *)
Lemma render_read path zoneDir zs : all_managed zs -> lacks nl path -> lacks nl zoneDir -> read_markers (Split (renderManagedZoneConfig path zoneDir zs) nl) ∅ = Ok zs.
Proof.
  intros Hz Hp Hd. unfold renderManagedZoneConfig. rewrite ?str_app_assoc. rewrite read_line by done. rewrite read_line by done. rewrite <- (str_app_assoc "# include: "). rewrite read_line; [|by apply lacks_field|by apply other_line].
  change (newline +:+ ?x) with ("" +:+ newline +:+ x). rewrite read_line by done. assert (Hm : map NormalizeZoneName (elements zs) = elements zs).
  { assert (Hall : Forall managed (elements zs)) by (apply Forall_forall; intros k Hk; apply Hz; by apply elem_of_elements). induction Hall as [|k ks Hk Hks IH]; [done|]. cbn [map]. rewrite IH. by rewrite (proj1 (proj2 (managed_facts k Hk))). }
  rewrite Hm. rewrite read_stanzas; [|apply Forall_forall; intros k Hk; apply Hz; unfold sort_Strings in Hk; rewrite sort_Slice_Permutation in Hk; by apply elem_of_elements|done]. f_equal. apply set_eq. intros k. rewrite elem_of_union, elem_of_list_to_set. unfold sort_Strings. rewrite sort_Slice_Permutation, elem_of_elements. split; [intros [|Hx]; [done|by apply elem_of_empty in Hx]|by left].
Qed.
End rendering.

(** ** Files *)
Section files.
Context (w : World).
Lemma quiet_config_sync : quiet (config_syncDir w).
Proof.
  apply quiet_try; [by apply quiet_syscall|]. intros _. apply quiet_bind; [by intros s|]. intros r. apply quiet_bind; [by apply quiet_syscall|]. by intros r' s.
Qed.
Lemma wp_ensure_config label s : wpio (ensure_config_directory w label) s (fun _ s' => entries s' = entries s).
Proof.
  unfold ensure_config_directory, validateExistingConfigDirectory. apply wpio_bind. eapply wpio_mono; [apply wp_existing|]. intros r s1 [[H1 _] _]. rewrite <- H1. apply wpio_try, wpio_ret. destruct (match r with Ok _ => _ | Err _ => _ end) as [b|e]; [|done].
  apply wpio_try, wpio_wrap. eapply wpio_mono; [apply wp_mkdir|]. intros [[]|e] s2 H2; cbn [wrap]; [|done]. apply wpio_try, wpio_wrap. eapply wpio_mono; [apply wp_existing|]. intros [[]|e] s3 [[H3 _] _]; cbn [wrap]; [|by rewrite H3].
  destruct b; [apply wpio_ret; by rewrite H3|]. eapply wpio_mono; [apply wp_quiet, quiet_wrap, quiet_config_sync|]. intros r4 s4 H4. by rewrite H4, H3.
Qed.
(** What filling a temporary file leaves of it. *)
Definition filled (tmp data : string) (es : gmap string node) (r : result unit) (s : fs) : Prop := exists nd, entries s = <[tmp := nd]> es /\ (r = Ok tt -> content (Some nd) = Some data).
Lemma wp_fill_config tmp data perm i p t x es s : entries s = <[tmp := Regular i p t x]> es -> wpio (fill_config w tmp data perm) s (filled tmp data es).
Proof.
  intros H1. unfold fill_config. apply wpio_bind. eapply (wpio_mono _ _ (filled tmp data es)).
  - apply wpio_try. unfold wpio at 1, tmp_Chmod, syscall. destruct (fault w (tick s)) as [er|]; cbn [fst snd]; [by eexists|]. apply wpio_try. unfold wpio at 1, tmp_Write. cbn [tick zone_dir]. set (t1 := S (tick s)).
    assert (Hput : forall c, ents (update_entries (alter (set_data (mtime_now w t1) c) tmp) (update_entries (alter (set_perm perm) tmp) (zone_dir s))) = <[tmp := Regular i perm (mtime_now w t1) c]> es) by (intros c; by rewrite !ents_alter, H1, !alter_insert_eq).
    destruct (fault w t1) as [er|]; cbn [fst snd zone_dir]; [eexists; split; [apply Hput|done]|]. set (s2 := mkFs _ (S t1)). set (nd := Regular i perm (mtime_now w t1) data). assert (H2 : entries s2 = <[tmp := nd]> es) by apply Hput. clearbody s2.
    apply (wp_value w (fun _ => tt)); [intros e s3 H3 _|intros _ s3 H3]; exists nd; by rewrite H3.
  - intros [[]|e] s2 (nd & H2 & Hr).
    + apply (wp_value w (fun _ => tt)); [intros e s3 H3 _|intros _ s3 H3]; exists nd; rewrite H3; (split; [done|]); [done|]. intros _. by apply Hr.
    + apply wpio_bind, (wp_value w (fun _ => tt)); [intros e' s3 H3 _|intros _ s3 H3]; apply wpio_ret; exists nd; by rewrite H3.
Qed.
Lemma wp_atomic_replace fill pre suf name data s : ~ temp_name pre suf name -> (forall tmp i p t x es s1, entries s1 = <[tmp := Regular i p t x]> es -> wpio (fill tmp) s1 (filled tmp data es)) ->
  wpio (atomic_replace w fill pre suf name) s (fun r s' => replaced name pre suf (Some data) s s' /\ (r = Ok tt -> content (entries s' !! name) = Some data)).
Proof.
  intros Hn Hfill. unfold atomic_replace, os_CreateTemp. apply wpio_try. eapply wpio_mono; [apply wp_create|]. intros [tmp|e] s1; [|intros H1; split; [apply replaced_temp; [done|]; intros m _; by rewrite H1|done]]. intros (Hf & i & p & t & x & H1).
  apply wpio_bind, wpio_try. eapply wpio_mono; [by eapply Hfill|]. intros r2 s2 (nd & H2 & Hr2). assert (Hclean : forall e s3, entries s3 = entries s2 -> wpio (io_bind (os_Remove w tmp) (fun _ => io_fail e)) s3 (fun (r : result unit) s' => replaced name pre suf (Some data) s s' /\ (r = Ok tt -> content (entries s' !! name) = Some data))).
  { intros e s3 H3. apply wpio_bind. eapply wpio_mono; [apply wp_remove_any|]. intros r4 s4 H4. apply wpio_ret. rewrite H3 in H4. split; [|done]. by apply (replaced_cleanup name pre suf _ tmp nd s s2 s4 Hn Hf H2). }
  destruct r2 as [[]|e]; [|by apply Hclean]. eapply wpio_mono; [apply wp_rename|]. intros [[]|e] s3; [|intros H3; apply Hclean; by rewrite H3]. intros (nd' & Hnd & H3). rewrite H2, lookup_insert_eq in Hnd. injection Hnd as <-.
  destruct (rename_temp name pre suf tmp nd s s2 s3 Hf H2 H3) as [Ho Hnew]. eapply wpio_mono; [apply wp_quiet, quiet_config_sync|]. intros r4 s4 H4. unfold replaced, only. rewrite H4, Hnew. split; [split; [exact Ho|right]|intros _]; by apply Hr2.
Qed.
Lemma wp_config_write name data perm s : wpio (config_writeFileAtomic w name data perm) s (fun r s' => replaced name (temp_pre name) ".tmp" (Some data) s s' /\ (r = Ok tt -> content (entries s' !! name) = Some data)).
Proof.
  assert (Hn : ~ temp_name (temp_pre name) ".tmp" name) by apply temp_longer, dotted_longer. unfold config_writeFileAtomic. apply wpio_try. eapply wpio_mono; [apply wp_ensure_config|]. intros r s0 H0.
  destruct r as [[]|e]; [|split; [apply replaced_temp; [done|]; intros m _; by rewrite H0|done]]. eapply wpio_mono; [apply (wp_atomic_replace _ (temp_pre name) ".tmp" name data); [done|by intros; eapply wp_fill_config]|]. intros r1 s1. unfold replaced, only, fresh_temp. by rewrite H0.
Qed.
Lemma wp_validate_config s : wpio (validateConfigDirectoryIfExistsForPath w) s (fun _ s' => later s s').
Proof.
  unfold validateConfigDirectoryIfExistsForPath, validateExistingConfigDirectory. apply wpio_bind. eapply wpio_mono; [apply wp_existing|]. intros [[]|e] s1 [H1 _]; [by apply wpio_ret|]. by destruct (os_IsNotExist e); apply wpio_ret.
Qed.
Lemma wp_read_config label name max s : wpio (readRegularConfigFile w label name max) s (fun r s' => later s s' /\ read_of name s r).
Proof.
  unfold readRegularConfigFile. apply wpio_try, wp_look; [done|]. intros info s1 H1 Hinfo. destruct (is_symlink info); [by apply wpio_ret|]. destruct (is_regular info) eqn:Hreg; cbn [negb]; [|by apply wpio_ret].
  destruct (Z.ltb_spec max (node_size info)) as [|Hsize]; [by apply wpio_ret|]. assert (Hk : forall s2, later s1 s2 -> later s s2) by (intros s2; by apply look_trans).
  apply wpio_try, wp_look; rewrite (proj1 H1); [intros e s2 H2 He Hm; split; [by apply Hk|done]|]. intros file s2 H2 Hfile. rewrite Hinfo in Hfile. injection Hfile as <-.
  apply wpio_try, wp_answer; [intros e s3 H3 He Hm; split; [apply Hk; by eapply look_trans|split; [done|by rewrite Hm]]|]. intros s3 H3. assert (H03 : later s s3) by (apply Hk; by eapply look_trans).
  destruct (SameFile info info); cbn [negb]; [|by apply wpio_ret]. rewrite Hreg. cbn [negb]. rewrite (proj2 (Z.ltb_ge max (node_size info))) by lia.
  apply wpio_try, wp_answer; [intros e s4 H4 He Hm; split; [by eapply look_trans|split; [done|by rewrite Hm]]|]. intros s4 H4. assert (H04 : later s s4) by (by eapply look_trans).
  destruct info as [i perm t data| | |]; try discriminate. cbn [node_data node_size] in *. rewrite (proj2 (Z.leb_le (len data) (max + 1))) by lia. rewrite (proj2 (Z.ltb_ge max (len data))) by lia.
  apply wpio_ret. split; [done|]. cbn. by rewrite Hinfo.
Qed.
End files.

(** ** What the servers are given, and what they took *)
Definition stub_files (es : gmap string node) : gmap string string := omap (fun nd => content (Some nd)) (filter (fun kv => HasPrefix (fst kv) "stub-zone-" = true) es).
Lemma stub_files_lookup es n : stub_files es !! n = if HasPrefix n "stub-zone-" then content (es !! n) else None.
Proof.
  unfold stub_files. rewrite lookup_omap, map_lookup_filter. destruct (es !! n) as [nd|] eqn:En; cbn; [|by destruct (HasPrefix _ _)]. destruct (HasPrefix n "stub-zone-") eqn:Hp; [by rewrite option_guard_True by done|by rewrite option_guard_False by congruence].
Qed.
(** The zones of NSD's file and the stub files as they are, and as they were when
    the server last took them; the commands that succeeded. *)
Record seen := mkSeen { zones : gset string; stubs : gmap string string; served : gset string; resolving : gmap string string; accepted : list (list string) }.
Definition settled (v : seen) : Prop := served v = zones v /\ resolving v = stubs v.

(** NSD has taken its file, unless the file already listed these zones: then NSD
    is not told, and has what it had. *)
Definition nsd_took (v v' : seen) : Prop := served v' = zones v' \/ zones v' = zones v /\ served v' = served v.
Lemma nsd_took_settled v v' : nsd_took v v' -> served v = zones v -> served v' = zones v'.
Proof. intros [?|[-> ->]]; done. Qed.

(** ** The interface: what the hooks rely on *)
Definition edited (new : gset string) (r : result unit) (v v' : seen) : Prop :=
  stubs v' = stubs v /\ resolving v' = resolving v /\ accepted v `prefix_of` accepted v'
  /\ (zones v' = new \/ zones v' = zones v /\ served v' = served v)
  /\ (r = Ok tt -> zones v' = new /\ (served v' = new \/ zones v' = zones v /\ served v' = served v)).
Definition wrote_stubs (new : gmap string string) (r : result unit) (v v' : seen) : Prop :=
  (v' = v \/ v' = mkSeen (zones v) new (served v) (resolving v) (accepted v)) /\ (r = Ok tt -> stubs v' = new).
Definition told (cmd : list string) (loads : seen -> gmap string string) (r : result unit) (v v' : seen) : Prop :=
  match r with
  | Ok _ => v' = mkSeen (zones v) (stubs v) (served v) (loads v) (accepted v ++ [cmd])
  | Err _ => v' = v
  end.
Record zone_commands := mkCommands { zc_reload : list string; zc_check : list string; zc_load : list string; zc_flush : list string }.
Class ServiceLaws {S} (auth : AuthoritativeServer S) (res : Resolver S) (zone k file text : string) (zc : zone_commands) (okay : S -> Prop) (look : S -> seen) : Prop := mkLaws {
  law_ensure s : okay s -> wpio (auth_EnsureZone auth zone) s (fun r s' => okay s' /\ edited ({[ k ]} ∪ zones (look s)) r (look s) (look s'));
  law_delete s : okay s -> wpio (auth_DeleteZone auth zone) s (fun r s' => okay s' /\ edited (zones (look s) ∖ {[ k ]}) r (look s) (look s'));
  law_reload_zone s : okay s -> wpio (auth_ReloadZone auth zone) s (fun r s' => okay s' /\ told (zc_reload zc) resolving r (look s) (look s'));
  law_check s : okay s -> wpio (res_CheckConfig res) s (fun r s' => okay s' /\ told (zc_check zc) resolving r (look s) (look s'));
  law_reload s : okay s -> wpio (res_Reload res) s (fun r s' => okay s' /\ told (zc_load zc) stubs r (look s) (look s'));
  law_flush s : okay s -> wpio (res_FlushZone res zone) s (fun r s' => okay s' /\ told (zc_flush zc) resolving r (look s) (look s'));
  law_update_stub s : okay s -> wpio (res_UpdateStubZone res zone) s (fun r s' => okay s' /\ wrote_stubs (<[file := text]> (stubs (look s))) r (look s) (look s'));
  law_delete_stub s : okay s -> wpio (res_DeleteStubZone res zone) s (fun r s' => okay s' /\ wrote_stubs (delete file (stubs (look s))) r (look s) (look s') /\ (r <> Ok tt -> look s' = look s)) }.

Section hooks.
Context {S : Type} {auth : AuthoritativeServer S} {res : Resolver S} {zone k file text : string} {zc : zone_commands} {okay : S -> Prop} {look : S -> seen} `{L : !ServiceLaws auth res zone k file text zc okay look}.
#[local] Set Default Proof Using "Type".
(** Other zones keep their entries. *)
Definition beside (v v' : seen) : Prop := zones v' ∖ {[ k ]} = zones v ∖ {[ k ]} /\ delete file (stubs v') = delete file (stubs v).
#[export] Instance beside_preorder : PreOrder beside.
Proof. split; [done|]. intros v1 v2 v3 [H1 H2] [H3 H4]. split; congruence. Qed.
Lemma beside_same v v' : zones v' = zones v -> stubs v' = stubs v -> beside v v'.
Proof. intros Hz Hs. unfold beside. by rewrite Hz, Hs. Qed.
Lemma told_beside cmd loads r v v' : told cmd loads r v v' -> beside v v'.
Proof. intros Ht. destruct r; cbn in Ht; subst v'; by apply beside_same. Qed.
Lemma edited_beside new r v v' : new = {[ k ]} ∪ zones v \/ new = zones v ∖ {[ k ]} -> edited new r v v' -> beside v v'.
Proof.
  intros Hnew (Hs & _ & _ & Hz & _). split; [|by rewrite Hs]. destruct Hz as [->|[-> _]]; [|done]. destruct Hnew as [->| ->]; apply set_eq; intros x; rewrite ?elem_of_difference, ?elem_of_union, ?elem_of_difference, ?elem_of_singleton; tauto.
Qed.
Lemma wrote_beside new r v v' : delete file new = delete file (stubs v) -> wrote_stubs new r v v' -> beside v v'.
Proof. intros Hn [[->| ->] _]; [done|]. by split. Qed.
Lemma wrote_insert r v v' : wrote_stubs (<[file := text]> (stubs v)) r v v' -> beside v v'.
Proof. apply wrote_beside. by rewrite delete_insert_eq. Qed.
Lemma wrote_delete r v v' : wrote_stubs (delete file (stubs v)) r v v' -> beside v v'.
Proof. apply wrote_beside. by rewrite delete_delete_eq. Qed.
Lemma wp_apply_hook s : okay s -> wpio (applyZoneServiceReferences auth res zone) s (fun r s' => okay s' /\ beside (look s) (look s')
  /\ (r = Ok tt -> zones (look s') = {[ k ]} ∪ zones (look s) /\ stubs (look s') = <[file := text]> (stubs (look s)) /\ resolving (look s') = stubs (look s') /\ nsd_took (look s) (look s')
      /\ exists l, accepted (look s') = accepted (look s) ++ l ++ [zc_reload zc; zc_check zc; zc_load zc; zc_flush zc])).
Proof using L.
  intros Ho. unfold applyZoneServiceReferences. apply wpio_try. eapply wpio_mono; [by apply law_ensure|]. intros r1 s1 [O1 E1]. pose proof (edited_beside _ _ _ _ (or_introl eq_refl) E1) as B1. destruct r1 as [[]|e]; [|done]. destruct E1 as (S1 & _ & [l1 A1] & _ & Z1). destruct (Z1 eq_refl) as [Hz1 Hs1].
  apply wpio_try. eapply wpio_mono; [by apply law_reload_zone|]. intros r2 s2 [O2 E2]. pose proof (transitivity B1 (told_beside _ _ _ _ _ E2)) as B2. destruct r2 as [[]|e]; [|done]. cbn in E2.
  apply wpio_try. eapply wpio_mono; [by apply law_update_stub|]. intros r3 s3 [O3 E3]. pose proof (transitivity B2 (wrote_insert _ _ _ E3)) as B3. destruct r3 as [[]|e]; [|done]. assert (V3 : look s3 = mkSeen (zones (look s2)) (<[file := text]> (stubs (look s2))) (served (look s2)) (resolving (look s2)) (accepted (look s2))).
  { destruct E3 as [[E3|E3] Hs3]; [|done]. rewrite <- (Hs3 eq_refl), E3. by destruct (look s2). }
  apply wpio_try. eapply wpio_mono; [by apply law_check|]. intros r4 s4 [O4 E4]. pose proof (transitivity B3 (told_beside _ _ _ _ _ E4)) as B4. destruct r4 as [[]|e]; [|done]. cbn in E4.
  apply wpio_try. eapply wpio_mono; [by apply law_reload|]. intros r5 s5 [O5 E5]. pose proof (transitivity B4 (told_beside _ _ _ _ _ E5)) as B5. destruct r5 as [[]|e]; [|done]. cbn in E5.
  eapply wpio_mono; [by apply law_flush|]. intros r6 s6 [O6 E6]. split; [done|]. split; [exact (transitivity B5 (told_beside _ _ _ _ _ E6))|]. intros ->. cbn in E6. rewrite E6, E5, E4, V3, E2. cbn. rewrite S1, A1. split_and!; [done..| |].
  - destruct Hs1 as [Hs|[Hz Hv]]; [left; cbn; by rewrite Hs, Hz1|right; by split].
  - exists l1. by rewrite <- !app_assoc.
Qed.
Lemma wp_restore_auth s : okay s -> wpio (restore_auth auth zone) s (fun errs s' => okay s' /\ beside (look s) (look s') /\ stubs (look s') = stubs (look s) /\ resolving (look s') = resolving (look s)
  /\ (errs = [] -> zones (look s') = {[ k ]} ∪ zones (look s) /\ (served (look s') = zones (look s') \/ zones (look s') = zones (look s) /\ served (look s') = served (look s)))).
Proof using L.
  intros Ho. unfold restore_auth. apply wpio_bind. eapply wpio_mono; [by apply law_ensure|]. intros r1 s1 [O1 E1]. pose proof (edited_beside _ _ _ _ (or_introl eq_refl) E1) as B1. destruct E1 as (S1 & R1 & _ & _ & Z1). destruct r1 as [[]|e]; [|by apply wpio_ret]. destruct (Z1 eq_refl) as [Hz1 Hs1].
  apply wpio_bind. eapply wpio_mono; [by apply law_reload_zone|]. intros r2 s2 [O2 E2]. pose proof (transitivity B1 (told_beside _ _ _ _ _ E2)) as B2. apply wpio_ret. split; [done|]. split; [done|]. destruct r2 as [[]|e]; cbn in E2; rewrite E2; cbn; (split_and!; [done..|]); [|done]. intros _. rewrite Hz1 in *. by split.
Qed.
Lemma wp_restore_resolver s : okay s -> wpio (restore_resolver res zone) s (fun errs s' => okay s' /\ beside (look s) (look s') /\ zones (look s') = zones (look s) /\ served (look s') = served (look s)
  /\ (errs = [] -> stubs (look s') = <[file := text]> (stubs (look s)) /\ resolving (look s') = stubs (look s'))).
Proof using L.
  intros Ho. unfold restore_resolver. apply wpio_bind. eapply wpio_mono; [by apply law_update_stub|]. intros r1 s1 [O1 E1]. pose proof (wrote_insert _ _ _ E1) as B1. destruct E1 as [E1 X1]. assert (V1 : zones (look s1) = zones (look s) /\ served (look s1) = served (look s)) by (by destruct E1 as [->| ->]). destruct V1 as [Z1 V1].
  destruct r1 as [[]|e]; [|by apply wpio_ret]. specialize (X1 eq_refl). apply wpio_bind. eapply wpio_mono; [by apply law_check|]. intros r2 s2 [O2 E2]. pose proof (transitivity B1 (told_beside _ _ _ _ _ E2)) as B2. assert (V2 : zones (look s2) = zones (look s) /\ served (look s2) = served (look s) /\ stubs (look s2) = stubs (look s1)) by (by destruct r2; cbn in E2; rewrite E2).
  destruct V2 as (Z2 & V2 & X2). rewrite X1 in X2. apply wpio_bind. eapply wpio_mono; [by apply law_reload|]. intros r3 s3 [O3 E3]. pose proof (transitivity B2 (told_beside _ _ _ _ _ E3)) as B3. destruct r3 as [[]|e]; cbn in E3.
  - apply wpio_bind. eapply wpio_mono; [by apply law_flush|]. intros r4 s4 [O4 E4]. pose proof (transitivity B3 (told_beside _ _ _ _ _ E4)) as B4. apply wpio_ret. split; [done|]. split; [done|]. destruct r4 as [[]|e]; cbn in E4; rewrite E4, E3; cbn; (split_and!; [done..|]); intros _; by rewrite X2.
  - apply wpio_ret. rewrite E3. split_and!; [done|by rewrite <- E3|done|done|]. intros Hx. by apply app_eq_nil in Hx as [_ ?].
Qed.
(** The zone is in place and both servers have it. *)
Definition in_place (v : seen) : Prop := settled v /\ k ∈ zones v /\ stubs v !! file = Some text.
Definition restored (v v' : seen) : Prop := zones v' = zones v /\ stubs v' = stubs v /\ settled v'.
Definition reports_rollback (e : error) : Prop := exists cause e', e = JoinErrs [cause; Wrapf "rollback zone service deletion" e'].
Lemma wp_rollback_hook v0 s (b : bool) cause : okay s -> wpio (rollbackZoneServiceDeletion auth res zone true b cause) s (fun r s' => okay s' /\ beside (look s) (look s')
  /\ exists e, r = Err e /\ (in_place v0 -> zones (look s) = zones v0 ∖ {[ k ]} \/ zones (look s) = zones v0 /\ served (look s) = zones v0 -> (if b then delete file (stubs (look s)) = delete file (stubs v0) else stubs (look s) = stubs v0 /\ resolving (look s) = stubs v0) ->
       restored v0 (look s') \/ reports_rollback e)).
Proof using L.
  intros Ho. unfold rollbackZoneServiceDeletion, restoreZoneServiceReferences. apply wpio_bind, wpio_bind. eapply wpio_mono; [by apply wp_restore_auth|]. intros errs s1 (O1 & B1 & S1 & R1 & Z1). apply wpio_bind.
  eapply (wpio_mono _ _ (fun errs' s' => okay s' /\ beside (look s1) (look s') /\ zones (look s') = zones (look s1) /\ served (look s') = served (look s1) /\ (errs' = [] -> if b then stubs (look s') = <[file := text]> (stubs (look s1)) /\ resolving (look s') = stubs (look s') else look s' = look s1))).
  { destruct b; [|by apply wpio_ret]. by apply wp_restore_resolver. }
  intros errs2 s2 (O2 & B2 & Z2 & V2 & X2). apply wpio_ret, wpio_ret. split; [done|]. split; [exact (transitivity B1 B2)|]. eexists. split; [done|]. intros [[Hs0 Hr0] [Hk Ht]] Hz Hst. destruct (errs ++ errs2) as [|x l] eqn:Ee; cbn [errors_Join]; [|right; by do 2 eexists]. left. apply app_eq_nil in Ee as [-> ->].
  destruct (Z1 eq_refl) as [Hz1 Hv1]. specialize (X2 eq_refl). assert (Hzz : zones (look s1) = zones v0).
  { rewrite Hz1. destruct Hz as [->|[-> _]]; apply set_eq; intros x; rewrite elem_of_union, ?elem_of_difference, elem_of_singleton; destruct (decide (x = k)) as [->|]; tauto. }
  assert (Hvv : served (look s1) = zones v0).
  { destruct Hv1 as [->|[He ->]]; [done|]. destruct Hz as [Hz|[_ ->]]; [|done]. rewrite Hzz, Hz in He. exfalso. assert (Hx : k ∈ zones v0 ∖ {[ k ]}) by (by rewrite <- He). apply elem_of_difference in Hx as [_ Hx]. by apply Hx, elem_of_singleton. }
  split; [by rewrite Z2|]. destruct b.
  - destruct X2 as [X2 Y2]. assert (Hs2 : stubs (look s2) = stubs v0) by (rewrite X2, S1, <- insert_delete_eq, Hst, insert_delete_eq; by apply insert_id). split; [done|]. split; [by rewrite V2, Z2, Hvv|done].
  - destruct Hst as [Hst Hrt]. rewrite X2. split; [by rewrite S1|]. split; [by rewrite Hvv, Hzz|by rewrite S1, R1, Hst].
Qed.
Definition deleted (r : result unit) (v v' : seen) : Prop := beside v v' /\
  match r with
  | Ok _ => zones v' = zones v ∖ {[ k ]} /\ stubs v' = delete file (stubs v) /\ resolving v' = stubs v' /\ nsd_took v v'
  | Err e => in_place v -> restored v v' \/ reports_rollback e
  end.
(** A step fails: what the steps before it took away is brought back. *)
Lemma wp_step_fails v0 s (b : bool) cause : okay s -> beside v0 (look s) -> (in_place v0 -> zones (look s) = zones v0 ∖ {[ k ]} \/ zones (look s) = zones v0 /\ served (look s) = zones v0) ->
  (in_place v0 -> if b then True else stubs (look s) = stubs v0 /\ resolving (look s) = stubs v0) ->
  wpio (rollbackZoneServiceDeletion auth res zone true b cause) s (fun r s' => okay s' /\ deleted r v0 (look s')).
Proof using L.
  intros Ho B Hz Hs. eapply wpio_mono; [by apply (wp_rollback_hook v0)|]. intros r s' (O' & B' & e & -> & He). split; [done|]. split; [exact (transitivity B B')|]. intros Hi. apply He; [done|by apply Hz|]. specialize (Hs Hi). destruct b; [|done]. apply B.
Qed.
Lemma wp_delete s : okay s -> wpio (deleteZoneServiceReferences auth res zone) s (fun r s' => okay s' /\ deleted r (look s) (look s')).
Proof using L.
  intros Ho. unfold deleteZoneServiceReferences, deletion_step. apply wpio_bind. eapply wpio_mono; [by apply law_delete|]. intros r1 s1 [O1 E1]. pose proof (edited_beside _ _ _ _ (or_intror eq_refl) E1) as B1. destruct E1 as (S1 & R1 & _ & Z1 & X1).
  assert (Hz1 : in_place (look s) -> zones (look s1) = zones (look s) ∖ {[ k ]} \/ zones (look s1) = zones (look s) /\ served (look s1) = zones (look s)) by (intros [[Hsv _] _]; destruct Z1 as [?|[? ->]]; [by left|by right]).
  assert (Hs1 : in_place (look s) -> stubs (look s1) = stubs (look s) /\ resolving (look s1) = stubs (look s)) by (intros [[_ Hr] _]; by rewrite S1, R1).
  destruct r1 as [[]|e]; [|by apply wp_step_fails]. destruct (X1 eq_refl) as [X X']. apply wpio_bind. eapply wpio_mono; [by apply law_delete_stub|]. intros r2 s2 (O2 & E2 & F2). pose proof (transitivity B1 (wrote_delete _ _ _ E2)) as B2.
  destruct r2 as [[]|e]; [|rewrite F2 in B2 by done; apply wp_step_fails; by rewrite ?F2 by done]. clear F2. assert (V2 : zones (look s2) = zones (look s) ∖ {[ k ]} /\ served (look s2) = served (look s1) /\ stubs (look s2) = delete file (stubs (look s))).
  { destruct E2 as [E2 E2']. rewrite (E2' eq_refl), S1. by destruct E2 as [->| ->]. }
  clear E2. destruct V2 as (Z2 & V2 & Y2). apply wpio_bind. eapply wpio_mono; [by apply law_check|]. intros r3 s3 [O3 E3]. pose proof (transitivity B2 (told_beside _ _ _ _ _ E3)) as B3. destruct r3 as [[]|e]; cbn in E3; [|apply wp_step_fails; [done|done| |done]; rewrite E3; by left].
  apply wpio_bind. eapply wpio_mono; [by apply law_reload|]. intros r4 s4 [O4 E4]. pose proof (transitivity B3 (told_beside _ _ _ _ _ E4)) as B4. destruct r4 as [[]|e]; cbn in E4; [|apply wp_step_fails; [done|done| |done]; rewrite E4, E3; by left].
  apply wpio_bind. eapply wpio_mono; [by apply law_flush|]. intros r5 s5 [O5 E5]. pose proof (transitivity B4 (told_beside _ _ _ _ _ E5)) as B5. destruct r5 as [[]|e]; cbn in E5; [|apply wp_step_fails; [done|done| |done]; rewrite E5, E4, E3; by left].
  apply wpio_ret. split; [done|]. split; [done|]. rewrite E5, E4, E3. cbn. split_and!; [done..|]. unfold nsd_took. cbn. rewrite Z2, V2. destruct X' as [?|[Hx ->]]; [by left|right; split; congruence].
Qed.
End hooks.

Section services.
Context `{UnicodeTables, !UnicodeLaws} (w : World) (run : nat -> list string -> result string) (nc : NSDConfig) (uc : UnboundConfig) (served0 : gset string) (resolving0 : gmap string string).
#[local] Set Default Proof Using "Type".
Abbreviation nsd_dir := (Dirname (zoneConfigPath nc)).
Abbreviation nsd_file := (Base (zoneConfigPath nc)).
Abbreviation ub_dir := (Dirname (ub_ConfigPath uc)).
Definition parsed (text : option string) : gset string :=
  match text with Some t => match read_markers (Split t nl) ∅ with Ok zs => zs | Err _ => ∅ end | None => ∅ end.
Definition listed_in (c : cache) : gset string := parsed (content (zone_entries c nsd_dir !! nsd_file)).
Definition stubs_in (c : cache) : gmap string string := stub_files (zone_entries c ub_dir).
Definition took (argv : list string) (c : command) : bool := bool_decide (cmd_argv c = argv) && cmd_ok c.
Definition look (s : services) : seen :=
  mkSeen (listed_in (sv_files s)) (stubs_in (sv_files s))
    (foldl (fun z c => if took [nsd_ControlPath nc; "reconfig"] c then listed_in (cmd_files c) else z) served0 (sv_log s))
    (foldl (fun z c => if took [ub_ControlPath uc; "reload"] c then stubs_in (cmd_files c) else z) resolving0 (sv_log s))
    (map cmd_argv (List.filter cmd_ok (sv_log s))).
Definition has_tree (s : services) : Prop := exists zs, root (sv_files s) = Zones zs.

Lemma wp_in_dir {A} dir (m : io fs A) s Q : wpio m (zone_fs (sv_files s) dir) (fun a d => Q a (mkServices (put dir d (sv_files s)) (sv_log s))) -> wpio (in_dir dir m) s Q.
Proof. intros Hm. pose proof (wp_in_zone dir m (sv_files s) (fun a c => Q a (mkServices c (sv_log s))) Hm) as Hw. unfold wpio, in_dir, in_files in *. by destruct (in_zone dir m (sv_files s)). Qed.
Lemma put_tree dir d s : has_tree s -> has_tree (mkServices (put dir d (sv_files s)) (sv_log s)).
Proof. intros [zs Hz]. unfold has_tree, put. cbn. rewrite Hz. by eexists. Qed.
Lemma put_here dir d s : has_tree s -> zone_entries (put dir d (sv_files s)) dir = entries d.
Proof. intros [zs Hz]. unfold put, zone_view. cbn. rewrite Hz. by rewrite lookup_insert_eq. Qed.
Lemma put_quiet dir d c z : entries d = zone_entries c dir -> zone_entries (put dir d c) z = zone_entries c z.
Proof. intros Hd. destruct (decide (z = dir)) as [->|Hne]; [|by rewrite put_other]. destruct (put_same dir d c) as [->|[-> ->]]; done. Qed.
(** Running a command. *)
Definition ran (argv : list string) (b : bool) (s s' : services) : Prop := root (sv_files s') = root (sv_files s) /\ sv_log s' = sv_log s ++ [mkCommand argv b (sv_files s)].
Lemma wp_exec what path args s : wpio (exec_unit run what path args) s (fun r s' =>
  (r <> Ok tt /\ s' = s) \/ exists p b, path = Ok p /\ ran (p :: args) b s s' /\ (r = Ok tt <-> b = true)).
Proof.
  unfold exec_unit, exec_checked. apply wpio_try, wpio_try, wpio_ret. destruct path as [p|e]; [|by left]. apply wpio_wrap. unfold wpio, exec_Command. cbn [fst snd]. destruct (run (ticks (sv_files s)) (p :: args)) as [out|e]; cbn; right; do 2 eexists; (split; [done|]); (split; [by split|]); done.
Qed.
Lemma ran_files argv b s s' z : ran argv b s s' -> zone_entries (sv_files s') z = zone_entries (sv_files s) z.
Proof. intros [Hr _]. unfold zone_view. by rewrite Hr. Qed.
Lemma ran_look argv b s s' : ran argv b s s' -> look s' = mkSeen (zones (look s)) (stubs (look s))
  (if bool_decide (argv = [nsd_ControlPath nc; "reconfig"]) && b then zones (look s) else served (look s))
  (if bool_decide (argv = [ub_ControlPath uc; "reload"]) && b then stubs (look s) else resolving (look s))
  (accepted (look s) ++ if b then [argv] else []).
Proof.
  intros Hr. pose proof (ran_files _ _ _ _ nsd_dir Hr) as Hn. pose proof (ran_files _ _ _ _ ub_dir Hr) as Hu. destruct Hr as [_ Hl]. unfold look. rewrite Hl, !foldl_snoc, List.filter_app, map_app. unfold listed_in, stubs_in, took. rewrite Hn, Hu. cbn. by destruct b.
Qed.

(** *** NSD *)
Context (nsd_on : nsd_Enabled nc = true) (ub_on : ub_Enabled uc = true) (ub_abs : IsAbs (ub_ConfigPath uc) = true).
Context (visible : HasPrefix nsd_file "." = false) (not_stub : HasPrefix nsd_file "stub-zone-" = false).
Lemma stub_files_ext es es' : (forall n, HasPrefix n "stub-zone-" = true -> content (es' !! n) = content (es !! n)) -> stub_files es' = stub_files es.
Proof. intros He. apply map_eq. intros n. rewrite !stub_files_lookup. destruct (HasPrefix n "stub-zone-") eqn:Hp; [by apply He|done]. Qed.
Lemma temp_dotted pre n : temp_name (temp_pre pre) ".tmp" n -> HasPrefix n "." = true.
Proof. intros [r ->]. apply HasPrefix_true. unfold temp_pre. eexists. by rewrite !str_app_assoc. Qed.
Lemma stub_not_dotted n : HasPrefix n "stub-zone-" = true -> HasPrefix n "." = false.
Proof. by intros [t ->]%HasPrefix_true. Qed.
Lemma replaced_frame name new s s' m : replaced name (temp_pre name) ".tmp" new s s' -> HasPrefix m "." = false -> m <> name -> entries s' !! m = entries s !! m.
Proof. intros [Ho _] Hm Hn. apply Ho. intros [?|[Ht%temp_dotted _]]; congruence. Qed.
Lemma markers_managed lines zs zs' : all_managed zs -> read_markers lines zs = Ok zs' -> all_managed zs'.
Proof using H0.
  revert zs. induction lines as [|line lines IH]; intros zs Hz; cbn [read_markers]; [by intros [= <-]|]. destruct (zone_marker line) as [z|]; [|by apply IH]. intros Hr. apply rbind_ok in Hr as (k & Hk & Hr). apply wrap_ok, normalize_managed in Hk as [Hk _]. eapply IH; [|exact Hr]. intros x [->%elem_of_singleton|Hx]%elem_of_union; [done|by apply Hz].
Qed.
Lemma parsed_managed text : all_managed (parsed text).
Proof using H0.
  assert (He : all_managed ∅) by (intros x Hx; by apply elem_of_empty in Hx). unfold parsed. destruct text as [t|]; [|done]. destruct (read_markers (Split t nl) ∅) as [zs|e] eqn:Er; [|done]. exact (markers_managed _ _ _ He Er).
Qed.
Lemma wp_read_zone_config s : wpio (readManagedZoneConfig w nsd_file) s (fun r s' => later s s'
  /\ match r with Ok (existing, zs) => zs = parsed (content (entries s !! nsd_file)) /\ (existing = "" \/ content (entries s !! nsd_file) = Some existing) | Err _ => True end).
Proof.
  unfold readManagedZoneConfig. apply wpio_try. eapply wpio_mono; [apply wp_validate_config|]. intros [[]|e] s1 H1; [|done]. apply wpio_bind. eapply wpio_mono; [apply wp_read_config|]. intros r s2 [H2 Hr]. apply wpio_ret. assert (H02 : later s s2) by (by eapply look_trans). split; [done|]. unfold read_of in Hr. rewrite (proj1 H1) in Hr. destruct r as [data|e].
  - rewrite Hr. unfold parsed. destruct (read_markers (Split data nl) ∅) as [zs|e]; [|done]. cbn. by split; [|right].
  - destruct Hr as [_ Hr]. destruct (os_IsNotExist e); [|done]. rewrite Hr by done. by split; [|left].
Qed.
Lemma rendering_ne path dir zs : renderManagedZoneConfig path dir zs <> "".
Proof. done. Qed.
Lemma wp_update_config f s : has_tree s -> (forall zs, all_managed zs -> all_managed (f zs)) -> wpio (updateManagedZoneConfig w nc f) s (fun r s' => has_tree s' /\ sv_log s' = sv_log s /\ stubs_in (sv_files s') = stubs_in (sv_files s)
  /\ (listed_in (sv_files s') = f (listed_in (sv_files s)) \/ listed_in (sv_files s') = listed_in (sv_files s))
  /\ match r with Ok changed => listed_in (sv_files s') = f (listed_in (sv_files s)) /\ (changed = false -> listed_in (sv_files s') = listed_in (sv_files s)) | Err _ => True end).
Proof using H0 visible not_stub.
  intros Ht Hf. unfold updateManagedZoneConfig. apply wpio_try, wpio_ret. destruct (ValidateNSDRenderedConfigPath "nsd.zone_config_path" (zoneConfigPath nc)) as [u|e] eqn:Hv1; [|by split_and!; [..|right|]]. destruct u. apply path_lacks in Hv1. apply wpio_try, wpio_ret. destruct (ValidateNSDRenderedConfigPath "nsd.zone_directory" (nsd_ZoneDirectory nc)) as [[]|e] eqn:Hv2; [|by split_and!; [..|right|]]. apply path_lacks in Hv2.
  apply wp_in_dir. set (d0 := zone_fs (sv_files s) nsd_dir). assert (Hquiet : forall d, entries d = entries d0 -> listed_in (put nsd_dir d (sv_files s)) = listed_in (sv_files s) /\ stubs_in (put nsd_dir d (sv_files s)) = stubs_in (sv_files s)) by (intros d Hd; unfold listed_in, stubs_in; by rewrite !put_quiet).
  apply wpio_try. eapply wpio_mono; [apply wp_read_zone_config|]. intros [[existing zs]|e] d1 [[H1 _] Hr]; cbn [fst snd sv_files sv_log].
  2: { destruct (Hquiet d1) as [-> ->]; [by rewrite H1|]. split_and!; [by apply put_tree|done..|by right|done]. }
  destruct Hr as [Hzs Hex]. assert (Hl : listed_in (sv_files s) = zs) by done. cbv zeta. set (after := renderManagedZoneConfig _ _ (f zs)). assert (Hread : parsed (Some after) = f zs).
  { cbn. subst after. rewrite render_read; [done|apply Hf; rewrite Hzs; apply parsed_managed|done|done]. }
  destruct (String.eqb_spec existing after) as [He|_].
  - apply wpio_ret. cbn [sv_files sv_log]. destruct (Hquiet d1) as [-> ->]; [by rewrite H1|]. assert (Hfix : f zs = zs) by (rewrite <- Hread; destruct Hex as [Hex|Hex]; [by destruct (rendering_ne (zoneConfigPath nc) (nsd_ZoneDirectory nc) (f zs)); rewrite <- Hex|by rewrite Hzs, Hex, He]). rewrite Hl, Hfix. split_and!; [by apply put_tree|done..|by left|done|done].
  - apply wpio_try, wpio_wrap. eapply wpio_mono; [apply wp_config_write|]. intros r d2 [Hw Hok]. assert (Hd1 : entries d1 = entries d0) by (by rewrite H1). assert (Hst : stubs_in (put nsd_dir d2 (sv_files s)) = stubs_in (sv_files s)).
    { unfold stubs_in. destruct (decide (ub_dir = nsd_dir)) as [->|Hne]; [|by rewrite put_other]. rewrite put_here by done. apply stub_files_ext. intros n Hn. rewrite (replaced_frame _ _ _ _ n Hw); [by rewrite Hd1|by apply stub_not_dotted|]. intros ->. congruence. }
    assert (Hlist : listed_in (put nsd_dir d2 (sv_files s)) = parsed (content (entries d2 !! nsd_file))) by (unfold listed_in; by rewrite put_here).
    assert (Heither : listed_in (put nsd_dir d2 (sv_files s)) = f (listed_in (sv_files s)) \/ listed_in (put nsd_dir d2 (sv_files s)) = listed_in (sv_files s)).
    { rewrite Hlist, Hl. destruct Hw as [_ [->| ->]]; [right; by rewrite Hd1|by left]. }
    destruct r as [[]|e]; cbn [wrap sv_files sv_log]; [|by split_and!; [by apply put_tree|..]]. apply wpio_ret. cbn [sv_files sv_log]. split_and!; [by apply put_tree|done..|by rewrite Hlist, Hl, Hok|done].
Qed.
Lemma ran_tree argv b s s' : ran argv b s s' -> has_tree s -> has_tree s'.
Proof. intros [Hr _] [zs Hz]. exists zs. by rewrite Hr. Qed.
Lemma control_path p : nsd_validatedControlPath nc = Ok p -> p = nsd_ControlPath nc.
Proof. unfold nsd_validatedControlPath. intros Hp. by apply rbind_ok in Hp as ([] & _ & [= ->]). Qed.
Lemma unbound_path p : unbound_validatedControlPath uc = Ok p -> p = ub_ControlPath uc.
Proof. unfold unbound_validatedControlPath. intros Hp. by apply rbind_ok in Hp as ([] & _ & [= ->]). Qed.
Lemma wp_update_zones f s : has_tree s -> (forall zs, all_managed zs -> all_managed (f zs)) -> wpio (update_zones w run nc f) s (fun r s' => has_tree s' /\ edited (f (zones (look s))) r (look s) (look s')).
Proof using H0 visible not_stub nsd_on.
  intros Ht Hf. unfold update_zones. apply wpio_try. eapply wpio_mono; [by apply wp_update_config|]. intros r s1 (T1 & L1 & S1 & Z1 & R1). assert (V1 : look s1 = mkSeen (listed_in (sv_files s1)) (stubs (look s)) (served (look s)) (resolving (look s)) (accepted (look s))) by (unfold look; cbn; by rewrite L1, S1).
  assert (Hz : zones (look s) = listed_in (sv_files s)) by done. rewrite Hz. destruct r as [changed|e]; [|split; [done|]; rewrite V1; split_and!; [done..| |done]; destruct Z1; [by left|by right]]. destruct R1 as [R1 Hsame]. destruct changed; cbn [negb].
  - unfold nsd_Reconfig. rewrite nsd_on. cbn [negb]. eapply wpio_mono; [apply wp_exec|]. intros r s2 [[Hr ->]|(p & b & Hp & Hran & Hb)]; [split; [done|]; rewrite V1; split_and!; [done..|by left|done]|]. split; [by eapply ran_tree|]. apply control_path in Hp as ->. rewrite (ran_look _ _ _ _ Hran), V1. rewrite bool_decide_true, (bool_decide_false (_ = [ub_ControlPath uc; _])) by done. cbn [andb]. rewrite R1. split_and!; cbn [zones stubs served resolving accepted]; [done|done|by apply prefix_app_r|by left|]. intros Hr. apply Hb in Hr as ->. split; [done|by left].
  - apply wpio_ret. split; [done|]. rewrite V1. specialize (Hsame eq_refl). split_and!; cbn; [done..|by right|]. intros _. split; [done|by right].
Qed.
Context (zone k : string) (Hk : normalizeZoneName zone = Ok k).
Definition nsd_commands : zone_commands := mkCommands [nsd_ControlPath nc; "reload"; k] [ub_CheckconfPath uc; ub_ConfigPath uc] [ub_ControlPath uc; "reload"] [ub_ControlPath uc; "flush_zone"; k].
Lemma k_managed : managed k.
Proof using H0 Hk. by apply normalize_managed in Hk as [? _]. Qed.
Lemma wp_told what path args p0 cmd loads s : (forall p, path = Ok p -> p = p0) -> cmd = p0 :: args -> has_tree s -> cmd <> [nsd_ControlPath nc; "reconfig"] -> loads (look s) = (if bool_decide (cmd = [ub_ControlPath uc; "reload"]) then stubs (look s) else resolving (look s)) ->
  wpio (exec_unit run what path args) s (fun r s' => has_tree s' /\ told cmd loads r (look s) (look s')).
Proof.
  intros Hp -> Ht Hc Hl. eapply wpio_mono; [apply wp_exec|]. intros r s1 [[Hr ->]|(p & b & Hp' & Hran & Hb)]; [split; [done|]; by destruct r as [[]|]|]. split; [by eapply ran_tree|]. apply Hp in Hp' as ->. rewrite (ran_look _ _ _ _ Hran). rewrite (bool_decide_false (_ = [nsd_ControlPath nc; _])) by done. cbn [andb]. destruct r as [[]|e]; cbn [told].
  - assert (b = true) as -> by exact (proj1 Hb eq_refl). by rewrite andb_true_r, Hl.
  - destruct b; [discriminate (proj2 Hb eq_refl)|]. rewrite andb_false_r, app_nil_r. by destruct (look s).
Qed.
Lemma stub_name : HasPrefix (stubZoneConfigPath k) "stub-zone-" = true.
Proof. apply HasPrefix_true. by eexists. Qed.
Lemma put_stubs d s (new : gmap string string) : has_tree s -> (forall n, HasPrefix n "stub-zone-" = true -> content (entries d !! n) = new !! n) -> (forall n, HasPrefix n "stub-zone-" = false -> new !! n = None) ->
  entries d !! nsd_file = zone_entries (sv_files s) ub_dir !! nsd_file ->
  look (mkServices (put ub_dir d (sv_files s)) (sv_log s)) = mkSeen (zones (look s)) new (served (look s)) (resolving (look s)) (accepted (look s)).
Proof.
  intros Ht Hn Hn' Hz. unfold look. cbn. f_equal.
  - unfold listed_in. destruct (decide (nsd_dir = ub_dir)) as [He|Hne]; [|by rewrite put_other]. rewrite He, put_here by done. by rewrite Hz.
  - unfold stubs_in. rewrite put_here by done. apply map_eq. intros n. rewrite stub_files_lookup. destruct (HasPrefix n "stub-zone-") eqn:Hp; [by apply Hn|by rewrite Hn'].
Qed.
Lemma stub_not_nsd n : HasPrefix n "stub-zone-" = true -> n <> nsd_file.
Proof using not_stub. intros Hn ->. congruence. Qed.
Lemma stub_entry s n : stubs (look s) !! n = if HasPrefix n "stub-zone-" then content (zone_entries (sv_files s) ub_dir !! n) else None.
Proof. unfold look, stubs_in. cbn [stubs]. apply stub_files_lookup. Qed.
Lemma wp_update_stub s : has_tree s -> wpio (UpdateStubZoneConfig w uc zone) s (fun r s' => has_tree s' /\ wrote_stubs (<[stubZoneConfigPath k := stub_text uc k]> (stubs (look s))) r (look s) (look s')).
Proof using H0 Hk ub_on visible not_stub.
  intros Ht. unfold UpdateStubZoneConfig. rewrite ub_on. cbn [negb]. apply wpio_try, wpio_ret. rewrite Hk. apply wpio_try, wpio_ret. unfold GenerateStubZoneConfig. rewrite k_managed. cbn [rbind]. destruct (StubZone_Validate (ub_StubZoneConfig uc)) as [[]|e]; cbn [rbind wrap]; [|split; [done|by split; [left|]]].
  apply wpio_wrap, wp_in_dir. eapply wpio_mono; [apply wp_config_write|]. intros r d [Hw Hok]. split; [by apply put_tree|]. pose proof stub_name as Hsn. set (file := stubZoneConfigPath k) in *. pose proof (replaced_frame _ _ _ _ nsd_file Hw visible (not_eq_sym (stub_not_nsd _ Hsn))) as Hnsd.
  assert (Hother : forall n, n <> file -> HasPrefix n "stub-zone-" = true -> content (entries d !! n) = stubs (look s) !! n) by (intros n Hne Hn; rewrite stub_entry, Hn; by rewrite (replaced_frame _ _ _ _ n Hw (stub_not_dotted _ Hn) Hne)).
  assert (Hnone : forall (m : gmap string string) n, HasPrefix n "stub-zone-" = false -> <[file := stub_text uc k]> (stubs (look s)) !! n = None /\ stubs (look s) !! n = None) by (intros m n Hn; rewrite lookup_insert_ne by congruence; by rewrite stub_entry, Hn).
  assert (Hnew : content (entries d !! file) = Some (stub_text uc k) -> look (mkServices (put ub_dir d (sv_files s)) (sv_log s)) = mkSeen (zones (look s)) (<[file := stub_text uc k]> (stubs (look s))) (served (look s)) (resolving (look s)) (accepted (look s))).
  { intros Hc. apply put_stubs; [done| |intros n Hn; by apply (Hnone ∅)|done]. intros n Hn. destruct (decide (n = file)) as [->|Hne]; [by rewrite lookup_insert_eq|]. rewrite lookup_insert_ne by done. by apply Hother. }
  split.
  - destruct Hw as [_ [Hc|Hc]]; [|right; by apply Hnew]. left. rewrite (put_stubs d s (stubs (look s))); [by destruct (look s)|done| |intros n Hn; by apply (Hnone ∅)|done]. intros n Hn. destruct (decide (n = file)) as [->|Hne]; [|by apply Hother]. by rewrite stub_entry, Hsn, Hc.
  - intros Hr. rewrite Hnew; [done|]. apply Hok. by destruct r as [[]|].
Qed.
Lemma wp_delete_stub s : has_tree s -> wpio (DeleteStubZoneConfig w uc zone) s (fun r s' => has_tree s' /\ wrote_stubs (delete (stubZoneConfigPath k) (stubs (look s))) r (look s) (look s') /\ (r <> Ok tt -> look s' = look s)).
Proof using Hk ub_on not_stub.
  intros Ht. unfold DeleteStubZoneConfig. rewrite ub_on. cbn [negb]. apply wpio_try, wpio_ret. rewrite Hk. apply wp_in_dir. pose proof stub_name as Hsn. set (file := stubZoneConfigPath k) in *. set (d0 := zone_fs (sv_files s) ub_dir).
  assert (Hsame : forall d, entries d = entries d0 -> look (mkServices (put ub_dir d (sv_files s)) (sv_log s)) = look s) by (intros d Hd; unfold look, listed_in, stubs_in; cbn [sv_files sv_log]; by rewrite !put_quiet).
  assert (Hgone : forall d, entries d = delete file (entries d0) -> look (mkServices (put ub_dir d (sv_files s)) (sv_log s)) = mkSeen (zones (look s)) (delete file (stubs (look s))) (served (look s)) (resolving (look s)) (accepted (look s))).
  { intros d Hd. apply put_stubs; [done| | |rewrite Hd, lookup_delete_ne; [done|by apply stub_not_nsd]].
    - intros n Hn. rewrite Hd. destruct (decide (n = file)) as [->|Hne]; [by rewrite !lookup_delete_eq|]. rewrite !lookup_delete_ne by done. by rewrite stub_entry, Hn.
    - intros n Hn. rewrite lookup_delete_ne by congruence. by rewrite stub_entry, Hn. }
  unfold delete_stub. apply wpio_try, wpio_wrap. eapply wpio_mono; [apply wp_validate_config|]. intros [[]|e] d1 [H1 _]; cbn [wrap]; [|split; [by apply put_tree|]; rewrite Hsame by (by rewrite H1); by split; [split; [left|]|]].
  apply wpio_bind. eapply wpio_mono; [apply wp_remove|]. intros r d2 Hr. apply wpio_ret. split; [by apply put_tree|]. destruct r as [[]|e].
  - rewrite Hgone by (by rewrite Hr, H1). split; [|done]. split; [by right|done].
  - destruct Hr as [Hr Hm]. assert (Hd2 : entries d2 = entries d0) by (by rewrite Hr, H1). rewrite Hsame by done. destruct (os_IsNotExist e); [|by split; [split; [left|]|]]. split; [|done]. split; [by left|]. intros _. rewrite delete_id; [done|]. rewrite stub_entry, Hsn. specialize (Hm eq_refl). rewrite H1 in Hm. unfold d0, zone_fs in Hm. cbn in Hm. by rewrite Hm.
Qed.
#[export] Instance adapter_laws : ServiceLaws (nsd_Adapter w run nc) (unbound_Adapter w run uc) zone k (stubZoneConfigPath k) (stub_text uc k) nsd_commands has_tree look.
Proof using H0 Hk nsd_on ub_on ub_abs visible not_stub.
  split; intros s Ht; cbn [nsd_Adapter unbound_Adapter auth_EnsureZone auth_DeleteZone auth_ReloadZone res_CheckConfig res_Reload res_FlushZone res_UpdateStubZone res_DeleteStubZone].
  - unfold nsd_EnsureZone. rewrite nsd_on. apply wpio_try, wpio_ret. rewrite Hk. apply (wp_update_zones (fun zs => {[ k ]} ∪ zs)); [done|]. intros zs Hz x [->%elem_of_singleton|Hx]%elem_of_union; [apply k_managed|by apply Hz].
  - unfold nsd_DeleteZone. rewrite nsd_on. apply wpio_try, wpio_ret. rewrite Hk. apply (wp_update_zones (fun zs => zs ∖ {[ k ]})); [done|]. intros zs Hz x [Hx _]%elem_of_difference. by apply Hz.
  - unfold nsd_ReloadZone. rewrite nsd_on. apply wpio_try, wpio_ret. rewrite Hk. apply (wp_told _ _ _ (nsd_ControlPath nc)); [by apply control_path|done..|]. by rewrite bool_decide_false.
  - unfold CheckConfig. rewrite ub_on. apply (wp_told _ _ _ (ub_CheckconfPath uc)); [|done|done|intros [= _ He]; by rewrite He in ub_abs|rewrite bool_decide_false; [done|intros [= _ He]; by rewrite He in ub_abs]].
    unfold validatedCheckconfPath. intros p Hp. by apply rbind_ok in Hp as ([] & _ & [= ->]).
  - unfold unbound_Reload. rewrite ub_on. apply (wp_told _ _ _ (ub_ControlPath uc)); [by apply unbound_path|done..|]. by rewrite bool_decide_true.
  - unfold unbound_FlushZone. rewrite ub_on. apply wpio_try, wpio_ret. rewrite Hk. apply (wp_told _ _ _ (ub_ControlPath uc)); [by apply unbound_path|done..|]. by rewrite bool_decide_false.
  - by apply wp_update_stub.
  - by apply wp_delete_stub.
Qed.
End services.

(** ** The agent's hooks *)
Section restore.
Context {S : Type} {auth : AuthoritativeServer S} {res : Resolver S} {zone k file text : string} {zc : zone_commands} {okay : S -> Prop} {look : S -> seen} `{L : !ServiceLaws auth res zone k file text zc okay look}.
Definition reinstated (r : result unit) (v v' : seen) : Prop := beside (k := k) (file := file) v v'
  /\ (r = Ok tt -> zones v' = {[ k ]} ∪ zones v /\ stubs v' = <[file := text]> (stubs v) /\ resolving v' = stubs v' /\ nsd_took v v').
Lemma wp_restore_hook s : okay s -> wpio (restoreZoneServiceReferences auth res zone true true) s (fun r s' => okay s' /\ reinstated r (look s) (look s')).
Proof using L.
  intros Ho. unfold restoreZoneServiceReferences. apply wpio_bind. eapply wpio_mono; [by apply wp_restore_auth|]. intros errs s1 (O1 & B1 & S1 & R1 & Z1). apply wpio_bind. eapply wpio_mono; [by apply wp_restore_resolver|]. intros errs2 s2 (O2 & B2 & Z2 & V2 & X2). apply wpio_ret. split; [done|].
  split; [exact (transitivity B1 B2)|]. intros Hr. destruct (errs ++ errs2) as [|x l] eqn:Ee; [|done]. apply app_eq_nil in Ee as [-> ->]. destruct (Z1 eq_refl) as [Hz Hv]. destruct (X2 eq_refl) as [Hs Hr2]. unfold nsd_took. rewrite Z2, V2, Hs, S1. split_and!; [done|done|congruence|]. destruct Hv as [->|[He ->]]; [by left|right; by split].
Qed.
End restore.

(** Both servers are in use, and NSD's file is not a hidden or a stub file. *)
Record service_config (cfg : AgentConfig) : Prop := mkServiceConfig {
  sc_nsd : nsd_Enabled (ag_NSD cfg) = true;
  sc_unbound : ub_Enabled (ag_Unbound cfg) = true;
  sc_absolute : IsAbs (ub_ConfigPath (ag_Unbound cfg)) = true;
  sc_visible : HasPrefix (Base (zoneConfigPath (ag_NSD cfg))) "." = false;
  sc_not_stub : HasPrefix (Base (zoneConfigPath (ag_NSD cfg))) "stub-zone-" = false }.
(** C18: the hooks keep the files of both name servers in step with the zones,
    whatever system calls and commands fail.  Applying a zone, when it succeeds,
    leaves the zone in NSD's generated file and its stub file in place, NSD told to
    reload the zone, Unbound's configuration checked, loaded with these files and
    its cache flushed, and NSD reconfigured with this file unless the file already
    listed the zone: then NSD is not reconfigured and serves the zones it served
    before ([nsd_took]), which are those of the file only if it was in step.
    Deleting a zone, when it succeeds, takes it out of both files, and Unbound, and
    NSD under the same proviso, know; when a step fails for a zone that was in place
    in the files and in both servers, it is back in all of them, or the error reports
    that the rollback failed too.  Restoring a zone puts it back like applying it.
    The entries of other zones never change. *)
Theorem service_references `{UnicodeTables, !UnicodeLaws} w run cfg auth res served0 resolving0 zone k s :
  service_config cfg -> agent_servers w run cfg = Ok (auth, res) -> normalizeZoneName zone = Ok k -> has_tree s ->
  let view := look (ag_NSD cfg) (ag_Unbound cfg) served0 resolving0 in
  let file := stubZoneConfigPath k in
  let text := stub_text (ag_Unbound cfg) k in
  let cmds := nsd_commands (ag_NSD cfg) (ag_Unbound cfg) k in
  (forall r s', applyZoneServiceReferences auth res zone s = (r, s') -> reinstated (k := k) (file := file) (text := text) r (view s) (view s')
     /\ (r = Ok tt -> exists l, accepted (view s') = accepted (view s) ++ l ++ [zc_reload cmds; zc_check cmds; zc_load cmds; zc_flush cmds]))
  /\ (forall r s', deleteZoneServiceReferences auth res zone s = (r, s') -> deleted (k := k) (file := file) (text := text) r (view s) (view s'))
  /\ (forall r s', rollbackAppliedZoneServiceReferences auth res zone true s = (r, s') -> reinstated (k := k) (file := file) (text := text) r (view s) (view s'))
  /\ (forall r s', rollbackAppliedZoneServiceReferences auth res zone false s = (r, s') -> deleted (k := k) (file := file) (text := text) r (view s) (view s')).
Proof.
  intros [Hn Hu Habs Hvis Hstub] Hservers Hk Ht. cbv zeta. unfold agent_servers in Hservers. rewrite Hn, Hu in Hservers. apply rbind_ok in Hservers as (a & Ha & Hservers). apply rbind_ok in Hservers as (b & Hb & [= <- <-]). apply rbind_ok in Hb as ([] & _ & [= <-]). destruct (_ =? "nsd")%string; [|done]. injection Ha as <-.
  pose proof (adapter_laws w run (ag_NSD cfg) (ag_Unbound cfg) served0 resolving0 Hn Hu Habs Hvis Hstub zone k Hk) as L. assert (Hdel : forall r s', deleteZoneServiceReferences (nsd_Adapter w run (ag_NSD cfg)) (unbound_Adapter w run (ag_Unbound cfg)) zone s = (r, s') -> deleted (k := k) (file := stubZoneConfigPath k) (text := stub_text (ag_Unbound cfg) k) r (look (ag_NSD cfg) (ag_Unbound cfg) served0 resolving0 s) (look (ag_NSD cfg) (ag_Unbound cfg) served0 resolving0 s')).
  { intros r s' E. exact (proj2 (wpio_run _ _ _ _ _ E (wp_delete (L := L) s Ht))). }
  split_and!; [|exact Hdel| |exact Hdel].
  - intros r s' E. destruct (wpio_run _ _ _ _ _ E (wp_apply_hook (L := L) s Ht)) as (_ & Hb' & Hr). split; [split; [done|]|]; intros Ho; destruct (Hr Ho) as (? & ? & ? & ? & ?); done.
  - intros r s' E. exact (proj2 (wpio_run _ _ _ _ _ E (wp_restore_hook (L := L) s Ht))).
Qed.

(** ** A zone is applied, and its deletion fails *)
Definition fair_world : World := mkWorld (fun _ => None) (fun _ => 0%nat) Z.of_nat Z.of_nat (fun _ => (1000000, 4096)) (fun _ => false).
(** [unbound-checkconf] fails once. *)
Definition sample_run (t : nat) (_ : list string) : result string := if decide (t = 57%nat) then Err (Errorf "exit status 1") else Ok "ok".
Definition bare_services : services := mkServices (mkCache (Zones ∅) 0) [].
Section sample.
#[local] Existing Instance ascii_tables.
Abbreviation sample_auth := (nsd_Adapter fair_world sample_run (ag_NSD DefaultAgentConfig)).
Abbreviation sample_resolver := (unbound_Adapter fair_world sample_run (ag_Unbound DefaultAgentConfig)).
Definition applied_services : services := snd (applyZoneServiceReferences sample_auth sample_resolver "Example.COM" bare_services).
Definition sample_look : services -> seen := look (ag_NSD DefaultAgentConfig) (ag_Unbound DefaultAgentConfig) ∅ ∅.
Lemma sample_config : service_config DefaultAgentConfig.
Proof. by split; vm_compute. Qed.
Lemma service_references_witness :
  zones (sample_look applied_services) = {[ "example.com." ]} ∪ ∅ /\ settled (sample_look applied_services)
  /\ exists e s', deleteZoneServiceReferences sample_auth sample_resolver "example.com" applied_services = (Err e, s') /\ restored (sample_look applied_services) (sample_look s').
Proof.
  destruct (service_references (H0 := ascii_tables_laws) fair_world sample_run DefaultAgentConfig sample_auth sample_resolver ∅ ∅ "Example.COM" "example.com." bare_services sample_config eq_refl) as [Happly _]; [by vm_compute|by eexists|].
  destruct (applyZoneServiceReferences sample_auth sample_resolver "Example.COM" bare_services) as [r s1] eqn:E1. assert (Hr : r = Ok tt) by (apply (f_equal fst) in E1; vm_compute in E1; by symmetry). destruct (Happly _ _ eq_refl) as [[_ Hrest] _]. destruct (Hrest Hr) as (Hz & Hs & Hres & Hserved).
  assert (E1' : applied_services = s1) by (unfold applied_services; by rewrite E1). rewrite <- E1' in *. assert (Hz' : zones (sample_look applied_services) = {[ "example.com." ]} ∪ ∅) by exact Hz. assert (Hset : settled (sample_look applied_services)) by (split; [by eapply nsd_took_settled|exact Hres]).
  split; [done|]. split; [done|].
  destruct (deleteZoneServiceReferences sample_auth sample_resolver "example.com" applied_services) as [r2 s2] eqn:E2. destruct (service_references (H0 := ascii_tables_laws) fair_world sample_run DefaultAgentConfig sample_auth sample_resolver ∅ ∅ "example.com" "example.com." applied_services sample_config eq_refl) as (_ & Hdelete & _); [by vm_compute|by eexists; vm_compute|].
  assert (Hr2 : r2 = Err (Wrapf "check resolver config after zone deletion" (Wrapf "unbound config validation failed" (Errorf "exit status 1")))) by (apply (f_equal fst) in E2; vm_compute in E2; by symmetry).
  destruct (Hdelete _ _ E2) as [_ Hd]. subst r2. do 2 eexists. split; [done|]. destruct Hd as [Hd|(? & ? & ?)]; [|exact Hd|done]. split; [done|]. split; [rewrite Hz; apply elem_of_union_l, elem_of_singleton; done|]. rewrite Hs. apply lookup_insert_eq.
Defined.
End sample.
