(* ===== verification/RecordConversion.v ===== *)
(** * The generator and the signer read records alike

    [convertRecordToRR] (pkg/parser/generator.go) reads MX and SRV values with
    the model's field parsers, [recordToRR] (pkg/dnssec/signer.go) with
    [fmt.Sscanf].  A record of an accepted zone that the signer can read is the
    record the generator writes; CAA values are read differently, and some
    values the validators accept the signer cannot read. *)

From S2P Require Import Prelude GoStrings GoStringsFacts GoNet Zone Names Validation DnsNames ZoneRules Store DnsRecords BindFiles Signer.

(** ** Runs of digits *)
Definition run_text (l : list (Z * string)) : string := str_concat (map snd l).

Abbreviation well l := (Forall (fun c => ascii_chunk c \/ 128 <= fst c /\ is_ascii (snd c) = false) l).

(** ** Fields of scanned text *)
Lemma fields_run cur ds rest : Forall (fun c => IsSpace (fst c) = false) ds -> fields_go cur (ds ++ rest) = fields_go (cur +:+ run_text ds) rest.
Proof.
  intros Hd. revert cur. induction Hd as [|c ds Hc _ IH]; intros cur; cbn [app fields_go]; [by rewrite str_app_nil_r|].
  rewrite Hc, IH. unfold run_text. cbn [map str_concat foldr]. by rewrite str_app_assoc.
Qed.
Definition space_first (l : list (Z * string)) : Prop := match l with [] => True | c :: _ => IsSpace (fst c) = true end.
Lemma fields_end cur rest : cur <> "" -> space_first rest -> fields_go cur rest = cur :: fields_go "" rest.
Proof.
  intros Hc Hs. destruct rest as [|c rest]; cbn [fields_go]; rewrite (proj2 (String.eqb_neq _ _) Hc); [done|]. cbn in Hs. by rewrite Hs.
Qed.
Lemma skip_spaces_spec l l' : skip_spaces l = Some l' -> fields_go "" l = fields_go "" l' /\ (well l -> well l')
  /\ match l' with [] => True | c :: _ => IsSpace (fst c) = false end.
Proof.
  induction l as [|c l IH]; cbn [skip_spaces]; [by intros [= <-]|]. destruct (fst c =? 10); [done|]. destruct (IsSpace (fst c)) eqn:E.
  - intros Hl. destruct (IH Hl) as (H1 & H2 & H3). cbn [fields_go]. rewrite E. split_and!; [done| |done]. intros Hw. apply H2. by inversion Hw.
  - intros [= <-]. done.
Qed.
Lemma skip_blanks_spec l : fields_go "" l = fields_go "" (skip_blanks l) /\ (well l -> well (skip_blanks l)).
Proof.
  induction l as [|c l [IH1 IH2]]; [done|]. cbn [skip_blanks]. destruct (IsSpace (fst c) && negb (fst c =? 10)) eqn:E; [|done].
  apply andb_true_iff in E as [E _]. cbn [fields_go]. rewrite E. split; [done|]. intros Hw. apply IH2. by inversion Hw.
Qed.
Lemma scan_blank_spec l l' : scan_blank l = Some l' -> space_first l /\ fields_go "" l = fields_go "" l' /\ (well l -> well l').
Proof.
  unfold scan_blank. destruct l as [|c l]; [by intros [= <-]|]. destruct (negb (IsSpace (fst c)) || (fst c =? 10)) eqn:E; [done|].
  apply orb_false_iff in E as [E _]. apply negb_false_iff in E. intros [= <-]. split; [done|]. apply skip_blanks_spec.
Qed.

Lemma digit_chunk c : ascii_chunk c \/ 128 <= fst c /\ is_ascii (snd c) = false -> rune_digit (fst c) = true ->
  IsSpace (fst c) = false /\ exists a, is_digit a = true /\ c = (byte a, str1 a).
Proof.
  unfold rune_digit. intros Hw Hd. bool_prop. split.
  - unfold IsSpace. repeat (apply orb_false_iff; split); try (apply andb_false_iff); rewrite ?Z.leb_gt, ?Z.eqb_neq; lia.
  - destruct Hw as [(a & Ha & ->)|]; [|lia]. exists a. split; [|done]. cbn in *. unfold is_digit. by rewrite !(proj2 (Z.leb_le _ _)) by done.
Qed.
Lemma scan_digits_spec l : well l -> forall acc v rest, scan_digits acc l = (v, rest) ->
  exists ds, l = ds ++ rest /\ Forall (fun c => IsSpace (fst c) = false) ds /\ digits_value acc (run_text ds) = Some v
    /\ (forall c l', l = c :: l' -> rune_digit (fst c) = true -> run_text ds <> "") /\ well rest.
Proof.
  induction 1 as [|c l Hc Hl IH]; intros acc v rest E; cbn [scan_digits] in E.
  { injection E as <- <-. exists []. split_and!; try done. }
  destruct (rune_digit (fst c)) eqn:Ed.
  - destruct (digit_chunk c Hc Ed) as (Hs & a & Ha & ->). apply IH in E as (ds & -> & Hds & Hv & _ & Hw).
    exists ((byte a, str1 a) :: ds). cbn [app]. split_and!; [done|by constructor| |done|done].
    unfold run_text in *. cbn [map str_concat foldr snd]. change (foldr String.append "" ?l) with (str_concat l).
    unfold str1. rewrite str_app_cons, str_app_nil_l. cbn [digits_value]. rewrite Ha. exact Hv.
  - injection E as <- <-. exists []. split_and!; try done; [|by constructor]. intros c' l' [= <- <-]. congruence.
Qed.

(** A scanned number is the next field, as the model's parser reads it. *)
Lemma digits_Atoi s v : s <> "" -> digits_value 0 s = Some v -> 0 <= v <= 65535 -> parseUint16Field s = Ok v.
Proof.
  intros Hs Hd Hv. unfold parseUint16Field, Atoi. destruct s as [|a s]; [done|].
  assert (Ha : is_digit a = true) by (cbn in Hd; by destruct (is_digit a)). unfold is_digit in Ha. bool_prop.
  rewrite !(proj2 (Z.eqb_neq _ _)) by lia. cbn [String.eqb]. rewrite Hd. unfold MinInt64, MaxInt64.
  rewrite !(proj2 (Z.leb_le _ _)) by lia. cbn [andb]. rewrite !(proj2 (Z.ltb_ge _ _)) by lia. cbn [orb]. f_equal. apply wrapN_id. unfold in_range. change (2 ^ 16) with 65536. lia.
Qed.
Lemma digits_nonneg s acc v : 0 <= acc -> digits_value acc s = Some v -> 0 <= v.
Proof.
  revert acc. induction s as [|a s IH]; intros acc Ha; cbn [digits_value]; [by intros [= <-]|].
  destruct (is_digit a) eqn:E; [|done]. unfold is_digit in E. bool_prop. apply IH. lia.
Qed.
Lemma scan_uint16_spec l v rest : well l -> scan_uint16 l = Some (v, rest) -> well rest
  /\ exists f, f <> "" /\ parseUint16Field f = Ok v /\ fields_go "" l = fields_go f rest.
Proof.
  intros Hw. unfold scan_uint16. destruct (skip_spaces l) as [l'|] eqn:Es; [|done]. cbn.
  destruct (skip_spaces_spec _ _ Es) as (-> & Hw' & _). destruct l' as [|c l']; [done|]. destruct (rune_digit (fst c)) eqn:Ed; [|done].
  destruct (scan_digits 0 (c :: l')) as [v' rest'] eqn:Esd. destruct (Z.ltb_spec 65535 v') as [|Hle]; [done|]. intros [= <- <-].
  apply scan_digits_spec in Esd as (ds & El & Hds & Hv & Hne & Hwr); [|by apply Hw']. split; [done|].
  exists (run_text ds). split; [by eapply Hne|]. split.
  - apply digits_Atoi; [by eapply Hne|done|]. split; [|done]. by eapply digits_nonneg in Hv.
  - rewrite El, fields_run by done. by rewrite str_app_nil_l.
Qed.

(** A scanned word is the next field, when it is ASCII. *)
Lemma encode_ascii a : byte a < 128 -> encode_rune (byte a) = str1 a.
Proof.
  intros Ha. pose proof (byte_range a). unfold encode_rune.
  rewrite (proj2 (Z.ltb_ge (byte a) 0)), (proj2 (Z.ltb_ge 1114111 (byte a))) by lia.
  assert ((55296 <=? byte a) = false) as -> by (apply Z.leb_gt; lia). cbn [orb andb].
  rewrite (proj2 (Z.ltb_lt _ _)) by lia. by rewrite chr_byte.
Qed.
Lemma take_word_spec l : well l -> forall cur f fs, fields_go cur l = f :: fs -> is_ascii f = true -> cur <> "" \/ (exists c l', l = c :: l' /\ IsSpace (fst c) = false) ->
  f = cur +:+ take_word l.
Proof.
  induction 1 as [|c l Hc Hl IH]; intros cur f fs E Hf Hne; cbn [fields_go take_word] in *.
  - destruct (String.eqb_spec cur ""); [done|]. injection E as <- _. by rewrite str_app_nil_r.
  - destruct (IsSpace (fst c)) eqn:Es.
    + destruct (String.eqb_spec cur "") as [->|_]; [|injection E as <- _; by rewrite str_app_nil_r].
      destruct Hne as [|(c' & l' & [= <- <-] & ?)]; [done|congruence].
    + assert (Hp : exists t, f = (cur +:+ snd c) +:+ t).
      { clear - E. revert E. generalize (cur +:+ snd c) as x. revert f fs. induction l as [|d l IH]; intros f fs x; cbn [fields_go].
        - case_match; [done|]. intros [= <- _]. exists "". by rewrite str_app_nil_r.
        - case_match; [case_match|].
          + intros _. bool_prop. subst. exists f. done.
          + intros [= <- _]. exists "". by rewrite str_app_nil_r.
          + intros E. destruct (IH _ _ _ E) as [t ->]. exists (snd d +:+ t). by rewrite str_app_assoc. }
      destruct Hp as [t Ht]. assert (Hs : is_ascii (snd c) = true).
      { rewrite Ht, !is_ascii_app in Hf. bool_prop. done. }
      destruct Hc as [(a & Ha & ->)|[_ Hno]]; [|congruence]. cbn [fst snd] in *. rewrite encode_ascii by done.
      rewrite <- str_app_assoc. eapply IH; [exact E|done|]. left. by intros [_ ?]%str_app_nil.
Qed.

(** ** Values *)
Lemma scan_all_digits s : forall acc v, digits_value acc s = Some v -> scan_digits acc (chunks s) = (v, []).
Proof.
  induction s as [|a s IH]; intros acc v; cbn [digits_value]; [by intros [= <-]|]. destruct (is_digit a) eqn:E; [|done]. intros Hv.
  unfold is_digit in E. bool_prop. rewrite chunks_cons_ascii by lia. cbn [scan_digits fst]. unfold rune_digit.
  rewrite !(proj2 (Z.leb_le _ _)) by done. cbn [andb]. by apply IH.
Qed.
Lemma not_space_range r : 33 <= r <= 126 -> (r =? 10) = false /\ IsSpace r = false.
Proof.
  intros Hr. split; [by apply Z.eqb_neq; lia|]. unfold IsSpace.
  repeat (apply orb_false_iff; split); try (apply andb_false_iff); rewrite ?Z.leb_gt, ?Z.eqb_neq; lia.
Qed.
(** Where both readers succeed on a number they agree. *)
Lemma Sscanf_d_agrees s v v' : parseUint16Field s = Ok v -> Sscanf_d s = Some v' -> v' = v.
Proof.
  unfold parseUint16Field, Atoi, Sscanf_d, scan_uint16. destruct s as [|a s]; [done|].
  destruct (Z.eqb_spec (byte a) 45) as [Ha|_]; [|destruct (Z.eqb_spec (byte a) 43) as [Ha|_]]; cbv beta iota zeta.
  1,2: intros _; rewrite chunks_cons_ascii by lia; cbn [skip_spaces fst]; destruct (not_space_range (byte a) ltac:(lia)) as [-> ->]; cbn [mbind option_bind]; unfold rune_digit; cbn [fst]; by rewrite Ha.
  destruct (digits_value 0 (String a s)) as [z|] eqn:Ed; [|done]. cbn [String.eqb].
  assert (Ha : is_digit a = true) by (cbn in Ed; by destruct (is_digit a)). unfold is_digit in Ha. bool_prop.
  pose proof (digits_nonneg _ _ _ (Z.le_refl 0) Ed). destruct ((MinInt64 <=? z) && (z <=? MaxInt64)); [|done].
  destruct ((z <? 0) || (65535 <? z)) eqn:Er; [done|]. bool_prop. intros [= <-]. pose proof (scan_all_digits _ _ _ Ed) as Hs.
  rewrite chunks_cons_ascii in * by lia. cbn [skip_spaces fst]. destruct (not_space_range (byte a) ltac:(lia)) as [-> ->]. cbn [mbind option_bind].
  unfold rune_digit. cbn [fst]. rewrite !(proj2 (Z.leb_le _ _)) by done. cbn [andb]. rewrite Hs. case_match; [done|]. cbn. intros [= <-].
  symmetry. apply wrapN_id. unfold in_range. change (2 ^ 16) with 65536. lia.
Qed.

Lemma target_ascii n : ValidateDomainTarget n = Ok tt -> is_ascii n = true.
Proof.
  unfold ValidateDomainTarget. destruct (n =? "@")%string; [done|]. rewrite ValidateDomainName_spec. intros [->|[->|(_ & ls & _ & Hls & Hn)]]; [done..|].
  pose proof (dotted_ascii _ Hls) as Ha. destruct Hn as [->| ->]; [done|]. by rewrite is_ascii_app, Ha.
Qed.

Lemma Sscanf_srv_agrees value r t : ParseSRVValue value = Ok r -> ValidateDomainTarget (srv_Target r) = Ok tt -> Sscanf_dddS value = Some t ->
  t = (srv_Priority r, srv_Weight r, srv_Port r, srv_Target r).
Proof.
  unfold ParseSRVValue, Fields, Sscanf_dddS. pose proof (chunks_ascii_or value) as Hw. revert Hw. generalize (chunks value) as l0. intros l0 Hw Hp Ht.
  destruct (scan_uint16 l0) as [[a l1]|] eqn:E1; [|done]. destruct (scan_uint16_spec _ _ _ Hw E1) as (Hw1 & f1 & Hf1 & Hp1 & Hl0). cbn [mbind option_bind].
  destruct (scan_blank l1) as [l2|] eqn:E2; [|done]. destruct (scan_blank_spec _ _ E2) as (Hs1 & Hl1 & Hw2). specialize (Hw2 Hw1). cbn [mbind option_bind].
  destruct (scan_uint16 l2) as [[b l3]|] eqn:E3; [|done]. destruct (scan_uint16_spec _ _ _ Hw2 E3) as (Hw3 & f2 & Hf2 & Hp2 & Hl2). cbn [mbind option_bind].
  destruct (scan_blank l3) as [l4|] eqn:E4; [|done]. destruct (scan_blank_spec _ _ E4) as (Hs3 & Hl3 & Hw4). specialize (Hw4 Hw3). cbn [mbind option_bind].
  destruct (scan_uint16 l4) as [[c l5]|] eqn:E5; [|done]. destruct (scan_uint16_spec _ _ _ Hw4 E5) as (Hw5 & f3 & Hf3 & Hp3 & Hl4). cbn [mbind option_bind].
  destruct (scan_blank l5) as [l6|] eqn:E6; [|done]. destruct (scan_blank_spec _ _ E6) as (Hs5 & Hl5 & Hw6). specialize (Hw6 Hw5). cbn [mbind option_bind].
  unfold scan_word. destruct (skip_spaces l6) as [l7|] eqn:E7; [|done]. destruct (skip_spaces_spec _ _ E7) as (Hl6 & Hw7 & Hh7). specialize (Hw7 Hw6). cbn [mbind option_bind].
  rewrite Hl0, fields_end, Hl1, Hl2, fields_end, Hl3, Hl4, fields_end, Hl5, Hl6 in Hp by done.
  destruct l7 as [|c7 l7]; [done|]. destruct (fields_go "" (c7 :: l7)) as [|f4 [|]] eqn:E8; try done. rewrite Hp1, Hp2, Hp3 in Hp. cbn [rbind replace_err] in Hp. injection Hp as <-.
  cbn [srv_Target srv_Priority srv_Weight srv_Port] in *. cbn [mbind option_bind]. intros [= <-]. f_equal.
  symmetry. apply (take_word_spec _ Hw7 "" f4 [] E8); [by apply target_ascii|]. right. eauto.
Qed.

(** ** Agreement *)
Section agreement.
Context `{UnicodeTables}.

Lemma recordToRR_agrees origin r rr : ValidateRecordValue (rec_Type r) (rec_Value r) = Ok tt -> rec_Type r <> RecordTypeCAA ->
  recordToRR origin r = Ok rr -> convertRecordToRR origin r = Ok rr.
Proof.
  unfold ValidateRecordValue, recordToRR, convertRecordToRR, is_single_name_type. generalize (NormalizeRecordOwnerName (rec_Name r) origin) as owner.
  generalize (rec_Value r) as value. generalize (rec_Type r) as type. intros type value owner Hv Hc. revert Hv.
  destruct (String.eqb_spec type RecordTypeTXT) as [->|_]; [exact (fun _ Hx => Hx)|]. destruct (value =? "")%string; [done|].
  destruct (String.eqb_spec type RecordTypeA) as [->|_]; [by destruct (ParseIP _) as [ip|]; cbn; [destruct (To4 ip)|]|].
  destruct (String.eqb_spec type RecordTypeAAAA) as [->|_]; [by destruct (ParseIP _) as [ip|]; [case_match|]|].
  destruct (String.eqb_spec type RecordTypeNS) as [->|_]; [exact (fun _ Hx => Hx)|].
  destruct (String.eqb_spec type RecordTypeCNAME) as [->|_]; [exact (fun _ Hx => Hx)|].
  destruct (String.eqb_spec type RecordTypeMX) as [->|_].
  - cbn. unfold ValidateMXValue, ParseMXValue. destruct (Fields value) as [|p0 [|p1 [|]]]; try done.
    destruct (parseUint16Field p0) as [v|] eqn:Ep; [|done]. destruct (Sscanf_d p0) as [v'|] eqn:Es; [|done].
    cbn. by rewrite (Sscanf_d_agrees _ _ _ Ep Es).
  - destruct (String.eqb_spec type RecordTypePTR) as [->|_]; [exact (fun _ Hx => Hx)|].
    destruct (String.eqb_spec type RecordTypeSRV) as [->|_]; [|by rewrite (proj2 (String.eqb_neq _ _) Hc)].
    cbn. unfold ValidateSRVValue. destruct (ParseSRVValue value) as [d|] eqn:Ed; [|done]. cbn. intros Hv.
    destruct (Sscanf_dddS value) as [t|] eqn:Es; [|done]. by rewrite (Sscanf_srv_agrees _ _ _ Ed Hv Es).
Qed.

Lemma records_agree origin rs : forall i z rrs, validate_records z i rs = Ok tt -> Forall (fun r => rec_Type r <> RecordTypeCAA) rs ->
  records_to_rrs origin rs = Ok rrs -> convert_records origin rs = Ok rrs.
Proof.
  induction rs as [|r rs IH]; intros i z rrs Hv Hc E; cbn [validate_records records_to_rrs convert_records] in *; [done|].
  inv_ok. inversion_clear Hc as [|? ? Hr Hrs]. subst.
  match goal with Hr : ValidateRecord _ = Ok _ |- _ => unfold ValidateRecord in Hr end. inv_ok.
  erewrite recordToRR_agrees by eassumption. cbn [wrap rbind]. by rewrite (IH _ _ _ Hv Hrs eq_refl).
Qed.

(** C34: What is signed is what is exported: for an accepted zone without CAA
    records, when the signer can read the zone, its records are the SOA and
    records that the zone file generator writes, in the same order, although
    one reads MX and SRV values with [fmt.Sscanf] and the other with the model's
    parsers. *)
Theorem signed_records_exported (zone : Zone) (recs : list dnsRR) :
  ValidateZone (Some zone) = Ok tt -> Forall (fun r => rec_Type r <> RecordTypeCAA) (z_Records zone) ->
  let origin := NormalizeZoneName (z_Name zone) in
  modelToRRs zone origin = Ok recs ->
  exists rrs, convert_records origin (z_Records zone) = Ok rrs /\ recs = zone_soa_rr origin (z_SOA zone) :: rrs.
Proof.
  intros Hv Hc origin E. unfold ValidateZone in Hv. inv_ok. unfold modelToRRs in E. inv_ok. eexists. split; [by eapply records_agree|done].
Qed.
End agreement.

(** ** Values the two read differently *)
#[local] Existing Instance ascii_tables.
Definition mx_record (value : string) : ZRecord := mkRecord "" "@" RecordTypeMX 300 value None.
Definition caa_record (value : string) : ZRecord := mkRecord "" "@" RecordTypeCAA 300 value None.
Definition quoted (s : string) : string := str1 dquote +:+ s +:+ str1 dquote.

(** A signed number in an MX value passes the validation of records and is
    written to zone files, but the signer rejects it, so a zone that can be
    stored cannot be signed. *)
Theorem accepted_mx_not_signed :
  ValidateRecord (Some (mx_record "+10 mail.example.com.")) = Ok tt
  /\ is_ok (convertRecordToRR "example.com." (mx_record "+10 mail.example.com.")) = true
  /\ recordToRR "example.com." (mx_record "+10 mail.example.com.") = Err (Errorf "invalid MX priority: +10").
Proof. split_and!; vm_compute; reflexivity. Qed.

(** A quoted CAA value with two spaces in a row is exported as it is but
    signed with one space. *)
Theorem caa_value_changed_by_signer :
  ValidateRecord (Some (caa_record ("0 issue " +:+ quoted "ca.example.net;  policy=ev"))) = Ok tt
  /\ (let* rr := convertRecordToRR "example.com." (caa_record ("0 issue " +:+ quoted "ca.example.net;  policy=ev")) in Ok (h_data rr))
     = Ok (CAAData 0 "issue" "ca.example.net;  policy=ev")
  /\ (let* rr := recordToRR "example.com." (caa_record ("0 issue " +:+ quoted "ca.example.net;  policy=ev")) in Ok (h_data rr))
     = Ok (CAAData 0 "issue" "ca.example.net; policy=ev").
Proof. split_and!; vm_compute; reflexivity. Qed.

Definition agreement_zone : Zone := mkZone "Example.com" "v1" (DefaultSOA "ns1" "hostmaster.example.com.")
  [mkRecord "" "@" RecordTypeNS 300 "ns1" None; mkRecord "" "ns1" RecordTypeA 300 "192.0.2.1" None;
   mkRecord "" "@" RecordTypeMX 300 "10  mail" None; mkRecord "" "_sip._tcp" RecordTypeSRV 300 " 1 2	5060 sip" None] None 0 0.
Lemma signed_records_exported_witness :
  exists recs rrs, modelToRRs agreement_zone "example.com." = Ok recs /\ length recs = 5%nat
    /\ convert_records "example.com." (z_Records agreement_zone) = Ok rrs
    /\ recs = zone_soa_rr "example.com." (z_SOA agreement_zone) :: rrs.
Proof.
  eexists. destruct (signed_records_exported agreement_zone _ ltac:(vm_compute; reflexivity) ltac:(repeat constructor; discriminate)
    ltac:(vm_compute; reflexivity)) as (rrs & Hr & E).
  exists rrs. split; [vm_compute; reflexivity|]. split; [reflexivity|]. split; [exact Hr|exact E].
Defined.
