(* ===== verification/ConfigController.v ===== *)
(** * Validation of the controller's configuration ([pkg/config/loader.go])

    A validator that normalises fields returns the section it leaves behind.
    Loading files and environment variables is the [viper] library's; the
    validators run on the structs it fills.  Go ranges over a map in any order:
    [range] lists the map.  Whether a branch name is valid is the git library's
    decision. *)

From S2P Require Import Prelude GoStrings GoStringsFacts GoSort GoNet Sha256 BindFiles ConfigData.

Definition minArtifactSignatureKeyBytes : Z := 32.
Definition minStatusAuthTokenBytes : Z := 16.
Definition apiKeyRoleAdmin : string := "admin".
Definition apiKeyRoleAgent : string := "agent".

(** ** Shared checks *)
Definition unsafeExecutablePathChar (r : Z) : bool := (r <? 32) || (r =? 127).
Definition validateAbsoluteLocalPath (field path : string) : result unit :=
  let trimmed := TrimSpace path in
  guard_err (trimmed =? "")%string (invalid field "empty") ;;*
  guard_err (negb (trimmed =? path)%string) (invalid field "must not contain surrounding whitespace") ;;*
  guard_err (ContainsFunc path unsafeExecutablePathChar) (invalid field "contains control characters") ;;*
  guard_err (negb (IsAbs path)) (invalid field "must be an absolute path").
Definition validateExecutablePath (field path : string) : result unit := validateAbsoluteLocalPath field path.

Definition unsafeListenHostChar (r : Z) : bool := (r <=? 32) || (r =? 127).
Definition valid_port (port : string) : bool :=
  match Atoi port with Some n => (1 <=? n) && (n <=? 65535) | None => false end.
Definition validateListenAddress (field listen : string) : result unit :=
  match SplitHostPort listen with
  | None => Err (invalid field "must be in host:port format")
  | Some (host, port) =>
    guard_err (ContainsFunc host unsafeListenHostChar) (invalid field "host contains unsafe characters") ;;*
    guard_err (negb (valid_port port)) (invalid field "port must be between 1 and 65535")
  end.
Definition isPlaceholderSecret (value : string) : bool :=
  let value := TrimSpace value in
  UpperContains value "REPLACE" || UpperContains value "CHANGEME" || UpperContains value "CHANGE_ME" || UpperContains value "TODO".

Definition trim_brackets (host : string) : string :=
  let cut := fun c => Ascii.eqb c lbracket || Ascii.eqb c rbracket in
  let fix left s := match s with String c t => if cut c then left t else s | EmptyString => s end in
  let fix right s := match s with
                     | EmptyString => ""
                     | String c t => let r := right t in if (r =? "")%string && cut c then "" else String c r
                     end in
  right (left host).
Definition isLoopbackHost (host : string) : bool :=
  let host := trim_brackets host in
  if EqualFoldASCII host "localhost" then true
  else match ParseIP host with Some ip => IsLoopback ip | None => false end.
Definition isLoopbackListenEndpoint (listen : string) : bool :=
  match SplitHostPort (TrimSpace listen) with Some (host, _) => isLoopbackHost host | None => false end.
Definition isWildcardListenHost (host : string) : bool :=
  let host := trim_brackets host in
  (host =? "")%string || (host =? "0.0.0.0")%string || (host =? "::")%string.

Definition validateArtifactSignatureKey (field key : string) (required : bool) : result unit :=
  let value := TrimSpace key in
  if (value =? "")%string then guard_err required (invalid field "required for artifact signature verification")
  else
    guard_err (isPlaceholderSecret value) (invalid field "replace placeholder value with a generated shared secret") ;;*
    guard_err (len value <? minArtifactSignatureKeyBytes) (invalid field ("must be at least " +:+ Itoa minArtifactSignatureKeyBytes +:+ " bytes")).
Definition key_id_rune (r : Z) : bool :=
  ((97 <=? r) && (r <=? 122)) || ((48 <=? r) && (r <=? 57)) || (r =? 45) || (r =? 95) || (r =? 46).

Definition validateLoggingOutputPath (field output : string) : result unit :=
  let trimmed := TrimSpace output in
  if (trimmed =? "")%string then Ok tt
  else if negb (trimmed =? output)%string then Err (invalid field "must not contain surrounding whitespace")
  else if (output =? "stdout")%string || (output =? "stderr")%string then Ok tt
  else validateAbsoluteLocalPath field output.

Section validators.
Context `{UnicodeTables, UnicodeFold, NetUrl} (valid_branch : string -> bool) (range : gmap string string -> list (string * string)).

Definition normalizeArtifactSignatureKeyID (field keyID : string) : result string :=
  let value := ToLower (TrimSpace keyID) in
  if (value =? "")%string then Ok ""
  else if forallb (fun c => key_id_rune (fst c)) (chunks value) then Ok value
  else Err (invalid field "must contain only letters, digits, dash, underscore, or dot").

Definition validateLoggingFormat (field format : string) : result unit :=
  let value := ToLower (TrimSpace format) in
  guard_err (negb ((value =? "")%string || (value =? "json")%string || (value =? "console")%string)) (invalid field (format +:+ " (must be json or console)")).
Definition validateLoggingConfig (cfg : LoggingConfig) : result unit :=
  guard_err (negb (bool_decide (lg_Level cfg ∈ ["debug"; "info"; "warn"; "error"])))
    (invalid "logging.level" (lg_Level cfg +:+ " (must be one of: debug, info, warn, error)")) ;;*
  validateLoggingFormat "logging.format" (lg_Format cfg) ;;*
  validateLoggingOutputPath "logging.output" (lg_Output cfg).

(** ** The API section *)
Definition validateObservabilityAuthConfig (o : ObservabilityConfig) : result ObservabilityConfig :=
  let token := TrimSpace (obs_AuthToken o) in
  (if negb (token =? "")%string then
     guard_err (isPlaceholderSecret token) (invalid "observability.auth_token" "replace placeholder value with a generated observability token") ;;*
     guard_err (len token <? minStatusAuthTokenBytes) (invalid "observability.auth_token" ("must be at least " +:+ Itoa minStatusAuthTokenBytes +:+ " bytes"))
   else Ok tt) ;;*
  guard_err (negb (isLoopbackListenEndpoint (obs_Listen o)) && (token =? "")%string)
    (invalid "observability.auth_token" "required when observability.listen is not loopback") ;;*
  Ok (mkObservability (obs_Listen o) token).

Definition listenEndpointsOverlap (a b : string) : bool :=
  let a := TrimSpace a in
  let b := TrimSpace b in
  match SplitHostPort a, SplitHostPort b with
  | Some (aHost, aPort), Some (bHost, bPort) =>
    if negb (aPort =? bPort)%string then false
    else isWildcardListenHost aHost || isWildcardListenHost bHost || EqualFold aHost bHost
  | _, _ => (a =? b)%string
  end.

Definition normalize_proxy (i : nat) (proxy : string) : result string :=
  let field := "api.trusted_proxies[" +:+ Itoa (Z.of_nat i) +:+ "]" in
  let value := TrimSpace proxy in
  if (value =? "")%string then Err (invalid field "empty")
  else if Contains value "/" then
    match ParseCIDR value with
    | None => Err (invalid field (proxy +:+ " is not a valid CIDR"))
    | Some ones => if ones =? 0 then Err (invalid field "must not trust all addresses") else Ok value
    end
  else
    match ParseIP value with
    | None => Err (invalid field (proxy +:+ " is not a valid IP address or CIDR"))
    | Some ip => if IsUnspecified ip then Err (invalid field "must not be an unspecified address") else Ok value
    end.
Fixpoint normalize_proxies (i : nat) (proxies : list string) : result (list string) :=
  match proxies with
  | [] => Ok []
  | proxy :: proxies =>
    let* value := normalize_proxy i proxy in
    let* rest := normalize_proxies (S i) proxies in
    Ok (value :: rest)
  end.
Definition normalizeTrustedProxies (trustedProxies : list string) : result (list string) := normalize_proxies 0 trustedProxies.

Definition normalizeSHA256APIKeyHash (hash : string) : option string :=
  match strip_prefix "sha256:" (TrimSpace hash) with
  | None => None
  | Some hexPart =>
    if negb (len hexPart =? 64) then None
    else match hex_DecodeString hexPart with
         | None => None
         | Some _ => Some ("sha256:" +:+ ToLower hexPart)
         end
  end.
(** The keys with normalised hashes; no two may be the same. *)
Fixpoint check_api_keys (seen : gmap string string) (apiKeys : gmap string string) (entries : list (string * string)) : result (gmap string string) :=
  match entries with
  | [] => Ok apiKeys
  | (name, hash) :: entries =>
    if (TrimSpace name =? "")%string then Err (invalid "api.auth.api_keys" "key name must not be empty")
    else
      match normalizeSHA256APIKeyHash hash with
      | None => Err (invalid ("api.auth.api_keys." +:+ name) "expected sha256:<64 hex characters>")
      | Some normalizedHash =>
        match seen !! normalizedHash with
        | Some existingName => Err (invalid ("api.auth.api_keys." +:+ name) ("duplicate hash also used by api.auth.api_keys." +:+ existingName))
        | None => check_api_keys (<[normalizedHash := name]> seen) (<[name := normalizedHash]> apiKeys) entries
        end
      end
  end.
Fixpoint check_roles (apiKeys roles : gmap string string) (entries : list (string * string)) : result (gmap string string) :=
  match entries with
  | [] => Ok roles
  | (name, role) :: entries =>
    let keyName := TrimSpace name in
    if (keyName =? "")%string then Err (invalid "api.auth.api_key_roles" "key name must not be empty")
    else if negb (bool_decide (is_Some (apiKeys !! keyName)))
    then Err (invalid ("api.auth.api_key_roles." +:+ keyName) "role specified for unknown api.auth.api_keys entry")
    else
      let normalizedRole := ToLower (TrimSpace role) in
      if (normalizedRole =? apiKeyRoleAdmin)%string || (normalizedRole =? apiKeyRoleAgent)%string
      then check_roles apiKeys (<[keyName := normalizedRole]> roles) entries
      else Err (invalid ("api.auth.api_key_roles." +:+ keyName) "must be one of: admin, agent")
  end.
(** Roles of the keys that have none: the roles and the names left over. *)
Fixpoint implicit_roles (allow : bool) (roles : gmap string string) (names : list string) : gmap string string * list string :=
  match names with
  | [] => (roles, [])
  | name :: names =>
    match roles !! name with
    | Some _ => implicit_roles allow roles names
    | None =>
      if allow then implicit_roles allow (<[name := apiKeyRoleAdmin]> roles) names
      else let '(roles, missing) := implicit_roles allow roles names in (roles, name :: missing)
    end
  end.
Definition validateControllerAuthConfig (auth : AuthSection) : result AuthSection :=
  if negb (au_Enabled auth) then Ok auth
  else if (size (au_APIKeys auth) =? 0)%nat then Err (invalid "api.auth.api_keys" "at least one API key is required when api.auth.enabled is true")
  else
    let* apiKeys := check_api_keys ∅ (au_APIKeys auth) (range (au_APIKeys auth)) in
    let* roles := check_roles apiKeys ∅ (range (au_APIKeyRoles auth)) in
    let '(roles, missing) := implicit_roles (au_AllowImplicitAdminRoles auth) roles (map fst (range apiKeys)) in
    match sort_Strings missing with
    | name :: _ => Err (invalid "api.auth.api_key_roles" ("missing explicit role for api.auth.api_keys." +:+ name))
    | [] =>
      if existsb (fun e => (snd e =? apiKeyRoleAdmin)%string) (range roles)
      then Ok (mkAuthSection true apiKeys roles (au_AllowImplicitAdminRoles auth))
      else Err (invalid "api.auth.api_key_roles" "at least one admin API key is required when api.auth.enabled is true")
    end.
Definition validateControllerAuthExposure (apiListen : string) (auth : AuthSection) : result unit :=
  if au_Enabled auth then Ok tt
  else if isLoopbackListenEndpoint apiListen then Ok tt
  else Err (invalid "api.auth.enabled" "false is only allowed when api.listen is loopback").
Definition validateControllerRateLimitConfig (cfg : RateLimitConfig) : result unit :=
  if negb (rl_Enabled cfg) then Ok tt
  else
    guard_err (rl_RequestsPerSecond cfg <=? 0) (invalid "api.rate_limit.requests_per_second" "must be positive when rate limiting is enabled") ;;*
    guard_err (rl_Burst cfg <=? 0) (invalid "api.rate_limit.burst" "must be positive when rate limiting is enabled").

Definition validateControllerAPIConfig (api : APISection) (o : ObservabilityConfig) : result (APISection * ObservabilityConfig) :=
  let listen := TrimSpace (api_Listen api) in
  guard_err (listen =? "")%string (invalid "api.listen" "empty") ;;*
  guard_err (TrimSpace (obs_Listen o) =? "")%string (invalid "observability.listen" "empty") ;;*
  let o := mkObservability (TrimSpace (obs_Listen o)) (obs_AuthToken o) in
  validateListenAddress "api.listen" listen ;;*
  validateListenAddress "observability.listen" (obs_Listen o) ;;*
  let* o := validateObservabilityAuthConfig o in
  guard_err (listenEndpointsOverlap listen (obs_Listen o)) (invalid "observability.listen" "must not overlap api.listen") ;;*
  let* trustedProxies := normalizeTrustedProxies (api_TrustedProxies api) in
  let* auth := validateControllerAuthConfig (api_Auth api) in
  validateArtifactSignatureKey "api.artifact_signature_key" (api_ArtifactSignatureKey api) true ;;*
  let* keyID := normalizeArtifactSignatureKeyID "api.artifact_signature_key_id" (api_ArtifactSignatureKeyID api) in
  validateControllerAuthExposure listen auth ;;*
  validateControllerRateLimitConfig (api_RateLimit api) ;;*
  Ok (mkAPISection listen (api_ArtifactSignatureKey api) keyID auth trustedProxies (api_RateLimit api), o).

(** ** Storage and DNSSEC *)
Definition validateControllerStorageConfig (cfg : StorageConfig) : result unit :=
  validateAbsoluteLocalPath "storage.artifact_directory" (st_ArtifactDirectory cfg) ;;*
  if negb (TrimSpace (st_KeyDirectory cfg) =? "")%string then validateAbsoluteLocalPath "storage.key_directory" (st_KeyDirectory cfg) else Ok tt.
Definition validateControllerStorageRetentionConfig (cfg : StorageConfig) : result unit :=
  guard_err (st_MaxVersionsPerZone cfg <? 1) (invalid "storage.max_versions_per_zone" "must be positive").
Definition validateControllerDNSSECConfig (cfg : ControllerConfig) : result unit :=
  let d := cfg_DNSSEC cfg in
  (if negb (TrimSpace (ds_KeyDirectory d) =? "")%string then validateAbsoluteLocalPath "dnssec.key_directory" (ds_KeyDirectory d) else Ok tt) ;;*
  if negb (ds_Enabled d) then Ok tt
  else
    guard_err (DNSSECKeyDirectory cfg =? "")%string (invalid "dnssec.key_directory" "empty when DNSSEC is enabled and storage.key_directory is not set") ;;*
    guard_err (negb ((ds_Algorithm d =? 8) || (ds_Algorithm d =? 13))) (invalid "dnssec.algorithm" (Itoa (ds_Algorithm d) +:+ " (must be 8 or 13)")) ;;*
    guard_err (ds_KSKKeySize d <? 0) (invalid "dnssec.ksk_key_size" "must be non-negative") ;;*
    guard_err (ds_ZSKKeySize d <? 0) (invalid "dnssec.zsk_key_size" "must be non-negative") ;;*
    guard_err (ds_SignatureValidity d <=? 0) (invalid "dnssec.signature_validity" "must be positive") ;;*
    guard_err (ds_SignatureInception d <? 0) (invalid "dnssec.signature_inception" "must be non-negative") ;;*
    guard_err (ds_ResignThreshold d <=? 0) (invalid "dnssec.resign_threshold" "must be positive") ;;*
    guard_err (ds_SignatureValidity d <=? ds_ResignThreshold d) (invalid "dnssec.resign_threshold" "must be less than signature_validity") ;;*
    guard_err (ds_NSEC3SaltLength d <? 0) (invalid "dnssec.nsec3_salt_length" "must be non-negative") ;;*
    guard_err (ds_SchedulerEnabled d && (ds_SchedulerCheckInterval d <=? 0)) (invalid "dnssec.scheduler_check_interval" "must be positive when scheduler is enabled").

Definition set_key_directory (dir : string) (d : DNSSECSection) : DNSSECSection :=
  mkDNSSECSection (ds_Enabled d) (ds_Algorithm d) dir (ds_KSKKeySize d) (ds_ZSKKeySize d) (ds_SignatureValidity d) (ds_SignatureInception d) (ds_ResignThreshold d)
    (ds_NSEC3 d) (ds_NSEC3Iterations d) (ds_NSEC3SaltLength d) (ds_VaultEnabled d) (ds_VaultAddress d) (ds_VaultToken d) (ds_VaultPath d)
    (ds_SchedulerEnabled d) (ds_SchedulerCheckInterval d) (ds_MasterKeyAutoGenerate d).
Definition applyControllerKeyDirectoryAlias (cfg : ControllerConfig) : ControllerConfig :=
  if (TrimSpace (ds_KeyDirectory (cfg_DNSSEC cfg)) =? "")%string && negb (TrimSpace (st_KeyDirectory (cfg_Storage cfg)) =? "")%string
  then mkController (cfg_API cfg) (cfg_Observability cfg) (cfg_Backend cfg) (set_key_directory (st_KeyDirectory (cfg_Storage cfg)) (cfg_DNSSEC cfg)) (cfg_Storage cfg) (cfg_Logging cfg)
  else cfg.
(** The two flags say whether the settings occur in the file or environment. *)
Definition sameConfigPath (a b : string) : bool := (Clean (TrimSpace a) =? Clean (TrimSpace b))%string.
Definition applyControllerKeyDirectoryAliases (storageKeySet dnssecKeySet : bool) (cfg : ControllerConfig) : result ControllerConfig :=
  if storageKeySet && dnssecKeySet && negb (sameConfigPath (st_KeyDirectory (cfg_Storage cfg)) (ds_KeyDirectory (cfg_DNSSEC cfg)))
  then Err (invalid "key_directory" "storage.key_directory and dnssec.key_directory must match when both are set")
  else if storageKeySet && negb dnssecKeySet
  then Ok (mkController (cfg_API cfg) (cfg_Observability cfg) (cfg_Backend cfg) (set_key_directory (st_KeyDirectory (cfg_Storage cfg)) (cfg_DNSSEC cfg)) (cfg_Storage cfg) (cfg_Logging cfg))
  else Ok (applyControllerKeyDirectoryAlias cfg).

(** ** Backends *)
Definition validateControllerSQLPoolConfig (prefix : string) (maxOpenConns maxIdleConns : Z) (connMaxLifetime : Duration) : result unit :=
  guard_err (maxOpenConns <? 0) (invalid (prefix +:+ ".max_open_conns") "must be non-negative") ;;*
  guard_err (maxIdleConns <? 0) (invalid (prefix +:+ ".max_idle_conns") "must be non-negative") ;;*
  guard_err ((0 <? maxOpenConns) && (maxOpenConns <? maxIdleConns)) (invalid (prefix +:+ ".max_idle_conns") "must be less than or equal to max_open_conns when set") ;;*
  guard_err (connMaxLifetime <? 0) (invalid (prefix +:+ ".conn_max_lifetime") "must be non-negative").
Definition validateGitAuthorName (field name : string) : result unit :=
  guard_err (negb (TrimSpace name =? name)%string) (invalid field "must not contain surrounding whitespace") ;;*
  guard_err (ContainsFunc name unsafeExecutablePathChar) (invalid field "contains control characters") ;;*
  guard_err (ContainsAny name "<>") (invalid field "must not contain angle brackets").
Definition validateGitAuthorEmail (field email : string) : result unit :=
  guard_err (ContainsFunc email IsSpace) (invalid field "must not contain whitespace") ;;*
  guard_err (ContainsFunc email unsafeExecutablePathChar) (invalid field "contains control characters") ;;*
  guard_err (ContainsAny email "<>") (invalid field "must not contain angle brackets").
Definition validateGitRemoteURL (field remoteURL : string) : result unit :=
  guard_err (negb (TrimSpace remoteURL =? remoteURL)%string) (invalid field "must not contain surrounding whitespace") ;;*
  guard_err (ContainsFunc remoteURL unsafeExecutablePathChar) (invalid field "contains control characters").
Definition if_set (value : string) (check : result unit) : result unit := if negb (value =? "")%string then check else Ok tt.
Definition validateControllerGitBackendOptions (cfg : GitBackendConfig) : result unit :=
  if_set (git_Branch cfg) (guard_err (negb (valid_branch (git_Branch cfg))) (invalid "backend.git.branch" (git_Branch cfg))) ;;*
  if_set (git_Author cfg) (validateGitAuthorName "backend.git.author" (git_Author cfg)) ;;*
  if_set (git_Email cfg) (validateGitAuthorEmail "backend.git.email" (git_Email cfg)) ;;*
  if_set (git_RemoteURL cfg) (validateGitRemoteURL "backend.git.remote_url" (git_RemoteURL cfg)) ;;*
  guard_err (git_PullInterval cfg <? 0) (invalid "backend.git.pull_interval" "must be non-negative").

(** A query parameter [mode=memory] of a data source name. *)
Definition mode_memory (part : string) : bool :=
  match cut_byte "="%char part with
  | None => false
  | Some (key, value) =>
    EqualFoldASCII (default key (QueryUnescape key)) "mode" && EqualFoldASCII (default value (QueryUnescape value)) "memory"
  end.
Definition sqliteDSNUsesMemoryDatabase (dsn : string) : bool :=
  let memory_path p := EqualFoldASCII p ":memory:" || EqualFoldASCII p "file::memory:" || EqualFoldASCII p "file::memory" in
  match cut_byte "?"%char dsn with
  | None => memory_path dsn
  | Some (pathPart, query) => memory_path pathPart || existsb mode_memory (Split query "&"%char)
  end.
Definition validateSQLiteRuntimeDSN (dsn : string) : result unit :=
  let value := TrimSpace dsn in
  if (value =? "")%string then Ok tt
  else guard_err (sqliteDSNUsesMemoryDatabase value) (invalid "backend.sqlite.dsn" "in-memory SQLite DSNs are not allowed for controller storage").

Definition validateBackendEndpointHostPort (field value : string) : result unit :=
  match SplitHostPort value with
  | None => Err (invalid field "must be in host:port format")
  | Some (host, port) =>
    guard_err (host =? "")%string (invalid field "host must not be empty") ;;*
    guard_err (ContainsFunc host unsafeListenHostChar) (invalid field "host contains unsafe characters") ;;*
    match ParseIP host with
    | Some ip => guard_err (IsUnspecified ip) (invalid field "host must not be an unspecified address")
    | None => guard_err (negb (isValidStubZoneAddress host)) (invalid field "host must be an IP address or DNS hostname")
    end ;;*
    guard_err (negb (valid_port port)) (invalid field "port must be between 1 and 65535")
  end.
Definition endpoint_field (index : nat) : string := "backend.etcd.endpoints[" +:+ Itoa (Z.of_nat index) +:+ "]".
Definition validateEtcdEndpoint (index : nat) (endpoint : string) : result unit :=
  let* hostPort :=
    (if Contains endpoint "://" then
       match url_Parse endpoint with
       | None => Err (invalid (endpoint_field index) "invalid URL")
       | Some parsed =>
         guard_err (negb ((Scheme parsed =? "http")%string || (Scheme parsed =? "https")%string)) (invalid (endpoint_field index) "scheme must be http or https") ;;*
         guard_err (has_User parsed) (invalid (endpoint_field index) "must not include userinfo") ;;*
         Ok (Host parsed)
       end
     else Ok endpoint) in
  validateBackendEndpointHostPort (endpoint_field index) hostPort.
Fixpoint normalize_endpoints (i : nat) (endpoints : list string) : result (list string) :=
  match endpoints with
  | [] => Ok []
  | endpoint :: endpoints =>
    let value := TrimSpace endpoint in
    guard_err (value =? "")%string (invalid (endpoint_field i) "empty") ;;*
    guard_err (ContainsFunc value unsafeExecutablePathChar) (invalid (endpoint_field i) "contains control characters") ;;*
    guard_err (isPlaceholderSecret value) (invalid (endpoint_field i) "replace placeholder value with an etcd endpoint") ;;*
    validateEtcdEndpoint i value ;;*
    let* rest := normalize_endpoints (S i) endpoints in
    Ok (value :: rest)
  end.
Definition validateControllerEtcdRuntimeConfig (cfg : EtcdBackendConfig) : result EtcdBackendConfig :=
  if (length (etcd_Endpoints cfg) =? 0)%nat then Err (invalid "backend.etcd.endpoints" "empty")
  else
    let* endpoints := normalize_endpoints 0 (etcd_Endpoints cfg) in
    guard_err (isPlaceholderSecret (etcd_Password cfg)) (invalid "backend.etcd.password" "replace placeholder value with the etcd password") ;;*
    guard_err (etcd_DialTimeout cfg <? 0) (invalid "backend.etcd.dial_timeout" "must be non-negative") ;;*
    guard_err (etcd_RequestTimeout cfg <? 0) (invalid "backend.etcd.request_timeout" "must be non-negative") ;;*
    Ok (mkEtcdBackend endpoints (etcd_Prefix cfg) (etcd_Username cfg) (etcd_Password cfg) (etcd_DialTimeout cfg) (etcd_RequestTimeout cfg)).
Definition validateControllerBackendDSN (field dsn : string) : result unit :=
  let value := TrimSpace dsn in
  guard_err (value =? "")%string (invalid field "empty") ;;*
  guard_err (negb (value =? dsn)%string) (invalid field "must not contain surrounding whitespace") ;;*
  guard_err (ContainsFunc dsn unsafeExecutablePathChar) (invalid field "contains control characters") ;;*
  guard_err (isPlaceholderSecret value) (invalid field "replace placeholder value with the backend connection string").

Definition validBackendTypes : list string := ["mysql"; "git"; "etcd"; "sqlite"; "postgres"].
Definition ValidateControllerBackendConfig (cfg : BackendConfig) : result unit :=
  guard_err (be_Type cfg =? "")%string (invalid "backend.type" "empty") ;;*
  guard_err (negb (bool_decide (be_Type cfg ∈ validBackendTypes))) (invalid "backend.type" (be_Type cfg +:+ " (must be one of: sqlite, postgres, mysql, git, etcd)")) ;;*
  (if (be_Type cfg =? "postgres")%string then
     validateControllerSQLPoolConfig "backend.postgres" (sql_MaxOpenConns (be_Postgres cfg)) (sql_MaxIdleConns (be_Postgres cfg)) (sql_ConnMaxLifetime (be_Postgres cfg))
   else Ok tt) ;;*
  (if (be_Type cfg =? "mysql")%string then
     validateControllerSQLPoolConfig "backend.mysql" (sql_MaxOpenConns (be_MySQL cfg)) (sql_MaxIdleConns (be_MySQL cfg)) (sql_ConnMaxLifetime (be_MySQL cfg))
   else Ok tt) ;;*
  (if (be_Type cfg =? "sqlite")%string then validateSQLiteRuntimeDSN (be_SQLite_DSN cfg) else Ok tt) ;;*
  if (be_Type cfg =? "git")%string then
    if_set (git_RepositoryPath (be_Git cfg)) (validateAbsoluteLocalPath "backend.git.repository_path" (git_RepositoryPath (be_Git cfg))) ;;*
    validateControllerGitBackendOptions (be_Git cfg)
  else Ok tt.
Definition validateControllerRuntimeBackendConfig (cfg : BackendConfig) : result BackendConfig :=
  if (be_Type cfg =? "postgres")%string then validateControllerBackendDSN "backend.postgres.dsn" (sql_DSN (be_Postgres cfg)) ;;* Ok cfg
  else if (be_Type cfg =? "mysql")%string then validateControllerBackendDSN "backend.mysql.dsn" (sql_DSN (be_MySQL cfg)) ;;* Ok cfg
  else if (be_Type cfg =? "git")%string then
    guard_err (TrimSpace (git_RepositoryPath (be_Git cfg)) =? "")%string (invalid "backend.git.repository_path" "empty") ;;* Ok cfg
  else if (be_Type cfg =? "etcd")%string then
    let* etcd := validateControllerEtcdRuntimeConfig (be_Etcd cfg) in
    Ok (mkBackend (be_Type cfg) (be_SQLite_DSN cfg) (be_Postgres cfg) (be_MySQL cfg) (be_Git cfg) etcd)
  else Ok cfg.

(** ** The whole configuration *)
Definition ValidateControllerConfig (cfg : ControllerConfig) : result ControllerConfig :=
  let* api := validateControllerAPIConfig (cfg_API cfg) (cfg_Observability cfg) in
  ValidateControllerBackendConfig (cfg_Backend cfg) ;;*
  let* backend := validateControllerRuntimeBackendConfig (cfg_Backend cfg) in
  let cfg := applyControllerKeyDirectoryAlias (mkController (fst api) (snd api) backend (cfg_DNSSEC cfg) (cfg_Storage cfg) (cfg_Logging cfg)) in
  validateControllerStorageConfig (cfg_Storage cfg) ;;*
  validateControllerDNSSECConfig cfg ;;*
  validateControllerStorageRetentionConfig (cfg_Storage cfg) ;;*
  validateLoggingConfig (cfg_Logging cfg) ;;*
  Ok cfg.
End validators.
