(* ===== verification/ConfigAgent.v ===== *)
(** * Validation of the agent's configuration ([pkg/config/loader.go])

    A validator that normalises fields returns the section it leaves behind.
    In the messages a value that Go prints with [%q] stands without quotes, and
    the text of the standard library's own errors is left out. *)

From S2P Require Import Prelude GoStrings GoStringsFacts GoNet BindFiles ConfigData ConfigController.

(** [fmt.Errorf("%w suffix", err)]. *)
Definition suffixed (suffix : string) (r : result unit) : result unit :=
  match r with Err (Errorf msg) => Err (Errorf (msg +:+ suffix)) | r => r end.
(** A check per element of a slice, in order. *)
Fixpoint check_each {A} (check : nat -> A -> result unit) (i : nat) (l : list A) : result unit :=
  match l with [] => Ok tt | x :: l => check i x ;;* check_each check (S i) l end.
Definition indexed (prefix : string) (i : nat) (suffix : string) : string := prefix +:+ "[" +:+ Itoa (Z.of_nat i) +:+ "]" +:+ suffix.

(** ** Local daemons *)
Definition validateAgentNSDConfig (cfg : NSDConfig) : result unit :=
  suffixed "; required for zone sync storage" (ValidateNSDRenderedConfigPath "nsd.zone_directory" (nsd_ZoneDirectory cfg)) ;;*
  if negb (nsd_Enabled cfg) then Ok tt
  else
    suffixed " when NSD is enabled" (ValidateNSDRenderedConfigPath "nsd.config_path" (nsd_ConfigPath cfg)) ;;*
    if_set (nsd_ZoneConfigPath cfg) (ValidateNSDRenderedConfigPath "nsd.zone_config_path" (nsd_ZoneConfigPath cfg)) ;;*
    suffixed " when NSD is enabled" (validateExecutablePath "nsd.control_path" (nsd_ControlPath cfg)) ;;*
    suffixed " when NSD is enabled" (validateExecutablePath "nsd.checkzone_path" (nsd_CheckzonePath cfg)) ;;*
    guard_err (nsd_ReloadTimeout cfg <=? 0) (invalid "nsd.reload_timeout" "must be positive when NSD is enabled").
Definition validateAgentUnboundConfig (cfg : UnboundConfig) : result unit :=
  if negb (ub_Enabled cfg) then Ok tt
  else
    suffixed " when Unbound is enabled" (validateAbsoluteLocalPath "unbound.config_path" (ub_ConfigPath cfg)) ;;*
    suffixed " when Unbound is enabled" (validateExecutablePath "unbound.control_path" (ub_ControlPath cfg)) ;;*
    suffixed " when Unbound is enabled" (validateExecutablePath "unbound.checkconf_path" (ub_CheckconfPath cfg)) ;;*
    StubZone_Validate (ub_StubZoneConfig cfg) ;;*
    guard_err (negb (ub_EDNSBufferSize cfg =? 1232)) (invalid "unbound.edns_buffer_size" "must be 1232 for ECMP-safe DNSSEC responses") ;;*
    guard_err (ub_ReloadTimeout cfg <=? 0) (invalid "unbound.reload_timeout" "must be positive when Unbound is enabled").

(** ** BIRD *)
Definition isBIRDIdentifierFirstChar (r : Z) : bool := (r =? 95) || ((65 <=? r) && (r <=? 90)) || ((97 <=? r) && (r <=? 122)).
Definition isBIRDIdentifierChar (r : Z) : bool := isBIRDIdentifierFirstChar r || ((48 <=? r) && (r <=? 57)).
Definition validateBIRDIdentifier (field name : string) : result unit :=
  match chunks name with
  | [] => Err (invalid field "empty")
  | (r, _) :: rest =>
    guard_err (negb (isBIRDIdentifierFirstChar r)) (invalid field (name +:+ " must start with a letter or underscore")) ;;*
    guard_err (negb (forallb (fun c => isBIRDIdentifierChar (fst c)) rest)) (invalid field (name +:+ " must contain only letters, digits, and underscores"))
  end.
Definition validateBIRDProtocolIdentifiers (cfg : BIRDConfig) : result unit :=
  match bird_Protocols cfg, bird_ProtocolNames cfg with
  | (_ :: _) as protocols, _ => check_each (fun i p => validateBIRDIdentifier (indexed "bird.protocols" i ".name") (bp_Name p)) 0 protocols
  | [], (_ :: _) as names => check_each (fun i name => validateBIRDIdentifier (indexed "bird.protocol_names" i "") name) 0 names
  | [], [] => if_set (bird_ProtocolName cfg) (validateBIRDIdentifier "bird.protocol_name" (bird_ProtocolName cfg))
  end.
Definition validateBIRDIPAddress (field value : string) : result unit :=
  let trimmed := TrimSpace value in
  guard_err (trimmed =? "")%string (invalid field "empty") ;;*
  guard_err (negb (trimmed =? value)%string) (invalid field "must not contain surrounding whitespace") ;;*
  guard_err (negb (bool_decide (is_Some (ParseIP value)))) (invalid field "must be an IP address").
(** A parsed prefix always has one of the two address families. *)
Definition validateBIRDAnycastPrefixes (prefixes : list string) : result unit :=
  check_each (fun i raw =>
    let value := TrimSpace raw in
    if (value =? "")%string then Ok tt else guard_err (negb (ParsePrefix_ok value)) (invalid (indexed "bird.anycast_prefixes" i "") "invalid prefix")) 0 prefixes.
Definition check_neighbor (prefix address_field asn_field : string) (address : string) (asn : Z) (i : nat) : result unit :=
  validateBIRDIPAddress (indexed prefix i address_field) address ;;*
  guard_err (asn =? 0) (invalid (indexed prefix i asn_field) "must be > 0").
Definition validateAgentBIRDStartupConfig (cfg : BIRDConfig) : result unit :=
  let g := bird_ConfigureOnStart cfg in
  let when_enabled := suffixed " when bird.config.enabled is true" in
  when_enabled (validateAbsoluteLocalPath "bird.config.path" (bg_Path g)) ;;*
  when_enabled (validateBIRDIPAddress "bird.config.router_id" (bg_RouterID g)) ;;*
  guard_err (bg_LocalAS g =? 0) (invalid "bird.config.local_as" "must be > 0 when bird.config.enabled is true") ;;*
  when_enabled (validateBIRDIPAddress "bird.config.source_ip" (bg_SourceIP g)) ;;*
  when_enabled (validateBIRDAnycastPrefixes (bird_AnycastPrefixes cfg)) ;;*
  guard_err ((length (bird_Protocols cfg) =? 0)%nat && (length (bg_Neighbors g) =? 0)%nat)
    (invalid "bird.protocols" "must be non-empty when bird.config.enabled is true (or set bird.config.neighbors for legacy config)") ;;*
  check_each (fun i p => check_neighbor "bird.protocols" ".neighbor_address" ".neighbor_asn" (bp_NeighborAddress p) (bp_NeighborASN p) i) 0 (bird_Protocols cfg) ;;*
  (if (length (bird_Protocols cfg) =? 0)%nat
   then check_each (fun i n => check_neighbor "bird.config.neighbors" ".address" ".asn" (nb_Address n) (nb_ASN n) i) 0 (bg_Neighbors g)
   else Ok tt) ;;*
  guard_err (bfd_Enabled (bg_BFD g) && (bfd_Multiplier (bg_BFD g) <? 1)) (invalid "bird.config.bfd.multiplier" "must be >= 1").
Definition validateAgentBIRDConfig (cfg : BIRDConfig) : result unit :=
  let m := bird_StateMachine cfg in
  if negb (bird_Enabled cfg) then Ok tt
  else
    suffixed " when BIRD is enabled" (validateAbsoluteLocalPath "bird.socket_path" (bird_SocketPath cfg)) ;;*
    guard_err ((length (bird_Protocols cfg) =? 0)%nat && (bird_ProtocolName cfg =? "")%string && (length (bird_ProtocolNames cfg) =? 0)%nat)
      (invalid "bird.protocols" "empty when BIRD is enabled (or set bird.protocol_names/protocol_name)") ;;*
    validateBIRDProtocolIdentifiers cfg ;;*
    guard_err (bird_CommandTimeout cfg <=? 0) (invalid "bird.command_timeout" "must be positive when BIRD is enabled") ;;*
    guard_err (bsm_FailureThreshold m <? 1) (invalid "bird.state_machine.failure_threshold" "must be >= 1") ;;*
    guard_err (bsm_RecoveryThreshold m <? 1) (invalid "bird.state_machine.recovery_threshold" "must be >= 1") ;;*
    guard_err (bsm_MinStateDuration m <? 0) (invalid "bird.state_machine.min_state_duration" "must be >= 0") ;;*
    if bg_Enabled (bird_ConfigureOnStart cfg) then validateAgentBIRDStartupConfig cfg else Ok tt.

(** ** dnstap, health checks and metrics *)
Definition validateDNSTapLogRotationConfig (cfg : LogRotationConfig) : result unit :=
  guard_err (rot_MaxSize cfg <? 0) (invalid "dnstap.log_rotation.max_size" "must be non-negative") ;;*
  guard_err (rot_MaxAge cfg <? 0) (invalid "dnstap.log_rotation.max_age" "must be non-negative") ;;*
  guard_err (rot_MaxBackups cfg <? 0) (invalid "dnstap.log_rotation.max_backups" "must be non-negative").
Definition validateAgentDNSTapConfig (cfg : DNSTapConfig) : result unit :=
  if negb (tap_Enabled cfg) then Ok tt
  else
    wrap "invalid dnstap.socket_path" (ValidateDNSTapSocketPath (tap_SocketPath cfg)) ;;*
    if_set (tap_LogFile cfg) (validateAbsoluteLocalPath "dnstap.log_file" (tap_LogFile cfg) ;;* validateDNSTapLogRotationConfig (tap_LogRotation cfg)) ;;*
    wrap "invalid dnstap.socket_mode" (SocketFileMode cfg) ;;*
    guard_err (tap_SampleRate cfg <=? 0) (invalid "dnstap.sample_rate" "must be positive when DNSTap is enabled") ;;*
    guard_err (tap_BufferSize cfg <=? 0) (invalid "dnstap.buffer_size" "must be positive when DNSTap is enabled").

Definition validateHealthServerAddress (field address : string) : result unit :=
  let value := TrimSpace address in
  if (value =? "")%string then Ok tt
  else
    guard_err (negb (value =? address)%string) (invalid field "must not contain surrounding whitespace") ;;*
    match SplitHostPort value with
    | None => Err (invalid field "must be in host:port format")
    | Some (host, port) =>
      guard_err (host =? "")%string (invalid field "host must not be empty") ;;*
      guard_err (ContainsFunc host unsafeListenHostChar) (invalid field "host contains unsafe characters") ;;*
      match ParseIP host with
      | Some ip => guard_err (IsUnspecified ip) (invalid field "host must not be an unspecified address")
      | None => guard_err (negb (isValidStubZoneAddress host)) (invalid field "host must be an IP address or DNS hostname")
      end ;;*
      guard_err (negb (valid_port port)) (invalid field "port must be between 1 and 65535")
    end.
Definition healthTestRecordNeedsZone (record : string) : bool :=
  let record := TrimSpace record in
  negb (record =? "")%string && negb (HasSuffix record ".").
Definition validateAgentHealthConfig (cfg : HealthConfig) (nsdEnabled unboundEnabled birdEnabled : bool) : result unit :=
  guard_err (hl_CheckInterval cfg <=? 0) (invalid "health.check_interval" "must be positive") ;;*
  guard_err (hl_QueryTimeout cfg <=? 0) (invalid "health.query_timeout" "must be positive") ;;*
  guard_err (hl_LatencyThreshold cfg <=? 0) (invalid "health.latency_threshold" "must be positive") ;;*
  guard_err (hl_FailureThreshold cfg <=? 0) (invalid "health.failure_threshold" "must be positive") ;;*
  guard_err (hl_RecoveryThreshold cfg <=? 0) (invalid "health.recovery_threshold" "must be positive") ;;*
  (if nsdEnabled then validateHealthServerAddress "health.nsd_server" (hl_NSDServer cfg) else Ok tt) ;;*
  (if unboundEnabled then validateHealthServerAddress "health.unbound_server" (hl_UnboundServer cfg) else Ok tt) ;;*
  if negb birdEnabled then Ok tt
  else
    guard_err (negb nsdEnabled && negb unboundEnabled) (invalid "bird.enabled" "requires nsd.enabled or unbound.enabled for DNS health checks") ;;*
    guard_err (TrimSpace (hl_TestRecord cfg) =? "")%string (invalid "health.test_record" "required when BIRD is enabled") ;;*
    guard_err (healthTestRecordNeedsZone (hl_TestRecord cfg) && (TrimSpace (hl_TestZone cfg) =? "")%string)
      (invalid "health.test_zone" "required when health.test_record is relative and BIRD is enabled").

Definition normalizeHTTPPath (path defaultPath : string) : string :=
  let path := TrimSpace path in
  if (path =? "")%string then defaultPath else if negb (HasPrefix path "/") then "/" +:+ path else path.
Definition isReservedAgentStatusPath (path : string) : bool :=
  (path =? "/health")%string || (path =? "/ready")%string || (path =? "/status")%string.
Definition validateAgentMetricsConfig (metrics : MetricsConfig) : result MetricsConfig :=
  let listen := TrimSpace (mt_Listen metrics) in
  guard_err (listen =? "")%string (invalid "metrics.listen" "empty") ;;*
  validateListenAddress "metrics.listen" listen ;;*
  let token := TrimSpace (mt_AuthToken metrics) in
  (if negb (token =? "")%string then
     guard_err (isPlaceholderSecret token) (invalid "metrics.auth_token" "replace placeholder value with a generated status token") ;;*
     guard_err (len token <? minStatusAuthTokenBytes) (invalid "metrics.auth_token" ("must be at least " +:+ Itoa minStatusAuthTokenBytes +:+ " bytes"))
   else Ok tt) ;;*
  guard_err (negb (isLoopbackListenEndpoint listen) && (token =? "")%string)
    (invalid "metrics.auth_token" "required when metrics.listen is not loopback; bind metrics.listen to 127.0.0.1 or set metrics.auth_token") ;;*
  if mt_Enabled metrics then
    let path := normalizeHTTPPath (mt_Path metrics) "/metrics" in
    guard_err (ContainsAny path ":*") (invalid "metrics.path" "must be a static HTTP path without ':' or '*'") ;;*
    guard_err (isReservedAgentStatusPath path) (invalid "metrics.path" ("conflicts with reserved status endpoint " +:+ path)) ;;*
    Ok (mkMetrics true listen path token)
  else Ok (mkMetrics false listen (mt_Path metrics) token).
Definition validateAgentControllerAPIKey (apiKey : string) : result unit :=
  let value := TrimSpace apiKey in
  if (value =? "")%string then Ok tt
  else guard_err (isPlaceholderSecret value) (invalid "controller.api_key" "replace placeholder value with the raw agent API key").

Section validators.
Context `{UnicodeTables, UnicodeFold, NetUrl} (range : gmap string string -> list (string * string)).

(** ** The controller client *)
Definition parse_controller_url (url : string) : result URL :=
  match url_Parse url with None => Err (invalid "controller.url" "parse") | Some parsed => Ok parsed end.
Definition normalizeControllerURL (rawURL : string) : result string :=
  let value := TrimSpace rawURL in
  guard_err (value =? "")%string (invalid "controller.url" "empty") ;;*
  let* parsed := parse_controller_url value in
  guard_err (Scheme parsed =? "")%string (invalid "controller.url" "missing scheme (use http or https)") ;;*
  guard_err (Host parsed =? "")%string (invalid "controller.url" "missing host") ;;*
  guard_err (has_User parsed) (invalid "controller.url" "userinfo is not supported") ;;*
  guard_err (negb ((ToLower (Scheme parsed) =? "http")%string || (ToLower (Scheme parsed) =? "https")%string))
    (invalid "controller.url" ("unsupported scheme " +:+ Scheme parsed +:+ " (must be http or https)")) ;;*
  guard_err (negb (RawQuery parsed =? "")%string || negb (Fragment parsed =? "")%string)
    (invalid "controller.url" "query strings and fragments are not supported") ;;*
  Ok (TrimRightByte "/"%char value).
Definition validateAgentControllerAPIKeyTransport (c : ControllerClientConfig) : result unit :=
  if (TrimSpace (cc_APIKey c) =? "")%string || cc_AllowPlaintextAPIKey c then Ok tt
  else
    let* parsed := parse_controller_url (cc_URL c) in
    if negb (EqualFoldASCII (Scheme parsed) "http") then Ok tt
    else if isLoopbackHost (Hostname parsed) then Ok tt
    else Err (invalid "controller.api_key" "plaintext HTTP controller.url is only allowed for loopback hosts; use https or set controller.allow_plaintext_api_key=true for an intentionally trusted transport").
Definition validateAgentControllerTLSConfig (c : ControllerClientConfig) : result unit :=
  let tls := cc_TLS c in
  let no_ca := (TrimSpace (tls_CAFile tls) =? "")%string in
  let no_cert := (TrimSpace (tls_CertFile tls) =? "")%string in
  let no_key := (TrimSpace (tls_KeyFile tls) =? "")%string in
  guard_err (tls_ClientAuth tls && negb (tls_Enabled tls)) (invalid "controller.tls.client_auth" "requires controller.tls.enabled") ;;*
  guard_err ((negb no_ca || negb no_cert || negb no_key) && negb (tls_Enabled tls))
    (invalid "controller.tls.enabled" "required when controller.tls.ca_file, cert_file, or key_file is set") ;;*
  (if tls_Enabled tls then
     let* parsed := parse_controller_url (cc_URL c) in
     guard_err (negb (ToLower (Scheme parsed) =? "https")%string) (invalid "controller.tls.enabled" "requires controller.url to use https")
   else Ok tt) ;;*
  guard_err (no_cert && negb no_key) (invalid "controller.tls.cert_file" "empty when controller.tls.key_file is set") ;;*
  guard_err (negb no_cert && no_key) (invalid "controller.tls.key_file" "empty when controller.tls.cert_file is set") ;;*
  guard_err ((negb no_cert || negb no_key) && negb (tls_ClientAuth tls)) (invalid "controller.tls.client_auth" "required when controller.tls.cert_file or key_file is set") ;;*
  (if negb no_ca then validateAbsoluteLocalPath "controller.tls.ca_file" (tls_CAFile tls) else Ok tt) ;;*
  (if negb no_cert then validateAbsoluteLocalPath "controller.tls.cert_file" (tls_CertFile tls) else Ok tt) ;;*
  (if negb no_key then validateAbsoluteLocalPath "controller.tls.key_file" (tls_KeyFile tls) else Ok tt) ;;*
  if negb (tls_ClientAuth tls) then Ok tt
  else
    guard_err no_cert (invalid "controller.tls.cert_file" "empty when controller.tls.client_auth is true") ;;*
    guard_err no_key (invalid "controller.tls.key_file" "empty when controller.tls.client_auth is true").
Definition set_url (url : string) (c : ControllerClientConfig) : ControllerClientConfig :=
  mkControllerClient url (cc_APIKey c) (cc_AllowPlaintextAPIKey c) (cc_TLS c) (cc_Timeout c) (cc_RetryAttempts c) (cc_RetryDelay c) (cc_MaxResponseBytes c).
Definition validateAgentControllerConfig (cfg : ControllerClientConfig) : result ControllerClientConfig :=
  let* controllerURL := normalizeControllerURL (cc_URL cfg) in
  let cfg := set_url controllerURL cfg in
  guard_err (cc_Timeout cfg <=? 0) (invalid "controller.timeout" "must be greater than 0") ;;*
  guard_err (cc_RetryAttempts cfg <? 0) (invalid "controller.retry_attempts" "must be >= 0") ;;*
  guard_err (cc_RetryDelay cfg <? 0) (invalid "controller.retry_delay" "must be >= 0") ;;*
  guard_err ((0 <? cc_RetryAttempts cfg) && (cc_RetryDelay cfg =? 0))
    (invalid "controller.retry_delay" "must be greater than 0 when controller.retry_attempts is greater than 0") ;;*
  guard_err (cc_MaxResponseBytes cfg <=? 0) (invalid "controller.max_response_bytes" "must be positive") ;;*
  validateAgentControllerAPIKey (cc_APIKey cfg) ;;*
  validateAgentControllerAPIKeyTransport cfg ;;*
  validateAgentControllerTLSConfig cfg ;;*
  Ok cfg.

(** ** Synchronisation *)
Fixpoint normalize_key_ids (field : string) (normalized : gmap string string) (entries : list (string * string)) : result (gmap string string) :=
  match entries with
  | [] => Ok normalized
  | (keyID, key) :: entries =>
    let* normalizedKeyID := normalizeArtifactSignatureKeyID (field +:+ "." +:+ keyID) keyID in
    guard_err (normalizedKeyID =? "")%string (invalid field "key id must not be empty") ;;*
    normalize_key_ids field (<[normalizedKeyID := TrimSpace key]> normalized) entries
  end.
Definition normalizeArtifactSignatureKeys (field : string) (keys : gmap string string) : result (gmap string string) :=
  if (size keys =? 0)%nat then Ok ∅ else normalize_key_ids field ∅ (range keys).
Definition set_signature_keys (key : string) (keys : gmap string string) (public : string) (s : SyncSection) : SyncSection :=
  mkSyncSection (sy_SyncInterval s) (sy_Jitter s) (sy_MaxStaleness s) (sy_BackupVersions s) (sy_MinFreeBytes s) (sy_VerifyChecksums s) (sy_VerifySignatures s) key keys public.
Definition applyAgentSignatureKeyAliases (s : SyncSection) : result SyncSection :=
  let signatureKey := TrimSpace (sy_ControllerSignatureKey s) in
  let legacyPublicKey := TrimSpace (sy_ControllerPublicKey s) in
  let* signatureKeys := normalizeArtifactSignatureKeys "sync.controller_signature_keys" (sy_ControllerSignatureKeys s) in
  Ok (if negb (signatureKey =? "")%string then set_signature_keys signatureKey signatureKeys signatureKey s
      else if negb (legacyPublicKey =? "")%string then set_signature_keys legacyPublicKey signatureKeys legacyPublicKey s
      else set_signature_keys (sy_ControllerSignatureKey s) signatureKeys (sy_ControllerPublicKey s) s).
Definition validateAgentSyncConfig (cfg : SyncSection) : result unit :=
  guard_err (sy_SyncInterval cfg <=? 0) (invalid "sync.sync_interval" "must be positive") ;;*
  guard_err (sy_MaxStaleness cfg <=? 0) (invalid "sync.max_staleness" "must be positive") ;;*
  guard_err (sy_MaxStaleness cfg <? sy_SyncInterval cfg) (invalid "sync.max_staleness" "must be greater than or equal to sync.sync_interval") ;;*
  guard_err (sy_Jitter cfg <? 0) (invalid "sync.jitter" "must be non-negative") ;;*
  guard_err (sy_BackupVersions cfg <? 0) (invalid "sync.backup_versions" "must be non-negative") ;;*
  guard_err (sy_MinFreeBytes cfg <? 0) (invalid "sync.min_free_bytes" "must be non-negative") ;;*
  if negb (sy_VerifySignatures cfg) then Ok tt
  else
    let no_key := (sy_ControllerSignatureKey cfg =? "")%string in
    guard_err (no_key && (size (sy_ControllerSignatureKeys cfg) =? 0)%nat)
      (invalid "sync.controller_signature_key" "required when sync.verify_signatures is true; set sync.controller_signature_key or sync.controller_signature_keys") ;;*
    validateArtifactSignatureKey "sync.controller_signature_key" (sy_ControllerSignatureKey cfg) (negb no_key) ;;*
    check_each (fun _ '(keyID, key) => validateArtifactSignatureKey ("sync.controller_signature_keys." +:+ keyID) key true) 0 (range (sy_ControllerSignatureKeys cfg)).

(** ** The whole configuration *)
Definition validateAgentAuthoritativeConfig (authoritative : string) : result string :=
  let authoritative := ToLower (TrimSpace authoritative) in
  guard_err (authoritative =? "")%string (invalid "authoritative" "empty") ;;*
  guard_err (negb (authoritative =? "nsd")%string) (invalid "authoritative" (authoritative +:+ " (supported: nsd)")) ;;*
  Ok authoritative.
Definition ValidateAgentConfig (cfg : AgentConfig) : result AgentConfig :=
  let* sync := applyAgentSignatureKeyAliases (ag_Sync cfg) in
  let* controller := validateAgentControllerConfig (ag_Controller cfg) in
  let* authoritative := validateAgentAuthoritativeConfig (ag_Authoritative cfg) in
  validateAgentNSDConfig (ag_NSD cfg) ;;*
  validateAgentUnboundConfig (ag_Unbound cfg) ;;*
  validateAgentBIRDConfig (ag_BIRD cfg) ;;*
  validateAgentSyncConfig sync ;;*
  validateAgentDNSTapConfig (ag_DNSTap cfg) ;;*
  let* metrics := validateAgentMetricsConfig (ag_Metrics cfg) in
  validateAgentHealthConfig (ag_Health cfg) (nsd_Enabled (ag_NSD cfg)) (ub_Enabled (ag_Unbound cfg)) (bird_Enabled (ag_BIRD cfg)) ;;*
  validateLoggingConfig (ag_Logging cfg) ;;*
  Ok (mkAgent controller authoritative (ag_NSD cfg) (ag_Unbound cfg) (ag_BIRD cfg) (ag_DNSTap cfg) metrics (ag_Health cfg) sync (ag_Logging cfg)).

(** ** Keys from environment variables

    [environ] lists the variables as [NAME=value]; the maps are those of the
    configuration file. *)
Definition bindControllerAPIKeyEnvVars (environ : list string) (maps : gmap string string * gmap string string) : gmap string string * gmap string string :=
  foldl (fun '(apiKeys, apiKeyRoles) env =>
    match cut_byte "="%char env with
    | None => (apiKeys, apiKeyRoles)
    | Some (name, value) =>
      match strip_prefix "ARCA_DNS_API_AUTH_API_KEYS_" name, strip_prefix "ARCA_DNS_API_AUTH_API_KEY_ROLES_" name with
      | Some keyName, _ => (<[ToLower keyName := value]> apiKeys, apiKeyRoles)
      | None, Some keyName => (apiKeys, <[ToLower keyName := value]> apiKeyRoles)
      | None, None => (apiKeys, apiKeyRoles)
      end
    end) maps environ.
Definition bindAgentSignatureKeyEnvVars (environ : list string) (signatureKeys : gmap string string) : gmap string string :=
  foldl (fun signatureKeys env =>
    match cut_byte "="%char env with
    | None => signatureKeys
    | Some (name, value) =>
      match strip_prefix "ARCA_DNS_SYNC_CONTROLLER_SIGNATURE_KEYS_" name with
      | Some keyID => <[ToLower keyID := value]> signatureKeys
      | None => signatureKeys
      end
    end) signatureKeys environ.
End validators.
