(* ===== verification/ConfigAgentFacts.v ===== *)
(** * What an accepted agent configuration guarantees

    The controller client checks its part of the configuration once more
    ([internal/agent/sync/client.go]), and the daemon builds its components from
    the sections ([cmd/arca-dns-agent/main.go]); an accepted configuration
    passes.  Loading certificates is a parameter of the client. *)

From S2P Require Import Prelude GoStrings GoStringsFacts Utf8 GoNet Regex Sha256 BindFiles BirdState BirdProtocol BirdRoutes SyncClient ConfigData ConfigController ConfigAgent.

(** ** The client's own checks *)
Definition tls_error (msg : string) : error := Errorf ("invalid TLS configuration: " +:+ msg).
Definition unsafeTLSFilePathChar (r : Z) : bool := (r <? 32) || (r =? 127).
Definition validateTLSFilePath (field path : string) : result unit :=
  let trimmed := TrimSpace path in
  guard_err (trimmed =? "")%string (tls_error (field +:+ " is empty")) ;;*
  guard_err (negb (trimmed =? path)%string) (tls_error (field +:+ " must not contain surrounding whitespace")) ;;*
  guard_err (ContainsFunc path unsafeTLSFilePathChar) (tls_error (field +:+ " contains control characters")) ;;*
  guard_err (negb (IsAbs path)) (tls_error (field +:+ " must be an absolute path")).
Definition isLoopbackURLHost (host : string) : bool :=
  let host := trim_brackets host in
  if EqualFoldASCII host "localhost" then true
  else match ParseIP host with Some ip => IsLoopback ip | None => false end.

Section client.
Context `{UnicodeTables, UnicodeFold, NetUrl}.

Definition validateAPIKeyTransport (cfg : ControllerClientConfig) : result unit :=
  if (TrimSpace (cc_APIKey cfg) =? "")%string || cc_AllowPlaintextAPIKey cfg then Ok tt
  else
    match url_Parse (TrimSpace (cc_URL cfg)) with
    | None => Err (Errorf "invalid controller URL")
    | Some parsed =>
      if negb (EqualFoldASCII (Scheme parsed) "http") then Ok tt
      else if isLoopbackURLHost (Hostname parsed) then Ok tt
      else Err (Errorf "invalid controller API key transport: plaintext HTTP is only allowed for loopback hosts; use https or set allow_plaintext_api_key=true for an intentionally trusted transport")
    end.
Definition validateTLSConfig (cfg : ControllerClientConfig) : result unit :=
  validateAPIKeyTransport cfg ;;*
  let tls := cc_TLS cfg in
  let no_ca := (TrimSpace (tls_CAFile tls) =? "")%string in
  let no_cert := (TrimSpace (tls_CertFile tls) =? "")%string in
  let no_key := (TrimSpace (tls_KeyFile tls) =? "")%string in
  (if tls_ClientAuth tls then
     guard_err (negb (tls_Enabled tls)) (tls_error "client_auth requires TLS to be enabled") ;;*
     guard_err no_cert (tls_error "cert_file is required when client_auth is enabled") ;;*
     guard_err no_key (tls_error "key_file is required when client_auth is enabled")
   else Ok tt) ;;*
  guard_err ((negb no_ca || negb no_cert || negb no_key) && negb (tls_Enabled tls)) (tls_error "TLS must be enabled when ca_file, cert_file, or key_file is set") ;;*
  guard_err (no_cert && negb no_key) (tls_error "cert_file is required when key_file is set") ;;*
  guard_err (negb no_cert && no_key) (tls_error "key_file is required when cert_file is set") ;;*
  guard_err ((negb no_cert || negb no_key) && negb (tls_ClientAuth tls)) (tls_error "client_auth is required when cert_file or key_file is set") ;;*
  (if tls_Enabled tls then
     match url_Parse (cc_URL cfg) with
     | None => Err (tls_error "invalid controller URL")
     | Some parsed => guard_err (negb (ToLower (Scheme parsed) =? "https")%string) (tls_error "TLS requires an https controller URL")
     end
   else Ok tt) ;;*
  (if negb no_ca then validateTLSFilePath "ca_file" (tls_CAFile tls) else Ok tt) ;;*
  (if negb no_cert then validateTLSFilePath "cert_file" (tls_CertFile tls) else Ok tt) ;;*
  if negb no_key then validateTLSFilePath "key_file" (tls_KeyFile tls) else Ok tt.
(** [NewClient]; [load_tls] reads the certificates of a configuration with TLS. *)
Definition NewClient (load_tls : TLSConfig -> result unit) (cfg : ControllerClientConfig) : result Client :=
  validateTLSConfig cfg ;;*
  (if tls_Enabled (cc_TLS cfg) then load_tls (cc_TLS cfg) else Ok tt) ;;*
  let maxResponseBytes := if cc_MaxResponseBytes cfg <=? 0 then DefaultControllerClientMaxResponseBytes else cc_MaxResponseBytes cfg in
  Ok (mkClient (TrimRightByte "/"%char (cc_URL cfg)) (cc_APIKey cfg) (cc_RetryAttempts cfg) maxResponseBytes true false "" ∅).
(** The client as [NewSyncer] sets it up. *)
Definition syncer_client (range : gmap string string -> list (string * string)) (cfg : SyncSection) (c : Client) : Client :=
  SetSignatureVerificationKeys (sy_VerifySignatures cfg) (sy_ControllerSignatureKey cfg) (range (sy_ControllerSignatureKeys cfg)) (SetVerifyChecksums (sy_VerifyChecksums cfg) c).
(** The redirects the client follows. *)
Definition sameOrigin (a b : option URL) : bool :=
  match a, b with
  | Some a, Some b => GoNet.EqualFold (Scheme a) (Scheme b) && GoNet.EqualFold (Host a) (Host b)
  | _, _ => false
  end.
End client.

(** ** Components of the daemon *)
Definition route_protocols (cfg : BIRDConfig) : list string :=
  match bird_Protocols cfg with
  | [] => if (length (bird_ProtocolNames cfg) =? 0)%nat && negb (bird_ProtocolName cfg =? "")%string then [bird_ProtocolName cfg] else bird_ProtocolNames cfg
  | protocols => map bp_Name protocols
  end.
Definition state_machine_config (cfg : BIRDConfig) : StateMachineConfig :=
  mkSMConfig (bsm_FailureThreshold (bird_StateMachine cfg)) (bsm_RecoveryThreshold (bird_StateMachine cfg)) (bsm_MinStateDuration (bird_StateMachine cfg)).

(** A key the configuration trusts to sign artifacts. *)
Definition configured_key (s : SyncSection) (key : string) : Prop :=
  (key = TrimSpace (sy_ControllerSignatureKey s) \/ exists id k, sy_ControllerSignatureKeys s !! id = Some k /\ key = TrimSpace k)
  /\ minArtifactSignatureKeyBytes <= len key.

Record AgentReady `{UnicodeTables, NetUrl} (cfg : AgentConfig) : Prop := {
  (* the API key leaves the host in plain text only to loopback, or where the configuration allows it *)
  gr_transport : TrimSpace (cc_APIKey (ag_Controller cfg)) <> "" -> cc_AllowPlaintextAPIKey (ag_Controller cfg) = false ->
    exists u, url_Parse (cc_URL (ag_Controller cfg)) = Some u /\ (EqualFoldASCII (Scheme u) "http" = true -> isLoopbackHost (Hostname u) = true);
  (* the client's own check agrees *)
  gr_client : TrimSpace (cc_URL (ag_Controller cfg)) = cc_URL (ag_Controller cfg) -> validateTLSConfig (ag_Controller cfg) = Ok tt;
  gr_retries : 0 <= cc_RetryAttempts (ag_Controller cfg) /\ (0 < cc_RetryAttempts (ag_Controller cfg) -> 0 < cc_RetryDelay (ag_Controller cfg));
  gr_limits : 0 < cc_Timeout (ag_Controller cfg) /\ 0 < cc_MaxResponseBytes (ag_Controller cfg);
  gr_sync : 0 < sy_SyncInterval (ag_Sync cfg) <= sy_MaxStaleness (ag_Sync cfg) /\ 0 <= sy_Jitter (ag_Sync cfg)
    /\ 0 <= sy_BackupVersions (ag_Sync cfg) /\ 0 <= sy_MinFreeBytes (ag_Sync cfg);
  (* with BIRD enabled the state machine and the route manager can be made, there is a protocol to control and a check to drive it *)
  gr_machine : bird_Enabled (ag_BIRD cfg) = true -> forall now, is_Some (NewStateMachine (state_machine_config (ag_BIRD cfg)) now);
  gr_routes : bird_Enabled (ag_BIRD cfg) = true -> route_protocols (ag_BIRD cfg) <> [] /\ is_ok (NewRouteManager (route_protocols (ag_BIRD cfg))) = true;
  gr_checks : bird_Enabled (ag_BIRD cfg) = true -> (nsd_Enabled (ag_NSD cfg) = true \/ ub_Enabled (ag_Unbound cfg) = true) /\ TrimSpace (hl_TestRecord (ag_Health cfg)) <> "";
  gr_health : 0 < hl_CheckInterval (ag_Health cfg) /\ 0 < hl_FailureThreshold (ag_Health cfg) /\ 0 < hl_RecoveryThreshold (ag_Health cfg);
  (* the dnstap socket is closed to other users, the status server to the network without a token *)
  gr_dnstap : tap_Enabled (ag_DNSTap cfg) = true -> exists mode, SocketFileMode (ag_DNSTap cfg) = Ok mode /\ Z.land mode 7 = 0 /\ Z.land mode 384 = 384;
  gr_metrics : mt_AuthToken (ag_Metrics cfg) = "" -> isLoopbackListenEndpoint (mt_Listen (ag_Metrics cfg)) = true }.

(** ** Protocol names *)
Lemma star_class f s : str_forallb f s = true -> matches (RStar (RClass f)) s.
Proof.
  induction s as [|a s IH]; cbn [str_forallb]; [intros _; constructor|]. intros [Ha Hs]%andb_true_iff.
  apply matches_star_cons. exists "", s. split_and!; [done| |auto]. apply matches_class. by exists a.
Qed.
Lemma identifier_first r : isBIRDIdentifierFirstChar r = true -> r < 128 /\ forall a, byte a = r -> is_ident_start a = true.
Proof.
  unfold isBIRDIdentifierFirstChar, is_ident_start. rewrite !orb_true_iff, !andb_true_iff, !Z.leb_le, Z.eqb_eq. intros Hr. split; [lia|]. intros a ->.
  rewrite !orb_true_iff, !andb_true_iff, !Z.leb_le, Z.eqb_eq. lia.
Qed.
Lemma identifier_rest s : forallb (fun c => isBIRDIdentifierChar (fst c)) (chunks s) = true -> str_forallb (fun c => is_ident_start c || is_digit c) s = true.
Proof.
  induction s as [|a s IH]; [done|]. destruct (chunks (String a s)) as [|[r w] l] eqn:E; [by apply Utf8.chunks_nil in E|]. cbn [forallb fst]. intros [Hr Hl]%andb_true_iff.
  assert (Hc : r < 128 /\ forall b, byte b = r -> is_ident_start b || is_digit b = true).
  { unfold isBIRDIdentifierChar in Hr. apply orb_true_iff in Hr as [[? Hf]%identifier_first|Hr]; [split; [done|]; intros b Hb; by rewrite Hf|].
    rewrite andb_true_iff, !Z.leb_le in Hr. split; [lia|]. intros b Hb. unfold is_digit. apply orb_true_iff. right. rewrite andb_true_iff, !Z.leb_le. lia. }
  destruct Hc as [Hlt Hb]. destruct (first_rune_ascii a s r w l E Hlt) as [Ha ->]. cbn [str_forallb]. by rewrite (Hb a Ha), IH.
Qed.
Lemma identifiers_agree field field' name : ConfigAgent.validateBIRDIdentifier field name = Ok tt -> BirdRoutes.validateBIRDIdentifier field' name = Ok tt.
Proof.
  unfold ConfigAgent.validateBIRDIdentifier, BirdRoutes.validateBIRDIdentifier. destruct name as [|a s]; [done|].
  destruct (chunks (String a s)) as [|[r w] l] eqn:E; [done|]. intros Hv. inv_ok. match goal with E : negb _ = false |- _ => apply negb_false_iff in E end.
  destruct (identifier_first r) as [Hlt Hf]; [by destruct (isBIRDIdentifierFirstChar r)|]. destruct (first_rune_ascii a s r w l E Hlt) as [Ha ->].
  assert (MatchString birdIdentifierRE (String a s) = true) as ->; [|done]. apply MatchString_matches, matches_cat. exists (str1 a), s. split_and!; [done| |].
  - apply matches_class. exists a. split; [done|]. by apply Hf.
  - by apply star_class, identifier_rest.
Qed.
Lemma checked_each {A} (check : nat -> A -> result unit) l : forall i, check_each check i l = Ok tt -> Forall (fun x => exists j, check j x = Ok tt) l.
Proof. induction l as [|x l IH]; intros i; cbn [check_each]; [constructor|]. intros ([] & Hx & Hl)%rbind_ok. constructor; eauto. Qed.
Lemma identifiers_accepted field names : Forall (fun n => exists f, ConfigAgent.validateBIRDIdentifier f n = Ok tt) names -> validateBIRDIdentifiers field names = Ok tt.
Proof. induction 1 as [|n names (f & Hn) _ IH]; cbn [validateBIRDIdentifiers]; [done|]. by rewrite (identifiers_agree f field n Hn). Qed.

Lemma accepted_bird cfg : validateAgentBIRDConfig cfg = Ok tt -> bird_Enabled cfg = true ->
  (forall now, is_Some (NewStateMachine (state_machine_config cfg) now)) /\ route_protocols cfg <> [] /\ is_ok (NewRouteManager (route_protocols cfg)) = true.
Proof.
  unfold validateAgentBIRDConfig. intros Hv Hen. rewrite Hen in Hv. cbn [negb] in Hv.
  repeat (apply rbind_ok in Hv as ([] & ? & Hv)). repeat match goal with E : guard_err _ _ = Ok _ |- _ => apply guard_err_ok in E end. clear Hv. split.
  - intros now. unfold NewStateMachine, ValidateStateMachineConfig, state_machine_config. cbn [FailureThreshold RecoveryThreshold MinStateDuration].
    repeat match goal with E : (_ <? _) = false |- _ => rewrite E; clear E end. cbn. eauto.
  - match goal with E : validateBIRDProtocolIdentifiers _ = Ok _ |- _ => rename E into Hids end.
    match goal with E : (_ && _ && _) = false |- _ => rename E into Hsome end.
    assert (Hf : route_protocols cfg <> [] /\ Forall (fun n => exists f, ConfigAgent.validateBIRDIdentifier f n = Ok tt) (route_protocols cfg)).
    { unfold validateBIRDProtocolIdentifiers, route_protocols in *. destruct (bird_Protocols cfg) as [|p ps]; [destruct (bird_ProtocolNames cfg) as [|n ns]|].
      - cbn [length Nat.eqb andb] in *. destruct (String.eqb_spec (bird_ProtocolName cfg) "") as [E|E]; [by rewrite ?E in Hsome|]. cbn [negb andb]. split; [done|].
        unfold if_set in Hids. rewrite (proj2 (String.eqb_neq _ _) E) in Hids. cbn [negb] in Hids. constructor; [eauto|constructor].
      - cbn [length Nat.eqb andb]. split; [done|]. apply checked_each in Hids. eapply Forall_impl; [exact Hids|]. intros n' (j & Hj). eauto.
      - split; [done|]. apply checked_each in Hids. apply Forall_fmap. eapply Forall_impl; [exact Hids|]. intros p' (j & Hj). cbn. eauto. }
    destruct Hf as [Hne Hf]. split; [done|]. unfold NewRouteManager. by rewrite (identifiers_accepted _ _ Hf).
Qed.

(** ** The client *)
Section client_facts.
Context `{UnicodeTables, NetUrl}.

Lemma tls_path_agree field field' path : validateAbsoluteLocalPath field path = Ok tt -> validateTLSFilePath field' path = Ok tt.
Proof.
  unfold validateAbsoluteLocalPath, validateTLSFilePath, unsafeExecutablePathChar, unsafeTLSFilePathChar.
  destruct (_ =? "")%string; [done|]. destruct (negb (_ =? _)%string); [done|]. cbn [guard_err rbind]. destruct (ContainsFunc _ _); [done|]. cbn [guard_err rbind]. by destruct (negb _).
Qed.
Lemma transport_safe c : validateAgentControllerAPIKeyTransport c = Ok tt -> TrimSpace (cc_APIKey c) <> "" -> cc_AllowPlaintextAPIKey c = false ->
  exists u, url_Parse (cc_URL c) = Some u /\ (EqualFoldASCII (Scheme u) "http" = true -> isLoopbackHost (Hostname u) = true).
Proof.
  unfold validateAgentControllerAPIKeyTransport, parse_controller_url. intros Hv Hk Hp. rewrite (proj2 (String.eqb_neq _ _) Hk), Hp in Hv. cbn [orb] in Hv.
  destruct (url_Parse (cc_URL c)) as [u|]; [|done]. cbn [rbind] in Hv. exists u. split; [done|]. intros Hs. rewrite Hs in Hv. cbn [negb] in Hv. by destruct (isLoopbackHost _).
Qed.
Lemma client_agrees c : validateAgentControllerAPIKeyTransport c = Ok tt -> validateAgentControllerTLSConfig c = Ok tt ->
  TrimSpace (cc_URL c) = cc_URL c -> validateTLSConfig c = Ok tt.
Proof.
  intros Ht Hv Hu. unfold validateTLSConfig. assert (validateAPIKeyTransport c = Ok tt) as ->.
  { revert Ht. unfold validateAgentControllerAPIKeyTransport, validateAPIKeyTransport, parse_controller_url. rewrite Hu. destruct (_ || _); [done|].
    destruct (url_Parse (cc_URL c)); [|done]. cbn [rbind]. destruct (negb _); [done|]. unfold isLoopbackHost, isLoopbackURLHost. by destruct (EqualFoldASCII _ "localhost"); [|destruct (ParseIP _) as [ip|]; [destruct (IsLoopback ip)|]]. }
  revert Hv. unfold validateAgentControllerTLSConfig, parse_controller_url.
  destruct (tls_ClientAuth (cc_TLS c)), (tls_Enabled (cc_TLS c)), (TrimSpace (tls_CertFile (cc_TLS c)) =? "")%string, (TrimSpace (tls_KeyFile (cc_TLS c)) =? "")%string,
    (TrimSpace (tls_CAFile (cc_TLS c)) =? "")%string; cbn [negb andb orb guard_err rbind]; try done;
    destruct (url_Parse (cc_URL c)) as [u|]; cbn [rbind]; try done; destruct (ToLower (Scheme u) =? "https")%string; cbn [negb guard_err rbind]; try done;
    intros Hv; repeat (apply rbind_ok in Hv as ([] & ? & Hv));
    repeat match goal with E : validateAbsoluteLocalPath _ ?p = Ok _ |- context [validateTLSFilePath ?f ?p] => rewrite (tls_path_agree _ f p E); clear E end; done.
Qed.
Lemma accepted_client cfg cfg' : validateAgentControllerConfig cfg = Ok cfg' ->
  validateAgentControllerAPIKeyTransport cfg' = Ok tt /\ validateAgentControllerTLSConfig cfg' = Ok tt
  /\ (0 <= cc_RetryAttempts cfg' /\ (0 < cc_RetryAttempts cfg' -> 0 < cc_RetryDelay cfg')) /\ 0 < cc_Timeout cfg' /\ 0 < cc_MaxResponseBytes cfg'.
Proof.
  unfold validateAgentControllerConfig. intros (url & _ & Hv)%rbind_ok. cbv zeta in Hv. repeat (apply rbind_ok in Hv as ([] & ? & Hv)).
  repeat match goal with E : guard_err _ _ = Ok _ |- _ => apply guard_err_ok in E end. injection Hv as <-.
  repeat match goal with E : (_ <? _) = false |- _ => apply Z.ltb_ge in E | E : (_ <=? _) = false |- _ => apply Z.leb_gt in E end.
  split_and!; try done. intros Hr. match goal with E : (_ && _) = false |- _ => rewrite (proj2 (Z.ltb_lt _ _) Hr) in E; cbn [andb] in E; apply Z.eqb_neq in E end. lia.
Qed.

(** ** Signature keys *)
Context (range : gmap string string -> list (string * string)) (range_perm : forall m, range m ≡ₚ map_to_list m).

Lemma ring_keys entries : forall ring id k, foldl add_key ring entries !! id = Some k -> ring !! id = Some k \/ exists id0 k0, (id0, k0) ∈ entries /\ k = TrimSpace k0.
Proof.
  induction entries as [|[id0 k0] entries IH]; intros ring id k; cbn [foldl]; [by left|]. intros [Hr|(id1 & k1 & Hin & Hk)]%IH.
  - unfold add_key in Hr. cbn [fst snd] in Hr. destruct (_ && _); [|by left]. apply lookup_insert_Some in Hr as [[_ <-]|[_ Hr]]; [|by left].
    right. exists id0, k0. split; [by left|done].
  - right. exists id1, k1. split; [by right|done].
Qed.
Lemma required_key field key : validateArtifactSignatureKey field key true = Ok tt -> minArtifactSignatureKeyBytes <= len (TrimSpace key).
Proof. unfold validateArtifactSignatureKey. destruct (_ =? "")%string; [done|]. intros ([] & _ & Hv%guard_err_ok)%rbind_ok. by apply Z.ltb_ge. Qed.
Lemma trusted_configured s c key : validateAgentSyncConfig range s = Ok tt -> sy_VerifySignatures s = true ->
  trusted_key (syncer_client range s c) key -> configured_key s key.
Proof.
  unfold validateAgentSyncConfig. intros Hv Hs. do 6 apply rbind_ok in Hv as ([] & _ & Hv). rewrite Hs in Hv. cbn [negb] in Hv.
  apply rbind_ok in Hv as ([] & _ & Hv). apply rbind_ok in Hv as ([] & Hsingle & Heach). apply checked_each in Heach. rewrite Forall_forall in Heach.
  intros [[-> Hne]|(id & k & Hk & ->)]; unfold syncer_client, SetSignatureVerificationKeys in *; cbn [signatureKey signatureKeys] in *.
  - rewrite TrimSpace_idem in Hne |- *. split; [by left|]. destruct (String.eqb_spec (sy_ControllerSignatureKey s) "") as [E|E]; [by rewrite E in Hne|].
    cbn [negb] in Hsingle. by apply required_key in Hsingle.
  - apply ring_keys in Hk as [Hk|(id0 & k0 & Hin & ->)]; [by rewrite lookup_empty in Hk|]. rewrite TrimSpace_idem. destruct (Heach _ Hin) as (_ & Hk). split; [|by apply required_key in Hk].
    right. exists id0, k0. split; [|done]. rewrite range_perm in Hin. by apply elem_of_map_to_list.
Qed.
Lemma accepted_sync s : validateAgentSyncConfig range s = Ok tt ->
  0 < sy_SyncInterval s <= sy_MaxStaleness s /\ 0 <= sy_Jitter s /\ 0 <= sy_BackupVersions s /\ 0 <= sy_MinFreeBytes s.
Proof.
  unfold validateAgentSyncConfig. intros Hv. do 6 apply rbind_ok in Hv as ([] & ?%guard_err_ok & Hv). clear Hv. rewrite !Z.ltb_ge, !Z.leb_gt in *. lia.
Qed.
End client_facts.

(** ** The whole configuration *)
Lemma accepted_dnstap cfg : validateAgentDNSTapConfig cfg = Ok tt -> tap_Enabled cfg = true ->
  exists mode, SocketFileMode cfg = Ok mode /\ Z.land mode 7 = 0 /\ Z.land mode 384 = 384.
Proof.
  unfold validateAgentDNSTapConfig. intros Hv Hen. rewrite Hen in Hv. cbn [negb] in Hv. apply rbind_ok in Hv as ([] & _ & Hv). apply rbind_ok in Hv as ([] & _ & Hv).
  apply rbind_ok in Hv as (mode & Hm%wrap_ok & _). exists mode. split; [done|]. unfold SocketFileMode, ParseDNSTapSocketMode in Hm.
  repeat (case_match; try discriminate). injection Hm as <-. rewrite !negb_false_iff, !Z.eqb_eq in *. done.
Qed.
Lemma accepted_metrics cfg cfg' : validateAgentMetricsConfig cfg = Ok cfg' -> mt_AuthToken cfg' = "" -> isLoopbackListenEndpoint (mt_Listen cfg') = true.
Proof.
  unfold validateAgentMetricsConfig. cbv zeta. intros Hv. do 4 apply rbind_ok in Hv as ([] & ? & Hv). match goal with E : guard_err (_ && _) _ = Ok _ |- _ => apply guard_err_ok in E; rename E into Hl end.
  intros Ht. assert (mt_AuthToken cfg' = TrimSpace (mt_AuthToken cfg) /\ mt_Listen cfg' = TrimSpace (mt_Listen cfg)) as [E1 ->].
  { destruct (mt_Enabled cfg); [|by injection Hv as <-]. do 2 apply rbind_ok in Hv as ([] & _ & Hv). by injection Hv as <-. }
  rewrite E1 in Ht. rewrite Ht in Hl. rewrite andb_true_r in Hl. by apply negb_false_iff in Hl.
Qed.
Lemma accepted_health cfg nsd unbound bird : validateAgentHealthConfig cfg nsd unbound bird = Ok tt ->
  (0 < hl_CheckInterval cfg /\ 0 < hl_FailureThreshold cfg /\ 0 < hl_RecoveryThreshold cfg)
  /\ (bird = true -> (nsd = true \/ unbound = true) /\ TrimSpace (hl_TestRecord cfg) <> "").
Proof.
  unfold validateAgentHealthConfig. intros Hv. do 5 apply rbind_ok in Hv as ([] & ?%guard_err_ok & Hv). do 2 apply rbind_ok in Hv as ([] & _ & Hv).
  rewrite !Z.leb_gt in *. split; [done|]. intros ->. cbn [negb] in Hv. do 2 apply rbind_ok in Hv as ([] & ?%guard_err_ok & Hv).
  split; [destruct nsd, unbound; auto; done|by apply String.eqb_neq].
Qed.

Section agent.
Context `{UnicodeTables, UnicodeFold, NetUrl} (range : gmap string string -> list (string * string)).

Lemma validated_agent cfg cfg' : ValidateAgentConfig range cfg = Ok cfg' -> AgentReady cfg' /\ validateAgentSyncConfig range (ag_Sync cfg') = Ok tt.
Proof.
  unfold ValidateAgentConfig. intros (sync & _ & Hv)%rbind_ok. apply rbind_ok in Hv as (controller & Hc & Hv). apply rbind_ok in Hv as (authoritative & _ & Hv).
  apply rbind_ok in Hv as ([] & _ & Hv). apply rbind_ok in Hv as ([] & _ & Hv). apply rbind_ok in Hv as ([] & Hbird & Hv). apply rbind_ok in Hv as ([] & Hsync & Hv).
  apply rbind_ok in Hv as ([] & Htap & Hv). apply rbind_ok in Hv as (metrics & Hm & Hv). apply rbind_ok in Hv as ([] & Hh & Hv). apply rbind_ok in Hv as ([] & _ & [= <-]).
  split; [|done]. destruct (accepted_client _ _ Hc) as (Ht & Htls & Hr & Hl1 & Hl2). destruct (accepted_health _ _ _ _ Hh) as [Hh1 Hh2].
  constructor; cbn [ag_Controller ag_Sync ag_BIRD ag_NSD ag_Unbound ag_Health ag_DNSTap ag_Metrics].
  - by apply transport_safe.
  - by apply client_agrees.
  - done.
  - done.
  - by apply (accepted_sync range).
  - intros Hen. by apply accepted_bird.
  - intros Hen. by apply accepted_bird.
  - done.
  - done.
  - by apply accepted_dnstap.
  - by eapply accepted_metrics.
Qed.

(** C13: An agent configuration that validation accepts is well formed for the
    components the daemon builds from it: the API key travels in plain text only
    to loopback or by explicit permission, the client's own check agrees, and
    retries wait; with BIRD enabled the state machine and route manager are
    created without error from a non-empty list of protocols and some DNS check
    drives them; the dnstap socket is closed to other users, and the status
    server without a token is on loopback. *)
Theorem accepted_agent_config (cfg cfg' : AgentConfig) : ValidateAgentConfig range cfg = Ok cfg' -> AgentReady cfg'.
Proof. intros Hv. by apply validated_agent in Hv as [? _]. Qed.

(** C12: No unsigned zone under an accepted configuration: with
    [sync.verify_signatures] on, whatever the controller and the network answer,
    a zone the configured client returns (or confirms as unchanged) carries in
    the response header the HMAC of its text under a key of the configuration
    that has at least 32 bytes. *)
Theorem accepted_config_artifacts {C : Type} (Do : HttpRequest -> C -> result HttpResponse * C) (Wait : C -> option error * C)
    (url_ok : string -> bool) (ParseBINDZone : string -> string -> result (list parsedRR)) (load_tls : TLSConfig -> result unit)
    (cfg cfg' : AgentConfig) (client : Client) (zoneName currentETag currentBody : string) (c c' : C) (a : SignedZoneArtifact) :
  (forall m, range m ≡ₚ map_to_list m) ->
  ValidateAgentConfig range cfg = Ok cfg' -> sy_VerifySignatures (ag_Sync cfg') = true -> NewClient load_tls (ag_Controller cfg') = Ok client ->
  fetchSignedZoneArtifact Do Wait url_ok ParseBINDZone (syncer_client range (ag_Sync cfg') client) zoneName currentETag currentBody c = (Ok a, c') ->
  exists resp key, configured_key (ag_Sync cfg') key
    /\ base64_DecodeString (signature_payload (Header_Get resp "X-Zone-Signature")) = Some (hmac_sha256 key (if NotModified a then currentBody else Content a))
    /\ exists c0 req, Do req c0 = (Ok resp, c') /\ url req = TrimRightByte "/"%char (cc_URL (ag_Controller cfg')) +:+ "/api/v1/zones/" +:+ PathEscape zoneName +:+ "/signed".
Proof.
  intros Hperm Hv Hs Hn Hf. apply validated_agent in Hv as [_ Hsync]. apply fetch_checked in Hf as (c0 & resp & Hdo & Hnew & Hold).
  assert (Hauth : authentic (syncer_client range (ag_Sync cfg') client) (if NotModified a then currentBody else Content a) (Header_Get resp "X-Zone-Signature")).
  { destruct (NotModified a).
    - destruct (Hold eq_refl) as (_ & _ & _ & _ & _ & Hsig). by apply Hsig.
    - destruct (Hnew eq_refl) as (_ & _ & _ & _ & _ & _ & _ & Hsig). by apply Hsig. }
  destruct Hauth as (key & Hk & Hd). exists resp, key. split; [by apply (trusted_configured range Hperm _ client)|]. split; [done|].
  eexists _, _. split; [exact Hdo|]. cbn [url]. unfold NewClient in Hn. apply rbind_ok in Hn as ([] & _ & Hn). apply rbind_ok in Hn as ([] & _ & [= <-]). done.
Qed.
End agent.

(** ** Witnesses *)
#[local] Existing Instance ascii_tables.
#[local] Existing Instance ascii_fold.
(** A parser that reads only the URL of the example. *)
Definition one_url : NetUrl :=
  {| url_Parse s := if HasPrefix s "https://controller" then Some (mkURL "https" false "controller" "controller" "" "") else None |}.
#[local] Existing Instance one_url.

Definition demo_secret : string := "0123456789abcdef0123456789abcdef".
Definition demo_bird : BIRDConfig := mkBIRD true "/var/run/bird/bird.ctl" [] [mkProtocol "edge_1" "192.0.2.1" 65000] "" [] (5 * Second)
  (mkGeneration false "" "" 0 "" [] (mkBFD false 0 0 0)) (mkBIRDStateMachine 3 3 (30 * Second)).
Definition demo_agent : AgentConfig :=
  let d := DefaultAgentConfig in
  mkAgent (mkControllerClient " https://controller/ " "agent-key" false (mkTLS true "" "" "" false) (30 * Second) 3 (5 * Second) MaxResponseBytesDefault)
    "NSD" (ag_NSD d) (ag_Unbound d) demo_bird (ag_DNSTap d) (ag_Metrics d)
    (mkHealth (10 * Second) 3 5 (30 * Second) (5 * Second) (100 * Millisecond) "127.0.0.1:5353" "127.0.0.1:53" "" "health.example.org.")
    (mkSyncSection (30 * Second) (5 * Second) (5 * Minute) 3 0 true true "" ∅ demo_secret) (ag_Logging d).
Definition accepted_agent (r : result AgentConfig) : AgentConfig := match r with Ok c => c | Err _ => DefaultAgentConfig end.
Definition demo_agent' : AgentConfig := accepted_agent (ValidateAgentConfig map_to_list demo_agent).
Lemma demo_agent_validates : ValidateAgentConfig map_to_list demo_agent = Ok demo_agent'.
Proof. vm_compute. reflexivity. Qed.

Lemma accepted_agent_config_witness : AgentReady demo_agent'.
Proof. apply (accepted_agent_config map_to_list demo_agent demo_agent'). exact demo_agent_validates. Defined.

Definition signed_headers (h : string) : string :=
  if (h =? "X-Zone-Signature")%string then artifactSignature sample_zone demo_secret else sample_headers h.
Definition signed_Do (req : HttpRequest) (c : unit) : result HttpResponse * unit := (Ok (mkHttpResp 200 signed_headers sample_zone None), c).
Definition demo_client : Client := mkClient "https://controller" "agent-key" 3 MaxResponseBytesDefault true false "" ∅.
Lemma accepted_config_artifacts_witness :
  exists resp key, configured_key (ag_Sync demo_agent') key
    /\ base64_DecodeString (signature_payload (Header_Get resp "X-Zone-Signature")) = Some (hmac_sha256 key sample_zone)
    /\ exists c0 req, signed_Do req c0 = (Ok resp, tt) /\ url req = "https://controller/api/v1/zones/example.com./signed".
Proof.
  apply (accepted_config_artifacts map_to_list signed_Do sample_Wait (fun _ => true) sample_parse (fun _ => Ok tt) demo_agent demo_agent' demo_client "example.com." "" "" tt tt sample_artifact).
  - done.
  - exact demo_agent_validates.
  - vm_compute. reflexivity.
  - vm_compute. reflexivity.
  - vm_compute. reflexivity.
Defined.
