(* ===== verification/BirdConfig.v ===== *)
(** * The BIRD configuration an agent generates
    ([internal/agent/bird/configgen.go], [cmd/arca-dns-agent/bird_config.go],
    the start of route control and the status pages in
    [cmd/arca-dns-agent/main.go])

    At start-up the agent renders a snippet with the anycast prefixes and one BGP
    protocol per neighbor, writes it where BIRD includes it from and sends
    [configure]; when BIRD refuses, the snippet is put back as it was.  Then the
    route manager of [BirdRoutes] takes over the protocols.  An accepted
    configuration renders, the protocols of the snippet are the ones the route
    manager controls, and the snippet on disk is the one BIRD took, whatever
    fails. *)

From S2P Require Import Prelude Io GoStrings GoStringsFacts GoSort GoNet Regex Validation ZoneRules Sha256 BirdProtocol BirdState BirdRoutes Health Sync ConfigData Names FileSystem FileManager FileManagerFacts ArtifactCache ArtifactCacheFacts KeyManager KeyManagerFacts NameServers NameServersFacts ConfigController ConfigAgent ConfigAgentFacts.
#[local] Open Scope io_scope.

(** ** Rendering *)
(** [Duration.String]: the digits of a fraction of 10^prec, without trailing
    zeros. *)
Fixpoint fmtFrac (prec : nat) (print : bool) (acc : string) (v : Z) : string * Z :=
  match prec with
  | O => (if print then "." +:+ acc else acc, v)
  | S prec =>
    let digit := v mod 10 in
    let print := print || negb (digit =? 0) in
    fmtFrac prec print (if print then Itoa digit +:+ acc else acc) (v / 10)
  end.
Definition Duration_String (d : Duration) : string :=
  let u := Z.abs d in
  let text :=
    if u =? 0 then "0s"
    else if u <? Second then
      let '(prec, unit) := if u <? 1000 then (0%nat, "ns") else if u <? Millisecond then (3%nat, str1 (chr 194) +:+ str1 (chr 181) +:+ "s") else (6%nat, "ms") in
      let '(frac, v) := fmtFrac prec false "" u in Itoa v +:+ frac +:+ unit
    else
      let '(frac, v) := fmtFrac 9 false "" u in
      let seconds := Itoa (v mod 60) +:+ frac +:+ "s" in
      let minutes := v / 60 in
      if minutes =? 0 then seconds
      else (if minutes / 60 =? 0 then "" else Itoa (minutes / 60) +:+ "h") +:+ Itoa (minutes mod 60) +:+ "m" +:+ seconds in
  if d <? 0 then "-" +:+ text else text.

(** Whether the address of a parsed prefix has four bytes. *)
Definition prefix_Is4 (s : string) : bool := match cut_last "/"%char s with Some (addr, _) => addr_BitLen addr =? 32 | None => false end.
Fixpoint classifyAnycastPrefixes (prefixes : list string) : result (list string * list string) :=
  match prefixes with
  | [] => Ok ([], [])
  | raw :: prefixes =>
    let p := TrimSpace raw in
    if (p =? "")%string then classifyAnycastPrefixes prefixes
    else
      guard_err (negb (ParsePrefix_ok p)) (Errorf ("invalid bird.anycast_prefixes entry " +:+ p)) ;;*
      let* rest := classifyAnycastPrefixes prefixes in
      Ok (if prefix_Is4 p then (p :: fst rest, snd rest) else (fst rest, p :: snd rest))
  end.
(** Names of the protocols and their neighbors. *)
Definition snippet_protocols (cfg : BIRDConfig) : result (list string * list (string * Z)) :=
  match bird_Protocols cfg with
  | (_ :: _) as protocols =>
    validateBIRDIdentifiers "bird.protocols.name" (map bp_Name protocols) ;;*
    Ok (map bp_Name protocols, map (fun p => (bp_NeighborAddress p, bp_NeighborASN p)) protocols)
  | [] =>
    let neighbors := bg_Neighbors (bird_ConfigureOnStart cfg) in
    let baseName := if (bird_ProtocolName cfg =? "")%string then "anycast" else bird_ProtocolName cfg in
    let* names := match bird_ProtocolNames cfg with
                  | [] => BirdRoutes.validateBIRDIdentifier "bird.protocol_name" baseName ;;*
                          Ok (imap (fun i _ => baseName +:+ "_" +:+ Itoa (Z.of_nat i + 1)) neighbors)
                  | names => Ok names
                  end in
    Ok (names, map (fun n => (nb_Address n, nb_ASN n)) neighbors)
  end.
Definition line (s : string) : string := s +:+ NameServers.newline.
Definition bfd_part (g : BIRDConfigGenerationConfig) : string :=
  let bfd := bg_BFD g in
  if negb (bfd_Enabled bfd) then ""
  else
    line "protocol bfd {" +:+ line ("  interface " +:+ quoted "*" +:+ ";")
    +:+ (if 0 <? bfd_MinRx bfd then line ("  min rx interval " +:+ Duration_String (bfd_MinRx bfd) +:+ ";") else "")
    +:+ (if 0 <? bfd_MinTx bfd then line ("  min tx interval " +:+ Duration_String (bfd_MinTx bfd) +:+ ";") else "")
    +:+ line ("  multiplier " +:+ Itoa (if bfd_Multiplier bfd =? 0 then 5 else bfd_Multiplier bfd) +:+ ";") +:+ line "}" +:+ line "".
Definition filter_part (name : string) (prefixes : list string) : string :=
  line ("filter " +:+ name +:+ " {")
  +:+ (if (length prefixes =? 0)%nat then "" else line ("  if net ~ [ " +:+ str_join prefixes ", " +:+ " ] then accept;"))
  +:+ line "  reject;" +:+ line "}" +:+ line "".
Definition routes_part (family : string) (prefixes : list string) : string :=
  if (length prefixes =? 0)%nat then "" else line ("  " +:+ family +:+ ";") +:+ str_concat (map (fun p => line ("  route " +:+ p +:+ " blackhole;")) prefixes).
Definition template_part (g : BIRDConfigGenerationConfig) : string :=
  line "template bgp arca_dns_anycast_template {" +:+ line ("  local as " +:+ Itoa (bg_LocalAS g) +:+ ";") +:+ line ("  source address " +:+ bg_SourceIP g +:+ ";")
  +:+ (if bfd_Enabled (bg_BFD g) then line "  bfd on;" else "")
  +:+ line "  ipv4 { import none; export filter arca_dns_anycast_export_v4; };"
  +:+ line "  ipv6 { import none; export filter arca_dns_anycast_export_v6; };" +:+ line "}" +:+ line "".
Fixpoint protocols_part (names : list string) (neighbors : list (string * Z)) : result string :=
  match names, neighbors with
  | name :: names, (address, asn) :: neighbors =>
    guard_err (negb (bool_decide (is_Some (ParseIP address)))) (Errorf ("invalid neighbor address: " +:+ address)) ;;*
    guard_err (asn =? 0) (Errorf ("invalid neighbor ASN for " +:+ address +:+ ": must be > 0")) ;;*
    let* rest := protocols_part names neighbors in
    Ok (line ("protocol bgp " +:+ name +:+ " from arca_dns_anycast_template {") +:+ line ("  neighbor " +:+ address +:+ " as " +:+ Itoa asn +:+ ";") +:+ line "}" +:+ line "" +:+ rest)
  | _, _ => Ok ""
  end.
Definition RenderAnycastConfig (cfg : BIRDConfig) : result (string * list string) :=
  let g := bird_ConfigureOnStart cfg in
  guard_err (negb (bg_Enabled g)) (Errorf "config generation disabled") ;;*
  guard_err (negb (bool_decide (is_Some (ParseIP (bg_RouterID g))))) (Errorf ("invalid bird.config.router_id: " +:+ bg_RouterID g)) ;;*
  guard_err (negb (bool_decide (is_Some (ParseIP (bg_SourceIP g))))) (Errorf ("invalid bird.config.source_ip: " +:+ bg_SourceIP g)) ;;*
  let* families := classifyAnycastPrefixes (bird_AnycastPrefixes cfg) in
  let v4Prefixes := sort_Strings (fst families) in
  let v6Prefixes := sort_Strings (snd families) in
  let* protocols := snippet_protocols cfg in
  let '(names, neighbors) := protocols in
  validateBIRDIdentifiers "bird.protocol_names" names ;;*
  guard_err (negb (length neighbors =? length names)%nat) (Errorf "bird protocol count must match neighbor count") ;;*
  let* bgp := protocols_part names neighbors in
  Ok (line "# Generated by arca-dns-agent (BIRD anycast snippet). DO NOT EDIT." +:+ line ("router id " +:+ bg_RouterID g +:+ ";") +:+ line ""
      +:+ bfd_part g
      +:+ filter_part "arca_dns_anycast_export_v4" v4Prefixes +:+ filter_part "arca_dns_anycast_export_v6" v6Prefixes
      +:+ line "protocol static arca_dns_anycast {" +:+ routes_part "ipv4" v4Prefixes +:+ routes_part "ipv6" v6Prefixes +:+ line "}" +:+ line ""
      +:+ template_part g +:+ bgp, names).
Example durations : map Duration_String [300 * Millisecond; 1500 * Millisecond; 90 * Second; 3600 * Second; 1500; 0] = ["300ms"; "1.5s"; "1m30s"; "1h0m0s"; "1.5" +:+ str1 (chr 194) +:+ str1 (chr 181) +:+ "s"; "0s"].
Proof. vm_compute. reflexivity. Qed.

(** ** Applying it at start-up *)
Definition birdConfigStatusDisabled : string := "disabled".
Definition birdConfigStatusApplied : string := "applied".
Definition birdConfigStatusUsingExisting : string := "using_existing".
Definition maxBIRDConfigFileSize : Z := 4 * 1024 * 1024.
Record birdConfigRuntimeStatus := mkStatus { bc_Enabled : bool; bc_Status : string; bc_Path : string; bc_Error : string; bc_LastAttempt : Time; bc_LastSuccess : Time }.
Record birdConfigApplyResult := mkApply { ap_Status : birdConfigRuntimeStatus; ap_ProtocolNames : list string }.
Definition newBIRDConfigRuntimeStatus (cfg : BIRDConfig) : birdConfigRuntimeStatus :=
  let enabled := bird_Enabled cfg && bg_Enabled (bird_ConfigureOnStart cfg) in
  mkStatus enabled (if enabled then birdConfigStatusUsingExisting else birdConfigStatusDisabled) (bg_Path (bird_ConfigureOnStart cfg)) "" zeroTime zeroTime.
Definition normalized (s : birdConfigRuntimeStatus) : birdConfigRuntimeStatus :=
  if (bc_Status s =? "")%string then mkStatus (bc_Enabled s) birdConfigStatusDisabled (bc_Path s) (bc_Error s) (bc_LastAttempt s) (bc_LastSuccess s) else s.
Definition usingExisting (s : birdConfigRuntimeStatus) : bool := (bc_Status (normalized s) =? birdConfigStatusUsingExisting)%string.

Definition unsafeBIRDConfigPathChar (r : Z) : bool := (r <? 32) || (r =? 127).
Definition validateBIRDConfigPath (path : string) : result unit :=
  let trimmed := TrimSpace path in
  guard_err (trimmed =? "")%string (Errorf "BIRD config path is empty") ;;*
  guard_err (negb (trimmed =? path)%string) (Errorf ("BIRD config path must not contain surrounding whitespace: " +:+ path)) ;;*
  guard_err (ContainsFunc path unsafeBIRDConfigPathChar) (Errorf ("BIRD config path contains control characters: " +:+ path)) ;;*
  guard_err (negb (IsAbs path)) (Errorf ("BIRD config path must be an absolute path: " +:+ path)).
Definition cleanBIRDConfigPath (path : string) : result string := validateBIRDConfigPath path ;;* Ok (Clean path).

Section apply.
Context (w : World) (configure : nat -> result (option Response)) (now : nat -> Time) (error_text : error -> string).
(** Every routine checks and cleans the path it is given. *)
Definition bird_ensureConfigDirectoryForPath (path : string) : io services (result unit) :=
  path <-? io_ret (cleanBIRDConfigPath path) ; in_dir (Dirname path) (ensure_config_directory w "sync config directory parent").
Definition bird_validateConfigDirectoryIfExistsForPath (path : string) : io services (result unit) :=
  path <-? io_ret (cleanBIRDConfigPath path) ; in_dir (Dirname path) (validateConfigDirectoryIfExistsForPath w).
Definition readRegularBIRDConfigFile (name : string) : io fs (result string) := readRegularConfigFile w "BIRD config file" name maxBIRDConfigFileSize.
(** Nothing when there was no file. *)
Definition readPreviousBIRDConfig (path : string) : io services (result (option string)) :=
  path <-? io_ret (cleanBIRDConfigPath path) ;
  bird_validateConfigDirectoryIfExistsForPath path ;;?
  r <- in_dir (Dirname path) (readRegularBIRDConfigFile (Base path)) ;
  io_ret match r with
         | Ok data => Ok (Some data)
         | Err e => if errors_Is e ErrNotExist then Ok None else Err e
         end.
Definition fill_bird (tmpName data : string) (perm : Z) : io fs (result unit) :=
  filled <- (tmp_Write w tmpName data ;;? tmp_Chmod w tmpName perm ;;? tmp_Sync w) ;
  match filled with
  | Err e => _ <- tmp_Close w ; io_fail e
  | Ok _ => tmp_Close w
  end.
Definition bird_writeFileAtomic (path data : string) (perm : Z) : io services (result unit) :=
  path <-? io_ret (cleanBIRDConfigPath path) ;
  bird_ensureConfigDirectoryForPath path ;;?
  in_dir (Dirname path) (atomic_replace w (fun tmpName => fill_bird tmpName data perm) ("." +:+ Base path +:+ ".tmp-") "" (Base path)).
Definition remove_snippet (name : string) : io fs (result unit) :=
  removed <- os_Remove w name ;
  match removed with
  | Ok _ => config_syncDir w
  | Err e => io_ret (if errors_Is e ErrNotExist then Ok tt else Err e)
  end.
Definition restoreBIRDConfig (path : string) (previousConfig : option string) : io services (result unit) :=
  path <-? io_ret (cleanBIRDConfigPath path) ;
  bird_validateConfigDirectoryIfExistsForPath path ;;?
  match previousConfig with
  | Some data => bird_writeFileAtomic path data 420
  | None => in_dir (Dirname path) (remove_snippet (Base path))
  end.
(** The answer of BIRD; the command is logged with the files as BIRD reads them. *)
Definition configureBIRD : io services (result unit) := fun s =>
  let c := sv_files s in
  let r := match configure (ticks c) with
           | Err e => Err e
           | Ok None => Err (Errorf "empty BIRD configure response")
           | Ok (Some resp) => guard_err (IsError resp) (Errorf ("BIRD configure error " +:+ Itoa (Code resp) +:+ ": " +:+ RawText resp))
           end in
  (r, mkServices (mkCache (root c) (S (ticks c))) (sv_log s ++ [mkCommand ["configure"] (is_ok r) c])).
Definition time_Now : io services Time := fun s => (now (ticks (sv_files s)), mkServices (mkCache (root (sv_files s)) (S (ticks (sv_files s)))) (sv_log s)).
(** What is left to do after [configure] failed with [e]. *)
Definition undo_snippet (path : string) (previous : option string) (e : error) : io services error :=
  restored <- restoreBIRDConfig path previous ;
  match restored, previous with
  | Err e', _ => io_ret (JoinErrs [e; Wrapf "restore previous BIRD config" e'])
  | Ok _, None => io_ret e
  | Ok _, Some _ => r <- configureBIRD ; io_ret match r with Err e' => JoinErrs [e; Wrapf "restore BIRD runtime config" e'] | Ok _ => e end
  end.
Definition write_and_configure (path configText : string) : io services (result unit) :=
  bird_ensureConfigDirectoryForPath path ;;?
  previous <-? readPreviousBIRDConfig path ;
  bird_writeFileAtomic path configText 420 ;;?
  configured <- configureBIRD ;
  match configured with
  | Err e => e <- undo_snippet path previous e ; io_fail e
  | Ok _ => io_ok tt
  end.
Definition applyBIRDConfigOnStart (cfg : BIRDConfig) : io services birdConfigApplyResult :=
  let st := newBIRDConfigRuntimeStatus cfg in
  if negb (bg_Enabled (bird_ConfigureOnStart cfg)) then io_ret (mkApply st [])
  else
    attempt <- time_Now ;
    let failed path e := mkStatus (bc_Enabled st) (bc_Status st) path (error_text e) attempt (bc_LastSuccess st) in
    match RenderAnycastConfig cfg with
    | Err e => io_ret (mkApply (failed (bc_Path st) e) [])
    | Ok (configText, protocolNames) =>
      match cleanBIRDConfigPath (bg_Path (bird_ConfigureOnStart cfg)) with
      | Err e => io_ret (mkApply (failed (bc_Path st) e) protocolNames)
      | Ok path =>
        r <- write_and_configure path configText ;
        match r with
        | Err e => io_ret (mkApply (failed path e) protocolNames)
        | Ok _ =>
          success <- time_Now ;
          io_ret (mkApply (mkStatus (bc_Enabled st) birdConfigStatusApplied path "" attempt success) protocolNames)
        end
      end
    end.
End apply.

(** ** Start of route control *)
Section start.
Context {C : Type} (Exec : string -> C -> result Response * C).
(** The configuration with the generated protocol names. *)
Definition with_names (cfg : BIRDConfig) (generated : list string) : BIRDConfig :=
  if (length (bird_ProtocolNames cfg) =? 0)%nat && negb (length generated =? 0)%nat
  then mkBIRD (bird_Enabled cfg) (bird_SocketPath cfg) (bird_AnycastPrefixes cfg) (bird_Protocols cfg) (bird_ProtocolName cfg) generated (bird_CommandTimeout cfg) (bird_ConfigureOnStart cfg) (bird_StateMachine cfg)
  else cfg.
(** The route manager, none when the agent goes on without route control, or the
    error that stops the daemon. *)
Definition start_routes (cfg : BIRDConfig) (status : birdConfigRuntimeStatus) (generated : list string) (at_ : Time) (c : C) : result (option RouteManager) * C :=
  match NewRouteManager (route_protocols (with_names cfg generated)) with
  | Err e => if usingExisting status then (Ok None, c) else (Err (Wrapf "failed to create BIRD route manager" e), c)
  | Ok rm =>
    let '(reconciled, rm, c) := Reconcile Exec rm c in
    match reconciled with
    | Ok _ => (Ok (Some rm), c)
    | Err e =>
      if usingExisting status then (Ok None, c)
      else
        let '(withdrawn, _, c) := ForceWithdrawRoutes Exec at_ rm c in
        (Err match withdrawn with
             | Err e' => Wrapf "failed to reconcile BIRD state and force route withdraw" e'
             | Ok _ => Wrapf "failed to reconcile BIRD state; forced route withdraw" e
             end, c)
    end
  end.
End start.

(** ** Wiring of the synchronisation *)
(** A hook of the syncer from a call on the servers. *)
Definition as_hook {F S} (m : io S (result unit)) (_ : F) (s : S) : option error * S :=
  let '(r, s) := m s in (match r with Ok _ => None | Err e => Some e end, s).
Definition agent_hooks {F S} (authServer : AuthoritativeServer S) (resolver : Resolver S) (CheckZone : string -> string -> result unit) : Hooks F S :=
  mkHooks
    (Some (fun zoneName => as_hook (applyZoneServiceReferences authServer resolver zoneName)))
    (Some (fun zoneName hadPrevious => as_hook (rollbackAppliedZoneServiceReferences authServer resolver zoneName hadPrevious)))
    (Some (fun zoneName => as_hook (deleteZoneServiceReferences authServer resolver zoneName)))
    (Some (fun zoneName => as_hook (restoreZoneServiceReferences authServer resolver zoneName true true)))
    (Some CheckZone).
(** The health check of the synchronisation. *)
Definition sync_check (failedZones : Z) (lastSuccess : Time) (isStale : bool) (now : Time) : CheckResult :=
  let failure text := mkCheck CheckTypeSync false 0 (Some text) now in
  if 0 <? failedZones then failure (Itoa failedZones +:+ " zone sync failures")
  else if IsZero lastSuccess then failure "no successful sync yet"
  else if isStale then failure "sync is stale"
  else mkCheck CheckTypeSync true 0 None now.

(** ** Status pages *)
Definition bgpControlStatusActive : string := "active".
Definition bgpControlStatusDisabled : string := "disabled".
Definition bgpControlStatusUnknown : string := "unknown".
Definition bgpControlStatus (cfg : AgentConfig) (routeCtrl : option RouteManager) (status : birdConfigRuntimeStatus) : string :=
  match routeCtrl with
  | Some _ => bgpControlStatusActive
  | None => if bird_Enabled (ag_BIRD cfg) && usingExisting status then bgpControlStatusUnknown else bgpControlStatusDisabled
  end.
(** What [/status] says of the routes: nothing when it is not known. *)
Definition bgp_announced (cfg : AgentConfig) (routeCtrl : option RouteManager) (status : birdConfigRuntimeStatus) : option bool :=
  match routeCtrl with
  | Some rm => Some (announced rm)
  | None => if (bgpControlStatus cfg None (normalized status) =? bgpControlStatusUnknown)%string then None else Some false
  end.
Definition metricPath (path : string) : string :=
  let path := TrimSpace path in
  if (path =? "")%string then "/metrics" else if negb (HasPrefix path "/") then "/" +:+ path else path.
Definition boolToInt (v : bool) : Z := if v then 1 else 0.
Definition statusAuthTokenMatches `{UnicodeFold} (authHeader expected : string) : bool :=
  let bearerPrefix := "bearer " in
  let value := TrimSpace authHeader in
  if (len value <? len bearerPrefix) || negb (EqualFold (str_take (String.length bearerPrefix) value) bearerPrefix) then false
  else
    let provided := TrimSpace (str_drop (String.length bearerPrefix) value) in
    if (provided =? "")%string then false else bool_decide (Sum256 provided = Sum256 expected).
(** Whether a request may see the status and the metrics; otherwise it is
    answered 401. *)
Definition statusAuthMiddleware `{UnicodeFold} (token authHeader : string) : bool :=
  let token := TrimSpace token in
  if (token =? "")%string then true else statusAuthTokenMatches authHeader token.
(** [/ready]: the status code and the reason. *)
Definition ready (lastSuccess : Time) (isStale : bool) (failedZones : Z) : Z * string :=
  if IsZero lastSuccess then (503, "no successful sync yet")
  else if isStale then (503, "sync is stale")
  else if 0 <? failedZones then (503, "zone sync failures")
  else (200, "ready").
(** The readiness page and the health check agree. *)
Lemma ready_iff_healthy lastSuccess isStale failedZones now : fst (ready lastSuccess isStale failedZones) = 200 <-> chk_Success (sync_check failedZones lastSuccess isStale now) = true.
Proof. unfold ready, sync_check. by destruct (IsZero lastSuccess), isStale, (0 <? failedZones). Qed.

(** ** Paths *)
Definition path_element (e : string) : Prop := e <> "" /\ e <> "." /\ e <> ".." /\ lacks "/" e.
Lemma clean_rooted out l : Forall path_element out -> Forall (lacks "/") l -> Forall path_element (clean_elements true out l).
Proof.
  revert out. induction l as [|e l IH]; intros out Ho Hl; cbn [clean_elements]; [by apply Forall_rev|]. apply Forall_cons in Hl as [He Hl]. destruct (String.eqb_spec e "") as [|H1]; [by apply IH|]. destruct (String.eqb_spec e ".") as [|H2]; [by apply IH|]. cbn [orb]. destruct (String.eqb_spec e "..") as [|H3]; [|apply IH; [by constructor|done]].
  destruct out as [|x out]; [by apply IH|]. apply Forall_cons in Ho as [Hx Ho]. destruct (String.eqb_spec x "..") as [->|_]; [by destruct Hx as (_ & _ & ? & _)|by apply IH].
Qed.
Lemma clean_fixed out l : Forall path_element l -> clean_elements true out l = rev out ++ l.
Proof.
  revert out. induction l as [|e l IH]; intros out Hl; cbn [clean_elements]; [by rewrite app_nil_r|]. apply Forall_cons in Hl as [(H1 & H2 & H3 & _) Hl]. rewrite (proj2 (String.eqb_neq _ _) H1), (proj2 (String.eqb_neq _ _) H2), (proj2 (String.eqb_neq _ _) H3). cbn [orb]. rewrite IH by done. cbn [rev]. by rewrite <- app_assoc.
Qed.
Lemma Clean_rooted path : IsAbs path = true -> IsAbs (Clean path) = true /\ Clean (Clean path) = Clean path.
Proof.
  intros Ha. pose proof (clean_rooted [] (Split path "/"%char) (Forall_nil_2 _) (Split_pieces_lack path "/"%char)) as Hels. set (els := clean_elements true [] _) in *. assert (Hc : Clean path = "/" +:+ str_join els "/") by (unfold Clean; cbv zeta; by rewrite Ha). rewrite Hc. clear Hc. clearbody els. assert (Habs : IsAbs ("/" +:+ str_join els "/") = true) by (apply HasPrefix_true; by eexists). split; [done|].
  unfold Clean. cbv zeta. rewrite Habs. f_equal. f_equal. change ("/" +:+ str_join els "/") with ("" +:+ str1 "/"%char +:+ str_join els "/"). rewrite Split_app by done. cbn [clean_elements]. cbn [String.eqb orb]. destruct els as [|e els]; [done|]. rewrite (Split_join "/"%char) by (done || (eapply Forall_impl; [exact Hels|]; by intros ? (_ & _ & _ & ?))). by apply clean_fixed.
Qed.

(** ** An accepted configuration renders *)
Lemma classify_accepted prefixes i : check_each (fun i raw => let value := TrimSpace raw in if (value =? "")%string then Ok tt else guard_err (negb (ParsePrefix_ok value)) (invalid (indexed "bird.anycast_prefixes" i "") "invalid prefix")) i prefixes = Ok tt -> exists vs, classifyAnycastPrefixes prefixes = Ok vs.
Proof.
  revert i. induction prefixes as [|raw prefixes IH]; intros i; cbn [check_each classifyAnycastPrefixes]; [by eexists|]. cbv zeta. intros Hc. apply rbind_ok in Hc as ([] & Hp & Hc). destruct (IH _ Hc) as [vs Hvs]. destruct (TrimSpace raw =? "")%string; [by eexists|]. apply guard_err_ok in Hp. rewrite Hp. cbn. rewrite Hvs. by eexists.
Qed.
Definition neighbor_ok (n : string * Z) : Prop := is_Some (ParseIP (fst n)) /\ snd n <> 0.
Lemma protocols_accepted names neighbors : Forall neighbor_ok neighbors -> exists text, protocols_part names neighbors = Ok text.
Proof.
  revert neighbors. induction names as [|name names IH]; intros neighbors Hn; [by eexists|]. destruct Hn as [|[address asn] neighbors [Ha Hz] Hn]; [by eexists|]. cbn [protocols_part fst snd] in *. rewrite bool_decide_true by done. rewrite (proj2 (Z.eqb_neq _ _) Hz). cbn. destruct (IH _ Hn) as [text ->]. by eexists.
Qed.
Lemma ip_accepted field value : validateBIRDIPAddress field value = Ok tt -> is_Some (ParseIP value).
Proof. unfold validateBIRDIPAddress. intros Hv. apply rbind_ok in Hv as ([] & _ & Hv). apply rbind_ok in Hv as ([] & _ & Hv). apply guard_err_ok, negb_false_iff, bool_decide_eq_true in Hv. done. Qed.
Lemma accepted_suffixed text r : suffixed text r = Ok tt -> r = Ok tt.
Proof. unfold suffixed. destruct r as [[]|[]]; congruence. Qed.
Lemma neighbor_accepted prefix af nf address asn i : check_neighbor prefix af nf address asn i = Ok tt -> neighbor_ok (address, asn).
Proof. unfold check_neighbor. intros Hc. apply rbind_ok in Hc as ([] & Ha & Hz). split; [by eapply ip_accepted|]. apply guard_err_ok, Z.eqb_neq in Hz. done. Qed.
Definition identifier (name : string) : Prop := exists a t, name = String a t /\ is_ident_start a = true /\ str_forallb (fun c => is_ident_start c || is_digit c) t = true.
Lemma identifier_spec field name : BirdRoutes.validateBIRDIdentifier field name = Ok tt <-> identifier name.
Proof.
  unfold BirdRoutes.validateBIRDIdentifier. split.
  - intros Hv. apply guard_err_ok, negb_false_iff, MatchString_matches, matches_cat in Hv as (x & t & -> & Hx & Ht). apply matches_class in Hx as (a & -> & Ha). exists a, t. split_and!; [done..|]. by apply star_class_inv.
  - intros (a & t & -> & Ha & Ht). assert (MatchString birdIdentifierRE (String a t) = true) as ->; [|done]. apply MatchString_matches, matches_cat. exists (str1 a), t. split_and!; [done|apply matches_class; by exists a|by apply star_class].
Qed.
Lemma identifiers_ok field names : Forall identifier names -> validateBIRDIdentifiers field names = Ok tt.
Proof. induction 1 as [|n names Hn _ IH]; cbn [validateBIRDIdentifiers]; [done|]. by rewrite (proj2 (identifier_spec field n) Hn). Qed.
Lemma digits_value_digits acc s v : digits_value acc s = Some v -> str_forallb is_digit s = true.
Proof. revert acc. induction s as [|c s IH]; intros acc; cbn [digits_value str_forallb]; [done|]. destruct (is_digit c); [|done]. apply IH. Qed.
Lemma numbered base n : identifier base -> 0 <= n -> identifier (base +:+ "_" +:+ Itoa n).
Proof.
  intros (a & t & -> & Ha & Ht) Hn. exists a, (t +:+ "_" +:+ Itoa n). split_and!; [done..|]. rewrite !str_forallb_app, Ht. cbn [andb]. eapply str_forallb_impl; [|eapply digits_value_digits, (Itoa_spec n Hn)]. intros c Hc. rewrite Hc. apply orb_true_r.
Qed.
Lemma with_names_routes cfg names : names <> [] -> (bird_Protocols cfg <> [] -> names = map bp_Name (bird_Protocols cfg)) -> (bird_Protocols cfg = [] -> bird_ProtocolNames cfg <> [] -> names = bird_ProtocolNames cfg) -> route_protocols (with_names cfg names) = names.
Proof.
  intros Hne H1 H2. assert (Hp : bird_Protocols (with_names cfg names) = bird_Protocols cfg) by (unfold with_names; by destruct (_ && _)). unfold route_protocols. rewrite Hp. destruct (bird_Protocols cfg) as [|p ps]; [|by rewrite <- H1]. assert (Hn : bird_ProtocolNames (with_names cfg names) = names).
  { unfold with_names. destruct names as [|x l]; [done|]. destruct (bird_ProtocolNames cfg) as [|n ns] eqn:En; [done|]. cbn [length Nat.eqb andb]. by rewrite En, H2. }
  rewrite Hn. by destruct names.
Qed.
(** The BGP protocols a configuration asks for: those of its list of protocols, or
    the listed names, or numbered names for its neighbors. *)
Definition configured_neighbors (cfg : BIRDConfig) : list (string * Z) :=
  match bird_Protocols cfg with
  | [] => map (fun n => (nb_Address n, nb_ASN n)) (bg_Neighbors (bird_ConfigureOnStart cfg))
  | ps => map (fun p => (bp_NeighborAddress p, bp_NeighborASN p)) ps
  end.
Definition configured_names (cfg : BIRDConfig) : list string :=
  match bird_Protocols cfg, bird_ProtocolNames cfg with
  | (_ :: _) as ps, _ => map bp_Name ps
  | [], (_ :: _) as names => names
  | [], [] => map (fun i => (if (bird_ProtocolName cfg =? "")%string then "anycast" else bird_ProtocolName cfg) +:+ "_" +:+ Itoa (Z.of_nat i)) (seq 1 (length (configured_neighbors cfg)))
  end.
(** The text that defines one of them. *)
Definition bgp_block (name : string) (neighbor : string * Z) : string :=
  str_concat (map (fun l => l +:+ str1 (chr 10))
    ["protocol bgp " +:+ name +:+ " from arca_dns_anycast_template {"; "  neighbor " +:+ fst neighbor +:+ " as " +:+ Itoa (snd neighbor) +:+ ";"; "}"; ""]).
Lemma protocols_text names neighbors text : protocols_part names neighbors = Ok text -> text = str_concat (zip_with bgp_block names neighbors).
Proof.
  revert neighbors text. induction names as [|name names IH]; intros neighbors text; [by intros [= <-]|]. destruct neighbors as [|[address asn] neighbors]; [by intros [= <-]|]. cbn [protocols_part]. intros Hp. inv_ok. subst text. cbn [zip_with].
  match goal with E : protocols_part _ _ = Ok _ |- _ => apply IH in E; subst end. change (str_concat (?x :: ?l)) with (x +:+ str_concat l). unfold bgp_block, line. cbn [map fst snd str_concat foldr]. by rewrite !str_app_assoc, str_app_nil_l.
Qed.
Lemma numbered_names {A} (f : Z -> string) (l : list A) : imap (fun i _ => f (Z.of_nat i + 1)) l = map (fun i => f (Z.of_nat i)) (seq 1 (length l)).
Proof.
  apply list_eq. intros i. rewrite list_lookup_imap, list_lookup_fmap. destruct (decide (i < length l)%nat) as [Hi|Hi].
  - destruct (lookup_lt_is_Some_2 l i Hi) as [x ->]. rewrite (lookup_seq_lt 1 _ i) by done. cbn. do 2 f_equal. lia.
  - rewrite lookup_ge_None_2, lookup_seq_ge by lia. done.
Qed.
Lemma snippet_configured cfg names neighbors : snippet_protocols cfg = Ok (names, neighbors) -> names = configured_names cfg /\ neighbors = configured_neighbors cfg.
Proof.
  unfold snippet_protocols, configured_names, configured_neighbors. destruct (bird_Protocols cfg) as [|p ps].
  - intros Hs. apply rbind_ok in Hs as (ns & Hn & [= <- <-]). split; [|done]. destruct (bird_ProtocolNames cfg) as [|n ns']; [|by injection Hn]. apply rbind_ok in Hn as ([] & _ & [= <-]).
    rewrite length_map. apply (numbered_names (fun z => _ +:+ "_" +:+ Itoa z)).
  - intros Hs. apply rbind_ok in Hs as ([] & _ & [= <- <-]). done.
Qed.
(** The protocol names an accepted configuration leads to. *)
Definition counts_match (cfg : BIRDConfig) : Prop := bird_Protocols cfg <> [] \/ bird_ProtocolNames cfg = [] \/ length (bird_ProtocolNames cfg) = length (bg_Neighbors (bird_ConfigureOnStart cfg)).
Lemma protocols_of cfg : validateAgentBIRDConfig cfg = Ok tt -> bird_Enabled cfg = true -> bg_Enabled (bird_ConfigureOnStart cfg) = true ->
  exists names neighbors, snippet_protocols cfg = Ok (names, neighbors) /\ Forall identifier names /\ Forall neighbor_ok neighbors /\ names <> [] /\ (length neighbors = length names <-> counts_match cfg) /\ route_protocols (with_names cfg names) = names.
Proof.
  intros Hv Hen Hg. unfold validateAgentBIRDConfig in Hv. rewrite Hen, Hg in Hv. cbn [negb] in Hv. repeat (apply rbind_ok in Hv as ([] & ? & Hv)). match goal with E : validateBIRDProtocolIdentifiers _ = Ok _ |- _ => rename E into Hids end. match goal with E : guard_err (_ && _ && _) _ = Ok _ |- _ => apply guard_err_ok in E; rename E into Hsome end.
  unfold validateAgentBIRDStartupConfig in Hv. cbv zeta in Hv. repeat (apply rbind_ok in Hv as ([] & ? & Hv)). match goal with E : guard_err (_ && (length (bg_Neighbors _) =? 0)%nat) _ = Ok _ |- _ => apply guard_err_ok in E; rename E into Hne end. match goal with E : (if _ then check_each _ _ (bg_Neighbors _) else _) = Ok _ |- _ => rename E into Hnb end. match goal with E : check_each _ _ (bird_Protocols _) = Ok _ |- _ => rename E into Hpb end.
  clear Hv. unfold snippet_protocols, counts_match, validateBIRDProtocolIdentifiers in *. destruct (bird_Protocols cfg) as [|p ps] eqn:Ep.
  - cbn [length Nat.eqb andb] in *. apply checked_each in Hnb. assert (Hn : Forall neighbor_ok (map (fun n => (nb_Address n, nb_ASN n)) (bg_Neighbors (bird_ConfigureOnStart cfg)))) by (apply Forall_map; eapply Forall_impl; [exact Hnb|]; intros n [j Hj]; by eapply neighbor_accepted).
    destruct (bird_ProtocolNames cfg) as [|n ns] eqn:En.
    + unfold if_set in Hids. rewrite andb_true_r in Hsome. rewrite Hsome in *. cbn [negb] in Hids. pose proof (proj1 (identifier_spec "" _) (identifiers_agree _ "" _ Hids)) as Hid. rewrite (proj2 (identifier_spec "bird.protocol_name" _) Hid). cbn [rbind]. do 2 eexists. split; [done|]. split; [|split; [done|]].
      * apply Forall_lookup. intros i x Hx. rewrite list_lookup_imap in Hx. destruct (_ !! i); [|done]. injection Hx as <-. apply numbered; [done|lia].
      * destruct (bg_Neighbors (bird_ConfigureOnStart cfg)) as [|x l]; [done|]. split; [done|]. split; [|by apply with_names_routes; rewrite ?Ep, ?En]. rewrite length_map, length_imap. split; [by intros _; right; left|done].
    + do 2 eexists. split; [done|]. split; [apply checked_each in Hids; eapply Forall_impl; [exact Hids|]; intros m [j Hj]; eapply (proj1 (identifier_spec "" _)), identifiers_agree, Hj|]. split; [done|]. split; [done|]. cbn [length Nat.eqb andb]. rewrite length_map. split; [|by apply with_names_routes; rewrite ?Ep, ?En]. split; [intros He; right; right; by rewrite He|]. intros [?|[?|He]]; done.
  - assert (Hi : Forall identifier (map bp_Name (p :: ps))) by (apply Forall_map; apply checked_each in Hids; eapply Forall_impl; [exact Hids|]; intros m [j Hj]; eapply (proj1 (identifier_spec "" _)), identifiers_agree, Hj). rewrite (identifiers_ok _ _ Hi). cbn [rbind]. do 2 eexists. split; [done|]. split; [done|]. split; [apply Forall_map; apply checked_each in Hpb; eapply Forall_impl; [exact Hpb|]; intros m [j Hj]; by eapply neighbor_accepted|].
    split; [done|]. rewrite !length_map. split; [split; [by left|done]|]. by apply with_names_routes; rewrite ?Ep.
Qed.
(** Route control once started: the manager controls these protocols and its cache
    is right, or the agent goes on without it on the configuration BIRD had, or it
    stops with all of them withdrawn, unless the error says that this failed. *)
Definition started {C} (Exec : string -> C -> result Response * C) `{!BirdDaemon Exec} (names : list string) (status : birdConfigRuntimeStatus) (r : result (option RouteManager)) (c : C) : Prop :=
  match r with
  | Ok (Some rm) => protocolNames rm = names /\ truthful Exec rm c
  | Ok None => usingExisting status = true
  | Err e => Forall (fun n => ~ enabled Exec c n) names \/ exists e', e = Wrapf "failed to reconcile BIRD state and force route withdraw" e'
  end.
Lemma route_control_starts {C} (Exec : string -> C -> result Response * C) `{!BirdDaemon Exec} cfg status names t c r c' :
  route_protocols (with_names cfg names) = names -> is_ok (NewRouteManager names) = true -> start_routes Exec cfg status names t c = (r, c') -> started Exec names status r c'.
Proof.
  intros Hr Hok. unfold start_routes. rewrite Hr. unfold NewRouteManager in *. destruct (validateBIRDIdentifiers "bird.protocol_names" names); [|done]. cbn [rbind]. destruct (Reconcile Exec _ c) as [[r1 rm1] c1] eqn:E1. assert (Ht : truthful Exec (mkRM names false true zeroTime) c) by done. destruct (reconcile_truthful Exec _ _ _ _ _ Ht E1) as [Ht1 Hn1].
  destruct r1 as [[]|e]; [by intros [= <- <-]|]. destruct (usingExisting status) eqn:Eu; [by intros [= <- <-]|]. destruct (ForceWithdrawRoutes Exec t rm1 c1) as [[r2 rm2] c2] eqn:E2. intros [= <- <-]. cbn [started]. unfold ForceWithdrawRoutes in E2. destruct (withdrawRoutesLocked Exec rm1 c1) as [[e2|] c3] eqn:Ew; injection E2 as <- <- <-; [right; by eexists|]. left. cbn in Hn1. rewrite <- Hn1. by eapply withdraw_effect.
Qed.
(** C25: an accepted configuration that generates BIRD's snippet renders exactly
    when every protocol has a neighbor, which the validation does not check for
    separate lists of names and neighbors.  The snippet ends with one BGP protocol
    block per configured name, in order, each with the address and the AS number of
    the neighbor configured for it, all names being identifiers; and these are the
    protocols the route manager controls once route control has started. *)
Theorem accepted_config_renders cfg : validateAgentBIRDConfig cfg = Ok tt -> bird_Enabled cfg = true -> bg_Enabled (bird_ConfigureOnStart cfg) = true ->
  let names := configured_names cfg in
  let neighbors := configured_neighbors cfg in
  (counts_match cfg -> length neighbors = length names /\ names <> [] /\ Forall identifier names /\ Forall neighbor_ok neighbors
     /\ (exists head, RenderAnycastConfig cfg = Ok (head +:+ str_concat (zip_with bgp_block names neighbors), names))
     /\ forall C (Exec : string -> C -> result Response * C) `{!BirdDaemon Exec} status t c r c', start_routes Exec cfg status names t c = (r, c') -> started Exec names status r c')
  /\ (~ counts_match cfg -> is_ok (RenderAnycastConfig cfg) = false).
Proof.
  intros Hv Hen Hg. cbv zeta. destruct (protocols_of cfg Hv Hen Hg) as (names & neighbors & Hp & Hid & Hn & Hne & Hcount & Hroute). unfold validateAgentBIRDConfig in Hv. rewrite Hen, Hg in Hv. cbn [negb] in Hv. repeat (apply rbind_ok in Hv as ([] & ? & Hv)).
  unfold validateAgentBIRDStartupConfig in Hv. cbv zeta in Hv. repeat (apply rbind_ok in Hv as ([] & ? & Hv)). repeat match goal with E : suffixed _ (validateBIRDIPAddress _ _) = Ok _ |- _ => apply accepted_suffixed, ip_accepted in E | E : suffixed _ (validateBIRDAnycastPrefixes _) = Ok _ |- _ => apply accepted_suffixed, classify_accepted in E as [vs Hvs] end.
  destruct (protocols_accepted names neighbors Hn) as [bgp Hbgp]. unfold RenderAnycastConfig. rewrite Hg. cbn [negb guard_err rbind]. rewrite !bool_decide_true by done. cbn [negb guard_err rbind]. rewrite Hvs. cbn [rbind]. rewrite Hp. cbn [rbind]. rewrite (identifiers_ok _ _ Hid). cbn [rbind]. rewrite Hbgp.
  destruct (snippet_configured _ _ _ Hp) as [<- <-]. apply protocols_text in Hbgp as ->. split.
  - intros Hc. apply Hcount in Hc. rewrite Hc, Nat.eqb_refl. cbn [negb guard_err rbind]. rewrite <- !str_app_assoc. split_and!; [done..|by eexists|]. intros C Exec D status t c r c'. apply route_control_starts; [done|]. unfold NewRouteManager. by rewrite (identifiers_ok _ _ Hid).
  - intros Hc. rewrite (proj2 (Nat.eqb_neq _ _)) by tauto. done.
Qed.

(** ** The snippet on disk *)
(** Errors of system calls are not wrapped, so both tests for a missing file agree. *)
Definition plain (e : error) : Prop := errors_Is e ErrNotExist = true -> os_IsNotExist e = true.
Section files.
Context (w : World).
Lemma plain_syscall {A} (op : nat -> directory -> result A * directory) s : (forall t d e, fst (op t d) = Err e -> plain e) -> wpio (syscall w op) s (fun r _ => forall e, r = Err e -> plain e).
Proof. intros Hop. unfold wpio, syscall. destruct (fault w (tick s)) as [er|]; cbn [fst snd]; [intros e [= <-]; by destruct er|]. destruct (op (tick s) (zone_dir s)) as [r d] eqn:Eo. cbn [fst snd]. intros e ->. apply (Hop (tick s) (zone_dir s)). by rewrite Eo. Qed.
Lemma plain_lookup d n e : lookup_entry d n = Err e -> plain e.
Proof. destruct d as [| | |es]; cbn; try by intros [= <-]. by destruct (es !! n); [|intros [= <-]]. Qed.
Lemma plain_read label name max s : wpio (readRegularConfigFile w label name max) s (fun r _ => forall e, r = Err e -> plain e).
Proof.
  unfold readRegularConfigFile. assert (Hl : forall s, wpio (syscall w (fun _ d => (lookup_entry d name, d))) s (fun r _ => forall e, r = Err e -> plain e)) by (intros s0; apply plain_syscall; intros t d e; apply plain_lookup).
  assert (Hv : forall A (v : A) s, wpio (syscall w (fun _ d => (Ok v, d))) s (fun r _ => forall e, r = Err e -> plain e)) by (intros A v s0; by apply plain_syscall).
  apply wpio_try. eapply wpio_mono; [apply Hl|]. intros [info|e] s1 He; [|by intros ? [= <-]; apply He]. repeat match goal with |- wpio (if ?b then io_fail _ else _) _ _ => destruct b; [by apply wpio_ret; intros ? [= <-]|] end.
  apply wpio_try. eapply wpio_mono; [apply Hl|]. intros [file|e] s2 He2; [|by intros ? [= <-]; apply He2]. apply wpio_try. eapply wpio_mono; [apply Hv|]. intros [oi|e] s3 He3; [|by intros ? [= <-]; apply He3]. repeat match goal with |- wpio (if ?b then io_fail _ else _) _ _ => destruct b; [by apply wpio_ret; intros ? [= <-]|] end.
  apply wpio_try. eapply wpio_mono; [apply Hv|]. intros [data|e] s4 He4; [|by intros ? [= <-]; apply He4]. destruct (max <? len data); by apply wpio_ret; intros ? [= <-].
Qed.
Lemma plain_remove name s : wpio (os_Remove w name) s (fun r _ => forall e, r = Err e -> plain e).
Proof.
  apply plain_syscall. intros t d e. destruct (lookup_entry d name) as [nd|e'] eqn:El; cbn; [|intros [= <-]; by eapply plain_lookup]. destruct nd as [| |[]|]; by intros [= <-] || done.
Qed.
Lemma wp_fill_bird tmp data perm i p t x es s : entries s = <[tmp := Regular i p t x]> es -> wpio (fill_bird w tmp data perm) s (filled tmp data es).
Proof.
  intros H1. unfold fill_bird. apply wpio_bind. eapply (wpio_mono _ _ (filled tmp data es)).
  - apply wpio_try. unfold wpio at 1, tmp_Write. assert (Hput : forall c, ents (update_entries (alter (set_data (mtime_now w (tick s)) c) tmp) (zone_dir s)) = <[tmp := Regular i p (mtime_now w (tick s)) c]> es) by (intros c; by rewrite ents_alter, H1, alter_insert_eq).
    destruct (fault w (tick s)) as [er|]; cbn [fst snd zone_dir]; [eexists; split; [apply Hput|done]|]. set (s2 := mkFs _ _). assert (H2 : entries s2 = <[tmp := Regular i p (mtime_now w (tick s)) data]> es) by apply Hput. clearbody s2.
    apply wpio_try. unfold wpio at 1, tmp_Chmod, syscall. destruct (fault w (tick s2)) as [er|]; cbn [fst snd]; [by eexists|]. set (s3 := mkFs _ _). set (nd := Regular i perm (mtime_now w (tick s)) data). assert (H3 : entries s3 = <[tmp := nd]> es) by (unfold s3; cbn [zone_dir]; by rewrite ents_alter, H2, alter_insert_eq). clearbody s3.
    apply (wp_value w (fun _ => tt)); [intros e s4 H4 _|intros _ s4 H4]; exists nd; by rewrite H4.
  - intros [[]|e] s2 (nd & H2 & Hr).
    + apply (wp_value w (fun _ => tt)); [intros e s3 H3 _|intros _ s3 H3]; exists nd; rewrite H3; (split; [done|]); [done|]. intros _. by apply Hr.
    + apply wpio_bind, (wp_value w (fun _ => tt)); [intros e' s3 H3 _|intros _ s3 H3]; apply wpio_ret; exists nd; by rewrite H3.
Qed.
End files.

Section snippet.
Context (w : World) (configure : nat -> result (option Response)) (p : string) (Hp : Clean p = p).
#[local] Set Default Proof Using "Type".
Definition snippet (c : cache) : option string := content (zone_entries c (Dirname p) !! Base p).
(** Only the snippet changed, up to hidden files. *)
Definition aside (s s' : services) : Prop := has_tree s' /\ forall d n, HasPrefix n "." = false -> (d, n) <> (Dirname p, Base p) -> zone_entries (sv_files s') d !! n = zone_entries (sv_files s) d !! n.
Lemma aside_trans s1 s2 s3 : aside s1 s2 -> aside s2 s3 -> aside s1 s3.
Proof. intros [_ H12] [T3 H23]. split; [done|]. intros d n Hn Hd. by rewrite H23, H12. Qed.
(** Nothing changed and nothing was run. *)
Definition calm (s s' : services) : Prop := has_tree s' /\ sv_log s' = sv_log s /\ forall d, zone_entries (sv_files s') d = zone_entries (sv_files s) d.
Lemma calm_aside s s' : calm s s' -> aside s s'.
Proof. intros (T & _ & He). split; [done|]. intros d n _ _. by rewrite He. Qed.
Lemma calm_snippet s s' : calm s s' -> snippet (sv_files s') = snippet (sv_files s).
Proof. intros (_ & _ & He). unfold snippet. by rewrite He. Qed.
Lemma calm_trans s1 s2 s3 : calm s1 s2 -> calm s2 s3 -> calm s1 s3.
Proof. intros (_ & L12 & H12) (T3 & L23 & H23). split; [done|]. split; [congruence|]. intros d. by rewrite H23, H12. Qed.
Lemma calm_refl s : has_tree s -> calm s s.
Proof. done. Qed.
Lemma clean_same q : cleanBIRDConfigPath p = Ok q -> q = p.
Proof using Hp. unfold cleanBIRDConfigPath. intros Hc. apply rbind_ok in Hc as ([] & _ & [= <-]). exact Hp. Qed.
Lemma wp_clean {A} (k : string -> io services (result A)) s (Q : result A -> services -> Prop) : (forall e, Q (Err e) s) -> wpio (k p) s Q -> wpio (io_try (io_ret (cleanBIRDConfigPath p)) k) s Q.
Proof using Hp. intros He Hk. apply wpio_try, wpio_ret. destruct (cleanBIRDConfigPath p) as [q|e] eqn:Eq; [|apply He]. by rewrite (clean_same q Eq). Qed.
Lemma wp_calm {A} (m : io fs A) s : has_tree s -> (forall d, wpio m d (fun _ d' => entries d' = entries d)) -> wpio (in_dir (Dirname p) m) s (fun _ s' => calm s s').
Proof. intros Ht Hm. apply wp_in_dir. eapply wpio_mono; [apply Hm|]. intros r d Hd. split; [by apply put_tree|]. split; [done|]. intros z. cbn [sv_files]. by apply put_quiet. Qed.
Lemma wp_bird_ensure s : has_tree s -> wpio (bird_ensureConfigDirectoryForPath w p) s (fun _ s' => calm s s').
Proof using Hp. intros Ht. apply wp_clean; [done|]. apply wp_calm; [done|]. intros d. apply wp_ensure_config. Qed.
Lemma wp_bird_validate s : has_tree s -> wpio (bird_validateConfigDirectoryIfExistsForPath w p) s (fun _ s' => calm s s').
Proof using Hp. intros Ht. apply wp_clean; [done|]. apply wp_calm; [done|]. intros d. eapply wpio_mono; [apply wp_validate_config|]. intros r d' [Hd _]. by rewrite Hd. Qed.
Lemma wp_readPrevious s : has_tree s -> wpio (readPreviousBIRDConfig w p) s (fun r s' => calm s s' /\ forall prev, r = Ok prev -> prev = snippet (sv_files s)).
Proof using Hp.
  intros Ht. apply wp_clean; [done|]. apply wpio_try. eapply wpio_mono; [by apply wp_bird_validate|]. intros [[]|e] s1 C1; [|done]. apply wpio_bind, wp_in_dir. pose proof (wp_read_config w "BIRD config file" (Base p) maxBIRDConfigFileSize (zone_fs (sv_files s1) (Dirname p))) as Hr. pose proof (plain_read w "BIRD config file" (Base p) maxBIRDConfigFileSize (zone_fs (sv_files s1) (Dirname p))) as Hpl.
  unfold wpio at 1. unfold wpio in Hr, Hpl. unfold readRegularBIRDConfigFile. set (r := fst _) in *. set (d := snd _) in *. clearbody r d. destruct Hr as [[Hd _] Hr]. apply wpio_ret. assert (C2 : calm s1 (mkServices (put (Dirname p) d (sv_files s1)) (sv_log s1))) by (split; [by apply put_tree, C1|]; split; [done|]; intros z; cbn [sv_files]; apply put_quiet; by rewrite Hd).
  split; [by eapply calm_trans|]. rewrite <- (calm_snippet s s1 C1). intros prev. unfold snippet. destruct r as [data|e]; cbn in Hr; [intros [= <-]; by rewrite <- Hr|]. destruct (errors_Is e ErrNotExist) eqn:Ee; [|done]. intros [= <-]. destruct Hr as [_ Hr]. rewrite Hr; [done|]. by apply Hpl.
Qed.
Lemma snippet_temp_hidden pre suf n : temp_name ("." +:+ pre) suf n -> HasPrefix n "." = true.
Proof. intros [r ->]. apply HasPrefix_true. eexists. by rewrite !str_app_assoc. Qed.
Lemma wp_bird_write data perm s : has_tree s -> wpio (bird_writeFileAtomic w p data perm) s (fun r s' => aside s s' /\ sv_log s' = sv_log s /\ (snippet (sv_files s') = snippet (sv_files s) \/ snippet (sv_files s') = Some data) /\ (r = Ok tt -> snippet (sv_files s') = Some data)).
Proof using Hp.
  intros Ht. apply wp_clean; [intros e; split; [by apply calm_aside|split; [done|split; [by left|done]]]|]. apply wpio_try. eapply wpio_mono; [by apply wp_bird_ensure|]. intros [[]|e] s1 C1; [|split; [by apply calm_aside|split; [apply C1|split; [left; by apply calm_snippet|done]]]].
  rewrite <- (calm_snippet s s1 C1). apply wp_in_dir. assert (T1 : has_tree s1) by apply C1. assert (Hn : ~ temp_name ("." +:+ Base p +:+ ".tmp-") "" (Base p)) by (apply temp_longer; rewrite !str_length_app; cbn; lia). eapply wpio_mono; [apply (wp_atomic_replace w _ _ _ _ data); [done|by intros; eapply wp_fill_bird]|]. intros r d [[Ho Hc] Hok]. unfold snippet. cbn [sv_files sv_log]. rewrite put_here by done.
  split_and!; [|apply C1|exact Hc|exact Hok]. eapply aside_trans; [by apply calm_aside|]. split; [by apply put_tree|]. intros z n Hh Hz. cbn [sv_files]. destruct (decide (z = Dirname p)) as [->|Hne]; [|by rewrite put_other]. rewrite put_here by done. apply Ho. intros [->|[Ht' _]]; [done|]. apply snippet_temp_hidden in Ht'. congruence.
Qed.
Lemma wp_remove_snippet name d : wpio (remove_snippet w name) d (fun r d' => (entries d' = entries d \/ entries d' = delete name (entries d)) /\ (r = Ok tt -> entries d' !! name = None)).
Proof.
  unfold remove_snippet. apply wpio_bind. pose proof (wp_remove w name d) as Hr. pose proof (plain_remove w name d) as Hpl. unfold wpio in Hr, Hpl. unfold wpio at 1. set (r := fst _) in *. set (d1 := snd _) in *. clearbody r d1. destruct r as [[]|e].
  - eapply wpio_mono; [apply wp_quiet, quiet_config_sync|]. intros r d2 Hd2. rewrite Hd2, Hr. split; [by right|]. intros _. apply lookup_delete_eq.
  - destruct Hr as [Hs Hr]. apply wpio_ret. rewrite Hs. split; [by left|]. destruct (errors_Is e ErrNotExist) eqn:Ee; [|done]. intros _. by apply Hr, (Hpl e).
Qed.
Lemma wp_restore_snippet prev s : has_tree s -> wpio (restoreBIRDConfig w p prev) s (fun r s' => aside s s' /\ sv_log s' = sv_log s /\ (r = Ok tt -> snippet (sv_files s') = prev)).
Proof using Hp.
  intros Ht. apply wp_clean; [intros e; split; [by apply calm_aside|done]|]. apply wpio_try. eapply wpio_mono; [by apply wp_bird_validate|]. intros [[]|e] s1 C1; [|split; [by apply calm_aside|split; [apply C1|done]]]. assert (T1 : has_tree s1) by apply C1. destruct prev as [data|].
  - eapply wpio_mono; [by apply wp_bird_write|]. intros r s2 (A2 & L2 & _ & Hok). split; [eapply aside_trans; [by apply calm_aside|done]|]. split; [rewrite L2; apply C1|done].
  - apply wp_in_dir. eapply wpio_mono; [apply wp_remove_snippet|]. intros r d [Hd Hok]. split; [|split; [apply C1|]].
    + eapply aside_trans; [by apply calm_aside|]. split; [by apply put_tree|]. intros z n Hh Hz. cbn [sv_files]. destruct (decide (z = Dirname p)) as [->|Hne]; [|by rewrite put_other]. rewrite put_here by done. destruct Hd as [->| ->]; [done|]. rewrite lookup_delete_ne; [done|]. intros <-. by apply Hz.
    + intros Hr. unfold snippet. cbn [sv_files]. rewrite put_here by done. by rewrite Hok.
Qed.
Lemma wp_configure s : has_tree s -> wpio (configureBIRD configure) s (fun r s' => aside s s' /\ snippet (sv_files s') = snippet (sv_files s) /\ sv_log s' = sv_log s ++ [mkCommand ["configure"] (is_ok r) (sv_files s)]).
Proof. intros Ht. unfold wpio, configureBIRD. cbn [fst snd]. split; [|done]. by split. Qed.
Abbreviation told_bird b c := (mkCommand ["configure"] b c).
Definition both_failed (text : string) (e : error) : Prop := exists cause e', e = JoinErrs [cause; Wrapf text e'].
(** BIRD refused the new snippet and the old one is back; BIRD was told again
    when there was one. *)
Definition rolled_back (e : error) (s s' : services) : Prop := snippet (sv_files s') = snippet (sv_files s) /\ exists c l, sv_log s' = sv_log s ++ told_bird false c :: l
  /\ match snippet (sv_files s) with
     | None => l = []
     | Some _ => exists c' b, l = [told_bird b c'] /\ snippet c' = snippet (sv_files s) /\ (b = false -> both_failed "restore BIRD runtime config" e)
     end.
Definition snippet_result (text : string) (r : result unit) (s s' : services) : Prop :=
  match r with
  | Ok _ => snippet (sv_files s') = Some text /\ exists c, sv_log s' = sv_log s ++ [told_bird true c] /\ snippet c = Some text
  | Err e => sv_log s' = sv_log s /\ (snippet (sv_files s') = snippet (sv_files s) \/ snippet (sv_files s') = Some text)
             \/ rolled_back e s s' \/ both_failed "restore previous BIRD config" e
  end.
Lemma wp_write_and_configure text s : has_tree s -> wpio (write_and_configure w configure p text) s (fun r s' => aside s s' /\ snippet_result text r s s').
Proof using Hp.
  intros Ht. unfold write_and_configure. apply wpio_try. eapply wpio_mono; [by apply wp_bird_ensure|]. intros [[]|e] s1 C1; [|split; [by apply calm_aside|left; split; [apply C1|left; by apply calm_snippet]]]. assert (T1 : has_tree s1) by apply C1.
  apply wpio_try. eapply wpio_mono; [by apply wp_readPrevious|]. intros r s2 [C2 Hprev]. assert (C02 : calm s s2) by (by eapply calm_trans). assert (T2 : has_tree s2) by apply C02. destruct r as [prev|e]; [|split; [by apply calm_aside|left; split; [apply C02|left; by apply calm_snippet]]]. specialize (Hprev prev eq_refl). rewrite (calm_snippet s s1 C1) in Hprev.
  apply wpio_try. eapply wpio_mono; [by apply wp_bird_write|]. intros r s3 (A3 & L3 & S3 & Hok3). rewrite (proj1 (proj2 C02)) in L3. rewrite (calm_snippet s s2 C02) in S3. assert (A03 : aside s s3) by (eapply aside_trans; [by apply calm_aside|done]). assert (T3 : has_tree s3) by apply A3. destruct r as [[]|e]; [|split; [done|by left]]. specialize (Hok3 eq_refl).
  apply wpio_bind. eapply wpio_mono; [by apply wp_configure|]. intros r s4 (A4 & S4 & L4). rewrite L3 in L4. assert (A04 : aside s s4) by (by eapply aside_trans). assert (T4 : has_tree s4) by apply A4. destruct r as [[]|e]; [apply wpio_ret; split; [done|]; split; [by rewrite S4|]; eexists; split; [exact L4|done]|].
  unfold undo_snippet. apply wpio_bind, wpio_bind. eapply wpio_mono; [by apply wp_restore_snippet|]. intros r s5 (A5 & L5 & Hok5). assert (A05 : aside s s5) by (by eapply aside_trans). assert (T5 : has_tree s5) by apply A5. destruct r as [[]|e']; [|apply wpio_ret, wpio_ret; split; [done|right; right; by do 2 eexists]]. specialize (Hok5 eq_refl). rewrite L4 in L5. cbn [is_ok] in L5.
  destruct prev as [data|].
  - apply wpio_bind. eapply wpio_mono; [by apply wp_configure|]. intros r s6 (A6 & S6 & L6). apply wpio_ret, wpio_ret. split; [by eapply aside_trans|]. right. left. split; [by rewrite S6, Hok5|]. rewrite L5, <- app_assoc in L6. do 2 eexists. split; [exact L6|]. rewrite <- Hprev. do 2 eexists. split; [done|]. split; [done|]. destruct r as [|e6]; [done|]. intros _. by do 2 eexists.
  - apply wpio_ret, wpio_ret. split; [done|]. right. left. split; [by rewrite Hok5|]. do 2 eexists. split; [exact L5|]. by rewrite <- Hprev.
Qed.
End snippet.

(** C24: applying the generated BIRD configuration at start-up, whatever system
    calls fail and however BIRD answers.  The status says applied only when the
    rendered snippet is on disk and BIRD accepted that very file; otherwise it
    keeps the status from before with the error, and either BIRD was not told
    (the snippet is as before, or the new one when only the flush of the directory
    failed), or BIRD refused it and the snippet is as before, with BIRD told again
    when there was one, or the error says that the restoration failed too.  The
    protocol names are the rendered ones, and no other file changes. *)
Theorem bird_config_on_start w configure now error_text cfg s res s' :
  bg_Enabled (bird_ConfigureOnStart cfg) = true -> has_tree s -> applyBIRDConfigOnStart w configure now error_text cfg s = (res, s') ->
  let p := Clean (bg_Path (bird_ConfigureOnStart cfg)) in
  aside p s s'
  /\ (forall text names, RenderAnycastConfig cfg = Ok (text, names) -> ap_ProtocolNames res = names)
  /\ ((bc_Status (ap_Status res) = birdConfigStatusApplied /\ bc_Error (ap_Status res) = ""
       /\ exists text names, RenderAnycastConfig cfg = Ok (text, names) /\ snippet_result p text (Ok tt) s s')
      \/ (bc_Status (ap_Status res) = bc_Status (newBIRDConfigRuntimeStatus cfg) /\ exists e, bc_Error (ap_Status res) = error_text e
          /\ match RenderAnycastConfig cfg with
             | Ok (text, _) => snippet_result p text (Err e) s s'
             | Err _ => sv_log s' = sv_log s /\ snippet p (sv_files s') = snippet p (sv_files s)
             end)).
Proof.
  intros Hg Ht E. cbv zeta. set (p := Clean _). apply (wpio_run _ _ _ _ (fun res s' => aside p s s' /\ (forall text names, RenderAnycastConfig cfg = Ok (text, names) -> ap_ProtocolNames res = names) /\ _) E). clear E. unfold applyBIRDConfigOnStart. rewrite Hg. cbn [negb]. cbv zeta. set (s1 := snd (time_Now now s)). assert (C1 : calm s s1) by done. apply wpio_bind. unfold wpio at 1. fold s1. cbn [time_Now fst]. clearbody s1.
  destruct (RenderAnycastConfig cfg) as [[text names]|e] eqn:Er; [|apply wpio_ret; split; [by apply calm_aside|]; split; [done|]; right; split; [done|]; eexists; split; [done|]; split; [apply C1|by apply calm_snippet]].
  fold p. destruct (cleanBIRDConfigPath (bg_Path (bird_ConfigureOnStart cfg))) as [q|e] eqn:Eq; [|apply wpio_ret; split; [by apply calm_aside|]; split; [by intros t n [= _ <-]|]; right; split; [done|]; eexists; split; [done|]; left; split; [apply C1|left; by apply calm_snippet]].
  unfold cleanBIRDConfigPath in Eq. apply rbind_ok in Eq as ([] & Hval & [= <-]). assert (Hp : Clean p = p).
  { apply Clean_rooted. unfold validateBIRDConfigPath in Hval. repeat (apply rbind_ok in Hval as ([] & ? & Hval)). by apply guard_err_ok, negb_false_iff in Hval. }
  fold p. apply wpio_bind. eapply wpio_mono; [apply (wp_write_and_configure w configure p Hp text s1), C1|]. intros r s2 [A2 R2]. assert (A02 : aside p s s2) by (eapply aside_trans; [by apply calm_aside|done]).
  assert (R02 : snippet_result p text r s s2) by (unfold snippet_result, rolled_back in *; rewrite (calm_snippet p s s1 C1), (proj1 (proj2 C1)) in R2; done). clear R2. destruct r as [[]|e].
  - apply wpio_bind. unfold wpio, time_Now, io_ret. cbn [fst snd]. split; [exact A02|]. split; [by intros t n [= _ <-]|]. left. split; [done|]. split; [done|]. exists text, names. split; [done|exact R02].
  - apply wpio_ret. split; [done|]. split; [by intros t n [= _ <-]|]. right. split; [done|]. by exists e.
Qed.

(** ** Two neighbors, and a snippet BIRD refuses *)
Definition sample_bird : BIRDConfig :=
  mkBIRD true "/var/run/bird/bird.ctl" ["192.0.2.1/32"; " 2001:db8::/48"] [] "anycast_dns" [] (5 * Second)
    (mkGeneration true "/etc/bird/arca.conf" "192.0.2.254" 65000 "192.0.2.254" [mkNeighbor "192.0.2.2" 65001; mkNeighbor "2001:db8::2" 65002] (mkBFD true (300 * Millisecond) 0 3))
    (mkBIRDStateMachine 3 3 (30 * Second)).
Lemma accepted_config_renders_witness : exists head, RenderAnycastConfig sample_bird = Ok (head +:+ str_concat (zip_with bgp_block (configured_names sample_bird) (configured_neighbors sample_bird)), ["anycast_dns_1"; "anycast_dns_2"]).
Proof.
  destruct (accepted_config_renders sample_bird eq_refl eq_refl eq_refl) as [Hr _]. destruct Hr as (_ & _ & _ & _ & [head Hr] & _); [right; left; reflexivity|]. exists head. exact Hr.
Defined.
Definition old_snippet : services := mkServices (mkCache (Zones {[ "/etc/bird" := Dir {[ "arca.conf" := Regular 1 420 0 "old" ]} ]}) 0) [].
(** BIRD refuses the first [configure]. *)
Definition refuses (t : nat) : result (option Response) := Ok (Some (if decide (t < 30)%nat then mkResponse 8002 [] "syntax error" else mkResponse 3 [] "")).
Lemma bird_config_on_start_witness :
  let p := "/etc/bird/arca.conf" in
  exists res s', applyBIRDConfigOnStart fair_world refuses (fun _ => 7) (fun _ => "failed") sample_bird old_snippet = (res, s')
    /\ bc_Status (ap_Status res) = birdConfigStatusUsingExisting /\ snippet p (sv_files s') = Some "old" /\ map cmd_ok (sv_log s') = [false; true]
    /\ aside p old_snippet s'.
Proof.
  cbv zeta. destruct (applyBIRDConfigOnStart fair_world refuses (fun _ => 7) (fun _ => "failed") sample_bird old_snippet) as [res s'] eqn:E. destruct (bird_config_on_start fair_world refuses (fun _ => 7) (fun _ => "failed") sample_bird old_snippet res s' eq_refl) as [Ha _]; [by eexists|exact E|]. exists res, s'. split; [done|].
  assert (Hv : (fun x => (bc_Status (ap_Status (fst x)), snippet "/etc/bird/arca.conf" (sv_files (snd x)), map cmd_ok (sv_log (snd x)))) (res, s') = (birdConfigStatusUsingExisting, Some "old", [false; true])) by (rewrite <- E; vm_compute; reflexivity). cbn [fst snd] in Hv. injection Hv as H1 H2 H3. split_and!; [done..|exact Ha].
Defined.
