(* ===== verification/SignedHandlers.v ===== *)
(** * Signed-zone and import handlers of the controller API
    ([internal/controller/api/handler.go], [handler_raw.go])

    The endpoints agents download signed zones from, the DS records for the
    parent zone, and the creation of a zone from a BIND file. *)

From S2P Require Import Prelude DnsRecords BindFiles Io Program GoStrings GoStringsFacts Sha256 Names Zone Validation Serial Ulid ZonePath Store FileSystem ArtifactCache Controller SigningService Http Handlers.
#[local] Open Scope prog_scope.

(** ** Text of import errors *)
(** [io.ReadAll] of a limited reader, then the size check. *)
Definition errRawZoneTooLarge : error := Wrapf "zone file exceeds maximum size" (Sentinel ErrMaxBytes).
Definition readRawZoneContent (content : result string) : result string :=
  let* content := content in
  if DefaultMaxZoneFileSize <? len content then Err errRawZoneTooLarge else Ok content.
Definition rawZoneReadTooLarge (err : error) : bool := errors_Is err ErrMaxBytes.
Definition writeRawZoneTooLarge : reply := api_error 413 ErrorCodeInvalidInput "zone file exceeds maximum size of 10485760 bytes".

(** [strings.Map] with the function of [sanitizeRawZoneError]. *)
Definition sanitize_rune (c : Z * string) : string :=
  let r := fst c in
  if (r =? 10) || (r =? 13) || (r =? 9) then " "
  else if (r <? 32) || (r =? 127) then ""
  else encode_rune r.
Definition maxRawZoneErrorLength : nat := 512.
Definition sanitizeRawZoneError (errStr : string) : string :=
  let sanitized := str_concat (map sanitize_rune (chunks (TrimSpace errStr))) in
  let sanitized := str_join (Fields sanitized) " " in
  if (sanitized =? "")%string then "unknown error"
  else if (maxRawZoneErrorLength <? String.length sanitized)%nat then str_take maxRawZoneErrorLength sanitized +:+ "..."
  else sanitized.

(** The part after the last [sep]. *)
Fixpoint after_last (sep s : string) : option string :=
  match s with
  | EmptyString => None
  | String _ t =>
    match after_last sep t with
    | Some r => Some r
    | None => strip_prefix sep s
    end
  end.
Definition extractValidationError (errStr : string) : string :=
  match after_last "validation failed:" errStr with
  | Some r => TrimSpace r
  | None => errStr
  end.
(** The reply for a zone file that does not parse. *)
Definition raw_parse_error (errStr : string) : reply :=
  if Contains errStr "$GENERATE" then api_error 400 ErrorCodeInvalidInput "zone file uses unsupported $GENERATE directive"
  else if Contains errStr "$INCLUDE"
  then api_error 400 ErrorCodeInvalidInput "zone file contains $INCLUDE directive (not supported via API for security)"
  else if Contains errStr "validation failed"
  then api_error 400 ErrorCodeInvalidInput ("zone validation failed: " +:+ sanitizeRawZoneError (extractValidationError errStr))
  else api_error 400 ErrorCodeInvalidInput ("failed to parse zone file: " +:+ sanitizeRawZoneError errStr).

(** An import request: the content type, the form file with its name and the
    form's origin, the plain body and the query's origin. *)
Record rawRequest := mkRaw {
  raw_ContentType : string;
  raw_form : result (result string * string); raw_formOrigin : string;
  raw_body : result string; raw_queryOrigin : string }.
Definition raw_read_error (err : error) (message : string) : reply :=
  if rawZoneReadTooLarge err then writeRawZoneTooLarge else api_error 400 ErrorCodeInvalidInput message.
(** The zone file and the origin. *)
Definition raw_content (req : rawRequest) : reply + (string * string) :=
  if HasPrefix (raw_ContentType req) "multipart/form-data" then
    match raw_form req with
    | Err e => inl (raw_read_error e "missing zonefile in form data")
    | Ok (content, filename) =>
      match readRawZoneContent content with
      | Err e => inl (raw_read_error e "failed to read zonefile")
      | Ok rawZone =>
        let origin := raw_formOrigin req in
        let origin := if (origin =? "")%string && HasSuffix filename ".zone" then TrimSuffix filename ".zone" else origin in
        inr (rawZone, origin)
      end
    end
  else if HasPrefix (raw_ContentType req) "text/plain" || (raw_ContentType req =? "")%string then
    match readRawZoneContent (raw_body req) with
    | Err e => inl (raw_read_error e "failed to read request body")
    | Ok rawZone => inr (rawZone, raw_queryOrigin req)
    end
  else inl (api_error 415 ErrorCodeInvalidInput
    ("unsupported content type: " +:+ raw_ContentType req +:+ " (use text/plain or multipart/form-data)")).

Section signed.
Context {K KeyPair RR : Type} (lib : SignerLib K KeyPair RR).
Context `{UnicodeTables} (artifactDir : string) (signingService : bool).
Context (contentDisposition : string -> string) (artifactSignatureKey artifactSignatureKeyID : string).
(** The DNS library's zone parser with the normaliser, and the text of an error. *)
Context {PrivateKey : Type} (rrlib : RRLib PrivateKey) (error_text : error -> string).
Abbreviation prog' A := (prog (op KeyPair RR) A).

(** ** Serving signed zones *)
Definition signedZoneFile (name : string) (zone : Zone) : prog' (result signedZoneResult) :=
  if signingService then
    a <~? GetPublishedSignedZone lib artifactDir name ;
    Ret (Ok (mkSigned (sa_ZoneName a) (sa_Version a) (sa_Serial a) (sa_SignedZone a) (sa_DNSSEC a)))
  else
    Ret (let* zoneFile := wrap "generate zone file" (GenerateBINDZoneFile lib zone) in
         Ok (mkSigned (z_Name zone) (z_Version zone) (Serial (z_SOA zone)) zoneFile (z_DNSSEC zone))).
Definition signedZoneContentDisposition (zoneName : string) : string := contentDisposition (SafeZoneFilename zoneName +:+ ".zone.signed").

Definition GetSignedZone (name ifNoneMatch : string) : prog' reply :=
  zone <~! get_zone "Failed to retrieve zone" name ;
  signed <~ signedZoneFile name zone ;
  Ret match signed with
      | Err e => writeSignedZoneError "Failed to retrieve signed zone" e ∅
      | Ok sz => signed_zone_reply signedZoneContentDisposition artifactSignatureKey artifactSignatureKeyID ifNoneMatch sz
      end.
Definition HeadSignedZone (name ifNoneMatch : string) : prog' reply :=
  r <~ call (DoGet name) ;
  match r with
  | Err e => Ret (if errors_Is e ErrZoneNotFound then status_only 404 else status_only 500)
  | Ok zone =>
    signed <~ signedZoneFile name zone ;
    Ret match signed with
        | Err e => status_only (signedZoneErrorStatus e)
        | Ok sz =>
          let hashHex := fst (sha256HexAndHash8 (sz_zoneFile sz)) in
          let h := artifact_headers artifactSignatureKey artifactSignatureKeyID sz in
          if negb (ifNoneMatch =? "")%string && etagMatches ifNoneMatch hashHex then mkReply 304 h NoBody
          else mkReply 200 (set_header "Content-Length" (Itoa (len (sz_zoneFile sz)))
                 (set_header "Content-Disposition" (signedZoneContentDisposition (sz_zoneName sz))
                   (set_header "Content-Type" "text/plain; charset=utf-8" h))) NoBody
        end
  end.
Definition GetSignedZoneMetadata (name ifNoneMatch : string) : prog' reply :=
  zone <~! get_zone "Failed to retrieve zone" name ;
  signed <~ signedZoneFile name zone ;
  Ret match signed with
      | Err e => writeSignedZoneError "Failed to retrieve signed zone metadata" e ∅
      | Ok sz =>
        let '(hashHex, hash8) := sha256HexAndHash8 (sz_zoneFile sz) in
        let h := set_header "X-Zone-Hash8" hash8 (set_header "X-Zone-Hash" hashHex
                   (set_header "X-Zone-Serial" (Itoa (sz_serial sz)) (set_header "ETag" (formatETag hashHex) ∅))) in
        if negb (ifNoneMatch =? "")%string && etagMatches ifNoneMatch hashHex then mkReply 304 h NoBody
        else mkReply 200 h (MetadataBody (sz_zoneName sz) (sz_version sz) (sz_serial sz) hashHex hash8
               (match sz_dnssec sz with Some cfg => Enabled cfg | None => false end))
      end.

Definition GetDSRecords (name : string) : prog' reply :=
  if negb signingService then Ret (api_error 503 ErrorCodeInternal "DNSSEC signing service not available")
  else
    zone <~! get_zone "Failed to retrieve zone" name ;
    r <~ service_GetDSRecords lib name ;
    Ret match r with
        | Err _ => internal_error "Failed to generate DS records"
        | Ok dsRecords =>
          mkReply 200 (set_header "X-Zone-Version" (z_Version zone) (set_header "X-Zone-Name" (z_Name zone)
            (set_header "Content-Type" "text/plain; charset=utf-8" ∅)))
            (Text (str_join dsRecords (str1 (chr 10)) +:+ str1 (chr 10)))
        end.

(** ** Importing a zone file *)
Definition imported_zone (rawZone origin : string) : Zone * Z + string :=
  if negb (origin =? "")%string then BindToModelWithMetadata rrlib error_text rawZone origin
  else BindToModelWithDefaultsMetadata rrlib error_text rawZone.
Definition CreateZoneRaw (req : rawRequest) : prog' reply :=
  match raw_content req with
  | inl r => Ret r
  | inr (rawZone, origin) =>
    if (TrimSpace rawZone =? "")%string then Ret (api_error 400 ErrorCodeInvalidInput "zone file content is empty")
    else
      match imported_zone rawZone origin with
      | inr errStr => Ret (raw_parse_error errStr)
      | inl (modelZone, duplicates) =>
        match NormalizeZoneDerivedFields (Some modelZone) with
        | (_, Err _) => Ret (api_error 400 ErrorCodeInvalidInput "zone validation failed")
        | (zone', Ok _) =>
          created <~! create_zone lib artifactDir signingService (fun n => "zone " +:+ n +:+ " already exists") (default modelZone zone') ;
          Ret (created_reply created (ImportBody created duplicates))
        end
      end
  end.
End signed.
