(* ===== verification/Router.v ===== *)
(** * Requests and the router of the controller API
    ([internal/controller/api/router.go], [pkg/middleware/validation.go])

    Every route of the API with the parameters its handler reads, the
    middleware a request passes on its way to the handler, and the jobs of the
    re-signing scheduler, which run beside the requests. *)

From S2P Require Import Prelude DnsRecords BindFiles Io Program GoStrings GoStringsFacts Sha256 Names Zone Validation Store FileSystem ArtifactCache Controller SigningService Http Handlers RecordHandlers SignedHandlers Auth RateLimit.
#[local] Open Scope prog_scope.

(** ** Routes *)
Inductive route :=
  | GetHealth
  | GetReady
  | GetStatus
  | PostZones (body : result createZoneRequest)
  | PostZonesRaw (req : rawRequest)
  | GetZones (offset limit fields : string)
  | HeadZoneRoute (name ifNoneMatch : string)
  | GetZoneRoute (name ifNoneMatch : string)
  | GetVersions (name offset limit : string)
  | GetVersion (name version : string)
  | PutZone (name ifMatch : string) (body : result updateZoneRequest)
  | DeleteZoneRoute (name ifMatch : string)
  | GetRecords (name : string)
  | PostRecords (name ifMatch : string) (body : result ZRecord)
  | PostRecordsBatch (name ifMatch : string) (body : result bulkRecordRequest)
  | PutRecord (name id ifMatch : string) (body : result ZRecord)
  | DeleteRecordRoute (name id ifMatch : string)
  | HeadSigned (name ifNoneMatch : string)
  | GetSigned (name ifNoneMatch : string)
  | GetSignedMetadata (name ifNoneMatch : string)
  | GetDS (name : string).

Definition method (r : route) : string :=
  match r with
  | PostZones _ | PostZonesRaw _ | PostRecords _ _ _ | PostRecordsBatch _ _ _ => "POST"
  | PutZone _ _ _ | PutRecord _ _ _ _ => "PUT"
  | DeleteZoneRoute _ _ | DeleteRecordRoute _ _ _ => "DELETE"
  | HeadZoneRoute _ _ | HeadSigned _ _ => "HEAD"
  | _ => "GET"
  end.

(** The three groups of protected routes; the others are open. *)
Inductive group := ZoneManagement | RawZoneManagement | SyncArtifacts.
Definition group_of (r : route) : option group :=
  match r with
  | GetHealth | GetReady | GetStatus => None
  | PostZonesRaw _ => Some RawZoneManagement
  | GetZones _ _ _ | HeadSigned _ _ | GetSigned _ _ | GetSignedMetadata _ _ => Some SyncArtifacts
  | _ => Some ZoneManagement
  end.
Definition group_permission (g : group) : string :=
  match g with ZoneManagement | RawZoneManagement => AuthPermissionManageZones | SyncArtifacts => AuthPermissionReadSyncArtifacts end.

(** ** Request size *)
Definition MaxRequestBodySize : Z := 10 * 1024 * 1024.
Definition rawZoneMultipartOverheadBytes : Z := 1024 * 1024.
Definition rawZoneMaxRequestBodySize : Z := DefaultMaxZoneFileSize + rawZoneMultipartOverheadBytes.
Definition group_max_size (g : group) : Z :=
  match g with RawZoneManagement => rawZoneMaxRequestBodySize | _ => MaxRequestBodySize end.
(** A reply stops the request. *)
Definition request_too_large : reply :=
  mkReply 413 ∅ (StatusBody [("error", "request_too_large"); ("message", "Request body exceeds maximum size limit")]).
Definition RequestValidatorMiddleware (maxBodySize contentLength : Z) : option reply :=
  if maxBodySize <? contentLength then Some request_too_large else None.

Definition writeRPSFromReadRPS (readRPS : Z) : Z := let writeRPS := Z.quot readRPS 10 in if writeRPS <? 1 then 1 else writeRPS.

(** ** Configuration of the listener *)
Record APIConfig := mkAPIConfig {
  Auth_Enabled : bool; Auth_keys : AuthConfig; RateLimit_Enabled : bool; RequestsPerSecond : Z; RateLimit_Burst : Z }.
(** What the middleware looks at in a request. *)
Record request_info := mkInfo { ri_key : string; ri_ip : string; ri_contentLength : Z; ri_now : Time; ri_allow : Time }.

Section router.
Context `{UnicodeTables} {L : Type} (newLimiter : Z -> Z -> L) (Allow : Time -> L -> bool * L).

Definition authenticator (cfg : APIConfig) : Authenticator :=
  NewAuthenticator (mkAuthConfig (APIKeys (Auth_keys cfg)) (APIKeyRoles (Auth_keys cfg)) "X-API-Key" (AllowImplicitAdminRoles (Auth_keys cfg))).
Definition rate_limiter (cfg : APIConfig) (now : Time) : RateLimiter (L := L) :=
  NewRateLimiter (mkRLConfig (RequestsPerSecond cfg) (writeRPSFromReadRPS (RequestsPerSecond cfg)) (RateLimit_Burst cfg) (MaxClients DefaultRateLimiterConfig)) now.

Definition answer_reply (a : answer) : option reply :=
  match a with
  | Proceed => None
  | Reject code message => Some (api_error (match code with ErrorCodeForbidden => 403 | _ => 401 end) code message)
  end.
Definition too_many_requests : reply :=
  mkReply 429 (set_header "Retry-After" "1" ∅)
    (StatusBody [("error", "rate_limit_exceeded"); ("message", "Too many requests. Please slow down.")]).
Definition limit (cfg : APIConfig) (r : route) (q : request_info) (principal : string) (rl : RateLimiter (L := L))
  : option reply * RateLimiter (L := L) :=
  match Middleware newLimiter Allow (ri_now q) (ri_allow q) (ri_ip q) principal (method r) rl with
  | (Next, rl) => (None, rl)
  | (TooManyRequests, rl) => (Some too_many_requests, rl)
  end.

(** [FailureRateLimitMiddleware]: only requests without a configured key. *)
Definition FailureRateLimitMiddleware (cfg : APIConfig) (r : route) (q : request_info) (rl : RateLimiter (L := L))
  : option reply * RateLimiter (L := L) :=
  if snd (authenticateAPIKey (authenticator cfg) (ri_key q)) then (None, rl) else limit cfg r q "" rl.

(** [permissionGuard]. *)
Definition permissionGuard (authEnabled : bool) (permission role : string) : option reply :=
  if negb authEnabled then None else answer_reply (RequirePermission [permission] role).
Definition requireSummaryListForAgent (role fields : string) : option reply :=
  if negb (role =? AuthRoleAgent)%string || listZonesSummaryOnly fields then None
  else Some (api_error 403 ErrorCodeForbidden "Agent API keys may only list zone summaries").

(** The first reply wins. *)
Definition or_else (a b : option reply) : option reply := match a with Some r => Some r | None => b end.

(** The checks after authentication and rate limiting. *)
Definition group_checks (cfg : APIConfig) (r : route) (g : group) (q : request_info) (role : string) : option reply :=
  or_else (permissionGuard (Auth_Enabled cfg) (group_permission g) role)
    (or_else (RequestValidatorMiddleware (group_max_size g) (ri_contentLength q))
      (match r with GetZones _ _ fields => requireSummaryListForAgent role fields | _ => None end)).

(** The middleware of [SetupAPIRouter]: the reply that stops the request or none,
    the principal and role it runs with, and the limiter afterwards. *)
Definition admission (cfg : APIConfig) (r : route) (q : request_info) (rl : RateLimiter (L := L))
  : option reply * RateLimiter (L := L) :=
  match group_of r with
  | None => (match r with GetStatus => RequestValidatorMiddleware MaxRequestBodySize (ri_contentLength q) | _ => None end, rl)
  | Some g =>
    let '(stop, rl) := if Auth_Enabled cfg && RateLimit_Enabled cfg then FailureRateLimitMiddleware cfg r q rl else (None, rl) in
    match stop with
    | Some x => (Some x, rl)
    | None =>
      let '(answer, who) := if Auth_Enabled cfg then AuthMiddleware (authenticator cfg) (ri_key q) else (Proceed, None) in
      match answer_reply answer with
      | Some x => (Some x, rl)
      | None =>
        let '(principal, role) := default ("", "") who in
        let '(stop, rl) := if RateLimit_Enabled cfg then limit cfg r q principal rl else (None, rl) in
        match stop with
        | Some x => (Some x, rl)
        | None => (group_checks cfg r g q role, rl)
        end
      end
    end
  end.

(** ** The observability listener *)
Definition observabilityAuthTokenMatches (authHeader expected : string) : bool :=
  let value := TrimSpace authHeader in
  if (String.length value <? 7)%nat || negb (EqualFoldASCII (str_take 7 value) "bearer ") then false
  else
    let provided := TrimSpace (str_drop 7 value) in
    if (provided =? "")%string then false
    else bool_decide (Sum256 provided = Sum256 expected).
Definition observabilityAuthMiddleware (token authHeader : string) : option reply :=
  let token := TrimSpace token in
  if (token =? "")%string then None
  else if observabilityAuthTokenMatches authHeader token then None
  else Some (mkReply 401 (set_header "WWW-Authenticate" ("Bearer realm=" +:+ str1 dquote +:+ "arca-dns-controller-observability" +:+ str1 dquote) ∅)
               (StatusBody [("error", "unauthorized")])).
End router.

(** ** Dispatch *)
Inductive request :=
  | Http (r : route)
  (** A job of the scheduler. *)
  | Resign (zone : string)
  | EarliestExpiration (zone : string).
Inductive finish :=
  | Replied (r : reply)
  | Resigned (r : result unit)
  | Expires (r : result Z).

Section dispatch.
Context `{UnicodeTables} {K KeyPair RR : Type} (lib : SignerLib K KeyPair RR).
Context (artifactDir : string) (signingService : bool).
Context (contentDisposition : string -> string) (artifactSignatureKey artifactSignatureKeyID : string).
Context {PrivateKey : Type} (rrlib : RRLib PrivateKey) (error_text : error -> string).
Context (buildInfo : string * string * string).
Abbreviation prog' A := (prog (op KeyPair RR) A).

Definition handle (r : route) : prog' reply :=
  match r with
  | GetHealth => Handlers.Health
  | GetReady => Ready
  | GetStatus => let '(version, commit, date) := buildInfo in Status version commit date
  | PostZones body => Handlers.CreateZone lib artifactDir signingService body
  | PostZonesRaw req => CreateZoneRaw lib artifactDir signingService rrlib error_text req
  | GetZones offset limit fields => Handlers.ListZones offset limit fields
  | HeadZoneRoute name inm => HeadZone name inm
  | GetZoneRoute name inm => Handlers.GetZone name inm
  | GetVersions name offset limit => ListZoneVersions name offset limit
  | GetVersion name version => GetZoneRevision name version
  | PutZone name ifMatch body => Handlers.UpdateZone lib artifactDir signingService name ifMatch body
  | DeleteZoneRoute name ifMatch => Handlers.DeleteZone signingService name ifMatch
  | GetRecords name => ListRecords name
  | PostRecords name ifMatch body => CreateRecord lib artifactDir signingService name ifMatch body
  | PostRecordsBatch name ifMatch body => BulkRecords lib artifactDir signingService name ifMatch body
  | PutRecord name id ifMatch body => UpdateRecord lib artifactDir signingService name id ifMatch body
  | DeleteRecordRoute name id ifMatch => DeleteRecord lib artifactDir signingService name id ifMatch
  | HeadSigned name inm =>
    HeadSignedZone lib artifactDir signingService contentDisposition artifactSignatureKey artifactSignatureKeyID name inm
  | GetSigned name inm =>
    GetSignedZone lib artifactDir signingService contentDisposition artifactSignatureKey artifactSignatureKeyID name inm
  | GetSignedMetadata name inm => GetSignedZoneMetadata lib artifactDir signingService name inm
  | GetDS name => GetDSRecords lib signingService name
  end.
Definition run_request (q : request) : prog' finish :=
  match q with
  | Http r => x <~ handle r ; Ret (Replied x)
  | Resign zone => x <~ ResignZone lib artifactDir zone ; Ret (Resigned x)
  | EarliestExpiration zone => x <~ GetEarliestExpiration lib artifactDir zone ; Ret (Expires x)
  end.
End dispatch.

(** ** Least privilege *)
Section privilege.
Context `{UnicodeTables} {L : Type} (newLimiter : Z -> Z -> L) (Allow : Time -> L -> bool * L).

(** The role of the key a request carries, if it is configured. *)
Definition role_of (cfg : APIConfig) (key : string) : option string :=
  let '(_, role, ok) := authenticateAPIKey (authenticator cfg) key in if ok then Some role else None.
(** What a role may call: administrators everything, agents the signed zones
    and the summary listing. *)
Definition agent_route (r : route) : bool :=
  match r with
  | GetZones _ _ fields => listZonesSummaryOnly fields
  | HeadSigned _ _ | GetSigned _ _ | GetSignedMetadata _ _ => true
  | _ => false
  end.
Definition may_call (role : string) (r : route) : Prop := role = AuthRoleAdmin \/ (role = AuthRoleAgent /\ agent_route r = true).
(** The routes that need a key, and how large a request body they take. *)
Definition protected_route (r : route) : bool := match r with GetHealth | GetReady | GetStatus => false | _ => true end.
Definition route_limit (r : route) : Z := match r with PostZonesRaw _ => rawZoneMaxRequestBodySize | _ => MaxRequestBodySize end.
Lemma protected_group r : protected_route r = true -> exists g, group_of r = Some g /\ group_max_size g = route_limit r /\ (agent_route r = true -> g = SyncArtifacts).
Proof. destruct r; try done; intros _; eexists; split_and!; try reflexivity; done. Qed.

Lemma guard_none g role : ToLower (TrimSpace role) = role ->
  permissionGuard true (group_permission g) role = None <-> role = AuthRoleAdmin \/ (role = AuthRoleAgent /\ g = SyncArtifacts).
Proof.
  intros Hr. unfold permissionGuard, RequirePermission. cbn [negb]. rewrite Hr.
  assert (forall p, p = AuthPermissionManageZones \/ p = AuthPermissionReadSyncArtifacts -> required_permissions [p] = [p]) as Hp.
  { intros p [-> | ->]; vm_compute; reflexivity. }
  rewrite Hp by (destruct g; cbn; auto). cbn [forallb]. rewrite andb_true_r.
  destruct (roleHasPermission role (group_permission g)) eqn:E.
  - apply roleHasPermission_true in E. split; [intros _|done]. destruct g; naive_solver.
  - split; [done|]. intros Hrole. enough (roleHasPermission role (group_permission g) = true) by congruence.
    apply roleHasPermission_true. destruct Hrole as [->|[-> ->]]; [destruct g; cbn; auto|by right].
Qed.

Lemma checks_none cfg r g q role : Auth_Enabled cfg = true -> group_of r = Some g -> (agent_route r = true -> g = SyncArtifacts) -> ToLower (TrimSpace role) = role ->
  group_checks cfg r g q role = None <-> may_call role r /\ ri_contentLength q <= group_max_size g.
Proof.
  intros Ha Hg Hag Hr. unfold group_checks. rewrite Ha. pose proof (guard_none g role Hr) as Hguard.
  destruct (permissionGuard true (group_permission g) role) as [x|] eqn:Ep; cbn [or_else].
  { split; [done|]. intros [Hm _]. exfalso. enough (Some x = None) by done. apply Hguard.
    destruct Hm as [->|(-> & Hs)]; [by left|right]. auto. }
  specialize (proj1 Hguard eq_refl) as Hrole. unfold RequestValidatorMiddleware.
  destruct (Z.ltb_spec (group_max_size g) (ri_contentLength q)) as [Hlt|Hle]; cbn [or_else].
  { split; [done|]. intros [_ ?]. lia. }
  destruct (decide (role = AuthRoleAdmin)) as [->|Hna].
  { destruct r; (split; [intros _; split; [by left|done]|intros _]); done. }
  destruct Hrole as [?|[-> ->]]; [done|]. unfold requireSummaryListForAgent, may_call.
  destruct r; try discriminate Hg; cbn [agent_route]; try (split; [intros _; split; [by right|done]|done]).
  rewrite String.eqb_refl. cbn [negb orb]. destruct (listZonesSummaryOnly fields); split; try done; [intros _; split; [by right|done]|intros [[?|[_ ?]] _]; done].
Qed.

(** With authentication on, the middleware lets a request through to a
    protected handler only if its key is configured with a role that may call
    it: administrators may call everything, agents only the signed-zone routes
    and the summary form of the zone listing; the declared body must fit the
    limit of the route.  Without rate limiting every such request is let
    through. *)
Lemma admission_exact (cfg : APIConfig) (r : route) (q : request_info) (rl : RateLimiter (L := L)) :
  Auth_Enabled cfg = true -> protected_route r = true ->
  (forall role, role_of cfg (ri_key q) = Some role -> ToLower (TrimSpace role) = role) ->
  let admitted := fst (admission newLimiter Allow cfg r q rl) = None in
  let entitled := exists role, role_of cfg (ri_key q) = Some role /\ may_call role r /\ ri_contentLength q <= route_limit r in
  (admitted -> entitled) /\ (RateLimit_Enabled cfg = false -> entitled -> admitted).
Proof.
  intros Ha (g & Hg & Hsize & Hag)%protected_group Hnorm. cbv zeta. rewrite <- Hsize. unfold admission. rewrite Hg, Ha. cbn [andb].
  destruct (if RateLimit_Enabled cfg then FailureRateLimitMiddleware newLimiter Allow cfg r q rl else (None, rl)) as [stop rl1] eqn:Efirst.
  unfold AuthMiddleware, role_of in *. destruct (authenticateAPIKey (authenticator cfg) (ri_key q)) as [[p role] ok] eqn:Eauth.
  split.
  - destruct stop; [done|]. destruct ok; cbn [negb answer_reply]; [|by destruct (ri_key q =? "")%string]. cbn [default from_option id].
    destruct (if RateLimit_Enabled cfg then limit newLimiter Allow cfg r q p rl1 else (None, rl1)) as [[x|] rl2]; [done|]. cbn [fst]. intros Hc.
    exists role. split; [done|]. exact (proj1 (checks_none cfg r g q role Ha Hg Hag (Hnorm role eq_refl)) Hc).
  - intros Hrate (role' & Hrole & Hok). rewrite Hrate in *. injection Efirst as <- <-. destruct ok; [|done]. injection Hrole as <-.
    cbn [negb answer_reply default from_option id fst]. by apply (checks_none cfg r g q role Ha Hg Hag (Hnorm role eq_refl)).
Qed.
End privilege.

#[local] Existing Instance ascii_tables.
Definition demo_api : APIConfig := mkAPIConfig true demo_auth true 100 20.
Definition demo_info (key : string) : request_info := mkInfo key "192.0.2.1" 0 0 0.
(** An agent may not read a zone, nor list zones in full. *)
Example agent_refused :
  let rl := NewRateLimiter (L := Z) DefaultRateLimiterConfig 0 in
  option_map r_status (fst (admission demo_bucket demo_allow demo_api (GetZoneRoute "example.org" "") (demo_info "agent-key") rl)) = Some 403
  /\ option_map r_status (fst (admission demo_bucket demo_allow demo_api (GetZones "" "" "full") (demo_info "agent-key") rl)) = Some 403
  /\ option_map r_status (fst (admission demo_bucket demo_allow demo_api (GetZones "" "" "summary") (demo_info "agent-key") rl)) = None
  /\ option_map r_status (fst (admission demo_bucket demo_allow demo_api (GetZones "" "" "summary") (demo_info "wrong") rl)) = Some 401.
Proof. vm_compute. split_and!; reflexivity. Qed.
