(* ===== verification/ConfigFacts.v ===== *)
(** * What an accepted controller configuration guarantees

    [ControllerReady] collects what the components built from a configuration rely on;
    the theorems discharge it and connect the API keys to the
    authenticator.  [range] lists a map in any order. *)

From S2P Require Import Prelude GoStrings GoStringsFacts GoSort GoNet Sha256 BindFiles Zone Http ConfigData ConfigController Auth RateLimit Router.

(** ** Hashes *)
Definition hash_text (digest : list Z) : string := "sha256:" +:+ hex_EncodeToString digest.
Definition digest_ok (digest : list Z) : Prop := length digest = 32%nat /\ Forall (fun b => 0 <= b < 256) digest.

Lemma hex_digit_char a x : hex_digit a = Some x -> 0 <= x < 16 /\ hex_char x = lower_byte a /\ byte a < 128.
Proof.
  intros Hx. assert (forall n, (n < 256)%nat -> forall x, hex_digit (chr (Z.of_nat n)) = Some x ->
    0 <= x < 16 /\ hex_char x = lower_byte (chr (Z.of_nat n)) /\ byte (chr (Z.of_nat n)) < 128) as Hall.
  { intros n Hn y Hy. assert (forallb (fun n => match hex_digit (chr (Z.of_nat n)) with
        | Some y => (0 <=? y) && (y <? 16) && Ascii.eqb (hex_char y) (lower_byte (chr (Z.of_nat n))) && (byte (chr (Z.of_nat n)) <? 128)
        | None => true end) (List.seq 0 256) = true) as Hc by (vm_compute; reflexivity).
    rewrite forallb_forall in Hc. specialize (Hc n ltac:(apply in_seq; lia)). rewrite Hy in Hc.
    rewrite !andb_true_iff, Z.leb_le, !Z.ltb_lt, Ascii.eqb_eq in Hc. tauto. }
  specialize (Hall (N.to_nat (N_of_ascii a))). assert (chr (Z.of_nat (N.to_nat (N_of_ascii a))) = a) as Ea.
  { unfold chr. replace (Z.to_N (Z.of_nat (N.to_nat (N_of_ascii a)))) with (N_of_ascii a) by lia. apply Ascii.ascii_N_embedding. }
  rewrite Ea in Hall. apply Hall; [|done]. pose proof (Ascii.N_ascii_bounded a). lia.
Qed.
Lemma hex_decode_spec (s : string) : forall bs, hex_DecodeString s = Some bs ->
  str_map lower_byte s = hex_EncodeToString bs /\ is_ascii s = true /\ Forall (fun b => 0 <= b < 256) bs.
Proof.
  induction s as [s IH] using (induction_ltof1 _ String.length). unfold ltof in IH. destruct s as [|a [|b t]]; intros bs Hd.
  - by injection Hd as <-.
  - discriminate.
  - cbn [hex_DecodeString] in Hd. destruct (hex_digit a) as [x|] eqn:Ea; [|discriminate]. destruct (hex_digit b) as [y|] eqn:Eb; [|discriminate].
    destruct (hex_DecodeString t) as [l|] eqn:Et; [|discriminate]. injection Hd as <-.
    destruct (IH t ltac:(simpl; lia) l Et) as (E1 & E2 & E3). destruct (hex_digit_char a x Ea) as (? & Ha & ?), (hex_digit_char b y Eb) as (? & Hb & ?).
    cbn [str_map hex_EncodeToString]. rewrite Z.div_add_l, Z.div_small, Z.add_0_r, Z.add_comm, Z_mod_plus_full, Z.mod_small by lia.
    rewrite Ha, Hb, E1. split_and!; [done| |constructor; [lia|done]]. unfold is_ascii in *. cbn [str_forallb].
    by rewrite E2, !(proj2 (Z.ltb_lt _ 128)) by done.
Qed.

Section hashes.
Context `{UnicodeTables}.
Lemma normalized_hash hash h : normalizeSHA256APIKeyHash hash = Some h -> exists digest, digest_ok digest /\ h = hash_text digest.
Proof.
  unfold normalizeSHA256APIKeyHash. destruct (strip_prefix _ _) as [hex|]; [|discriminate]. destruct (Z.eqb_spec (len hex) 64) as [El|]; [|discriminate].
  cbn [negb]. destruct (hex_DecodeString hex) as [bs|] eqn:Ed; [|discriminate]. intros [= <-].
  destruct (hex_decode_spec hex bs Ed) as (E & Ea & Hr). exists bs. unfold hash_text. rewrite ToLower_ascii, E by done. split; [|done]. split; [|done].
  assert (String.length (hex_EncodeToString bs) = String.length hex) as El' by (rewrite <- E; apply str_map_length).
  rewrite hex_length in El'. unfold len in El. lia.
Qed.

Lemma lower_hex_graphic c : is_lower_hex c = true -> graphic c = true /\ lower_byte c = c /\ byte c < 128.
Proof.
  unfold is_lower_hex, graphic, lower_byte. intros Hc. apply orb_true_iff in Hc. rewrite !andb_true_iff, !Z.leb_le in Hc. split_and!.
  - apply andb_true_iff. rewrite ?Z.leb_le, ?Z.ltb_lt. lia.
  - destruct ((65 <=? byte c) && (byte c <=? 90)) eqn:E; [|done]. rewrite andb_true_iff, !Z.leb_le in E. lia.
  - lia.
Qed.
Lemma hash_text_plain digest : digest_ok digest -> ToLower (TrimSpace (hash_text digest)) = hash_text digest.
Proof.
  intros [_ Hr]. pose proof (hex_encode_lower digest Hr) as Hl. assert (str_forallb (fun c => graphic c) (hash_text digest) = true) as Hg.
  { unfold hash_text. rewrite str_forallb_app. apply andb_true_iff. split; [vm_compute; reflexivity|].
    revert Hl. apply str_forallb_impl. intros c Hc. apply lower_hex_graphic, Hc. }
  rewrite TrimSpace_graphic by done. rewrite ToLower_ascii.
  - unfold hash_text. rewrite str_map_app. f_equal. revert Hl. generalize (hex_EncodeToString digest).
    induction s as [|a s IH]; [done|]. cbn [str_forallb str_map]. intros [Ha Hs]%andb_true_iff. rewrite IH by done. f_equal. apply lower_hex_graphic, Ha.
  - unfold is_ascii, hash_text. rewrite str_forallb_app. apply andb_true_iff. split; [vm_compute; reflexivity|].
    revert Hl. apply str_forallb_impl. intros c Hc. apply Z.ltb_lt, lower_hex_graphic, Hc.
Qed.
Lemma parse_hash_text digest : digest_ok digest -> parseSHA256APIKeyHash (hash_text digest) = Some digest.
Proof.
  intros Hd. unfold parseSHA256APIKeyHash. rewrite hash_text_plain by done. unfold hash_text.
  assert (strip_prefix "sha256:" ("sha256:" +:+ hex_EncodeToString digest) = Some (hex_EncodeToString digest)) as -> by (by apply strip_prefix_Some).
  destruct Hd as [Hl Hr]. assert (len (hex_EncodeToString digest) = 64) as -> by (unfold len; rewrite hex_length; lia).
  cbn [negb Z.eqb Pos.eqb]. by rewrite hex_round_trip, Hl by done.
Qed.
Lemma hash_text_inj d d' : digest_ok d -> digest_ok d' -> hash_text d = hash_text d' -> d = d'.
Proof. intros Hd Hd' E. pose proof (parse_hash_text d Hd) as H1. rewrite E, parse_hash_text in H1 by done. by injection H1. Qed.
End hashes.

(** ** API keys *)
Record auth_ready (auth : AuthSection) : Prop := {
  (* every key is a SHA-256 digest, and no two keys are the same *)
  ar_hashes : forall name h, au_APIKeys auth !! name = Some h -> exists digest, digest_ok digest /\ h = hash_text digest;
  ar_distinct : forall n1 n2 h, au_APIKeys auth !! n1 = Some h -> au_APIKeys auth !! n2 = Some h -> n1 = n2;
  (* exactly the keys have roles *)
  ar_roles : forall name, is_Some (au_APIKeyRoles auth !! name) <-> is_Some (au_APIKeys auth !! name);
  ar_known : forall name role, au_APIKeyRoles auth !! name = Some role -> role = AuthRoleAdmin \/ role = AuthRoleAgent;
  ar_admin : exists name, au_APIKeyRoles auth !! name = Some AuthRoleAdmin }.

Section auth.
Context `{UnicodeTables} (range : gmap string string -> list (string * string)) (range_perm : forall m, range m ≡ₚ map_to_list m).

Lemma range_elem m n v : (n, v) ∈ range m <-> m !! n = Some v.
Proof. by rewrite range_perm, elem_of_map_to_list. Qed.
Lemma range_NoDup m : NoDup (range m).*1.
Proof. rewrite range_perm. apply NoDup_fst_map_to_list. Qed.
Lemma range_names m n : n ∈ map fst (range m) <-> is_Some (m !! n).
Proof.
  change (map fst (range m)) with ((range m).*1). rewrite list_elem_of_fmap. split.
  - intros ([n' v] & -> & Hv%range_elem). eauto.
  - intros [v Hv%range_elem]. by exists (n, v).
Qed.

Lemma check_api_keys_spec entries : forall seen keys keys', NoDup entries.*1 -> check_api_keys seen keys entries = Ok keys' ->
  (forall n, n ∉ entries.*1 -> keys' !! n = keys !! n)
  /\ (forall n h, (n, h) ∈ entries -> exists nh, normalizeSHA256APIKeyHash h = Some nh /\ keys' !! n = Some nh /\ seen !! nh = None)
  /\ (forall n1 n2 h, n1 ∈ entries.*1 -> n2 ∈ entries.*1 -> keys' !! n1 = Some h -> keys' !! n2 = Some h -> n1 = n2).
Proof.
  induction entries as [|[name hash] entries IH]; intros seen keys keys' Hnd Hc; cbn [check_api_keys] in Hc.
  - injection Hc as <-. split_and!; [done|intros ? ? Hx; by apply elem_of_nil in Hx|intros ? ? ? Hx; by apply elem_of_nil in Hx].
  - cbn [fmap list_fmap fst] in *. apply NoDup_cons in Hnd as [Hn Hnd]. destruct (_ =? "")%string; [discriminate|].
    destruct (normalizeSHA256APIKeyHash hash) as [nh|] eqn:Eh; [|discriminate]. destruct (seen !! nh) eqn:Es; [discriminate|].
    destruct (IH _ _ _ Hnd Hc) as (H1 & H2 & H3). pose proof (H1 name Hn) as En. rewrite lookup_insert_eq in En.
    assert (Hfresh : forall n, n ∈ entries.*1 -> keys' !! n <> Some nh).
    { intros n ([n' h] & -> & Hin)%list_elem_of_fmap Hk. destruct (H2 n' h Hin) as (nh' & _ & Hk' & Hs'). cbn [fst] in Hk. rewrite Hk in Hk'. injection Hk' as <-.
      rewrite lookup_insert_eq in Hs'. discriminate. }
    split_and!.
    + intros n [Hne Hout]%not_elem_of_cons. rewrite H1, lookup_insert_ne by done. done.
    + intros n h [[= -> ->]|Hin]%elem_of_cons; [by exists nh|]. destruct (H2 n h Hin) as (nh' & ? & ? & Hs'). exists nh'. split_and!; [done..|].
      destruct (decide (nh' = nh)) as [->|Hne]; [done|]. by rewrite lookup_insert_ne in Hs'.
    + intros n1 n2 h [->|Hin1]%elem_of_cons [->|Hin2]%elem_of_cons E1 E2; [done| | |eauto]; exfalso;
        [apply (Hfresh n2)|apply (Hfresh n1)]; congruence.
Qed.

Definition role_ok (role : string) : Prop := role = AuthRoleAdmin \/ role = AuthRoleAgent.
Lemma check_roles_spec keys entries : forall roles roles', check_roles keys roles entries = Ok roles' ->
  forall n r, roles' !! n = Some r -> roles !! n = Some r \/ (is_Some (keys !! n) /\ role_ok r).
Proof.
  induction entries as [|[name role] entries IH]; intros roles roles' Hc n r Hr; cbn [check_roles] in Hc; [injection Hc as <-; by left|].
  destruct (_ =? "")%string; [discriminate|]. case_bool_decide as Hk; [|discriminate]. cbn [negb] in Hc.
  destruct (_ || _) eqn:Er; [|discriminate]. destruct (IH _ _ Hc n r Hr) as [Hl|?]; [|by right].
  apply lookup_insert_Some in Hl as [[<- <-]|[_ ?]]; [|by left]. right. split; [done|].
  apply orb_true_iff in Er as [E|E]; apply String.eqb_eq in E; [by left|by right].
Qed.
Lemma implicit_roles_spec allow names : forall roles roles', implicit_roles allow roles names = (roles', []) ->
  (forall n, n ∈ names -> is_Some (roles' !! n))
  /\ (forall n r, roles' !! n = Some r -> roles !! n = Some r \/ (n ∈ names /\ r = AuthRoleAdmin))
  /\ (forall n, is_Some (roles !! n) -> is_Some (roles' !! n)).
Proof.
  induction names as [|x names IH]; intros roles roles' Hi; cbn [implicit_roles] in Hi.
  - injection Hi as <-. split_and!; [intros n Hn; by apply elem_of_nil in Hn|by left|done].
  - destruct (roles !! x) eqn:Ex; [|destruct allow].
    + destruct (IH _ _ Hi) as (H1 & H2 & H3). split_and!; [|intros n r Hn; destruct (H2 n r Hn) as [?|[? ?]]; [by left|right; split; [by right|done]]|done].
      intros n [->|Hn]%elem_of_cons; [|auto]. apply H3. eauto.
    + destruct (IH _ _ Hi) as (H1 & H2 & H3). split_and!.
      * intros n [->|Hn]%elem_of_cons; [|auto]. apply H3. rewrite lookup_insert_eq. eauto.
      * intros n r Hn. destruct (H2 n r Hn) as [Hl|[? ?]]; [|right; split; [by right|done]].
        apply lookup_insert_Some in Hl as [[<- <-]|[_ ?]]; [|by left]. right. split; [by left|done].
      * intros n Hn. apply H3. destruct (decide (n = x)) as [->|]; [rewrite lookup_insert_eq; eauto|by rewrite lookup_insert_ne].
    + destruct (implicit_roles false roles names) as [? ?]. discriminate.
Qed.

Lemma accepted_auth auth auth' : validateControllerAuthConfig range auth = Ok auth' ->
  au_Enabled auth' = au_Enabled auth /\ (au_Enabled auth' = true -> auth_ready auth').
Proof.
  unfold validateControllerAuthConfig. destruct (au_Enabled auth) eqn:Ee; cbn [negb]; [|intros [= <-]; by rewrite Ee].
  destruct (_ =? 0)%nat; [discriminate|]. intros Hv. inv_ok. destruct (implicit_roles _ _ _) as [roles missing] eqn:Ei.
  destruct (sort_Strings missing) eqn:Es; [|discriminate]. destruct (existsb _ _) eqn:Ea; [|discriminate]. injection Hv as <-.
  assert (missing = []) as -> by (apply Permutation_nil_r; rewrite <- Es; symmetry; apply sort_Slice_Permutation).
  destruct (check_api_keys_spec _ _ _ _ (range_NoDup _) Heqr) as (_ & K2 & K3). pose proof (check_roles_spec _ _ _ _ Heqr0) as Hr.
  destruct (implicit_roles_spec _ _ _ _ Ei) as (I1 & I2 & _). split; [done|]. intros _.
  assert (Hin : forall n, is_Some (a !! n) -> n ∈ (range (au_APIKeys auth)).*1).
  { intros n [h Hh]. destruct (check_api_keys_spec _ _ _ _ (range_NoDup _) Heqr) as (K1 & _). destruct (decide (n ∈ (range (au_APIKeys auth)).*1)) as [|Hno]; [done|].
    rewrite K1 in Hh by done. apply range_names. eauto. }
  assert (Hknown : forall n r, roles !! n = Some r -> is_Some (a !! n) /\ role_ok r).
  { intros n r [Hl|[Hn ->]]%I2; [|split; [by apply range_names|by left]].
    destruct (Hr _ _ Hl) as [Hl'|?]; [by rewrite lookup_empty in Hl'|done]. }
  constructor; cbn [au_APIKeys au_APIKeyRoles].
  - intros n h Hh.
    pose proof (Hin n ltac:(eauto)) as ([n' h0] & -> & Hin')%list_elem_of_fmap. destruct (K2 n' h0 Hin') as (nh & Hn & Hk & _). cbn [fst] in Hh.
    rewrite Hh in Hk. injection Hk as ->. by apply normalized_hash in Hn.
  - intros n1 n2 h E1 E2. apply (K3 n1 n2 h); eauto.
  - intros n. split; [intros [r Hl]; by destruct (Hknown n r Hl)|]. intros Hk. apply I1. by apply range_names.
  - intros n r Hl. apply Hknown in Hl as [_ ?]. done.
  - apply existsb_exists in Ea as ([n r] & Hl & E). apply list_elem_of_In in Hl. apply range_elem in Hl. apply String.eqb_eq in E. cbn in E. subst r. by exists n.
Qed.
End auth.

(** ** Admission to the API *)

(** The listener's settings ([SetupAPIRouter]). *)
Definition api_config (api : APISection) : APIConfig :=
  mkAPIConfig (au_Enabled (api_Auth api)) (mkAuthConfig (au_APIKeys (api_Auth api)) (au_APIKeyRoles (api_Auth api)) "X-API-Key" (au_AllowImplicitAdminRoles (api_Auth api)))
    (rl_Enabled (api_RateLimit api)) (rl_RequestsPerSecond (api_RateLimit api)) (rl_Burst (api_RateLimit api)).

Section admission.
Context `{UnicodeTables}.

Lemma known_role_plain role : role_ok role -> ToLower (TrimSpace role) = role /\ TrimSpace role = role.
Proof. intros [-> | ->]; split; reflexivity. Qed.

(** The key of a request names one configured key and its role. *)
Lemma ready_role auth cfg key role : auth_ready auth ->
  APIKeys (Auth_keys cfg) = au_APIKeys auth -> APIKeyRoles (Auth_keys cfg) = au_APIKeyRoles auth ->
  role_of cfg key = Some role <->
  key <> "" /\ exists name, au_APIKeys auth !! name = Some (hash_text (Sum256 key)) /\ au_APIKeyRoles auth !! name = Some role.
Proof.
  intros Hready Ek Er. unfold role_of, authenticator. rewrite Ek, Er. set (ac := mkAuthConfig _ _ _ _).
  assert (Hh : forall n d, digest_ok d -> configured_hash ac n = Some d <-> au_APIKeys auth !! n = Some (hash_text d)).
  { intros n d Hd. unfold configured_hash, ac. cbn [APIKeys]. split.
    - destruct (au_APIKeys auth !! n) as [h|] eqn:E; [|done]. destruct (ar_hashes _ Hready n h E) as (d' & Hd' & ->). cbn. rewrite hash_text_plain, parse_hash_text by done. congruence.
    - intros ->. cbn. by rewrite hash_text_plain, parse_hash_text. }
  assert (Hd : digest_ok (Sum256 key)) by (split; [apply Sum256_length|apply Sum256_range]).
  assert (Hrole : forall n r, is_Some (au_APIKeys auth !! n) -> au_APIKeyRoles auth !! n = Some r -> roles_of ac !! n = Some r).
  { intros n r Hn Hr. pose proof (ar_known _ Hready _ _ Hr) as Hknown. unfold roles_of, normalizeConfiguredAPIKeyRoles, ac. cbn [APIKeys APIKeyRoles AllowImplicitAdminRoles].
    assert (Hbase : ((fun r => ToLower (TrimSpace r)) <$> au_APIKeyRoles auth) !! n = Some r).
    { rewrite lookup_fmap, Hr. cbn. f_equal. by apply known_role_plain. }
    destruct (_ =? 0)%nat; [done|]. destruct (AllowImplicitAdminRoles (Auth_keys cfg)); [|done].
    revert Hbase. generalize ((fun r => ToLower (TrimSpace r)) <$> au_APIKeyRoles auth). generalize (names_of (normalizeConfiguredAPIKeys (au_APIKeys auth))).
    induction l as [|x l IH]; intros m Hm; [done|]. cbn [foldl]. apply IH. unfold implicit_admin.
    destruct (decide (x = n)) as [->|Hne]; [rewrite Hm; cbn [default from_option id]; rewrite (proj2 (known_role_plain r Hknown)); by destruct Hknown as [-> | ->]|].
    destruct (_ =? "")%string; [by rewrite lookup_insert_ne|done]. }
  destruct (authenticate_spec ac key) as [(p & Hk & Hp & -> & _)|[Hno ->]].
  - apply Hh in Hp; [|done]. destruct (proj2 (ar_roles _ Hready p) ltac:(eauto)) as [r Hr]. rewrite (Hrole p r ltac:(eauto) Hr). cbn [default from_option id].
    rewrite (proj2 (known_role_plain r (ar_known _ Hready _ _ Hr))). split.
    + intros [= <-]. eauto.
    + intros (_ & n & Hn & Hnr). rewrite (ar_distinct _ Hready n p _ Hn Hp) in Hnr. congruence.
  - split; [done|]. intros (Hk & n & Hn & _). destruct Hno as [?|Hno]; [done|]. exfalso. apply (Hno n). by apply Hh.
Qed.
End admission.

(** ** The whole configuration *)
Definition proxy_ready (proxy : string) : Prop :=
  (exists ones, ParseCIDR proxy = Some ones /\ ones <> 0) \/ (exists ip, ParseIP proxy = Some ip /\ IsUnspecified ip = false).
Record dnssec_ready (d : DNSSECSection) : Prop := {
  dr_algorithm : ds_Algorithm d = 8 \/ ds_Algorithm d = 13;
  dr_keys : IsAbs (ds_KeyDirectory d) = true;
  (* a signature is due for renewal while it is still valid *)
  dr_threshold : 0 < ds_ResignThreshold d < ds_SignatureValidity d;
  dr_inception : 0 <= ds_SignatureInception d;
  dr_salt : 0 <= ds_NSEC3SaltLength d;
  dr_interval : ds_SchedulerEnabled d = true -> 0 < ds_SchedulerCheckInterval d }.
Record ControllerReady `{UnicodeFold} (cfg : ControllerConfig) : Prop := {
  cr_auth : au_Enabled (api_Auth (cfg_API cfg)) = true -> auth_ready (api_Auth (cfg_API cfg));
  cr_exposure : au_Enabled (api_Auth (cfg_API cfg)) = false -> isLoopbackListenEndpoint (api_Listen (cfg_API cfg)) = true;
  cr_observability : obs_AuthToken (cfg_Observability cfg) = "" -> isLoopbackListenEndpoint (obs_Listen (cfg_Observability cfg)) = true;
  cr_listeners : listenEndpointsOverlap (api_Listen (cfg_API cfg)) (obs_Listen (cfg_Observability cfg)) = false;
  cr_signature_key : minArtifactSignatureKeyBytes <= len (TrimSpace (api_ArtifactSignatureKey (cfg_API cfg)));
  cr_proxies : Forall proxy_ready (api_TrustedProxies (cfg_API cfg));
  cr_rate : rl_Enabled (api_RateLimit (cfg_API cfg)) = true -> 0 < rl_RequestsPerSecond (api_RateLimit (cfg_API cfg)) /\ 0 < rl_Burst (api_RateLimit (cfg_API cfg));
  cr_backend : be_Type (cfg_Backend cfg) ∈ validBackendTypes;
  cr_dnssec : ds_Enabled (cfg_DNSSEC cfg) = true -> dnssec_ready (cfg_DNSSEC cfg);
  cr_artifacts : IsAbs (st_ArtifactDirectory (cfg_Storage cfg)) = true;
  cr_versions : 1 <= st_MaxVersionsPerZone (cfg_Storage cfg) }.

Lemma absolute_path_ok field path : validateAbsoluteLocalPath field path = Ok tt -> IsAbs path = true /\ path = TrimSpace path /\ path <> "".
Proof.
  unfold validateAbsoluteLocalPath. destruct (String.eqb_spec (TrimSpace path) "") as [|Hne]; [done|]. cbn [guard_err rbind].
  destruct (String.eqb_spec (TrimSpace path) path) as [E|]; [|done]. cbn [negb guard_err rbind]. intros Hv. inv_ok. apply negb_false_iff in Heqb.
  split_and!; congruence.
Qed.

Section ready.
Context `{UnicodeTables, UnicodeFold, NetUrl} (valid_branch : string -> bool).
Context (range : gmap string string -> list (string * string)) (range_perm : forall m, range m ≡ₚ map_to_list m).

Lemma normalized_proxies proxies : forall i proxies', normalize_proxies i proxies = Ok proxies' -> Forall proxy_ready proxies'.
Proof.
  induction proxies as [|proxy proxies IH]; intros i proxies' Hn; cbn [normalize_proxies] in Hn; [by injection Hn as <-|]. inv_ok. subst proxies'.
  constructor; [|eauto]. unfold normalize_proxy in Heqr. destruct (_ =? "")%string; [discriminate|]. destruct (Contains _ _).
  - destruct (ParseCIDR _) as [ones|] eqn:Ec; [|discriminate]. destruct (Z.eqb_spec ones 0); [discriminate|]. injection Heqr as <-. left. eauto.
  - destruct (ParseIP _) as [ip|] eqn:Ei; [|discriminate]. destruct (IsUnspecified ip) eqn:Eu; [discriminate|]. injection Heqr as <-. right. eauto.
Qed.
Lemma signature_key_ok field key : validateArtifactSignatureKey field key true = Ok tt -> minArtifactSignatureKeyBytes <= len (TrimSpace key).
Proof. unfold validateArtifactSignatureKey. destruct (_ =? "")%string; [done|]. intros Hv. inv_ok. by apply Z.ltb_ge. Qed.

Lemma accepted_api api o api' o' : validateControllerAPIConfig range api o = Ok (api', o') ->
  (au_Enabled (api_Auth api') = true -> auth_ready (api_Auth api'))
  /\ (au_Enabled (api_Auth api') = false -> isLoopbackListenEndpoint (api_Listen api') = true)
  /\ (obs_AuthToken o' = "" -> isLoopbackListenEndpoint (obs_Listen o') = true)
  /\ listenEndpointsOverlap (api_Listen api') (obs_Listen o') = false
  /\ minArtifactSignatureKeyBytes <= len (TrimSpace (api_ArtifactSignatureKey api'))
  /\ Forall proxy_ready (api_TrustedProxies api')
  /\ (rl_Enabled (api_RateLimit api') = true -> 0 < rl_RequestsPerSecond (api_RateLimit api') /\ 0 < rl_Burst (api_RateLimit api')).
Proof.
  unfold validateControllerAPIConfig. intros Hv. inv_ok. simplify_eq. cbn [api_Auth api_Listen obs_AuthToken obs_Listen api_ArtifactSignatureKey api_TrustedProxies api_RateLimit].
  match goal with E : validateControllerAuthConfig _ _ = Ok _ |- _ => destruct (accepted_auth range range_perm _ _ E) as [_ Hauth] end.
  match goal with E : validateControllerAuthExposure _ _ = Ok _ |- _ => rename E into Hexp end.
  match goal with E : validateObservabilityAuthConfig _ = Ok _ |- _ => rename E into Hobs end.
  match goal with E : validateControllerRateLimitConfig _ = Ok _ |- _ => rename E into Hrate end.
  split_and!; [done| | |done| | |].
  - unfold validateControllerAuthExposure in Hexp. intros Ed. rewrite Ed in Hexp. by destruct (isLoopbackListenEndpoint _).
  - unfold validateObservabilityAuthConfig in Hobs. inv_ok. simplify_eq. cbn [obs_AuthToken obs_Listen] in *. intros Et. rewrite Et in *. by destruct (isLoopbackListenEndpoint _).
  - by eapply signature_key_ok.
  - by eapply normalized_proxies.
  - unfold validateControllerRateLimitConfig in Hrate. intros Er. rewrite Er in Hrate. cbn [negb] in Hrate. inv_ok. rewrite !Z.leb_gt in *. lia.
Qed.

Lemma accepted_dnssec cfg : validateControllerDNSSECConfig cfg = Ok tt -> TrimSpace (ds_KeyDirectory (cfg_DNSSEC cfg)) <> "" \/ TrimSpace (st_KeyDirectory (cfg_Storage cfg)) = "" ->
  ds_Enabled (cfg_DNSSEC cfg) = true -> dnssec_ready (cfg_DNSSEC cfg).
Proof.
  unfold validateControllerDNSSECConfig. intros Hv Halias Hen. rewrite Hen in Hv. cbn [negb] in Hv. inv_ok.
  repeat match goal with
  | E : negb _ = false |- _ => apply negb_false_iff in E | E : (_ <? _) = false |- _ => apply Z.ltb_ge in E
  | E : (_ <=? _) = false |- _ => apply Z.leb_gt in E end.
  constructor; [| |lia|lia|lia|].
  - match goal with E : (_ || _) = true |- _ => apply orb_true_iff in E as [E|E]; apply Z.eqb_eq in E; auto end.
  - revert Heqr. destruct (String.eqb_spec (TrimSpace (ds_KeyDirectory (cfg_DNSSEC cfg))) "") as [Ek|Hk]; cbn [negb]; intros Heqr.
    + destruct Halias as [?|Es]; [done|]. unfold DNSSECKeyDirectory in *. rewrite Ek, Es in *. discriminate.
    + by destruct (absolute_path_ok _ _ Heqr).
  - intros Es. rewrite Es in *. cbn [andb] in *. match goal with E : (ds_SchedulerCheckInterval _ <=? 0) = false |- _ => by apply Z.leb_gt | _ => lia end.
Qed.

Lemma accepted_backend backend backend' : ValidateControllerBackendConfig valid_branch backend = Ok tt -> validateControllerRuntimeBackendConfig backend = Ok backend' ->
  be_Type backend' ∈ validBackendTypes.
Proof.
  unfold ValidateControllerBackendConfig, validateControllerRuntimeBackendConfig. intros Hv Hr. inv_ok. match goal with E : negb (bool_decide _) = false |- _ => apply negb_false_iff, bool_decide_eq_true in E end.
  repeat (match goal with E : (if ?b then _ else _) = Ok backend' |- _ => destruct b end; [inv_ok; by simplify_eq|]). by simplify_eq.
Qed.

Lemma validated_controller cfg cfg' : ValidateControllerConfig valid_branch range cfg = Ok cfg' -> ControllerReady cfg'.
Proof.
  unfold ValidateControllerConfig. intros Hv. destruct (validateControllerAPIConfig range (cfg_API cfg) (cfg_Observability cfg)) as [[api o]|] eqn:Hapi; [|done]. cbn [rbind fst snd] in Hv. inv_ok. subst cfg'.
  destruct (accepted_api _ _ _ _ Hapi) as (A1 & A2 & A3 & A4 & A5 & A6 & A7). pose proof (accepted_backend _ _ Heqr Heqr0) as Hb.
  set (c := mkController _ _ _ _ _ _) in *. assert (Hc : cfg_API (applyControllerKeyDirectoryAlias c) = api /\ cfg_Observability (applyControllerKeyDirectoryAlias c) = o
    /\ cfg_Backend (applyControllerKeyDirectoryAlias c) = a0 /\ cfg_Storage (applyControllerKeyDirectoryAlias c) = cfg_Storage cfg) by (unfold applyControllerKeyDirectoryAlias; by destruct (_ && _)).
  destruct Hc as (Ea & Eo & Eb & Es). constructor; rewrite ?Ea, ?Eo, ?Eb, ?Es; try done.
  - apply accepted_dnssec; [done|]. unfold applyControllerKeyDirectoryAlias. destruct (String.eqb_spec (TrimSpace (ds_KeyDirectory (cfg_DNSSEC c))) "") as [Ek|]; cbn [andb]; [|by left].
    destruct (String.eqb_spec (TrimSpace (st_KeyDirectory (cfg_Storage c))) "") as [E|]; cbn [negb]; [by right|by left].
  - rewrite Es in *. unfold validateControllerStorageConfig in Heqr1. apply rbind_ok in Heqr1 as ([] & Hp & _). by destruct (absolute_path_ok _ _ Hp).
  - rewrite Es in *. unfold validateControllerStorageRetentionConfig in Heqr3. inv_ok. by apply Z.ltb_ge.
Qed.
End ready.

(** ** Properties *)
Section properties.
Context `{UnicodeTables, UnicodeFold, NetUrl} (valid_branch : string -> bool).
Context (range : gmap string string -> list (string * string)) {L : Type} (newLimiter : Z -> Z -> L) (Allow : Time -> L -> bool * L).

(** C11: A controller configuration that validation accepts is well formed for
    every component built from it, in whatever order Go ranges over its maps:
    API keys are distinct SHA-256 digests with exactly one known role each and an
    administrator among them; the API without authentication and the
    observability listener without a token are on loopback and do not share an
    endpoint; no trusted proxy stands for all addresses; limits are positive;
    signatures are renewed before they expire; directories are absolute. *)
Theorem accepted_controller_config (cfg cfg' : ControllerConfig) :
  (forall m, range m ≡ₚ map_to_list m) ->
  ValidateControllerConfig valid_branch range cfg = Ok cfg' -> ControllerReady cfg'.
Proof. intros Hperm. by apply validated_controller. Qed.

(** C10: Least privilege from the configuration to the request: under a
    configuration that validation accepts, the middleware lets a request to a
    protected route through only if authentication is off and the API listens on
    loopback, or the request's key is the one configured key with that digest and
    its role may call the route (administrators everything, agents the signed
    zones and the summary listing); the declared body fits the route's limit.
    With authentication on and rate limiting off every such request is let
    through. *)
Theorem accepted_config_admission (cfg cfg' : ControllerConfig) (r : route) (q : request_info) (rl : RateLimiter (L := L)) :
  (forall m, range m ≡ₚ map_to_list m) ->
  ValidateControllerConfig valid_branch range cfg = Ok cfg' -> protected_route r = true ->
  let auth := api_Auth (cfg_API cfg') in
  let admitted := fst (admission newLimiter Allow (api_config (cfg_API cfg')) r q rl) = None in
  let entitled := ri_contentLength q <= route_limit r /\ ri_key q <> ""
    /\ exists name role, au_APIKeys auth !! name = Some (hash_text (Sum256 (ri_key q))) /\ au_APIKeyRoles auth !! name = Some role /\ may_call role r in
  (admitted -> (au_Enabled auth = false /\ isLoopbackListenEndpoint (api_Listen (cfg_API cfg')) = true) \/ entitled)
  /\ (au_Enabled auth = true -> rl_Enabled (api_RateLimit (cfg_API cfg')) = false -> entitled -> admitted).
Proof.
  intros Hperm Hv Hg. cbv zeta. pose proof (validated_controller valid_branch range Hperm cfg cfg' Hv) as Hready.
  destruct (au_Enabled (api_Auth (cfg_API cfg'))) eqn:Ee; [|split; [left; split; [done|by apply (cr_exposure _ Hready)]|done]].
  pose proof (cr_auth _ Hready Ee) as Hauth.
  assert (Hrole : forall role, role_of (api_config (cfg_API cfg')) (ri_key q) = Some role <-> ri_key q <> "" /\ exists name,
    au_APIKeys (api_Auth (cfg_API cfg')) !! name = Some (hash_text (Sum256 (ri_key q))) /\ au_APIKeyRoles (api_Auth (cfg_API cfg')) !! name = Some role)
    by (intros role; by apply ready_role).
  destruct (admission_exact newLimiter Allow (api_config (cfg_API cfg')) r q rl) as [Hin Hout]; [done..| |].
  { intros role (_ & name & _ & Hr)%Hrole. by apply known_role_plain, (ar_known _ Hauth name). }
  split.
  - intros (role & (Hk & name & Hn & Hr)%Hrole & Hm & Hl)%Hin. right. split_and!; [done..|]. by exists name, role.
  - intros _ Hrl (Hl & Hk & name & role & Hn & Hr & Hm). apply Hout; [done|]. exists role. split_and!; [|done..]. apply Hrole. eauto.
Qed.
End properties.

(** ** Witnesses *)
#[local] Existing Instance ascii_tables.
#[local] Existing Instance ascii_fold.
Definition no_url : NetUrl := {| url_Parse _ := None |}.
#[local] Existing Instance no_url.

(** The default configuration with two keys. *)
Definition demo_keys : AuthSection := mkAuthSection true
  {[ "ops" := "sha256:" +:+ sha256_hex "secret"; "edge" := " sha256:" +:+ sha256_hex "agent-key" ]}
  {[ "ops" := " Admin "; " edge" := "AGENT" ]} false.
Definition demo_controller : ControllerConfig :=
  mkController (mkAPISection " 0.0.0.0:8080" "0123456789abcdef0123456789abcdef" "Key-1" demo_keys ["10.0.0.0/8"; "192.0.2.1"] (mkRateLimit false 0 0))
    (cfg_Observability DefaultControllerConfig) (cfg_Backend DefaultControllerConfig) (cfg_DNSSEC DefaultControllerConfig) (cfg_Storage DefaultControllerConfig) DefaultLogging.
Definition accepted (r : result ControllerConfig) : ControllerConfig := match r with Ok c => c | Err _ => DefaultControllerConfig end.
Definition demo_accepted : ControllerConfig := accepted (ValidateControllerConfig (fun _ => true) map_to_list demo_controller).
Lemma demo_validates : ValidateControllerConfig (fun _ => true) map_to_list demo_controller = Ok demo_accepted.
Proof. vm_compute. reflexivity. Qed.

Lemma accepted_controller_config_witness : ControllerReady demo_accepted.
Proof.
  apply (accepted_controller_config (fun _ => true) map_to_list demo_controller demo_accepted).
  - done.
  - exact demo_validates.
Defined.
Lemma accepted_config_admission_witness :
  fst (admission demo_bucket demo_allow (api_config (cfg_API demo_accepted)) (GetSigned "example.org" "") (demo_info "agent-key") (NewRateLimiter (L := Z) DefaultRateLimiterConfig 0)) = None
  /\ may_call AuthRoleAgent (GetSigned "example.org" "").
Proof.
  assert (Hm : may_call AuthRoleAgent (GetSigned "example.org" "")) by (by right). split; [|exact Hm].
  destruct (accepted_config_admission (fun _ => true) map_to_list demo_bucket demo_allow demo_controller demo_accepted (GetSigned "example.org" "")
    (demo_info "agent-key") (NewRateLimiter (L := Z) DefaultRateLimiterConfig 0)) as [_ Hin].
  - done.
  - exact demo_validates.
  - reflexivity.
  - apply Hin; [reflexivity|reflexivity|]. split; [vm_compute; discriminate|]. split; [discriminate|]. exists "edge", AuthRoleAgent.
    split_and!; [vm_compute; reflexivity|vm_compute; reflexivity|exact Hm].
Defined.

(** A role given under two spellings of a key name is the one Go's map iteration
    reaches last. *)
Example role_by_map_order :
  let auth := mkAuthSection true {[ "ops" := "sha256:" +:+ sha256_hex "secret"; "edge" := "sha256:" +:+ sha256_hex "agent-key" ]}
    {[ "ops" := "admin"; "edge" := "agent"; " edge" := "admin" ]} false in
  let role range := match validateControllerAuthConfig range auth with Ok a => au_APIKeyRoles a !! "edge" | Err _ => None end in
  role map_to_list <> role (fun m => reverse (map_to_list m)) /\ is_Some (role map_to_list) /\ is_Some (role (fun m => reverse (map_to_list m))).
Proof. vm_compute. split_and!; [discriminate|eexists; reflexivity|eexists; reflexivity]. Qed.
