(* ===== verification/ControllerProtocol.v ===== *)
(** * What concurrent requests promise each other

    The protocol behind the API handlers and the signing service, for a pool of
    requests that run in any order: an invariant of the shared state, what a
    request relies on and what it guarantees while the others run.

    The history of the zones is a list of events; the invariant says that the
    store is the replay of the history, that every version in it was drawn for
    one write and never comes back once replaced, that every event is one the
    request asked for, and that the artifact of every stored version is the
    signature of that zone. *)

From S2P Require Import Prelude DnsRecords Io Program GoStrings GoStringsFacts Names Zone Validation Serial Ulid ZonePath Store.
From S2P Require Import DnsNames FileSystem FileManagerFacts ArtifactCache ArtifactCacheFacts BindFiles Controller SigningService Http Handlers RecordHandlers SignedHandlers Router.

(** ** Histories *)
Definition apply_event (m : gmap string Zone) (e : event) : gmap string Zone :=
  match ev_new e with Some z => <[ev_zone e := z]> m | None => delete (ev_zone e) m end.
Definition replay (l : list event) : gmap string Zone := foldl apply_event ∅ l.
Definition new_versions (l : list event) : list string := omap (fun e => z_Version <$> ev_new e) l.
Definition old_versions (l : list event) : list string := omap (fun e => z_Version <$> ev_old e) l.
Definition events_of (t : nat) (l : list event) : list event := filter (fun e => ev_by e = t) l.
(** The zone was stored at some time. *)
Definition seen (l : list event) (z : Zone) : Prop := exists e, e ∈ l /\ ev_new e = Some z.

(** Every event replaces the zone that was stored when it happened. *)
Inductive chained : list event -> Prop :=
  | chained_nil : chained []
  | chained_snoc l e : chained l -> ev_old e = replay l !! ev_zone e -> chained (l ++ [e]).
(** The serial of a changed zone goes up, as long as it can. *)
Definition advances (e : event) : Prop :=
  match ev_old e, ev_new e with
  | Some z, Some z' => Serial (z_SOA z) <= Serial (z_SOA z') /\ (Serial (z_SOA z) < MaxUint32 -> Serial (z_SOA z) < Serial (z_SOA z'))
  | _, _ => True
  end.

(** Same zone but for version, serial, signing settings and times. *)
Definition same_data (z z' : Zone) : Prop :=
  set_Serial 0 (z_SOA z) = set_Serial 0 (z_SOA z') /\ Forall2 same_record (z_Records z) (z_Records z').

(** ** What requests ask for *)
Section requests.
Context `{UnicodeTables} {PrivateKey : Type} (rrlib : RRLib PrivateKey) (error_text : error -> string).

(** The zone a request is about: the lock it takes, if any. *)
Definition raw_target (req : rawRequest) : option Zone :=
  match raw_content req with
  | inr (raw, origin) => match imported_zone rrlib error_text raw origin with inl (z, _) => Some z | inr _ => None end
  | inl _ => None
  end.
Definition target (q : request) : option string :=
  match q with
  | Http (PostZones (Ok req)) => Some (NormalizeZoneName (cr_Name req))
  | Http (PostZonesRaw req) => (fun z => NormalizeZoneName (z_Name z)) <$> raw_target req
  | Http (PutZone name _ _) | Http (DeleteZoneRoute name _) | Http (PostRecords name _ _) | Http (PostRecordsBatch name _ _)
  | Http (PutRecord name _ _ _) | Http (DeleteRecordRoute name _ _)
  | Http (HeadSigned name _) | Http (GetSigned name _) | Http (GetSignedMetadata name _) | Http (GetDS name)
  | Resign name => Some (NormalizeZoneName name)
  | _ => None
  end.
Definition if_match (q : request) : option string :=
  match q with
  | Http (PutZone _ m _) | Http (DeleteZoneRoute _ m) | Http (PostRecords _ m _) | Http (PostRecordsBatch _ m _)
  | Http (PutRecord _ _ m _) | Http (DeleteRecordRoute _ _ m) => Some m
  | _ => None
  end.
(** Requests that create, change or delete a zone when they succeed. *)
Definition mutates (q : request) : bool :=
  match q with Http (PostZones _) | Http (PostZonesRaw _) => true | _ => match if_match q with Some _ => true | None => false end end.

Definition repaired (z : Zone) : option Zone :=
  match RepairZoneDerivedFields (Some z) with (z', Ok _) => Some (default z z') | (_, Err _) => None end.
Definition created_zone (q : request) : option Zone :=
  match q with
  | Http (PostZones (Ok req)) => Some (mkZone (cr_Name req) "" (cr_SOA req) (map (set_ID "") (cr_Records req)) None zeroTime zeroTime)
  | Http (PostZonesRaw req) => raw_target req
  | _ => None
  end.
(** The zone a request turns the zone [z] into, as if it ran alone. *)
Definition edited (q : request) (z : Zone) : option Zone :=
  match q with
  | Http (PutZone _ _ (Ok req)) =>
    repaired (mkZone (NormalizeZoneName (ur_Name req)) "" (ur_SOA req) (z_Records z) (z_DNSSEC z) zeroTime zeroTime)
  | Http (PostRecords _ _ (Ok r)) =>
    z ← repaired z;
    match validateRecordForZone (z_Name z) (set_ID "" r) with
    | inr r => if recordExists (z_Records z) r None then None else Some (set_Records (z_Records z ++ [r]) z)
    | inl _ => None
    end
  | Http (PutRecord _ id _ (Ok r)) =>
    z ← repaired z;
    idx ← findRecordByID (z_Records z) (TrimSpace id);
    match validateRecordForZone (z_Name z) r with
    | inr r => let r := set_ID (match z_Records z !! idx with Some old => preserveRecordID old | None => "" end) r in
               if recordExists (z_Records z) r (Some idx) then None else Some (set_Records (<[idx := r]> (z_Records z)) z)
    | inl _ => None
    end
  | Http (DeleteRecordRoute _ id _) =>
    z ← repaired z;
    idx ← findRecordByID (z_Records z) (TrimSpace id);
    Some (set_Records (take idx (z_Records z) ++ drop (S idx) (z_Records z)) z)
  | Http (PostRecordsBatch _ _ (Ok req)) =>
    z ← repaired z;
    match applyBulkRecordOperations (z_Name z) (z_Records z) req with inr rs => Some (set_Records rs z) | inl _ => None end
  | Resign _ => Some z
  | _ => None
  end.

(** The events a request may cause: creating the zone it describes, deleting the
    version its If-Match header names, turning such a version into the edited
    zone; a re-signing job keeps the data of its zone. *)
Definition allowed (q : request) (e : event) : Prop :=
  target q = Some (ev_zone e)
  /\ match ev_old e, ev_new e with
     | None, Some z => exists z0, created_zone q = Some z0 /\ same_data z0 z
     | Some z, None => exists name m, q = Http (DeleteZoneRoute name m) /\ strongETagMatches m (z_Version z) = true
     | Some z, Some z' => (forall m, if_match q = Some m -> strongETagMatches m (z_Version z) = true)
         /\ exists z1, edited q z = Some z1 /\ same_data z1 z'
     | None, None => False
     end.

(** Bound bodies have [uint32] serials. *)
Definition uint32 (n : Z) : Prop := 0 <= n <= MaxUint32.
Definition request_wf (q : request) : Prop := forall z, created_zone q = Some z -> uint32 (Serial (z_SOA z)).
End requests.

(** ** The protocol *)
Section protocol.
Context `{UnicodeTables} {St K KeyPair RR : Type} `{ZoneStore St, !StoreLaws St}.
Context (lib : SignerLib K KeyPair RR) (w : World) (artifactDir : string) (maxArtifacts : Z) (signingService : bool).
Context {PrivateKey : Type} (rrlib : RRLib PrivateKey) (error_text : error -> string).
Context (reqs : list request).
Abbreviation state := (ctl St K).
Abbreviation run_call := (exec lib w artifactDir maxArtifacts).
Abbreviation tgt := (target rrlib error_text).

Definition zones_in (s : state) : gmap string Zone := zones_of (c_store s).
(** Signed artifacts are kept. *)
Definition publishing : Prop := signingService = true /\ artifactDir <> "".
(** No other request works in the artifact directory of zone [n]. *)
Definition apart (n : string) : Prop :=
  forall q m, q ∈ reqs -> tgt q = Some m -> artifactZoneDir m = artifactZoneDir n -> m = n.
(** No request deletes zone [n]. *)
Definition deletes (q : request) (n : string) : Prop := exists name m, q = Http (DeleteZoneRoute name m) /\ NormalizeZoneName name = n.
Definition undeleted (n : string) : Prop := forall q, q ∈ reqs -> ~ deletes q n.

(** The key store gave these keys when asked for the keys of a zone. *)
Definition keys_issued (zone : string) (ksk zsk : KeyPair) : Prop := exists e k, fst (EnsureZoneKeys lib e zone k) = Ok (ksk, zsk).
(** [data] is the zone file of a signing of zone [z] with its keys. *)
Definition signed_for (z : Zone) (data : string) : Prop := exists e ksk zsk zin zout rrs,
  keys_issued (z_Name z) ksk zsk /\ SignZoneWithKeys lib e zin ksk zsk = Ok (zout, rrs) /\ GenerateBINDZoneFileFromRRs lib (z_Name z) (z_Version z) rrs = Ok data
  /\ z_Name zin = z_Name z /\ z_Version zin = z_Version z /\ z_SOA zin = z_SOA z /\ Forall2 same_record (z_Records zin) (z_Records z).

(** The artifact kept for version [v] of zone [n]. *)
Definition artifact_content (s : state) (n v : string) : option string :=
  content (zone_entries (c_cache s) (artifactZoneDir n) !! artifact_file v).

Definition held (t : nat) (h : option string) (s : state) : Prop := forall l, c_locks s !! l = Some t <-> h = Some l.

(** *** Invariant *)
Record history_ok (s : state) : Prop := {
  h_store : store_ok (c_store s);
  h_replay : zones_in s = replay (c_log s);
  h_chained : chained (c_log s);
  h_advances : Forall advances (c_log s);
  (** Versions are drawn by the request that writes them, and are never written
      twice. *)
  h_drawn : forall e z, e ∈ c_log s -> ev_new e = Some z -> c_issued s !! z_Version z = Some (ev_by e) /\ z_Name z = ev_zone e;
  h_fresh : NoDup (new_versions (c_log s));
  (** A replaced version does not come back. *)
  h_replaced : NoDup (old_versions (c_log s));
  h_old_new : forall v, v ∈ old_versions (c_log s) -> v ∈ new_versions (c_log s);
  h_current : forall n z, zones_in s !! n = Some z -> z_Version z ∉ old_versions (c_log s);
  h_allowed : forall e, e ∈ c_log s -> exists q, reqs !! ev_by e = Some q /\ allowed rrlib error_text q e;
  h_serial : forall n z, zones_in s !! n = Some z -> 0 < Serial (z_SOA z) <= MaxUint32 }.
Record generator_ok (s : state) : Prop := {
  g_wf : ulid_wf (c_ulid s);
  g_issued : forall v t, c_issued s !! v = Some t -> issued_by (c_ulid s) v }.
Record cache_ok (s : state) : Prop := {
  k_dated : cdated w (c_cache s);
  k_signed : publishing -> forall z data, seen (c_log s) z -> apart (z_Name z) ->
    artifact_content s (z_Name z) (z_Version z) = Some data -> signed_for z data;
  k_published : publishing -> forall n z, zones_in s !! n = Some z -> apart n -> undeleted n ->
    is_Some (artifact_content s n (z_Version z)) }.
Record consistent (s : state) : Prop := {
  i_history : history_ok s;
  i_generator : generator_ok s;
  i_cache : cache_ok s;
  i_owners : forall l t, c_locks s !! l = Some t -> (t < length reqs)%nat }.

(** *** Rely and guarantee *)
Definition in_my_directory (t : nat) (s : state) (d : string) : Prop :=
  exists q l, reqs !! t = Some q /\ tgt q = Some l /\ c_locks s !! l = Some t /\ d = artifactZoneDir l.
Record guarantee (t : nat) (s s' : state) : Prop := {
  gu_log : exists es, c_log s' = c_log s ++ es /\ Forall (fun e => ev_by e = t) es;
  gu_issued : c_issued s ⊆ c_issued s';
  gu_locks : forall l t', t' <> t -> c_locks s !! l = Some t' <-> c_locks s' !! l = Some t';
  gu_cache : forall d n, signed_suffix n -> ~ in_my_directory t s d ->
    zone_entries (c_cache s') d !! n = zone_entries (c_cache s) d !! n;
  gu_zones : signingService = true -> forall n, zones_in s' !! n = zones_in s !! n \/ c_locks s !! n = Some t
    \/ exists q, reqs !! t = Some q /\ deletes q n }.
Record relies (t : nat) (s s' : state) : Prop := {
  re_log : exists es, c_log s' = c_log s ++ es /\ Forall (fun e => ev_by e <> t) es;
  re_issued : c_issued s ⊆ c_issued s';
  re_locks : forall l, c_locks s !! l = Some t <-> c_locks s' !! l = Some t;
  re_cache : forall l n, apart l -> c_locks s !! l = Some t -> signed_suffix n ->
    zone_entries (c_cache s') (artifactZoneDir l) !! n = zone_entries (c_cache s) (artifactZoneDir l) !! n;
  re_zones : signingService = true -> forall l, undeleted l -> c_locks s !! l = Some t -> zones_in s' !! l = zones_in s !! l }.

Lemma relies_compatible i j s s' : i <> j -> guarantee i s s' -> relies j s s'.
Proof.
  intros Hij [[es [Hl Hby]] Hi Hlk Hc Hz]. constructor.
  - exists es. split; [done|]. eapply Forall_impl; [exact Hby|]. simpl. congruence.
  - done.
  - intros l. apply Hlk. congruence.
  - intros l n Ha Hl' Hn. apply Hc; [done|]. intros (q & l2 & Hq & Ht & Hl2 & Hd).
    assert (l2 = l) as ->. { apply (Ha q); [by eapply list_elem_of_lookup_2|done|done]. } congruence.
  - intros Hs l Hu Hl'. destruct (Hz Hs l) as [?|[?|(q & Hq & Hd)]]; [done|congruence|]. exfalso.
    eapply Hu; [by eapply list_elem_of_lookup_2|done].
Qed.
#[global] Instance relies_preorder t : PreOrder (relies t).
Proof.
  split.
  - intros s. constructor; try done. exists []. by rewrite app_nil_r.
  - intros s1 s2 s3 [[es1 [E1 F1]] I1 L1 C1 Z1] [[es2 [E2 F2]] I2 L2 C2 Z2]. constructor.
    + exists (es1 ++ es2). rewrite E2, E1, app_assoc. split; [done|]. by apply Forall_app.
    + by etransitivity.
    + intros l. by rewrite L1.
    + intros l n Ha Hl Hn. rewrite C2; [by apply C1|done|by apply L1|done].
    + intros Hs l Hu Hl. rewrite Z2; [by apply Z1|done|done|by apply L1].
Qed.

Definition before_call (X : Type) (t : nat) (c : op KeyPair RR X) (s : state) : Prop :=
  match c with DoLock _ => forall l, c_locks s !! l <> Some t | DoUnlock l => c_locks s !! l = Some t | _ => True end.
(** Clock readings that fit the generator, ten random bytes, calendar dates. *)
Definition sane (e : Env) : Prop := valid_input (in_vtime (env_in e), in_rand (env_in e)) /\ calendar (in_date (env_in e)).

Definition discipline : protocol (C := op KeyPair RR) (St := state) (Env := Env) := mkProtocol sane consistent relies guarantee before_call.
#[global] Instance discipline_preorder t : PreOrder (rely discipline t).
Proof. apply relies_preorder. Qed.
Abbreviation stable' := (stable discipline).
Abbreviation triple' := (triple run_call discipline).

(** *** What a request knows *)
Record local := mkLocal {
  lo_held : option string;
  lo_events : list event;
  lo_drawn : option string;
  lo_seen : list Zone;
  (** The artifact it stored, and the zone that is stored, under its lock. *)
  lo_file : option (string * string);
  lo_zone : option Zone }.
Record knows (t : nat) (L : local) (s : state) : Prop := {
  kn_held : held t (lo_held L) s;
  kn_events : events_of t (c_log s) = lo_events L;
  kn_drawn : forall v, lo_drawn L = Some v -> c_issued s !! v = Some t;
  kn_seen : Forall (seen (c_log s)) (lo_seen L);
  kn_file : forall v data, lo_file L = Some (v, data) -> exists n, lo_held L = Some n
    /\ (artifactDir <> "" -> apart n -> newest (c_cache s) (artifactZoneDir n) (artifact_file v) data);
  kn_zone : forall z, lo_zone L = Some z -> exists n, lo_held L = Some n
    /\ (signingService = true -> undeleted n -> zones_in s !! n = Some z) }.

Lemma events_of_app t l1 l2 : events_of t (l1 ++ l2) = events_of t l1 ++ events_of t l2.
Proof. apply filter_app. Qed.
Lemma events_of_others t es : Forall (fun e => ev_by e <> t) es -> events_of t es = [].
Proof. induction 1 as [|e es He _ IH]; [done|]. unfold events_of in *. by rewrite filter_cons_False. Qed.
Lemma seen_app l es z : seen l z -> seen (l ++ es) z.
Proof. intros (e & He & Hz). exists e. split; [|done]. apply elem_of_app. by left. Qed.
Lemma newest_same c c' d f data : (forall n, signed_suffix n -> zone_entries c' d !! n = zone_entries c d !! n) -> signed_suffix f ->
  newest c d f data -> newest c' d f data.
Proof.
  intros Hs Hf (i & p & tm & Hv & Hold). exists i, p, tm. split; [by rewrite Hs|]. intros n nd Hn Hne. rewrite Hs by done. by apply Hold.
Qed.

Lemma knows_stable t L : stable' t (knows t L).
Proof.
  intros s s' [Kh Ke Kd Ks Kf Kz] [[es [El Hby]] Hi Hlk Hc Hz] _. constructor.
  - intros l. rewrite <- (Hlk l). apply Kh.
  - by rewrite El, events_of_app, (events_of_others t es), app_nil_r.
  - intros v Hv. by eapply lookup_weaken; [apply Kd|].
  - eapply Forall_impl; [exact Ks|]. intros z. rewrite El. apply seen_app.
  - intros v data Hv. destruct (Kf v data Hv) as (n & Hn & Hnew). exists n. split; [done|]. intros Hd Ha.
    eapply newest_same; [|apply artifact_file_signed|by apply Hnew]. intros m Hm. apply Hc; [done| |done]. by apply Kh.
  - intros z Hv. destruct (Kz z Hv) as (n & Hn & Hst). exists n. split; [done|]. intros Hs Hu. rewrite Hz; [by apply Hst|done|done|]. by apply Kh.
Qed.
End protocol.
