(* ===== verification/ControllerSteps.v ===== *)
(** * The calls of a request keep the protocol

    For every call the handlers make: it keeps the invariant, does nothing to
    the others but what the guarantee allows, and what the request knows
    afterwards. *)

From S2P Require Import Prelude DnsRecords Io Program GoStrings GoStringsFacts Names Zone Validation Serial Ulid ZonePath Store.
From S2P Require Import DnsNames FileSystem FileManagerFacts ArtifactCache ArtifactCacheFacts BindFiles Controller SigningService Http Handlers RecordHandlers SignedHandlers Router ControllerProtocol.

(** ** Histories *)
Lemma new_versions_app l1 l2 : new_versions (l1 ++ l2) = new_versions l1 ++ new_versions l2.
Proof. apply omap_app. Qed.
Lemma old_versions_app l1 l2 : old_versions (l1 ++ l2) = old_versions l1 ++ old_versions l2.
Proof. apply omap_app. Qed.
Lemma replay_snoc l e : replay (l ++ [e]) = apply_event (replay l) e.
Proof. unfold replay. by rewrite foldl_app. Qed.
Lemma seen_version l z : seen l z -> z_Version z ∈ new_versions l.
Proof. intros (e & He & Hz). apply list_elem_of_omap. exists e. by rewrite Hz. Qed.
Lemma replay_seen l n z : replay l !! n = Some z -> seen l z.
Proof.
  induction l as [|e l IH] using rev_ind; [unfold replay; cbn; by rewrite lookup_empty|]. rewrite replay_snoc. unfold apply_event. destruct (ev_new e) as [z'|] eqn:Ez.
  - intros [[_ ->]|[_ Hl]]%lookup_insert_Some; [exists e; split; [apply elem_of_app; right; by left|done]|by apply seen_app, IH].
  - intros [_ Hl]%lookup_delete_Some. by apply seen_app, IH.
Qed.
(** A version stands for one zone. *)
Lemma seen_version_inj l z z' : NoDup (new_versions l) -> seen l z -> seen l z' -> z_Version z = z_Version z' -> z = z'.
Proof.
  intros Hnd (e & He & Hz) (e' & He' & Hz') Hv. induction l as [|a l IH]; [by apply elem_of_nil in He|].
  unfold new_versions in *. cbn [omap list_omap] in Hnd. destruct (z_Version <$> ev_new a) as [v|] eqn:Ea.
  - apply NoDup_cons in Hnd as [Hn Hnd].
    assert (Hin : forall b x, b ∈ l -> ev_new b = Some x -> z_Version x <> v).
    { intros b x Hb Hx <-. apply Hn, list_elem_of_omap. exists b. by rewrite Hx. }
    apply elem_of_cons in He as [->|He], He' as [->|He'].
    + congruence.
    + rewrite Hz in Ea. injection Ea as <-. exfalso. by apply (Hin e' z').
    + rewrite Hz' in Ea. injection Ea as <-. exfalso. by apply (Hin e z).
    + by apply IH.
  - apply elem_of_cons in He as [->|He], He' as [->|He']; [congruence|by rewrite Hz in Ea|by rewrite Hz' in Ea|by apply IH].
Qed.

Lemma same_record_refl r : same_record r r.
Proof. by repeat split. Qed.
Lemma same_record_trans r1 r2 r3 : same_record r1 r2 -> same_record r2 r3 -> same_record r1 r3.
Proof. unfold same_record. naive_solver congruence. Qed.
#[export] Instance same_record_preorder : PreOrder same_record.
Proof. split; [exact same_record_refl|exact same_record_trans]. Qed.
#[export] Instance same_data_preorder : PreOrder same_data.
Proof. split; [intros z; by split|]. intros z1 z2 z3 [E1 F1] [E2 F2]. split; [congruence|by etransitivity]. Qed.

Section steps.
Context `{UnicodeTables} {St K KeyPair RR : Type} `{ZoneStore St, !StoreLaws St}.
Context (lib : SignerLib K KeyPair RR) (w : World) (artifactDir : string) (maxArtifacts : Z) (signingService : bool).
Context {PrivateKey : Type} (rrlib : RRLib PrivateKey) (error_text : error -> string).
Context (reqs : list request).
(** The clock advances between system calls. *)
Context (clock : forall i j, (i < j)%nat -> mtime_now w i < mtime_now w j).
Abbreviation state := (ctl St K).
Abbreviation run_call := (exec lib w artifactDir maxArtifacts).
Abbreviation tgt := (target rrlib error_text).
Abbreviation apart' := (apart rrlib error_text reqs).
Abbreviation undeleted' := (undeleted reqs).
Abbreviation publishing' := (publishing artifactDir signingService).
Abbreviation consistent' := (consistent lib w artifactDir signingService rrlib error_text reqs).
Abbreviation guarantee' := (guarantee signingService rrlib error_text reqs).
Abbreviation discipline' := (discipline lib w artifactDir signingService rrlib error_text reqs).
Abbreviation knows' := (knows artifactDir signingService rrlib error_text reqs).
Abbreviation stable' := (stable discipline').
Abbreviation triple' := (triple run_call discipline').
#[local] Set Default Proof Using "Type".

(** ** Consequences of the invariant *)
Lemma stored_seen (s : state) n z : consistent' s -> zones_in s !! n = Some z -> seen (c_log s) z.
Proof. intros Hi Hz. rewrite (h_replay _ _ _ _ (i_history _ _ _ _ _ _ _ _ Hi)) in Hz. by eapply replay_seen. Qed.
Lemma stored_name (s : state) n z : consistent' s -> zones_in s !! n = Some z ->
  z_Name z = n /\ ValidateZone (Some z) = Ok tt /\ z_Version z <> "".
Proof. intros Hi. apply law_stored. apply (i_history _ _ _ _ _ _ _ _ Hi). Qed.
Lemma seen_inj (s : state) z z' : consistent' s -> seen (c_log s) z -> seen (c_log s) z' -> z_Version z = z_Version z' -> z = z'.
Proof. intros Hi. apply seen_version_inj, (i_history _ _ _ _ _ _ _ _ Hi). Qed.
Lemma seen_issued (s : state) z : consistent' s -> seen (c_log s) z -> exists t, c_issued s !! z_Version z = Some t /\ issued_by (c_ulid s) (z_Version z).
Proof.
  intros Hi (e & He & Hz). destruct (h_drawn _ _ _ _ (i_history _ _ _ _ _ _ _ _ Hi) e z He Hz) as [Hd _].
  exists (ev_by e). split; [done|]. by eapply (g_issued _ (i_generator _ _ _ _ _ _ _ _ Hi)).
Qed.
(** A version a request drew and has not written is nowhere in the history. *)
Lemma unwritten (s : state) t v z : consistent' s -> c_issued s !! v = Some t -> events_of t (c_log s) = [] -> seen (c_log s) z -> z_Version z <> v.
Proof.
  intros Hi Hv Hev (e & He & Hz) <-. destruct (h_drawn _ _ _ _ (i_history _ _ _ _ _ _ _ _ Hi) e z He Hz) as [Hd _].
  assert (e ∈ events_of t (c_log s)) as Hin by (apply list_elem_of_filter; split; [congruence|done]).
  rewrite Hev in Hin. by apply elem_of_nil in Hin.
Qed.
Lemma unwritten_new (s : state) t v : consistent' s -> c_issued s !! v = Some t -> events_of t (c_log s) = [] -> v ∉ new_versions (c_log s).
Proof.
  intros Hi Hv Hev (e & He & Hz)%list_elem_of_omap. destruct (ev_new e) as [z|] eqn:Ez; [|done]. injection Hz as <-.
  by apply (unwritten s t (z_Version z) z Hi Hv Hev); [exists e|].
Qed.

(** ** Calls that leave the shared state alone *)
Definition same_shared (s s' : state) : Prop :=
  c_store s' = c_store s /\ c_ulid s' = c_ulid s /\ c_cache s' = c_cache s /\ c_locks s' = c_locks s
  /\ c_issued s' = c_issued s /\ c_log s' = c_log s.
Lemma same_shared_consistent s s' : same_shared s s' -> consistent' s -> consistent' s'.
Proof.
  destruct s, s'. intros (E1 & E2 & E3 & E4 & E5 & E6). cbn in *. subst. intros [[] [] [] ?]. by constructor; [constructor..|].
Qed.
Lemma same_shared_guarantee t s s' : same_shared s s' -> guarantee' t s s'.
Proof.
  destruct s, s'. intros (E1 & E2 & E3 & E4 & E5 & E6). cbn in *. subst. constructor; cbn; try done; [|by left]. exists []. by rewrite app_nil_r.
Qed.
Lemma same_shared_knows t L s s' : same_shared s s' -> knows' t L s -> knows' t L s'.
Proof. destruct s, s'. intros (E1 & E2 & E3 & E4 & E5 & E6). cbn in *. subst. intros []. by constructor. Qed.

Lemma stable_pure t (A : Prop) F : stable' t F -> stable' t (fun s => A /\ F s).
Proof. intros HF s s' [Ha Hs] Hr Hi. split; [done|]. by eapply HF. Qed.
Lemma stable_match {A} t (r : result A) F G : (forall a, stable' t (F a)) -> (forall e, stable' t (G e)) ->
  stable' t (fun s => match r with Ok a => F a s | Err e => G e s end).
Proof. intros HF HG. destruct r; [apply HF|apply HG]. Qed.
Lemma triple_op {X} t L (c : op KeyPair RR X) (G : X -> state -> Prop) : (forall x, stable' t (G x)) ->
  (forall s, consistent' s -> knows' t L s -> before_call X t c s /\ forall e x s', sane e -> run_call X t e c s = Some (x, s') ->
     consistent' s' /\ guarantee' t s s' /\ G x s') ->
  triple' t (knows' t L) (call c) G.
Proof. intros HG Hc. apply triple_call; [apply knows_stable|done|]. intros s Hi Hk. by apply Hc. Qed.

Lemma triple_quiet {X} t L (c : op KeyPair RR X) (R : X -> Prop) :
  (forall s : state, before_call X t c s) ->
  (forall e s x s', sane e -> consistent' s -> run_call X t e c s = Some (x, s') -> same_shared s s' /\ R x) ->
  triple' t (knows' t L) (call c) (fun x s => R x /\ knows' t L s).
Proof.
  intros Hb Hc. apply triple_op; [intros x; apply stable_pure, knows_stable|]. intros s Hi Hk. split; [apply Hb|]. intros e x s' He Hx.
  destruct (Hc e s x s' He Hi Hx) as [Hs Hr]. split_and!; [by eapply same_shared_consistent|by apply same_shared_guarantee|done|by eapply same_shared_knows].
Qed.

(** ** Reads *)
Definition add_seen (z : Zone) (L : local) : local :=
  mkLocal (lo_held L) (lo_events L) (lo_drawn L) (z :: lo_seen L) (lo_file L) (lo_zone L).
(** What is known of a zone that was read. *)
Definition zone_read (name : string) (z : Zone) : Prop :=
  z_Name z = NormalizeZoneName name /\ ValidateZone (Some z) = Ok tt /\ z_Version z <> "" /\ 0 < Serial (z_SOA z) <= MaxUint32.
Lemma triple_get t L name :
  triple' t (knows' t L) (call (DoGet name))
    (fun r s => match r with Ok z => zone_read name z /\ knows' t (add_seen z L) s | Err _ => knows' t L s end).
Proof.
  apply triple_op.
  { intros r. apply stable_match; [intros z; apply stable_pure, knows_stable|intros e; apply knows_stable]. }
  intros s Hi Hk. split; [done|]. intros e r s' He [= <- <-].
  split; [done|]. split; [by apply same_shared_guarantee|]. rewrite law_get. fold (zones_in s).
  destruct (zones_in s !! NormalizeZoneName name) as [z|] eqn:Ez; [|done].
  destruct (stored_name s _ z Hi Ez) as (Hn & Hv & Hne). split.
  - split; [done|]. split; [done|]. split; [done|]. by eapply (h_serial _ _ _ _ (i_history _ _ _ _ _ _ _ _ Hi)).
  - destruct Hk. constructor; try done. constructor; [|done]. by eapply stored_seen.
Qed.
(** The calls whose answer a handler only passes on. *)
Lemma triple_answer {X} t L (c : op KeyPair RR X) : (forall s : state, before_call X t c s) ->
  (forall e s x s', run_call X t e c s = Some (x, s') -> same_shared s s') ->
  triple' t (knows' t L) (call c) (fun _ => knows' t L).
Proof.
  intros Hb Hc. eapply triple_conseq; [apply (triple_quiet t L c (fun _ => True)); [done|]|done|by intros ?? []].
  intros e s x s' _ _ Hx. split; [by eapply Hc|done].
Qed.
Lemma triple_serial t L cur : 0 <= cur <= MaxUint32 ->
  triple' t (knows' t L) (call (DoSerial cur)) (fun n s => (exists d, calendar d /\ n = NextSOASerial d cur) /\ knows' t L s).
Proof. intros Hc. apply triple_quiet; [done|]. intros e s x s' [_ He] _ [= <- <-]. split; [done|]. eauto. Qed.
Lemma triple_sign t L zone ksk zsk :
  triple' t (knows' t L) (call (DoSign zone ksk zsk)) (fun r s => (exists e, r = SignZoneWithKeys lib e zone ksk zsk) /\ knows' t L s).
Proof. apply triple_quiet; [done|]. intros e s x s' _ _ [= <- <-]. split; [done|]. eauto. Qed.
Lemma triple_ensure t L zone :
  triple' t (knows' t L) (call (DoEnsureKeys zone)) (fun r s => (forall ksk zsk, r = Ok (ksk, zsk) -> keys_issued lib zone ksk zsk) /\ knows' t L s).
Proof.
  apply triple_quiet; [done|]. intros e s x s' _ _. cbn. destruct (EnsureZoneKeys lib (env_in e) zone (c_keys s)) as [r k] eqn:Ek. intros [= <- <-]. split; [done|].
  intros ksk zsk ->. exists (env_in e), (c_keys s). by rewrite Ek.
Qed.
Lemma triple_remove_keys t L zone : triple' t (knows' t L) (call (DoRemoveKeys zone)) (fun _ => knows' t L).
Proof. apply triple_answer; [done|]. intros e s x s'. cbn. destruct (RemoveZoneKeys _ _ _ _) as [r k]. by intros [= <- <-]. Qed.

(** ** Drawing a version *)
Definition with_drawn (v : string) (L : local) : local := mkLocal (lo_held L) (lo_events L) (Some v) (lo_seen L) (lo_file L) (lo_zone L).
Lemma NewZoneVersion_step e u : ulid_wf u -> valid_input (in_vtime e, in_rand e) ->
  ulid_wf (snd (NewZoneVersion e u)) /\ forall v, issued_by u v -> issued_by (snd (NewZoneVersion e u)) v.
Proof.
  intros Hu He. unfold NewZoneVersion. pose proof (NewULID_step _ _ _ Hu He) as Hs. destruct (NewULID _ _ _) as [[id|er] u']; cbn [snd].
  - destruct Hs as (Hw & Hk & _). split; [done|]. intros v (st & Hst & Hle & ->). exists st. split_and!; [done|lia|done].
  - by subst.
Qed.
Lemma triple_version t L : lo_drawn L = None ->
  triple' t (knows' t L) (call DoVersion)
    (fun r s => match r with Ok v => v <> "" /\ knows' t (with_drawn v L) s | Err _ => knows' t L s end).
Proof.
  intros HL. apply triple_op.
  { intros r. apply stable_match; [intros v; apply stable_pure, knows_stable|intros e; apply knows_stable]. }
  intros s Hi Hk. split; [done|]. intros e r s' [He _]. cbn [exec]. pose proof (i_generator _ _ _ _ _ _ _ _ Hi) as [Hwf Hiss].
  destruct (NewZoneVersion_step (env_in e) (c_ulid s) Hwf He) as [Hwf' Hkeep].
  destruct (NewZoneVersion (env_in e) (c_ulid s)) as [[v|er] u] eqn:Ev; cbn [snd] in Hwf', Hkeep; intros [= <- <-].
  - assert (Hnew : c_issued s !! v = None).
    { destruct (c_issued s !! v) as [t'|] eqn:E; [|done]. exfalso.
      by destruct (NewZoneVersion_fresh _ _ _ _ _ Hwf He Ev (Hiss v t' E)) as [? _]. }
    assert (Hsub : c_issued s ⊆ <[v := t]> (c_issued s)) by (by apply insert_subseteq).
    split; [|split; [|split]].
    + pose proof (h_drawn _ _ _ _ (i_history _ _ _ _ _ _ _ _ Hi)) as Hdrawn.
      destruct Hi as [[] _ [] ?]. constructor; [|split; [done|]|done|done].
      * constructor; try done. intros ev z Hev Hz. cbn. destruct (Hdrawn ev z Hev Hz). split; [by eapply lookup_weaken|done].
      * cbn. intros v' t'. intros [[<- <-]|[_ Hl]]%lookup_insert_Some; [|by eapply Hkeep, Hiss].
        unfold NewZoneVersion in Ev. pose proof (NewULID_step _ _ _ Hwf He) as Hs. destruct (NewULID _ _ _) as [[id|er] u']; [|done].
        injection Ev as <- <-. destruct Hs as (Hw & _ & ->). by exists u'.
    + constructor; cbn; try done; [exists []; by rewrite app_nil_r|by left].
    + intros ->. unfold NewZoneVersion in Ev. by destruct (NewULID _ _ _) as [[id|er] u'].
    + destruct Hk. constructor; try done. cbn. intros v' [= <-]. apply lookup_insert_eq.
  - split; [|split].
    + destruct Hi as [[] _ [] ?]. constructor; [by constructor|split; [done|]|done|done]. cbn. intros. by eapply Hkeep, Hiss.
    + constructor; cbn; try done; [exists []; by rewrite app_nil_r|by left].
    + destruct Hk. by constructor.
Qed.

(** ** Locks *)
Definition with_held (h : option string) (L : local) : local := mkLocal h (lo_events L) (lo_drawn L) (lo_seen L) None None.
Lemma triple_lock t L q l : lo_held L = None -> reqs !! t = Some q ->
  triple' t (knows' t L) (call (DoLock l))
    (fun r => match r with Ok _ => knows' t (with_held (Some l) L) | Err _ => knows' t L end).
Proof.
  intros HL Hq. apply triple_op; [intros [|]; apply knows_stable|]. intros s Hi Hk. split.
  { intros l' Hl'. apply (kn_held _ _ _ _ _ _ _ _ Hk) in Hl'. congruence. }
  intros e r s' _. cbn [exec]. unfold LockContext. destruct (env_done e); [intros [= <- <-]; split_and!; [done|by apply same_shared_guarantee|done]|].
  destruct (c_locks s !! l) as [t'|] eqn:El; [done|]. intros [= <- <-]. split; [|split].
  - destruct Hi as [[] [] [] Ho]. constructor; [by constructor..|]. cbn. intros l' t' [[<- <-]|[_ Hl']]%lookup_insert_Some; [by eapply lookup_lt_Some|by eapply Ho].
  - constructor; cbn; try done; [exists []; by rewrite app_nil_r| |by left]. intros l' t' Ht. rewrite lookup_insert_Some. split; [|naive_solver].
    intros Hl'. right. split; [congruence|done].
  - destruct Hk as [Kh]. constructor; cbn; try done. intros l'. cbn. rewrite lookup_insert_Some. split.
    + intros [[-> _]|[_ Hl']]; [done|]. apply Kh in Hl'. congruence.
    + intros [= ->]. by left.
Qed.
Lemma triple_unlock t L l : lo_held L = Some l ->
  triple' t (knows' t L) (call (DoUnlock l)) (fun _ => knows' t (with_held None L)).
Proof.
  intros HL. apply triple_op; [intros _; apply knows_stable|]. intros s Hi Hk.
  assert (Hl : c_locks s !! l = Some t) by (by apply (kn_held _ _ _ _ _ _ _ _ Hk)). split; [done|].
  intros e r s' _. cbn [exec]. unfold Unlock. rewrite Hl. intros [= <- <-]. split; [|split].
  - destruct Hi as [[] [] [] Ho]. constructor; [by constructor..|]. cbn. intros l' t' [_ Hl']%lookup_delete_Some. by eapply Ho.
  - constructor; cbn; try done; [exists []; by rewrite app_nil_r| |by left]. intros l' t' Ht. rewrite lookup_delete_Some. split; [|naive_solver].
    intros Hl'. split; [congruence|done].
  - destruct Hk as [Kh]. constructor; cbn; try done. intros l'. cbn. rewrite lookup_delete_Some. split; [|done].
    intros [Hne Hl']. apply Kh in Hl'. congruence.
Qed.

(** ** The artifact cache *)
Abbreviation view c d f := (zone_entries c d !! f).
Lemma on_cache_run {A} (m : io cache A) (s s' : state) x : Some (on_cache m s) = Some (x, s') ->
  exists c', m (c_cache s) = (x, c') /\ s' = with_cache s c'.
Proof. unfold on_cache. destruct (m (c_cache s)) as [a c']. intros [= <- <-]. by exists c'. Qed.

(** A call on the directory of the zone a request has locked. *)
Lemma cache_step t (s : state) c' q n : consistent' s -> reqs !! t = Some q -> tgt q = Some n -> c_locks s !! n = Some t ->
  cdated w c' ->
  (forall d f, signed_suffix f -> d <> artifactZoneDir n -> view c' d f = view (c_cache s) d f) ->
  (forall z data, seen (c_log s) z -> artifact_content (with_cache s c') (z_Name z) (z_Version z) = Some data ->
     artifact_content s (z_Name z) (z_Version z) = Some data) ->
  (publishing' -> forall z, zones_in s !! n = Some z -> apart' n -> undeleted' n ->
     is_Some (artifact_content s n (z_Version z)) -> is_Some (artifact_content (with_cache s c') n (z_Version z))) ->
  consistent' (with_cache s c') /\ guarantee' t s (with_cache s c').
Proof.
  intros Hi Hq Ht Hl Hd Hframe Hold Hpub. split.
  - pose proof (k_published _ _ _ _ _ _ _ _ (i_cache _ _ _ _ _ _ _ _ Hi)) as Hp.
    pose proof (k_signed _ _ _ _ _ _ _ _ (i_cache _ _ _ _ _ _ _ _ Hi)) as Hs.
    destruct Hi as [[] [] _ ?]. constructor; [by constructor|by constructor| |done]. constructor; [done| |].
    + intros Hpb z data Hz Ha Hc. by apply (Hs Hpb z data Hz Ha), Hold.
    + intros Hpb n' z Hz Ha Hu. specialize (Hp Hpb n' z Hz Ha Hu). unfold artifact_content. cbn [c_cache with_cache].
      destruct (decide (artifactZoneDir n' = artifactZoneDir n)) as [E|E].
      * assert (n = n') as <- by (apply (Ha q); [by eapply list_elem_of_lookup_2|done|done]). by apply Hpub.
      * rewrite Hframe; [exact Hp|apply artifact_file_signed|done].
  - constructor; cbn; try done; [exists []; by rewrite app_nil_r| |by left]. intros d f Hf Hnot. apply Hframe; [done|].
    intros ->. apply Hnot. by exists q, n.
Qed.
Lemma shrunk_frame d P c c' : shrunk d P c c' -> forall d' f, d' <> d -> view c' d' f = view c d' f.
Proof. intros Hs d' f Hd. destruct (Hs d' f) as [?|(-> & _)]; done. Qed.
Lemma shrunk_content d P c c' d' f data : shrunk d P c c' -> content (view c' d' f) = Some data -> content (view c d' f) = Some data.
Proof. intros Hs. destruct (Hs d' f) as [->|(_ & _ & ->)]; done. Qed.
Lemma newest_content c d f data : newest c d f data -> content (view c d f) = Some data.
Proof. by intros (i & p & tm & -> & _). Qed.

Definition with_file (f : option (string * string)) (L : local) : local := mkLocal (lo_held L) (lo_events L) (lo_drawn L) (lo_seen L) f (lo_zone L).
Lemma knows_cache t L (s : state) c' : knows' t L s -> knows' t (with_file None L) (with_cache s c').
Proof. intros []. by constructor. Qed.

Lemma triple_store t L q n v data : lo_held L = Some n -> reqs !! t = Some q -> tgt q = Some n -> lo_drawn L = Some v -> lo_events L = [] ->
  triple' t (knows' t L) (call (DoStoreArtifact n v data))
    (fun r => match r with Ok _ => knows' t (with_file (Some (v, data)) L) | Err _ => knows' t (with_file None L) end).
Proof using clock.
  intros HL Hq Ht Hv Hev. apply triple_op; [intros [|]; apply knows_stable|]. intros s Hi Hk. split; [done|].
  intros e r s' _ (c' & Hrun & ->)%on_cache_run.
  pose proof (wpio_run _ _ _ _ _ Hrun (wp_store w clock artifactDir n v data (c_cache s))) as (Hframe & Hcont & Hnew).
  pose proof (k_dated _ _ _ _ _ _ _ _ (i_cache _ _ _ _ _ _ _ _ Hi)) as Hd.
  assert (Hd' : cdated w c') by (pose proof (store_ckeeps w clock artifactDir n v data (c_cache s) Hd) as Hc; by rewrite Hrun in Hc).
  assert (Hl : c_locks s !! n = Some t) by (by apply (kn_held _ _ _ _ _ _ _ _ Hk)).
  pose proof (kn_drawn _ _ _ _ _ _ _ _ Hk v Hv) as Hdr. rewrite <- (kn_events _ _ _ _ _ _ _ _ Hk) in Hev.
  assert (Hother : forall d z, seen (c_log s) z -> view c' d (artifact_file (z_Version z)) = view (c_cache s) d (artifact_file (z_Version z))).
  { intros d z Hz. apply Hframe; [apply artifact_file_signed|]. intros _ Ef. apply (unwritten s t v z Hi Hdr Hev Hz).
    destruct (seen_issued s z Hi Hz) as (t' & _ & Hiz). eapply artifact_file_inj; [exact Hiz| |exact Ef].
    by eapply (g_issued _ (i_generator _ _ _ _ _ _ _ _ Hi)). }
  destruct (cache_step t s c' q n Hi Hq Ht Hl Hd') as [Hi' Hg].
  - intros d f Hf Hne. apply Hframe; [done|]. by intros ->.
  - intros z x Hz. unfold artifact_content. cbn [c_cache with_cache]. by rewrite Hother.
  - intros _ z Hz _ _. unfold artifact_content. cbn [c_cache with_cache]. rewrite Hother; [done|]. by eapply stored_seen.
  - split; [done|]. split; [done|]. destruct r as [[]|er]; [|by apply knows_cache].
    destruct Hk as [Kh Ke Kd Ks _ Kz]. constructor; try done. cbn. intros v' data' [= <- <-]. exists n. split; [done|]. intros Hdir Ha. by apply Hnew.
Qed.
Lemma triple_remove t L q n v : lo_held L = Some n -> reqs !! t = Some q -> tgt q = Some n -> lo_drawn L = Some v -> lo_events L = [] ->
  triple' t (knows' t L) (call (DoRemoveArtifact n v)) (fun _ => knows' t (with_file None L)).
Proof using clock.
  intros HL Hq Ht Hv Hev. apply triple_op; [intros _; apply knows_stable|]. intros s Hi Hk. split; [done|].
  intros e r s' _ (c' & Hrun & ->)%on_cache_run.
  pose proof (wpio_run _ _ _ _ _ Hrun (wp_removeArtifact w artifactDir n v (c_cache s))) as Hshr. cbn beta in Hshr.
  pose proof (k_dated _ _ _ _ _ _ _ _ (i_cache _ _ _ _ _ _ _ _ Hi)) as Hd.
  assert (Hd' : cdated w c') by (pose proof (removeArtifact_ckeeps w clock artifactDir n v (c_cache s) Hd) as Hc; by rewrite Hrun in Hc).
  assert (Hl : c_locks s !! n = Some t) by (by apply (kn_held _ _ _ _ _ _ _ _ Hk)).
  pose proof (kn_drawn _ _ _ _ _ _ _ _ Hk v Hv) as Hdr. rewrite <- (kn_events _ _ _ _ _ _ _ _ Hk) in Hev.
  destruct (cache_step t s c' q n Hi Hq Ht Hl Hd') as [Hi' Hg].
  - intros d f _ Hne. by eapply shrunk_frame.
  - intros z x _. by apply (shrunk_content _ _ _ _ _ _ _ Hshr).
  - intros _ z Hz _ _. unfold artifact_content. cbn [c_cache with_cache].
    destruct (Hshr (artifactZoneDir n) (artifact_file (z_Version z))) as [->|(_ & Ef & _)]; [done|]. exfalso.
    pose proof (stored_seen s n z Hi Hz) as Hseen. apply (unwritten s t v z Hi Hdr Hev Hseen).
    destruct (seen_issued s z Hi Hseen) as (t' & _ & Hiz). eapply artifact_file_inj; [exact Hiz| |exact Ef].
    by eapply (g_issued _ (i_generator _ _ _ _ _ _ _ _ Hi)).
  - split; [done|]. split; [done|]. by apply knows_cache.
Qed.
(** Pruning after the zone was written keeps its artifact. *)
Lemma triple_prune t L q n z data : lo_held L = Some n -> reqs !! t = Some q -> tgt q = Some n ->
  lo_zone L = Some z -> lo_file L = Some (z_Version z, data) ->
  triple' t (knows' t L) (call (DoPruneArtifacts n)) (fun _ => knows' t (with_file None L)).
Proof using clock.
  intros HL Hq Ht Hz Hf. apply triple_op; [intros _; apply knows_stable|]. intros s Hi Hk. split; [done|].
  intros e r s' _ (c' & Hrun & ->)%on_cache_run.
  pose proof (wpio_run _ _ _ _ _ Hrun (wp_prune_any w artifactDir maxArtifacts n (c_cache s))) as Hshr. cbn beta in Hshr.
  pose proof (k_dated _ _ _ _ _ _ _ _ (i_cache _ _ _ _ _ _ _ _ Hi)) as Hd.
  assert (Hd' : cdated w c') by (pose proof (prune_ckeeps w clock artifactDir maxArtifacts n (c_cache s) Hd) as Hc; by rewrite Hrun in Hc).
  assert (Hl : c_locks s !! n = Some t) by (by apply (kn_held _ _ _ _ _ _ _ _ Hk)).
  destruct (kn_file _ _ _ _ _ _ _ _ Hk _ _ Hf) as (n1 & E1 & Hnew). assert (n1 = n) as -> by congruence.
  destruct (kn_zone _ _ _ _ _ _ _ _ Hk _ Hz) as (n2 & E2 & Hst). assert (n2 = n) as -> by congruence.
  destruct (cache_step t s c' q n Hi Hq Ht Hl Hd') as [Hi' Hg].
  - intros d f _ Hne. by eapply shrunk_frame.
  - intros z' x _. by apply (shrunk_content _ _ _ _ _ _ _ Hshr).
  - intros [Hsig Hdir] z' Hz' Ha Hu. rewrite (Hst Hsig Hu) in Hz'. injection Hz' as <-. unfold artifact_content. cbn [c_cache with_cache].
    pose proof (wpio_run _ _ _ _ _ Hrun (wp_prune w artifactDir maxArtifacts n (z_Version z) data (c_cache s) (fun Hdir => Hnew Hdir Ha))) as Hkeep.
    destruct (Hkeep (artifactZoneDir n) (artifact_file (z_Version z))) as [->|(_ & [_ Hne] & _)]; [done|]. by destruct Hne.
  - split; [done|]. split; [done|]. by apply knows_cache.
Qed.
Lemma triple_remove_zone t L name m n : lo_held L = Some (NormalizeZoneName n) -> reqs !! t = Some (Http (DeleteZoneRoute name m)) ->
  NormalizeZoneName name = NormalizeZoneName n ->
  triple' t (knows' t L) (call (DoRemoveArtifacts n)) (fun _ => knows' t (with_file None L)).
Proof using clock.
  intros HL Hq Hn. apply triple_op; [intros _; apply knows_stable|]. intros s Hi Hk. split; [done|].
  intros e r s' _ (c' & Hrun & ->)%on_cache_run.
  pose proof (wpio_run _ _ _ _ _ Hrun (wp_removeZone w artifactDir n (c_cache s))) as Hshr. cbn beta in Hshr.
  pose proof (k_dated _ _ _ _ _ _ _ _ (i_cache _ _ _ _ _ _ _ _ Hi)) as Hd.
  assert (Hd' : cdated w c') by (pose proof (removeZone_ckeeps w clock artifactDir n (c_cache s) Hd) as Hc; by rewrite Hrun in Hc).
  assert (Hl : c_locks s !! NormalizeZoneName n = Some t) by (by apply (kn_held _ _ _ _ _ _ _ _ Hk)).
  destruct (cache_step t s c' _ (NormalizeZoneName n) Hi Hq) as [Hi' Hg]; [cbn; congruence|done|done|..].
  - intros d f _ Hne. by eapply shrunk_frame.
  - intros z' x _. by apply (shrunk_content _ _ _ _ _ _ _ Hshr).
  - intros _ z' _ _ Hu. exfalso. eapply Hu; [by eapply list_elem_of_lookup_2|]. by exists name, m.
  - split; [done|]. split; [done|]. by apply knows_cache.
Qed.
(** A loaded artifact is the signature of the zone it was asked for. *)
Lemma triple_load t L z : z ∈ lo_seen L ->
  triple' t (knows' t L) (call (DoLoadArtifact (z_Name z) (z_Version z)))
    (fun r s => (forall data, r = Ok data -> publishing' -> apart' (z_Name z) -> signed_for lib z data) /\ knows' t L s).
Proof using clock.
  intros Hz. apply triple_op; [intros r; apply stable_pure, knows_stable|]. intros s Hi Hk. split; [done|].
  intros e r s' _ (c' & Hrun & ->)%on_cache_run.
  pose proof (wpio_run _ _ _ _ _ Hrun (wp_load w artifactDir (z_Name z) (z_Version z) (c_cache s))) as [Hsame Hload].
  pose proof (k_dated _ _ _ _ _ _ _ _ (i_cache _ _ _ _ _ _ _ _ Hi)) as Hd.
  assert (Hd' : cdated w c') by (pose proof (load_ckeeps w clock artifactDir (z_Name z) (z_Version z) (c_cache s) Hd) as Hc; by rewrite Hrun in Hc).
  pose proof (k_signed _ _ _ _ _ _ _ _ (i_cache _ _ _ _ _ _ _ _ Hi)) as Hs. pose proof (kn_seen _ _ _ _ _ _ _ _ Hk) as Hseen.
  rewrite Forall_forall in Hseen. specialize (Hseen z Hz).
  assert (Hcont : forall n v, artifact_content (with_cache s c') n v = artifact_content s n v) by (intros; unfold artifact_content; cbn; by rewrite Hsame).
  split; [|split; [|split]].
  - pose proof (k_published _ _ _ _ _ _ _ _ (i_cache _ _ _ _ _ _ _ _ Hi)) as Hp. destruct Hi as [[] [] _ ?].
    constructor; [by constructor|by constructor| |done]. constructor; [done|..].
    + intros Hpb z' x. rewrite Hcont. by apply Hs.
    + intros Hpb n z'. rewrite Hcont. by apply Hp.
  - constructor; cbn; try done; [exists []; by rewrite app_nil_r|by left].
  - intros data -> Hpb Ha. apply (Hs Hpb z data Hseen Ha). by apply Hload.
  - destruct Hk as [Kh Ke Kd Ks Kf Kz]. constructor; try done. cbn. intros v data Hv. destruct (Kf v data Hv) as (n & Hn & Hnew). exists n. split; [done|].
    intros Hdir Ha. eapply newest_same; [|apply artifact_file_signed|by apply Hnew]. intros f _. apply Hsame.
Qed.

(** ** Writes *)
Lemma write_event t (s : state) st' ev q : consistent' s -> reqs !! t = Some q -> ev_by ev = t -> events_of t (c_log s) = [] ->
  store_ok st' -> zones_of st' = apply_event (zones_in s) ev -> ev_old ev = zones_in s !! ev_zone ev ->
  advances ev -> allowed rrlib error_text q ev ->
  (forall z, ev_new ev = Some z -> c_issued s !! z_Version z = Some t /\ z_Name z = ev_zone ev /\ 0 < Serial (z_SOA z) <= MaxUint32
     /\ (publishing' -> apart' (ev_zone ev) -> exists data, artifact_content s (ev_zone ev) (z_Version z) = Some data /\ signed_for lib z data)) ->
  (signingService = true -> c_locks s !! ev_zone ev = Some t \/ deletes q (ev_zone ev)) ->
  let s' := with_log (with_store s st') (c_log s ++ [ev]) in consistent' s' /\ guarantee' t s s'.
Proof.
  intros Hi Hq Hby Hev Hok Hzs Hold Hadv Hall Hnew Hlock s'.
  assert (Hzin : zones_in s' = apply_event (zones_in s) ev) by done.
  assert (Hlook : forall n z, zones_in s' !! n = Some z -> ev_new ev = Some z /\ n = ev_zone ev \/ zones_in s !! n = Some z /\ n <> ev_zone ev).
  { intros n z. rewrite Hzin. unfold apply_event. destruct (ev_new ev) as [z'|].
    - intros [[<- <-]|[Hne Hl]]%lookup_insert_Some; [by left|by right].
    - intros [Hne Hl]%lookup_delete_Some. by right. }
  assert (Hfresh : forall z, ev_new ev = Some z -> z_Version z ∉ new_versions (c_log s)).
  { intros z Hz. destruct (Hnew z Hz) as [Hd _]. by apply (unwritten_new s t _ Hi). }
  pose proof (i_history _ _ _ _ _ _ _ _ Hi) as [Hst Hrep Hch Hadvs Hdr Hnd Hndo Hon Hcur Hal Hser].
  assert (Holdv : forall n z zo, zones_in s !! n = Some z -> n <> ev_zone ev -> ev_old ev = Some zo -> z_Version z <> z_Version zo).
  { intros n z zo Hz Hne Ho Hv. rewrite Hold in Ho. assert (z = zo) as -> by (eapply (seen_inj s); [done|by eapply stored_seen..|done]).
    apply Hne. destruct (stored_name s _ _ Hi Hz) as [<- _]. by destruct (stored_name s _ _ Hi Ho) as [<- _]. }
  split; [constructor|].
  - constructor; cbn [c_log c_store c_issued with_log with_store s'].
    + done.
    + by rewrite Hzin, replay_snoc, <- Hrep.
    + constructor; [done|]. by rewrite <- Hrep.
    + apply Forall_app. split; [done|]. by constructor.
    + intros e z [He| ->%list_elem_of_singleton]%elem_of_app Hz; [by apply Hdr|]. destruct (Hnew z Hz) as (? & ? & _). by rewrite Hby.
    + rewrite new_versions_app. apply NoDup_app. split; [done|]. split.
      * intros v Hv Hv2. unfold new_versions in Hv2. cbn [omap list_omap] in Hv2. destruct (ev_new ev) as [z|] eqn:Ez; cbn in Hv2; [|by apply elem_of_nil in Hv2].
        apply list_elem_of_singleton in Hv2 as ->. by apply (Hfresh z).
      * unfold new_versions. cbn [omap list_omap]. destruct (z_Version <$> ev_new ev); [apply NoDup_singleton|constructor].
    + rewrite old_versions_app. apply NoDup_app. split; [done|]. split.
      * intros v Hv Hv2. unfold old_versions in Hv2. cbn [omap list_omap] in Hv2. destruct (ev_old ev) as [z|] eqn:Ez; cbn in Hv2; [|by apply elem_of_nil in Hv2].
        apply list_elem_of_singleton in Hv2 as ->. symmetry in Hold. by apply (Hcur _ _ Hold).
      * unfold old_versions. cbn [omap list_omap]. destruct (z_Version <$> ev_old ev); [apply NoDup_singleton|constructor].
    + intros v. rewrite old_versions_app, new_versions_app, !elem_of_app. intros [Hv|Hv]; [left; by apply Hon|].
      unfold old_versions in Hv. cbn [omap list_omap] in Hv. destruct (ev_old ev) as [z|] eqn:Ez; cbn in Hv; [|by apply elem_of_nil in Hv].
      apply list_elem_of_singleton in Hv as ->. left. apply seen_version. symmetry in Hold. by eapply stored_seen.
    + intros n z Hz. rewrite old_versions_app, not_elem_of_app. unfold old_versions at 2. cbn [omap list_omap].
      destruct (Hlook n z Hz) as [[Hn ->]|[Hn Hne]].
      * split; [intros Hv; by apply (Hfresh z Hn), Hon|]. destruct (ev_old ev) as [zo|] eqn:Eo; cbn; [|by intros ?%elem_of_nil].
        intros Hv%list_elem_of_singleton. apply (Hfresh z Hn). rewrite Hv. apply seen_version. symmetry in Hold. by eapply stored_seen.
      * split; [by apply (Hcur n)|]. destruct (ev_old ev) as [zo|] eqn:Eo; cbn; [|by intros ?%elem_of_nil].
        intros Hv%list_elem_of_singleton. by apply (Holdv n z zo Hn Hne).
    + intros e [He| ->%list_elem_of_singleton]%elem_of_app; [by apply Hal|]. rewrite Hby. by exists q.
    + intros n z Hz. destruct (Hlook n z Hz) as [[Hn _]|[Hn _]]; [by apply Hnew|by eapply Hser].
  - by destruct (i_generator _ _ _ _ _ _ _ _ Hi).
  - pose proof (i_cache _ _ _ _ _ _ _ _ Hi) as [Hd Hs Hp]. constructor; [done|..].
    + intros Hpb z data (e & [He| ->%list_elem_of_singleton]%elem_of_app & Hz) Ha Hc; [apply (Hs Hpb z data); [by exists e|done..]|].
      destruct (Hnew z Hz) as (_ & Hn & _ & Hf). rewrite Hn in Ha, Hc. destruct (Hf Hpb Ha) as (data' & Hc' & Hsg).
      change (artifact_content s (ev_zone ev) (z_Version z) = Some data) in Hc. rewrite Hc' in Hc. by injection Hc as <-.
    + intros Hpb n z Hz Ha Hu. destruct (Hlook n z Hz) as [[Hn ->]|[Hn Hne]]; [|by apply (Hp Hpb n z Hn Ha Hu)].
      destruct (Hnew z Hn) as (_ & _ & _ & Hf). destruct (Hf Hpb Ha) as (data' & Hc' & _). by exists data'.
  - exact (i_owners _ _ _ _ _ _ _ _ Hi).
  - constructor; cbn; try done.
    + exists [ev]. split; [done|]. by constructor.
    + intros Hsig n. fold (zones_in s') (zones_in s). rewrite Hzin. destruct (decide (n = ev_zone ev)) as [->|Hne].
      * right. destruct (Hlock Hsig) as [?|?]; [by left|right]. by exists q.
      * left. unfold apply_event. destruct (ev_new ev); [by rewrite lookup_insert_ne|by rewrite lookup_delete_ne].
Qed.

Definition wrote (ev : event) (L : local) : local :=
  mkLocal (lo_held L) [ev] (lo_drawn L) (lo_seen L) (lo_file L) (if bool_decide (lo_held L = Some (ev_zone ev)) then ev_new ev else None).
Lemma knows_wrote t L (s : state) st' ev : knows' t L s -> lo_events L = [] -> ev_by ev = t -> zones_of st' = apply_event (zones_in s) ev ->
  knows' t (wrote ev L) (with_log (with_store s st') (c_log s ++ [ev])).
Proof.
  intros [Kh Ke Kd Ks Kf Kz] Hev Hby Hz. constructor; try done.
  - change (events_of t (c_log s ++ [ev]) = [ev]). rewrite events_of_app, Ke, Hev. unfold events_of. rewrite filter_cons_True by done. by rewrite filter_nil.
  - eapply Forall_impl; [exact Ks|]. intros z. apply seen_app.
  - cbn [wrote lo_zone lo_held]. intros z Hn. destruct (bool_decide_reflect (lo_held L = Some (ev_zone ev))) as [E|]; [|done]. exists (ev_zone ev). split; [done|]. intros _ _.
    unfold zones_in. cbn. rewrite Hz. unfold apply_event. rewrite Hn. apply lookup_insert_eq.
Qed.

Lemma serial_kept d d' cur : calendar d -> calendar d' -> 0 < cur <= MaxUint32 ->
  updateSOASerial d' cur (NextSOASerial d cur) = NextSOASerial d cur.
Proof.
  intros Hd Hd' Hc. unfold updateSOASerial, NextSOASerial. pose proof (generateSerial_advances d cur Hd Hc). pose proof (generateSerial_advances d' cur Hd' Hc).
  destruct (Z.ltb_spec cur (generateSerial d cur)); [done|]. assert (cur = MaxUint32) as -> by lia. lia.
Qed.
Lemma soa_eq a b : set_Serial 0 a = set_Serial 0 b -> Serial a = Serial b -> a = b.
Proof. destruct a, b. unfold set_Serial. cbn. congruence. Qed.
Lemma signed_for_stored z z' data : signed_for lib z data -> same_data z z' -> z_Name z' = z_Name z -> z_Version z' = z_Version z ->
  Serial (z_SOA z') = Serial (z_SOA z) -> signed_for lib z' data.
Proof.
  intros (e & ksk & zsk & zin & zout & rrs & Hi & Hs & Hg & Hn & Hv & Ho & Hr) [Hsoa Hrec] En Ev Es. exists e, ksk, zsk, zin, zout, rrs.
  rewrite En, Ev. split_and!; [done..| |by etransitivity]. rewrite Ho. by apply soa_eq.
Qed.
(** A prepared artifact for the zone about to be written. *)
Definition artifact_ready (L : local) (n : string) (zone : Zone) : Prop :=
  lo_held L = Some n /\ z_Name zone = n
  /\ (artifactDir <> "" -> exists data, lo_file L = Some (z_Version zone, data) /\ signed_for lib zone data).
Lemma ready_published t L (s : state) n zone z' : knows' t L s -> artifact_ready L n zone -> same_data zone z' -> z_Name z' = n ->
  z_Version z' = z_Version zone -> Serial (z_SOA z') = Serial (z_SOA zone) -> publishing' -> apart' n ->
  exists data, artifact_content s n (z_Version z') = Some data /\ signed_for lib z' data.
Proof.
  intros Hk (Hh & Hn & Hf) Hd Hn' Hv Hser [_ Hdir] Ha. destruct (Hf Hdir) as (data & Hfile & Hsg).
  destruct (kn_file _ _ _ _ _ _ _ _ Hk _ _ Hfile) as (n1 & E1 & Hnew). assert (n1 = n) as -> by congruence.
  exists data. rewrite Hv. split; [|apply (signed_for_stored zone); congruence || done]. unfold artifact_content. by apply newest_content, Hnew.
Qed.

Lemma stored_zones (s : state) name : stored s name = zones_in s !! NormalizeZoneName name.
Proof. unfold stored. rewrite law_get. unfold zones_in. by destruct (zones_of (c_store s) !! _). Qed.

Lemma triple_update t L q n zone current : reqs !! t = Some q -> tgt q = Some n -> NormalizeZoneName (z_Name zone) = n ->
  lo_events L = [] -> lo_drawn L = Some (z_Version zone) -> z_Version zone <> "" ->
  current ∈ lo_seen L -> z_Version current <> "" -> uint32 (Serial (z_SOA zone)) ->
  (forall m, if_match q = Some m -> strongETagMatches m (z_Version current) = true) ->
  (exists z1, edited q current = Some z1 /\ same_data z1 zone) ->
  (signingService = true -> artifact_ready L n zone /\ exists d, calendar d /\ Serial (z_SOA zone) = NextSOASerial d (Serial (z_SOA current))) ->
  triple' t (knows' t L) (call (DoUpdate zone (z_Version current)))
    (fun rz s => match fst rz with
                 | Ok _ => (z_Name (snd rz) = n /\ z_Version (snd rz) = z_Version zone) /\ knows' t (wrote (mkEvent t n (Some current) (Some (snd rz))) L) s
                 | Err _ => knows' t L s end).
Proof.
  intros Hq Ht Hn Hev Hdr Hvne Hcur Hcne Hser Him Hed Hready. apply triple_op.
  { intros [[[]|er] z]; cbn [fst snd]; [apply stable_pure|]; apply knows_stable. }
  intros s Hi Hk. split; [done|]. intros e [r z'] s' [_ Hcal]. cbn [exec].
  pose proof (law_update (env_in e) zone (z_Version current) (c_store s) (c_ulid s) (h_store _ _ _ _ (i_history _ _ _ _ _ _ _ _ Hi))) as Hlaw.
  pose proof (kn_drawn _ _ _ _ _ _ _ _ Hk _ Hdr) as Hiss. pose proof (kn_events _ _ _ _ _ _ _ _ Hk) as Hevs. rewrite Hev in Hevs.
  assert (Hgen : snd (store_UpdateZone (env_in e) zone (z_Version current) (c_store s) (c_ulid s)) = c_ulid s).
  { apply law_update_generator; [done|]. intros old Ho. apply (unwritten s t _ old Hi Hiss Hevs). by eapply stored_seen. }
  destruct (store_UpdateZone _ _ _ _ _) as [[[[[]|er] z1] st'] u]; cbn [snd] in Hgen; subst u; intros [= <- <- <-]; cbn [fst snd].
  2: { destruct Hlaw as (-> & _). assert (same_shared s (with_ulid (with_store s (c_store s)) (c_ulid s))) as Hs by done.
       split_and!; [by eapply same_shared_consistent|by apply same_shared_guarantee|by eapply same_shared_knows]. }
  destruct Hlaw as (old & Hold & Hexp & Hup & Hok & Hzs). rewrite Hn in Hold, Hzs. fold (zones_in s) in Hold.
  pose proof (kn_seen _ _ _ _ _ _ _ _ Hk) as Hseen. rewrite Forall_forall in Hseen. specialize (Hseen current Hcur).
  assert (old = current) as ->. { destruct Hexp as [?|Hexp]; [done|]. by apply (seen_inj s); [|eapply stored_seen| |]. }
  pose proof (h_serial _ _ _ _ (i_history _ _ _ _ _ _ _ _ Hi) _ _ Hold) as Hcs.
  assert (Hvz : z_Version z1 = z_Version zone).
  { apply (updated_version _ _ _ _ Hup); [done|]. intros E. by apply (unwritten s t _ current Hi Hiss Hevs Hseen). }
  destruct (updated_content _ _ _ _ Hup) as (Hname & Hsoa & Hrec & _). rewrite Hn in Hname.
  assert (Hdata : same_data zone z1) by done. rewrite stored_zones, Hn, Hold.
  set (ev := mkEvent t n (Some current) (Some z1)).
  assert (Hst : zones_of st' = apply_event (zones_in s) ev) by exact Hzs.
  destruct (write_event t s st' ev q Hi Hq eq_refl Hevs Hok Hst) as [Hi' Hg].
  - exact (eq_sym Hold).
  - unfold advances. cbn. rewrite (updated_serial _ _ _ _ Hup). pose proof (updateSOASerial_advances (in_date (env_in e)) _ _ Hcal Hcs Hser). lia.
  - split; [done|]. cbn. split; [done|]. destruct Hed as (ze & He1 & He2). exists ze. split; [done|]. by etransitivity.
  - cbn. intros z [= <-]. rewrite Hvz. split; [done|]. split; [done|].
    pose proof (updateSOASerial_advances (in_date (env_in e)) _ _ Hcal Hcs Hser) as [Ha _]. rewrite <- (updated_serial _ _ _ _ Hup) in Ha. split; [lia|].
    intros Hpb Hap. destruct (Hready (proj1 Hpb)) as (Hrd & d & Hd & Hsd). rewrite <- Hvz. apply (ready_published t L s n zone z1); try done.
    rewrite (updated_serial _ _ _ _ Hup), Hsd. by apply serial_kept.
  - intros Hsig. left. destruct (Hready Hsig) as ((Hh & _) & _). by apply (kn_held _ _ _ _ _ _ _ _ Hk).
  - split; [exact Hi'|]. split; [exact Hg|]. split; [done|]. exact (knows_wrote t L s st' ev Hk Hev eq_refl Hst).
Qed.

Lemma triple_create t L q n zone : reqs !! t = Some q -> tgt q = Some n -> NormalizeZoneName (z_Name zone) = n ->
  lo_events L = [] -> lo_drawn L = Some (z_Version zone) -> z_Version zone <> "" -> uint32 (Serial (z_SOA zone)) ->
  (exists z0, created_zone rrlib error_text q = Some z0 /\ same_data z0 zone) ->
  (signingService = true -> artifact_ready L n zone /\ 0 < Serial (z_SOA zone)) ->
  triple' t (knows' t L) (call (DoCreate zone))
    (fun rz s => match fst rz with
                 | Ok _ => (z_Name (snd rz) = n /\ z_Version (snd rz) = z_Version zone) /\ knows' t (wrote (mkEvent t n None (Some (snd rz))) L) s
                 | Err _ => knows' t L s end).
Proof.
  intros Hq Ht Hn Hev Hdr Hvne Hser Hcr Hready. apply triple_op.
  { intros [[[]|er] z]; cbn [fst snd]; [apply stable_pure|]; apply knows_stable. }
  intros s Hi Hk. split; [done|]. intros e [r z'] s' [_ Hcal]. cbn [exec].
  pose proof (law_create (env_in e) (Some zone) (c_store s) (c_ulid s) (h_store _ _ _ _ (i_history _ _ _ _ _ _ _ _ Hi))) as Hlaw.
  pose proof (kn_drawn _ _ _ _ _ _ _ _ Hk _ Hdr) as Hiss. pose proof (kn_events _ _ _ _ _ _ _ _ Hk) as Hevs. rewrite Hev in Hevs.
  pose proof (law_create_generator (env_in e) zone (c_store s) (c_ulid s) Hvne) as Hgen.
  destruct (store_CreateZone _ _ _ _) as [[[[[]|er] z1] st'] u]; cbn [snd] in Hgen; subst u; intros [= <- <- <-]; cbn [fst snd].
  2: { destruct Hlaw as (-> & -> & _). assert (same_shared s (with_ulid (with_store s (c_store s)) (c_ulid s))) as Hs by done.
       split_and!; [by eapply same_shared_consistent|by apply same_shared_guarantee|by eapply same_shared_knows]. }
  destruct Hlaw as (z0 & wz & [= <-] & -> & Hc & Hok & Hnone & Hzs). cbn [default from_option id] in *.
  pose proof (created_version _ _ _ Hc Hvne) as Hvz. destruct (created_content _ _ _ Hc) as (Hname & Hsoa & Hrec & _). rewrite Hn in Hname.
  rewrite Hname in *. fold (zones_in s) in Hnone. assert (Hdata : same_data zone wz) by done.
  set (ev := mkEvent t n None (Some wz)). assert (Hst : zones_of st' = apply_event (zones_in s) ev) by exact Hzs.
  destruct (write_event t s st' ev q Hi Hq eq_refl Hevs Hok Hst) as [Hi' Hg].
  - exact (eq_sym Hnone).
  - done.
  - split; [done|]. cbn. destruct Hcr as (z0 & E0 & Hd0). exists z0. split; [done|]. by etransitivity.
  - cbn. intros z [= <-]. rewrite Hvz. split; [done|]. split; [done|]. split.
    + rewrite (created_serial _ _ _ Hc). destruct (Z.eqb_spec (Serial (z_SOA zone)) 0); [|unfold uint32 in Hser; lia]. unfold generateSerial. simpl. apply date_first_pos.
    + intros Hpb Hap. destruct (Hready (proj1 Hpb)) as (Hrd & Hpos). rewrite <- Hvz. apply (ready_published t L s n zone wz); try done.
      rewrite (created_serial _ _ _ Hc). by rewrite (proj2 (Z.eqb_neq _ _)) by lia.
  - intros Hsig. left. destruct (Hready Hsig) as ((Hh & _) & _). by apply (kn_held _ _ _ _ _ _ _ _ Hk).
  - split; [exact Hi'|]. split; [exact Hg|]. split; [done|]. exact (knows_wrote t L s st' ev Hk Hev eq_refl Hst).
Qed.

Lemma triple_delete t L name m current : reqs !! t = Some (Http (DeleteZoneRoute name m)) -> lo_events L = [] ->
  current ∈ lo_seen L -> z_Version current <> "" -> strongETagMatches m (z_Version current) = true ->
  triple' t (knows' t L) (call (DoDelete name (z_Version current)))
    (fun r s => match r with
                | Ok _ => knows' t (wrote (mkEvent t (NormalizeZoneName name) (Some current) None) L) s
                | Err _ => knows' t L s end).
Proof.
  intros Hq Hev Hcur Hcne Hm. apply triple_op; [intros [|]; apply knows_stable|]. intros s Hi Hk. split; [done|].
  intros e r s' _. cbn [exec]. unfold deleteZoneWithVersion. destruct conditionalDeleteStore as [f|] eqn:Ef.
  2: { intros [= <- <-]. assert (same_shared s (with_store s (c_store s))) as Hs by done.
       split_and!; [by eapply same_shared_consistent|by apply same_shared_guarantee|by eapply same_shared_knows]. }
  pose proof (law_conditional_delete f name (z_Version current) (c_store s) Ef) as Hlaw.
  pose proof (kn_events _ _ _ _ _ _ _ _ Hk) as Hevs. rewrite Hev in Hevs.
  destruct (f name (z_Version current) (c_store s)) as [[[]|er] st']; intros [= <- <-].
  2: { destruct Hlaw as (-> & _). assert (same_shared s (with_store s (c_store s))) as Hs by done.
       split_and!; [by eapply same_shared_consistent|by apply same_shared_guarantee|by eapply same_shared_knows]. }
  destruct Hlaw as (z & Hz & Hexp & Hzs & Hok). fold (zones_in s) in Hz.
  pose proof (kn_seen _ _ _ _ _ _ _ _ Hk) as Hseen. rewrite Forall_forall in Hseen. specialize (Hseen current Hcur).
  assert (z = current) as ->. { destruct Hexp as [?|Hexp]; [done|]. by apply (seen_inj s); [|eapply stored_seen| |]. }
  rewrite stored_zones, Hz. set (ev := mkEvent t (NormalizeZoneName name) (Some current) None).
  assert (Hst : zones_of st' = apply_event (zones_in s) ev) by exact Hzs.
  destruct (write_event t s st' ev _ Hi Hq eq_refl Hevs (Hok (h_store _ _ _ _ (i_history _ _ _ _ _ _ _ _ Hi))) Hst) as [Hi' Hg].
  - exact (eq_sym Hz).
  - done.
  - split; [done|]. by exists name, m.
  - done.
  - intros _. right. by exists name, m.
  - split; [exact Hi'|]. split; [exact Hg|]. exact (knows_wrote t L s st' ev Hk Hev eq_refl Hst).
Qed.
End steps.
