(* ===== verification/ControllerPrograms.v ===== *)
(** * The handlers keep the protocol

    Triples for the programs of the signing service and of the API handlers:
    from an idle request to a reply, with no lock left, at most one event in the
    history, and an event exactly when the reply says so. *)

From S2P Require Import Prelude DnsRecords Io Program GoStrings GoStringsFacts Names Zone Validation Serial Ulid ZonePath Store.
From S2P Require Import ZoneRules DnsNames FileSystem FileManagerFacts ArtifactCache ArtifactCacheFacts BindFiles Controller SigningService Http Handlers RecordHandlers SignedHandlers Router ControllerProtocol ControllerSteps.
#[local] Open Scope prog_scope.
#[local] Opaque triple.

(** What a reply to a mutation says of the history: an error is at least 400
    and means nothing was written, except 500 after a write that could not be
    completed. *)
Definition fits (r : reply) (evs : list event) : Prop :=
  (evs = [] /\ 400 <= r_status r) \/ (exists e, evs = [e]) /\ (r_status r < 400 \/ r_status r = 500).
(** The result of the part of a handler that writes. *)
Definition fits' {A} (r : reply + A) (evs : list event) : Prop :=
  match r with inr _ => exists e, evs = [e] | inl r => (evs = [] /\ 400 <= r_status r) \/ (exists e, evs = [e]) /\ r_status r = 500 end.

Section programs.
Context `{UnicodeTables, !UnicodeLaws} {St K KeyPair RR : Type} `{ZoneStore St, !StoreLaws St}.
Context (lib : SignerLib K KeyPair RR) (w : World) (artifactDir : string) (maxArtifacts : Z) (signingService : bool).
Context {PrivateKey : Type} (rrlib : RRLib PrivateKey) (error_text : error -> string).
Context (reqs : list request).
Context (clock : forall i j, (i < j)%nat -> mtime_now w i < mtime_now w j).
(** The signer keeps the version of the zone. *)
Context (signer_version : forall e z ksk zsk z' rrs, SignZoneWithKeys lib e z ksk zsk = Ok (z', rrs) -> z_Version z' = z_Version z).
Abbreviation state := (ctl St K).
Abbreviation prog' A := (prog (op KeyPair RR) A).
Abbreviation run_call := (exec lib w artifactDir maxArtifacts).
Abbreviation tgt := (target rrlib error_text).
Abbreviation apart' := (apart rrlib error_text reqs).
Abbreviation publishing' := (publishing artifactDir signingService).
Abbreviation consistent' := (consistent lib w artifactDir signingService rrlib error_text reqs).
Abbreviation discipline' := (discipline lib w artifactDir signingService rrlib error_text reqs).
Abbreviation knows' := (knows artifactDir signingService rrlib error_text reqs).
Abbreviation stable' := (stable discipline').
Abbreviation triple' := (triple run_call discipline').

Abbreviation do_lock := (triple_lock lib w artifactDir maxArtifacts signingService rrlib error_text reqs).
Abbreviation do_unlock := (triple_unlock lib w artifactDir maxArtifacts signingService rrlib error_text reqs).
Abbreviation do_update := (triple_update lib w artifactDir maxArtifacts signingService rrlib error_text reqs).
Abbreviation do_create := (triple_create lib w artifactDir maxArtifacts signingService rrlib error_text reqs).
Abbreviation do_delete := (triple_delete lib w artifactDir maxArtifacts signingService rrlib error_text reqs).
Abbreviation do_store := (triple_store lib w artifactDir maxArtifacts signingService rrlib error_text reqs clock).
Abbreviation do_remove := (triple_remove lib w artifactDir maxArtifacts signingService rrlib error_text reqs clock).
Abbreviation do_prune := (triple_prune lib w artifactDir maxArtifacts signingService rrlib error_text reqs clock).
Abbreviation do_remove_zone := (triple_remove_zone lib w artifactDir maxArtifacts signingService rrlib error_text reqs clock).
Abbreviation do_load := (triple_load lib w artifactDir maxArtifacts signingService rrlib error_text reqs clock).
Lemma seq {B D} t F (p : prog' B) (f : B -> prog' D) G G' :
  triple' t F p G -> (forall b, triple' t (G b) (f b) G') -> triple' t F (bind p f) G'.
Proof. intros Hp Hf. eapply triple_bind; [apply discipline_preorder|exact Hp|exact Hf]. Qed.

(** ** Resting requests *)
Definition rest (t : nat) (P : list event -> Prop) (s : state) : Prop := exists L, knows' t L s /\ lo_held L = None /\ P (lo_events L).
Lemma rest_stable t P : stable' t (rest t P).
Proof. intros s s' (L & Hk & HL) Hr Hi. exists L. split; [by eapply knows_stable|done]. Qed.
Lemma rest_weaken t (P Q : list event -> Prop) s : (forall evs, P evs -> Q evs) -> rest t P s -> rest t Q s.
Proof. intros HPQ (L & Hk & Hh & HP). exists L. auto. Qed.
Lemma triple_rest {A} t P (a : A) (Q : A -> list event -> Prop) : (forall evs, P evs -> Q a evs) -> triple' t (rest t P) (Ret a) (fun b => rest t (Q b)).
Proof. intros HPQ. apply triple_ret; [apply rest_stable|]. intros s _. by apply rest_weaken. Qed.
Lemma triple_done {A} t L (a : A) (Q : A -> list event -> Prop) : lo_held L = None -> Q a (lo_events L) ->
  triple' t (knows' t L) (Ret a) (fun b => rest t (Q b)).
Proof. intros Hh HQ. apply triple_ret; [apply knows_stable|]. intros s _ Hk. by exists L. Qed.
Lemma triple_keep {A} t L (a : A) (R : A -> Prop) : R a -> triple' t (knows' t L) (Ret a) (fun b s => R b /\ knows' t L s).
Proof. intros HR. apply triple_ret; [apply knows_stable|]. by intros s _. Qed.
Lemma triple_exit {A} t F (a : A) G : stable' t F -> (forall s, F s -> G a s) -> triple' t F (Ret a) G.
Proof. intros HF HG. apply triple_ret; [done|]. intros s _. apply HG. Qed.

Lemma knows_less t z L (s : state) : knows' t (add_seen z L) s -> knows' t L s.
Proof. intros [Kh Ke Kd Ks Kf Kz]. constructor; try done. cbn in Ks. by apply Forall_cons in Ks as [_ ?]. Qed.
Lemma knows_no_file t L (s : state) : knows' t L s -> knows' t (with_file None L) s.
Proof. intros []. by constructor. Qed.
(** A read whose result does not matter to the history. *)
Lemma triple_peek t L name : triple' t (knows' t L) (call (DoGet name)) (fun _ => knows' t L).
Proof.
  eapply triple_conseq; [apply triple_get|done|]. intros [z|e] s; cbn; [|done]. intros [_ Hk]. by eapply knows_less.
Qed.
Lemma zone_valid_ascii z : ValidateZone (Some z) = Ok tt -> is_ascii (z_Name z) = true /\ NormalizeZoneName (NormalizeZoneName (z_Name z)) = NormalizeZoneName (z_Name z).
Proof.
  intros Hv. unfold ValidateZone in Hv. inv_ok. match goal with Hz : ValidateZoneName _ = _ |- _ => apply zone_name_accepted in Hz as Hn end.
  split; [|apply NormalizeZoneName_fixed, dns_name_plain, Hn]. destruct Hn as (_ & ls & _ & Hls & Hs). apply dotted_ascii in Hls.
  destruct Hs as [->| ->]; [done|]. by rewrite is_ascii_app, Hls.
Qed.
Lemma read_normal name z : zone_read name z -> NormalizeZoneName (NormalizeZoneName name) = NormalizeZoneName name.
Proof. intros (Hn & Hv & _). apply NormalizeZoneName_idem. rewrite <- Hn. by apply zone_valid_ascii. Qed.

(** ** Signing *)
Definition signs (zone : Zone) (a : SignedZoneArtifact RR) : Prop :=
  sa_ZoneName a = z_Name zone /\ sa_Version a = z_Version zone /\ signed_for lib zone (sa_SignedZone a).
Lemma triple_SignZone t L zone :
  triple' t (knows' t L) (SignZone lib zone) (fun r s => (forall a, r = Ok a -> signs zone a) /\ knows' t L s).
Proof.
  unfold SignZone. destruct (unsignedRRsFromZone lib zone) as [unsigned|e]; [|by apply triple_keep].
  eapply seq; [apply triple_ensure|]. intros r. apply triple_pure. intros Hkeys. destruct r as [[ksk zsk]|e]; [|by apply triple_keep].
  eapply seq; [apply triple_sign|]. intros signed. apply triple_pure. intros [e ->].
  destruct (SignZoneWithKeys lib e zone ksk zsk) as [[zout rrs]|er] eqn:Es; [|by apply triple_keep].
  destruct (GenerateBINDZoneFileFromRRs lib _ _ _) as [data|er] eqn:Eg; [|by apply triple_keep].
  apply triple_keep. intros a [= <-]. unfold artifact_of, signs. destruct (foldl _ _ rrs). cbn. pose proof (signer_version _ _ _ _ _ _ Es) as Hv. rewrite Hv in *.
  split_and!; [done..|]. exists e, ksk, zsk, zone, zout, rrs. split; [by apply Hkeys|]. by split_and!.
Qed.
Lemma signs_dnssec zone cfg a : signs zone a -> signs (set_DNSSEC cfg zone) a.
Proof.
  intros (Hn & Hv & e & ksk & zsk & zin & zout & rrs & Hs). split_and!; [done..|]. by exists e, ksk, zsk, zin, zout, rrs.
Qed.

(** ** Locks *)
Definition locals (h : option string) (evs : list event) (v : option string) (seen : list Zone) : local := mkLocal h evs v seen None None.
Lemma triple_acquire t q name evs v seen : reqs !! t = Some q ->
  triple' t (knows' t (locals None evs v seen)) (acquireZoneLock name)
    (fun r s => match r with
                | Ok l => l = NormalizeZoneName name /\ knows' t (locals (Some l) evs v seen) s
                | Err _ => knows' t (locals None evs v seen) s
                end).
Proof.
  intros Hq. unfold acquireZoneLock. eapply seq; [by apply (do_lock t _ q)|].
  intros [[]|e]; (apply triple_exit; [apply knows_stable|]); [|done]. intros s Hk. by split.
Qed.
(** A body that ends with its lock and events. *)
Lemma triple_with_lock {A} t q name seen (body : prog' (result A)) (G : result A -> state -> Prop) : reqs !! t = Some q ->
  (forall e s, rest t (eq []) s -> G (Err e) s) ->
  triple' t (knows' t (locals (Some (NormalizeZoneName name)) [] None seen)) body
    (fun r s => exists L, knows' t L s /\ lo_held L = Some (NormalizeZoneName name) /\ forall s', knows' t (with_held None L) s' -> G r s') ->
  triple' t (knows' t (locals None [] None seen)) (with_lock name body) G.
Proof.
  intros Hq Herr Hbody. unfold with_lock, try. eapply seq; [by apply (triple_acquire t q)|]. intros [l|e].
  2: { apply triple_exit; [apply knows_stable|]. intros s Hk. apply Herr. by exists (locals None [] None seen). }
  apply triple_pure. intros ->. eapply seq; [exact Hbody|]. intros r. apply triple_exists. intros L.
  apply (triple_conseq _ _ t _ (fun s => (lo_held L = Some (NormalizeZoneName name) /\ forall s', knows' t (with_held None L) s' -> G r s') /\ knows' t L s) _ G G);
    [|by intros s (Hk & Hr)|done]. apply triple_pure. intros [Hh Hr].
  eapply seq; [by apply triple_unlock|]. intros ?. apply triple_exit; [apply knows_stable|]. apply Hr.
Qed.

(** ** Prepared writes *)
Lemma signing_cases : (signingService = true /\ negb signingService = false) \/ (signingService = false /\ negb signingService = true).
Proof. destruct signingService; auto. Qed.
Definition write_of (n : string) (zone : Zone) (sw : option (SignedZoneWrite (RR := RR))) : Prop :=
  match sw with
  | None => signingService = false
  | Some x => signingService = true /\ z_Name zone = n /\ exists a, x = mkWrite a n false false false /\ signs zone a
  end.
Definition lock_of {A} (n : string) (sw : option A) : option string := match sw with Some _ => Some n | None => None end.

Lemma triple_prepare t q v seen zone n : reqs !! t = Some q -> z_Name zone = n -> NormalizeZoneName n = n ->
  triple' t (knows' t (locals None [] v seen)) (prepareSignedZoneWrite lib signingService zone)
    (fun r s => match r with
                | inl r => r = signing_failed /\ knows' t (locals None [] v seen) s
                | inr (zone', sw) => ((exists cfg, zone' = set_DNSSEC cfg zone) /\ write_of n zone' sw) /\ knows' t (locals (lock_of n sw) [] v seen) s
                end).
Proof.
  intros Hq Hn Hnn. unfold prepareSignedZoneWrite. destruct signing_cases as [[Esig ->]|[Esig ->]].
  2: { apply triple_exit; [apply knows_stable|]. intros s Hk. split; [|done]. split; [exists (z_DNSSEC zone); by destruct zone|done]. }
  eapply seq with (G := fun r s => match r with
    | Err _ => knows' t (locals None [] v seen) s
    | Ok (zone', x) => ((exists cfg, zone' = set_DNSSEC cfg zone) /\ write_of n zone' (Some x)) /\ knows' t (locals (Some n) [] v seen) s end).
  - unfold PrepareSignedZoneWrite, try. eapply seq; [by apply (triple_acquire t q)|]. intros [l|e].
    2: { apply triple_exit; [apply knows_stable|done]. }
    apply triple_pure. intros El. rewrite Hn, Hnn in El. subst l. eapply seq; [apply triple_SignZone|]. intros r. apply triple_pure. intros Hr.
    destruct r as [a|e].
    + apply triple_exit; [apply knows_stable|]. intros s Hk. split; [|done]. split; [by eexists|]. split; [done|]. split; [done|].
      exists a. split; [done|]. by apply signs_dnssec, Hr.
    + eapply seq; [by apply triple_unlock|]. intros ?. by apply triple_exit; [apply knows_stable|].
  - intros [[zone' x]|e]; (apply triple_exit; [|done]); [apply stable_pure|]; apply knows_stable.
Qed.

(** *** Abort *)
Lemma triple_abort t q n L sw : reqs !! t = Some q -> tgt q = Some n -> lo_held L = lock_of n sw ->
  match sw with
  | None => True
  | Some x => sw_lock x = n /\ sw_once x = false
      /\ (sw_stored x && negb (sw_committed x) = true -> lo_events L = [] /\ sa_ZoneName (sw_artifact x) = n /\ lo_drawn L = Some (sa_Version (sw_artifact x)))
  end ->
  triple' t (knows' t L) (abort sw) (fun _ => rest t (eq (lo_events L))).
Proof.
  intros Hq Ht Hh Hsw. destruct sw as [x|]; cbn [abort lock_of] in *.
  2: { apply triple_exit; [apply knows_stable|]. intros s Hk. by exists L. }
  destruct Hsw as (Hl & Ho & Hrm). unfold sw_Abort. rewrite Ho.
  apply seq with (G := fun _ s => knows' t (with_file None L) s).
  - destruct (sw_stored x && negb (sw_committed x)).
    + destruct (Hrm eq_refl) as (He & Hz & Hd). rewrite Hz. eapply seq; [by apply (do_remove t L q)|].
      intros ?. by apply triple_exit; [apply knows_stable|].
    + apply triple_exit; [apply knows_stable|]. apply knows_no_file.
  - intros ?. rewrite Hl. eapply triple_conseq; [by apply (do_unlock t (with_file None L) n)|done|].
    intros ? s Hk. by exists (with_held None (with_file None L)).
Qed.

(** *** Publishing *)
Definition file_of (v : string) (sw : option (SignedZoneWrite (RR := RR))) : option (string * string) :=
  match sw with Some x => if (artifactDir =? "")%string then None else Some (v, sa_SignedZone (sw_artifact x)) | None => None end.
Definition stored_write (sw : option (SignedZoneWrite (RR := RR))) : option (SignedZoneWrite (RR := RR)) :=
  match sw with Some x => Some (mkWrite (sw_artifact x) (sw_lock x) (sw_once x) true (sw_committed x)) | None => None end.
Definition before_write (n v : string) (seen : list Zone) sw : local := mkLocal (lock_of n sw) [] (Some v) seen (file_of v sw) None.

Lemma triple_store_write t q n seen zone sw : reqs !! t = Some q -> tgt q = Some n -> write_of n zone sw ->
  triple' t (knows' t (locals (lock_of n sw) [] (Some (z_Version zone)) seen)) (storeSignedZoneWrite artifactDir sw)
    (fun r s => match fst r with
                | Some x => (x = signing_failed /\ snd r = sw) /\ knows' t (locals (lock_of n sw) [] (Some (z_Version zone)) seen) s
                | None => snd r = stored_write sw /\ knows' t (before_write n (z_Version zone) seen sw) s
                end).
Proof.
  intros Hq Ht Hsw. destruct sw as [x|]; cbn [storeSignedZoneWrite write_step].
  2: { by apply triple_exit; [apply knows_stable|]. }
  destruct Hsw as (Hsig & Hn & a & -> & (Hsn & Hsv & _)). unfold storeSignedZoneWrite, write_step, sw_Store. cbn [sw_stored sw_artifact].
  eapply seq with (G := fun r s => match fst r with
    | Ok _ => snd r = mkWrite a n false true false /\ knows' t (before_write n (z_Version zone) seen (Some (mkWrite a n false false false))) s
    | Err _ => snd r = mkWrite a n false false false /\ knows' t (locals (Some n) [] (Some (z_Version zone)) seen) s end).
  - unfold storeSignedZoneArtifact, before_write, file_of. destruct (String.eqb_spec artifactDir "") as [Ed|Ed]; cbn [sw_artifact].
    + eapply seq with (G := fun r s => r = Ok tt /\ knows' t (locals (Some n) [] (Some (z_Version zone)) seen) s); [by apply triple_keep|].
      intros r. apply triple_pure. intros ->. by apply triple_exit; [apply knows_stable|].
    + rewrite Hsn, Hsv, Hn.
      eapply seq with (G := fun r s => match r with Ok _ => knows' t (mkLocal (Some n) [] (Some (z_Version zone)) seen (Some (z_Version zone, sa_SignedZone a)) None) s
        | Err _ => knows' t (locals (Some n) [] (Some (z_Version zone)) seen) s end).
      * eapply seq; [by apply (do_store t _ q)|].
        intros [[]|e]; by apply triple_exit; [apply knows_stable|].
      * intros [[]|e]; by apply triple_exit; [apply knows_stable|].
  - intros [[[]|e] x]; cbn [fst snd]; apply triple_pure; intros ->; by apply triple_exit; [apply knows_stable|].
Qed.

Lemma before_write_ready n seen zone sw : write_of n zone sw -> signingService = true ->
  artifact_ready lib artifactDir (before_write n (z_Version zone) seen sw) n zone.
Proof.
  intros Hsw Hsig. destruct sw as [x|]; [|cbn in Hsw; congruence]. destruct Hsw as (_ & Hn & a & -> & (_ & _ & Hs)).
  split; [done|]. split; [done|]. intros Hd. exists (sa_SignedZone a). unfold before_write, file_of. cbn. by rewrite (proj2 (String.eqb_neq _ _) Hd).
Qed.

Definition committed_write (sw : option (SignedZoneWrite (RR := RR))) : option (SignedZoneWrite (RR := RR)) :=
  match sw with Some x => Some (mkWrite (sw_artifact x) (sw_lock x) (sw_once x) true true) | None => None end.
Definition after_write (n v : string) (seen : list Zone) {A} (sw : option A) (ev : event) : local :=
  mkLocal (lock_of n sw) [ev] (Some v) seen None None.
Lemma knows_forget t L (s : state) : knows' t L s -> knows' t (mkLocal (lo_held L) (lo_events L) (lo_drawn L) (lo_seen L) None None) s.
Proof. intros []. by constructor. Qed.
Lemma triple_commit t q n seen zone sw ev z : reqs !! t = Some q -> tgt q = Some n -> write_of n zone sw ->
  ev_zone ev = n -> ev_new ev = Some z -> z_Version z = z_Version zone ->
  triple' t (knows' t (wrote ev (before_write n (z_Version zone) seen sw))) (commitSignedZoneWrite artifactDir (stored_write sw))
    (fun r s => r = (None, committed_write sw) /\ knows' t (after_write n (z_Version zone) seen sw ev) s).
Proof.
  intros Hq Ht Hsw Hev Hnew Hv. destruct sw as [x|]; unfold commitSignedZoneWrite, Handlers.write_step; cbn [stored_write].
  2: { apply triple_exit; [apply knows_stable|]. intros s Hk. split; [done|]. apply knows_forget in Hk. exact Hk. }
  destruct Hsw as (Hsig & Hn & a & -> & (Hsn & Hsv & _)). unfold sw_Commit, sw_Store. cbn [sw_stored sw_committed sw_artifact sw_lock sw_once negb bind].
  unfold completeSignedZoneWrite, pruneSignedZoneArtifacts. rewrite Hsn, Hn.
  eapply seq with (G := fun r s => r = (Ok tt, mkWrite a n false true true) /\ knows' t (after_write n (z_Version zone) seen (Some (mkWrite a n false false false)) ev) s).
  2: { intros r. apply triple_pure. intros ->. by apply triple_keep. }
  eapply seq with (G := fun _ => knows' t (after_write n (z_Version zone) seen (Some (mkWrite a n false false false)) ev)).
  2: { intros ?. by apply triple_keep. }
  destruct (String.eqb_spec artifactDir "") as [Ed|Ed].
  - apply triple_exit; [apply knows_stable|]. intros s Hk. apply knows_forget in Hk. exact Hk.
  - eapply seq; [apply (do_prune t _ q n z (sa_SignedZone a)); try done|].
    + unfold wrote, before_write. cbn. rewrite Hev, bool_decide_eq_true_2 by done. done.
    + unfold wrote, before_write, file_of. cbn. by rewrite (proj2 (String.eqb_neq _ _) Ed), Hv.
    + intros ?. apply triple_exit; [apply knows_stable|]. intros s Hk. apply knows_forget in Hk. exact Hk.
Qed.
Lemma triple_finish t n v seen zone sw ev : write_of n zone sw ->
  triple' t (knows' t (after_write n v seen sw ev)) (finishSignedZoneWrite artifactDir (committed_write sw))
    (fun r s => (fst r = None /\ forall x, snd r = Some x -> sw_once x = true) /\ rest t (eq [ev]) s).
Proof.
  intros Hsw. destruct sw as [x|]; unfold finishSignedZoneWrite, Handlers.write_step; cbn [committed_write].
  2: { apply triple_exit; [apply knows_stable|]. intros s Hk. split; [done|]. by exists (after_write n v seen (@None (SignedZoneWrite (RR := RR))) ev). }
  destruct Hsw as (_ & _ & a & -> & _). unfold sw_Complete, sw_Commit, sw_Store. cbn [sw_stored sw_committed sw_artifact sw_lock sw_once negb bind].
  apply seq with (G := fun r s => r = (Ok tt, mkWrite a n true true true) /\ knows' t (locals None [ev] (Some v) seen) s).
  - eapply seq; [by apply (do_unlock t _ n)|]. intros ?. by apply triple_keep.
  - intros r. apply triple_pure. intros ->. apply triple_exit; [apply knows_stable|]. intros s Hk. cbn.
    split; [split; [done|by intros x [= <-]]|]. by exists (locals None [ev] (Some v) seen).
Qed.

Lemma triple_publish t q n seen zone sw store_write on_error message : reqs !! t = Some q -> tgt q = Some n -> write_of n zone sw ->
  triple' t (knows' t (before_write n (z_Version zone) seen sw)) store_write
    (fun rz s => match fst rz with
                 | Ok _ => exists ev, (ev_zone ev = n /\ ev_new ev = Some (snd rz) /\ z_Version (snd rz) = z_Version zone)
                             /\ knows' t (wrote ev (before_write n (z_Version zone) seen sw)) s
                 | Err _ => knows' t (before_write n (z_Version zone) seen sw) s
                 end) ->
  (forall e L, triple' t (knows' t L) (on_error e) (fun r s => 400 <= r_status r /\ knows' t L s)) ->
  triple' t (knows' t (locals (lock_of n sw) [] (Some (z_Version zone)) seen)) (publish_write artifactDir sw store_write on_error message)
    (fun r => rest t (fits' r)).
Proof.
  intros Hq Ht Hsw Hwrite Herror. unfold publish_write.
  assert (Habort : forall L x r, lo_held L = lock_of n sw -> lo_events L = [] -> lo_drawn L = Some (z_Version zone) -> 400 <= r_status r ->
    x = sw \/ x = stored_write sw -> triple' t (knows' t L) (abort x ;;~ Ret (inl r)) (fun r : reply + Zone => rest t (fits' r))).
  { intros L x r Hh He Hd Hr Hx. eapply seq; [apply (triple_abort t q n L x Hq Ht)|].
    - rewrite Hh. destruct Hx as [->| ->]; [done|]. by destruct sw.
    - destruct sw as [y|]; [|by destruct Hx as [->| ->]]. destruct Hsw as (_ & Hn & a & -> & (Hsn & Hsv & _)).
      destruct Hx as [->| ->]; cbn; (split_and!; [done..|]); [done|]. intros _. split_and!; congruence.
    - intros ?. apply triple_rest. intros evs <-. left. by rewrite He. }
  assert (Habort2 : forall L x r, lo_held L = lock_of n sw -> (exists e, lo_events L = [e]) -> r_status r = 500 ->
    x = committed_write sw -> triple' t (knows' t L) (abort x ;;~ Ret (inl r)) (fun r : reply + Zone => rest t (fits' r))).
  { intros L x r Hh He Hr ->. eapply seq; [apply (triple_abort t q n L _ Hq Ht)|].
    - rewrite Hh. by destruct sw.
    - destruct sw as [y|]; [|done]. destruct Hsw as (_ & Hn & a & -> & _). by split_and!.
    - intros ?. apply triple_rest. intros evs <-. by right. }
  eapply seq; [by apply (triple_store_write t q n seen zone sw)|]. intros [[x|] y]; cbn [fst snd]; apply triple_pure.
  { intros [-> ->]. apply Habort; try done. by left. }
  intros ->. eapply seq; [exact Hwrite|]. intros [[[]|e] z]; cbn [fst snd].
  2: { eapply seq; [apply Herror|]. intros r. apply triple_pure. intros Hr. apply Habort; try done. by right. }
  apply triple_exists. intros ev. apply triple_pure. intros (Hez & Hen & Hev).
  eapply seq; [by apply (triple_commit t q n seen zone sw ev z)|]. intros r. apply triple_pure. intros ->.
  eapply seq; [apply triple_peek|]. intros [updated|e].
  2: { apply (Habort2 (after_write n (z_Version zone) seen sw ev)); try done. by exists ev. }
  eapply seq; [by apply (triple_finish t n _ seen zone sw ev)|]. intros [y1 y2]. apply triple_pure. cbn [fst snd]. intros [-> Hy].
  eapply seq with (G := fun _ => rest t (eq [ev])).
  - destruct y2 as [y|]; cbn [abort]; [unfold sw_Abort; rewrite (Hy y eq_refl)|]; by apply triple_exit; [apply rest_stable|].
  - intros ?. apply triple_rest. intros evs <-. by exists ev.
Qed.

(** ** Zone handlers *)
Lemma triple_get_zone t L message name :
  triple' t (knows' t L) (get_zone message name)
    (fun r s => match r with inl r => 400 <= r_status r /\ knows' t L s | inr z => zone_read name z /\ knows' t (add_seen z L) s end).
Proof.
  unfold get_zone. eapply seq; [apply triple_get|]. intros [z|e].
  - apply triple_pure. intros Hz. by apply triple_exit; [apply knows_stable|].
  - apply triple_exit; [apply knows_stable|]. intros s Hk. split; [|done]. unfold get_error. destruct (errors_Is _ _); cbn; lia.
Qed.
Lemma triple_update_error t L name message e : triple' t (knows' t L) (update_error name message e) (fun r s => 400 <= r_status r /\ knows' t L s).
Proof.
  unfold update_error. destruct (errors_Is e ErrZoneNotFound); [by apply triple_keep|]. destruct (errors_Is e ErrConflict); [|by apply triple_keep].
  eapply seq; [apply triple_peek|]. intros ?. by apply triple_keep.
Qed.
Lemma triple_version' t seen :
  triple' t (knows' t (locals None [] None seen)) (call DoVersion)
    (fun r s => match r with Ok v => v <> "" /\ knows' t (locals None [] (Some v) seen) s | Err _ => knows' t (locals None [] None seen) s end).
Proof. by apply triple_version. Qed.

(** What preparation makes of a zone to be written. *)
Definition prepared_zone (n : string) (zone zone' : Zone) : Prop :=
  z_Version zone' = z_Version zone /\ NormalizeZoneName (z_Name zone') = n /\ same_data zone zone' /\ uint32 (Serial (z_SOA zone')).
Lemma next_serial d cur : calendar d -> 0 < cur <= MaxUint32 -> 0 < NextSOASerial d cur <= MaxUint32.
Proof. intros Hd Hc. unfold NextSOASerial. pose proof (generateSerial_advances d cur Hd Hc). lia. Qed.
Lemma triple_prepare_update t q n seen zone cur : reqs !! t = Some q -> NormalizeZoneName (z_Name zone) = n -> NormalizeZoneName n = n ->
  0 < cur <= MaxUint32 -> (signingService = false -> uint32 (Serial (z_SOA zone))) ->
  triple' t (knows' t (locals None [] (Some (z_Version zone)) seen)) (prepareSignedZoneUpdate lib signingService zone cur)
    (fun r s => match r with
                | inl r => 400 <= r_status r /\ knows' t (locals None [] (Some (z_Version zone)) seen) s
                | inr (zone', sw) => (prepared_zone n zone zone' /\ write_of n zone' sw
                    /\ (signingService = true -> exists d, calendar d /\ Serial (z_SOA zone') = NextSOASerial d cur))
                    /\ knows' t (locals (lock_of n sw) [] (Some (z_Version zone)) seen) s
                end).
Proof.
  intros Hq Hn Hnn Hcur Hser. unfold prepareSignedZoneUpdate. destruct signing_cases as [[Esig ->]|[Esig ->]].
  2: { apply triple_exit; [apply knows_stable|]. intros s Hk. split; [|done]. unfold prepared_zone. split_and!; [done|done|by split|by apply Hser|done|congruence]. }
  eapply seq; [apply triple_serial; lia|]. intros serial. apply triple_pure. intros (d & Hd & ->).
  eapply triple_conseq; [by apply (triple_prepare t q (Some (z_Version zone)) seen _ n)|done|]. intros [r|[zone' sw]] s; cbn; [intros [-> Hk]; by split|].
  intros [[[cfg ->] Hw] Hk]. split; [|done]. pose proof (next_serial d cur Hd Hcur). split_and!; [|done|intros _; by exists d].
  unfold prepared_zone. split_and!; cbn; [done|by rewrite Hn|split; reflexivity|unfold uint32; lia].
Qed.
(** Writing a prepared update. *)
Lemma triple_publish_update t q n seen zone zone' sw current name message message' : reqs !! t = Some q -> tgt q = Some n ->
  prepared_zone n zone zone' -> write_of n zone' sw -> z_Version zone <> "" ->
  (signingService = true -> exists d, calendar d /\ Serial (z_SOA zone') = NextSOASerial d (Serial (z_SOA current))) ->
  current ∈ seen -> z_Version current <> "" ->
  (forall m, if_match q = Some m -> strongETagMatches m (z_Version current) = true) ->
  (exists z1, edited q current = Some z1 /\ same_data z1 zone) ->
  triple' t (knows' t (locals (lock_of n sw) [] (Some (z_Version zone)) seen))
    (publish_write artifactDir sw (call (DoUpdate zone' (z_Version current))) (update_error name message) message')
    (fun r => rest t (fits' r)).
Proof.
  intros Hq Ht (Hv & Hn & Hd & Hser) Hw Hvne Hsd Hin Hcne Him (z1 & He1 & He2). rewrite <- Hv. apply (triple_publish t q n seen zone' sw); [done..| |intros; apply triple_update_error].
  eapply triple_conseq; [apply (do_update t (before_write n (z_Version zone') seen sw) q n zone' current); try done|done|].
  - congruence.
  - exists z1. split; [done|]. by etransitivity.
  - intros Hsig. split; [by apply before_write_ready|by apply Hsd].
  - intros [[[]|e] z] s; cbn [fst snd]; [|done]. intros [[Hzn Hzv] Hk]. by exists (mkEvent t n (Some current) (Some z)).
Qed.

Lemma derived_same b z z1 : zone_derived_fields b (Some z) = (Some z1, Ok tt) ->
  z_Name z1 = z_Name z /\ z_SOA z1 = z_SOA z /\ z_Version z1 = z_Version z /\ same_data z z1.
Proof.
  unfold zone_derived_fields. destruct (normalize_records b 0 (z_Records z)) as [rs [[]|e]] eqn:E; [|done]. intros [= <-].
  apply normalize_records_rule in E as [_ Hr]. split_and!; [done..|]. split; [done|]. cbn. eapply Forall2_impl; [exact Hr|]. intros r r' <-. by repeat split.
Qed.
Lemma derived_some b z z1 : zone_derived_fields b (Some z) = (z1, Ok tt) -> exists z', z1 = Some z'.
Proof. unfold zone_derived_fields. destruct (normalize_records b 0 (z_Records z)) as [rs [[]|e]]; [|done]. intros [= <-]. by eexists. Qed.
Lemma repaired_same z z' : repaired z = Some z' -> z_Name z' = z_Name z /\ z_SOA z' = z_SOA z /\ z_Version z' = z_Version z /\ same_data z z'.
Proof.
  unfold repaired, RepairZoneDerivedFields. destruct (zone_derived_fields false (Some z)) as [z1 [[]|e]] eqn:E; [|done].
  destruct (derived_some _ _ _ E) as [z2 ->]. intros [= <-]. by eapply derived_same.
Qed.
Lemma repaired_match z : RepairZoneDerivedFields (Some z) = match repaired z with Some z' => (Some z', Ok tt) | None => RepairZoneDerivedFields (Some z) end.
Proof.
  unfold repaired, RepairZoneDerivedFields, zone_derived_fields. by destruct (normalize_records false 0 (z_Records z)) as [rs [[]|e]].
Qed.

Lemma fits_error r : 400 <= r_status r -> fits r [].
Proof. by left. Qed.
(** The end of a handler that answers with what was written. *)
Lemma triple_answer_write {A} t (p : prog' (reply + A)) F (f : A -> reply) : triple' t F p (fun r => rest t (fits' r)) -> (forall a, r_status (f a) < 400) ->
  triple' t F (a <~! p ; Ret (f a)) (fun r => rest t (fits r)).
Proof.
  intros Hp Hf. unfold or_reply. eapply seq; [exact Hp|]. intros [r|a]; apply triple_rest; intros evs.
  - intros [[-> Hr]|[He Hr]]; [by left|right]. split; [done|by right].
  - intros [e ->]. right. split; [by exists e|]. left. apply Hf.
Qed.
(** A handler that stops early. *)
Lemma triple_refuse {A} t (p : prog' (reply + A)) L (G : A -> state -> Prop) (f : A -> prog' reply) : lo_held L = None -> lo_events L = [] ->
  triple' t (knows' t L) p (fun r s => match r with inl r => 400 <= r_status r /\ knows' t L s | inr a => G a s end) ->
  (forall a, triple' t (G a) (f a) (fun r => rest t (fits r))) ->
  triple' t (knows' t L) (a <~! p ; f a) (fun r => rest t (fits r)).
Proof.
  intros Hh He Hp Hf. unfold or_reply. eapply seq; [exact Hp|]. intros [r|a]; [|apply Hf]. apply triple_pure. intros Hr.
  apply triple_done; [done|]. rewrite He. by apply fits_error.
Qed.

Lemma triple_UpdateZone t name ifMatch body : reqs !! t = Some (Http (PutZone name ifMatch body)) ->
  triple' t (knows' t (locals None [] None [])) (Handlers.UpdateZone lib artifactDir signingService name ifMatch body) (fun r => rest t (fits r)).
Proof.
  intros Hq. set (q := Http (PutZone name ifMatch body)) in *. assert (Hstop : forall r v seen, 400 <= r_status r ->
    triple' t (knows' t (locals None [] v seen)) (Ret r) (fun r => rest t (fits r))) by (intros; by apply triple_done; [|apply fits_error]).
  unfold Handlers.UpdateZone. destruct body as [req|e]; [|apply Hstop; unfold writeInvalidRequestBody; destruct (requestBodyTooLargeError e); cbn; lia].
  destruct (String.eqb_spec (NormalizeZoneName (ur_Name req)) (NormalizeZoneName name)) as [Hname|]; cbn [negb]; [|by apply Hstop].
  destruct (ifMatch =? "")%string; [by apply Hstop|]. unfold check, rejectWildcardIfMatch. destruct (TrimSpace ifMatch =? "*")%string; cbn [negb]; [by apply Hstop|].
  eapply triple_refuse; [done|done|apply triple_get_zone|]. intros current. apply triple_pure. intros Hread. pose proof Hread as (Hcn & Hcv & Hcne & Hcs).
  destruct (strongETagMatches ifMatch (z_Version current)) eqn:Hm; cbn [negb]; [|by apply Hstop].
  set (zone := mkZone _ _ _ _ _ _ _). rewrite repaired_match. destruct (repaired zone) as [zone'|] eqn:Er.
  2: { destruct (RepairZoneDerivedFields (Some zone)) as [z' [[]|e]] eqn:E; [|by apply Hstop]. unfold repaired in Er. by rewrite E in Er. }
  destruct (repaired_same _ _ Er) as (Hzn & Hzs & _ & Hzd). destruct (ValidateZone (Some zone')) as [[]|e] eqn:Ev; [|by apply Hstop]. cbn [default from_option id].
  assert (Hn : NormalizeZoneName (z_Name zone') = NormalizeZoneName name).
  { rewrite Hzn. cbn. rewrite NormalizeZoneName_idem; [done|]. pose proof (zone_valid_ascii zone' Ev) as [Ha _]. by rewrite Hzn in Ha. }
  assert (Hnn : NormalizeZoneName (NormalizeZoneName name) = NormalizeZoneName name).
  { rewrite <- Hn. pose proof (zone_valid_ascii zone' Ev) as [_ ?]. done. }
  eapply seq; [apply triple_version'|]. intros [v|e]; [|by apply Hstop]. apply triple_pure. intros Hv.
  set (zone2 := set_Version v (if negb signingService then set_SOASerial 0 zone' else zone')).
  assert (Hz2 : NormalizeZoneName (z_Name zone2) = NormalizeZoneName name /\ same_data zone' zone2 /\ z_Version zone2 = v
    /\ (signingService = false -> uint32 (Serial (z_SOA zone2)))).
  { unfold zone2. destruct signingService; (split_and!; [done|split; reflexivity|done|]); [done|]. intros _. split; cbn; lia. }
  destruct Hz2 as (Hz2n & Hz2d & Hz2v & Hz2s). rewrite <- Hz2v.
  eapply triple_refuse; [done|done|by apply (triple_prepare_update t q (NormalizeZoneName name))|].
  intros [zone3 sw]. apply triple_pure. intros (Hp & Hw & Hs3). apply triple_answer_write; [|done].
  apply (triple_publish_update t q _ _ zone2); try done.
  - by left.
  - by intros m [= <-].
  - exists zone'. by split.
Qed.

(** ** Record handlers *)
Lemma triple_stop t v seen r : 400 <= r_status r -> triple' t (knows' t (locals None [] v seen)) (Ret r) (fun r => rest t (fits r)).
Proof. intros Hr. by apply triple_done; [|apply fits_error]. Qed.
Lemma triple_stop' {A} t v seen r : 400 <= r_status r ->
  triple' t (knows' t (locals None [] v seen)) (Ret (inl r)) (fun r : reply + A => rest t (fits' r)).
Proof. intros Hr. apply triple_done; [done|]. by left. Qed.
Lemma bad_body_status e : 400 <= r_status (writeInvalidRequestBody e).
Proof. unfold writeInvalidRequestBody. destruct (requestBodyTooLargeError e); cbn; lia. Qed.

(** The zone that was loaded, repaired. *)
Definition loaded (name ifMatch : string) (current zone : Zone) : Prop :=
  zone_read name current /\ strongETagMatches ifMatch (z_Version current) = true /\ repaired current = Some zone.
Lemma triple_load_zone t seen name ifMatch :
  triple' t (knows' t (locals None [] None seen)) (loadZoneForRecordMutation name ifMatch)
    (fun r s => match r with
                | inl r => 400 <= r_status r /\ knows' t (locals None [] None seen) s
                | inr zone => exists current, loaded name ifMatch current zone /\ knows' t (locals None [] None (current :: seen)) s
                end).
Proof.
  assert (Hstop : forall r seen', 400 <= r_status r -> (seen' = seen \/ exists z, seen' = z :: seen) ->
    triple' t (knows' t (locals None [] None seen')) (Ret (inl r)) (fun r s => match r with
                | inl r => 400 <= r_status r /\ knows' t (locals None [] None seen) s
                | inr zone => exists current, loaded name ifMatch current zone /\ knows' t (locals None [] None (current :: seen)) s end)).
  { intros r seen' Hr Hs. apply triple_exit; [apply knows_stable|]. intros s Hk. split; [done|]. destruct Hs as [->|[z ->]]; [done|].
    by apply (knows_less t z). }
  unfold loadZoneForRecordMutation. destruct (ifMatch =? "")%string; [by apply Hstop; [|left]|]. unfold rejectWildcardIfMatch.
  destruct (TrimSpace ifMatch =? "*")%string; cbn [negb]; [by apply Hstop; [|left]|].
  eapply seq; [apply triple_get_zone|]. intros [r|current]; apply triple_pure; [intros Hr; by apply Hstop; [|left]|]. intros Hread.
  destruct (strongETagMatches ifMatch (z_Version current)) eqn:Hm; cbn [negb]; [|by apply Hstop; [|right; exists current]].
  rewrite repaired_match. destruct (repaired current) as [zone|] eqn:Er.
  - apply triple_exit; [apply knows_stable|]. intros s Hk. by exists current.
  - destruct (RepairZoneDerivedFields (Some current)) as [z' [[]|e]] eqn:E; [|by apply Hstop; [|right; exists current]]. unfold repaired in Er. by rewrite E in Er.
Qed.
Lemma triple_commit_records t q name ifMatch seen current zone zone2 : reqs !! t = Some q -> tgt q = Some (NormalizeZoneName name) -> if_match q = Some ifMatch ->
  loaded name ifMatch current zone -> edited q current = Some zone2 -> z_Name zone2 = z_Name zone -> z_SOA zone2 = z_SOA zone -> current ∈ seen ->
  triple' t (knows' t (locals None [] None seen)) (commitRecordMutation lib artifactDir signingService zone2 (z_Version zone)) (fun r => rest t (fits' r)).
Proof.
  intros Hq Ht Him (Hread & Hm & Hr) Hed Hn2 Hs2 Hin. pose proof Hread as (Hcn & Hcv & Hcne & Hcs).
  destruct (repaired_same _ _ Hr) as (Hzn & Hzs & Hzv & _). rewrite Hzv. unfold commitRecordMutation.
  destruct (ValidateZone (Some zone2)) as [[]|e]; [|by apply triple_stop']. destruct (firstDuplicateRecordID (z_Records zone2)); [by apply triple_stop'|].
  eapply seq; [apply triple_version'|]. intros [v|e]; [|by apply triple_stop']. apply triple_pure. intros Hv.
  assert (Hname : NormalizeZoneName (z_Name (set_Version v zone2)) = NormalizeZoneName name).
  { cbn. rewrite Hn2, Hzn, Hcn. by eapply read_normal. }
  change v with (z_Version (set_Version v zone2)) at 1.
  eapply seq; [apply (triple_prepare_update t q (NormalizeZoneName name)); try done|].
  - by eapply read_normal.
  - cbn. by rewrite Hs2, Hzs.
  - intros _. cbn. rewrite Hs2, Hzs. unfold uint32. lia.
  - intros [r|[zone3 sw]]; apply triple_pure; [intros Hst; by apply triple_stop'|]. intros (Hp & Hw & Hs3).
    apply (triple_publish_update t q _ _ (set_Version v zone2)); try done.
    + intros Hsig. destruct (Hs3 Hsig) as (d & Hd & E). exists d. split; [done|]. cbn in E. by rewrite Hs2, Hzs in E.
    + intros m Em. congruence.
    + exists zone2. split; [done|]. by split.
Qed.
Lemma validate_refused z r x : validateRecordForZone z r = inl x -> r_status x = 400.
Proof. unfold validateRecordForZone. repeat case_match; intros [= <-]; done. Qed.

Lemma triple_CreateRecord t name ifMatch body : reqs !! t = Some (Http (PostRecords name ifMatch body)) ->
  triple' t (knows' t (locals None [] None [])) (CreateRecord lib artifactDir signingService name ifMatch body) (fun r => rest t (fits r)).
Proof.
  intros Hq. unfold CreateRecord. destruct body as [record|e]; [|apply triple_stop, bad_body_status].
  eapply triple_refuse; [done|done|apply triple_load_zone|]. intros zone. apply triple_exists. intros current. apply triple_pure. intros Hl.
  unfold or_reply at 1. cbn [bind]. destruct (validateRecordForZone (z_Name zone) (set_ID "" record)) as [x|r] eqn:Ev.
  { apply triple_stop. rewrite (validate_refused _ _ _ Ev). done. }
  destruct (recordExists (z_Records zone) r None) eqn:Ee; [by apply triple_stop|].
  apply triple_answer_write; [|intros updated; by destruct (negb _)].
  apply (triple_commit_records t _ name ifMatch [current] current zone _ Hq); try done; [|by left].
  cbn. destruct Hl as (_ & _ & ->). cbn. by rewrite Ev, Ee.
Qed.
Lemma triple_UpdateRecord t name id ifMatch body : reqs !! t = Some (Http (PutRecord name id ifMatch body)) ->
  triple' t (knows' t (locals None [] None [])) (UpdateRecord lib artifactDir signingService name id ifMatch body) (fun r => rest t (fits r)).
Proof.
  intros Hq. unfold UpdateRecord. destruct (TrimSpace id =? "")%string; [by apply triple_stop|]. destruct body as [record|e]; [|apply triple_stop, bad_body_status].
  eapply triple_refuse; [done|done|apply triple_load_zone|]. intros zone. apply triple_exists. intros current. apply triple_pure. intros Hl.
  destruct (findRecordByID (z_Records zone) (TrimSpace id)) as [idx|] eqn:Ef; [|by apply triple_stop].
  unfold or_reply at 1. cbn [bind]. destruct (validateRecordForZone (z_Name zone) record) as [x|r] eqn:Ev.
  { apply triple_stop. rewrite (validate_refused _ _ _ Ev). done. }
  cbv zeta. destruct (recordExists (z_Records zone) _ (Some idx)) eqn:Ee; [by apply triple_stop|].
  apply triple_answer_write; [|done]. apply (triple_commit_records t _ name ifMatch [current] current zone _ Hq); try done; [|by left].
  cbn. destruct Hl as (_ & _ & ->). cbn. rewrite Ef. cbn. by rewrite Ev, Ee.
Qed.
Lemma triple_DeleteRecord t name id ifMatch : reqs !! t = Some (Http (DeleteRecordRoute name id ifMatch)) ->
  triple' t (knows' t (locals None [] None [])) (DeleteRecord lib artifactDir signingService name id ifMatch) (fun r => rest t (fits r)).
Proof.
  intros Hq. unfold DeleteRecord. destruct (TrimSpace id =? "")%string; [by apply triple_stop|].
  eapply triple_refuse; [done|done|apply triple_load_zone|]. intros zone. apply triple_exists. intros current. apply triple_pure. intros Hl.
  destruct (findRecordByID (z_Records zone) (TrimSpace id)) as [idx|] eqn:Ef; [|by apply triple_stop].
  apply triple_answer_write; [|done]. apply (triple_commit_records t _ name ifMatch [current] current zone _ Hq); try done; [|by left].
  cbn. destruct Hl as (_ & _ & ->). cbn. by rewrite Ef.
Qed.

(** A refused batch is answered with a client error. *)
Lemma batch_error_status st m : 400 <= st -> 400 <= r_status (recordBatchError st m).
Proof. done. Qed.
Lemma bulk_deletes_refused records ops : forall ids idx x, bulk_deletes records ops ids idx = inl x -> 400 <= r_status x.
Proof.
  induction ops as [|o ops IH]; intros ids idx x; [done|]. cbn [bulk_deletes]. cbv zeta. repeat case_match; try (intros [= <-]; by apply batch_error_status). apply IH.
Qed.
Lemma bulk_updates_refused z ids ops : forall us records x, bulk_updates z ids ops us records = inl x -> 400 <= r_status x.
Proof.
  induction ops as [|o ops IH]; intros us records x; [done|]. cbn [bulk_updates]. cbv zeta.
  repeat case_match; try (intros [= <-]; by apply batch_error_status); [|apply IH]. intros [= <-]. erewrite validate_refused; [|done]. done.
Qed.
Lemma bulk_creates_refused z ops : forall records x, bulk_creates z ops records = inl x -> 400 <= r_status x.
Proof.
  induction ops as [|o ops IH]; intros records x; [done|]. cbn [bulk_creates]. case_match; [|apply IH]. intros [= <-]. erewrite validate_refused; [|done]. done.
Qed.
Lemma bulk_refused z records req x : applyBulkRecordOperations z records req = inl x -> 400 <= r_status x.
Proof.
  unfold applyBulkRecordOperations. destruct (bulk_deletes _ _ _ _) as [y|[ids idx]] eqn:E1; [intros [= <-]; by eapply bulk_deletes_refused|].
  destruct (bulk_updates _ _ _ _ _) as [y|rs] eqn:E2; [intros [= <-]; by eapply bulk_updates_refused|].
  destruct (bulk_creates _ _ _) as [y|rs2] eqn:E3; [intros [= <-]; by eapply bulk_creates_refused|].
  repeat case_match; intros [= <-]; by apply batch_error_status.
Qed.
Lemma triple_BulkRecords t name ifMatch body : reqs !! t = Some (Http (PostRecordsBatch name ifMatch body)) ->
  triple' t (knows' t (locals None [] None [])) (BulkRecords lib artifactDir signingService name ifMatch body) (fun r => rest t (fits r)).
Proof.
  intros Hq. unfold BulkRecords. destruct body as [req|e]; [|apply triple_stop, bad_body_status]. destruct (_ && _); [by apply triple_stop|].
  eapply triple_refuse; [done|done|apply triple_load_zone|]. intros zone. apply triple_exists. intros current. apply triple_pure. intros Hl.
  cbv zeta. destruct (_ <? _); [by apply triple_stop|].
  unfold or_reply at 1. cbn [bind]. destruct (applyBulkRecordOperations (z_Name zone) (z_Records zone) req) as [x|rs] eqn:Eb.
  { by eapply triple_stop, bulk_refused. }
  apply triple_answer_write; [|done]. apply (triple_commit_records t _ name ifMatch [current] current zone _ Hq); try done; [|by left].
  cbn. destruct Hl as (_ & _ & ->). cbn. by rewrite Eb.
Qed.

(** ** Creating zones *)
Lemma triple_prepare_create t q n seen zone : reqs !! t = Some q -> NormalizeZoneName (z_Name zone) = n -> NormalizeZoneName n = n -> uint32 (Serial (z_SOA zone)) ->
  triple' t (knows' t (locals None [] (Some (z_Version zone)) seen)) (prepareSignedZoneCreate lib signingService zone)
    (fun r s => match r with
                | inl r => 400 <= r_status r /\ knows' t (locals None [] (Some (z_Version zone)) seen) s
                | inr (zone', sw) => (prepared_zone n zone zone' /\ write_of n zone' sw /\ (signingService = true -> 0 < Serial (z_SOA zone')))
                    /\ knows' t (locals (lock_of n sw) [] (Some (z_Version zone)) seen) s
                end).
Proof.
  intros Hq Hn Hnn Hser. unfold prepareSignedZoneCreate. destruct signing_cases as [[Esig ->]|[Esig ->]].
  2: { apply triple_exit; [apply knows_stable|]. intros s Hk. split; [|done]. unfold prepared_zone. split_and!; [done|done|by split|exact Hser|done|congruence]. }
  eapply seq with (G := fun r s => (forall x, r = Some x -> 400 <= r_status x) /\ knows' t (locals None [] (Some (z_Version zone)) seen) s).
  { unfold ensureZoneAbsentBeforeSigning. eapply seq; [apply triple_peek|]. intros [z|e]; apply triple_keep; intros x; [by intros [= <-]|].
    destruct (negb (errors_Is e ErrZoneNotFound)); [by intros [= <-]|done]. }
  intros absent. apply triple_pure. intros Habs. destruct absent as [x|]; [apply triple_exit; [apply knows_stable|]; intros s Hk; split; [by apply Habs|done]|].
  assert (Hprep : forall zone1, z_Name zone1 = n -> z_Version zone1 = z_Version zone -> same_data zone zone1 -> 0 < Serial (z_SOA zone1) <= MaxUint32 ->
    triple' t (knows' t (locals None [] (Some (z_Version zone)) seen)) (prepareSignedZoneWrite lib signingService zone1)
    (fun r s => match r with
                | inl r => 400 <= r_status r /\ knows' t (locals None [] (Some (z_Version zone)) seen) s
                | inr (zone', sw) => (prepared_zone n zone zone' /\ write_of n zone' sw /\ (signingService = true -> 0 < Serial (z_SOA zone')))
                    /\ knows' t (locals (lock_of n sw) [] (Some (z_Version zone)) seen) s end)).
  { intros zone1 Hn1 Hv1 Hd1 Hs1. eapply triple_conseq; [by apply (triple_prepare t q (Some (z_Version zone)) seen zone1 n)|done|].
    intros [r|[zone' sw]] s; cbn; [intros [-> Hk]; by split|]. intros [[[cfg ->] Hw] Hk]. split; [|done]. unfold prepared_zone.
    split_and!; cbn; [done|by rewrite Hn1|exact Hd1|unfold uint32; lia|exact Hw|lia]. }
  cbv zeta. unfold set_Name at 1. cbn [z_SOA]. destruct (Z.eqb_spec (Serial (z_SOA zone)) 0) as [E|E].
  - eapply seq; [apply triple_serial; unfold MaxUint32; lia|]. intros serial. apply triple_pure. intros (d & Hd & ->).
    apply Hprep; [done|done|split; reflexivity|]. cbn. unfold NextSOASerial, generateSerial. cbn. apply date_first_pos.
  - apply Hprep; [done|done|by split|]. cbn. unfold uint32 in Hser. lia.
Qed.
Lemma triple_create_zone t q n seen zone z0 exists_message : reqs !! t = Some q -> tgt q = Some n -> created_zone rrlib error_text q = Some z0 ->
  same_data z0 zone -> NormalizeZoneName (z_Name zone) = n -> NormalizeZoneName n = n -> uint32 (Serial (z_SOA zone)) ->
  triple' t (knows' t (locals None [] None seen)) (create_zone lib artifactDir signingService exists_message zone) (fun r => rest t (fits' r)).
Proof.
  intros Hq Ht Hc Hd Hn Hnn Hser. unfold create_zone. eapply seq; [apply triple_version'|]. intros [v|e]; [|by apply triple_stop']. apply triple_pure. intros Hv.
  change v with (z_Version (set_Version v zone)) at 1. eapply seq; [by apply (triple_prepare_create t q n)|].
  intros [r|[zone' sw]]; apply triple_pure; [intros Hr; by apply triple_stop'|]. intros ((Hv' & Hn' & Hd' & Hs') & Hw & Hpos).
  rewrite <- Hv'. apply (triple_publish t q n seen zone' sw); [done..| |].
  - eapply triple_conseq; [apply (do_create t (before_write n (z_Version zone') seen sw) q n zone'); try done|done|].
    + by rewrite Hv'.
    + exists z0. split; [done|]. by etransitivity.
    + intros Hsig. split; [by apply before_write_ready|by apply Hpos].
    + intros [[[]|e] z] s; cbn [fst snd]; [|done]. intros [[Hzn Hzv] Hk]. by exists (mkEvent t n None (Some z)).
  - intros e L. apply triple_keep. destruct (errors_Is e ErrZoneAlreadyExists); cbn; lia.
Qed.
Lemma triple_CreateZone t body : reqs !! t = Some (Http (PostZones body)) -> request_wf rrlib error_text (Http (PostZones body)) ->
  triple' t (knows' t (locals None [] None [])) (Handlers.CreateZone lib artifactDir signingService body) (fun r => rest t (fits r)).
Proof.
  intros Hq Hwf. unfold Handlers.CreateZone. destruct body as [req|e]; [|apply triple_stop, bad_body_status].
  set (zone := mkZone _ _ _ _ _ _ _). unfold NormalizeZoneDerivedFields. destruct (zone_derived_fields true (Some zone)) as [zone' [[]|e]] eqn:E; [|by apply triple_stop].
  destruct (derived_some _ _ _ E) as [z1 ->]. destruct (derived_same _ _ _ E) as (Hn & Hs & _ & Hd).
  destruct (ValidateZone (Some z1)) as [[]|e] eqn:Ev; [|by apply triple_stop]. apply triple_answer_write; [|done]. cbn [default from_option id].
  apply (triple_create_zone t _ (NormalizeZoneName (cr_Name req)) [] z1 zone _ Hq); try done.
  - by rewrite Hn.
  - pose proof (zone_valid_ascii z1 Ev) as [_ Hi]. by rewrite Hn in Hi.
  - rewrite Hs. by apply (Hwf zone).
Qed.
Lemma raw_content_refused req r : raw_content req = inl r -> 400 <= r_status r.
Proof. unfold raw_content, raw_read_error. repeat case_match; intros [= <-]; cbn; try lia; by destruct (rawZoneReadTooLarge _). Qed.
Lemma triple_CreateZoneRaw t req : reqs !! t = Some (Http (PostZonesRaw req)) -> request_wf rrlib error_text (Http (PostZonesRaw req)) ->
  triple' t (knows' t (locals None [] None [])) (CreateZoneRaw lib artifactDir signingService rrlib error_text req) (fun r => rest t (fits r)).
Proof.
  intros Hq Hwf. unfold CreateZoneRaw. destruct (raw_content req) as [r|[raw origin]] eqn:Er; [by eapply triple_stop, raw_content_refused|].
  destruct (TrimSpace raw =? "")%string; [by apply triple_stop|].
  destruct (imported_zone rrlib error_text raw origin) as [[zone dups]|err] eqn:Ei; [|apply triple_stop; unfold raw_parse_error; repeat case_match; cbn; lia].
  assert (Hraw : raw_target rrlib error_text req = Some zone) by (unfold raw_target; by rewrite Er, Ei).
  assert (Ev : ValidateZone (Some zone) = Ok tt).
  { unfold imported_zone in Ei. destruct (negb _); [by eapply imported_valid|by eapply imported_default_valid]. }
  unfold NormalizeZoneDerivedFields. destruct (zone_derived_fields true (Some zone)) as [zone' [[]|e]] eqn:E; [|by apply triple_stop].
  destruct (derived_some _ _ _ E) as [z1 ->]. destruct (derived_same _ _ _ E) as (Hn & Hs & _ & Hd).
  apply triple_answer_write; [|done]. cbn [default from_option id].
  apply (triple_create_zone t _ (NormalizeZoneName (z_Name zone)) [] z1 zone _ Hq); try done.
  - cbn. by rewrite Hraw.
  - by rewrite Hn.
  - by apply zone_valid_ascii.
  - rewrite Hs. by apply (Hwf zone).
Qed.

(** ** Deleting zones *)
Lemma name_normal name : ValidateZoneName (NormalizeZoneName name) = Ok tt -> NormalizeZoneName (NormalizeZoneName name) = NormalizeZoneName name.
Proof.
  intros Hv. apply NormalizeZoneName_idem. apply zone_name_accepted in Hv as (_ & ls & _ & Hls & Hs). apply dotted_ascii in Hls.
  destruct Hs as [->| ->]; [done|]. by rewrite is_ascii_app, Hls.
Qed.
Lemma triple_cleanup t name m evs v seen : reqs !! t = Some (Http (DeleteZoneRoute name m)) -> ValidateZoneName (NormalizeZoneName name) = Ok tt ->
  triple' t (knows' t (locals None evs v seen)) (cleanupDeletedZone signingService name) (fun _ => knows' t (locals None evs v seen)).
Proof.
  intros Hq Hv. unfold cleanupDeletedZone. destruct (negb signingService); [by apply triple_exit; [apply knows_stable|]|].
  eapply seq with (G := fun _ => knows' t (locals None evs v seen)); [|intros ?; by apply triple_exit; [apply knows_stable|]].
  unfold CleanupZone. cbv zeta. rewrite Hv. eapply seq; [by eapply triple_acquire|]. intros [l|e]; [|by apply triple_exit; [apply knows_stable|]].
  apply triple_pure. intros El. rewrite name_normal in El by done. subst l.
  eapply seq; [apply (do_remove_zone t _ name m); [cbn; by rewrite name_normal|done|by rewrite name_normal]|]. intros removed.
  eapply seq with (G := fun _ => knows' t (locals (Some (NormalizeZoneName name)) evs v seen)).
  - destruct removed as [[]|e]; [|by apply triple_exit; [apply knows_stable|]]. eapply seq; [apply triple_remove_keys|]. intros ?. by apply triple_exit; [apply knows_stable|].
  - intros out. eapply seq; [by apply do_unlock|]. intros ?. by apply triple_exit; [apply knows_stable|].
Qed.
Lemma triple_DeleteZone t name m : reqs !! t = Some (Http (DeleteZoneRoute name m)) ->
  triple' t (knows' t (locals None [] None [])) (Handlers.DeleteZone signingService name m) (fun r => rest t (fits r)).
Proof.
  intros Hq. unfold Handlers.DeleteZone. cbv zeta. destruct (ValidateZoneName (NormalizeZoneName name)) as [[]|e] eqn:Ev; [|by apply triple_stop].
  destruct (m =? "")%string; [by apply triple_stop|]. unfold check, rejectWildcardIfMatch. destruct (TrimSpace m =? "*")%string; cbn [negb]; [by apply triple_stop|].
  eapply seq; [apply triple_get|]. intros [current|e].
  2: { destruct (errors_Is e ErrZoneNotFound); [|by apply triple_stop]. eapply seq; [by eapply triple_cleanup|]. intros ?. by apply triple_stop. }
  apply triple_pure. intros (Hcn & Hcv & Hcne & _). destruct (strongETagMatches m (z_Version current)) eqn:Hm; cbn [negb]; [|by apply (triple_stop t None [current])].
  eapply seq; [apply (do_delete t _ name m current Hq); [done|by left|done|done]|]. intros [[]|e].
  - eapply seq with (G := fun _ => knows' t (locals None [mkEvent t (NormalizeZoneName name) (Some current) None] None [current])).
    + eapply triple_conseq; [by apply (triple_cleanup t name m [mkEvent t (NormalizeZoneName name) (Some current) None] None [current] Hq)| |done].
      intros s Hk. apply knows_forget in Hk. exact Hk.
    + intros ?. apply triple_done; [done|]. right. split; [by eexists|]. left. done.
  - assert (Hstop : forall r, 400 <= r_status r -> triple' t (knows' t (add_seen current (locals None [] None []))) (Ret r) (fun r => rest t (fits r)))
      by (intros r; apply (triple_stop t None [current])).
    destruct (errors_Is e ErrZoneNotFound); [by apply Hstop|]. destruct (errors_Is e ErrConditionalDeleteUnsupported); [by apply Hstop|].
    destruct (errors_Is e ErrConflict); [|by apply Hstop]. eapply seq; [apply triple_peek|]. intros ?. by apply Hstop.
Qed.

(** ** Re-signing *)
Lemma cloneZone_id z : cloneZone z = z.
Proof.
  destruct z as [n v soa rs d c u]. unfold cloneZone. cbn. f_equal; [|apply cloneDNSSECConfig_id].
  rewrite <- (map_id rs) at 2. apply map_ext. intros []. by destruct rec_Priority.
Qed.
Definition one_if_ok {A} (r : result A) (evs : list event) : Prop := match r with Ok _ => exists e, evs = [e] | Err _ => evs = [] end.
(** A thread that is about to release its lock. *)
Definition under_lock (t : nat) (n : string) (P : list event -> Prop) (s : state) : Prop :=
  exists L, knows' t L s /\ lo_held L = Some n /\ P (lo_events L).
Lemma triple_locked {A} t L n (a : A) (P : A -> list event -> Prop) : lo_held L = Some n -> P a (lo_events L) ->
  triple' t (knows' t L) (Ret a) (fun b => under_lock t n (P b)).
Proof. intros Hh HP. apply triple_exit; [apply knows_stable|]. intros s Hk. by exists L. Qed.
Lemma triple_resign t q name zone seen : reqs !! t = Some q -> tgt q = Some (NormalizeZoneName name) -> if_match q = None -> (forall z, edited q z = Some z) ->
  zone_read name zone -> zone ∈ seen ->
  triple' t (knows' t (locals (Some (NormalizeZoneName name)) [] None seen)) (resignAndStoreZoneLocked lib artifactDir zone)
    (fun r => under_lock t (NormalizeZoneName name) (one_if_ok r)).
Proof.
  intros Hq Ht Him Hed Hread Hin. pose proof Hread as (Hn & _ & Hne & Hser). set (n := NormalizeZoneName name) in *.
  unfold resignAndStoreZoneLocked. cbv zeta. eapply seq; [by apply triple_version|]. intros [v|e]; [|by apply triple_locked]. apply triple_pure. intros Hv.
  eapply seq; [apply triple_serial; lia|]. intros serial. apply triple_pure. intros (d & Hd & ->).
  rewrite cloneZone_id. set (zone1 := set_SOASerial _ _). pose proof (next_serial d _ Hd Hser) as Hns.
  unfold try at 1. eapply seq; [apply triple_SignZone|]. intros r. apply triple_pure. intros Hsg. destruct r as [a|e]; [|by apply triple_locked].
  specialize (Hsg a eq_refl). set (zone2 := set_DNSSEC _ zone1). pose proof (signs_dnssec zone1 (cloneDNSSECConfig (sa_DNSSEC a)) a Hsg) as (Hsn & Hsv & Hss).
  fold zone2 in Hsn, Hsv, Hss. assert (Hz2 : z_Name zone2 = n /\ z_Version zone2 = v /\ same_data zone zone2) by (split_and!; [done|done|split; reflexivity]).
  destruct Hz2 as (Hzn & Hzv & Hzd).
  set (file := if (artifactDir =? "")%string then None else Some (v, sa_SignedZone a)). set (L1 := mkLocal (Some n) [] (Some v) seen file None).
  unfold try. eapply seq with (G := fun r s => match r with Ok _ => knows' t L1 s | Err _ => knows' t (locals (Some n) [] (Some v) seen) s end).
  { unfold storeSignedZoneArtifact, L1, file. destruct (String.eqb_spec artifactDir "") as [Ed|Ed]; [by apply triple_exit; [apply knows_stable|]|].
    rewrite Hsn, Hsv, Hzn, Hzv. eapply seq; [by apply (do_store t _ q)|]. intros [[]|e]; by apply triple_exit; [apply knows_stable|]. }
  intros [[]|e]; [|by apply triple_locked].
  eapply seq; [apply (do_update t L1 q n zone2 zone); try done|].
  - rewrite Hzn. unfold n. by eapply read_normal.
  - unfold uint32. cbn. lia.
  - intros m. by rewrite Him.
  - exists zone. split; [apply Hed|done].
  - intros _. split; [|by exists d]. split; [done|]. split; [done|]. intros Ed. exists (sa_SignedZone a). unfold L1, file. cbn. by rewrite (proj2 (String.eqb_neq _ _) Ed).
  - intros [[[]|e] z]; cbn [fst snd].
    + apply triple_pure. intros [Hzn' Hzv']. set (ev := mkEvent t n (Some zone) (Some z)).
      eapply seq with (G := fun _ => knows' t (mkLocal (Some n) [ev] (Some v) seen None None)).
      * unfold completeSignedZoneWrite, pruneSignedZoneArtifacts. rewrite Hsn, Hzn. destruct (String.eqb_spec artifactDir "") as [Ed|Ed].
        { apply triple_exit; [apply knows_stable|]. intros s Hk. apply knows_forget in Hk. exact Hk. }
        eapply seq; [apply (do_prune t _ q n z (sa_SignedZone a)); try done|].
        -- unfold wrote, L1. cbn. by rewrite bool_decide_eq_true_2.
        -- unfold wrote, L1, file. cbn. by rewrite Hzv'.
        -- intros ?. apply triple_exit; [apply knows_stable|]. intros s Hk. apply knows_forget in Hk. exact Hk.
      * intros ?. apply triple_locked; [done|]. by exists ev.
    + rewrite Hsn, Hsv, Hzn, Hzv. eapply seq; [by apply (do_remove t L1 q)|]. intros ?. by apply triple_locked.
Qed.
Lemma under_lock_rest t n P L s' : lo_held L = Some n -> P (lo_events L) -> knows' t (with_held None L) s' -> rest t P s'.
Proof. intros _ HP Hk. by exists (with_held None L). Qed.
Lemma triple_ResignZone t name : reqs !! t = Some (Resign name) ->
  triple' t (knows' t (locals None [] None [])) (ResignZone lib artifactDir name) (fun r => rest t (one_if_ok r)).
Proof.
  intros Hq. unfold ResignZone. apply (triple_with_lock t _ name [] _ _ Hq).
  { intros e s. apply rest_weaken. by intros evs <-. }
  eapply triple_conseq with (G' := fun r => under_lock t (NormalizeZoneName name) (one_if_ok r)).
  2: done.
  2: { intros r s (L & Hk & Hh & HP). exists L. split; [done|]. split; [done|]. intros s' Hk'. by eapply under_lock_rest. }
  eapply seq; [apply triple_get|]. intros [zone|e]; [|by apply triple_locked]. apply triple_pure. intros Hread.
  destruct (z_DNSSEC zone) as [cfg|]; [|by apply triple_locked]. destruct (Enabled cfg); [|by apply triple_locked].
  unfold try. eapply seq; [by eapply (triple_resign t _ name zone [zone] Hq); [..|left]|]. intros r.
  destruct r as [a|e]; (apply triple_exit; [intros s s' (L & Hk & HL) Hr Hi; exists L; split; [by eapply knows_stable|done]|]);
    intros s (L & Hk & Hh & HP); by exists L.
Qed.
End programs.
