(* ===== verification/ControllerReads.v ===== *)
(** * The reads keep the protocol

    Triples for the handlers that change no zone: they leave no lock and no
    event, and a signed zone they serve is the signing of a version that was
    stored. *)

From S2P Require Import Prelude DnsRecords Io Program GoStrings GoStringsFacts Names Zone Validation Serial Ulid ZonePath Store.
From S2P Require Import Sha256 FileSystem ArtifactCache BindFiles Controller SigningService Http Handlers RecordHandlers SignedHandlers Router ControllerProtocol ControllerSteps ControllerPrograms.
#[local] Open Scope prog_scope.
#[local] Opaque triple.

Section reads.
Context `{UnicodeTables, !UnicodeLaws} {St K KeyPair RR : Type} `{ZoneStore St, !StoreLaws St}.
Context (lib : SignerLib K KeyPair RR) (w : World) (artifactDir : string) (maxArtifacts : Z) (signingService : bool).
Context (contentDisposition : string -> string) (artifactSignatureKey artifactSignatureKeyID : string).
Context {PrivateKey : Type} (rrlib : RRLib PrivateKey) (error_text : error -> string).
Context (reqs : list request).
Context (clock : forall i j, (i < j)%nat -> mtime_now w i < mtime_now w j).
Abbreviation state := (ctl St K).
Abbreviation prog' A := (prog (op KeyPair RR) A).
Abbreviation run_call := (exec lib w artifactDir maxArtifacts).
Abbreviation tgt := (target rrlib error_text).
Abbreviation apart' := (apart rrlib error_text reqs).
Abbreviation publishing' := (publishing artifactDir signingService).
Abbreviation discipline' := (discipline lib w artifactDir signingService rrlib error_text reqs).
Abbreviation knows' := (knows artifactDir signingService rrlib error_text reqs).
Abbreviation rest' := (rest artifactDir signingService rrlib error_text reqs).
Abbreviation triple' := (triple run_call discipline').
Abbreviation then_ := (seq lib w artifactDir maxArtifacts signingService rrlib error_text reqs).
Abbreviation idle := (locals None [] None []).

(** ** Calls that only look *)
Definition looks {X} (c : op KeyPair RR X) : Prop :=
  match c with
  | DoGet _ | DoList _ | DoSummaries _ | DoHealth | DoHasRevisions | DoRevision _ _ | DoRevisions _ _ | DoNow | DoEnsureKeys _ => True
  | _ => False
  end.
Lemma triple_look {X} t L (c : op KeyPair RR X) : looks c -> triple' t (knows' t L) (call c) (fun _ => knows' t L).
Proof.
  intros Hc. apply triple_answer; [by destruct c|]. intros e s x s'. destruct c; try done; cbn; try by intros [= <- <-].
  destruct (EnsureZoneKeys _ _ _ _) as [r k]. by intros [= <- <-].
Qed.
(** A program that only looks. *)
Fixpoint only_looks {A} (p : prog' A) : Prop :=
  match p with Ret _ => True | Call c k => looks c /\ forall x, only_looks (k x) end.
Lemma only_looks_bind {A B} (p : prog' A) (f : A -> prog' B) : only_looks p -> (forall a, only_looks (f a)) -> only_looks (bind p f).
Proof. intros Hp Hf. induction p as [a|X c k IH]; cbn in *; [done|]. destruct Hp. auto. Qed.
Lemma triple_looks {A} t L (p : prog' A) : only_looks p -> triple' t (knows' t L) p (fun _ => knows' t L).
Proof.
  induction p as [a|X c k IH]; intros Hp; [by apply triple_exit; [apply knows_stable|]|]. destruct Hp as [Hc Hk].
  change (Call c k) with (bind (call c) k). eapply then_; [by apply triple_look|]. intros x. cbn beta. by apply IH.
Qed.
Lemma triple_only_looks {A} t (p : prog' A) : only_looks p -> triple' t (knows' t idle) p (fun _ => rest' t (eq [])).
Proof.
  intros Hp. eapply triple_conseq; [by apply triple_looks|done|]. intros a s Hk. by exists idle.
Qed.

(** ** Published artifacts *)
Definition signed_of (name : string) (z : Zone) (sz : signedZoneResult) : Prop :=
  z_Name z = NormalizeZoneName name /\ sz_zoneName sz = z_Name z /\ sz_version sz = z_Version z /\ sz_serial sz = Serial (z_SOA z)
  /\ (publishing' -> apart' (z_Name z) -> signed_for lib z (sz_zoneFile sz))
  /\ (signingService = false -> GenerateBINDZoneFile lib z = Ok (sz_zoneFile sz)).
Definition of_artifact (a : SignedZoneArtifact RR) : signedZoneResult :=
  mkSigned (sa_ZoneName a) (sa_Version a) (sa_Serial a) (sa_SignedZone a) (sa_DNSSEC a).
(** A resting request that has seen a zone. *)
Definition rest_seen (t : nat) (z : Zone) (s : state) : Prop := exists L, knows' t L s /\ lo_held L = None /\ lo_events L = [] /\ z ∈ lo_seen L.
Lemma rest_seen_rest t z s : rest_seen t z s -> rest' t (eq []) s.
Proof. intros (L & Hk & Hh & He & _). exists L. split_and!; [done..|]. by rewrite He. Qed.
Lemma rest_seen_stable t z : stable discipline' t (rest_seen t z).
Proof. intros s s' (L & Hk & HL) Hr Hi. exists L. split; [by eapply knows_stable|done]. Qed.
Definition found (t : nat) (name : string) (r : result signedZoneResult) (s : state) : Prop :=
  match r with Ok sz => exists z, signed_of name z sz /\ rest_seen t z s | Err _ => rest' t (eq []) s end.
Lemma found_stable t name r : stable discipline' t (found t name r).
Proof.
  destruct r as [sz|e]; [|apply rest_stable]. intros s s' (z & Hz & Hr) Hrel Hi. exists z. split; [done|]. by eapply rest_seen_stable.
Qed.

Lemma triple_load_cached t L zone : zone ∈ lo_seen L ->
  triple' t (knows' t L) (loadCachedSignedZoneArtifact lib artifactDir zone)
    (fun r s => (forall a, r = Ok a -> sa_ZoneName a = z_Name zone /\ sa_Version a = z_Version zone /\ sa_Serial a = Serial (z_SOA zone)
       /\ (publishing' -> apart' (z_Name zone) -> signed_for lib zone (sa_SignedZone a))) /\ knows' t L s).
Proof.
  intros Hin. unfold loadCachedSignedZoneArtifact. destruct (artifactDir =? "")%string; [by apply triple_keep|].
  destruct (z_Version zone =? "")%string; [by apply triple_keep|]. unfold try.
  eapply then_; [by apply (triple_load lib w artifactDir maxArtifacts signingService rrlib error_text reqs clock)|].
  intros r. apply triple_pure. intros Hr. destruct r as [data|e]; [|by apply triple_keep]. apply triple_keep. unfold signedArtifactFromCache.
  destruct (ParseBINDZone lib data (z_Name zone)) as [rrs|e]; [|done]. cbn. destruct (md_Expiration _ =? 0); [done|]. intros a [= <-]. cbn.
  split_and!; [done..|]. by apply Hr.
Qed.
Lemma triple_published t q name zone : reqs !! t = Some q -> signingService = true ->
  triple' t (knows' t (locals None [] None [zone])) (GetPublishedSignedZone lib artifactDir name)
    (fun r => found t name match r with Ok a => Ok (of_artifact a) | Err e => Err e end).
Proof.
  intros Hq Hsig. unfold GetPublishedSignedZone, try at 1. eapply then_; [apply triple_get|]. intros [z|e].
  2: { apply triple_exit; [apply knows_stable|]. intros s Hk. by exists (locals None [] None [zone]). }
  apply triple_pure. intros (Hzn & _).
  apply (triple_with_lock lib w artifactDir maxArtifacts signingService rrlib error_text reqs t q (z_Name z) [z; zone]); [done|done|].
  set (n := NormalizeZoneName (z_Name z)).
  assert (Hfail : forall seen e, triple' t (knows' t (locals (Some n) [] None seen)) (Ret (Err e)) (fun r s => exists L, knows' t L s /\ lo_held L = Some n
    /\ forall s', knows' t (with_held None L) s' -> found t name match r with Ok a => Ok (of_artifact a) | Err e => Err e end s')).
  { intros seen e. apply triple_exit; [apply knows_stable|]. intros s Hk. exists (locals (Some n) [] None seen). split_and!; [done..|].
    intros s' Hk'. by exists (with_held None (locals (Some n) [] None seen)). }
  unfold try. eapply then_; [apply triple_get|]. intros [z1|e]; [|apply Hfail]. apply triple_pure. intros (Hn1 & _).
  eapply then_; [by apply triple_load_cached; left|]. intros r. apply triple_pure. intros Hr. destruct r as [a|e]; [|apply (Hfail (z1 :: _))].
  destruct (Hr a eq_refl) as (Ha1 & Ha2 & Ha3 & Ha4). eapply then_; [by apply triple_look|]. intros now.
  destruct (negb (cachedArtifactUsable a now)); [apply (Hfail (z1 :: _))|]. apply triple_exit; [apply knows_stable|]. intros s Hk.
  exists (locals (Some n) [] None [z1; z; zone]). split_and!; [done..|]. intros s' Hk'. exists z1. split.
  - unfold signed_of. split_and!; [done..|]. congruence.
  - exists (locals None [] None [z1; z; zone]). split_and!; [done..|]. left.
Qed.
Lemma if_cases {B : Type} (b : bool) : (b = true /\ forall x y : B, (if b then x else y) = x) \/ (b = false /\ forall x y : B, (if b then x else y) = y).
Proof. destruct b; auto. Qed.
Lemma triple_signed_file t q name zone : reqs !! t = Some q -> zone_read name zone ->
  triple' t (knows' t (locals None [] None [zone])) (SignedHandlers.signedZoneFile lib artifactDir signingService name zone) (found t name).
Proof.
  intros Hq Hread. unfold SignedHandlers.signedZoneFile. destruct (if_cases (B := prog' (result signedZoneResult)) signingService) as [[Esig ->]|[Esig ->]].
  - unfold try. eapply then_; [eapply triple_published; [exact Hq|exact Esig]|]. intros [a|e]; (apply triple_exit; [apply (found_stable t name (Ok _)) || apply found_stable|done]).
  - apply triple_exit; [apply knows_stable|]. intros s Hk. destruct (GenerateBINDZoneFile lib zone) as [data|e] eqn:E; cbn.
    + exists zone. split; [|exists (locals None [] None [zone]); split_and!; [done..|left]]. unfold signed_of. destruct Hread as (Hn & _). split_and!; try done.
      intros [? _]. congruence.
    + by exists (locals None [] None [zone]).
Qed.

(** ** Handlers *)
(** What a reply to a signed-zone request says. *)
Definition serves (t : nat) (name : string) (r : reply) (s : state) : Prop :=
  (400 <= r_status r /\ rest' t (eq []) s)
  \/ exists z sz inm, signed_of name z sz /\ r = signed_zone_reply (signedZoneContentDisposition contentDisposition) artifactSignatureKey artifactSignatureKeyID inm sz
       /\ rest_seen t z s.
Lemma writeSignedZoneError_status message e h : 400 <= r_status (writeSignedZoneError message e h).
Proof. unfold writeSignedZoneError, signedZoneErrorStatus. by destruct (_ || _). Qed.
Lemma triple_GetSignedZone t name inm : reqs !! t = Some (Http (GetSigned name inm)) ->
  triple' t (knows' t idle)
    (SignedHandlers.GetSignedZone lib artifactDir signingService contentDisposition artifactSignatureKey artifactSignatureKeyID name inm) (serves t name).
Proof.
  intros Hq. unfold SignedHandlers.GetSignedZone, or_reply. eapply then_; [apply triple_get_zone|]. intros [r|zone]; apply triple_pure; intros Hr.
  { apply triple_exit; [apply knows_stable|]. intros s Hk. left. split; [done|]. by exists idle. }
  eapply then_; [by eapply triple_signed_file|]. intros [sz|e]; (apply triple_exit; [apply found_stable|]); intros s.
  - intros (z & Hz & Hs). right. by exists z, sz, inm.
  - intros Hs. left. split; [apply writeSignedZoneError_status|done].
Qed.
Lemma found_rest t name r (s : state) : found t name r s -> rest' t (eq []) s.
Proof. destruct r; [|done]. intros (z & _ & Hs). by eapply rest_seen_rest. Qed.
Lemma triple_signed_read {A} t q name zone (f : result signedZoneResult -> A) : reqs !! t = Some q -> zone_read name zone ->
  triple' t (knows' t (locals None [] None [zone])) (r <~ SignedHandlers.signedZoneFile lib artifactDir signingService name zone ; Ret (f r))
    (fun _ => rest' t (eq [])).
Proof.
  intros Hq Hread. eapply then_; [by eapply triple_signed_file|]. intros r. apply triple_exit; [apply found_stable|]. intros s. apply found_rest.
Qed.
Lemma triple_reply {A} t L (a : A) : lo_held L = None -> lo_events L = [] -> triple' t (knows' t L) (Ret a) (fun _ => rest' t (eq [])).
Proof. intros Hh He. by apply (triple_done _ _ _ _ _ _ _ _ t L a (fun _ => eq [])). Qed.
Lemma triple_HeadSignedZone t name inm : reqs !! t = Some (Http (HeadSigned name inm)) ->
  triple' t (knows' t idle)
    (HeadSignedZone lib artifactDir signingService contentDisposition artifactSignatureKey artifactSignatureKeyID name inm) (fun _ => rest' t (eq [])).
Proof.
  intros Hq. unfold HeadSignedZone. eapply then_; [apply triple_get|]. intros [zone|e]; [|by apply triple_reply]. apply triple_pure. intros Hread.
  by eapply triple_signed_read.
Qed.
Lemma triple_GetSignedZoneMetadata t name inm : reqs !! t = Some (Http (GetSignedMetadata name inm)) ->
  triple' t (knows' t idle) (GetSignedZoneMetadata lib artifactDir signingService name inm) (fun _ => rest' t (eq [])).
Proof.
  intros Hq. unfold GetSignedZoneMetadata, or_reply. eapply then_; [apply triple_get_zone|]. intros [r|zone]; apply triple_pure; intros Hr; [by apply triple_reply|].
  by eapply triple_signed_read.
Qed.
Lemma triple_GetDSRecords t name : reqs !! t = Some (Http (GetDS name)) ->
  triple' t (knows' t idle) (GetDSRecords lib signingService name) (fun _ => rest' t (eq [])).
Proof.
  intros Hq. unfold GetDSRecords. destruct (negb signingService); [by apply triple_reply|]. unfold or_reply.
  eapply then_; [apply triple_get_zone|]. intros [r|zone]; apply triple_pure; intros Hr; [by apply triple_reply|].
  eapply then_ with (G := fun _ => rest' t (eq [])); [|intros ?; by apply triple_exit; [apply rest_stable|]].
  unfold service_GetDSRecords. apply (triple_with_lock lib w artifactDir maxArtifacts signingService rrlib error_text reqs t _ name [zone] _ _ Hq); [done|].
  eapply then_; [by apply triple_look|]. intros keys. apply triple_exit; [apply knows_stable|]. intros s Hk.
  eexists. split; [exact Hk|]. split; [done|]. intros s' Hk'. by eexists.
Qed.
Lemma triple_GetEarliestExpiration t name :
  triple' t (knows' t idle) (GetEarliestExpiration lib artifactDir name) (fun _ => rest' t (eq [])).
Proof.
  unfold GetEarliestExpiration, try. eapply then_; [apply triple_get|]. intros [zone|e]; [|by apply triple_reply]. apply triple_pure. intros Hread.
  destruct (z_DNSSEC zone) as [cfg|]; [|by apply triple_reply]. destruct (Enabled cfg); [|by apply triple_reply].
  eapply then_; [by apply triple_load_cached; left|]. intros r. apply triple_pure. intros _. by apply triple_reply.
Qed.

Lemma get_zone_looks message name : only_looks (get_zone message name).
Proof. by split. Qed.
Lemma or_reply_looks {A} (p : prog' (reply + A)) f : only_looks p -> (forall a, only_looks (f a)) -> only_looks (or_reply p f).
Proof. intros Hp Hf. apply only_looks_bind; [done|]. by intros [r|a]. Qed.
Lemma Ready_looks : only_looks Ready.
Proof. by split. Qed.
Lemma ListZones_looks o l f : only_looks (Handlers.ListZones o l f).
Proof. unfold Handlers.ListZones. repeat case_match; by repeat split. Qed.
Lemma HeadZone_looks name inm : only_looks (HeadZone name inm).
Proof. by repeat split. Qed.
Lemma GetZone_looks name inm : only_looks (Handlers.GetZone name inm).
Proof. apply or_reply_looks; [apply get_zone_looks|done]. Qed.
Lemma ListRecords_looks name : only_looks (ListRecords name).
Proof. apply or_reply_looks; [apply get_zone_looks|done]. Qed.
Lemma ListZoneVersions_looks name o l : only_looks (ListZoneVersions name o l).
Proof.
  apply or_reply_looks; [apply get_zone_looks|]. intros z. split; [done|]. intros b. cbn. destruct b; cbn; [|done].
  destruct (parsePagination o l 10) as [r|[offset limit]]; [done|]. by repeat split.
Qed.
Lemma GetZoneRevision_looks name v : only_looks (GetZoneRevision name v).
Proof.
  unfold GetZoneRevision. destruct (negb _); [done|]. apply or_reply_looks; [apply get_zone_looks|]. intros z. by split.
Qed.
End reads.
