(* ===== verification/ControllerFacts.v ===== *)
(** * Concurrent requests of the controller

    A pool of API requests and re-signing jobs, run in any order call by call
    from a fresh controller: the theorems that hold in every state the pool can
    reach, and that it can always be run to the end. *)

From S2P Require Import Prelude DnsRecords Io Program GoStrings GoStringsFacts Names Zone Validation Serial Ulid ZonePath Store.
From S2P Require Import Sha256 FileSystem ArtifactCache ArtifactCacheFacts BindFiles Controller SigningService Http Handlers RecordHandlers SignedHandlers Router ControllerProtocol ControllerSteps ControllerPrograms ControllerReads.
#[local] Open Scope prog_scope.

Section pool.
Context `{UnicodeTables, !UnicodeLaws} {St K KeyPair RR : Type} `{ZoneStore St, !StoreLaws St}.
Context (lib : SignerLib K KeyPair RR) (w : World) (artifactDir : string) (maxArtifacts : Z) (signingService : bool).
Context (contentDisposition : string -> string) (artifactSignatureKey artifactSignatureKeyID : string).
Context {PrivateKey : Type} (rrlib : RRLib PrivateKey) (error_text : error -> string).
Context (buildInfo : string * string * string).
Abbreviation state := (ctl St K).
Abbreviation run_call := (exec lib w artifactDir maxArtifacts).
Abbreviation discipline' := (discipline lib w artifactDir signingService rrlib error_text).
Abbreviation knows' := (knows artifactDir signingService rrlib error_text).
Abbreviation rest' := (rest artifactDir signingService rrlib error_text).
Abbreviation serves' := (serves lib artifactDir signingService contentDisposition artifactSignatureKey artifactSignatureKeyID rrlib error_text).
Abbreviation run := (run_request lib artifactDir signingService contentDisposition artifactSignatureKey artifactSignatureKeyID rrlib error_text buildInfo).

(** What the theorems assume: later modifications of files get later times, the
    signer keeps the version of a zone, and bodies have [uint32] serials. *)
Record assumptions (reqs : list request) : Prop := {
  as_clock : forall i j, (i < j)%nat -> mtime_now w i < mtime_now w j;
  as_signer : forall e z ksk zsk z' rrs, SignZoneWithKeys lib e z ksk zsk = Ok (z', rrs) -> z_Version z' = z_Version z;
  as_requests : forall q, q ∈ reqs -> request_wf rrlib error_text q }.
(** A controller that has just started, with an empty store. *)
Record fresh (s : state) : Prop := {
  fr_zones : zones_in s = ∅;
  fr_store : store_ok (c_store s);
  fr_ulid : ulid_wf (c_ulid s);
  fr_locks : c_locks s = ∅;
  fr_issued : c_issued s = ∅;
  fr_log : c_log s = [];
  fr_cache : cdated w (c_cache s) }.
(** The states a pool can reach, with the rest of its programs. *)
Definition reaches (reqs : list request) (s0 : state) (l : list (prog (op KeyPair RR) finish)) (s : state) : Prop :=
  fresh s0 /\ exists sch, Forall (fun te => sane te.2) sch /\ Program.interleave run_call sch (map run reqs, s0) = (l, s).

(** Replies of one request. *)
Definition replied (reqs : list request) (t : nat) (r : route) (x : reply) (s : state) : Prop :=
  rest' reqs t (if mutates (Http r) then fits x else eq []) s /\ forall name inm, r = GetSigned name inm -> serves' reqs t name x s.
Definition outcome (reqs : list request) (t : nat) (f : finish) (s : state) : Prop :=
  match reqs !! t, f with
  | Some (Http r), Replied x => replied reqs t r x s
  | Some (Resign _), Resigned x => rest' reqs t (one_if_ok x) s
  | Some (EarliestExpiration _), Expires _ => rest' reqs t (eq []) s
  | _, _ => False
  end.
Definition is_get_signed (r : route) : bool := match r with GetSigned _ _ => true | _ => false end.

#[local] Opaque triple.
Abbreviation idle := (locals None [] None []).
Abbreviation triple' reqs := (triple run_call (discipline' reqs)).
Lemma of_writes reqs t r p : mutates (Http r) && negb (is_get_signed r) = true ->
  triple' reqs t (knows' reqs t idle) p (fun x => rest' reqs t (fits x)) -> triple' reqs t (knows' reqs t idle) p (replied reqs t r).
Proof.
  intros [Hm Hn]%andb_true_iff Hp. eapply triple_conseq; [exact Hp|done|]. intros x s Hs. unfold replied. rewrite Hm. split; [done|]. by intros name inm ->.
Qed.
Lemma of_reads reqs t r p : mutates (Http r) || is_get_signed r = false ->
  triple' reqs t (knows' reqs t idle) p (fun _ => rest' reqs t (eq [])) -> triple' reqs t (knows' reqs t idle) p (replied reqs t r).
Proof.
  intros [Hm Hn]%orb_false_iff Hp. eapply triple_conseq; [exact Hp|done|]. intros x s Hs. unfold replied. rewrite Hm. split; [done|]. by intros name inm ->.
Qed.
Lemma of_looks reqs t r p : mutates (Http r) || is_get_signed r = false -> only_looks p -> triple' reqs t (knows' reqs t idle) p (replied reqs t r).
Proof. intros Hm Hp. apply of_reads; [done|]. by apply triple_only_looks. Qed.

Lemma triple_handle reqs t r : assumptions reqs -> reqs !! t = Some (Http r) ->
  triple' reqs t (knows' reqs t idle)
    (handle lib artifactDir signingService contentDisposition artifactSignatureKey artifactSignatureKeyID rrlib error_text buildInfo r)
    (replied reqs t r).
Proof.
  intros [Hclock Hsig Hwf] Hq. pose proof (Hwf _ (list_elem_of_lookup_2 _ _ _ Hq)) as Hwfq.
  destruct r; cbn [handle].
  - by apply of_looks.
  - by apply of_looks; [|apply Ready_looks].
  - destruct buildInfo as [[v c] d]. by apply of_looks.
  - apply of_writes; [done|]. by eapply triple_CreateZone.
  - apply of_writes; [done|]. by eapply triple_CreateZoneRaw.
  - by apply of_looks; [|apply ListZones_looks].
  - by apply of_looks; [|apply HeadZone_looks].
  - by apply of_looks; [|apply GetZone_looks].
  - by apply of_looks; [|apply ListZoneVersions_looks].
  - by apply of_looks; [|apply GetZoneRevision_looks].
  - apply of_writes; [done|]. by eapply triple_UpdateZone.
  - apply of_writes; [done|]. by eapply triple_DeleteZone.
  - by apply of_looks; [|apply ListRecords_looks].
  - apply of_writes; [done|]. by eapply triple_CreateRecord.
  - apply of_writes; [done|]. by eapply triple_BulkRecords.
  - apply of_writes; [done|]. by eapply triple_UpdateRecord.
  - apply of_writes; [done|]. by eapply triple_DeleteRecord.
  - apply of_reads; [done|]. by eapply triple_HeadSignedZone.
  - eapply triple_conseq; [by eapply triple_GetSignedZone|done|]. intros x s Hs. split; [|by intros name' inm' [= <- <-]].
    destruct Hs as [[_ Hs]|(z & sz & i & _ & _ & Hs)]; [done|by eapply rest_seen_rest].
  - apply of_reads; [done|]. by eapply triple_GetSignedZoneMetadata.
  - apply of_reads; [done|]. by eapply triple_GetDSRecords.
Qed.
Lemma triple_request reqs t q : assumptions reqs -> reqs !! t = Some q ->
  triple' reqs t (knows' reqs t idle) (run q) (outcome reqs t).
Proof.
  intros Has Hq. unfold outcome. rewrite Hq. destruct q as [r|zone|zone]; cbn [run_request]; pose proof Has as [Hclock Hsig _].
  - eapply seq; [by eapply triple_handle|]. intros x. apply triple_exit; [|done]. intros s s' [Hr Hs] Hrel Hi.
    split; [by eapply rest_stable|]. intros name inm E. destruct (Hs name inm E) as [[H1' H2']|(z & sz & i & H1' & H2' & H3')].
    + left. split; [done|]. by eapply rest_stable.
    + right. exists z, sz, i. split_and!; [done..|]. by eapply rest_seen_stable.
  - eapply seq; [by eapply triple_ResignZone|]. intros x. by apply triple_exit; [apply rest_stable|].
  - eapply seq; [by eapply triple_GetEarliestExpiration|]. intros x. by apply triple_exit; [apply rest_stable|].
Qed.
#[local] Transparent triple.

Lemma fresh_consistent reqs s : fresh s -> consistent lib w artifactDir signingService rrlib error_text reqs s.
Proof.
  intros [Hz Hst Hu Hl Hi Hg Hc]. constructor; [constructor|constructor|constructor|]; rewrite ?Hz, ?Hg, ?Hi, ?Hl in *; try done; try by constructor.
  - by intros e z ?%elem_of_nil.
  - by intros e ?%elem_of_nil.
  - intros _ z data (e & He & _). by apply elem_of_nil in He.
Qed.
Lemma fresh_knows reqs t s : fresh s -> knows' reqs t idle s.
Proof.
  intros [Hz Hst Hu Hl Hi Hg Hc]. constructor; try done.
  - intros l. by rewrite Hl, lookup_empty.
  - by rewrite Hg.
Qed.
Lemma pool_starts reqs s : assumptions reqs -> fresh s -> pool_ok run_call (discipline' reqs) (outcome reqs) (map run reqs, s).
Proof.
  intros Has Hs. split; [by apply fresh_consistent|]. intros t p Hp. cbn in Hp. rewrite list_lookup_fmap in Hp. destruct (reqs !! t) as [q|] eqn:Eq; [|done].
  injection Hp as <-. apply (triple_request reqs t q Has Eq). by apply fresh_knows.
Qed.
Lemma reaches_ok reqs s0 l s : assumptions reqs -> reaches reqs s0 l s -> pool_ok run_call (discipline' reqs) (outcome reqs) (l, s).
Proof.
  intros Has (Hf & sch & Hsch & Hrun). rewrite <- Hrun. apply interleave_ok; [apply _| |done|by apply pool_starts].
  intros i j s1 s2 Hij _. by apply relies_compatible.
Qed.
Lemma reaches_consistent reqs s0 l s : assumptions reqs -> reaches reqs s0 l s -> consistent lib w artifactDir signingService rrlib error_text reqs s.
Proof. intros Has Hr. apply (reaches_ok reqs s0 l s Has Hr). Qed.
Lemma reaches_outcome reqs s0 l s t f : assumptions reqs -> reaches reqs s0 l s -> l !! t = Some (Ret f) -> outcome reqs t f s.
Proof. intros Has Hr Hf. by apply (pool_ok_finished _ _ _ (l, s) t f (reaches_ok reqs s0 l s Has Hr)). Qed.

(** ** Histories *)
(** A finished mutation: how many events it has caused. *)
Lemma finished_events reqs s0 l s t r x : assumptions reqs -> reaches reqs s0 l s -> reqs !! t = Some (Http r) -> l !! t = Some (Ret (Replied x)) ->
  (if mutates (Http r) then fits x else eq []) (events_of t (c_log s)).
Proof.
  intros Has Hr Hq Hf. pose proof (reaches_outcome reqs s0 l s t _ Has Hr Hf) as Ho. unfold outcome in Ho. rewrite Hq in Ho.
  destruct Ho as [(L & Hk & _ & HP) _]. by rewrite (kn_events _ _ _ _ _ _ _ _ Hk).
Qed.

(** C1: However the calls of concurrent requests and re-signing jobs
    interleave, the controller behaves as if they ran one after another: the
    store is the replay of a history of events, each of which replaces what was
    stored when it happened, and does what the sequential meaning of the request
    that caused it says - it creates the zone described, deletes a version that
    the If-Match header names, or turns such a version into the edited zone.  The
    serial of a changed zone always advances.  The store is any one that keeps the
    contract [StoreLaws], whose reads do not fail and whose failed writes change
    nothing. *)
Theorem requests_linearize (reqs : list request) (s0 : state) (l : list (prog (op KeyPair RR) finish)) (s : state) :
  assumptions reqs -> reaches reqs s0 l s ->
  zones_in s = replay (c_log s) /\ chained (c_log s)
  /\ (forall e, e ∈ c_log s -> (exists q, reqs !! ev_by e = Some q /\ allowed rrlib error_text q e) /\ advances e)
  /\ NoDup (new_versions (c_log s)) /\ NoDup (old_versions (c_log s)).
Proof.
  intros Has Hr. destruct (i_history _ _ _ _ _ _ _ _ (reaches_consistent reqs s0 l s Has Hr)) as [_ Hrep Hch Hadv _ Hn Ho _ _ Hal _].
  split_and!; [done|done| |done|done]. intros e He. split; [by apply Hal|]. by eapply (proj1 (Forall_forall _ _)).
Qed.

(** C6: Replies are truthful: an API request that was answered with an error
    below 500 has changed nothing, one that was answered with success has
    changed the store exactly once if it is a mutation and not at all if it is a
    read; a re-signing job changes its zone exactly when it reports success.
    Nothing is said of requests answered with a status of 500 or more. *)
Theorem replies_truthful (reqs : list request) (s0 : state) (l : list (prog (op KeyPair RR) finish)) (s : state) (t : nat) :
  assumptions reqs -> reaches reqs s0 l s ->
  (forall r x, reqs !! t = Some (Http r) -> l !! t = Some (Ret (Replied x)) ->
     (r_status x < 400 -> length (events_of t (c_log s)) = if mutates (Http r) then 1%nat else 0%nat)
     /\ (400 <= r_status x < 500 -> events_of t (c_log s) = []))
  /\ (forall zone r, reqs !! t = Some (Resign zone) -> l !! t = Some (Ret (Resigned r)) ->
     length (events_of t (c_log s)) = match r with Ok _ => 1%nat | Err _ => 0%nat end).
Proof.
  intros Has Hr. split.
  - intros r x Hq Hf. pose proof (finished_events reqs s0 l s t r x Has Hr Hq Hf) as He. destruct (mutates (Http r)).
    + destruct He as [[-> ?]|[[e ->] ?]]; split; [lia|done|done|lia].
    + rewrite <- He. done.
  - intros zone r Hq Hf. pose proof (reaches_outcome reqs s0 l s t _ Has Hr Hf) as Ho. unfold outcome in Ho. rewrite Hq in Ho.
    destruct Ho as (L & Hk & _ & HP). rewrite (kn_events _ _ _ _ _ _ _ _ Hk). destruct r; [by destruct HP as [e ->]|by rewrite HP].
Qed.

(** The version a conditional request has replaced. *)
Lemma conditional_event reqs s0 l s t r m x : assumptions reqs -> reaches reqs s0 l s -> reqs !! t = Some (Http r) -> if_match (Http r) = Some m ->
  l !! t = Some (Ret (Replied x)) -> r_status x < 400 ->
  exists e z, e ∈ c_log s /\ ev_by e = t /\ ev_old e = Some z /\ strongETagMatches m (z_Version z) = true.
Proof.
  intros Has Hr Hq Hm Hf Hx. pose proof (finished_events reqs s0 l s t r x Has Hr Hq Hf) as He.
  replace (mutates (Http r)) with true in He by (destruct r; by cbn in *). destruct He as [[_ ?]|[[e He] _]]; [lia|].
  assert (Hin : e ∈ events_of t (c_log s)) by (rewrite He; left). apply list_elem_of_filter in Hin as [Hby Hin]. exists e.
  destruct (i_history _ _ _ _ _ _ _ _ (reaches_consistent reqs s0 l s Has Hr)) as [_ _ _ _ _ _ _ _ _ Hal _].
  destruct (Hal e Hin) as (q & Hq' & _ & Ha). rewrite Hby, Hq in Hq'. injection Hq' as <-.
  destruct (ev_old e) as [z|]; [|destruct (ev_new e); [destruct Ha as (z0 & Hz0 & _); by destruct r|done]]. exists z. split_and!; [done..|].
  destruct (ev_new e); [by apply Ha|]. destruct Ha as (name & m' & [= ->] & Hs). by injection Hm as <-.
Qed.
Lemma old_versions_once l i j ei ej zi zj : NoDup (old_versions l) -> l !! i = Some ei -> l !! j = Some ej ->
  ev_old ei = Some zi -> ev_old ej = Some zj -> z_Version zi = z_Version zj -> i = j.
Proof.
  revert i j. induction l as [|e l IH]; intros [|i] [|j] Hnd Hi Hj Ei Ej Hv; try done.
  - injection Hi as ->. cbn in Hj. unfold old_versions in Hnd. cbn in Hnd. rewrite Ei in Hnd. cbn in Hnd. apply NoDup_cons in Hnd as [Hnot _].
    destruct Hnot. apply list_elem_of_omap. exists ej. split; [by eapply list_elem_of_lookup_2|]. rewrite Ej. cbn. congruence.
  - injection Hj as ->. cbn in Hi. unfold old_versions in Hnd. cbn in Hnd. rewrite Ej in Hnd. cbn in Hnd. apply NoDup_cons in Hnd as [Hnot _].
    destruct Hnot. apply list_elem_of_omap. exists ei. split; [by eapply list_elem_of_lookup_2|]. rewrite Ei. cbn. congruence.
  - f_equal. apply IH; [|done..]. unfold old_versions in Hnd. cbn in Hnd. destruct (z_Version <$> ev_old e); cbn in Hnd; [by apply NoDup_cons in Hnd as [_ ?]|done].
Qed.
Lemma single_tag m v v' : lacks ","%char m -> strongETagMatches m v = true -> strongETagMatches m v' = true -> v = v'.
Proof.
  intros Hl. unfold strongETagMatches. rewrite (Split_lacks _ _ Hl). cbn. rewrite !orb_false_r, !andb_true_iff. intros [_ E1%String.eqb_eq] [_ E2%String.eqb_eq]. congruence.
Qed.

(** C3: No lost update: two requests that both say they change the same version
    of a zone (their If-Match headers hold the same single tag) are never both
    answered with success, in whatever order their calls run. *)
Theorem no_lost_update (reqs : list request) (s0 : state) (l : list (prog (op KeyPair RR) finish)) (s : state) (m : string) (t1 t2 : nat) r1 r2 x1 x2 :
  assumptions reqs -> reaches reqs s0 l s -> t1 <> t2 -> lacks ","%char m ->
  reqs !! t1 = Some (Http r1) -> if_match (Http r1) = Some m -> l !! t1 = Some (Ret (Replied x1)) ->
  reqs !! t2 = Some (Http r2) -> if_match (Http r2) = Some m -> l !! t2 = Some (Ret (Replied x2)) ->
  400 <= r_status x1 \/ 400 <= r_status x2.
Proof.
  intros Has Hr Hne Hl Hq1 Hm1 Hf1 Hq2 Hm2 Hf2. destruct (Z.le_gt_cases 400 (r_status x1)) as [?|Hs1]; [by left|].
  destruct (Z.le_gt_cases 400 (r_status x2)) as [?|Hs2]; [by right|]. exfalso.
  destruct (conditional_event reqs s0 l s t1 r1 m x1) as (e1 & z1 & He1 & Hb1 & Ho1 & Ht1); [done..|].
  destruct (conditional_event reqs s0 l s t2 r2 m x2) as (e2 & z2 & He2 & Hb2 & Ho2 & Ht2); [done..|].
  apply list_elem_of_lookup in He1 as [i Hi]. apply list_elem_of_lookup in He2 as [j Hj].
  assert (i = j) as <-; [|congruence].
  eapply (old_versions_once (c_log s)); [|exact Hi|exact Hj|exact Ho1|exact Ho2|by eapply single_tag].
  apply (h_replaced _ _ _ _ (i_history _ _ _ _ _ _ _ _ (reaches_consistent reqs s0 l s Has Hr))).
Qed.

(** ** Published artifacts *)
(** Whatever requests run beside each other, the signed artifact of every
    stored zone is on disk and is a signing of exactly that version, with its
    SOA and its records - for zones that no request of the pool deletes, and
    whose artifact directory no other zone shares. *)
Lemma artifacts_published (reqs : list request) (s0 : state) (l : list (prog (op KeyPair RR) finish)) (s : state) (n : string) (z : Zone) :
  assumptions reqs -> reaches reqs s0 l s -> publishing artifactDir signingService ->
  apart rrlib error_text reqs n -> undeleted reqs n -> zones_in s !! n = Some z ->
  ValidateZone (Some z) = Ok tt /\ exists data, artifact_content s n (z_Version z) = Some data /\ signed_for lib z data.
Proof.
  intros Has Hr Hp Ha Hu Hz. pose proof (reaches_consistent reqs s0 l s Has Hr) as Hi. destruct (i_cache _ _ _ _ _ _ _ _ Hi) as [_ Hs Hpub].
  destruct (Hpub Hp n z Hz Ha Hu) as [data Hd].
  pose proof (stored_name lib w artifactDir signingService rrlib error_text reqs s n z Hi Hz) as (Hn & Hval & _).
  split; [done|]. exists data. split; [done|].
  apply (Hs Hp z data); [by eapply stored_seen|by rewrite Hn|by rewrite Hn].
Qed.

(** C7: A signed zone that is served with status 200 is a signing of a version
    that was stored under the requested name; its hash and its serial are in the
    headers. *)
Theorem served_zone_signed (reqs : list request) (s0 : state) (l : list (prog (op KeyPair RR) finish)) (s : state) (t : nat) (name inm : string) (x : reply) :
  assumptions reqs -> reaches reqs s0 l s -> publishing artifactDir signingService ->
  apart rrlib error_text reqs (NormalizeZoneName name) ->
  reqs !! t = Some (Http (GetSigned name inm)) -> l !! t = Some (Ret (Replied x)) -> r_status x = 200 ->
  exists z data, seen (c_log s) z /\ z_Name z = NormalizeZoneName name /\ r_body x = Text data /\ signed_for lib z data
    /\ default "" (r_headers x !! "X-Zone-Hash") = sha256_hex data /\ default "" (r_headers x !! "X-Zone-Serial") = Itoa (Serial (z_SOA z)).
Proof.
  intros Has Hr Hp Ha Hq Hf Hx. pose proof (reaches_outcome reqs s0 l s t _ Has Hr Hf) as Ho. unfold outcome in Ho. rewrite Hq in Ho.
  destruct Ho as [_ Ho]. destruct (Ho name inm eq_refl) as [[? _]|(z & sz & i & Hz & -> & L & Hk & _ & _ & Hin)]; [lia|].
  destruct Hz as (Hn & _ & _ & Hser & Hsig & _). exists z, (sz_zoneFile sz). rewrite <- Hn in Ha.
  pose proof (kn_seen _ _ _ _ _ _ _ _ Hk) as Hseen. rewrite Forall_forall in Hseen. unfold signed_zone_reply in *.
  destruct (negb _ && _); [done|]. cbn [r_body r_headers].
  unfold artifact_headers, setArtifactSignatureHeaders. rewrite (surjective_pairing (sha256HexAndHash8 _)), hash8_fst.
  split_and!; [by apply Hseen|done|done|by apply Hsig|..]; repeat case_match; rewrite !get_header; cbn; congruence.
Qed.

(** ** Progress *)
(** Some answer of the environment, without cancellation. *)
Definition some_env : Env := mkEnv (mkInputs (mkDate 2026 1 1) 0 0 (Err (Errorf "no randomness"))) false.
Lemma some_env_sane : sane some_env.
Proof. split; [split; [split; [by vm_compute|by vm_compute]|done]|]. by vm_compute. Qed.
(** The lock a call asks for. *)
Definition wanted {X} (c : op KeyPair RR X) : option string := match c with DoLock l => Some l | _ => None end.
Lemma exec_moves X t (c : op KeyPair RR X) (s : state) : before_call X t c s ->
  (forall l, wanted c = Some l -> c_locks s !! l = None) -> exists x s', run_call X t some_env c s = Some (x, s').
Proof.
  intros Hb Hl. destruct c; try (cbn; unfold on_cache; repeat case_match; by do 2 eexists); cbn in *.
  - unfold LockContext. rewrite (Hl zone eq_refl). by do 2 eexists.
  - unfold Unlock. rewrite Hb. by do 2 eexists.
Qed.
Lemma pool_call reqs l s t X (c : op KeyPair RR X) k : pool_ok run_call (discipline' reqs) (outcome reqs) (l, s) -> l !! t = Some (Call c k) -> before_call X t c s.
Proof. intros [Hi Hp] Ht. by destruct (Hp t _ Ht s) as [Hpre _]. Qed.
Lemma outcome_idle reqs t f s lk : outcome reqs t f s -> c_locks s !! lk <> Some t.
Proof.
  intros Ho. assert (exists P, rest' reqs t P s) as (P & L & Hk & Hh & _).
  { unfold outcome in Ho. destruct (reqs !! t) as [[r|z|z]|], f; try done; [destruct Ho as [Ho _]|..]; by eexists. }
  intros Hl. apply (kn_held _ _ _ _ _ _ _ _ Hk) in Hl. congruence.
Qed.
Lemma pool_moves reqs l s : pool_ok run_call (discipline' reqs) (outcome reqs) (l, s) -> length l = length reqs -> ~ Forall finished l ->
  exists t X (c : op KeyPair RR X) k x s', l !! t = Some (Call c k) /\ run_call X t some_env c s = Some (x, s').
Proof.
  intros Hok Hlen Hf. pose proof Hok as [Hi _].
  assert (exists t X (c : op KeyPair RR X) k, l !! t = Some (Call c k)) as (t & X & c & k & Ht).
  { clear -Hf. induction l as [|[a|X c k] l IH]; [by destruct Hf| |by exists 0%nat, X, c, k].
    destruct IH as (t & X & c & k & Ht); [intros Hl; apply Hf; constructor; [by exists a|done]|]. by exists (S t), X, c, k. }
  destruct (wanted c ≫= fun lk => c_locks s !! lk) as [t'|] eqn:Ew.
  2: { destruct (exec_moves X t c s) as (x & s' & Hx); [by eapply pool_call| |by exists t, X, c, k, x, s']. intros lk Hw. by rewrite Hw in Ew. }
  destruct (wanted c) as [lk|] eqn:Hw; [|done]. cbn in Ew. rename Ew into Hl.
  pose proof (i_owners _ _ _ _ _ _ _ _ Hi lk t' Hl) as Hlt. rewrite <- Hlen in Hlt. apply lookup_lt_is_Some_2 in Hlt as [[f|Y d k'] Ht'].
  - exfalso. eapply outcome_idle; [by apply (pool_ok_finished _ _ _ (l, s) t' f Hok)|exact Hl].
  - pose proof (pool_call reqs l s t' Y d k' Hok Ht') as Hb. destruct (exec_moves Y t' d s Hb) as (x & s' & Hx); [|by exists t', Y, d, k', x, s'].
    intros lk' Hw'. exfalso. destruct d; try done. by apply (Hb lk).
Qed.

(** C4: Locks: no request ever releases a lock that it does not hold (which
    would panic), and there is no deadlock: from every state the pool can reach,
    all requests can be run to their reply without cancelling any. *)
Theorem requests_complete (reqs : list request) (s0 : state) (l : list (prog (op KeyPair RR) finish)) (s : state) :
  assumptions reqs -> reaches reqs s0 l s ->
  (forall t zone k, l !! t = Some (Call (DoUnlock zone) k) -> c_locks s !! zone = Some t)
  /\ exists sch, Forall (fun te => sane te.2 /\ env_done te.2 = false) sch
       /\ Forall finished (Program.interleave run_call sch (l, s)).1.
Proof.
  intros Has Hr. split; [intros t zone k Ht; exact (pool_call reqs l s t _ _ k (reaches_ok reqs s0 l s Has Hr) Ht)|]. apply (interleave_completes run_call (discipline' reqs) (outcome reqs)) with (Q := fun e => env_done e = false).
  - intros i j s1 s2 Hij _. by apply relies_compatible.
  - intros [l' s'] Hok Hf Hlen. destruct Hr as (_ & sch & _ & Hrun).
    assert (length l' = length reqs) as Hl.
    { cbn in Hlen. rewrite Hlen. transitivity (length (Program.interleave run_call sch (map run reqs, s0)).1); [by rewrite Hrun|].
      rewrite interleave_length. cbn. apply length_map. }
    destruct (pool_moves reqs l' s' Hok Hl Hf) as (t & X & c & k & x & s1 & Ht & Hx). exists t, some_env, X, c, k, x, s1.
    split_and!; [apply some_env_sane|done..].
  - by eapply reaches_ok.
Qed.
End pool.
