(* ===== verification/ControllerSigner.v ===== *)
(** * The controller with its signer

    The operations the signing service calls ([SignerLib]) implemented by the
    signer of [pkg/dnssec] and the zone files of [pkg/parser]; the key store is
    an argument, of which the key manager is one ([key_store]).  What the theorems
    on concurrent requests assume of the signer holds of this one, and what is
    published for a stored zone is the zone, completely signed. *)

From S2P Require Import Prelude Io Program GoStrings GoStringsFacts GoSort Zone Names Validation ZoneRules Serial Sha256 ZonePath FileSystem Ulid Store MemoryStore Nsec Http ArtifactCache ArtifactCacheFacts BindFiles Controller SigningService Handlers RecordHandlers DnsRecords Signer SignerFacts KeyManager SignedHandlers Router ControllerProtocol ControllerSteps ControllerFacts.
(** Keys of zones: ensure that a zone has them, remove them. *)
Record KeyStore (K PrivateKey : Type) := mkKeyStore {
  ks_Ensure : Inputs -> string -> K -> result (KeyPair PrivateKey * KeyPair PrivateKey) * K;
  ks_Remove : Inputs -> string -> K -> result unit * K }.
Arguments ks_Ensure {K PrivateKey}.
Arguments ks_Remove {K PrivateKey}.
(** The key manager of [pkg/dnssec]; the faults a call meets depend on its inputs. *)
Definition key_store `{UnicodeTables} {R E : Type} (lib : KeyLib R E) (world : Inputs -> World) (km : KeyManager) : KeyStore cache (private_key R E) := {|
  ks_Ensure e zone := KeyManager.EnsureZoneKeys lib (world e) km zone;
  ks_Remove e zone := KeyManager.RemoveZoneKeys (world e) zone |}.

Section signer.
Context `{UnicodeTables, !UnicodeLaws} {K PrivateKey : Type} (rrlib : RRLib PrivateKey) (keys : KeyStore K PrivateKey).
Context (range : gmap string (list dnsRR) -> list (string * list dnsRR)) (opts : SignerOptions).
Context (clock : Inputs -> nat -> Time) (random : Inputs -> result (list Z)).

(** How the signing service looks at a record. *)
Definition kind_of (rr : dnsRR) : RRKind :=
  match h_data rr with
  | RRSIGData s => KindRRSIG (sig_Algorithm s) (Inception s) (Expiration s)
  | DNSKEYData flags protocol algorithm key =>
    KindDNSKEY algorithm flags (KeyTag rrlib (mkDnskey (h_Name rr) (h_Class rr) (h_Ttl rr) flags protocol algorithm key))
  | NSEC3PARAMData hash flags iterations _ salt => KindNSEC3PARAM hash flags iterations salt
  | _ => KindOther
  end.
Definition signer_lib : SignerLib K (KeyPair PrivateKey) dnsRR := {|
  Controller.EnsureZoneKeys := ks_Ensure keys;
  Controller.RemoveZoneKeys := ks_Remove keys;
  Controller.SignZoneWithKeys e z ksk zsk := Signer.SignZoneWithKeys rrlib range opts e (clock e) (random e) (Some z) (Some ksk) (Some zsk);
  Controller.GenerateBINDZoneFile z := BindFiles.GenerateBINDZoneFile rrlib (Some z);
  Controller.GenerateBINDZoneFileFromRRs := BindFiles.GenerateBINDZoneFileFromRRs rrlib;
  Controller.ParseBINDZone s origin := let* p := BindFiles.ParseBINDZone rrlib s origin DefaultParseOptions in Ok (Records p);
  Controller.rr_kind := kind_of;
  Controller.key_KeyTag k := KeyTag rrlib (kp_DNSKEY k);
  Controller.key_Algorithm k := dk_Algorithm (kp_DNSKEY k);
  Controller.ToDS k d := ToDS_String rrlib (kp_DNSKEY k) d |}.

Lemma signer_keeps_version e z ksk zsk z' rrs : Controller.SignZoneWithKeys signer_lib e z ksk zsk = Ok (z', rrs) -> z_Version z' = z_Version z.
Proof.
  cbn. unfold SignZoneWithKeys, signZoneWithKeys. destruct (NormalizeZoneFQDN (z_Name z)) as [name|]; [|done]. cbn [rbind wrap].
  destruct (modelToRRs z name) as [recs|]; [|done]. cbn [rbind wrap]. destruct (groupRRsets range _) as [sets|]; [|done]. cbn [rbind wrap].
  destruct (sign_rrsets _ _ _ _ _ _ _ _ _) as [[signed n]|]; [|done]. cbn [rbind fst snd].
  destruct (denial_records _ _ _ _ _ _) as [[[what chain] params]|]; [|done]. cbn [rbind].
  destruct (sign_chain _ _ _ _ _ _ _ _ _) as [[out' n']|]; [|done]. cbn [rbind fst snd].
  unfold rrsToModel. destruct (earliestRRSIGExpiration _); [|done]. cbn [rbind wrap]. intros [= <- _]. by destruct params.
Qed.

(** What is converted only depends on names, types, TTLs and values. *)
Lemma same_records_rrs origin rs rs' : Forall2 same_record rs rs' -> is_ok (records_to_rrs origin rs) = true ->
  records_to_rrs origin rs' = records_to_rrs origin rs.
Proof.
  induction 1 as [|r r' rs rs' (Hn & Ht & Hl & Hv) _ IH]; [done|]. cbn [records_to_rrs].
  assert (recordToRR origin r' = recordToRR origin r) as -> by (unfold recordToRR; by rewrite Hn, Ht, Hl, Hv). rewrite Hn.
  destruct (recordToRR origin r); [|done]. cbn [wrap rbind]. destruct (records_to_rrs origin rs) eqn:E; [|done]. intros _. by rewrite IH.
Qed.

Context `{!RRLaws rrlib} (range_perm : forall m, range m ≡ₚ map_to_list m).

(** [data] is the signed zone file of [z]: with keys that the key store issued
    for the zone, the text of its records, the two DNSKEY records, the whole denial
    chain of these (of the DNSKEY records at the apex) and a signature of each RRset,
    and of nothing else. *)
Definition signed_file (z : Zone) (data : string) : Prop := exists e ksk zsk recs chain params rrs, let apex := NormalizeZoneName (z_Name z) in
  keys_issued signer_lib (z_Name z) ksk zsk /\ modelToRRs z apex = Ok recs
  /\ fully_signed rrlib opts e (clock e) ksk zsk apex (recs ++ createDNSKEYRecords ksk zsk) chain rrs
  /\ denial_chain rrlib opts (random e) z apex (recs ++ apex_keys apex ksk zsk) rrs chain params
  /\ StronglySorted (not_after (rr_less rrlib)) rrs
  /\ BindFiles.GenerateBINDZoneFileFromRRs rrlib (z_Name z) (z_Version z) rrs = Ok data.
Lemma signed_for_file z data : ValidateZone (Some z) = Ok tt -> signed_for signer_lib z data -> signed_file z data.
Proof.
  intros Hv (e & ksk & zsk & zin & zout & rrs & Hi & Hs & Hg & Hn & _ & Hsoa & Hr).
  destruct (signed_steps _ _ range_perm _ _ _ _ _ _ _ _ _ Hs) as (name & recs & what & chain & params & signed & n & Hname & Hm & Hin & Hout & Hd & Hf & Hsort & _).
  rewrite Hn in Hname. assert (Hm' : modelToRRs z name = Ok recs).
  { unfold modelToRRs in *. rewrite <- Hsoa. destruct (records_to_rrs name (z_Records zin)) eqn:E; [|done]. by rewrite (same_records_rrs _ _ _ Hr), E; [|rewrite E]. }
  destruct (accepted_records _ _ _ Hv Hname Hm') as [-> Hp]. exists e, ksk, zsk, recs, chain, params, rrs. split_and!; [done..| |done|done].
  assert (Hc : denial_chain rrlib opts (random e) zin (NormalizeZoneName (z_Name z)) (recs ++ apex_keys (NormalizeZoneName (z_Name z)) ksk zsk) rrs chain params) by (by eapply chain_denies).
  unfold denial_chain, params_of in *. by rewrite <- Hsoa.
Qed.
End signer.

(** ** Published zones *)
Section published.
Context `{UnicodeTables, !UnicodeLaws} {St K PrivateKey : Type} `{ZoneStore St, !StoreLaws St}.
Context (rrlib : RRLib PrivateKey) `{!RRLaws rrlib} (keys : KeyStore K PrivateKey).
Context (range : gmap string (list dnsRR) -> list (string * list dnsRR)) (range_perm : forall m, range m ≡ₚ map_to_list m).
Context (opts : SignerOptions) (clock : Inputs -> nat -> Time) (random : Inputs -> result (list Z)).
Context (w : World) (artifactDir : string) (maxArtifacts : Z) (signingService : bool).
Context (contentDisposition : string -> string) (artifactSignatureKey artifactSignatureKeyID : string) (error_text : error -> string).
Context (buildInfo : string * string * string).
Abbreviation slib := (signer_lib rrlib keys range opts clock random).

(** C2: End to end, with the signer and the zone files of the repository in
    place, over a store that obeys its contract ([StoreLaws]) and with modification
    times that increase: in every state that concurrent API requests and re-signing
    jobs can reach from a fresh controller, the published file of every stored zone
    (not deleted by the pool, with an artifact directory of its own) is the text of
    sorted records that are exactly the SOA and the records of the stored version,
    the DNSKEY records of two keys the key store issued for the zone, the denial
    chain, which is one whole ring of NSEC records, or NSEC3 records with their
    NSEC3PARAM, through the owners of the zone's records, and for each RRset a
    signature by the right key. *)
Theorem published_zone_signed (reqs : list request) (s0 s : ctl St K) (l : list (prog (op (KeyPair PrivateKey) dnsRR) finish)) (n : string) (z : Zone) :
  (forall i j, (i < j)%nat -> mtime_now w i < mtime_now w j) -> (forall q, q ∈ reqs -> request_wf rrlib error_text q) ->
  reaches slib w artifactDir maxArtifacts signingService contentDisposition artifactSignatureKey artifactSignatureKeyID rrlib error_text buildInfo reqs s0 l s ->
  publishing artifactDir signingService -> apart rrlib error_text reqs n -> undeleted reqs n -> zones_in s !! n = Some z ->
  exists data, artifact_content s n (z_Version z) = Some data /\ signed_file rrlib keys range opts clock random z data.
Proof.
  intros Hc Hw Hr Hp Ha Hu Hz.
  destruct (artifacts_published slib w artifactDir maxArtifacts signingService contentDisposition artifactSignatureKey artifactSignatureKeyID rrlib error_text
    buildInfo reqs s0 l s n z) as (Hv & data & Hd & Hs); [|done..|].
  - split; [done| |done]. intros. by eapply signer_keeps_version.
  - exists data. split; [done|]. by eapply signed_for_file.
Qed.
End published.

(** * A controller at work

    A small signer and an in-memory store: the theorems of [ControllerFacts] on
    requests that run beside each other, and a schedule in which the clean-up
    after a deletion takes away the artifact of a zone created again. *)
#[local] Existing Instance ascii_tables.
#[local] Existing Instance ascii_tables_laws.

(** The signer over a plain DNS library; private keys are numbers.  Parsing gives
    one record and one signature, whatever the text. *)
Definition demo_keys : Type := gmap string Z * Z.
Definition demo_pair (zone : string) (n : Z) : KeyPair Z * KeyPair Z := (demo_key zone 257 n, demo_key zone 256 (n + 1)).
Definition demo_keystore : KeyStore demo_keys Z := {|
  ks_Ensure e zone k := match fst k !! zone with
    | Some n => (Ok (demo_pair zone n), k)
    | None => (Ok (demo_pair zone (snd k)), (<[zone := snd k]> (fst k), snd k + 2))
    end;
  ks_Remove e zone k := (Ok tt, (delete zone (fst k), snd k)) |}.
Definition demo_rrlib : RRLib Z := plain_rrlib (fun _ =>
  ([mkDnsRR "example.com." ClassINET 300 (NSData "ns1.example.com."); 
    mkDnsRR "example.com." ClassINET 300 (RRSIGData (mkSignature TypeNS 13 2 300 1771592000 1768996400 260 "example.com." "sig"))], None)).
Definition demo_lib : SignerLib demo_keys (KeyPair Z) dnsRR :=
  signer_lib demo_rrlib demo_keystore map_to_list DefaultSignerOptions (fun e _ => in_now e) (fun e => in_rand e).
Definition demo_world : World := mkWorld (fun _ => None) (fun _ => 0%nat) Z.of_nat Z.of_nat (fun _ => (1000000, 4096)) (fun _ => false).
Definition demo_state : ctl MemoryBackend demo_keys := mkCtl NewMemoryBackend ulidInit (∅, 1) (mkCache (NoRoot Missing) 0) ∅ ∅ [].
Definition demo_now : Env := mkEnv (mkInputs (mkDate 2026 1 31) 1769000000000000000 1769000000000000000 (Ok (replicate 10 7))) false.
Definition demo_text (_ : error) : string := "".
Abbreviation demo_run := (run_request demo_lib "artifacts" true (fun s => s) "" "" demo_rrlib demo_text ("", "", "")).
Abbreviation demo_pool sch reqs := (Program.interleave (exec demo_lib demo_world "artifacts" 3) sch (map demo_run reqs, demo_state)).
(** Thread [t] makes [n] calls. *)
Definition calls (t n : nat) : list (nat * Env) := replicate n (t, demo_now).
Definition status_of (p : prog (op (KeyPair Z) dnsRR) finish) : option Z :=
  match p with Ret (Replied x) => Some (r_status x) | _ => None end.

Definition create_request : request := Http (PostZones (Ok (mkCreateReq "example.com" (DefaultSOA "ns1.example.com." "hostmaster.example.com.") example_records))).
Definition first_version : string := "v01KFG9VPG00W3GE1R70W3GE1R7".
(** Two administrators change the version they both have seen, while an agent
    downloads the signed zone. *)
Definition update_route (rname : string) : route :=
  PutZone "Example.com" (formatETag first_version) (Ok (mkUpdateReq "example.com." (DefaultSOA "ns1.example.com." rname))).
Definition demo_requests : list request :=
  [create_request; Http (update_route "alice.example.com."); Http (update_route "bob.example.com."); Http (GetSigned "EXAMPLE.com." "")].
Definition demo_schedule : list (nat * Env) := calls 0 40 ++ flat_map (fun _ => calls 1 1 ++ calls 2 1 ++ calls 3 1) (seq 0 40).
Definition demo_end := demo_pool demo_schedule demo_requests.
Example demo_statuses : map status_of demo_end.1 = [Some 201; Some 200; Some 409; Some 200].
Proof. vm_compute. reflexivity. Qed.
Definition demo_reply (t : nat) : reply := match demo_end.1 !! t with Some (Ret (Replied x)) => x | _ => status_only 0 end.

Lemma demo_requests_wf q : q ∈ demo_requests -> request_wf demo_rrlib demo_text q.
Proof.
  intros Hq. unfold demo_requests in Hq. repeat (apply elem_of_cons in Hq as [->|Hq]; [by intros z [= <-]; vm_compute|]). by apply elem_of_nil in Hq.
Qed.
Lemma demo_assumptions reqs : (forall q, q ∈ reqs -> request_wf demo_rrlib demo_text q) ->
  assumptions demo_lib demo_world demo_rrlib demo_text reqs.
Proof. intros Hr. constructor; [intros i j Hij; cbn; lia|apply signer_keeps_version|done]. Qed.
Lemma demo_fresh : fresh demo_world demo_state.
Proof.
  constructor; try done. split; [done|]. split; [|done]. unfold ulidInit. cbn [ulidLastRnd replicate]. unfold bytes_ok. repeat constructor; lia.
Qed.
Lemma demo_reaches reqs sch : Forall (fun te => te.2 = demo_now) sch ->
  reaches demo_lib demo_world "artifacts" 3 true (fun s => s) "" "" demo_rrlib demo_text ("", "", "") reqs demo_state (demo_pool sch reqs).1 (demo_pool sch reqs).2.
Proof.
  intros Hs. split; [apply demo_fresh|]. exists sch. split; [|by rewrite <- surjective_pairing].
  eapply Forall_impl; [exact Hs|]. intros te ->. split; [split; [by vm_compute|]|by vm_compute].
  split; [|done]. cbn. unfold bytes_ok. repeat constructor; lia.
Qed.
Lemma demo_scheduled : Forall (fun te => te.2 = demo_now) demo_schedule.
Proof. vm_compute. repeat constructor. Qed.
Lemma demo_ready : assumptions demo_lib demo_world demo_rrlib demo_text demo_requests.
Proof. apply demo_assumptions, demo_requests_wf. Qed.

Lemma requests_linearize_witness :
  map ev_by (c_log demo_end.2) = [0%nat; 1%nat]
  /\ zones_in demo_end.2 = replay (c_log demo_end.2) /\ chained (c_log demo_end.2).
Proof.
  split; [vm_compute; reflexivity|]. destruct (requests_linearize _ _ _ _ _ _ _ _ _ _ _ _ _ _ _ demo_ready (demo_reaches demo_requests demo_schedule demo_scheduled)) as (Hrep & Hch & _).
  split; assumption.
Defined.
Lemma replies_truthful_witness : length (events_of 1 (c_log demo_end.2)) = 1%nat /\ events_of 2 (c_log demo_end.2) = [].
Proof.
  split.
  - destruct (replies_truthful _ _ _ _ _ _ _ _ _ _ _ _ _ _ _ 1%nat demo_ready (demo_reaches demo_requests demo_schedule demo_scheduled)) as [Hr _].
    apply (Hr _ (demo_reply 1) eq_refl); vm_compute; reflexivity.
  - destruct (replies_truthful _ _ _ _ _ _ _ _ _ _ _ _ _ _ _ 2%nat demo_ready (demo_reaches demo_requests demo_schedule demo_scheduled)) as [Hr _].
    apply (Hr _ (demo_reply 2) eq_refl); vm_compute; [reflexivity|split; [discriminate|reflexivity]].
Defined.
Lemma no_lost_update_witness : 400 <= r_status (demo_reply 1) \/ 400 <= r_status (demo_reply 2).
Proof.
  apply (no_lost_update _ _ _ _ _ _ _ _ _ _ _ _ _ _ _ (formatETag first_version) 1 2 (update_route "alice.example.com.") (update_route "bob.example.com.") (demo_reply 1) (demo_reply 2) demo_ready
    (demo_reaches demo_requests demo_schedule demo_scheduled)); [discriminate|vm_compute; reflexivity..].
Defined.
Lemma demo_apart : apart demo_rrlib demo_text demo_requests "example.com.".
Proof.
  intros q m Hq Hm _. unfold demo_requests in Hq. repeat (apply elem_of_cons in Hq as [->|Hq]; [vm_compute in Hm; congruence|]). by apply elem_of_nil in Hq.
Qed.
Lemma demo_undeleted : undeleted demo_requests "example.com.".
Proof.
  intros q Hq (name & m & -> & _). unfold demo_requests in Hq. repeat (apply elem_of_cons in Hq as [Hq|Hq]; [discriminate|]). by apply elem_of_nil in Hq.
Qed.
Lemma published_zone_signed_witness :
  let z := default example_zone (zones (c_store demo_end.2) !! "example.com.") in
  exists data, artifact_content demo_end.2 "example.com." (z_Version z) = Some data
    /\ signed_file demo_rrlib demo_keystore map_to_list DefaultSignerOptions (fun e _ => in_now e) (fun e => in_rand e) z data.
Proof.
  cbv zeta. apply (published_zone_signed demo_rrlib demo_keystore map_to_list (fun m => reflexivity _) DefaultSignerOptions (fun e _ => in_now e) (fun e => in_rand e)
    demo_world "artifacts" 3 true (fun s => s) "" "" demo_text ("", "", "") demo_requests _ _ _ "example.com." _
    ltac:(intros i j Hij; cbn; lia) demo_requests_wf (demo_reaches demo_requests demo_schedule demo_scheduled) ltac:(split; [reflexivity|discriminate]) demo_apart demo_undeleted).
  vm_compute. reflexivity.
Defined.
Lemma served_zone_signed_witness :
  exists z data, seen (c_log demo_end.2) z /\ z_Name z = "example.com." /\ r_body (demo_reply 3) = Text data /\ signed_for demo_lib z data.
Proof.
  destruct (served_zone_signed _ _ _ _ _ _ _ _ _ _ _ _ _ _ _ 3 "EXAMPLE.com." "" (demo_reply 3) demo_ready (demo_reaches demo_requests demo_schedule demo_scheduled))
    as (z & data & Hseen & Hn & Hb & Hs & _).
  - split; [reflexivity|discriminate].
  - intros q m Hq Hm _. unfold demo_requests in Hq. repeat (apply elem_of_cons in Hq as [->|Hq]; [vm_compute in Hm; vm_compute; congruence|]). apply elem_of_nil in Hq. contradiction.
  - reflexivity.
  - vm_compute. reflexivity.
  - vm_compute. reflexivity.
  - exists z, data. split; [exact Hseen|]. split; [rewrite Hn; vm_compute; reflexivity|]. split; [exact Hb|exact Hs].
Defined.
(** The second update waits for the lock of the first. *)
Definition demo_waiting : list (nat * Env) := calls 0 40 ++ calls 1 4 ++ calls 2 9.
Lemma requests_complete_witness :
  c_locks (demo_pool demo_waiting demo_requests).2 !! "example.com." = Some 1%nat
  /\ exists sch, Forall (fun te => sane te.2 /\ env_done te.2 = false) sch
       /\ Forall finished (Program.interleave (exec demo_lib demo_world "artifacts" 3) sch (demo_pool demo_waiting demo_requests)).1.
Proof.
  split; [vm_compute; reflexivity|]. rewrite (surjective_pairing (demo_pool demo_waiting demo_requests)).
  apply (proj2 (requests_complete _ _ _ _ _ _ _ _ _ _ _ _ _ _ _ demo_ready (demo_reaches demo_requests demo_waiting ltac:(vm_compute; repeat constructor)))).
Defined.

(** ** Deleting beside creating *)
Definition race_requests : list request := [create_request; Http (DeleteZoneRoute "example.com" (formatETag first_version)); create_request].
(** The deletion pauses between the store and the clean-up, which takes the
    lock only then; the zone is created again in between. *)
Definition race_schedule : list (nat * Env) := calls 0 40 ++ calls 1 2 ++ calls 2 40 ++ calls 1 20.
Definition race_end := demo_pool race_schedule race_requests.
(** All requests succeed and the zone is stored, but its artifact and its keys
    are gone: [published_zone_signed] cannot do without its hypothesis on
    deletions. *)
Theorem cleanup_removes_recreated_zone :
  map status_of race_end.1 = [Some 201; Some 204; Some 201]
  /\ exists z, zones (c_store race_end.2) !! "example.com." = Some z
       /\ artifact_content race_end.2 "example.com." (z_Version z) = None /\ fst (c_keys race_end.2) = ∅.
Proof. split; [vm_compute; reflexivity|]. eexists. split; [vm_compute; reflexivity|]. split; vm_compute; reflexivity. Qed.
