(* ===== verification/Artifact.v ===== *)
(** * Signed zones between controller and agent

    The protocol between the reply that serves a signed zone ([Http]) and the
    agent's client ([SyncClient]): entity tags, checksum and signature headers,
    the conditional response. *)

From S2P Require Import Prelude GoStrings GoStringsFacts Sha256 Zone Names ZoneRules Store Http SyncClient.

(** The reply as the agent's HTTP client sees it ([render] is the JSON of a
    structured body). *)
Definition http_response (render : reply_body -> string) (r : reply) : HttpResponse :=
  mkHttpResp (r_status r) (fun k => default "" (r_headers r !! k))
    (match r_body r with NoBody => "" | Text s => s | b => render b end) None.

(** ** Plain strings: ASCII without white space *)

(** Surrounding a string without the byte [c] by [c] and trimming gives it back. *)
Lemma TrimByte_quoted c s : lacks c s -> TrimByte c (str1 c +:+ s +:+ str1 c) = s.
Proof.
  intros Hs. unfold TrimByte. change (str1 c +:+ ?x) with (String c x). cbn [TrimLeftByte]. rewrite Ascii.eqb_refl.
  destruct s as [|a s].
  { rewrite str_app_nil_l. unfold str1. cbn [TrimLeftByte]. by rewrite Ascii.eqb_refl. } rewrite <- (proj2 (TrimRight_lacks c (String a s) Hs)) at 2.
  f_equal. unfold lacks in Hs. cbn [str_forallb] in Hs. rewrite str_app_cons. cbn [TrimLeftByte]. by destruct (Ascii.eqb a c).
Qed.

(** ** Hexadecimal entity tags *)
Lemma lower_hex_plain c : is_lower_hex c = true ->
  graphic c && negb (Ascii.eqb c dquote) && negb (Ascii.eqb c ","%char) && negb (etag_special c)
  && negb (isInvalidETagChar (byte c)) && Ascii.eqb (lower_byte c) c && (byte c <? 128) = true.
Proof.
  intros Hc. generalize (byte_ind (fun c => implb (is_lower_hex c)
    (graphic c && negb (Ascii.eqb c dquote) && negb (Ascii.eqb c ","%char) && negb (etag_special c)
     && negb (isInvalidETagChar (byte c)) && Ascii.eqb (lower_byte c) c && (byte c <? 128)))
    ltac:(vm_compute; reflexivity) c). by rewrite Hc.
Qed.

Abbreviation lower_hex s := (str_forallb is_lower_hex s = true).
Lemma hex_graphic s : lower_hex s -> graphic_string s.
Proof. apply str_forallb_impl. intros c Hc%lower_hex_plain. by bool_prop. Qed.
Lemma hex_lacks s c : lower_hex s -> c = dquote \/ c = ","%char -> lacks c s.
Proof.
  intros Hs Hc. unfold lacks. revert Hs. apply str_forallb_impl. intros d Hd%lower_hex_plain. bool_prop.
  destruct Hc as [->| ->]; by apply negb_true_iff.
Qed.
Lemma hex_not_special s : lower_hex s -> str_exists etag_special s = false.
Proof.
  induction s as [|a s IH]; [done|]. cbn [str_forallb str_exists]. intros [Ha%lower_hex_plain Hs]%andb_true_iff.
  rewrite IH by done. bool_prop. by rewrite orb_false_r.
Qed.
Lemma hex_no_control s : lower_hex s -> ContainsFunc s isInvalidETagChar = false.
Proof.
  unfold ContainsFunc, chunks. induction s as [|a s IH]; [done|]. cbn [str_forallb]. intros [Ha Hs]%andb_true_iff.
  pose proof (lower_hex_plain a Ha) as Hp. apply andb_true_iff in Hp as [Hp Hlt]. cbn [chunks_go].
  assert (decode_rune (String a s) = (byte a, 1%nat)) as ->. { unfold decode_rune. by rewrite Hlt. }
  cbn [Nat.sub existsb fst]. rewrite IH by done. bool_prop. by rewrite orb_false_r.
Qed.
Lemma hex_lower s : lower_hex s -> str_map lower_byte s = s.
Proof.
  induction s as [|a s IH]; [done|]. cbn [str_forallb str_map]. intros [Ha%lower_hex_plain Hs]%andb_true_iff.
  rewrite IH by done. apply andb_true_iff in Ha as [[_ Ha]%andb_true_iff _]. apply Ascii.eqb_eq in Ha. by rewrite Ha.
Qed.

Lemma formatETag_graphic s : lower_hex s -> graphic_string (formatETag s).
Proof. intros Hs%hex_graphic. unfold formatETag. by rewrite !str_forallb_app, Hs. Qed.

Lemma etagValue_format s : lower_hex s -> etagValue (formatETag s) = s.
Proof.
  intros Hs. unfold etagValue. rewrite (TrimSpace_graphic (formatETag s)) by by apply formatETag_graphic.
  change (TrimPrefix (formatETag s) "W/") with (formatETag s). rewrite TrimSpace_graphic by by apply formatETag_graphic.
  apply TrimByte_quoted, hex_lacks; auto.
Qed.
Lemma normalize_format s : lower_hex s -> s <> "" -> normalizeIfNoneMatch (formatETag s) = formatETag s.
Proof.
  intros Hs Hne. unfold normalizeIfNoneMatch. rewrite (TrimSpace_graphic (formatETag s)) by by apply formatETag_graphic.
  change (formatETag s =? "")%string with false. change (TrimPrefix (formatETag s) "W/") with (formatETag s). cbv zeta.
  rewrite TrimSpace_graphic by by apply formatETag_graphic. 
  assert (Ht : TrimByte dquote (formatETag s) = s) by (apply TrimByte_quoted, hex_lacks; auto). rewrite !Ht.
  rewrite (proj2 (String.eqb_neq s "") Hne), hex_not_special, hex_no_control by done.
  destruct (String.eqb_spec s "*") as [->|_]; done.
Qed.
Lemma matches_format s : lower_hex s -> etagMatches (formatETag s) s = true.
Proof.
  intros Hs. unfold etagMatches. apply orb_true_iff. right. unfold formatETag. rewrite Split_lacks.
  - cbn [existsb]. unfold etag_candidate. rewrite TrimSpace_graphic by by apply formatETag_graphic.
    change (TrimPrefix (str1 dquote +:+ s +:+ str1 dquote) "W/") with (formatETag s). unfold formatETag.
    rewrite TrimByte_quoted by (apply hex_lacks; auto). by rewrite String.eqb_refl.
  - apply lacks_app. split; [done|]. apply lacks_app. split; [|done]. apply hex_lacks; auto.
Qed.

(** ** Serial numbers and signatures in headers *)
Lemma serial_header_round_trip n : in_range 32 n -> parseZoneSerialHeader (Itoa n) = Ok n.
Proof.
  intros Hn. unfold in_range in Hn. destruct (Itoa_spec n ltac:(lia)) as (Hd & Hg & Hne). unfold parseZoneSerialHeader.
  rewrite TrimSpace_graphic by done. rewrite (proj2 (String.eqb_neq _ _) Hne). unfold ParseUint32.
  rewrite (proj2 (String.eqb_neq _ _) Hne), Hd. rewrite (proj2 (Z.leb_le n MaxUint32)) by (unfold MaxUint32; lia).
  f_equal. by apply wrapN_id.
Qed.

(** Base64 text has no white space, no minus sign, and no padding before its
    last two bytes. *)
Lemma base64_char_plain d : 0 <= d < 64 ->
  graphic (base64_char d) && negb (Ascii.eqb (base64_char d) "="%char) && negb (Ascii.eqb (base64_char d) "-"%char) = true.
Proof.
  intros Hd. assert (Hall : forallb (fun d => graphic (base64_char d) && negb (Ascii.eqb (base64_char d) "="%char)
      && negb (Ascii.eqb (base64_char d) "-"%char)) (map Z.of_nat (List.seq 0 64)) = true) by (vm_compute; done).
  rewrite forallb_forall in Hall. apply Hall. apply in_map_iff. exists (Z.to_nat d). rewrite in_seq. lia.
Qed.
Lemma graphic_base64_char d s : 0 <= d < 64 -> graphic_string (str1 (base64_char d) +:+ s) <-> graphic_string s.
Proof.
  intros Hd%base64_char_plain. rewrite str_forallb_app. cbn [str1 str_forallb].
  apply andb_true_iff in Hd as [[Hd _]%andb_true_iff _]. by rewrite Hd.
Qed.
Lemma base64_graphic bs : Forall (fun b => 0 <= b < 256) bs -> graphic_string (base64_EncodeToString bs).
Proof.
  induction bs as [|a|a b|a b d l IH] using list_three_ind; intros Hb; [done|..]; rewrite !Forall_cons in Hb; destruct_and?;
    rewrite ?encode_three, ?encode_two, ?encode_one, !graphic_base64_char by byte_arith; [done|done|by apply IH].
Qed.

Lemma no_marker_prefix c0 c1 c2 c3 c4 c5 c6 (t p : string) :
  Ascii.eqb c4 "-"%char = false -> Ascii.eqb c6 "="%char = false -> p = "sha256=" \/ p = "hmac-sha256=" ->
  let s := String c0 (String c1 (String c2 (String c3 (String c4 (String c5 (String c6 t)))))) in TrimPrefix s p = s.
Proof.
  intros H4 H6 Hp s. unfold TrimPrefix. destruct (strip_prefix p s) as [u|] eqn:E; [|done].
  apply strip_prefix_Some in E. unfold s in E. destruct Hp as [->| ->]; injection E; intros; subst; done.
Qed.

Lemma signature_payload_base64 bs : Forall (fun b => 0 <= b < 256) bs -> (6 <= length bs)%nat ->
  signature_payload (base64_EncodeToString bs) = base64_EncodeToString bs.
Proof.
  intros Hb Hl. unfold signature_payload. rewrite TrimSpace_graphic by by apply base64_graphic.
  do 6 (destruct bs as [|? bs]; [cbn in Hl; lia|]). rewrite !Forall_cons in Hb. destruct_and?. rewrite !encode_three.
  assert (Hc : forall d, 0 <= d < 64 -> Ascii.eqb (base64_char d) "="%char = false /\ Ascii.eqb (base64_char d) "-"%char = false).
  { intros d Hd%base64_char_plain. bool_prop. done. }
  repeat change (str1 ?c +:+ ?x) with (String c x). match goal with |- _ = ?x => set (s := x) end.
  assert (Hp : forall p, p = "sha256=" \/ p = "hmac-sha256=" -> TrimPrefix s p = s).
  { intros p Hp. apply no_marker_prefix; [apply Hc; byte_arith|apply Hc; byte_arith|done]. }
  by rewrite (Hp "sha256="), Hp by auto.
Qed.

Section accepted.
Context `{UnicodeTables}.

(** The agent accepts what the controller signs, when it would verify with the
    controller's key. *)
Lemma signature_accepted body key keyIDHeader legacyKey keyRing :
  artifactSignatureVerificationKey keyIDHeader legacyKey keyRing = Ok key ->
  verifyArtifactSignature body (signArtifact body key) keyIDHeader legacyKey keyRing = Ok tt.
Proof.
  intros Hk. unfold verifyArtifactSignature. rewrite Hk. cbn [rbind]. unfold signArtifact.
  assert (Hm : Forall (fun b => 0 <= b < 256) (hmac_sha256 key body)) by apply hmac_sha256_bytes.
  assert (Hl : length (hmac_sha256 key body) = 32%nat) by apply Sum256_length.
  generalize dependent (hmac_sha256 key body). intros mac Hm Hl.
  rewrite signature_payload_base64, base64_round_trip by (done || lia).
  rewrite TrimSpace_graphic by by apply base64_graphic.
  assert (Hne : base64_EncodeToString mac <> "").
  { intros E. pose proof (base64_round_trip mac Hm) as Hr. rewrite E in Hr. injection Hr as Hr. by rewrite <- Hr in Hl. }
  rewrite (proj2 (String.eqb_neq _ _) Hne). by rewrite bool_decide_eq_true_2.
Qed.
End accepted.

(** ** The protocol *)

Definition digest_ok (h : string) : Prop := lower_hex h /\ len h = 64 /\ isHex h = true /\ h <> "".
Lemma sha256_digest_ok s : digest_ok (sha256_hex s).
Proof.
  pose proof (Sum256_range s) as Hr. unfold digest_ok. split_and!.
  - apply hex_encode_lower. exact Hr.
  - unfold len. by rewrite sha256_hex_length.
  - unfold isHex, sha256_hex. rewrite hex_round_trip by exact Hr. done.
  - intros E. pose proof (sha256_hex_length s) as Hl. by rewrite E in Hl.
Qed.
Lemma checksum_header_ok h : digest_ok h -> validateFullChecksumHeader h = Ok tt.
Proof.
  intros (_ & Hl & Hx & Hne). unfold validateFullChecksumHeader. rewrite (proj2 (String.eqb_neq _ _) Hne), Hl, Hx. done.
Qed.
Lemma EqualFold_refl s : EqualFold s s = true.
Proof. apply String.eqb_refl. Qed.


Section protocol.
Context `{UnicodeTables} {C : Type}.
Context (disposition : string -> string) (key keyID : string) (render : reply_body -> string).
Context (Do : HttpRequest -> C -> result HttpResponse * C) (Wait : C -> option error * C) (url_ok : string -> bool)
        (ParseBINDZone : string -> string -> result (list parsedRR)) (cl : Client).

Lemma artifact_header_values sz :
  let get k := default "" (artifact_headers key keyID sz !! k) in
  let hash := sha256_hex (sz_zoneFile sz) in
  get "ETag" = formatETag hash /\ get "X-Zone-Hash" = hash /\ get "X-Zone-Serial" = Itoa (sz_serial sz)
  /\ (key <> "" -> get "X-Zone-Signature" = signArtifact (sz_zoneFile sz) key /\ get "X-Zone-Signature-Key-ID" = keyID).
Proof.
  cbv zeta. unfold artifact_headers. pose proof (hash8_fst (sz_zoneFile sz)) as Hh.
  destruct (sha256HexAndHash8 (sz_zoneFile sz)) as [hex h8]. cbn [fst] in Hh. subst hex. unfold setArtifactSignatureHeaders.
  generalize (formatETag (sha256_hex (sz_zoneFile sz))) (sha256_hex (sz_zoneFile sz)) (Itoa (sz_serial sz))
    (signArtifact (sz_zoneFile sz) key). intros etag hash serial sig.
  destruct (String.eqb_spec key "") as [->|Hk]; [rewrite !get_header; done|].
  destruct (String.eqb_spec keyID "") as [->|Hid]; cbn [negb]; rewrite !get_header; cbn; rewrite ?lookup_empty; done.
Qed.

(** The agent trusts the controller's key when it verifies signatures. *)
Definition key_agreed : Prop := verifySignatures cl = true ->
  key <> "" /\ artifactSignatureVerificationKey keyID (signatureKey cl) (signatureKeys cl) = Ok key.
Definition body_limit : Z := if maxResponseBytes cl <=? 0 then DefaultControllerClientMaxResponseBytes else maxResponseBytes cl.

(** A response with the artifact's headers. *)
Definition carries (sz : signedZoneResult) (resp : HttpResponse) : Prop :=
  forall k, k ∈ ["ETag"; "X-Zone-Hash"; "X-Zone-Serial"; "X-Zone-Signature"; "X-Zone-Signature-Key-ID"] ->
    Header_Get resp k = default "" (artifact_headers key keyID sz !! k).

Lemma carried sz resp : carries sz resp ->
  let hash := sha256_hex (sz_zoneFile sz) in
  Header_Get resp "ETag" = formatETag hash /\ Header_Get resp "X-Zone-Hash" = hash
  /\ Header_Get resp "X-Zone-Serial" = Itoa (sz_serial sz)
  /\ (key <> "" -> Header_Get resp "X-Zone-Signature" = signArtifact (sz_zoneFile sz) key
                  /\ Header_Get resp "X-Zone-Signature-Key-ID" = keyID).
Proof. intros Hc. cbv zeta. rewrite !Hc by set_solver. apply artifact_header_values. Qed.

Lemma served_body_read resp body : Body resp = body -> BodyErr resp = None -> len body <= body_limit -> body_limit < MaxInt64 ->
  readResponseBody cl resp = Ok body.
Proof.
  intros Hb He Hl Hm. unfold readResponseBody, readLimitedBody, read_limited. fold body_limit. rewrite Hb, He.
  assert (0 < body_limit) by (unfold body_limit, DefaultControllerClientMaxResponseBytes; destruct (Z.leb_spec (maxResponseBytes cl) 0); lia).
  assert (E : i64 (body_limit + 1) = body_limit + 1) by (unfold i64, MaxInt64 in *; rewrite Z.mod_small by lia; lia).
  rewrite E. destruct (Z.leb_spec (body_limit + 1) (len body)); [lia|]. cbn [rbind].
  destruct (Z.ltb_spec body_limit (len body)); [lia|]. done.
Qed.

Lemma full_response_accepts zoneName sz resp : key_agreed -> carries sz resp ->
  Body resp = sz_zoneFile sz -> BodyErr resp = None -> len (sz_zoneFile sz) <= body_limit -> body_limit < MaxInt64 ->
  parseZoneSOASerial ParseBINDZone zoneName (sz_zoneFile sz) = Ok (sz_serial sz) -> in_range 32 (sz_serial sz) ->
  let hash := sha256_hex (sz_zoneFile sz) in
  full_response ParseBINDZone cl zoneName resp
    = Ok (mkArtifact (sz_zoneFile sz) (formatETag hash) (sz_serial sz) hash false).
Proof.
  intros Hkey (He & Hh & Hs & Hsig)%carried Hb Hbe Hl Hm Hp Hr hash. unfold full_response.
  rewrite (served_body_read resp (sz_zoneFile sz)) by done. cbn [rbind wrap]. cbv zeta. rewrite He, Hh, Hs.
  change (formatETag _ =? "")%string with false. cbn [guard_err rbind]. fold hash.
  rewrite checksum_header_ok, EqualFold_refl by apply sha256_digest_ok. cbn [negb guard_err rbind].
  assert (Hver : (if verifySignatures cl then verifyArtifactSignature (sz_zoneFile sz) (Header_Get resp "X-Zone-Signature")
      (Header_Get resp "X-Zone-Signature-Key-ID") (signatureKey cl) (signatureKeys cl) else Ok tt) = Ok tt).
  { destruct (verifySignatures cl) eqn:Hv; [|done]. destruct (Hkey Hv) as [Hk Hagree]. destruct (Hsig Hk) as [-> ->].
    by apply signature_accepted. }
  destruct (verifyChecksums cl); cbn [rbind]; rewrite Hver; cbn [rbind]; rewrite Hp; cbn [wrap rbind];
    rewrite serial_header_round_trip by done; cbn [rbind]; by rewrite Z.eqb_refl.
Qed.

Lemma conditional_tag body : body <> "" ->
  conditionalRequestETag cl (formatETag (sha256_hex body)) body = formatETag (sha256_hex body).
Proof.
  intros Hb. destruct (sha256_digest_ok body) as (Hx & Hl & Hh & Hne). unfold conditionalRequestETag.
  rewrite normalize_format by done. cbv zeta. change (formatETag _ =? "")%string with false.
  destruct (verifySignatures cl); [|done]. cbn [negb]. rewrite (proj2 (String.eqb_neq _ _) Hb).
  rewrite etagValue_format by done. rewrite Hl, Hh, EqualFold_refl. done.
Qed.

Lemma not_modified_accepts sz resp : key_agreed -> carries sz resp -> sz_zoneFile sz <> "" ->
  let etag := formatETag (sha256_hex (sz_zoneFile sz)) in
  not_modified cl etag etag (sz_zoneFile sz) resp = Ok (mkArtifact "" etag 0 "" true).
Proof.
  intros Hkey (He & Hh & _ & Hsig)%carried Hne etag. destruct (sha256_digest_ok (sz_zoneFile sz)) as (Hx & Hl & Hhex & Hn0).
  unfold not_modified, etag. clear etag. cbv zeta. rewrite He, Hh, normalize_format by done.
  change (formatETag _ =? "")%string with false. rewrite String.eqb_refl, etagValue_format by done. cbn [negb guard_err rbind].
  rewrite checksum_header_ok, !EqualFold_refl by done. rewrite (proj2 (String.eqb_neq _ _) Hne). cbn [negb wrap guard_err rbind].
  assert (Hver : (if verifySignatures cl then wrap "invalid signature header in 304 response"
      (verifyArtifactSignature (sz_zoneFile sz) (Header_Get resp "X-Zone-Signature")
      (Header_Get resp "X-Zone-Signature-Key-ID") (signatureKey cl) (signatureKeys cl)) else Ok tt) = Ok tt).
  { destruct (verifySignatures cl) eqn:Hv; [|done]. destruct (Hkey Hv) as [Hk Hagree]. destruct (Hsig Hk) as [-> ->].
    by rewrite signature_accepted. }
  by destruct (verifyChecksums cl); cbn [rbind]; rewrite Hver.
Qed.

(** C21: Controller and agent agree on artifacts: when the agent's requests reach
    the controller's endpoint and the agent trusts the controller's key, a zone
    file the controller serves (not empty, within the size limit, with its own
    serial) is accepted with every check enabled, and fetching it again with the
    recorded entity tag and the local copy is answered and accepted as not
    modified. *)
Theorem served_artifact_accepted (zoneName : string) (sz : signedZoneResult) (c : C) :
  let endpoint := baseURL cl +:+ "/api/v1/zones/" +:+ PathEscape zoneName +:+ "/signed" in
  (forall req c, url req = endpoint -> exists c', Do req c =
     (Ok (http_response render (signed_zone_reply disposition key keyID (hdr_IfNoneMatch req) sz)), c')) ->
  url_ok endpoint = true -> 0 <= RetryAttempts cl -> key_agreed ->
  sz_zoneFile sz <> "" -> len (sz_zoneFile sz) <= body_limit -> body_limit < MaxInt64 ->
  parseZoneSOASerial ParseBINDZone zoneName (sz_zoneFile sz) = Ok (sz_serial sz) -> in_range 32 (sz_serial sz) ->
  let hash := sha256_hex (sz_zoneFile sz) in
  (exists c', fetchSignedZoneArtifact Do Wait url_ok ParseBINDZone cl zoneName "" "" c
     = (Ok (mkArtifact (sz_zoneFile sz) (formatETag hash) (sz_serial sz) hash false), c'))
  /\ (exists c', fetchSignedZoneArtifact Do Wait url_ok ParseBINDZone cl zoneName (formatETag hash) (sz_zoneFile sz) c
     = (Ok (mkArtifact "" (formatETag hash) 0 "" true), c')).
Proof.
  intros endpoint Hserve Hurl Hretry Hkey Hne Hlen Hmax Hparse Hrange hash.
  assert (Hgo : forall req, url req = endpoint -> exists c' resp, doWithRetry Do Wait cl req c = (Ok resp, c')
    /\ resp = http_response render (signed_zone_reply disposition key keyID (hdr_IfNoneMatch req) sz)).
  { intros req Hreq. destruct (Hserve req c Hreq) as [c' Hdo]. exists c'. eexists. split; [|reflexivity]. unfold doWithRetry.
    destruct (Z.to_nat (RetryAttempts cl + 1)) as [|n] eqn:En; [lia|]. cbn [retry_loop]. rewrite Z.ltb_irrefl, Hdo.
    unfold signed_zone_reply. by destruct (_ && _). }
  unfold fetchSignedZoneArtifact. cbv zeta. fold endpoint. rewrite Hurl. cbn [negb]. split.
  - assert (Hn : conditionalRequestETag cl "" "" = "") by done. rewrite Hn.
    destruct (Hgo (mkHttpReq endpoint (apiKey cl) "") eq_refl) as (c' & resp & -> & Hresp). exists c'. f_equal.
    unfold signed_zone_reply in Hresp. cbn [hdr_IfNoneMatch String.eqb negb andb] in Hresp. subst resp.
    apply full_response_accepts; try done. intros k Hk. cbn [http_response Header_Get r_headers]. rewrite !get_header.
    by repeat (apply elem_of_cons in Hk as [->|Hk]; [done|]); apply elem_of_nil in Hk.
  - unfold hash. rewrite conditional_tag by done.
    destruct (Hgo (mkHttpReq endpoint (apiKey cl) (formatETag (sha256_hex (sz_zoneFile sz)))) eq_refl) as (c' & resp & -> & Hresp). exists c'. f_equal.
    unfold signed_zone_reply in Hresp. rewrite hash8_fst in Hresp. cbn [hdr_IfNoneMatch] in Hresp.
    rewrite matches_format in Hresp by apply sha256_digest_ok. subst resp. by apply not_modified_accepts.
Qed.
End protocol.

(** ** A controller and an agent *)
#[local] Existing Instance ascii_tables.
Definition demo_render (_ : reply_body) : string := "{}".
Definition demo_agent : Client := mkClient "https://controller" "" 3 0 true true "" {[ "k1" := "secret" ]}.
Definition demo_signed : signedZoneResult :=
  mkSigned (z_Name example_zone) (z_Version example_zone) (Serial (z_SOA example_zone))
    "example.com. 3600 IN SOA ns1 admin 1 2 3 4 5" (z_DNSSEC example_zone).
Definition demo_network (req : HttpRequest) (c : nat) : result HttpResponse * nat :=
  (Ok (http_response demo_render (signed_zone_reply (fun n => n) "secret" "k1" (hdr_IfNoneMatch req) demo_signed)), (c + 1)%nat).

Lemma served_artifact_accepted_witness :
  let hash := sha256_hex (sz_zoneFile demo_signed) in
  let parse (_ _ : string) := Ok [RR_SOA (Serial (z_SOA example_zone))] in
  let wait (c : nat) : option error * nat := (None, c) in
  (exists c', fetchSignedZoneArtifact demo_network wait (fun _ => true) parse demo_agent "example.com." "" "" 0%nat
     = (Ok (mkArtifact (sz_zoneFile demo_signed) (formatETag hash) (sz_serial demo_signed) hash false), c'))
  /\ (exists c', fetchSignedZoneArtifact demo_network wait (fun _ => true) parse demo_agent "example.com." (formatETag hash)
                   (sz_zoneFile demo_signed) 0%nat
     = (Ok (mkArtifact "" (formatETag hash) 0 "" true), c')).
Proof.
  intros hash parse wait.
  apply (served_artifact_accepted (fun n => n) "secret" "k1" demo_render demo_network wait (fun _ => true) parse
    demo_agent "example.com." demo_signed 0%nat).
  - intros req c _. exists (c + 1)%nat. reflexivity.
  - reflexivity.
  - vm_compute. discriminate.
  - intros _. split; [discriminate|vm_compute; reflexivity].
  - discriminate.
  - vm_compute. discriminate.
  - vm_compute. reflexivity.
  - vm_compute. reflexivity.
  - vm_compute. split; [discriminate|reflexivity].
Defined.
